(* ===== verification/_CoqProject ===== *)
-Q . S2P
Prelude.v
CString.v
Printf.v
Umalloc.v
Grep.v
ShParse.v
ShPrint.v
Sh.v
Spinlock.v
State.v
Kalloc.v
ProcSync.v
Console.v
Pipe.v
Ide.v
Bio.v
Bytes.v
UProg.v
Fib.v
FsBlock.v
Inode.v
Writei.v
Itrunc.v
Mkfs.v
MkfsImage.v
Dir.v
DirMap.v
File.v
Vm.v
Uvm.v
Proc.v
Sched.v
ConsoleDev.v
ConsLine.v
ConsHist.v
Syscall.v
Exec.v
Sysproc.v
Sysfile.v
Trap.v
Calm.v
ProcInv.v
ProcLife.v
Quantum.v
Boot.v
Mp.v
Intr.v
Main.v
Seg.v
