(* ===== verification/Prelude.v ===== *)
(** A verification of a small operating system kernel and its user programs:
    the xv6 teaching kernel for x86 with the changes of an operating systems
    course (system calls wait2 and nice, process priorities, three scheduling
    policies with a quantum, a command history in the console, a PATH in the
    shell).

    * The program

    A trap (trap.c) enters the kernel: a system call is dispatched by
    syscall.c to the handlers of sysproc.c and sysfile.c, a device interrupt
    to its driver, a timer tick to the accounting of the running process.
    Processes (proc.c) are the entries of one table; they are created by fork,
    end in exit, are collected by wait, and share the CPU through scheduler,
    sched, sleep and wakeup.  Their memory is built by vm.c out of the pages
    that kalloc.c hands out.  Files are layered: open files (file.c) over
    pipes (pipe.c), devices (console.c) and inodes; inodes, directories and
    paths (fs.c) over the buffer cache (bio.c) over the disk driver (ide.c).
    spinlock.c protects the shared data.  User programs (sh.c, grep.c and
    others) reach the kernel by system calls and use ulib.c, printf.c and
    umalloc.c.

    * How it is modelled

    - A kernel routine is a function from the kernel state to an outcome (type
      [res] below): it returns, calls panic, gives up the CPU (the state it
      leaves is kept), or makes an access that C gives no meaning to.  [M] is
      the monad of these functions.  The global variables of all kernel files
      are the fields of one record, [kstate] in State.v, with the structs of
      the headers as records and pointers into tables as positions.
    - Machine integers are of type [Z] and wrapped by [u8], [u32] and [s32]
      where C wraps them.
    - Memory is a map from addresses to bytes (CString.v); page tables, free
      lists and heap headers are words of this memory, as the hardware and the
      C code see them.
    - A process that gives up the CPU stops the run of a routine; callers of
      sleep sit in loops that test their condition again, so that resuming is
      running the loop again from the state of that moment.
    - User programs are trees of system calls with a continuation for every
      result (Sh.v, UProg.v), or functions over their memory.
    - C loops are structural recursions where a bound is at hand; otherwise
      they take fuel and running out of it is an outcome of its own.  The
      theorems about such loops state the result, so they show that the fuel
      is enough: four times the length of the line for the shell's parser, the
      length of the input and of the PATH for the shell itself, the
      number of buffers for the disk queue and the buffer ring, the number of
      blocks of the heap for umalloc, the length of the string for the string
      routines, [rounds] (two more than the whole blocks of the range) for readi
      and writei.

    * The files

    - Prelude: outcomes, the monad, tactics, integers and lists.
    - CString: string.c and the string routines of ulib.c.
    - Printf, Umalloc, Grep: printf.c, umalloc.c, grep.c.
    - ShParse, ShPrint, Sh: the parser of sh.c, a printer for its commands
      with the round trip, and the execution of commands.
    - UProg: echo.c, cat.c, wc.c, ls.c, ln.c, rm.c, mkdir.c, kill.c, zombie.c,
      init.c and stat of ulib.c.
    - Fib: fibonacci.c and sanity.c.
    - Spinlock: spinlock.c between CPUs, one memory access at a time.
    - State: constants, structs, global variables, atomic locks.
    - Kalloc: kalloc.c.
    - ProcSync: sched, yield, sleep, wakeup, kill, nice of proc.c.
    - Console: output and input interrupt of console.c, kbd.c, uart.c.
    - ConsoleDev, ConsLine, ConsHist: the console as a device file, its line
      editor, and its history.
    - Pipe: pipe.c.
    - Ide, Bio: ide.c and bio.c; [BlockLaws] (Bio.v) is what the cache promises
      to the file system.
    - Bytes, FsBlock, Inode, Dir: fs.c, from the disk bitmap up to paths.
      [Devsw] (Inode.v) is the interface of device drivers.  Writei and Itrunc
      prove what writing and truncating a file do to the whole file system,
      DirMap that a directory is a map from names to inodes.
    - File: file.c.
    - Vm, Uvm: vm.c, first page tables, then address spaces.
    - Proc, Sched: processes, and the scheduler with its policies.
    - Syscall, Exec, Sysproc, Sysfile, Trap: syscall.c, exec.c, sysproc.c,
      sysfile.c, trap.c.
    - Calm, ProcInv, ProcLife, Quantum: what all kernel routines do to the
      process table, the invariant of the table, exit and wait together, and
      the quantum of the policies.
    - Mkfs, MkfsImage: mkfs.c, which builds the file system image, and the
      image it builds.
    - Boot, Mp, Intr, Seg, Main: the start of the machine.  bootmain.c loads the
      kernel, mp.c finds the processors, lapic.c, ioapic.c, picirq.c and timer.c
      set up interrupts, mmu.h, vm.c and trap.c the descriptor tables, and main.c
      everything else up to the first process.

    * What the theorems show

    - Storage: the free page list is a stack of distinct pages; any client of
      the buffer cache that follows its rules runs as on disks without a cache;
      bget takes the cached buffer or the least recently used idle one; the disk
      queue is served in order; balloc changes one bit of the bitmap, the first free one; readi
      returns the bytes of a file clipped to its size, across direct and
      indirect blocks; writei puts bytes into a file, allocating direct and
      indirect blocks, and readi returns them; itrunc gives every block back,
      and neither loses a block or touches another file; dirlookup and dirlink
      are lookup and insertion of a finite map; inodes survive the trip
      to disk and back; consecutive reads of a file are one read; mkfs writes a
      consistent image, unless the root directory exactly fills a block.
    - Processes: every trap keeps the process table well formed (distinct
      pids, parents alive); fork's copy of memory is a copy, with no page
      shared or lost; allocuvm, deallocuvm and freevm account for every page;
      exit wakes the waiting parent and wait reaps every page of the child; no
      wakeup is lost; the round-robin policy is fair within NPROC choices,
      RR2Q prefers high priorities, FAIR2Q the least ratio, computed in double
      as the code does, over a table that may change during the walk; how long a
      quantum is under every policy.
    - Start: the boot loader puts the segments of the kernel where they belong,
      if no segment's sectors fall on an earlier one, as for the kernel file of
      the repository;
      main ends with the invariants of memory, processes, buffers and inodes and
      with one process, which runs initcode; the processors of the BIOS tables
      are found; interrupts are on for the devices that asked for them; user
      code can enter the kernel only by a system call.
    - Concurrency: the interleaved spin lock code gives mutual exclusion,
      refines atomic locks and panics exactly on misuse; pipes are FIFO queues
      for every interleaving, across the wrap-around of their counters, and leave
      nobody asleep after the transfer they wait for.
    - The user's side: system call arguments are the words and strings of the
      process's own memory; the console is a line editor with a history; the
      shell's parser terminates and reads back what its grammar denotes; a
      session with the shell, for any bytes typed, starts exactly the programs
      its commands denote and changes the directory as it is told; grep
      decides membership in the language of the pattern; malloc and free keep
      the heap; printf prints what its format denotes.

    * Not modelled

    Assembly (bootasm.S, bootother.S, swtch.S, trapasm.S, vectors, initcode.S,
    usys.S) and inline assembly, which are not C, with the loads of control
    registers; what a device does by itself, beyond the answers the routines
    take as parameters; waiting for another processor to start;
    usertests.c, forktest.c and stressfs.c, which are tests; consolebacked.c, an
    earlier console.c that is not built.  Interrupts arrive between kernel routines
    and while a process waits for the disk, not inside a routine, since
    critical sections run with interrupts off; apart from Spinlock.v and the
    sequences of pipe and console operations, kernel routines run one at a
    time. *)

From stdpp Require Export base tactics numbers list gmap strings.
From Stdlib Require Export ZArith Lia.

#[global] Open Scope Z_scope.

(** ** Outcomes of kernel code

    A kernel routine run from a state either returns ([Ok]), calls [panic]
    ([Panic], the C string is kept), gives up the CPU inside [sleep]
    ([Block], with the state it leaves behind), or performs an access C gives
    no meaning to, such as a null or out-of-range pointer ([Fault]). *)
Inductive res (S A : Type) : Type :=
| Ok (a : A) (s : S)
| Panic (msg : string)
| Block (s : S)
| Fault (why : string).

Arguments Ok {S A} a s.
Arguments Panic {S A} msg.
Arguments Block {S A} s.
Arguments Fault {S A} why.

Definition M (S A : Type) : Type := S -> res S A.

Definition kret {S A} (a : A) : M S A := fun s => Ok a s.

Definition kbind {S A B} (m : M S A) (f : A -> M S B) : M S B :=
  fun s =>
    match m s with
    | Ok a s' => f a s'
    | Panic msg => Panic msg
    | Block s' => Block s'
    | Fault why => Fault why
    end.

Definition panic {S A} (msg : string) : M S A := fun _ => Panic msg.
Definition kfault {S A} (why : string) : M S A := fun _ => Fault why.
Definition kget {S A} (f : S -> A) : M S A := fun s => Ok (f s) s.
Definition kmod {S} (f : S -> S) : M S unit := fun s => Ok tt (f s).
Definition klift {S A} (why : string) (o : option A) : M S A :=
  match o with Some a => kret a | None => kfault why end.

Declare Scope kernel_scope.
Delimit Scope kernel_scope with kernel.
Notation "'let*' x ':=' c1 'in' c2" := (kbind c1 (fun x => c2))
  (at level 10, x pattern, c1 at level 200, c2 at level 200,
   format "'[v' 'let*'  x  ':='  c1  'in' '//' c2 ']'") : kernel_scope.
Notation "c1 ;;; c2" := (kbind c1 (fun _ => c2))
  (at level 100, c2 at level 200, right associativity,
   format "'[v' c1  ;;; '//' c2 ']'") : kernel_scope.
#[global] Open Scope kernel_scope.

(** [for x in l do body]: a C [for] loop without [break]. *)
Fixpoint kfor {S A} (l : list A) (body : A -> M S unit) : M S unit :=
  match l with
  | [] => kret tt
  | x :: l' => body x ;;; kfor l' body
  end.

(** ** Machine integers *)

(** [uint] and [int] are 32 bits wide; conversion to either type wraps. *)
Definition u32 (x : Z) : Z := x mod 2 ^ 32.
Definition s32 (x : Z) : Z := (x + 2 ^ 31) mod 2 ^ 32 - 2 ^ 31.
Definition u16 (x : Z) : Z := x mod 2 ^ 16.
Definition s16 (x : Z) : Z := (x + 2 ^ 15) mod 2 ^ 16 - 2 ^ 15.
Definition u8 (x : Z) : Z := x mod 2 ^ 8.

(** [~x] on 32 bits. *)
Definition lnot32 (x : Z) : Z := u32 (Z.lnot x).

(** The bytes of a string literal. *)
Fixpoint str (s : string) : list Z :=
  match s with
  | String.EmptyString => []
  | String.String a s' => Z.of_nat (Ascii.nat_of_ascii a) :: str s'
  end.

(** ** Proof support *)

Create HintDb xv6.

Section outcome_lemmas.
Context {S A B : Type}.
Implicit Types (m : M S A) (f : A -> M S B) (s : S).

Lemma kbind_Ok_inv m f s b s2 :
  kbind m f s = Ok b s2 -> exists a s1, m s = Ok a s1 /\ f a s1 = Ok b s2.
Proof. unfold kbind. destruct (m s); naive_solver. Qed.

Lemma kbind_Ok m f s a s1 : m s = Ok a s1 -> kbind m f s = f a s1.
Proof. unfold kbind. by intros ->. Qed.

Lemma kbind_assoc {C} m f (g : B -> M S C) s :
  kbind (kbind m f) g s = kbind m (fun a => kbind (f a) g) s.
Proof. unfold kbind. by destruct (m s). Qed.
End outcome_lemmas.

(** Peel the binds of a successful run, naming the intermediate states. *)
Ltac kinv_step :=
  match goal with
  | H : kbind _ _ _ = Ok _ _ |- _ =>
      let a := fresh "a" in let s := fresh "s" in let E := fresh "E" in
      apply kbind_Ok_inv in H as (a & s & E & H)
  | H : kret _ _ = Ok _ _ |- _ => unfold kret in H; simplify_eq
  | H : kget _ _ = Ok _ _ |- _ => unfold kget in H; simplify_eq
  | H : kmod _ _ = Ok _ _ |- _ => unfold kmod in H; simplify_eq
  | H : panic _ _ = Ok _ _ |- _ => discriminate H
  | H : kfault _ _ = Ok _ _ |- _ => discriminate H
  | H : klift _ ?o _ = Ok _ _ |- _ =>
      let E := fresh "E" in destruct o eqn:E; cbn [klift] in H
  end.
Ltac kinv := repeat (kinv_step; simpl in * |-).

(** Run the first statement of a sequence by the lemma or tactic given. *)
Tactic Notation "kexec" uconstr(lem) := erewrite kbind_Ok; [|first [eapply lem | apply lem]; try done].
Tactic Notation "kexec" "by" tactic3(tac) := erewrite kbind_Ok; [|solve [tac]].

(** Unfold the monad and reduce. *)
Ltac krun := unfold kbind, kret, kget, kmod, panic, kfault, klift in *; simpl.

Section loop_lemmas.
Context {S A : Type}.

(** Loop rule: a state predicate kept by the body is kept by the loop. *)
Lemma kfor_inv (P : S -> Prop) (l : list A) (body : A -> M S unit) s s' :
  (forall x s1 s2, x ∈ l -> P s1 -> body x s1 = Ok tt s2 -> P s2) ->
  P s -> kfor l body s = Ok tt s' -> P s'.
Proof.
  revert s. induction l as [|x l IH]; intros s Hb Hs H; simpl in H; kinv; [done|].
  destruct a. eapply (IH s0); [|eapply Hb, E; [left | done] | done].
  intros y s1 s2 ?. apply Hb. by right.
Qed.

(** The loop succeeds when every body run does. *)
Lemma kfor_total (P : S -> Prop) (l : list A) (body : A -> M S unit) s :
  (forall x s1, x ∈ l -> P s1 -> exists s2, body x s1 = Ok tt s2 /\ P s2) ->
  P s -> exists s', kfor l body s = Ok tt s' /\ P s'.
Proof.
  revert s. induction l as [|x l IH]; intros s Hb Hs; simpl; [by exists s|].
  destruct (Hb x s) as (s2 & E & ?); [left|done|].
  destruct (IH s2) as (s' & E' & ?); [|done|].
  { intros y s1 ?. apply Hb. by right. }
  exists s'. split; [|done]. by rewrite (kbind_Ok _ _ _ _ _ E).
Qed.
End loop_lemmas.

(** A loop over a range keeps an invariant on its index. *)
Lemma kfor_seq {S : Type} (P : nat -> S -> Prop) (body : nat -> M S unit) a n s :
  (forall k s, (a <= k < a + n)%nat -> P k s -> exists s', body k s = Ok tt s' /\ P (k + 1)%nat s') ->
  P a s -> exists s', kfor (seq a n) body s = Ok tt s' /\ P (a + n)%nat s'.
Proof.
  revert a s. induction n as [|n IH]; intros a s Hstep Ha; cbn [seq kfor].
  - exists s. rewrite Nat.add_0_r. done.
  - destruct (Hstep a s ltac:(lia) Ha) as (s1 & E & H1). kexec by (exact E).
    rewrite Nat.add_1_r in H1. destruct (IH (Datatypes.S a) s1) as (s2 & E2 & H2); [|done|].
    + intros k t Hk. apply Hstep. lia.
    + exists s2. by replace (a + Datatypes.S n)%nat with (Datatypes.S a + n)%nat by lia.
Qed.

(** Lemmas on 32-bit arithmetic. *)
Lemma u32_range x : 0 <= u32 x < 2 ^ 32.
Proof. apply Z.mod_pos_bound. lia. Qed.

Lemma u32_small x : 0 <= x < 2 ^ 32 -> u32 x = x.
Proof. apply Z.mod_small. Qed.

Lemma u32_idemp x : u32 (u32 x) = u32 x.
Proof. apply u32_small, u32_range. Qed.

Lemma u32_add_l x y : u32 (u32 x + y) = u32 (x + y).
Proof. apply Zplus_mod_idemp_l. Qed.

Lemma u32_add_r x y : u32 (x + u32 y) = u32 (x + y).
Proof. apply Zplus_mod_idemp_r. Qed.

Lemma u32_sub_l x y : u32 (u32 x - y) = u32 (x - y).
Proof. apply Zminus_mod_idemp_l. Qed.

Lemma u32_sub_r x y : u32 (x - u32 y) = u32 (x - y).
Proof. apply Zminus_mod_idemp_r. Qed.

(** A power-of-two divisor of [2^32] sees through the wrap. *)
Lemma u32_mod_pow2 x k : 0 <= k <= 32 -> u32 x mod 2 ^ k = x mod 2 ^ k.
Proof.
  intros. apply Z.mod_mod_divide.
  exists (2 ^ (32 - k)). rewrite <- Z.pow_add_r by lia. f_equal. lia.
Qed.

Lemma s32_small x : - 2 ^ 31 <= x < 2 ^ 31 -> s32 x = x.
Proof. intros. unfold s32. rewrite Z.mod_small; lia. Qed.

Lemma s32_range x : - 2 ^ 31 <= s32 x < 2 ^ 31.
Proof. unfold s32. pose proof (Z.mod_pos_bound (x + 2 ^ 31) (2 ^ 32)). lia. Qed.

Lemma u32_s32 x : u32 (s32 x) = u32 x.
Proof.
  unfold u32, s32. rewrite Zminus_mod_idemp_l. f_equal. lia.
Qed.

Lemma s32_u32 x : s32 (u32 x) = s32 x.
Proof. unfold u32, s32. by rewrite Zplus_mod_idemp_l. Qed.

Lemma s32_add_l x y : s32 (s32 x + y) = s32 (x + y).
Proof.
  unfold s32. f_equal.
  replace ((x + 2 ^ 31) mod 2 ^ 32 - 2 ^ 31 + y + 2 ^ 31)
    with ((x + 2 ^ 31) mod 2 ^ 32 + y) by lia.
  rewrite Zplus_mod_idemp_l. f_equal. lia.
Qed.

#[export] Hint Rewrite u32_idemp u32_add_l u32_add_r u32_sub_l u32_sub_r : xv6.

(** List facts shared by the tables. *)
Section list_lemmas.
Context {A : Type}.
Implicit Types l : list A.

Lemma list_lookup_alter_inv (f : A -> A) l i j x :
  alter f i l !! j = Some x ->
  (i = j /\ exists y, l !! j = Some y /\ x = f y) \/ (i <> j /\ l !! j = Some x).
Proof.
  destruct (decide (i = j)) as [->|].
  - rewrite list_lookup_alter_eq. destruct (l !! j); simpl; naive_solver.
  - rewrite list_lookup_alter_ne by done. auto.
Qed.

Lemma rev_lookup_lt l i : (i < length l)%nat -> rev l !! i = l !! (length l - S i)%nat.
Proof. intros. rewrite rev_alt. by apply (reverse_lookup l i). Qed.

Lemma list_find_None_lookup (P : A -> Prop) `{!forall x, Decision (P x)} l i x :
  list_find P l = None -> l !! i = Some x -> ~ P x.
Proof.
  intros Hn Hi. apply list_find_None in Hn.
  rewrite Forall_lookup in Hn. eauto.
Qed.
End list_lemmas.
