(* ===== verification/CString.v ===== *)
(** Memory and strings: string.c (kernel) and the string part of ulib.c.

    Memory is a finite map from addresses to bytes; a byte never written reads
    as 0.  The routines below are the C loops over that memory, pointers being
    addresses; loops that run until a NUL byte take fuel and return [None] when
    it runs out, and their theorems say that a terminated string leaves enough
    fuel.  Objects are assumed not to wrap around the end of the address
    space, as in C. *)

From S2P Require Import Prelude.

(** ** Bytes and words in memory *)

Abbreviation mem := (gmap Z Z).

Definition load8 (m : mem) (a : Z) : Z := u8 (default 0 (m !! a)).
Definition store8 (a v : Z) (m : mem) : mem := <[a := u8 v]> m.

Definition load32 (m : mem) (a : Z) : Z :=
  load8 m a + load8 m (a + 1) * 2 ^ 8 + load8 m (a + 2) * 2 ^ 16
  + load8 m (a + 3) * 2 ^ 24.
Definition store32 (a v : Z) (m : mem) : mem :=
  store8 (a + 3) (v / 2 ^ 24) (store8 (a + 2) (v / 2 ^ 16)
    (store8 (a + 1) (v / 2 ^ 8) (store8 a v m))).

(** The [n] bytes from [a] on. *)
Fixpoint bytes_at (m : mem) (a : Z) (n : nat) : list Z :=
  match n with
  | O => []
  | S n' => load8 m a :: bytes_at m (a + 1) n'
  end.

(** Put a list of bytes at [a]. *)
Fixpoint put_bytes (a : Z) (l : list Z) (m : mem) : mem :=
  match l with
  | [] => m
  | x :: l' => put_bytes (a + 1) l' (store8 a x m)
  end.

(** ** string.c *)

(** [memset], by [rep stosb]. *)
Fixpoint stosb (a c : Z) (n : nat) (m : mem) : mem :=
  match n with
  | O => m
  | S n' => stosb (a + 1) c n' (store8 a c m)
  end.
Definition memset (dst c n : Z) (m : mem) : mem := stosb dst c (Z.to_nat n) m.

Fixpoint memcmp_loop (m : mem) (s1 s2 : Z) (n : nat) : Z :=
  match n with
  | O => 0
  | S n' =>
      if load8 m s1 =? load8 m s2 then memcmp_loop m (s1 + 1) (s2 + 1) n'
      else load8 m s1 - load8 m s2
  end.
Definition memcmp (m : mem) (v1 v2 n : Z) : Z := memcmp_loop m v1 v2 (Z.to_nat n).

(** [while(n-- > 0) *--d = *--s;] *)
Fixpoint copy_down (d s : Z) (n : nat) (m : mem) : mem :=
  match n with
  | O => m
  | S n' => copy_down (d - 1) (s - 1) n' (store8 (d - 1) (load8 m (s - 1)) m)
  end.

(** [while(n-- > 0) *d++ = *s++;] *)
Fixpoint copy_up (d s : Z) (n : nat) (m : mem) : mem :=
  match n with
  | O => m
  | S n' => copy_up (d + 1) (s + 1) n' (store8 d (load8 m s) m)
  end.

Definition memmove (dst src n : Z) (m : mem) : mem :=
  if (src <? dst) && (src + n >? dst)
  then copy_down (dst + n) (src + n) (Z.to_nat n) m
  else copy_up dst src (Z.to_nat n) m.

Fixpoint strncmp_loop (m : mem) (p q : Z) (n : nat) : Z :=
  match n with
  | O => 0
  | S n' =>
      if negb (load8 m p =? 0) && (load8 m p =? load8 m q)
      then strncmp_loop m (p + 1) (q + 1) n'
      else load8 m p - load8 m q
  end.
Definition strncmp (m : mem) (p q n : Z) : Z := strncmp_loop m p q (Z.to_nat n).

(** The first loop of [strncpy] copies up to and including a NUL; what is
    left of [n] is then filled with zeros. *)
Fixpoint strncpy_loop (s t : Z) (n : nat) (m : mem) : mem :=
  match n with
  | O => m
  | S n' =>
      let c := load8 m t in
      let m' := store8 s c m in
      if c =? 0 then stosb (s + 1) 0 n' m' else strncpy_loop (s + 1) (t + 1) n' m'
  end.
Definition strncpy (s t n : Z) (m : mem) : mem := strncpy_loop s t (Z.to_nat n) m.

(** [k] is the value of [n - 1], the number of bytes that may still be copied
    before the final [*s = 0]. *)
Fixpoint safestrcpy_loop (s t : Z) (k : nat) (m : mem) : mem :=
  match k with
  | O => store8 s 0 m
  | S k' =>
      let c := load8 m t in
      let m' := store8 s c m in
      if c =? 0 then store8 (s + 1) 0 m' else safestrcpy_loop (s + 1) (t + 1) k' m'
  end.
Definition safestrcpy (s t n : Z) (m : mem) : mem :=
  if n <=? 0 then m else safestrcpy_loop s t (Z.to_nat (n - 1)) m.

Fixpoint strlen_loop (fuel : nat) (m : mem) (s n : Z) : option Z :=
  match fuel with
  | O => None
  | S f => if load8 m (s + n) =? 0 then Some n else strlen_loop f m s (n + 1)
  end.
Definition strlen (fuel : nat) (m : mem) (s : Z) : option Z := strlen_loop fuel m s 0.

Arguments load8 : simpl never.
Arguments store8 : simpl never.
Arguments load32 : simpl never.
Arguments store32 : simpl never.
Arguments memset : simpl never.
Arguments memmove : simpl never.

(** ** ulib.c *)

Fixpoint strcpy (fuel : nat) (s t : Z) (m : mem) : option mem :=
  match fuel with
  | O => None
  | S f =>
      let c := load8 m t in
      let m' := store8 s c m in
      if c =? 0 then Some m' else strcpy f (s + 1) (t + 1) m'
  end.

Fixpoint strcmp (fuel : nat) (m : mem) (p q : Z) : option Z :=
  match fuel with
  | O => None
  | S f =>
      if negb (load8 m p =? 0) && (load8 m p =? load8 m q)
      then strcmp f m (p + 1) (q + 1)
      else Some (load8 m p - load8 m q)
  end.

(** A null result is [Some 0]. *)
Fixpoint strchr (fuel : nat) (m : mem) (s c : Z) : option Z :=
  match fuel with
  | O => None
  | S f =>
      if load8 m s =? 0 then Some 0
      else if load8 m s =? c then Some s else strchr f m (s + 1) c
  end.

(** [n = n*10 + *s++ - '0'] in [int] arithmetic. *)
Fixpoint atoi_loop (fuel : nat) (m : mem) (s n : Z) : option Z :=
  match fuel with
  | O => None
  | S f =>
      let c := load8 m s in
      if (48 <=? c) && (c <=? 57)
      then atoi_loop f m (s + 1) (s32 (s32 (s32 (n * 10) + c) - 48))
      else Some n
  end.
Definition atoi (fuel : nat) (m : mem) (s : Z) : option Z := atoi_loop fuel m s 0.

(** The user library's [memmove] only copies upwards. *)
Definition umemmove (dst src n : Z) (m : mem) : mem := copy_up dst src (Z.to_nat n) m.

(** [for(i = 0, j = strlen(s)-1; i<j; i++, j--)]: swap ends. *)
Fixpoint reverse_loop (fuel : nat) (s i j : Z) (m : mem) : mem :=
  match fuel with
  | O => m
  | S f =>
      if i <? j then
        let ci := load8 m (s + i) in
        let cj := load8 m (s + j) in
        reverse_loop f s (i + 1) (j - 1) (store8 (s + j) ci (store8 (s + i) cj m))
      else m
  end.
Definition reverse (fuel : nat) (s : Z) (m : mem) : option mem :=
  match strlen fuel m s with
  | Some n => Some (reverse_loop fuel s 0 (n - 1) m)
  | None => None
  end.

(** The digit loop of [itoa]: [n % 10] and [n / 10] truncate towards zero. *)
Fixpoint itoa_digits (fuel : nat) (n s i : Z) (m : mem) : option (Z * mem) :=
  match fuel with
  | O => None
  | S f =>
      let m' := store8 (s + i) (Z.rem n 10 + 48) m in
      let n' := Z.quot n 10 in
      if n' >? 0 then itoa_digits f n' s (i + 1) m' else Some (i + 1, m')
  end.
Definition itoa (fuel : nat) (n s : Z) (m : mem) : option mem :=
  let n1 := if n <? 0 then s32 (- n) else n in
  match itoa_digits fuel n1 s 0 m with
  | None => None
  | Some (i, m1) =>
      let '(i2, m2) := if n <? 0 then (i + 1, store8 (s + i) 45 m1) else (i, m1) in
      reverse fuel s (store8 (s + i2) 0 m2)
  end.

Fixpoint strcat_loop (fuel : nat) (dest src i j : Z) (m : mem) : option mem :=
  match fuel with
  | O => None
  | S f =>
      if load8 m (src + j) =? 0 then Some (store8 (dest + (i + j)) 0 m)
      else strcat_loop f dest src i (j + 1)
             (store8 (dest + (i + j)) (load8 m (src + j)) m)
  end.
Definition strcat (fuel : nat) (dest src : Z) (m : mem) : option mem :=
  match strlen fuel m dest with
  | Some i => strcat_loop fuel dest src i 0 m
  | None => None
  end.

(** ** What is in memory *)

(** [cstr m s l]: a NUL-terminated string with the characters [l] at [s]. *)
Fixpoint cstr (m : mem) (s : Z) (l : list Z) : Prop :=
  match l with
  | [] => load8 m s = 0
  | c :: l' => load8 m s = c /\ c <> 0 /\ cstr m (s + 1) l'
  end.

(** ** Lemmas on loads and stores *)

Lemma u8_range x : 0 <= u8 x < 256.
Proof. apply (Z.mod_pos_bound x (2 ^ 8)). lia. Qed.

Lemma u8_small x : 0 <= x < 256 -> u8 x = x.
Proof. apply Z.mod_small. Qed.

Lemma load8_range m a : 0 <= load8 m a < 256.
Proof. apply u8_range. Qed.

Lemma load8_store8 a v m b :
  load8 (store8 a v m) b = if a =? b then u8 v else load8 m b.
Proof.
  unfold load8, store8. destruct (Z.eqb_spec a b) as [->|].
  - rewrite lookup_insert_eq. simpl. apply u8_small, u8_range.
  - by rewrite lookup_insert_ne.
Qed.

Lemma u8_load8 m a : u8 (load8 m a) = load8 m a.
Proof. apply u8_small, load8_range. Qed.

#[export] Hint Rewrite load8_store8 u8_load8 : mem.

(** Decide the byte tests a goal contains. *)
Ltac zcases :=
  repeat match goal with
  | |- context [Z.eqb ?a ?b] => destruct (Z.eqb_spec a b); simpl; try lia
  | |- context [Z.leb ?a ?b] => destruct (Z.leb_spec a b); simpl; try lia
  | |- context [Z.ltb ?a ?b] => destruct (Z.ltb_spec a b); simpl; try lia
  end.
Ltac memcases := autorewrite with mem; zcases.

Lemma load32_range m a : 0 <= load32 m a < 2 ^ 32.
Proof.
  unfold load32. pose proof (load8_range m a). pose proof (load8_range m (a + 1)).
  pose proof (load8_range m (a + 2)). pose proof (load8_range m (a + 3)). lia.
Qed.

Lemma load32_store32 a v m : load32 (store32 a v m) a = u32 v.
Proof.
  unfold load32, store32. autorewrite with mem.
  rewrite !Z.eqb_refl.
  rewrite !(proj2 (Z.eqb_neq _ _)) by lia. unfold u8, u32. Z.to_euclidean_division_equations. lia.
Qed.

Lemma load8_store32_ne a v m b :
  b < a \/ a + 4 <= b -> load8 (store32 a v m) b = load8 m b.
Proof.
  intros. unfold store32. autorewrite with mem.
  by rewrite !(proj2 (Z.eqb_neq _ _)) by lia.
Qed.

Lemma load32_store32_ne a v m b :
  b + 4 <= a \/ a + 4 <= b -> load32 (store32 a v m) b = load32 m b.
Proof. intros. unfold load32. by rewrite !load8_store32_ne by lia. Qed.

Lemma load8_stosb a c n m b :
  load8 (stosb a c n m) b
  = if (a <=? b) && (b <? a + Z.of_nat n) then u8 c else load8 m b.
Proof.
  revert a m. induction n as [|n IH]; intros a m; simpl stosb.
  - destruct (Z.leb_spec a b); destruct (Z.ltb_spec b (a + Z.of_nat 0)); simpl; done || lia.
  - rewrite IH, load8_store8. zcases; done.
Qed.

Lemma load8_memset dst c n m b :
  0 <= n ->
  load8 (memset dst c n m) b
  = if (dst <=? b) && (b <? dst + n) then u8 c else load8 m b.
Proof. intros. unfold memset. rewrite load8_stosb, Z2Nat.id by done. done. Qed.

Lemma load32_memset0 dst n m b :
  0 <= n -> dst <= b -> b + 4 <= dst + n -> load32 (memset dst 0 n m) b = 0.
Proof.
  intros. unfold load32. rewrite !load8_memset by done.
  by rewrite !(proj2 (Z.leb_le _ _)), !(proj2 (Z.ltb_lt _ _)) by lia.
Qed.

Lemma load32_memset_ne dst c n m b :
  0 <= n -> b + 4 <= dst \/ dst + n <= b -> load32 (memset dst c n m) b = load32 m b.
Proof.
  intros. unfold load32. rewrite !load8_memset by done. zcases; done.
Qed.

Lemma load8_copy_up d s n m b :
  (d <= s \/ s + Z.of_nat n <= d) ->
  load8 (copy_up d s n m) b
  = if (d <=? b) && (b <? d + Z.of_nat n) then load8 m (s + (b - d)) else load8 m b.
Proof.
  revert d s m. induction n as [|n IH]; intros d s m Hd; simpl copy_up.
  - destruct (Z.leb_spec d b); destruct (Z.ltb_spec b (d + Z.of_nat 0)); simpl; done || lia.
  - rewrite IH by lia. rewrite !load8_store8, u8_load8.
    zcases; try done; f_equal; lia.
Qed.

Lemma load8_copy_down d s n m b :
  s <= d ->
  load8 (copy_down d s n m) b
  = if (d - Z.of_nat n <=? b) && (b <? d) then load8 m (s + (b - d)) else load8 m b.
Proof.
  revert d s m. induction n as [|n IH]; intros d s m Hd; simpl copy_down.
  - destruct (Z.leb_spec (d - Z.of_nat 0) b); destruct (Z.ltb_spec b d); simpl; done || lia.
  - rewrite IH by lia. rewrite !load8_store8, u8_load8.
    zcases; try done; f_equal; lia.
Qed.

Lemma load8_memmove m dst src n b :
  0 <= n ->
  load8 (memmove dst src n m) b
  = if (dst <=? b) && (b <? dst + n) then load8 m (src + (b - dst)) else load8 m b.
Proof.
  intros Hn. unfold memmove.
  destruct (Z.ltb_spec src dst); destruct (Z.gtb_spec (src + n) dst); simpl.
  - rewrite load8_copy_down by lia. zcases; try done; f_equal; lia.
  - rewrite load8_copy_up by lia. zcases; done.
  - rewrite load8_copy_up by lia. zcases; done.
  - rewrite load8_copy_up by lia. zcases; done.
Qed.

Lemma bytes_at_length m a n : length (bytes_at m a n) = n.
Proof. revert a. induction n; intros; simpl; auto. Qed.

Lemma bytes_at_lookup m a n i :
  (i < n)%nat -> bytes_at m a n !! i = Some (load8 m (a + Z.of_nat i)).
Proof.
  revert a i. induction n as [|n IH]; intros a i Hi; [lia|]. destruct i as [|i]; simpl.
  - by rewrite Z.add_0_r.
  - rewrite IH by lia. do 2 f_equal. lia.
Qed.

Lemma bytes_at_ext m m' a a' n :
  (forall i, 0 <= i < Z.of_nat n -> load8 m (a + i) = load8 m' (a' + i)) ->
  bytes_at m a n = bytes_at m' a' n.
Proof.
  revert a a'. induction n as [|n IH]; intros a a' H; [done|]. simpl. f_equal.
  - specialize (H 0). rewrite !Z.add_0_r in H. apply H. lia.
  - apply IH. intros i Hi. rewrite <- !Z.add_assoc. apply H. lia.
Qed.

Lemma bytes_at_app m a n k :
  bytes_at m a (n + k) = bytes_at m a n ++ bytes_at m (a + Z.of_nat n) k.
Proof.
  revert a. induction n as [|n IH]; intros a; simpl.
  - by rewrite Z.add_0_r.
  - rewrite IH. do 3 f_equal. lia.
Qed.

(** ** Strings as lists of bytes

    The same loops on the bytes themselves, for callers that hold a buffer as
    a list; a byte past the end of the list reads as NUL. *)

(** The bytes of [l] before the first NUL, at most [n] of them. *)
Fixpoint upto_nul (l : list Z) (n : nat) {struct n} : list Z :=
  match n, l with
  | S n', c :: l' => if c =? 0 then [] else c :: upto_nul l' n'
  | _, _ => []
  end.

Fixpoint strncmp_list (p q : list Z) (n : nat) : Z :=
  match n with
  | O => 0
  | S n' =>
      let c := default 0 (head p) in
      let d := default 0 (head q) in
      if negb (c =? 0) && (c =? d) then strncmp_list (tail p) (tail q) n' else c - d
  end.

(** The [n] bytes [strncpy] leaves in the destination. *)
Definition strncpy_list (t : list Z) (n : nat) : list Z :=
  let l := upto_nul t n in l ++ replicate (n - length l) 0.

Lemma strncmp_loop_list m p q n :
  strncmp_loop m p q n = strncmp_list (bytes_at m p n) (bytes_at m q n) n.
Proof.
  revert p q. induction n as [|n IH]; intros p q; [done|].
  simpl. by rewrite IH.
Qed.

Lemma strncmp_list_zero (p q : list Z) n :
  strncmp_list p q n = 0 <-> upto_nul p n = upto_nul q n.
Proof.
  revert p q. induction n as [|n IH]; intros p q; [done|].
  destruct p as [|c p], q as [|d q]; simpl; zcases; subst; rewrite ?IH;
    split; intros; simplify_eq; try done; try lia; try congruence.
Qed.

Lemma upto_nul_length l n : (length (upto_nul l n) <= n)%nat.
Proof.
  revert l. induction n as [|n IH]; intros [|c l]; simpl; try lia.
  destruct (c =? 0); simpl; [lia|]. specialize (IH l). lia.
Qed.

Lemma upto_nul_nonzero l n : Forall (fun c => c <> 0) (upto_nul l n).
Proof.
  revert l. induction n as [|n IH]; intros [|c l]; simpl; try constructor.
  destruct (Z.eqb_spec c 0); constructor; auto.
Qed.

Lemma upto_nul_app l k n :
  Forall (fun c => c <> 0) l -> (length l <= n)%nat ->
  upto_nul (l ++ replicate k 0) n = l.
Proof.
  intros Hl. revert n. induction Hl as [|c l Hc Hl IH]; intros n Hn.
  - by destruct k, n.
  - destruct n as [|n]; simpl in *; [lia|].
    destruct (Z.eqb_spec c 0); [done|]. f_equal. apply IH. lia.
Qed.

Lemma strncpy_list_length t n : length (strncpy_list t n) = n.
Proof.
  unfold strncpy_list. rewrite length_app, length_replicate.
  pose proof (upto_nul_length t n). lia.
Qed.

Lemma upto_nul_strncpy_list t n : upto_nul (strncpy_list t n) n = upto_nul t n.
Proof.
  apply upto_nul_app; [apply upto_nul_nonzero | apply upto_nul_length].
Qed.

(** ** Lemmas on the string routines *)

Lemma bytes_at_stosb0 a n m : bytes_at (stosb a 0 n m) a n = replicate n 0.
Proof.
  revert a m. induction n as [|n IH]; intros a m; simpl; [done|].
  rewrite load8_stosb, load8_store8, IH. zcases; done.
Qed.

Lemma load8_strncpy_loop_frame s t n m b :
  b < s \/ s + Z.of_nat n <= b -> load8 (strncpy_loop s t n m) b = load8 m b.
Proof.
  revert s t m. induction n as [|n IH]; intros s t m Hb; simpl; [done|].
  destruct (load8 m t =? 0).
  - rewrite load8_stosb, load8_store8. zcases; done.
  - rewrite IH, load8_store8 by lia. zcases; done.
Qed.

Lemma strncpy_loop_bytes s t n m :
  s + Z.of_nat n <= t \/ t + Z.of_nat n <= s ->
  bytes_at (strncpy_loop s t n m) s n = strncpy_list (bytes_at m t n) n.
Proof.
  revert s t m. induction n as [|n IH]; intros s t m Hd; [done|].
  unfold strncpy_list. simpl. destruct (Z.eqb_spec (load8 m t) 0) as [E|E]; simpl.
  - rewrite load8_stosb, load8_store8, bytes_at_stosb0, E. zcases; done.
  - rewrite load8_strncpy_loop_frame, load8_store8, Z.eqb_refl, u8_load8 by lia.
    f_equal. rewrite IH by lia. unfold strncpy_list.
    replace (bytes_at (store8 s (load8 m t) m) (t + 1) n) with (bytes_at m (t + 1) n); [done|].
    apply bytes_at_ext. intros i Hi. rewrite load8_store8. zcases; done.
Qed.

Lemma cstr_ext m m' s l :
  (forall i, 0 <= i <= Z.of_nat (length l) -> load8 m (s + i) = load8 m' (s + i)) ->
  cstr m s l -> cstr m' s l.
Proof.
  revert s. induction l as [|c l IH]; intros s H; simpl.
  - specialize (H 0). rewrite Z.add_0_r in H. intros <-. symmetry. apply H. simpl; lia.
  - intros (Hc & Hn & Hl). simpl length in H. split; [|split; [done|]].
    + rewrite <- Hc. specialize (H 0). rewrite Z.add_0_r in H. symmetry. apply H. lia.
    + apply IH; [|done]. intros i Hi. rewrite <- !Z.add_assoc. apply H. lia.
Qed.

Lemma load8_safestrcpy_loop_frame s t k m b :
  b < s \/ s + Z.of_nat k < b -> load8 (safestrcpy_loop s t k m) b = load8 m b.
Proof.
  revert s t m. induction k as [|k IH]; intros s t m Hb; simpl.
  - rewrite load8_store8. zcases; done.
  - destruct (load8 m t =? 0); [|rewrite IH by lia]; memcases; done.
Qed.

Lemma safestrcpy_loop_cstr s t k m :
  s + Z.of_nat k < t \/ t + Z.of_nat k <= s ->
  cstr (safestrcpy_loop s t k m) s (upto_nul (bytes_at m t k) k).
Proof.
  revert s t m. induction k as [|k IH]; intros s t m Hd; simpl.
  - by rewrite load8_store8, Z.eqb_refl.
  - destruct (Z.eqb_spec (load8 m t) 0) as [E|E]; simpl.
    + memcases; done.
    + split; [|split; [done|]].
      * rewrite load8_safestrcpy_loop_frame by lia. memcases; done.
      * replace (bytes_at m (t + 1) k)
          with (bytes_at (store8 s (load8 m t) m) (t + 1) k); [apply IH; lia|].
        apply bytes_at_ext. intros i Hi. memcases; done.
Qed.

Lemma strlen_loop_cstr fuel m s n l :
  cstr m (s + n) l -> (length l < fuel)%nat ->
  strlen_loop fuel m s n = Some (n + Z.of_nat (length l)).
Proof.
  revert n l. induction fuel as [|f IH]; intros n l Hl Hf; [lia|]. simpl.
  destruct l as [|c l]; simpl in *.
  - rewrite Hl. simpl. f_equal. lia.
  - destruct Hl as (E & Hc & Hl). destruct (Z.eqb_spec (load8 m (s + n)) 0); [lia|].
    rewrite (IH _ l); [f_equal; lia| |lia]. by rewrite Z.add_assoc.
Qed.

Lemma load8_reverse_loop f s i j m b :
  j - i < 2 * Z.of_nat f ->
  load8 (reverse_loop f s i j m) b
  = if (s + i <=? b) && (b <=? s + j) then load8 m (s + i + (s + j - b)) else load8 m b.
Proof.
  revert i j m. induction f as [|f IH]; intros i j m Hf; simpl.
  - zcases; try done; f_equal; lia.
  - destruct (Z.ltb_spec i j) as [Hij|Hij].
    + rewrite IH by lia. rewrite !load8_store8, !u8_load8.
      zcases; try done; f_equal; lia.
    + zcases; try done; f_equal; lia.
Qed.

(** A string in memory, character by character. *)
Lemma cstr_lookup m s l :
  cstr m s l <->
  (forall i c, l !! i = Some c -> load8 m (s + Z.of_nat i) = c /\ c <> 0)
  /\ load8 m (s + Z.of_nat (length l)) = 0.
Proof.
  revert s. induction l as [|x l IH]; intros s; simpl.
  - rewrite Z.add_0_r. naive_solver.
  - rewrite IH. replace (s + Z.of_nat (S (length l))) with (s + 1 + Z.of_nat (length l)) by lia.
    split.
    + intros (Hx & Hn & Hl & H0). split; [|done]. intros [|i] c Hc; simpl in Hc.
      * simplify_eq. by rewrite Z.add_0_r.
      * replace (s + Z.of_nat (S i)) with (s + 1 + Z.of_nat i) by lia. auto.
    + intros (Hl & H0). split_and!; [..|done].
      * specialize (Hl 0%nat x eq_refl). rewrite Z.add_0_r in Hl. tauto.
      * by apply (Hl 0%nat x).
      * intros i c Hc. replace (s + 1 + Z.of_nat i) with (s + Z.of_nat (S i)) by lia.
        by apply (Hl (S i)).
Qed.

Lemma reverse_cstr fuel s m l :
  cstr m s l -> (length l < fuel)%nat ->
  exists m', reverse fuel s m = Some m' /\ cstr m' s (rev l) /\
    (forall b, b < s \/ s + Z.of_nat (length l) <= b -> load8 m' b = load8 m b).
Proof.
  intros Hl Hf. unfold reverse, strlen.
  rewrite (strlen_loop_cstr _ _ _ 0 l); [|by rewrite Z.add_0_r|done].
  eexists. split; [done|]. rewrite Z.add_0_l. apply cstr_lookup in Hl as [Hl H0].
  split; [|intros b Hb; rewrite load8_reverse_loop by lia; zcases; done].
  apply cstr_lookup. rewrite length_rev. split.
  - intros i c Hc. rewrite load8_reverse_loop by lia.
    assert (i < length l)%nat by (apply lookup_lt_Some in Hc; by rewrite length_rev in Hc).
    rewrite rev_lookup_lt in Hc by done. zcases.
    replace (s + 0 + (s + (Z.of_nat (length l) - 1) - (s + Z.of_nat i)))
      with (s + Z.of_nat (length l - S i)%nat) by lia. auto.
  - rewrite load8_reverse_loop by lia. zcases; done.
Qed.

Lemma load8_put_bytes_frame a l m b :
  b < a \/ a + Z.of_nat (length l) <= b -> load8 (put_bytes a l m) b = load8 m b.
Proof.
  revert a m. induction l as [|x l IH]; intros a m Hb; simpl in *; [done|].
  rewrite IH, load8_store8 by lia. zcases; done.
Qed.

Lemma load8_put_bytes a l m i c :
  l !! i = Some c -> load8 (put_bytes a l m) (a + Z.of_nat i) = u8 c.
Proof.
  revert a m i. induction l as [|x l IH]; intros a m i Hi; [done|]. destruct i as [|i]; simpl in *.
  - simplify_eq. rewrite load8_put_bytes_frame, load8_store8 by lia. zcases; done.
  - replace (a + Z.of_nat (S i)) with (a + 1 + Z.of_nat i) by lia. auto.
Qed.

Lemma put_bytes_app a l k m :
  put_bytes a (l ++ k) m = put_bytes (a + Z.of_nat (length l)) k (put_bytes a l m).
Proof.
  revert a m. induction l as [|x l IH]; intros a m; simpl.
  - by rewrite Z.add_0_r.
  - rewrite IH. f_equal. lia.
Qed.

Lemma cstr_put_bytes a l m :
  Forall (fun c => 0 < c < 256) l -> cstr (put_bytes a (l ++ [0]) m) a l.
Proof.
  intros Hl. apply cstr_lookup. split.
  - intros i c Hc. rewrite (load8_put_bytes _ _ _ i c) by (by apply lookup_app_l_Some).
    rewrite Forall_lookup in Hl. specialize (Hl _ _ Hc). simpl in Hl. rewrite u8_small; lia.
  - apply (load8_put_bytes a (l ++ [0]) m (length l) 0). by apply list_lookup_middle.
Qed.

(** *** Decimal numerals *)

(** The digits of [n], least significant first. *)
Fixpoint dec_rev (fuel : nat) (n : Z) : list Z :=
  match fuel with
  | O => []
  | S f => (n mod 10 + 48) :: (if n / 10 >? 0 then dec_rev f (n / 10) else [])
  end.

(** The value of a list of digits, most significant first. *)
Definition dec_value (l : list Z) : Z := foldl (fun a c => a * 10 + (c - 48)) 0 l.

Lemma itoa_digits_dec fuel n s i m :
  (0 < fuel)%nat -> 0 <= n < 10 ^ Z.of_nat fuel ->
  itoa_digits fuel n s i m
  = Some (i + Z.of_nat (length (dec_rev fuel n)), put_bytes (s + i) (dec_rev fuel n) m).
Proof.
  revert n i m. induction fuel as [|f IH]; intros n i m Hf Hn; [lia|].
  cbn [itoa_digits dec_rev length put_bytes].
  rewrite Z.rem_mod_nonneg, Z.quot_div_nonneg by lia.
  rewrite Nat2Z.inj_succ, Z.pow_succ_r in Hn by lia.
  assert (0 <= n / 10 < 10 ^ Z.of_nat f).
  { split; [apply Z.div_pos; lia|]. apply Z.div_lt_upper_bound; lia. }
  destruct (Z.gtb_spec (n / 10) 0) as [H0|H0].
  - rewrite IH; [|destruct f; simpl in *; lia|done].
    f_equal. f_equal; [lia|]. f_equal. lia.
  - done.
Qed.

Lemma dec_rev_bound fuel n : Forall (fun c => 48 <= c <= 57) (dec_rev fuel n).
Proof.
  revert n. induction fuel as [|f IH]; intros n; simpl; constructor.
  - pose proof (Z.mod_pos_bound n 10). lia.
  - destruct (_ >? 0); auto.
Qed.

Lemma dec_rev_length fuel n : (length (dec_rev fuel n) <= fuel)%nat.
Proof.
  revert n. induction fuel as [|f IH]; intros n; simpl; [lia|].
  destruct (_ >? 0); simpl; [|lia]. specialize (IH (n / 10)). lia.
Qed.

Lemma dec_value_rev fuel n :
  0 <= n < 10 ^ Z.of_nat fuel -> dec_value (rev (dec_rev fuel n)) = n.
Proof.
  revert n. induction fuel as [|f IH]; intros n Hn; [cbn in *; lia|].
  cbn [dec_rev rev]. rewrite Nat2Z.inj_succ, Z.pow_succ_r in Hn by lia.
  assert (0 <= n / 10 < 10 ^ Z.of_nat f).
  { split; [apply Z.div_pos; lia|]. apply Z.div_lt_upper_bound; lia. }
  unfold dec_value in *. rewrite foldl_app. cbn [foldl].
  pose proof (Z.div_mod n 10) as Hdm. destruct (Z.gtb_spec (n / 10) 0) as [H0|H0].
  - rewrite IH by done. lia.
  - cbn. lia.
Qed.

Lemma dec_value_prefix k l v :
  Forall (fun c => 48 <= c <= 57) l -> 0 <= k ->
  foldl (fun a c => a * 10 + (c - 48)) k l = v -> k <= v.
Proof.
  intros Hl. revert k. induction Hl as [|c l Hc Hl IH]; intros k Hk; simpl; [lia|].
  intros E. apply IH in E; lia.
Qed.

Lemma atoi_loop_digits fuel m s l k v :
  cstr m s l -> Forall (fun c => 48 <= c <= 57) l -> (length l < fuel)%nat ->
  0 <= k -> foldl (fun a c => a * 10 + (c - 48)) k l = v -> v < 2 ^ 31 ->
  atoi_loop fuel m s k = Some v.
Proof.
  revert s l k. induction fuel as [|f IH]; intros s l k Hs Hl Hf Hk Hv Hb; [lia|].
  cbn [atoi_loop]. destruct l as [|c l]; simpl in *.
  - rewrite Hs. simpl. by subst.
  - destruct Hs as (-> & Hc & Hs). apply Forall_cons in Hl as [Hc' Hl].
    assert (k * 10 + (c - 48) <= v) by (eapply dec_value_prefix; [done|lia|done]).
    zcases.
    replace (s32 (s32 (s32 (k * 10) + c) - 48)) with (k * 10 + (c - 48)).
    2:{ rewrite s32_add_l. change (s32 (k * 10 + c) - 48) with (s32 (k * 10 + c) + -48).
        rewrite s32_add_l, s32_small; lia. }
    apply (IH _ l); try done; try lia.
Qed.


Lemma load8_put_bytes_store0 s l m :
  store8 (s + Z.of_nat (length l)) 0 (put_bytes s l m) = put_bytes s (l ++ [0]) m.
Proof. by rewrite put_bytes_app. Qed.

Lemma dec_rev_char fuel n : Forall (fun c => 0 < c < 256) (dec_rev fuel n).
Proof. eapply Forall_impl; [apply dec_rev_bound|]. simpl. lia. Qed.

Lemma pow10_fuel fuel n : (10 <= fuel)%nat -> 0 <= n < 2 ^ 31 -> 0 <= n < 10 ^ Z.of_nat fuel.
Proof.
  intros. split; [lia|]. apply (Z.lt_le_trans _ (10 ^ 10)); [lia|].
  apply Z.pow_le_mono_r; lia.
Qed.

Lemma dec_rev_length10 fuel n :
  0 <= n < 10 ^ 10 -> (length (dec_rev fuel n) <= 10)%nat.
Proof.
  assert (forall k, (k <= 10)%nat -> forall n, 0 <= n < 10 ^ Z.of_nat k ->
            (length (dec_rev fuel n) <= Nat.max 1 k)%nat) as H.
  { clear n. induction fuel as [|f IH]; intros k Hk n Hn; simpl; [lia|].
    destruct (Z.gtb_spec (n / 10) 0); simpl; [|lia].
    destruct k as [|k]; [simpl in Hn; rewrite Z.div_small in *; lia|].
    rewrite Nat2Z.inj_succ, Z.pow_succ_r in Hn by lia.
    assert (0 <= n / 10 < 10 ^ Z.of_nat k) as Hq.
    { split; [lia|]. apply Z.div_lt_upper_bound; lia. }
    destruct k as [|k]; [simpl in Hq; lia|].
    specialize (IH (S k) ltac:(lia) _ Hq). lia. }
  intros. apply (H 10%nat); [lia|done].
Qed.

Lemma itoa_digits_string fuel n s m l :
  (12 <= fuel)%nat -> 0 <= n < 2 ^ 31 -> 0 <= Z.of_nat (length l) <= 1 ->
  Forall (fun c => 0 < c < 256) l ->
  exists m', reverse fuel s (put_bytes s ((dec_rev fuel n ++ l) ++ [0]) m) = Some m'
    /\ cstr m' s (rev l ++ rev (dec_rev fuel n)).
Proof.
  intros Hf Hn Hl Hc.
  assert (length (dec_rev fuel n) <= 10)%nat by (apply dec_rev_length10; lia).
  edestruct (reverse_cstr fuel s (put_bytes s ((dec_rev fuel n ++ l) ++ [0]) m)
               (dec_rev fuel n ++ l)) as (m' & E & Hs & _).
  - apply cstr_put_bytes, Forall_app. split; [apply dec_rev_char | done].
  - rewrite length_app. lia.
  - exists m'. split; [done|]. by rewrite rev_app_distr in Hs.
Qed.

Lemma itoa_nonneg fuel n s m :
  (12 <= fuel)%nat -> 0 <= n < 2 ^ 31 ->
  exists m', itoa fuel n s m = Some m' /\ cstr m' s (rev (dec_rev fuel n)).
Proof.
  intros Hf Hn. unfold itoa. rewrite (proj2 (Z.ltb_ge n 0)) by lia.
  rewrite itoa_digits_dec by (try apply pow10_fuel; lia).
  rewrite !Z.add_0_l, Z.add_0_r, load8_put_bytes_store0.
  destruct (itoa_digits_string fuel n s m []) as (m' & E & Hs); [done|done|simpl; lia|done|].
  rewrite app_nil_r in E. eauto.
Qed.

Lemma itoa_negative fuel n s m :
  (12 <= fuel)%nat -> - 2 ^ 31 < n < 0 ->
  exists m', itoa fuel n s m = Some m' /\ cstr m' s (45 :: rev (dec_rev fuel (- n))).
Proof.
  intros Hf Hn. unfold itoa. rewrite (proj2 (Z.ltb_lt n 0)) by lia.
  rewrite s32_small, itoa_digits_dec by (try apply pow10_fuel; lia).
  destruct (itoa_digits_string fuel (- n) s m [45]) as (m' & E & Hs); [done|lia|simpl; lia| |].
  { repeat constructor; lia. }
  exists m'. split; [|done]. rewrite <- E. f_equal.
  rewrite <- load8_put_bytes_store0, put_bytes_app, length_app. simpl.
  rewrite Z.add_0_r. do 2 f_equal. lia.
Qed.

(** ** Properties *)

(** [memmove] copies [n] bytes as if through a temporary: whatever the
    overlap of source and destination, every destination byte afterwards is
    the source byte before the call, and no other byte changes. *)
Theorem memmove_correct (m : mem) (dst src n b : Z) :
  0 <= n ->
  load8 (memmove dst src n m) b
  = if (dst <=? b) && (b <? dst + n) then load8 m (src + (b - dst)) else load8 m b.
Proof.
  apply load8_memmove.
Qed.

Lemma memmove_correct_witness :
  load8 (memmove 12 10 4 (put_bytes 10 [1; 2; 3; 4] ∅)) 14 = 3.
Proof. rewrite (memmove_correct _ 12 10 4 14) by lia. reflexivity. Defined.

(** [strncmp] returns 0 exactly when the two strings, cut at their first
    NUL or after [n] bytes, are the same; this is the test [namecmp] relies on
    for directory names that fill all [DIRSIZ] bytes without a NUL. *)
Theorem strncmp_zero_iff (m : mem) (p q : Z) (n : Z) :
  strncmp m p q n = 0 <->
  upto_nul (bytes_at m p (Z.to_nat n)) (Z.to_nat n)
  = upto_nul (bytes_at m q (Z.to_nat n)) (Z.to_nat n).
Proof. unfold strncmp. rewrite strncmp_loop_list. apply strncmp_list_zero. Qed.

(** [strncpy] fills exactly [n] bytes of a destination disjoint from the
    source: the source string up to its NUL, then zeros; nothing else changes,
    and the copy compares equal to the source under [strncmp]. *)
Theorem strncpy_correct (m : mem) (s t n b : Z) :
  0 <= n -> s + n <= t \/ t + n <= s ->
  bytes_at (strncpy s t n m) s (Z.to_nat n)
    = strncpy_list (bytes_at m t (Z.to_nat n)) (Z.to_nat n)
  /\ (b < s \/ s + n <= b -> load8 (strncpy s t n m) b = load8 m b)
  /\ strncmp (strncpy s t n m) s t n = 0.
Proof.
  intros Hn Hd. unfold strncpy.
  assert (bytes_at (strncpy_loop s t (Z.to_nat n) m) s (Z.to_nat n)
    = strncpy_list (bytes_at m t (Z.to_nat n)) (Z.to_nat n)) as E
    by (apply strncpy_loop_bytes; lia).
  split_and!; [done|intros; apply load8_strncpy_loop_frame; lia|].
  unfold strncmp. rewrite strncmp_loop_list. apply strncmp_list_zero.
  rewrite E, upto_nul_strncpy_list. f_equal. apply bytes_at_ext. intros i Hi.
  symmetry. apply load8_strncpy_loop_frame. lia.
Qed.

Lemma strncpy_correct_witness :
  bytes_at (strncpy 100 200 5 (put_bytes 200 [104; 105] ∅)) 100 5 = [104; 105; 0; 0; 0].
Proof.
  destruct (strncpy_correct (put_bytes 200 [104; 105] ∅) 100 200 5 0) as [E _]; [lia|lia|].
  exact E.
Defined.

(** [safestrcpy] always leaves a NUL-terminated string, the source cut
    after [n-1] characters, and writes only inside the [n] bytes of the
    destination. *)
Theorem safestrcpy_correct (m : mem) (s t n b : Z) :
  0 < n -> s + n <= t \/ t + n <= s ->
  cstr (safestrcpy s t n m) s
       (upto_nul (bytes_at m t (Z.to_nat (n - 1))) (Z.to_nat (n - 1)))
  /\ (b < s \/ s + n <= b -> load8 (safestrcpy s t n m) b = load8 m b).
Proof.
  intros Hn Hd. unfold safestrcpy. rewrite (proj2 (Z.leb_gt n 0)) by lia. split.
  - apply safestrcpy_loop_cstr. lia.
  - intros. apply load8_safestrcpy_loop_frame. lia.
Qed.

Lemma safestrcpy_correct_witness :
  cstr (safestrcpy 100 200 3 (put_bytes 200 [104; 101; 121; 33] ∅)) 100 [104; 101].
Proof.
  destruct (safestrcpy_correct (put_bytes 200 [104; 101; 121; 33] ∅) 100 200 3 0)
    as [H _]; [lia|lia|]. exact H.
Defined.

(** For every non-negative [int], [atoi] reads back what [itoa] wrote; the
    text is the decimal numeral.  Twelve bytes of fuel cover ten digits, a sign
    and the NUL. *)
Theorem atoi_itoa (m : mem) (fuel : nat) (s n : Z) :
  (12 <= fuel)%nat -> 0 <= n < 2 ^ 31 ->
  exists m', itoa fuel n s m = Some m' /\ cstr m' s (rev (dec_rev fuel n))
    /\ atoi fuel m' s = Some n.
Proof.
  intros Hf Hn. destruct (itoa_nonneg fuel n s m) as (m' & E & Hs); [done|done|].
  exists m'. split_and!; [done|done|]. eapply atoi_loop_digits; [done| | |done| |lia].
  - apply Forall_rev, dec_rev_bound.
  - rewrite length_rev. pose proof (dec_rev_length10 fuel n). lia.
  - apply dec_value_rev, pow10_fuel; lia.
Qed.

Lemma atoi_itoa_witness :
  exists m', itoa 12 2147483647 1000 ∅ = Some m' /\ atoi 12 m' 1000 = Some 2147483647.
Proof.
  destruct (atoi_itoa ∅ 12 1000 2147483647) as (m' & E & _ & E'); [lia|lia|].
  by exists m'.
Defined.

(** Negative numbers print as a minus sign and the digits of the absolute
    value, except the smallest [int]: [-n] wraps there, the remainder is
    negative, and [itoa] writes the two characters "-(". *)
Theorem itoa_negative_numbers (m : mem) (fuel : nat) (s n : Z) :
  (12 <= fuel)%nat -> - 2 ^ 31 <= n < 0 ->
  exists m', itoa fuel n s m = Some m' /\
    cstr m' s (if n =? - 2 ^ 31 then [45; 40] else 45 :: rev (dec_rev fuel (- n))).
Proof.
  intros Hf Hn. destruct (Z.eqb_spec n (- 2 ^ 31)) as [->|].
  - unfold itoa. destruct fuel as [|f]; [lia|]. cbn [itoa_digits].
    change (s32 (- - 2 ^ 31)) with (- 2 ^ 31). change (- 2 ^ 31 <? 0) with true.
    cbv iota beta.
    change (Z.rem (- 2 ^ 31) 10 + 48) with 40. rewrite Z.add_0_r, Z.add_0_l.
    destruct (reverse_cstr (S f) s (put_bytes s ([40; 45] ++ [0]) m) [40; 45])
      as (m' & E & Hs & _); [apply cstr_put_bytes; repeat constructor; lia|simpl; lia|].
    exists m'. split; [|done]. rewrite <- E.
    replace (- 2 ^ 31 ÷ 10 >? 0) with false by reflexivity.
    cbn -[Z.add]. do 2 f_equal. lia.
  - apply itoa_negative; lia.
Qed.

Lemma itoa_negative_numbers_witness :
  exists m', itoa 12 (-2147483648) 1000 ∅ = Some m' /\ cstr m' 1000 [45; 40].
Proof. apply (itoa_negative_numbers ∅ 12 1000 (-2147483648)); lia. Defined.
