(* ===== verification/Printf.v ===== *)
(** Formatted output of user programs: printf.c.

    [printf] writes its output one byte at a time; a run is described by the
    list of [write] calls it makes.  Its variable arguments are the 32-bit
    words that follow the format on the stack, so that a format that asks for
    more words than there are runs off the argument area ([None]), and a string argument is an
    address in the program's memory. *)

From S2P Require Import Prelude CString.

Module Printf.

(** The [write(fd, p, n)] calls of a program: descriptor and bytes. *)
Definition output : Type := list (Z * list Z).

Definition putc (fd c : Z) : output := [(fd, [u8 c])].

Definition puts (fd : Z) (l : list Z) : output := l ≫= putc fd.

(** [digits[d]]: upper-case, unlike the kernel's. *)
Definition digit (d : Z) : Z := if d <? 10 then 48 + d else 55 + d.

(** The [do .. while] loop fills [buf] with the least significant digit first.
    A 32-bit number has at most 32 digits. *)
Fixpoint digits_rev (fuel : nat) (base x : Z) : list Z :=
  match fuel with
  | O => []
  | S f => digit (x mod base) :: (if x / base =? 0 then [] else digits_rev f base (x / base))
  end.

(** The contents of [buf] when the loop is done. *)
Definition int_buf (xx base : Z) (sgn : bool) : list Z :=
  let neg := sgn && (s32 xx <? 0) in
  let x := if neg then u32 (- s32 xx) else u32 xx in
  digits_rev 32 base x ++ (if neg then [45] else []).

Definition printint (fd xx base : Z) (sgn : bool) : output := puts fd (rev (int_buf xx base sgn)).

(** The loop of [%s], up to the terminating NUL. *)
Fixpoint putstr (fuel : nat) (m : mem) (fd s : Z) : option output :=
  match fuel with
  | O => None
  | S f =>
      if load8 m s =? 0 then Some []
      else match putstr f m fd (s + 1) with Some o => Some (putc fd (load8 m s) ++ o) | None => None end
  end.

(** The loop over the format; [pct] is [state == '%'], [ap] the argument words
    not used yet. *)
Fixpoint printf_loop (fuel : nat) (m : mem) (fd : Z) (fmt : list Z) (pct : bool) (ap : list Z) : option output :=
  match fmt with
  | [] => Some []
  | c :: fmt' =>
      let next pct' ap' o :=
        match printf_loop fuel m fd fmt' pct' ap' with Some o' => Some (o ++ o') | None => None end in
      if negb pct then (if c =? 37 then next true ap [] else next false ap (putc fd c))
      else if c =? 100 then
        match ap with v :: ap' => next false ap' (printint fd v 10 true) | [] => None end
      else if (c =? 120) || (c =? 112) then
        match ap with v :: ap' => next false ap' (printint fd v 16 false) | [] => None end
      else if c =? 115 then
        match ap with
        | v :: ap' =>
            if v =? 0 then next false ap' (puts fd (str "(null)"))
            else match putstr fuel m fd v with Some o => next false ap' o | None => None end
        | [] => None
        end
      else if c =? 99 then
        match ap with v :: ap' => next false ap' (putc fd v) | [] => None end
      else if c =? 37 then next false ap (putc fd c)
      else next false ap (putc fd 37 ++ putc fd c)
  end.

Definition printf (fuel : nat) (m : mem) (fd : Z) (fmt : list Z) (ap : list Z) : option output :=
  printf_loop fuel m fd fmt false ap.

(** ** Numerals *)

(** Reading digits back: the value of a most-significant-first numeral. *)
Definition undigit (c : Z) : Z := if c <? 58 then c - 48 else if c <? 97 then c - 55 else c - 87.
Definition num_value (base : Z) (l : list Z) : Z := foldl (fun a c => a * base + undigit c) 0 l.

(** A signed numeral. *)
Definition int_value (base : Z) (l : list Z) : Z :=
  match l with
  | c :: l' => if c =? 45 then - num_value base l' else num_value base l
  | [] => 0
  end.

Lemma undigit_digit d : 0 <= d < 16 -> undigit (digit d) = d.
Proof.
  intros. unfold digit, undigit. destruct (Z.ltb_spec d 10).
  - rewrite (proj2 (Z.ltb_lt _ _)); lia.
  - rewrite (proj2 (Z.ltb_ge _ 58)), (proj2 (Z.ltb_lt _ 97)); lia.
Qed.

Lemma digits_value fuel base x :
  2 <= base <= 16 -> 0 <= x < base ^ Z.of_nat fuel -> num_value base (rev (digits_rev fuel base x)) = x.
Proof.
  intros Hb. revert x. induction fuel as [|f IH]; intros x Hx; [cbn in *; lia|].
  cbn [digits_rev rev]. rewrite Nat2Z.inj_succ, Z.pow_succ_r in Hx by lia.
  assert (0 <= x / base < base ^ Z.of_nat f).
  { split; [apply Z.div_pos; lia|]. apply Z.div_lt_upper_bound; lia. }
  unfold num_value in *. rewrite foldl_app. cbn [foldl].
  pose proof (Z.mod_pos_bound x base ltac:(lia)). rewrite undigit_digit by lia.
  pose proof (Z.div_mod x base ltac:(lia)) as Hdm. destruct (Z.eqb_spec (x / base) 0) as [E|E].
  - cbn. nia.
  - rewrite IH by done. lia.
Qed.

Lemma digits_length fuel k base x :
  2 <= base -> (0 < k)%nat -> 0 <= x < base ^ Z.of_nat k -> (length (digits_rev fuel base x) <= k)%nat.
Proof.
  intros Hb. revert fuel x. induction k as [|k IH]; intros fuel x Hk Hx; [lia|]. destruct fuel as [|f]; cbn [digits_rev length]; [lia|].
  destruct (Z.eqb_spec (x / base) 0) as [E|E]; cbn [length]; [lia|].
  rewrite Nat2Z.inj_succ, Z.pow_succ_r in Hx by lia.
  assert (0 <= x / base < base ^ Z.of_nat k).
  { split; [apply Z.div_pos; lia|]. apply Z.div_lt_upper_bound; lia. }
  destruct k as [|k]; [cbn in *; lia|]. specialize (IH f (x / base)). lia.
Qed.

Lemma digits_chars fuel base x : 2 <= base <= 16 -> Forall (fun c => 48 <= c < 256) (digits_rev fuel base x).
Proof.
  intros Hb. revert x. induction fuel as [|f IH]; intros x; cbn; constructor.
  - pose proof (Z.mod_pos_bound x base ltac:(lia)). unfold digit. destruct (Z.ltb_spec (x mod base) 10); lia.
  - destruct (_ =? 0); [constructor|apply IH].
Qed.

Lemma s32_u32_nonneg x : 0 <= s32 x -> u32 x = s32 x.
Proof.
  unfold s32, u32. intros H. pose proof (Z.mod_pos_bound (x + 2 ^ 31) (2 ^ 32) ltac:(lia)).
  pose proof (Z.div_mod (x + 2 ^ 31) (2 ^ 32) ltac:(lia)) as E.
  symmetry. apply (Z.mod_unique_pos x (2 ^ 32) ((x + 2 ^ 31) / 2 ^ 32)); lia.
Qed.

Lemma base_range base : base = 10 \/ base = 16 -> 2 <= base <= 16.
Proof. lia. Qed.

Lemma base_pow base : base = 10 \/ base = 16 -> 2 ^ 32 <= base ^ Z.of_nat 10 /\ 2 ^ 32 <= base ^ Z.of_nat 32.
Proof. intros [->| ->]; cbv; split; discriminate. Qed.

Lemma digits_rev_nonempty f base x : digits_rev (S f) base x <> [].
Proof. done. Qed.

(** What a numeral prints as reads back, and fits the buffer. *)
Lemma int_buf_value xx base sgn :
  base = 10 \/ base = 16 ->
  int_value base (rev (int_buf xx base sgn)) = (if sgn then s32 xx else u32 xx) /\
  (length (int_buf xx base sgn) <= 11)%nat /\ Forall (fun c => 0 < c < 256) (int_buf xx base sgn).
Proof.
  intros Hb. destruct (base_pow base Hb) as [Hp1 Hp2]. pose proof (base_range base Hb) as Hr. unfold int_buf.
  set (neg := sgn && (s32 xx <? 0)). set (x := if neg then _ else _).
  assert (0 <= x < 2 ^ 32) as Hx by (unfold x; destruct neg; apply u32_range).
  pose proof (digits_value 32 base x Hr ltac:(lia)) as Hv.
  pose proof (digits_length 32 10 base x ltac:(lia) ltac:(lia) ltac:(lia)) as Hl.
  pose proof (digits_chars 32 base x Hr) as Hc. split; [|split].
  - rewrite rev_app_distr. pose proof (s32_range xx) as Hs. destruct neg eqn:Hn.
    + cbn [rev app int_value]. rewrite Hv. unfold neg in Hn. apply andb_prop in Hn as [-> Hn%Z.ltb_lt].
      unfold x. cbn. rewrite u32_small; lia.
    + cbn [rev app]. unfold int_value. destruct (rev (digits_rev 32 base x)) as [|c l] eqn:E.
      { apply (f_equal (@length Z)) in E. rewrite length_rev in E. done. }
      assert (48 <= c < 256) as Hc0.
      { rewrite Forall_forall in Hc. apply Hc. rewrite list_elem_of_In, <- (rev_involutive (digits_rev 32 base x)), E, <- in_rev. by left. }
      rewrite (proj2 (Z.eqb_neq c 45)) by lia. rewrite Hv. unfold x. destruct sgn; [|done].
      unfold neg in Hn. cbn in Hn. apply Z.ltb_ge in Hn. apply s32_u32_nonneg. lia.
  - rewrite length_app. destruct neg; cbn [length]; lia.
  - apply Forall_app. split; [eapply Forall_impl; [exact Hc|]; cbn; lia|]. destruct neg; repeat constructor; lia.
Qed.

(** ** Formats *)

(** The usual positional notation: no leading zeros, upper-case digits. *)
Inductive numeral (base : nat) : Z -> list Z -> Prop :=
| num_digit d c : (d < base)%nat -> str "0123456789ABCDEF" !! d = Some c -> numeral base (Z.of_nat d) [c]
| num_more x d c l : 0 < x -> numeral base x l -> (d < base)%nat -> str "0123456789ABCDEF" !! d = Some c ->
    numeral base (Z.of_nat base * x + Z.of_nat d) (l ++ [c]).

(** Signed decimal. *)
Definition decimal (x : Z) (t : list Z) : Prop :=
  if decide (x < 0) then exists l, t = str "-" ++ l /\ numeral 10 (- x) l else numeral 10 x t.

(** The text a format stands for, with the argument words it consumes.  [fuel]
    bounds the length of the strings. *)
Inductive renders (fuel : nat) (m : mem) : list Z -> list Z -> list Z -> Prop :=
| render_nil ap : renders fuel m [] ap []
| render_lone ap : renders fuel m (str "%") ap []
| render_lit c f ap o : c <> 37 -> renders fuel m f ap o -> renders fuel m (c :: f) ap (c :: o)
| render_int v t f ap o : decimal (s32 v) t -> renders fuel m f ap o ->
    renders fuel m (str "%d" ++ f) (v :: ap) (t ++ o)
| render_hex d v t f ap o : d = str "%x" \/ d = str "%p" -> numeral 16 (u32 v) t -> renders fuel m f ap o ->
    renders fuel m (d ++ f) (v :: ap) (t ++ o)
| render_str v l f ap o : v <> 0 -> cstr m v l -> (length l < fuel)%nat -> renders fuel m f ap o ->
    renders fuel m (str "%s" ++ f) (v :: ap) (l ++ o)
| render_null f ap o : renders fuel m f ap o -> renders fuel m (str "%s" ++ f) (0 :: ap) (str "(null)" ++ o)
| render_chr v f ap o : renders fuel m f ap o -> renders fuel m (str "%c" ++ f) (v :: ap) (v :: o)
| render_pct f ap o : renders fuel m f ap o -> renders fuel m (str "%%" ++ f) ap (37 :: o)
| render_unknown c f ap o : c ∉ str "dxpsc%" -> renders fuel m f ap o ->
    renders fuel m (37 :: c :: f) ap (37 :: c :: o).

Lemma digit_char d : (d < 16)%nat -> str "0123456789ABCDEF" !! d = Some (digit (Z.of_nat d)).
Proof. intros H. do 16 (destruct d as [|d]; [reflexivity|]). lia. Qed.

Lemma digits_rev_S f base x :
  digits_rev (S f) base x = digit (x mod base) :: (if x / base =? 0 then [] else digits_rev f base (x / base)).
Proof. reflexivity. Qed.

(** The loop of [printint] produces the numeral, and the numeral is unique. *)
Lemma numeral_digit base d : (base <= 16)%nat -> 0 <= d < Z.of_nat base -> numeral base d [digit d].
Proof.
  intros Hb Hd. destruct (Z_of_nat_complete d ltac:(lia)) as [k ->]. apply num_digit; [lia|apply digit_char; lia].
Qed.

Lemma numeral_more base x d l :
  (base <= 16)%nat -> 0 < x -> numeral base x l -> 0 <= d < Z.of_nat base ->
  numeral base (Z.of_nat base * x + d) (l ++ [digit d]).
Proof.
  intros Hb Hx Hl Hd. destruct (Z_of_nat_complete d ltac:(lia)) as [k ->].
  apply num_more; [done|done|lia|apply digit_char; lia].
Qed.

Lemma digits_numeral fuel base x :
  (2 <= base <= 16)%nat -> 0 <= x < Z.of_nat base ^ Z.of_nat (S fuel) ->
  numeral base x (rev (digits_rev (S fuel) (Z.of_nat base) x)).
Proof.
  intros Hb. revert x. induction fuel as [|f IH]; intros x Hx;
    rewrite Nat2Z.inj_succ, Z.pow_succ_r in Hx by lia; set (B := Z.of_nat base) in *;
    rewrite digits_rev_S; cbn [rev];
    pose proof (Z.mod_pos_bound x B ltac:(lia)) as Hm; pose proof (Z.div_mod x B ltac:(lia)) as Hdm.
  - rewrite Z.pow_0_r in Hx. rewrite Z.div_small, Z.mod_small by lia. apply numeral_digit; lia.
  - assert (0 <= x / B < B ^ Z.of_nat (S f)).
    { split; [apply Z.div_pos; lia|]. apply Z.div_lt_upper_bound; lia. }
    rewrite Hdm at 1. destruct (Z.eqb_spec (x / B) 0) as [E|E].
    + rewrite E, Z.mul_0_r. apply numeral_digit; lia.
    + apply numeral_more; [lia|lia|by apply IH|lia].
Qed.

Lemma numeral_unique base x t fuel :
  (2 <= base <= 16)%nat -> numeral base x t -> x < Z.of_nat base ^ Z.of_nat (S fuel) ->
  t = rev (digits_rev (S fuel) (Z.of_nat base) x).
Proof.
  intros Hb Hn. revert fuel.
  induction Hn as [d c Hd Hc|x d c l Hx Hn IH Hd Hc]; intros f Hlt;
    rewrite Nat2Z.inj_succ, Z.pow_succ_r in Hlt by lia; rewrite digit_char in Hc by lia; simplify_eq.
  - cbn [digits_rev rev]. rewrite Z.div_small, Z.mod_small by lia. done.
  - destruct f as [|f]; [rewrite Z.pow_0_r in Hlt; nia|]. specialize (IH f ltac:(nia)). rewrite IH.
    rewrite (digits_rev_S (S f)). cbn [rev].
    rewrite (Z.mul_comm (Z.of_nat base) x), Z.div_add_l, Z.div_small, Z.add_0_r by lia.
    rewrite (Z.add_comm (x * Z.of_nat base)), Z_mod_plus_full, Z.mod_small by lia.
    rewrite (proj2 (Z.eqb_neq x 0)) by lia. done.
Qed.

Lemma hex_text v t : numeral 16 (u32 v) t <-> t = rev (int_buf v 16 false).
Proof.
  unfold int_buf. cbn [andb]. rewrite app_nil_r. pose proof (u32_range v). split.
  - intros H'. apply (numeral_unique 16 _ t 31); [lia|done|]. change (Z.of_nat 16 ^ Z.of_nat 32) with (16 ^ 32). lia.
  - intros ->. apply (digits_numeral 31 16); [lia|]. change (Z.of_nat 16 ^ Z.of_nat 32) with (16 ^ 32). lia.
Qed.

Lemma decimal_text v t : decimal (s32 v) t <-> t = rev (int_buf v 10 true).
Proof.
  unfold decimal, int_buf. cbn [andb]. pose proof (s32_range v) as Hr.
  assert (forall x t, 0 <= x < 2 ^ 32 -> numeral 10 x t <-> t = rev (digits_rev 32 10 x)) as Hd.
  { intros x u Hx. split.
    - intros H'. apply (numeral_unique 10 _ u 31); [lia|done|]. change (Z.of_nat 10 ^ Z.of_nat 32) with (10 ^ 32). lia.
    - intros ->. apply (digits_numeral 31 10); [lia|]. change (Z.of_nat 10 ^ Z.of_nat 32) with (10 ^ 32). lia. }
  case_decide as Hs.
  - rewrite (proj2 (Z.ltb_lt _ _)) by lia. rewrite u32_small by lia. rewrite rev_app_distr. cbn [rev app]. split.
    + intros (l & -> & ->%Hd); [done|lia].
    + intros ->. eexists. split; [reflexivity|]. apply Hd; [lia|done].
  - rewrite (proj2 (Z.ltb_ge _ _)) by lia. rewrite app_nil_r, s32_u32_nonneg by lia. apply Hd. lia.
Qed.

Lemma puts_app fd l l' : puts fd (l ++ l') = puts fd l ++ puts fd l'.
Proof. apply bind_app. Qed.

Lemma putstr_cstr fuel m fd s l : cstr m s l -> (length l < fuel)%nat -> putstr fuel m fd s = Some (puts fd l).
Proof.
  revert s l. induction fuel as [|f IH]; intros s l Hs Hl; [lia|]. cbn [putstr]. destruct l as [|c l]; cbn in Hs.
  - by rewrite Hs.
  - destruct Hs as (-> & Hc & Hs). rewrite (proj2 (Z.eqb_neq c 0)) by done. cbn in Hl.
    by rewrite (IH (s + 1) l) by (done || lia).
Qed.

Lemma putstr_inv fuel m fd s w :
  putstr fuel m fd s = Some w -> exists l, cstr m s l /\ (length l < fuel)%nat /\ w = puts fd l.
Proof.
  revert s w. induction fuel as [|f IH]; intros s w; [done|]. cbn [putstr].
  destruct (Z.eqb_spec (load8 m s) 0) as [E|E].
  - intros [= <-]. exists []. split_and!; [done|cbn; lia|done].
  - destruct (putstr f m fd (s + 1)) as [o|] eqn:Eo; [|done]. intros [= <-].
    destruct (IH _ _ Eo) as (l & Hl & Hn & ->). exists (load8 m s :: l). split_and!; [done|cbn; lia|done].
Qed.

Lemma puts_chars fd l : Forall (fun c => 0 < c < 256) l -> puts fd l = (fun c => (fd, [c])) <$> l.
Proof.
  induction 1 as [|c l Hc _ IH]; [done|]. change (puts fd (c :: l)) with ((fd, [u8 c]) :: puts fd l).
  rewrite u8_small, IH by lia. done.
Qed.

(** ** Properties *)

(** The loop writes the text a format stands for. *)
Lemma printf_renders fuel m fd f ap o : renders fuel m f ap o -> printf_loop fuel m fd f false ap = Some (puts fd o).
Proof.
  induction 1 as [ap|ap|c f ap o Hc H IH|v t f ap o Ht%decimal_text H IH|d v t f ap o Hd Ht%hex_text H IH
    |v l f ap o Hv Hs Hl H IH|f ap o H IH|v f ap o H IH|f ap o H IH|c f ap o Hc H IH]; subst; rewrite ?puts_app; [done|done|..].
  - cbn. rewrite (proj2 (Z.eqb_neq c 37)) by done. by rewrite IH.
  - cbn. by rewrite IH.
  - destruct Hd as [-> | ->]; cbn; by rewrite IH.
  - cbn. rewrite (proj2 (Z.eqb_neq v 0)) by done. by rewrite (putstr_cstr fuel m fd v l), IH.
  - cbn. by rewrite IH.
  - cbn. by rewrite IH.
  - cbn. by rewrite IH.
  - assert (forall k, k ∈ str "dxpsc%" -> (c =? k) = false) as Hk by (intros k Hk; apply Z.eqb_neq; intros ->; done).
    cbn. rewrite (Hk 100), (Hk 120), (Hk 112), (Hk 115), (Hk 99), (Hk 37) by set_solver. cbn. by rewrite IH.
Qed.

(** And it writes nothing else. *)
Lemma printf_renders_inv fuel m fd f :
  (forall ap w, printf_loop fuel m fd f false ap = Some w -> exists o, renders fuel m f ap o /\ w = puts fd o) /\
  (forall ap w, printf_loop fuel m fd f true ap = Some w -> exists o, renders fuel m (37 :: f) ap o /\ w = puts fd o).
Proof.
  induction f as [|c f [IH1 IH2]].
  { split; intros ap w [= <-]; eexists; (split; [constructor|done]). }
  assert (forall ap o w (P : Prop), (forall o', renders fuel m f ap o' -> w = o ++ puts fd o' -> P) ->
    match printf_loop fuel m fd f false ap with Some o' => Some (o ++ o') | None => None end = Some w -> P) as Hnext.
  { intros ap o w P HP. destruct (printf_loop _ _ _ _ _ _) as [o'|] eqn:E; [|done]. intros [= <-].
    destruct (IH1 _ _ E) as (t & Ht & ->). by apply (HP t). }
  split; intros ap w; cbn [printf_loop negb].
  - destruct (Z.eqb_spec c 37) as [->|Hc].
    + destruct (printf_loop _ _ _ _ true _) as [o'|] eqn:E; [|done]. intros [= <-]. by apply IH2.
    + apply Hnext. intros o' Ho ->. exists (c :: o'). split; [by constructor|done].
  - destruct (Z.eqb_spec c 100) as [->|H1].
    { destruct ap as [|v ap]; [done|]. apply Hnext. intros o' Ho ->. exists (rev (int_buf v 10 true) ++ o').
      split; [by apply render_int; [apply decimal_text|]|by rewrite puts_app]. }
    destruct (Z.eqb_spec c 120) as [->|H2]; [|destruct (Z.eqb_spec c 112) as [->|H3]]; cbn [orb];
      [destruct ap as [|v ap]; [done|]; apply Hnext; intros o' Ho ->; exists (rev (int_buf v 16 false) ++ o');
       rewrite puts_app; split; [|done]..|].
    { apply (render_hex fuel m (str "%x")); [by left|by apply hex_text|done]. }
    { apply (render_hex fuel m (str "%p")); [by right|by apply hex_text|done]. }
    destruct (Z.eqb_spec c 115) as [->|H4].
    { destruct ap as [|v ap]; [done|]. destruct (Z.eqb_spec v 0) as [->|Hv].
      - apply Hnext. intros o' Ho ->. exists (str "(null)" ++ o'). split; [by constructor|by rewrite puts_app].
      - destruct (putstr fuel m fd v) as [o1|] eqn:E; [|done]. destruct (putstr_inv _ _ _ _ _ E) as (l & Hl & Hn & ->).
        apply Hnext. intros o' Ho ->. exists (l ++ o'). split; [by constructor|by rewrite puts_app]. }
    destruct (Z.eqb_spec c 99) as [->|H5].
    { destruct ap as [|v ap]; [done|]. apply Hnext. intros o' Ho ->. exists (v :: o'). split; [by constructor|done]. }
    destruct (Z.eqb_spec c 37) as [->|H6]; apply Hnext; intros o' Ho ->; eexists.
    { split; [by apply render_pct|done]. }
    split; [apply render_unknown; [|done]|done].
    change (str "dxpsc%") with [100; 120; 112; 115; 99; 37]. rewrite list_elem_of_In. cbn. intuition congruence.
Qed.

(** C36: [printf] writes, one byte at a time, exactly the text its format and
    arguments stand for: ordinary characters; signed decimal with its minus sign,
    and unsigned hexadecimal in capitals, without leading zeros; strings (shorter
    than [fuel]), with the null pointer shown as (null); characters; the percent
    sign; both characters of an unknown directive; nothing for a percent sign that
    ends the format.  It runs off its arguments ([None]) exactly when the format
    has no such text. *)
Theorem printf_correct (fuel : nat) (m : mem) (fd : Z) (fmt ap : list Z) (w : output) :
  printf fuel m fd fmt ap = Some w <->
  exists o, renders fuel m fmt ap o /\ w = (fun c => (fd, [u8 c])) <$> o.
Proof.
  assert (forall o, puts fd o = (fun c => (fd, [u8 c])) <$> o) as Hp.
  { induction o as [|c o IH]; [done|]. cbn. by f_equal. }
  split.
  - intros (o & Ho & ->)%(proj1 (printf_renders_inv fuel m fd fmt)). exists o. split; [done|apply Hp].
  - intros (o & Ho & ->). rewrite <- Hp. by apply printf_renders.
Qed.

(** A decimal numeral of a negative word. *)
Example printf_runs :
  printf 10 (put_bytes 100 (str "ls" ++ [0]) ∅) 1 (str "%s: %d%% %x%q%") [100; 2 ^ 32 - 5; 2 ^ 32 - 1]
  = Some (puts 1 (str "ls: -5% FFFFFFFF%q")).
Proof. vm_compute. reflexivity. Qed.

(** The digits [printint] collects fit its 16-byte buffer, read back as the
    number printed, signed in base 10 and unsigned in base 16, for every 32-bit
    word, the most negative one included. *)
Theorem printint_roundtrip (fd xx : Z) (sgn : bool) (base : Z) :
  base = 10 \/ base = 16 ->
  exists text, printint fd xx base sgn = (fun c => (fd, [c])) <$> text /\
    (length text <= 11)%nat /\ text = rev (int_buf xx base sgn) /\
    int_value base text = (if sgn then s32 xx else u32 xx).
Proof.
  intros Hb. destruct (int_buf_value xx base sgn Hb) as (Hv & Hl & Hc).
  exists (rev (int_buf xx base sgn)). split; [|split; [by rewrite length_rev|done]].
  unfold printint. assert (Forall (fun c => 0 < c < 256) (rev (int_buf xx base sgn))) as Hc'.
  { rewrite Forall_forall in *. intros c Hin. apply Hc. by rewrite list_elem_of_In, in_rev, <- list_elem_of_In. }
  by apply puts_chars.
Qed.

Lemma printint_roundtrip_witness : exists text, printint 1 (- 2 ^ 31) 10 true = (fun c => (1, [c])) <$> text /\
  int_value 10 text = - 2 ^ 31.
Proof.
  destruct (printint_roundtrip 1 (- 2 ^ 31) true 10) as (text & E & _ & _ & Hv); [by left|].
  exists text. split; [exact E|exact Hv].
Defined.

End Printf.
