(* ===== verification/Umalloc.v ===== *)
(** The user-level memory allocator: umalloc.c.

    Free blocks form a ring in address order, linked through the headers that
    precede them; [base] is a block of size 0 in the program's data, [freep]
    the block where the last search ended.  Headers live in the program's
    memory: [ptr] is the first word of a header, [size] the second, in units
    of 8 bytes.

    The kernel's [sbrk] is a parameter: [grants brk n] says whether the kernel
    extends a process of size [brk] by [n] bytes; when it does, the new memory
    starts at the old size (proc.c, growproc).

    The theorems show that [malloc] takes the block it returns out of the free
    memory, that [free] puts it back, that searches terminate, and that the
    ring stays sorted, disjoint and coalesced. *)

From S2P Require Import Prelude CString.

Module Umalloc.

Section code.
(** The address of [base], and the kernel. *)
Context (base : Z) (grants : Z -> Z -> bool).

Definition HDR : Z := 8.

Definition ptr (m : mem) (p : Z) : Z := load32 m p.
Definition size (m : mem) (p : Z) : Z := load32 m (p + 4).
Definition set_ptr (p v : Z) (m : mem) : mem := store32 p v m.
Definition set_size (p v : Z) (m : mem) : mem := store32 (p + 4) v m.

(** [p + n] on header pointers. *)
Definition plus (p n : Z) : Z := u32 (p + HDR * n).

(** The program's memory, the static [freep] (0 until the first [malloc]) and
    the end of the process. *)
Record heap := mk_heap { hmem : mem; freep : Z; brk : Z }.

(** [None] is the return value -1. *)
Definition sbrk (n : Z) (h : heap) : option (Z * heap) :=
  if grants h.(brk) n then Some (h.(brk), mk_heap h.(hmem) h.(freep) (h.(brk) + n)) else None.

(** The search of [free] for the block before [bp]. *)
Fixpoint free_find (fuel : nat) (m : mem) (bp p : Z) : option Z :=
  match fuel with
  | O => None
  | S f =>
      if (bp >? p) && (bp <? ptr m p) then Some p
      else if (p >=? ptr m p) && ((bp >? p) || (bp <? ptr m p)) then Some p
      else free_find f m bp (ptr m p)
  end.

(** Linking [bp] in after [p]. *)
Definition free_link (bp p : Z) (m : mem) : mem :=
  let m1 :=
    if plus bp (size m bp) =? ptr m p then
      let m' := set_size bp (u32 (size m bp + size m (ptr m p))) m in
      set_ptr bp (ptr m' (ptr m' p)) m'
    else set_ptr bp (ptr m p) m in
  if plus p (size m1 p) =? bp then
    let m' := set_size p (u32 (size m1 p + size m1 bp)) m1 in
    set_ptr p (ptr m' bp) m'
  else set_ptr p bp m1.

Definition free (fuel : nat) (ap : Z) (h : heap) : option heap :=
  let bp := ap - HDR in
  match free_find fuel h.(hmem) bp h.(freep) with
  | None => None
  | Some p => Some (mk_heap (free_link bp p h.(hmem)) p h.(brk))
  end.

(** The inner option is the C result: 0 when the kernel refuses. *)
Definition morecore (fuel : nat) (nu : Z) (h : heap) : option (option Z * heap) :=
  let nu := if nu <? 4096 then 4096 else nu in
  match sbrk (s32 (u32 (nu * HDR))) h with
  | None => Some (None, h)
  | Some (hp, h1) =>
      match free fuel (hp + HDR) (mk_heap (set_size hp nu h1.(hmem)) h1.(freep) h1.(brk)) with
      | None => None
      | Some h2 => Some (Some h2.(freep), h2)
      end
  end.

(** A block that is large enough: unlinked, or its tail cut off. *)
Definition carve (nunits prevp p : Z) (h : heap) : Z * heap :=
  let m := h.(hmem) in
  if size m p =? nunits then (p + HDR, mk_heap (set_ptr prevp (ptr m p) m) prevp h.(brk))
  else
    let m1 := set_size p (u32 (size m p - nunits)) m in
    let q := plus p (size m1 p) in
    (q + HDR, mk_heap (set_size q nunits m1) prevp h.(brk)).

(** The search of [malloc]; the result 0 is the null pointer. *)
Fixpoint malloc_loop (fuel : nat) (nunits prevp p : Z) (h : heap) : option (Z * heap) :=
  match fuel with
  | O => None
  | S f =>
      if size h.(hmem) p >=? nunits then Some (carve nunits prevp p h)
      else if p =? h.(freep) then
        match morecore fuel nunits h with
        | None => None
        | Some (None, h') => Some (0, h')
        | Some (Some p', h') => malloc_loop f nunits p' (ptr h'.(hmem) p') h'
        end
      else malloc_loop f nunits p (ptr h.(hmem) p) h
  end.

Definition units_for (nbytes : Z) : Z := u32 (u32 (nbytes + HDR - 1) / HDR + 1).

Definition malloc (fuel : nat) (nbytes : Z) (h : heap) : option (Z * heap) :=
  let nunits := units_for nbytes in
  let h :=
    if h.(freep) =? 0 then mk_heap (set_size base 0 (set_ptr base base h.(hmem))) base h.(brk) else h in
  malloc_loop fuel nunits h.(freep) (ptr h.(hmem) h.(freep)) h.

End code.

(** ** The ring *)

(** Blocks: address and size. *)
#[local] Notation block := (Z * Z)%type (only parsing).

Definition hd_addr (l : list block) (e : Z) : Z := match l with [] => e | b :: _ => b.1 end.

(** The blocks [l] linked in this order, the last one to [e]. *)
Fixpoint seg (m : mem) (l : list block) (e : Z) : Prop :=
  match l with
  | [] => True
  | b :: l' => size m b.1 = b.2 /\ ptr m b.1 = hd_addr l' e /\ seg m l' e
  end.

(** Bytes a block takes up; [base] has size 0 but has a header too. *)
Definition extent (b : block) : Z := Z.max HDR (HDR * b.2).

(** Ascending, with a gap after every block (neighbours are coalesced), except
    after [base]. *)
Fixpoint ascending (l : list block) : Prop :=
  match l with
  | [] => True
  | b :: l' =>
      0 <= b.2 /\
      Forall (fun b' => b.1 + extent b <= b'.1 /\ b.1 + HDR * b.2 <> b'.1) l' /\
      ascending l'
  end.

Lemma seg_app m l1 l2 e : seg m (l1 ++ l2) e <-> seg m l1 (hd_addr l2 e) /\ seg m l2 e.
Proof.
  induction l1 as [|b l1 IH]; cbn; [naive_solver|]. rewrite IH.
  assert (hd_addr (l1 ++ l2) e = hd_addr l1 (hd_addr l2 e)) as -> by by destruct l1. tauto.
Qed.

(** The ring seen from any of its blocks. *)
Definition ring (m : mem) (l : list block) : Prop := seg m l (hd_addr l 0).

Lemma ring_rotate m l1 l2 : ring m (l1 ++ l2) <-> ring m (l2 ++ l1).
Proof.
  unfold ring. rewrite !seg_app. destruct l1 as [|b1 l1], l2 as [|b2 l2]; cbn [app hd_addr seg]; tauto.
Qed.

(** Stores away from the headers keep the links. *)
Lemma seg_ext m m' l e :
  (forall b, b ∈ l -> ptr m' b.1 = ptr m b.1 /\ size m' b.1 = size m b.1) -> seg m l e -> seg m' l e.
Proof.
  induction l as [|b l IH]; cbn; [done|]. intros H (H1 & H2 & H3).
  destruct (H b) as [-> ->]; [by left|]. split; [done|]. split; [done|]. apply IH; [|done]. intros b' Hb'. apply H. by right.
Qed.

Lemma ptr_set_ptr p v m : ptr (set_ptr p v m) p = u32 v.
Proof. apply load32_store32. Qed.
Lemma size_set_size p v m : size (set_size p v m) p = u32 v.
Proof. apply load32_store32. Qed.
Lemma ptr_set_size p v m : ptr (set_size p v m) p = ptr m p.
Proof. apply load32_store32_ne. lia. Qed.
Lemma size_set_ptr p v m : size (set_ptr p v m) p = size m p.
Proof. apply load32_store32_ne. lia. Qed.

(** Headers at distance 8. *)
Definition apart (p q : Z) : Prop := p + HDR <= q \/ q + HDR <= p.

Lemma header_set_ptr p q v m : apart p q -> ptr (set_ptr p v m) q = ptr m q /\ size (set_ptr p v m) q = size m q.
Proof. unfold apart, HDR. intros. split; apply load32_store32_ne; lia. Qed.
Lemma header_set_size p q v m : apart p q -> ptr (set_size p v m) q = ptr m q /\ size (set_size p v m) q = size m q.
Proof. unfold apart, HDR. intros. split; apply load32_store32_ne; lia. Qed.

(** ** Order *)

(** [b'] lies after [b] and does not touch it. *)
Definition gap (b b' : block) : Prop := b.1 + extent b <= b'.1 /\ b.1 + HDR * b.2 <> b'.1.

Lemma ascending_cons b l : ascending (b :: l) <-> 0 <= b.2 /\ Forall (gap b) l /\ ascending l.
Proof. done. Qed.

Lemma ascending_app l1 l2 :
  ascending (l1 ++ l2) <-> ascending l1 /\ ascending l2 /\ Forall (fun b => Forall (gap b) l2) l1.
Proof.
  induction l1 as [|b l1 IH]; cbn [app]; [cbn; naive_solver|].
  rewrite !ascending_cons, IH, Forall_app, Forall_cons. tauto.
Qed.

Lemma gap_lt b b' : gap b b' -> b.1 < b'.1.
Proof. unfold gap, extent, HDR. lia. Qed.

Lemma gap_apart b b' : gap b b' -> apart b.1 b'.1.
Proof. unfold gap, apart, extent. lia. Qed.

Lemma apart_sym p q : apart p q -> apart q p.
Proof. unfold apart. lia. Qed.

(** ** The search of [free] *)

(** From a block below [bp]: [p] is the last of them. *)
Lemma find_low fuel m bp l p s e :
  seg m (l ++ [(p, s)]) e -> ascending (l ++ [(p, s)]) -> Forall (fun b => b.1 < bp) (l ++ [(p, s)]) ->
  bp < e \/ e <= p -> (length l < fuel)%nat -> free_find fuel m bp (hd_addr (l ++ [(p, s)]) 0) = Some p.
Proof.
  revert fuel. induction l as [|b l IH]; intros fuel Hs Ha Hlt He Hf; (destruct fuel as [|f]; [lia|]); cbn [free_find].
  - cbn in *. destruct Hs as (_ & -> & _). apply Forall_cons in Hlt as [Hp _]. cbn in Hp.
    rewrite (proj2 (Z.gtb_lt bp p)) by lia. cbn. destruct (Z.ltb_spec bp e); [done|].
    rewrite (proj2 (Z.geb_le p e)) by lia. done.
  - cbn [app seg hd_addr] in *. destruct Hs as (_ & -> & Hs). apply ascending_cons in Ha as (_ & Hg & Ha).
    apply Forall_cons in Hlt as [Hb Hlt].
    assert (hd_addr (l ++ [(p, s)]) e = hd_addr (l ++ [(p, s)]) 0) as -> by (by destruct l).
    assert (b.1 < hd_addr (l ++ [(p, s)]) 0 < bp) as Hx.
    { destruct l as [|b' l]; cbn [app hd_addr] in *; apply Forall_cons in Hg as [Hg%gap_lt _], Hlt as [Hlt _]; cbn in *; lia. }
    rewrite (proj2 (Z.ltb_ge bp _)) by lia. rewrite andb_false_r.
    rewrite Z.geb_leb, (proj2 (Z.leb_gt _ b.1)) by lia. cbn. apply IH; try done. cbn in Hf. lia.
Qed.

(** From a block above [bp]: around the end. *)
Lemma find_high fuel m bp l e :
  seg m l e -> ascending l -> Forall (fun b => bp < b.1) l -> e < bp -> (length l <= fuel)%nat ->
  free_find fuel m bp (hd_addr l e) = free_find (fuel - length l) m bp e.
Proof.
  revert fuel. induction l as [|b l IH]; intros fuel Hs Ha Hlt He Hf; cbn [length hd_addr]; [by rewrite Nat.sub_0_r|].
  cbn in Hf. destruct fuel as [|f]; [lia|]. cbn [free_find seg] in *. destruct Hs as (_ & Hp & Hs). rewrite Hp.
  apply ascending_cons in Ha as (_ & Hg & Ha). apply Forall_cons in Hlt as [Hb Hlt].
  rewrite (Z.gtb_ltb bp), (proj2 (Z.ltb_ge _ bp)) by lia. cbn [andb orb].
  assert ((b.1 >=? hd_addr l e) && (bp <? hd_addr l e) = false) as ->.
  { destruct l as [|b' l]; cbn [hd_addr].
    - rewrite (proj2 (Z.ltb_ge bp e)) by lia. apply andb_false_r.
    - apply Forall_cons in Hg as [Hg%gap_lt _]. rewrite Z.geb_leb, (proj2 (Z.leb_gt _ _)) by lia. done. }
  rewrite IH by (done || lia). f_equal.
Qed.

(** The blocks below and above an address. *)
Lemma split_blocks l bp b0 :
  ascending (b0 :: l) -> b0.1 < bp -> (forall b, b ∈ b0 :: l -> b.1 <> bp) ->
  exists A p s B, b0 :: l = A ++ (p, s) :: B /\ Forall (fun b => b.1 < bp) (A ++ [(p, s)]) /\ Forall (fun b => bp < b.1) B.
Proof.
  revert b0. induction l as [|b l IH]; intros b0 Ha H0 Hn.
  - exists [], b0.1, b0.2, []. destruct b0. cbn. split_and!; [done|by constructor|done].
  - apply ascending_cons in Ha as (_ & Hg & Ha). destruct (Z.lt_ge_cases b.1 bp) as [Hb|Hb].
    + destruct (IH b Ha Hb) as (A & p & s & B & E & H1 & H2). { intros b' Hb'. apply Hn. by right. }
      exists (b0 :: A), p, s, B. rewrite E. split_and!; [done|by constructor|done].
    + exists [], b0.1, b0.2, (b :: l). destruct b0 as [a0 s0]. cbn in *. split_and!; [done|by constructor|].
      assert (bp < b.1) as Hlt by (specialize (Hn b); destruct (decide (b.1 = bp)); [exfalso; apply Hn; [right; left|done]|lia]).
      apply ascending_cons in Ha as (_ & Hg' & _). constructor; [done|]. eapply Forall_impl; [exact Hg'|].
      intros b' Hb'%gap_lt. cbn. lia.
Qed.

(** ** The invariant *)

Section alloc.
Context (base : Z).

Record heap_ok (h : heap) (l : list block) : Prop := {
  ok_ring : seg h.(hmem) l base;
  ok_asc : ascending l;
  ok_base : exists bs, l = (base, 0) :: bs /\ Forall (fun b => 0 < b.2) bs;
  ok_freep : h.(freep) ∈ l.*1;
  ok_range : Forall (fun b => b.1 + extent b <= h.(brk)) l;
  ok_addr : 0 < base /\ h.(brk) < 2 ^ 31
}.

(** The free memory. *)
Definition covers (l : list block) (a : Z) : Prop := exists b, b ∈ l /\ b.1 <= a < b.1 + HDR * b.2.

Lemma find_run h l bp fuel :
  heap_ok h l -> base < bp -> (forall b, b ∈ l -> b.1 <> bp) -> (length l < fuel)%nat ->
  exists A p s B, l = A ++ (p, s) :: B /\ Forall (fun b => b.1 < bp) (A ++ [(p, s)]) /\ Forall (fun b => bp < b.1) B /\
    free_find fuel h.(hmem) bp h.(freep) = Some p.
Proof.
  intros H Hb Hn Hf. destruct (ok_base _ _ H) as (bs & El & _).
  destruct (split_blocks bs bp (base, 0)) as (A & p & s & B & E & HA & HB); [rewrite El in H; apply H|done|rewrite El in Hn; exact Hn|].
  assert (l = A ++ (p, s) :: B) as E' by (rewrite El; exact E). clear E. rename E' into E.
  exists A, p, s, B. split; [done|]. split; [done|]. split; [done|].
  pose proof (ok_ring _ _ H) as Hs. pose proof (ok_asc _ _ H) as Ha. pose proof (ok_freep _ _ H) as Hfp.
  assert (l = (A ++ [(p, s)]) ++ B) as E2 by (by rewrite <- app_assoc).
  assert (hd_addr (A ++ [(p, s)]) 0 = base) as Ehd.
  { assert (hd_addr l 0 = base) as Eb by (by rewrite El). rewrite E in Eb. by destruct A. }
  rewrite E2 in Hs, Ha. apply seg_app in Hs as [Hs1 Hs2]. apply ascending_app in Ha as (Ha1 & Ha2 & _).
  assert (bp < hd_addr B base \/ hd_addr B base <= p) as Hnext.
  { destruct B as [|b B]; cbn; [right|left].
    - destruct A as [|b A]; cbn in *; [lia|]. destruct Ha1 as (_ & Hg & _).
      apply Forall_app in Hg as [_ Hg]. apply Forall_cons in Hg as [Hg%gap_lt _]. cbn in Hg. lia.
    - by apply Forall_cons in HB as [? _]. }
  assert (length l = length A + S (length B))%nat as Hlen by (rewrite E, length_app; done).
  rewrite E2, fmap_app, elem_of_app in Hfp. destruct Hfp as [Hfp|Hfp].
  - assert (exists L0 L1, A = L0 ++ L1 /\ hd_addr (L1 ++ [(p, s)]) 0 = h.(freep)) as (L0 & L1 & -> & <-).
    { rewrite fmap_app, elem_of_app in Hfp. destruct Hfp as [Hfp|Hfp].
      - apply list_elem_of_fmap in Hfp as (b & -> & (L0 & L1 & ->)%list_elem_of_split). by exists L0, (b :: L1).
      - apply list_elem_of_singleton in Hfp as ->. exists A, []. by rewrite app_nil_r. }
    rewrite <- (app_assoc L0) in *. apply seg_app in Hs1 as [_ Hs1]. apply ascending_app in Ha1 as (_ & Ha1 & _).
    apply Forall_app in HA as [_ HA]. rewrite length_app in Hlen. eapply find_low; [exact Hs1|exact Ha1|exact HA|exact Hnext|lia].
  - apply list_elem_of_fmap in Hfp as (b & Eb & (B0 & B1 & ->)%list_elem_of_split).
    apply seg_app in Hs2 as [_ Hs2]. apply ascending_app in Ha2 as (_ & Ha2 & _). apply Forall_app in HB as [_ HB].
    rewrite Eb. change b.1 with (hd_addr (b :: B1) base). rewrite length_app in Hlen. cbn [length] in Hlen.
    rewrite (find_high fuel h.(hmem) bp (b :: B1) base Hs2 Ha2 HB Hb) by (cbn [length]; lia).
    replace base with (hd_addr (A ++ [(p, s)]) 0) at 1 by exact Ehd.
    eapply find_low; [exact Hs1|exact Ha1|exact HA|exact Hnext|cbn [length]; lia].
Qed.

(** ** Linking a block in *)

(** A block put before others, merged with the first if it touches it. *)
Definition link (p s : Z) (B : list block) : list block :=
  match B with
  | b :: B' => if p + HDR * s =? b.1 then (p, s + b.2) :: B' else (p, s) :: B
  | [] => [(p, s)]
  end.

Lemma link_hd p s B e : hd_addr (link p s B) e = p.
Proof. unfold link. destruct B; [done|]. by destruct (_ =? _). Qed.

Lemma covers_cons b l a : covers (b :: l) a <-> b.1 <= a < b.1 + HDR * b.2 \/ covers l a.
Proof. unfold covers. setoid_rewrite elem_of_cons. naive_solver. Qed.

Lemma covers_app l1 l2 a : covers (l1 ++ l2) a <-> covers l1 a \/ covers l2 a.
Proof. unfold covers. setoid_rewrite elem_of_app. naive_solver. Qed.

Lemma covers_nil a : ~ covers [] a.
Proof. intros (b & Hb & _). by apply elem_of_nil in Hb. Qed.

Lemma covers_link p s B a :
  0 <= s -> Forall (fun b => 0 <= b.2) B -> covers (link p s B) a <-> p <= a < p + HDR * s \/ covers B a.
Proof.
  intros Hn HB. unfold link. destruct B as [|b B]; [by rewrite covers_cons|].
  destruct (Z.eqb_spec (p + HDR * s) b.1) as [E|E]; rewrite !covers_cons; cbn; [|done].
  apply Forall_cons in HB as [Hb _]. rewrite <- E. unfold HDR. split; [intros [H|H]; [|tauto]|intros [H|[H|H]]; [left|left|tauto]]; lia.
Qed.

(** Block [q] is given the successor [x], or absorbs it if it touches it: the
    two halves of [free_link]. *)
Definition absorb (q x : Z) (m : mem) : mem :=
  if plus q (size m q) =? x then
    set_ptr q (ptr m x) (set_size q (u32 (size m q + size m x)) m)
  else set_ptr q x m.

Lemma free_link_eq bp p m : apart bp p -> apart bp (ptr m p) -> free_link bp p m = absorb p bp (absorb bp (ptr m p) m).
Proof.
  intros Hp Hq. unfold free_link. set (m1 := if plus bp (size m bp) =? ptr m p then _ else _).
  assert (m1 = absorb bp (ptr m p) m) as <-.
  { unfold m1, absorb. destruct (_ =? _); [|done]. cbv zeta. f_equal.
    rewrite (proj1 (header_set_size bp p _ m Hp)). by apply header_set_size. }
  clearbody m1. unfold absorb. destruct (_ =? _); [|done]. cbv zeta. f_equal.
  apply header_set_size. by apply apart_sym.
Qed.

Lemma absorb_run q n x m X e :
  seg m X e -> hd_addr X e = x -> size m q = n -> 0 <= q -> 0 <= n -> q + HDR * n < 2 ^ 31 -> 0 <= x < 2 ^ 32 ->
  Forall (fun b => q + extent (q, n) <= b.1 /\ 0 <= b.2 /\ b.1 + HDR * b.2 < 2 ^ 31) X -> 0 <= e < 2 ^ 32 ->
  (X = [] -> q + HDR * n <> x) ->
  seg (absorb q x m) (link q n X) e /\
  (forall r, apart q r -> ptr (absorb q x m) r = ptr m r /\ size (absorb q x m) r = size m r).
Proof.
  unfold HDR. intros Hs Hx Hn Hq H0 Hr Hxr HX He Hnil. unfold absorb. rewrite Hn. unfold plus, HDR. rewrite u32_small by lia.
  assert (forall v r, apart q r -> ptr (set_ptr q v m) r = ptr m r /\ size (set_ptr q v m) r = size m r) as Hk1
    by (intros; by apply header_set_ptr).
  destruct (Z.eqb_spec (q + 8 * n) x) as [E|E].
  - destruct X as [|b X]; [by destruct Hnil|]. cbn in Hx. apply Forall_cons in HX as [(Hb1 & Hb2 & Hb3) HX].
    cbn [link]. unfold HDR. rewrite (proj2 (Z.eqb_eq (q + 8 * n) b.1)) by lia. cbn [seg] in Hs. destruct Hs as (Hsz & Hpt & Hs).
    set (m' := set_size q (u32 (n + size m x)) m).
    assert (forall r, apart q r -> ptr (set_ptr q (ptr m x) m') r = ptr m r /\ size (set_ptr q (ptr m x) m') r = size m r) as Hk2.
    { intros r Hr'. destruct (header_set_ptr q r (ptr m x) m' Hr') as [-> ->]. by apply header_set_size. }
    split; [|exact Hk2]. cbn [seg fst snd]. split; [|split].
    + rewrite size_set_ptr. unfold m'. rewrite size_set_size, <- Hx, Hsz. rewrite u32_idemp. apply u32_small. unfold extent, HDR in *. cbn in Hb1. lia.
    + rewrite ptr_set_ptr, <- Hx, Hpt. apply u32_small. destruct X as [|b' X]; cbn; [exact He|].
      apply Forall_cons in HX as [(Hb1' & Hb2' & Hb3') _]. unfold extent, HDR in *. cbn in *. lia.
    + apply (seg_ext m); [|done]. intros b' Hb'. apply Hk2. rewrite Forall_forall in HX.
      destruct (HX b' Hb') as (Hd & _). unfold apart, extent, HDR in *. cbn in *. lia.
  - split; [|by apply Hk1]. assert (link q n X = (q, n) :: X) as ->.
    { unfold link, HDR. destruct X as [|b X]; [done|]. cbn in Hx. by rewrite (proj2 (Z.eqb_neq _ _)) by lia. }
    cbn [seg fst snd]. split; [by rewrite size_set_ptr|]. split; [rewrite ptr_set_ptr, Hx; by apply u32_small|].
    apply (seg_ext m); [|done]. intros b' Hb'. apply Hk1. rewrite Forall_forall in HX.
    destruct (HX b' Hb') as (Hd & _). unfold apart, extent, HDR in *. cbn in *. lia.
Qed.

Lemma ascending_link p s X :
  0 <= s -> ascending X -> Forall (fun b => p + extent (p, s) <= b.1) X -> ascending (link p s X).
Proof.
  intros Hs Ha Hg. unfold link. destruct X as [|b X]; [by repeat constructor|].
  apply ascending_cons in Ha as (Hb & Hgb & Ha). apply Forall_cons in Hg as [Hp Hg].
  destruct (Z.eqb_spec (p + HDR * s) b.1) as [E|E].
  - apply ascending_cons. cbn [fst snd]. split; [lia|]. split; [|done]. eapply Forall_impl; [exact Hgb|].
    intros b' [H1 H2]. unfold gap, extent, HDR in *. cbn in *. lia.
  - apply ascending_cons. split; [done|]. split; [|by apply ascending_cons]. constructor.
    + split; [exact Hp|exact E].
    + eapply Forall_impl; [exact Hgb|]. intros b' Hb'%gap_lt. unfold gap, extent, HDR in *. cbn in *. lia.
Qed.

(** What holds of addresses before a list, or of the ends of its blocks. *)
Lemma gap_link c p s X : gap c (p, s) -> Forall (gap c) X -> Forall (gap c) (link p s X).
Proof.
  intros Hp HX. unfold link. destruct X as [|b X]; [by apply Forall_singleton|].
  destruct (_ =? _); [|by constructor]. apply Forall_cons in HX as [_ HX]. by constructor.
Qed.

Lemma range_link k p s X :
  p + extent (p, s) <= k -> 0 <= s -> Forall (fun b => 0 <= b.2) X -> Forall (fun b => b.1 + extent b <= k) X ->
  Forall (fun b => b.1 + extent b <= k) (link p s X).
Proof.
  intros Hp Hs H0 HX. unfold link. destruct X as [|b X]; [by apply Forall_singleton|]. apply Forall_cons in H0 as [H0 _].
  destruct (Z.eqb_spec (p + HDR * s) b.1) as [E|E]; [|by constructor]. apply Forall_cons in HX as [Hb HX]. constructor; [|done].
  unfold extent, HDR in *. cbn in *. lia.
Qed.

Lemma positive_link p s X : 0 < s -> Forall (fun b => 0 < b.2) X -> Forall (fun b => 0 < b.2) (link p s X).
Proof.
  intros Hs HX. unfold link. destruct X as [|b X]; [by apply Forall_singleton|].
  destruct (_ =? _); [|by constructor]. apply Forall_cons in HX as [Hb HX]. constructor; [cbn; lia|done].
Qed.

Lemma length_link p s X : (length (link p s X) <= S (length X))%nat.
Proof. unfold link. destruct X; [done|]. destruct (_ =? _); cbn; lia. Qed.

Lemma store_frame q v m a : a < q \/ q + HDR <= a -> load8 (set_ptr q v m) a = load8 m a /\ load8 (set_size q v m) a = load8 m a.
Proof. unfold HDR. intros. split; apply load8_store32_ne; lia. Qed.

Lemma absorb_frame q x m a : a < q \/ q + HDR <= a -> load8 (absorb q x m) a = load8 m a.
Proof.
  intros H. unfold absorb. destruct (_ =? _); rewrite (proj1 (store_frame q _ _ a H)); [|done]. by apply store_frame.
Qed.

(** Memory that belongs to the allocator: free blocks and the header of [base]. *)
Definition owned (l : list block) (a : Z) : Prop := covers l a \/ base <= a < base + HDR.

Lemma header_owned h l b a : heap_ok h l -> b ∈ l -> b.1 <= a < b.1 + HDR -> owned l a.
Proof.
  intros H Hb Ha. destruct (ok_base _ _ H) as (bs & -> & Hpos). apply elem_of_cons in Hb as [->|Hb]; [by right|].
  left. exists b. split; [by right|]. rewrite Forall_forall in Hpos. specialize (Hpos b Hb). cbn in Hpos. unfold HDR in *. lia.
Qed.

Lemma sizes_nonneg l : ascending l -> Forall (fun b => 0 <= b.2) l.
Proof. induction l as [|b l IH]; cbn; [constructor|]. intros (? & _ & ?). constructor; auto. Qed.

Lemma base_below h l : heap_ok h l -> 0 < base /\ base + HDR <= h.(brk) /\ h.(brk) < 2 ^ 31.
Proof.
  intros H. destruct (ok_addr _ _ H). destruct (ok_base _ _ H) as (bs & -> & _). pose proof (ok_range _ _ H) as Hr.
  apply Forall_cons in Hr as [Hr _]. unfold extent, HDR in *. cbn [fst snd] in Hr. lia.
Qed.

Lemma base_le h A p s B : heap_ok h (A ++ (p, s) :: B) -> base <= p.
Proof.
  intros H. destruct (ok_base _ _ H) as (bs & El & _). pose proof (ok_asc _ _ H) as Ha.
  destruct A as [|b A]; cbn [app] in El; injection El as [= E1 E2]; [lia|]. subst b.
  apply ascending_app in Ha as (_ & _ & HgA). apply Forall_cons in HgA as [Hg _].
  apply Forall_cons in Hg as [Hg%gap_lt _]. cbn in Hg. lia.
Qed.

(** Bounds on the blocks from a freed one on. *)
Lemma link_bounds bp n B k :
  0 < n -> bp + HDR * n <= k -> Forall (fun b => bp + HDR * n <= b.1) B -> Forall (fun b => 0 <= b.2) B ->
  Forall (fun b => b.1 + extent b <= k) B ->
  Forall (fun b => bp <= b.1 /\ 0 <= b.2 /\ b.1 + HDR * b.2 <= k) (link bp n B).
Proof.
  intros Hn Hk HB H0 Hr.
  assert (Forall (fun b => bp <= b.1 /\ 0 <= b.2 /\ b.1 + HDR * b.2 <= k) B) as Hx.
  { rewrite Forall_forall in *. intros b Hb. specialize (HB b Hb). specialize (H0 b Hb). specialize (Hr b Hb).
    unfold extent, HDR in *. cbn [fst snd] in *. lia. }
  unfold link. destruct B as [|b B]; [apply Forall_singleton; cbn [fst snd]; lia|].
  destruct (Z.eqb_spec (bp + HDR * n) b.1) as [E|E]; [|constructor; [cbn [fst snd]; lia|done]].
  apply Forall_cons in Hx as [Hb Hx]. constructor; [|done]. cbn [fst snd]. unfold HDR in *. lia.
Qed.

(** The memory after [free_link]. *)
Lemma free_link_run h A p s B bp n :
  heap_ok h (A ++ (p, s) :: B) -> size h.(hmem) bp = n -> 0 < n -> bp + HDR * n <= h.(brk) ->
  Forall (fun b => b.1 + extent b <= bp) (A ++ [(p, s)]) -> Forall (fun b => bp + HDR * n <= b.1) B ->
  seg (free_link bp p h.(hmem)) (A ++ link p s (link bp n B)) base.
Proof.
  intros H Hn H0 Hr HA HB. destruct (ok_addr _ _ H) as [Hb0 Hbrk]. pose proof (ok_ring _ _ H) as Hs.
  pose proof (ok_asc _ _ H) as Ha. pose proof (ok_range _ _ H) as Hrg.
  apply Forall_app in HA as [HA Hp]. apply Forall_cons in Hp as [Hp _].
  apply seg_app in Hs as [HsA Hs]. cbn [seg hd_addr fst snd] in *. destruct Hs as (Hsp & Hpp & HsB).
  apply ascending_app in Ha as (HaA & Ha & HgA). apply ascending_cons in Ha as (Hs0 & HgB & HaB). cbn in Hs0.
  apply Forall_app in Hrg as [_ Hrg]. apply Forall_cons in Hrg as [_ HrB].
  pose proof (sizes_nonneg _ HaB) as HB0.
  pose proof (base_le h A p s B H) as Hbp.
  unfold extent, HDR in Hp. cbn [fst snd] in Hp.
  assert (0 <= hd_addr B base < 2 ^ 32 /\ hd_addr B base <> bp /\ (hd_addr B base = base \/ bp + HDR * n <= hd_addr B base)) as (He & Hne & Hwh).
  { destruct B as [|b B]; cbn [hd_addr]; [unfold HDR in *; lia|]. apply Forall_cons in HB as [Hb _], HrB as [Hrb _], HB0 as [Hb2 _].
    unfold extent, HDR in *. lia. }
  rewrite free_link_eq; [|unfold apart, HDR; lia|rewrite Hpp; unfold apart, HDR in *; lia]. rewrite Hpp.
  destruct (absorb_run bp n (hd_addr B base) h.(hmem) B base) as [HC Hk]; auto; try (unfold HDR in *; lia).
  { rewrite Forall_forall in *. intros b Hb. specialize (HB b Hb). specialize (HrB b Hb). specialize (HB0 b Hb).
    unfold extent, HDR in *. cbn [fst snd] in *. lia. }
  { intros ->. cbn in *. unfold HDR in *. lia. }
  set (m1 := absorb bp (hd_addr B base) h.(hmem)) in *.
  destruct (absorb_run p s bp m1 (link bp n B) base) as [HD Hk2]; auto; try (unfold HDR in *; lia).
  { apply link_hd. }
  { rewrite <- Hsp. apply Hk. unfold apart, HDR. lia. }
  { pose proof (link_bounds bp n B h.(brk) ltac:(lia) ltac:(unfold HDR in *; lia) HB HB0 HrB) as HC0.
    eapply Forall_impl; [exact HC0|]. intros b (H1 & H2 & H3). unfold extent, HDR in *. cbn [fst snd] in *. lia. }
  { intros E. exfalso. pose proof (link_hd bp n B 0) as Hh. rewrite E in Hh. cbn in Hh. unfold HDR in *. lia. }
  apply seg_app. split; [|exact HD]. rewrite link_hd. apply (seg_ext h.(hmem)); [|exact HsA].
  intros b Hb. rewrite Forall_forall in HA, HgA. pose proof (HA b Hb) as Hb1. specialize (HgA b Hb).
  apply Forall_cons in HgA as [Hg%gap_apart _]. cbn in Hg.
  assert (apart bp b.1) as Hb2 by (unfold apart, extent, HDR in *; lia).
  destruct (Hk2 b.1 (apart_sym _ _ Hg)) as [-> ->]. by apply Hk.
Qed.

(** The blocks after [free]. *)
Lemma free_blocks h A p s B bp n :
  heap_ok h (A ++ (p, s) :: B) -> size h.(hmem) bp = n -> 0 < n -> bp + HDR * n <= h.(brk) ->
  Forall (fun b => b.1 + extent b <= bp) (A ++ [(p, s)]) -> Forall (fun b => bp + HDR * n <= b.1) B ->
  heap_ok (mk_heap (free_link bp p h.(hmem)) p h.(brk)) (A ++ link p s (link bp n B)).
Proof.
  intros H Hn H0 Hr HA HB. pose proof (free_link_run h A p s B bp n H Hn H0 Hr HA HB) as Hseg.
  destruct (ok_addr _ _ H) as [Hb0 Hbrk]. pose proof (ok_range _ _ H) as Hrg.
  pose proof (ok_asc _ _ H) as Ha. apply ascending_app in Ha as (HaA & Ha & HgA).
  apply ascending_cons in Ha as (Hs0 & HgB & HaB). cbn [fst snd] in Hs0. pose proof (sizes_nonneg _ HaB) as HB0.
  apply Forall_app in Hrg as [HrA Hrg]. apply Forall_cons in Hrg as [Hrp HrB].
  apply Forall_app in HA as [HA Hp]. apply Forall_cons in Hp as [Hp _].
  pose proof (link_bounds bp n B h.(brk) H0 Hr HB HB0 HrB) as Hbd.
  assert (ascending (link bp n B)) as HaC.
  { apply ascending_link; [lia|done|]. eapply Forall_impl; [exact HB|]. unfold extent, HDR. cbn [fst snd]. lia. }
  assert (Forall (fun b => p + extent (p, s) <= b.1) (link bp n B)) as HpC.
  { eapply Forall_impl; [exact Hbd|]. cbn [fst snd] in Hp. cbn [fst]. lia. }
  split; cbn [hmem freep brk].
  - exact Hseg.
  - apply ascending_app. split; [done|]. split; [by apply ascending_link|]. rewrite Forall_forall in *. intros b Hb.
    specialize (HgA b Hb). apply Forall_cons in HgA as [Hg1 Hg2]. apply gap_link; [done|]. apply gap_link; [|done].
    specialize (HA b Hb). apply gap_lt in Hg1 as Hlt. unfold gap, extent, HDR in *. cbn [fst snd] in *. lia.
  - destruct (ok_base _ _ H) as (bs & El & Hpos). destruct A as [|b A]; cbn [app] in El; injection El as [= E1 E2].
    + subst p s bs. exists (link bp n B). split; [|by apply positive_link]. unfold link at 1.
      pose proof (link_hd bp n B 0) as Hh. destruct (link bp n B) as [|c C]; [done|]. cbn in Hh. rewrite Hh.
      unfold extent, HDR in *. cbn [fst snd] in *. by rewrite (proj2 (Z.eqb_neq _ _)) by lia.
    + subst b bs. exists (A ++ link p s (link bp n B)). split; [done|]. apply Forall_app in Hpos as [Hpos1 Hpos2].
      apply Forall_cons in Hpos2 as [Hps Hpos2]. apply Forall_app. split; [done|]. by repeat apply positive_link.
  - rewrite fmap_app. apply elem_of_app. right. pose proof (link_hd p s (link bp n B) (p + 1)) as Hh.
    destruct (link p s (link bp n B)) as [|c C]; [cbn in Hh; lia|]. cbn in Hh. rewrite <- Hh. by left.
  - apply Forall_app. split; [done|]. apply range_link; [done|done| |].
    + eapply Forall_impl; [exact Hbd|]. cbn. lia.
    + apply range_link; auto; [|lia]. unfold extent, HDR in *. cbn [fst snd]. lia.
  - done.
Qed.

(** A block of [n] units at [bp], taken out of the heap. *)
Definition taken (h : heap) (l : list block) (bp n : Z) : Prop :=
  size h.(hmem) bp = n /\ 0 < n /\ base + HDR <= bp /\ bp + HDR * n <= h.(brk) /\
  forall b, b ∈ l -> b.1 + extent b <= bp \/ bp + HDR * n <= b.1.

Lemma free_run fuel h l bp n :
  heap_ok h l -> taken h l bp n -> (length l < fuel)%nat ->
  exists h' l', free fuel (bp + HDR) h = Some h' /\ heap_ok h' l' /\ h'.(brk) = h.(brk) /\
    (forall a, covers l' a <-> covers l a \/ bp <= a < bp + HDR * n) /\
    (exists b, b ∈ l' /\ n <= b.2) /\ (length l' <= S (length l))%nat /\
    (forall a, ~ owned l a -> ~ (bp <= a < bp + HDR * n) -> load8 h'.(hmem) a = load8 h.(hmem) a).
Proof.
  intros H (Hn & H0 & Hb & Hr & Hd) Hf.
  destruct (find_run h l bp fuel H) as (A & p & s & B & -> & HA & HB & E); [unfold HDR in *; lia| |done|].
  { intros b Hin Eb. pose proof (sizes_nonneg _ (ok_asc _ _ H)) as Hsz. rewrite Forall_forall in Hsz.
    destruct (Hd b Hin); unfold extent, HDR in *; lia. }
  pose proof (sizes_nonneg _ (ok_asc _ _ H)) as Hsz. apply Forall_app in Hsz as [_ Hsz]. apply Forall_cons in Hsz as [Hs0 HB0]. cbn in Hs0.
  assert (Forall (fun b => b.1 + extent b <= bp) (A ++ [(p, s)])) as HA'.
  { rewrite Forall_forall in *. intros b Hin. specialize (HA b Hin).
    destruct (Hd b) as [?|?]; [rewrite elem_of_app, elem_of_cons in *; set_solver|done|cbn in HA; unfold HDR in *; lia]. }
  assert (Forall (fun b => bp + HDR * n <= b.1) B) as HB'.
  { rewrite Forall_forall in *. intros b Hin. specialize (HB b Hin).
    destruct (Hd b) as [?|?]; [rewrite elem_of_app, elem_of_cons; auto|cbn in HB; unfold extent, HDR in *; lia|done]. }
  eexists _, _. split; [unfold free; replace (bp + HDR - HDR) with bp by lia; by rewrite E|].
  split; [by apply (free_blocks h A p s B bp n)|]. split; [done|]. split; [|split; [|split]].
  - intros a. rewrite !covers_app, covers_cons. rewrite covers_link; [|done|].
    + rewrite covers_link by (done || lia). cbn [fst snd]. tauto.
    + pose proof (link_bounds bp n B h.(brk)) as Hbd. pose proof (ok_range _ _ H) as Hrg.
      apply Forall_app in Hrg as [_ Hrg]. apply Forall_cons in Hrg as [_ HrB].
      eapply Forall_impl; [exact (Hbd H0 Hr HB' HB0 HrB)|]. cbn. lia.
  - pose proof (link_hd bp n B 0) as Hh. assert (exists c C, link bp n B = c :: C /\ n <= c.2) as (c & C & Ec & Hc).
    { unfold link. destruct B as [|b B]; [by exists (bp, n), []|]. apply Forall_cons in HB0 as [? _].
      destruct (_ =? _); eexists _, _; (split; [done|]); cbn; lia. }
    rewrite Ec. unfold link. destruct (_ =? _); eexists; (split; [apply elem_of_app; right|]); [by left|cbn; lia|right; by left|done].
  - rewrite !length_app. pose proof (length_link p s (link bp n B)). pose proof (length_link bp n B). cbn [length]. lia.
  - intros a Ho Hbl. cbn [hmem]. assert (~ (p <= a < p + HDR)) as Hpa.
    { intros Ha. apply Ho. apply (header_owned h (A ++ (p, s) :: B) (p, s)); [done|rewrite elem_of_app, elem_of_cons; auto|done]. }
    assert (~ (bp <= a < bp + HDR)) as Hba by (unfold HDR in *; lia).
    rewrite free_link_eq; [rewrite !absorb_frame; [done|lia..]| |].
    + apply Forall_app in HA' as [_ Hp]. apply Forall_cons in Hp as [Hp _]. unfold apart, extent, HDR in *. cbn [fst snd] in *. lia.
    + pose proof (ok_ring _ _ H) as Hs. apply seg_app in Hs as [_ Hs]. cbn [seg fst snd] in Hs. destruct Hs as (_ & -> & _).
      destruct B as [|b B]; cbn [hd_addr]; [unfold apart, HDR in *; lia|]. apply Forall_cons in HB' as [? _]. unfold apart, HDR in *. lia.
Qed.

(** ** Taking a block *)

(** What [malloc] gives: a block that is no longer free. *)
Definition gives (h : heap) (l : list block) (bp n : Z) (h' : heap) (l' : list block) : Prop :=
  heap_ok h' l' /\ taken h' l' bp n /\
  (forall a, covers l a <-> covers l' a \/ bp <= a < bp + HDR * n) /\
  (forall a, ~ owned l a -> load8 h'.(hmem) a = load8 h.(hmem) a).

Lemma blocks_apart h A q t a s B :
  heap_ok h (A ++ (q, t) :: (a, s) :: B) -> 0 < s ->
  q + extent (q, t) < a \/ q + HDR = a /\ t = 0.
Proof.
  intros H Hs. pose proof (ok_asc _ _ H) as Ha. apply ascending_app in Ha as (_ & Ha & _).
  apply ascending_cons in Ha as (Ht & Hg & _). apply Forall_cons in Hg as [[H1 H2] _].
  unfold extent, HDR in *. cbn [fst snd] in *. lia.
Qed.

(** Every other block ends before the block [a] or starts after it. *)
Lemma others_apart h A a s B b :
  heap_ok h (A ++ (a, s) :: B) -> 0 < s -> b ∈ A ++ B -> b.1 + extent b <= a \/ a + HDR * s <= b.1.
Proof.
  intros H Hs Hb. pose proof (ok_asc _ _ H) as Ha. apply ascending_app in Ha as (_ & Ha & HgA).
  apply ascending_cons in Ha as (_ & HgB & _). apply elem_of_app in Hb as [Hb|Hb].
  - rewrite Forall_forall in HgA. specialize (HgA b Hb). apply Forall_cons in HgA as [[? _] _]. by left.
  - rewrite Forall_forall in HgB. destruct (HgB b Hb) as [? _]. right. unfold extent, HDR in *. cbn [fst snd] in *. lia.
Qed.

(** The whole block. *)
Lemma carve_all h A q t a s B :
  heap_ok h (A ++ (q, t) :: (a, s) :: B) -> 0 < s ->
  exists h', carve s q a h = (a + HDR, h') /\ h'.(brk) = h.(brk) /\
    gives h (A ++ (q, t) :: (a, s) :: B) a s h' (A ++ (q, t) :: B).
Proof.
  intros H Hs. pose proof (ok_ring _ _ H) as Hr. pose proof (ok_asc _ _ H) as Ha. destruct (ok_addr _ _ H) as [Hb0 Hbrk].
  pose proof (ok_range _ _ H) as Hrg. pose proof (blocks_apart h A q t a s B H Hs) as Hqa.
  pose proof (seg_app h.(hmem) A ((q, t) :: (a, s) :: B) base) as [Hsp _]. destruct (Hsp Hr) as [HsA Hs2].
  cbn [seg hd_addr fst snd] in Hs2, HsA. destruct Hs2 as (Hsq & Hpq & Hsa & Hpa & HsB).
  unfold carve. rewrite Hsa, Z.eqb_refl, Hpa. eexists. split; [done|]. split; [done|]. unfold gives.
  assert (forall b, b ∈ A ++ B -> apart q b.1) as Hap.
  { apply ascending_app in Ha as (_ & Ha & HgA). apply ascending_cons in Ha as (_ & HgB & _). intros b Hb.
    apply elem_of_app in Hb as [Hb|Hb].
    - rewrite Forall_forall in HgA. specialize (HgA b Hb). apply Forall_cons in HgA as [Hg%gap_apart _]. by apply apart_sym.
    - apply Forall_cons in HgB as [_ HgB]. rewrite Forall_forall in HgB. by apply (gap_apart (q, t) b), HgB. }
  assert (0 <= hd_addr B base < 2 ^ 32) as He.
  { pose proof (base_below h _ H). destruct B as [|b B]; cbn [hd_addr]; [unfold HDR in *; lia|]. apply Forall_app in Hrg as [_ Hrg].
    apply Forall_cons in Hrg as [_ Hrg]. apply Forall_cons in Hrg as [_ Hrg]. apply Forall_cons in Hrg as [Hrb _].
    pose proof (base_le h A q t _ H). apply ascending_app in Ha as (_ & Ha & _). apply ascending_cons in Ha as (_ & Hg & _).
    apply Forall_cons in Hg as [_ Hg]. apply Forall_cons in Hg as [Hg%gap_lt _]. unfold extent, HDR in *. cbn [fst snd] in *. lia. }
  split; [|split; [|split]].
  - split; cbn [hmem freep brk].
    + apply seg_app. cbn [seg hd_addr fst snd]. split_and!.
      * apply (seg_ext h.(hmem)); [|exact HsA]. intros b Hb. apply header_set_ptr, Hap. rewrite elem_of_app. auto.
      * by rewrite size_set_ptr.
      * rewrite ptr_set_ptr. by apply u32_small.
      * apply (seg_ext h.(hmem)); [|exact HsB]. intros b Hb. apply header_set_ptr, Hap. rewrite elem_of_app. auto.
    + apply ascending_app in Ha as (HaA & Ha & HgA). apply ascending_cons in Ha as (H1 & HgB & Ha).
      apply ascending_cons in Ha as (_ & _ & HaB). apply Forall_cons in HgB as [_ HgB].
      apply ascending_app. split; [done|]. split; [by apply ascending_cons|].
      eapply Forall_impl; [exact HgA|]. intros b Hg. apply Forall_cons in Hg as [Hg1 Hg]. apply Forall_cons in Hg as [_ Hg]. by constructor.
    + destruct (ok_base _ _ H) as (bs & El & Hpos). destruct A as [|b A]; cbn [app] in El; injection El as [= E1 E2].
      * subst bs. apply Forall_cons in Hpos as [_ Hpos]. exists B. split; [cbn [app]; congruence|done].
      * subst bs. exists (A ++ (q, t) :: B). split; [cbn [app]; congruence|]. rewrite Forall_app, !Forall_cons in *. tauto.
    + rewrite fmap_app, elem_of_app. right. by left.
    + rewrite Forall_app, !Forall_cons in *. tauto.
    + done.
  - split; [cbn [hmem]; rewrite <- Hsa; apply header_set_ptr; unfold apart, extent, HDR in *; cbn [fst snd] in *; lia|].
    split; [done|]. pose proof (base_le h A q t _ H) as Hbq.
    split; [unfold extent, HDR in *; cbn [fst snd] in *; lia|]. split.
    { cbn [brk]. apply Forall_app in Hrg as [_ Hrg]. apply Forall_cons in Hrg as [_ Hrg]. apply Forall_cons in Hrg as [Hra _].
      unfold extent, HDR in *. cbn [fst snd] in *. lia. }
    intros b Hb. apply (others_apart h (A ++ [(q, t)]) a s B); [by rewrite <- app_assoc|done|].
    rewrite !elem_of_app, elem_of_cons in *. naive_solver.
  - intros x. rewrite !covers_app, !covers_cons. cbn [fst snd]. tauto.
  - intros x Hx. cbn [hmem]. apply store_frame. assert (~ (q <= x < q + HDR)); [|lia].
    intros Hq. apply Hx. apply (header_owned h _ (q, t)); [done|rewrite elem_of_app, elem_of_cons; auto|done].
Qed.

(** The list with a block made smaller. *)
Lemma shrink_ascending A a s s' B :
  ascending (A ++ (a, s) :: B) -> 0 < s' <= s -> ascending (A ++ (a, s') :: B).
Proof.
  intros (HaA & Ha & HgA)%ascending_app Hs. apply ascending_cons in Ha as (_ & HgB & HaB).
  apply ascending_app. split; [done|]. split.
  - apply ascending_cons. split; [cbn; lia|]. split; [|done]. eapply Forall_impl; [exact HgB|].
    intros b [H1 H2]. unfold gap, extent, HDR in *. cbn [fst snd] in *. lia.
  - eapply Forall_impl; [exact HgA|]. intros b Hg. apply Forall_cons in Hg as [Hg1 Hg]. by constructor.
Qed.

(** The tail of a block. *)
Lemma carve_tail h A a s B n q :
  heap_ok h (A ++ (a, s) :: B) -> 0 < n < s -> q ∈ (A ++ (a, s) :: B).*1 ->
  exists h', carve n q a h = (a + HDR * (s - n) + HDR, h') /\ h'.(brk) = h.(brk) /\
    gives h (A ++ (a, s) :: B) (a + HDR * (s - n)) n h' (A ++ (a, s - n) :: B).
Proof.
  intros H Hn Hq. pose proof (ok_ring _ _ H) as Hr. pose proof (ok_asc _ _ H) as Ha. destruct (base_below _ _ H) as (Hb0 & Hb1 & Hbrk).
  pose proof (ok_range _ _ H) as Hrg. pose proof (base_le h A a s B H) as Hba.
  assert (a + HDR * s <= h.(brk)) as Hend.
  { apply Forall_app in Hrg as [_ Hrg]. apply Forall_cons in Hrg as [Hra _]. unfold extent, HDR in *. cbn [fst snd] in *. lia. }
  pose proof (fun b => others_apart h A a s B b H ltac:(lia)) as Hot.
  destruct (proj1 (seg_app h.(hmem) A ((a, s) :: B) base) Hr) as [HsA Hs2].
  cbn [seg hd_addr fst snd] in Hs2, HsA. destruct Hs2 as (Hsa & Hpa & HsB). unfold HDR in *.
  unfold carve. rewrite Hsa, (proj2 (Z.eqb_neq s n)) by lia. rewrite size_set_size, u32_idemp, (u32_small (s - n)) by lia.
  unfold plus, HDR. rewrite (u32_small (a + _)) by lia. set (bp := a + 8 * (s - n)).
  set (m1 := set_size a (s - n) h.(hmem)). eexists. split; [done|]. split; [done|]. unfold gives.
  assert (forall b, b ∈ A ++ B -> ptr (set_size bp n m1) b.1 = ptr h.(hmem) b.1 /\ size (set_size bp n m1) b.1 = size h.(hmem) b.1) as Hk.
  { intros b Hb. specialize (Hot b Hb). assert (apart bp b.1 /\ apart a b.1) as [Hx1 Hx2] by (unfold apart, bp, extent, HDR in *; lia).
    destruct (header_set_size bp b.1 n m1 Hx1) as [-> ->]. by apply header_set_size. }
  assert (apart bp a) as Hbpa by (unfold apart, bp, HDR; lia).
  split; [|split; [|split]].
  - split; cbn [hmem freep brk].
    + apply seg_app. cbn [seg hd_addr fst snd]. destruct (header_set_size bp a n m1 Hbpa) as [-> ->]. split_and!.
      * apply (seg_ext h.(hmem)); [|exact HsA]. intros b Hb. apply Hk. rewrite elem_of_app. auto.
      * unfold m1. rewrite size_set_size. apply u32_small. lia.
      * unfold m1. by rewrite ptr_set_size.
      * apply (seg_ext h.(hmem)); [|exact HsB]. intros b Hb. apply Hk. rewrite elem_of_app. auto.
    + apply (shrink_ascending A a s); [done|lia].
    + destruct (ok_base _ _ H) as (bs & El & Hpos). destruct A as [|b A]; cbn [app] in El; injection El as [= E1 E2]; [lia|].
      subst bs. exists (A ++ (a, s - n) :: B). split; [cbn [app]; congruence|].
      rewrite Forall_app, !Forall_cons in *. cbn [snd] in *. split; [tauto|]. split; [lia|tauto].
    + rewrite fmap_app in *. exact Hq.
    + apply Forall_app in Hrg as [HrA Hrg]. apply Forall_cons in Hrg as [Hra HrB]. apply Forall_app. split; [done|].
      constructor; [|done]. unfold extent, HDR in *. cbn [fst snd] in *. lia.
    + lia.
  - unfold taken, HDR. cbn [hmem brk]. split_and!; [rewrite size_set_size; apply u32_small; lia|lia| |unfold bp; lia|].
    + unfold bp. lia.
    + intros b Hb. rewrite elem_of_app, elem_of_cons in Hb. destruct Hb as [Hb|[->|Hb]].
      * destruct (Hot b) as [?|?]; [rewrite elem_of_app; auto|left; unfold bp; lia|right; unfold bp; lia].
      * left. unfold extent, bp, HDR. cbn [fst snd]. lia.
      * destruct (Hot b) as [?|?]; [rewrite elem_of_app; auto|left; unfold bp; lia|right; unfold bp; lia].
  - intros x. rewrite !covers_app, !covers_cons. cbn [fst snd]. unfold HDR, bp. split.
    + intros [?|[?|?]]; [tauto| |tauto]. destruct (Z.lt_ge_cases x (a + 8 * (s - n))); [left; right; left|right]; lia.
    + intros [[?|[?|?]]|?]; [tauto| |tauto|]; right; left; lia.
  - intros x Hx. cbn [hmem]. assert (~ (a <= x < a + 8 * s)) as Hxa.
    { intros Hx'. apply Hx. left. exists (a, s). split; [rewrite elem_of_app, elem_of_cons; auto|]. cbn [fst snd]. unfold HDR. lia. }
    rewrite (proj2 (store_frame bp n m1 x ltac:(unfold bp, HDR; lia))). apply store_frame. unfold HDR. lia.
Qed.

(** ** The search of [malloc] *)

(** First fit along a list of blocks, with the block before the one found. *)
Fixpoint first_fit (n prev : Z) (R : list block) : option (Z * block) :=
  match R with
  | [] => None
  | b :: R' => if b.2 >=? n then Some (prev, b) else first_fit n b.1 R'
  end.

Lemma first_fit_Some n prev R q b :
  first_fit n prev R = Some (q, b) ->
  n <= b.2 /\ ((exists R2, R = b :: R2 /\ q = prev) \/ exists R1 t R2, R = R1 ++ (q, t) :: b :: R2).
Proof.
  revert prev. induction R as [|c R IH]; intros prev; [done|]. cbn [first_fit]. destruct (Z.geb_spec c.2 n).
  - intros [= <- <-]. split; [lia|]. left. eauto.
  - intros (Hb & Hx)%IH. split; [done|]. right. destruct Hx as [(R2 & -> & ->)|(R1 & t & R2 & ->)].
    + exists [], c.2, R2. by destruct c.
    + by exists (c :: R1), t, R2.
Qed.

Lemma first_fit_None n prev R : first_fit n prev R = None <-> Forall (fun b => b.2 < n) R.
Proof.
  revert prev. induction R as [|c R IH]; intros prev; cbn [first_fit]; [by split|]. rewrite Forall_cons.
  destruct (Z.geb_spec c.2 n); [split; [done|lia]|]. rewrite IH. intuition lia.
Qed.

(** One lap of the search, which ends at [freep]. *)
Lemma scan_run grants fuel n prev R e h f s :
  seg h.(hmem) (R ++ [(f, s)]) e -> f = h.(freep) -> f ∉ R.*1 -> (length R < fuel)%nat ->
  malloc_loop grants fuel n prev (hd_addr (R ++ [(f, s)]) 0) h =
  match first_fit n prev (R ++ [(f, s)]) with
  | Some (q, b) => Some (carve n q b.1 h)
  | None =>
      match morecore grants (fuel - length R) n h with
      | None => None
      | Some (None, h') => Some (0, h')
      | Some (Some p', h') => malloc_loop grants (fuel - length R - 1) n p' (ptr h'.(hmem) p') h'
      end
  end.
Proof.
  intros Hs -> Hf. revert fuel prev Hs. induction R as [|b R IH]; intros fuel prev Hs Hl; (destruct fuel as [|k]; [lia|]).
  - cbn [app hd_addr first_fit seg malloc_loop fst snd length] in *. destruct Hs as (-> & _ & _).
    destruct (s >=? n); [done|]. rewrite Z.eqb_refl. by replace (S k - 0 - 1)%nat with k by lia.
  - cbn [app hd_addr first_fit seg malloc_loop] in *. destruct Hs as (-> & Hp & Hs). destruct (b.2 >=? n); [done|].
    cbn [fmap list_fmap] in Hf. apply not_elem_of_cons in Hf as [Hne Hf]. rewrite (proj2 (Z.eqb_neq b.1 _)) by done.
    rewrite Hp. assert (hd_addr (R ++ [(h.(freep), s)]) e = hd_addr (R ++ [(h.(freep), s)]) 0) as -> by (by destruct R).
    cbn [length] in *. rewrite IH by (done || lia). done.
Qed.

(** Addresses are distinct. *)
Lemma ascending_nodup l : ascending l -> NoDup l.*1.
Proof.
  induction l as [|b l IH]; cbn; [constructor|]. intros (_ & Hg & Ha). constructor; [|auto].
  rewrite list_elem_of_fmap. intros (b' & E & Hb'). rewrite Forall_forall in Hg. destruct (Hg b' Hb') as [Hlt _].
  unfold extent, HDR in Hlt. lia.
Qed.

(** The list from the block after [freep] around to [freep]. *)
Lemma rotation h l :
  heap_ok h l -> exists L1 s L2, l = L1 ++ (h.(freep), s) :: L2 /\
    seg h.(hmem) ((L2 ++ L1) ++ [(h.(freep), s)]) (hd_addr ((L2 ++ L1) ++ [(h.(freep), s)]) 0) /\ h.(freep) ∉ (L2 ++ L1).*1 /\
    ptr h.(hmem) h.(freep) = hd_addr ((L2 ++ L1) ++ [(h.(freep), s)]) 0.
Proof.
  intros H. pose proof (ok_freep _ _ H) as Hf. apply list_elem_of_fmap in Hf as ([f s] & Ef & (L1 & L2 & El)%list_elem_of_split).
  cbn in Ef. subst f. exists L1, s, L2. split; [done|].
  assert (ring h.(hmem) l) as Hr by (destruct (ok_base _ _ H) as (bs & Eb & _); unfold ring; rewrite Eb; cbn [hd_addr fst];
    rewrite <- Eb; apply H).
  assert (ring h.(hmem) (L2 ++ (L1 ++ [(h.(freep), s)]))) as Hr2.
  { apply ring_rotate. rewrite <- app_assoc. cbn [app]. by rewrite <- El. }
  split; [|split].
  - rewrite <- app_assoc. exact Hr2.
  - pose proof (ascending_nodup _ (ok_asc _ _ H)) as Hd. rewrite El, fmap_app, fmap_cons in Hd. cbn [fst] in Hd.
    apply NoDup_app in Hd as (_ & Hd1 & Hd2). apply NoDup_cons in Hd2 as [Hd2 _]. rewrite fmap_app, elem_of_app.
    intros [?|Hin]; [done|]. apply (Hd1 _ Hin). by left.
  - pose proof (ok_ring _ _ H) as Hs. rewrite El in Hs. apply seg_app in Hs as [_ Hs]. cbn [seg fst snd] in Hs.
    destruct Hs as (_ & -> & _). destruct L2 as [|b L2]; [|done]. cbn [app hd_addr].
    destruct (ok_base _ _ H) as (bs & Eb & _). rewrite El in Eb. destruct L1 as [|b L1]; cbn in Eb |- *; by injection Eb as [= -> _].
Qed.

(** Neighbours in the rotated list are neighbours in the list, unless the
    second is the first of all. *)
Lemma neighbours (K L R1 R2 : list block) x b :
  L ++ K = R1 ++ x :: b :: R2 -> (forall K', K <> b :: K') -> exists A B, K ++ L = A ++ x :: b :: B.
Proof.
  intros E Hb. apply app_eq_inv in E as [(X & -> & E)|(X & -> & ->)].
  - destruct X as [|x' X]; cbn in E.
    + subst K. exists [], (R2 ++ R1). by rewrite app_nil_r.
    + injection E as [= <- E]. destruct X as [|b' X]; cbn in E; [by destruct (Hb R2)|]. injection E as [= <- ->].
      exists (K ++ R1), X. by rewrite <- app_assoc.
  - exists X, (R2 ++ L). by rewrite <- app_assoc.
Qed.

Lemma found_run h l L1 s L2 n q b :
  heap_ok h l -> l = L1 ++ (h.(freep), s) :: L2 -> 0 < n ->
  first_fit n h.(freep) ((L2 ++ L1) ++ [(h.(freep), s)]) = Some (q, b) ->
  exists bp h' l', carve n q b.1 h = (bp + HDR, h') /\ h'.(brk) = h.(brk) /\ gives h l bp n h' l'.
Proof.
  intros H El Hn Hf. destruct (ok_base _ _ H) as (bs & Eb & Hpos). apply first_fit_Some in Hf as [Hsz Hf].
  assert (l = (L1 ++ [(h.(freep), s)]) ++ L2) as El2 by (rewrite <- app_assoc; exact El). rewrite <- app_assoc in Hf.
  assert (forall K', L1 ++ [(h.(freep), s)] <> b :: K') as Hnb.
  { intros K' E. rewrite El2, E in Eb. cbn in Eb. injection Eb as [= -> _]. cbn in Hsz. lia. }
  assert (exists A t B, l = A ++ (q, t) :: b :: B) as (A & t & B & E).
  { destruct Hf as [(R2 & E & ->)|(R1 & t & R2 & E)].
    - destruct L2 as [|b' L2]; cbn in E; [by destruct (Hnb R2)|]. injection E as [= -> _]. eauto.
    - destruct (neighbours _ _ _ _ _ _ E Hnb) as (A & B & E'). exists A, t, B. by rewrite El2. }
  destruct b as [a sz]. cbn [fst snd] in *. rewrite E in H |- *. destruct (decide (sz = n)) as [->|Hne].
  - destruct (carve_all h A q t a n B H Hn) as (h' & Ec & Hbk & Hg). eauto 10.
  - assert (A ++ (q, t) :: (a, sz) :: B = (A ++ [(q, t)]) ++ (a, sz) :: B) as Ea by (by rewrite <- app_assoc). rewrite Ea in *.
    destruct (carve_tail h (A ++ [(q, t)]) a sz B n q H) as (h' & Ec & Hbk & Hg); [lia| |eauto 10].
    rewrite !fmap_app. rewrite !elem_of_app. left. right. by left.
Qed.

(** The kernel keeps a process below 2 GB. *)
Definition kernel_bound (grants : Z -> Z -> bool) : Prop := forall b n, grants b n = true -> b + n < 2 ^ 31.

(** More memory from the kernel. *)
Lemma morecore_run grants fuel n h l :
  kernel_bound grants -> heap_ok h l -> 0 < n -> HDR * n < 2 ^ 31 -> (length l < fuel)%nat ->
  let k := HDR * Z.max 4096 n in
  if grants h.(brk) k then
    exists h' l', morecore grants fuel n h = Some (Some h'.(freep), h') /\ heap_ok h' l' /\ h'.(brk) = h.(brk) + k /\
      (forall a, covers l' a <-> covers l a \/ h.(brk) <= a < h.(brk) + k) /\ (length l' <= S (length l))%nat /\
      (exists b, b ∈ l' /\ n <= b.2) /\
      (forall a, ~ owned l a -> a < h.(brk) -> load8 h'.(hmem) a = load8 h.(hmem) a)
  else morecore grants fuel n h = Some (None, h).
Proof.
  intros Hgr H Hn Hk Hf k. unfold morecore. set (nu := if n <? 4096 then 4096 else n).
  assert (nu = Z.max 4096 n) as Enu by (unfold nu; destruct (Z.ltb_spec n 4096); lia).
  assert (s32 (u32 (nu * HDR)) = k) as Ek.
  { unfold k, HDR in *. rewrite u32_small, s32_small; lia. }
  unfold sbrk. rewrite Ek. destruct (grants h.(brk) k) eqn:Eg; [|done]. apply Hgr in Eg as Hgb.
  destruct (base_below _ _ H) as (Hb0 & Hb1 & Hbrk). pose proof (ok_range _ _ H) as Hrg. rewrite Forall_forall in Hrg.
  cbn [hmem freep brk]. set (h1 := mk_heap (set_size h.(brk) nu h.(hmem)) h.(freep) (h.(brk) + k)).
  assert (heap_ok h1 l) as H1.
  { destruct H as [A1 A2 A3 A4 A5 A6]. split; cbn [hmem freep brk h1]; try done.
    - apply (seg_ext h.(hmem)); [|done]. intros b Hb. apply header_set_size. specialize (Hrg b Hb). cbn in Hrg.
      unfold apart, extent, HDR in *. lia.
    - apply Forall_forall. intros b Hb. specialize (Hrg b Hb). cbn in Hrg. unfold k, HDR in *. lia. }
  assert (taken h1 l h.(brk) nu) as Ht.
  { unfold taken. cbn [hmem brk h1]. rewrite size_set_size, u32_small by (unfold HDR in *; lia).
    split_and!; [done|lia|unfold HDR in *; lia|unfold k; rewrite Enu; lia|]. intros b Hb. left. by apply Hrg. }
  destruct (free_run fuel h1 l h.(brk) nu H1 Ht Hf) as (h' & l' & E & Hok & Hbk & Hc & (b & Hb & Hsz) & Hlen & Hfr).
  rewrite E. exists h', l'. replace (HDR * nu) with k in * by (unfold k; rewrite Enu; lia). split_and!; try done; eauto.
  - exists b. split; [done|]. lia.
  - intros a Ho Ha. rewrite Hfr; [|done|lia]. cbn [hmem h1]. apply store_frame. lia.
Qed.

(** ** [malloc] on an initialised heap *)

(** The block [bp] of [n] units comes out of the free memory or of memory the
    kernel added. *)
Definition allocates (h : heap) (l : list block) (bp n : Z) (h' : heap) (l' : list block) : Prop :=
  heap_ok h' l' /\ taken h' l' bp n /\ h.(brk) <= h'.(brk) /\
  (forall a, covers l a \/ h.(brk) <= a < h'.(brk) <-> covers l' a \/ bp <= a < bp + HDR * n) /\
  (forall a, ~ owned l a -> a < h.(brk) -> load8 h'.(hmem) a = load8 h.(hmem) a).

(** The kernel refuses and no block is large enough. *)
Definition exhausted (grants : Z -> Z -> bool) (h : heap) (l : list block) (n : Z) : Prop :=
  Forall (fun b => b.2 < n) l /\ grants h.(brk) (HDR * Z.max 4096 n) = false.

Lemma rotation_all (P : block -> Prop) L1 x L2 : Forall P ((L2 ++ L1) ++ [x]) <-> Forall P (L1 ++ x :: L2).
Proof. rewrite !Forall_app, !Forall_cons, Forall_nil. tauto. Qed.

Lemma malloc_loop_run grants fuel n h l :
  kernel_bound grants -> heap_ok h l -> 0 < n -> HDR * n < 2 ^ 31 -> (2 * length l + 2 < fuel)%nat ->
  exists ap h', malloc_loop grants fuel n h.(freep) (ptr h.(hmem) h.(freep)) h = Some (ap, h') /\
    (ap = 0 /\ h' = h /\ exhausted grants h l n \/ exists bp l', ap = bp + HDR /\ allocates h l bp n h' l').
Proof.
  intros Hgr H Hn Hk Hf. destruct (rotation h l H) as (L1 & s & L2 & El & Hs & Hnin & Hp). rewrite Hp.
  assert (length l = length (L2 ++ L1) + 1)%nat as Hlen by (rewrite El, !length_app; cbn; lia).
  rewrite (scan_run grants _ _ _ _ _ _ _ _ Hs eq_refl Hnin) by lia.
  destruct (first_fit n h.(freep) ((L2 ++ L1) ++ [(h.(freep), s)])) as [[q b]|] eqn:Ef.
  - destruct (found_run h l L1 s L2 n q b H El Hn Ef) as (bp & h' & l' & E & Hbk & Hok & Ht & Hc & Hfr).
    rewrite E. eexists _, _. split; [done|]. right. exists bp, l'. split; [done|]. split_and!; try done; [lia| |auto].
    intros a. rewrite <- Hc, Hbk. intuition lia.
  - apply first_fit_None in Ef as Hno. rewrite rotation_all, <- El in Hno.
    pose proof (morecore_run grants (fuel - length (L2 ++ L1)) n h l Hgr H Hn Hk ltac:(lia)) as Hm. cbv zeta in Hm.
    destruct (grants h.(brk) (HDR * Z.max 4096 n)) eqn:Eg.
    + destruct Hm as (h2 & l2 & E2 & H2 & Hbk2 & Hc2 & Hlen2 & (b & Hb & Hbn) & Hfr2). rewrite E2.
      destruct (rotation h2 l2 H2) as (L3 & s3 & L4 & El2 & Hs2 & Hnin2 & Hp2). rewrite Hp2.
      assert (length l2 = length (L4 ++ L3) + 1)%nat as Hlen3 by (rewrite El2, !length_app; cbn; lia).
      rewrite (scan_run grants _ _ _ _ _ _ _ _ Hs2 eq_refl Hnin2) by lia.
      destruct (first_fit n h2.(freep) ((L4 ++ L3) ++ [(h2.(freep), s3)])) as [[q c]|] eqn:Ef2.
      2:{ exfalso. apply first_fit_None in Ef2. rewrite rotation_all, <- El2, Forall_forall in Ef2.
          specialize (Ef2 b Hb). cbn in Ef2. lia. }
      destruct (found_run h2 l2 L3 s3 L4 n q c H2 El2 Hn Ef2) as (bp & h' & l' & E & Hbk & Hok & Ht & Hc & Hfr).
      rewrite E. eexists _, _. split; [done|]. right. exists bp, l'. split; [done|]. unfold HDR in Hbk2. split_and!; try done.
      * lia.
      * intros a. rewrite <- Hc, Hc2, Hbk, Hbk2. unfold HDR. tauto.
      * intros a Ho Ha. rewrite Hfr; [by apply Hfr2|]. intros [Hcov|Hbase]; [|apply Ho; by right].
        apply Hc2 in Hcov as [Hcov|?]; [apply Ho; by left|lia].
    + rewrite Hm. eexists _, _. split; [done|]. left. split; [done|]. split; [done|]. by split.
Qed.

(** ** Blocks the program holds *)

(** Blocks of the program, disjoint from each other and from the free memory. *)
Definition apart_blocks (b b' : block) : Prop := b.1 + HDR * b.2 <= b'.1 \/ b'.1 + HDR * b'.2 <= b.1.

Fixpoint separate (bs : list block) : Prop :=
  match bs with [] => True | b :: bs' => Forall (apart_blocks b) bs' /\ separate bs' end.

Definition live (h : heap) (l bs : list block) : Prop :=
  heap_ok h l /\ Forall (fun b => taken h l b.1 b.2) bs /\ separate bs.

Lemma intervals_apart p x q y :
  0 < x -> 0 < y -> (forall a, p <= a < p + x -> q <= a < q + y -> False) -> p + x <= q \/ q + y <= p.
Proof.
  intros Hx Hy H. destruct (Z.le_gt_cases (p + x) q); [by left|]. destruct (Z.le_gt_cases (q + y) p); [by right|].
  exfalso. apply (H (Z.max p q)); lia.
Qed.

Lemma taken_not_owned h l bp n a : heap_ok h l -> taken h l bp n -> bp <= a < bp + HDR * n -> ~ owned l a.
Proof.
  intros H (_ & Hn & Hb & _ & Hd) Ha [(b & Hin & Hba)|Hba]; [|lia].
  destruct (Hd b Hin); unfold extent, HDR in *; lia.
Qed.

(** A block stays taken while its header is kept and the free memory does not
    reach it. *)
Lemma taken_kept h l bp n h' l' :
  heap_ok h' l' -> taken h l bp n -> h.(brk) <= h'.(brk) ->
  (forall a, bp <= a < bp + HDR * n -> ~ covers l' a) ->
  (forall a, bp <= a < bp + HDR * n -> load8 h'.(hmem) a = load8 h.(hmem) a) -> taken h' l' bp n.
Proof.
  intros H' (Hs & Hn & Hb & Hr & Hd) Hbk Hc Hm. split_and!; [|done|done|lia|].
  - rewrite <- Hs. unfold size, load32. unfold HDR in *. rewrite !Hm by lia. done.
  - intros b Hin. destruct (ok_base _ _ H') as (bs & El & Hpos). rewrite El in Hin.
    apply elem_of_cons in Hin as [->|Hin].
    + left. unfold extent, HDR in *. cbn [fst snd]. lia.
    + rewrite Forall_forall in Hpos. specialize (Hpos b Hin). cbn in Hpos.
      assert (extent b = HDR * b.2) as -> by (unfold extent, HDR; lia).
      apply intervals_apart; [unfold HDR; lia|unfold HDR; lia|].
      intros a Ha Ha2. apply (Hc a Ha2). exists b. split; [rewrite El; by right|done].
Qed.

Lemma live_alloc h l bs bp n h' l' :
  live h l bs -> allocates h l bp n h' l' ->
  live h' l' ((bp, n) :: bs) /\
  forall b a, b ∈ bs -> b.1 <= a < b.1 + HDR * b.2 -> load8 h'.(hmem) a = load8 h.(hmem) a.
Proof.
  intros (H & Hbs & Hsep) (H' & Ht & Hbk & Hc & Hfr). rewrite Forall_forall in Hbs.
  assert (forall b a, b ∈ bs -> b.1 <= a < b.1 + HDR * b.2 -> ~ covers l a /\ ~ (h.(brk) <= a) /\ ~ owned l a) as Hout.
  { intros b a Hb Ha. pose proof (taken_not_owned h l b.1 b.2 a H (Hbs b Hb) Ha) as Ho.
    destruct (Hbs b Hb) as (_ & _ & _ & Hr & _). split; [intros ?; apply Ho; by left|]. split; [lia|done]. }
  assert (forall b a, b ∈ bs -> b.1 <= a < b.1 + HDR * b.2 -> load8 h'.(hmem) a = load8 h.(hmem) a) as Hkeep.
  { intros b a Hb Ha. destruct (Hout b a Hb Ha) as (_ & ? & ?). apply Hfr; [done|lia]. }
  split; [|done]. split; [done|]. split.
  - constructor; [done|]. apply Forall_forall. intros b Hb. apply (taken_kept h l); [done|by apply Hbs|done| |].
    + intros a Ha Hcov. destruct (Hout b a Hb Ha) as (H1 & H2 & _). destruct (proj2 (Hc a) (or_introl Hcov)); [done|lia].
    + intros a Ha. by apply (Hkeep b).
  - split; [|done]. apply Forall_forall. intros b Hb. destruct Ht as (_ & Hn & _). destruct (Hbs b Hb) as (_ & Hbn & _).
    unfold apart_blocks. cbn [fst snd]. apply intervals_apart; [unfold HDR; lia|unfold HDR; lia|].
    intros a Ha Ha2. destruct (Hout b a Hb Ha2) as (H1 & H2 & _). destruct (proj2 (Hc a) (or_intror Ha)); [done|lia].
Qed.

Lemma separate_middle bs1 b bs2 :
  separate (bs1 ++ b :: bs2) -> separate (bs1 ++ bs2) /\ forall b', b' ∈ bs1 ++ bs2 -> apart_blocks b b'.
Proof.
  induction bs1 as [|c bs1 IH]; cbn; intros [Hc Hs].
  - split; [done|]. by rewrite Forall_forall in Hc.
  - destruct (IH Hs) as [H1 H2]. apply Forall_app in Hc as [Hc1 Hc2]. apply Forall_cons in Hc2 as [Hcb Hc2].
    split; [split; [by apply Forall_app|done]|]. intros b' [->|Hb']%elem_of_cons; [|auto]. unfold apart_blocks in *. lia.
Qed.

Lemma live_free h l bs1 bp n bs2 h' l' :
  live h l (bs1 ++ (bp, n) :: bs2) -> heap_ok h' l' -> h'.(brk) = h.(brk) ->
  (forall a, covers l' a <-> covers l a \/ bp <= a < bp + HDR * n) ->
  (forall a, ~ owned l a -> ~ (bp <= a < bp + HDR * n) -> load8 h'.(hmem) a = load8 h.(hmem) a) ->
  live h' l' (bs1 ++ bs2) /\
  forall b a, b ∈ bs1 ++ bs2 -> b.1 <= a < b.1 + HDR * b.2 -> load8 h'.(hmem) a = load8 h.(hmem) a.
Proof.
  intros (H & Hbs & Hsep) H' Hbk Hc Hfr. apply separate_middle in Hsep as [Hsep Hap].
  assert (forall b, b ∈ bs1 ++ bs2 -> taken h l b.1 b.2) as Ht.
  { intros b Hb. rewrite Forall_forall in Hbs. apply Hbs. rewrite elem_of_app, elem_of_cons. apply elem_of_app in Hb. tauto. }
  assert (forall b a, b ∈ bs1 ++ bs2 -> b.1 <= a < b.1 + HDR * b.2 -> ~ owned l a /\ ~ (bp <= a < bp + HDR * n)) as Hout.
  { intros b a Hb Ha. split; [by apply (taken_not_owned h l b.1 b.2 a H (Ht b Hb))|].
    specialize (Hap b Hb). unfold apart_blocks in Hap. cbn [fst snd] in Hap. lia. }
  split.
  - split; [done|]. split; [|done]. apply Forall_forall. intros b Hb. apply (taken_kept h l); [done|by apply Ht|lia| |].
    + intros a Ha [Hcov|?]%Hc; [|by destruct (Hout b a Hb Ha)]. destruct (Hout b a Hb Ha) as [Ho _]. apply Ho. by left.
    + intros a Ha. destruct (Hout b a Hb Ha). auto.
  - intros b a Hb Ha. destruct (Hout b a Hb Ha). auto.
Qed.

(** Before the first [malloc]. *)
Definition fresh (h : heap) : Prop := h.(freep) = 0 /\ 0 < base /\ base + HDR <= h.(brk) < 2 ^ 31.

(** A heap in use, or one not used yet. *)
Definition usable (h : heap) (l bs : list block) : Prop := live h l bs \/ (fresh h /\ l = [(base, 0)] /\ bs = []).

(** The heap [malloc] searches. *)
Definition init (h : heap) : heap :=
  if h.(freep) =? 0 then mk_heap (set_size base 0 (set_ptr base base h.(hmem))) base h.(brk) else h.

Lemma usable_init h l bs :
  usable h l bs -> live (init h) l bs /\ (init h).(brk) = h.(brk) /\
    forall b a, b ∈ bs -> load8 (init h).(hmem) a = load8 h.(hmem) a.
Proof.
  intros [H|((Hf & Hb & Hr) & -> & ->)]; unfold init.
  - destruct H as (H & Hbs). rewrite (proj2 (Z.eqb_neq _ _)); [split; [by split|done]|].
    pose proof (ok_freep _ _ H) as Hin. apply list_elem_of_fmap in Hin as ([p s] & -> & (A & B & ->)%list_elem_of_split).
    pose proof (base_le h A p s B H). destruct (base_below _ _ H). cbn. lia.
  - rewrite Hf, Z.eqb_refl. split; [|split; [done|intros ? ? Hx; by apply elem_of_nil in Hx]].
    split; [|by split]. split; cbn [hmem freep brk].
    + cbn [seg hd_addr fst snd]. rewrite size_set_size, ptr_set_size, ptr_set_ptr. split; [done|]. split; [|done].
      apply u32_small. unfold HDR in *. lia.
    + by repeat constructor.
    + exists []. by split.
    + by left.
    + apply Forall_singleton. unfold extent, HDR in *. cbn [fst snd]. lia.
    + lia.
Qed.

Lemma units_small nbytes :
  0 <= nbytes < 2 ^ 32 - 7 -> 0 < units_for nbytes /\ nbytes <= HDR * (units_for nbytes - 1) < nbytes + HDR.
Proof.
  intros H. unfold units_for, HDR. rewrite (u32_small (nbytes + 8 - 1)) by lia.
  pose proof (Z.div_mod (nbytes + 8 - 1) 8 ltac:(lia)). pose proof (Z.mod_pos_bound (nbytes + 8 - 1) 8 ltac:(lia)).
  rewrite u32_small by lia. lia.
Qed.

End alloc.

(** ** Properties *)

(** C12: [malloc] allocates: it terminates and either returns a block large enough
    for the request that overlaps neither a block the program holds nor the
    free memory that remains, or returns the null pointer because no free block
    is large enough and the kernel refuses more memory.  The free list stays
    sorted, disjoint and coalesced, and no byte of a block the program holds
    changes. *)
Theorem malloc_correct (base : Z) (grants : Z -> Z -> bool) (fuel : nat) (nbytes : Z) (h : heap) (l bs : list (Z * Z)) :
  kernel_bound grants -> usable base h l bs -> 0 <= nbytes < 2 ^ 31 - 32 -> (2 * length l + 2 < fuel)%nat ->
  let n := units_for nbytes in
  exists ap h', malloc base grants fuel nbytes h = Some (ap, h') /\
    (ap = 0 /\ live base h' l bs /\ exhausted grants h l n \/
     exists l', live base h' l' ((ap - HDR, n) :: bs) /\ nbytes <= HDR * (n - 1)) /\
    forall b a, b ∈ bs -> b.1 <= a < b.1 + HDR * b.2 -> load8 h'.(hmem) a = load8 h.(hmem) a.
Proof.
  intros Hg Hu Hnb Hf n. destruct (units_small nbytes ltac:(lia)) as [Hn0 Hn]. fold n in Hn0, Hn.
  destruct (usable_init base h l bs Hu) as (Hl & Hbk & Hk). unfold malloc. fold (init base h) n. pose proof Hl as (H & _).
  destruct (malloc_loop_run base grants fuel n (init base h) l Hg H Hn0) as (ap & h' & E & Hres);
    [unfold HDR in *; lia|done|]. exists ap, h'. split; [exact E|].
  destruct Hres as [(-> & -> & Hex)|(bp & l' & -> & Hal)].
  - split; [|by eauto]. left. split; [done|]. split; [done|]. unfold exhausted in *. by rewrite Hbk in Hex.
  - destruct (live_alloc base (init base h) l bs bp n h' l' Hl Hal) as [Hl' Hkeep]. split.
    + right. exists l'. replace (bp + HDR - HDR) with bp by lia. split; [done|lia].
    + intros b a Hb Ha. rewrite (Hkeep b a Hb Ha). by apply (Hk b).
Qed.

(** A kernel with room for 1 MB, and a program that never called [malloc]. *)
Definition sample_grants (b n : Z) : bool := b + n <? 2 ^ 20.
Definition sample_heap : heap := mk_heap ∅ 0 8192.

Lemma sample_kernel : kernel_bound sample_grants.
Proof. unfold kernel_bound, sample_grants. intros b n Hlt%Z.ltb_lt. lia. Qed.

Lemma sample_usable : usable 4096 sample_heap [(4096, 0)] [].
Proof. right. split; [|done]. unfold fresh, HDR. cbn. lia. Qed.

Lemma malloc_correct_witness :
  exists ap h', malloc 4096 sample_grants 10 100 sample_heap = Some (ap, h') /\ ap = 40856 /\ h'.(freep) = 4096.
Proof.
  destruct (malloc_correct 4096 sample_grants 10 100 sample_heap [(4096, 0)] []) as (ap & h' & E & _);
    [exact sample_kernel|exact sample_usable|lia|cbn; lia|].
  exists ap, h'. split; [exact E|]. vm_compute in E. injection E as [= <- <-]. split; reflexivity.
Defined.

(** C29: [free] gives a block back: it terminates, the free memory is the old one
    and the block, and the other blocks of the program keep their bytes and
    stay disjoint from the free memory; the free list stays sorted, disjoint
    and coalesced. *)
Theorem free_correct (base : Z) (fuel : nat) (h : heap) (l bs1 bs2 : list (Z * Z)) (bp n : Z) :
  live base h l (bs1 ++ (bp, n) :: bs2) -> (length l < fuel)%nat ->
  exists h' l', free fuel (bp + HDR) h = Some h' /\ live base h' l' (bs1 ++ bs2) /\
    (forall a, covers l' a <-> covers l a \/ bp <= a < bp + HDR * n) /\
    (forall b a, b ∈ bs1 ++ bs2 -> b.1 <= a < b.1 + HDR * b.2 -> load8 h'.(hmem) a = load8 h.(hmem) a).
Proof.
  intros Hl Hf. pose proof Hl as (H & Hbs & _). apply Forall_app in Hbs as [_ Hbs]. apply Forall_cons in Hbs as [Ht _].
  destruct (free_run base fuel h l bp n H Ht Hf) as (h' & l' & E & H' & Hbk & Hc & _ & _ & Hfr).
  destruct (live_free base h l bs1 bp n bs2 h' l' Hl H' Hbk Hc Hfr) as [Hl' Hk]. eauto 10.
Qed.

(** The block of the example above. *)
Lemma free_correct_witness : exists h h' l' fuel, free fuel 40856 h = Some h' /\ live 4096 h' l' [].
Proof.
  destruct (malloc_loop_run 4096 sample_grants 10 14 (init 4096 sample_heap) [(4096, 0)])
    as (ap & h & E & Hres); [exact sample_kernel|apply (usable_init 4096 _ _ _ sample_usable)|lia|unfold HDR; lia|cbn; lia|].
  assert (fst <$> malloc_loop sample_grants 10 14 (init 4096 sample_heap).(freep)
            (ptr (init 4096 sample_heap).(hmem) (init 4096 sample_heap).(freep)) (init 4096 sample_heap) = Some 40856) as Eap
    by (vm_compute; reflexivity).
  rewrite E in Eap. cbn in Eap. injection Eap as [= ->]. destruct Hres as [(E0 & _)|(bp & l' & Ebp & Hal)]; [discriminate E0|].
  assert (bp = 40848) as -> by (unfold HDR in Ebp; lia).
  destruct (live_alloc 4096 (init 4096 sample_heap) [(4096, 0)] [] 40848 14 h l') as [Hl _];
    [apply (usable_init 4096 _ _ _ sample_usable)|exact Hal|].
  destruct (free_correct 4096 (S (length l')) h l' [] [] 40848 14 Hl) as (h' & l2 & E2 & Hl2 & _); [lia|].
  exists h, h', l2, (S (length l')). split; [exact E2|exact Hl2].
Defined.

(** The size computation covers the request for every size below 2^32 - 7,
    with less than one unit of waste; a larger size wraps around to one unit,
    a header with no room after it. *)
Theorem units_bounds (nbytes : Z) :
  0 <= nbytes < 2 ^ 32 ->
  if decide (nbytes < 2 ^ 32 - 7) then nbytes <= HDR * (units_for nbytes - 1) < nbytes + HDR
  else units_for nbytes = 1.
Proof.
  intros H. case_decide; [apply units_small; lia|]. unfold units_for, HDR.
  assert (u32 (nbytes + 8 - 1) = nbytes + 7 - 2 ^ 32) as ->.
  { unfold u32. symmetry. apply (Z.mod_unique_pos _ _ 1); lia. }
  rewrite Z.div_small by lia. reflexivity.
Qed.

Lemma units_bounds_witness : units_for 100 = 14 /\ units_for (2 ^ 32 - 1) = 1.
Proof.
  split; [reflexivity|]. pose proof (units_bounds (2 ^ 32 - 1) ltac:(lia)) as H. rewrite decide_False in H by lia. exact H.
Defined.

End Umalloc.
