(* ===== verification/Grep.v ===== *)
(** The pattern matcher: grep.c.

    A pattern and a text are NUL-terminated strings, here lists of non-zero
    bytes, so that the end of a list is the C terminator.  The line loop of
    [grep] works on the program's memory with its 1024-byte buffer at address
    [buf]; a [read] takes its bytes from a list of chunks, the pieces in which
    the file or pipe delivers them.  The memory is the whole of the program's
    data, so that the loop can be followed where it leaves the buffer.

    The theorems show that the backtracking matcher decides membership in the
    language its pattern denotes, and what the line loop prints. *)

From S2P Require Import Prelude CString Printf.

Module Grep.

(** ** The matcher *)

Definition STAR : Z := 42.
Definition DOT : Z := 46.
Definition CARET : Z := 94.
Definition DOLLAR : Z := 36.
Definition NL : Z := 10.

(** [matchstar c re text], with the match of [re] a parameter: the C functions
    call each other. *)
Fixpoint matchstar (here : list Z -> bool) (c : Z) (text : list Z) : bool :=
  here text ||
  match text with
  | [] => false
  | t :: text' => if (t =? c) || (c =? DOT) then matchstar here c text' else false
  end.

Fixpoint matchhere (re : list Z) (text : list Z) {struct re} : bool :=
  match re with
  | [] => true
  | c :: re1 =>
      match re1 with
      | s :: re2 =>
          if s =? STAR then matchstar (matchhere re2) c text
          else
            match text with
            | t :: text' => if (c =? DOT) || (c =? t) then matchhere re1 text' else false
            | [] => false
            end
      | [] =>
          if c =? DOLLAR then (match text with [] => true | _ => false end)
          else
            match text with
            | t :: text' => if (c =? DOT) || (c =? t) then matchhere re1 text' else false
            | [] => false
            end
      end
  end.

Fixpoint match_loop (re text : list Z) : bool :=
  matchhere re text || match text with [] => false | _ :: text' => match_loop re text' end.

Definition match_ (re text : list Z) : bool :=
  match re with
  | c :: re' => if c =? CARET then matchhere re' text else match_loop re text
  | [] => match_loop re text
  end.

(** ** The line loop *)

Definition BUFSZ : Z := 1024.

(** [read(fd, addr, count)]: the bytes, and the chunks that remain.  No more
    chunks: end of file. *)
Definition read_chunk (count : Z) (chunks : list (list Z)) : list Z * list (list Z) :=
  match chunks with
  | [] => ([], [])
  | ch :: rest =>
      let got := take (Z.to_nat count) ch in
      let left := drop (Z.to_nat count) ch in
      (got, match left with [] => rest | _ => left :: rest end)
  end.

(** The lines that end in the buffer, from [p]. *)
Fixpoint grep_lines (fuel : nat) (re : list Z) (m : mem) (p : Z) (out : Printf.output) : option (mem * Z * Printf.output) :=
  match fuel with
  | O => None
  | S f =>
      match strchr fuel m p NL with
      | None => None
      | Some q =>
          if q =? 0 then Some (m, p, out)
          else
            let m1 := store8 q 0 m in
            if match_ re (bytes_at m1 p (Z.to_nat (q - p))) then
              let m2 := store8 q NL m1 in
              grep_lines f re m2 (q + 1) (out ++ [(1, bytes_at m2 p (Z.to_nat (q + 1 - p)))])
            else grep_lines f re m1 (q + 1) out
      end
  end.

(** The read loop; [n] is the number of bytes carried over.  The result is the
    memory, what was written and the value of the C variable [m] at each
    [read]. *)
Fixpoint grep_loop (fuel : nat) (re : list Z) (buf : Z) (m : mem) (n : Z) (chunks : list (list Z)) (out : Printf.output)
  (reads : list Z) : option (mem * Printf.output * list Z) :=
  match fuel with
  | O => None
  | S f =>
      let '(got, rest) := read_chunk (BUFSZ - n) chunks in
      let reads' := reads ++ [n] in
      match got with
      | [] => Some (m, out, reads')
      | _ =>
          let m1 := put_bytes (buf + n) got m in
          let n1 := n + Z.of_nat (length got) in
          match grep_lines fuel re m1 buf out with
          | None => None
          | Some (m2, p, out') =>
              let n2 := if p =? buf then 0 else n1 in
              if n2 >? 0 then
                let n3 := n2 - (p - buf) in
                grep_loop f re buf (umemmove buf p n3 m2) n3 rest out' reads'
              else grep_loop f re buf m2 n2 rest out' reads'
          end
      end
  end.

Definition grep (fuel : nat) (re : list Z) (buf : Z) (m : mem) (chunks : list (list Z)) (out : Printf.output)
  : option (mem * Printf.output * list Z) :=
  grep_loop fuel re buf m 0 chunks out [].

(** [main]: [files] is [open] and what reading the file delivers.  The result
    is everything written. *)
Fixpoint grep_files (fuel : nat) (re : list Z) (buf : Z) (m : mem) (files : list Z -> option (list (list Z)))
  (names : list (list Z)) (out : Printf.output) : option Printf.output :=
  match names with
  | [] => Some out
  | name :: names' =>
      match files name with
      | None => Some (out ++ Printf.puts 1 (str "grep: cannot open " ++ name ++ [NL]))
      | Some chunks =>
          match grep fuel re buf m chunks out with
          | None => None
          | Some (m', out', _) => grep_files fuel re buf m' files names' out'
          end
      end
  end.

Definition main (fuel : nat) (buf : Z) (m : mem) (stdin : list (list Z)) (files : list Z -> option (list (list Z)))
  (argv : list (list Z)) : option Printf.output :=
  match argv with
  | [] | [_] => Some (Printf.puts 2 (str "usage: grep pattern [file ...]" ++ [NL]))
  | [_; pattern] => match grep fuel pattern buf m stdin [] with Some (_, out, _) => Some out | None => None end
  | _ :: pattern :: names => grep_files fuel pattern buf m files names []
  end.

(** ** The language of a pattern *)

(** [c] or [.], alone or starred. *)
Inductive atom := One (c : Z) | Many (c : Z).

(** [.] stands for every character. *)
Definition accepts (c t : Z) : Prop := c = DOT \/ c = t.

(** The words of a sequence of atoms. *)
Inductive lang : list atom -> list Z -> Prop :=
| lang_nil : lang [] []
| lang_one c t l w : accepts c t -> lang l w -> lang (One c :: l) (t :: w)
| lang_none c l w : lang l w -> lang (Many c :: l) w
| lang_more c t l w : accepts c t -> lang (Many c :: l) w -> lang (Many c :: l) (t :: w).

(** A pattern after its optional [^]: its atoms, and whether it ends in [$]. *)
Fixpoint parse (re : list Z) : list atom * bool :=
  match re with
  | [] => ([], false)
  | c :: re1 =>
      match re1 with
      | s :: re2 =>
          if s =? STAR then (Many c :: (parse re2).1, (parse re2).2) else (One c :: (parse re1).1, (parse re1).2)
      | [] => if c =? DOLLAR then ([], true) else ([One c], false)
      end
  end.

(** [re] matches at the start of [text]. *)
Definition matches_here (re text : list Z) : Prop :=
  exists w post, text = w ++ post /\ lang (parse re).1 w /\ ((parse re).2 = true -> post = []).

(** [re] matches somewhere in [text], at its start if it begins with [^]. *)
Definition matches (re text : list Z) : Prop :=
  match re with
  | c :: re' =>
      if c =? CARET then matches_here re' text
      else exists pre rest, text = pre ++ rest /\ matches_here re rest
  | [] => True
  end.

Lemma accepts_iff c t : (c =? DOT) || (c =? t) = true <-> accepts c t.
Proof. unfold accepts. rewrite orb_true_iff, !Z.eqb_eq. done. Qed.

Lemma matchstar_spec here c text :
  matchstar here c text = true <->
  exists pre rest, text = pre ++ rest /\ Forall (accepts c) pre /\ here rest = true.
Proof.
  induction text as [|t text IH]; cbn [matchstar]; rewrite orb_true_iff.
  - split.
    + intros [H|H]; [|done]. exists [], []. auto.
    + intros (pre & rest & E & _ & H). symmetry in E. apply app_nil in E as [-> ->]. by left.
  - rewrite orb_comm. assert ((c =? DOT) || (t =? c) = (c =? DOT) || (c =? t)) as -> by (f_equal; apply Z.eqb_sym).
    split.
    + intros [H|H]; [exists [], (t :: text); auto|].
      destruct ((c =? DOT) || (c =? t)) eqn:Ea; [|done]. apply accepts_iff in Ea.
      apply IH in H as (pre & rest & -> & Hp & H). exists (t :: pre), rest. auto.
    + intros (pre & rest & E & Hp & H). destruct pre as [|p pre]; cbn in E.
      * left. by rewrite E.
      * right. injection E as [= -> ->]. apply Forall_cons in Hp as [Ha Hp].
        rewrite (proj2 (accepts_iff c p) Ha). apply IH. eauto.
Qed.

Lemma lang_many c l w :
  lang (Many c :: l) w <-> exists pre w', w = pre ++ w' /\ Forall (accepts c) pre /\ lang l w'.
Proof.
  split.
  - remember (Many c :: l) as al eqn:E. induction 1 as [|? ? ? ? ? ? IH|c' l' w H IH|c' t l' w Ha H IH]; simplify_eq.
    + exists [], w. auto.
    + destruct IH as (pre & w' & -> & Hp & Hw); [done|]. exists (t :: pre), w'. auto.
  - intros (pre & w' & -> & Hp & Hw). induction Hp; cbn; [by apply lang_none|by apply lang_more].
Qed.

Lemma matches_here_star c re text :
  matches_here (c :: STAR :: re) text <->
  exists pre rest, text = pre ++ rest /\ Forall (accepts c) pre /\ matches_here re rest.
Proof.
  unfold matches_here. cbn [parse]. rewrite Z.eqb_refl. cbn [fst snd]. split.
  - intros (w & post & -> & (pre & w' & -> & Hp & Hw)%lang_many & He).
    exists pre, (w' ++ post). rewrite app_assoc. eauto 10.
  - intros (pre & rest & -> & Hp & w & post & -> & Hw & He). exists (pre ++ w), post. rewrite app_assoc.
    split; [done|]. split; [|done]. apply lang_many. eauto.
Qed.

(** A single character, with what the pattern goes on with. *)
Lemma matches_here_one c re text :
  parse (c :: re) = (One c :: (parse re).1, (parse re).2) ->
  matches_here (c :: re) text <-> exists t text', text = t :: text' /\ accepts c t /\ matches_here re text'.
Proof.
  intros E. unfold matches_here. rewrite E. cbn [fst snd]. split.
  - intros (w & post & -> & Hw & He). inversion Hw; subst. eexists _, _. split; [done|]. eauto 10.
  - intros (t & text' & -> & Ha & w & post & -> & Hw & He). exists (t :: w), post. eauto using lang_one.
Qed.

Lemma matchhere_one c re text :
  (forall text, matchhere re text = true <-> matches_here re text) ->
  parse (c :: re) = (One c :: (parse re).1, (parse re).2) ->
  match text with
  | t :: text' => if (c =? DOT) || (c =? t) then matchhere re text' else false
  | [] => false
  end = true <-> matches_here (c :: re) text.
Proof.
  intros IH E. rewrite (matches_here_one c re text E). destruct text as [|t text']; [naive_solver|].
  destruct ((c =? DOT) || (c =? t)) eqn:Ea.
  - apply accepts_iff in Ea. rewrite IH. naive_solver.
  - split; [done|]. intros (? & ? & [= <- <-] & Ha%accepts_iff & _). congruence.
Qed.

Lemma matchhere_spec re text : matchhere re text = true <-> matches_here re text.
Proof.
  revert text. remember (length re) as n eqn:Hn. revert re Hn.
  induction (lt_wf n) as [n _ IH]. intros re -> text. destruct re as [|c re1]; [|destruct re1 as [|s re2]].
  - cbn. split; [|done]. intros _. exists [], text. split; [done|]. split; [constructor|done].
  - cbn [matchhere]. destruct (Z.eqb_spec c DOLLAR) as [->|Hc].
    + unfold matches_here. cbn. split.
      * destruct text; [|done]. intros _. exists [], []. split; [done|]. split; [constructor|done].
      * intros (w & post & -> & Hw & ->); [|done]. by inversion Hw.
    + apply (matchhere_one c [] text); [|cbn; by rewrite (proj2 (Z.eqb_neq _ _) Hc)].
      intros text'. cbn. split; [|done]. intros _. exists [], text'. split; [done|]. split; [constructor|done].
  - cbn [matchhere]. destruct (Z.eqb_spec s STAR) as [->|Hs].
    + rewrite matchstar_spec, matches_here_star.
      assert (forall rest, matchhere re2 rest = true <-> matches_here re2 rest) as H by (intros; apply (IH (length re2)); cbn; lia || done).
      setoid_rewrite H. done.
    + apply (matchhere_one c (s :: re2) text); [|cbn; by rewrite (proj2 (Z.eqb_neq _ _) Hs)].
      intros text'. apply (IH (length (s :: re2))); [cbn; lia|done].
Qed.

Lemma match_loop_spec re text :
  match_loop re text = true <-> exists pre rest, text = pre ++ rest /\ matches_here re rest.
Proof.
  induction text as [|t text IH]; cbn [match_loop]; rewrite orb_true_iff, matchhere_spec.
  - split; [intros [H|H]; [by exists [], []|done]|]. intros (pre & rest & E & H). symmetry in E.
    apply app_nil in E as [-> ->]. by left.
  - rewrite IH. split.
    + intros [H|(pre & rest & -> & H)]; [by exists [], (t :: text)|by exists (t :: pre), rest].
    + intros (pre & rest & E & H). destruct pre as [|p pre]; cbn in E; [left; by rewrite E|].
      injection E as [= -> ->]. right. eauto.
Qed.

(** ** The line loop on one buffer *)

(** Characters of a line. *)
Definition line_ok (l : list Z) : Prop := Forall (fun c => 0 < c < 256 /\ c <> NL) l.

(** The bytes of complete lines. *)
Definition text_of (ls : list (list Z)) : list Z := ls ≫= (fun l => l ++ [NL]).

(** What [grep] should print of them. *)
Definition matching (re : list Z) (ls : list (list Z)) : Printf.output :=
  (fun l => (1, l ++ [NL])) <$> filter (fun l => match_ re l = true) ls.

Lemma text_of_cons l ls : text_of (l :: ls) = l ++ NL :: text_of ls.
Proof. unfold text_of. cbn. by rewrite <- app_assoc. Qed.

(** The text at [p], NUL after it. *)
Definition holds (m : mem) (p : Z) (l : list Z) : Prop :=
  bytes_at m p (length l) = l /\ load8 m (p + Z.of_nat (length l)) = 0.

Lemma holds_app m p l k : holds m p (l ++ k) -> bytes_at m p (length l) = l /\ holds m (p + Z.of_nat (length l)) k.
Proof.
  unfold holds. rewrite length_app, bytes_at_app, Nat2Z.inj_add, Z.add_assoc. intros [E1 E2].
  apply app_inj_1 in E1 as [E1 E3]; [|by rewrite bytes_at_length]. auto.
Qed.

Lemma holds_ext m m' p l : (forall a, p <= a -> load8 m' a = load8 m a) -> holds m p l -> holds m' p l.
Proof.
  intros He [H1 H2]. split; [|rewrite He; [done|lia]].
  rewrite <- H1 at 2. apply bytes_at_ext. intros i Hi. apply He. lia.
Qed.

Lemma strchr_line fuel m p l :
  line_ok l -> bytes_at m p (length l) = l -> load8 m (p + Z.of_nat (length l)) = NL -> (length l < fuel)%nat ->
  strchr fuel m p NL = Some (p + Z.of_nat (length l)).
Proof.
  intros Hl. revert fuel p. induction Hl as [|c l [Hc Hn] _ IH]; intros fuel p Hb He Hf; (destruct fuel as [|f]; [lia|]);
    cbn [strchr length] in *.
  - rewrite Z.add_0_r in *. by rewrite He.
  - cbn in Hb. injection Hb as [= Hb1 Hb2]. rewrite Hb1.
    rewrite (proj2 (Z.eqb_neq c 0)), (proj2 (Z.eqb_neq c NL)) by (done || lia).
    rewrite (IH f (p + 1)); [f_equal; lia|done| |lia]. rewrite <- He. f_equal. lia.
Qed.

Lemma grep_lines_run fuel re m p ls out :
  Forall line_ok ls -> 0 < p -> holds m p (text_of ls) -> (length (text_of ls) < fuel)%nat ->
  exists m', grep_lines fuel re m p out = Some (m', p + Z.of_nat (length (text_of ls)), out ++ matching re ls).
Proof.
  intros Hls. revert fuel m p out. induction Hls as [|l ls Hl _ IH]; intros fuel m p out Hp Hh Hf;
    (destruct fuel as [|f]; [lia|]).
  - exists m. destruct Hh as [_ H0]. cbn in H0. rewrite Z.add_0_r in H0. cbn. by rewrite H0, Z.add_0_r, app_nil_r.
  - rewrite text_of_cons in *. change (l ++ NL :: text_of ls) with (l ++ [NL] ++ text_of ls) in *.
    rewrite !length_app in *. cbn [length] in *.
    apply holds_app in Hh as [Hb Hh]. apply holds_app in Hh as [Hnl Hh]. cbn in Hnl. injection Hnl as [= Hnl].
    cbn [length] in Hh. set (q := p + Z.of_nat (length l)) in *.
    cbn [grep_lines]. rewrite (strchr_line (S f) m p l) by (done || lia). fold q.
    rewrite (proj2 (Z.eqb_neq q 0)) by lia. replace (Z.to_nat (q - p)) with (length l) by lia.
    assert (forall v, bytes_at (store8 q v m) p (length l) = l) as Hb1.
    { intros v. rewrite <- Hb at 2. apply bytes_at_ext. intros i Hi. rewrite load8_store8. zcases; done. }
    rewrite Hb1. unfold matching. rewrite filter_cons. destruct (match_ re l) eqn:Em.
    + rewrite decide_True by done. set (m2 := store8 q NL _).
      destruct (IH f m2 (q + 1) (out ++ [(1, bytes_at m2 p (Z.to_nat (q + 1 - p)))])) as [m' E]; [lia| |lia|].
      { apply (holds_ext m); [|exact Hh]. intros a Ha. unfold m2. rewrite !load8_store8. zcases; done. }
      exists m'. rewrite E. do 2 f_equal; [f_equal; lia|].
      replace (Z.to_nat (q + 1 - p)) with (length l + 1)%nat by lia. rewrite bytes_at_app.
      assert (bytes_at m2 p (length l) = l) as ->.
      { rewrite <- Hb at 2. apply bytes_at_ext. intros i Hi. unfold m2. rewrite !load8_store8. zcases; done. }
      fold q. cbn. unfold m2. rewrite load8_store8, Z.eqb_refl. rewrite <- app_assoc. done.
    + rewrite decide_False by done. set (m1 := store8 q 0 m).
      destruct (IH f m1 (q + 1) out) as [m' E]; [lia| |lia|].
      { apply (holds_ext m); [|exact Hh]. intros a Ha. unfold m1. rewrite !load8_store8. zcases; done. }
      exists m'. rewrite E. do 2 f_equal. f_equal. lia.
Qed.

Lemma text_of_bytes ls : Forall line_ok ls -> Forall (fun c => 0 < c < 256) (text_of ls).
Proof.
  induction 1 as [|l ls Hl _ IH]; [constructor|]. rewrite text_of_cons. apply Forall_app. split.
  - eapply Forall_impl; [exact Hl|]. cbn. lia.
  - constructor; [unfold NL; lia|done].
Qed.

Lemma bytes_at_put p l m : Forall (fun c => 0 < c < 256) l -> bytes_at (put_bytes p l m) p (length l) = l.
Proof.
  intros Hl. apply list_eq. intros i. destruct (decide (i < length l)%nat) as [Hi|Hi].
  - apply lookup_lt_is_Some in Hi as [c Hc]. rewrite Hc.
    rewrite bytes_at_lookup by (by eapply lookup_lt_Some). rewrite (load8_put_bytes p l m i c Hc).
    rewrite Forall_lookup in Hl. specialize (Hl i c Hc). cbn in Hl. by rewrite u8_small by lia.
  - rewrite !lookup_ge_None_2; [done|lia|rewrite bytes_at_length; lia].
Qed.

(** ** Properties *)

(** C23: The matcher is equivalent to the language of its patterns: [match]
    returns 1 exactly when some part of the text (at its start for [^], to its
    end for [$]) is a word of the pattern, [.] standing for any character and
    [c*] for any number of [c]. *)
Theorem match_correct (re text : list Z) : match_ re text = true <-> matches re text.
Proof.
  unfold match_, matches. destruct re as [|c re].
  - split; [done|]. intros _. apply match_loop_spec. exists [], text. split; [done|].
    exists [], text. split; [done|]. split; [constructor|done].
  - destruct (c =? CARET); [apply matchhere_spec|apply match_loop_spec].
Qed.

(** When the input is complete lines that arrive in one [read] and the byte
    after them is NUL, [grep] terminates and prints exactly the matching lines,
    in order, each by one [write]. *)
Theorem grep_one_read (fuel : nat) (re : list Z) (buf : Z) (m : mem) (ls : list (list Z)) :
  Forall line_ok ls -> 0 < buf -> Z.of_nat (length (text_of ls)) <= BUFSZ ->
  load8 m (buf + Z.of_nat (length (text_of ls))) = 0 -> (length (text_of ls) + 1 < fuel)%nat ->
  exists m' reads, grep fuel re buf m [text_of ls] [] = Some (m', matching re ls, reads).
Proof.
  intros Hls Hb Hsz H0 Hf. unfold grep. destruct fuel as [|f]; [lia|]. cbn [grep_loop read_chunk].
  rewrite Z.sub_0_r, take_ge, drop_ge by lia. destruct (text_of ls) as [|c tl] eqn:Et.
  { destruct ls as [|l ls]; [by exists m, [0]|]. rewrite text_of_cons in Et. by destruct l. }
  rewrite <- Et in *. rewrite Z.add_0_r. set (m1 := put_bytes buf (text_of ls) m).
  assert (holds m1 buf (text_of ls)) as Hh.
  { split; [by apply bytes_at_put, text_of_bytes|]. unfold m1. rewrite load8_put_bytes_frame; [done|lia]. }
  destruct (grep_lines_run (S f) re m1 buf ls [] Hls Hb Hh ltac:(lia)) as [m2 E]. rewrite E. cbn [app].
  assert (0 < length (text_of ls))%nat as Hpos by (rewrite Et; cbn; lia).
  rewrite (proj2 (Z.eqb_neq _ buf)) by lia.
  rewrite (proj2 (Z.gtb_lt (0 + Z.of_nat (length (text_of ls))) 0)) by lia.
  replace (0 + _ - _) with 0 by lia. destruct f as [|f]; [lia|]. cbn [grep_loop read_chunk]. eauto.
Qed.

Lemma grep_one_read_witness : exists m' reads,
  grep 100 (str "^a*b$") 4096 ∅ [text_of [str "aab"; str "xb"; str "b"]] [] =
  Some (m', matching (str "^a*b$") [str "aab"; str "xb"; str "b"], reads).
Proof.
  apply (grep_one_read 100 (str "^a*b$") 4096 ∅ [str "aab"; str "xb"; str "b"]); [|lia|vm_compute; discriminate|reflexivity|cbn; lia].
  unfold line_ok, NL. apply (bool_decide_unpack _). vm_compute. exact I.
Defined.

(** Across reads the loop looks at stale bytes, since nothing terminates
    what a read delivered: after [a1], [a2] in a first read, a second read with
    the line [b] prints [a2] again, and the third is then aimed four bytes
    before the buffer, where its line lands without being examined. *)
Theorem grep_stale_buffer :
  let line l := str l ++ [NL] in
  exists m, grep 40 (str "a") 4096 ∅ [line "a1" ++ line "a2"; line "b"; line "aa"] [] =
    Some (m, [(1, line "a1"); (1, line "a2"); (1, line "a2")], [0; 0; -4; 0]) /\
    bytes_at m 4092 3 = line "aa".
Proof. eexists. split; vm_compute; reflexivity. Qed.

End Grep.
