(* ===== verification/ShParse.v ===== *)
(** The shell's command parser: gettoken, peek, parsecmd, parseline,
    parsepipe, parseredirs, parseblock, parseexec and nulterminate of sh.c.

    A pointer into the command line is represented by the string that starts
    there, the empty string being the end of the line, where C finds the
    terminating NUL.  The variable [ps] the functions share is the state of
    the monad; [panic] ends the shell's child.  A parsed command keeps, like
    the C structures, a pair of pointers for every word, the start and the end;
    [nulterminate] later writes a NUL at the ends.  The parser builds an
    execcmd and fills in its arguments after redirections have been wrapped
    around it; since both name the same object, the wrapping is applied once
    all arguments are known.

    The functions call each other recursively: [fuel] bounds the depth, and
    [Fault "fuel"] marks running out of it, which never happens with four
    times the length of the line. *)

From S2P Require Import Prelude CString.

Module ShParse.

(** ** Commands *)

(** The commands over a type of words: pairs of pointers in the parser, their
    text elsewhere. *)
Inductive cmd (T : Type) : Type :=
| Exec (argv : list T)
| Redir (c : cmd T) (file : T) (mode fd : Z)
| Pipe (left right : cmd T)
| List_ (left right : cmd T)
| Back (c : cmd T).
Arguments Exec {T} argv.
Arguments Redir {T} c file mode fd.
Arguments Pipe {T} left right.
Arguments List_ {T} left right.
Arguments Back {T} c.

Definition MAXARGS : nat := 10.
Definition O_RDONLY : Z := 0.
Definition O_WRONLY : Z := 1.
Definition O_CREATE : Z := 0x200.

(** ** Tokens *)

Definition whitespace : list Z := [32; 9; 13; 10; 11].
Definition symbols : list Z := str "<|>&;()".

Definition is_space (c : Z) : bool := bool_decide (c ∈ whitespace).
Definition is_symbol (c : Z) : bool := bool_decide (c ∈ symbols).

(** [while(s < es && strchr(whitespace, *s)) s++] *)
Fixpoint skip (s : list Z) : list Z :=
  match s with
  | [] => []
  | c :: s' => if is_space c then skip s' else s
  end.

(** The end of a word. *)
Fixpoint skip_word (s : list Z) : list Z :=
  match s with
  | [] => []
  | c :: s' => if negb (is_space c) && negb (is_symbol c) then skip_word s' else s
  end.

(** A pointer, and the parser's monad. *)
Definition ptr : Type := list Z.
Definition P (A : Type) : Type := M ptr A.

(** The token, its start [q] and its end [eq]. *)
Definition token : Type := Z * (ptr * ptr).

Definition gettoken : P token := fun ps =>
  let s := skip ps in
  match s with
  | [] => Ok (0, (s, s)) s
  | c :: r =>
      if bool_decide (c ∈ str "|();&<") then Ok (c, (s, r)) (skip r)
      else if c =? 62 then
        match r with
        | d :: r' => if d =? 62 then Ok (43, (s, r')) (skip r') else Ok (c, (s, r)) (skip r)
        | [] => Ok (c, (s, r)) (skip r)
        end
      else Ok (97, (s, skip_word s)) (skip (skip_word s))
  end.

Definition peek (toks : list Z) : P bool := fun ps =>
  let s := skip ps in
  Ok (match s with [] => false | c :: _ => bool_decide (c ∈ toks) end) s.

(** ** The parser *)

(** One redirection: word, mode and descriptor. *)
Definition redir : Type := (ptr * ptr) * Z * Z.

Definition wrap {T} (c : cmd T) (rs : list (T * Z * Z)) : cmd T :=
  foldl (fun c r => Redir c r.1.1 r.1.2 r.2) c rs.

Fixpoint parseredirs (fuel : nat) (rs : list redir) : P (list redir) :=
  match fuel with
  | O => kfault "fuel"
  | S f =>
      let* more := peek (str "<>") in
      if negb more then kret rs
      else
        let* t := gettoken in
        let* w := gettoken in
        if negb (w.1 =? 97) then panic "missing file for redirection"
        else if t.1 =? 60 then parseredirs f (rs ++ [(w.2, O_RDONLY, 0)])
        else if t.1 =? 62 then parseredirs f (rs ++ [(w.2, Z.lor O_WRONLY O_CREATE, 1)])
        else if t.1 =? 43 then parseredirs f (rs ++ [(w.2, Z.lor O_WRONLY O_CREATE, 1)])
        else parseredirs f rs
  end.

(** The loop over the words of a simple command. *)
Fixpoint parseexec_loop (fuel : nat) (argv : list (ptr * ptr)) (rs : list redir) : P (cmd (ptr * ptr)) :=
  match fuel with
  | O => kfault "fuel"
  | S f =>
      let* stop := peek (str "|)&;") in
      if (stop : bool) then kret (wrap (Exec argv) rs)
      else
        let* t := gettoken in
        if t.1 =? 0 then kret (wrap (Exec argv) rs)
        else if negb (t.1 =? 97) then panic "syntax"
        else
          let argv' := argv ++ [t.2] in
          if (MAXARGS <=? length argv')%nat then panic "too many args"
          else
            let* rs' := parseredirs f rs in
            parseexec_loop f argv' rs'
  end.

(** [while(peek(ps, es, "&"))] *)
Fixpoint parseback (fuel : nat) (c : cmd (ptr * ptr)) : P (cmd (ptr * ptr)) :=
  match fuel with
  | O => kfault "fuel"
  | S f =>
      let* amp := peek (str "&") in
      if negb amp then kret c else (gettoken ;;; parseback f (Back c))
  end.

(** The functions call each other in a circle, parseline to parseblock and back;
    those below parseline take it as a parameter, which is closed last. *)
Section below_parseline.
Variable parseline : nat -> P (cmd (ptr * ptr)).

Definition parseblock (fuel : nat) : P (cmd (ptr * ptr)) :=
  match fuel with
  | O => kfault "fuel"
  | S f =>
      let* open_ := peek (str "(") in
      if negb open_ then panic "parseblock"
      else
        gettoken ;;;
        let* c := parseline f in
        let* close := peek (str ")") in
        if negb close then panic "syntax - missing )"
        else
          gettoken ;;;
          let* rs := parseredirs f [] in
          kret (wrap c rs)
  end.

Definition parseexec (fuel : nat) : P (cmd (ptr * ptr)) :=
  match fuel with
  | O => kfault "fuel"
  | S f =>
      let* open_ := peek (str "(") in
      if (open_ : bool) then parseblock f
      else
        let* rs := parseredirs f [] in
        parseexec_loop f [] rs
  end.

Fixpoint parsepipe (fuel : nat) : P (cmd (ptr * ptr)) :=
  match fuel with
  | O => kfault "fuel"
  | S f =>
      let* c := parseexec f in
      let* bar := peek (str "|") in
      if negb bar then kret c
      else gettoken ;;; let* r := parsepipe f in kret (Pipe c r)
  end.
End below_parseline.

Fixpoint parseline (fuel : nat) : P (cmd (ptr * ptr)) :=
  match fuel with
  | O => kfault "fuel"
  | S f =>
      let* c := parsepipe parseline f in
      let* c := parseback f c in
      let* semi := peek (str ";") in
      if negb semi then kret c
      else gettoken ;;; let* r := parseline f in kret (List_ c r)
  end.

(** ** Terminating the words *)

(** The offset of a pointer in a line of length [n]. *)
Definition offset (n : nat) (p : ptr) : nat := (n - length p)%nat.

(** [buf] is the line with its NUL. *)
Fixpoint nulterminate (n : nat) (c : cmd (ptr * ptr)) (buf : list Z) : list Z :=
  match c with
  | Exec argv => foldl (fun b w => <[offset n w.2 := 0]> b) buf argv
  | Redir c file _ _ => <[offset n file.2 := 0]> (nulterminate n c buf)
  | Pipe l r => nulterminate n r (nulterminate n l buf)
  | List_ l r => nulterminate n r (nulterminate n l buf)
  | Back c => nulterminate n c buf
  end.

(** The fuel of [parsecmd]. *)
Definition parse_fuel (s : list Z) : nat := 4 * length s + 8.

(** The command, and the line with its words terminated. *)
Definition parsecmd (s : list Z) : res ptr (cmd (ptr * ptr) * list Z) :=
  (let* c := parseline (parse_fuel s) in
   peek [] ;;;
   let* rest := kget id in
   match rest with
   | [] => kret (c, nulterminate (length s) c (s ++ [0]))
   | _ => panic "syntax"
   end) s.

(** What a complete command line leaves unread; [parsecmd] reports it. *)
Definition leftovers (s : list Z) : list Z :=
  match (parseline (parse_fuel s) ;;; peek [] ;;; kget id) s with Ok rest _ => rest | _ => [] end.

(** ** Runs that end *)

(** [m] run at [s] returns a result with [Q], or panics; it never runs out of
    fuel. *)
Definition ends {A} (m : P A) (s : ptr) (Q : A -> ptr -> Prop) : Prop :=
  match m s with
  | Ok a s' => Q a s'
  | Panic _ => True
  | Block _ | Fault _ => False
  end.

Lemma ends_bind {A B} (m : P A) (f : A -> P B) s (R : A -> ptr -> Prop) (Q : B -> ptr -> Prop) :
  ends m s R -> (forall a s', R a s' -> ends (f a) s' Q) -> ends (kbind m f) s Q.
Proof. unfold ends, kbind. destruct (m s); naive_solver. Qed.

Lemma ends_ret {A} (a : A) s (Q : A -> ptr -> Prop) : Q a s -> ends (kret a) s Q.
Proof. done. Qed.

Lemma ends_panic {A} msg s (Q : A -> ptr -> Prop) : ends (panic msg) s Q.
Proof. done. Qed.

Lemma ends_weaken {A} (m : P A) s (R Q : A -> ptr -> Prop) :
  ends m s R -> (forall a s', R a s' -> Q a s') -> ends m s Q.
Proof. unfold ends. destruct (m s); naive_solver. Qed.

(** ** Words *)

(** Characters of a word. *)
Definition plain (c : Z) : Prop := is_space c = false /\ is_symbol c = false.

(** A word of the line [L], with pointers to its start and end: it ends at the
    end of the line or before a space or a symbol. *)
Definition word_in (L : list Z) (w : ptr * ptr) : Prop :=
  w.1 `suffix_of` L /\
  exists text, w.1 = text ++ w.2 /\ text <> [] /\ Forall plain text /\
    match w.2 with [] => True | c :: _ => ~ plain c end.

Fixpoint words {T} (c : cmd T) : list T :=
  match c with
  | Exec argv => argv
  | Redir c file _ _ => words c ++ [file]
  | Pipe l r => words l ++ words r
  | List_ l r => words l ++ words r
  | Back c => words c
  end.

Lemma words_wrap {T} (c : cmd T) rs : words (wrap c rs) = words c ++ ((fun r => r.1.1) <$> rs).
Proof.
  unfold wrap. revert c. induction rs as [|r rs IH]; intros c; cbn; [by rewrite app_nil_r|].
  rewrite IH. cbn. by rewrite <- app_assoc.
Qed.

Lemma skip_suffix s : skip s `suffix_of` s.
Proof. induction s as [|c s IH]; cbn; [done|]. destruct (is_space c); [by apply suffix_cons_r|done]. Qed.

Lemma skip_head s c r : skip s = c :: r -> is_space c = false.
Proof.
  induction s as [|d s IH]; cbn; [done|]. destruct (is_space d) eqn:E; [done|]. by intros [= <- _].
Qed.

Lemma skip_word_spec s :
  exists text, s = text ++ skip_word s /\ Forall plain text /\ match skip_word s with [] => True | c :: _ => ~ plain c end.
Proof.
  induction s as [|c s IH]; cbn; [by exists []|]. destruct (is_space c) eqn:E1; cbn.
  - exists []. split_and!; [done|constructor|]. intros [? ?]. congruence.
  - destruct (is_symbol c) eqn:E2; cbn.
    + exists []. split_and!; [done|constructor|]. intros [? ?]. congruence.
    + destruct IH as (text & E & Hp & Hh). exists (c :: text). split_and!; [cbn; by rewrite <- E|by constructor|done].
Qed.

Lemma suffix_len (s s' : ptr) : s' `suffix_of` s -> (length s' <= length s)%nat.
Proof. apply suffix_length. Qed.

(** [gettoken] moves forward, and past at least one character unless it is at
    the end; a word it reports is a word of the line. *)
Lemma gettoken_ends L s :
  s `suffix_of` L ->
  ends gettoken s (fun t s' =>
    s' `suffix_of` s /\ (t.1 = 0 \/ (length s' < length s)%nat) /\ (t.1 = 97 -> word_in L t.2) /\ (t.1 = 0 -> s' = [])).
Proof.
  intros HL. unfold ends, gettoken. pose proof (skip_suffix s) as Hs. destruct (skip s) as [|c r] eqn:E.
  - cbn. split_and!; auto. done.
  - assert (r `suffix_of` s) as Hr by (etrans; [by apply suffix_cons_r|exact Hs]).
    pose proof (suffix_len _ _ Hs) as Hls. cbn [length] in Hls.
    assert (forall x, x `suffix_of` r -> skip x `suffix_of` s /\ (length (skip x) < length s)%nat) as Hx.
    { intros x Hx. assert (skip x `suffix_of` r) as Hx' by (etrans; [apply skip_suffix|done]).
      split; [by etrans|]. apply suffix_len in Hx'. lia. }
    assert (c <> 0 /\ c <> 97 \/ bool_decide (c ∈ str "|();&<") = false) as Hc.
    { destruct (bool_decide (c ∈ str "|();&<")) eqn:Eb; [left|by right]. apply bool_decide_eq_true in Eb.
      vm_compute (str _) in Eb. repeat (apply elem_of_cons in Eb as [->|Eb]; [done|]). by apply elem_of_nil in Eb. }
    destruct (bool_decide (c ∈ str "|();&<")) eqn:Eb.
    + destruct Hc as [Hc|?]; [|done]. destruct (Hx r); [done|]. cbn. naive_solver.
    + destruct (Z.eqb_spec c 62) as [->|Hne].
      * destruct r as [|d r']; [destruct (Hx []); [done|]; cbn; naive_solver|].
        destruct (Z.eqb_spec d 62).
        -- destruct (Hx r'); [by apply suffix_cons_r|]. cbn. naive_solver.
        -- destruct (Hx (d :: r')); [done|]. cbn. naive_solver.
      * destruct (skip_word_spec (c :: r)) as (text & Et & Hp & Hh).
        assert (plain c) as Hpc.
        { split; [by apply (skip_head s c r)|]. unfold is_symbol. apply bool_decide_eq_false. intros Hin.
          apply bool_decide_eq_false in Eb. apply Eb. vm_compute (str _) in Hin |- *.
          repeat (apply elem_of_cons in Hin as [->|Hin]; [first [done|by repeat constructor]|]). by apply elem_of_nil in Hin. }
        assert (text <> []) as Hne2 by (intros ->; cbn [app] in Et; rewrite <- Et in Hh; done).
        assert (skip_word (c :: r) `suffix_of` r) as Hw.
        { destruct text as [|c' text]; [done|]. cbn in Et. injection Et as [= _ Et]. exists text. exact Et. }
        destruct (Hx (skip_word (c :: r)) Hw) as [H1 H2]. cbn [fst snd]. split_and!; [done|by right| |done].
        intros _. split; [cbn; by etrans|]. exists text. cbn. auto.
Qed.

Lemma peek_ends toks s :
  ends (peek toks) s (fun b s' => s' `suffix_of` s /\ (b = true -> exists c r, s' = c :: r /\ c ∈ toks)).
Proof.
  unfold ends, peek. split; [apply skip_suffix|]. destruct (skip s) as [|c r]; [done|].
  intros H%bool_decide_eq_true. eauto.
Qed.

(** What a parsing function leaves: a later pointer and words of the line. *)
Definition parsed (L s : ptr) (ws : list (ptr * ptr)) (s' : ptr) : Prop :=
  s' `suffix_of` s /\ Forall (word_in L) ws.

(** At a character that starts a token, [gettoken] makes progress. *)
Lemma gettoken_progress L s c r :
  s `suffix_of` L -> s = c :: r -> c ∈ symbols ->
  ends gettoken s (fun t s' => s' `suffix_of` s /\ (length s' < length s)%nat).
Proof.
  intros HL -> Hc. eapply ends_weaken; [by apply (gettoken_ends L)|]. cbn beta. intros t s' (H1 & [H2|H2] & H3 & H4); [|auto].
  split; [done|]. rewrite H4 by done. cbn. lia.
Qed.

(** Follow the pointers back to the line. *)
Ltac sfx :=
  repeat match goal with
  | H : ?a `suffix_of` ?b |- ?a `suffix_of` ?b => exact H
  | H : ?a `suffix_of` ?b |- ?a `suffix_of` _ => transitivity b; [exact H|]; clear H
  end.

Ltac symbol_sub :=
  intros x Hx; vm_compute (str _) in Hx; vm_compute (symbols);
  repeat (apply elem_of_cons in Hx as [->|Hx]; [by repeat constructor|]); by apply elem_of_nil in Hx.

(** [peek] found one of [toks]: the token is then consumed. *)
Lemma peeked_token L s (toks : list Z) :
  s `suffix_of` L -> (forall x, x ∈ toks -> x ∈ symbols) -> (exists c r, s = c :: r /\ c ∈ toks) ->
  ends gettoken s (fun t s' => s' `suffix_of` s /\ (length s' < length s)%nat).
Proof. intros HL Ht (c & r & -> & Hc). apply (gettoken_progress L _ c r); auto. Qed.

Lemma parseredirs_ends L fuel rs s :
  s `suffix_of` L -> (length s < fuel)%nat -> Forall (word_in L) ((fun r => r.1.1) <$> rs) ->
  ends (parseredirs fuel rs) s (fun rs' s' => parsed L s ((fun r => r.1.1) <$> rs') s').
Proof.
  revert rs s. induction fuel as [|f IH]; intros rs s HL Hf Hrs; [lia|]. cbn [parseredirs].
  eapply ends_bind; [apply peek_ends|]. cbn beta. intros more s1 [H1 Hm]. pose proof (suffix_len _ _ H1).
  destruct more; cbn [negb]; [|by apply ends_ret].
  eapply ends_bind; [apply (peeked_token L s1 (str "<>")); [sfx|symbol_sub|auto]|].
  cbn beta. intros t s2 [H2 Hl2].
  eapply ends_bind; [apply (gettoken_ends L); sfx|]. cbn beta.
  intros w s3 (H3 & _ & Hw & _). pose proof (suffix_len _ _ H3).
  destruct (Z.eqb_spec w.1 97) as [E|E]; cbn [negb]; [|apply ends_panic]. specialize (Hw E).
  assert (forall m fd, ends (parseredirs f (rs ++ [(w.2, m, fd)])) s3 (fun rs' s' => parsed L s ((fun r => r.1.1) <$> rs') s')) as Hrec.
  { intros m fd. eapply ends_weaken; [apply IH; [sfx|lia|]|].
    - rewrite fmap_app. apply Forall_app. split; [done|]. by apply Forall_singleton.
    - cbn beta. intros rs' s' [H4 H5]. split; [|done]. sfx. }
  destruct (t.1 =? 60); [apply Hrec|]. destruct (t.1 =? 62); [apply Hrec|]. destruct (t.1 =? 43); [apply Hrec|].
  eapply ends_weaken; [apply IH; [sfx|lia|done]|].
  cbn beta. intros rs' s' [H4 H5]. split; [|done]. sfx.
Qed.

Lemma parseexec_loop_ends L fuel argv rs s :
  s `suffix_of` L -> (length s < fuel)%nat -> Forall (word_in L) (argv ++ ((fun r => r.1.1) <$> rs)) ->
  ends (parseexec_loop fuel argv rs) s (fun c s' => parsed L s (words c) s').
Proof.
  revert argv rs s. induction fuel as [|f IH]; intros argv rs s HL Hf Hw; [lia|]. cbn [parseexec_loop].
  eapply ends_bind; [apply peek_ends|]. cbn beta. intros stop s1 [H1 _]. pose proof (suffix_len _ _ H1).
  assert (parsed L s (words (wrap (Exec argv) rs)) s1) as Hdone by (split; [done|by rewrite words_wrap]).
  destruct stop; [by apply ends_ret|].
  eapply ends_bind; [apply (gettoken_ends L); sfx|]. cbn beta. intros t s2 (H2 & Hp & Ht & _).
  destruct (Z.eqb_spec t.1 0) as [E|E]; [apply ends_ret; split; [sfx|apply Hdone]|].
  destruct Hp as [?|Hp]; [done|]. destruct (Z.eqb_spec t.1 97) as [E'|E']; cbn [negb]; [|apply ends_panic].
  destruct (_ <=? _)%nat; [apply ends_panic|]. apply Forall_app in Hw as [Hw1 Hw2].
  eapply ends_bind; [apply (parseredirs_ends L); [sfx|lia|done]|].
  cbn beta. intros rs' s3 [H3 Hr]. pose proof (suffix_len _ _ H3).
  eapply ends_weaken; [apply IH; [sfx|lia|]|].
  - rewrite <- app_assoc. apply Forall_app. split; [done|]. by constructor; [apply Ht|].
  - cbn beta. intros c s' [H4 H5]. split; [|done]. sfx.
Qed.

Lemma parseback_ends L fuel c s :
  s `suffix_of` L -> (length s < fuel)%nat -> Forall (word_in L) (words c) ->
  ends (parseback fuel c) s (fun c' s' => parsed L s (words c') s').
Proof.
  revert c s. induction fuel as [|f IH]; intros c s HL Hf Hw; [lia|]. cbn [parseback].
  eapply ends_bind; [apply peek_ends|]. cbn beta. intros amp s1 [H1 Ha]. pose proof (suffix_len _ _ H1).
  destruct amp; cbn [negb]; [|by apply ends_ret].
  eapply ends_bind; [apply (peeked_token L s1 (str "&")); [sfx|symbol_sub|auto]|].
  cbn beta. intros t s2 [H2 Hl2].
  eapply ends_weaken; [apply IH; [sfx|lia|done]|].
  cbn beta. intros c' s' [H4 H5]. split; [|done]. sfx.
Qed.

(** The four recursive functions, with the fuel each needs. *)
Definition all_end (L : ptr) (n : nat) : Prop :=
  forall fuel s, s `suffix_of` L -> length s = n ->
  ((4 * n + 4 <= fuel)%nat -> ends (parseline fuel) s (fun c s' => parsed L s (words c) s')) /\
  ((4 * n + 3 <= fuel)%nat -> ends (parsepipe parseline fuel) s (fun c s' => parsed L s (words c) s')) /\
  ((4 * n + 2 <= fuel)%nat -> ends (parseexec parseline fuel) s (fun c s' => parsed L s (words c) s')) /\
  ((4 * n + 1 <= fuel)%nat -> ends (parseblock parseline fuel) s (fun c s' => parsed L s (words c) s')).

Lemma parseblock_ends L n fuel s :
  (forall k, (k < n)%nat -> all_end L k) -> s `suffix_of` L -> length s = n -> (4 * n + 1 <= fuel)%nat ->
  ends (parseblock parseline fuel) s (fun c s' => parsed L s (words c) s').
Proof.
  intros IH HL Hn Hf. destruct fuel as [|f]; [lia|]. cbn [parseblock].
  eapply ends_bind; [apply peek_ends|]. cbn beta. intros op s1 [Hs1 Hop]. pose proof (suffix_len _ _ Hs1).
  destruct op; cbn [negb]; [|apply ends_panic].
  eapply ends_bind; [apply (peeked_token L s1 (str "(")); [sfx|symbol_sub|auto]|]. cbn beta. intros t s2 [Hs2 Hl2].
  eapply ends_bind; [apply (IH (length s2) ltac:(lia) f s2); [sfx|done|lia]|].
  cbn beta. intros c s3 [Hs3 Hw]. pose proof (suffix_len _ _ Hs3).
  eapply ends_bind; [apply peek_ends|]. cbn beta. intros cl s4 [Hs4 Hcl]. pose proof (suffix_len _ _ Hs4).
  destruct cl; cbn [negb]; [|apply ends_panic].
  eapply ends_bind; [apply (peeked_token L s4 (str ")")); [sfx|symbol_sub|auto]|]. cbn beta. intros t' s5 [Hs5 Hl5].
  eapply ends_bind; [apply (parseredirs_ends L); [sfx|lia|constructor]|]. cbn beta. intros rs s6 [Hs6 Hr].
  apply ends_ret. split; [sfx|]. rewrite words_wrap. by apply Forall_app.
Qed.

Lemma parseexec_ends L n fuel s :
  (forall k, (k < n)%nat -> all_end L k) -> s `suffix_of` L -> length s = n -> (4 * n + 2 <= fuel)%nat ->
  ends (parseexec parseline fuel) s (fun c s' => parsed L s (words c) s').
Proof.
  intros IH HL Hn Hf. destruct fuel as [|f]; [lia|]. cbn [parseexec].
  eapply ends_bind; [apply peek_ends|]. cbn beta. intros op s1 [Hs1 Hop]. pose proof (suffix_len _ _ Hs1).
  destruct op.
  - eapply ends_weaken; [apply (parseblock_ends L (length s1) f s1); [intros k Hk; apply IH; lia|sfx|done|lia]|].
    cbn beta. intros c s' [Hs2 Hw]. split; [sfx|done].
  - eapply ends_bind; [apply (parseredirs_ends L); [sfx|lia|constructor]|]. cbn beta. intros rs s2 [Hs2 Hr].
    pose proof (suffix_len _ _ Hs2).
    eapply ends_weaken; [apply (parseexec_loop_ends L); [sfx|lia|done]|]. cbn beta. intros c s' [Hs3 Hw]. split; [sfx|done].
Qed.

Lemma parsepipe_ends L n fuel s :
  (forall k, (k < n)%nat -> all_end L k) -> s `suffix_of` L -> length s = n -> (4 * n + 3 <= fuel)%nat ->
  ends (parsepipe parseline fuel) s (fun c s' => parsed L s (words c) s').
Proof.
  intros IH HL Hn Hf. destruct fuel as [|f]; [lia|]. cbn [parsepipe].
  eapply ends_bind; [apply (parseexec_ends L n f s); [done|done|done|lia]|]. cbn beta. intros c s1 [Hs1 Hw].
  pose proof (suffix_len _ _ Hs1).
  eapply ends_bind; [apply peek_ends|]. cbn beta. intros bar s2 [Hs2 Hbar]. pose proof (suffix_len _ _ Hs2).
  destruct bar; cbn [negb]; [|apply ends_ret; split; [sfx|done]].
  eapply ends_bind; [apply (peeked_token L s2 (str "|")); [sfx|symbol_sub|auto]|]. cbn beta. intros t s3 [Hs3 Hl3].
  eapply ends_bind; [apply (IH (length s3) ltac:(lia) f s3); [sfx|done|lia]|]. cbn beta. intros r s4 [Hs4 Hr].
  apply ends_ret. split; [sfx|]. by apply Forall_app.
Qed.

Lemma parseline_ends L n fuel s :
  (forall k, (k < n)%nat -> all_end L k) -> s `suffix_of` L -> length s = n -> (4 * n + 4 <= fuel)%nat ->
  ends (parseline fuel) s (fun c s' => parsed L s (words c) s').
Proof.
  intros IH HL Hn Hf. destruct fuel as [|f]; [lia|]. cbn [parseline].
  eapply ends_bind; [apply (parsepipe_ends L n f s); [done|done|done|lia]|]. cbn beta. intros c s1 [Hs1 Hw].
  pose proof (suffix_len _ _ Hs1).
  eapply ends_bind; [apply (parseback_ends L); [sfx|lia|done]|]. cbn beta. intros c2 s2 [Hs2 Hw2].
  pose proof (suffix_len _ _ Hs2).
  eapply ends_bind; [apply peek_ends|]. cbn beta. intros semi s3 [Hs3 Hsemi]. pose proof (suffix_len _ _ Hs3).
  destruct semi; cbn [negb]; [|apply ends_ret; split; [sfx|done]].
  eapply ends_bind; [apply (peeked_token L s3 (str ";")); [sfx|symbol_sub|auto]|]. cbn beta. intros t s4 [Hs4 Hl4].
  eapply ends_bind; [apply (IH (length s4) ltac:(lia) f s4); [sfx|done|lia]|]. cbn beta. intros r s5 [Hs5 Hr].
  apply ends_ret. split; [sfx|]. by apply Forall_app.
Qed.

Lemma all_end_all L n : all_end L n.
Proof.
  induction (lt_wf n) as [n _ IH]. intros fuel s HL Hn. split_and!; intros Hf.
  - by apply (parseline_ends L n).
  - by apply (parsepipe_ends L n).
  - by apply (parseexec_ends L n).
  - by apply (parseblock_ends L n).
Qed.

(** ** Descriptors *)

(** Redirections are of standard input or output. *)
Fixpoint fds_ok {T} (c : cmd T) : Prop :=
  match c with
  | Exec _ => True
  | Redir c _ _ fd => fds_ok c /\ (fd = 0 \/ fd = 1)
  | Pipe l r | List_ l r => fds_ok l /\ fds_ok r
  | Back c => fds_ok c
  end.

(** Every result of [m] has [Q]. *)
Definition gives {A} (m : P A) (Q : A -> Prop) : Prop := forall s a s', m s = Ok a s' -> Q a.

Lemma gives_bind {A B} (m : P A) (f : A -> P B) (R : A -> Prop) (Q : B -> Prop) :
  gives m R -> (forall a, R a -> gives (f a) Q) -> gives (kbind m f) Q.
Proof. intros Hm Hf s b s'. unfold kbind. destruct (m s) as [a s1| | |] eqn:E; try done. apply (Hf a), (Hm s a s1 E). Qed.

Lemma gives_any {A} (m : P A) : gives m (fun _ => True).
Proof. done. Qed.

Lemma gives_then {A B} (m : P A) (f : A -> P B) (Q : B -> Prop) : (forall a, gives (f a) Q) -> gives (kbind m f) Q.
Proof. intros Hf. eapply gives_bind; [apply gives_any|auto]. Qed.

Lemma gives_ret {A} (a : A) (Q : A -> Prop) : Q a -> gives (kret a) Q.
Proof. by intros H s b s' [= <- _]. Qed.

Lemma gives_panic {A} msg (Q : A -> Prop) : gives (panic msg) Q.
Proof. done. Qed.

Lemma gives_fault {A} why (Q : A -> Prop) : gives (kfault why) Q.
Proof. done. Qed.

Lemma wrap_fds {T} (c : cmd T) rs : fds_ok c -> Forall (fun r => r.2 = 0 \/ r.2 = 1) rs -> fds_ok (wrap c rs).
Proof. intros Hc Hrs. revert c Hc. induction Hrs as [|r rs Hr _ IH]; intros c Hc; [done|]. cbn. apply IH. by split. Qed.

Lemma parseredirs_fds fuel : forall rs,
  Forall (fun r : redir => r.2 = 0 \/ r.2 = 1) rs -> gives (parseredirs fuel rs) (Forall (fun r => r.2 = 0 \/ r.2 = 1)).
Proof.
  induction fuel as [|f IH]; intros rs Hrs; [apply gives_fault|]. cbn [parseredirs].
  apply gives_then. intros more. destruct (negb more); [by apply gives_ret|].
  apply gives_then. intros t. apply gives_then. intros w. destruct (negb _); [apply gives_panic|].
  assert (forall m d, d = 0 \/ d = 1 -> gives (parseredirs f (rs ++ [(w.2, m, d)])) (Forall (fun r => r.2 = 0 \/ r.2 = 1))) as Hrec.
  { intros m d Hd. apply IH, Forall_app. split; [done|]. by apply Forall_singleton. }
  repeat case_match; auto.
Qed.

Lemma parseexec_loop_fds fuel : forall argv rs,
  Forall (fun r : redir => r.2 = 0 \/ r.2 = 1) rs -> gives (parseexec_loop fuel argv rs) fds_ok.
Proof.
  induction fuel as [|f IH]; intros argv rs Hrs; [apply gives_fault|]. cbn [parseexec_loop].
  apply gives_then. intros [|]; [by apply gives_ret, wrap_fds|]. apply gives_then. intros t.
  destruct (t.1 =? 0); [by apply gives_ret, wrap_fds|]. destruct (negb _); [apply gives_panic|].
  destruct (_ <=? _)%nat; [apply gives_panic|]. eapply gives_bind; [by apply parseredirs_fds|]. intros rs'. apply IH.
Qed.

Lemma parseback_fds fuel : forall c, fds_ok c -> gives (parseback fuel c) fds_ok.
Proof.
  induction fuel as [|f IH]; intros c Hc; [apply gives_fault|]. cbn [parseback].
  apply gives_then. intros amp. destruct (negb amp); [by apply gives_ret|]. apply gives_then. intros _. by apply IH.
Qed.

Section fds.
Context (pl : nat -> P (cmd (ptr * ptr))) (N : nat) (Hpl : forall k, (k < N)%nat -> gives (pl k) fds_ok).

Lemma parseblock_fds fuel : (fuel <= N)%nat -> gives (parseblock pl fuel) fds_ok.
Proof.
  intros Hf. destruct fuel as [|f]; [apply gives_fault|]. cbn [parseblock]. apply gives_then. intros b.
  destruct (negb b); [apply gives_panic|]. apply gives_then. intros _. eapply gives_bind; [by apply Hpl|]. intros c Hc.
  apply gives_then. intros cl. destruct (negb cl); [apply gives_panic|]. apply gives_then. intros _.
  eapply gives_bind; [apply parseredirs_fds; constructor|]. intros rs Hrs. by apply gives_ret, wrap_fds.
Qed.

Lemma parseexec_fds fuel : (fuel <= N)%nat -> gives (parseexec pl fuel) fds_ok.
Proof.
  intros Hf. destruct fuel as [|f]; [apply gives_fault|]. cbn [parseexec]. apply gives_then.
  intros [|]; [apply parseblock_fds; lia|].
  eapply gives_bind; [apply parseredirs_fds; constructor|]. intros rs. apply parseexec_loop_fds.
Qed.

Lemma parsepipe_fds fuel : (fuel <= N)%nat -> gives (parsepipe pl fuel) fds_ok.
Proof.
  induction fuel as [|f IH]; intros Hf; [apply gives_fault|]. cbn [parsepipe].
  eapply gives_bind; [apply parseexec_fds; lia|]. intros c Hc.
  apply gives_then. intros bar. destruct (negb bar); [by apply gives_ret|]. apply gives_then. intros _.
  eapply gives_bind; [apply IH; lia|]. intros r Hr. by apply gives_ret.
Qed.
End fds.

Lemma parseline_fds fuel : gives (parseline fuel) fds_ok.
Proof.
  induction (lt_wf fuel) as [fuel _ IH]. destruct fuel as [|f]; [apply gives_fault|]. cbn [parseline].
  eapply gives_bind; [apply (parsepipe_fds parseline f); [intros k Hk; apply IH; lia|done]|]. intros c Hc.
  eapply gives_bind; [by apply parseback_fds|]. intros c2 Hc2. apply gives_then. intros semi.
  destruct (negb semi); [by apply gives_ret|]. apply gives_then. intros _.
  eapply gives_bind; [apply IH; lia|]. intros r Hr. by apply gives_ret.
Qed.

Lemma parsecmd_fds s c buf r : parsecmd s = Ok (c, buf) r -> fds_ok c.
Proof.
  unfold parsecmd. intros E. refine (gives_bind _ _ fds_ok (fun x => fds_ok x.1) (parseline_fds _) _ s (c, buf) r E).
  intros c' Hc. apply gives_then. intros _. apply gives_then. intros [|]; [by apply gives_ret|apply gives_panic].
Qed.

(** ** Terminated words *)

(** The word of a pair of pointers. *)
Definition text_of (w : ptr * ptr) : list Z := take (length w.1 - length w.2) w.1.

Lemma text_of_app text e : text_of (text ++ e, e) = text.
Proof. unfold text_of. cbn [fst snd]. rewrite length_app. rewrite take_app_length'; [done|lia]. Qed.

(** [nulterminate] writes NUL at the ends of the words and nowhere else. *)
Lemma nulterminate_length n c buf : length (nulterminate n c buf) = length buf.
Proof.
  revert buf. induction c as [argv|c IH f m d|l IHl r IHr|l IHl r IHr|c IH]; intros buf; cbn.
  - revert buf. induction argv as [|w argv IH]; intros buf; cbn; [done|]. by rewrite IH, length_insert.
  - by rewrite length_insert, IH.
  - by rewrite IHr, IHl.
  - by rewrite IHr, IHl.
  - apply IH.
Qed.

Lemma nulterminate_other n c buf i :
  (forall w, w ∈ words c -> offset n w.2 <> i) -> nulterminate n c buf !! i = buf !! i.
Proof.
  revert buf. induction c as [argv|c IH f m d|l IHl r IHr|l IHl r IHr|c IH]; intros buf Hw; cbn in *.
  - revert buf. induction argv as [|w argv IH]; intros buf; cbn; [done|].
    rewrite IH; [|intros w' Hw'; apply Hw; by right]. apply list_lookup_insert_ne, Hw. by left.
  - rewrite list_lookup_insert_ne; [apply IH|apply Hw]; [intros w Hin; apply Hw|]; rewrite elem_of_app, ?elem_of_cons; auto.
  - rewrite IHr, IHl; [done| |]; intros w Hin; apply Hw; rewrite elem_of_app; auto.
  - rewrite IHr, IHl; [done| |]; intros w Hin; apply Hw; rewrite elem_of_app; auto.
  - by apply IH.
Qed.

Lemma nulterminate_kept0 n c buf i : buf !! i = Some 0 -> nulterminate n c buf !! i = Some 0.
Proof.
  revert buf. induction c as [argv|c IH f m d|l IHl r IHr|l IHl r IHr|c IH]; intros buf Hb; cbn in *; auto.
  - revert buf Hb. induction argv as [|w argv IH]; intros buf Hb; cbn; [done|]. apply IH.
    apply list_lookup_insert_Some. destruct (decide (offset n w.2 = i)) as [->|]; [left|auto].
    split_and!; [done|done|by eapply lookup_lt_Some].
  - apply list_lookup_insert_Some. specialize (IH buf Hb). destruct (decide (offset n f.2 = i)) as [->|]; [left|auto].
    split_and!; [done|done|by eapply lookup_lt_Some].
Qed.

Lemma nulterminate_ends n c buf w :
  w ∈ words c -> (offset n w.2 < length buf)%nat -> nulterminate n c buf !! offset n w.2 = Some 0.
Proof.
  revert buf. induction c as [argv|c IH f m d|l IHl r IHr|l IHl r IHr|c IH]; intros buf Hw Hl; cbn in *; auto.
  - revert buf Hl. induction argv as [|x argv IH]; intros buf Hl; [by apply elem_of_nil in Hw|]. cbn.
    apply elem_of_cons in Hw as [->|Hw]; [|apply IH; [done|by rewrite length_insert]].
    apply (nulterminate_kept0 n (Exec argv)). by apply list_lookup_insert_eq.
  - apply elem_of_app in Hw as [Hw|Hw%list_elem_of_singleton].
    + apply list_lookup_insert_Some. specialize (IH buf Hw Hl). destruct (decide (offset n f.2 = offset n w.2)) as [->|]; [left|auto].
      split_and!; [done|done|by rewrite nulterminate_length].
    + subst w. apply list_lookup_insert_eq. by rewrite nulterminate_length.
  - apply elem_of_app in Hw as [Hw|Hw]; [apply nulterminate_kept0; auto|]. apply IHr; [done|by rewrite nulterminate_length].
  - apply elem_of_app in Hw as [Hw|Hw]; [apply nulterminate_kept0; auto|]. apply IHr; [done|by rewrite nulterminate_length].
Qed.

Lemma parsecmd_run s :
  match parsecmd s with
  | Ok (c, buf) _ => Forall (word_in s) (words c) /\ buf = nulterminate (length s) c (s ++ [0])
  | Panic _ => True
  | _ => False
  end.
Proof.
  destruct (all_end_all s (length s) (parse_fuel s) s) as [H _]; [done|done|].
  specialize (H ltac:(unfold parse_fuel; lia)). unfold parsecmd.
  assert (ends (let* c := parseline (parse_fuel s) in peek [] ;;; let* rest := kget id in
    match rest with [] => kret (c, nulterminate (length s) c (s ++ [0])) | _ => panic "syntax" end) s
    (fun r _ => Forall (word_in s) (words r.1) /\ r.2 = nulterminate (length s) r.1 (s ++ [0]))) as He.
  { eapply ends_bind; [exact H|]. cbn beta. intros c s1 [_ Hw]. eapply ends_bind; [apply peek_ends|]. cbn beta.
    intros b s2 _. unfold ends, kbind, kget, id. destruct s2; [|done]. by split. }
  unfold ends in He. destruct (kbind _ _ _) as [[c buf] s'|msg|s'|why]; auto.
Qed.

(** The bytes of a word lie in the line, before its end. *)
Lemma word_bytes L w :
  word_in L w -> exists pre, L = pre ++ text_of w ++ w.2 /\ offset (length L) w.1 = length pre /\
    offset (length L) w.2 = (length pre + length (text_of w))%nat /\ Forall plain (text_of w) /\ text_of w <> [] /\
    match w.2 with [] => True | c :: _ => ~ plain c end.
Proof.
  destruct w as [q e]. intros ((pre & ->) & text & Eq & Hne & Hp & Hh). cbn [fst snd] in *. subst q.
  rewrite text_of_app. exists pre. unfold offset. rewrite !length_app. split_and!; auto; lia.
Qed.

(** ** Properties *)

(** C26: The parser terminates on every line: it returns a command or panics
    with a message, whatever the nesting of blocks, pipes and lists. *)
Theorem parsecmd_terminates (s : list Z) :
  (exists c buf, parsecmd s = Ok (c, buf) []) \/ (exists msg, parsecmd s = Panic msg).
Proof.
  pose proof (parsecmd_run s) as H. destruct (parsecmd s) as [[c buf] s'|msg|s'|why] eqn:E; try done; [left|right; eauto].
  exists c, buf. unfold parsecmd in E. unfold kbind in E. destruct (parseline _ s) as [c' s1| | |]; try done.
  unfold peek in E at 1. unfold kget, id in E. destruct (skip s1); [|done]. unfold kret in E. by injection E as [= <- <- <-].
Qed.

(** Terminating the words in place is right: after a successful parse every
    word of the command, argument or file name, is a NUL-terminated string in
    the line buffer, namely the maximal run of ordinary characters at its
    start; no write hits another word, and the buffer keeps its length. *)
Theorem parsecmd_words (s : list Z) (c : cmd (ptr * ptr)) (buf r : list Z) (w : ptr * ptr) :
  parsecmd s = Ok (c, buf) r -> w ∈ words c ->
  let k := offset (length s) w.1 in let text := text_of w in
  take (length text) (drop k buf) = text /\ buf !! (k + length text)%nat = Some 0 /\
  take (length text) (drop k s) = text /\ text <> [] /\ Forall plain text /\ length buf = S (length s).
Proof.
  intros E Hw. pose proof (parsecmd_run s) as H. rewrite E in H. destruct H as [Hall ->]. rewrite Forall_forall in Hall.
  destruct (word_bytes s w (Hall w Hw)) as (pre & Es & Hk & He & Hp & Hne & _). cbv zeta. rewrite Hk. split_and!.
  - apply list_eq. intros i. destruct (decide (i < length (text_of w))%nat) as [Hi|Hi].
    2:{ rewrite !lookup_ge_None_2; [done|lia|rewrite length_take; lia]. }
    rewrite lookup_take_lt, lookup_drop by done. rewrite nulterminate_other.
    + rewrite Es at 1. rewrite <- !app_assoc, lookup_app_r by lia. rewrite lookup_app_l by lia. f_equal. lia.
    + intros w' Hw' Eo. destruct (word_bytes s w' (Hall w' Hw')) as (pre' & Es' & _ & He' & _ & _ & Hh'). rewrite Eo in He'.
      assert (s !! (length pre + i)%nat = Some (text_of w !!! i)) as H1.
      { rewrite Es at 1. rewrite lookup_app_r by lia. rewrite lookup_app_l by lia.
        replace (length pre + i - length pre)%nat with i by lia. by apply list_lookup_lookup_total_lt. }
      assert (s !! (length pre + i)%nat = head w'.2) as H2.
      { rewrite Es' at 1. rewrite app_assoc, lookup_app_r by (rewrite length_app; lia). rewrite length_app.
        replace (length pre + i - _)%nat with 0%nat by lia. by destruct w'.2. }
      rewrite H1 in H2. destruct w'.2 as [|d e']; [done|]. cbn in H2. injection H2 as [= H2].
      apply Hh'. rewrite <- H2. rewrite Forall_forall in Hp. apply Hp. apply list_elem_of_lookup. exists i.
      by apply list_lookup_lookup_total_lt.
  - rewrite <- He. apply nulterminate_ends; [done|]. rewrite length_app, He, Es at 1. rewrite !length_app. cbn. lia.
  - rewrite Es at 1. rewrite drop_app_length. by rewrite take_app_length.
  - done.
  - done.
  - rewrite nulterminate_length, length_app. cbn. lia.
Qed.

Lemma parsecmd_words_witness :
  exists c buf w, parsecmd (str "cat<f|wc") = Ok (c, buf) [] /\ w ∈ words c /\ text_of w = str "wc" /\
    take 2 (drop (offset 8 w.1) buf) = str "wc".
Proof.
  eexists _, _, (str "wc", []). split; [vm_compute; reflexivity|]. split; [cbn; set_solver|]. split; [reflexivity|].
  refine (proj1 (parsecmd_words (str "cat<f|wc") _ _ [] (str "wc", []) ltac:(vm_compute; reflexivity) _)). cbn. set_solver.
Defined.

End ShParse.
