(* ===== verification/ShPrint.v ===== *)
(** Printing commands and reading them back: a printer for the shell's
    commands, with parentheses where the grammar of sh.c needs them, and the
    proof that its parser reads every printed command back as it was. *)

From S2P Require Import Prelude CString ShParse.

Module ShPrint.
Import ShParse.

(** Commands over the text of their words. *)
Fixpoint cmd_map {A B} (f : A -> B) (c : cmd A) : cmd B :=
  match c with
  | Exec argv => Exec (f <$> argv)
  | Redir c file mode fd => Redir (cmd_map f c) (f file) mode fd
  | Pipe l r => Pipe (cmd_map f l) (cmd_map f r)
  | List_ l r => List_ (cmd_map f l) (cmd_map f r)
  | Back c => Back (cmd_map f c)
  end.

Definition strip : cmd (ptr * ptr) -> cmd (list Z) := cmd_map text_of.

(** ** The printer *)

Definition print_words (ws : list (list Z)) : list Z := ws ≫= (fun w => 32 :: w).

Definition print_redir (r : list Z * Z * Z) : list Z := (if r.2 =? 0 then 60 else 62) :: r.1.1.

Definition print_redirs (rs : list (list Z * Z * Z)) : list Z := rs ≫= print_redir.

Definition paren (b : bool) (s : list Z) : list Z := if b then 40 :: s ++ [41] else s.

(** At level 3 (a simple command), 2 (a pipe), 1 (a background command) or 0
    (a list). *)
Fixpoint print (lvl : nat) (c : cmd (list Z)) : list Z :=
  match c with
  | Exec argv => print_words argv
  | Redir c file mode fd => print 3 c ++ print_redir (file, mode, fd)
  | Pipe l r => paren (2 <? lvl)%nat (print 3 l ++ 124 :: print 2 r)
  | Back c => paren (1 <? lvl)%nat (print 1 c ++ [38])
  | List_ l r => paren (0 <? lvl)%nat (print 1 l ++ 59 :: print 0 r)
  end.

(** Commands the shell can express. *)
Definition word_ok (w : list Z) : Prop := w <> [] /\ Forall (fun c => plain c /\ c <> 0) w.

Definition redir_ok (m fd : Z) : Prop := (m = O_RDONLY /\ fd = 0) \/ (m = Z.lor O_WRONLY O_CREATE /\ fd = 1).

Fixpoint cmd_ok (c : cmd (list Z)) : Prop :=
  match c with
  | Exec argv => Forall word_ok argv /\ (length argv < MAXARGS)%nat
  | Redir c file mode fd => cmd_ok c /\ word_ok file /\ redir_ok mode fd
  | Pipe l r | List_ l r => cmd_ok l /\ cmd_ok r
  | Back c => cmd_ok c
  end.

(** ** Tokens of printed commands *)

Lemma skip_idem s : skip (skip s) = skip s.
Proof. induction s as [|c s IH]; cbn; [done|]. destruct (is_space c) eqn:E; [done|]. cbn. by rewrite E. Qed.

Lemma peek_run toks s :
  peek toks s = Ok (match skip s with [] => false | c :: _ => bool_decide (c ∈ toks) end) (skip s).
Proof. done. Qed.

Lemma skip_plain c s : plain c -> skip (c :: s) = c :: s.
Proof. intros [E _]. cbn. by rewrite E. Qed.

Lemma plain_not_symbol c : plain c -> c ∉ symbols.
Proof. intros [_ E]. by apply bool_decide_eq_false in E. Qed.

Lemma skip_word_app w s : Forall plain w -> match s with [] => True | c :: _ => ~ plain c end -> skip_word (w ++ s) = s.
Proof.
  intros Hw Hs. induction Hw as [|c w [H1 H2] _ IH]; cbn.
  - destruct s as [|c s]; [done|]. cbn. destruct (is_space c) eqn:E1, (is_symbol c) eqn:E2; cbn; try done. by destruct Hs.
  - by rewrite H1, H2.
Qed.

(** [gettoken] at a word. *)
Lemma gettoken_word st w s :
  word_ok w -> match s with [] => True | c :: _ => ~ plain c end -> skip st = w ++ s ->
  gettoken st = Ok (97, (w ++ s, s)) (skip s).
Proof.
  intros [Hne Hw] Hs Est. assert (Forall plain w) as Hp by (eapply Forall_impl; [exact Hw|]; cbn; tauto).
  unfold gettoken. rewrite Est. destruct w as [|c w]; [done|]. cbn [app].
  apply Forall_cons in Hp as Hp'. destruct Hp' as [Hc _]. pose proof (plain_not_symbol c Hc) as Hns.
  rewrite bool_decide_eq_false_2.
  2:{ intros Hin. apply Hns. vm_compute (str _) in Hin. vm_compute (symbols).
      repeat (apply elem_of_cons in Hin as [->|Hin]; [by repeat constructor|]). by apply elem_of_nil in Hin. }
  rewrite (proj2 (Z.eqb_neq c 62)).
  2:{ intros ->. apply Hns. vm_compute (symbols). by repeat constructor. }
  change (c :: w ++ s) with ((c :: w) ++ s). by rewrite (skip_word_app (c :: w) s).
Qed.

(** [gettoken] at a one-character symbol. *)
Lemma gettoken_symbol st c s :
  skip st = c :: s -> c ∈ str "|();&<" -> gettoken st = Ok (c, (c :: s, s)) (skip s).
Proof. intros E Hc. unfold gettoken. rewrite E. by rewrite bool_decide_eq_true_2. Qed.

Lemma gettoken_gt st s :
  skip st = 62 :: s -> match s with [] => True | c :: _ => c <> 62 end -> gettoken st = Ok (62, (62 :: s, s)) (skip s).
Proof.
  intros E Hs. unfold gettoken. rewrite E. rewrite bool_decide_eq_false_2.
  - rewrite Z.eqb_refl. destruct s as [|d s]; [done|]. by rewrite (proj2 (Z.eqb_neq d 62)).
  - intros Hin. vm_compute (str _) in Hin. repeat (apply elem_of_cons in Hin as [Hin|Hin]; [done|]). by apply elem_of_nil in Hin.
Qed.

(** What may follow: the end, or one of [toks]. *)
Definition follow (toks s : list Z) : Prop := match skip s with [] => True | c :: _ => c ∈ toks end.

(** The next character ends a word. *)
Definition delim (s : list Z) : Prop := match s with [] => True | c :: _ => ~ plain c end.

Lemma symbol_not_plain c : c ∈ symbols -> ~ plain c.
Proof. intros Hc [_ E]. by apply bool_decide_eq_false in E. Qed.

Lemma follow_delim toks s : (forall c, c ∈ toks -> c ∈ symbols) -> follow toks s -> delim s.
Proof.
  unfold follow, delim. intros Ht. destruct s as [|c s]; [done|]. cbn. destruct (is_space c) eqn:E.
  - intros _ [E' _]. congruence.
  - intros Hc. by apply symbol_not_plain, Ht.
Qed.

Lemma follow_weaken (t1 t2 : list Z) s : (forall c, c ∈ t1 -> c ∈ t2) -> follow t1 s -> follow t2 s.
Proof. unfold follow. destruct (skip s); auto. Qed.

(** [peek] for tokens that cannot follow, and for the one that does. *)
Lemma peek_no toks t s : follow t s -> (forall c, c ∈ t -> c ∉ toks) -> peek toks s = Ok false (skip s).
Proof.
  intros Hf Hd. rewrite peek_run. unfold follow in Hf. destruct (skip s); [done|]. by rewrite bool_decide_eq_false_2 by auto.
Qed.

Lemma peek_yes (toks : list Z) s c r : skip s = c :: r -> c ∈ toks -> peek toks s = Ok true (c :: r).
Proof. intros E Hc. rewrite peek_run, E. by rewrite bool_decide_eq_true_2. Qed.

(** Membership in short lists of characters. *)
Ltac chars :=
  repeat match goal with
  | |- forall _ : Z, _ => let c := fresh "c" in intros c
  | |- _ ∈ _ -> _ => let H := fresh "Hc" in intros H; vm_compute (str _) in H;
      repeat (apply elem_of_cons in H as [->|H]); try (by apply elem_of_nil in H)
  | |- _ ∉ _ => let H := fresh "Hc" in intros H; vm_compute (str _) in H;
      repeat (apply elem_of_cons in H as [H|H]; [discriminate H|]); by apply elem_of_nil in H
  | |- _ ∈ _ => vm_compute; by repeat constructor
  end.

(** Not at a redirection. *)
Definition no_redir (s : list Z) : Prop := match skip s with [] => True | c :: _ => c ∉ str "<>" end.

Definition redir_text (r : redir) : list Z * Z * Z := (text_of r.1.1, r.1.2, r.2).

Definition redirs_ok (rs : list (list Z * Z * Z)) : Prop := Forall (fun r => word_ok r.1.1 /\ redir_ok r.1.2 r.2) rs.

Lemma word_ok_skip w s : word_ok w -> skip (w ++ s) = w ++ s.
Proof. intros [Hne Hw]. destruct w as [|c w]; [done|]. apply Forall_cons in Hw as [[Hc _] _]. by apply skip_plain. Qed.

Lemma delim_redirs rs Y : delim Y -> delim (print_redirs rs ++ Y).
Proof.
  destruct rs as [|r rs]; [done|]. intros _. cbn. apply symbol_not_plain. destruct (r.2 =? 0); vm_compute; by repeat constructor.
Qed.

Lemma redirs_run fuel rs0 rs Y st :
  redirs_ok rs -> no_redir Y -> delim Y -> skip st = skip (print_redirs rs ++ Y) -> (length rs < fuel)%nat ->
  exists rs', parseredirs fuel rs0 st = Ok (rs0 ++ rs') (skip Y) /\ redir_text <$> rs' = rs.
Proof.
  intros Hrs HY Hd. revert fuel rs0 st. induction Hrs as [|[[w m] fd] rs [Hw Hm] Hrs IH]; intros fuel rs0 st Est Hf;
    (destruct fuel as [|f]; [lia|]); cbn [parseredirs].
  - exists []. rewrite app_nil_r. split; [|done]. cbn [print_redirs mbind list_bind app] in Est.
    assert (peek (str "<>") st = Ok false (skip Y)) as E.
    { rewrite peek_run, Est. unfold no_redir in HY. destruct (skip Y); [done|]. by rewrite bool_decide_eq_false_2. }
    by rewrite (kbind_Ok _ _ _ _ _ E).
  - cbn [fst snd] in *. set (X := print_redirs rs ++ Y) in *. set (sym := if fd =? 0 then 60 else 62).
    assert (skip st = sym :: w ++ X) as Es.
    { rewrite Est. change (print_redirs ((w, m, fd) :: rs)) with ((sym :: w) ++ print_redirs rs). rewrite <- app_assoc. fold X.
      cbn [app]. unfold sym. by destruct (fd =? 0). }
    assert (sym = 60 /\ m = O_RDONLY /\ fd = 0 \/ sym = 62 /\ m = Z.lor O_WRONLY O_CREATE /\ fd = 1) as Hsym.
    { unfold sym. destruct Hm as [[-> ->]|[-> ->]]; auto. }
    rewrite (kbind_Ok _ _ _ _ _ (peek_yes (str "<>") st sym (w ++ X) Es ltac:(destruct Hsym as [(-> & _)|(-> & _)]; chars))).
    cbn [negb].
    assert (gettoken (sym :: w ++ X) = Ok (sym, (sym :: w ++ X, w ++ X)) (w ++ X)) as Eg.
    { rewrite <- (word_ok_skip w X Hw) at 4. destruct Hsym as [(-> & _)|(-> & _)].
      - apply gettoken_symbol; [done|chars].
      - apply gettoken_gt; [done|]. destruct Hw as [Hne Hw]. destruct w as [|c w]; [done|]. cbn.
        apply Forall_cons in Hw as [[Hc _] _]. intros ->. apply (plain_not_symbol 62 Hc). vm_compute. by repeat constructor. }
    rewrite (kbind_Ok _ _ _ _ _ Eg).
    rewrite (kbind_Ok _ _ _ _ _ (gettoken_word (w ++ X) w X Hw (delim_redirs rs Y Hd) (word_ok_skip w X Hw))).
    cbn [fst snd]. rewrite Z.eqb_refl. cbn [negb]. cbn [length] in Hf.
    assert (forall m' fd', (m', fd') = (m, fd) ->
      exists rs', parseredirs f (rs0 ++ [((w ++ X, X), m', fd')]) (skip X) = Ok (rs0 ++ rs') (skip Y) /\ redir_text <$> rs' = (w, m, fd) :: rs) as Hrec.
    { intros m' fd' [= -> ->]. destruct (IH f (rs0 ++ [((w ++ X, X), m, fd)]) (skip X)) as (rs' & E & Et); [apply skip_idem|lia|].
      exists (((w ++ X, X), m, fd) :: rs'). split; [rewrite E; by rewrite <- app_assoc|].
      rewrite fmap_cons, Et. unfold redir_text at 1. cbn [fst snd]. by rewrite text_of_app. }
    destruct Hsym as [(-> & -> & ->)|(-> & -> & ->)]; by apply Hrec.
Qed.

Definition after_exec : list Z := str "|)&;".

Lemma follow_no_redir rest : follow after_exec rest -> no_redir rest.
Proof. unfold follow, no_redir. destruct (skip rest); [done|]. revert z. chars. Qed.

Lemma follow_exec_delim rest : follow after_exec rest -> delim rest.
Proof. apply follow_delim. chars. Qed.

Lemma print_words_cons w ws X : print_words (w :: ws) ++ X = 32 :: w ++ print_words ws ++ X.
Proof. change (print_words (w :: ws)) with ((32 :: w) ++ print_words ws). by rewrite <- app_assoc. Qed.

Lemma skip_words w ws X : word_ok w -> skip (print_words (w :: ws) ++ X) = w ++ print_words ws ++ X.
Proof. intros Hw. rewrite print_words_cons. cbn. by apply word_ok_skip. Qed.

Lemma words_no_redir w ws X : word_ok w -> no_redir (print_words (w :: ws) ++ X) /\ delim (print_words (w :: ws) ++ X).
Proof.
  intros Hw. split.
  - unfold no_redir. rewrite skip_words by done. destruct Hw as [Hne Hw]. destruct w as [|c w]; [done|]. cbn.
    apply Forall_cons in Hw as [[Hc _] _]. intros Hin. apply (plain_not_symbol c Hc). revert Hin. chars.
  - rewrite print_words_cons. cbn. intros [E _]. done.
Qed.

Lemma loop_run fuel ws argv rs0 rs rest st :
  Forall word_ok ws -> redirs_ok rs -> follow after_exec rest -> (ws = [] -> rs = []) ->
  skip st = skip (print_words ws ++ print_redirs rs ++ rest) ->
  (length argv + length ws < MAXARGS)%nat -> (length ws + length rs < fuel)%nat ->
  exists argv' rs', parseexec_loop fuel argv rs0 st = Ok (wrap (Exec (argv ++ argv')) (rs0 ++ rs')) (skip rest) /\
    text_of <$> argv' = ws /\ redir_text <$> rs' = rs.
Proof.
  intros Hws Hrs Hfo. revert fuel argv rs0 rs st Hrs. induction Hws as [|w ws Hw Hws IH];
    intros fuel argv rs0 rs st Hrs Hnil Est Hlen Hf; (destruct fuel as [|f]; [lia|]); cbn [parseexec_loop].
  - rewrite Hnil in * by done. cbn [print_words print_redirs mbind list_bind app] in Est.
    exists [], []. rewrite !app_nil_r. split; [|done]. unfold kbind at 1. rewrite peek_run, Est. unfold follow in Hfo.
    destruct (skip rest) as [|c r] eqn:Er.
    + unfold kbind, gettoken. done.
    + by rewrite bool_decide_eq_true_2.
  - rewrite skip_words in Est by done. set (X := print_words ws ++ print_redirs rs ++ rest) in *.
    assert (peek after_exec st = Ok false (w ++ X)) as Ep.
    { rewrite peek_run, Est. destruct Hw as [Hne Hw]. destruct w as [|c w]; [done|]. cbn [app].
      apply Forall_cons in Hw as [[Hc _] _]. rewrite bool_decide_eq_false_2; [done|]. intros Hin.
      apply (plain_not_symbol c Hc). revert Hin. unfold after_exec. chars. }
    change (str "|)&;") with after_exec. rewrite (kbind_Ok _ _ _ _ _ Ep).
    assert (delim X) as HdX.
    { destruct ws as [|w' ws']; [apply delim_redirs, follow_exec_delim, Hfo|]. apply Forall_cons in Hws as [Hw' _]. by apply words_no_redir. }
    rewrite (kbind_Ok _ _ _ _ _ (gettoken_word (w ++ X) w X Hw HdX (word_ok_skip w X Hw))). cbn [fst snd].
    change (97 =? 0) with false. cbn [Z.eqb Pos.eqb negb]. rewrite length_app. cbn [length] in *.
    rewrite (proj2 (Nat.leb_gt _ _)) by lia.
    destruct ws as [|w' ws'].
    + destruct (redirs_run f rs0 rs rest (skip X) Hrs (follow_no_redir _ Hfo) (follow_exec_delim _ Hfo)) as (rs' & E & Et);
        [apply skip_idem|cbn in Hf; lia|]. rewrite (kbind_Ok _ _ _ _ _ E). cbn beta zeta.
      destruct (IH f (argv ++ [(w ++ X, X)]) (rs0 ++ rs') [] (skip rest)) as (argv2 & rs2 & E2 & Ea & Er2);
        [constructor|done|cbn; apply skip_idem|rewrite length_app; cbn in *; lia|cbn in *; lia|].
      exists ((w ++ X, X) :: argv2), rs'. apply fmap_nil_inv in Er2 as ->. rewrite app_nil_r, <- app_assoc in E2.
      split; [exact E2|]. split; [|done]. rewrite fmap_cons, Ea. by rewrite text_of_app.
    + apply Forall_cons in Hws as Hws'. destruct Hws' as [Hw' _].
      destruct (words_no_redir w' ws' (print_redirs rs ++ rest) Hw') as [Hnr Hde].
      destruct (redirs_run f rs0 [] X (skip X)) as (rs' & E & Et); [constructor|exact Hnr|exact Hde|apply skip_idem|cbn in *; lia|].
      apply fmap_nil_inv in Et as ->. rewrite app_nil_r in E. rewrite (kbind_Ok _ _ _ _ _ E). cbn beta zeta.
      destruct (IH f (argv ++ [(w ++ X, X)]) rs0 rs (skip X)) as (argv2 & rs2 & E2 & Ea & Er2);
        [done|done|apply skip_idem|rewrite length_app; cbn in *; lia|cbn in *; lia|].
      exists ((w ++ X, X) :: argv2), rs2. rewrite <- app_assoc in E2. split; [exact E2|]. split; [|done].
      rewrite fmap_cons, Ea. by rewrite text_of_app.
Qed.

(** ** The levels of the grammar *)

Lemma skip_length s : (length (skip s) <= length s)%nat.
Proof. apply suffix_length, skip_suffix. Qed.

Lemma skip_app_length A c B : is_space c = false -> (length (c :: B) <= length (skip (A ++ c :: B)))%nat.
Proof.
  intros Hc. induction A as [|a A IH]; cbn [app].
  - cbn [skip]. rewrite Hc. done.
  - cbn [skip]. destruct (is_space a); [done|]. cbn [length]. rewrite length_app. cbn. lia.
Qed.

Lemma words_count ws rs rest :
  Forall word_ok ws -> redirs_ok rs ->
  (length ws + length rs <= length (skip (print_words ws ++ print_redirs rs ++ rest)))%nat.
Proof.
  intros Hws Hrs. assert (length rs <= length (print_redirs rs))%nat as H2.
  { clear. induction rs as [|r rs IH]; cbn; [lia|]. rewrite length_app. unfold print_redirs in IH. lia. }
  assert (length ws <= length (print_words ws))%nat as H1.
  { clear. induction ws as [|w ws IH]; cbn; [lia|]. rewrite length_app. unfold print_words in IH. lia. }
  destruct Hws as [|w ws Hw Hws].
  - cbn [print_words mbind list_bind app length]. destruct Hrs as [|r rs _ _]; [cbn; lia|].
    change (print_redirs (r :: rs)) with (print_redir r ++ print_redirs rs) in *. unfold print_redir in *.
    rewrite <- app_assoc. cbn [app skip]. assert (is_space (if r.2 =? 0 then 60 else 62) = false) as -> by by destruct (r.2 =? 0).
    cbn [length app] in *. rewrite !length_app in *. lia.
  - rewrite skip_words by done. cbn [length] in *. rewrite !length_app.
    assert (length ws <= length (print_words ws))%nat as H3.
    { clear. induction ws as [|w ws IH]; cbn; [lia|]. rewrite length_app. unfold print_words in IH. lia. }
    destruct Hw as [Hne _]. destruct w as [|c w]; [done|]. cbn. lia.
Qed.

Definition S3 (c : cmd (list Z)) : Prop := forall fuel rs rest st,
  redirs_ok rs -> follow after_exec rest -> skip st = skip (print 3 c ++ print_redirs rs ++ rest) ->
  (4 * length st + 2 <= fuel)%nat ->
  exists c', parseexec parseline fuel st = Ok c' (skip rest) /\ strip c' = wrap c rs.

Definition S2 (c : cmd (list Z)) : Prop := forall fuel rest st,
  follow (str ")&;") rest -> skip st = skip (print 2 c ++ rest) -> (4 * length st + 3 <= fuel)%nat ->
  exists c', parsepipe parseline fuel st = Ok c' (skip rest) /\ strip c' = c.

Definition S1 (c : cmd (list Z)) : Prop := forall fuel k rest st,
  follow (str ");") rest -> skip st = skip (print 1 c ++ replicate k 38 ++ rest) -> (4 * length st + 3 <= fuel)%nat ->
  exists c', (let* x := parsepipe parseline fuel in parseback fuel x) st = Ok c' (skip rest) /\ strip c' = Nat.iter k Back c.

Definition S0 (c : cmd (list Z)) : Prop := forall fuel rest st,
  follow (str ")") rest -> skip st = skip (print 0 c ++ rest) -> (4 * length st + 4 <= fuel)%nat ->
  exists c', parseline fuel st = Ok c' (skip rest) /\ strip c' = c.

Lemma strip_wrap c rs : strip (wrap c rs) = wrap (strip c) (redir_text <$> rs).
Proof. unfold wrap. revert c. induction rs as [|r rs IH]; intros c; cbn; [done|]. by rewrite IH. Qed.

(** A simple command. *)
Lemma S3_exec argv : Forall word_ok argv -> (length argv < MAXARGS)%nat -> S3 (Exec argv).
Proof.
  intros Hw Hlen fuel rs rest st Hrs Hfo Est Hf. destruct fuel as [|f]; [lia|]. cbn [parseexec print] in *.
  pose proof (words_count argv rs rest Hw Hrs) as Hcnt. rewrite <- Est in Hcnt. pose proof (skip_length st).
  assert (peek (str "(") st = Ok false (skip st)) as Ep.
  { rewrite peek_run. rewrite Est. destruct argv as [|w ws].
    - cbn [print_words mbind list_bind app]. destruct rs as [|r rs].
      + cbn [print_redirs mbind list_bind app]. unfold follow in Hfo. destruct (skip rest); [done|].
        rewrite bool_decide_eq_false_2; [done|]. revert Hfo. unfold after_exec. chars.
      + cbn. by destruct (r.2 =? 0).
    - apply Forall_cons in Hw as [Hw _]. rewrite skip_words by done. destruct Hw as [Hne Hw]. destruct w as [|c w]; [done|]. cbn [app].
      apply Forall_cons in Hw as [[Hc _] _]. rewrite bool_decide_eq_false_2; [done|]. intros Hin.
      apply (plain_not_symbol c Hc). revert Hin. chars. }
  rewrite (kbind_Ok _ _ _ _ _ Ep). cbn beta iota.
  destruct argv as [|w ws].
  - cbn [print_words mbind list_bind app length] in *.
    destruct (redirs_run f [] rs rest (skip st) Hrs (follow_no_redir _ Hfo) (follow_exec_delim _ Hfo)) as (rs' & E & Et);
      [by rewrite skip_idem|lia|]. rewrite (kbind_Ok _ _ _ _ _ E). cbn beta.
    destruct (loop_run f [] [] ([] ++ rs') [] rest (skip rest)) as (argv2 & rs2 & E2 & Ea & Er2);
      [exact Hw|apply Forall_nil_2|done|done|cbn; apply skip_idem|cbn; unfold MAXARGS; lia|cbn; lia|].
    apply fmap_nil_inv in Er2 as ->. apply fmap_nil_inv in Ea as ->. rewrite !app_nil_r in E2.
    eexists. split; [exact E2|]. rewrite strip_wrap. by rewrite <- Et.
  - apply Forall_cons in Hw as Hw'. destruct Hw' as [Hw1 _].
    destruct (words_no_redir w ws (print_redirs rs ++ rest) Hw1) as [Hnr Hde].
    destruct (redirs_run f [] [] (print_words (w :: ws) ++ print_redirs rs ++ rest) (skip st)) as (rs' & E & Et);
      [constructor|exact Hnr|exact Hde|by rewrite skip_idem|cbn in *; lia|].
    apply fmap_nil_inv in Et as ->. rewrite (kbind_Ok _ _ _ _ _ E). cbn beta.
    destruct (loop_run f (w :: ws) [] [] rs rest (skip (print_words (w :: ws) ++ print_redirs rs ++ rest)))
      as (argv2 & rs2 & E2 & Ea & Er2); [done|done|done|done|apply skip_idem|cbn [length] in *; lia|cbn [length] in *; lia|].
    eexists. split; [exact E2|]. rewrite strip_wrap, <- Er2, <- Ea. done.
Qed.

Lemma follow_head toks c s : is_space c = false -> c ∈ toks -> follow toks (c :: s).
Proof. intros E Hc. unfold follow. cbn [skip]. by rewrite E. Qed.

Lemma skip_symbol c s : is_space c = false -> skip (c :: s) = c :: s.
Proof. intros E. cbn [skip]. by rewrite E. Qed.

(** A token the parser expects: peeked at, then consumed. *)
Lemma expect toks c s st :
  is_space c = false -> c ∈ toks -> c ∈ str "|();&<" -> skip st = c :: s ->
  peek toks st = Ok true (c :: s) /\ gettoken (c :: s) = Ok (c, (c :: s, s)) (skip s).
Proof.
  intros Hs Ht Hc E. split; [by apply peek_yes|]. apply gettoken_symbol; [by apply skip_symbol|done].
Qed.

Lemma S2_of_S3 c : print 2 c = print 3 c -> S3 c -> S2 c.
Proof.
  intros Ep H fuel rest st Hfo Est Hf. destruct fuel as [|f]; [lia|]. cbn [parsepipe].
  destruct (H f [] rest st) as (c' & E & Es); [constructor| |by rewrite <- Ep|lia|].
  { eapply follow_weaken; [|exact Hfo]. unfold after_exec. chars. }
  rewrite (kbind_Ok _ _ _ _ _ E). cbn beta.
  assert (peek (str "|") (skip rest) = Ok false (skip rest)) as Epk.
  { rewrite <- (skip_idem rest) at 2. apply (peek_no _ (str ")&;")); [unfold follow; by rewrite skip_idem|chars]. }
  rewrite (kbind_Ok _ _ _ _ _ Epk). eauto.
Qed.

Lemma back_run fuel k c rest st :
  follow (str ");") rest -> skip st = skip (replicate k 38 ++ rest) -> (k < fuel)%nat ->
  exists c', parseback fuel c st = Ok c' (skip rest) /\ strip c' = Nat.iter k Back (strip c).
Proof.
  intros Hfo. revert fuel c st. induction k as [|k IH]; intros fuel c st Est Hf; (destruct fuel as [|f]; [lia|]); cbn [parseback].
  - cbn [replicate app] in Est.
    assert (peek (str "&") st = Ok false (skip rest)) as Epk.
    { rewrite <- Est. apply (peek_no _ (str ");")); [unfold follow; by rewrite Est|chars]. }
    rewrite (kbind_Ok _ _ _ _ _ Epk). eauto.
  - cbn [replicate app] in Est. rewrite skip_symbol in Est by done.
    destruct (expect (str "&") 38 (replicate k 38 ++ rest) st) as [E1 E2]; [done|chars|chars|done|].
    rewrite (kbind_Ok _ _ _ _ _ E1). cbn [negb]. rewrite (kbind_Ok _ _ _ _ _ E2). cbn beta.
    destruct (IH f (Back c) (skip (replicate k 38 ++ rest))) as (c' & E & Es); [apply skip_idem|lia|].
    exists c'. split; [exact E|]. rewrite Es. cbn [strip cmd_map]. apply Nat.iter_swap.
Qed.

Lemma S1_of_S2 c : print 1 c = print 2 c -> S2 c -> S1 c.
Proof.
  intros Ep H fuel k rest st Hfo Est Hf. rewrite Ep in Est.
  destruct (H fuel (replicate k 38 ++ rest) st) as (c' & E & Es); [|done|done|].
  { destruct k; [eapply follow_weaken; [|exact Hfo]; chars|]. apply follow_head; [done|chars]. }
  rewrite (kbind_Ok _ _ _ _ _ E).
  destruct (back_run fuel k c' rest (skip (replicate k 38 ++ rest)) Hfo) as (c2 & E2 & Es2); [apply skip_idem| |].
  - assert (k <= length (skip st))%nat; [|pose proof (skip_length st); lia]. rewrite Est.
    destruct k; [lia|]. cbn [replicate app]. pose proof (skip_app_length (print 2 c) 38 (replicate k 38 ++ rest) eq_refl) as Hl.
    cbn [length] in Hl. rewrite length_app, length_replicate in Hl. lia.
  - rewrite E2. exists c2. split; [done|]. by rewrite Es2, Es.
Qed.

Lemma S0_of_S1 c : print 0 c = print 1 c -> S1 c -> S0 c.
Proof.
  intros Ep H fuel rest st Hfo Est Hf. destruct fuel as [|f]; [lia|]. cbn [parseline].
  rewrite <- kbind_assoc. destruct (H f 0%nat rest st) as (c' & E & Es);
    [eapply follow_weaken; [|exact Hfo]; chars|by rewrite <- Ep|lia|].
  rewrite (kbind_Ok _ _ _ _ _ E). cbn beta.
  assert (peek (str ";") (skip rest) = Ok false (skip rest)) as Epk.
  { rewrite <- (skip_idem rest) at 2. apply (peek_no _ (str ")")); [unfold follow; by rewrite skip_idem|chars]. }
  rewrite (kbind_Ok _ _ _ _ _ Epk). eauto.
Qed.

Lemma S3_of_S0 c : print 3 c = 40 :: print 0 c ++ [41] -> S0 c -> S3 c.
Proof.
  intros Ep H fuel rs rest st Hrs Hfo Est Hf. destruct fuel as [|f]; [lia|]. cbn [parseexec].
  set (X := 41 :: print_redirs rs ++ rest).
  assert (skip st = 40 :: print 0 c ++ X) as Est'.
  { rewrite Est, Ep. unfold X. cbn [app]. rewrite skip_symbol by done. by rewrite <- app_assoc. }
  pose proof (skip_length st) as Hl. rewrite Est' in Hl. cbn [length] in Hl.
  destruct (expect (str "(") 40 (print 0 c ++ X) st) as [E1 E2]; [done|chars|chars|done|].
  rewrite (kbind_Ok _ _ _ _ _ E1). cbn beta iota. destruct f as [|f]; [lia|]. cbn [parseblock].
  destruct (expect (str "(") 40 (print 0 c ++ X) (40 :: print 0 c ++ X)) as [E3 _]; [done|chars|chars|done|].
  rewrite (kbind_Ok _ _ _ _ _ E3). cbn [negb]. rewrite (kbind_Ok _ _ _ _ _ E2). cbn beta.
  pose proof (skip_length (print 0 c ++ X)) as Hl2.
  destruct (H f X (skip (print 0 c ++ X))) as (c' & E & Es); [apply follow_head; [done|chars]|apply skip_idem|lia|].
  rewrite (kbind_Ok _ _ _ _ _ E). cbn beta. unfold X. rewrite skip_symbol by done.
  destruct (expect (str ")") 41 (print_redirs rs ++ rest) (41 :: print_redirs rs ++ rest)) as [E4 E5]; [done|chars|chars|done|].
  rewrite (kbind_Ok _ _ _ _ _ E4). cbn [negb]. rewrite (kbind_Ok _ _ _ _ _ E5). cbn beta.
  destruct (redirs_run f [] rs rest (skip (print_redirs rs ++ rest)) Hrs (follow_no_redir _ Hfo) (follow_exec_delim _ Hfo))
    as (rs' & E6 & Et); [apply skip_idem| |].
  { assert (length rs <= length (print_redirs rs))%nat as Hx.
    { clear. induction rs as [|r rs IH]; cbn; [lia|]. rewrite length_app. unfold print_redirs in IH. lia. }
    unfold X in Hl. rewrite length_app in Hl. cbn [length] in Hl. rewrite length_app in Hl. lia. }
  rewrite (kbind_Ok _ _ _ _ _ E6). eexists. split; [reflexivity|]. rewrite strip_wrap, <- Et, Es. done.
Qed.

(** ** Every command *)

Definition readable (c : cmd (list Z)) : Prop := S0 c /\ S1 c /\ S2 c /\ S3 c.

Lemma readable_exec c : (forall lvl, print lvl c = print 3 c) -> S3 c -> readable c.
Proof.
  intros Ep H3. assert (S2 c) as H2 by (apply S2_of_S3; [apply Ep|done]).
  assert (S1 c) as H1 by (apply S1_of_S2; [by rewrite (Ep 1%nat), (Ep 2%nat)|done]).
  split_and!; try done. apply S0_of_S1; [by rewrite (Ep 0%nat), (Ep 1%nat)|done].
Qed.

Lemma redir_readable c f m fd : word_ok f -> redir_ok m fd -> S3 c -> readable (Redir c f m fd).
Proof.
  intros Hf Hm H. apply readable_exec; [done|]. intros fuel rs rest st Hrs Hfo Est Hfu.
  apply (H fuel ((f, m, fd) :: rs) rest st); [by constructor|done| |done].
  rewrite Est. cbn [print]. change (print_redirs ((f, m, fd) :: rs)) with (print_redir (f, m, fd) ++ print_redirs rs).
  by rewrite <- !app_assoc.
Qed.

Lemma pipe_readable l r : S3 l -> S2 r -> readable (Pipe l r).
Proof.
  intros Hl Hr. assert (S2 (Pipe l r)) as H2.
  { intros fuel rest st Hfo Est Hf. destruct fuel as [|f]; [lia|]. cbn [parsepipe print] in *. unfold paren in Est. cbn [Nat.ltb Nat.leb] in Est.
    rewrite <- app_assoc in Est. cbn [app] in Est. set (X := 124 :: print 2 r ++ rest) in *.
    pose proof (skip_length st) as Hlen. assert (S (length (print 2 r ++ rest)) <= length (skip st))%nat as Hx
      by (rewrite Est; apply (skip_app_length (print 3 l) 124 (print 2 r ++ rest) eq_refl)).
    destruct (Hl f [] X st) as (l' & E & Es); [constructor|apply follow_head; [done|chars]|done|lia|].
    rewrite (kbind_Ok _ _ _ _ _ E). cbn beta. unfold X. rewrite skip_symbol by done.
    destruct (expect (str "|") 124 (print 2 r ++ rest) (124 :: print 2 r ++ rest)) as [E1 E2]; [done|chars|chars|done|].
    rewrite (kbind_Ok _ _ _ _ _ E1). cbn [negb]. rewrite (kbind_Ok _ _ _ _ _ E2). cbn beta.
    pose proof (skip_length (print 2 r ++ rest)).
    destruct (Hr f rest (skip (print 2 r ++ rest)) Hfo) as (r' & E3 & Es3); [apply skip_idem|lia|].
    rewrite (kbind_Ok _ _ _ _ _ E3). eexists. split; [reflexivity|]. cbn [strip cmd_map].
    change (Pipe (strip l') (strip r') = Pipe l r). by rewrite Es, Es3. }
  assert (S1 (Pipe l r)) as H1 by (by apply S1_of_S2). assert (S0 (Pipe l r)) as H0 by (by apply S0_of_S1).
  split_and!; try done. by apply S3_of_S0.
Qed.

Lemma back_readable c : S1 c -> readable (Back c).
Proof.
  intros Hc. assert (S1 (Back c)) as H1.
  { intros fuel k rest st Hfo Est Hf. destruct (Hc fuel (S k) rest st Hfo) as (c' & E & Es); [|done|].
    - rewrite Est. cbn [print]. unfold paren. cbn [Nat.ltb Nat.leb]. by rewrite <- app_assoc.
    - exists c'. split; [exact E|]. rewrite Es. symmetry. apply Nat.iter_swap. }
  assert (S0 (Back c)) as H0 by (by apply S0_of_S1). assert (S3 (Back c)) as H3 by (by apply S3_of_S0).
  split_and!; try done. by apply S2_of_S3.
Qed.

Lemma list_readable l r : S1 l -> S0 r -> readable (List_ l r).
Proof.
  intros Hl Hr. assert (S0 (List_ l r)) as H0.
  { intros fuel rest st Hfo Est Hf. destruct fuel as [|f]; [lia|]. cbn [parseline print] in *. unfold paren in Est. cbn [Nat.ltb Nat.leb] in Est.
    rewrite <- app_assoc in Est. cbn [app] in Est. set (X := 59 :: print 0 r ++ rest) in *.
    pose proof (skip_length st) as Hlen. assert (S (length (print 0 r ++ rest)) <= length (skip st))%nat as Hx
      by (rewrite Est; apply (skip_app_length (print 1 l) 59 (print 0 r ++ rest) eq_refl)). rewrite <- kbind_assoc.
    destruct (Hl f 0%nat X st) as (l' & E & Es); [apply follow_head; [done|chars]|done|lia|].
    rewrite (kbind_Ok _ _ _ _ _ E). cbn beta. unfold X. rewrite skip_symbol by done.
    destruct (expect (str ";") 59 (print 0 r ++ rest) (59 :: print 0 r ++ rest)) as [E1 E2]; [done|chars|chars|done|].
    rewrite (kbind_Ok _ _ _ _ _ E1). cbn [negb]. rewrite (kbind_Ok _ _ _ _ _ E2). cbn beta.
    pose proof (skip_length (print 0 r ++ rest)).
    destruct (Hr f rest (skip (print 0 r ++ rest)) Hfo) as (r' & E3 & Es3); [apply skip_idem|lia|].
    rewrite (kbind_Ok _ _ _ _ _ E3). eexists. split; [reflexivity|].
    change (List_ (strip l') (strip r') = List_ l r). cbn in Es. by rewrite Es, Es3. }
  assert (S3 (List_ l r)) as H3 by (by apply S3_of_S0). assert (S2 (List_ l r)) as H2 by (by apply S2_of_S3).
  split_and!; try done. by apply S1_of_S2.
Qed.

Lemma all_readable c : cmd_ok c -> readable c.
Proof.
  induction c as [argv|c IH f m fd|l IHl r IHr|l IHl r IHr|c IH]; cbn [cmd_ok].
  - intros [Hw Hl]. apply readable_exec; [done|]. by apply S3_exec.
  - intros (Hc & Hf & Hm). destruct (IH Hc) as (_ & _ & _ & H3). by apply redir_readable.
  - intros [Hl Hr]. destruct (IHl Hl) as (_ & _ & _ & H3), (IHr Hr) as (_ & _ & H2 & _). by apply pipe_readable.
  - intros [Hl Hr]. destruct (IHl Hl) as (_ & H1 & _ & _), (IHr Hr) as (H0 & _ & _ & _). by apply list_readable.
  - intros Hc. destruct (IH Hc) as (_ & H1 & _ & _). by apply back_readable.
Qed.

(** ** Properties *)

(** C24: The parser inverts printing: every command of at most nine arguments per
    program, with any nesting of pipes, lists, background commands, blocks and
    redirections, is read back unchanged from its text. *)
Theorem parse_print (c : cmd (list Z)) :
  cmd_ok c -> exists c' buf, parsecmd (print 0 c) = Ok (c', buf) [] /\ strip c' = c.
Proof.
  intros Hc. destruct (all_readable c Hc) as (H0 & _).
  destruct (H0 (parse_fuel (print 0 c)) [] (print 0 c)) as (c' & E & Es); [done|by rewrite app_nil_r|unfold parse_fuel; lia|].
  exists c', (nulterminate (length (print 0 c)) c' (print 0 c ++ [0])). split; [|done].
  unfold parsecmd. by rewrite (kbind_Ok _ _ _ _ _ E).
Qed.

Definition sample_cmd : cmd (list Z) :=
  List_ (Pipe (Exec [str "ls"]) (Redir (Back (Exec [str "wc"; str "-l"])) (str "out") (Z.lor O_WRONLY O_CREATE) 1)) (Exec [str "date"]).

Lemma parse_print_witness : exists c' buf, parsecmd (str " ls|( wc -l&)>out; date") = Ok (c', buf) [] /\ strip c' = sample_cmd.
Proof.
  apply (parse_print sample_cmd). cbn. unfold word_ok, redir_ok, plain.
  split_and!; try (left; done); try (right; done); try lia; apply (bool_decide_unpack _); vm_compute; exact I.
Defined.

End ShPrint.
