(* ===== verification/Sh.v ===== *)
(** The shell: reading lines, the PATH of .env, and running commands (getcmd,
    parsepath, myexec, runcmd, panic, fork1 and main of sh.c; gets of ulib.c).

    A process is the tree of system calls it makes: every call is followed by
    a continuation that takes its result, so that all outcomes are described,
    and [fork] continues with 0 in the child and the pid in the parent.  What
    the calls mean is given separately, for one state of the kernel: the file
    descriptor table, in which a new descriptor is the lowest free one
    (sysfile.c, fdalloc), what is left to read in the files, and, from each
    directory, which files can be opened and which programs and directories
    exist.

    Strings are lists of characters.  The heap is modelled by the sizes of its
    blocks only: a store outside the block it is meant for is [Overrun]. *)

From S2P Require Import Prelude CString Printf Umalloc ShParse ShPrint.

Module Sh.
Import ShParse.

(** ** Processes *)

(** System calls with a single result. *)
Inductive call :=
| Open (path : list Z) (mode : Z)
| Close (fd : Z)
| Dup (fd : Z)
| Wait
| ExecProg (path : list Z) (argv : list (list Z))
| Write (fd : Z) (bytes : list Z)
| Chdir (path : list Z).

(** [Read] continues with the bytes read, or [None] for -1.  [Hang] is a loop
    that has not ended within the fuel. *)
Inductive prog :=
| Sys (c : call) (k : Z -> prog)
| Read (fd : Z) (n : nat) (k : option (list Z) -> prog)
| PipeCall (k : option (Z * Z) -> prog)
| Fork (k : Z -> prog)
| Exit
| Hang
| Overrun.

(** The writes of [printf]. *)
Definition prints (o : Printf.output) (k : prog) : prog :=
  foldr (fun w k => Sys (Write w.1 w.2) (fun _ => k)) k o.

(** The C string in a buffer. *)
Definition cstr (l : list Z) : list Z := upto_nul l (length l).

Definition panic_ (msg : list Z) : prog := prints (Printf.puts 2 (msg ++ [10])) Exit.

Definition fork1 (k : Z -> prog) : prog := Fork (fun pid => if pid =? -1 then panic_ (str "fork") else k pid).

(** ** Input *)

(** [gets]: [room] is [max - 1 - i], [buf] the bytes stored so far. *)
Fixpoint gets_loop (room : nat) (buf : list Z) (k : list Z -> prog) : prog :=
  match room with
  | O => k buf
  | S r =>
      Read 0 1 (fun o =>
        match o with
        | Some (c :: _) => if (c =? 10) || (c =? 13) then k (buf ++ [c]) else gets_loop r (buf ++ [c]) k
        | _ => k buf
        end)
  end.

Definition gets (max : nat) (k : list Z -> prog) : prog := gets_loop (max - 1) [] k.

(** [None]: end of the input, or a line that starts with NUL. *)
Definition getcmd (nbuf : nat) (k : option (list Z) -> prog) : prog :=
  prints (Printf.puts 2 (str "$ ")) (gets nbuf (fun buf => k (match cstr buf with [] => None | s => Some s end))).

(** ** The PATH *)

(** What [malloc(n)] really provides. *)
Definition block (n : Z) : nat := Z.to_nat (Umalloc.HDR * (Umalloc.units_for n - 1)).

(** The array of pointers: two fit into [malloc(4)]; the next blocks above it
    are [pathstrt], not used any more, and the first [buf], so that up to
    eight pointers do no harm. *)
Definition PATHS : nat := 8.

(** The loop over the bytes after [PATH=].  A failed read returns -1, which the
    loop takes as a byte, the NUL of fresh memory. *)
Fixpoint path_loop (fuel : nat) (fd : Z) (arrpath : list (list Z)) (cur : list Z) (k : list (list Z) -> prog) : prog :=
  match fuel with
  | O => Hang
  | S f =>
      if (length cur =? block 100)%nat || (length arrpath =? PATHS)%nat then Overrun
      else Read fd 1 (fun o =>
        match o with
        | Some [] => k (arrpath ++ [cur])
        | _ =>
            let c := match o with Some (c :: _) => c | _ => 0 end in
            if negb (c =? 58) then path_loop f fd arrpath (cur ++ [c]) k
            else path_loop f fd (arrpath ++ [cur]) [] k
        end)
  end.

Definition parsepath (fuel : nat) (k : list (list Z) -> prog) : prog :=
  Sys (Open (str ".env") O_RDONLY) (fun fd =>
    if fd <? 0 then prints (Printf.puts 1 (str "no environment file: ") ++ Printf.printint 1 fd 10 true) Exit
    else Read fd 5 (fun o =>
      if bool_decide (o = Some (str "PATH=")) then
        path_loop fuel fd [] [] (fun arrpath =>
          Sys (Close fd) (fun r =>
            if negb (r =? 0) then prints (Printf.puts 1 (str "error in closing the file descriptor")) Exit
            else k arrpath))
      else prints (Printf.puts 1 (str ".env isnt defined correctly")) Exit)).

(** ** Commands *)

(** [strcat] appends the name to the component, in its block. *)
Definition myexec (path : list Z) (argv arrpath : list (list Z)) (k : prog) : prog :=
  foldr (fun p k =>
    if (length (cstr p) + length path <? block 100)%nat then Sys (ExecProg (cstr p ++ path) argv) (fun _ => k) else Overrun)
    k arrpath.

Fixpoint runcmd (arrpath : list (list Z)) (c : cmd (list Z)) : prog :=
  match c with
  | Exec [] => Exit
  | Exec (a :: argv) =>
      myexec a (a :: argv) arrpath (prints (Printf.puts 2 (str "exec " ++ a ++ str " failed" ++ [10])) Exit)
  | Redir c file mode fd =>
      Sys (Close fd) (fun _ =>
      Sys (Open file mode) (fun r =>
        if r <? 0 then prints (Printf.puts 2 (str "open " ++ file ++ str " failed" ++ [10])) Exit
        else runcmd arrpath c))
  | List_ l r =>
      fork1 (fun pid =>
        if pid =? 0 then runcmd arrpath l
        else Sys Wait (fun _ => runcmd arrpath r))
  | Pipe l r =>
      PipeCall (fun o =>
        match o with
        | None => panic_ (str "pipe")
        | Some (p0, p1) =>
            fork1 (fun pid =>
              if pid =? 0 then
                Sys (Close 1) (fun _ => Sys (Dup p1) (fun _ => Sys (Close p0) (fun _ => Sys (Close p1) (fun _ =>
                  runcmd arrpath l))))
              else fork1 (fun pid =>
                if pid =? 0 then
                  Sys (Close 0) (fun _ => Sys (Dup p0) (fun _ => Sys (Close p0) (fun _ => Sys (Close p1) (fun _ =>
                    runcmd arrpath r))))
                else
                  Sys (Close p0) (fun _ => Sys (Close p1) (fun _ => Sys Wait (fun _ => Sys Wait (fun _ => Exit))))))
        end)
  | Back c => fork1 (fun pid => if pid =? 0 then runcmd arrpath c else Exit)
  end.

(** What the child does with a line: a line that does not parse makes it
    panic, after a message when a command was read and text is left. *)
Definition child (arrpath : list (list Z)) (buf : list Z) : prog :=
  match parsecmd buf with
  | Ok (c, _) _ => runcmd arrpath (ShPrint.strip c)
  | Panic msg =>
      prints (match leftovers buf with [] => [] | rest => Printf.puts 2 (str "leftovers: " ++ rest ++ [10]) end)
        (panic_ (str msg))
  | _ => Hang
  end.

(** [buf] starts with "cd ". *)
Definition is_cd (buf : list Z) : bool := bool_decide (take 3 buf = str "cd ").

Fixpoint main_loop (fuel : nat) (arrpath : list (list Z)) : prog :=
  match fuel with
  | O => Hang
  | S f =>
      getcmd 100 (fun o =>
        match o with
        | None => Exit
        | Some buf =>
            if is_cd buf then
              let dir := drop 3 (take (length buf - 1) buf) in
              Sys (Chdir dir) (fun r =>
                if r <? 0 then prints (Printf.puts 2 (str "cannot cd " ++ dir ++ [10])) (main_loop f arrpath)
                else main_loop f arrpath)
            else
              fork1 (fun pid => if pid =? 0 then child arrpath buf else Sys Wait (fun _ => main_loop f arrpath))
        end)
  end.

(** Opening the console until descriptors 0, 1 and 2 are taken. *)
Definition O_RDWR : Z := 2.

Fixpoint open_console (fuel : nat) (k : prog) : prog :=
  match fuel with
  | O => Hang
  | S f =>
      Sys (Open (str "console") O_RDWR) (fun fd =>
        if fd <? 0 then k
        else if 3 <=? fd then Sys (Close fd) (fun _ => k)
        else open_console f k)
  end.

(** [fuel] bounds the bytes of .env and the lines typed. *)
Definition main (fuel : nat) : prog := open_console 4 (parsepath fuel (main_loop fuel)).

Lemma cstr_id p : 0 ∉ p -> cstr p = p.
Proof.
  unfold cstr. induction p as [|c p IH]; intros H; [done|]. apply not_elem_of_cons in H as [H0 H]. cbn.
  rewrite (proj2 (Z.eqb_neq c 0)) by done. by rewrite IH.
Qed.

(** ** The kernel's side *)

(** What a descriptor refers to; pipes are numbered. *)
Inductive obj := OFile (path : list Z) (mode : Z) | PipeR (n : nat) | PipeW (n : nat).

Notation fdtable := (gmap Z obj) (only parsing).
Definition NOFILE : Z := 16.

(** The lowest free descriptor, or -1. *)
Definition lowest (T : fdtable) : Z :=
  match list_find (fun fd => T !! fd = None) (seqZ 0 NOFILE) with Some (_, fd) => fd | None => -1 end.

(** A current directory, as the changes of directory that led to it. *)
Notation cwd := (list (list Z)) (only parsing).

(** What is seen of a session: programs that start, with their directory, file,
    arguments and descriptors, changes of directory, and runs that leave the
    model. *)
Inductive event :=
| Started (d : cwd) (path : list Z) (argv : list (list Z)) (T : fdtable)
| Cd (path : list Z)
| Hung
| Overran.

(** What processes share: the pipes made so far, and what is left to read of
    the files the shell itself reads. *)
Record kern := { npipes : nat; unread : gmap (list Z) (list Z) }.
Definition with_pipes (n : nat) (g : kern) : kern := {| npipes := n; unread := g.(unread) |}.
Definition with_unread (path l : list Z) (g : kern) : kern := {| npipes := g.(npipes); unread := <[path := l]> g.(unread) |}.
Definition rest_of (path : list Z) (g : kern) : list Z := default [] (g.(unread) !! path).

Section kernel.
(** The files that can be opened, the programs and the directories that exist,
    from each directory. *)
Context (opens : cwd -> list Z -> Z -> bool) (exists_ dirs : cwd -> list Z -> bool).

(** A process and its children, children first. *)
Fixpoint run (d : cwd) (p : prog) (T : fdtable) (g : kern) {struct p} : list event * kern :=
  match p with
  | Sys (Open path mode) k =>
      let fd := lowest T in
      if opens d path mode && (0 <=? fd) then run d (k fd) (<[fd := OFile path mode]> T) g else run d (k (-1)) T g
  | Sys (Close fd) k => run d (k (match T !! fd with Some _ => 0 | None => -1 end)) (delete fd T) g
  | Sys (Dup fd) k =>
      match T !! fd with
      | Some o => let fd' := lowest T in if 0 <=? fd' then run d (k fd') (<[fd' := o]> T) g else run d (k (-1)) T g
      | None => run d (k (-1)) T g
      end
  | Sys Wait k => run d (k 1) T g
  | Sys (ExecProg path argv) k => if exists_ d path then ([Started d path argv T], g) else run d (k (-1)) T g
  | Sys (Write fd bytes) k => run d (k (Z.of_nat (length bytes))) T g
  | Sys (Chdir path) k =>
      if dirs d path then let '(l, g') := run (d ++ [path]) (k 0) T g in (Cd path :: l, g') else run d (k (-1)) T g
  | Read fd n k =>
      match T !! fd with
      | Some (OFile path _) => run d (k (Some (take n (rest_of path g)))) T (with_unread path (drop n (rest_of path g)) g)
      | Some _ => run d (k (Some [])) T g
      | None => run d (k None) T g
      end
  | PipeCall k =>
      let a := lowest T in
      let T1 := <[a := PipeR g.(npipes)]> T in
      let b := lowest T1 in
      if (0 <=? a) && (0 <=? b) then run d (k (Some (a, b))) (<[b := PipeW g.(npipes)]> T1) (with_pipes (S g.(npipes)) g)
      else run d (k None) T g
  | Fork k =>
      let '(l1, g1) := run d (k 0) T g in
      let '(l2, g2) := run d (k 1) T g1 in
      (l1 ++ l2, g2)
  | Exit => ([], g)
  | Hang => ([Hung], g)
  | Overrun => ([Overran], g)
  end.

(** Standard input, output and error, and nothing else. *)
Definition table (i o e : obj) : fdtable := <[2 := e]> (<[1 := o]> {[0 := i]}).

(** ** What a command should do *)

(** The programs of a command with its descriptors: a redirection replaces
    input or output, a pipe connects its two sides, each program is the first
    along the path that exists. *)
Fixpoint wiring (d : cwd) (arrpath : list (list Z)) (c : cmd (list Z)) (i o e : obj) (n : nat) : list event * nat :=
  match c with
  | Exec [] => ([], n)
  | Exec (a :: argv) =>
      (match list_find (fun p => exists_ d (p ++ a) = true) arrpath with
       | Some (_, p) => [Started d (p ++ a) (a :: argv) (table i o e)]
       | None => []
       end, n)
  | Redir c file mode fd =>
      if opens d file mode then
        if fd =? 0 then wiring d arrpath c (OFile file mode) o e n else wiring d arrpath c i (OFile file mode) e n
      else ([], n)
  | List_ l r =>
      let '(l1, n1) := wiring d arrpath l i o e n in
      let '(l2, n2) := wiring d arrpath r i o e n1 in (l1 ++ l2, n2)
  | Pipe l r =>
      let '(l1, n1) := wiring d arrpath l i (PipeW n) e (S n) in
      let '(l2, n2) := wiring d arrpath r (PipeR n) o e n1 in (l1 ++ l2, n2)
  | Back c => wiring d arrpath c i o e n
  end.

Lemma run_prints d w k T g : run d (prints w k) T g = run d k T g.
Proof. unfold prints. induction w as [|x w IH]; cbn; [done|]. apply IH. Qed.

Lemma run_fork1 d k T g :
  run d (fork1 k) T g = let '(l1, g1) := run d (k 0) T g in let '(l2, g2) := run d (k 1) T g1 in (l1 ++ l2, g2).
Proof. done. Qed.

Lemma run_myexec d path argv ps k T g :
  Forall (fun p => 0 ∉ p /\ (length p + length path < block 100)%nat) ps ->
  run d (myexec path argv ps k) T g =
  match list_find (fun p => exists_ d (p ++ path) = true) ps with
  | Some (_, p) => ([Started d (p ++ path) argv T], g)
  | None => run d k T g
  end.
Proof.
  unfold myexec. induction ps as [|p ps IH]; cbn [foldr list_find]; [done|]. intros [[H0 Hl] Hps]%Forall_cons.
  rewrite cstr_id by done. rewrite (proj2 (Nat.ltb_lt _ _) Hl). cbn [run]. destruct (exists_ d (p ++ path)) eqn:E.
  - by rewrite decide_True.
  - rewrite decide_False by done. rewrite IH by done. by destruct (list_find _ ps) as [[? ?]|].
Qed.

Lemma lowest_std i o e : lowest (delete 0 (table i o e)) = 0 /\ lowest (delete 1 (table i o e)) = 1.
Proof. by split; vm_compute. Qed.

Lemma redir_std x i o e :
  <[0 := x]> (delete 0 (table i o e)) = table x o e /\ <[1 := x]> (delete 1 (table i o e)) = table i x e.
Proof. by split; vm_compute. Qed.

(** After [pipe]: 3 and 4. *)
Definition piped (i o e : obj) (n : nat) : fdtable := <[4 := PipeW n]> (<[3 := PipeR n]> (table i o e)).

Lemma run_pipe d k i o e g :
  run d (PipeCall k) (table i o e) g = run d (k (Some (3, 4))) (piped i o e g.(npipes)) (with_pipes (S g.(npipes)) g).
Proof. by cbn. Qed.

Lemma pipe_left d k i o e n g :
  run d (Sys (Close 1) (fun _ => Sys (Dup 4) (fun _ => Sys (Close 3) (fun _ => Sys (Close 4) (fun _ => k))))) (piped i o e n) g
  = run d k (table i (PipeW n) e) g.
Proof. by cbn. Qed.

Lemma pipe_right d k i o e n g :
  run d (Sys (Close 0) (fun _ => Sys (Dup 3) (fun _ => Sys (Close 3) (fun _ => Sys (Close 4) (fun _ => k))))) (piped i o e n) g
  = run d k (table (PipeR n) o e) g.
Proof. by cbn. Qed.

(** Program names that fit behind every component of the path. *)
Fixpoint names (c : cmd (list Z)) : list (list Z) :=
  match c with
  | Exec argv => take 1 argv
  | Redir c _ _ _ | Back c => names c
  | Pipe l r | List_ l r => names l ++ names r
  end.

Definition fits (ps : list (list Z)) (c : cmd (list Z)) : Prop :=
  Forall (fun p => 0 ∉ p /\ Forall (fun a => (length p + length a < block 100)%nat) (names c)) ps.

Lemma fits_app ps l r c :
  names c = names l ++ names r -> fits ps c -> fits ps l /\ fits ps r.
Proof.
  intros E H. split; unfold fits in *; eapply Forall_impl; [exact H| |exact H|]; cbn; intros p [H0 Hn]; (split; [done|]);
    rewrite E in Hn; by apply Forall_app in Hn as [? ?].
Qed.

Lemma with_pipes_pipes n m g : with_pipes n (with_pipes m g) = with_pipes n g.
Proof. done. Qed.

(** A process that runs a command. *)
Lemma runcmd_run d ps c : forall i o e g,
  fds_ok c -> fits ps c ->
  run d (runcmd ps c) (table i o e) g =
  (let '(l, n) := wiring d ps c i o e g.(npipes) in (l, with_pipes n g)).
Proof.
  induction c as [argv|c IH f m fd|l IHl r IHr|l IHl r IHr|c IH]; intros i o e g; cbn [fds_ok].
  - intros _ Hps. destruct argv as [|a argv]; [by destruct g|]. cbn [runcmd wiring]. rewrite run_myexec.
    + destruct (list_find _ ps) as [[? p]|]; [by destruct g|]. rewrite run_prints. by destruct g.
    + eapply Forall_impl; [exact Hps|]. cbn. intros p [H0 Hn]. split; [done|]. by inversion Hn.
  - intros (Hc & Hm) Hps. cbn [runcmd run wiring]. destruct (redir_std (OFile f m) i o e) as [R0 R1], (lowest_std i o e) as [L0 L1].
    destruct Hm as [-> | ->]; rewrite ?L0, ?L1;
      (destruct (opens d f _); [|cbn [andb]; change (-1 <? 0) with true; cbv iota; rewrite run_prints; by destruct g]).
    + cbn [andb Z.leb Z.compare Z.ltb Z.eqb]. rewrite R0. by apply IH.
    + cbn [andb Z.leb Z.compare Z.ltb Z.eqb]. rewrite R1. by apply IH.
  - intros [Hl Hr] [Fl Fr]%(fits_app _ l r); [|done]. cbn [runcmd wiring]. rewrite run_pipe, run_fork1. cbn [Z.eqb].
    rewrite pipe_left, IHl by done. cbn [npipes with_pipes]. destruct (wiring _ _ l _ _ _ _) as [l1 n1].
    rewrite run_fork1. cbn [Z.eqb]. rewrite pipe_right, IHr by done. cbn [npipes with_pipes]. destruct (wiring _ _ r _ _ _ _) as [l2 n2].
    cbn [run]. by rewrite app_nil_r.
  - intros [Hl Hr] [Fl Fr]%(fits_app _ l r); [|done]. cbn [runcmd wiring]. rewrite run_fork1. cbn [Z.eqb]. rewrite IHl by done.
    destruct (wiring _ _ l _ _ _ _) as [l1 n1]. cbn [run]. rewrite IHr by done. cbn [npipes with_pipes].
    by destruct (wiring _ _ r _ _ _ _) as [l2 n2].
  - intros Hc Hps. cbn [runcmd wiring]. rewrite run_fork1. cbn [Z.eqb]. rewrite IH by done.
    destruct (wiring _ _ c _ _ _ _) as [l1 n1]. cbn [run]. by rewrite app_nil_r.
Qed.

(** ** Lines *)

Lemma run_read d fd n k T g path m l rest :
  T !! fd = Some (OFile path m) -> rest_of path g = l ++ rest -> length l = n ->
  run d (Read fd n k) T g = run d (k (Some l)) T (with_unread path rest g).
Proof. intros HT Hl Hn. cbn [run]. by rewrite HT, Hl, take_app_length', drop_app_length' by done. Qed.

Lemma rest_with path l g : rest_of path (with_unread path l g) = l.
Proof. unfold rest_of. cbn. by rewrite lookup_insert_eq. Qed.

Lemma with_with path l1 l2 g : with_unread path l1 (with_unread path l2 g) = with_unread path l1 g.
Proof. unfold with_unread. cbn. by rewrite insert_insert_eq. Qed.

(** The line [gets] takes from its input. *)
Fixpoint line_of (room : nat) (input : list Z) : list Z * list Z :=
  match room, input with
  | S r, c :: input' =>
      if (c =? 10) || (c =? 13) then ([c], input')
      else let '(l, rest) := line_of r input' in (c :: l, rest)
  | _, _ => ([], input)
  end.

Lemma with_same path g : is_Some (g.(unread) !! path) -> with_unread path (rest_of path g) g = g.
Proof. intros [x Hx]. unfold with_unread, rest_of. rewrite Hx. cbn. rewrite insert_id by done. by destruct g. Qed.

Lemma gets_run d room : forall buf k T g path m input,
  T !! 0 = Some (OFile path m) -> g.(unread) !! path = Some input ->
  run d (gets_loop room buf k) T g = run d (k (buf ++ (line_of room input).1)) T (with_unread path (line_of room input).2 g).
Proof.
  induction room as [|r IH]; intros buf k T g path m input HT Hin; cbn [gets_loop line_of].
  - cbn [fst snd]. rewrite app_nil_r. replace input with (rest_of path g) by (unfold rest_of; by rewrite Hin).
    by rewrite with_same by (by exists input).
  - destruct input as [|c input].
    + cbn [run fst snd]. rewrite HT. unfold rest_of. rewrite Hin. cbn. by rewrite app_nil_r.
    + rewrite (run_read d 0 1 _ T g path m [c] input HT) by (unfold rest_of; by rewrite ?Hin). cbn iota.
      destruct (_ || _); [done|]. rewrite (IH _ k T _ path m input HT) by (cbn; apply lookup_insert_eq). rewrite with_with.
      destruct (line_of r input) as [l rest]. cbn [fst snd]. by rewrite <- app_assoc.
Qed.

Lemma line_of_spec room input l rest :
  line_of room input = (l, rest) ->
  input = l ++ rest /\ (length l <= room)%nat /\
  (length l = room \/ rest = [] \/ exists l' c, l = l' ++ [c] /\ (c = 10 \/ c = 13)) /\
  forall i c, (S i < length l)%nat -> l !! i = Some c -> c <> 10 /\ c <> 13.
Proof.
  revert input l rest. induction room as [|r IH]; intros input l rest; cbn [line_of].
  - intros [= <- <-]. split_and!; [done|done|by left|cbn; lia].
  - destruct input as [|c input]; [intros [= <- <-]; split_and!; [done|cbn; lia|by right; left|cbn; lia]|].
    destruct ((c =? 10) || (c =? 13)) eqn:Ec.
    + intros [= <- <-]. apply orb_true_iff in Ec. rewrite !Z.eqb_eq in Ec. split_and!; [done|cbn; lia| |cbn; lia].
      right. right. by exists [], c.
    + destruct (line_of r input) as [l1 rest1] eqn:E. intros [= <- <-]. destruct (IH _ _ _ E) as (-> & Hl & Hend & Hno).
      apply orb_false_iff in Ec. rewrite !Z.eqb_neq in Ec. split_and!; [done|cbn; lia| |].
      * destruct Hend as [Hr|[->|(l' & d & -> & Hd)]]; [left; cbn; lia|by right; left|right; right; by exists (c :: l'), d].
      * intros [|i] d Hi Hd; cbn in *; [by simplify_eq|]. apply (Hno i d); [lia|done].
Qed.

(** ** The PATH *)

(** Components joined by colons. *)
Fixpoint join (ps : list (list Z)) : list Z :=
  match ps with
  | [] => []
  | [p] => p
  | p :: ps' => p ++ 58 :: join ps'
  end.

Lemma path_component d p : forall fuel fd arrpath cur k T g path m rest,
  T !! fd = Some (OFile path m) -> g.(unread) !! path = Some (p ++ rest) -> 58 ∉ p ->
  (length cur + length p < block 100)%nat -> (length arrpath < PATHS)%nat ->
  run d (path_loop (length p + fuel) fd arrpath cur k) T g = run d (path_loop fuel fd arrpath (cur ++ p) k) T (with_unread path rest g).
Proof.
  induction p as [|c p IH]; intros fuel fd arrpath cur k T g path m rest HT Hin Hc Hl Ha.
  - cbn [length Nat.add app] in *. rewrite app_nil_r. replace rest with (rest_of path g) by (unfold rest_of; by rewrite Hin).
    by rewrite with_same by (by exists rest).
  - cbn [length Nat.add path_loop] in *. rewrite (proj2 (Nat.eqb_neq (length cur) _)), (proj2 (Nat.eqb_neq (length arrpath) _)) by lia.
    cbn [orb]. rewrite (run_read d fd 1 _ T g path m [c] (p ++ rest) HT) by (unfold rest_of; by rewrite ?Hin). cbn iota.
    apply not_elem_of_cons in Hc as [Hne Hc]. rewrite (proj2 (Z.eqb_neq c 58)) by done. cbn [negb].
    rewrite (IH fuel fd arrpath (cur ++ [c]) k T _ path m rest); [|done|cbn; apply lookup_insert_eq|done|rewrite length_app; cbn; lia|done].
    by rewrite with_with, <- app_assoc.
Qed.

(** Components that the shell has room for. *)
Definition path_ok (p : list Z) : Prop := 58 ∉ p /\ (length p < block 100)%nat.

Lemma path_run d ps : forall fuel fd arrpath k T g path m,
  ps <> [] -> T !! fd = Some (OFile path m) -> g.(unread) !! path = Some (join ps) -> Forall path_ok ps ->
  (length arrpath + length ps <= PATHS)%nat -> (length (join ps) < fuel)%nat ->
  run d (path_loop fuel fd arrpath [] k) T g = run d (k (arrpath ++ ps)) T (with_unread path [] g).
Proof.
  induction ps as [|p ps IH]; intros fuel fd arrpath k T g path m Hne HT Hin Hps Ha Hf; [done|].
  apply Forall_cons in Hps as [[Hc Hl] Hps]. destruct ps as [|p2 ps]; cbn [join] in *.
  - replace fuel with (length p + S (fuel - length p - 1))%nat by lia.
    rewrite (path_component d p _ fd arrpath [] k T g path m []); [|done|by rewrite app_nil_r|done|done|cbn in Ha; lia].
    cbn [path_loop app]. rewrite (proj2 (Nat.eqb_neq (length p) _)), (proj2 (Nat.eqb_neq (length arrpath) _)) by (cbn in Ha; lia).
    cbn [orb run]. rewrite HT, rest_with. cbn. by rewrite with_with.
  - rewrite length_app in Hf. cbn [length] in Hf.
    replace fuel with (length p + S (fuel - length p - 1))%nat by lia.
    rewrite (path_component d p _ fd arrpath [] k T g path m _ HT Hin Hc Hl) by (cbn in Ha; lia).
    cbn [path_loop app]. rewrite (proj2 (Nat.eqb_neq (length p) _)), (proj2 (Nat.eqb_neq (length arrpath) _)) by (cbn in Ha; lia).
    cbn [orb]. rewrite (run_read d fd 1 _ T _ path m [58] (join (p2 :: ps)) HT) by (by rewrite ?rest_with). cbn iota. cbn [negb Z.eqb Pos.eqb].
    rewrite (IH _ fd (arrpath ++ [p]) k T _ path m); [|done|done|cbn; apply lookup_insert_eq|done|rewrite length_app; cbn in *; lia|lia].
    by rewrite !with_with, <- app_assoc.
Qed.
End kernel.

(** A table with at most the three standard descriptors. *)
Definition std_only (a b c : option obj) : gmap Z obj :=
  partial_alter (fun _ => a) 0 (partial_alter (fun _ => b) 1 (partial_alter (fun _ => c) 2 (∅ : gmap Z obj))).

Lemma std_only_eq (T : fdtable) : dom T ⊆ {[0; 1; 2]} -> T = std_only (T !! 0) (T !! 1) (T !! 2).
Proof.
  intros HT. apply map_eq. intros i. unfold std_only. rewrite !lookup_partial_alter. repeat case_decide; subst; try done.
  rewrite lookup_empty. apply not_elem_of_dom. intros Hi. apply HT in Hi. set_solver.
Qed.

(** The console in place of what is missing. *)
Definition console : obj := OFile (str "console") O_RDWR.
Definition std (T : fdtable) : fdtable :=
  table (default console (T !! 0)) (default console (T !! 1)) (default console (T !! 2)).

Lemma run_open opens exists_ dirs d path mode k T g fd :
  opens d path mode = true -> lowest T = fd -> 0 <= fd ->
  run opens exists_ dirs d (Sys (Open path mode) k) T g = run opens exists_ dirs d (k fd) (<[fd := OFile path mode]> T) g.
Proof. intros Ho Hl Hf. cbn [run]. rewrite Ho, Hl, (proj2 (Z.leb_le 0 fd)) by done. done. Qed.

Lemma run_close opens exists_ dirs d k (T : gmap Z obj) g fd o :
  T !! fd = Some o -> run opens exists_ dirs d (Sys (Close fd) k) T g = run opens exists_ dirs d (k 0) (delete fd T) g.
Proof. intros HT. cbn [run]. by rewrite HT. Qed.

(** One round of the loop. *)
Lemma open_console_step opens exists_ dirs d f k T g fd :
  opens d (str "console") O_RDWR = true -> lowest T = fd -> 0 <= fd ->
  run opens exists_ dirs d (open_console (S f) k) T g =
  if 3 <=? fd then run opens exists_ dirs d k (delete fd (<[fd := console]> T)) g
  else run opens exists_ dirs d (open_console f k) (<[fd := console]> T) g.
Proof.
  intros Ho Hl Hf. cbn [open_console]. rewrite (run_open _ _ _ d _ _ _ T g fd Ho Hl Hf), (proj2 (Z.ltb_ge fd 0)) by done.
  by destruct (3 <=? fd).
Qed.

Lemma open_console_run opens exists_ dirs d T k g :
  opens d (str "console") O_RDWR = true -> dom T ⊆ {[0; 1; 2]} ->
  run opens exists_ dirs d (open_console 4 k) T g = run opens exists_ dirs d k (std T) g.
Proof.
  intros Ho HT. unfold std. rewrite (std_only_eq T HT) at 1.
  destruct (T !! 0) as [a|], (T !! 1) as [b|], (T !! 2) as [c|];
    repeat (erewrite open_console_step; [|exact Ho|vm_compute; reflexivity|lia]; cbn [Z.leb Z.compare Pos.compare Pos.compare_cont]);
    reflexivity.
Qed.

Lemma parsepath_run opens exists_ dirs d ps fuel k i o e g :
  opens d (str ".env") O_RDONLY = true -> g.(unread) !! str ".env" = Some (str "PATH=" ++ join ps) ->
  ps <> [] -> (length ps <= PATHS)%nat -> Forall path_ok ps -> (length (join ps) < fuel)%nat ->
  run opens exists_ dirs d (parsepath fuel k) (table i o e) g = run opens exists_ dirs d (k ps) (table i o e) (with_unread (str ".env") [] g).
Proof.
  intros Ho Henv Hne Hlen Hps Hf. unfold parsepath. erewrite run_open; [|exact Ho|vm_compute; reflexivity|lia]. cbn [Z.ltb Z.compare].
  rewrite (run_read _ _ _ d 3 5 _ _ g (str ".env") O_RDONLY (str "PATH=") (join ps));
    [|apply lookup_insert_eq|unfold rest_of; by rewrite Henv|done]. rewrite bool_decide_eq_true_2 by done.
  rewrite (path_run _ _ _ d ps fuel 3 [] _ _ _ (str ".env") O_RDONLY Hne); [|apply lookup_insert_eq|cbn; apply lookup_insert_eq|done|done|lia].
  cbn [app]. erewrite run_close by apply lookup_insert_eq. cbn [Z.eqb negb]. rewrite delete_insert_id by (vm_compute; reflexivity).
  by rewrite with_with.
Qed.

(** ** Sessions *)

(** The line at the start of the input: up to and with the first newline or
    carriage return, cut after 99 bytes, or all that is left. *)
Definition next_line (input l rest : list Z) : Prop :=
  input = l ++ rest /\ (length l <= 99)%nat /\
  (length l = 99%nat \/ rest = [] \/ exists l' c, l = l' ++ [c] /\ (c = 10 \/ c = 13)) /\
  forall i c, (S i < length l)%nat -> l !! i = Some c -> c <> 10 /\ c <> 13.

(** The C string at the start of some bytes. *)
Definition c_string (l text : list Z) : Prop := 0 ∉ text /\ (l = text \/ exists more, l = text ++ 0 :: more).

(** The lines of an input. *)
Inductive line_in : list Z -> list Z -> Prop :=
| line_first input l rest : next_line input l rest -> line_in input l
| line_later input l0 rest l : next_line input l0 rest -> l0 <> [] -> line_in rest l -> line_in input l.

(** Every program name of the input fits behind every component of the path. *)
Definition all_fit (ps : list (list Z)) (input : list Z) : Prop :=
  forall l text c buf r, line_in input l -> c_string l text -> parsecmd text = Ok (c, buf) r -> fits ps (ShPrint.strip c).

(** What a session should show, from the directory [d], for an input and the
    number of pipes made before.  It ends with an empty string: the end of the
    input, or a line that starts with NUL.  [cd ] and a name, less the last
    character of the line, changes the directory if there is such a one; any
    other line runs the command it parses to, or nothing if it does not. *)
Inductive session (opens : cwd -> list Z -> Z -> bool) (exists_ dirs : cwd -> list Z -> bool)
    (ps : list (list Z)) (i o e : obj) : cwd -> list Z -> nat -> list event -> Prop :=
| session_end d input n l rest :
    next_line input l rest -> c_string l [] -> session opens exists_ dirs ps i o e d input n []
| session_cd d input n l rest name evs :
    next_line input l rest -> c_string l (str "cd " ++ name) -> dirs d (removelast name) = true ->
    session opens exists_ dirs ps i o e (d ++ [removelast name]) rest n evs ->
    session opens exists_ dirs ps i o e d input n (Cd (removelast name) :: evs)
| session_cannot_cd d input n l rest name evs :
    next_line input l rest -> c_string l (str "cd " ++ name) -> dirs d (removelast name) = false ->
    session opens exists_ dirs ps i o e d rest n evs -> session opens exists_ dirs ps i o e d input n evs
| session_command d input n l rest text c buf r evs :
    next_line input l rest -> c_string l text -> text <> [] -> ~ str "cd " `prefix_of` text ->
    parsecmd text = Ok (c, buf) r ->
    session opens exists_ dirs ps i o e d rest (wiring opens exists_ d ps (ShPrint.strip c) i o e n).2 evs ->
    session opens exists_ dirs ps i o e d input n ((wiring opens exists_ d ps (ShPrint.strip c) i o e n).1 ++ evs)
| session_syntax d input n l rest text msg evs :
    next_line input l rest -> c_string l text -> text <> [] -> ~ str "cd " `prefix_of` text ->
    parsecmd text = Panic msg ->
    session opens exists_ dirs ps i o e d rest n evs -> session opens exists_ dirs ps i o e d input n evs.

Lemma next_line_of input : next_line input (line_of 99 input).1 (line_of 99 input).2.
Proof. apply (line_of_spec 99 input _ _ (surjective_pairing _)). Qed.

Lemma next_line_short input l1 rest1 l2 rest2 :
  next_line input l1 rest1 -> next_line input l2 rest2 -> (length l1 < length l2)%nat -> False.
Proof.
  intros (E1 & _ & Hend & _) (E2 & H2 & _ & Hno) Hlt. destruct Hend as [?|[->|(l' & c & -> & Hc)]]; [lia| |].
  - rewrite app_nil_r in E1. subst l1. rewrite E2, length_app in Hlt. lia.
  - rewrite length_app in Hlt. cbn in Hlt. destruct (Hno (length l') c); [lia| |naive_solver].
    rewrite <- (lookup_app_l l2 rest2) by lia. rewrite <- E2, E1, <- app_assoc, lookup_app_r, Nat.sub_diag by lia. done.
Qed.

Lemma next_line_det input l1 rest1 l2 rest2 :
  next_line input l1 rest1 -> next_line input l2 rest2 -> l1 = l2 /\ rest1 = rest2.
Proof.
  intros H1 H2. apply app_inj_1.
  - destruct (lt_eq_lt_dec (length l1) (length l2)) as [[Hl|Hl]|Hl]; [|done|];
      exfalso; eauto using next_line_short.
  - destruct H1 as [<- _], H2 as [<- _]. done.
Qed.

Lemma c_string_cstr l text : c_string l text <-> cstr l = text.
Proof.
  revert text. induction l as [|c l IH]; intros text.
  - split; [intros [_ [<-|(more & E)]]; [done|by destruct text]|intros <-]. split; [apply not_elem_of_nil|by left].
  - unfold cstr. cbn [length upto_nul]. destruct (Z.eqb_spec c 0) as [->|Hc].
    + split.
      * intros [H0 [<-|(more & E)]]; [by apply not_elem_of_cons in H0 as [? _]|]. destruct text; [done|]. injection E as [= <- _].
        by apply not_elem_of_cons in H0 as [? _].
      * intros <-. split; [apply not_elem_of_nil|right; by exists l].
    + fold (cstr l). split.
      * intros [H0 H]. destruct text as [|x text]; [destruct H as [?|(? & ?)]; by simplify_eq/=|].
        apply not_elem_of_cons in H0 as [_ H0]. assert (x = c) as -> by (destruct H as [?|(? & ?)]; by simplify_eq/=).
        f_equal. apply IH. split; [done|]. destruct H as [?|(more & ?)]; simplify_eq/=; [by left|right; eauto].
      * intros <-. destruct (proj2 (IH (cstr l)) eq_refl) as [H0 H]. split; [by apply not_elem_of_cons|].
        destruct H as [E|(more & E)]; [left; by f_equal|right; exists more; cbn; by f_equal].
Qed.

Lemma fds_strip c : fds_ok c -> fds_ok (ShPrint.strip c).
Proof. induction c as [argv|c IH f m fd|l IHl r IHr|l IHl r IHr|c IH]; cbn; naive_solver. Qed.

Lemma cd_prefix text : is_cd text = true <-> str "cd " `prefix_of` text.
Proof.
  unfold is_cd. rewrite bool_decide_eq_true. split.
  - intros E. exists (drop 3 text). rewrite <- E. by rewrite take_drop.
  - by intros [more ->].
Qed.

Lemma cd_name name : drop 3 (take (length (str "cd " ++ name) - 1) (str "cd " ++ name)) = removelast name.
Proof. rewrite removelast_firstn_len. by destruct name. Qed.

(** The loop of the shell. *)
Lemma main_loop_run opens exists_ dirs ps tty m o e : forall fuel d g input,
  g.(unread) !! tty = Some input -> all_fit ps input -> (length input < fuel)%nat ->
  session opens exists_ dirs ps (OFile tty m) o e d input g.(npipes)
    (run opens exists_ dirs d (main_loop fuel ps) (table (OFile tty m) o e) g).1.
Proof.
  induction fuel as [|f IH]; intros d g input Hin Hfit Hf; [lia|]. cbn [main_loop]. unfold getcmd, gets. rewrite run_prints.
  rewrite (gets_run opens exists_ dirs d 99 [] _ (table (OFile tty m) o e) g tty m _ eq_refl Hin). cbn [app].
  pose proof (next_line_of input) as Hnext. destruct (line_of 99 input) as [l rest] eqn:El. cbn [fst snd] in *.
  destruct (cstr l) as [|b text] eqn:Es; [apply c_string_cstr in Es; by eapply session_end|].
  pose proof (proj2 (c_string_cstr l _) Es) as Hstr. remember (b :: text) as buf eqn:Eb.
  replace (match buf with [] => None | s => Some s end) with (Some buf) by (by subst buf). assert (buf <> []) as Hne by (by subst buf).
  assert (l <> []) as Hl by (by intros ->; rewrite Eb in Es). clear b text Eb.
  assert (length rest < f)%nat as Hf' by (destruct Hnext as [E _]; rewrite E, length_app in Hf; destruct l; [done|cbn in Hf; lia]).
  assert (all_fit ps rest) as Hfit' by (intros l' text c buf' r Hl'; eapply Hfit, line_later; eauto).
  assert (forall d' g', g'.(unread) = (with_unread tty rest g).(unread) ->
    session opens exists_ dirs ps (OFile tty m) o e d' rest g'.(npipes)
      (run opens exists_ dirs d' (main_loop f ps) (table (OFile tty m) o e) g').1) as Hrec.
  { intros d' g' Hg. apply IH; [rewrite Hg; cbn; apply lookup_insert_eq|done|done]. }
  destruct (is_cd buf) eqn:Ecd.
  - apply cd_prefix in Ecd as [name ->]. rewrite cd_name. cbn [run]. destruct (dirs d (removelast name)) eqn:Ed.
    + specialize (Hrec (d ++ [removelast name]) (with_unread tty rest g) eq_refl). change (0 <? 0) with false. cbv iota.
      destruct (run _ _ _ (d ++ _) _ _ _) as [evs g2]. by eapply session_cd.
    + change (-1 <? 0) with true. cbv iota. rewrite run_prints. eapply session_cannot_cd; [done..|]. by apply (Hrec d (with_unread tty rest g)).
  - assert (~ str "cd " `prefix_of` buf) as Hncd by (rewrite <- cd_prefix; by rewrite Ecd).
    rewrite run_fork1. cbn [Z.eqb]. unfold child. pose proof (parsecmd_run buf) as Hp.
    destruct (parsecmd buf) as [[c buf'] r|msg|?|?] eqn:Ep; [|clear Hp|done|done].
    + rewrite runcmd_run; [|by eapply fds_strip, parsecmd_fds|eapply Hfit; eauto using line_first].
      pose proof (session_command opens exists_ dirs ps (OFile tty m) o e d input g.(npipes) l rest buf c buf' r) as Hs.
      cbn [npipes with_unread]. destruct (wiring _ _ _ _ _ _ _ _ _) as [l1 n1]. cbn [run fst snd] in *.
      specialize (Hrec d (with_pipes n1 (with_unread tty rest g)) eq_refl). destruct (run _ _ _ d _ _ _) as [l2 g2]. by apply Hs.
    + unfold panic_. rewrite !run_prints. cbn [run app]. eapply session_syntax; [exact Hnext|exact Hstr|exact Hne|exact Hncd|exact Ep|].
      specialize (Hrec d (with_unread tty rest g) eq_refl). by destruct (run _ _ _ d _ _ _) as [l2 g2].
Qed.

(** What a session shows is determined. *)
Lemma session_det opens exists_ dirs ps i o e d input n evs :
  session opens exists_ dirs ps i o e d input n evs ->
  forall evs', session opens exists_ dirs ps i o e d input n evs' -> evs = evs'.
Proof.
  induction 1; intros evs'; inversion 1; subst;
    repeat match goal with
    | H1 : next_line ?x ?a ?b, H2 : next_line ?x ?c ?d |- _ =>
        let E1 := fresh in let E2 := fresh in destruct (next_line_det _ _ _ _ _ H1 H2) as [E1 E2]; clear H1 H2; subst
    | H : c_string _ _ |- _ => apply c_string_cstr in H
    | H1 : cstr ?l = _, H2 : cstr ?l = _ |- _ => rewrite H1 in H2; clear H1; subst
    | H : str "cd " ++ ?a = str "cd " ++ ?b |- _ => apply app_inv_head in H; subst
    | H1 : parsecmd ?s = _, H2 : parsecmd ?s = _ |- _ => rewrite H1 in H2; clear H1
    | H1 : dirs ?x ?y = _, H2 : dirs ?x ?y = _ |- _ => rewrite H1 in H2; clear H1
    end; subst; try discriminate; try (simplify_eq; f_equal; auto; fail).
  all: match goal with H : ~ str "cd " `prefix_of` _ |- _ => case H; apply prefix_app_r, reflexivity end.
Qed.

(** Short components leave room for every name a line can hold. *)
Lemma names_words c a : a ∈ names (ShPrint.strip c) -> exists w, w ∈ words c /\ a = text_of w.
Proof.
  induction c as [argv|c IH f m fd|l IHl r IHr|l IHl r IHr|c IH]; cbn; rewrite ?elem_of_app.
  - destruct argv as [|w argv]; cbn; [by intros ?%elem_of_nil|]. intros ->%list_elem_of_singleton. exists w. split; [by left|done].
  - intros (w & Hw & ->)%IH. exists w. rewrite elem_of_app. auto.
  - intros [(w & Hw & ->)%IHl|(w & Hw & ->)%IHr]; exists w; rewrite elem_of_app; auto.
  - intros [(w & Hw & ->)%IHl|(w & Hw & ->)%IHr]; exists w; rewrite elem_of_app; auto.
  - exact IH.
Qed.

Lemma line_in_short input l : line_in input l -> (length l <= 99)%nat.
Proof. by induction 1 as [input l rest (_ & H & _)|]. Qed.

Lemma short_fit ps input : Forall (fun p => 0 ∉ p /\ (length p <= 4)%nat) ps -> all_fit ps input.
Proof.
  intros Hps l text c buf r Hl Hs Hp. eapply Forall_impl; [exact Hps|]. cbn beta. intros p [H0 Hlen]. split; [done|].
  apply Forall_forall. intros a (w & Hw & ->)%names_words. pose proof (parsecmd_run text) as Hrun. rewrite Hp in Hrun.
  destruct Hrun as [Hall _]. rewrite Forall_forall in Hall. destruct (word_bytes text w (Hall w Hw)) as (pre & Et & _).
  assert (length text <= length l)%nat by (destruct Hs as [_ [->|(more & ->)]]; [done|rewrite length_app; lia]).
  apply line_in_short in Hl. rewrite Et, !length_app in *. change (block 100) with 104%nat. lia.
Qed.

(** ** Properties *)

(** C2: A session with the shell, for any bytes typed.  Started with any of its
    three standard descriptors open and with an .env that lists up to eight
    directories, the shell sets up the descriptors, splits the path, and takes
    the input line by line, each cut at 99 bytes and read as a C string.  A
    line that starts with [cd ] changes the directory, if the name exists;
    every other line starts exactly the programs the command it parses to
    denotes, in the current directory, each found as the first existing file
    along the path, with the standard input, output and error the redirections
    and pipes of the command ask for and no other descriptor, or nothing when
    it does not parse; at the end of the input the shell exits.  Program names
    must fit behind the components of the path. *)
Theorem shell_session (opens : cwd -> list Z -> Z -> bool) (exists_ dirs : cwd -> list Z -> bool) (d : cwd) (T : fdtable)
    (g : kern) (tty : list Z) (m : Z) (ps : list (list Z)) (input : list Z) (fuel : nat) (evs : list event) :
  opens d (str "console") O_RDWR = true -> opens d (str ".env") O_RDONLY = true ->
  dom T ⊆ {[0; 1; 2]} -> default console (T !! 0) = OFile tty m -> tty <> str ".env" ->
  g.(unread) !! str ".env" = Some (str "PATH=" ++ join ps) -> g.(unread) !! tty = Some input ->
  ps <> [] -> (length ps <= PATHS)%nat -> Forall path_ok ps -> all_fit ps input ->
  (length (join ps) + length input < fuel)%nat ->
  session opens exists_ dirs ps (OFile tty m) (default console (T !! 1)) (default console (T !! 2)) d input g.(npipes) evs <->
  (run opens exists_ dirs d (main fuel) T g).1 = evs.
Proof.
  intros Ho1 Ho2 HT Hi Htty Henv Hin Hne Hlen Hps Hfit Hf. unfold main. rewrite open_console_run by done. unfold std. rewrite Hi.
  rewrite (parsepath_run _ _ _ d ps) by (done || lia).
  assert ((with_unread (str ".env") [] g).(unread) !! tty = Some input) as Hin' by (cbn; by rewrite lookup_insert_ne).
  pose proof (main_loop_run opens exists_ dirs ps tty m (default console (T !! 1)) (default console (T !! 2)) fuel d _ input Hin' Hfit ltac:(lia)) as H.
  split; [intros Hs; by eapply session_det|by intros <-].
Qed.

(** Programs of the root and of [/b/], and [ed] in the directory [src] only. *)
Definition sample_programs (d : cwd) (p : list Z) : bool :=
  bool_decide (p ∈ [str "/cat"; str "/b/wc"]) || bool_decide (d = [str "src"] /\ p = str "ed").
Definition sample_dirs (d : cwd) (p : list Z) : bool := bool_decide (d = [] /\ p = str "src").
Definition sample_input : list Z :=
  str "cat f|wc -l>out" ++ 10 :: str "ed x" ++ 10 :: str "cd src" ++ 10 :: str "cd gone" ++ 10 :: str "cat(" ++ 10 :: str "(ed x)&".
Definition sample_kern : kern :=
  {| npipes := 0; unread := <[str "console" := sample_input]> {[str ".env" := str "PATH=/:/b/:"]} |}.

Lemma shell_session_witness :
  let wr := OFile (str "out") (Z.lor O_WRONLY O_CREATE) in
  session (fun _ _ _ => true) sample_programs sample_dirs [str "/"; str "/b/"; []] console console console [] sample_input 0
  [ Started [] (str "/cat") [str "cat"; str "f"] (table console (PipeW 0) console);
    Started [] (str "/b/wc") [str "wc"; str "-l"] (table (PipeR 0) wr console);
    Cd (str "src");
    Started [str "src"] (str "ed") [str "ed"; str "x"] (table console console console) ].
Proof.
  intros wr. match goal with |- session _ _ _ _ _ _ _ _ _ _ ?evs =>
    pose proof (shell_session (fun _ _ _ => true) sample_programs sample_dirs [] ∅ sample_kern (str "console") O_RDWR
      [str "/"; str "/b/"; []] sample_input 100 evs) as H end.
  rewrite !lookup_empty in H. apply H; clear H.
  - reflexivity.
  - reflexivity.
  - change (dom (∅ : gmap Z obj) ⊆ {[0; 1; 2]}). rewrite dom_empty_L. apply empty_subseteq.
  - reflexivity.
  - discriminate.
  - reflexivity.
  - reflexivity.
  - discriminate.
  - vm_compute. lia.
  - unfold path_ok. apply (bool_decide_unpack _). vm_compute. exact I.
  - apply short_fit. apply (bool_decide_unpack _). vm_compute. exact I.
  - vm_compute. lia.
  - vm_compute. reflexivity.
Defined.

(** [gets] takes a line: what it stores is a prefix of the input of fewer
    than [max] bytes, it stops only after a newline or carriage return, when
    the buffer is full or at the end of the input, and stores no line end
    before the last byte; the rest stays unread. *)
Theorem gets_bounds (opens : cwd -> list Z -> Z -> bool) (exists_ dirs : cwd -> list Z -> bool) (d : cwd) (T : fdtable) (g : kern)
    (path : list Z) (m : Z) (max : nat) (input : list Z) (k : list Z -> prog) :
  (0 < max)%nat -> T !! 0 = Some (OFile path m) -> g.(unread) !! path = Some input ->
  exists l rest,
    run opens exists_ dirs d (gets max k) T g = run opens exists_ dirs d (k l) T (with_unread path rest g) /\
    input = l ++ rest /\ (length l < max)%nat /\
    (length l = (max - 1)%nat \/ rest = [] \/ exists l' c, l = l' ++ [c] /\ (c = 10 \/ c = 13)) /\
    forall i c, (S i < length l)%nat -> l !! i = Some c -> c <> 10 /\ c <> 13.
Proof.
  intros Hm HT Hin. exists (line_of (max - 1) input).1, (line_of (max - 1) input).2.
  split; [by apply (gets_run _ _ _ d _ [] k T g path m)|].
  destruct (line_of_spec (max - 1) input _ _ (surjective_pairing _)) as (H1 & H2 & H3 & H4). split_and!; [done|lia|done|done].
Qed.

Lemma gets_bounds_witness :
  exists l rest, run (fun _ _ _ => true) sample_programs (fun _ _ => false) [] (gets 4 (fun _ => Exit)) {[0 := console]}
      {| npipes := 0; unread := {[str "console" := str "lsof"]} |}
    = ([], {| npipes := 0; unread := {[str "console" := rest]} |}) /\ str "lsof" = l ++ rest /\ (length l < 4)%nat.
Proof.
  destruct (gets_bounds (fun _ _ _ => true) sample_programs (fun _ _ => false) [] {[0 := console]}
    {| npipes := 0; unread := {[str "console" := str "lsof"]} |} (str "console") O_RDWR 4 (str "lsof") (fun _ => Exit))
    as (l & rest & E & El & Hl & _); [lia|reflexivity|reflexivity|].
  exists l, rest. split; [rewrite E; reflexivity|]. split; [exact El|exact Hl].
Defined.

(** The blocks parsepath allocates.  On a fresh heap [malloc] places the
    array of components directly below [pathstrt] and the first component, so
    that the array of four bytes has room for two pointers, the components of
    the repository's .env, four, run over [pathstrt]'s header, and the ninth
    would overwrite the text of the first; the last component of that file
    ends in the newline. *)
Theorem parsepath_blocks (exists_ dirs : cwd -> list Z -> bool) (d : cwd) (k : list (list Z) -> prog) :
  (exists h1 h2 h3 buf pathstrt arrpath,
     Umalloc.malloc 4096 Umalloc.sample_grants 10 100 Umalloc.sample_heap = Some (buf, h1) /\
     Umalloc.malloc 4096 Umalloc.sample_grants 10 6 h1 = Some (pathstrt, h2) /\
     Umalloc.malloc 4096 Umalloc.sample_grants 10 4 h2 = Some (arrpath, h3) /\
     arrpath + 4 * 2 = pathstrt - Umalloc.HDR /\ arrpath + 4 * Z.of_nat PATHS = buf) /\
  (let env := str "/:/lol/:/checkit/:/so/" ++ [10] in
   run (fun _ _ _ => true) exists_ dirs d (parsepath 100 k) (std ∅) {| npipes := 0; unread := {[str ".env" := str "PATH=" ++ env]} |} =
   run (fun _ _ _ => true) exists_ dirs d (k [str "/"; str "/lol/"; str "/checkit/"; str "/so/" ++ [10]]) (std ∅)
     {| npipes := 0; unread := {[str ".env" := []]} |}).
Proof.
  split.
  - eexists _, _, _, _, _, _. split; [vm_compute; reflexivity|]. split; [vm_compute; reflexivity|].
    split; [vm_compute; reflexivity|]. split; vm_compute; reflexivity.
  - intros env. change (std ∅) with (table console console console). rewrite (parsepath_run _ _ _ d [str "/"; str "/lol/"; str "/checkit/"; str "/so/" ++ [10]]).
    + reflexivity.
    + reflexivity.
    + reflexivity.
    + done.
    + vm_compute. lia.
    + unfold path_ok. apply (bool_decide_unpack _). vm_compute. exact I.
    + vm_compute. lia.
Qed.

End Sh.
