(* ===== verification/Spinlock.v ===== *)
(** Spin locks between CPUs: spinlock.c and the [xchg] of x86.h.

    The other files treat [acquire] and [release] as atomic operations on the
    set of locks the running CPU holds (State.v).  Here the two functions run
    on any number of CPUs, one memory access at a time, in any interleaving:
    a CPU is a record with its interrupt flag, the fields [ncli] and [intena]
    of struct cpu, a program point inside [acquire] or [release], and the
    locks its program holds between the return of [acquire] and the end of
    [release].  The theorems show that the interleaved code implements the
    atomic operations, that a CPU that holds a lock takes no interrupts, and
    that the two panics report exactly what they are meant to. *)

From S2P Require Import Prelude CString.

Module Spin.

(** ** Locks and CPUs *)

(** struct spinlock: the field [cpu] is [owner], null is [None]. *)
Record spinlock := mk_spinlock { locked : Z; lname : string; owner : option nat; pcs : list Z }.

(** Where a CPU is.  [Run] is any code outside this file; [Bracket] is a
    [pushcli] ... [popcli] pair such as switchuvm's. *)
Inductive point :=
| Run
| AcqTest (lk : nat) | AcqOwner (lk : nat) | AcqSpin (lk : nat) | AcqRecord (lk : nat)
| RelTest (lk : nat) | RelOwner (lk : nat) | RelClear (lk : nat) | RelXchg (lk : nat) | RelPop
| Bracket
| Stopped (msg : string).

#[export] Instance point_eq_dec : EqDecision point.
Proof. solve_decision. Defined.

(** [held] is the program's own account of the locks it holds, [ebp] the frame
    of the call of [acquire]. *)
Record cpu := mk_cpu { FL_IF : bool; ncli : Z; intena : bool; at_ : point; held : list nat; ebp : Z }.

Record world := mk_world { locks : list spinlock; cpus : list cpu; wmem : mem }.

Definition go (p : point) (x : cpu) : cpu := mk_cpu x.(FL_IF) x.(ncli) x.(intena) p x.(held) x.(ebp).
Definition set_IF (b : bool) (x : cpu) : cpu := mk_cpu b x.(ncli) x.(intena) x.(at_) x.(held) x.(ebp).
Definition set_intena (b : bool) (x : cpu) : cpu := mk_cpu x.(FL_IF) x.(ncli) b x.(at_) x.(held) x.(ebp).
Definition set_held (h : list nat) (x : cpu) : cpu := mk_cpu x.(FL_IF) x.(ncli) x.(intena) x.(at_) h x.(ebp).
Definition set_ebp (a : Z) (x : cpu) : cpu := mk_cpu x.(FL_IF) x.(ncli) x.(intena) x.(at_) x.(held) a.

(** ** The functions *)

(** The storage of a lock starts as zeros; [initlock] leaves [pcs] alone. *)
Definition initlock (name : string) (lk : spinlock) : spinlock := mk_spinlock 0 name None lk.(pcs).

Definition pushcli (x : cpu) : cpu :=
  mk_cpu false (s32 (x.(ncli) + 1)) (if x.(ncli) =? 0 then x.(FL_IF) else x.(intena)) x.(at_) x.(held) x.(ebp).

(** The new CPU, stopped in a panic or at [Run]. *)
Definition popcli (x : cpu) : cpu :=
  if x.(FL_IF) then go (Stopped "popcli - interruptible") x
  else
    let n := s32 (x.(ncli) - 1) in
    let y := mk_cpu x.(FL_IF) n x.(intena) x.(at_) x.(held) x.(ebp) in
    if n <? 0 then go (Stopped "popcli") y
    else if (n =? 0) && x.(intena) then go Run (set_IF true y)
    else go Run y.

(** [getcallerpcs] follows at most ten frames. *)
Fixpoint getcallerpcs_loop (m : mem) (n : nat) (ebp : Z) : list Z :=
  match n with
  | O => []
  | S n' =>
      if (ebp =? 0) || (ebp <? 0x100000) || (ebp =? 0xffffffff) then replicate n 0
      else load32 m (ebp + 4) :: getcallerpcs_loop m n' (load32 m ebp)
  end.

Definition getcallerpcs (m : mem) (ebp : Z) : list Z := getcallerpcs_loop m 10 ebp.

(** One memory access of CPU [c] inside [acquire], [release] or a bracket.
    [None]: the CPU is not inside one of them, or the lock does not exist. *)
Definition micro (c : nat) (w : world) : option world :=
  match w.(cpus) !! c with
  | None => None
  | Some x =>
      let move y := Some (mk_world w.(locks) (<[c := y]> w.(cpus)) w.(wmem)) in
      let move_set lk l y := Some (mk_world (<[lk := l]> w.(locks)) (<[c := y]> w.(cpus)) w.(wmem)) in
      match x.(at_) with
      | Run | Stopped _ => None
      | AcqTest lk => (* holding: lock->locked && ... *)
          match w.(locks) !! lk with
          | None => None
          | Some l => move (go (if l.(locked) =? 0 then AcqSpin lk else AcqOwner lk) x)
          end
      | AcqOwner lk => (* ... lock->cpu == cpu *)
          match w.(locks) !! lk with
          | None => None
          | Some l => move (go (if decide (l.(owner) = Some c) then Stopped "acquire" else AcqSpin lk) x)
          end
      | AcqSpin lk => (* while(xchg(&lk->locked, 1) != 0) *)
          match w.(locks) !! lk with
          | None => None
          | Some l =>
              let l' := mk_spinlock 1 l.(lname) l.(owner) l.(pcs) in
              move_set lk l' (if l.(locked) =? 0 then go (AcqRecord lk) x else x)
          end
      | AcqRecord lk => (* lk->cpu = cpu; getcallerpcs(&lk, lk->pcs) *)
          match w.(locks) !! lk with
          | None => None
          | Some l =>
              move_set lk (mk_spinlock l.(locked) l.(lname) (Some c) (getcallerpcs w.(wmem) x.(ebp)))
                (set_held (lk :: x.(held)) (go Run x))
          end
      | RelTest lk =>
          match w.(locks) !! lk with
          | None => None
          | Some l => move (go (if l.(locked) =? 0 then Stopped "release" else RelOwner lk) x)
          end
      | RelOwner lk =>
          match w.(locks) !! lk with
          | None => None
          | Some l => move (go (if decide (l.(owner) = Some c) then RelClear lk else Stopped "release") x)
          end
      | RelClear lk => (* lk->pcs[0] = 0; lk->cpu = 0 *)
          match w.(locks) !! lk with
          | None => None
          | Some l =>
              move_set lk (mk_spinlock l.(locked) l.(lname) None (<[0%nat := 0]> l.(pcs))) (go (RelXchg lk) x)
          end
      | RelXchg lk => (* xchg(&lk->locked, 0) *)
          match w.(locks) !! lk with
          | None => None
          | Some l =>
              move_set lk (mk_spinlock 0 l.(lname) l.(owner) l.(pcs))
                (set_held (filter (.≠ lk) x.(held)) (go RelPop x))
          end
      | RelPop | Bracket => move (popcli x)
      end
  end.

(** [acquire] starts with [pushcli], [release] with its test. *)
Definition call_acquire (lk : nat) (x : cpu) : cpu := go (AcqTest lk) (pushcli x).
Definition call_release (lk : nat) (x : cpu) : cpu := go (RelTest lk) x.

(** What a CPU may do outside the lock code.  Only a CPU with no [pushcli]
    outstanding turns interrupts on (the scheduler's [sti], the return from a
    trap); only [sched], with one lock held, replaces [intena]. *)
Inductive runs : cpu -> cpu -> Prop :=
| run_acquire x lk a : x.(at_) = Run -> runs x (call_acquire lk (set_ebp a x))
| run_release x lk : x.(at_) = Run -> runs x (call_release lk x)
| run_bracket x : x.(at_) = Run -> runs x (go Bracket (pushcli x))
| run_cli x : x.(at_) = Run -> runs x (set_IF false x)
| run_sti x : x.(at_) = Run -> x.(ncli) = 0 -> runs x (set_IF true x)
| run_sched x b : x.(at_) = Run -> x.(ncli) = 1 -> runs x (set_intena b x).

Inductive step : world -> world -> Prop :=
| step_micro c w w' : micro c w = Some w' -> step w w'
| step_run c w x y : w.(cpus) !! c = Some x -> runs x y ->
    step w (mk_world w.(locks) (<[c := y]> w.(cpus)) w.(wmem))
| step_mem w m : step w (mk_world w.(locks) w.(cpus) m).

(** Boot: the locks initialised, every CPU outside the lock code with its
    interrupts off ([mpmain] comes in with them off). *)
Definition fresh_cpu : cpu := mk_cpu false 0 false Run [] 0.
Definition boot_world (names : list string) (n : nat) (m : mem) : world :=
  mk_world ((fun s => initlock s (mk_spinlock 0 "" None (replicate 10 0))) <$> names) (replicate n fresh_cpu) m.

Inductive reachable (names : list string) (n : nat) (m : mem) : world -> Prop :=
| reach_boot : reachable names n m (boot_world names n m)
| reach_step w w' : reachable names n m w -> step w w' -> reachable names n m w'.

(** ** The invariant *)

(** The locks a CPU has taken: those it holds and the one [xchg] has just
    given it. *)
Definition owns (x : cpu) : list nat :=
  match x.(at_) with AcqRecord lk => lk :: x.(held) | _ => x.(held) end.

(** The locks whose field [cpu] names it. *)
Definition marked (x : cpu) (lk : nat) : Prop := lk ∈ x.(held) /\ x.(at_) <> RelXchg lk.

(** How many [pushcli] the program point accounts for. *)
Definition pending (p : point) : Z :=
  match p with
  | AcqTest _ | AcqOwner _ | AcqSpin _ | AcqRecord _ | RelPop | Bracket => 1
  | _ => 0
  end.

Definition stopped (x : cpu) : Prop := exists msg, x.(at_) = Stopped msg.

Record cpu_ok (nlocks : nat) (x : cpu) : Prop := {
  ok_nodup : NoDup (owns x);
  ok_known lk : lk ∈ owns x -> (lk < nlocks)%nat;
  ok_ncli : ~ stopped x -> x.(ncli) = Z.of_nat (length x.(held)) + pending x.(at_);
  ok_IF : 0 < x.(ncli) -> x.(FL_IF) = false;
  ok_spin lk : x.(at_) = AcqSpin lk -> lk ∉ x.(held);
  ok_rel lk : x.(at_) = RelClear lk \/ x.(at_) = RelXchg lk -> lk ∈ x.(held)
}.

Record inv (w : world) : Prop := {
  inv_cpu c x : w.(cpus) !! c = Some x -> cpu_ok (length w.(locks)) x;
  inv_one c c' x x' lk : w.(cpus) !! c = Some x -> w.(cpus) !! c' = Some x' ->
    lk ∈ owns x -> lk ∈ owns x' -> c = c';
  inv_locked lk l : w.(locks) !! lk = Some l ->
    (l.(locked) = 1 /\ exists c x, w.(cpus) !! c = Some x /\ lk ∈ owns x) \/
    (l.(locked) = 0 /\ forall c x, w.(cpus) !! c = Some x -> lk ∉ owns x);
  inv_owner lk l c : w.(locks) !! lk = Some l ->
    l.(owner) = Some c <-> exists x, w.(cpus) !! c = Some x /\ marked x lk
}.

(** A CPU moves without taking or giving up a lock. *)
Lemma inv_local w c x y :
  inv w -> w.(cpus) !! c = Some x -> cpu_ok (length w.(locks)) y ->
  owns y = owns x -> (forall lk, marked y lk <-> marked x lk) ->
  inv (mk_world w.(locks) (<[c := y]> w.(cpus)) w.(wmem)).
Proof.
  intros [H1 H2 H3 H4] Hx Hy Ho Hm. split; cbn.
  - intros c' x' [(-> & <- & _)|(_ & ?)]%list_lookup_insert_Some; eauto.
  - intros c1 c2 x1 x2 lk [(-> & <- & _)|(? & ?)]%list_lookup_insert_Some
      [(-> & <- & _)|(? & ?)]%list_lookup_insert_Some; rewrite ?Ho; eauto.
  - intros lk l Hl. destruct (H3 lk l Hl) as [(E & c' & x' & Hx' & Hin)|(E & Hno)]; [left|right]; (split; [done|]).
    + destruct (decide (c' = c)) as [->|Hne].
      * exists c, y. rewrite list_lookup_insert_eq by (by eapply lookup_lt_Some). rewrite Ho. by simplify_eq.
      * exists c', x'. by rewrite list_lookup_insert_ne.
    + intros c' x' [(-> & <- & _)|(_ & ?)]%list_lookup_insert_Some; [rewrite Ho|]; eauto.
  - intros lk l c' Hl. rewrite (H4 lk l c' Hl). destruct (decide (c' = c)) as [->|Hne].
    + rewrite list_lookup_insert_eq by (by eapply lookup_lt_Some). rewrite Hx. split.
      * intros (? & [= <-] & ?). exists y. by rewrite Hm.
      * intros (? & [= <-] & ?). exists x. by rewrite <- Hm.
    + by rewrite list_lookup_insert_ne.
Qed.

(** CPU [c] takes, marks, unmarks or gives up lock [lk]. *)
Lemma inv_change w c x y lk l l' :
  inv w -> w.(cpus) !! c = Some x -> w.(locks) !! lk = Some l -> cpu_ok (length w.(locks)) y ->
  (forall lk', lk' <> lk -> lk' ∈ owns y <-> lk' ∈ owns x) ->
  (forall lk', lk' <> lk -> marked y lk' <-> marked x lk') ->
  (lk ∈ owns x \/ l.(locked) = 0) ->
  (l'.(locked) = 1 /\ lk ∈ owns y \/ l'.(locked) = 0 /\ lk ∉ owns y) ->
  (l'.(owner) = Some c /\ marked y lk \/ l'.(owner) = None /\ ~ marked y lk) ->
  inv (mk_world (<[lk := l']> w.(locks)) (<[c := y]> w.(cpus)) w.(wmem)).
Proof.
  intros Hi Hx Hl Hy Ho Hm Hfree Hk Hw. pose proof Hi as [H1 H2 H3 H4].
  assert (forall c' x', c' <> c -> w.(cpus) !! c' = Some x' -> lk ∉ owns x') as Hother.
  { intros c' x' Hne Hx' Hin. destruct Hfree as [Hin'|H0].
    - apply Hne. eauto.
    - destruct (H3 lk l Hl) as [(? & _)|(_ & Hno)]; [lia|]. by eapply Hno. }
  assert (c < length w.(cpus))%nat as Hlt by (by eapply lookup_lt_Some).
  split; cbn; rewrite ?length_insert.
  - intros c' x' [(-> & <- & _)|(_ & ?)]%list_lookup_insert_Some; eauto.
  - intros c1 c2 x1 x2 k [(-> & <- & _)|(Hn1 & Hx1)]%list_lookup_insert_Some
      [(-> & <- & _)|(Hn2 & Hx2)]%list_lookup_insert_Some Hi1 Hi2; [done| | |eauto].
    + destruct (decide (k = lk)) as [->|Hk']; [by destruct (Hother c2 x2)|]. rewrite Ho in Hi1 by done. eauto.
    + destruct (decide (k = lk)) as [->|Hk']; [by destruct (Hother c1 x1)|]. rewrite Ho in Hi2 by done. eauto.
  - intros k l1 [(-> & <- & _)|(Hk' & Hl1)]%list_lookup_insert_Some.
    + destruct Hk as [[E Hin]|[E Hin]]; [left|right]; (split; [done|]).
      * exists c, y. by rewrite list_lookup_insert_eq.
      * intros c' x' [(-> & <- & _)|(? & ?)]%list_lookup_insert_Some; [done|eauto].
    + destruct (H3 k l1 Hl1) as [(E & c' & x' & Hx' & Hin)|(E & Hno)]; [left|right]; (split; [done|]).
      * destruct (decide (c' = c)) as [->|Hne].
        -- exists c, y. rewrite list_lookup_insert_eq by done. simplify_eq. by rewrite Ho.
        -- exists c', x'. by rewrite list_lookup_insert_ne.
      * intros c' x' [(-> & <- & _)|(_ & ?)]%list_lookup_insert_Some; [rewrite Ho by done|]; eauto.
  - intros k l1 c' [(-> & <- & _)|(Hk' & Hl1)]%list_lookup_insert_Some.
    + destruct (decide (c' = c)) as [->|Hne].
      * rewrite list_lookup_insert_eq by done. destruct Hw as [[E ?]|[E ?]]; rewrite E; naive_solver.
      * rewrite list_lookup_insert_ne by done. destruct Hw as [[E _]|[E _]]; rewrite E; (split; [congruence|]).
        -- intros (x' & Hx' & Hin & _). exfalso. apply (Hother c' x'); [done|done|]. unfold owns. destruct (at_ x'); try done. by right.
        -- intros (x' & Hx' & Hin & _). exfalso. apply (Hother c' x'); [done|done|]. unfold owns. destruct (at_ x'); try done. by right.
    + rewrite (H4 k l1 c' Hl1). destruct (decide (c' = c)) as [->|Hne].
      * rewrite list_lookup_insert_eq by done. rewrite Hx. split.
        -- intros (? & [= <-] & ?). exists y. by rewrite Hm.
        -- intros (? & [= <-] & ?). exists x. by rewrite <- Hm.
      * by rewrite list_lookup_insert_ne.
Qed.

(** ** Every step keeps the invariant *)

Lemma held_owns x lk : lk ∈ x.(held) -> lk ∈ owns x.
Proof. unfold owns. destruct (at_ x); try done. by right. Qed.

Lemma NoDup_bounded (l : list nat) n : NoDup l -> (forall k, k ∈ l -> (k < n)%nat) -> (length l <= n)%nat.
Proof.
  intros Hd Hk. rewrite <- (length_seq n 0). apply submseteq_length, NoDup_submseteq; [done|].
  intros k Hin. apply elem_of_seq. specialize (Hk k Hin). lia.
Qed.

Lemma held_bound n x : cpu_ok n x -> (length x.(held) <= n)%nat.
Proof.
  intros H. apply NoDup_bounded.
  - pose proof (ok_nodup _ _ H) as Hd. unfold owns in Hd. destruct (at_ x); try done. by apply NoDup_cons in Hd as [_ ?].
  - intros k Hk. by apply (ok_known _ _ H), held_owns.
Qed.

(** Moves that keep the locks and the [pushcli] count. *)
Lemma cpu_ok_go n x p :
  cpu_ok n x -> ~ stopped x -> owns (go p x) = owns x ->
  pending p = pending x.(at_) \/ stopped (go p x) ->
  (forall lk, p = AcqSpin lk -> lk ∉ x.(held)) ->
  (forall lk, p = RelClear lk \/ p = RelXchg lk -> lk ∈ x.(held)) ->
  cpu_ok n (go p x).
Proof.
  intros [H1 H2 H3 H4 H5 H6] Hns Ho Hp Hs Hr. split; cbn; try rewrite Ho; auto.
  intros Hn. destruct Hp as [Hp|Hp]; [|done]. rewrite Hp. auto.
Qed.

Lemma pushcli_ok n x p :
  cpu_ok n x -> Z.of_nat n < 2 ^ 31 - 2 -> x.(at_) = Run -> pending p = 1 ->
  owns (go p (pushcli x)) = owns x ->
  (forall lk, p = AcqSpin lk -> lk ∉ x.(held)) -> (forall lk, p <> RelClear lk /\ p <> RelXchg lk) ->
  cpu_ok n (go p (pushcli x)).
Proof.
  intros H Hn Hr Hp Ho Hs Hl. pose proof (held_bound _ _ H). destruct H as [H1 H2 H3 H4 H5 H6].
  assert (~ stopped x) as Hns by (intros [msg E]; congruence). specialize (H3 Hns). rewrite Hr in H3. cbn in H3.
  split; cbn; try rewrite Ho; auto.
  - intros _. rewrite Hp, s32_small; lia.
  - intros lk [->| ->]; [by destruct (Hl lk)|by destruct (Hl lk)].
Qed.

Lemma popcli_ok n x :
  cpu_ok n x -> Z.of_nat n < 2 ^ 31 - 2 -> x.(at_) = RelPop \/ x.(at_) = Bracket ->
  cpu_ok n (popcli x) /\ (popcli x).(at_) = Run /\ (popcli x).(held) = x.(held).
Proof.
  intros H Hn Hp. pose proof (held_bound _ _ H). destruct H as [H1 H2 H3 H4 H5 H6].
  assert (~ stopped x) as Hns by (intros [msg E]; destruct Hp; congruence). specialize (H3 Hns).
  assert (pending x.(at_) = 1) as Hp1 by (by destruct Hp as [-> | ->]). rewrite Hp1 in H3.
  unfold popcli. rewrite H4 by lia. rewrite H3.
  replace (Z.of_nat (length x.(held)) + 1 - 1) with (Z.of_nat (length x.(held))) by lia.
  rewrite s32_small by lia. rewrite (proj2 (Z.ltb_ge _ _)) by lia.
  assert (owns x = x.(held)) as Ho by (unfold owns; by destruct Hp as [-> | ->]). rewrite Ho in *.
  destruct (_ && _) eqn:E; (split; [|done]); split; cbn; auto; try (intros; lia); try (intros; by naive_solver).
Qed.

Lemma marked_go x p lk :
  x.(at_) <> RelXchg lk -> p <> RelXchg lk -> marked (go p x) lk <-> marked x lk.
Proof. unfold marked. cbn. tauto. Qed.

Lemma not_stopped x p : x.(at_) = p -> (forall m, p <> Stopped m) -> ~ stopped x.
Proof. intros <- H [m E]. by apply (H m). Qed.

Lemma owns_go x p : (forall lk, x.(at_) <> AcqRecord lk) -> (forall lk, p <> AcqRecord lk) -> owns (go p x) = owns x.
Proof. unfold owns. cbn. intros H1 H2. destruct p, (at_ x); naive_solver. Qed.

Lemma inv_run w c x y :
  inv w -> Z.of_nat (length w.(locks)) < 2 ^ 31 - 2 -> w.(cpus) !! c = Some x -> runs x y ->
  inv (mk_world w.(locks) (<[c := y]> w.(cpus)) w.(wmem)).
Proof.
  intros Hi Hn Hx Hr. pose proof (inv_cpu _ Hi _ _ Hx) as H.
  assert (x.(at_) = Run) as Hrun by (by destruct Hr).
  assert (owns x = x.(held)) as Hox by (unfold owns; by rewrite Hrun).
  apply (inv_local w c x y Hi Hx).
  - destruct Hr as [x lk a Ha|x lk Ha|x Ha|x Ha|x Ha Hc|x b Ha Hc]; try (destruct H as [H1 H2 H3 H4 H5 H6]; split; cbn; by eauto).
    + apply pushcli_ok; try done. destruct H as [H1 H2 H3 H4 H5 H6]; split; cbn; by eauto.
    + apply cpu_ok_go; try done; [by apply (not_stopped x Run)|by left; rewrite Hrun|naive_solver].
    + apply pushcli_ok; done.
    + destruct H as [H1 H2 H3 H4 H5 H6]; split; cbn; eauto. lia.
  - destruct Hr; unfold owns in *; cbn; rewrite ?Hrun in *; by rewrite ?Hox.
  - intros lk. destruct Hr; unfold marked; cbn; rewrite Hrun; naive_solver.
Qed.

(** A move of the program point only. *)
Lemma inv_move w c x p :
  inv w -> w.(cpus) !! c = Some x -> ~ stopped x ->
  (forall lk, x.(at_) <> AcqRecord lk /\ x.(at_) <> RelXchg lk) ->
  (forall lk, p <> AcqRecord lk /\ p <> RelXchg lk) ->
  pending p = pending x.(at_) \/ stopped (go p x) ->
  (forall lk, p = AcqSpin lk -> lk ∉ x.(held)) -> (forall lk, p = RelClear lk -> lk ∈ x.(held)) ->
  inv (mk_world w.(locks) (<[c := go p x]> w.(cpus)) w.(wmem)).
Proof.
  intros Hi Hx Hns H1 H2 Hp Hs Hr. assert (owns (go p x) = owns x) as Ho by (apply owns_go; naive_solver).
  apply (inv_local w c x _ Hi Hx); [|exact Ho|intros lk; apply marked_go; naive_solver].
  apply cpu_ok_go; try done; [by apply (inv_cpu _ Hi c)|]. intros lk [E|E]; [auto|]. by destruct (H2 lk).
Qed.

(** The field [cpu] of a lock names this CPU exactly when it holds the lock. *)
Lemma owner_is_held w c x lk l :
  inv w -> w.(cpus) !! c = Some x -> w.(locks) !! lk = Some l -> x.(at_) <> RelXchg lk ->
  l.(owner) = Some c <-> lk ∈ x.(held).
Proof.
  intros Hi Hx Hl Hp. rewrite (inv_owner _ Hi _ _ _ Hl). unfold marked. split.
  - intros (y & Hy & ? & _). by simplify_eq.
  - intros Hin. by exists x.
Qed.

Lemma unlocked_not_held w c x lk l :
  inv w -> w.(cpus) !! c = Some x -> w.(locks) !! lk = Some l -> l.(locked) = 0 -> lk ∉ owns x.
Proof. intros Hi Hx Hl E. destruct (inv_locked _ Hi _ _ Hl) as [(? & _)|(_ & Hno)]; [lia|eauto]. Qed.

Lemma owned_locked w c x lk l :
  inv w -> w.(cpus) !! c = Some x -> w.(locks) !! lk = Some l -> lk ∈ owns x -> l.(locked) = 1.
Proof. intros Hi Hx Hl Hin. destruct (inv_locked _ Hi _ _ Hl) as [(? & _)|(_ & Hno)]; [done|]. by destruct (Hno c x). Qed.

Lemma inv_spin w c x lk l :
  inv w -> w.(cpus) !! c = Some x -> w.(locks) !! lk = Some l -> x.(at_) = AcqSpin lk ->
  inv (mk_world (<[lk := mk_spinlock 1 l.(lname) l.(owner) l.(pcs)]> w.(locks))
         (<[c := if l.(locked) =? 0 then go (AcqRecord lk) x else x]> w.(cpus)) w.(wmem)).
Proof.
  intros Hi Hx Hl Hat. pose proof (inv_cpu _ Hi _ _ Hx) as H. destruct (Z.eqb_spec l.(locked) 0) as [E|E].
  - assert (owns x = x.(held)) as Ho by (unfold owns; by rewrite Hat). pose proof (ok_spin _ _ H _ Hat) as Hn.
    apply (inv_change w c x _ lk l _ Hi Hx Hl); cbn.
    + destruct H as [H1 H2 H3 H4 H5 H6]. rewrite Ho in *. split; cbn; try done.
      * by constructor.
      * intros k [->|?]%elem_of_cons; [by eapply lookup_lt_Some|auto].
      * intros _. rewrite H3, Hat; [done|]. by apply (not_stopped x (AcqSpin lk)).
      * naive_solver.
    + intros k Hk. rewrite Ho. unfold owns. cbn. rewrite elem_of_cons. naive_solver.
    + intros k Hk. apply marked_go; [by rewrite Hat|done].
    + by right.
    + left. split; [done|]. unfold owns. cbn. by left.
    + right. split; [|unfold marked; cbn; naive_solver]. destruct l.(owner) as [c'|] eqn:Hc'; [|done].
      apply (inv_owner _ Hi _ _ _ Hl) in Hc' as (x' & Hx' & Hin & _).
      destruct (unlocked_not_held w c' x' lk l); auto. by apply held_owns.
  - assert (l.(locked) = 1) as E1 by (destruct (inv_locked _ Hi _ _ Hl) as [(? & _)|(? & _)]; done).
    rewrite list_insert_id by (by rewrite Hl; destruct l; simpl in *; subst).
    rewrite list_insert_id by done. by destruct w.
Qed.

Lemma inv_record w c x lk l :
  inv w -> w.(cpus) !! c = Some x -> w.(locks) !! lk = Some l -> x.(at_) = AcqRecord lk ->
  inv (mk_world (<[lk := mk_spinlock l.(locked) l.(lname) (Some c) (getcallerpcs w.(wmem) x.(ebp))]> w.(locks))
         (<[c := set_held (lk :: x.(held)) (go Run x)]> w.(cpus)) w.(wmem)).
Proof.
  intros Hi Hx Hl Hat. pose proof (inv_cpu _ Hi _ _ Hx) as H.
  assert (owns x = lk :: x.(held)) as Ho by (unfold owns; by rewrite Hat).
  apply (inv_change w c x _ lk l _ Hi Hx Hl).
  - destruct H as [H1 H2 H3 H4 H5 H6]. rewrite Ho in *. split; cbn; try done.
    + intros _. rewrite H3, Hat; [cbn; lia|]. by apply (not_stopped x (AcqRecord lk)).
    + naive_solver.
  - intros k Hk. by rewrite Ho.
  - intros k Hk. unfold marked. cbn. rewrite elem_of_cons, Hat. naive_solver.
  - left. rewrite Ho. by left.
  - left. cbn. split; [|unfold owns; cbn; by left]. apply (owned_locked w c x lk l); auto. rewrite Ho. by left.
  - left. split; [done|]. unfold marked. cbn. split; [by left|done].
Qed.

Lemma inv_clear w c x lk l :
  inv w -> w.(cpus) !! c = Some x -> w.(locks) !! lk = Some l -> x.(at_) = RelClear lk ->
  inv (mk_world (<[lk := mk_spinlock l.(locked) l.(lname) None (<[0%nat := 0]> l.(pcs))]> w.(locks))
         (<[c := go (RelXchg lk) x]> w.(cpus)) w.(wmem)).
Proof.
  intros Hi Hx Hl Hat. pose proof (inv_cpu _ Hi _ _ Hx) as H. pose proof (ok_rel _ _ H _ (or_introl Hat)) as Hin.
  assert (owns (go (RelXchg lk) x) = owns x) as Ho by (apply owns_go; by rewrite ?Hat).
  apply (inv_change w c x _ lk l _ Hi Hx Hl).
  - apply cpu_ok_go; try done; [by apply (not_stopped x (RelClear lk))|left; by rewrite Hat|naive_solver].
  - by rewrite Ho.
  - intros k Hk. apply marked_go; [by rewrite Hat|naive_solver].
  - left. by apply held_owns.
  - left. split; [apply (owned_locked w c x lk l); auto; by apply held_owns|]. rewrite Ho. by apply held_owns.
  - right. split; [done|]. unfold marked. cbn. naive_solver.
Qed.

Lemma length_filter_out (l : list nat) lk :
  NoDup l -> lk ∈ l -> S (length (filter (.≠ lk) l)) = length l.
Proof.
  induction 1 as [|k l Hk Hd IH]; intros Hin; [by apply elem_of_nil in Hin|]. rewrite filter_cons. case_decide as E.
  - apply elem_of_cons in Hin as [->|Hin]; [done|]. cbn. by rewrite IH.
  - subst k. cbn. f_equal. f_equal. symmetry. clear IH Hin Hd. induction l as [|j l IH]; [done|].
    apply not_elem_of_cons in Hk as [? ?]. rewrite filter_cons_True by done. f_equal. auto.
Qed.

Lemma inv_unlock w c x lk l :
  inv w -> w.(cpus) !! c = Some x -> w.(locks) !! lk = Some l -> x.(at_) = RelXchg lk ->
  inv (mk_world (<[lk := mk_spinlock 0 l.(lname) l.(owner) l.(pcs)]> w.(locks))
         (<[c := set_held (filter (.≠ lk) x.(held)) (go RelPop x)]> w.(cpus)) w.(wmem)).
Proof.
  intros Hi Hx Hl Hat. pose proof (inv_cpu _ Hi _ _ Hx) as H. pose proof (ok_rel _ _ H _ (or_intror Hat)) as Hin.
  assert (owns x = x.(held)) as Ho by (unfold owns; by rewrite Hat).
  assert (l.(owner) = None) as Hown.
  { destruct l.(owner) as [c'|] eqn:Hc'; [|done]. apply (inv_owner _ Hi _ _ _ Hl) in Hc' as (x' & Hx' & Hin' & Hp).
    assert (c = c') as <- by (apply (inv_one _ Hi c c' x x' lk); auto using held_owns). by simplify_eq. }
  apply (inv_change w c x _ lk l _ Hi Hx Hl).
  - destruct H as [H1 H2 H3 H4 H5 H6]. rewrite Ho in *. split; unfold owns; cbn; try done.
    + by apply NoDup_filter.
    + intros k [_ ?]%list_elem_of_filter. auto.
    + intros _. rewrite H3, Hat by (by apply (not_stopped x (RelXchg lk))). cbn.
      pose proof (length_filter_out _ _ H1 Hin). lia.
    + naive_solver.
  - intros k Hk. rewrite Ho. unfold owns. cbn. rewrite list_elem_of_filter. tauto.
  - intros k Hk. unfold marked. cbn. rewrite list_elem_of_filter, Hat. naive_solver.
  - left. by rewrite Ho.
  - right. split; [done|]. unfold owns. cbn. rewrite list_elem_of_filter. tauto.
  - right. split; [done|]. unfold marked. cbn. rewrite list_elem_of_filter. tauto.
Qed.

Lemma inv_micro c w w' :
  inv w -> Z.of_nat (length w.(locks)) < 2 ^ 31 - 2 -> micro c w = Some w' -> inv w'.
Proof.
  intros Hi Hn. unfold micro. destruct (w.(cpus) !! c) as [x|] eqn:Hx; [|done].
  pose proof (inv_cpu _ Hi _ _ Hx) as H.
  destruct x.(at_) as [|lk|lk|lk|lk|lk|lk|lk|lk| | |msg] eqn:Hat; try done;
    try (destruct (w.(locks) !! lk) as [l|] eqn:Hl; [|done]); intros [= <-].
  - apply inv_move; rewrite ?Hat; try done; try (intros; case_match; naive_solver).
    + by apply (not_stopped x (AcqTest lk)).
    + intros k E. destruct (Z.eqb_spec l.(locked) 0); simplify_eq.
      intros Hin%held_owns. by apply (unlocked_not_held w c x k l).
  - apply inv_move; rewrite ?Hat; try done; try (intros; case_decide; naive_solver).
    + by apply (not_stopped x (AcqOwner lk)).
    + case_decide; [right; by eexists|by left].
    + intros k E. case_decide as Ed; simplify_eq. by rewrite (owner_is_held w c x k l) in Ed by (rewrite ?Hat; done).
  - by apply inv_spin.
  - by apply inv_record.
  - apply inv_move; rewrite ?Hat; try done; try (intros; case_match; naive_solver).
    by apply (not_stopped x (RelTest lk)).
  - apply inv_move; rewrite ?Hat; try done; try (intros; case_decide; naive_solver).
    + by apply (not_stopped x (RelOwner lk)).
    + intros k E. case_decide as Ed; simplify_eq. by rewrite (owner_is_held w c x k l) in Ed by (rewrite ?Hat; done).
  - by apply inv_clear.
  - by apply inv_unlock.
  - destruct (popcli_ok _ x H Hn (or_introl Hat)) as (Hok & Hr & Hh).
    apply (inv_local w c x _ Hi Hx Hok); [unfold owns; by rewrite Hr, Hat|].
    intros k. unfold marked. rewrite Hr, Hat, Hh. naive_solver.
  - destruct (popcli_ok _ x H Hn (or_intror Hat)) as (Hok & Hr & Hh).
    apply (inv_local w c x _ Hi Hx Hok); [unfold owns; by rewrite Hr, Hat|].
    intros k. unfold marked. rewrite Hr, Hat, Hh. naive_solver.
Qed.

(** ** Reachable states *)

Lemma step_locks w w' : step w w' -> length w'.(locks) = length w.(locks).
Proof.
  intros [c w1 w2 H|c w1 x y Hx Hr|w1 m]; [|done|done]. unfold micro in H. repeat case_match; simplify_eq; cbn;
    rewrite ?length_insert; done.
Qed.

Lemma inv_step w w' : inv w -> Z.of_nat (length w.(locks)) < 2 ^ 31 - 2 -> step w w' -> inv w'.
Proof.
  intros Hi Hn Hs. destruct Hs as [c w w' H|c w x y Hx Hr|w m]; [by eapply inv_micro|by eapply inv_run|].
  destruct Hi as [H1 H2 H3 H4]. by split.
Qed.

Lemma inv_boot names n m : inv (boot_world names n m).
Proof.
  assert (forall c x, replicate n fresh_cpu !! c = Some x -> x = fresh_cpu) as Hc.
  { intros c x [-> _]%lookup_replicate. done. }
  split; cbn.
  - intros c x ->%Hc. split; try done; try (intros; by naive_solver).
    + apply NoDup_nil_2.
    + intros lk Hin. by apply elem_of_nil in Hin.
  - intros c c' x x' lk ->%Hc ->%Hc Hin. by apply elem_of_nil in Hin.
  - intros lk l Hl. apply list_lookup_fmap_Some in Hl as (s & -> & Hs). right. split; [done|].
    intros c x ->%Hc. apply not_elem_of_nil.
  - intros lk l c Hl. apply list_lookup_fmap_Some in Hl as (s & -> & Hs). split; [done|].
    intros (x & ->%Hc & Hin & _). by apply elem_of_nil in Hin.
Qed.

Lemma reachable_inv names n m w :
  Z.of_nat (length names) < 2 ^ 31 - 2 -> reachable names n m w -> inv w /\ length w.(locks) = length names.
Proof.
  intros Hn. induction 1 as [|w w' Hr [IH Hl] Hs]; [split; [apply inv_boot|apply length_fmap]|].
  split; [|by rewrite (step_locks _ _ Hs)]. apply (inv_step w); [done|by rewrite Hl|done].
Qed.

(** ** The atomic locks the code implements *)

(** The CPU that has the lock. *)
Definition holder (w : world) (lk : nat) : option nat := fst <$> list_find (fun x => lk ∈ owns x) w.(cpus).

Lemma holder_spec w lk c : inv w -> holder w lk = Some c <-> exists x, w.(cpus) !! c = Some x /\ lk ∈ owns x.
Proof.
  intros Hi. unfold holder. split.
  - intros ([i x] & (Hx & Hin & _)%list_find_Some & ->)%fmap_Some. by exists x.
  - intros (x & Hx & Hin). destruct (list_find _ _) as [[i y]|] eqn:E.
    + apply list_find_Some in E as (Hy & Hin' & _). cbn. f_equal. by apply (inv_one _ Hi i c y x lk).
    + apply list_find_None in E. rewrite Forall_lookup in E. by destruct (E c x Hx).
Qed.

(** A lock is free or has one holder; a CPU takes a free lock, a holder frees
    its lock. *)
Inductive atomic (f g : nat -> option nat) : Prop :=
| atomic_none : (forall k, g k = f k) -> atomic f g
| atomic_acquire c lk : f lk = None -> g lk = Some c -> (forall k, k <> lk -> g k = f k) -> atomic f g
| atomic_release c lk : f lk = Some c -> g lk = None -> (forall k, k <> lk -> g k = f k) -> atomic f g.

(** CPU [c] moves: the holder of a lock whose ownership by [c] is as before stays. *)
Lemma holder_kept w w' c x y k :
  inv w -> inv w' -> w.(cpus) !! c = Some x -> w'.(cpus) = <[c := y]> w.(cpus) ->
  (k ∈ owns y <-> k ∈ owns x) -> holder w' k = holder w k.
Proof.
  intros Hi Hi' Hx Hw Ho. apply option_eq. intros c'. rewrite !holder_spec, Hw by done.
  destruct (decide (c' = c)) as [->|Hne].
  - rewrite list_lookup_insert_eq by (by eapply lookup_lt_Some). rewrite Hx. naive_solver.
  - by rewrite list_lookup_insert_ne.
Qed.

Lemma holder_none w k l : inv w -> w.(locks) !! k = Some l -> l.(locked) = 0 -> holder w k = None.
Proof.
  intros Hi Hl E. apply eq_None_not_Some. intros [c (x & Hx & Hin)%holder_spec]; [|done].
  by apply (unlocked_not_held w c x k l).
Qed.

Lemma micro_atomic c w w' :
  inv w -> Z.of_nat (length w.(locks)) < 2 ^ 31 - 2 -> micro c w = Some w' -> atomic (holder w) (holder w').
Proof.
  intros Hi Hn E. pose proof (inv_micro c w w' Hi Hn E) as Hi'. revert E.
  unfold micro. destruct (w.(cpus) !! c) as [x|] eqn:Hx; [|done]. pose proof (inv_cpu _ Hi _ _ Hx) as H.
  assert (forall y, w'.(cpus) = <[c := y]> w.(cpus) -> owns y = owns x -> atomic (holder w) (holder w')) as Hstay.
  { intros y Hy Ho. apply atomic_none. intros k. apply (holder_kept w w' c x y); auto. by rewrite Ho. }
  destruct x.(at_) as [|lk|lk|lk|lk|lk|lk|lk|lk| | |msg] eqn:Hat; try done;
    try (destruct (w.(locks) !! lk) as [l|] eqn:Hl; [|done]); intros [= Hw]; subst w';
    try (eapply Hstay; [reflexivity|]; apply owns_go; [by rewrite Hat|first [done|by case_match|by case_decide]]).
  - destruct (Z.eqb_spec l.(locked) 0) as [E0|E0]; [|by eapply Hstay].
    assert (owns (go (AcqRecord lk) x) = lk :: owns x) as Ho by (unfold owns; cbn; by rewrite Hat).
    apply (atomic_acquire _ _ c lk).
    + by eapply holder_none.
    + apply holder_spec; [done|]. exists (go (AcqRecord lk) x). cbn [cpus].
      rewrite list_lookup_insert_eq by (by eapply lookup_lt_Some). split; [done|]. rewrite Ho. by left.
    + intros k Hk. eapply (holder_kept w _ c x _); [done|done|done|reflexivity|]. rewrite Ho, elem_of_cons. naive_solver.
  - eapply Hstay; [reflexivity|]. unfold owns. cbn. by rewrite Hat.
  - assert (owns x = x.(held)) as Ho by (unfold owns; by rewrite Hat).
    pose proof (ok_rel _ _ H _ (or_intror Hat)) as Hin.
    apply (atomic_release _ _ c lk).
    + apply holder_spec; [done|]. exists x. by rewrite Ho.
    + eapply holder_none; [done|cbn; apply list_lookup_insert_eq; by eapply lookup_lt_Some|done].
    + intros k Hk. eapply (holder_kept w _ c x _); [done|done|done|reflexivity|]. rewrite Ho. unfold owns. cbn.
      rewrite list_elem_of_filter. tauto.
  - destruct (popcli_ok _ x H Hn (or_introl Hat)) as (_ & Hr & Hh). eapply Hstay; [reflexivity|].
    unfold owns. by rewrite Hr, Hat, Hh.
  - destruct (popcli_ok _ x H Hn (or_intror Hat)) as (_ & Hr & Hh). eapply Hstay; [reflexivity|].
    unfold owns. by rewrite Hr, Hat, Hh.
Qed.

Lemma pushcli_iter n x :
  0 <= x.(ncli) -> x.(ncli) + Z.of_nat n < 2 ^ 31 ->
  Nat.iter n pushcli x =
    mk_cpu (if decide (n = 0%nat) then x.(FL_IF) else false) (x.(ncli) + Z.of_nat n)
      (if decide (n = 0%nat) then x.(intena) else if x.(ncli) =? 0 then x.(FL_IF) else x.(intena))
      x.(at_) x.(held) x.(ebp).
Proof.
  intros H0. induction n as [|n IH]; intros Hn.
  - cbn. rewrite Z.add_0_r. by destruct x.
  - cbn [Nat.iter nat_rect]. unfold Nat.iter in IH. rewrite IH by lia. unfold pushcli. cbn [ncli FL_IF intena at_ held ebp].
    rewrite s32_small by lia. destruct n as [|n]; cbn.
    + rewrite Z.add_0_r. by destruct (ncli x =? 0).
    + rewrite (proj2 (Z.eqb_neq (ncli x + _) 0)) by lia. f_equal. lia.
Qed.

Lemma popcli_iter k x :
  x.(at_) = Run -> x.(FL_IF) = false -> Z.of_nat k < x.(ncli) < 2 ^ 31 ->
  Nat.iter k popcli x = mk_cpu false (x.(ncli) - Z.of_nat k) x.(intena) Run x.(held) x.(ebp).
Proof.
  intros Hr Hf. induction k as [|k IH]; intros Hk.
  - cbn. rewrite Z.sub_0_r. by destruct x; simpl in *; subst.
  - cbn [Nat.iter nat_rect]. unfold Nat.iter in IH. rewrite IH by lia. unfold popcli. cbn [ncli FL_IF intena at_ held ebp].
    rewrite s32_small by lia. rewrite (proj2 (Z.ltb_ge _ 0)) by lia. rewrite (proj2 (Z.eqb_neq (ncli x - Z.of_nat k - 1) 0)) by lia. replace (ncli x - Z.of_nat k - 1) with (ncli x - Z.of_nat (S k)) by lia. done.
Qed.

(** CPU 0 of two takes the only lock. *)
Fixpoint micros (cs : list nat) (w : world) : option world :=
  match cs with
  | [] => Some w
  | c :: cs' => match micro c w with Some w' => micros cs' w' | None => None end
  end.

Lemma reachable_micros names n m cs w w' : reachable names n m w -> micros cs w = Some w' -> reachable names n m w'.
Proof.
  revert w. induction cs as [|c cs IH]; intros w Hr E; [by injection E as [= <-]|]. cbn in E.
  destruct (micro c w) as [w1|] eqn:Ec; [|done]. apply (IH w1); [|done]. eapply reach_step; [done|by eapply step_micro].
Qed.

Definition sample_call (w : world) : world :=
  match w.(cpus) !! 0%nat with
  | Some x => mk_world w.(locks) (<[0%nat := call_acquire 0 (set_ebp 0 x)]> w.(cpus)) w.(wmem)
  | None => w
  end.
Definition sample_boot : world := boot_world ["kmem"] 2 ∅.
Definition sample_held : world := default sample_boot (micros [0; 0; 0]%nat (sample_call sample_boot)).

Lemma sample_call_reachable w x :
  reachable ["kmem"] 2 ∅ w -> w.(cpus) !! 0%nat = Some x -> x.(at_) = Run -> reachable ["kmem"] 2 ∅ (sample_call w).
Proof.
  intros Hr Hx Hat. eapply reach_step; [exact Hr|]. unfold sample_call.
  rewrite Hx. apply (step_run 0 w x); [done|]. by apply run_acquire.
Qed.

Lemma sample_held_reachable : reachable ["kmem"] 2 ∅ sample_held.
Proof.
  eapply (reachable_micros _ _ _ [0; 0; 0]%nat (sample_call sample_boot)); [|vm_compute; reflexivity].
  eapply sample_call_reachable; [apply reach_boot|reflexivity|reflexivity].
Qed.

(** ** Properties *)

(** C4: Mutual exclusion: whatever the interleaving of the CPUs, two CPUs never
    hold the same lock, its word is 1 and its field [cpu] names the holder
    while it is held and not being released, and a running CPU that holds a
    lock has interrupts off. *)
Theorem spinlock_mutual_exclusion (names : list string) (n : nat) (m : mem) (w : world) (c : nat) (x : cpu) (lk : nat) (l : spinlock) :
  Z.of_nat (length names) < 2 ^ 31 - 2 -> reachable names n m w ->
  w.(cpus) !! c = Some x -> lk ∈ x.(held) -> w.(locks) !! lk = Some l ->
  (forall c' x', w.(cpus) !! c' = Some x' -> lk ∈ x'.(held) -> c' = c) /\
  l.(locked) = 1 /\ (x.(at_) = Run -> l.(owner) = Some c /\ x.(FL_IF) = false).
Proof.
  intros Hn Hr Hx Hin Hl. destruct (reachable_inv _ _ _ _ Hn Hr) as [Hi _]. split; [|split].
  - intros c' x' Hx' Hin'. apply (inv_one _ Hi c' c x' x lk); auto using held_owns.
  - apply (owned_locked w c x lk l); auto using held_owns.
  - intros Hrun. split.
    + apply (owner_is_held w c x lk l); auto. by rewrite Hrun.
    + pose proof (inv_cpu _ Hi _ _ Hx) as H. apply (ok_IF _ _ H).
      rewrite (ok_ncli _ _ H) by (by apply (not_stopped x Run)). rewrite Hrun. cbn.
      destruct x.(held); [by apply elem_of_nil in Hin|cbn; lia].
Qed.

Lemma spinlock_mutual_exclusion_witness :
  exists x, sample_held.(cpus) !! 0%nat = Some x /\ x.(FL_IF) = false /\
    (forall c' x', sample_held.(cpus) !! c' = Some x' -> 0%nat ∈ x'.(held) -> c' = 0%nat).
Proof.
  assert (exists x l, sample_held.(cpus) !! 0%nat = Some x /\ sample_held.(locks) !! 0%nat = Some l /\
    x.(held) = [0%nat] /\ x.(at_) = Run) as (x & l & Hx & Hl & Hh & Hr) by (vm_compute; eauto 10).
  destruct (spinlock_mutual_exclusion ["kmem"] 2 ∅ sample_held 0 x 0 l) as (H1 & _ & H2);
    [reflexivity|exact sample_held_reachable|exact Hx|rewrite Hh; by left|exact Hl|].
  exists x. split; [exact Hx|]. split; [apply H2, Hr|exact H1].
Defined.

(** C13: The interleaved [acquire] and [release] implement atomic locks: on every
    step of every CPU the map from locks to their holders is unchanged, or one
    free lock gets a holder, or one holder gives its lock up. *)
Theorem spinlock_refines_atomic (names : list string) (n : nat) (m : mem) (w w' : world) :
  Z.of_nat (length names) < 2 ^ 31 - 2 -> reachable names n m w -> step w w' -> atomic (holder w) (holder w').
Proof.
  intros Hn Hr Hs. destruct (reachable_inv _ _ _ _ Hn Hr) as [Hi Hlen]. rewrite <- Hlen in Hn.
  pose proof (inv_step w w' Hi Hn Hs) as Hi'. destruct Hs as [c w w' H|c w x y Hx Hrun|w m'].
  - by eapply micro_atomic.
  - apply atomic_none. intros k. eapply (holder_kept w _ c x y); [done|done|done|reflexivity|].
    assert (x.(at_) = Run) as Hat by (by destruct Hrun). unfold owns. rewrite Hat. by destruct Hrun; cbn; rewrite ?Hat.
  - by apply atomic_none.
Qed.

Lemma spinlock_refines_atomic_witness : atomic (holder sample_boot) (holder (sample_call sample_boot)).
Proof.
  apply (spinlock_refines_atomic ["kmem"] 2 ∅); [reflexivity|apply reach_boot|].
  apply (step_run 0 sample_boot fresh_cpu); [reflexivity|]. by apply run_acquire.
Defined.

(** The panics of the lock code are exact: [acquire] panics when and only
    when the CPU already holds the lock, [release] when and only when it does
    not hold it, and [popcli] never does in either of them. *)
Theorem spinlock_panics (names : list string) (n : nat) (m : mem) (w w' : world) (c : nat) (x y : cpu) :
  Z.of_nat (length names) < 2 ^ 31 - 2 -> reachable names n m w ->
  w.(cpus) !! c = Some x -> micro c w = Some w' -> w'.(cpus) !! c = Some y ->
  match x.(at_) with
  | AcqTest lk => lk ∈ x.(held) -> y.(at_) = AcqOwner lk
  | AcqOwner lk => y.(at_) = if decide (lk ∈ x.(held)) then Stopped "acquire" else AcqSpin lk
  | RelTest lk => lk ∈ x.(held) -> y.(at_) = RelOwner lk
  | RelOwner lk => y.(at_) = if decide (lk ∈ x.(held)) then RelClear lk else Stopped "release"
  | _ => ~ stopped y
  end.
Proof.
  intros Hn Hr Hx Hm Hy. destruct (reachable_inv _ _ _ _ Hn Hr) as [Hi Hlen]. rewrite <- Hlen in Hn.
  pose proof (inv_cpu _ Hi _ _ Hx) as H. assert (c < length w.(cpus))%nat as Hlt by (by eapply lookup_lt_Some).
  revert Hm. unfold micro. rewrite Hx.
  destruct x.(at_) as [|lk|lk|lk|lk|lk|lk|lk|lk| | |msg] eqn:Hat; try done;
    try (destruct (w.(locks) !! lk) as [l|] eqn:Hl; [|done]); intros [= Hw]; subst w'; cbn in Hy;
    rewrite list_lookup_insert_eq in Hy by done; injection Hy as [= <-]; try (intros [? ?]; done).
  - intros Hin. cbn. rewrite (owned_locked w c x lk l) by auto using held_owns. done.
  - cbn. apply decide_ext, (owner_is_held w c x lk l); auto. by rewrite Hat.
  - intros [msg E]. destruct (_ =? _); [done|]. congruence.
  - intros Hin. cbn. rewrite (owned_locked w c x lk l) by auto using held_owns. done.
  - cbn. apply decide_ext, (owner_is_held w c x lk l); auto. by rewrite Hat.
  - destruct (popcli_ok _ x H Hn (or_introl Hat)) as (_ & E & _). intros [? ?]. congruence.
  - destruct (popcli_ok _ x H Hn (or_intror Hat)) as (_ & E & _). intros [? ?]. congruence.
Qed.

(** A second [acquire] of the same lock. *)
Definition sample_twice : world := default sample_boot (micros [0]%nat (sample_call sample_held)).

Lemma sample_twice_reachable : reachable ["kmem"] 2 ∅ sample_twice.
Proof.
  eapply (reachable_micros _ _ _ [0]%nat (sample_call sample_held)); [|vm_compute; reflexivity].
  eapply sample_call_reachable; [exact sample_held_reachable|reflexivity|reflexivity].
Qed.

Lemma spinlock_panics_witness :
  exists w y, micro 0 sample_twice = Some w /\ w.(cpus) !! 0%nat = Some y /\ y.(at_) = Stopped "acquire".
Proof.
  assert (exists x w y, sample_twice.(cpus) !! 0%nat = Some x /\ x.(at_) = AcqOwner 0 /\ x.(held) = [0%nat] /\
    micro 0 sample_twice = Some w /\ w.(cpus) !! 0%nat = Some y) as (x & w & y & Hx & Ha & Hh & Hm & Hy).
  { eexists _, _, _. split; [vm_compute; reflexivity|]. split; [reflexivity|]. split; [reflexivity|].
    split; [vm_compute; reflexivity|]. reflexivity. }
  exists w, y. split; [exact Hm|]. split; [exact Hy|].
  pose proof (spinlock_panics ["kmem"] 2 ∅ sample_twice w 0 x y ltac:(reflexivity) sample_twice_reachable Hx Hm Hy) as H.
  rewrite Ha, Hh in H. exact H.
Defined.

(** [pushcli] and [popcli] are matched: after [n] of the one, fewer than [n]
    of the other leave interrupts off, and [n] restore the interrupt flag and
    the count. *)
Theorem pushcli_popcli_matched (x : cpu) (n k : nat) :
  x.(at_) = Run -> 0 <= x.(ncli) -> x.(ncli) + Z.of_nat n < 2 ^ 31 -> (0 < x.(ncli) -> x.(FL_IF) = false) ->
  ((k < n)%nat -> (Nat.iter k popcli (Nat.iter n pushcli x)).(FL_IF) = false) /\
  let y := Nat.iter n popcli (Nat.iter n pushcli x) in
  y.(FL_IF) = x.(FL_IF) /\ y.(ncli) = x.(ncli) /\ y.(at_) = Run /\ y.(held) = x.(held).
Proof.
  intros Hr H0 Hn Hif. rewrite pushcli_iter by lia. destruct n as [|n]; [split; [lia|]; cbn; rewrite Z.add_0_r; done|].
  cbn [decide decide_rel]. rewrite !decide_False by lia. split.
  - intros Hk. rewrite popcli_iter; cbn -[Z.of_nat]; [done|done|done|lia].
  - change (Nat.iter (S n) popcli ?z) with (popcli (Nat.iter n popcli z)). rewrite popcli_iter; [|done|done|cbn -[Z.of_nat]; lia].
    unfold popcli. cbn -[Z.of_nat Z.sub]. rewrite s32_small by lia. rewrite (proj2 (Z.ltb_ge _ _)) by lia.
    destruct (Z.eqb_spec x.(ncli) 0) as [E|E].
    + rewrite (proj2 (Z.eqb_eq _ 0)) by lia. cbn -[Z.of_nat Z.sub]. destruct x.(FL_IF); cbn -[Z.of_nat Z.sub]; split_and!; try done; lia.
    + rewrite (proj2 (Z.eqb_neq _ 0)) by lia. cbn -[Z.of_nat Z.sub]. rewrite Hif by lia. split_and!; try done. lia.
Qed.

Lemma pushcli_popcli_matched_witness :
  let x := mk_cpu true 0 false Run [] 0 in (Nat.iter 2 popcli (Nat.iter 2 pushcli x)).(FL_IF) = true.
Proof.
  intros x. destruct (pushcli_popcli_matched x 2 1) as [_ (H & _)]; [reflexivity|cbn; lia|cbn; lia|cbn; lia|exact H].
Defined.

End Spin.
