(* ===== verification/State.v ===== *)
(** The kernel's data: constants, structs, global variables.

    Every struct of the headers is a record with the same fields, every table
    a list indexed by the position of the element, every pointer to a table
    element an [option nat] ([None] is the null pointer).  The global variables
    of all kernel files form one record [kstate]; a kernel routine is a
    function of type [K A].  Setters [set_f] update one field. *)

From S2P Require Import Prelude.

Set Primitive Projections.

(** ** Constants (param.h, fs.h, mmu.h, buf.h, file.h, stat.h, traps.h) *)
Definition NPROC : nat := 64.
Definition NOFILE : nat := 16.
Definition NFILE : nat := 100.
Definition NBUF : nat := 100.
Definition NINODE : nat := 50.
Definition NDEV : Z := 10.
Definition ROOTDEV : Z := 1.
Definition KSTACKSIZE : Z := 4096.
Definition PHYSTOP : Z := 16777216.
Definition QUANTA : Z := 5.
Definition PGSIZE : Z := 4096.

Definition ROOTINO : Z := 1.
Definition BSIZE : Z := 512.
Definition NDIRECT : Z := 12.
Definition NINDIRECT : Z := BSIZE / 4.
Definition MAXFILE : Z := NDIRECT + NINDIRECT.
Definition DIRSIZ : Z := 14.
Definition BPB : Z := BSIZE * 8.
Definition IPB : Z := BSIZE / 64.
Definition IBLOCK (i : Z) : Z := i / IPB + 2.
Definition BBLOCK (b ninodes : Z) : Z := b / BPB + ninodes / IPB + 3.

Definition B_BUSY : Z := 1.
Definition B_VALID : Z := 2.
Definition B_DIRTY : Z := 4.
Definition I_BUSY : Z := 1.
Definition I_VALID : Z := 2.

Definition T_DIR : Z := 1.
Definition T_FILE : Z := 2.
Definition T_DEV : Z := 3.

(** ** Enumerations *)

Inductive procstate := UNUSED | EMBRYO | SLEEPING | RUNNABLE | RUNNING | ZOMBIE.

Inductive ftype := FD_NONE | FD_PIPE | FD_INODE.

(** The spin locks of the kernel; a pipe's lock is named by its page. *)
Inductive lockid :=
| LkPtable | LkTicks | LkKmem | LkFtable | LkIcache | LkBcache | LkIde
| LkCons | LkInput
| LkPipe (pa : Z).

(** Sleep channels: addresses of kernel objects, named by the object. *)
Inductive chan :=
| ChProc (i : nat) | ChBuf (b : nat) | ChInode (i : nat)
| ChNread (pa : Z) | ChNwrite (pa : Z) | ChTicks | ChInput.

#[export] Instance procstate_eq_dec : EqDecision procstate.
Proof. solve_decision. Defined.
#[export] Instance ftype_eq_dec : EqDecision ftype.
Proof. solve_decision. Defined.
#[export] Instance lockid_eq_dec : EqDecision lockid.
Proof. solve_decision. Defined.
#[export] Instance chan_eq_dec : EqDecision chan.
Proof. solve_decision. Defined.

(** ** Structs *)

(** [struct trapframe] of x86.h, without its padding. *)
Record trapframe := mk_trapframe {
  tf_edi : Z;
  tf_esi : Z;
  tf_ebp : Z;
  tf_oesp : Z;
  tf_ebx : Z;
  tf_edx : Z;
  tf_ecx : Z;
  tf_eax : Z;
  tf_gs : Z;
  tf_fs : Z;
  tf_es : Z;
  tf_ds : Z;
  tf_trapno : Z;
  tf_err : Z;
  tf_eip : Z;
  tf_cs : Z;
  tf_eflags : Z;
  tf_esp : Z;
  tf_ss : Z
}.

(** [struct proc] of proc.h.  [p_tf] is the trap frame [tf] points to and
    [p_eip] the saved instruction pointer [context->eip]; both lie in the
    process's own kernel stack page. *)
Record proc := mk_proc {
  p_sz : Z;
  p_pgdir : Z;
  p_kstack : Z;
  p_state : procstate;
  p_pid : Z;
  p_parent : option nat;
  p_tf : trapframe;
  p_eip : Z;
  p_chan : option chan;
  p_killed : Z;
  p_ofile : list (option nat);
  p_cwd : option nat;
  p_name : list Z;
  p_ctime : Z;
  p_etime : Z;
  p_rtime : Z;
  p_priority : Z
}.

(** [struct file] of file.h. *)
Record file := mk_file {
  f_type : ftype;
  f_ref : Z;
  f_readable : bool;
  f_writable : bool;
  f_pipe : Z;
  f_ip : option nat;
  f_off : Z
}.

(** [struct inode] of file.h. *)
Record inode := mk_inode {
  i_dev : Z;
  i_inum : Z;
  i_ref : Z;
  i_flags : Z;
  i_type : Z;
  i_major : Z;
  i_minor : Z;
  i_nlink : Z;
  i_size : Z;
  i_addrs : list Z
}.

(** [struct buf] of buf.h.  Buffers are numbered by their place in
    [bcache.buf]; number [NBUF] is the list head [bcache.head]. *)
Record buf := mk_buf {
  b_flags : Z;
  b_dev : Z;
  b_sector : Z;
  b_prev : nat;
  b_next : nat;
  b_qnext : option nat;
  b_data : list Z
}.

(** [struct pipe] of pipe.c. *)
Record pipe := mk_pipe {
  pi_data : list Z;
  pi_nread : Z;
  pi_nwrite : Z;
  pi_readopen : Z;
  pi_writeopen : Z
}.

(** The console: [input] ([c_buf], [c_r], [c_w], [c_e]), the command history
    ([prevCmds], [indexToDim1], [indexToDim2], [currInd1], [hasInserted]),
    [cons.locking] and [panicked] of console.c, the words of CGA memory and
    the cursor register, [uart] of uart.c and the bytes sent to the serial
    port so far, and the static [shift] of kbd.c. *)
Record console := mk_console {
  c_buf : list Z;
  c_r : Z;
  c_w : Z;
  c_e : Z;
  c_prev : list (list Z);
  c_dim1 : Z;
  c_dim2 : Z;
  c_curr : Z;
  c_inserted : Z;
  c_locking : bool;
  c_panicked : bool;
  c_crt : list Z;
  c_pos : Z;
  c_uart : bool;
  c_serial : list Z;
  c_shift : Z
}.

(** The kernel's memory, as seen from the CPU that runs.  [held] lists the
    spin locks this CPU holds, so its length is [cpu->ncli]; [curproc] is the
    per-CPU variable [proc]; [clockticks] is the static counter of trap.c;
    [pmem] is physical memory, byte by byte; pipes are kept as typed structs,
    by the address of the page they live in.
    [disk] and [idecmd] are the drive: the contents of its sectors by drive and
    block address, and the location of the last read command. *)
Record kstate := mk_kstate {
  held : list lockid;
  cpuid : Z;
  curproc : option nat;
  ptable : list proc;
  initproc : option nat;
  nextpid : Z;
  ticks : Z;
  clockticks : Z;
  freelist : Z;
  pmem : gmap Z Z;
  kpgdir : Z;
  cr3 : Z;
  ftable : list file;
  pipes : gmap Z pipe;
  icache : list inode;
  bufs : list buf;
  idequeue : option nat;
  havedisk1 : bool;
  idecmd : option (Z * Z);
  disk : gmap (Z * Z) (list Z);
  con : console
}.

(** ** Field updates *)

Definition set_tf_edi (v : Z) (r : trapframe) : trapframe :=
  mk_trapframe v r.(tf_esi) r.(tf_ebp) r.(tf_oesp) r.(tf_ebx) r.(tf_edx) r.(tf_ecx) r.(tf_eax) r.(tf_gs) r.(tf_fs) r.(tf_es) r.(tf_ds) r.(tf_trapno) r.(tf_err) r.(tf_eip) r.(tf_cs) r.(tf_eflags) r.(tf_esp) r.(tf_ss).
Definition set_tf_esi (v : Z) (r : trapframe) : trapframe :=
  mk_trapframe r.(tf_edi) v r.(tf_ebp) r.(tf_oesp) r.(tf_ebx) r.(tf_edx) r.(tf_ecx) r.(tf_eax) r.(tf_gs) r.(tf_fs) r.(tf_es) r.(tf_ds) r.(tf_trapno) r.(tf_err) r.(tf_eip) r.(tf_cs) r.(tf_eflags) r.(tf_esp) r.(tf_ss).
Definition set_tf_ebp (v : Z) (r : trapframe) : trapframe :=
  mk_trapframe r.(tf_edi) r.(tf_esi) v r.(tf_oesp) r.(tf_ebx) r.(tf_edx) r.(tf_ecx) r.(tf_eax) r.(tf_gs) r.(tf_fs) r.(tf_es) r.(tf_ds) r.(tf_trapno) r.(tf_err) r.(tf_eip) r.(tf_cs) r.(tf_eflags) r.(tf_esp) r.(tf_ss).
Definition set_tf_oesp (v : Z) (r : trapframe) : trapframe :=
  mk_trapframe r.(tf_edi) r.(tf_esi) r.(tf_ebp) v r.(tf_ebx) r.(tf_edx) r.(tf_ecx) r.(tf_eax) r.(tf_gs) r.(tf_fs) r.(tf_es) r.(tf_ds) r.(tf_trapno) r.(tf_err) r.(tf_eip) r.(tf_cs) r.(tf_eflags) r.(tf_esp) r.(tf_ss).
Definition set_tf_ebx (v : Z) (r : trapframe) : trapframe :=
  mk_trapframe r.(tf_edi) r.(tf_esi) r.(tf_ebp) r.(tf_oesp) v r.(tf_edx) r.(tf_ecx) r.(tf_eax) r.(tf_gs) r.(tf_fs) r.(tf_es) r.(tf_ds) r.(tf_trapno) r.(tf_err) r.(tf_eip) r.(tf_cs) r.(tf_eflags) r.(tf_esp) r.(tf_ss).
Definition set_tf_edx (v : Z) (r : trapframe) : trapframe :=
  mk_trapframe r.(tf_edi) r.(tf_esi) r.(tf_ebp) r.(tf_oesp) r.(tf_ebx) v r.(tf_ecx) r.(tf_eax) r.(tf_gs) r.(tf_fs) r.(tf_es) r.(tf_ds) r.(tf_trapno) r.(tf_err) r.(tf_eip) r.(tf_cs) r.(tf_eflags) r.(tf_esp) r.(tf_ss).
Definition set_tf_ecx (v : Z) (r : trapframe) : trapframe :=
  mk_trapframe r.(tf_edi) r.(tf_esi) r.(tf_ebp) r.(tf_oesp) r.(tf_ebx) r.(tf_edx) v r.(tf_eax) r.(tf_gs) r.(tf_fs) r.(tf_es) r.(tf_ds) r.(tf_trapno) r.(tf_err) r.(tf_eip) r.(tf_cs) r.(tf_eflags) r.(tf_esp) r.(tf_ss).
Definition set_tf_eax (v : Z) (r : trapframe) : trapframe :=
  mk_trapframe r.(tf_edi) r.(tf_esi) r.(tf_ebp) r.(tf_oesp) r.(tf_ebx) r.(tf_edx) r.(tf_ecx) v r.(tf_gs) r.(tf_fs) r.(tf_es) r.(tf_ds) r.(tf_trapno) r.(tf_err) r.(tf_eip) r.(tf_cs) r.(tf_eflags) r.(tf_esp) r.(tf_ss).
Definition set_tf_gs (v : Z) (r : trapframe) : trapframe :=
  mk_trapframe r.(tf_edi) r.(tf_esi) r.(tf_ebp) r.(tf_oesp) r.(tf_ebx) r.(tf_edx) r.(tf_ecx) r.(tf_eax) v r.(tf_fs) r.(tf_es) r.(tf_ds) r.(tf_trapno) r.(tf_err) r.(tf_eip) r.(tf_cs) r.(tf_eflags) r.(tf_esp) r.(tf_ss).
Definition set_tf_fs (v : Z) (r : trapframe) : trapframe :=
  mk_trapframe r.(tf_edi) r.(tf_esi) r.(tf_ebp) r.(tf_oesp) r.(tf_ebx) r.(tf_edx) r.(tf_ecx) r.(tf_eax) r.(tf_gs) v r.(tf_es) r.(tf_ds) r.(tf_trapno) r.(tf_err) r.(tf_eip) r.(tf_cs) r.(tf_eflags) r.(tf_esp) r.(tf_ss).
Definition set_tf_es (v : Z) (r : trapframe) : trapframe :=
  mk_trapframe r.(tf_edi) r.(tf_esi) r.(tf_ebp) r.(tf_oesp) r.(tf_ebx) r.(tf_edx) r.(tf_ecx) r.(tf_eax) r.(tf_gs) r.(tf_fs) v r.(tf_ds) r.(tf_trapno) r.(tf_err) r.(tf_eip) r.(tf_cs) r.(tf_eflags) r.(tf_esp) r.(tf_ss).
Definition set_tf_ds (v : Z) (r : trapframe) : trapframe :=
  mk_trapframe r.(tf_edi) r.(tf_esi) r.(tf_ebp) r.(tf_oesp) r.(tf_ebx) r.(tf_edx) r.(tf_ecx) r.(tf_eax) r.(tf_gs) r.(tf_fs) r.(tf_es) v r.(tf_trapno) r.(tf_err) r.(tf_eip) r.(tf_cs) r.(tf_eflags) r.(tf_esp) r.(tf_ss).
Definition set_tf_trapno (v : Z) (r : trapframe) : trapframe :=
  mk_trapframe r.(tf_edi) r.(tf_esi) r.(tf_ebp) r.(tf_oesp) r.(tf_ebx) r.(tf_edx) r.(tf_ecx) r.(tf_eax) r.(tf_gs) r.(tf_fs) r.(tf_es) r.(tf_ds) v r.(tf_err) r.(tf_eip) r.(tf_cs) r.(tf_eflags) r.(tf_esp) r.(tf_ss).
Definition set_tf_err (v : Z) (r : trapframe) : trapframe :=
  mk_trapframe r.(tf_edi) r.(tf_esi) r.(tf_ebp) r.(tf_oesp) r.(tf_ebx) r.(tf_edx) r.(tf_ecx) r.(tf_eax) r.(tf_gs) r.(tf_fs) r.(tf_es) r.(tf_ds) r.(tf_trapno) v r.(tf_eip) r.(tf_cs) r.(tf_eflags) r.(tf_esp) r.(tf_ss).
Definition set_tf_eip (v : Z) (r : trapframe) : trapframe :=
  mk_trapframe r.(tf_edi) r.(tf_esi) r.(tf_ebp) r.(tf_oesp) r.(tf_ebx) r.(tf_edx) r.(tf_ecx) r.(tf_eax) r.(tf_gs) r.(tf_fs) r.(tf_es) r.(tf_ds) r.(tf_trapno) r.(tf_err) v r.(tf_cs) r.(tf_eflags) r.(tf_esp) r.(tf_ss).
Definition set_tf_cs (v : Z) (r : trapframe) : trapframe :=
  mk_trapframe r.(tf_edi) r.(tf_esi) r.(tf_ebp) r.(tf_oesp) r.(tf_ebx) r.(tf_edx) r.(tf_ecx) r.(tf_eax) r.(tf_gs) r.(tf_fs) r.(tf_es) r.(tf_ds) r.(tf_trapno) r.(tf_err) r.(tf_eip) v r.(tf_eflags) r.(tf_esp) r.(tf_ss).
Definition set_tf_eflags (v : Z) (r : trapframe) : trapframe :=
  mk_trapframe r.(tf_edi) r.(tf_esi) r.(tf_ebp) r.(tf_oesp) r.(tf_ebx) r.(tf_edx) r.(tf_ecx) r.(tf_eax) r.(tf_gs) r.(tf_fs) r.(tf_es) r.(tf_ds) r.(tf_trapno) r.(tf_err) r.(tf_eip) r.(tf_cs) v r.(tf_esp) r.(tf_ss).
Definition set_tf_esp (v : Z) (r : trapframe) : trapframe :=
  mk_trapframe r.(tf_edi) r.(tf_esi) r.(tf_ebp) r.(tf_oesp) r.(tf_ebx) r.(tf_edx) r.(tf_ecx) r.(tf_eax) r.(tf_gs) r.(tf_fs) r.(tf_es) r.(tf_ds) r.(tf_trapno) r.(tf_err) r.(tf_eip) r.(tf_cs) r.(tf_eflags) v r.(tf_ss).
Definition set_tf_ss (v : Z) (r : trapframe) : trapframe :=
  mk_trapframe r.(tf_edi) r.(tf_esi) r.(tf_ebp) r.(tf_oesp) r.(tf_ebx) r.(tf_edx) r.(tf_ecx) r.(tf_eax) r.(tf_gs) r.(tf_fs) r.(tf_es) r.(tf_ds) r.(tf_trapno) r.(tf_err) r.(tf_eip) r.(tf_cs) r.(tf_eflags) r.(tf_esp) v.

Definition set_p_sz (v : Z) (r : proc) : proc :=
  mk_proc v r.(p_pgdir) r.(p_kstack) r.(p_state) r.(p_pid) r.(p_parent) r.(p_tf) r.(p_eip) r.(p_chan) r.(p_killed) r.(p_ofile) r.(p_cwd) r.(p_name) r.(p_ctime) r.(p_etime) r.(p_rtime) r.(p_priority).
Definition set_p_pgdir (v : Z) (r : proc) : proc :=
  mk_proc r.(p_sz) v r.(p_kstack) r.(p_state) r.(p_pid) r.(p_parent) r.(p_tf) r.(p_eip) r.(p_chan) r.(p_killed) r.(p_ofile) r.(p_cwd) r.(p_name) r.(p_ctime) r.(p_etime) r.(p_rtime) r.(p_priority).
Definition set_p_kstack (v : Z) (r : proc) : proc :=
  mk_proc r.(p_sz) r.(p_pgdir) v r.(p_state) r.(p_pid) r.(p_parent) r.(p_tf) r.(p_eip) r.(p_chan) r.(p_killed) r.(p_ofile) r.(p_cwd) r.(p_name) r.(p_ctime) r.(p_etime) r.(p_rtime) r.(p_priority).
Definition set_p_state (v : procstate) (r : proc) : proc :=
  mk_proc r.(p_sz) r.(p_pgdir) r.(p_kstack) v r.(p_pid) r.(p_parent) r.(p_tf) r.(p_eip) r.(p_chan) r.(p_killed) r.(p_ofile) r.(p_cwd) r.(p_name) r.(p_ctime) r.(p_etime) r.(p_rtime) r.(p_priority).
Definition set_p_pid (v : Z) (r : proc) : proc :=
  mk_proc r.(p_sz) r.(p_pgdir) r.(p_kstack) r.(p_state) v r.(p_parent) r.(p_tf) r.(p_eip) r.(p_chan) r.(p_killed) r.(p_ofile) r.(p_cwd) r.(p_name) r.(p_ctime) r.(p_etime) r.(p_rtime) r.(p_priority).
Definition set_p_parent (v : option nat) (r : proc) : proc :=
  mk_proc r.(p_sz) r.(p_pgdir) r.(p_kstack) r.(p_state) r.(p_pid) v r.(p_tf) r.(p_eip) r.(p_chan) r.(p_killed) r.(p_ofile) r.(p_cwd) r.(p_name) r.(p_ctime) r.(p_etime) r.(p_rtime) r.(p_priority).
Definition set_p_tf (v : trapframe) (r : proc) : proc :=
  mk_proc r.(p_sz) r.(p_pgdir) r.(p_kstack) r.(p_state) r.(p_pid) r.(p_parent) v r.(p_eip) r.(p_chan) r.(p_killed) r.(p_ofile) r.(p_cwd) r.(p_name) r.(p_ctime) r.(p_etime) r.(p_rtime) r.(p_priority).
Definition set_p_eip (v : Z) (r : proc) : proc :=
  mk_proc r.(p_sz) r.(p_pgdir) r.(p_kstack) r.(p_state) r.(p_pid) r.(p_parent) r.(p_tf) v r.(p_chan) r.(p_killed) r.(p_ofile) r.(p_cwd) r.(p_name) r.(p_ctime) r.(p_etime) r.(p_rtime) r.(p_priority).
Definition set_p_chan (v : option chan) (r : proc) : proc :=
  mk_proc r.(p_sz) r.(p_pgdir) r.(p_kstack) r.(p_state) r.(p_pid) r.(p_parent) r.(p_tf) r.(p_eip) v r.(p_killed) r.(p_ofile) r.(p_cwd) r.(p_name) r.(p_ctime) r.(p_etime) r.(p_rtime) r.(p_priority).
Definition set_p_killed (v : Z) (r : proc) : proc :=
  mk_proc r.(p_sz) r.(p_pgdir) r.(p_kstack) r.(p_state) r.(p_pid) r.(p_parent) r.(p_tf) r.(p_eip) r.(p_chan) v r.(p_ofile) r.(p_cwd) r.(p_name) r.(p_ctime) r.(p_etime) r.(p_rtime) r.(p_priority).
Definition set_p_ofile (v : list (option nat)) (r : proc) : proc :=
  mk_proc r.(p_sz) r.(p_pgdir) r.(p_kstack) r.(p_state) r.(p_pid) r.(p_parent) r.(p_tf) r.(p_eip) r.(p_chan) r.(p_killed) v r.(p_cwd) r.(p_name) r.(p_ctime) r.(p_etime) r.(p_rtime) r.(p_priority).
Definition set_p_cwd (v : option nat) (r : proc) : proc :=
  mk_proc r.(p_sz) r.(p_pgdir) r.(p_kstack) r.(p_state) r.(p_pid) r.(p_parent) r.(p_tf) r.(p_eip) r.(p_chan) r.(p_killed) r.(p_ofile) v r.(p_name) r.(p_ctime) r.(p_etime) r.(p_rtime) r.(p_priority).
Definition set_p_name (v : list Z) (r : proc) : proc :=
  mk_proc r.(p_sz) r.(p_pgdir) r.(p_kstack) r.(p_state) r.(p_pid) r.(p_parent) r.(p_tf) r.(p_eip) r.(p_chan) r.(p_killed) r.(p_ofile) r.(p_cwd) v r.(p_ctime) r.(p_etime) r.(p_rtime) r.(p_priority).
Definition set_p_ctime (v : Z) (r : proc) : proc :=
  mk_proc r.(p_sz) r.(p_pgdir) r.(p_kstack) r.(p_state) r.(p_pid) r.(p_parent) r.(p_tf) r.(p_eip) r.(p_chan) r.(p_killed) r.(p_ofile) r.(p_cwd) r.(p_name) v r.(p_etime) r.(p_rtime) r.(p_priority).
Definition set_p_etime (v : Z) (r : proc) : proc :=
  mk_proc r.(p_sz) r.(p_pgdir) r.(p_kstack) r.(p_state) r.(p_pid) r.(p_parent) r.(p_tf) r.(p_eip) r.(p_chan) r.(p_killed) r.(p_ofile) r.(p_cwd) r.(p_name) r.(p_ctime) v r.(p_rtime) r.(p_priority).
Definition set_p_rtime (v : Z) (r : proc) : proc :=
  mk_proc r.(p_sz) r.(p_pgdir) r.(p_kstack) r.(p_state) r.(p_pid) r.(p_parent) r.(p_tf) r.(p_eip) r.(p_chan) r.(p_killed) r.(p_ofile) r.(p_cwd) r.(p_name) r.(p_ctime) r.(p_etime) v r.(p_priority).
Definition set_p_priority (v : Z) (r : proc) : proc :=
  mk_proc r.(p_sz) r.(p_pgdir) r.(p_kstack) r.(p_state) r.(p_pid) r.(p_parent) r.(p_tf) r.(p_eip) r.(p_chan) r.(p_killed) r.(p_ofile) r.(p_cwd) r.(p_name) r.(p_ctime) r.(p_etime) r.(p_rtime) v.

Definition set_f_type (v : ftype) (r : file) : file :=
  mk_file v r.(f_ref) r.(f_readable) r.(f_writable) r.(f_pipe) r.(f_ip) r.(f_off).
Definition set_f_ref (v : Z) (r : file) : file :=
  mk_file r.(f_type) v r.(f_readable) r.(f_writable) r.(f_pipe) r.(f_ip) r.(f_off).
Definition set_f_readable (v : bool) (r : file) : file :=
  mk_file r.(f_type) r.(f_ref) v r.(f_writable) r.(f_pipe) r.(f_ip) r.(f_off).
Definition set_f_writable (v : bool) (r : file) : file :=
  mk_file r.(f_type) r.(f_ref) r.(f_readable) v r.(f_pipe) r.(f_ip) r.(f_off).
Definition set_f_pipe (v : Z) (r : file) : file :=
  mk_file r.(f_type) r.(f_ref) r.(f_readable) r.(f_writable) v r.(f_ip) r.(f_off).
Definition set_f_ip (v : option nat) (r : file) : file :=
  mk_file r.(f_type) r.(f_ref) r.(f_readable) r.(f_writable) r.(f_pipe) v r.(f_off).
Definition set_f_off (v : Z) (r : file) : file :=
  mk_file r.(f_type) r.(f_ref) r.(f_readable) r.(f_writable) r.(f_pipe) r.(f_ip) v.

Definition set_i_dev (v : Z) (r : inode) : inode :=
  mk_inode v r.(i_inum) r.(i_ref) r.(i_flags) r.(i_type) r.(i_major) r.(i_minor) r.(i_nlink) r.(i_size) r.(i_addrs).
Definition set_i_inum (v : Z) (r : inode) : inode :=
  mk_inode r.(i_dev) v r.(i_ref) r.(i_flags) r.(i_type) r.(i_major) r.(i_minor) r.(i_nlink) r.(i_size) r.(i_addrs).
Definition set_i_ref (v : Z) (r : inode) : inode :=
  mk_inode r.(i_dev) r.(i_inum) v r.(i_flags) r.(i_type) r.(i_major) r.(i_minor) r.(i_nlink) r.(i_size) r.(i_addrs).
Definition set_i_flags (v : Z) (r : inode) : inode :=
  mk_inode r.(i_dev) r.(i_inum) r.(i_ref) v r.(i_type) r.(i_major) r.(i_minor) r.(i_nlink) r.(i_size) r.(i_addrs).
Definition set_i_type (v : Z) (r : inode) : inode :=
  mk_inode r.(i_dev) r.(i_inum) r.(i_ref) r.(i_flags) v r.(i_major) r.(i_minor) r.(i_nlink) r.(i_size) r.(i_addrs).
Definition set_i_major (v : Z) (r : inode) : inode :=
  mk_inode r.(i_dev) r.(i_inum) r.(i_ref) r.(i_flags) r.(i_type) v r.(i_minor) r.(i_nlink) r.(i_size) r.(i_addrs).
Definition set_i_minor (v : Z) (r : inode) : inode :=
  mk_inode r.(i_dev) r.(i_inum) r.(i_ref) r.(i_flags) r.(i_type) r.(i_major) v r.(i_nlink) r.(i_size) r.(i_addrs).
Definition set_i_nlink (v : Z) (r : inode) : inode :=
  mk_inode r.(i_dev) r.(i_inum) r.(i_ref) r.(i_flags) r.(i_type) r.(i_major) r.(i_minor) v r.(i_size) r.(i_addrs).
Definition set_i_size (v : Z) (r : inode) : inode :=
  mk_inode r.(i_dev) r.(i_inum) r.(i_ref) r.(i_flags) r.(i_type) r.(i_major) r.(i_minor) r.(i_nlink) v r.(i_addrs).
Definition set_i_addrs (v : list Z) (r : inode) : inode :=
  mk_inode r.(i_dev) r.(i_inum) r.(i_ref) r.(i_flags) r.(i_type) r.(i_major) r.(i_minor) r.(i_nlink) r.(i_size) v.

Definition set_b_flags (v : Z) (r : buf) : buf :=
  mk_buf v r.(b_dev) r.(b_sector) r.(b_prev) r.(b_next) r.(b_qnext) r.(b_data).
Definition set_b_dev (v : Z) (r : buf) : buf :=
  mk_buf r.(b_flags) v r.(b_sector) r.(b_prev) r.(b_next) r.(b_qnext) r.(b_data).
Definition set_b_sector (v : Z) (r : buf) : buf :=
  mk_buf r.(b_flags) r.(b_dev) v r.(b_prev) r.(b_next) r.(b_qnext) r.(b_data).
Definition set_b_prev (v : nat) (r : buf) : buf :=
  mk_buf r.(b_flags) r.(b_dev) r.(b_sector) v r.(b_next) r.(b_qnext) r.(b_data).
Definition set_b_next (v : nat) (r : buf) : buf :=
  mk_buf r.(b_flags) r.(b_dev) r.(b_sector) r.(b_prev) v r.(b_qnext) r.(b_data).
Definition set_b_qnext (v : option nat) (r : buf) : buf :=
  mk_buf r.(b_flags) r.(b_dev) r.(b_sector) r.(b_prev) r.(b_next) v r.(b_data).
Definition set_b_data (v : list Z) (r : buf) : buf :=
  mk_buf r.(b_flags) r.(b_dev) r.(b_sector) r.(b_prev) r.(b_next) r.(b_qnext) v.

Definition set_pi_data (v : list Z) (r : pipe) : pipe :=
  mk_pipe v r.(pi_nread) r.(pi_nwrite) r.(pi_readopen) r.(pi_writeopen).
Definition set_pi_nread (v : Z) (r : pipe) : pipe :=
  mk_pipe r.(pi_data) v r.(pi_nwrite) r.(pi_readopen) r.(pi_writeopen).
Definition set_pi_nwrite (v : Z) (r : pipe) : pipe :=
  mk_pipe r.(pi_data) r.(pi_nread) v r.(pi_readopen) r.(pi_writeopen).
Definition set_pi_readopen (v : Z) (r : pipe) : pipe :=
  mk_pipe r.(pi_data) r.(pi_nread) r.(pi_nwrite) v r.(pi_writeopen).
Definition set_pi_writeopen (v : Z) (r : pipe) : pipe :=
  mk_pipe r.(pi_data) r.(pi_nread) r.(pi_nwrite) r.(pi_readopen) v.

Definition set_c_buf (v : list Z) (r : console) : console :=
  mk_console v r.(c_r) r.(c_w) r.(c_e) r.(c_prev) r.(c_dim1) r.(c_dim2) r.(c_curr) r.(c_inserted) r.(c_locking) r.(c_panicked) r.(c_crt) r.(c_pos) r.(c_uart) r.(c_serial) r.(c_shift).
Definition set_c_r (v : Z) (r : console) : console :=
  mk_console r.(c_buf) v r.(c_w) r.(c_e) r.(c_prev) r.(c_dim1) r.(c_dim2) r.(c_curr) r.(c_inserted) r.(c_locking) r.(c_panicked) r.(c_crt) r.(c_pos) r.(c_uart) r.(c_serial) r.(c_shift).
Definition set_c_w (v : Z) (r : console) : console :=
  mk_console r.(c_buf) r.(c_r) v r.(c_e) r.(c_prev) r.(c_dim1) r.(c_dim2) r.(c_curr) r.(c_inserted) r.(c_locking) r.(c_panicked) r.(c_crt) r.(c_pos) r.(c_uart) r.(c_serial) r.(c_shift).
Definition set_c_e (v : Z) (r : console) : console :=
  mk_console r.(c_buf) r.(c_r) r.(c_w) v r.(c_prev) r.(c_dim1) r.(c_dim2) r.(c_curr) r.(c_inserted) r.(c_locking) r.(c_panicked) r.(c_crt) r.(c_pos) r.(c_uart) r.(c_serial) r.(c_shift).
Definition set_c_prev (v : list (list Z)) (r : console) : console :=
  mk_console r.(c_buf) r.(c_r) r.(c_w) r.(c_e) v r.(c_dim1) r.(c_dim2) r.(c_curr) r.(c_inserted) r.(c_locking) r.(c_panicked) r.(c_crt) r.(c_pos) r.(c_uart) r.(c_serial) r.(c_shift).
Definition set_c_dim1 (v : Z) (r : console) : console :=
  mk_console r.(c_buf) r.(c_r) r.(c_w) r.(c_e) r.(c_prev) v r.(c_dim2) r.(c_curr) r.(c_inserted) r.(c_locking) r.(c_panicked) r.(c_crt) r.(c_pos) r.(c_uart) r.(c_serial) r.(c_shift).
Definition set_c_dim2 (v : Z) (r : console) : console :=
  mk_console r.(c_buf) r.(c_r) r.(c_w) r.(c_e) r.(c_prev) r.(c_dim1) v r.(c_curr) r.(c_inserted) r.(c_locking) r.(c_panicked) r.(c_crt) r.(c_pos) r.(c_uart) r.(c_serial) r.(c_shift).
Definition set_c_curr (v : Z) (r : console) : console :=
  mk_console r.(c_buf) r.(c_r) r.(c_w) r.(c_e) r.(c_prev) r.(c_dim1) r.(c_dim2) v r.(c_inserted) r.(c_locking) r.(c_panicked) r.(c_crt) r.(c_pos) r.(c_uart) r.(c_serial) r.(c_shift).
Definition set_c_inserted (v : Z) (r : console) : console :=
  mk_console r.(c_buf) r.(c_r) r.(c_w) r.(c_e) r.(c_prev) r.(c_dim1) r.(c_dim2) r.(c_curr) v r.(c_locking) r.(c_panicked) r.(c_crt) r.(c_pos) r.(c_uart) r.(c_serial) r.(c_shift).
Definition set_c_locking (v : bool) (r : console) : console :=
  mk_console r.(c_buf) r.(c_r) r.(c_w) r.(c_e) r.(c_prev) r.(c_dim1) r.(c_dim2) r.(c_curr) r.(c_inserted) v r.(c_panicked) r.(c_crt) r.(c_pos) r.(c_uart) r.(c_serial) r.(c_shift).
Definition set_c_panicked (v : bool) (r : console) : console :=
  mk_console r.(c_buf) r.(c_r) r.(c_w) r.(c_e) r.(c_prev) r.(c_dim1) r.(c_dim2) r.(c_curr) r.(c_inserted) r.(c_locking) v r.(c_crt) r.(c_pos) r.(c_uart) r.(c_serial) r.(c_shift).
Definition set_c_crt (v : list Z) (r : console) : console :=
  mk_console r.(c_buf) r.(c_r) r.(c_w) r.(c_e) r.(c_prev) r.(c_dim1) r.(c_dim2) r.(c_curr) r.(c_inserted) r.(c_locking) r.(c_panicked) v r.(c_pos) r.(c_uart) r.(c_serial) r.(c_shift).
Definition set_c_pos (v : Z) (r : console) : console :=
  mk_console r.(c_buf) r.(c_r) r.(c_w) r.(c_e) r.(c_prev) r.(c_dim1) r.(c_dim2) r.(c_curr) r.(c_inserted) r.(c_locking) r.(c_panicked) r.(c_crt) v r.(c_uart) r.(c_serial) r.(c_shift).
Definition set_c_uart (v : bool) (r : console) : console :=
  mk_console r.(c_buf) r.(c_r) r.(c_w) r.(c_e) r.(c_prev) r.(c_dim1) r.(c_dim2) r.(c_curr) r.(c_inserted) r.(c_locking) r.(c_panicked) r.(c_crt) r.(c_pos) v r.(c_serial) r.(c_shift).
Definition set_c_serial (v : list Z) (r : console) : console :=
  mk_console r.(c_buf) r.(c_r) r.(c_w) r.(c_e) r.(c_prev) r.(c_dim1) r.(c_dim2) r.(c_curr) r.(c_inserted) r.(c_locking) r.(c_panicked) r.(c_crt) r.(c_pos) r.(c_uart) v r.(c_shift).
Definition set_c_shift (v : Z) (r : console) : console :=
  mk_console r.(c_buf) r.(c_r) r.(c_w) r.(c_e) r.(c_prev) r.(c_dim1) r.(c_dim2) r.(c_curr) r.(c_inserted) r.(c_locking) r.(c_panicked) r.(c_crt) r.(c_pos) r.(c_uart) r.(c_serial) v.

Definition set_held (v : list lockid) (r : kstate) : kstate :=
  mk_kstate v r.(cpuid) r.(curproc) r.(ptable) r.(initproc) r.(nextpid) r.(ticks) r.(clockticks) r.(freelist) r.(pmem) r.(kpgdir) r.(cr3) r.(ftable) r.(pipes) r.(icache) r.(bufs) r.(idequeue) r.(havedisk1) r.(idecmd) r.(disk) r.(con).
Definition set_cpuid (v : Z) (r : kstate) : kstate :=
  mk_kstate r.(held) v r.(curproc) r.(ptable) r.(initproc) r.(nextpid) r.(ticks) r.(clockticks) r.(freelist) r.(pmem) r.(kpgdir) r.(cr3) r.(ftable) r.(pipes) r.(icache) r.(bufs) r.(idequeue) r.(havedisk1) r.(idecmd) r.(disk) r.(con).
Definition set_curproc (v : option nat) (r : kstate) : kstate :=
  mk_kstate r.(held) r.(cpuid) v r.(ptable) r.(initproc) r.(nextpid) r.(ticks) r.(clockticks) r.(freelist) r.(pmem) r.(kpgdir) r.(cr3) r.(ftable) r.(pipes) r.(icache) r.(bufs) r.(idequeue) r.(havedisk1) r.(idecmd) r.(disk) r.(con).
Definition set_ptable (v : list proc) (r : kstate) : kstate :=
  mk_kstate r.(held) r.(cpuid) r.(curproc) v r.(initproc) r.(nextpid) r.(ticks) r.(clockticks) r.(freelist) r.(pmem) r.(kpgdir) r.(cr3) r.(ftable) r.(pipes) r.(icache) r.(bufs) r.(idequeue) r.(havedisk1) r.(idecmd) r.(disk) r.(con).
Definition set_initproc (v : option nat) (r : kstate) : kstate :=
  mk_kstate r.(held) r.(cpuid) r.(curproc) r.(ptable) v r.(nextpid) r.(ticks) r.(clockticks) r.(freelist) r.(pmem) r.(kpgdir) r.(cr3) r.(ftable) r.(pipes) r.(icache) r.(bufs) r.(idequeue) r.(havedisk1) r.(idecmd) r.(disk) r.(con).
Definition set_nextpid (v : Z) (r : kstate) : kstate :=
  mk_kstate r.(held) r.(cpuid) r.(curproc) r.(ptable) r.(initproc) v r.(ticks) r.(clockticks) r.(freelist) r.(pmem) r.(kpgdir) r.(cr3) r.(ftable) r.(pipes) r.(icache) r.(bufs) r.(idequeue) r.(havedisk1) r.(idecmd) r.(disk) r.(con).
Definition set_ticks (v : Z) (r : kstate) : kstate :=
  mk_kstate r.(held) r.(cpuid) r.(curproc) r.(ptable) r.(initproc) r.(nextpid) v r.(clockticks) r.(freelist) r.(pmem) r.(kpgdir) r.(cr3) r.(ftable) r.(pipes) r.(icache) r.(bufs) r.(idequeue) r.(havedisk1) r.(idecmd) r.(disk) r.(con).
Definition set_clockticks (v : Z) (r : kstate) : kstate :=
  mk_kstate r.(held) r.(cpuid) r.(curproc) r.(ptable) r.(initproc) r.(nextpid) r.(ticks) v r.(freelist) r.(pmem) r.(kpgdir) r.(cr3) r.(ftable) r.(pipes) r.(icache) r.(bufs) r.(idequeue) r.(havedisk1) r.(idecmd) r.(disk) r.(con).
Definition set_freelist (v : Z) (r : kstate) : kstate :=
  mk_kstate r.(held) r.(cpuid) r.(curproc) r.(ptable) r.(initproc) r.(nextpid) r.(ticks) r.(clockticks) v r.(pmem) r.(kpgdir) r.(cr3) r.(ftable) r.(pipes) r.(icache) r.(bufs) r.(idequeue) r.(havedisk1) r.(idecmd) r.(disk) r.(con).
Definition set_pmem (v : gmap Z Z) (r : kstate) : kstate :=
  mk_kstate r.(held) r.(cpuid) r.(curproc) r.(ptable) r.(initproc) r.(nextpid) r.(ticks) r.(clockticks) r.(freelist) v r.(kpgdir) r.(cr3) r.(ftable) r.(pipes) r.(icache) r.(bufs) r.(idequeue) r.(havedisk1) r.(idecmd) r.(disk) r.(con).
Definition set_kpgdir (v : Z) (r : kstate) : kstate :=
  mk_kstate r.(held) r.(cpuid) r.(curproc) r.(ptable) r.(initproc) r.(nextpid) r.(ticks) r.(clockticks) r.(freelist) r.(pmem) v r.(cr3) r.(ftable) r.(pipes) r.(icache) r.(bufs) r.(idequeue) r.(havedisk1) r.(idecmd) r.(disk) r.(con).
Definition set_cr3 (v : Z) (r : kstate) : kstate :=
  mk_kstate r.(held) r.(cpuid) r.(curproc) r.(ptable) r.(initproc) r.(nextpid) r.(ticks) r.(clockticks) r.(freelist) r.(pmem) r.(kpgdir) v r.(ftable) r.(pipes) r.(icache) r.(bufs) r.(idequeue) r.(havedisk1) r.(idecmd) r.(disk) r.(con).
Definition set_ftable (v : list file) (r : kstate) : kstate :=
  mk_kstate r.(held) r.(cpuid) r.(curproc) r.(ptable) r.(initproc) r.(nextpid) r.(ticks) r.(clockticks) r.(freelist) r.(pmem) r.(kpgdir) r.(cr3) v r.(pipes) r.(icache) r.(bufs) r.(idequeue) r.(havedisk1) r.(idecmd) r.(disk) r.(con).
Definition set_pipes (v : gmap Z pipe) (r : kstate) : kstate :=
  mk_kstate r.(held) r.(cpuid) r.(curproc) r.(ptable) r.(initproc) r.(nextpid) r.(ticks) r.(clockticks) r.(freelist) r.(pmem) r.(kpgdir) r.(cr3) r.(ftable) v r.(icache) r.(bufs) r.(idequeue) r.(havedisk1) r.(idecmd) r.(disk) r.(con).
Definition set_icache (v : list inode) (r : kstate) : kstate :=
  mk_kstate r.(held) r.(cpuid) r.(curproc) r.(ptable) r.(initproc) r.(nextpid) r.(ticks) r.(clockticks) r.(freelist) r.(pmem) r.(kpgdir) r.(cr3) r.(ftable) r.(pipes) v r.(bufs) r.(idequeue) r.(havedisk1) r.(idecmd) r.(disk) r.(con).
Definition set_bufs (v : list buf) (r : kstate) : kstate :=
  mk_kstate r.(held) r.(cpuid) r.(curproc) r.(ptable) r.(initproc) r.(nextpid) r.(ticks) r.(clockticks) r.(freelist) r.(pmem) r.(kpgdir) r.(cr3) r.(ftable) r.(pipes) r.(icache) v r.(idequeue) r.(havedisk1) r.(idecmd) r.(disk) r.(con).
Definition set_idequeue (v : option nat) (r : kstate) : kstate :=
  mk_kstate r.(held) r.(cpuid) r.(curproc) r.(ptable) r.(initproc) r.(nextpid) r.(ticks) r.(clockticks) r.(freelist) r.(pmem) r.(kpgdir) r.(cr3) r.(ftable) r.(pipes) r.(icache) r.(bufs) v r.(havedisk1) r.(idecmd) r.(disk) r.(con).
Definition set_havedisk1 (v : bool) (r : kstate) : kstate :=
  mk_kstate r.(held) r.(cpuid) r.(curproc) r.(ptable) r.(initproc) r.(nextpid) r.(ticks) r.(clockticks) r.(freelist) r.(pmem) r.(kpgdir) r.(cr3) r.(ftable) r.(pipes) r.(icache) r.(bufs) r.(idequeue) v r.(idecmd) r.(disk) r.(con).
Definition set_idecmd (v : option (Z * Z)) (r : kstate) : kstate :=
  mk_kstate r.(held) r.(cpuid) r.(curproc) r.(ptable) r.(initproc) r.(nextpid) r.(ticks) r.(clockticks) r.(freelist) r.(pmem) r.(kpgdir) r.(cr3) r.(ftable) r.(pipes) r.(icache) r.(bufs) r.(idequeue) r.(havedisk1) v r.(disk) r.(con).
Definition set_disk (v : gmap (Z * Z) (list Z)) (r : kstate) : kstate :=
  mk_kstate r.(held) r.(cpuid) r.(curproc) r.(ptable) r.(initproc) r.(nextpid) r.(ticks) r.(clockticks) r.(freelist) r.(pmem) r.(kpgdir) r.(cr3) r.(ftable) r.(pipes) r.(icache) r.(bufs) r.(idequeue) r.(havedisk1) r.(idecmd) v r.(con).
Definition set_con (v : console) (r : kstate) : kstate :=
  mk_kstate r.(held) r.(cpuid) r.(curproc) r.(ptable) r.(initproc) r.(nextpid) r.(ticks) r.(clockticks) r.(freelist) r.(pmem) r.(kpgdir) r.(cr3) r.(ftable) r.(pipes) r.(icache) r.(bufs) r.(idequeue) r.(havedisk1) r.(idecmd) r.(disk) v.

(** ** Kernel routines *)

Definition K (A : Type) : Type := M kstate A.

Arguments K : simpl never.

(** Read a table entry through a pointer. *)
Definition get_proc (i : nat) : K proc := fun s =>
  match s.(ptable) !! i with Some p => Ok p s | None => Fault "ptable" end.
Definition get_file (i : nat) : K file := fun s =>
  match s.(ftable) !! i with Some f => Ok f s | None => Fault "ftable" end.
Definition get_inode (i : nat) : K inode := fun s =>
  match s.(icache) !! i with Some f => Ok f s | None => Fault "icache" end.
Definition get_buf (i : nat) : K buf := fun s =>
  match s.(bufs) !! i with Some f => Ok f s | None => Fault "bcache" end.
Definition get_pipe (pa : Z) : K pipe := fun s =>
  match s.(pipes) !! pa with Some f => Ok f s | None => Fault "pipe" end.

(** Assign to fields through a pointer; assigning through a pointer that is
    not a table element has no meaning. *)
Definition mod_proc (i : nat) (f : proc -> proc) : K unit :=
  let* x := get_proc i in kmod (fun s => set_ptable (<[i := f x]> s.(ptable)) s).
Definition mod_file (i : nat) (f : file -> file) : K unit :=
  let* x := get_file i in kmod (fun s => set_ftable (<[i := f x]> s.(ftable)) s).
Definition mod_inode (i : nat) (f : inode -> inode) : K unit :=
  let* x := get_inode i in kmod (fun s => set_icache (<[i := f x]> s.(icache)) s).
Definition mod_buf (i : nat) (f : buf -> buf) : K unit :=
  let* x := get_buf i in kmod (fun s => set_bufs (<[i := f x]> s.(bufs)) s).
Definition mod_pipe (pa : Z) (f : pipe -> pipe) : K unit :=
  let* x := get_pipe pa in kmod (fun s => set_pipes (<[pa := f x]> s.(pipes)) s).

(** The per-CPU variable [proc], dereferenced. *)
Definition myproc : K nat := fun s =>
  match s.(curproc) with Some i => Ok i s | None => Fault "proc == 0" end.

(** ** Spin locks as the running CPU sees them

    [acquire] panics when this CPU already holds the lock and [release] when
    it does not ([holding], spinlock.c); the multiprocessor protocol that
    makes this view correct is the subject of the file Spinlock. *)
Definition holding (lk : lockid) (s : kstate) : bool := bool_decide (lk ∈ s.(held)).

Fixpoint rm1 (lk : lockid) (l : list lockid) : list lockid :=
  match l with
  | [] => []
  | x :: l' => if decide (x = lk) then l' else x :: rm1 lk l'
  end.

Definition acquire (lk : lockid) : K unit := fun s =>
  if holding lk s then Panic "acquire"
  else Ok tt (set_held (lk :: s.(held)) s).

Definition release (lk : lockid) : K unit := fun s =>
  if holding lk s then Ok tt (set_held (rm1 lk s.(held)) s)
  else Panic "release".

(** The console before any input or output, with a serial port. *)
Definition bare_console : console :=
  mk_console (replicate 128 0) 0 0 0 (replicate 16 (replicate 100 0)) 0 0 0 0 true false
    (replicate 2000 0) 0 true [] 0.

(** The machine before any table is set up: used to build concrete runs. *)
Definition bare_state : kstate :=
  mk_kstate [] 0 None [] None 1 0 0 0 ∅ 0 0 [] ∅ [] [] None true None ∅ bare_console.

Arguments get_proc : simpl never.
Arguments get_file : simpl never.
Arguments get_inode : simpl never.
Arguments get_buf : simpl never.
Arguments get_pipe : simpl never.
Arguments acquire : simpl never.
Arguments release : simpl never.

(** ** Lemmas *)

Lemma holding_true lk s : holding lk s = true <-> lk ∈ s.(held).
Proof. unfold holding. by rewrite bool_decide_eq_true. Qed.

Lemma rm1_cons lk l : rm1 lk (lk :: l) = l.
Proof. simpl. by rewrite decide_True. Qed.

Lemma rm1_notin lk l : lk ∉ l -> rm1 lk l = l.
Proof.
  induction l as [|x l IH]; [done|]. intros Hn. simpl.
  rewrite not_elem_of_cons in Hn. rewrite decide_False by naive_solver.
  f_equal. naive_solver.
Qed.

Lemma acquire_free lk s :
  lk ∉ s.(held) -> acquire lk s = Ok tt (set_held (lk :: s.(held)) s).
Proof. intros. unfold acquire, holding. by rewrite bool_decide_eq_false_2. Qed.

Lemma acquire_Ok lk s u s' :
  acquire lk s = Ok u s' -> lk ∉ s.(held) /\ s' = set_held (lk :: s.(held)) s.
Proof. unfold acquire, holding. case_bool_decide; naive_solver. Qed.

Lemma release_held lk s :
  lk ∈ s.(held) -> release lk s = Ok tt (set_held (rm1 lk s.(held)) s).
Proof. intros. unfold release, holding. by rewrite bool_decide_eq_true_2. Qed.

Lemma release_top lk l s :
  s.(held) = lk :: l -> release lk s = Ok tt (set_held l s).
Proof.
  intros E. rewrite release_held by (rewrite E; left). by rewrite E, rm1_cons.
Qed.

Lemma release_Ok lk s u s' :
  release lk s = Ok u s' -> lk ∈ s.(held) /\ s' = set_held (rm1 lk s.(held)) s.
Proof. unfold release, holding. case_bool_decide; naive_solver. Qed.

Lemma get_proc_Ok i s p s' :
  get_proc i s = Ok p s' <-> s.(ptable) !! i = Some p /\ s' = s.
Proof. unfold get_proc. destruct (_ !! i); naive_solver. Qed.
Lemma get_file_Ok i s p s' :
  get_file i s = Ok p s' <-> s.(ftable) !! i = Some p /\ s' = s.
Proof. unfold get_file. destruct (_ !! i); naive_solver. Qed.
Lemma get_inode_Ok i s p s' :
  get_inode i s = Ok p s' <-> s.(icache) !! i = Some p /\ s' = s.
Proof. unfold get_inode. destruct (_ !! i); naive_solver. Qed.
Lemma get_buf_Ok i s p s' :
  get_buf i s = Ok p s' <-> s.(bufs) !! i = Some p /\ s' = s.
Proof. unfold get_buf. destruct (_ !! i); naive_solver. Qed.
Lemma get_pipe_Ok i s p s' :
  get_pipe i s = Ok p s' <-> s.(pipes) !! i = Some p /\ s' = s.
Proof. unfold get_pipe. destruct (_ !! i); naive_solver. Qed.

Lemma mod_proc_Ok i f s u s' :
  mod_proc i f s = Ok u s' <->
  exists x, s.(ptable) !! i = Some x /\ s' = set_ptable (<[i := f x]> s.(ptable)) s.
Proof.
  unfold mod_proc, kbind, kmod, get_proc. destruct u.
  destruct (_ !! i); naive_solver.
Qed.
Lemma mod_file_Ok i f s u s' :
  mod_file i f s = Ok u s' <->
  exists x, s.(ftable) !! i = Some x /\ s' = set_ftable (<[i := f x]> s.(ftable)) s.
Proof.
  unfold mod_file, kbind, kmod, get_file. destruct u.
  destruct (_ !! i); naive_solver.
Qed.
Lemma mod_inode_Ok i f s u s' :
  mod_inode i f s = Ok u s' <->
  exists x, s.(icache) !! i = Some x /\ s' = set_icache (<[i := f x]> s.(icache)) s.
Proof.
  unfold mod_inode, kbind, kmod, get_inode. destruct u.
  destruct (_ !! i); naive_solver.
Qed.
Lemma mod_buf_Ok i f s u s' :
  mod_buf i f s = Ok u s' <->
  exists x, s.(bufs) !! i = Some x /\ s' = set_bufs (<[i := f x]> s.(bufs)) s.
Proof.
  unfold mod_buf, kbind, kmod, get_buf. destruct u.
  destruct (_ !! i); naive_solver.
Qed.
Lemma mod_pipe_Ok i f s u s' :
  mod_pipe i f s = Ok u s' <->
  exists x, s.(pipes) !! i = Some x /\ s' = set_pipes (<[i := f x]> s.(pipes)) s.
Proof.
  unfold mod_pipe, kbind, kmod, get_pipe. destruct u.
  destruct (_ !! i); naive_solver.
Qed.

(** Invert the primitive steps of a successful run. *)
Ltac kprim :=
  match goal with
  | H : acquire _ _ = Ok _ _ |- _ => apply acquire_Ok in H as [? ->]
  | H : release _ _ = Ok _ _ |- _ => apply release_Ok in H as [? ->]
  | H : get_proc _ _ = Ok _ _ |- _ => apply get_proc_Ok in H as [? ->]
  | H : get_file _ _ = Ok _ _ |- _ => apply get_file_Ok in H as [? ->]
  | H : get_inode _ _ = Ok _ _ |- _ => apply get_inode_Ok in H as [? ->]
  | H : get_buf _ _ = Ok _ _ |- _ => apply get_buf_Ok in H as [? ->]
  | H : get_pipe _ _ = Ok _ _ |- _ => apply get_pipe_Ok in H as [? ->]
  | H : mod_proc _ _ _ = Ok _ _ |- _ => apply mod_proc_Ok in H as (? & ? & ->)
  | H : mod_file _ _ _ = Ok _ _ |- _ => apply mod_file_Ok in H as (? & ? & ->)
  | H : mod_inode _ _ _ = Ok _ _ |- _ => apply mod_inode_Ok in H as (? & ? & ->)
  | H : mod_buf _ _ _ = Ok _ _ |- _ => apply mod_buf_Ok in H as (? & ? & ->)
  | H : mod_pipe _ _ _ = Ok _ _ |- _ => apply mod_pipe_Ok in H as (? & ? & ->)
  end.
Ltac kinvs := repeat (first [kinv_step | kprim]; simpl in * |-).
