(* ===== verification/Kalloc.v ===== *)
(** The physical page allocator: kalloc.c.

    Free pages are chained through their first word ([struct run]), so the
    free list lives in the memory it manages.  [free_pages] relates that
    representation to the list of free page addresses; the theorems show that
    [kalloc] and [kfree] are the pop and push of that list, and that [kinit]
    builds it from the end of the kernel to [PHYSTOP]. *)

From S2P Require Import Prelude CString State.

(** [PGROUNDUP] and [PGROUNDDOWN] of mmu.h, in [uint] arithmetic. *)
Definition PGROUNDUP (sz : Z) : Z := Z.land (u32 (sz + PGSIZE - 1)) (lnot32 (PGSIZE - 1)).
Definition PGROUNDDOWN (a : Z) : Z := Z.land (u32 a) (lnot32 (PGSIZE - 1)).

(** The test at the start of [kfree]. *)
Definition kfree_bad (v : Z) : bool :=
  negb (v mod PGSIZE =? 0) || (v <? 1024 * 1024) || (v >=? PHYSTOP).

Definition kfree (v : Z) : K unit :=
  if kfree_bad v then panic "kfree"
  else
    kmod (fun s => set_pmem (memset v 1 PGSIZE s.(pmem)) s) ;;;
    acquire LkKmem ;;;
    kmod (fun s => set_pmem (store32 v s.(freelist) s.(pmem)) s) ;;;
    kmod (set_freelist v) ;;;
    release LkKmem.

Definition kalloc : K Z :=
  acquire LkKmem ;;;
  let* r := kget (fun s => s.(freelist)) in
  (if r =? 0 then kret tt
   else kmod (fun s => set_freelist (load32 s.(pmem) r) s)) ;;;
  release LkKmem ;;;
  kret r.

(** [for( ; p + PGSIZE - 1 < PHYSTOP; p += PGSIZE) kfree(p)]; the fuel bounds
    the number of pages. *)
Fixpoint kinit_loop (fuel : nat) (p : Z) : K unit :=
  match fuel with
  | O => kfault "fuel"
  | S f =>
      if p + PGSIZE - 1 <? PHYSTOP
      then kfree p ;;; kinit_loop f (p + PGSIZE)
      else kret tt
  end.
Definition kinit (kend : Z) : K unit :=
  kinit_loop (Z.to_nat (PHYSTOP / PGSIZE) + 1) (PGROUNDUP kend).

(** ** The free list *)

Definition page_ok (v : Z) : Prop :=
  v mod PGSIZE = 0 /\ 1024 * 1024 <= v < PHYSTOP.

Fixpoint chain (m : mem) (h : Z) (l : list Z) : Prop :=
  match l with
  | [] => h = 0
  | p :: l' => h = p /\ page_ok p /\ chain m (load32 m p) l'
  end.

(** [free_pages s l]: the free list of [s] is [l], without repetition. *)
Definition free_pages (s : kstate) (l : list Z) : Prop :=
  chain s.(pmem) s.(freelist) l /\ NoDup l.

(** The pages of [n] frames upwards from [p], last first. *)
Fixpoint pages_from (n : nat) (p : Z) (acc : list Z) : list Z :=
  match n with
  | O => acc
  | S n' => pages_from n' (p + PGSIZE) (p :: acc)
  end.

(** ** Lemmas *)

Lemma kfree_bad_spec v : kfree_bad v = false <-> page_ok v.
Proof.
  unfold kfree_bad, page_ok. rewrite !orb_false_iff, negb_false_iff, Z.eqb_eq.
  rewrite Z.geb_leb, Z.ltb_ge, Z.leb_gt. unfold PHYSTOP, PGSIZE. lia.
Qed.

Lemma page_ok_nonzero v : page_ok v -> v <> 0.
Proof. unfold page_ok. lia. Qed.

Lemma page_ok_disjoint p q :
  page_ok p -> page_ok q -> p <> q -> p + PGSIZE <= q \/ q + PGSIZE <= p.
Proof.
  unfold page_ok, PGSIZE. intros [Hp _] [Hq _] Hn.
  pose proof (Z.div_mod p 4096). pose proof (Z.div_mod q 4096). lia.
Qed.

Lemma page_ok_u32 v : page_ok v -> u32 v = v.
Proof. intros [_ ?]. apply u32_small. unfold PHYSTOP in *. lia. Qed.

(** Memory writes that leave the first word of every listed page alone keep
    the chain. *)
Lemma chain_ext m m' h l :
  (forall p, p ∈ l -> load32 m' p = load32 m p) -> chain m h l -> chain m' h l.
Proof.
  revert h. induction l as [|p l IH]; intros h H; simpl; [done|].
  intros (-> & Hp & Hl). split_and!; [done|done|].
  rewrite H by left. apply IH; [|done]. intros. apply H. by right.
Qed.

Lemma chain_page_ok m h l p : chain m h l -> p ∈ l -> page_ok p.
Proof.
  revert h. induction l as [|q l IH]; intros h Hc Hp; [by apply not_elem_of_nil in Hp|].
  simpl in Hc. destruct Hc as (_ & Hq & Hc). apply elem_of_cons in Hp as [->|Hp]; eauto.
Qed.

(** What one call to [kfree] does to memory: the page is filled with 1s and
    its first word links to the old head. *)
Definition kfree_mem (v fl : Z) (m : mem) : mem := store32 v fl (memset v 1 PGSIZE m).

Lemma kfree_ok v s :
  page_ok v -> LkKmem ∉ s.(held) ->
  kfree v s = Ok tt (set_freelist v (set_pmem (kfree_mem v s.(freelist) s.(pmem)) s)).
Proof.
  intros Hv Hk. unfold kfree, kfree_mem. rewrite (proj2 (kfree_bad_spec v) Hv). krun.
  rewrite acquire_free by done. cbn. rewrite (release_top LkKmem s.(held)) by reflexivity.
  reflexivity.
Qed.

Lemma kfree_bad_panic v s : ~ page_ok v -> kfree v s = Panic "kfree".
Proof.
  intros Hv. unfold kfree. destruct (kfree_bad v) eqn:E; [done|].
  by apply kfree_bad_spec in E.
Qed.

Lemma kalloc_ok s :
  LkKmem ∉ s.(held) ->
  kalloc s = Ok s.(freelist)
    (if s.(freelist) =? 0 then s
     else set_freelist (load32 s.(pmem) s.(freelist)) s).
Proof.
  intros Hk. unfold kalloc. krun. rewrite acquire_free by done. simpl.
  destruct (_ =? 0); by rewrite (release_top LkKmem s.(held)).
Qed.

Lemma load8_kfree_mem_frame v fl m b :
  b < v \/ v + PGSIZE <= b -> load8 (kfree_mem v fl m) b = load8 m b.
Proof.
  intros Hb. unfold kfree_mem, PGSIZE in *. rewrite load8_store32_ne by lia.
  rewrite load8_memset by lia. zcases; done.
Qed.

Lemma load32_kfree_mem_frame v fl m b :
  b + 4 <= v \/ v + PGSIZE <= b -> load32 (kfree_mem v fl m) b = load32 m b.
Proof.
  intros Hb. unfold load32. by rewrite !load8_kfree_mem_frame by (unfold PGSIZE in *; lia).
Qed.

Lemma kfree_mem_chain v fl m l :
  page_ok v -> v ∉ l -> chain m fl l -> 0 <= fl < 2 ^ 32 ->
  chain (kfree_mem v fl m) v (v :: l).
Proof.
  intros Hv Hn Hl Hfl. simpl. split_and!; [done|done|].
  unfold kfree_mem at 2. rewrite load32_store32, u32_small by done.
  apply (chain_ext m); [|done]. intros p Hp. apply load32_kfree_mem_frame.
  assert (p <> v) by congruence.
  pose proof (page_ok_disjoint p v). pose proof (chain_page_ok _ _ _ _ Hl Hp).
  unfold PGSIZE in *. intuition lia.
Qed.

Lemma chain_head_range m h l : chain m h l -> 0 <= h < 2 ^ 32.
Proof.
  destruct l as [|p l]; simpl; [lia|]. intros (-> & Hp & _). unfold page_ok, PHYSTOP in Hp. lia.
Qed.

Lemma kfree_free_pages v s l :
  page_ok v -> v ∉ l -> free_pages s l ->
  free_pages (set_freelist v (set_pmem (kfree_mem v s.(freelist) s.(pmem)) s)) (v :: l).
Proof.
  intros Hv Hn [Hc Hd]. split; simpl.
  - apply kfree_mem_chain; eauto using chain_head_range.
  - by constructor.
Qed.

Lemma kalloc_free_pages s p l :
  free_pages s (p :: l) -> LkKmem ∉ s.(held) ->
  exists f, kalloc s = Ok p (set_freelist f s) /\ free_pages (set_freelist f s) l.
Proof.
  intros [(Hf & Hp & Hc) Hd] Hk. exists (load32 s.(pmem) p). rewrite kalloc_ok, Hf by done.
  rewrite (proj2 (Z.eqb_neq p 0)) by (by apply page_ok_nonzero).
  split; [done|]. apply NoDup_cons in Hd as [_ Hd]. by split.
Qed.

(** The free list a state has is unique: it is read off memory. *)
Lemma chain_inj m h l1 l2 : chain m h l1 -> chain m h l2 -> l1 = l2.
Proof.
  revert h l2. induction l1 as [|p l1 IH]; intros h [|q l2]; simpl; [done| | |].
  - intros -> (<- & Hq & _). by apply page_ok_nonzero in Hq.
  - intros (-> & Hp & _) ->. by apply page_ok_nonzero in Hp.
  - intros (-> & _ & H1) (<- & _ & H2). f_equal. eauto.
Qed.

(** Rounding to a page boundary. *)
Lemma PGROUNDDOWN_eq a : PGROUNDDOWN a = u32 a / PGSIZE * PGSIZE.
Proof.
  unfold PGROUNDDOWN, lnot32. pose proof (u32_range a) as Hx.
  change (u32 (Z.lnot (PGSIZE - 1))) with (Z.land (Z.ones 32) (Z.lnot (Z.ones 12))).
  rewrite Z.land_assoc, Z.land_ones, Z.mod_small by lia.
  rewrite <- Z.ldiff_land, Z.ldiff_ones_r by lia.
  by rewrite Z.shiftl_mul_pow2, Z.shiftr_div_pow2 by lia.
Qed.

Lemma PGROUNDUP_eq a :
  0 <= a -> a + PGSIZE - 1 < 2 ^ 32 -> PGROUNDUP a = (a + PGSIZE - 1) / PGSIZE * PGSIZE.
Proof.
  intros. change (PGROUNDUP a) with (PGROUNDDOWN (a + PGSIZE - 1)).
  rewrite PGROUNDDOWN_eq, u32_small; [done|unfold PGSIZE in *; lia].
Qed.

Lemma PGROUNDUP_bounds a :
  0 <= a -> a + PGSIZE - 1 < 2 ^ 32 ->
  PGROUNDUP a mod PGSIZE = 0 /\ a <= PGROUNDUP a < a + PGSIZE.
Proof.
  intros. rewrite PGROUNDUP_eq by done. unfold PGSIZE in *. split; [apply Z_mod_mult|].
  pose proof (Z.div_mod (a + 4096 - 1) 4096). pose proof (Z.mod_pos_bound (a + 4096 - 1) 4096). lia.
Qed.

Lemma elem_of_pages_from n p acc v :
  v ∈ pages_from n p acc <->
  v ∈ acc \/ exists i, (i < n)%nat /\ v = p + Z.of_nat i * PGSIZE.
Proof.
  revert p acc. induction n as [|n IH]; intros p acc; simpl.
  - split; [auto|]. intros [?|(i & ? & _)]; [done|lia].
  - rewrite IH, elem_of_cons. split.
    + intros [[->|?]|(i & Hi & ->)]; [|by left|].
      * right. exists 0%nat. split; lia.
      * right. exists (S i). split; lia.
    + intros [?|([|i] & Hi & ->)]; [by left; right| |].
      * left; left. lia.
      * right. exists i. split; lia.
Qed.

Lemma kinit_loop_ok fuel p s l :
  p mod PGSIZE = 0 -> 1024 * 1024 <= p <= PHYSTOP ->
  (PHYSTOP - p) / PGSIZE < Z.of_nat fuel ->
  LkKmem ∉ s.(held) -> free_pages s l -> (forall v, v ∈ l -> v < p) ->
  exists s', kinit_loop fuel p s = Ok tt s' /\
    free_pages s' (pages_from (Z.to_nat ((PHYSTOP - p) / PGSIZE)) p l).
Proof.
  unfold PHYSTOP, PGSIZE in *.
  revert p s l. induction fuel as [|f IH]; intros p s l Hp Hr Hf Hk Hl Hlt.
  { pose proof (Z.div_pos (16777216 - p) 4096). lia. }
  cbn [kinit_loop]. unfold PGSIZE, PHYSTOP.
  pose proof (Z.div_mod p 4096). pose proof (Z.div_mod (16777216 - p) 4096).
  pose proof (Z.mod_pos_bound (16777216 - p) 4096).
  destruct (Z.ltb_spec (p + 4096 - 1) 16777216) as [Hc|Hc].
  - assert (page_ok p) as Hpo by (unfold page_ok, PHYSTOP, PGSIZE; lia).
    assert (p ∉ l) by (intros ?%Hlt; lia).
    rewrite (kbind_Ok _ _ _ _ _ (kfree_ok p s Hpo Hk)).
    assert ((16777216 - p) / 4096 = 1 + (16777216 - (p + 4096)) / 4096) as Hd.
    { replace (16777216 - p) with ((16777216 - (p + 4096)) + 1 * 4096) by lia.
      rewrite Z.div_add by lia. lia. }
    edestruct (IH (p + 4096)) as (s' & E & Hs'); [..|exists s'; split; [exact E|]].
    + rewrite <- Z.add_mod_idemp_r, Z.mod_same, Z.add_0_r by lia. done.
    + lia.
    + lia.
    + done.
    + by apply kfree_free_pages.
    + intros v [->|Hv]%elem_of_cons; [lia|]. specialize (Hlt v Hv). lia.
    + rewrite Hd. rewrite Z2Nat.inj_add by (try lia; apply Z.div_pos; lia). exact Hs'.
  - assert (p = 16777216) as -> by lia. exists s. split; [done|]. by simpl.
Qed.

Lemma kinit_loop_frame fuel p s s' :
  kinit_loop fuel p s = Ok tt s' -> s'.(held) = s.(held) /\ s'.(con) = s.(con).
Proof.
  revert p s. induction fuel as [|f IH]; intros p s; cbn [kinit_loop]; [done|].
  destruct (_ <? _); [|by intros [=->]]. unfold kfree. destruct (kfree_bad p); [done|].
  intros (u & s1 & E & H)%kbind_Ok_inv. apply IH in H as [-> ->]. krun.
  destruct (acquire LkKmem _) as [[] s2|?|?|?] eqn:Ea; try done.
  apply acquire_Ok in Ea as (Hk & ->). cbn in E. rewrite (release_top LkKmem s.(held)) in E by reflexivity.
  by injection E as _ <-.
Qed.

Lemma length_pages_from n p acc : length (pages_from n p acc) = (n + length acc)%nat.
Proof. revert p acc. induction n as [|n IH]; intros p acc; simpl; [done|]. rewrite IH. simpl. lia. Qed.

(** ** Properties *)

(** C32: [kalloc] and [kfree] implement a stack of free pages: [kalloc] pops the
    first page, or returns 0 and changes nothing when there is none; [kfree]
    pushes a page that is not already free and writes inside that page only;
    an address that is not a page of the pool makes [kfree] panic. *)
Theorem kmem_refines_stack (s : kstate) (l : list Z) :
  free_pages s l -> LkKmem ∉ s.(held) ->
  match l with
  | [] => kalloc s = Ok 0 s
  | p :: l' => exists f, kalloc s = Ok p (set_freelist f s) /\ free_pages (set_freelist f s) l'
  end
  /\ (forall v, page_ok v -> v ∉ l ->
        exists m, kfree v s = Ok tt (set_freelist v (set_pmem m s))
          /\ free_pages (set_freelist v (set_pmem m s)) (v :: l)
          /\ forall b, b < v \/ v + PGSIZE <= b -> load8 m b = load8 s.(pmem) b)
  /\ (forall v, ~ page_ok v -> kfree v s = Panic "kfree").
Proof.
  intros Hl Hk. split_and!.
  - destruct l as [|p l']; [|by apply kalloc_free_pages].
    destruct Hl as [Hf _]. simpl in Hf. by rewrite kalloc_ok, Hf.
  - intros v Hv Hn. eexists. split; [by apply kfree_ok|]. split.
    + by apply kfree_free_pages.
    + intros b Hb. by apply load8_kfree_mem_frame.
  - intros v Hv. by apply kfree_bad_panic.
Qed.

Lemma kmem_refines_stack_witness :
  exists f s, kfree 0x100000 bare_state = Ok tt s /\ kalloc s = Ok 0x100000 (set_freelist f s).
Proof.
  assert (free_pages bare_state []) as H0 by (split; [done | constructor]).
  assert (page_ok 0x100000) as Hp by (unfold page_ok, PHYSTOP; split; [reflexivity | lia]).
  destruct (kmem_refines_stack bare_state [] H0) as (_ & Hf & _); [apply not_elem_of_nil|].
  destruct (Hf 0x100000 Hp) as (m & E & Hs & _); [apply not_elem_of_nil|].
  destruct (kmem_refines_stack _ _ Hs) as ((f & Ea & _) & _); [apply not_elem_of_nil|].
  eauto.
Defined.

(** Starting from an empty free list, [kinit] terminates and leaves exactly
    the whole pages between the end of the kernel image and [PHYSTOP] free,
    each once. *)
Theorem kinit_frees_all (s : kstate) (kend : Z) :
  1024 * 1024 <= kend <= PHYSTOP -> s.(freelist) = 0 -> LkKmem ∉ s.(held) ->
  exists s' l, kinit kend s = Ok tt s' /\ free_pages s' l /\
    forall v, v ∈ l <-> page_ok v /\ kend <= v.
Proof.
  intros Hend H0 Hk. destruct (PGROUNDUP_bounds kend) as [Hm Hb];
    [lia|unfold PHYSTOP, PGSIZE in *; lia|].
  unfold kinit. set (p := PGROUNDUP kend) in *.
  assert (p <= PHYSTOP) as Hp.
  { unfold PHYSTOP, PGSIZE in *. pose proof (Z.div_mod p 4096). lia. }
  edestruct (kinit_loop_ok (Z.to_nat (PHYSTOP / PGSIZE) + 1) p s []) as (s' & E & Hs').
  - done.
  - lia.
  - change (Z.of_nat (Z.to_nat (PHYSTOP / PGSIZE) + 1)) with 4097.
    unfold PHYSTOP, PGSIZE in *. pose proof (Z.div_le_mono (16777216 - p) 16777216 4096).
    change (16777216 / 4096) with 4096 in *. lia.
  - done.
  - split; [done | constructor].
  - intros v []%not_elem_of_nil.
  - exists s', (pages_from (Z.to_nat ((PHYSTOP - p) / PGSIZE)) p []). split_and!; [done|done|].
    intros v. rewrite elem_of_pages_from. unfold page_ok, PHYSTOP, PGSIZE in *.
    pose proof (Z.div_mod p 4096). pose proof (Z.div_mod (16777216 - p) 4096).
    pose proof (Z.mod_pos_bound (16777216 - p) 4096).
    split.
    + intros [[]%not_elem_of_nil|(i & Hi & ->)]. rewrite Z_mod_plus_full. lia.
    + intros [[Hv Hr] Hge]. right. pose proof (Z.div_mod v 4096).
      exists (Z.to_nat ((v - p) / 4096)).
      assert (v - p = (v / 4096 - p / 4096) * 4096) as E' by lia.
      rewrite E', Z.div_mul by lia. lia.
Qed.

Lemma kinit_frees_all_witness :
  exists s' l, kinit (PHYSTOP - 8000) bare_state = Ok tt s' /\ free_pages s' l
    /\ (PHYSTOP - 4096) ∈ l /\ PHYSTOP - 8192 ∉ l.
Proof.
  destruct (kinit_frees_all bare_state (PHYSTOP - 8000)) as (s' & l & E & Hl & Hv);
    [unfold PHYSTOP; lia|done|apply not_elem_of_nil|].
  exists s', l. split_and!; [done|done| |]; rewrite Hv; unfold page_ok, PHYSTOP, PGSIZE.
  - split; [split; [reflexivity|lia]|lia].
  - lia.
Defined.
