(* ===== verification/ProcSync.v ===== *)
(** Process synchronisation: sleep, wakeup, sched, yield, kill, nice and
    clockticks of proc.c.

    [sched] is where a process gives up the CPU: it is the [Block] outcome.
    [sleep] is split at that point into the part before the context switch
    ([sleep]) and the part that runs when the process is scheduled again
    ([sleep_return]).  Every caller of [sleep] sits in a loop that re-tests its
    condition, so resuming means running the caller's loop again. *)

From S2P Require Import Prelude State.

(** [clockticks()] of proc.c: read [ticks] under its lock. *)
Definition proc_clockticks : K Z :=
  acquire LkTicks ;;;
  let* xticks := kget (fun s => s.(ticks)) in
  release LkTicks ;;;
  kret (s32 xticks).

(** One table entry under [wakeup1(c)]. *)
Definition wake_one (c : chan) (p : proc) : proc :=
  if decide (p.(p_state) = SLEEPING /\ p.(p_chan) = Some c)
  then set_p_state RUNNABLE p else p.

Definition wakeup1 (c : chan) : K unit :=
  kmod (fun s => set_ptable (wake_one c <$> s.(ptable)) s).

Definition wakeup (c : chan) : K unit :=
  acquire LkPtable ;;; wakeup1 c ;;; release LkPtable.

(** Enter the scheduler.  A CPU that holds a lock runs with interrupts off. *)
Definition sched : K unit :=
  let* hl := kget (holding LkPtable) in
  if negb hl then panic "sched ptable.lock" else
  let* n := kget (fun s => length s.(held)) in
  if negb (n =? 1)%nat then panic "sched locks" else
  let* i := myproc in
  let* p := get_proc i in
  if decide (p.(p_state) = RUNNING) then panic "sched running" else
  fun s => Block s.

Definition sleep (c : chan) (lk : lockid) : K unit :=
  let* cur := kget (fun s => s.(curproc)) in
  match cur with
  | None => panic "sleep"
  | Some i =>
      (if decide (lk = LkPtable) then kret tt
       else acquire LkPtable ;;; release lk) ;;;
      mod_proc i (fun p => set_p_state SLEEPING (set_p_chan (Some c) p)) ;;;
      sched
  end.

(** What [sleep] does after [sched] returns, with ptable.lock held. *)
Definition sleep_return (lk : lockid) : K unit :=
  let* i := myproc in
  mod_proc i (set_p_chan None) ;;;
  (if decide (lk = LkPtable) then kret tt
   else release LkPtable ;;; acquire lk).

Definition yield : K unit :=
  acquire LkPtable ;;;
  let* i := myproc in
  mod_proc i (set_p_state RUNNABLE) ;;;
  sched ;;;
  release LkPtable.

(** The first table entry with the given pid is killed, whatever its state. *)
Definition kill (pid : Z) : K Z :=
  acquire LkPtable ;;;
  let* t := kget (fun s => s.(ptable)) in
  match list_find (fun p => p.(p_pid) = pid) t with
  | Some (i, p) =>
      mod_proc i (set_p_killed 1) ;;;
      (if decide (p.(p_state) = SLEEPING)
       then mod_proc i (set_p_state RUNNABLE) else kret tt) ;;;
      release LkPtable ;;;
      kret 0
  | None => release LkPtable ;;; kret (-1)
  end.

Definition nice : K Z :=
  let* i := myproc in
  let* p := get_proc i in
  let bef := if p.(p_priority) =? 0 then 1 else 0 in
  acquire LkPtable ;;;
  mod_proc i (fun p => set_p_priority (s32 (1 - p.(p_priority))) p) ;;;
  release LkPtable ;;;
  let* p' := get_proc i in
  kret (if p'.(p_priority) =? bef then 1 else 0).

(** ** Lemmas *)

Lemma proc_clockticks_ok s :
  LkTicks ∉ s.(held) -> proc_clockticks s = Ok (s32 s.(ticks)) s.
Proof.
  intros Hk. unfold proc_clockticks. krun. rewrite acquire_free by done. cbn.
  by rewrite (release_top LkTicks s.(held)).
Qed.

Lemma wakeup_ok c s :
  LkPtable ∉ s.(held) -> wakeup c s = Ok tt (set_ptable (wake_one c <$> s.(ptable)) s).
Proof.
  intros Hk. unfold wakeup, wakeup1. krun. rewrite acquire_free by done. cbn.
  by rewrite (release_top LkPtable s.(held)).
Qed.

Lemma wake_one_same c p : wake_one c p = p \/ wake_one c p = set_p_state RUNNABLE p.
Proof. unfold wake_one. case_decide; auto. Qed.

Lemma wake_one_other c p :
  ~ (p.(p_state) = SLEEPING /\ p.(p_chan) = Some c) -> wake_one c p = p.
Proof. intros. unfold wake_one. by rewrite decide_False. Qed.

Lemma wake_one_sleeper c p :
  p.(p_state) = SLEEPING -> p.(p_chan) = Some c -> wake_one c p = set_p_state RUNNABLE p.
Proof. intros. unfold wake_one. by rewrite decide_True. Qed.

(** The state in which [sleep] hands the CPU to the scheduler. *)
Definition asleep (i : nat) (p : proc) (c : chan) (s : kstate) : kstate :=
  set_held [LkPtable]
    (set_ptable (<[i := set_p_state SLEEPING (set_p_chan (Some c) p)]> s.(ptable)) s).

Lemma sched_block s i p :
  s.(held) = [LkPtable] -> s.(curproc) = Some i -> s.(ptable) !! i = Some p ->
  p.(p_state) <> RUNNING -> sched s = Block s.
Proof.
  intros Hh Hc Hp Hr. unfold sched, myproc, get_proc. krun. unfold holding. rewrite Hh.
  rewrite bool_decide_eq_true_2 by left. simpl. rewrite Hh. simpl. rewrite Hc, Hp.
  by rewrite decide_False.
Qed.

Lemma mod_proc_run i f s p :
  s.(ptable) !! i = Some p -> mod_proc i f s = Ok tt (set_ptable (<[i := f p]> s.(ptable)) s).
Proof. intros Hp. apply mod_proc_Ok. eauto. Qed.

Lemma sleep_block c lk s i p :
  s.(curproc) = Some i -> s.(ptable) !! i = Some p -> s.(held) = [lk] ->
  sleep c lk s = Block (asleep i p c s).
Proof.
  intros Hc Hp Hh. unfold sleep.
  assert (forall s', s' = set_held [LkPtable] s ->
    kbind (mod_proc i (fun p => set_p_state SLEEPING (set_p_chan (Some c) p)))
      (fun _ => sched) s' = Block (asleep i p c s)) as Hs.
  { intros s' ->. kexec (mod_proc_run i _ _ p).
    eapply sched_block; [done|exact Hc| |].
    - cbn. apply list_lookup_insert_eq. by eapply lookup_lt_Some.
    - done. }
  unfold kget, kbind at 1. rewrite Hc. destruct (decide (lk = LkPtable)) as [->|Hn].
  - rewrite kbind_Ok with (a := tt) (s1 := s) by done. apply Hs. by rewrite <- Hh.
  - rewrite kbind_assoc.
    kexec by (apply acquire_free; rewrite Hh; set_solver).
    erewrite (kbind_Ok (release lk)); [by apply Hs|].
    rewrite release_held by (cbn; rewrite Hh; set_solver). cbn.
    by rewrite decide_False, Hh, rm1_cons by done.
Qed.

Lemma sleep_return_run lk s i q :
  s.(curproc) = Some i -> s.(ptable) !! i = Some q -> s.(held) = [LkPtable] ->
  sleep_return lk s = Ok tt (set_held [lk] (set_ptable (<[i := set_p_chan None q]> s.(ptable)) s)).
Proof.
  intros Hc Hq Hh. unfold sleep_return, myproc, kbind at 1. rewrite Hc. kexec (mod_proc_run i _ _ q).
  destruct (decide (lk = LkPtable)) as [->|Hn].
  - unfold kret. f_equal. rewrite <- Hh. by destruct s.
  - kexec by (apply release_held; cbn; rewrite Hh; set_solver). cbn. rewrite Hh. cbn. rewrite decide_True by done.
    by rewrite acquire_free by apply not_elem_of_nil.
Qed.

(** The effect of [kill] on the entry it finds. *)
Definition killed_entry (p : proc) : proc :=
  set_p_state (if decide (p.(p_state) = SLEEPING) then RUNNABLE else p.(p_state))
    (set_p_killed 1 p).

Lemma kill_found pid s i p :
  LkPtable ∉ s.(held) -> list_find (fun p => p.(p_pid) = pid) s.(ptable) = Some (i, p) ->
  kill pid s = Ok 0 (set_ptable (<[i := killed_entry p]> s.(ptable)) s).
Proof.
  intros Hk Hf. apply list_find_Some in Hf as H. destruct H as (Hp & _ & _).
  unfold kill, killed_entry. kexec acquire_free.
  unfold kget, kbind at 1. cbn. rewrite Hf.
  kexec (mod_proc_run i _ _ p).
  assert (i < length s.(ptable))%nat by (by eapply lookup_lt_Some).
  destruct (decide (p_state p = SLEEPING)) as [Hs|Hs].
  - kexec by (apply mod_proc_run; cbn; by apply list_lookup_insert_eq).
    cbn. rewrite list_insert_insert_eq.
    by kexec (release_top LkPtable s.(held)).
  - cbn. by kexec (release_top LkPtable s.(held)).
Qed.

Lemma kill_not_found pid s :
  LkPtable ∉ s.(held) -> list_find (fun p => p.(p_pid) = pid) s.(ptable) = None ->
  kill pid s = Ok (-1) s.
Proof.
  intros Hk Hf. unfold kill. kexec acquire_free.
  unfold kget, kbind at 1. cbn. rewrite Hf.
  by kexec (release_top LkPtable s.(held)).
Qed.

Lemma nice_run s i p :
  s.(curproc) = Some i -> s.(ptable) !! i = Some p -> LkPtable ∉ s.(held) ->
  let v := s32 (1 - p.(p_priority)) in
  nice s = Ok (if v =? (if p.(p_priority) =? 0 then 1 else 0) then 1 else 0)
              (set_ptable (<[i := set_p_priority v p]> s.(ptable)) s).
Proof.
  intros Hc Hp Hk v. assert (i < length s.(ptable))%nat by (by eapply lookup_lt_Some).
  unfold nice, myproc, kbind at 1. rewrite Hc.
  kexec by (by apply get_proc_Ok). kexec acquire_free.
  kexec (mod_proc_run i _ _ p). kexec (release_top LkPtable s.(held)).
  kexec by (apply get_proc_Ok; split; [cbn; by apply list_lookup_insert_eq|done]).
  done.
Qed.

(** A process with nothing in it, to build concrete tables. *)
Definition zero_tf : trapframe := mk_trapframe 0 0 0 0 0 0 0 0 0 0 0 0 0 0 0 0 0 0 0.
Definition unused_proc : proc :=
  mk_proc 0 0 0 UNUSED 0 None zero_tf 0 None 0 (replicate NOFILE None) None
    (replicate 16 0) 0 0 0 0.

(** ** Properties *)

(** C35: Sleeping is atomic with respect to wakeup.  When [sleep(c, lk)] gives up
    the CPU, the calling process is SLEEPING on [c], the other processes are as
    they were, and only ptable.lock is held, the caller's lock being released.
    From then on, in any state where the entry is still that one, [wakeup(c)]
    makes it RUNNABLE; at any time [wakeup(c)] makes every process asleep on [c]
    RUNNABLE, and changes nothing else.  When the process runs again, the rest of
    [sleep] clears its channel and gives up ptable.lock for the caller's lock. *)
Theorem sleep_wakeup (s : kstate) (i : nat) (p : proc) (c : chan) (lk : lockid) :
  s.(curproc) = Some i -> s.(ptable) !! i = Some p -> s.(held) = [lk] ->
  let sleeping := set_p_state SLEEPING (set_p_chan (Some c) p) in
  sleep c lk s = Block (set_held [LkPtable] (set_ptable (<[i := sleeping]> s.(ptable)) s)) /\
  (forall s2, LkPtable ∉ s2.(held) ->
   exists t, wakeup c s2 = Ok tt (set_ptable t s2) /\ length t = length s2.(ptable) /\
     (s2.(ptable) !! i = Some sleeping -> t !! i = Some (set_p_state RUNNABLE sleeping)) /\
     forall j q, s2.(ptable) !! j = Some q ->
       (q.(p_state) = SLEEPING -> q.(p_chan) = Some c -> t !! j = Some (set_p_state RUNNABLE q)) /\
       (q.(p_state) <> SLEEPING \/ q.(p_chan) <> Some c -> t !! j = Some q)) /\
  (forall s4 q, s4.(curproc) = Some i -> s4.(ptable) !! i = Some q -> s4.(held) = [LkPtable] ->
   sleep_return lk s4 = Ok tt (set_held [lk] (set_ptable (<[i := set_p_chan None q]> s4.(ptable)) s4))).
Proof.
  intros Hc Hp Hh sleeping. split; [by apply sleep_block|]. split; [|intros s4 q; by apply sleep_return_run].
  intros s2 Hk. exists (wake_one c <$> s2.(ptable)). split; [by apply wakeup_ok|]. split; [by rewrite length_fmap|].
  assert (forall j q, s2.(ptable) !! j = Some q -> (wake_one c <$> s2.(ptable)) !! j = Some (wake_one c q)) as Hw.
  { intros j q Hj. by rewrite list_lookup_fmap, Hj. }
  split; [|intros j q Hj; split].
  - intros Hi. by rewrite (Hw _ _ Hi), wake_one_sleeper.
  - intros H1 H2. by rewrite (Hw _ _ Hj), wake_one_sleeper.
  - intros Hn. rewrite (Hw _ _ Hj), wake_one_other by tauto. done.
Qed.

Lemma sleep_wakeup_witness :
  exists s1 t, sleep ChTicks LkTicks
    (set_held [LkTicks] (set_curproc (Some 0%nat) (set_ptable [unused_proc] bare_state))) = Block s1
  /\ wakeup ChTicks (set_held [] s1) = Ok tt (set_ptable t (set_held [] s1))
  /\ exists q, t !! 0%nat = Some q /\ q.(p_state) = RUNNABLE.
Proof.
  destruct (sleep_wakeup
    (set_held [LkTicks] (set_curproc (Some 0%nat) (set_ptable [unused_proc] bare_state)))
    0 unused_proc ChTicks LkTicks) as (E1 & H & _); [done|done|done|].
  eexists. destruct (H (set_held [] (set_held [LkPtable] (set_ptable
    [set_p_state SLEEPING (set_p_chan (Some ChTicks) unused_proc)] (set_held [LkTicks]
    (set_curproc (Some 0%nat) (set_ptable [unused_proc] bare_state))))))) as (t & E3 & _ & Hi & _); [apply not_elem_of_nil|].
  exists t. split; [exact E1|]. split; [exact E3|]. eexists. split; [by apply Hi|done].
Defined.

(** [kill] returns 0 exactly when some table entry carries the pid; then the
    first such entry, and no other, has its killed flag set and, if it was
    asleep, is made runnable so that it can notice; otherwise it returns -1 and
    changes nothing. *)
Theorem kill_correct (s : kstate) (pid : Z) :
  LkPtable ∉ s.(held) ->
  (exists i p s', s.(ptable) !! i = Some p /\ p.(p_pid) = pid
     /\ kill pid s = Ok 0 s'
     /\ s'.(ptable) !! i = Some (killed_entry p)
     /\ forall j, j <> i -> s'.(ptable) !! j = s.(ptable) !! j)
  \/ ((forall i p, s.(ptable) !! i = Some p -> p.(p_pid) <> pid) /\ kill pid s = Ok (-1) s).
Proof.
  intros Hk. destruct (list_find (fun p => p.(p_pid) = pid) s.(ptable)) as [[i p]|] eqn:Hf.
  - left. apply list_find_Some in Hf as H. destruct H as (Hp & Hpid & _).
    exists i, p. eexists. split_and!; [done|done|by apply kill_found| |]; cbn.
    + apply list_lookup_insert_eq. by eapply lookup_lt_Some.
    + intros j Hj. by apply list_lookup_insert_ne.
  - right. split; [|by apply kill_not_found].
    intros i p Hp. exact (list_find_None_lookup _ _ _ _ Hf Hp).
Qed.

Lemma kill_correct_witness :
  exists s', kill 7 (set_ptable [unused_proc; set_p_state SLEEPING (set_p_pid 7 unused_proc)]
                       bare_state) = Ok 0 s'.
Proof.
  destruct (kill_correct (set_ptable [unused_proc;
    set_p_state SLEEPING (set_p_pid 7 unused_proc)] bare_state) 7)
    as [(i & p & s' & _ & _ & E & _)|[H _]]; [apply not_elem_of_nil|by exists s'|].
  destruct (H 1%nat _ eq_refl). reflexivity.
Defined.

(** [nice] toggles the priority of the calling process between 0 (high) and
    1 (low), touches nothing else, and reports 1. *)
Theorem nice_toggles (s : kstate) (i : nat) (p : proc) :
  s.(curproc) = Some i -> s.(ptable) !! i = Some p -> LkPtable ∉ s.(held) ->
  p.(p_priority) = 0 \/ p.(p_priority) = 1 ->
  nice s = Ok 1 (set_ptable (<[i := set_p_priority (1 - p.(p_priority)) p]> s.(ptable)) s).
Proof.
  intros Hc Hp Hk Hpr. rewrite (nice_run s i p) by done. rewrite s32_small by lia.
  destruct Hpr as [->| ->]; done.
Qed.

Lemma nice_toggles_witness :
  exists s', nice (set_curproc (Some 0%nat) (set_ptable [unused_proc] bare_state)) = Ok 1 s'
  /\ (exists q, s'.(ptable) !! 0%nat = Some q /\ q.(p_priority) = 1).
Proof.
  eexists. split; [apply (nice_toggles _ 0 unused_proc); [done|done|apply not_elem_of_nil|by left]|].
  eexists. split; reflexivity.
Defined.
