(* ===== verification/Console.v ===== *)
(** The console: output and the input interrupt of console.c, uartputc of
    uart.c, kbdgetc of kbd.c, and procdump of proc.c.

    Output goes to the serial port and to CGA memory.  Input arrives in
    [consoleintr], which edits the current line in the ring [input.buf] and
    hands finished lines to [consoleread] (file ConsoleDev).  A device interrupt
    is modelled with the list of values the device's [getc] returns before -1. *)

From S2P Require Import Prelude CString State ProcSync.

Definition BACKSPACE : Z := 0x100.
Definition INPUT_BUF : Z := 128.
Definition HISTORY_SIZE : Z := 16.
Definition COLS : Z := 80.

(** [C(x)], control characters. *)
Definition C (x : Z) : Z := x - 64.

Definition mod_con (f : console -> console) : K unit := kmod (fun s => set_con (f s.(con)) s).

(** ** Output *)

Definition uartputc (c : Z) : K unit :=
  mod_con (fun k => if k.(c_uart) then set_c_serial (k.(c_serial) ++ [u8 c]) k else k).

(** [crt[pos] = v], inside the screen. *)
Definition crt_put (pos v : Z) (crt : list Z) : option (list Z) :=
  if (0 <=? pos) && (pos <? Z.of_nat (length crt)) then Some (<[Z.to_nat pos := v]> crt) else None.

(** Scrolling: the rows move up by one, and the rest of the 24 rows is cleared. *)
Definition crt_scroll (pos : Z) (crt : list Z) : option (Z * list Z) :=
  if pos / 80 >=? 24 then
    let crt1 := take (23 * 80) (drop 80 crt) ++ drop (23 * 80) crt in
    let pos := pos - 80 in
    if pos <=? 24 * 80 then
      Some (pos, take (Z.to_nat pos) crt1 ++ replicate (Z.to_nat (24 * 80 - pos)) 0 ++ drop (24 * 80) crt1)
    else None
  else Some (pos, crt).

Definition cgaputc (c : Z) (k : console) : option console :=
  let pos := k.(c_pos) in
  match
    (if c =? 10 then Some (pos + (80 - pos mod 80), k.(c_crt))
     else if c =? BACKSPACE then Some (if pos >? 0 then pos - 1 else pos, k.(c_crt))
     else match crt_put pos (Z.lor (Z.land c 0xff) 0x0700) k.(c_crt) with
          | Some crt => Some (pos + 1, crt)
          | None => None
          end)
  with
  | None => None
  | Some (pos, crt) =>
      match crt_scroll pos crt with
      | None => None
      | Some (pos, crt) =>
          match crt_put pos (Z.lor 32 0x0700) crt with
          | None => None
          | Some crt => Some (set_c_pos (u16 pos) (set_c_crt crt k))
          end
      end
  end.

(** After a panic every CPU that prints stops for good. *)
Definition consputc (c : Z) : K unit :=
  let* k := kget (fun s => s.(con)) in
  if k.(c_panicked) then panic "panicked" else
  (if c =? BACKSPACE then uartputc 8 ;;; uartputc 32 ;;; uartputc 8 else uartputc c) ;;;
  let* k := kget (fun s => s.(con)) in
  let* k' := klift "crt" (cgaputc c k) in
  kmod (set_con k').

(** [digits[d]]. *)
Definition digit (d : Z) : Z := if d <? 10 then 48 + d else 87 + d.

(** The [do .. while] loop: digits of [x], least significant first.  A 32-bit
    number has at most 32 digits in any base. *)
Fixpoint digits_rev (fuel : nat) (base x : Z) : list Z :=
  match fuel with
  | O => []
  | S f => digit (x mod base) :: (if x / base =? 0 then [] else digits_rev f base (x / base))
  end.

(** The characters [printint] puts out. *)
Definition int_text (xx base : Z) (sgn : bool) : list Z :=
  let neg := sgn && (xx <? 0) in
  let x := if neg then u32 (- xx) else u32 xx in
  rev (digits_rev 32 base x ++ if neg then [45] else []).

Definition printint (xx base : Z) (sgn : bool) : K unit := kfor (int_text xx base sgn) consputc.

(** Arguments of [cprintf]: a number, or a string, or the null pointer. *)
Inductive parg := AInt (v : Z) | AStr (s : option (list Z)).

Fixpoint cprintf_loop (fmt : list Z) (args : list parg) : K unit :=
  match fmt with
  | [] => kret tt
  | c :: r =>
      if negb (c =? 37) then consputc c ;;; cprintf_loop r args
      else
        match r with
        | [] => kret tt
        | d :: r' =>
            if d =? 100 then
              match args with
              | AInt v :: a => printint v 10 true ;;; cprintf_loop r' a
              | _ => kfault "argument"
              end
            else if (d =? 120) || (d =? 112) then
              match args with
              | AInt v :: a => printint v 16 false ;;; cprintf_loop r' a
              | _ => kfault "argument"
              end
            else if d =? 115 then
              match args with
              | AStr o :: a => kfor (default (str "(null)") o) consputc ;;; cprintf_loop r' a
              | _ => kfault "argument"
              end
            else if d =? 37 then consputc 37 ;;; cprintf_loop r' args
            else consputc 37 ;;; consputc d ;;; cprintf_loop r' args
        end
  end.

Definition cprintf (fmt : list Z) (args : list parg) : K unit :=
  let* k := kget (fun s => s.(con)) in
  let locking := k.(c_locking) in
  (if locking then acquire LkCons else kret tt) ;;;
  cprintf_loop fmt args ;;;
  (if locking then release LkCons else kret tt).

(** ** The keyboard (kbd.c, kbd.h) *)

Definition SHIFT : Z := 1.
Definition CTL : Z := 2.
Definition ALT : Z := 4.
Definition CAPSLOCK : Z := 8.
Definition NUMLOCK : Z := 16.
Definition SCROLLLOCK : Z := 32.
Definition E0ESC : Z := 64.

(** An array of 256 bytes given by its first elements and by designators. *)
Definition table (l : list Z) (o : list (Z * Z)) (i : Z) : Z :=
  match list_find (fun e => e.1 = i) o with
  | Some (_, e) => e.2
  | None => default 0 (l !! Z.to_nat i)
  end.

Definition shiftcode : Z -> Z :=
  table [] [(0x1D, CTL); (0x2A, SHIFT); (0x36, SHIFT); (0x38, ALT); (0x9D, CTL); (0xB8, ALT)].
Definition togglecode : Z -> Z := table [] [(0x3A, CAPSLOCK); (0x45, NUMLOCK); (0x46, SCROLLLOCK)].

(** The designators all three maps end with, after the keypad's Enter and '/'. *)
Definition special_keys : list (Z * Z) :=
  [(0xC8, 0xE2); (0xD0, 0xE3); (0xC9, 0xE6); (0xD1, 0xE7); (0xCB, 0xE4); (0xCD, 0xE5);
   (0x97, 0xE0); (0xCF, 0xE1); (0xD2, 0xE8); (0xD3, 0xE9)].

(** Codes 0x36 to 0x53 of the first two maps, which are the same. *)
Definition keypad : list Z :=
  [0; 42; 0; 32] ++ replicate 13 0 ++ str "789-456+1230." ++ [0; 0; 0; 0].

Definition normalmap : Z -> Z :=
  table ([0; 27] ++ str "1234567890-=" ++ [8; 9] ++ str "qwertyuiop[]" ++ [10; 0] ++
         str "asdfghjkl;" ++ [39; 96; 0; 92] ++ str "zxcvbnm,./" ++ keypad)
        ([(0x9C, 10); (0xB5, 47)] ++ special_keys).

Definition shiftmap : Z -> Z :=
  table ([0; 27] ++ str "!@#$%^&*()_+" ++ [8; 9] ++ str "QWERTYUIOP{}" ++ [10; 0] ++
         str "ASDFGHJKL:" ++ [34; 126; 0; 124] ++ str "ZXCVBNM<>?" ++ keypad)
        ([(0x9C, 10); (0xB5, 47)] ++ special_keys).

Definition ctlmap : Z -> Z :=
  table (replicate 16 0 ++ (C <$> str "QWERTYUIOP") ++ [0; 0; 13; 0] ++ (C <$> str "ASDFGHJKL") ++
         [0; 0; 0; 0; C 92] ++ (C <$> str "ZXCVBNM") ++ [0; 0; u8 (C 47); 0; 0])
        ([(0x9C, 13); (0xB5, u8 (C 47))] ++ special_keys).

(** [charcode[shift & (CTL | SHIFT)]]. *)
Definition charcode (sh : Z) : Z -> Z :=
  if sh =? 0 then normalmap else if sh =? 1 then shiftmap else ctlmap.

(** One scan code: the new [shift] and the character returned. *)
Definition kbdgetc (shift data : Z) : Z * Z :=
  if data =? 0xE0 then (Z.lor shift E0ESC, 0)
  else if negb (Z.land data 0x80 =? 0) then
    let data := if negb (Z.land shift E0ESC =? 0) then data else Z.land data 0x7F in
    (Z.land shift (lnot32 (Z.lor (shiftcode data) E0ESC)), 0)
  else
    let '(data, shift) :=
      if negb (Z.land shift E0ESC =? 0) then (Z.lor data 0x80, Z.land shift (lnot32 E0ESC))
      else (data, shift) in
    let shift := Z.lxor (Z.lor shift (shiftcode data)) (togglecode data) in
    let c := charcode (Z.land shift (Z.lor CTL SHIFT)) data in
    let c :=
      if negb (Z.land shift CAPSLOCK =? 0) then
        if (97 <=? c) && (c <=? 122) then c + (65 - 97)
        else if (65 <=? c) && (c <=? 90) then c + (97 - 65) else c
      else c in
    (shift, c).

(** The characters of a sequence of scan codes. *)
Fixpoint kbd_chars (shift : Z) (data : list Z) : Z * list Z :=
  match data with
  | [] => (shift, [])
  | d :: r => let '(s1, c) := kbdgetc shift d in let '(s2, l) := kbd_chars s1 r in (s2, c :: l)
  end.

(** ** Process listing *)

(** The program counters [getcallerpcs] finds on the kernel stack of a sleeping
    process: stack frames are compiled code's, not part of the state. *)
Class KStack := { callers : nat -> list Z }.

Definition state_name (st : procstate) : list Z :=
  match st with
  | UNUSED => str "unused" | EMBRYO => str "embryo" | SLEEPING => str "sleep "
  | RUNNABLE => str "runble" | RUNNING => str "run   " | ZOMBIE => str "zombie"
  end.

(** [for(i=0; i<10 && pc[i] != 0; i++) cprintf(" %p", pc[i])]. *)
Fixpoint dump_pcs (n : nat) (pcs : list Z) : K unit :=
  match n, pcs with
  | S n', pc :: r => if pc =? 0 then kret tt else cprintf (str " %p") [AInt pc] ;;; dump_pcs n' r
  | _, _ => kret tt
  end.

Definition procdump `{KStack} : K unit :=
  let* n := kget (fun s => length s.(ptable)) in
  kfor (seq 0 n) (fun i =>
    let* p := get_proc i in
    if decide (p.(p_state) = UNUSED) then kret tt else
    cprintf (str "%d %s %s")
      [AInt p.(p_pid); AStr (Some (state_name p.(p_state))); AStr (Some (upto_nul p.(p_name) 16))] ;;;
    (if decide (p.(p_state) = SLEEPING) then dump_pcs 10 (callers i) else kret tt) ;;;
    cprintf [10] []).

(** ** Input *)

Definition input_at (k : console) (i : Z) : Z := default 0 (k.(c_buf) !! Z.to_nat (i mod INPUT_BUF)).
Definition input_put (c : Z) (k : console) : console :=
  set_c_e (u32 (k.(c_e) + 1)) (set_c_buf (<[Z.to_nat (k.(c_e) mod INPUT_BUF) := u8 c]> k.(c_buf)) k).

(** The kill-line loop; [input.e - input.w] rounds at most. *)
Fixpoint kill_line (fuel : nat) : K unit :=
  let* k := kget (fun s => s.(con)) in
  if negb (k.(c_e) =? k.(c_w)) && negb (input_at k (u32 (k.(c_e) - 1)) =? 10) then
    match fuel with
    | O => kfault "fuel"
    | S f =>
        mod_con (set_c_e (u32 (k.(c_e) - 1))) ;;;
        consputc BACKSPACE ;;;
        kill_line f
    end
  else kret tt.

Definition kill_whole_line : K unit :=
  let* k := kget (fun s => s.(con)) in
  kill_line (Z.to_nat (u32 (k.(c_e) - k.(c_w)))).

(** [prevCmds[i][j]], inside the array. *)
Definition prev_at (k : console) (i j : Z) : option Z :=
  if (0 <=? i) && (0 <=? j) then
    match k.(c_prev) !! Z.to_nat i with
    | Some row => row !! Z.to_nat j
    | None => None
    end
  else None.

(** Copy the recalled command into the line, from its character [ind] on. *)
Fixpoint recall (fuel : nat) (ind : Z) : K Z :=
  match fuel with
  | O => kfault "fuel"
  | S f =>
      let* k := kget (fun s => s.(con)) in
      let* c := klift "prevCmds" (prev_at k k.(c_curr) ind) in
      if c =? 0 then kret ind
      else mod_con (input_put c) ;;; recall f (ind + 1)
  end.

(** The string at [prevCmds[i]]. *)
Definition prev_string (i : Z) : K (list Z) :=
  let* k := kget (fun s => s.(con)) in
  let* row := klift "prevCmds" (if 0 <=? i then k.(c_prev) !! Z.to_nat i else None) in
  if decide (0 ∈ row) then kret (upto_nul row (length row)) else kfault "unterminated".

(** Tab or up arrow: replace the line by an earlier command. *)
Definition history_key (ind : Z) : K Z :=
  let* k := kget (fun s => s.(con)) in
  if k.(c_inserted) =? 0 then kret ind else
  kill_whole_line ;;;
  let* ind := recall 101 ind in
  let* k := kget (fun s => s.(con)) in
  (if negb (k.(c_curr) =? 0) then
     let* cmd := prev_string k.(c_curr) in
     cprintf (str "%s") [AStr (Some cmd)] ;;;
     mod_con (set_c_curr (k.(c_curr) - 1))
   else
     let* cmd := prev_string 0 in
     cprintf (str "%s") [AStr (Some cmd)] ;;;
     mod_con (set_c_curr (if k.(c_inserted) <? 16 then k.(c_dim1) - 1 else 15))) ;;;
  kret ind.

(** An ordinary character. *)
Definition input_char (c : Z) : K unit :=
  let* k := kget (fun s => s.(con)) in
  if negb (c =? 0) && (u32 (k.(c_e) - k.(c_r)) <? INPUT_BUF) then
    let c := if c =? 13 then 10 else c in
    mod_con (input_put c) ;;;
    consputc c ;;;
    let* k := kget (fun s => s.(con)) in
    if (c =? 10) || (c =? C 68) || (k.(c_e) =? u32 (k.(c_r) + INPUT_BUF)) then
      mod_con (set_c_w k.(c_e)) ;;;
      wakeup ChInput
    else kret tt
  else kret tt.

(** One round of [consoleintr]; the local variable [ind] lives through the call. *)
Definition input_key `{KStack} (c ind : Z) : K Z :=
  if c =? C 80 then procdump ;;; kret ind
  else if c =? C 85 then kill_whole_line ;;; kret ind
  else if (c =? C 72) || (c =? 127) then
    let* k := kget (fun s => s.(con)) in
    (if negb (k.(c_e) =? k.(c_w)) then
       mod_con (set_c_e (u32 (k.(c_e) - 1))) ;;; consputc BACKSPACE
     else kret tt) ;;;
    kret ind
  else if (c =? C 73) || (c =? 226) then history_key ind
  else input_char c ;;; kret ind.

Fixpoint consoleintr_loop `{KStack} (cs : list Z) (ind : Z) : K unit :=
  match cs with
  | [] => kret tt
  | c :: r => let* ind := input_key c ind in consoleintr_loop r ind
  end.

Definition consoleintr `{KStack} (cs : list Z) : K unit :=
  acquire LkInput ;;; consoleintr_loop cs 0 ;;; release LkInput.

Definition kbdintr `{KStack} (data : list Z) : K unit :=
  let* k := kget (fun s => s.(con)) in
  let '(sh, cs) := kbd_chars k.(c_shift) data in
  mod_con (set_c_shift sh) ;;;
  consoleintr cs.

(** [uartintr]: nothing arrives without a serial port. *)
Definition uartintr `{KStack} (data : list Z) : K unit :=
  let* k := kget (fun s => s.(con)) in
  consoleintr (if k.(c_uart) then data else []).

(** ** Output lemmas *)

(** The screen: 25 rows of 80, the cursor on one of the first 24. *)
Definition con_ok (k : console) : Prop :=
  k.(c_panicked) = false /\ length k.(c_crt) = 2000%nat /\ 0 <= k.(c_pos) < 24 * 80.

Lemma crt_put_ok pos v crt :
  0 <= pos < Z.of_nat (length crt) -> crt_put pos v crt = Some (<[Z.to_nat pos := v]> crt).
Proof.
  intros. unfold crt_put. by rewrite (proj2 (Z.leb_le 0 pos)), (proj2 (Z.ltb_lt _ _)) by lia.
Qed.

Lemma crt_scroll_ok pos crt :
  length crt = 2000%nat -> 0 <= pos <= 24 * 80 ->
  exists pos' crt', crt_scroll pos crt = Some (pos', crt') /\ length crt' = 2000%nat /\
    0 <= pos' < 24 * 80 /\ pos' mod 80 = pos mod 80.
Proof.
  intros Hl Hp. unfold crt_scroll. rewrite Z.geb_leb. destruct (Z.leb_spec 24 (pos / 80)) as [H|H].
  - assert (pos = 1920) as -> by (pose proof (Z.div_mod pos 80 ltac:(done));
      pose proof (Z.mod_pos_bound pos 80 ltac:(done)); lia).
    eexists _, _. split; [reflexivity|]. split; [|done].
    rewrite !length_app, length_take, length_replicate, length_drop, !length_app, length_take,
      !length_drop, Hl. done.
  - exists pos, crt. split_and!; try done; [lia|].
    pose proof (Z.div_mod pos 80 ltac:(done)). pose proof (Z.mod_pos_bound pos 80 ltac:(done)). lia.
Qed.

(** Printing a character keeps the screen and the cursor in bounds; nothing but
    them changes. *)
Lemma cgaputc_ok c k :
  con_ok k -> exists crt pos, cgaputc c k = Some (set_c_pos pos (set_c_crt crt k)) /\
    length crt = 2000%nat /\ 0 <= pos < 24 * 80.
Proof.
  intros (_ & Hl & Hp). unfold cgaputc.
  pose proof (Z.div_mod k.(c_pos) 80 ltac:(done)). pose proof (Z.mod_pos_bound k.(c_pos) 80 ltac:(done)).
  assert (exists pos crt, 0 <= pos <= 24 * 80 /\ length crt = 2000%nat /\
    (if c =? 10 then Some (k.(c_pos) + (80 - k.(c_pos) mod 80), k.(c_crt))
     else if c =? BACKSPACE then Some (if k.(c_pos) >? 0 then k.(c_pos) - 1 else k.(c_pos), k.(c_crt))
     else match crt_put k.(c_pos) (Z.lor (Z.land c 0xff) 0x0700) k.(c_crt) with
          | Some crt => Some (k.(c_pos) + 1, crt)
          | None => None
          end) = Some (pos, crt)) as (pos & crt & Hpos & Hcrt & ->).
  { destruct (c =? 10); [eexists _, _; split_and!; [| |done|reflexivity]; lia|].
    destruct (c =? BACKSPACE).
    - eexists _, _. split_and!; [| |done|reflexivity]; destruct (Z.gtb_spec k.(c_pos) 0); lia.
    - rewrite crt_put_ok by (rewrite Hl; lia). eexists _, _.
      split_and!; [| | |reflexivity]; [lia|lia|by rewrite length_insert]. }
  destruct (crt_scroll_ok pos crt Hcrt Hpos) as (pos' & crt' & -> & Hl' & Hp' & _).
  rewrite crt_put_ok by (rewrite Hl'; lia). eexists _, _. split; [reflexivity|].
  split; [by rewrite length_insert|]. unfold u16. rewrite Z.mod_small; lia.
Qed.

(** What a character sends to the serial port. *)
Definition serial_of (c : Z) : list Z := if c =? BACKSPACE then [8; 32; 8] else [u8 c].

(** Output changes the screen and the serial port only. *)
Definition shown (out : list Z) (k k' : console) : Prop :=
  exists crt pos, k' = set_c_pos pos (set_c_crt crt (set_c_serial
    (if k.(c_uart) then k.(c_serial) ++ out else k.(c_serial)) k)) /\ (con_ok k -> con_ok k').

Lemma shown_trans o1 o2 k1 k2 k3 : shown o1 k1 k2 -> shown o2 k2 k3 -> shown (o1 ++ o2) k1 k3.
Proof.
  intros (c1 & p1 & -> & H1) (c2 & p2 & -> & H2). exists c2, p2. split; [|auto].
  cbn. destruct k1; cbn in *. destruct c_uart; [|done]. by rewrite app_assoc.
Qed.

Lemma shown_refl k : shown [] k k.
Proof. exists k.(c_crt), k.(c_pos). split; [|done]. destruct k; cbn. destruct c_uart; [|done]. by rewrite app_nil_r. Qed.

(** A command that only prints [out]. *)
Definition prints (out : list Z) (m : K unit) : Prop :=
  forall s, con_ok s.(con) -> exists k, m s = Ok tt (set_con k s) /\ shown out s.(con) k.

Lemma prints_ret : prints [] (kret tt).
Proof. intros s Hk. exists s.(con). split; [by destruct s|apply shown_refl]. Qed.

Lemma prints_bind o1 o2 m1 m2 : prints o1 m1 -> prints o2 m2 -> prints (o1 ++ o2) (m1 ;;; m2).
Proof.
  intros H1 H2 s Hk. destruct (H1 s Hk) as (k1 & E1 & S1).
  assert (con_ok k1) as Hk1 by (destruct S1 as (? & ? & -> & S); auto).
  destruct (H2 (set_con k1 s) Hk1) as (k2 & E2 & S2). exists k2.
  rewrite (kbind_Ok _ _ _ _ _ E1), E2. split; [done|]. by eapply shown_trans.
Qed.

Lemma prints_for {A} (l : list A) f g :
  (forall x, prints (g x) (f x)) -> prints (concat (g <$> l)) (kfor l f).
Proof. intros H. induction l; cbn; [apply prints_ret|]. by apply prints_bind. Qed.

Lemma consputc_prints c : prints (serial_of c) (consputc c).
Proof.
  intros s Hk. unfold consputc, serial_of. pose proof Hk as (Hp & Hl & Hpos).
  unfold kget at 1, kbind at 1. rewrite Hp.
  set (k1 := set_c_serial (if s.(con).(c_uart) then s.(con).(c_serial) ++
    (if c =? BACKSPACE then [8; 32; 8] else [u8 c]) else s.(con).(c_serial)) s.(con)).
  assert ((if c =? BACKSPACE then uartputc 8 ;;; uartputc 32 ;;; uartputc 8 else uartputc c) s
          = Ok tt (set_con k1 s)) as E.
  { unfold uartputc, mod_con, kmod, kbind. subst k1. destruct (c =? BACKSPACE); destruct s; cbn;
      destruct con; cbn; destruct c_uart; cbn; rewrite <- ?app_assoc; reflexivity. }
  rewrite (kbind_Ok _ _ _ _ _ E). unfold kget, kbind, klift, kmod.
  destruct (cgaputc_ok c k1) as (crt & pos & Ec & Hc & Hq); [exact (conj Hp (conj Hl Hpos))|].
  cbn [con set_con]. rewrite Ec. eexists. split; [reflexivity|].
  exists crt, pos. split; [reflexivity|]. intros _. exact (conj Hp (conj Hc Hq)).
Qed.

(** The text a format and its arguments stand for; [None] when an argument is
    missing or of the wrong kind. *)
Fixpoint format (fmt : list Z) (args : list parg) : option (list Z) :=
  match fmt with
  | [] => Some []
  | c :: r =>
      if negb (c =? 37) then app [c] <$> format r args
      else
        match r with
        | [] => Some []
        | d :: r' =>
            if d =? 100 then
              match args with
              | AInt v :: a => app (int_text v 10 true) <$> format r' a
              | _ => None
              end
            else if (d =? 120) || (d =? 112) then
              match args with
              | AInt v :: a => app (int_text v 16 false) <$> format r' a
              | _ => None
              end
            else if d =? 115 then
              match args with
              | AStr o :: a => app (default (str "(null)") o) <$> format r' a
              | _ => None
              end
            else if d =? 37 then app [37] <$> format r' args
            else app [37; d] <$> format r' args
        end
  end.

(** What a text sends to the serial port. *)
Definition serial (l : list Z) : list Z := concat (serial_of <$> l).

Lemma serial_app a b : serial (a ++ b) = serial a ++ serial b.
Proof. unfold serial. by rewrite fmap_app, concat_app. Qed.

(** Characters go out as they are. *)
Lemma serial_bytes l : Forall (fun c => 0 <= c < 256) l -> serial l = l.
Proof.
  induction 1 as [|c l Hc _ IH]; [done|]. change (serial (c :: l)) with (serial_of c ++ serial l).
  rewrite IH. unfold serial_of, BACKSPACE. rewrite (proj2 (Z.eqb_neq c _)), u8_small by lia. done.
Qed.

Lemma prints_str l : prints (serial l) (kfor l consputc).
Proof. apply prints_for. intros. apply consputc_prints. Qed.

Lemma prints_char c : prints (serial [c]) (consputc c).
Proof. unfold serial. cbn. rewrite app_nil_r. apply consputc_prints. Qed.

Lemma cprintf_loop_prints fmt args txt :
  format fmt args = Some txt -> prints (serial txt) (cprintf_loop fmt args).
Proof.
  remember (length fmt) as n eqn:Hn. assert (length fmt <= n)%nat as Hle by lia. clear Hn.
  revert fmt args txt Hle. induction n as [|n IH]; intros fmt args txt Hle Hf.
  all: destruct fmt as [|c r]; [simpl in Hf; simplify_eq; apply prints_ret|]; cbn [length] in Hle.
  { lia. }
  cbn [format cprintf_loop] in *.
  assert (forall m pre args' r0 t, prints (serial pre) m -> (length r0 <= n)%nat ->
    app pre <$> format r0 args' = Some t -> prints (serial t) (m ;;; cprintf_loop r0 args')) as Hstep.
  { intros m pre args' r0 t Hm Hr (t' & Et & Hf')%fmap_Some. rewrite Hf', serial_app.
    apply prints_bind; [done|]. by apply IH. }
  destruct (c =? 37) eqn:Ec; cbn [negb] in *.
  2:{ eapply (Hstep _ [c]); [apply prints_char|lia|done]. }
  destruct r as [|d r']; [simplify_eq; apply prints_ret|]. cbn [length] in Hle.
  destruct (d =? 100).
  { destruct args as [|[v|o] a]; simplify_eq. eapply Hstep; [apply prints_str|lia|done]. }
  destruct ((d =? 120) || (d =? 112)).
  { destruct args as [|[v|o] a]; simplify_eq. eapply Hstep; [apply prints_str|lia|done]. }
  destruct (d =? 115).
  { destruct args as [|[v|o] a]; simplify_eq. eapply Hstep; [apply prints_str|lia|done]. }
  destruct (d =? 37); [eapply (Hstep _ [37]); [apply prints_char|lia|done]|].
  apply fmap_Some in Hf as (t' & Et & ->). change ([37; d] ++ t') with ([37] ++ ([d] ++ t')).
  rewrite serial_app. apply prints_bind; [apply prints_char|].
  eapply (Hstep _ [d]); [apply prints_char|lia|]. by rewrite Et.
Qed.

Lemma cprintf_ok fmt args txt s :
  format fmt args = Some txt -> con_ok s.(con) -> LkCons ∉ s.(held) ->
  exists k, cprintf fmt args s = Ok tt (set_con k s) /\ shown (serial txt) s.(con) k.
Proof.
  intros Hf Hk Hl. unfold cprintf. unfold kget at 1, kbind at 1. destruct s.(con).(c_locking) eqn:El.
  - rewrite (kbind_Ok _ _ _ _ _ (acquire_free LkCons s Hl)).
    destruct (cprintf_loop_prints fmt args txt Hf (set_held (LkCons :: s.(held)) s) Hk) as (k & E & Hs).
    rewrite (kbind_Ok _ _ _ _ _ E). exists k. split; [|done].
    rewrite (release_top LkCons s.(held)) by reflexivity. by destruct s.
  - destruct (cprintf_loop_prints fmt args txt Hf s Hk) as (k & E & Hs). exists k.
    unfold kret at 1, kbind at 1. rewrite (kbind_Ok _ _ _ _ _ E). done.
Qed.
