(* ===== verification/Pipe.v ===== *)
(** Pipes: pipe.c.

    A pipe is a ring of [PIPESIZE] bytes between two running counters kept in
    [uint] arithmetic.  [pipe_bytes] is the queue a pipe represents; the
    theorems show that the operations are a bounded FIFO queue, for every
    interleaving of readers and writers and across the wrap-around of the
    counters, and say when readers and writers are woken. *)

From S2P Require Import Prelude CString State Kalloc ProcSync.

Definition PIPESIZE : Z := 512.

(** [p->nwrite == p->nread + PIPESIZE] *)
Definition pipe_full (p : pipe) : bool := p.(pi_nwrite) =? u32 (p.(pi_nread) + PIPESIZE).
Definition pipe_empty (p : pipe) : bool := p.(pi_nread) =? p.(pi_nwrite).

(** [p->data[p->nwrite++ % PIPESIZE] = c] *)
Definition pipe_push (c : Z) (p : pipe) : pipe :=
  set_pi_nwrite (u32 (p.(pi_nwrite) + 1))
    (set_pi_data (<[Z.to_nat (p.(pi_nwrite) mod PIPESIZE) := u8 c]> p.(pi_data)) p).

(** [p->data[p->nread++ % PIPESIZE]] *)
Definition pipe_pop (p : pipe) : Z * pipe :=
  (p.(pi_data) !!! Z.to_nat (p.(pi_nread) mod PIPESIZE),
   set_pi_nread (u32 (p.(pi_nread) + 1)) p).

(** The writer's loop up to its end or to the first byte that finds the pipe
    full; what is left to write is returned. *)
Fixpoint pipe_fill (p : pipe) (l : list Z) : pipe * list Z :=
  match l with
  | [] => (p, [])
  | c :: l' => if pipe_full p then (p, l) else pipe_fill (pipe_push c p) l'
  end.

(** The reader's loop: at most [n] bytes, stopping when the pipe is empty. *)
Fixpoint pipe_drain (p : pipe) (n : nat) : pipe * list Z :=
  match n with
  | O => (p, [])
  | S n' =>
      if pipe_empty p then (p, [])
      else let '(c, p1) := pipe_pop p in
           let '(p2, l) := pipe_drain p1 n' in (p2, c :: l)
  end.

(** [p->killed] of the calling process. *)
Definition my_killed : K bool :=
  let* i := myproc in
  let* p := get_proc i in
  kret (negb (p.(p_killed) =? 0)).

(** [pipewrite] from the point where the bytes [l] are still to be written,
    with the pipe lock held; [n] is the value to return. *)
Definition pipewrite_from (pa n : Z) (l : list Z) : K Z :=
  let* p := get_pipe pa in
  let '(p', rest) := pipe_fill p l in
  mod_pipe pa (fun _ => p') ;;;
  match rest with
  | [] =>
      wakeup (ChNread pa) ;;;
      release (LkPipe pa) ;;;
      kret n
  | _ :: _ =>
      let* k := my_killed in
      if (p'.(pi_readopen) =? 0) || k then
        release (LkPipe pa) ;;; kret (-1)
      else
        wakeup (ChNread pa) ;;;
        sleep (ChNwrite pa) (LkPipe pa) ;;;
        kfault "sleep returned"
  end.

Definition pipewrite (pa : Z) (addr : list Z) (n : Z) : K Z :=
  acquire (LkPipe pa) ;;;
  pipewrite_from pa n (take (Z.to_nat n) addr).

(** The result is the count returned and the bytes stored at [addr]. *)
Definition piperead_locked (pa n : Z) : K (Z * list Z) :=
  let* p := get_pipe pa in
  if pipe_empty p && negb (p.(pi_writeopen) =? 0) then
    let* k := my_killed in
    if k then release (LkPipe pa) ;;; kret (-1, [])
    else sleep (ChNread pa) (LkPipe pa) ;;; kfault "sleep returned"
  else
    let '(p', l) := pipe_drain p (Z.to_nat n) in
    mod_pipe pa (fun _ => p') ;;;
    wakeup (ChNwrite pa) ;;;
    release (LkPipe pa) ;;;
    kret (Z.of_nat (length l), l).

Definition piperead (pa n : Z) : K (Z * list Z) :=
  acquire (LkPipe pa) ;;; piperead_locked pa n.

(** When both ends are closed the page that holds the pipe is freed. *)
Definition pipeclose (pa : Z) (writable : bool) : K unit :=
  acquire (LkPipe pa) ;;;
  (if writable
   then mod_pipe pa (set_pi_writeopen 0) ;;; wakeup (ChNread pa)
   else mod_pipe pa (set_pi_readopen 0) ;;; wakeup (ChNwrite pa)) ;;;
  let* p := get_pipe pa in
  if (p.(pi_readopen) =? 0) && (p.(pi_writeopen) =? 0) then
    release (LkPipe pa) ;;;
    kmod (fun s => set_pipes (delete pa s.(pipes)) s) ;;;
    kfree pa
  else release (LkPipe pa).

(** ** The queue a pipe represents *)

Definition pipe_count (p : pipe) : Z := u32 (p.(pi_nwrite) - p.(pi_nread)).

Definition pipe_wf (p : pipe) : Prop :=
  length p.(pi_data) = Z.to_nat PIPESIZE
  /\ 0 <= p.(pi_nread) < 2 ^ 32 /\ 0 <= p.(pi_nwrite) < 2 ^ 32
  /\ pipe_count p <= PIPESIZE.

Fixpoint ring (data : list Z) (r : Z) (n : nat) : list Z :=
  match n with
  | O => []
  | S n' => (data !!! Z.to_nat (r mod PIPESIZE)) :: ring data (r + 1) n'
  end.

Definition pipe_bytes (p : pipe) : list Z :=
  ring p.(pi_data) p.(pi_nread) (Z.to_nat (pipe_count p)).

(** ** Lemmas *)

Lemma ring_length data r n : length (ring data r n) = n.
Proof. revert r. induction n; intros; simpl; auto. Qed.

Lemma ring_mod data r r' n :
  r mod PIPESIZE = r' mod PIPESIZE -> ring data r n = ring data r' n.
Proof.
  revert r r'. induction n as [|n IH]; intros r r' E; simpl; [done|]. rewrite E. f_equal.
  apply IH. by rewrite <- (Zplus_mod_idemp_l r), E, Zplus_mod_idemp_l.
Qed.

Lemma ring_app data r n k :
  ring data r (n + k) = ring data r n ++ ring data (r + Z.of_nat n) k.
Proof.
  revert r. induction n as [|n IH]; intros r; simpl.
  - by rewrite Z.add_0_r.
  - rewrite IH. do 3 f_equal. lia.
Qed.

(** A write outside the window leaves the window. *)
Lemma ring_insert data r n w c :
  (forall i, 0 <= i < Z.of_nat n -> (r + i) mod PIPESIZE <> w mod PIPESIZE) ->
  ring (<[Z.to_nat (w mod PIPESIZE) := c]> data) r n = ring data r n.
Proof.
  revert r. induction n as [|n IH]; intros r H; simpl; [done|]. f_equal.
  - rewrite list_lookup_total_insert_ne; [done|]. specialize (H 0).
    rewrite Z.add_0_r in H. unfold PIPESIZE in *.
    pose proof (Z.mod_pos_bound r 512). pose proof (Z.mod_pos_bound w 512). lia.
  - apply IH. intros i Hi. replace (r + 1 + i) with (r + (i + 1)) by lia. apply H. lia.
Qed.

Lemma pipe_full_spec p :
  pipe_wf p -> pipe_full p = true <-> pipe_count p = PIPESIZE.
Proof.
  intros (_ & Hr & Hw & Hc). unfold pipe_full, pipe_count, u32, PIPESIZE in *.
  rewrite Z.eqb_eq. Z.to_euclidean_division_equations. lia.
Qed.

Lemma pipe_empty_spec p : pipe_wf p -> pipe_empty p = true <-> pipe_count p = 0.
Proof.
  intros (_ & Hr & Hw & Hc). unfold pipe_empty, pipe_count, u32 in *.
  rewrite Z.eqb_eq. Z.to_euclidean_division_equations. lia.
Qed.

Lemma pipe_push_count p c :
  pipe_wf p -> pipe_full p = false -> pipe_count (pipe_push c p) = pipe_count p + 1.
Proof.
  intros Hp Hf. assert (pipe_count p <> PIPESIZE) as Hne
    by (intros E; apply (pipe_full_spec p Hp) in E; congruence).
  destruct Hp as (_ & Hr & Hw & Hc). unfold pipe_count, pipe_push, u32, PIPESIZE in *. cbn.
  Z.to_euclidean_division_equations. lia.
Qed.

Lemma pipe_push_wf p c : pipe_wf p -> pipe_full p = false -> pipe_wf (pipe_push c p).
Proof.
  intros Hp Hf. assert (pipe_count p <> PIPESIZE) as Hne
    by (intros E; apply (pipe_full_spec p Hp) in E; congruence).
  unfold pipe_wf. rewrite pipe_push_count by done. destruct Hp as (Hl & Hr & Hw & Hc).
  cbn. rewrite length_insert. pose proof (u32_range (pi_nwrite p + 1)).
  split_and!; [done|lia..].
Qed.

Lemma pipe_push_bytes p c :
  pipe_wf p -> pipe_full p = false -> pipe_bytes (pipe_push c p) = pipe_bytes p ++ [u8 c].
Proof.
  intros Hp Hf. assert (pipe_count p <> PIPESIZE) as Hne
    by (intros E; apply (pipe_full_spec p Hp) in E; congruence).
  unfold pipe_bytes. rewrite pipe_push_count by done.
  pose proof (u32_range (pi_nwrite p - pi_nread p)) as Hcr. fold (pipe_count p) in Hcr.
  destruct Hp as (Hl & Hr & Hw & Hc).
  rewrite Z2Nat.inj_add by lia. rewrite ring_app. cbn [pipe_push pi_data pi_nread set_pi_data set_pi_nwrite].
  assert (forall i, (pi_nread p + i) mod PIPESIZE = (pi_nwrite p + (i - pipe_count p)) mod PIPESIZE) as Hm.
  { intros i. unfold pipe_count. unfold PIPESIZE. change 512 with (2 ^ 9).
    rewrite <- (u32_mod_pow2 (pi_nwrite p + _) 9) by lia.
    replace (pi_nwrite p + (i - u32 (pi_nwrite p - pi_nread p)))
      with ((pi_nwrite p + i) - u32 (pi_nwrite p - pi_nread p)) by lia.
    rewrite u32_sub_r, u32_mod_pow2 by lia. f_equal. lia. }
  f_equal.
  - apply ring_insert. intros i Hi. rewrite Hm. unfold PIPESIZE in *.
    Z.to_euclidean_division_equations. lia.
  - simpl. rewrite Z2Nat.id, Hm, Z.sub_diag, Z.add_0_r by lia.
    rewrite list_lookup_total_insert_eq; [done|]. unfold PIPESIZE in *.
    pose proof (Z.mod_pos_bound (pi_nwrite p) 512). lia.
Qed.

Lemma pipe_fill_spec l : forall p p' rest,
  pipe_wf p -> pipe_fill p l = (p', rest) ->
  pipe_wf p' /\ (rest = [] \/ pipe_count p' = PIPESIZE) /\
  p'.(pi_readopen) = p.(pi_readopen) /\ p'.(pi_writeopen) = p.(pi_writeopen) /\
  exists w, l = w ++ rest /\ pipe_bytes p' = pipe_bytes p ++ (u8 <$> w).
Proof.
  induction l as [|c l IH]; intros p p' rest Hp E; simpl in E.
  - simplify_eq. split_and!; [done|by left|done|done|]. exists []. split; [done|]. cbn. by rewrite app_nil_r.
  - destruct (pipe_full p) eqn:Hf.
    + simplify_eq. apply pipe_full_spec in Hf; [|done].
      split_and!; [done|by right|done|done|]. exists []. split; [done|]. cbn. by rewrite app_nil_r.
    + apply IH in E as (Hp' & Hr & Ho & Hwo & w & -> & Hb); [|by apply pipe_push_wf].
      split_and!; [done|done|done|done|]. exists (c :: w). split; [done|].
      rewrite Hb, pipe_push_bytes by done. by rewrite <- app_assoc.
Qed.

Lemma pipe_pop_spec p :
  pipe_wf p -> pipe_empty p = false ->
  pipe_wf (snd (pipe_pop p)) /\
  pipe_bytes p = fst (pipe_pop p) :: pipe_bytes (snd (pipe_pop p)).
Proof.
  intros Hp He. assert (pipe_count p <> 0) as Hne
    by (intros E; apply (pipe_empty_spec p Hp) in E; congruence).
  pose proof (u32_range (pi_nwrite p - pi_nread p)) as Hcr. fold (pipe_count p) in Hcr.
  assert (pipe_count (snd (pipe_pop p)) = pipe_count p - 1) as Hc'.
  { destruct Hp as (_ & Hr & Hw & Hc). unfold pipe_count, pipe_pop, u32, PIPESIZE in *. cbn.
    Z.to_euclidean_division_equations. lia. }
  unfold pipe_wf, pipe_bytes. rewrite Hc'. destruct Hp as (Hl & Hr & Hw & Hc). cbn.
  pose proof (u32_range (pi_nread p + 1)). split; [split_and!; [done|lia..]|].
  replace (Z.to_nat (pipe_count p)) with (S (Z.to_nat (pipe_count p - 1))) by lia. simpl. f_equal.
  apply ring_mod. unfold PIPESIZE. change 512 with (2 ^ 9). by rewrite u32_mod_pow2 by lia.
Qed.

Lemma pipe_bytes_length p : length (pipe_bytes p) = Z.to_nat (pipe_count p).
Proof. apply ring_length. Qed.

Lemma pipe_drain_spec n : forall p p' l,
  pipe_wf p -> pipe_drain p n = (p', l) ->
  pipe_wf p' /\ pipe_bytes p = l ++ pipe_bytes p'
  /\ length l = Nat.min n (length (pipe_bytes p))
  /\ p'.(pi_readopen) = p.(pi_readopen) /\ p'.(pi_writeopen) = p.(pi_writeopen).
Proof.
  induction n as [|n IH]; intros p p' l Hp E; simpl in E; [by simplify_eq|].
  destruct (pipe_empty p) eqn:He.
  - simplify_eq. apply pipe_empty_spec in He; [|done].
    split_and!; [done|done| |done|done]. rewrite pipe_bytes_length, He. simpl. lia.
  - destruct (pipe_pop_spec p Hp He) as [Hp1 Hb].
    destruct (pipe_drain (set_pi_nread (u32 (pi_nread p + 1)) p) n) as [p2 l2] eqn:E2. simplify_eq.
    apply IH in E2 as (Hp2 & Hb2 & Hlen & ? & ?); [|done]. split_and!; [done| |  |done|done].
    + rewrite Hb. cbn. f_equal. exact Hb2.
    + rewrite Hb. cbn. by rewrite Hlen.
Qed.

(** *** Running the operations *)

Lemma mod_pipe_run pa f s p :
  s.(pipes) !! pa = Some p -> mod_pipe pa f s = Ok tt (set_pipes (<[pa := f p]> s.(pipes)) s).
Proof. intros Hp. apply mod_pipe_Ok. eauto. Qed.

Lemma my_killed_run s i q :
  s.(curproc) = Some i -> s.(ptable) !! i = Some q ->
  my_killed s = Ok (negb (q.(p_killed) =? 0)) s.
Proof.
  intros Hc Hq. unfold my_killed, myproc, kbind at 1. rewrite Hc.
  by kexec by (by apply get_proc_Ok).
Qed.

(** States left by a write that completed, failed, or went to sleep. *)
Definition after_fill (pa : Z) (p' : pipe) (s : kstate) : kstate :=
  set_pipes (<[pa := p']> s.(pipes)) s.
Definition after_wake (c : chan) (s : kstate) : kstate :=
  set_ptable (wake_one c <$> s.(ptable)) s.

Lemma pipewrite_from_run pa n l s i q p p' rest :
  s.(curproc) = Some i -> s.(ptable) !! i = Some q -> s.(held) = [LkPipe pa] ->
  s.(pipes) !! pa = Some p -> pipe_fill p l = (p', rest) ->
  pipewrite_from pa n l s =
    match rest with
    | [] => Ok n (set_held [] (after_wake (ChNread pa) (after_fill pa p' s)))
    | _ => if (p'.(pi_readopen) =? 0) || negb (q.(p_killed) =? 0)
           then Ok (-1) (set_held [] (after_fill pa p' s))
           else Block (asleep i (wake_one (ChNread pa) q) (ChNwrite pa)
                         (after_wake (ChNread pa) (after_fill pa p' s)))
    end.
Proof.
  intros Hc Hq Hh Hp E. unfold pipewrite_from.
  kexec by (by apply get_pipe_Ok). rewrite E. kexec (mod_pipe_run pa _ _ p).
  fold (after_fill pa p' s).
  assert (wakeup (ChNread pa) (after_fill pa p' s)
    = Ok tt (after_wake (ChNread pa) (after_fill pa p' s))) as Hwk.
  { apply wakeup_ok. cbn. rewrite Hh. set_solver. }
  destruct rest as [|c rest].
  - kexec by (exact Hwk). by kexec (release_top (LkPipe pa) []).
  - kexec (my_killed_run _ i q). destruct (_ || _).
    + by kexec (release_top (LkPipe pa) []).
    + kexec by (exact Hwk). unfold kbind. erewrite sleep_block; [reflexivity|exact Hc| |exact Hh].
      cbn. by rewrite list_lookup_fmap, Hq.
Qed.

Lemma piperead_locked_run pa n s i q p p' l :
  s.(curproc) = Some i -> s.(ptable) !! i = Some q -> s.(held) = [LkPipe pa] ->
  s.(pipes) !! pa = Some p -> pipe_drain p (Z.to_nat n) = (p', l) ->
  piperead_locked pa n s =
    if pipe_empty p && negb (p.(pi_writeopen) =? 0) then
      if negb (q.(p_killed) =? 0) then Ok (-1, []) (set_held [] s)
      else Block (asleep i q (ChNread pa) s)
    else Ok (Z.of_nat (length l), l) (set_held [] (after_wake (ChNwrite pa) (after_fill pa p' s))).
Proof.
  intros Hc Hq Hh Hp E. unfold piperead_locked.
  kexec by (by apply get_pipe_Ok). destruct (_ && _).
  - kexec (my_killed_run _ i q). destruct (negb _).
    + by kexec (release_top (LkPipe pa) []).
    + unfold kbind. by erewrite sleep_block by done.
  - rewrite E. kexec (mod_pipe_run pa _ _ p). fold (after_fill pa p' s).
    kexec by (apply wakeup_ok; cbn; rewrite Hh; set_solver).
    by kexec (release_top (LkPipe pa) []).
Qed.

(** *** Runs of a pipe under any interleaving *)

(** The part of [l] a write accepts before the pipe is full. *)
Definition accepted (p : pipe) (l : list Z) : list Z :=
  take (length l - length (snd (pipe_fill p l))) l.

(** [pipe_run pa s ins outs s']: between [s] and [s'] the pipe at [pa] was
    written and read by any processes in any order, with anything else that
    does not touch this pipe in between; [ins] are the bytes accepted from
    writers and [outs] the bytes delivered to readers, in order. *)
Inductive pipe_run (pa : Z) : kstate -> list Z -> list Z -> kstate -> Prop :=
| pr_start s : pipe_run pa s [] [] s
| pr_other s ins outs s1 s2 :
    pipe_run pa s ins outs s1 -> s2.(pipes) !! pa = s1.(pipes) !! pa ->
    pipe_run pa s ins outs s2
| pr_write s ins outs s1 i n l p s2 :
    pipe_run pa s ins outs s1 ->
    s1.(curproc) = Some i -> is_Some (s1.(ptable) !! i) -> s1.(held) = [LkPipe pa] ->
    s1.(pipes) !! pa = Some p ->
    (exists v, pipewrite_from pa n l s1 = Ok v s2) \/ pipewrite_from pa n l s1 = Block s2 ->
    pipe_run pa s (ins ++ accepted p l) outs s2
| pr_read s ins outs s1 i n v bs s2 :
    pipe_run pa s ins outs s1 ->
    s1.(curproc) = Some i -> is_Some (s1.(ptable) !! i) -> s1.(held) = [LkPipe pa] ->
    piperead_locked pa n s1 = Ok (v, bs) s2 ->
    pipe_run pa s ins (outs ++ bs) s2
| pr_read_block s ins outs s1 i n s2 :
    pipe_run pa s ins outs s1 ->
    s1.(curproc) = Some i -> is_Some (s1.(ptable) !! i) -> s1.(held) = [LkPipe pa] ->
    piperead_locked pa n s1 = Block s2 ->
    pipe_run pa s ins outs s2.

Lemma accepted_spec p l p' rest w :
  pipe_fill p l = (p', rest) -> l = w ++ rest -> accepted p l = w.
Proof.
  intros E ->. unfold accepted. rewrite E. cbn. rewrite length_app, Nat.add_sub.
  by rewrite take_app_length.
Qed.

(** After a write, whatever its outcome, the pipe is the filled pipe. *)
Lemma pipewrite_from_pipe pa n l s i p s2 :
  s.(curproc) = Some i -> is_Some (s.(ptable) !! i) -> s.(held) = [LkPipe pa] ->
  s.(pipes) !! pa = Some p ->
  (exists v, pipewrite_from pa n l s = Ok v s2) \/ pipewrite_from pa n l s = Block s2 ->
  s2.(pipes) !! pa = Some (fst (pipe_fill p l)).
Proof.
  intros Hc [q Hq] Hh Hp Hw. destruct (pipe_fill p l) as [p' rest] eqn:E.
  rewrite (pipewrite_from_run pa n l s i q p p' rest) in Hw by done.
  destruct rest; [|destruct (_ || _)];
    destruct Hw as [[v Hw]|Hw]; simplify_eq; cbn; apply lookup_insert_eq.
Qed.

Lemma piperead_locked_pipe pa n s i p v bs s2 :
  s.(curproc) = Some i -> is_Some (s.(ptable) !! i) -> s.(held) = [LkPipe pa] ->
  s.(pipes) !! pa = Some p -> piperead_locked pa n s = Ok (v, bs) s2 ->
  (bs = [] /\ s2.(pipes) !! pa = Some p)
  \/ exists p', pipe_drain p (Z.to_nat n) = (p', bs) /\ s2.(pipes) !! pa = Some p'.
Proof.
  intros Hc [q Hq] Hh Hp Hr. destruct (pipe_drain p (Z.to_nat n)) as [p' l] eqn:E.
  rewrite (piperead_locked_run pa n s i q p p' l) in Hr by done.
  destruct (_ && _); [destruct (negb _)|]; simplify_eq; [by left|right].
  exists p'. split; [done|]. cbn. apply lookup_insert_eq.
Qed.

Lemma piperead_locked_block pa n s i s2 :
  s.(curproc) = Some i -> is_Some (s.(ptable) !! i) -> s.(held) = [LkPipe pa] ->
  piperead_locked pa n s = Block s2 -> s2.(pipes) = s.(pipes).
Proof.
  intros Hc [q Hq] Hh Hr. destruct (s.(pipes) !! pa) as [p|] eqn:Hp.
  - destruct (pipe_drain p (Z.to_nat n)) as [p' l] eqn:E.
    rewrite (piperead_locked_run pa n s i q p p' l) in Hr by done.
    destruct (_ && _); [destruct (negb _)|]; by simplify_eq.
  - unfold piperead_locked, get_pipe, kbind in Hr. by rewrite Hp in Hr.
Qed.

(** *** Who sleeps on a pipe *)

(** Readers sleep only on an empty pipe whose write end is open, writers only
    on a full pipe whose read end is open. *)
Definition pipe_sync (pa : Z) (s : kstate) : Prop :=
  forall j q p, s.(ptable) !! j = Some q -> q.(p_state) = SLEEPING ->
    s.(pipes) !! pa = Some p ->
    (q.(p_chan) = Some (ChNread pa) -> pipe_count p = 0 /\ p.(pi_writeopen) <> 0) /\
    (q.(p_chan) = Some (ChNwrite pa) -> pipe_count p = PIPESIZE /\ p.(pi_readopen) <> 0).

Lemma wake_one_state c q :
  (wake_one c q).(p_state) = SLEEPING ->
  q.(p_state) = SLEEPING /\ q.(p_chan) <> Some c /\ (wake_one c q).(p_chan) = q.(p_chan).
Proof. unfold wake_one. case_decide; [done|]. naive_solver. Qed.

(** Waking the readers restores the discipline when the writers' side holds. *)
Lemma pipe_sync_wake_readers pa p' s :
  (forall j q, s.(ptable) !! j = Some q -> q.(p_state) = SLEEPING ->
     q.(p_chan) = Some (ChNwrite pa) -> pipe_count p' = PIPESIZE /\ p'.(pi_readopen) <> 0) ->
  pipe_sync pa (after_wake (ChNread pa) (after_fill pa p' s)).
Proof.
  intros H j q0 p Hj Hs Hp. cbn in Hp. rewrite lookup_insert_eq in Hp. simplify_eq.
  cbn in Hj. rewrite list_lookup_fmap in Hj.
  destruct (s.(ptable) !! j) as [q|] eqn:Hq; simplify_eq/=.
  apply wake_one_state in Hs as (Hs & Hn & ->). split; [done|]. by eapply H.
Qed.

Lemma pipe_sync_wake_writers pa p' s :
  (forall j q, s.(ptable) !! j = Some q -> q.(p_state) = SLEEPING ->
     q.(p_chan) = Some (ChNread pa) -> pipe_count p' = 0 /\ p'.(pi_writeopen) <> 0) ->
  pipe_sync pa (after_wake (ChNwrite pa) (after_fill pa p' s)).
Proof.
  intros H j q0 p Hj Hs Hp. cbn in Hp. rewrite lookup_insert_eq in Hp. simplify_eq.
  cbn in Hj. rewrite list_lookup_fmap in Hj.
  destruct (s.(ptable) !! j) as [q|] eqn:Hq; simplify_eq/=.
  apply wake_one_state in Hs as (Hs & Hn & ->). split; [|done]. by eapply H.
Qed.

(** Going to sleep keeps the discipline when the sleeper obeys it. *)
Lemma pipe_sync_asleep pa i q c s p :
  pipe_sync pa s -> s.(pipes) !! pa = Some p -> (i < length s.(ptable))%nat ->
  (c = ChNread pa -> pipe_count p = 0 /\ p.(pi_writeopen) <> 0) ->
  (c = ChNwrite pa -> pipe_count p = PIPESIZE /\ p.(pi_readopen) <> 0) ->
  pipe_sync pa (asleep i q c s).
Proof.
  intros H Hp Hi Hr Hw j q0 p0 Hj Hs Hp0. cbn in Hp0, Hj. simplify_eq.
  destruct (decide (i = j)) as [->|Hne].
  - rewrite list_lookup_insert_eq in Hj by done. simplify_eq/=. split; intros; simplify_eq; auto.
  - rewrite list_lookup_insert_ne in Hj by done. by eapply H.
Qed.

Lemma pipe_fill_full p l :
  pipe_wf p -> pipe_count p = PIPESIZE -> fst (pipe_fill p l) = p.
Proof.
  intros Hp Hc. destruct l as [|c l]; [done|]. simpl.
  by rewrite (proj2 (pipe_full_spec p Hp) Hc).
Qed.

Lemma pipe_drain_empty p n :
  pipe_wf p -> pipe_count p = 0 -> pipe_drain p n = (p, []).
Proof.
  intros Hp Hc. destruct n as [|n]; [done|]. simpl.
  by rewrite (proj2 (pipe_empty_spec p Hp) Hc).
Qed.

(** *** Who is awake after a transfer *)

(** Nobody sleeps on [c]. *)
Definition nobody_on (c : chan) (s : kstate) : Prop :=
  forall j q, s.(ptable) !! j = Some q -> q.(p_state) = SLEEPING -> q.(p_chan) <> Some c.

(** Process [i] sleeps on [c]. *)
Definition asleep_on (c : chan) (i : nat) (s : kstate) : Prop :=
  exists q, s.(ptable) !! i = Some q /\ q.(p_state) = SLEEPING /\ q.(p_chan) = Some c.

(** Everybody but [i] who does not sleep on [c] is as before. *)
Definition left_alone (c : chan) (i : nat) (s s' : kstate) : Prop :=
  forall j q, j <> i -> s.(ptable) !! j = Some q -> (q.(p_state) = SLEEPING -> q.(p_chan) <> Some c) ->
    s'.(ptable) !! j = Some q.

(** The pipe itself. *)
Definition pipe_is (pa : Z) (s : kstate) (P : pipe -> Prop) : Prop := exists p, s.(pipes) !! pa = Some p /\ P p.

Definition is_killed (i : nat) (s : kstate) : Prop := exists q, s.(ptable) !! i = Some q /\ q.(p_killed) <> 0.

Definition write_outcome (pa n : Z) (i : nat) (s : kstate) (r : res kstate Z) : Prop :=
  (exists s', r = Ok n s' /\ nobody_on (ChNread pa) s' /\ left_alone (ChNread pa) i s s') \/
  (exists s', r = Block s' /\ nobody_on (ChNread pa) s' /\ left_alone (ChNread pa) i s s' /\
     asleep_on (ChNwrite pa) i s' /\
     pipe_is pa s' (fun p => pipe_count p = PIPESIZE /\ p.(pi_readopen) <> 0)) \/
  (exists s', r = Ok (-1) s' /\ s'.(ptable) = s.(ptable) /\
     pipe_is pa s' (fun p => pipe_count p = PIPESIZE /\ (p.(pi_readopen) = 0 \/ is_killed i s))).

Definition read_outcome (pa : Z) (i : nat) (s : kstate) (r : res kstate (Z * list Z)) : Prop :=
  (exists l s', r = Ok (Z.of_nat (length l), l) s' /\ nobody_on (ChNwrite pa) s' /\ left_alone (ChNwrite pa) i s s') \/
  (exists s', r = Block s' /\ (forall j, j <> i -> s'.(ptable) !! j = s.(ptable) !! j) /\ asleep_on (ChNread pa) i s' /\
     pipe_is pa s' (fun p => pipe_count p = 0 /\ p.(pi_writeopen) <> 0)) \/
  (exists s', r = Ok (-1, []) s' /\ s'.(ptable) = s.(ptable) /\ is_killed i s /\
     pipe_is pa s' (fun p => pipe_count p = 0 /\ p.(pi_writeopen) <> 0)).

Lemma nobody_woken c s : nobody_on c (after_wake c s).
Proof.
  intros j q Hj Hs. cbn in Hj. rewrite list_lookup_fmap in Hj.
  destruct (s.(ptable) !! j) as [q0|]; simplify_eq/=. by apply wake_one_state in Hs as (_ & Hn & ->).
Qed.

Lemma left_alone_wake c i s : left_alone c i s (after_wake c s).
Proof.
  intros j q _ Hj Hn. cbn. rewrite list_lookup_fmap, Hj. cbn. rewrite wake_one_other by tauto. done.
Qed.

Lemma nobody_asleep c c' i q s :
  c <> c' -> (i < length s.(ptable))%nat -> nobody_on c s -> nobody_on c (asleep i q c' s).
Proof.
  intros Hne Hi Hn j r Hj. cbn in Hj. destruct (decide (i = j)) as [->|].
  - rewrite list_lookup_insert_eq in Hj by done. simplify_eq/=. congruence.
  - rewrite list_lookup_insert_ne in Hj by done. by apply (Hn j).
Qed.

Lemma asleep_asleep c i q s : (i < length s.(ptable))%nat -> asleep_on c i (asleep i q c s).
Proof. intros Hi. eexists. split; [by apply list_lookup_insert_eq|done]. Qed.

Lemma pipewrite_from_outcome pa n l s i q p :
  s.(curproc) = Some i -> s.(ptable) !! i = Some q -> s.(held) = [LkPipe pa] ->
  s.(pipes) !! pa = Some p -> pipe_wf p -> write_outcome pa n i s (pipewrite_from pa n l s).
Proof.
  intros Hc Hq Hh Hp Hwf. pose proof (lookup_lt_Some _ _ _ Hq) as Hi. destruct (pipe_fill p l) as [p' rest] eqn:E.
  rewrite (pipewrite_from_run pa n l s i q p p' rest) by done.
  destruct (pipe_fill_spec l p p' rest Hwf E) as (_ & Hfull & _). destruct rest as [|c rest].
  - left. eexists. split; [done|]. split; [apply nobody_woken|apply (left_alone_wake _ i (after_fill pa p' s))].
  - destruct Hfull as [|Hfull]; [done|]. right.
    destruct (Z.eqb_spec p'.(pi_readopen) 0) as [Ho|Ho]; [|destruct (Z.eqb_spec q.(p_killed) 0) as [Hk|Hk]]; cbn [orb negb].
    + right. eexists. split; [done|]. split; [done|]. exists p'. split; [apply lookup_insert_eq|by auto].
    + left. eexists. split; [done|]. split_and!.
      * apply nobody_asleep; [done|cbn; by rewrite length_fmap|apply nobody_woken].
      * intros j r Hj Hr Hn. cbn. rewrite list_lookup_insert_ne by done.
        by apply (left_alone_wake _ i (after_fill pa p' s)).
      * apply asleep_asleep. cbn. by rewrite length_fmap.
      * exists p'. split; [apply lookup_insert_eq|done].
    + right. eexists. split; [done|]. split; [done|]. exists p'. split; [apply lookup_insert_eq|]. split; [done|]. right. by exists q.
Qed.

Lemma piperead_locked_outcome pa n s i q p :
  s.(curproc) = Some i -> s.(ptable) !! i = Some q -> s.(held) = [LkPipe pa] ->
  s.(pipes) !! pa = Some p -> pipe_wf p -> read_outcome pa i s (piperead_locked pa n s).
Proof.
  intros Hc Hq Hh Hp Hwf. pose proof (lookup_lt_Some _ _ _ Hq) as Hi.
  destruct (pipe_drain p (Z.to_nat n)) as [p' bs] eqn:E. rewrite (piperead_locked_run pa n s i q p p' bs) by done.
  destruct (pipe_empty p && negb (pi_writeopen p =? 0)) eqn:He; [right|left].
  - apply andb_true_iff in He as [He%(pipe_empty_spec p Hwf) Ho%negb_true_iff%Z.eqb_neq].
    destruct (Z.eqb_spec q.(p_killed) 0) as [Hk|Hk]; cbn [negb]; [left|right]; eexists; (split; [done|]).
    + split_and!; [intros j Hj; cbn; by apply list_lookup_insert_ne|by apply asleep_asleep|by exists p].
    + split_and!; [done|by exists q|by exists p].
  - eexists _, _. split; [done|]. split; [apply nobody_woken|apply (left_alone_wake _ i (after_fill pa p' s))].
Qed.

Lemma acquired {A} pa s (k : K A) :
  s.(held) = [] -> (acquire (LkPipe pa) ;;; k) s = k (set_held [LkPipe pa] s).
Proof. intros Hh. rewrite (kbind_Ok _ _ _ tt (set_held [LkPipe pa] s)); [done|]. rewrite acquire_free; rewrite Hh; [done|set_solver]. Qed.

(** ** Properties *)

(** C5: A pipe is a FIFO queue under every interleaving of readers and writers:
    the bytes it held, followed by the bytes accepted from writers in order,
    are the bytes delivered to readers in order followed by the bytes it holds
    now; nothing is lost, duplicated or reordered, also when the 32-bit
    counters wrap, and it never holds more than [PIPESIZE] bytes. *)
Theorem pipe_fifo (pa : Z) (s s' : kstate) (ins outs : list Z) (p : pipe) :
  pipe_run pa s ins outs s' -> s.(pipes) !! pa = Some p -> pipe_wf p ->
  exists p', s'.(pipes) !! pa = Some p' /\ pipe_wf p' /\
    pipe_bytes p ++ (u8 <$> ins) = outs ++ pipe_bytes p' /\
    Z.of_nat (length (pipe_bytes p')) <= PIPESIZE.
Proof.
  intros Hrun Hp Hwf.
  cut (exists p', s'.(pipes) !! pa = Some p' /\ pipe_wf p' /\
         pipe_bytes p ++ (u8 <$> ins) = outs ++ pipe_bytes p').
  { intros (p' & H1 & H2 & H3). exists p'. split_and!; [done|done|done|].
    rewrite pipe_bytes_length. destruct H2 as (_ & _ & _ & Hc).
    pose proof (u32_range (pi_nwrite p' - pi_nread p')). unfold pipe_count in *. lia. }
  induction Hrun as [s|s ins outs s1 s2 _ IH E|s ins outs s1 i n l p1 s2 _ IH Hc Hi Hh Hp1 Hw
                    |s ins outs s1 i n v bs s2 _ IH Hc Hi Hh Hr
                    |s ins outs s1 i n s2 _ IH Hc Hi Hh Hr].
  - exists p. rewrite app_nil_r. done.
  - rewrite E. auto.
  - destruct (IH Hp) as (p' & Hp' & Hwf' & Hb). simplify_eq.
    destruct (pipe_fill p1 l) as [p2 rest] eqn:E.
    destruct (pipe_fill_spec l p1 p2 rest Hwf' E) as (Hwf2 & _ & _ & _ & w & -> & Hb2).
    exists p2. split_and!; [|done|].
    + by erewrite (pipewrite_from_pipe pa n _ s1 i p1 s2), E.
    + erewrite accepted_spec by done. by rewrite fmap_app, app_assoc, Hb, Hb2, app_assoc.
  - destruct (IH Hp) as (p' & Hp' & Hwf' & Hb).
    destruct (piperead_locked_pipe pa n s1 i p' v bs s2) as [[-> H2]|(p2 & E & H2)]; [done..| |].
    + exists p'. by rewrite app_nil_r.
    + exists p2. apply pipe_drain_spec in E as (Hwf2 & Hb2 & _); [|done].
      split_and!; [done|done|]. by rewrite Hb, Hb2, app_assoc.
  - rewrite (piperead_locked_block pa n s1 i s2) by done. auto.
Qed.

(** A pipe whose counters are about to wrap. *)
Definition wrap_pipe : pipe := mk_pipe (replicate 512 0) (2 ^ 32 - 1) (2 ^ 32 - 1) 1 1.
Definition pipe_state (p : pipe) (t : list proc) : kstate :=
  set_pipes {[ 4096 := p ]} (set_held [LkPipe 4096]
    (set_curproc (Some 0%nat) (set_ptable t bare_state))).

(** A reader asleep for data. *)
Definition sleeping_reader : proc :=
  set_p_state SLEEPING (set_p_chan (Some (ChNread 4096)) (set_p_pid 5 unused_proc)).

Lemma wrap_pipe_wf : pipe_wf wrap_pipe.
Proof. split_and!; [reflexivity|cbn; lia..|done]. Qed.

Lemma pipe_fifo_witness :
  exists s' p', pipewrite_from 4096 3 [7; 8; 9] (pipe_state wrap_pipe [unused_proc]) = Ok 3 s'
    /\ s'.(pipes) !! 4096 = Some p' /\ pipe_bytes p' = [7; 8; 9].
Proof.
  destruct (pipewrite_from 4096 3 [7; 8; 9] (pipe_state wrap_pipe [unused_proc]))
    as [v s'| | |] eqn:E; try (exfalso; vm_compute in E; discriminate E).
  destruct (pipe_fifo 4096 (pipe_state wrap_pipe [unused_proc]) s' [7; 8; 9] [] wrap_pipe)
    as (p' & Hp' & _ & Hb & _); [|reflexivity|apply wrap_pipe_wf|].
  - eapply (pr_write _ _ [] [] _ 0 3 [7; 8; 9] wrap_pipe); [apply pr_start|reflexivity|by eexists|
      reflexivity|reflexivity|left; by exists v].
  - exists s', p'. split_and!; [|done|by rewrite <- (app_nil_l (pipe_bytes p')), <- Hb].
    rewrite (pipewrite_from_run 4096 3 _ _ 0 unused_proc wrap_pipe _ []) in E by reflexivity.
    by simplify_eq.
Defined.

(** C39: Nobody stays asleep after the transfer they wait for.  In any state,
    whoever sleeps there: a write, or the rest of a write that slept, either
    transfers all its bytes, and then no process is left asleep for data on the
    pipe; or fills the pipe and goes to sleep for space, and then no process is
    left asleep for data either; or fails on a full pipe because the read end is
    closed or the caller was killed, which wakes nobody.  A read transfers what
    it can, be it nothing, and then no process is left asleep for space; or goes
    to sleep on an empty pipe with writers; or fails there because the caller
    was killed.  Processes that sleep elsewhere, or not at all, are left alone. *)
Theorem pipe_wakeups (pa n : Z) (s : kstate) (i : nat) (q : proc) (p : pipe) :
  s.(curproc) = Some i -> s.(ptable) !! i = Some q -> s.(pipes) !! pa = Some p -> pipe_wf p ->
  (s.(held) = [] -> forall addr, write_outcome pa n i s (pipewrite pa addr n s)) /\
  (s.(held) = [LkPipe pa] -> forall l, write_outcome pa n i s (pipewrite_from pa n l s)) /\
  (s.(held) = [] -> read_outcome pa i s (piperead pa n s)) /\
  (s.(held) = [LkPipe pa] -> read_outcome pa i s (piperead_locked pa n s)).
Proof.
  intros Hc Hq Hp Hwf. set (s1 := set_held [LkPipe pa] s). split_and!; intros Hh.
  - intros addr. unfold pipewrite. rewrite (acquired pa s _ Hh).
    exact (pipewrite_from_outcome pa n _ s1 i q p Hc Hq eq_refl Hp Hwf).
  - intros l. by apply (pipewrite_from_outcome pa n l s i q p).
  - unfold piperead. rewrite (acquired pa s _ Hh).
    exact (piperead_locked_outcome pa n s1 i q p Hc Hq eq_refl Hp Hwf).
  - by apply (piperead_locked_outcome pa n s i q p).
Qed.

(** A reader asleep for data, and a writer that writes one byte. *)
Lemma pipe_wakeups_witness :
  write_outcome 4096 1 0 (set_held [] (pipe_state wrap_pipe [unused_proc; sleeping_reader]))
    (pipewrite 4096 [1] 1 (set_held [] (pipe_state wrap_pipe [unused_proc; sleeping_reader]))).
Proof.
  apply (pipe_wakeups 4096 1 (set_held [] (pipe_state wrap_pipe [unused_proc; sleeping_reader])) 0 unused_proc wrap_pipe);
    [reflexivity..|exact wrap_pipe_wf|reflexivity].
Defined.

(** Readers and writers are never left asleep on a pipe they could use:
    after a write by a process that is not killed, with the read end open, and
    after any read, every process asleep for data faces an empty pipe with
    writers, and every process asleep for space faces a full pipe with
    readers. *)
Theorem pipe_sync_kept (pa n : Z) (l : list Z) (s s2 : kstate) (i : nat) (q : proc) (p : pipe) :
  s.(curproc) = Some i -> s.(ptable) !! i = Some q -> s.(held) = [LkPipe pa] ->
  s.(pipes) !! pa = Some p -> pipe_wf p -> pipe_sync pa s ->
  (q.(p_killed) = 0 -> p.(pi_readopen) <> 0 ->
     (exists v, pipewrite_from pa n l s = Ok v s2) \/ pipewrite_from pa n l s = Block s2 ->
     pipe_sync pa s2)
  /\ ((exists v, piperead_locked pa n s = Ok v s2) \/ piperead_locked pa n s = Block s2 ->
      pipe_sync pa s2).
Proof.
  intros Hc Hq Hh Hp Hwf Hs. pose proof (lookup_lt_Some _ _ _ Hq) as Hi. split.
  - intros Hk Ho Hw. destruct (pipe_fill p l) as [p' rest] eqn:E.
    rewrite (pipewrite_from_run pa n l s i q p p' rest) in Hw by done.
    destruct (pipe_fill_spec l p p' rest Hwf E) as (Hwf' & Hfull & Hro & _).
    assert (pipe_sync pa (after_wake (ChNread pa) (after_fill pa p' s))) as Hsync.
    { apply pipe_sync_wake_readers. intros j r Hj Hsl Hch.
      destruct (Hs j r p Hj Hsl Hp) as [_ Hcw]. destruct (Hcw Hch) as [Hcnt Hro'].
      pose proof (pipe_fill_full p l Hwf Hcnt) as Hsame. rewrite E in Hsame. by simplify_eq/=. }
    destruct rest as [|c rest].
    + destruct Hw as [[v Hw]|Hw]; by simplify_eq.
    + destruct Hfull as [|Hfull]; [done|]. rewrite Hk in Hw.
      rewrite (proj2 (Z.eqb_neq _ _)) in Hw by congruence.
      destruct Hw as [[v Hw]|Hw]; simplify_eq/=.
      apply (pipe_sync_asleep _ _ _ _ _ p'); [done|apply lookup_insert_eq| |done|].
      * cbn. by rewrite length_fmap.
      * intros _. by rewrite Hfull, Hro.
  - intros Hr. destruct (pipe_drain p (Z.to_nat n)) as [p' bs] eqn:E.
    rewrite (piperead_locked_run pa n s i q p p' bs) in Hr by done.
    destruct (pipe_empty p && negb (pi_writeopen p =? 0)) eqn:He.
    + apply andb_true_iff in He as [He Ho]. apply pipe_empty_spec in He; [|done].
      apply negb_true_iff, Z.eqb_neq in Ho. destruct (negb (p_killed q =? 0)).
      * by destruct Hr as [[v Hr]|Hr]; simplify_eq.
      * destruct Hr as [[v Hr]|Hr]; simplify_eq. by apply (pipe_sync_asleep _ _ _ _ _ p).
    + destruct Hr as [[v Hr]|Hr]; simplify_eq. apply pipe_sync_wake_writers.
      intros j r Hj Hsl Hch. destruct (Hs j r p Hj Hsl Hp) as [Hcr _].
      destruct (Hcr Hch) as [H0 Hwo]. pose proof (pipe_drain_empty p (Z.to_nat n) Hwf H0) as Hsame.
      rewrite E in Hsame. by simplify_eq.
Qed.

Lemma pipe_sync_kept_witness :
  pipe_sync 4096 (set_held [] (after_wake (ChNread 4096)
    (after_fill 4096 (fst (pipe_fill wrap_pipe [1])) (pipe_state wrap_pipe [unused_proc])))).
Proof.
  apply (proj1 (pipe_sync_kept 4096 1 [1] (pipe_state wrap_pipe [unused_proc]) _ 0 unused_proc
    wrap_pipe eq_refl eq_refl eq_refl eq_refl wrap_pipe_wf
    ltac:(intros [|j] q p Hj Hs; simplify_eq/=; done))); [done|done|].
  left. exists 1.
  apply (pipewrite_from_run 4096 1 [1] _ 0 unused_proc wrap_pipe _ []); reflexivity.
Defined.

(** A writer that has been killed. *)
Definition killed_writer : proc :=
  set_p_state RUNNING (set_p_killed 1 (set_p_pid 6 unused_proc)).

(** The guard on the killed flag above is needed: a writer killed during its
    call fills the pipe and returns -1 without waking the reader, which stays
    asleep although 512 bytes are waiting for it. *)
Theorem killed_writer_strands_reader :
  exists s2 q p, pipewrite_from 4096 600 (replicate 600 1)
      (pipe_state wrap_pipe [killed_writer; sleeping_reader]) = Ok (-1) s2
    /\ pipe_sync 4096 (pipe_state wrap_pipe [killed_writer; sleeping_reader])
    /\ s2.(ptable) !! 1%nat = Some q /\ q.(p_state) = SLEEPING
    /\ q.(p_chan) = Some (ChNread 4096)
    /\ s2.(pipes) !! 4096 = Some p /\ length (pipe_bytes p) = 512%nat.
Proof.
  destruct (pipe_fill wrap_pipe (replicate 600 1)) as [p' rest] eqn:E.
  assert (length rest = 88%nat) as Hlen.
  { change rest with (snd (p', rest)). rewrite <- E. vm_compute. reflexivity. }
  exists (set_held [] (after_fill 4096 p' (pipe_state wrap_pipe [killed_writer; sleeping_reader]))).
  exists sleeping_reader, p'. split_and!;
    [| |reflexivity|reflexivity|reflexivity|apply lookup_insert_eq|].
  - rewrite (pipewrite_from_run 4096 600 _ _ 0 killed_writer wrap_pipe p' rest)
      by (exact E || reflexivity).
    clear E. destruct rest; [discriminate Hlen|]. rewrite orb_true_r. reflexivity.
  - clear E Hlen. intros [|[|j]] q p Hj Hs Hp; simplify_eq/=. change (Some wrap_pipe = Some p) in Hp. simplify_eq.
    split; [|done]. intros _. split; [reflexivity|done].
  - change p' with (fst (p', rest)). rewrite <- E. vm_compute. reflexivity.
Qed.

(** [pipeclose] wakes everyone waiting for the end that is closed, and gives
    the page back to the allocator exactly when both ends are closed. *)
Theorem pipeclose_correct (pa : Z) (w : bool) (s : kstate) (p : pipe) (fl : list Z) :
  s.(held) = [] -> s.(pipes) !! pa = Some p -> page_ok pa -> free_pages s fl -> pa ∉ fl ->
  let p' := if w then set_pi_writeopen 0 p else set_pi_readopen 0 p in
  exists s', pipeclose pa w s = Ok tt s' /\
    s'.(ptable) = wake_one (if w then ChNread pa else ChNwrite pa) <$> s.(ptable) /\
    if (p'.(pi_readopen) =? 0) && (p'.(pi_writeopen) =? 0)
    then s'.(pipes) = delete pa s.(pipes) /\ free_pages s' (pa :: fl)
    else s'.(pipes) = <[pa := p']> s.(pipes) /\ free_pages s' fl.
Proof.
  intros Hh Hp Hpa Hfl Hn p'. unfold pipeclose.
  kexec by (apply acquire_free; rewrite Hh; set_solver).
  set (c := if w then ChNread pa else ChNwrite pa).
  erewrite (kbind_Ok _ _ _ tt (after_wake c (after_fill pa p'
    (set_held (LkPipe pa :: s.(held)) s)))).
  2:{ destruct w; kexec (mod_pipe_run pa _ _ p); apply wakeup_ok; cbn; rewrite Hh; set_solver. }
  kexec by (apply get_pipe_Ok; split; [cbn; apply lookup_insert_eq|done]).
  destruct (_ && _).
  - kexec (release_top (LkPipe pa) s.(held)). unfold kmod, kbind at 1.
    rewrite kfree_ok by (try done; cbn; rewrite Hh; set_solver).
    eexists. split; [done|]. cbn. split_and!; [done|by rewrite delete_insert_eq|].
    exact (kfree_free_pages pa s fl Hpa Hn Hfl).
  - rewrite (release_top (LkPipe pa) s.(held)) by done. eexists. split; [done|]. by split_and!.
Qed.

Lemma pipeclose_correct_witness :
  exists s', pipeclose 0x200000 true (set_pipes {[ 0x200000 := set_pi_readopen 0 wrap_pipe ]} bare_state)
    = Ok tt s' /\ s'.(pipes) = ∅ /\ free_pages s' [0x200000].
Proof.
  destruct (pipeclose_correct 0x200000 true
    (set_pipes {[ 0x200000 := set_pi_readopen 0 wrap_pipe ]} bare_state)
    (set_pi_readopen 0 wrap_pipe) []) as (s' & E & _ & Hp & Hf);
    [done|apply lookup_insert_eq|unfold page_ok, PHYSTOP; split; [reflexivity|lia]
    |split; [done|constructor]|apply not_elem_of_nil|].
  exists s'. split_and!; [done| |done]. rewrite Hp. reflexivity.
Defined.
