(* ===== verification/Ide.v ===== *)
(** The disk driver: ide.c.

    The drive is hardware: a map from drive and 28-bit block address to 512
    bytes, assumed always to become ready and never to report an error
    ([ide_status]).  A write command stores the sector when it is issued; a
    read command delivers it when the driver transfers the data in [ideintr].
    The requests form a queue linked through [qnext], whose first element is
    the one the drive works on.

    A process inside [iderw] sleeps until its buffer is done.  In this model
    nothing but the drive's interrupt happens meanwhile: [iderw_wait] runs
    [ideintr], which serves the queue in order, until the buffer is done. *)

From coqutil Require Import Z.bitblast.
From S2P Require Import Prelude CString State ProcSync Console.

Definition IDE_BSY : Z := 0x80.
Definition IDE_DRDY : Z := 0x40.
Definition IDE_DF : Z := 0x20.
Definition IDE_ERR : Z := 0x01.

(** The status register once the drive is ready. *)
Definition ide_status : Z := IDE_DRDY.

(** [idewait] after its loop, for the status [r] it ended with. *)
Definition idewait (checkerr : bool) (r : Z) : Z :=
  if checkerr && negb (Z.land r (Z.lor IDE_DF IDE_ERR) =? 0) then -1 else 0.

(** The bytes [idestart] writes to ports 0x1f3 to 0x1f6. *)
Definition ide_regs (dev sector : Z) : Z * Z * Z * Z :=
  (Z.land sector 0xff,
   Z.land (Z.shiftr sector 8) 0xff,
   Z.land (Z.shiftr sector 16) 0xff,
   Z.lor 0xe0 (Z.lor (Z.shiftl (Z.land dev 1) 4) (Z.land (Z.shiftr sector 24) 0x0f))).

(** How the drive reads them back: drive number and logical block address. *)
Definition ide_decode (regs : Z * Z * Z * Z) : Z * Z :=
  let '(r3, r4, r5, r6) := regs in
  (Z.land (Z.shiftr r6 4) 1,
   Z.lor r3 (Z.lor (Z.shiftl r4 8) (Z.lor (Z.shiftl r5 16) (Z.shiftl (Z.land r6 0x0f) 24)))).

Definition sector_at (d : gmap (Z * Z) (list Z)) (k : Z * Z) : list Z :=
  default (replicate (Z.to_nat BSIZE) 0) (d !! k).

Definition idestart (b : option nat) : K unit :=
  match b with
  | None => panic "idestart"
  | Some i =>
      let* bp := get_buf i in
      let k := ide_decode (ide_regs bp.(b_dev) bp.(b_sector)) in
      if negb (Z.land bp.(b_flags) B_DIRTY =? 0)
      then kmod (fun s => set_disk (<[k := bp.(b_data)]> s.(disk)) s)
      else kmod (set_idecmd (Some k))
  end.

(** [insl]: the data the last read command asked for. *)
Definition ide_insl : K (list Z) := fun s =>
  match s.(idecmd) with
  | Some k => Ok (sector_at s.(disk) k) s
  | None => Fault "no read command"
  end.

Definition ideintr : K unit :=
  acquire LkIde ;;;
  let* q := kget (fun s => s.(idequeue)) in
  match q with
  | None =>
      release LkIde ;;;
      cprintf (str "Spurious IDE interrupt." ++ [10]) []
  | Some i =>
      let* b := get_buf i in
      kmod (set_idequeue b.(b_qnext)) ;;;
      (if (Z.land b.(b_flags) B_DIRTY =? 0) && (idewait true ide_status >=? 0)
       then let* d := ide_insl in mod_buf i (set_b_data d)
       else kret tt) ;;;
      mod_buf i (fun b => set_b_flags (Z.lor b.(b_flags) B_VALID) b) ;;;
      mod_buf i (fun b => set_b_flags (Z.land b.(b_flags) (Z.lnot B_DIRTY)) b) ;;;
      wakeup (ChBuf i) ;;;
      let* q' := kget (fun s => s.(idequeue)) in
      match q' with
      | Some _ => idestart q'
      | None => kret tt
      end ;;;
      release LkIde
  end.

(** The walk to the end of the queue and the assignment [*pp = b], from a queue
    element on; the fuel bounds the length of the queue. *)
Fixpoint ide_append (fuel : nat) (i b : nat) : K unit :=
  match fuel with
  | O => kfault "idequeue is cyclic"
  | S f =>
      let* x := get_buf i in
      match x.(b_qnext) with
      | None => mod_buf i (set_b_qnext (Some b))
      | Some j => ide_append f j b
      end
  end.

(** [iderw] up to the loop in which it waits. *)
Definition iderw_start (b : nat) : K unit :=
  let* bp := get_buf b in
  if Z.land bp.(b_flags) B_BUSY =? 0 then panic "iderw: buf not busy" else
  if Z.land bp.(b_flags) (Z.lor B_VALID B_DIRTY) =? B_VALID
  then panic "iderw: nothing to do" else
  let* have := kget (fun s => s.(havedisk1)) in
  if negb (bp.(b_dev) =? 0) && negb have then panic "idrw: ide disk 1 not present" else
  acquire LkIde ;;;
  mod_buf b (set_b_qnext None) ;;;
  let* q := kget (fun s => s.(idequeue)) in
  match q with
  | None => kmod (set_idequeue (Some b))
  | Some i => ide_append NBUF i b
  end ;;;
  let* q' := kget (fun s => s.(idequeue)) in
  (if decide (q' = Some b) then idestart (Some b) else kret tt).

(** [while((b->flags & (B_VALID|B_DIRTY)) != B_VALID) sleep(b, &idelock)]: the
    lock is free while the process sleeps, and the drive interrupts. *)
Fixpoint iderw_wait (fuel : nat) (b : nat) : K unit :=
  match fuel with
  | O => kfault "fuel"
  | S f =>
      let* bp := get_buf b in
      if Z.land bp.(b_flags) (Z.lor B_VALID B_DIRTY) =? B_VALID then kret tt
      else release LkIde ;;; ideintr ;;; acquire LkIde ;;; iderw_wait f b
  end.

Definition iderw (b : nat) : K unit :=
  iderw_start b ;;; iderw_wait (S NBUF) b ;;; release LkIde.

(** ** The request queue *)

(** [ide_chain t q l]: from [q] the [qnext] links run through [l]. *)
Fixpoint ide_chain (t : list buf) (q : option nat) (l : list nat) : Prop :=
  match l with
  | [] => q = None
  | i :: l' => q = Some i /\ exists b, t !! i = Some b /\ ide_chain t b.(b_qnext) l'
  end.

(** Where a buffer's sector lies on the drives. *)
Definition buf_loc (b : buf) : Z * Z := ide_decode (ide_regs b.(b_dev) b.(b_sector)).

Definition dirty (b : buf) : bool := negb (Z.land b.(b_flags) B_DIRTY =? 0).

(** [ide_queue s l]: the pending requests are [l], and the drive has been given
    the command of the first one. *)
Definition ide_queue (s : kstate) (l : list nat) : Prop :=
  ide_chain s.(bufs) s.(idequeue) l /\ NoDup l /\
  forall i l' b, l = i :: l' -> s.(bufs) !! i = Some b ->
    if dirty b then sector_at s.(disk) (buf_loc b) = b.(b_data)
    else s.(idecmd) = Some (buf_loc b).

(** The buffer a completed request leaves. *)
Definition io_done (d : gmap (Z * Z) (list Z)) (b : buf) : buf :=
  set_b_flags (Z.land (Z.lor b.(b_flags) B_VALID) (Z.lnot B_DIRTY))
    (if dirty b then b else set_b_data (sector_at d (buf_loc b)) b).

(** ** Lemmas *)

Lemma ide_decode_regs dev sector :
  ide_decode (ide_regs dev sector) = (Z.land dev 1, sector mod 2 ^ 28).
Proof.
  unfold ide_decode, ide_regs. f_equal.
  - rewrite !Z.shiftr_lor. change (Z.shiftr 0xe0 4) with 0xe. rewrite !Z.land_lor_distr_l.
    change (Z.land 0xe 1) with 0. rewrite Z.lor_0_l, Z.shiftr_shiftl_l by lia. simpl Z.sub.
    rewrite Z.shiftl_0_r, <- Z.land_assoc. change (Z.land 1 1) with 1.
    rewrite Z.shiftr_land. change (Z.shiftr 0x0f 4) with 0.
    by rewrite Z.land_0_r, Z.land_0_l, Z.lor_0_r.
  - rewrite !Z.land_lor_distr_l. change (Z.land 0xe0 0x0f) with 0.
    replace (Z.land (Z.shiftl (Z.land dev 1) 4) 0x0f) with 0.
    2:{ change 0x0f with (Z.ones 4). rewrite Z.land_ones, Z.shiftl_mul_pow2 by lia.
        by rewrite Z.mod_mul by lia. }
    rewrite !Z.lor_0_l, <- Z.land_assoc. change (Z.land 0x0f 0x0f) with (Z.ones 4).
    change 0xff with (Z.ones 8). rewrite <- Z.land_ones by lia. Z.bitblast.
Qed.

Lemma io_done_flags d b :
  Z.land (io_done d b).(b_flags) (Z.lor B_VALID B_DIRTY) = B_VALID.
Proof.
  unfold io_done. assert (forall f, Z.land (Z.land (Z.lor f 2) (Z.lnot 4)) 6 = 2) as H.
  { intros f. rewrite <- Z.land_assoc. change (Z.land (Z.lnot 4) 6) with 2.
    rewrite Z.land_lor_distr_l. change (Z.land 2 2) with 2. Z.bitblast. }
  destruct (dirty b); apply H.
Qed.

Lemma io_done_busy d b :
  Z.land (io_done d b).(b_flags) B_BUSY = Z.land b.(b_flags) B_BUSY.
Proof.
  unfold io_done. cbn. rewrite <- Z.land_assoc.
  change (Z.land (Z.lnot B_DIRTY) B_BUSY) with 1.
  rewrite Z.land_lor_distr_l. change (Z.land B_VALID 1) with 0. rewrite Z.lor_0_r.
  by destruct (dirty b).
Qed.

Lemma ide_chain_ext t t' q l :
  (forall i b, i ∈ l -> t !! i = Some b -> exists b', t' !! i = Some b' /\ b'.(b_qnext) = b.(b_qnext)) ->
  ide_chain t q l -> ide_chain t' q l.
Proof.
  revert q. induction l as [|i l IH]; intros q H; [done|].
  intros (-> & b & Hb & Hl). simpl. split; [done|].
  destruct (H i b) as (b' & Hb' & E); [left|done|]. exists b'. split; [done|]. rewrite E.
  apply IH; [|done]. intros j c Hj. apply H. by right.
Qed.

Lemma ide_chain_snoc t q l x b :
  ide_chain t q l -> NoDup (l ++ [x]) -> t !! x = Some b -> b.(b_qnext) = None ->
  match l with
  | [] => ide_chain t (Some x) [x]
  | i :: l' => forall j c, last l = Some j -> t !! j = Some c ->
      ide_chain (<[j := set_b_qnext (Some x) c]> t) q (l ++ [x])
  end.
Proof.
  intros Hl Hnd Hx Hq. destruct l as [|i l]; [split; [done|by exists b]|].
  revert q i Hl Hnd. induction l as [|k l IH]; intros q i Hl Hnd j c Hj Hc.
  - simpl in Hj. simplify_eq. destruct Hl as (-> & c' & Hc' & Hn). simpl in Hn.
    assert (c' = c) as -> by congruence.
    simpl. split; [done|]. exists (set_b_qnext (Some x) c).
    rewrite list_lookup_insert_eq by (by eapply lookup_lt_Some). split; [done|]. split; [done|].
    exists b. rewrite list_lookup_insert_ne; [done|].
    apply NoDup_cons in Hnd as [Hnd _]. set_solver.
  - destruct Hl as (-> & c' & Hc' & Hl).
    apply NoDup_cons in Hnd as [Hni Hnd].
    specialize (IH _ _ Hl Hnd j c Hj Hc). split; [done|].
    exists c'. rewrite list_lookup_insert_ne; [done|].
    assert (j ∈ k :: l) by (by apply last_Some_elem_of). set_solver.
Qed.

Lemma mod_buf_run i f s b :
  s.(bufs) !! i = Some b -> mod_buf i f s = Ok tt (set_bufs (<[i := f b]> s.(bufs)) s).
Proof. intros Hp. apply mod_buf_Ok. eauto. Qed.

Lemma ide_append_run fuel i l x s j c :
  ide_chain s.(bufs) (Some i) (i :: l) -> last (i :: l) = Some j -> s.(bufs) !! j = Some c ->
  (length l < fuel)%nat ->
  ide_append fuel i x s = Ok tt (set_bufs (<[j := set_b_qnext (Some x) c]> s.(bufs)) s).
Proof.
  revert i l. induction fuel as [|f IH]; intros i l Hl Hj Hc Hf; [lia|].
  destruct Hl as (_ & b & Hb & Hl). simpl ide_append. kexec by (by apply get_buf_Ok).
  destruct l as [|k l]; simpl in Hl.
  - rewrite Hl. simpl in Hj. simplify_eq. by apply mod_buf_run.
  - destruct Hl as (E & Hl). rewrite E. apply (IH k l); [done|done|done|simpl in Hf; lia].
Qed.

(** The effect of [idestart] on the drive. *)
Definition started (b : buf) (s : kstate) : kstate :=
  if dirty b then set_disk (<[buf_loc b := b.(b_data)]> s.(disk)) s
  else set_idecmd (Some (buf_loc b)) s.

Lemma idestart_run i b s :
  s.(bufs) !! i = Some b -> idestart (Some i) s = Ok tt (started b s).
Proof.
  intros Hb. unfold idestart, started, dirty. kexec by (by apply get_buf_Ok).
  by destruct (negb _).
Qed.

Lemma started_bufs b s : (started b s).(bufs) = s.(bufs).
Proof. unfold started. by destruct (dirty b). Qed.
Lemma started_idequeue b s : (started b s).(idequeue) = s.(idequeue).
Proof. unfold started. by destruct (dirty b). Qed.
Lemma started_held b s : (started b s).(held) = s.(held).
Proof. unfold started. by destruct (dirty b). Qed.

Lemma started_drive b s :
  if dirty b then sector_at (started b s).(disk) (buf_loc b) = b.(b_data)
  else (started b s).(idecmd) = Some (buf_loc b).
Proof.
  unfold started, sector_at. destruct (dirty b); cbn; [|done]. by rewrite lookup_insert_eq.
Qed.

(** The state after an interrupt for the request at the head, before the next
    request is started. *)
Definition completed (i : nat) (b : buf) (s : kstate) : kstate :=
  set_ptable (wake_one (ChBuf i) <$> s.(ptable))
    (set_bufs (<[i := io_done s.(disk) b]> s.(bufs)) (set_idequeue b.(b_qnext) s)).

Lemma ideintr_run i b s :
  s.(idequeue) = Some i -> s.(bufs) !! i = Some b ->
  (dirty b = false -> s.(idecmd) = Some (buf_loc b)) ->
  LkIde ∉ s.(held) -> LkPtable ∉ s.(held) ->
  ideintr s = match b.(b_qnext) with
              | None => Ok tt (completed i b s)
              | Some k => match (completed i b s).(bufs) !! k with
                          | Some c => Ok tt (started c (completed i b s))
                          | None => Fault "bcache"
                          end
              end.
Proof.
  intros Hq Hb Hc Hk Hp. assert (i < length s.(bufs))%nat as Hi by (by eapply lookup_lt_Some).
  unfold ideintr. kexec acquire_free. unfold kget at 1, kbind at 1. cbn. rewrite Hq.
  kexec by (by apply get_buf_Ok). unfold kmod at 1, kbind at 1.
  set (s1 := set_idequeue b.(b_qnext) (set_held (LkIde :: s.(held)) s)).
  set (b1 := if dirty b then b else set_b_data (sector_at s.(disk) (buf_loc b)) b).
  erewrite (kbind_Ok _ _ _ tt (set_bufs (<[i := b1]> s.(bufs)) s1)).
  2:{ change (idewait true ide_status >=? 0) with true. rewrite andb_true_r.
      unfold b1, dirty in *. destruct (_ =? 0); cbn [negb] in *.
      - unfold ide_insl, kbind at 1. cbn. rewrite (Hc eq_refl). by apply (mod_buf_run i _ s1).
      - unfold kret. by rewrite list_insert_id. }
  kexec (mod_buf_run i _ _ b1); [|by apply list_lookup_insert_eq].
  cbn [bufs set_bufs]. rewrite list_insert_insert_eq.
  kexec by (apply (mod_buf_run i); cbn; by apply list_lookup_insert_eq).
  cbn [bufs set_bufs]. rewrite list_insert_insert_eq.
  kexec by (apply wakeup_ok; cbn; set_solver).
  match goal with |- kbind _ _ ?x = _ => set (s2 := x) end.
  assert (s2 = set_held (LkIde :: s.(held)) (completed i b s)) as ->.
  { unfold s2, completed, io_done, s1, b1. by destruct (dirty b). }
  unfold kget, kbind at 1. cbn [idequeue set_held completed set_ptable set_bufs set_idequeue].
  destruct b.(b_qnext) as [k|].
  - destruct (<[i:=io_done (disk s) b]> (bufs s) !! k) as [c|] eqn:Ek.
    + kexec by (apply (idestart_run k c); exact Ek).
      rewrite (release_top LkIde s.(held)) by (by rewrite started_held).
      unfold started. by destruct (dirty c).
    + unfold idestart, kbind, get_buf. cbn. by rewrite Ek.
  - unfold kbind, kret. by rewrite (release_top LkIde s.(held)).
Qed.

(** Appending a request. *)
Lemma iderw_start_run b bp s l :
  ide_queue s l -> (length l <= NBUF)%nat -> b ∉ l -> s.(bufs) !! b = Some bp ->
  Z.land bp.(b_flags) B_BUSY <> 0 ->
  Z.land bp.(b_flags) (Z.lor B_VALID B_DIRTY) <> B_VALID ->
  bp.(b_dev) = 0 \/ s.(havedisk1) = true -> LkIde ∉ s.(held) ->
  exists s', iderw_start b s = Ok tt s' /\ ide_queue s' (l ++ [b]) /\
    s'.(held) = LkIde :: s.(held) /\
    (l = [] -> s' = started (set_b_qnext None bp) (set_idequeue (Some b)
       (set_bufs (<[b := set_b_qnext None bp]> s.(bufs)) (set_held (LkIde :: s.(held)) s)))).
Proof.
  intros (Hl & Hnd & Hd) Hlen Hn Hb Hbusy Hval Hdisk Hk.
  assert (b < length s.(bufs))%nat as Hi by (by eapply lookup_lt_Some).
  unfold iderw_start. kexec by (by apply get_buf_Ok).
  rewrite (proj2 (Z.eqb_neq _ _) Hbusy), (proj2 (Z.eqb_neq _ _) Hval).
  unfold kget at 1, kbind at 1.
  replace (negb (b_dev bp =? 0) && negb (havedisk1 s)) with false.
  2:{ destruct Hdisk as [-> | ->]; [done|]. by rewrite andb_false_r. }
  kexec acquire_free. kexec (mod_buf_run b _ _ bp). unfold kget at 1, kbind at 1. cbn [idequeue set_bufs set_held].
  set (s1 := set_bufs (<[b := set_b_qnext None bp]> s.(bufs)) (set_held (LkIde :: s.(held)) s)).
  assert (ide_chain s1.(bufs) s1.(idequeue) l) as Hl1.
  { eapply ide_chain_ext; [|exact Hl]. intros i c Hi' Hc. exists c. cbn.
    rewrite list_lookup_insert_ne; [done|]. by intros ->. }
  assert (NoDup (l ++ [b])) as Hnd'.
  { apply NoDup_app. split_and!; [done| |apply NoDup_singleton]. intros x Hx Hx'.
    apply list_elem_of_singleton in Hx' as ->. by apply Hn. }
  assert (s1.(bufs) !! b = Some (set_b_qnext None bp)) as Hb1
    by (by apply list_lookup_insert_eq).
  pose proof (ide_chain_snoc _ _ _ b _ Hl1 Hnd' Hb1 eq_refl) as Hsn.
  destruct l as [|i l].
  - simpl in Hl. rewrite Hl. unfold kmod at 1, kbind at 1. unfold kget, kbind at 1.
    rewrite decide_True by done.
    erewrite idestart_run by exact Hb1. eexists. split; [reflexivity|].
    split_and!; [|by rewrite started_held|done].
    split_and!; [by rewrite started_bufs, started_idequeue|apply NoDup_singleton|].
    intros i l' c [= <- <-]. rewrite started_bufs. cbn. intros Hc.
    rewrite list_lookup_insert_eq in Hc by done. simplify_eq. apply started_drive.
  - destruct Hl as (Hq & c0 & Hc0 & Hl). rewrite Hq.
    destruct (last_is_Some (i :: l)) as [_ [j Hj]]; [done|].
    assert (exists c, s1.(bufs) !! j = Some c) as [c Hc].
    { assert (j ∈ i :: l) as Hjl by (by apply last_Some_elem_of).
      clear -Hl1 Hjl. revert Hl1. generalize s1.(idequeue). revert Hjl. generalize (i :: l).
      intros k. induction k as [|x k IH]; [by intros ?%not_elem_of_nil|].
      intros [->|Hj]%elem_of_cons q (_ & y & Hy & Hk); eauto. }
    kexec by (apply (ide_append_run NBUF i l b s1 j c); [|done|done|simpl in Hlen; lia];
              cbn in Hl1 |- *; rewrite Hq in Hl1; exact Hl1).
    unfold kget, kbind at 1. cbn [idequeue set_bufs].
    rewrite decide_False by (cbn; rewrite Hq; intros [= ->]; apply Hn; left).
    eexists. split; [reflexivity|]. split_and!; [|done|done].
    specialize (Hsn j c Hj Hc). split_and!; [exact Hsn|done|].
    intros i' l' d [= <- <-] Hd'. cbn in Hd'.
    assert (exists d0, s.(bufs) !! i = Some d0 /\ dirty d = dirty d0 /\ buf_loc d = buf_loc d0
              /\ d.(b_data) = d0.(b_data)) as (d0 & Hd0 & -> & -> & ->).
    { assert (b <> i) by (intros ->; apply Hn; left).
      destruct (decide (j = i)) as [->|Hji].
      - rewrite list_lookup_insert_eq in Hd' by (by eapply lookup_lt_Some). simplify_eq.
        cbn in Hc. rewrite list_lookup_insert_ne in Hc by done. eauto.
      - rewrite !list_lookup_insert_ne in Hd' by done. eauto. }
    by apply (Hd i l d0).
Qed.

(** With an idle drive, [iderw] completes after one interrupt. *)
Definition iderw_state (b : nat) (bp : buf) (s : kstate) : kstate :=
  let bp0 := set_b_qnext None bp in
  set_idequeue None (set_ptable (wake_one (ChBuf b) <$> s.(ptable))
    (set_bufs (<[b := io_done s.(disk) bp0]> s.(bufs)) (started bp0 s))).

Lemma iderw_run b bp s :
  s.(idequeue) = None -> s.(bufs) !! b = Some bp ->
  Z.land bp.(b_flags) B_BUSY <> 0 ->
  Z.land bp.(b_flags) (Z.lor B_VALID B_DIRTY) <> B_VALID ->
  bp.(b_dev) = 0 \/ s.(havedisk1) = true -> LkIde ∉ s.(held) -> LkPtable ∉ s.(held) ->
  iderw b s = Ok tt (iderw_state b bp s).
Proof.
  intros Hq Hb Hbusy Hval Hd Hk Hp.
  assert (b < length s.(bufs))%nat as Hi by (by eapply lookup_lt_Some).
  destruct (iderw_start_run b bp s []) as (s1 & E1 & Hq1 & _ & Hs1); try done; [|simpl; lia| |].
  { split_and!; [done|constructor|done]. }
  { apply not_elem_of_nil. }
  specialize (Hs1 eq_refl). set (bp0 := set_b_qnext None bp) in *.
  assert (s1.(bufs) !! b = Some bp0) as Hb1.
  { rewrite Hs1, started_bufs. cbn. by apply list_lookup_insert_eq. }
  assert (s1.(held) = LkIde :: s.(held)) as Hh1 by (by rewrite Hs1, started_held).
  assert (ideintr (set_held s.(held) s1) = Ok tt (completed b bp0 (set_held s.(held) s1))) as Ei.
  { rewrite (ideintr_run b bp0); [reflexivity| |exact Hb1| |exact Hk|exact Hp].
    - cbn. by rewrite Hs1, started_idequeue.
    - intros Hdb. rewrite Hs1. unfold started. cbn. by rewrite Hdb. }
  assert ((completed b bp0 s1).(bufs) !! b = Some (io_done s1.(disk) bp0)) as Hb2.
  { apply list_lookup_insert_eq. by eapply lookup_lt_Some. }
  unfold iderw. kexec by (exact E1).
  erewrite (kbind_Ok _ _ _ tt (set_held (LkIde :: s.(held)) (completed b bp0 s1))).
  2:{ change (S NBUF) with (S (S 99)). generalize 99%nat. intros f. cbn [iderw_wait].
      kexec by (by apply get_buf_Ok).
      rewrite (proj2 (Z.eqb_neq (Z.land bp0.(b_flags) _) _) Hval). rewrite <- Hs1.
      kexec by (by apply (release_top LkIde s.(held))). kexec by (exact Ei).
      kexec acquire_free.
      kexec by (apply get_buf_Ok; split; [exact Hb2|reflexivity]).
      by rewrite io_done_flags, Z.eqb_refl. }
  rewrite (release_top LkIde s.(held)) by done. f_equal. unfold iderw_state, completed.
  fold bp0. rewrite Hs1. unfold started. destruct (dirty bp0) eqn:Hdb; cbn.
  - rewrite list_insert_insert_eq. unfold io_done. by rewrite Hdb.
  - by rewrite list_insert_insert_eq.
Qed.

(** ** Properties *)

(** The register bytes [idestart] sends make the drive address the right
    sector: drive [dev & 1], and all 28 bits of the block address.  Sectors
    from 2^28 on would be folded onto lower ones. *)
Theorem ide_addressing (dev sector : Z) :
  ide_decode (ide_regs dev sector) = (Z.land dev 1, sector mod 2 ^ 28).
Proof. apply ide_decode_regs. Qed.

(** The driver serves requests first come, first served: a new request goes
    to the end of the queue, and an interrupt completes the request at the
    head, whose buffer then is valid, clean and equal to its sector, wakes
    everyone waiting for that buffer, and starts the next request. *)
Theorem ide_fifo (s : kstate) (l : list nat) (x : nat) (b : buf) :
  ide_queue s l -> (length l <= NBUF)%nat -> s.(bufs) !! x = Some b ->
  LkIde ∉ s.(held) -> LkPtable ∉ s.(held) ->
  (x ∉ l -> Z.land b.(b_flags) B_BUSY <> 0 ->
   Z.land b.(b_flags) (Z.lor B_VALID B_DIRTY) <> B_VALID ->
   b.(b_dev) = 0 \/ s.(havedisk1) = true ->
   exists s', iderw_start x s = Ok tt s' /\ ide_queue s' (l ++ [x]))
  /\ (forall l', l = x :: l' ->
   exists s' b', ideintr s = Ok tt s' /\ ide_queue s' l' /\ s'.(bufs) !! x = Some b' /\
     Z.land b'.(b_flags) (Z.lor B_VALID B_DIRTY) = B_VALID /\
     b'.(b_data) = sector_at s.(disk) (buf_loc b) /\
     forall j q, s'.(ptable) !! j = Some q -> q.(p_state) = SLEEPING -> q.(p_chan) <> Some (ChBuf x)).
Proof.
  intros Hq Hlen Hb Hk Hp. split.
  - intros Hn Hbusy Hval Hd.
    destruct (iderw_start_run x b s l) as (s' & E & Hs' & _); try done. eauto.
  - intros l' ->. destruct Hq as ((Hq & b' & Hb' & Hl) & Hnd & Hdr).
    assert (b' = b) as -> by congruence. apply NoDup_cons in Hnd as [Hx Hnd].
    pose proof (Hdr x l' b eq_refl Hb) as Hbd.
    assert (x < length s.(bufs))%nat as Hi by (by eapply lookup_lt_Some).
    assert (forall s', s'.(bufs) = (completed x b s).(bufs) ->
      s'.(ptable) = (completed x b s).(ptable) ->
      s'.(bufs) !! x = Some (io_done s.(disk) b) /\
      Z.land (io_done s.(disk) b).(b_flags) (Z.lor B_VALID B_DIRTY) = B_VALID /\
      (io_done s.(disk) b).(b_data) = sector_at s.(disk) (buf_loc b) /\
      forall j q, s'.(ptable) !! j = Some q -> q.(p_state) = SLEEPING ->
        q.(p_chan) <> Some (ChBuf x)) as Hres.
    { intros s' -> ->. split_and!; [by apply list_lookup_insert_eq|by apply io_done_flags| |].
      - unfold io_done. by destruct (dirty b); cbn.
      - intros j q Hj. unfold completed in Hj. cbn in Hj. rewrite list_lookup_fmap in Hj.
        destruct (s.(ptable) !! j) as [r|]; simplify_eq/=.
        unfold wake_one. case_decide; [done|]. naive_solver. }
    assert (ide_chain (completed x b s).(bufs) b.(b_qnext) l') as Hl'.
    { eapply ide_chain_ext; [|exact Hl]. intros i c Hil Hc. exists c. cbn.
      rewrite list_lookup_insert_ne; [done|]. by intros ->. }
    pose proof (ideintr_run x b s Hq Hb) as Hrun. rewrite Hrun; try done.
    2:{ intros Hdb. by rewrite Hdb in Hbd. }
    destruct l' as [|k l'].
    + simpl in Hl. rewrite Hl. eexists _, _. split; [reflexivity|].
      split; [|by apply Hres]. split_and!; [by simpl|constructor|done].
    + destruct Hl as (Hqn & _). rewrite Hqn. rewrite Hqn in Hl'. destruct Hl' as (_ & c & Hc & Hl').
      rewrite Hc. eexists _, _. split; [reflexivity|]. split.
      * split_and!; [|done|].
        -- rewrite started_bufs, started_idequeue. cbn. rewrite Hqn. split; [done|]. by exists c.
        -- intros k' l2 c' [= <- <-]. rewrite started_bufs. intros Hc'. simplify_eq. apply started_drive.
      * apply Hres; [apply started_bufs|]. unfold started. by destruct (dirty c).
Qed.

(** A buffer waiting for a read of sector 9 of drive 0. *)
Definition read_buf : buf := mk_buf B_BUSY 0 9 0 0 None (replicate 512 0).
Definition read_state : kstate :=
  set_disk {[ (0, 9) := [42] ]} (set_bufs [read_buf] bare_state).

Lemma ide_fifo_witness :
  exists s1 s2 b, iderw_start 0 read_state = Ok tt s1
    /\ ideintr (set_held [] s1) = Ok tt s2
    /\ s2.(bufs) !! 0%nat = Some b /\ b.(b_data) = [42].
Proof.
  destruct (ide_fifo read_state [] 0 read_buf) as [Hs _];
    [split_and!; [done|constructor|done]|unfold NBUF; simpl; lia|done|apply not_elem_of_nil..|].
  destruct Hs as (s1 & E1 & Hq1); [apply not_elem_of_nil|done|done|by left|].
  destruct (ide_fifo (set_held [] s1) [0%nat] 0 (set_b_qnext None read_buf)) as [_ Hi];
    [exact Hq1|unfold NBUF; simpl; lia| |apply not_elem_of_nil..|].
  { vm_compute in E1. injection E1 as <-. reflexivity. }
  destruct (Hi [] eq_refl) as (s2 & b & E2 & _ & Hb & _ & Hd & _).
  exists s1, s2, b. split_and!; [done|done|done|]. rewrite Hd.
  vm_compute in E1. injection E1 as <-. reflexivity.
Defined.

(** [iderw] on an idle drive returns with the buffer valid, clean and equal
    to the sector on disk: a dirty buffer has been written to its sector and to
    no other, a clean one has been read and the disk is unchanged. *)
Theorem iderw_syncs (s : kstate) (b : nat) (bp : buf) :
  s.(idequeue) = None -> s.(bufs) !! b = Some bp ->
  Z.land bp.(b_flags) B_BUSY <> 0 ->
  Z.land bp.(b_flags) (Z.lor B_VALID B_DIRTY) <> B_VALID ->
  bp.(b_dev) = 0 \/ s.(havedisk1) = true -> LkIde ∉ s.(held) -> LkPtable ∉ s.(held) ->
  exists s' bp', iderw b s = Ok tt s' /\ s'.(bufs) = <[b := bp']> s.(bufs) /\
    s'.(idequeue) = None /\
    Z.land bp'.(b_flags) (Z.lor B_VALID B_DIRTY) = B_VALID /\
    buf_loc bp' = buf_loc bp /\
    bp'.(b_data) = sector_at s'.(disk) (buf_loc bp) /\
    s'.(disk) = if dirty bp then <[buf_loc bp := bp.(b_data)]> s.(disk) else s.(disk).
Proof.
  intros Hq Hb Hbusy Hval Hd Hk Hp. eexists _, _. split; [by apply iderw_run|].
  unfold iderw_state. split_and!; cbn.
  - rewrite ?started_bufs. reflexivity.
  - done.
  - apply io_done_flags.
  - unfold io_done, dirty. cbn. by destruct (negb _).
  - unfold io_done, started, dirty, buf_loc, sector_at. cbn.
    destruct (negb _); cbn; [by rewrite lookup_insert_eq|done].
  - unfold started, dirty, buf_loc. cbn. by destruct (negb _).
Qed.

Lemma iderw_syncs_witness :
  exists s' bp', iderw 0 read_state = Ok tt s' /\ s'.(bufs) = [bp'] /\ bp'.(b_data) = [42].
Proof.
  destruct (iderw_syncs read_state 0 read_buf) as (s' & bp' & E & Hb & _ & _ & _ & Hd & Hdk);
    [done|done|done|done|by left|apply not_elem_of_nil..|].
  exists s', bp'. split_and!; [done|done|]. rewrite Hd, Hdk. reflexivity.
Defined.
