(* ===== verification/Bio.v ===== *)
(** The buffer cache: bio.c.

    The buffers lie in [bcache.buf] and are linked, through [prev] and [next],
    in a ring that starts and ends at [bcache.head] (number [NBUF]), the most
    recently used first.  A buffer that is not busy and valid holds the
    contents of its sector; [BlockLaws] states what the file system relies on,
    and the cache is shown to keep its promise. *)

From stdpp Require Import functions.
From S2P Require Import Prelude CString State ProcSync Ide.

(** Number of [bcache.head]. *)
Definition HEAD : nat := NBUF.

(** The value of [(uint)-1]. *)
Definition NODEV : Z := 2 ^ 32 - 1.

Definition binit : K unit :=
  mod_buf HEAD (set_b_prev HEAD) ;;;
  mod_buf HEAD (set_b_next HEAD) ;;;
  kfor (seq 0 NBUF) (fun b =>
    let* h := get_buf HEAD in
    mod_buf b (set_b_next h.(b_next)) ;;;
    mod_buf b (set_b_prev HEAD) ;;;
    mod_buf b (set_b_dev NODEV) ;;;
    let* h' := get_buf HEAD in
    mod_buf h'.(b_next) (set_b_prev b) ;;;
    mod_buf HEAD (set_b_next b)).

(** The two loops of [bget], from buffer [b] on. *)
Fixpoint bget_cached (fuel : nat) (dev sector : Z) (b : nat) : K (option nat) :=
  match fuel with
  | O => kfault "bcache is not a ring"
  | S f =>
      if decide (b = HEAD) then kret None else
      let* bp := get_buf b in
      if (bp.(b_dev) =? dev) && (bp.(b_sector) =? sector) then kret (Some b)
      else bget_cached f dev sector bp.(b_next)
  end.

Fixpoint bget_fresh (fuel : nat) (b : nat) : K (option nat) :=
  match fuel with
  | O => kfault "bcache is not a ring"
  | S f =>
      if decide (b = HEAD) then kret None else
      let* bp := get_buf b in
      if Z.land bp.(b_flags) B_BUSY =? 0 then kret (Some b)
      else bget_fresh f bp.(b_prev)
  end.

Definition bget (dev sector : Z) : K nat :=
  acquire LkBcache ;;;
  let* h := get_buf HEAD in
  let* o := bget_cached (S NBUF) dev sector h.(b_next) in
  match o with
  | Some b =>
      let* bp := get_buf b in
      if Z.land bp.(b_flags) B_BUSY =? 0 then
        mod_buf b (fun bp => set_b_flags (Z.lor bp.(b_flags) B_BUSY) bp) ;;;
        release LkBcache ;;;
        kret b
      else
        sleep (ChBuf b) LkBcache ;;; kfault "sleep does not return here"
  | None =>
      let* o' := bget_fresh (S NBUF) h.(b_prev) in
      match o' with
      | Some b =>
          mod_buf b (set_b_dev dev) ;;;
          mod_buf b (set_b_sector sector) ;;;
          mod_buf b (set_b_flags B_BUSY) ;;;
          release LkBcache ;;;
          kret b
      | None => panic "bget: no buffers"
      end
  end.

Definition bread (dev sector : Z) : K nat :=
  let* b := bget dev sector in
  let* bp := get_buf b in
  (if Z.land bp.(b_flags) B_VALID =? 0 then iderw b else kret tt) ;;;
  kret b.

Definition bwrite (b : nat) : K unit :=
  let* bp := get_buf b in
  if Z.land bp.(b_flags) B_BUSY =? 0 then panic "bwrite" else
  mod_buf b (fun bp => set_b_flags (Z.lor bp.(b_flags) B_DIRTY) bp) ;;;
  iderw b.

Definition brelse (b : nat) : K unit :=
  let* bp := get_buf b in
  if Z.land bp.(b_flags) B_BUSY =? 0 then panic "brelse" else
  acquire LkBcache ;;;
  let* b1 := get_buf b in
  mod_buf b1.(b_next) (set_b_prev b1.(b_prev)) ;;;
  let* b2 := get_buf b in
  mod_buf b2.(b_prev) (set_b_next b2.(b_next)) ;;;
  let* h1 := get_buf HEAD in
  mod_buf b (set_b_next h1.(b_next)) ;;;
  mod_buf b (set_b_prev HEAD) ;;;
  let* h2 := get_buf HEAD in
  mod_buf h2.(b_next) (set_b_prev b) ;;;
  mod_buf HEAD (set_b_next b) ;;;
  mod_buf b (fun bp => set_b_flags (Z.land bp.(b_flags) (Z.lnot B_BUSY)) bp) ;;;
  wakeup (ChBuf b) ;;;
  release LkBcache.

(** ** The ring *)

Section ring.
Implicit Types (nx pv : nat -> nat) (l : list nat) (a z b : nat).

(** [dll nx pv a l z]: following [nx] from [a] one meets [l] and then [z], and
    [pv] leads back. *)
Fixpoint dll nx pv a l z : Prop :=
  match l with
  | [] => nx a = z /\ pv z = a
  | x :: l' => nx a = x /\ pv x = a /\ dll nx pv x l' z
  end.

Lemma dll_ext nx pv nx' pv' a l z :
  (forall i, i ∈ a :: l -> nx' i = nx i) -> (forall i, i ∈ l ++ [z] -> pv' i = pv i) ->
  dll nx pv a l z -> dll nx' pv' a l z.
Proof.
  revert a. induction l as [|x l IH]; intros a Hn Hp; simpl.
  - intros [E1 E2]. rewrite Hn, Hp by left. done.
  - intros (E1 & E2 & Hl). rewrite Hn, Hp by left. split_and!; [done..|].
    apply IH; [..|done]; intros i Hi; [apply Hn|apply Hp]; by right.
Qed.

Lemma dll_app nx pv a l1 b l2 z :
  dll nx pv a (l1 ++ b :: l2) z <-> dll nx pv a l1 b /\ dll nx pv b l2 z.
Proof.
  revert a. induction l1 as [|x l IH]; intros a; simpl; [tauto|]. rewrite IH. tauto.
Qed.

Lemma dll_first nx pv a l z : dll nx pv a l z -> nx a = default z (head l).
Proof. destruct l; simpl; tauto. Qed.

Lemma dll_last nx pv a l z : dll nx pv a l z -> pv z = default a (last l).
Proof.
  revert a. induction l as [|x l IH]; intros a; [simpl; tauto|].
  intros (_ & _ & Hl). rewrite (IH _ Hl). rewrite last_cons. by destruct (last l).
Qed.

(** Unlinking [b]. *)
Lemma dll_unlink nx pv a l1 b l2 z :
  dll nx pv a (l1 ++ b :: l2) z -> NoDup (a :: l1 ++ b :: l2) -> NoDup (l1 ++ b :: l2 ++ [z]) ->
  dll (<[pv b := nx b]> nx) (<[nx b := pv b]> pv) a (l1 ++ l2) z.
Proof.
  intros Hd Ha Hz. apply dll_app in Hd as [H1 H2].
  pose proof (dll_last _ _ _ _ _ H1) as Hp. pose proof (dll_first _ _ _ _ _ H2) as Hn.
  rewrite Hp, Hn. clear Hp Hn. revert a H1 Ha. induction l1 as [|x l1 IH]; intros a H1 Ha.
  - simpl in *. destruct l2 as [|y l2]; simpl in *.
    + by rewrite !fn_lookup_insert.
    + destruct H2 as (_ & _ & H2). rewrite !fn_lookup_insert. split_and!; [done..|].
      eapply dll_ext; [..|exact H2]; intros i Hi; apply fn_lookup_insert_ne; intros <-.
      * apply NoDup_cons in Ha as [Ha _]. apply Ha. by right.
      * apply NoDup_cons in Hz as [_ Hz]. by apply NoDup_cons in Hz as [Hz _].
  - destruct H1 as (Hx & Hpx & H1). simpl in Ha, Hz.
    apply NoDup_cons in Ha as [Hna Ha], Hz as [Hnx Hz].
    simpl. split_and!.
    + rewrite fn_lookup_insert_ne; [done|]. rewrite last_cons. intros E. apply Hna. rewrite <- E.
      destruct (last l1) as [u|] eqn:Hu; [apply last_Some_elem_of in Hu|]; set_solver.
    + rewrite fn_lookup_insert_ne; [done|]. intros E. apply Hnx. rewrite <- E.
      destruct l2; set_solver.
    + rewrite last_cons.
      replace (default a _) with (default x (last l1)) by (by destruct (last l1)). by apply IH.
Qed.

(** Linking [b] in at the front. *)
Lemma dll_push nx pv a l z b :
  dll nx pv a l z -> NoDup (b :: a :: l) -> NoDup (b :: l ++ [z]) ->
  dll (<[a := b]> (<[b := nx a]> nx)) (<[nx a := b]> (<[b := a]> pv)) a (b :: l) z.
Proof.
  intros Hd Ha Hz. pose proof (dll_first _ _ _ _ _ Hd) as Hn.
  apply NoDup_cons in Ha as [Hba Ha], Hz as [Hbz Hz]. apply NoDup_cons in Ha as [Haa Ha].
  assert (b <> nx a) as Hbn by (rewrite Hn; intros E; apply Hbz; destruct l; set_solver).
  simpl. split_and!; [by rewrite fn_lookup_insert| |].
  - rewrite fn_lookup_insert_ne by done. by rewrite fn_lookup_insert.
  - destruct l as [|x l]; simpl in *.
    + destruct Hd as [-> _]. rewrite fn_lookup_insert_ne by set_solver.
      by rewrite !fn_lookup_insert.
    + destruct Hd as (-> & _ & Hd). rewrite fn_lookup_insert_ne by set_solver.
      rewrite !fn_lookup_insert. split_and!; [done..|].
      eapply dll_ext; [..|exact Hd]; intros i Hi.
      * rewrite !fn_lookup_insert_ne by set_solver. done.
      * apply NoDup_cons in Hz as [Hx _]. rewrite !fn_lookup_insert_ne by set_solver. done.
Qed.
End ring.

(** ** The table as links and payload *)

Definition nxt (t : list buf) (i : nat) : nat := default O (b_next <$> t !! i).
Definition prv (t : list buf) (i : nat) : nat := default O (b_prev <$> t !! i).

(** What a buffer holds, without its links. *)
Definition pay (b : buf) : Z * Z * Z * list Z := (b.(b_flags), b.(b_dev), b.(b_sector), b.(b_data)).
Definition pays (t : list buf) : list (Z * Z * Z * list Z) := pay <$> t.

(** [reads t nx pv ps]: the table with these links and payloads. *)
Definition reads (t : list buf) (nx pv : nat -> nat) (ps : list (Z * Z * Z * list Z)) : Prop :=
  (forall j, nxt t j = nx j) /\ (forall j, prv t j = pv j) /\ pays t = ps.

Lemma reads_self t : reads t (nxt t) (prv t) (pays t).
Proof. by split_and!. Qed.

Lemma pays_insert t i b c :
  t !! i = Some b -> pay c = pay b -> pays (<[i := c]> t) = pays t.
Proof.
  intros Hb E. unfold pays. rewrite list_fmap_insert, E. apply list_insert_id.
  by rewrite list_lookup_fmap, Hb.
Qed.

Lemma reads_lookup t nx pv ps i :
  reads t nx pv ps -> (i < length ps)%nat ->
  exists b, t !! i = Some b /\ b.(b_next) = nx i /\ b.(b_prev) = pv i /\ ps !! i = Some (pay b).
Proof.
  intros (Hn & Hp & <-) Hi. unfold pays in Hi. rewrite length_fmap in Hi.
  destruct (lookup_lt_is_Some_2 t i Hi) as [b Hb]. exists b.
  specialize (Hn i). specialize (Hp i). unfold nxt, prv in *. unfold pays.
  rewrite list_lookup_fmap, Hb in *. done.
Qed.

Lemma reads_set_next s nx pv ps i v :
  reads s.(bufs) nx pv ps -> (i < length ps)%nat ->
  exists t, mod_buf i (set_b_next v) s = Ok tt (set_bufs t s) /\ reads t (<[i := v]> nx) pv ps.
Proof.
  intros Hr Hi. destruct (reads_lookup _ _ _ _ _ Hr Hi) as (b & Hb & _).
  eexists. split; [by apply mod_buf_run|]. destruct Hr as (Hn & Hp & Hps).
  assert (i < length s.(bufs))%nat by (by eapply lookup_lt_Some).
  split_and!; [intros j..|by rewrite (pays_insert _ _ b)].
  - unfold nxt. destruct (decide (i = j)) as [<-|Hij].
    + by rewrite list_lookup_insert_eq, fn_lookup_insert.
    + rewrite list_lookup_insert_ne, fn_lookup_insert_ne by done. apply Hn.
  - rewrite <- Hp. unfold prv. destruct (decide (i = j)) as [<-|Hij].
    + by rewrite list_lookup_insert_eq, Hb.
    + by rewrite list_lookup_insert_ne.
Qed.

Lemma reads_set_prev s nx pv ps i v :
  reads s.(bufs) nx pv ps -> (i < length ps)%nat ->
  exists t, mod_buf i (set_b_prev v) s = Ok tt (set_bufs t s) /\ reads t nx (<[i := v]> pv) ps.
Proof.
  intros Hr Hi. destruct (reads_lookup _ _ _ _ _ Hr Hi) as (b & Hb & _).
  eexists. split; [by apply mod_buf_run|]. destruct Hr as (Hn & Hp & Hps).
  assert (i < length s.(bufs))%nat by (by eapply lookup_lt_Some).
  split_and!; [intros j..|by rewrite (pays_insert _ _ b)].
  - rewrite <- Hn. unfold nxt. destruct (decide (i = j)) as [<-|Hij].
    + by rewrite list_lookup_insert_eq, Hb.
    + by rewrite list_lookup_insert_ne.
  - unfold prv. destruct (decide (i = j)) as [<-|Hij].
    + by rewrite list_lookup_insert_eq, fn_lookup_insert.
    + rewrite list_lookup_insert_ne, fn_lookup_insert_ne by done. apply Hp.
Qed.

(** Any update that keeps the links. *)
Lemma reads_set_pay s nx pv ps i f :
  (forall b, (f b).(b_next) = b.(b_next) /\ (f b).(b_prev) = b.(b_prev)) ->
  reads s.(bufs) nx pv ps -> (i < length ps)%nat ->
  exists b t, s.(bufs) !! i = Some b /\ ps !! i = Some (pay b) /\
    mod_buf i f s = Ok tt (set_bufs t s) /\ t = <[i := f b]> s.(bufs) /\
    reads t nx pv (<[i := pay (f b)]> ps).
Proof.
  intros Hf Hr Hi. destruct (reads_lookup _ _ _ _ _ Hr Hi) as (b & Hb & _ & _ & Hpb).
  exists b. eexists. split_and!; [done|done|by apply mod_buf_run|reflexivity|].
  destruct Hr as (Hn & Hp & <-). destruct (Hf b) as [Fn Fp].
  assert (i < length s.(bufs))%nat by (by eapply lookup_lt_Some).
  split_and!; [intros j; rewrite <- Hn|intros j; rewrite <- Hp|apply list_fmap_insert];
    unfold nxt, prv; destruct (decide (i = j)) as [<-|Hij].
  all: try (by rewrite list_lookup_insert_ne).
  all: rewrite list_lookup_insert_eq, Hb by done; simpl; congruence.
Qed.

(** [lru t l]: the ring runs through all buffers, in the order [l]. *)
Definition lru (t : list buf) (l : list nat) : Prop :=
  length t = S NBUF /\ l ≡ₚ seq 0 NBUF /\ dll (nxt t) (prv t) HEAD l HEAD.

Lemma lru_nodup t l : lru t l -> NoDup (HEAD :: l) /\ NoDup (l ++ [HEAD]).
Proof.
  intros (_ & Hp & _).
  assert (NoDup l) by (rewrite Hp; apply NoDup_seq).
  assert (HEAD ∉ l) by (rewrite Hp, elem_of_seq; unfold HEAD; lia).
  split; [by apply NoDup_cons|]. rewrite Permutation_app_comm. by apply NoDup_cons.
Qed.

Lemma lru_elem t l b : lru t l -> b ∈ l <-> (b < NBUF)%nat.
Proof. intros (_ & Hp & _). rewrite Hp, elem_of_seq. lia. Qed.

Lemma lru_lookup t l b : lru t l -> b ∈ l -> exists bp, t !! b = Some bp.
Proof. intros Hl Hb%(lru_elem _ _ b Hl). apply lookup_lt_is_Some_2. destruct Hl as [-> _]. lia. Qed.

Lemma lru_reads t nx pv ps l :
  reads t nx pv ps -> length ps = S NBUF -> l ≡ₚ seq 0 NBUF -> dll nx pv HEAD l HEAD -> lru t l.
Proof.
  intros (Hn & Hp & <-) Hl Hperm Hd. unfold pays in Hl. rewrite length_fmap in Hl.
  split_and!; [done|done|]. eapply dll_ext; [..|exact Hd]; auto.
Qed.

Lemma lru_same_pays t t' l :
  lru t l -> (forall j, nxt t' j = nxt t j) -> (forall j, prv t' j = prv t j) ->
  length t' = length t -> lru t' l.
Proof.
  intros (Hl & Hp & Hd) Hn Hv E. split_and!; [congruence|done|].
  eapply dll_ext; [..|exact Hd]; auto.
Qed.

(** Neighbours of a member of the ring are members or the head. *)
Lemma dll_neighbours nx pv a l1 b l2 z :
  dll nx pv a (l1 ++ b :: l2) z -> pv b = default a (last l1) /\ nx b = default z (head l2).
Proof.
  intros [H1 H2]%dll_app. eauto using dll_first, dll_last.
Qed.

(** A table of [NBUF] buffers and the head, whose ring is [l]. *)
Definition cache_ring (nx pv : nat -> nat) (n : nat) (l : list nat) : Prop :=
  n = S NBUF /\ dll nx pv HEAD l HEAD /\ NoDup l /\ forall x, x ∈ l -> (x < NBUF)%nat.

Lemma ring_nodup nx pv n l : cache_ring nx pv n l -> NoDup (HEAD :: l) /\ NoDup (l ++ [HEAD]).
Proof.
  intros (_ & _ & Hnd & Hin).
  assert (HEAD ∉ l) by (intros Hl; apply Hin in Hl; unfold HEAD in Hl; lia).
  split; [by apply NoDup_cons|]. rewrite Permutation_app_comm. by apply NoDup_cons.
Qed.

(** All links of a ring point into the table. *)
Lemma ring_bounds nx pv n l1 b l2 :
  cache_ring nx pv n (l1 ++ b :: l2) -> (b < n /\ pv b < n /\ nx b < n /\ nx b <> b /\ b <> HEAD)%nat.
Proof.
  intros Hr. pose proof (ring_nodup _ _ _ _ Hr) as [Hna Hnz].
  destruct Hr as (-> & Hd & Hnd & Hin). destruct (dll_neighbours _ _ _ _ _ _ _ Hd) as [-> ->].
  assert (forall x, x ∈ HEAD :: l1 ++ b :: l2 -> (x < S NBUF)%nat) as Hin'.
  { intros x [->|Hx]%elem_of_cons; [unfold HEAD; lia|]. apply Hin in Hx. lia. }
  split_and!.
  - apply Hin'. set_solver.
  - apply Hin'. destruct (last l1) eqn:E; [apply last_Some_elem_of in E|]; set_solver.
  - apply Hin'. destruct l2; set_solver.
  - rewrite NoDup_app in Hnd. destruct Hnd as (_ & _ & Hb).
    apply NoDup_cons in Hb as [Hb _]. apply NoDup_cons in Hna as [Hna _].
    destruct l2; set_solver.
  - apply NoDup_cons in Hna as [Hna _]. set_solver.
Qed.

(** The two assignments that unlink a buffer. *)
Lemma unlink_run s nx pv ps l1 b l2 :
  reads s.(bufs) nx pv ps -> cache_ring nx pv (length ps) (l1 ++ b :: l2) ->
  exists t nx' pv', (forall A (k : K A), (let* b1 := get_buf b in
     mod_buf b1.(b_next) (set_b_prev b1.(b_prev)) ;;;
     let* b2 := get_buf b in
     mod_buf b2.(b_prev) (set_b_next b2.(b_next)) ;;; k) s = k (set_bufs t s)) /\
    reads t nx' pv' ps /\ cache_ring nx' pv' (length ps) (l1 ++ l2).
Proof.
  intros R Hr. pose proof (ring_nodup _ _ _ _ Hr) as [Hna Hnz].
  pose proof (ring_bounds _ _ _ _ _ _ Hr) as (Hbl & Hpl & Hnl & Hnb & HbH).
  destruct Hr as (Hn & Hd & Hnd & Hin).
  destruct (reads_lookup _ _ _ _ b R Hbl) as (b1 & Hb1 & En1 & Ep1 & _).
  destruct (reads_set_prev s _ _ _ (nx b) (pv b) R Hnl) as (t1 & E1 & R1).
  destruct (reads_lookup _ _ _ _ b R1 Hbl) as (b2 & Hb2 & En2 & Ep2 & _).
  rewrite fn_lookup_insert_ne in Ep2 by done.
  destruct (reads_set_next (set_bufs t1 s) _ _ _ (pv b) (nx b) R1 Hpl) as (t2 & E2 & R2).
  eexists t2, _, _. split_and!; [intros A k|exact R2|].
  { kexec by (apply get_buf_Ok; split; [exact Hb1|reflexivity]). rewrite En1, Ep1.
    kexec by (exact E1). kexec by (apply get_buf_Ok; split; [exact Hb2|reflexivity]).
    rewrite En2, Ep2. by kexec by (exact E2). }
  split_and!; [done| | |intros x Hx; apply Hin; set_solver].
  - apply dll_unlink; [done|done|by rewrite <- app_assoc in Hnz].
  - rewrite NoDup_app in Hnd |- *. destruct Hnd as (H1 & H2 & H3).
    apply NoDup_cons in H3 as [_ H3]. split_and!; [done| |done]. intros x Hx Hx'. apply (H2 x Hx). by right.
Qed.

(** The four assignments that link a buffer in at the front. *)
Lemma push_run s nx pv ps l b :
  reads s.(bufs) nx pv ps -> cache_ring nx pv (length ps) l -> b ∉ l -> (b < NBUF)%nat ->
  exists t nx' pv', (forall A (k : K A), (let* h1 := get_buf HEAD in
     mod_buf b (set_b_next h1.(b_next)) ;;;
     mod_buf b (set_b_prev HEAD) ;;;
     let* h2 := get_buf HEAD in
     mod_buf h2.(b_next) (set_b_prev b) ;;;
     mod_buf HEAD (set_b_next b) ;;; k) s = k (set_bufs t s)) /\
    reads t nx' pv' ps /\ cache_ring nx' pv' (length ps) (b :: l).
Proof.
  intros R Hr Hb Hlt. pose proof (ring_nodup _ _ _ _ Hr) as [Hna Hnz].
  destruct Hr as (Hn & Hd & Hnd & Hin).
  assert (HEAD < length ps)%nat as HH by (unfold HEAD; lia).
  assert (b < length ps)%nat as Hbl by lia. assert (b <> HEAD) as HbH by (unfold HEAD; lia).
  assert (nx HEAD < length ps)%nat as Hnl.
  { rewrite (dll_first _ _ _ _ _ Hd). destruct l as [|y l]; [done|].
    specialize (Hin y ltac:(left)). simpl. lia. }
  destruct (reads_lookup _ _ _ _ HEAD R HH) as (h1 & Hh1 & En1 & _).
  destruct (reads_set_next s _ _ _ b (nx HEAD) R Hbl) as (t1 & E1 & R1).
  destruct (reads_set_prev (set_bufs t1 s) _ _ _ b HEAD R1 Hbl) as (t2 & E2 & R2).
  destruct (reads_lookup _ _ _ _ HEAD R2 HH) as (h2 & Hh2 & En2 & _).
  rewrite fn_lookup_insert_ne in En2 by done.
  destruct (reads_set_prev (set_bufs t2 s) _ _ _ (nx HEAD) b R2 Hnl) as (t3 & E3 & R3).
  destruct (reads_set_next (set_bufs t3 s) _ _ _ HEAD b R3 HH) as (t4 & E4 & R4).
  eexists t4, _, _. split_and!; [intros A k|exact R4|].
  { kexec by (apply get_buf_Ok; split; [exact Hh1|reflexivity]). rewrite En1.
    kexec by (exact E1). kexec by (exact E2).
    kexec by (apply get_buf_Ok; split; [exact Hh2|reflexivity]). rewrite En2.
    kexec by (exact E3). by kexec by (exact E4). }
  split_and!; [done| |by apply NoDup_cons|intros x [->|Hx]%elem_of_cons; auto].
  apply dll_push; [done| |].
  - apply NoDup_cons. split; [set_solver|done].
  - apply NoDup_cons. split; [set_solver|done].
Qed.

Lemma lru_ring t l : lru t l <-> cache_ring (nxt t) (prv t) (length t) l /\ l ≡ₚ seq 0 NBUF.
Proof.
  split.
  - intros Hl. split; [|by destruct Hl as (_ & ? & _)].
    pose proof (lru_nodup _ _ Hl) as [[_ Hnd]%NoDup_cons _]. pose proof Hl as (Hn & _ & Hd).
    split_and!; [done..|]. intros x. by apply (lru_elem _ _ x Hl).
  - intros [(Hn & Hd & _) Hp]. by split_and!.
Qed.

(** [brelse]: the buffer becomes free and the most recently used. *)
Lemma brelse_run s l1 b l2 bp :
  lru s.(bufs) (l1 ++ b :: l2) -> s.(bufs) !! b = Some bp -> Z.land bp.(b_flags) B_BUSY <> 0 ->
  LkBcache ∉ s.(held) -> LkPtable ∉ s.(held) ->
  exists t, brelse b s = Ok tt (set_ptable (wake_one (ChBuf b) <$> s.(ptable)) (set_bufs t s)) /\
    lru t (b :: l1 ++ l2) /\
    pays t = <[b := pay (set_b_flags (Z.land bp.(b_flags) (Z.lnot B_BUSY)) bp)]> (pays s.(bufs)).
Proof.
  intros Hl Hb Hbusy Hk Hp. apply lru_ring in Hl as [Hr Hperm].
  set (s0 := set_held (LkBcache :: s.(held)) s). set (ps := pays s.(bufs)).
  replace (length s.(bufs)) with (length ps) in Hr by (unfold ps, pays; by rewrite length_fmap).
  unfold brelse. kexec by (by apply get_buf_Ok). rewrite (proj2 (Z.eqb_neq _ _) Hbusy).
  kexec acquire_free. fold s0.
  edestruct (unlink_run s0) as (t1 & nx1 & pv1 & E1 & R1 & Hr1); [apply reads_self|exact Hr|]. rewrite E1.
  edestruct (push_run (set_bufs t1 s0) nx1 pv1) as (t2 & nx2 & pv2 & E2 & R2 & Hr2);
    [exact R1|exact Hr1| | |rewrite E2].
  { destruct Hr as (_ & _ & Hnd & _).
    apply NoDup_app in Hnd as (_ & H1 & [H2 _]%NoDup_cons). set_solver. }
  { destruct Hr as (_ & _ & _ & Hin). apply Hin. set_solver. }
  destruct (reads_set_pay (set_bufs t2 s0) _ _ _ b
    (fun bp => set_b_flags (Z.land bp.(b_flags) (Z.lnot B_BUSY)) bp) ltac:(by split) R2)
    as (b7 & t7 & _ & Hb7 & E7 & _ & R7); [by apply ring_bounds in Hr as [? _]|].
  kexec by (exact E7). kexec by (apply wakeup_ok; cbn; set_solver).
  rewrite (release_top LkBcache s.(held)) by done. exists t7. split_and!; [reflexivity| |].
  - destruct Hr2 as (Hn & Hd & _). eapply lru_reads; [exact R7|by rewrite length_insert| |exact Hd].
    rewrite <- Hperm. apply Permutation_middle.
  - destruct R7 as (_ & _ & ->). f_equal. change (ps !! b = Some (pay b7)) in Hb7.
    unfold ps, pays in Hb7. rewrite list_lookup_fmap, Hb in Hb7. simpl in Hb7.
    unfold pay in *. simplify_eq/=. congruence.
Qed.

(** ** The searches of [bget] *)

Definition holds (t : list buf) (dev sector : Z) (b : nat) : bool :=
  match t !! b with
  | Some bp => (bp.(b_dev) =? dev) && (bp.(b_sector) =? sector)
  | None => false
  end.

Definition idle (t : list buf) (b : nat) : bool :=
  match t !! b with
  | Some bp => Z.land bp.(b_flags) B_BUSY =? 0
  | None => false
  end.

Definition first_of (P : nat -> bool) (l : list nat) : option nat := snd <$> list_find (fun b => P b) l.

Lemma first_of_cons P x l : first_of P (x :: l) = if P x then Some x else first_of P l.
Proof.
  unfold first_of. simpl. destruct (P x); simpl; [done|]. by destruct (list_find _ l) as [[]|].
Qed.

Lemma first_of_Some P l b :
  first_of P l = Some b -> exists l1 l2, l = l1 ++ b :: l2 /\ P b = true /\ forall x, x ∈ l1 -> P x = false.
Proof.
  revert b. induction l as [|x l IH]; intros b; [done|]. rewrite first_of_cons.
  destruct (P x) eqn:Hx.
  - intros [= ->]. exists [], l. split_and!; [done..|]. by intros y ?%elem_of_nil.
  - intros (l1 & l2 & -> & Hb & Hl)%IH. exists (x :: l1), l2. split_and!; [done..|].
    intros y [->|?]%elem_of_cons; auto.
Qed.

Lemma first_of_app P l1 l2 :
  first_of P (l1 ++ l2) = match first_of P l1 with Some b => Some b | None => first_of P l2 end.
Proof. induction l1 as [|x l1 IH]; [done|]. cbn [app]. rewrite !first_of_cons. by destruct (P x). Qed.

Lemma first_of_None P l : first_of P l = None <-> forall x, x ∈ l -> P x = false.
Proof.
  induction l as [|x l IH]; [split; [by intros _ y ?%elem_of_nil|done]|]. rewrite first_of_cons.
  split.
  - destruct (P x) eqn:Hx; [done|]. intros Hn y [->|?]%elem_of_cons; [done|]. by apply IH.
  - intros H. rewrite (H x) by left. apply IH. intros y ?. apply H. by right.
Qed.

Lemma bget_cached_run fuel dev sector s a l :
  dll (nxt s.(bufs)) (prv s.(bufs)) a l HEAD -> (forall x, x ∈ l -> (x < NBUF)%nat) ->
  length s.(bufs) = S NBUF -> (length l < fuel)%nat ->
  bget_cached fuel dev sector (nxt s.(bufs) a) s = Ok (first_of (holds s.(bufs) dev sector) l) s.
Proof.
  revert a l. induction fuel as [|f IH]; intros a l Hd Hin Hlen Hf; [lia|].
  destruct l as [|x l]; simpl in Hd; cbn [bget_cached].
  - destruct Hd as [-> _]. by rewrite decide_True.
  - destruct Hd as (Hx & _ & Hd). rewrite Hx. pose proof (Hin x ltac:(left)) as Hlt.
    rewrite decide_False by (unfold HEAD; lia).
    destruct (lookup_lt_is_Some_2 s.(bufs) x) as [bp Hb]; [lia|].
    kexec by (by apply get_buf_Ok). rewrite first_of_cons. unfold holds at 1. rewrite Hb.
    destruct (_ && _); [done|]. replace bp.(b_next) with (nxt s.(bufs) x) by (unfold nxt; by rewrite Hb).
    apply IH; [done| |done|simpl in Hf; lia]. intros y ?. apply Hin. by right.
Qed.

Lemma bget_fresh_run fuel s l z :
  dll (nxt s.(bufs)) (prv s.(bufs)) HEAD l z -> (forall x, x ∈ l -> (x < NBUF)%nat) ->
  length s.(bufs) = S NBUF -> (length l < fuel)%nat ->
  bget_fresh fuel (prv s.(bufs) z) s = Ok (first_of (idle s.(bufs)) (rev l)) s.
Proof.
  revert fuel z. induction l as [|x l IH] using rev_ind; intros fuel z Hd Hin Hlen Hf;
    (destruct fuel as [|f]; [simpl in Hf; lia|]); cbn [bget_fresh].
  - destruct Hd as [_ ->]. by rewrite decide_True.
  - apply dll_app in Hd as (Hd & _ & Hx). rewrite Hx. pose proof (Hin x ltac:(set_solver)) as Hlt.
    rewrite decide_False by (unfold HEAD; lia).
    destruct (lookup_lt_is_Some_2 s.(bufs) x) as [bp Hb]; [lia|].
    kexec by (by apply get_buf_Ok). rewrite rev_unit, first_of_cons. unfold idle at 1. rewrite Hb.
    destruct (_ =? 0); [done|]. replace bp.(b_prev) with (prv s.(bufs) x) by (unfold prv; by rewrite Hb).
    apply IH; [done| |done|rewrite length_app in Hf; simpl in Hf; lia]. intros y ?. apply Hin. set_solver.
Qed.

(** ** What the cache promises

    [bcache_inv B s]: the buffers in [B], and only they, are in use; every
    other valid buffer holds what is on disk, and no sector is cached twice. *)

Definition on_disk (dev sector : Z) : Prop := (dev = 0 \/ dev = 1) /\ 0 <= sector < 2 ^ 28.

Definition block (s : kstate) (dev sector : Z) : list Z := sector_at s.(disk) (dev, sector).

Definition disk_wf (d : gmap (Z * Z) (list Z)) : Prop :=
  forall k x, d !! k = Some x -> length x = Z.to_nat BSIZE.

Definition buf_inv (B : list nat) (s : kstate) (b : nat) (bp : buf) : Prop :=
  (bp.(b_flags) = 0 \/ bp.(b_flags) = B_BUSY \/ bp.(b_flags) = B_VALID \/ bp.(b_flags) = Z.lor B_BUSY B_VALID) /\
  (b ∈ B <-> Z.land bp.(b_flags) B_BUSY <> 0) /\
  (Z.land bp.(b_flags) B_VALID <> 0 -> on_disk bp.(b_dev) bp.(b_sector) /\
    (b ∉ B -> bp.(b_data) = block s bp.(b_dev) bp.(b_sector))).

Definition bcache_inv (B : list nat) (s : kstate) : Prop :=
  (exists l, lru s.(bufs) l) /\ (forall b, b ∈ B -> (b < NBUF)%nat) /\
  s.(idequeue) = None /\ s.(havedisk1) = true /\ disk_wf s.(disk) /\
  (forall b bp, (b < NBUF)%nat -> s.(bufs) !! b = Some bp -> buf_inv B s b bp) /\
  (forall b c bp cp, (b < NBUF)%nat -> (c < NBUF)%nat -> s.(bufs) !! b = Some bp -> s.(bufs) !! c = Some cp ->
     on_disk bp.(b_dev) bp.(b_sector) -> bp.(b_dev) = cp.(b_dev) -> bp.(b_sector) = cp.(b_sector) -> b = c).

(** Buffer [b] is in use for the sector, with contents [d]. *)
Definition in_use (s : kstate) (b : nat) (dev sector : Z) (d : list Z) : Prop :=
  exists bp, s.(bufs) !! b = Some bp /\ bp.(b_dev) = dev /\ bp.(b_sector) = sector /\ bp.(b_data) = d /\
    Z.land bp.(b_flags) B_VALID <> 0.

(** Block operations change nothing but the cache, the disk, and the state of
    processes that waited for a buffer. *)
Definition woken (p q : proc) : Prop := q = p \/ p.(p_state) = SLEEPING /\ q = set_p_state RUNNABLE p.

Definition io_frame (s s' : kstate) : Prop :=
  s' = set_bufs s'.(bufs) (set_disk s'.(disk) (set_idecmd s'.(idecmd) (set_ptable s'.(ptable) s))) /\
  Forall2 woken s.(ptable) s'.(ptable).

Definition free_locks (s : kstate) : Prop :=
  LkBcache ∉ s.(held) /\ LkIde ∉ s.(held) /\ LkPtable ∉ s.(held).

#[export] Instance woken_preorder : PreOrder woken.
Proof.
  split; [intros p; by left|].
  intros p q r [->|[Hp ->]] [->|[Hq ->]]; unfold woken; naive_solver.
Qed.

#[export] Instance io_frame_preorder : PreOrder io_frame.
Proof.
  split; [intros s; by split|].
  intros s1 s2 s3 [E1 H1] [E2 H2]. split; [rewrite E2, E1; reflexivity|]. by etrans.
Qed.

Lemma io_frame_locks s s' : io_frame s s' -> s'.(held) = s.(held).
Proof. by intros [-> _]. Qed.

Lemma io_frame_free s s' : io_frame s s' -> free_locks s -> free_locks s'.
Proof. unfold free_locks. intros Hf. by rewrite (io_frame_locks _ _ Hf). Qed.

Lemma wake_frame c s t d i :
  io_frame s (set_ptable (wake_one c <$> s.(ptable)) (set_bufs t (set_disk d (set_idecmd i s)))).
Proof.
  split; [done|]. cbn. apply Forall2_fmap_r. apply (Forall2_impl eq); [reflexivity|].
  intros p q <-. simpl. unfold wake_one. case_decide; [right|left]; naive_solver.
Qed.

Lemma bufs_frame s t : io_frame s (set_bufs t s).
Proof. by split. Qed.

Lemma block_length s dev n : disk_wf s.(disk) -> length (block s dev n) = Z.to_nat BSIZE.
Proof.
  intros Hw. unfold block, sector_at. destruct (_ !! _) eqn:E; [by eapply Hw|].
  apply length_replicate.
Qed.

Lemma on_disk_loc b : on_disk b.(b_dev) b.(b_sector) -> buf_loc b = (b.(b_dev), b.(b_sector)).
Proof.
  intros [Hd Hs]. unfold buf_loc. rewrite ide_decode_regs, Z.mod_small by done.
  by destruct Hd as [->| ->].
Qed.

Lemma pays_lookup t t' b p c cp :
  pays t' = <[b := p]> (pays t) -> t' !! c = Some cp ->
  (c = b /\ pay cp = p) \/ (c <> b /\ exists cp0, t !! c = Some cp0 /\ pay cp = pay cp0).
Proof.
  intros E Hc. assert (pays t' !! c = Some (pay cp)) as Hp.
  { unfold pays. by rewrite list_lookup_fmap, Hc. }
  rewrite E in Hp. destruct (decide (b = c)) as [->|Hbc].
  - left. apply list_lookup_insert_Some in Hp. naive_solver.
  - right. split; [done|]. rewrite list_lookup_insert_ne in Hp by done.
    unfold pays in Hp. rewrite list_lookup_fmap in Hp.
    destruct (t !! c) as [cp0|]; [|done]. exists cp0. split; [done|]. simpl in Hp. congruence.
Qed.

(** One buffer, and the sector it is for, may change at a time. *)
Lemma bcache_inv_set B B' s s' l b bp :
  bcache_inv B s -> (b < NBUF)%nat -> lru s'.(bufs) l -> pays s'.(bufs) = <[b := pay bp]> (pays s.(bufs)) ->
  s'.(idequeue) = None -> s'.(havedisk1) = true -> disk_wf s'.(disk) ->
  (forall c, c <> b -> c ∈ B' <-> c ∈ B) -> buf_inv B' s' b bp ->
  (forall c dev n, c <> b -> (c < NBUF)%nat -> on_disk dev n -> holds s.(bufs) dev n c = true -> c ∉ B -> block s' dev n = block s dev n) ->
  (forall c cp, c <> b -> (c < NBUF)%nat -> s.(bufs) !! c = Some cp -> on_disk bp.(b_dev) bp.(b_sector) ->
     cp.(b_dev) = bp.(b_dev) -> cp.(b_sector) = bp.(b_sector) -> False) ->
  bcache_inv B' s'.
Proof.
  intros (_ & HB0 & _ & _ & _ & Hinv & Huni) Hlt Hl Hps Hq Hh Hw HB Hb Hblk Hfresh.
  split_and!; [by exists l| |done|done|done| |].
  { intros c Hc. destruct (decide (c = b)) as [->|Hne]; [done|]. apply HB0. by apply HB. }
  - intros c cp Hc Hcp. destruct (pays_lookup _ _ _ _ _ _ Hps Hcp) as [[-> E]|(Hne & cp0 & Hc0 & E)].
    + unfold pay in E. simplify_eq. unfold buf_inv in *. congruence.
    + pose proof (Hinv c cp0 Hc Hc0) as (H1 & H2 & H3). unfold pay in E. simplify_eq.
      unfold buf_inv. rewrite HB by done. rewrite H, H0, H4, H5 in *. split_and!; [done|done|].
      intros Hv. destruct (H3 Hv) as [Hd Hdat]. split; [done|]. intros HcB. rewrite (Hdat HcB).
      symmetry. apply (Hblk c); [done|done|done| |done]. unfold holds. by rewrite Hc0, !Z.eqb_refl.
  - intros c1 c2 p1 p2 Hc1 Hc2 Hp1 Hp2 Hod Ed Es.
    destruct (pays_lookup _ _ _ _ _ _ Hps Hp1) as [[-> E1]|(Hn1 & q1 & Hq1 & E1)],
      (pays_lookup _ _ _ _ _ _ Hps Hp2) as [[-> E2]|(Hn2 & q2 & Hq2 & E2)]; [done| | |];
      unfold pay in E1, E2; simplify_eq.
    + exfalso. apply (Hfresh c2 q2); [done|done|done|..]; congruence.
    + exfalso. apply (Hfresh c1 q1); [done|done|done|..]; congruence.
    + apply (Huni c1 c2 q1 q2); [done|done|done|done|..]; congruence.
Qed.

(** The flags a buffer can have, and what the code's tests say of them. *)
Lemma flags_cases (P : Z -> Prop) :
  P 0 -> P B_BUSY -> P B_VALID -> P (Z.lor B_BUSY B_VALID) ->
  forall f, f = 0 \/ f = B_BUSY \/ f = B_VALID \/ f = Z.lor B_BUSY B_VALID -> P f.
Proof. naive_solver. Qed.

Lemma lru_update t l b bp c :
  lru t l -> t !! b = Some bp -> c.(b_next) = bp.(b_next) -> c.(b_prev) = bp.(b_prev) ->
  lru (<[b := c]> t) l.
Proof.
  intros Hl Hb Hn Hp. eapply lru_same_pays; [done| | |by rewrite length_insert];
    intros j; unfold nxt, prv; (destruct (decide (b = j)) as [<-|?];
    [rewrite list_lookup_insert_eq, Hb by (by eapply lookup_lt_Some); simpl; congruence
    |by rewrite list_lookup_insert_ne]).
Qed.

(** An idle buffer exists while fewer than [NBUF] are in use. *)
Lemma idle_exists B s l :
  bcache_inv B s -> lru s.(bufs) l -> (length B < NBUF)%nat ->
  exists b, first_of (idle s.(bufs)) (rev l) = Some b.
Proof.
  intros Hi Hl HB. destruct (first_of _ _) as [b|] eqn:E; [by exists b|]. exfalso.
  rewrite first_of_None in E. assert (seq 0 NBUF ⊆+ B) as Hsub%submseteq_length.
  { apply NoDup_submseteq; [apply NoDup_seq|]. intros b Hb.
    pose proof Hl as (Hn & Hp & _). rewrite <- Hp in Hb.
    assert (b < NBUF)%nat as Hlt by (by apply (lru_elem _ _ _ Hl)).
    destruct (lookup_lt_is_Some_2 s.(bufs) b) as [bp Hbp]; [lia|].
    destruct Hi as (_ & _ & _ & _ & _ & Hinv & _). apply (Hinv b bp Hlt Hbp).
    specialize (E b). unfold idle in E. rewrite Hbp in E. apply Z.eqb_neq, E.
    apply list_elem_of_In. rewrite <- in_rev. by apply list_elem_of_In. }
  rewrite length_seq in Hsub. lia.
Qed.

Definition not_in_use (B : list nat) (s : kstate) (dev n : Z) : Prop :=
  forall b, b ∈ B -> exists d m e, in_use s b d m e /\ (d, m) <> (dev, n).

(** What [bget] leaves in the buffer it returns. *)
Definition got (B : list nat) (s : kstate) (dev n : Z) (b : nat) (bp : buf) : Prop :=
  (b < NBUF)%nat /\ b ∉ B /\ bp.(b_dev) = dev /\ bp.(b_sector) = n /\
  (bp.(b_flags) = B_BUSY \/ bp.(b_flags) = Z.lor B_BUSY B_VALID /\ bp.(b_data) = block s dev n) /\
  bcache_inv (b :: B) (set_bufs (<[b := bp]> s.(bufs)) s).

Lemma got_hit B s l dev n b :
  bcache_inv B s -> lru s.(bufs) l -> (forall c, c ∈ B -> holds s.(bufs) dev n c = false) ->
  first_of (holds s.(bufs) dev n) l = Some b ->
  exists bp, s.(bufs) !! b = Some bp /\ Z.land bp.(b_flags) B_BUSY = 0 /\
    got B s dev n b (set_b_flags (Z.lor bp.(b_flags) B_BUSY) bp).
Proof.
  intros Hi Hl Hnu Ef. pose proof Hi as (_ & _ & Hq & Hh & Hw & Hinv & Huni).
  apply first_of_Some in Ef as (l1 & l2 & -> & Hbh & _).
  assert (b < NBUF)%nat as Hb by (apply (lru_elem _ _ b Hl); set_solver).
  assert (b ∉ B) as HnB by (intros Hin'%Hnu; congruence).
  unfold holds in Hbh. destruct (s.(bufs) !! b) as [bp|] eqn:Hbp; [|done].
  apply andb_true_iff in Hbh as [Hbd%Z.eqb_eq Hbs%Z.eqb_eq].
  pose proof (Hinv b bp Hb Hbp) as (Hfl & HbB & Hval).
  assert (Z.land bp.(b_flags) B_BUSY = 0) as Hnb.
  { by destruct (decide (Z.land bp.(b_flags) B_BUSY = 0)); [|tauto]. }
  exists bp. split_and!; [done|done|].
  set (bp1 := set_b_flags (Z.lor bp.(b_flags) B_BUSY) bp). split_and!; [done..| |].
  - cbn. destruct Hfl as [E|[E|[E|E]]]; rewrite E in *; try done; [by left|right].
    split; [done|]. destruct (Hval ltac:(done)) as [_ Hdat]. rewrite Hdat by done. congruence.
  - eapply (bcache_inv_set B _ s _ _ b bp1 Hi Hb); [by eapply lru_update| |done|done|done| | | |].
    + apply list_fmap_insert.
    + intros c Hc. set_solver.
    + destruct Hfl as [E|[E|[E|E]]]; unfold buf_inv, bp1; cbn; rewrite E in *; try done;
        (split_and!; [tauto|split; [intros _; discriminate|intros _; left]|]); [done|].
      intros _. split; [by destruct (Hval ltac:(done))|set_solver].
    + done.
    + intros c cp Hc Hlt Hcp Hod' Ed Es. apply Hc.
      apply (Huni c b cp bp); [done..| |done|done]. by rewrite Ed, Es.
Qed.

Lemma got_miss B s l dev n b :
  bcache_inv B s -> lru s.(bufs) l -> on_disk dev n ->
  first_of (holds s.(bufs) dev n) l = None -> first_of (idle s.(bufs)) (rev l) = Some b ->
  exists bp, s.(bufs) !! b = Some bp /\
    got B s dev n b (set_b_flags B_BUSY (set_b_sector n (set_b_dev dev bp))).
Proof.
  intros Hi Hl Hod Ef Hb0. pose proof Hi as (_ & _ & Hq & Hh & Hw & Hinv & Huni).
  rewrite first_of_None in Ef. apply first_of_Some in Hb0 as (l1 & l2 & Hrev & Hbi & _).
  assert (b < NBUF)%nat as Hb.
  { apply (lru_elem _ _ b Hl), list_elem_of_In, in_rev, list_elem_of_In. rewrite Hrev. set_solver. }
  unfold idle in Hbi. destruct (s.(bufs) !! b) as [bp|] eqn:Hbp; [|done].
  pose proof (Hinv b bp Hb Hbp) as (Hfl & HbB & Hval). apply Z.eqb_eq in Hbi.
  exists bp. split; [done|]. split_and!; [done|tauto|done|done|by left|].
  set (bp1 := set_b_flags B_BUSY (set_b_sector n (set_b_dev dev bp))).
  eapply (bcache_inv_set B _ s _ _ b bp1 Hi Hb); [by eapply lru_update| |done|done|done| | | |].
  - apply list_fmap_insert.
  - intros c Hc. set_solver.
  - unfold buf_inv. cbn. split_and!; [tauto|split; [intros _; discriminate|intros _; left]|done].
  - done.
  - intros c cp Hc Hlt Hcp _ Ed Es. assert (c ∈ l) as Hcl by (by apply (lru_elem _ _ c Hl)).
    specialize (Ef c Hcl). unfold holds in Ef. cbn in Ef. rewrite Hcp, Ed, Es in Ef.
    cbn in Ef. by rewrite !Z.eqb_refl in Ef.
Qed.

Lemma not_in_use_holds B s dev n :
  not_in_use B s dev n -> forall c, c ∈ B -> holds s.(bufs) dev n c = false.
Proof.
  intros Hnu c Hc. destruct (Hnu c Hc) as (d & m & e & (bp & Hbp & <- & <- & _) & Hne).
  unfold holds. rewrite Hbp. apply andb_false_iff. rewrite !Z.eqb_neq.
  destruct (decide (bp.(b_dev) = dev)) as [Ed|]; [|by left]. right. intros Es. apply Hne. congruence.
Qed.

(** All outcomes of [bget], for a ring in the order [l]. *)
Lemma bget_eq s l dev n :
  lru s.(bufs) l -> LkBcache ∉ s.(held) ->
  bget dev n s =
    match first_of (holds s.(bufs) dev n) l with
    | Some b =>
        (let* bp := get_buf b in
         if Z.land bp.(b_flags) B_BUSY =? 0
         then fun _ => Ok b (set_bufs (<[b := set_b_flags (Z.lor bp.(b_flags) B_BUSY) bp]> s.(bufs)) s)
         else sleep (ChBuf b) LkBcache ;;; kfault "sleep does not return here") (set_held (LkBcache :: s.(held)) s)
    | None =>
        match first_of (idle s.(bufs)) (rev l) with
        | Some b => (let* bp := get_buf b in
            fun s => Ok b (set_bufs (<[b := set_b_flags B_BUSY (set_b_sector n (set_b_dev dev bp))]> s.(bufs)) s)) s
        | None => Panic "bget: no buffers"
        end
    end.
Proof.
  intros Hl Hk. pose proof Hl as (Hlen & Hperm & Hd).
  assert (length l = NBUF) as Hll by (by rewrite Hperm, length_seq).
  set (s0 := set_held (LkBcache :: s.(held)) s).
  assert (forall x, x ∈ l -> (x < NBUF)%nat) as Hin by (intros x; by apply (lru_elem _ _ x Hl)).
  assert (forall x, x ∈ l -> exists xp, s.(bufs) !! x = Some xp) as Hget.
  { intros x Hx%Hin. apply lookup_lt_is_Some_2. lia. }
  destruct (lookup_lt_is_Some_2 s.(bufs) HEAD) as [h Hhd]; [unfold HEAD; lia|].
  unfold bget. kexec acquire_free. kexec by (by apply get_buf_Ok).
  replace h.(b_next) with (nxt s0.(bufs) HEAD) by (unfold nxt; cbn; by rewrite Hhd).
  replace h.(b_prev) with (prv s0.(bufs) HEAD) by (unfold prv; cbn; by rewrite Hhd).
  kexec by (apply (bget_cached_run (S NBUF) dev n s0 HEAD l Hd Hin Hlen); lia).
  change (s0.(bufs)) with s.(bufs). destruct (first_of (holds _ _ _) l) as [b|] eqn:Ef.
  - destruct (Hget b) as [bp Hbp]. { apply first_of_Some in Ef as (l1 & l2 & -> & _). set_solver. }
    kexec by (by apply get_buf_Ok). rewrite (kbind_Ok _ _ s0 bp s0) by (by apply get_buf_Ok).
    destruct (_ =? 0); [|done]. kexec (mod_buf_run b _ _ bp). by kexec (release_top LkBcache s.(held)).
  - kexec by (apply (bget_fresh_run (S NBUF) s0 l HEAD Hd Hin Hlen); lia).
    change (s0.(bufs)) with s.(bufs). destruct (first_of (idle _) _) as [b|] eqn:Eb; [|done].
    destruct (Hget b) as [bp Hbp].
    { apply first_of_Some in Eb as (l1 & l2 & El & _). apply list_elem_of_In, in_rev, list_elem_of_In. rewrite El. set_solver. }
    assert (b < length s.(bufs))%nat by (by eapply lookup_lt_Some).
    rewrite (kbind_Ok _ _ s bp s) by (by apply get_buf_Ok).
    kexec (mod_buf_run b _ _ bp). kexec by (apply mod_buf_run; by apply list_lookup_insert_eq).
    cbn [bufs set_bufs]. rewrite list_insert_insert_eq.
    kexec by (apply mod_buf_run; by apply list_lookup_insert_eq).
    cbn [bufs set_bufs]. rewrite list_insert_insert_eq. by kexec (release_top LkBcache s.(held)).
Qed.

Lemma bget_run B s l dev n :
  bcache_inv B s -> lru s.(bufs) l -> free_locks s -> on_disk dev n ->
  (forall c, c ∈ B -> holds s.(bufs) dev n c = false) -> (length B < NBUF)%nat ->
  exists b bp, bget dev n s = Ok b (set_bufs (<[b := bp]> s.(bufs)) s) /\ got B s dev n b bp.
Proof.
  intros Hi Hl (Hk & _ & _) Hod Hnu HB. rewrite (bget_eq s l dev n Hl Hk).
  destruct (first_of (holds _ _ _) l) as [b|] eqn:Ef.
  - destruct (got_hit _ _ _ _ _ _ Hi Hl Hnu Ef) as (bp & Hbp & Hnb & Hg). eexists b, _.
    kexec by (by apply get_buf_Ok). rewrite Hnb. split; [reflexivity|done].
  - destruct (idle_exists _ _ _ Hi Hl HB) as [b Hb0]. rewrite Hb0.
    destruct (got_miss _ _ _ _ _ _ Hi Hl Hod Ef Hb0) as (bp & Hbp & Hg). eexists b, _.
    kexec by (by apply get_buf_Ok). split; [reflexivity|done].
Qed.

(** ** The interface to the file system

    [inv B s]: the buffers [B] are in use.  [bread] returns a buffer that holds
    the block, [bwrite] stores it, [brelse] gives it back; none of them changes
    anything else. *)
Definition others_kept (B : list nat) (s s' : kstate) : Prop :=
  forall c d m e, c ∈ B -> in_use s c d m e -> in_use s' c d m e.

Class BlockLaws (inv : list nat -> kstate -> Prop) : Prop := {
  frame_law : forall B s s',
    inv B s -> s'.(bufs) = s.(bufs) -> s'.(disk) = s.(disk) -> s'.(idequeue) = s.(idequeue) ->
    s'.(havedisk1) = s.(havedisk1) -> inv B s';
  bread_law : forall B s dev n,
    inv B s -> free_locks s -> on_disk dev n -> not_in_use B s dev n -> (length B < NBUF)%nat ->
    exists b s', bread dev n s = Ok b s' /\ inv (b :: B) s' /\ b ∉ B /\
      in_use s' b dev n (block s dev n) /\ s'.(disk) = s.(disk) /\ io_frame s s' /\ others_kept B s s';
  store_law : forall B s b dev n d d',
    inv B s -> b ∈ B -> in_use s b dev n d ->
    exists s', mod_buf b (set_b_data d') s = Ok tt s' /\ inv B s' /\ in_use s' b dev n d' /\
      s'.(disk) = s.(disk) /\ io_frame s s' /\ (forall B', b ∉ B' -> others_kept B' s s');
  bwrite_law : forall B s b dev n d,
    inv B s -> free_locks s -> b ∈ B -> in_use s b dev n d -> length d = Z.to_nat BSIZE ->
    exists s', bwrite b s = Ok tt s' /\ inv B s' /\ in_use s' b dev n d /\
      s'.(disk) = <[(dev, n) := d]> s.(disk) /\ io_frame s s' /\ (forall B', b ∉ B' -> others_kept B' s s');
  brelse_law : forall B s b dev n,
    inv (b :: B) s -> free_locks s -> b ∉ B -> in_use s b dev n (block s dev n) ->
    exists s', brelse b s = Ok tt s' /\ inv B s' /\ s'.(disk) = s.(disk) /\ io_frame s s' /\
      others_kept B s s'
}.

Lemma in_use_other s s' b c d m e bp :
  s'.(bufs) = <[b := bp]> s.(bufs) -> c <> b -> in_use s c d m e -> in_use s' c d m e.
Proof.
  intros E Hc (cp & Hcp & H). exists cp. by rewrite E, list_lookup_insert_ne by done.
Qed.

Lemma in_use_busy B s b dev n d :
  bcache_inv B s -> b ∈ B -> in_use s b dev n d ->
  exists bp, (b < NBUF)%nat /\ s.(bufs) !! b = Some bp /\ bp.(b_dev) = dev /\ bp.(b_sector) = n /\ bp.(b_data) = d /\
    bp.(b_flags) = Z.lor B_BUSY B_VALID /\ on_disk dev n.
Proof.
  intros (_ & HB & _ & _ & _ & Hinv & _) Hb (bp & Hbp & Hd & Hn & He & Hv).
  pose proof (HB b Hb) as Hlt. exists bp. split_and!; [done..| |].
  - destruct (Hinv b bp Hlt Hbp) as (Hfl & Hbusy & _). apply Hbusy in Hb.
    by destruct Hfl as [E|[E|[E|E]]]; rewrite E in *.
  - destruct (Hinv b bp Hlt Hbp) as (_ & _ & Hod). destruct (Hod Hv) as [Hod' _]. congruence.
Qed.


(** The drive serves a buffer in use: it becomes valid and agrees with the
    disk, which has changed only if the buffer was dirty. *)
Lemma serve_run B s b bp0 bp :
  bcache_inv B s -> free_locks s -> b ∈ B -> s.(bufs) !! b = Some bp0 ->
  bp.(b_next) = bp0.(b_next) -> bp.(b_prev) = bp0.(b_prev) ->
  bp.(b_dev) = bp0.(b_dev) -> bp.(b_sector) = bp0.(b_sector) -> on_disk bp.(b_dev) bp.(b_sector) ->
  (bp.(b_flags) = B_BUSY \/ bp.(b_flags) = Z.lor (Z.lor B_BUSY B_VALID) B_DIRTY /\ length bp.(b_data) = Z.to_nat BSIZE) ->
  let d := if dirty bp then bp.(b_data) else block s bp.(b_dev) bp.(b_sector) in
  exists s', iderw b (set_bufs (<[b := bp]> s.(bufs)) s) = Ok tt s' /\ bcache_inv B s' /\
    in_use s' b bp.(b_dev) bp.(b_sector) d /\
    s'.(disk) = (if dirty bp then <[(bp.(b_dev), bp.(b_sector)) := d]> s.(disk) else s.(disk)) /\
    io_frame s s' /\ (forall B', b ∉ B' -> others_kept B' s s').
Proof.
  intros Hi (Hkb & Hki & Hkp) HbB Hb0 En Ep Ed Es Hod Hfl d.
  pose proof Hi as ((l & Hl) & HB & Hq & Hh & Hw & Hinv & Huni). pose proof (HB b HbB) as Hlt.
  assert (b < length s.(bufs))%nat as Hlen by (by eapply lookup_lt_Some).
  set (s1 := set_bufs (<[b := bp]> s.(bufs)) s). pose proof (on_disk_loc _ Hod) as Hloc.
  set (bq := io_done s.(disk) (set_b_qnext None bp)).
  assert (bufs (iderw_state b bp s1) = <[b := bq]> s.(bufs)) as Hbufs.
  { unfold iderw_state, s1. cbn. by rewrite list_insert_insert_eq. }
  assert ((iderw_state b bp s1).(disk)
    = if dirty bp then <[(bp.(b_dev), bp.(b_sector)) := d]> s.(disk) else s.(disk)) as Hdisk.
  { unfold iderw_state, started, d. change (dirty (set_b_qnext None bp)) with (dirty bp).
    change (buf_loc (set_b_qnext None bp)) with (buf_loc bp). rewrite Hloc. by destruct (dirty bp). }
  assert (bq.(b_data) = d) as Hdat.
  { unfold bq, io_done, d, block. change (dirty (set_b_qnext None bp)) with (dirty bp).
    change (buf_loc (set_b_qnext None bp)) with (buf_loc bp). rewrite Hloc. by destruct (dirty bp). }
  assert (bq.(b_flags) = Z.lor B_BUSY B_VALID) as Hflq.
  { unfold bq, io_done. cbn. by destruct Hfl as [->|[-> _]]. }
  assert (bq.(b_dev) = bp.(b_dev) /\ bq.(b_sector) = bp.(b_sector)) as [Hbd Hbs].
  { unfold bq, io_done. by destruct (dirty _). }
  exists (iderw_state b bp s1). split_and!; [| | |exact Hdisk| |].
  - apply iderw_run; [done|by apply list_lookup_insert_eq| | |by right|done|done];
      by destruct Hfl as [->|[-> _]].
  - eapply (bcache_inv_set B B s _ l b bq Hi Hlt);
      [| |done|unfold iderw_state, started; by destruct (dirty _)| |done| | |].
    + rewrite Hbufs. eapply lru_update; [done|done|..]; unfold bq, io_done; by destruct (dirty _).
    + rewrite Hbufs. apply list_fmap_insert.
    + rewrite Hdisk. unfold d. destruct (dirty bp) eqn:Hdb; [|done]. intros k x.
      rewrite lookup_insert_Some. intros [[_ <-]|[_ Hx]]; [|by eapply Hw].
      destruct Hfl as [E|[_ ?]]; [|done]. unfold dirty in Hdb. by rewrite E in Hdb.
    + unfold buf_inv. rewrite Hflq, Hbd, Hbs. split_and!; [tauto|by split|]. intros _. split; [done|tauto].
    + intros c dev n Hc Hcl Hodc Hhc HcB. unfold block. rewrite Hdisk. destruct (dirty bp); [|done].
      unfold sector_at. rewrite lookup_insert_ne; [done|]. intros [= E1 E2].
      unfold holds in Hhc. destruct (s.(bufs) !! c) as [cp|] eqn:Hcp; [|done].
      apply andb_true_iff in Hhc as [Hcd%Z.eqb_eq Hcs%Z.eqb_eq]. apply Hc.
      symmetry. apply (Huni b c bp0 cp); try done; congruence.
    + intros c cp Hc Hcl Hcp Hodc Ecd Ecs. apply Hc. symmetry.
      apply (Huni b c bp0 cp); try done; congruence.
  - exists bq. rewrite Hbufs, list_lookup_insert_eq by done. by rewrite Hflq.
  - assert (s = set_idequeue None s) as Es0 by (rewrite <- Hq; reflexivity).
    unfold iderw_state, started. rewrite Es0 at 1. clear -l.
    destruct (dirty _).
    + exact (wake_frame (ChBuf b) (set_idequeue None s) _ (<[_ := _]> s.(disk)) s.(idecmd)).
    + exact (wake_frame (ChBuf b) (set_idequeue None s) _ s.(disk) (Some _)).
  - intros B' HbB' c d0 m e Hc. eapply in_use_other; [exact Hbufs|]. by intros ->.
Qed.

Lemma bcache_bread B s dev n :
  bcache_inv B s -> free_locks s -> on_disk dev n -> not_in_use B s dev n -> (length B < NBUF)%nat ->
  exists b s', bread dev n s = Ok b s' /\ bcache_inv (b :: B) s' /\ b ∉ B /\
    in_use s' b dev n (block s dev n) /\ s'.(disk) = s.(disk) /\ io_frame s s' /\ others_kept B s s'.
Proof.
  intros Hi Hf Hod Hnu HB. pose proof Hi as ((l & Hl) & _).
  destruct (bget_run _ _ _ _ _ Hi Hl Hf Hod (not_in_use_holds _ _ _ _ Hnu) HB) as (b & bp & E & (Hlt & Hn & Hd & Hs & Hfl & Hi')).
  set (s1 := set_bufs (<[b := bp]> s.(bufs)) s) in *.
  assert (s1.(bufs) !! b = Some bp) as Hb1.
  { apply list_lookup_insert_eq. destruct Hl as [-> _]. lia. }
  assert (forall s', (exists bq, s'.(bufs) = <[b := bq]> s.(bufs)) -> others_kept B s s') as Hoth.
  { intros s' [bq Hbq] c d m e Hc. eapply in_use_other; [exact Hbq|]. by intros ->. }
  unfold bread. kexec by (exact E). kexec by (by apply get_buf_Ok).
  destruct Hfl as [Hfl|[Hfl Hdat]]; rewrite Hfl.
  + change (Z.land B_BUSY B_VALID =? 0) with true. cbv iota.
    destruct (serve_run (b :: B) s1 b bp bp Hi') as (s' & E' & Hi2 & Hu & Hdk & Hfr & Hk);
      [done|left|done|done|done|done|done|by rewrite Hd, Hs|by left|].
    assert (dirty bp = false) as Hnd by (unfold dirty; by rewrite Hfl). rewrite Hnd, Hd, Hs in *.
    assert (set_bufs (<[b := bp]> s1.(bufs)) s1 = s1) as Es1 by (unfold s1; cbn; by rewrite list_insert_insert_eq).
    rewrite Es1 in E'. kexec by (exact E'). exists b, s'. split_and!; [done|done|done|exact Hu|by rewrite Hdk| |].
    * etrans; [apply bufs_frame|exact Hfr].
    * intros c d m e Hc Huc. apply (Hk B); [done|done|]. apply (Hoth s1); [by exists bp|done|done].
  + change (Z.land (Z.lor B_BUSY B_VALID) B_VALID =? 0) with false. cbv iota.
    unfold kret, kbind. exists b, s1. split_and!; [done|done|done| |done|apply bufs_frame|apply Hoth; by exists bp].
    exists bp. by rewrite Hb1, Hfl.
Qed.

Lemma bcache_store B s b dev n d d' :
  bcache_inv B s -> b ∈ B -> in_use s b dev n d ->
  exists s', mod_buf b (set_b_data d') s = Ok tt s' /\ bcache_inv B s' /\ in_use s' b dev n d' /\
    s'.(disk) = s.(disk) /\ io_frame s s' /\ (forall B', b ∉ B' -> others_kept B' s s').
Proof.
  intros Hi HbB Hu.
  destruct (in_use_busy _ _ _ _ _ _ Hi HbB Hu) as (bp & Hlt & Hb & Hd & Hs & Hdat & Hfl & Hod).
  pose proof Hi as ((l & Hl) & HB & Hq & Hh & Hw & Hinv & Huni).
  eexists. split; [by apply mod_buf_run|]. split_and!.
  + eapply (bcache_inv_set B B s _ l b (set_b_data d' bp) Hi Hlt); [by eapply lru_update| |done|done|done|done| |done|].
    * apply list_fmap_insert.
    * unfold buf_inv. cbn. rewrite Hfl, Hd, Hs. split_and!; [tauto|by split|]. intros _. by split.
    * intros c cp Hc Hcl Hcp Hodc Ecd Ecs. apply Hc. symmetry. by apply (Huni b c bp cp).
  + exists (set_b_data d' bp). cbn. rewrite list_lookup_insert_eq by (by eapply lookup_lt_Some). by rewrite Hfl.
  + done.
  + apply bufs_frame.
  + intros B' HbB' c d0 m e Hc. eapply in_use_other; [reflexivity|]. by intros ->.
Qed.

Lemma bcache_bwrite B s b dev n d :
  bcache_inv B s -> free_locks s -> b ∈ B -> in_use s b dev n d -> length d = Z.to_nat BSIZE ->
  exists s', bwrite b s = Ok tt s' /\ bcache_inv B s' /\ in_use s' b dev n d /\
    s'.(disk) = <[(dev, n) := d]> s.(disk) /\ io_frame s s' /\ (forall B', b ∉ B' -> others_kept B' s s').
Proof.
  intros Hi Hf HbB Hu Hlen.
  destruct (in_use_busy _ _ _ _ _ _ Hi HbB Hu) as (bp & Hlt & Hb & Hd & Hs & Hdat & Hfl & Hod).
  unfold bwrite. kexec by (by apply get_buf_Ok). rewrite Hfl.
  change (Z.land (Z.lor B_BUSY B_VALID) B_BUSY =? 0) with false. cbv iota.
  kexec (mod_buf_run b _ _ bp). set (bp1 := set_b_flags (Z.lor bp.(b_flags) B_DIRTY) bp).
  assert (dirty bp1 = true) as Hdb by (unfold dirty, bp1; cbn; by rewrite Hfl).
  destruct (serve_run B s b bp bp1 Hi Hf HbB Hb) as (s' & E' & Hi2 & Hu2 & Hdk & Hfr & Hk); try done.
  { cbn. by rewrite Hd, Hs. }
  { right. cbn. rewrite Hfl, Hdat. done. }
  rewrite Hdb in *. exists s'. cbn in Hu2, Hdk. rewrite Hd, Hs, Hdat in *. by split_and!.
Qed.

Lemma bcache_brelse B s b dev n :
  bcache_inv (b :: B) s -> free_locks s -> b ∉ B -> in_use s b dev n (block s dev n) ->
  exists s', brelse b s = Ok tt s' /\ bcache_inv B s' /\ s'.(disk) = s.(disk) /\ io_frame s s' /\
    others_kept B s s'.
Proof.
  intros Hi (Hkb & Hki & Hkp) HbB Hu.
  destruct (in_use_busy _ _ _ _ _ _ Hi ltac:(left) Hu) as (bp & Hlt & Hb & Hd & Hs & Hdat & Hfl & Hod).
  pose proof Hi as ((l & Hl) & HB & Hq & Hh & Hw & Hinv & Huni).
  assert (b ∈ l) as (l1 & l2 & ->)%list_elem_of_split by (by apply (lru_elem _ _ b Hl)).
  destruct (brelse_run s l1 b l2 bp) as (t & E & Hl' & Hps); [done|done|by rewrite Hfl|done|done|].
  eexists. split_and!; [exact E| |done|apply (wake_frame _ s)|].
  + eapply (bcache_inv_set _ B s (set_ptable _ (set_bufs t s)) _ b _ Hi Hlt Hl' Hps); [done|done|done| | |done|].
    * intros c Hc. set_solver.
    * unfold buf_inv. cbn. rewrite Hfl, Hd, Hs. split_and!; [tauto|by split|]. intros _. by split.
    * intros c cp Hc Hcl Hcp Hodc Ecd Ecs. apply Hc. symmetry. by apply (Huni b c bp cp).
  + intros c d m e Hc (cp & Hcp & Hcd & Hcm & Hce & Hcv).
    assert (c <> b) by (by intros ->).
    destruct (lookup_lt_is_Some_2 t c) as [cq Hcq].
    { destruct Hl' as [-> _]. assert (c < NBUF)%nat by (apply HB; by right). lia. }
    exists cq. split; [exact Hcq|].
    destruct (pays_lookup _ _ _ _ _ _ Hps Hcq) as [[-> _]|(_ & cp' & Hcp' & Ep)]; [done|].
    unfold pay in Ep. simplify_eq. split_and!; congruence.
Qed.

Lemma bcache_frame B s s' :
  bcache_inv B s -> s'.(bufs) = s.(bufs) -> s'.(disk) = s.(disk) -> s'.(idequeue) = s.(idequeue) ->
  s'.(havedisk1) = s.(havedisk1) -> bcache_inv B s'.
Proof.
  intros Hi Eb Ed Eq Eh. unfold bcache_inv, buf_inv, block in *. by rewrite Eb, Ed, Eq, Eh.
Qed.

(** The cache keeps its promise. *)
#[export] Instance bcache_laws : BlockLaws bcache_inv.
Proof. split; [apply bcache_frame|apply bcache_bread|apply bcache_store|apply bcache_bwrite|apply bcache_brelse]. Qed.

(** ** Initialisation *)

(** After [i] rounds of [binit]'s loop. *)
Definition binit_upto (i : nat) (s s' : kstate) : Prop :=
  exists t nx pv ps, s' = set_bufs t s /\ reads t nx pv ps /\ cache_ring nx pv (length ps) (rev (seq 0 i)) /\
    (forall c cp, t !! c = Some cp -> cp.(b_flags) = 0 /\ ((c < i)%nat -> cp.(b_dev) = NODEV)).

Lemma rev_seq_S i : rev (seq 0 (S i)) = i :: rev (seq 0 i).
Proof. rewrite seq_S, rev_app_distr. done. Qed.

Lemma binit_upto_step i s s1 :
  (i < NBUF)%nat -> binit_upto i s s1 ->
  exists s2, (let* h := get_buf HEAD in
    mod_buf i (set_b_next h.(b_next)) ;;;
    mod_buf i (set_b_prev HEAD) ;;;
    mod_buf i (set_b_dev NODEV) ;;;
    let* h' := get_buf HEAD in
    mod_buf h'.(b_next) (set_b_prev i) ;;;
    mod_buf HEAD (set_b_next i)) s1 = Ok tt s2 /\ binit_upto (S i) s s2.
Proof.
  intros Hi (t & nx & pv & ps & -> & R & Hr & Hf). pose proof Hr as (Hn & Hd & Hnd & Hin).
  pose proof (ring_nodup _ _ _ _ Hr) as [Hna Hnz].
  assert (i ∉ rev (seq 0 i)) as Hni.
  { intros Hx%list_elem_of_In%in_rev%in_seq. lia. }
  assert (HEAD < length ps)%nat as HH by (unfold HEAD; lia).
  assert (i < length ps)%nat as Hil by lia. assert (i <> HEAD) as HiH by (unfold HEAD; lia).
  assert (nx HEAD < length ps)%nat as Hnl.
  { rewrite (dll_first _ _ _ _ _ Hd). destruct (rev (seq 0 i)) as [|y l]; [done|].
    specialize (Hin y ltac:(left)). simpl. lia. }
  destruct (reads_lookup _ _ _ _ HEAD R HH) as (h1 & Hh1 & En1 & _).
  kexec by (apply get_buf_Ok; split; [exact Hh1|reflexivity]). rewrite En1.
  destruct (reads_set_next (set_bufs t s) _ _ _ i (nx HEAD) R Hil) as (t1 & E1 & R1). kexec by (exact E1).
  destruct (reads_set_prev (set_bufs t1 s) _ _ _ i HEAD R1 Hil) as (t2 & E2 & R2). kexec by (exact E2).
  destruct (reads_set_pay (set_bufs t2 s) _ _ _ i (set_b_dev NODEV) ltac:(by split) R2 Hil)
    as (b3 & t3 & Hb3 & Hp3 & E3 & Et3 & R3). kexec by (exact E3).
  assert (length (<[i:=pay (set_b_dev NODEV b3)]> ps) = length ps) as El by apply length_insert.
  destruct (reads_lookup _ _ _ _ HEAD R3 ltac:(lia)) as (h2 & Hh2 & En2 & _).
  kexec by (apply get_buf_Ok; split; [exact Hh2|reflexivity]).
  rewrite fn_lookup_insert_ne in En2 by done. rewrite En2.
  destruct (reads_set_prev (set_bufs t3 s) _ _ _ (nx HEAD) i R3 ltac:(lia)) as (t4 & E4 & R4). kexec by (exact E4).
  destruct (reads_set_next (set_bufs t4 s) _ _ _ HEAD i R4 ltac:(lia)) as (t5 & E5 & R5).
  change (set_bufs t4 (set_bufs t3 s)) with (set_bufs t4 s).
  exists (set_bufs t5 s). split; [exact E5|].
  exists t5. eexists _, _, _. split_and!; [reflexivity|exact R5| |].
  - rewrite El, rev_seq_S. split_and!; [done| |by apply NoDup_cons|].
    + apply dll_push; [done| |]; apply NoDup_cons; (split; [set_solver|done]).
    + intros x [->|Hx]%elem_of_cons; auto.
  - intros c cp Hc. destruct R5 as (_ & _ & Hps5), R as (_ & _ & <-).
    assert (pays t5 = <[i := pay (set_b_dev NODEV b3)]> (pays t)) as Hps by done.
    unfold pays in Hp3. rewrite list_lookup_fmap in Hp3.
    destruct (pays_lookup _ _ _ _ _ _ Hps Hc) as [[-> Ep]|(Hne & cp0 & Hc0 & Ep)]; unfold pay in Ep; simplify_eq/=.
    + destruct (t !! i) as [b0|] eqn:Hb0; simplify_eq/=. unfold pay in Hp3. simplify_eq.
      destruct (Hf i b0 Hb0) as [Hf0 _]. split; [congruence|done].
    + destruct (Hf c cp0 Hc0) as [Hf0 Hdv]. split; [congruence|]. intros Hlt.
      rewrite <- Hdv by lia. done.
Qed.

Lemma binit_run s :
  length s.(bufs) = S NBUF -> (forall b bp, s.(bufs) !! b = Some bp -> bp.(b_flags) = 0) ->
  exists s', binit s = Ok tt s' /\ binit_upto NBUF s s'.
Proof.
  intros Hlen Hf. pose proof (reads_self s.(bufs)) as R.
  assert (length (pays s.(bufs)) = S NBUF) as Hps by (unfold pays; by rewrite length_fmap).
  assert (HEAD < length (pays s.(bufs)))%nat as HH by (rewrite Hps; unfold HEAD; lia).
  unfold binit. destruct (reads_set_prev s _ _ _ HEAD HEAD R HH) as (t1 & E1 & R1). kexec by (exact E1).
  destruct (reads_set_next (set_bufs t1 s) _ _ _ HEAD HEAD R1 HH) as (t2 & E2 & R2). kexec by (exact E2).
  assert (binit_upto 0 s (set_bufs t2 s)) as H0.
  { exists t2. eexists _, _, _. split_and!; [reflexivity|exact R2| |].
    - split_and!; [done| |constructor|by intros x ?%elem_of_nil].
      simpl. by rewrite !fn_lookup_insert.
    - intros c cp Hc. split; [|lia]. destruct R2 as (_ & _ & Hp).
      assert (pays t2 !! c = Some (pay cp)) as Hpc by (unfold pays; by rewrite list_lookup_fmap, Hc).
      rewrite Hp in Hpc. unfold pays in Hpc. rewrite list_lookup_fmap in Hpc.
      destruct (s.(bufs) !! c) as [cp0|] eqn:Hc0; [|done].
      pose proof (Hf _ _ Hc0). unfold pay in Hpc. simplify_eq/=. congruence. }
  change (set_bufs t2 (set_bufs t1 s)) with (set_bufs t2 s).
  assert (forall n k s1, (n + k = NBUF)%nat -> binit_upto n s s1 ->
    exists s', kfor (seq n k) (fun b =>
    let* h := get_buf HEAD in
    mod_buf b (set_b_next h.(b_next)) ;;;
    mod_buf b (set_b_prev HEAD) ;;;
    mod_buf b (set_b_dev NODEV) ;;;
    let* h' := get_buf HEAD in
    mod_buf h'.(b_next) (set_b_prev b) ;;;
    mod_buf HEAD (set_b_next b)) s1 = Ok tt s' /\ binit_upto NBUF s s') as Hloop.
  { intros n k. revert n. induction k as [|k IH]; intros n s1 Hnk Hu.
    - simpl. exists s1. split; [done|]. by replace NBUF with n by lia.
    - destruct (binit_upto_step n s s1 ltac:(lia) Hu) as (s2 & E & Hu2). cbn [seq kfor].
      kexec by (exact E). apply IH; [lia|done]. }
  by apply Hloop.
Qed.

(** ** Properties *)

Lemma rev_seq_perm n : rev (seq 0 n) ≡ₚ seq 0 n.
Proof. by rewrite <- Permutation_rev. Qed.

(** A state with the ring that [binit] builds has no buffer in use. *)
Lemma binit_upto_cache s s' t :
  binit_upto NBUF s s' -> t.(bufs) = s'.(bufs) -> t.(idequeue) = None -> t.(havedisk1) = true -> disk_wf t.(disk) ->
  bcache_inv [] t /\ lru t.(bufs) (rev (seq 0 NBUF)).
Proof.
  intros (u & nx & pv & ps & -> & R & Hr & Hd) Eb Hq Hh Hw. cbn [bufs set_bufs] in Eb.
  assert (lru u (rev (seq 0 NBUF))) as Hl.
  { destruct Hr as (Hn & Hr & _). by eapply lru_reads; [| |apply rev_seq_perm|]. }
  rewrite Eb. split; [|done].
  split_and!; [rewrite Eb; by eexists|by intros b ?%elem_of_nil|done|done|done| |]; rewrite Eb.
  - intros b bp Hb Hbp. destruct (Hd _ _ Hbp) as [Hf0 _]. unfold buf_inv. rewrite Hf0.
    split_and!; [by left| |done]. split; [by intros ?%elem_of_nil|done].
  - intros b c bp cp Hb Hc Hbp Hcp Hod Ed Es. destruct (Hd _ _ Hbp) as [_ Hdv].
    destruct Hod as [Hod _]. rewrite (Hdv Hb) in Hod. unfold NODEV in Hod. lia.
Qed.

Lemma binit_ok (s : kstate) :
  length s.(bufs) = S NBUF -> (forall b bp, s.(bufs) !! b = Some bp -> bp.(b_flags) = 0) ->
  s.(idequeue) = None -> s.(havedisk1) = true -> disk_wf s.(disk) ->
  exists t, binit s = Ok tt (set_bufs t s) /\ bcache_inv [] (set_bufs t s) /\ lru t (rev (seq 0 NBUF)).
Proof.
  intros Hlen Hf Hq Hh Hw. destruct (binit_run s Hlen Hf) as (s' & E & Hb).
  pose proof Hb as (t & _ & _ & _ & -> & _). exists t. split; [done|].
  by apply (binit_upto_cache s (set_bufs t s)).
Qed.

Definition zero_buf : buf := mk_buf 0 0 0 0 0 None (replicate 512 0).

(** The cache before and after [binit], with the given disks. *)
Definition boot_bufs (d : gmap (Z * Z) (list Z)) : kstate :=
  set_disk d (set_bufs (replicate (S NBUF) zero_buf) bare_state).
Definition boot_cache (d : gmap (Z * Z) (list Z)) : kstate :=
  match binit (boot_bufs d) with Ok _ s => s | _ => boot_bufs d end.

Lemma boot_bufs_zero d b bp : (boot_bufs d).(bufs) !! b = Some bp -> bp.(b_flags) = 0.
Proof. intros [-> _]%lookup_replicate. done. Qed.

Lemma disk_wf_empty : disk_wf ∅.
Proof. intros k x. by rewrite lookup_empty. Qed.

Lemma boot_cache_ok d :
  disk_wf d -> bcache_inv [] (boot_cache d) /\ lru (boot_cache d).(bufs) (rev (seq 0 NBUF)) /\
    (boot_cache d).(held) = [] /\ (boot_cache d).(disk) = d.
Proof.
  intros Hd. unfold boot_cache.
  destruct (binit_ok (boot_bufs d)) as (t & -> & Hi & Hl); [done|apply boot_bufs_zero|done|done|exact Hd|].
  split_and!; [exact Hi|exact Hl|reflexivity|reflexivity].
Qed.

Lemma boot_cache_empty d :
  forallb (fun b => negb (holds (boot_cache d).(bufs) 1 7 b)) (seq 0 NBUF) = true.
Proof. vm_compute. reflexivity. Qed.

#[global] Opaque boot_cache.

Lemma boot_cache_free d : disk_wf d -> free_locks (boot_cache d).
Proof.
  intros Hd. destruct (boot_cache_ok d Hd) as (_ & _ & E & _).
  unfold free_locks. rewrite E. split_and!; apply not_elem_of_nil.
Qed.

(** From a zeroed table, [binit] links all buffers into the ring and
    establishes the cache's invariant, with no buffer in use. *)
Theorem binit_establishes (s : kstate) :
  length s.(bufs) = S NBUF -> (forall b bp, s.(bufs) !! b = Some bp -> bp.(b_flags) = 0) ->
  s.(idequeue) = None -> s.(havedisk1) = true -> disk_wf s.(disk) ->
  exists t, binit s = Ok tt (set_bufs t s) /\ bcache_inv [] (set_bufs t s) /\ lru t (rev (seq 0 NBUF)).
Proof. apply binit_ok. Qed.

Lemma binit_establishes_witness : exists t, binit (boot_bufs ∅) = Ok tt (set_bufs t (boot_bufs ∅)).
Proof.
  destruct (binit_establishes (boot_bufs ∅)) as (t & E & _);
    [reflexivity|apply boot_bufs_zero|reflexivity|reflexivity|exact disk_wf_empty|]. exists t. exact E.
Defined.

(** ** Clients of the cache *)

(** What the file system does with the cache: take a buffer, look at its data,
    replace them, write them out, give the buffer back. *)
Inductive bop := Bread (dev n : Z) | Data (b : nat) | Store (b : nat) (d : list Z) | Bwrite (b : nat) | Brelse (b : nat).

Inductive bres := Buf (b : nat) | Bytes (d : list Z) | Done.

Definition run_bop (o : bop) : K bres :=
  match o with
  | Bread dev n => let* b := bread dev n in kret (Buf b)
  | Data b => let* bp := get_buf b in kret (Bytes bp.(b_data))
  | Store b d => mod_buf b (set_b_data d) ;;; kret Done
  | Bwrite b => bwrite b ;;; kret Done
  | Brelse b => brelse b ;;; kret Done
  end.

(** A client chooses each operation from the results so far. *)
Inductive client := Stop | Do (o : bop) (k : bres -> client).

Fixpoint run_client (c : client) : K (list (bop * bres)) :=
  match c with
  | Stop => kret []
  | Do o k => let* r := run_bop o in let* tr := run_client (k r) in kret ((o, r) :: tr)
  end.

(** The specification has no cache: the sectors of the drives, and for each
    buffer in use its sector and data. *)
Definition bspec : Type := gmap (Z * Z) (list Z) * gmap nat (Z * Z * list Z).

Inductive effect : bspec -> bop -> bres -> bspec -> Prop :=
| eff_bread D H dev n b : H !! b = None ->
    effect (D, H) (Bread dev n) (Buf b) (D, <[b := (dev, n, sector_at D (dev, n))]> H)
| eff_data D H b k d : H !! b = Some (k, d) -> effect (D, H) (Data b) (Bytes d) (D, H)
| eff_store D H b k d d' : H !! b = Some (k, d) -> effect (D, H) (Store b d') Done (D, <[b := (k, d')]> H)
| eff_bwrite D H b k d : H !! b = Some (k, d) -> effect (D, H) (Bwrite b) Done (<[k := d]> D, H)
| eff_brelse D H b k d : H !! b = Some (k, d) -> effect (D, H) (Brelse b) Done (D, delete b H).

(** What a client may do: take a sector it does not have already, while buffers
    are left; use the buffers it has; give one back once it is written out. *)
Definition allowed (a : bspec) (o : bop) : Prop :=
  let '(D, H) := a in
  match o with
  | Bread dev n => on_disk dev n /\ (size H < NBUF)%nat /\ forall b k d, H !! b = Some (k, d) -> k <> (dev, n)
  | Data b | Store b _ => is_Some (H !! b)
  | Bwrite b => exists k d, H !! b = Some (k, d) /\ length d = Z.to_nat BSIZE
  | Brelse b => exists k, H !! b = Some (k, sector_at D k)
  end.

Fixpoint obeys (a : bspec) (c : client) : Prop :=
  match c with
  | Stop => True
  | Do o k => allowed a o /\ forall r a', effect a o r a' -> obeys a' (k r)
  end.

(** A run of the client on the specification. *)
Inductive spec_run : bspec -> client -> list (bop * bres) -> bspec -> Prop :=
| sr_stop a : spec_run a Stop [] a
| sr_do a o k r a1 tr a2 : effect a o r a1 -> spec_run a1 (k r) tr a2 -> spec_run a (Do o k) ((o, r) :: tr) a2.

(** The cache stands for the specification's state. *)
Definition cached (s : kstate) (a : bspec) : Prop :=
  s.(disk) = a.1 /\ free_locks s /\
  exists B, bcache_inv B s /\ NoDup B /\ (forall b, b ∈ B <-> is_Some (a.2 !! b)) /\
    forall b k d, a.2 !! b = Some (k, d) -> in_use s b k.1 k.2 d.

Lemma bcache_inv_perm B B' s : B ≡ₚ B' -> bcache_inv B s -> bcache_inv B' s.
Proof.
  intros HP (Hl & HB & Hq & Hh & Hw & Hinv & Hu). split_and!; try done.
  - intros b. rewrite <- HP. apply HB.
  - intros b bp Hb Hbp. unfold buf_inv. rewrite <- HP. by apply Hinv.
Qed.

Lemma held_length (H : gmap nat (Z * Z * list Z)) B :
  NoDup B -> (forall b, b ∈ B <-> is_Some (H !! b)) -> length B = size H.
Proof.
  intros Hnd HB. rewrite <- (size_list_to_set (C := gset nat) B Hnd), <- (size_dom (D := gset nat) H). f_equal.
  apply set_eq. intros b. by rewrite elem_of_list_to_set, elem_of_dom, HB.
Qed.

(** One operation. *)
Lemma cached_step s a o :
  cached s a -> allowed a o ->
  exists r s' a', run_bop o s = Ok r s' /\ effect a o r a' /\ cached s' a' /\ io_frame s s'.
Proof.
  destruct a as [D H]. intros (Hd & Hf & B & Hi & Hnd & HB & Hu). cbn [fst snd] in *. destruct o as [dev n|b|b d'|b|b]; cbn [allowed run_bop].
  - intros (Hod & Hsz & Hne). rewrite <- (held_length H B Hnd HB) in Hsz.
    destruct (bread_law B s dev n Hi Hf Hod) as (b & s' & E & Hi' & Hb & Hu' & Hd' & Hfr & Hk); [|done|].
    { intros b [[k d] Hb]%HB. exists k.1, k.2, d. split; [by apply Hu|]. destruct k. by apply (Hne b _ d). }
    assert (H !! b = None) as Hbn by (apply eq_None_not_Some; by rewrite <- HB).
    eexists _, s', _. split; [by kexec by (exact E)|]. split; [by constructor|]. split; [|done].
    split; [cbn; congruence|]. split; [by eapply io_frame_free|]. exists (b :: B). split_and!; [done|by apply NoDup_cons| |].
    + intros c. cbn [snd]. rewrite elem_of_cons, lookup_insert_is_Some', HB. naive_solver.
    + intros c k d. cbn [snd]. intros [[<- [= <- <-]]|[Hcb Hc]]%lookup_insert_Some.
      * unfold block in Hu'. by rewrite <- Hd.
      * apply Hk; [by apply HB|by apply Hu].
  - intros [[k d] Hb]. pose proof (Hu b k d Hb) as (bp & Hbp & _ & _ & Hdt & _).
    eexists _, s, _. split; [by kexec by (by apply get_buf_Ok)|]. rewrite Hdt. split; [by econstructor|]. split; [|done].
    split; [done|]. split; [done|]. by exists B.
  - intros [[k d] Hb]. assert (b ∈ B) as HbB by (apply HB; by eexists).
    destruct (store_law B s b k.1 k.2 d d' Hi HbB (Hu b k d Hb)) as (s' & E & Hi' & Hu' & Hd' & Hfr & Hk).
    eexists _, s', _. split; [by kexec by (exact E)|]. split; [by econstructor|]. split; [|done].
    split; [cbn; congruence|]. split; [by eapply io_frame_free|]. exists B. split_and!; [done|done| |].
    + intros c. cbn [snd]. rewrite lookup_insert_is_Some', HB. naive_solver.
    + intros c k' e. cbn [snd]. intros [[<- [= <- <-]]|[Hcb Hc]]%lookup_insert_Some; [done|].
      apply (Hk [c]); [set_solver|set_solver|by apply Hu].
  - intros (k & d & Hb & Hlen). assert (b ∈ B) as HbB by (apply HB; by eexists).
    destruct (bwrite_law B s b k.1 k.2 d Hi Hf HbB (Hu b k d Hb) Hlen) as (s' & E & Hi' & Hu' & Hd' & Hfr & Hk).
    eexists _, s', _. split; [by kexec by (exact E)|]. split; [by econstructor|]. split; [|done].
    split; [cbn; rewrite Hd', Hd; by destruct k|]. split; [by eapply io_frame_free|]. exists B. split_and!; [done|done|done|].
    intros c k' e Hc. cbn [snd] in Hc. destruct (decide (c = b)) as [->|Hcb]; [by simplify_eq|].
    apply (Hk [c]); [set_solver|set_solver|by apply Hu].
  - intros (k & Hb). assert (b ∈ B) as HbB by (apply HB; by eexists).
    apply elem_of_Permutation in HbB as [B' HP]. rewrite HP in Hnd. apply NoDup_cons in Hnd as [HbB Hnd].
    pose proof (Hu b k _ Hb) as Hub.
    destruct (brelse_law B' s b k.1 k.2) as (s' & E & Hi' & Hd' & Hfr & Hk); [by eapply bcache_inv_perm|done|done| |].
    { unfold block. rewrite Hd. by destruct k. }
    eexists _, s', _. split; [by kexec by (exact E)|]. split; [by econstructor|]. split; [|done].
    split; [cbn; congruence|]. split; [by eapply io_frame_free|]. exists B'.
    assert (forall c, c ∈ B' <-> c <> b /\ is_Some (H !! c)) as HB'.
    { intros c. rewrite <- HB, HP, elem_of_cons. split; [|naive_solver]. intros Hc. split; [by intros ->|by right]. }
    split_and!; [done|done| |].
    + intros c. cbn [snd]. rewrite lookup_delete_is_Some, HB'. naive_solver.
    + intros c k' d. cbn [snd]. intros [Hcb Hc]%lookup_delete_Some. apply Hk; [apply HB'; split; [done|by eexists]|by apply Hu].
Qed.

(** C1: The buffer cache is transparent.  Any client that keeps to the rules (it
    takes a sector it does not hold, while buffers are left; it gives a buffer
    back only when its data are written out), whatever it chooses to do next from
    what it has read, runs without panic on the cache as on a machine that has no
    cache: every buffer it takes holds what was last written to that sector,
    however many sectors were read, written and evicted in between, no other
    sector changes, and buffers in use keep their data.  Nothing but the cache,
    the drives and sleeping processes changes. *)
Theorem cache_refines_disk (s : kstate) (c : client) :
  bcache_inv [] s -> free_locks s -> obeys (s.(disk), ∅) c ->
  exists tr s' a, run_client c s = Ok tr s' /\ spec_run (s.(disk), ∅) c tr a /\ cached s' a /\ io_frame s s'.
Proof.
  intros Hi Hf Ho. assert (cached s (s.(disk), ∅)) as Hc.
  { split; [done|]. split; [done|]. exists []. split_and!; [done|constructor| |].
    - intros b. cbn [snd]. rewrite lookup_empty. split; [by intros ?%elem_of_nil|by intros [? ?]].
    - intros b k d. cbn [snd]. by rewrite lookup_empty. }
  clear Hi Hf. revert Hc Ho. generalize (s.(disk), ∅ : gmap nat (Z * Z * list Z)) as a. revert s.
  induction c as [|o k IH]; intros s a Hc Ho; cbn [run_client].
  - exists [], s, a. split_and!; [done|constructor|done|done].
  - destruct Ho as [Hal Hk]. destruct (cached_step s a o Hc Hal) as (r & s1 & a1 & E & He & Hc1 & Hfr).
    destruct (IH r s1 a1 Hc1 (Hk r a1 He)) as (tr & s2 & a2 & E2 & Hs & Hc2 & Hfr2).
    exists ((o, r) :: tr), s2, a2. kexec by (exact E). kexec by (exact E2).
    split_and!; [done|by econstructor|done|by etrans].
Qed.

(** Write a sector, then look at it again. *)
Definition write_then_read (dev n : Z) (d : list Z) : client :=
  Do (Bread dev n) (fun r => match r with
    | Buf b => Do (Store b d) (fun _ => Do (Bwrite b) (fun _ => Do (Brelse b) (fun _ =>
        Do (Bread dev n) (fun r => match r with Buf b' => Do (Data b') (fun _ => Stop) | _ => Stop end))))
    | _ => Stop
    end).

Lemma write_then_read_obeys D dev n d :
  on_disk dev n -> length d = Z.to_nat BSIZE -> obeys (D, ∅) (write_then_read dev n d).
Proof.
  intros Hod Hlen.
  assert (forall D', allowed (D', ∅) (Bread dev n)) as H0.
  { intros D'. split; [done|]. split; [rewrite map_size_empty; unfold NBUF; lia|intros b k e; by rewrite lookup_empty]. }
  split; [apply H0|]. intros r a He. inversion He as [? ? ? ? b Hb| | | |]; subst. clear He.
  split; [cbn; rewrite lookup_insert_eq; by eexists|].
  intros r a He. inversion He as [| |? ? ? k e ? Hk| |]; subst. rewrite lookup_insert_eq in Hk. simplify_eq. clear He.
  split; [do 2 eexists; split; [by rewrite lookup_insert_eq|done]|].
  intros r a He. inversion He as [| | |? ? ? k e Hk|]; subst. rewrite lookup_insert_eq in Hk. simplify_eq. clear He.
  split; [eexists; rewrite lookup_insert_eq; unfold sector_at; by rewrite lookup_insert_eq|].
  intros r a He. inversion He; subst. clear He.
  assert (forall x y : Z * Z * list Z, delete b (<[b := x]> (<[b := y]> ∅)) = (∅ : gmap nat (Z * Z * list Z))) as ->.
  { intros x y. apply map_eq. intros i. rewrite lookup_empty. destruct (decide (i = b)) as [->|Hne]; [apply lookup_delete_eq|].
    by rewrite lookup_delete_ne, !lookup_insert_ne, lookup_empty by done. }
  split; [apply H0|]. intros r a He. inversion He; subst. clear He. split; [cbn; rewrite lookup_insert_eq; by eexists|done].
Qed.

(** On the specification it sees what it wrote. *)
Lemma write_then_read_sees D dev n d tr a :
  spec_run (D, ∅) (write_then_read dev n d) tr a -> exists b, last tr = Some (Data b, Bytes d).
Proof.
  intros H. unfold write_then_read in H.
  inversion H as [|? ? ? ? ? ? ? He H1]; subst. inversion He as [? ? ? ? b Hb| | | |]; subst. clear H He.
  inversion H1 as [|? ? ? ? ? ? ? He H2]; subst. inversion He as [| |? ? ? k1 e1 ? Hk| |]; subst. clear H1 He.
  rewrite lookup_insert_eq in Hk. simplify_eq.
  inversion H2 as [|? ? ? ? ? ? ? He H3]; subst. inversion He as [| | |? ? ? k2 e2 Hk|]; subst. clear H2 He.
  rewrite lookup_insert_eq in Hk. simplify_eq.
  inversion H3 as [|? ? ? ? ? ? ? He H4]; subst. inversion He; subst. clear H3 He.
  inversion H4 as [|? ? ? ? ? ? ? He H5]; subst. inversion He as [? ? ? ? b' Hb'| | | |]; subst. clear H4 He.
  inversion H5 as [|? ? ? ? ? ? ? He H6]; subst. inversion He as [|? ? ? k3 e3 Hk| | |]; subst. clear H5 He.
  rewrite lookup_insert_eq in Hk. simplify_eq. inversion H6; subst. exists b'. cbn. unfold sector_at. by rewrite lookup_insert_eq.
Qed.

Lemma cache_refines_disk_witness :
  exists tr s' b, run_client (write_then_read 1 7 (replicate 512 5)) (boot_cache ∅) = Ok tr s' /\
    last tr = Some (Data b, Bytes (replicate 512 5)).
Proof.
  destruct (cache_refines_disk (boot_cache ∅) (write_then_read 1 7 (replicate 512 5))) as (tr & s' & a & E & Hs & _).
  - exact (proj1 (boot_cache_ok ∅ disk_wf_empty)).
  - exact (boot_cache_free ∅ disk_wf_empty).
  - apply write_then_read_obeys; [split; [by right|lia]|done].
  - destruct (write_then_read_sees _ _ _ _ _ _ Hs) as (b & Hb). exists tr, s', b. split; [exact E|exact Hb].
Defined.

(** C33: For a cache whose ring runs through the buffers in the order [l], most
    recently used first: [bget] returns the cached buffer of the sector if there
    is one, marked busy and otherwise unchanged, or sleeps until it is released
    if it is busy; if the sector is not cached, it recycles the idle buffer
    nearest the end of the ring for it, busy and not valid, or panics if every
    buffer is busy.  It keeps the order of the ring; [brelse] moves the buffer to
    the front, clears its busy flag and wakes those who wait for it. *)
Theorem bcache_replacement (s : kstate) (l : list nat) (dev n : Z) :
  lru s.(bufs) l -> LkBcache ∉ s.(held) -> LkPtable ∉ s.(held) ->
  let is_for bp := bp.(b_dev) = dev /\ bp.(b_sector) = n in
  let busy bp := Z.land bp.(b_flags) B_BUSY <> 0 in
  let every l' (P : buf -> Prop) := forall c cp, c ∈ l' -> s.(bufs) !! c = Some cp -> P cp in
  (forall l1 b l2 bp, l = l1 ++ b :: l2 -> s.(bufs) !! b = Some bp -> is_for bp -> every l1 (fun cp => ~ is_for cp) ->
     (~ busy bp ->
        let s' := set_bufs (<[b := set_b_flags (Z.lor bp.(b_flags) B_BUSY) bp]> s.(bufs)) s in
        bget dev n s = Ok b s' /\ lru s'.(bufs) l) /\
     (forall i p, busy bp -> s.(held) = [] -> s.(curproc) = Some i -> s.(ptable) !! i = Some p ->
        bget dev n s = Block (asleep i p (ChBuf b) s))) /\
  (every l (fun cp => ~ is_for cp) ->
     (forall l1 b l2 bp, l = l1 ++ b :: l2 -> s.(bufs) !! b = Some bp -> ~ busy bp -> every l2 busy ->
        let s' := set_bufs (<[b := set_b_flags B_BUSY (set_b_sector n (set_b_dev dev bp))]> s.(bufs)) s in
        bget dev n s = Ok b s' /\ lru s'.(bufs) l) /\
     (every l busy -> bget dev n s = Panic "bget: no buffers")) /\
  (forall l1 b l2 bp, l = l1 ++ b :: l2 -> s.(bufs) !! b = Some bp -> busy bp ->
     exists t, brelse b s = Ok tt (set_ptable (wake_one (ChBuf b) <$> s.(ptable)) (set_bufs t s)) /\
       lru t (b :: l1 ++ l2) /\
       pays t = <[b := pay (set_b_flags (Z.land bp.(b_flags) (Z.lnot B_BUSY)) bp)]> (pays s.(bufs))).
Proof.
  intros Hl Hk Hp is_for busy every. pose proof (bget_eq s l dev n Hl Hk) as E.
  assert (forall l', l' ⊆ l -> every l' (fun cp => ~ is_for cp) -> first_of (holds s.(bufs) dev n) l' = None) as Hmiss.
  { intros l' Hsub Hn. apply first_of_None. intros c Hc. destruct (lru_lookup _ _ c Hl (Hsub c Hc)) as [cp Hcp].
    specialize (Hn c cp Hc Hcp). unfold holds. rewrite Hcp. apply andb_false_iff. rewrite !Z.eqb_neq.
    destruct (decide (cp.(b_dev) = dev)); [right|left]; unfold is_for in Hn; tauto. }
  assert (forall l', l' ⊆ l -> every l' busy -> first_of (idle s.(bufs)) (rev l') = None) as Hbusy.
  { intros l' Hsub Hn. apply first_of_None. intros c Hc%list_elem_of_In%in_rev%list_elem_of_In.
    destruct (lru_lookup _ _ c Hl (Hsub c Hc)) as [cp Hcp]. unfold idle. rewrite Hcp. apply Z.eqb_neq. by apply (Hn c). }
  split; [|split].
  - intros l1 b l2 bp -> Hb [Hd Hs] Hno. rewrite first_of_app, Hmiss in E by (done || set_solver).
    rewrite first_of_cons in E. unfold holds in E. rewrite Hb, Hd, Hs, !Z.eqb_refl in E. cbn [andb] in E.
    rewrite kbind_Ok with (a := bp) (s1 := set_held (LkBcache :: s.(held)) s) in E by (by apply get_buf_Ok). split.
    + intros Hnb. rewrite (proj2 (Z.eqb_eq _ _)) in E by (unfold busy in Hnb; lia). split; [done|].
      by eapply lru_update.
    + intros i p Hbz Hh Hc Hpr. rewrite (proj2 (Z.eqb_neq _ _)) in E by done. rewrite E. unfold kbind.
      erewrite sleep_block; [|exact Hc|exact Hpr|by rewrite Hh]. done.
  - intros Hno. rewrite Hmiss in E by (done || set_solver). split.
    + intros l1 b l2 bp -> Hb Hnb Hbz s'. rewrite rev_app_distr in E. cbn [rev] in E. rewrite <- app_assoc in E.
      rewrite first_of_app, Hbusy in E by (done || set_solver). cbn [app] in E. rewrite first_of_cons in E.
      unfold idle at 1 in E. rewrite Hb, (proj2 (Z.eqb_eq _ _)) in E by (unfold busy in Hnb; lia).
      rewrite kbind_Ok with (a := bp) (s1 := s) in E by (by apply get_buf_Ok). split; [exact E|by eapply lru_update].
    + intros Hbz. rewrite Hbusy in E by (done || set_solver). done.
  - intros l1 b l2 bp -> Hb Hbz. by apply brelse_run.
Qed.

Lemma bcache_replacement_witness :
  exists s', bget 1 7 (boot_cache ∅) = Ok 0%nat s' /\ lru s'.(bufs) (rev (seq 0 NBUF)).
Proof.
  destruct (boot_cache_ok ∅ disk_wf_empty) as (Hi & Hl & Hh & _).
  destruct (bcache_replacement (boot_cache ∅) (rev (seq 0 NBUF)) 1 7 Hl) as (_ & H & _);
    [rewrite Hh; apply not_elem_of_nil..|].
  assert (forall c cp, c ∈ rev (seq 0 NBUF) -> (boot_cache ∅).(bufs) !! c = Some cp ->
    ~ (cp.(b_dev) = 1 /\ cp.(b_sector) = 7)) as Hno.
  { intros c cp Hc Hcp [H1 H2]. pose proof (boot_cache_empty ∅) as HF. rewrite forallb_forall in HF.
    apply (lru_elem _ _ c Hl) in Hc. specialize (HF c (proj2 (in_seq NBUF 0 c) (conj (Nat.le_0_l c) Hc))).
    unfold holds in HF. rewrite Hcp, H1, H2 in HF. discriminate HF. }
  destruct (lru_lookup _ _ 0%nat Hl) as [bp Hbp]; [by apply (lru_elem _ _ _ Hl); unfold NBUF; lia|].
  destruct (proj1 (H Hno) (rev (seq 1 (NBUF - 1))) 0%nat [] bp) as [E Hl'].
  - reflexivity.
  - exact Hbp.
  - destruct Hi as (_ & _ & _ & _ & _ & Hinv & _). destruct (Hinv 0%nat bp) as (_ & Hb & _); [unfold NBUF; lia|exact Hbp|].
    intros Hx. apply Hb in Hx. destruct (not_elem_of_nil _ Hx).
  - intros c cp Hc. destruct (not_elem_of_nil _ Hc).
  - eexists. split; [exact E|exact Hl'].
Defined.
