(* ===== verification/Bytes.v ===== *)
(** Byte sequences: pieces of a block, and the little-endian integers and
    on-disk structs (fs.h) stored in them. *)

From S2P Require Import Prelude State.

(** ** Pieces of a byte sequence *)

(** [n] bytes at offset [off], and the sequence with bytes replaced there. *)
Definition slice (off n : Z) (l : list Z) : list Z := take (Z.to_nat n) (drop (Z.to_nat off) l).
Definition splice (off : Z) (d l : list Z) : list Z :=
  take (Z.to_nat off) l ++ d ++ drop (Z.to_nat off + length d) l.

(** ** Little-endian integers *)

Fixpoint le_val (l : list Z) : Z :=
  match l with [] => 0 | b :: l' => b + 256 * le_val l' end.

Fixpoint le_bytes (n : nat) (v : Z) : list Z :=
  match n with O => [] | S n' => v mod 256 :: le_bytes n' (v / 256) end.

(** [uint], [ushort] and [short] fields at an offset. *)
Definition get32 (off : Z) (l : list Z) : Z := le_val (slice off 4 l).
Definition get16 (off : Z) (l : list Z) : Z := le_val (slice off 2 l).
Definition gets16 (off : Z) (l : list Z) : Z := s16 (get16 off l).
Definition put32 (off v : Z) (l : list Z) : list Z := splice off (le_bytes 4 v) l.
Definition put16 (off v : Z) (l : list Z) : list Z := splice off (le_bytes 2 v) l.

(** ** On-disk structs *)

Record superblock := mk_superblock { sb_size : Z; sb_nblocks : Z; sb_ninodes : Z }.

Definition get_sb (l : list Z) : superblock :=
  mk_superblock (get32 0 l) (get32 4 l) (get32 8 l).

(** [struct dinode], 64 bytes. *)
Record dinode := mk_dinode {
  d_type : Z; d_major : Z; d_minor : Z; d_nlink : Z; d_size : Z; d_addrs : list Z
}.

Definition DINODESZ : Z := 64.

Definition get_addrs (off : Z) (n : nat) (l : list Z) : list Z :=
  (fun i => get32 (off + 4 * Z.of_nat i) l) <$> seq 0 n.

Definition get_dinode (l : list Z) : dinode :=
  mk_dinode (gets16 0 l) (gets16 2 l) (gets16 4 l) (gets16 6 l) (get32 8 l) (get_addrs 12 13 l).

Definition dinode_bytes (d : dinode) : list Z :=
  le_bytes 2 d.(d_type) ++ le_bytes 2 d.(d_major) ++ le_bytes 2 d.(d_minor) ++ le_bytes 2 d.(d_nlink) ++
  le_bytes 4 d.(d_size) ++ (d.(d_addrs) ≫= le_bytes 4).

(** [struct dirent], 16 bytes: inode number and name. *)
Definition DIRENTSZ : Z := 16.
Definition de_inum (l : list Z) : Z := get16 0 l.
Definition de_name (l : list Z) : list Z := slice 2 DIRSIZ l.
Definition dirent_bytes (inum : Z) (name : list Z) : list Z := le_bytes 2 inum ++ name.

(** ** Lemmas *)

Definition is_bytes (l : list Z) : Prop := Forall (fun b => 0 <= b < 256) l.

Lemma splice_length off d l :
  0 <= off -> off + Z.of_nat (length d) <= Z.of_nat (length l) -> length (splice off d l) = length l.
Proof. intros. unfold splice. rewrite !length_app, length_take, length_drop. lia. Qed.

Lemma slice_length off n l :
  0 <= off -> 0 <= n -> off + n <= Z.of_nat (length l) -> length (slice off n l) = Z.to_nat n.
Proof. intros. unfold slice. rewrite length_take, length_drop. lia. Qed.

Lemma lookup_splice off d l i :
  0 <= off -> off + Z.of_nat (length d) <= Z.of_nat (length l) ->
  splice off d l !! i =
    if decide (off <= Z.of_nat i < off + Z.of_nat (length d)) then d !! (i - Z.to_nat off)%nat else l !! i.
Proof.
  intros Ho Hl. unfold splice. assert (length (take (Z.to_nat off) l) = Z.to_nat off) as Ht by (rewrite length_take; lia).
  case_decide.
  - rewrite lookup_app_r, Ht by lia. rewrite lookup_app_l by lia. done.
  - destruct (decide (i < Z.to_nat off)%nat).
    + rewrite lookup_app_l, lookup_take_lt by lia. done.
    + rewrite lookup_app_r, Ht by lia. rewrite lookup_app_r by lia. rewrite lookup_drop. f_equal. lia.
Qed.

Lemma lookup_slice off n l i :
  0 <= off -> slice off n l !! i = if decide ((i < Z.to_nat n)%nat) then l !! (Z.to_nat off + i)%nat else None.
Proof.
  intros Ho. unfold slice. case_decide.
  - rewrite lookup_take_lt by lia. by rewrite lookup_drop.
  - apply lookup_take_ge. lia.
Qed.

(** Reading where one has written. *)
Lemma slice_splice off d l :
  0 <= off -> off + Z.of_nat (length d) <= Z.of_nat (length l) ->
  slice off (Z.of_nat (length d)) (splice off d l) = d.
Proof.
  intros Ho Hl. apply list_eq. intros i. rewrite lookup_slice, lookup_splice by lia. case_decide.
  - rewrite decide_True by lia. f_equal. lia.
  - symmetry. apply lookup_ge_None_2. lia.
Qed.

(** Reading elsewhere. *)
Lemma slice_splice_ne off n off' d l :
  0 <= off -> 0 <= off' -> off' + Z.of_nat (length d) <= Z.of_nat (length l) ->
  off + n <= off' \/ off' + Z.of_nat (length d) <= off ->
  slice off n (splice off' d l) = slice off n l.
Proof.
  intros Ho Ho' Hl Hd. apply list_eq. intros i. rewrite !lookup_slice by lia. case_decide; [|done].
  rewrite lookup_splice by lia. rewrite decide_False by lia. done.
Qed.

Lemma slice_all l : slice 0 (Z.of_nat (length l)) l = l.
Proof. unfold slice. rewrite drop_0. apply take_ge. lia. Qed.

Lemma splice_id off n l :
  0 <= off -> 0 <= n -> off + n <= Z.of_nat (length l) -> splice off (slice off n l) l = l.
Proof.
  intros. apply list_eq. intros i. pose proof (slice_length off n l).
  rewrite lookup_splice by lia. case_decide; [|done]. rewrite lookup_slice by lia.
  rewrite decide_True by lia. f_equal. lia.
Qed.

Lemma slice_app_split off n k l :
  0 <= off -> 0 <= n -> 0 <= k -> slice off (n + k) l = slice off n l ++ slice (off + n) k l.
Proof.
  intros. unfold slice. rewrite !Z2Nat.inj_add by lia. rewrite <- drop_drop. symmetry. apply take_take_drop.
Qed.

Lemma le_bytes_length n v : length (le_bytes n v) = n.
Proof. revert v. induction n; intros; simpl; auto. Qed.

Lemma le_bytes_range n v : is_bytes (le_bytes n v).
Proof.
  unfold is_bytes. revert v. induction n; intros v; simpl; constructor; [|done].
  apply Z.mod_pos_bound. lia.
Qed.

Lemma le_val_bytes n v : le_val (le_bytes n v) = v mod 2 ^ (8 * Z.of_nat n).
Proof.
  revert v. induction n as [|n IH]; intros v; simpl.
  - by rewrite Z.mod_1_r.
  - rewrite IH. replace (8 * Z.of_nat (S n)) with (8 + 8 * Z.of_nat n) by lia.
    rewrite Z.pow_add_r by lia. change (2 ^ 8) with 256. rewrite Z.rem_mul_r by lia. done.
Qed.

Lemma le_val_range l : is_bytes l -> 0 <= le_val l < 2 ^ (8 * Z.of_nat (length l)).
Proof.
  induction 1 as [|b l Hb _ IH]; simpl; [lia|].
  replace (8 * Z.of_nat (S (length l))) with (8 + 8 * Z.of_nat (length l)) by lia.
  rewrite Z.pow_add_r by lia. lia.
Qed.

Lemma get32_put32 off v l :
  0 <= off -> off + 4 <= Z.of_nat (length l) -> get32 off (put32 off v l) = u32 v.
Proof.
  intros. unfold get32, put32. rewrite (slice_splice off (le_bytes 4 v)) by (rewrite ?le_bytes_length; lia).
  by rewrite le_val_bytes.
Qed.

Lemma get32_put32_ne off off' v l :
  0 <= off -> 0 <= off' -> off' + 4 <= Z.of_nat (length l) -> off + 4 <= off' \/ off' + 4 <= off ->
  get32 off (put32 off' v l) = get32 off l.
Proof.
  intros. unfold get32, put32. rewrite slice_splice_ne by (rewrite ?le_bytes_length; lia). done.
Qed.

Lemma is_bytes_slice off n l : is_bytes l -> is_bytes (slice off n l).
Proof. intros. unfold slice. by apply Forall_take, Forall_drop. Qed.

Lemma is_bytes_splice off d l : is_bytes d -> is_bytes l -> is_bytes (splice off d l).
Proof.
  intros. unfold splice. apply Forall_app. split; [by apply Forall_take|].
  apply Forall_app. split; [done|by apply Forall_drop].
Qed.

Lemma get32_range off l : is_bytes l -> 0 <= get32 off l < 2 ^ 32.
Proof.
  intros H. unfold get32. pose proof (le_val_range _ (is_bytes_slice off 4 l H)) as Hr.
  assert (length (slice off 4 l) <= 4)%nat as Hl by (unfold slice; rewrite length_take; apply Nat.le_min_l).
  assert (2 ^ (8 * Z.of_nat (length (slice off 4 l))) <= 2 ^ 32) by (apply Z.pow_le_mono_r; lia). lia.
Qed.
