(* ===== verification/UProg.v ===== *)
(** Small user programs: echo.c, cat.c, wc.c, ls.c, ln.c, rm.c, mkdir.c,
    kill.c, zombie.c, init.c and stat of ulib.c.

    As in the file Sh, a program is the tree of system calls it makes, with a
    continuation for every result; a call has the type of its result.  A
    function of the program that returns takes the rest of the program as its
    last argument.  The programs run in a [world] of named files and
    descriptors: a read delivers as many bytes as it likes, at least one if
    there are any, as pipes and the console do.

    Strings are lists of characters without the NUL; [argv] is the list of the
    arguments, [argc] its length. *)

From S2P Require Import Prelude CString Printf State Bytes.

Module UProg.

(** ** System calls *)

(** What [fstat] delivers to ls. *)
Record stat_ := mk_stat { st_type : Z; st_ino : Z; st_size : Z }.

(** [read] and [fstat] return [None] for -1; [wait2] returns the pid and the two
    times it stores. *)
Inductive call : Set -> Set :=
| open (path : list Z) (mode : Z) : call Z
| read (fd : Z) (n : Z) : call (option (list Z))
| write (fd : Z) (bytes : list Z) : call Z
| close (fd : Z) : call Z
| fstat (fd : Z) : call (option stat_)
| dup (fd : Z) : call Z
| link (old new : list Z) : call Z
| unlink (path : list Z) : call Z
| mkdir (path : list Z) : call Z
| mknod (path : list Z) (major minor : Z) : call Z
| kill (pid : Z) : call Z
| sleep (n : Z) : call Z
| getpid : call Z
| nice : call Z
| wait : call Z
| wait2 : call (Z * Z * Z).

(** [Exec] continues when the program cannot be run.  [Hang] is a loop that has
    not ended within its fuel, [Overrun] a store outside of its array. *)
Inductive prog :=
| Call {R : Set} (c : call R) (k : R -> prog)
| Fork (k : Z -> prog)
| Exec (path : list Z) (argv : list (list Z)) (k : prog)
| Exit
| Hang
| Overrun.

Declare Scope prog_scope.
Delimit Scope prog_scope with prog.
Notation "'let!' x ':=' c 'in' k" := (Call c (fun x => k))
  (at level 10, x pattern, c at level 200, k at level 200, format "'[v' 'let!'  x  ':='  c  'in' '//' k ']'") : prog_scope.
#[local] Open Scope prog_scope.

(** The writes of [printf]. *)
Definition prints (o : Printf.output) (k : prog) : prog :=
  foldr (fun w k => let! _ := write w.1 w.2 in k) k o.

(** [printf(fd, text)]. *)
Definition say (fd : Z) (text : list Z) (k : prog) : prog := prints (Printf.puts fd text) k.

(** The text of [%d]. *)
Definition dec (n : Z) : list Z := rev (Printf.int_buf n 10 true).

(** ** echo.c *)

(** The arguments from the second on. *)
Fixpoint echo_args (l : list (list Z)) (k : prog) : prog :=
  match l with
  | [] => k
  | a :: l' => say 1 (a ++ match l' with [] => [10] | _ => [32] end) (echo_args l' k)
  end.

Definition echo_main (argv : list (list Z)) : prog := echo_args (tail argv) Exit.

(** ** cat.c *)

Fixpoint cat (fuel : nat) (fd : Z) (k : prog) : prog :=
  match fuel with
  | O => Hang
  | S f =>
      let! r := read fd 512 in
      match r with
      | None => say 1 (str "cat: read error" ++ [10]) Exit
      | Some [] => k
      | Some buf => let! _ := write 1 buf in cat f fd k
      end
  end.

(** The loop over the arguments. *)
Fixpoint cat_files (fuel : nat) (l : list (list Z)) : prog :=
  match l with
  | [] => Exit
  | a :: l' =>
      let! fd := open a 0 in
      if fd <? 0 then say 1 (str "cat: cannot open " ++ a ++ [10]) Exit
      else cat fuel fd (let! _ := close fd in cat_files fuel l')
  end.

Definition cat_main (fuel : nat) (argv : list (list Z)) : prog :=
  if Z.of_nat (length argv) <=? 1 then cat fuel 0 Exit else cat_files fuel (tail argv).

(** ** wc.c *)

(** The variables [l], [w], [c] and [inword]. *)
Record counts := mk_counts { lines : Z; words : Z; chars : Z; inword : bool }.

(** [strchr] in the blanks; NUL is not among them. *)
Definition is_blank (b : Z) : bool := bool_decide (b ∈ [32; 13; 9; 10; 11]).

(** The body of the loop over the buffer. *)
Definition wc_count (x : counts) (b : Z) : counts :=
  let c := s32 (x.(chars) + 1) in
  let l := if b =? 10 then s32 (x.(lines) + 1) else x.(lines) in
  if is_blank b then mk_counts l x.(words) c false
  else if negb x.(inword) then mk_counts l (s32 (x.(words) + 1)) c true
  else mk_counts l x.(words) c x.(inword).

Fixpoint wc_loop (fuel : nat) (fd : Z) (x : counts) (k : counts -> prog) : prog :=
  match fuel with
  | O => Hang
  | S f =>
      let! r := read fd 512 in
      match r with
      | None => say 1 (str "wc: read error" ++ [10]) Exit
      | Some [] => k x
      | Some buf => wc_loop f fd (foldl wc_count x buf) k
      end
  end.

Definition report (x : counts) (name : list Z) : list Z :=
  dec x.(lines) ++ [32] ++ dec x.(words) ++ [32] ++ dec x.(chars) ++ [32] ++ name ++ [10].

Definition wc (fuel : nat) (fd : Z) (name : list Z) (k : prog) : prog :=
  wc_loop fuel fd (mk_counts 0 0 0 false) (fun x => say 1 (report x name) k).

Fixpoint wc_files (fuel : nat) (l : list (list Z)) : prog :=
  match l with
  | [] => Exit
  | a :: l' =>
      let! fd := open a 0 in
      if fd <? 0 then say 1 (str "cat: cannot open " ++ a ++ [10]) Exit
      else wc fuel fd a (let! _ := close fd in wc_files fuel l')
  end.

Definition wc_main (fuel : nat) (argv : list (list Z)) : prog :=
  if Z.of_nat (length argv) <=? 1 then wc fuel 0 [] Exit else wc_files fuel (tail argv).

(** ** ls.c *)

Definition stat (n : list Z) (k : option stat_ -> prog) : prog :=
  let! fd := open n 0 in
  if fd <? 0 then k None
  else
    let! r := fstat fd in
    let! _ := close fd in
    k r.

(** What follows the last slash. *)
Definition ls_base (path : list Z) : list Z :=
  rev (match list_find (fun c => c = 47) (rev path) with Some (i, _) => take i (rev path) | None => rev path end).

Definition fmtname (path : list Z) : list Z :=
  let p := ls_base path in
  if DIRSIZ <=? Z.of_nat (length p) then p
  else p ++ replicate (Z.to_nat DIRSIZ - length p) 32.

Definition ls_line (path : list Z) (st : stat_) : list Z :=
  fmtname path ++ [32] ++ dec st.(st_type) ++ [32] ++ dec st.(st_ino) ++ [32] ++ dec st.(st_size) ++ [10].

(** The loop over the ls_entries; [buf] is the path followed by the entry's name. *)
Fixpoint ls_entries (fuel : nat) (fd : Z) (path : list Z) (k : prog) : prog :=
  match fuel with
  | O => Hang
  | S f =>
      let! r := read fd DIRENTSZ in
      match r with
      | Some de =>
          if Z.of_nat (length de) =? DIRENTSZ then
            if de_inum de =? 0 then ls_entries f fd path k
            else
              let buf := path ++ [47] ++ upto_nul (de_name de) (Z.to_nat DIRSIZ) in
              stat buf (fun o =>
                match o with
                | None => say 1 (str "ls: cannot stat " ++ buf ++ [10]) (ls_entries f fd path k)
                | Some st => say 1 (ls_line buf st) (ls_entries f fd path k)
                end)
          else k
      | None => k
      end
  end.

Definition ls (fuel : nat) (path : list Z) (k : prog) : prog :=
  let! fd := open path 0 in
  if fd <? 0 then say 2 (str "ls: cannot open " ++ path ++ [10]) k
  else
    let! o := fstat fd in
    match o with
    | None => say 2 (str "ls: cannot stat " ++ path ++ [10]) (let! _ := close fd in k)
    | Some st =>
        let done := let! _ := close fd in k in
        if st.(st_type) =? T_FILE then say 1 (ls_line path st) done
        else if st.(st_type) =? T_DIR then
          if 512 <? Z.of_nat (length path) + 1 + DIRSIZ + 1 then say 1 (str "ls: path too long" ++ [10]) done
          else ls_entries fuel fd path done
        else done
    end.

Definition ls_main (fuel : nat) (argv : list (list Z)) : prog :=
  if Z.of_nat (length argv) <? 2 then ls fuel [46] Exit
  else foldr (ls fuel) Exit (tail argv).

(** ** ln.c, rm.c, mkdir.c, kill.c *)

Definition ln_main (argv : list (list Z)) : prog :=
  match argv with
  | [_; old; new] =>
      let! r := link old new in
      if r <? 0 then say 2 (str "link " ++ old ++ [32] ++ new ++ str ": failed" ++ [10]) Exit else Exit
  | _ => say 2 (str "Usage: ln old new" ++ [10]) Exit
  end.

Fixpoint rm_files (l : list (list Z)) : prog :=
  match l with
  | [] => Exit
  | a :: l' =>
      let! r := unlink a in
      if r <? 0 then say 2 (str "rm: " ++ a ++ str " failed to delete" ++ [10]) Exit else rm_files l'
  end.

Definition rm_main (argv : list (list Z)) : prog :=
  if Z.of_nat (length argv) <? 2 then say 2 (str "Usage: rm files..." ++ [10]) Exit else rm_files (tail argv).

Fixpoint mkdir_files (l : list (list Z)) : prog :=
  match l with
  | [] => Exit
  | a :: l' =>
      let! r := mkdir a in
      if r <? 0 then say 2 (str "mkdir: " ++ a ++ str " failed to create" ++ [10]) Exit else mkdir_files l'
  end.

Definition mkdir_main (argv : list (list Z)) : prog :=
  if Z.of_nat (length argv) <? 2 then say 2 (str "Usage: mkdir files..." ++ [10]) Exit else mkdir_files (tail argv).

(** [atoi] of a string. *)
Definition atoi_str (a : list Z) : Z :=
  default 0 (atoi (S (length a)) (put_bytes 0 (a ++ [0]) ∅) 0).

Fixpoint kill_pids (l : list (list Z)) : prog :=
  match l with
  | [] => Exit
  | a :: l' => let! _ := kill (atoi_str a) in kill_pids l'
  end.

Definition kill_main (argv : list (list Z)) : prog :=
  if Z.of_nat (length argv) <? 1 then say 2 (str "usage: kill pid..." ++ [10]) Exit else kill_pids (tail argv).

(** ** zombie.c, init.c *)

Definition zombie_main : prog := Fork (fun pid => if 0 <? pid then let! _ := sleep 5 in Exit else Exit).

(** [while((wpid=wait()) >= 0 && wpid != pid) printf(1, "zombie!\n")]. *)
Fixpoint reap_loop (fuel : nat) (pid : Z) (k : prog) : prog :=
  match fuel with
  | O => Hang
  | S f =>
      let! wpid := wait in
      if (0 <=? wpid) && negb (wpid =? pid) then say 1 (str "zombie!" ++ [10]) (reap_loop f pid k) else k
  end.

Fixpoint init_loop (fuel : nat) : prog :=
  match fuel with
  | O => Hang
  | S f =>
      say 1 (str "init: starting sh" ++ [10]) (Fork (fun pid =>
        if pid <? 0 then say 1 (str "init: fork failed" ++ [10]) Exit
        else if pid =? 0 then Exec (str "sh") [str "sh"] (say 1 (str "init: exec sh failed" ++ [10]) Exit)
        else reap_loop f pid (init_loop f)))
  end.

(** The mode is O_RDWR. *)
Definition init_main (fuel : nat) : prog :=
  let dups := let! _ := dup 0 in let! _ := dup 0 in init_loop fuel in
  let! fd := open (str "console") 2 in
  if fd <? 0 then let! _ := mknod (str "console") 1 1 in let! _ := open (str "console") 2 in dups
  else dups.

(** ** Running programs *)

Record file_ := mk_file { f_type : Z; f_ino : Z; f_data : list Z }.

(** A descriptor: the console, or a place in a file. *)
Inductive fdobj := FdCons | FdFile (path : list Z) (off : nat).

(** The state the calls share.  [pace] bounds what the next reads deliver; [log] lists the writes; [npid] is
    the next pid, [slots] how many processes can still be made, [dead] the
    children nobody has waited for. *)
Record world := mk_world {
  files : gmap (list Z) file_; fds : gmap Z fdobj; input : list Z; pace : list nat;
  log : list (Z * list Z); npid : Z; slots : nat; dead : list Z
}.

Definition set_files (v : gmap (list Z) file_) (w : world) : world :=
  mk_world v w.(fds) w.(input) w.(pace) w.(log) w.(npid) w.(slots) w.(dead).
Definition set_fds (v : gmap Z fdobj) (w : world) : world :=
  mk_world w.(files) v w.(input) w.(pace) w.(log) w.(npid) w.(slots) w.(dead).
Definition set_input (v : list Z) (w : world) : world :=
  mk_world w.(files) w.(fds) v w.(pace) w.(log) w.(npid) w.(slots) w.(dead).
Definition set_pace (v : list nat) (w : world) : world :=
  mk_world w.(files) w.(fds) w.(input) v w.(log) w.(npid) w.(slots) w.(dead).
Definition set_log (v : list (Z * list Z)) (w : world) : world :=
  mk_world w.(files) w.(fds) w.(input) w.(pace) v w.(npid) w.(slots) w.(dead).
(** One of the dead is waited for, [l] are the others. *)
Definition reaped (l : list Z) (w : world) : world :=
  mk_world w.(files) w.(fds) w.(input) w.(pace) w.(log) w.(npid) (S w.(slots)) l.

(** The lowest free descriptor of the 16 (sysfile.c, fdalloc). *)
Definition lowest (T : gmap Z fdobj) : option Z :=
  snd <$> list_find (fun fd => T !! fd = None) (seqZ 0 16).

(** What the next read of up to [n] bytes may deliver. *)
Definition share (n : Z) (w : world) : nat :=
  match w.(pace) with [] => Z.to_nat n | p :: _ => Nat.min (Z.to_nat n) (Nat.max 1 p) end.

Definition data_of (path : list Z) (w : world) : list Z :=
  match w.(files) !! path with Some f => f.(f_data) | None => [] end.

(** A write inside or at the end of the data. *)
Definition put_data (off : nat) (bytes data : list Z) : list Z :=
  take off data ++ bytes ++ drop (off + length bytes) data.

Section kernel.
(** What the environment decides: the results of calls whose success does not
    depend on the state modelled here, and the numbers of new inodes. *)
Context (answer : forall R : Set, call R -> world -> R) (ino_of : list Z -> Z).

(** A call that changes the files if it succeeds. *)
Definition changes (c : call Z) (f : gmap (list Z) file_ -> gmap (list Z) file_) (w : world) : Z * world :=
  if answer Z c w =? 0 then (0, set_files (f w.(files)) w) else (-1, w).

Definition handle {R : Set} (c : call R) (w : world) : R * world :=
  match c in call R return R * world with
  | open path mode =>
      let w1 := if bool_decide (w.(files) !! path = None) && Z.testbit mode 9
                then set_files (<[path := mk_file T_FILE (ino_of path) []]> w.(files)) w else w in
      match w1.(files) !! path, lowest w1.(fds) with
      | Some _, Some fd => (fd, set_fds (<[fd := FdFile path 0]> w1.(fds)) w1)
      | _, _ => (-1, w1)
      end
  | read fd n =>
      let w' := set_pace (tail w.(pace)) w in
      match w.(fds) !! fd with
      | Some (FdFile path off) =>
          let l := take (share n w) (drop off (data_of path w)) in
          (Some l, set_fds (<[fd := FdFile path (off + length l)]> w.(fds)) w')
      | Some FdCons => (Some (take (share n w) w.(input)), set_input (drop (share n w) w.(input)) w')
      | None => (None, w)
      end
  | write fd bytes =>
      let w' := set_log (w.(log) ++ [(fd, bytes)]) w in
      match w.(fds) !! fd with
      | Some (FdFile path off) =>
          (Z.of_nat (length bytes),
           set_files (alter (fun f => mk_file f.(f_type) f.(f_ino) (put_data off bytes f.(f_data))) path w.(files))
             (set_fds (<[fd := FdFile path (off + length bytes)]> w.(fds)) w'))
      | Some FdCons => (Z.of_nat (length bytes), w')
      | None => (-1, w)
      end
  | close fd =>
      match w.(fds) !! fd with Some _ => (0, set_fds (delete fd w.(fds)) w) | None => (-1, w) end
  | fstat fd =>
      match w.(fds) !! fd with
      | Some (FdFile path _) =>
          ((fun f => mk_stat f.(f_type) f.(f_ino) (Z.of_nat (length f.(f_data)))) <$> w.(files) !! path, w)
      | Some FdCons => (answer _ (fstat fd) w, w)
      | None => (None, w)
      end
  | dup fd =>
      match w.(fds) !! fd, lowest w.(fds) with
      | Some o, Some d => (d, set_fds (<[d := o]> w.(fds)) w)
      | _, _ => (-1, w)
      end
  | link old new => changes (link old new) (fun m => match m !! old with Some f => <[new := f]> m | None => m end) w
  | unlink path => changes (unlink path) (delete path) w
  | mkdir path => changes (mkdir path) (insert path (mk_file T_DIR (ino_of path) [])) w
  | mknod path major minor => changes (mknod path major minor) (insert path (mk_file T_DEV (ino_of path) [])) w
  | wait => match w.(dead) with [] => (-1, w) | p :: l => (p, reaped l w) end
  | wait2 =>
      match w.(dead) with
      | [] => ((-1, 0, 0), w)
      | p :: l => let '(_, wt, rt) := answer _ wait2 w in ((p, wt, rt), reaped l w)
      end
  | kill pid => (answer _ (kill pid) w, w)
  | sleep n => (answer _ (sleep n) w, w)
  | getpid => (answer _ getpid w, w)
  | nice => (answer _ nice w, w)
  end.

Inductive status := Exited | Execed (path : list Z) (argv : list (list Z)) | Hung | Overran.

(** A child runs before its parent goes on; it has its own descriptors. *)
Fixpoint run (p : prog) (w : world) : status * world :=
  match p with
  | Call c k => let '(r, w') := handle c w in run (k r) w'
  | Fork k =>
      match w.(slots) with
      | O => run (k (-1)) w
      | S n =>
          let pid := w.(npid) in
          let w0 := mk_world w.(files) w.(fds) w.(input) w.(pace) w.(log) (pid + 1) n [] in
          match run (k 0) w0 with
          | (Hung, w1) => (Hung, w1)
          | (Overran, w1) => (Overran, w1)
          | (_, w1) =>
              run (k pid) (mk_world w1.(files) w.(fds) w1.(input) w1.(pace) w1.(log) w1.(npid) w1.(slots) (w.(dead) ++ [pid]))
          end
      end
  | Exec path argv k => if bool_decide (w.(files) !! path = None) then run k w else (Execed path argv, w)
  | Exit => (Exited, w)
  | Hang => (Hung, w)
  | Overrun => (Overran, w)
  end.

(** What has been written to a descriptor. *)
Definition text (fd : Z) (w : world) : list Z := concat (snd <$> filter (fun x => x.1 = fd) w.(log)).

(** ** Lemmas *)

Lemma log_text fd w l : text fd (set_log (w.(log) ++ l) w) = text fd w ++ concat (snd <$> filter (fun x => x.1 = fd) l).
Proof. unfold text. cbn. by rewrite filter_app, fmap_app, concat_app. Qed.

Lemma puts_text fd fd' l :
  is_bytes l -> concat (snd <$> filter (fun x => x.1 = fd) (Printf.puts fd' l)) = if decide (fd = fd') then l else [].
Proof.
  intros Hl. induction Hl as [|c l Hc _ IH]; [by case_decide|].
  change (Printf.puts fd' (c :: l)) with ((fd', [u8 c]) :: Printf.puts fd' l). unfold Printf.output in *. rewrite filter_cons. cbn [fst].
  rewrite u8_small by lia. destruct (decide (fd = fd')) as [<-|Hne].
  - rewrite decide_True by done. cbn. by rewrite IH.
  - by rewrite decide_False by congruence.
Qed.

Lemma run_prints_console o k w : (forall x, x ∈ o -> w.(fds) !! x.1 = Some FdCons) ->
  run (prints o k) w = run k (set_log (w.(log) ++ o) w).
Proof.
  unfold prints. revert w. induction o as [|x o IH]; intros w Hx; cbn [foldr].
  - rewrite app_nil_r. by destruct w.
  - cbn [run handle]. rewrite (Hx x) by (by left). rewrite IH by (intros y Hy; apply (Hx y); by right).
    destruct x as [fd b]. cbn. by rewrite <- app_assoc.
Qed.

Lemma run_say fd l k w : w.(fds) !! fd = Some FdCons -> run (say fd l k) w = run k (set_log (w.(log) ++ Printf.puts fd l) w).
Proof.
  intros Hf. apply run_prints_console. intros x (c & Hx & _)%list_elem_of_bind. by apply list_elem_of_singleton in Hx as ->.
Qed.

(** Standard input, output and error on the console. *)
Definition stdio : gmap Z fdobj := <[2 := FdCons]> (<[1 := FdCons]> {[0 := FdCons]}).

(** The program has written [out] to descriptor 1, and the files are as before. *)
Record printed (w w' : world) (out : list Z) : Prop := {
  pr_files : w'.(files) = w.(files);
  pr_out : text 1 w' = text 1 w ++ out;
  pr_err : text 2 w' = text 2 w
}.

Lemma printed_refl w : printed w w [].
Proof. split; [done|by rewrite app_nil_r|done]. Qed.

Lemma printed_trans w1 w2 w3 l1 l2 : printed w1 w2 l1 -> printed w2 w3 l2 -> printed w1 w3 (l1 ++ l2).
Proof. intros [H1 H2 H3] [H4 H5 H6]. split; [congruence|by rewrite H5, H2, app_assoc|congruence]. Qed.

(** Neither descriptors nor the pace of reads are printed. *)
Lemma printed_fds w w' l f : printed w w' l -> printed w (set_fds f w') l.
Proof. intros [H1 H2 H3]. by split. Qed.

Lemma printed_pace w w' l p : printed w w' l -> printed w (set_pace p w') l.
Proof. intros [H1 H2 H3]. by split. Qed.

Lemma printed_reaped w w' l d : printed w w' l -> printed w (reaped d w') l.
Proof. intros [H1 H2 H3]. by split. Qed.

Lemma printed_say w w' l l' : printed w w' l -> is_bytes l' -> printed w (set_log (w'.(log) ++ Printf.puts 1 l') w') (l ++ l').
Proof.
  intros Hp Hb. eapply printed_trans; [exact Hp|]. split; [done|..]; rewrite log_text, puts_text by done.
  - by rewrite decide_True.
  - by rewrite decide_False, app_nil_r.
Qed.

Lemma printed_write w w' l b : printed w w' l -> printed w (set_log (w'.(log) ++ [(1, b)]) w') (l ++ b).
Proof.
  intros Hp. eapply printed_trans; [exact Hp|]. split; [done|..]; rewrite log_text, filter_cons.
  - rewrite decide_True by done. cbn. by rewrite app_nil_r.
  - rewrite decide_False by done. cbn. by rewrite app_nil_r.
Qed.

(** *** Reading *)

(** A read of a file delivers a first part of what is left of it, not empty if
    anything is left. *)
Lemma read_some w fd path off n :
  w.(fds) !! fd = Some (FdFile path off) -> 0 < n ->
  let rest := drop off (data_of path w) in
  exists l, (rest = [] \/ l <> []) /\ rest = l ++ drop (off + length l) (data_of path w) /\
    handle (read fd n) w = (Some l, set_fds (<[fd := FdFile path (off + length l)]> w.(fds)) (set_pace (tail w.(pace)) w)).
Proof.
  intros Hf Hn rest. exists (take (share n w) rest). split_and!.
  - destruct rest as [|b rest]; [by left|]. right. assert (0 < share n w)%nat as Hs by (unfold share; case_match; lia).
    by destruct (share n w); [lia|].
  - rewrite <- drop_drop. fold rest. rewrite length_take. rewrite <- (take_drop (share n w) rest) at 1. f_equal.
    destruct (decide (share n w <= length rest)%nat); [by rewrite Nat.min_l|]. by rewrite !drop_ge by lia.
  - cbn. by rewrite Hf.
Qed.

(** The loops of cat and wc: at the end of the file they go on with the program,
    whatever the sizes of the reads were. *)
Lemma cat_run fuel fd k path : forall w off,
  w.(fds) !! fd = Some (FdFile path off) -> w.(fds) !! 1 = Some FdCons -> (length (drop off (data_of path w)) < fuel)%nat ->
  exists w' e, run (cat fuel fd k) w = run k w' /\ printed w w' (drop off (data_of path w)) /\ w'.(fds) = <[fd := FdFile path e]> w.(fds).
Proof.
  induction fuel as [|f IH]; intros w off Hf H1 Hl; [lia|]. cbn [cat run].
  assert (fd <> 1) as Hne by congruence.
  destruct (read_some w fd path off 512 Hf ltac:(lia)) as (l & Hz & Hr & ->). set (w1 := set_fds _ _).
  destruct l as [|b l].
  - destruct Hz as [Hz|]; [|done]. exists w1, (off + 0)%nat. rewrite Hz. split_and!; [done| |done]. apply printed_fds, printed_pace, printed_refl.
  - set (bl := b :: l) in *. cbn [run handle]. replace (w1.(fds) !! 1) with (Some FdCons) by (cbn; by rewrite lookup_insert_ne).
    set (w2 := set_log _ w1).
    assert (data_of path w2 = data_of path w) as Ed by done.
    destruct (IH w2 (off + length bl)%nat) as (w' & e & E & Hp & Ef).
    + cbn. by rewrite lookup_insert_eq.
    + cbn. by rewrite lookup_insert_ne.
    + rewrite Ed. apply (f_equal length) in Hr. rewrite length_app in Hr. cbn in Hr, Hl |- *. lia.
    + exists w', e. rewrite E. split_and!; [done| |].
      * rewrite Hr. rewrite Ed in Hp. eapply printed_trans; [|exact Hp].
        apply (printed_write w w1 []), printed_fds, printed_pace, printed_refl.
      * rewrite Ef. cbn. by rewrite insert_insert_eq.
Qed.

Lemma wc_loop_run fuel fd path k : forall w off x,
  w.(fds) !! fd = Some (FdFile path off) -> (length (drop off (data_of path w)) < fuel)%nat ->
  exists w' e, run (wc_loop fuel fd x k) w = run (k (foldl wc_count x (drop off (data_of path w)))) w' /\ printed w w' [] /\
    w'.(fds) = <[fd := FdFile path e]> w.(fds).
Proof.
  induction fuel as [|f IH]; intros w off x Hf Hl; [lia|]. cbn [wc_loop run].
  destruct (read_some w fd path off 512 Hf ltac:(lia)) as (l & Hz & Hr & ->). set (w1 := set_fds _ _).
  destruct l as [|b l].
  - destruct Hz as [Hz|]; [|done]. exists w1, (off + 0)%nat. rewrite Hz. split_and!; [done| |done]. apply printed_fds, printed_pace, printed_refl.
  - set (bl := b :: l) in *.
    destruct (IH w1 (off + length bl)%nat (foldl wc_count x bl)) as (w' & e & E & Hp & Ef).
    + cbn. by rewrite lookup_insert_eq.
    + change (data_of path w1) with (data_of path w). apply (f_equal length) in Hr. rewrite length_app in Hr. cbn in Hr, Hl |- *. lia.
    + exists w', e. rewrite E. split_and!.
      * rewrite Hr, foldl_app. done.
      * apply (printed_trans w w1 w' [] []); [|done]. apply printed_fds, printed_pace, printed_refl.
      * rewrite Ef. cbn. by rewrite insert_insert_eq.
Qed.

(** *** The loop over the arguments *)

(** The common shape of [cat_files] and [wc_files]. *)
Fixpoint each (body : Z -> list Z -> prog -> prog) (l : list (list Z)) : prog :=
  match l with
  | [] => Exit
  | a :: l' =>
      let! fd := open a 0 in
      if fd <? 0 then say 1 (str "cat: cannot open " ++ a ++ [10]) Exit
      else body fd a (let! _ := close fd in each body l')
  end.

(** What is to be printed: [f] of every file up to the first that cannot be
    opened. *)
Fixpoint outputs (f : list Z -> list Z -> list Z) (m : gmap (list Z) file_) (l : list (list Z)) : list Z :=
  match l with
  | [] => []
  | a :: l' =>
      match m !! a with
      | Some x => f a x.(f_data) ++ outputs f m l'
      | None => str "cat: cannot open " ++ a ++ [10]
      end
  end.

Lemma cat_files_each fuel l : cat_files fuel l = each (fun fd _ => cat fuel fd) l.
Proof. induction l as [|a l IH]; cbn; [done|]. by rewrite IH. Qed.

Lemma wc_files_each fuel l : wc_files fuel l = each (wc fuel) l.
Proof. induction l as [|a l IH]; cbn; [done|]. by rewrite IH. Qed.

(** One file is processed: opened as descriptor 3. *)
Definition processes (body : Z -> list Z -> prog -> prog) (f : list Z -> list Z -> list Z) (m : gmap (list Z) file_) (a : list Z) : Prop :=
  forall k w x, w.(files) = m -> m !! a = Some x -> w.(fds) = <[3 := FdFile a 0]> stdio ->
    exists w' e, run (body 3 a k) w = run k w' /\ printed w w' (f a x.(f_data)) /\ w'.(fds) = <[3 := FdFile a e]> w.(fds).

Lemma each_run body f m l : forall w,
  w.(files) = m -> w.(fds) = stdio -> Forall is_bytes l -> Forall (processes body f m) l ->
  exists w', run (each body l) w = (Exited, w') /\ printed w w' (outputs f m l) /\ w'.(fds) = stdio.
Proof.
  induction l as [|a l IH]; intros w Hm Hs Hb Hl; cbn [each outputs].
  - exists w. split_and!; [done|apply printed_refl|done].
  - apply Forall_cons in Hb as [Hba Hb]. apply Forall_cons in Hl as [Hla Hl]. cbn [run handle].
    replace (Z.testbit 0 9) with false by done. rewrite andb_false_r, Hs, Hm.
    replace (lowest stdio) with (Some 3) by (vm_compute; reflexivity).
    destruct (m !! a) as [x|] eqn:Ex.
    + set (w1 := set_fds _ w). change (3 <? 0) with false. cbv iota.
      destruct (Hla (let! _ := close 3 in each body l) w1 x Hm Ex eq_refl) as (w2 & e & E2 & Hp2 & Hf2). rewrite E2.
      cbn [run handle]. rewrite Hf2. change (w1.(fds)) with (<[3 := FdFile a 0]> stdio). rewrite lookup_insert_eq, insert_insert_eq.
      rewrite delete_insert_eq. rewrite (delete_id stdio) by reflexivity.
      destruct (IH (set_fds stdio w2)) as (w' & E & Hp & Hf); [|done|done|done|].
      { cbn. by rewrite (pr_files _ _ _ Hp2). }
      exists w'. split_and!; [done| |done].
      eapply printed_trans; [|exact Hp]. apply printed_fds. apply (printed_trans w w1 w2 []); [|done].
      apply printed_fds, printed_refl.
    + change (-1 <? 0) with true. cbv iota. rewrite run_say by (rewrite Hs; reflexivity). eexists. split; [done|]. split; [|done].
      apply (printed_say w w []); [apply printed_refl|]. repeat apply Forall_app_2; [|done|].
      * by apply (bool_decide_unpack _).
      * constructor; [lia|done].
Qed.

(** *** Counting *)

(** The pieces between blanks, and the words among them. *)
Fixpoint fields (l : list Z) : list (list Z) :=
  match l with
  | [] => [[]]
  | b :: l' =>
      if is_blank b then [] :: fields l'
      else match fields l' with g :: gs => (b :: g) :: gs | [] => [[b]] end
  end.

Definition words_of (l : list Z) : list (list Z) := filter (fun g => g <> []) (fields l).

Lemma fields_cons l : exists g gs, fields l = g :: gs.
Proof. induction l as [|b l (g & gs & IH)]; cbn; [eauto|]. rewrite IH. case_match; eauto. Qed.

Lemma wc_count_words l : forall x g gs,
  fields l = g :: gs -> x.(words) + Z.of_nat (length l) < 2 ^ 31 -> - 2 ^ 31 <= x.(words) ->
  (foldl wc_count x l).(words) = x.(words) + Z.of_nat (length (filter (fun g => g <> []) (if x.(inword) then gs else g :: gs))).
Proof.
  induction l as [|b l IH]; intros x g gs Hf Hb Hw.
  - cbn in Hf. injection Hf as <- <-. cbn [foldl]. destruct (inword x); [|rewrite (filter_cons_False _ []) by tauto]; rewrite filter_nil; cbn; lia.
  - destruct (fields_cons l) as (h & hs & Hl). cbn [fields foldl length] in *. rewrite Nat2Z.inj_succ in Hb. rewrite Hl in Hf.
    unfold wc_count at 2. destruct (is_blank b).
    + injection Hf as <- <-. rewrite (IH _ h hs); cbn [words inword]; [|done|lia|lia].
      destruct (inword x); [done|]. rewrite (filter_cons_False _ []) by tauto. done.
    + injection Hf as <- <-. destruct (inword x) eqn:Ei; cbn [negb].
      * rewrite (IH _ h hs); cbn [words inword]; [|done|lia|lia]. done.
      * rewrite (s32_small (words x + 1)) by lia. rewrite (IH _ h hs); cbn [words inword]; [|done|lia|lia].
        rewrite (filter_cons_True _ (b :: h)) by done. cbn [length]. lia.
Qed.

Lemma wc_count_chars l : forall x,
  - 2 ^ 31 <= x.(chars) -> x.(chars) + Z.of_nat (length l) < 2 ^ 31 -> (foldl wc_count x l).(chars) = x.(chars) + Z.of_nat (length l).
Proof.
  induction l as [|b l IH]; intros x Hx Hl; cbn [foldl length] in *; [cbn; lia|].
  assert ((wc_count x b).(chars) = x.(chars) + 1) as E by (unfold wc_count; rewrite (s32_small (chars x + 1)) by lia; by repeat case_match).
  rewrite IH; rewrite E; lia.
Qed.

Lemma wc_count_lines l : forall x,
  - 2 ^ 31 <= x.(lines) -> x.(lines) + Z.of_nat (length l) < 2 ^ 31 ->
  (foldl wc_count x l).(lines) = x.(lines) + Z.of_nat (length (filter (fun b => b = 10) l)).
Proof.
  induction l as [|b l IH]; intros x Hx Hl; cbn [foldl length] in *; [rewrite filter_nil; cbn; lia|].
  assert ((wc_count x b).(lines) = x.(lines) + (if decide (b = 10) then 1 else 0)) as E.
  { unfold wc_count. rewrite (s32_small (x.(lines) + 1)) by lia. destruct (Z.eqb_spec b 10); [rewrite decide_True by done|rewrite decide_False by done];
      repeat case_match; cbn; lia. }
  rewrite filter_cons, IH; rewrite E; case_decide; cbn [length]; lia.
Qed.

Definition wc_text (name data : list Z) : list Z :=
  dec (Z.of_nat (length (filter (fun b => b = 10) data))) ++ [32] ++ dec (Z.of_nat (length (words_of data))) ++ [32] ++
  dec (Z.of_nat (length data)) ++ [32] ++ name ++ [10].

Lemma wc_counts_text name data : Z.of_nat (length data) < 2 ^ 31 -> report (foldl wc_count (mk_counts 0 0 0 false) data) name = wc_text name data.
Proof.
  intros Hl. unfold report, wc_text, words_of. destruct (fields_cons data) as (g & gs & Hg).
  rewrite wc_count_lines, wc_count_chars, (wc_count_words data _ g gs), Hg; cbn [lines words chars inword]; try lia; [done|exact Hg].
Qed.

Lemma dec_bytes n : is_bytes (dec n).
Proof.
  destruct (Printf.int_buf_value n 10 true) as (_ & _ & Hb); [by left|]. apply Forall_rev. eapply Forall_impl; [exact Hb|]. cbn. lia.
Qed.

(** *** Listing a directory *)

(** What [fstat] says of a file. *)
Definition info (f : file_) : stat_ := mk_stat f.(f_type) f.(f_ino) (Z.of_nat (length f.(f_data))).

(** The line for a directory entry. *)
Definition entry_text (m : gmap (list Z) file_) (path de : list Z) : list Z :=
  if de_inum de =? 0 then []
  else
    let buf := path ++ [47] ++ upto_nul (de_name de) (Z.to_nat DIRSIZ) in
    match m !! buf with
    | Some f => ls_line buf (info f)
    | None => str "ls: cannot stat " ++ buf ++ [10]
    end.

Lemma stat_run n k w o :
  w.(fds) = <[3 := o]> stdio -> run (stat n k) w = run (k (info <$> w.(files) !! n)) w.
Proof.
  intros Hs. unfold stat. cbn [run handle]. replace (Z.testbit 0 9) with false by done. rewrite andb_false_r.
  replace (lowest w.(fds)) with (Some 4) by (rewrite Hs; vm_compute; reflexivity).
  destruct (w.(files) !! n) as [f|] eqn:Ef; [|done]. change (4 <? 0) with false. cbv iota. cbn [run handle].
  cbn [fds set_fds]. rewrite lookup_insert_eq. cbn [files set_fds]. rewrite Ef. cbn [fds set_fds]. rewrite lookup_insert_eq, delete_insert_id.
  - by destruct w.
  - rewrite Hs. vm_compute. reflexivity.
Qed.

Lemma upto_nul_bytes l n : is_bytes l -> is_bytes (upto_nul l n).
Proof.
  revert l. induction n as [|n IH]; intros [|c l] Hl; cbn; try constructor. apply Forall_cons in Hl as [Hc Hl].
  case_match; constructor; [done|by apply IH].
Qed.

Lemma fmtname_bytes path : is_bytes path -> is_bytes (fmtname path).
Proof.
  intros Hp. assert (is_bytes (ls_base path)) as Hb.
  { unfold ls_base. apply Forall_rev. case_match; [case_match; subst; apply Forall_take|]; by apply Forall_rev. }
  unfold fmtname. case_match; [done|]. apply Forall_app_2; [done|]. apply Forall_replicate. lia.
Qed.

Lemma entry_bytes m path de : is_bytes path -> is_bytes de -> is_bytes (entry_text m path de).
Proof.
  intros Hp Hd. unfold entry_text. case_match; [constructor|].
  set (buf := path ++ _). assert (is_bytes buf) as Hb.
  { unfold buf. repeat apply Forall_app_2; [done|constructor; [lia|done]|]. apply upto_nul_bytes. unfold de_name, slice. by apply Forall_take, Forall_drop. }
  case_match.
  - unfold ls_line, is_bytes. rewrite !Forall_app, !Forall_singleton. repeat split; try apply dec_bytes; try (by apply fmtname_bytes); lia.
  - apply Forall_app_2; [by apply (bool_decide_unpack _)|]. apply Forall_app_2; [done|]. constructor; [lia|done].
Qed.

(** ** Properties *)

(** cat: the arguments are copied to standard output, each byte once and in
    order, whatever the sizes of the reads, up to the first argument that cannot
    be opened, which is reported; descriptors and files are left as they were.
    The loops end within one round more than the longest file has bytes. *)
Theorem cat_copies (fuel : nat) (w : world) (names : list (list Z)) :
  w.(fds) = stdio -> names <> [] -> Forall is_bytes names ->
  (forall a x, w.(files) !! a = Some x -> (length x.(f_data) < fuel)%nat) ->
  exists w', run (cat_main fuel (str "cat" :: names)) w = (Exited, w') /\
    printed w w' (outputs (fun _ data => data) w.(files) names) /\ w'.(fds) = stdio.
Proof.
  intros Hs Hn Hb Hf. unfold cat_main. destruct names as [|a names]; [done|].
  rewrite (proj2 (Z.leb_gt _ 1)) by (cbn; lia). cbn [tail]. rewrite cat_files_each. apply each_run; [done..|].
  apply Forall_forall. intros b _ k w1 x Hm Hx Hfd. rewrite <- Hm in Hx, Hf. assert (data_of b w1 = f_data x) as Ed by (unfold data_of; by rewrite Hx).
  destruct (cat_run fuel 3 k b w1 0) as (w' & e & E & Hp & Ef); [by rewrite Hfd|by rewrite Hfd| |].
  - rewrite drop_0, Ed. by apply (Hf b).
  - exists w', e. rewrite drop_0, Ed in Hp. by rewrite E.
Qed.

(** wc: for every file the number of its newlines, of its words and of its
    bytes is printed with its name, whatever the sizes of the reads; a word is
    a piece of the text between blanks that is not empty. *)
Theorem wc_counts (fuel : nat) (w : world) (names : list (list Z)) :
  w.(fds) = stdio -> names <> [] -> Forall is_bytes names ->
  (forall a x, w.(files) !! a = Some x -> (length x.(f_data) < fuel)%nat /\ Z.of_nat (length x.(f_data)) < 2 ^ 31) ->
  exists w', run (wc_main fuel (str "wc" :: names)) w = (Exited, w') /\
    printed w w' (outputs wc_text w.(files) names) /\ w'.(fds) = stdio.
Proof.
  intros Hs Hn Hb Hf. unfold wc_main. destruct names as [|a names]; [done|].
  rewrite (proj2 (Z.leb_gt _ 1)) by (cbn; lia). cbn [tail]. rewrite wc_files_each. apply each_run; [done..|].
  apply (Forall_impl is_bytes); [done|]. intros b Hbb k w1 x Hm Hx Hfd. rewrite <- Hm in Hx, Hf. destruct (Hf b x Hx) as [Hfu Hlen].
  assert (data_of b w1 = f_data x) as Ed by (unfold data_of; by rewrite Hx).
  destruct (wc_loop_run fuel 3 b (fun x => say 1 (report x b) k) w1 0 (mk_counts 0 0 0 false)) as (w2 & e & E & Hp & Ef); [by rewrite Hfd|by rewrite drop_0, Ed|].
  rewrite drop_0, Ed in E. unfold wc. rewrite E, wc_counts_text by done.
  rewrite run_say by (rewrite Ef, Hfd; reflexivity). eexists _, e. split; [done|]. split; [|done].
  apply (printed_say w1 w2 []); [done|]. unfold wc_text, is_bytes. rewrite !Forall_app, !Forall_singleton.
  repeat split; try apply dec_bytes; try exact Hbb; lia.
Qed.

Lemma ls_entries_run path k des : forall fuel w off,
  is_bytes path -> Forall (fun de => is_bytes de /\ length de = Z.to_nat DIRENTSZ) des ->
  w.(pace) = [] -> w.(fds) = <[3 := FdFile path off]> stdio -> drop off (data_of path w) = concat des -> (length des < fuel)%nat ->
  exists w' e, run (ls_entries fuel 3 path k) w = run k w' /\ printed w w' (des ≫= entry_text w.(files) path) /\
    w'.(fds) = <[3 := FdFile path e]> stdio.
Proof.
  intros fuel w off Hp Hd. revert fuel w off. induction Hd as [|de des [Hb Hl] Hd IH]; intros [|fuel] w off Hpc Hs Hr Hf; try (cbn in Hf; lia).
  all: cbn [ls_entries run handle]; rewrite Hs, lookup_insert_eq, Hr; unfold share; rewrite Hpc; cbn [tail].
  - eexists _, _. split; [done|]. split; [apply printed_fds, printed_pace, printed_refl|]. cbn. by rewrite insert_insert_eq.
  - cbn [concat]. rewrite <- Hl, take_app_length, Hl. change (Z.of_nat (Z.to_nat DIRENTSZ) =? DIRENTSZ) with true. cbv iota.
    rewrite insert_insert_eq. set (w1 := set_fds _ _).
    change ((de :: des) ≫= entry_text w.(files) path) with (entry_text w.(files) path de ++ (des ≫= entry_text w.(files) path)).
    pose proof (entry_bytes w.(files) path de Hp Hb) as Hbt. remember (entry_text w.(files) path de) as te eqn:Et.
    assert (forall w2, printed w1 w2 te -> w2.(pace) = [] -> w2.(fds) = w1.(fds) ->
      exists w' e, run (ls_entries fuel 3 path k) w2 = run k w' /\ printed w w' (te ++ (des ≫= entry_text w.(files) path)) /\
        w'.(fds) = <[3 := FdFile path e]> stdio) as Hnext.
    { intros w2 H2 Hp2 Hf2. destruct (IH fuel w2 (off + Z.to_nat DIRENTSZ)%nat) as (w' & e & E & Hp' & Hs'); [done|by rewrite Hf2| |cbn in Hf; lia|].
      { replace (data_of path w2) with (data_of path w) by (unfold data_of; by rewrite (pr_files _ _ _ H2)).
        rewrite <- drop_drop, Hr. cbn [concat]. rewrite <- Hl. by rewrite drop_app_length. }
      exists w', e. split_and!; [done| |done]. rewrite (pr_files _ _ _ H2) in Hp'.
      apply (printed_trans w w1 w' []); [apply printed_fds, printed_pace, printed_refl|]. by apply (printed_trans w1 w2). }
    unfold entry_text in Et. destruct (de_inum de =? 0); [apply (Hnext w1); [subst te; apply printed_refl|done|done]|].
    rewrite (stat_run _ _ w1 _ eq_refl). change w1.(files) with w.(files). set (buf := path ++ _) in *.
    destruct (w.(files) !! buf); cbn [fmap option_fmap option_map]; rewrite run_say by reflexivity; rewrite <- Et.
    all: apply Hnext; [|done|done]; apply (printed_say w1 w1 []); [apply printed_refl|done].
Qed.

(** ls of a directory: one line for every entry that is in use, in order,
    with the name, the type, the inode number and the size that the file has;
    descriptors and files are left as they were. *)
Theorem ls_lists (fuel : nat) (w : world) (path : list Z) (x : file_) (des : list (list Z)) :
  w.(fds) = stdio -> w.(pace) = [] -> is_bytes path -> Z.of_nat (length path) + 1 + DIRSIZ + 1 <= 512 ->
  w.(files) !! path = Some x -> x.(f_type) = T_DIR -> x.(f_data) = concat des ->
  Forall (fun de => is_bytes de /\ length de = Z.to_nat DIRENTSZ) des -> (length des < fuel)%nat ->
  exists w', run (ls_main fuel [str "ls"; path]) w = (Exited, w') /\
    printed w w' (des ≫= entry_text w.(files) path) /\ w'.(fds) = stdio.
Proof.
  intros Hs Hpc Hp Hl Hx Ht Hd Hde Hf. change (ls_main fuel [str "ls"; path]) with (ls fuel path Exit). unfold ls. cbn [run handle]. replace (Z.testbit 0 9) with false by done. rewrite andb_false_r, Hx, Hs.
  replace (lowest stdio) with (Some 3) by (vm_compute; reflexivity). change (3 <? 0) with false. cbv iota. set (w1 := set_fds _ w).
  cbn [run handle]. change w1.(fds) with (<[3 := FdFile path 0]> stdio). change w1.(files) with w.(files).
  rewrite lookup_insert_eq, Hx. cbn [fmap option_fmap option_map st_type]. rewrite Ht. change (T_DIR =? T_FILE) with false. rewrite Z.eqb_refl.
  rewrite (proj2 (Z.ltb_ge _ _)) by lia. cbv iota.
  destruct (ls_entries_run path (let! _ := close 3 in Exit) des fuel w1 0 Hp Hde Hpc eq_refl) as (w2 & e & E & Hpr & Hs2).
  { rewrite drop_0. unfold data_of. change w1.(files) with w.(files). by rewrite Hx. }
  { done. }
  rewrite E. cbn [run handle]. rewrite Hs2, lookup_insert_eq, delete_insert_id by reflexivity. eexists. split; [done|]. split; [|done].
  apply printed_fds. apply (printed_trans w w1 w2 []); [apply printed_fds, printed_refl|done].
Qed.

(** init waits for the shell it has started: every other process that ends
    meanwhile is reaped and reported, and only the end of the shell lets init
    start the next one. *)
Theorem init_reaps (fuel : nat) (k : prog) (pid : Z) (l1 l2 : list Z) : forall w : world,
  w.(fds) !! 1 = Some FdCons -> w.(dead) = l1 ++ pid :: l2 -> pid ∉ l1 -> Forall (fun p => 0 <= p) (l1 ++ [pid]) -> (length l1 < fuel)%nat ->
  exists w', run (reap_loop fuel pid k) w = run k w' /\ w'.(dead) = l2 /\ w'.(slots) = (w.(slots) + length l1 + 1)%nat /\
    printed w w' (l1 ≫= fun _ => str "zombie!" ++ [10]).
Proof.
  revert fuel. induction l1 as [|p l1 IH]; intros [|fuel] w H1 Hd Hn Hp Hf; try (cbn in Hf; lia); cbn [reap_loop run handle]; rewrite Hd; cbn [app].
  - rewrite Z.eqb_refl, andb_false_r. eexists. split; [done|]. split; [done|]. split; [cbn; lia|]. apply printed_reaped, printed_refl.
  - apply not_elem_of_cons in Hn as [Hne Hn]. apply Forall_cons in Hp as [H0 Hp].
    rewrite (proj2 (Z.leb_le _ _) H0), (proj2 (Z.eqb_neq p pid)) by done. cbn [andb negb]. rewrite run_say by done.
    set (w1 := set_log _ _). destruct (IH fuel w1) as (w' & E & Hd' & Hs & Hpr); [done|done|done|done|cbn in Hf; lia|].
    exists w'. split_and!; [done|done|rewrite Hs; cbn; lia|].
    change (printed w w' ((str "zombie!" ++ [10]) ++ (l1 ≫= fun _ => str "zombie!" ++ [10]))). eapply printed_trans; [|exact Hpr].
    apply (printed_say w (reaped (l1 ++ pid :: l2) w) []); [apply printed_reaped, printed_refl|by apply (bool_decide_unpack _)].
Qed.
End kernel.

(** Two files, one of which is missing, read one or two bytes at a time. *)
Definition sample : world :=
  mk_world {[str "a" := mk_file T_FILE 2 (str "to be" ++ [10] ++ str " or" ++ [9])]} stdio [] [1; 2; 1; 1]%nat [] 3 5 [].


(** An environment in which every call is refused. *)
Definition refuse (R : Set) (c : call R) (_ : world) : R :=
  match c in call R return R with
  | read _ _ | fstat _ => None
  | wait2 => (-1, 0, 0)
  | open _ _ | write _ _ | close _ | dup _ | link _ _ | unlink _ | mkdir _ | mknod _ _ _ | kill _ | sleep _ | getpid | nice | wait => -1
  end.

Lemma cat_copies_witness :
  exists w', run refuse (fun _ => 0) (cat_main 100 [str "cat"; str "a"; str "b"]) sample = (Exited, w') /\
    text 1 w' = str "to be" ++ [10] ++ str " or" ++ [9] ++ str "cat: cannot open b" ++ [10].
Proof.
  destruct (cat_copies refuse (fun _ => 0) 100 sample [str "a"; str "b"]) as (w' & E & [_ H _] & _);
    [reflexivity|discriminate|by apply (bool_decide_unpack _)| |].
  - intros a x Ha. cbn in Ha. apply lookup_singleton_Some in Ha as [_ <-]. cbn. lia.
  - exists w'. split; [exact E|exact H].
Defined.

Lemma wc_counts_witness :
  exists w', run refuse (fun _ => 0) (wc_main 100 [str "wc"; str "a"]) sample = (Exited, w') /\ text 1 w' = str "1 3 10 a" ++ [10].
Proof.
  destruct (wc_counts refuse (fun _ => 0) 100 sample [str "a"]) as (w' & E & [_ H _] & _);
    [reflexivity|discriminate|by apply (bool_decide_unpack _)| |].
  - intros a x Ha. cbn in Ha. apply lookup_singleton_Some in Ha as [_ <-]. cbn. lia.
  - exists w'. split; [exact E|]. rewrite H. vm_compute. reflexivity.
Defined.
Definition sample_dir : world :=
  mk_world (<[str "/a" := mk_file T_FILE 2 (str "hello")]>
    {[[] := mk_file T_DIR 1 (concat [dirent_bytes 2 (str "a" ++ replicate 13 0); dirent_bytes 0 (replicate 14 0)])]})
    stdio [] [] [] 3 5 [].

Lemma ls_lists_witness :
  exists w', run refuse (fun _ => 0) (ls_main 3 [str "ls"; []]) sample_dir = (Exited, w') /\ text 1 w' = str "a              2 2 5" ++ [10].
Proof.
  destruct (ls_lists refuse (fun _ => 0) 3 sample_dir [] (mk_file T_DIR 1 (concat [dirent_bytes 2 (str "a" ++ replicate 13 0); dirent_bytes 0 (replicate 14 0)]))
    [dirent_bytes 2 (str "a" ++ replicate 13 0); dirent_bytes 0 (replicate 14 0)]) as (w' & E & [_ H _] & _);
    [reflexivity|reflexivity|constructor|discriminate|reflexivity|reflexivity|reflexivity|by apply (bool_decide_unpack _)|cbn; lia|].
  exists w'. split; [exact E|]. rewrite H. vm_compute. reflexivity.
Defined.
End UProg.
