(* ===== verification/Fib.v ===== *)
(** The test programs of the scheduling assignment: fibonacci.c and sanity.c.

    Both start 30 children and wait for them.  In fibonacci.c the children with
    even numbers compute by way of a file of their own, which holds the numbers
    separated by commas: each round finds its two operands by closing the file,
    opening it again and reading past what is no longer needed.

    The arrays of 11 characters are represented by the C string they hold; a
    character that does not fit makes the run [Overrun].  Two of them are not
    initialised before they are appended to: what they hold at first is a
    parameter.  The file name is appended to a string constant, over constants
    that may follow it in memory, which is not represented. *)

From S2P Require Import Prelude CString Printf State Bytes UProg.

Module Fib.
Import UProg.
#[local] Open Scope prog_scope.

(** ** fibonacci.c *)

(** The C string at an address. *)
Fixpoint read_str (fuel : nat) (m : mem) (s : Z) : list Z :=
  match fuel with
  | O => []
  | S f => if load8 m s =? 0 then [] else load8 m s :: read_str f m (s + 1)
  end.

(** What [itoa] leaves in an array. *)
Definition itoa_str (n : Z) : list Z :=
  match itoa 12 n 0 ∅ with Some m => read_str 12 m 0 | None => [] end.

(** [charCat] on an array of 11 characters. *)
Definition charCat (s : list Z) (c : Z) (k : list Z -> prog) : prog :=
  if (length s + 2 <=? 11)%nat then k (s ++ [c]) else Overrun.

Definition fileOffset (fd : Z) (filename : list Z) (buffer : Z) (k : Z -> prog) : prog :=
  let! _ := close fd in
  let! fd2 := open filename 2 in
  let! _ := read fd2 buffer in
  k fd2.

(** The loops that read one number, up to the comma: [readbuf] keeps its value
    when nothing is read, [count] is [readbuffer]. *)
Fixpoint read_num (fuel : nat) (fd readbuf : Z) (num : list Z) (count : Z) (k : Z -> list Z -> Z -> prog) : prog :=
  match fuel with
  | O => Hang
  | S f =>
      let! r := read fd 1 in
      let c := match r with Some (b :: _) => b | _ => readbuf end in
      if negb (c =? 44) then charCat num c (fun num => read_num f fd c num (s32 (count + 1)) k)
      else k c num (s32 (count + 1))
  end.

(** [while(aggr < numOfPs)], with the number of rounds left. *)
Fixpoint fib_rounds (fuel rounds : nat) (cpid : Z) (name : list Z) (fd read_off count readbuf : Z) (num1 num2 : list Z)
    (k : Z -> prog) : prog :=
  match rounds with
  | O => k fd
  | S rounds =>
      fileOffset fd name read_off (fun fd =>
      read_num fuel fd readbuf num1 count (fun readbuf num1 read_off =>
      read_num fuel fd readbuf num2 read_off (fun readbuf num2 _ =>
        let nnum1 := atoi_str num1 in
        let nnum2 := atoi_str num2 in
        let nnum3 := s32 (nnum1 + nnum2) in
        say 1 (str "FibTest" ++ dec cpid ++ [32] ++ dec nnum2 ++ [44] ++ dec nnum1 ++ [10])
          (charCat (itoa_str nnum3) 44 (fun num3 =>
            let! _ := write fd num3 in
            fib_rounds fuel rounds cpid name fd read_off read_off readbuf [] [] k)))))
  end.

(** [readbuf] is not initialised either. *)
Definition even_child (fuel : nat) (numOfPs readbuf : Z) (junk1 junk2 : list Z) : prog :=
  let! cpid := getpid in
  let strfile1 := str "FibTest" ++ itoa_str cpid in
  let! fd := open strfile1 (Z.lor 2 512) in
  let finish fd := say 1 (dec cpid ++ str " cid finished its calculation" ++ [10]) (let! _ := close fd in Exit) in
  if fd <? 0 then say 1 (str "problem opening file") Exit
  else if numOfPs =? 0 then
    let! _ := write fd (str "0") in
    say 1 (str "FibTest" ++ dec cpid ++ str " 0,none" ++ [10]) (finish fd)
  else
    let! _ := write fd (str "2,3,") in
    say 1 (str "FibTest" ++ dec cpid ++ str " 1,0" ++ [10])
      (fib_rounds fuel (Z.to_nat (numOfPs - 1)) cpid strfile1 fd 0 0 readbuf junk1 junk2 finish).

(** The additions of the children with odd numbers: [num1] after the loop. *)
Definition odd_loop (numOfPs : Z) : Z := Nat.iter (Z.to_nat (numOfPs - 1)) (fun num1 => s32 (1 + num1)) 0.

Definition odd_child (numOfPs : Z) : prog :=
  let! cpid := getpid in
  let _ := odd_loop numOfPs in
  say 1 (dec cpid ++ str " cid finished its calculation" ++ [10]) Exit.

(** Waiting for 30 children; [m] are left. *)
Fixpoint fib_wait (m : nat) (k : prog) : prog :=
  match m with
  | O => k
  | S m =>
      let! temp := wait in
      if temp =? -1 then say 1 (str "wait error") Exit else fib_wait m k
  end.

(** The loop that forks, from child [n] on. *)
Fixpoint fib_fork (child : nat -> prog) (todo n : nat) (k : prog) : prog :=
  match todo with
  | O => k
  | S todo =>
      Fork (fun pid =>
        if pid =? 0 then child n
        else if 0 <? pid then fib_fork child todo (S n) k
        else say 1 (str "fork error") Exit)
  end.

Definition fibonacci (fuel : nat) (numOfPs readbuf : Z) (junk1 junk2 : list Z) (k : prog) : prog :=
  say 1 (str "fibonacci test" ++ [10])
    (fib_fork (fun n => if Nat.even n then even_child fuel numOfPs readbuf junk1 junk2 else odd_child numOfPs) 30 0
      (fib_wait 30 k)).

Definition fib_main (fuel : nat) (readbuf : Z) (junk1 junk2 : list Z) (argv : list (list Z)) : prog :=
  match argv with
  | [_; a] =>
      let numPs := atoi_str a in
      if 0 <? numPs then fibonacci fuel numPs readbuf junk1 junk2 Exit
      else say 1 (str "insert valid argument" ++ [10]) Exit
  | _ => say 1 (str "insert argument" ++ [10]) Exit
  end.

(** ** sanity.c *)

Record pinfo := mk_pinfo { cid : Z; wait_time : Z; run_time : Z; ta_time : Z }.

(** [N] children, as a list of their reports in the order in which they end. *)
Fixpoint sanity_wait (m : nat) (forkarr : list pinfo) (k : list pinfo -> prog) : prog :=
  match m with
  | O => k forkarr
  | S m =>
      let! (temp, wtime, rtime) := wait2 in
      if temp =? -1 then say 1 (str "wait2 error") Exit
      else sanity_wait m (forkarr ++ [mk_pinfo temp wtime rtime (s32 (wtime + rtime))]) k
  end.

(** [for(i = 0; i < 500; i++) printf(1,"%d\n",n)]. *)
Definition sanity_prints (n : nat) : prog := Nat.iter 500 (say 1 (dec (Z.of_nat n) ++ [10])) Exit.

Definition sanity_child (n : nat) : prog :=
  if Nat.even n then let! _ := nice in sanity_prints n else sanity_prints n.

Definition sanity (k : list pinfo -> prog) : prog :=
  say 1 (str "sanity test" ++ [10]) (fib_fork sanity_child 30 0 (sanity_wait 30 [] k)).

(** [(int)(sum / 30)] in doubles: the sum of 30 [int]s is exact, and a quotient
    that is not a whole number is at least 1/30 away from one. *)
Definition average (f : pinfo -> Z) (l : list pinfo) : Z := Z.quot (foldr Z.add 0 (f <$> l)) 30.

Definition sanity_line (x : pinfo) : list Z :=
  [10] ++ str "pid: " ++ dec x.(cid) ++ str "    wtime: " ++ dec x.(wait_time) ++ str "    rtime: " ++ dec x.(run_time) ++
  str "    tatime: " ++ dec x.(ta_time).

Definition sanity_main : prog :=
  sanity (fun forkarr =>
    say 1 (forkarr ≫= sanity_line)
      (say 1 ([10; 10] ++ str "AVE wtime: " ++ dec (average wait_time forkarr) ++ str "    AVE rtime: " ++
              dec (average run_time forkarr) ++ str "    AVE tatime: " ++ dec (average ta_time forkarr)) Exit)).
(** ** The numbers *)

(** 2, 3, 5, 8, ... *)
Fixpoint fnum (k : nat) : Z :=
  match k with
  | O => 2
  | S k' => match k' with O => 3 | S m => fnum m + fnum k' end
  end.

Definition numeral (n : Z) : list Z := rev (dec_rev 12 n).

(** The first [k] of them, each followed by a comma. *)
Definition ftext (k : nat) : list Z := seq 0 k ≫= fun i => numeral (fnum i) ++ [44].

Lemma fnum_step m : fnum (S (S m)) = fnum m + fnum (S m).
Proof. reflexivity. Qed.

Lemma fnum_pair k : Nat.iter k (fun x => (x.2, x.1 + x.2)) (2, 3) = (fnum k, fnum (S k)).
Proof. induction k as [|k IH]; [done|]. unfold Nat.iter in *. cbn [nat_rect]. by rewrite IH. Qed.

Lemma fnum_pos k : 0 < fnum k /\ fnum k <= fnum (S k).
Proof. induction k as [|k IH]; [cbn; lia|]. rewrite fnum_step. lia. Qed.

Lemma fnum_mono j k : (j <= k)%nat -> fnum j <= fnum k.
Proof. induction 1 as [|k _ IH]; [lia|]. pose proof (fnum_pos k). lia. Qed.

Lemma fnum_eq k v : fst (Nat.iter k (fun x => (x.2, x.1 + x.2)) (2, 3)) = v -> fnum k = v.
Proof. by rewrite fnum_pair. Qed.

Lemma fnum_bound k : (k <= 41)%nat -> 0 < fnum k < 10 ^ 9.
Proof.
  intros Hk. pose proof (fnum_mono k 41 Hk) as H. pose proof (fnum_pos k).
  rewrite (fnum_eq 41 701408733) in H by (vm_compute; reflexivity). lia.
Qed.

Lemma ftext_snoc k : ftext (S k) = ftext k ++ numeral (fnum k) ++ [44].
Proof. unfold ftext. rewrite seq_S, bind_app. cbn [mbind list_bind]. by rewrite app_nil_r. Qed.

(** *** Numerals *)

Lemma dec_rev_len k : (0 < k)%nat -> forall fuel n, 0 <= n < 10 ^ Z.of_nat k -> (length (dec_rev fuel n) <= k)%nat.
Proof.
  induction k as [|k IH]; intros Hk fuel n Hn; [lia|]. destruct fuel as [|f]; cbn [dec_rev length]; [lia|].
  destruct (Z.gtb_spec (n / 10) 0) as [H0|H0]; cbn [length]; [|lia]. rewrite Nat2Z.inj_succ, Z.pow_succ_r in Hn by lia.
  assert (0 <= n / 10 < 10 ^ Z.of_nat k) by (split; [lia|]; apply Z.div_lt_upper_bound; lia).
  destruct k as [|k]; [cbn in *; lia|]. specialize (IH ltac:(lia) f (n / 10)). lia.
Qed.

Lemma numeral_chars n : Forall (fun c => 48 <= c <= 57) (numeral n).
Proof. apply Forall_rev, dec_rev_bound. Qed.

Lemma read_str_cstr fuel m s l : cstr m s l -> (length l < fuel)%nat -> read_str fuel m s = l.
Proof.
  revert s l. induction fuel as [|f IH]; intros s [|c l] Hs Hl; cbn in *; try lia.
  - by rewrite Hs.
  - destruct Hs as (-> & Hc & Hs). rewrite (proj2 (Z.eqb_neq c 0)) by done. f_equal. apply IH; [done|lia].
Qed.

Lemma itoa_str_numeral n : 0 <= n < 2 ^ 31 -> itoa_str n = numeral n.
Proof.
  intros Hn. unfold itoa_str. destruct (itoa_nonneg 12 n 0 ∅ ltac:(lia) Hn) as (m & -> & Hs). apply read_str_cstr; [done|].
  unfold numeral. rewrite length_rev. pose proof (dec_rev_len 10 ltac:(lia) 12 n). lia.
Qed.

Lemma atoi_str_numeral n : 0 <= n < 2 ^ 31 -> atoi_str (numeral n) = n.
Proof.
  intros Hn. unfold atoi_str, atoi. erewrite atoi_loop_digits with (l := numeral n) (v := n); [done|..]; try lia.
  - apply cstr_put_bytes. eapply Forall_impl; [apply numeral_chars|]. cbn. lia.
  - apply numeral_chars.
  - apply dec_value_rev. lia.
Qed.

(** ** The file *)

Section file.
Context (answer : forall R : Set, call R -> world -> R) (ino_of : list Z -> Z).
Notation run := (UProg.run answer ino_of).
Notation handle := (UProg.handle answer ino_of).

(** A read of a file without a bound on what it delivers. *)
Lemma read_full w fd path off n :
  w.(fds) !! fd = Some (FdFile path off) -> w.(pace) = [] ->
  let l := take (Z.to_nat n) (drop off (data_of path w)) in
  handle (read fd n) w = (Some l, set_fds (<[fd := FdFile path (off + length l)]> w.(fds)) w).
Proof. intros Hf Hp. cbn. rewrite Hf. unfold share. rewrite Hp. cbn. destruct w; cbn in *. by subst. Qed.

Lemma read_num_run fd path k : forall d fuel w off rb num count rest,
  w.(fds) !! fd = Some (FdFile path off) -> w.(pace) = [] -> drop off (data_of path w) = d ++ 44 :: rest ->
  Forall (fun c => 48 <= c <= 57) d -> (length num + length d <= 10)%nat -> (length d < fuel)%nat ->
  0 <= count -> count + Z.of_nat (length d) + 1 < 2 ^ 31 ->
  run (read_num fuel fd rb num count k) w =
  run (k 44 (num ++ d) (count + Z.of_nat (length d) + 1)) (set_fds (<[fd := FdFile path (off + length d + 1)]> w.(fds)) w).
Proof.
  induction d as [|c d IH]; intros [|fuel] w off rb num count rest Hf Hp Hd Hc Hn Hfu H0 Hb; cbn [length] in *; try lia; cbn [read_num UProg.run].
  all: rewrite (read_full w fd path off 1 Hf Hp), Hd; change (Z.to_nat 1) with 1%nat; cbn [app take length].
  - change (44 =? 44) with true. cbv iota. rewrite s32_small by lia. rewrite app_nil_r. do 2 f_equal; [f_equal; lia|]. do 3 f_equal. lia.
  - apply Forall_cons in Hc as [Hc1 Hc]. rewrite (proj2 (Z.eqb_neq c 44)) by lia. cbn [negb].
    unfold charCat. rewrite (proj2 (Nat.leb_le _ _)) by lia. rewrite s32_small by lia. set (w1 := set_fds _ w).
    rewrite (IH fuel w1 (off + 1)%nat c (num ++ [c]) (count + 1) rest); [|by cbn; rewrite lookup_insert_eq|done| |done|rewrite length_app; cbn; lia|lia|lia|lia].
    + rewrite <- app_assoc. cbn [app]. f_equal; [f_equal; lia|]. unfold w1. cbn. rewrite insert_insert_eq.
      unfold set_fds. cbn. do 3 f_equal. lia.
    + change (data_of path w1) with (data_of path w). rewrite <- drop_drop, Hd. done.
Qed.

(** The state between rounds: the file holds [r + 2] numbers. *)
Record between (w : world) (name : list Z) (r : nat) (ino : Z) : Prop := {
  bt_fds : exists off, w.(fds) = <[3 := FdFile name off]> stdio;
  bt_file : w.(files) !! name = Some (mk_file T_FILE ino (ftext (r + 2)));
  bt_pace : w.(pace) = []
}.

Lemma ftext_length k : (k <= 42)%nat -> (length (ftext k) <= 10 * k)%nat.
Proof.
  induction k as [|k IH]; intros Hk; [cbn; lia|]. rewrite ftext_snoc, !length_app. cbn [length].
  assert (length (numeral (fnum k)) <= 9)%nat; [|specialize (IH ltac:(lia)); lia].
  unfold numeral. rewrite length_rev. apply dec_rev_len; [lia|]. pose proof (fnum_bound k ltac:(lia)). change (Z.of_nat 9) with 9. lia.
Qed.

(** Reopening the file and going to the operands of round [r]. *)
Lemma fileOffset_run w name r ino k :
  between w name r ino ->
  run (fileOffset 3 name (Z.of_nat (length (ftext r))) k) w = run (k 3) (set_fds (<[3 := FdFile name (length (ftext r))]> stdio) w).
Proof.
  intros [[off Hf] Hn Hp]. unfold fileOffset. cbn [UProg.run UProg.handle]. rewrite Hf, lookup_insert_eq. cbn [files set_fds fds].
  change (Z.testbit 2 9) with false. rewrite andb_false_r. cbn [files set_fds fds]. rewrite Hn, delete_insert_id by reflexivity.
  replace (lowest stdio) with (Some 3) by (vm_compute; reflexivity). set (w1 := set_fds _ _).
  assert (w1.(fds) !! 3 = Some (FdFile name 0)) as H3 by (cbn; apply lookup_insert_eq).
  pose proof (read_full w1 3 name 0 (Z.of_nat (length (ftext r))) H3 Hp) as E. cbn zeta in E. cbn [UProg.handle] in E. rewrite E.
  rewrite Nat2Z.id, drop_0. unfold data_of. change w1.(files) with w.(files). rewrite Hn. cbn [f_data].
  replace (r + 2)%nat with (S (S r)) by lia. rewrite !ftext_snoc, <- app_assoc, take_app_length. cbn [fds w1 set_fds].
  rewrite insert_insert_eq. by destruct w.
Qed.

Lemma rounds_run fuel cpid name ino k : forall m r w rb,
  (11 <= fuel)%nat -> (r + m + 1 <= 41)%nat -> between w name r ino ->
  let ro := Z.of_nat (length (ftext r)) in
  exists w', run (fib_rounds fuel m cpid name 3 ro ro rb [] [] k) w = run (k 3) w' /\ between w' name (r + m) ino /\
    delete name w'.(files) = delete name w.(files).
Proof.
  induction m as [|m IH]; intros r w rb Hfu Hr Hb ro; cbn [fib_rounds].
  - exists w. rewrite Nat.add_0_r. done.
  - unfold ro. rewrite (fileOffset_run _ _ _ _ _ Hb). destruct Hb as [_ Hn Hp]. set (w1 := set_fds _ w).
    pose proof (ftext_length (r + 2) ltac:(lia)) as Hlen. replace (r + 2)%nat with (S (S r)) in * by lia.
    pose proof (fnum_bound r ltac:(lia)) as B1. pose proof (fnum_bound (S r) ltac:(lia)) as B2. pose proof (fnum_bound (S (S r)) ltac:(lia)) as B3.
    assert (forall j, (j <= 41)%nat -> length (numeral (fnum j)) <= 9)%nat as Hnum.
    { intros j Hj. unfold numeral. rewrite length_rev. apply dec_rev_len; [lia|]. pose proof (fnum_bound j Hj). change (Z.of_nat 9) with 9. lia. }
    pose proof (Hnum r ltac:(lia)) as N1. pose proof (Hnum (S r) ltac:(lia)) as N2. pose proof (Hnum (S (S r)) ltac:(lia)) as N3.
    assert (data_of name w1 = ftext r ++ numeral (fnum r) ++ 44 :: numeral (fnum (S r)) ++ [44]) as Ed.
    { unfold data_of. change w1.(files) with w.(files). rewrite Hn. cbn [f_data]. rewrite !ftext_snoc, <- !app_assoc. done. }
    assert (length (ftext (S (S r))) = length (ftext r) + length (numeral (fnum r)) + 1 + length (numeral (fnum (S r))) + 1)%nat as El.
    { rewrite !ftext_snoc, !length_app. cbn [length]. lia. }
    rewrite (read_num_run 3 name _ (numeral (fnum r)) fuel w1 (length (ftext r)) rb [] _ (numeral (fnum (S r)) ++ [44]));
      [|cbn; apply lookup_insert_eq|done|by rewrite Ed, drop_app_length|apply numeral_chars|cbn [length]; lia|lia|lia|lia].
    set (w2 := set_fds _ w1). set (off2 := (length (ftext r) + length (numeral (fnum r)) + 1)%nat) in *.
    rewrite (read_num_run 3 name _ (numeral (fnum (S r))) fuel w2 off2 44 [] _ []);
      [|cbn; apply lookup_insert_eq|done| |apply numeral_chars|cbn [length]; lia|lia|lia|lia].
    2: { change (data_of name w2) with (data_of name w1). rewrite Ed. unfold off2. rewrite <- !drop_drop, drop_app_length, drop_app_length. done. }
    set (w3 := set_fds _ w2). cbn [app]. rewrite !atoi_str_numeral by lia. rewrite (s32_small (fnum r + fnum (S r))) by (rewrite <- fnum_step; lia).
    rewrite <- fnum_step. rewrite run_say by reflexivity. set (w4 := set_log _ w3). rewrite itoa_str_numeral by lia.
    unfold charCat. rewrite (proj2 (Nat.leb_le _ _)) by lia. cbn [UProg.run UProg.handle].
    assert (w4.(fds) = <[3 := FdFile name (length (ftext (S (S r))))]> stdio) as E4.
    { unfold w4, w3, w2, w1. cbn [fds set_fds set_log]. rewrite !insert_insert_eq, El. done. }
    rewrite E4, lookup_insert_eq, insert_insert_eq. set (w5 := set_files _ _).
    assert (w5.(files) !! name = Some (mk_file T_FILE ino (ftext (S r + 2)))) as Hn5.
    { unfold w5. cbn [files set_files]. rewrite lookup_alter_eq. change w4.(files) with w.(files). rewrite Hn. cbn [fmap option_fmap option_map f_type f_ino f_data].
      unfold put_data. rewrite firstn_all, drop_ge by lia. rewrite app_nil_r. replace (S r + 2)%nat with (S (S (S r))) by lia. by rewrite (ftext_snoc (S (S r))). }
    destruct (IH (S r) w5 44 Hfu ltac:(lia)) as (w' & E & Hb' & Hd).
    { split; [by eexists|exact Hn5|exact Hp]. }
    exists w'. split_and!; [|by replace (r + S m)%nat with (S r + m)%nat by lia|].
    + rewrite <- E. rewrite (ftext_snoc r), !length_app. cbn [length].
      replace (Z.of_nat (length (ftext r)) + Z.of_nat (length (numeral (fnum r))) + 1)
        with (Z.of_nat (length (ftext r) + (length (numeral (fnum r)) + 1))) by lia. done.
    + rewrite Hd. unfold w5. cbn [files set_files]. by rewrite delete_alter_eq.
Qed.

(** ** Properties *)

(** A child of fibonacci.c with an even number, asked for [n] numbers, leaves
    a file named after its pid with the [n + 1] Fibonacci numbers from 2 on,
    separated by commas, although it reads its operands back from the file in
    every round; it ends within 11 reads for each number, and its descriptors
    are closed.  This holds as long as the numbers have at most nine digits
    ([n <= 41]), and if the arrays of the stack happen to hold empty strings. *)
Theorem fib_file (fuel : nat) (w : world) (n rb : Z) :
  let cpid := answer Z getpid w in
  let name := str "FibTest" ++ numeral cpid in
  (11 <= fuel)%nat -> 1 <= n <= 41 -> 0 <= cpid < 2 ^ 31 -> w.(fds) = stdio -> w.(pace) = [] -> w.(files) !! name = None ->
  exists w', run (even_child fuel n rb [] []) w = (Exited, w') /\ w'.(fds) = stdio /\
    w'.(files) = <[name := mk_file T_FILE (ino_of name) (ftext (Z.to_nat n + 1))]> w.(files).
Proof.
  intros cpid name Hfu Hn Hc Hs Hp Hx. unfold even_child. cbn [UProg.run UProg.handle]. fold cpid. rewrite itoa_str_numeral by done. fold name.
  change (Z.testbit (Z.lor 2 512) 9) with true. rewrite bool_decide_eq_true_2 by done. cbn [andb]. cbn [files set_files fds]. rewrite lookup_insert_eq, Hs.
  replace (lowest stdio) with (Some 3) by (vm_compute; reflexivity). change (3 <? 0) with false. rewrite (proj2 (Z.eqb_neq n 0)) by lia. cbv iota.
  cbn [UProg.run UProg.handle]. set (w1 := set_fds _ _). change (w1.(fds)) with (<[3 := FdFile name 0]> stdio).
  rewrite lookup_insert_eq, insert_insert_eq. set (w2 := set_files _ _). rewrite run_say by reflexivity. set (w3 := set_log _ w2).
  assert (w3.(files) = <[name := mk_file T_FILE (ino_of name) (ftext 2)]> w.(files)) as E3.
  { unfold w3, w2, w1. cbn [files set_files set_log set_fds]. by rewrite alter_insert_eq. }
  destruct (rounds_run fuel cpid name (ino_of name)
    (fun fd => say 1 (dec cpid ++ str " cid finished its calculation" ++ [10]) (let! _ := close fd in Exit)) (Z.to_nat (n - 1)) 0 w3 rb Hfu)
    as (w4 & E & [[off Hf4] Hn4 _] & Hd4).
  { lia. }
  { split; [by eexists|rewrite E3; apply lookup_insert_eq|exact Hp]. }
  change (Z.of_nat (length (ftext 0))) with 0 in E. rewrite E. rewrite run_say by (rewrite Hf4; reflexivity). cbn [UProg.run UProg.handle fds set_log].
  rewrite Hf4, lookup_insert_eq, delete_insert_id by reflexivity. eexists. split; [done|]. split; [done|]. cbn [files set_fds set_log].
  rewrite <- (insert_id w4.(files) name _ Hn4), <- insert_delete_eq, Hd4, E3, delete_insert_eq, insert_delete_eq.
  by replace (Z.to_nat n + 1)%nat with (0 + Z.to_nat (n - 1) + 2)%nat by lia.
Qed.
End file.

Lemma fib_file_witness :
  let w := mk_world ∅ stdio [] [] [] 7 5 [] in
  exists w', UProg.run (fun R c w => match c in call R return R with getpid => 7 | c => refuse _ c w end) (fun _ => 20) (even_child 11 5 0 [] []) w = (Exited, w') /\
    (f_data <$> w'.(files) !! str "FibTest7") = Some (str "2,3,5,8,13,21,").
Proof.
  intros w.
  destruct (fib_file (fun R c w => match c in call R return R with getpid => 7 | c => refuse _ c w end) (fun _ => 20) 11 w 5 0) as (w' & E & _ & Ef);
    [lia|lia|lia|reflexivity|reflexivity|reflexivity|].
  exists w'. split; [exact E|]. rewrite Ef. vm_compute. reflexivity.
Defined.

(** The 43rd number has ten digits, which leave no room for the comma. *)
Example fib_overrun :
  fst (UProg.run (fun R c w => match c in call R return R with getpid => 7 | c => refuse _ c w end) (fun _ => 20) (even_child 11 42 0 [] [])
    (mk_world ∅ stdio [] [] [] 7 5 [])) = Overran.
Proof. vm_compute. reflexivity. Qed.

(** The children with odd numbers count up to their argument. *)
Theorem odd_loop_counts (n : Z) : 1 <= n < 2 ^ 31 -> odd_loop n = n - 1.
Proof.
  intros Hn. unfold odd_loop. assert (forall k, Z.of_nat k < 2 ^ 31 - 1 -> Nat.iter k (fun num1 => s32 (1 + num1)) 0 = Z.of_nat k) as H.
  { induction k as [|k IH]; intros Hk; [done|]. unfold Nat.iter in *. cbn [nat_rect]. rewrite IH, s32_small; lia. }
  rewrite H; lia.
Qed.
End Fib.
