(* ===== verification/FsBlock.v ===== *)
(** Disk blocks: readsb, bzero, balloc and bfree of fs.c.

    Proved against the interface [BlockLaws] of the buffer cache: whatever the
    cache does, the bitmap on disk changes in exactly one bit. *)

From S2P Require Import Prelude State Ide Bio Bytes.

(** [bp->data]. *)
Definition buf_data (b : nat) : K (list Z) := let* bp := get_buf b in kret bp.(b_data).

Definition readsb (dev : Z) : K superblock :=
  let* bp := bread dev 1 in
  let* d := buf_data bp in
  brelse bp ;;;
  kret (get_sb d).

Definition bzero (dev bno : Z) : K unit :=
  let* bp := bread dev bno in
  mod_buf bp (set_b_data (replicate (Z.to_nat BSIZE) 0)) ;;;
  bwrite bp ;;;
  brelse bp.

(** Bit [bi] of a bitmap block: mask [1 << (bi % 8)] of byte [bi / 8]. *)
Definition bit_byte (d : list Z) (bi : Z) : Z := default 0 (d !! Z.to_nat (bi / 8)).
Definition bit_used (d : list Z) (bi : Z) : bool :=
  negb (Z.land (bit_byte d bi) (Z.shiftl 1 (bi mod 8)) =? 0).
Definition bit_set (bi : Z) (d : list Z) : list Z :=
  <[Z.to_nat (bi / 8) := Z.lor (bit_byte d bi) (Z.shiftl 1 (bi mod 8))]> d.
Definition bit_clear (bi : Z) (d : list Z) : list Z :=
  <[Z.to_nat (bi / 8) := Z.land (bit_byte d bi) (Z.lnot (Z.shiftl 1 (bi mod 8)))]> d.

(** The inner loop of [balloc]: the first clear bit from [bi] on. *)
Fixpoint balloc_scan (fuel : nat) (d : list Z) (bi : Z) : option Z :=
  match fuel with
  | O => None
  | S f => if bit_used d bi then balloc_scan f d (bi + 1) else Some bi
  end.

(** The outer loop, from block [b] on. *)
Fixpoint balloc_loop (fuel : nat) (dev : Z) (sb : superblock) (b : Z) : K Z :=
  if b <? sb.(sb_size) then
    match fuel with
    | O => kfault "fuel"
    | S f =>
        let* bp := bread dev (BBLOCK b sb.(sb_ninodes)) in
        let* d := buf_data bp in
        match balloc_scan (Z.to_nat BPB) d 0 with
        | Some bi =>
            mod_buf bp (set_b_data (bit_set bi d)) ;;;
            bwrite bp ;;;
            brelse bp ;;;
            kret (b + bi)
        | None =>
            brelse bp ;;;
            balloc_loop f dev sb (b + BPB)
        end
    end
  else panic "balloc: out of blocks".

(** One round for each bitmap block. *)
Definition balloc (dev : Z) : K Z :=
  let* sb := readsb dev in
  balloc_loop (S (Z.to_nat (sb.(sb_size) / BPB))) dev sb 0.

Definition bfree (dev b : Z) : K unit :=
  bzero dev b ;;;
  let* sb := readsb dev in
  let* bp := bread dev (BBLOCK b sb.(sb_ninodes)) in
  let* d := buf_data bp in
  let bi := b mod BPB in
  if negb (bit_used d bi) then panic "freeing free block" else
  mod_buf bp (set_b_data (bit_clear bi d)) ;;;
  bwrite bp ;;;
  brelse bp.

(** ** The bitmap as the file system sees it *)

Definition sb_of (s : kstate) (dev : Z) : superblock := get_sb (block s dev 1).

(** Whether block [b] is marked in use. *)
Definition in_bitmap (s : kstate) (dev b : Z) : bool :=
  bit_used (block s dev (BBLOCK b (sb_of s dev).(sb_ninodes))) (b mod BPB).

(** ** Lemmas on bits *)

Lemma bit_used_testbit d bi : 0 <= bi -> bit_used d bi = Z.testbit (bit_byte d bi) (bi mod 8).
Proof.
  intros Hb. unfold bit_used. pose proof (Z.mod_pos_bound bi 8 ltac:(lia)).
  rewrite Z.shiftl_1_l. destruct (Z.testbit (bit_byte d bi) (bi mod 8)) eqn:E.
  - apply negb_true_iff, Z.eqb_neq. intros H0. apply (f_equal (fun z => Z.testbit z (bi mod 8))) in H0.
    rewrite Z.land_spec, Z.pow2_bits_true, E, Z.bits_0 in H0 by lia. done.
  - apply negb_false_iff, Z.eqb_eq. apply Z.bits_inj_0. intros i. rewrite Z.land_spec.
    destruct (decide (i = bi mod 8)) as [->|Hn]; [by rewrite E|].
    rewrite Z.pow2_bits_false by lia. apply andb_false_r.
Qed.

Lemma bit_byte_set bi d c v :
  0 <= bi -> 0 <= c -> bi / 8 < Z.of_nat (length d) ->
  bit_byte (<[Z.to_nat (bi / 8) := v]> d) c = if decide (c / 8 = bi / 8) then v else bit_byte d c.
Proof.
  intros Hb Hc Hl. pose proof (Z.div_pos bi 8 Hb ltac:(lia)). pose proof (Z.div_pos c 8 Hc ltac:(lia)).
  unfold bit_byte. case_decide as E.
  - rewrite E, list_lookup_insert_eq by lia. done.
  - rewrite list_lookup_insert_ne by lia. done.
Qed.

Lemma bit_used_set bi d c :
  0 <= bi -> 0 <= c -> bi / 8 < Z.of_nat (length d) ->
  bit_used (bit_set bi d) c = bit_used d c || bool_decide (c = bi).
Proof.
  intros Hb Hc Hl. rewrite !bit_used_testbit by lia. unfold bit_set. rewrite bit_byte_set by lia.
  pose proof (Z.div_mod bi 8 ltac:(lia)). pose proof (Z.div_mod c 8 ltac:(lia)).
  pose proof (Z.mod_pos_bound bi 8 ltac:(lia)). pose proof (Z.mod_pos_bound c 8 ltac:(lia)).
  case_decide as E.
  - rewrite Z.lor_spec, Z.shiftl_1_l. f_equal; [unfold bit_byte; by rewrite E|].
    case_bool_decide as E'; [subst; by rewrite Z.pow2_bits_true by lia|].
    rewrite Z.pow2_bits_false; [done|]. lia.
  - rewrite bool_decide_eq_false_2 by congruence. by rewrite orb_false_r.
Qed.

Lemma bit_used_clear bi d c :
  0 <= bi -> 0 <= c -> bi / 8 < Z.of_nat (length d) ->
  bit_used (bit_clear bi d) c = bit_used d c && negb (bool_decide (c = bi)).
Proof.
  intros Hb Hc Hl. rewrite !bit_used_testbit by lia. unfold bit_clear. rewrite bit_byte_set by lia.
  pose proof (Z.div_mod bi 8 ltac:(lia)). pose proof (Z.div_mod c 8 ltac:(lia)).
  pose proof (Z.mod_pos_bound bi 8 ltac:(lia)). pose proof (Z.mod_pos_bound c 8 ltac:(lia)).
  case_decide as E.
  - rewrite Z.land_spec, Z.lnot_spec, Z.shiftl_1_l by lia. f_equal; [unfold bit_byte; by rewrite E|].
    f_equal. case_bool_decide as E'; [subst; by rewrite Z.pow2_bits_true by lia|].
    rewrite Z.pow2_bits_false; [done|]. lia.
  - rewrite bool_decide_eq_false_2 by congruence. by rewrite andb_true_r.
Qed.

Lemma bit_set_length bi d : length (bit_set bi d) = length d.
Proof. apply length_insert. Qed.
Lemma bit_clear_length bi d : length (bit_clear bi d) = length d.
Proof. apply length_insert. Qed.

Lemma balloc_scan_Some fuel d bi r :
  balloc_scan fuel d bi = Some r ->
  bi <= r < bi + Z.of_nat fuel /\ bit_used d r = false /\ forall c, bi <= c < r -> bit_used d c = true.
Proof.
  revert bi. induction fuel as [|f IH]; intros bi; simpl; [done|].
  destruct (bit_used d bi) eqn:E.
  - intros (H1 & H2 & H3)%IH. split_and!; [lia|lia|done|]. intros c Hc.
    destruct (decide (c = bi)) as [->|]; [done|]. apply H3. lia.
  - intros [= ->]. split_and!; [lia|lia|done|lia].
Qed.

Lemma balloc_scan_None fuel d bi :
  balloc_scan fuel d bi = None -> forall c, bi <= c < bi + Z.of_nat fuel -> bit_used d c = true.
Proof.
  revert bi. induction fuel as [|f IH]; intros bi; simpl; [lia|].
  destruct (bit_used d bi) eqn:E; [|done]. intros H c Hc.
  destruct (decide (c = bi)) as [->|]; [done|]. apply (IH (bi + 1)); [done|lia].
Qed.

(** ** Reading and replacing a block through the cache *)

Lemma seq3 {A B C D} (a : K A) (b : K B) (c : K C) (k : K D) s x s' :
  (a ;;; b ;;; c) s = Ok x s' -> (a ;;; b ;;; c ;;; k) s = k s'.
Proof. unfold kbind. destruct (a s); [|done..]. destruct (b _); [|done..]. by intros ->. Qed.

Section block_rules.
Context {inv : list nat -> kstate -> Prop} {laws : BlockLaws inv}.
Implicit Types (B : list nat) (s : kstate).

(** [s'] is [s] after block operations that leave the disk as [d], with the
    same buffers in use. *)
Definition after_io B (d : gmap (Z * Z) (list Z)) s s' : Prop :=
  inv B s' /\ s'.(disk) = d /\ io_frame s s' /\ others_kept B s s'.

(** A block that can be asked for. *)
Definition can_read B s (dev n : Z) : Prop :=
  on_disk dev n /\ not_in_use B s dev n /\ (length B < NBUF)%nat.

Lemma after_io_trans B d1 d2 s1 s2 s3 :
  after_io B d1 s1 s2 -> after_io B d2 s2 s3 -> after_io B d2 s1 s3.
Proof.
  intros (_ & _ & Hf1 & Ho1) (Hi2 & Hd2 & Hf2 & Ho2). split_and!; [done|done|by etrans|].
  intros c dv m e Hc Hu. eauto.
Qed.

Lemma not_in_use_kept B s s' dev n : others_kept B s s' -> not_in_use B s dev n -> not_in_use B s' dev n.
Proof.
  intros Ho Hn b Hb. destruct (Hn b Hb) as (d & m & e & Hu & Hne). exists d, m, e. eauto.
Qed.

Lemma can_read_kept B d s s' dev n : after_io B d s s' -> can_read B s dev n -> can_read B s' dev n.
Proof. intros (_ & _ & _ & Ho) (H1 & H2 & H3). split_and!; eauto using not_in_use_kept. Qed.

Lemma after_io_free B d s s' : after_io B d s s' -> free_locks s -> free_locks s'.
Proof. intros (_ & _ & Hf & _). eauto using io_frame_free. Qed.

Lemma buf_data_run s b dev n d : in_use s b dev n d -> buf_data b s = Ok d s.
Proof. intros (bp & Hb & _ & _ & <- & _). unfold buf_data. kexec by (by apply get_buf_Ok). done. Qed.

Lemma bread_run B s dev n :
  inv B s -> free_locks s -> can_read B s dev n ->
  exists b s', bread dev n s = Ok b s' /\ b ∉ B /\ in_use s' b dev n (block s dev n) /\
    inv (b :: B) s' /\ s'.(disk) = s.(disk) /\ io_frame s s' /\ others_kept B s s'.
Proof.
  intros Hi Hf (Hod & Hn & Hl).
  destruct (bread_law B s dev n) as (b & s' & E & H1 & H2 & H3 & H4 & H5 & H6); try done.
  exists b, s'. by split_and!.
Qed.

(** Give a block back unchanged. *)
Lemma brelse_quiet B s b dev n :
  inv (b :: B) s -> free_locks s -> b ∉ B -> in_use s b dev n (block s dev n) ->
  exists s', brelse b s = Ok tt s' /\ after_io B s.(disk) s s'.
Proof.
  intros Hi Hf Hb Hu. destruct (brelse_law B s b dev n) as (s' & E & H1 & H2 & H3 & H4); try done.
  exists s'. by split_and!.
Qed.

(** Replace a block and give it back. *)
Lemma put_back B s b dev n d d' :
  inv (b :: B) s -> free_locks s -> b ∉ B -> in_use s b dev n d -> length d' = Z.to_nat BSIZE ->
  exists s', (mod_buf b (set_b_data d') ;;; bwrite b ;;; brelse b) s = Ok tt s' /\
    after_io B (<[(dev, n) := d']> s.(disk)) s s'.
Proof.
  intros Hi Hf Hb Hu Hl.
  destruct (store_law (b :: B) s b dev n d d' Hi ltac:(left) Hu) as (s1 & E1 & I1 & U1 & D1 & F1 & O1).
  assert (free_locks s1) as Hf1 by eauto using io_frame_free.
  destruct (bwrite_law (b :: B) s1 b dev n d' I1 Hf1 ltac:(left) U1 Hl) as (s2 & E2 & I2 & U2 & D2 & F2 & O2).
  assert (free_locks s2) as Hf2 by eauto using io_frame_free.
  destruct (brelse_quiet B s2 b dev n I2 Hf2 Hb) as (s3 & E3 & I3 & D3 & F3 & O3).
  { unfold block, sector_at. by rewrite D2, lookup_insert_eq. }
  exists s3. split; [kexec by (exact E1); kexec by (exact E2); exact E3|].
  split_and!; [done|congruence|by do 2 (etrans; [eassumption|])|].
  intros c dv m e Hc Huc. apply O3; [done|]. apply (O2 B); [done|done|]. by apply (O1 B).
Qed.

Lemma after_bread B s b s1 d s2 :
  s1.(disk) = s.(disk) -> io_frame s s1 -> others_kept B s s1 -> after_io B d s1 s2 ->
  b ∉ B -> after_io B d s s2.
Proof.
  intros Hd Hf Ho (Hi & Hd' & Hf' & Ho') _. split_and!; [done|done|by etrans|].
  intros c dv m e Hc Hu. eauto.
Qed.

Lemma readsb_run B s dev :
  inv B s -> free_locks s -> can_read B s dev 1 ->
  exists s', readsb dev s = Ok (sb_of s dev) s' /\ after_io B s.(disk) s s'.
Proof.
  intros Hi Hf Hc. destruct (bread_run B s dev 1 Hi Hf Hc) as (b & s1 & E & Hb & Hu & Hi1 & Hd & Hfr & Ho).
  unfold readsb. kexec by (exact E). kexec by (exact (buf_data_run _ _ _ _ _ Hu)).
  destruct (brelse_quiet B s1 b dev 1 Hi1) as (s2 & E2 & H2);
    [eauto using io_frame_free|done|unfold block in *; by rewrite Hd|].
  kexec by (exact E2). exists s2. split; [done|]. rewrite Hd in H2. by eapply after_bread.
Qed.

Lemma bzero_run B s dev n :
  inv B s -> free_locks s -> can_read B s dev n ->
  exists s', bzero dev n s = Ok tt s' /\
    after_io B (<[(dev, n) := replicate (Z.to_nat BSIZE) 0]> s.(disk)) s s'.
Proof.
  intros Hi Hf Hc. destruct (bread_run B s dev n Hi Hf Hc) as (b & s1 & E & Hb & Hu & Hi1 & Hd & Hfr & Ho).
  unfold bzero. kexec by (exact E).
  destruct (put_back B s1 b dev n (block s dev n) (replicate (Z.to_nat BSIZE) 0) Hi1) as (s2 & E2 & H2);
    [eauto using io_frame_free|done|exact Hu|apply length_replicate|].
  exists s2. split; [exact E2|]. rewrite Hd in H2. by eapply after_bread.
Qed.

(** The file system on [dev] is readable: its bitmap lies on the disk, and
    nobody uses the super block or a bitmap block. *)
Definition bitmap_ready B s (dev : Z) : Prop :=
  can_read B s dev 1 /\ disk_wf s.(disk) /\ 0 <= (sb_of s dev).(sb_ninodes) /\
  forall b, 0 <= b < (sb_of s dev).(sb_size) -> can_read B s dev (BBLOCK b (sb_of s dev).(sb_ninodes)).

Lemma BBLOCK_mod b n : 0 <= b -> BBLOCK b n = BBLOCK (b / BPB * BPB) n.
Proof. intros. unfold BBLOCK. by rewrite Z.div_mul. Qed.

Lemma BBLOCK_ge b n : 0 <= b -> 0 <= n -> 3 <= BBLOCK b n.
Proof.
  intros. unfold BBLOCK. change BPB with 4096. change IPB with 8.
  pose proof (Z.div_pos b 4096). pose proof (Z.div_pos n 8). lia.
Qed.

(** The search from block [b] on finds the first free bit [r]. *)
Lemma balloc_loop_run fuel B s s0 dev b r :
  after_io B s0.(disk) s0 s -> free_locks s0 -> bitmap_ready B s0 dev ->
  0 <= b -> b mod BPB = 0 -> b <= r -> r / BPB * BPB < (sb_of s0 dev).(sb_size) ->
  (r - b) / BPB < Z.of_nat fuel ->
  in_bitmap s0 dev r = false -> (forall c, b <= c < r -> in_bitmap s0 dev c = true) ->
  exists s', balloc_loop fuel dev (sb_of s0 dev) b s = Ok r s' /\
    after_io B (<[(dev, BBLOCK r (sb_of s0 dev).(sb_ninodes)) :=
      bit_set (r mod BPB) (block s0 dev (BBLOCK r (sb_of s0 dev).(sb_ninodes)))]> s0.(disk)) s0 s'.
Proof.
  intros Ha Hf Hr Hb0 Hbm Hbr Hlt Hfuel Hfree Hused. revert s b Ha Hb0 Hbm Hbr Hfuel Hused.
  induction fuel as [|f IH]; intros s b Ha Hb0 Hbm Hbr Hfuel Hused.
  { pose proof (Z.div_pos (r - b) BPB). change BPB with 4096 in *. lia. }
  set (sb := sb_of s0 dev) in *. set (bb := BBLOCK b sb.(sb_ninodes)).
  assert (b < sb.(sb_size)) as Hbs.
  { assert (b / BPB * BPB = b) by (pose proof (Z.div_mod b BPB ltac:(done)); change BPB with 4096 in *; lia).
    assert (b / BPB <= r / BPB) by (apply Z.div_le_mono; change BPB with 4096 in *; lia).
    change BPB with 4096 in *. lia. }
  destruct Hr as (Hr1 & Hw & Hni & Hrb).
  assert (can_read B s dev bb) as Hc by (eapply can_read_kept; [exact Ha|exact (Hrb b (conj Hb0 Hbs))]).
  pose proof (after_io_free _ _ _ _ Ha Hf) as Hfs. pose proof Ha as (Hi & Hd & _).
  destruct (bread_run B s dev bb Hi Hfs Hc) as (bp & s1 & E & Hbp & Hu & Hi1 & Hd1 & Hfr & Ho).
  assert (block s dev bb = block s0 dev bb) as Hblk by (unfold block; by rewrite Hd).
  assert (length (block s0 dev bb) = Z.to_nat BSIZE) as Hlen by (by apply block_length).
  rewrite Hblk in Hu.
  cbn [balloc_loop]. rewrite (proj2 (Z.ltb_lt _ _) Hbs). kexec by (exact E).
  kexec by (exact (buf_data_run _ _ _ _ _ Hu)).
  assert (forall c, b <= c < b + BPB -> in_bitmap s0 dev c = bit_used (block s0 dev bb) (c - b)) as Hbits.
  { intros c Hcb. unfold in_bitmap, bb. fold sb.
    assert (c / BPB = b / BPB /\ c mod BPB = c - b) as [Ec Em].
    { pose proof (Z.div_mod b BPB ltac:(done)). pose proof (Z.div_mod c BPB ltac:(done)). pose proof (Z.mod_pos_bound c BPB ltac:(done)).
      change BPB with 4096 in *. lia. }
    unfold BBLOCK. by rewrite Ec, Em. }
  destruct (balloc_scan (Z.to_nat BPB) (block s0 dev bb) 0) as [bi|] eqn:Escan.
  - apply balloc_scan_Some in Escan as (Hbi & Hclear & Hbelow).
    assert (r = b + bi) as ->.
    { destruct (Z.lt_trichotomy r (b + bi)) as [Hlt'|[?|Hgt]]; [|done|].
      - rewrite Hbits in Hfree by (change BPB with 4096 in *; lia). rewrite Hbelow in Hfree by lia. done.
      - specialize (Hused (b + bi) ltac:(lia)). rewrite Hbits in Hused by (change BPB with 4096 in *; lia).
        replace (b + bi - b) with bi in Hused by lia. congruence. }
    destruct (put_back B s1 bp dev bb (block s0 dev bb) (bit_set bi (block s0 dev bb)) Hi1) as (s2 & E2 & H2);
      [eauto using io_frame_free|done|exact Hu|by rewrite bit_set_length|].
    rewrite (seq3 _ _ _ _ _ _ _ E2). exists s2. split; [done|].
    assert ((b + bi) / BPB = b / BPB /\ (b + bi) mod BPB = bi) as [Ec Em].
    { pose proof (Z.div_mod b BPB ltac:(done)). pose proof (Z.div_mod (b + bi) BPB ltac:(done)). pose proof (Z.mod_pos_bound (b + bi) BPB ltac:(done)).
      change BPB with 4096 in *. lia. }
    rewrite Em. replace (BBLOCK (b + bi) sb.(sb_ninodes)) with bb by (unfold bb, BBLOCK; by rewrite Ec).
    eapply after_io_trans; [exact Ha|]. rewrite Hd1, Hd in H2. by eapply after_bread.
  - pose proof (balloc_scan_None _ _ _ Escan) as Hall.
    destruct (brelse_quiet B s1 bp dev bb Hi1) as (s2 & E2 & H2);
      [eauto using io_frame_free|done|unfold block in *; by rewrite Hd1, Hd|].
    kexec by (exact E2).
    assert (b + BPB <= r) as Hnext.
    { destruct (Z.lt_ge_cases r (b + BPB)); [|done]. rewrite Hbits in Hfree by lia.
      rewrite Hall in Hfree by (change BPB with 4096 in *; lia). done. }
    apply IH.
    + eapply after_io_trans; [exact Ha|]. rewrite Hd1, Hd in H2. by eapply after_bread.
    + change BPB with 4096 in *. lia.
    + rewrite Z.add_mod, Z.mod_same, Hbm by (change BPB with 4096; lia). done.
    + done.
    + replace (r - b) with (r - (b + BPB) + 1 * BPB) in Hfuel by lia.
      rewrite Z.div_add in Hfuel by (change BPB with 4096; lia). lia.
    + intros c Hcr. apply Hused. change BPB with 4096 in *. lia.
Qed.
End block_rules.
Arguments after_io inv B d s s' : clear implicits.

(** The bitmap after one of its blocks has been replaced. *)
Lemma sb_of_update s s' dev n d : n <> 1 -> s'.(disk) = <[(dev, n) := d]> s.(disk) -> sb_of s' dev = sb_of s dev.
Proof.
  intros Hn E. unfold sb_of, block, sector_at. rewrite E, lookup_insert_ne; [done|congruence].
Qed.

Lemma block_update s s' dev n d m :
  s'.(disk) = <[(dev, n) := d]> s.(disk) -> block s' dev m = if decide (m = n) then d else block s dev m.
Proof.
  intros E. unfold block, sector_at. rewrite E. case_decide as Em.
  - by rewrite Em, lookup_insert_eq.
  - rewrite lookup_insert_ne; [done|congruence].
Qed.

Lemma BBLOCK_inj b c n : 0 <= b -> 0 <= c -> BBLOCK b n = BBLOCK c n -> b mod BPB = c mod BPB -> b = c.
Proof.
  intros Hb Hc E Em. unfold BBLOCK in E.
  rewrite (Z.div_mod b BPB ltac:(done)), (Z.div_mod c BPB ltac:(done)), Em. f_equal. f_equal. lia.
Qed.

Lemma in_bitmap_bit s s' dev r f :
  0 <= r -> 0 <= (sb_of s dev).(sb_ninodes) ->
  let bb := BBLOCK r (sb_of s dev).(sb_ninodes) in
  s'.(disk) = <[(dev, bb) := f (block s dev bb)]> s.(disk) ->
  forall c, 0 <= c -> in_bitmap s' dev c =
    if decide (BBLOCK c (sb_of s dev).(sb_ninodes) = bb) then bit_used (f (block s dev bb)) (c mod BPB)
    else in_bitmap s dev c.
Proof.
  intros Hr Hn bb E c Hc. pose proof (BBLOCK_ge r _ Hr Hn). unfold in_bitmap.
  rewrite (sb_of_update s s' dev bb _ ltac:(unfold bb; lia) E), (block_update s s' dev bb _ _ E).
  case_decide; done.
Qed.

Lemma bit_in_block r (d : list Z) : 0 <= r -> length d = Z.to_nat BSIZE -> (r mod BPB) / 8 < Z.of_nat (length d).
Proof.
  intros Hr ->. pose proof (Z.mod_pos_bound r BPB ltac:(done)). change BPB with 4096 in *.
  change (Z.of_nat (Z.to_nat BSIZE)) with 512. apply Z.div_lt_upper_bound; lia.
Qed.

Lemma in_bitmap_set s s' dev r :
  0 <= r -> 0 <= (sb_of s dev).(sb_ninodes) -> disk_wf s.(disk) ->
  let bb := BBLOCK r (sb_of s dev).(sb_ninodes) in
  s'.(disk) = <[(dev, bb) := bit_set (r mod BPB) (block s dev bb)]> s.(disk) ->
  forall c, 0 <= c -> in_bitmap s' dev c = in_bitmap s dev c || bool_decide (c = r).
Proof.
  intros Hr Hn Hw bb E c Hc. rewrite (in_bitmap_bit _ _ _ _ _ Hr Hn E c Hc). fold bb.
  pose proof (Z.mod_pos_bound r BPB ltac:(done)). pose proof (Z.mod_pos_bound c BPB ltac:(done)).
  case_decide as Eb.
  - rewrite bit_used_set; [|lia|lia|apply bit_in_block; [lia|by apply block_length]].
    unfold in_bitmap. rewrite Eb. f_equal. apply bool_decide_ext. split; [|by intros ->].
    intros Em. eapply BBLOCK_inj; [done|done|exact Eb|done].
  - rewrite bool_decide_eq_false_2; [by rewrite orb_false_r|]. by intros ->.
Qed.

Lemma in_bitmap_clear s s' dev r :
  0 <= r -> 0 <= (sb_of s dev).(sb_ninodes) -> disk_wf s.(disk) ->
  let bb := BBLOCK r (sb_of s dev).(sb_ninodes) in
  s'.(disk) = <[(dev, bb) := bit_clear (r mod BPB) (block s dev bb)]> s.(disk) ->
  forall c, 0 <= c -> in_bitmap s' dev c = in_bitmap s dev c && negb (bool_decide (c = r)).
Proof.
  intros Hr Hn Hw bb E c Hc. rewrite (in_bitmap_bit _ _ _ _ _ Hr Hn E c Hc). fold bb.
  pose proof (Z.mod_pos_bound r BPB ltac:(done)). pose proof (Z.mod_pos_bound c BPB ltac:(done)).
  case_decide as Eb.
  - rewrite bit_used_clear; [|lia|lia|apply bit_in_block; [lia|by apply block_length]].
    unfold in_bitmap. rewrite Eb. f_equal. f_equal. apply bool_decide_ext. split; [|by intros ->].
    intros Em. eapply BBLOCK_inj; [done|done|exact Eb|done].
  - rewrite bool_decide_eq_false_2; [by rewrite andb_true_r|]. by intros ->.
Qed.

(** The least free block up to a free one. *)
Lemma least_free (f : Z -> bool) n :
  f (Z.of_nat n) = false ->
  exists r, 0 <= r <= Z.of_nat n /\ f r = false /\ forall b, 0 <= b < r -> f b = true.
Proof.
  intros Hn. assert (forall k, (exists r, 0 <= r < Z.of_nat k /\ f r = false /\ forall b, 0 <= b < r -> f b = true)
    \/ forall b, 0 <= b < Z.of_nat k -> f b = true) as H.
  { induction k as [|k [(r & Hr & H1 & H2)|IH]]; [right; lia|left; exists r; split_and!; [lia|lia|done|done]|].
    destruct (f (Z.of_nat k)) eqn:Ek.
    - right. intros b Hb. destruct (decide (b = Z.of_nat k)) as [->|]; [done|]. apply IH. lia.
    - left. exists (Z.of_nat k). split_and!; [lia|lia|done|done]. }
  destruct (H (S n)) as [(r & Hr & H1 & H2)|Hall].
  - exists r. split_and!; [lia|lia|done|done].
  - rewrite Hall in Hn by lia. done.
Qed.

Section block_alloc.
Context {inv : list nat -> kstate -> Prop} {laws : BlockLaws inv}.

Lemma balloc_run B s dev r :
  inv B s -> free_locks s -> bitmap_ready B s dev -> 0 <= r -> r / BPB * BPB < (sb_of s dev).(sb_size) ->
  in_bitmap s dev r = false -> (forall c, 0 <= c < r -> in_bitmap s dev c = true) ->
  exists s', balloc dev s = Ok r s' /\
    after_io inv B (<[(dev, BBLOCK r (sb_of s dev).(sb_ninodes)) :=
      bit_set (r mod BPB) (block s dev (BBLOCK r (sb_of s dev).(sb_ninodes)))]> s.(disk)) s s'.
Proof.
  intros Hi Hf Hr Hr0 Hlt Hfree Hused. pose proof Hr as (Hc1 & _).
  destruct (readsb_run B s dev Hi Hf Hc1) as (s1 & E1 & H1).
  unfold balloc. kexec by (exact E1). apply balloc_loop_run; [done|done|done|lia|done|done|done| |done|done].
  rewrite Z.sub_0_r, Nat2Z.inj_succ, Z2Nat.id.
  - apply Z.lt_succ_r. apply Z.div_le_lower_bound; [done|]. lia.
  - pose proof (Z.div_pos r BPB Hr0 ltac:(done)). apply Z.div_pos; [|done]. change BPB with 4096 in *. lia.
Qed.

(** Nothing is free in any bitmap block. *)
Lemma balloc_loop_full fuel B s s0 dev b :
  after_io inv B s0.(disk) s0 s -> free_locks s0 -> bitmap_ready B s0 dev ->
  0 <= b -> b mod BPB = 0 -> ((sb_of s0 dev).(sb_size) - b) / BPB < Z.of_nat fuel ->
  (forall c, b <= c -> c / BPB * BPB < (sb_of s0 dev).(sb_size) -> in_bitmap s0 dev c = true) ->
  balloc_loop fuel dev (sb_of s0 dev) b s = Panic "balloc: out of blocks".
Proof.
  intros Ha Hf (Hr1 & Hw & Hni & Hrb). revert s b Ha. set (sb := sb_of s0 dev) in *.
  induction fuel as [|f IH]; intros s b Ha Hb0 Hbm Hfuel Hused.
  { assert (sb.(sb_size) - b < 0) as Hneg.
    { destruct (Z.lt_ge_cases (sb.(sb_size) - b) 0); [done|].
      pose proof (Z.div_pos (sb.(sb_size) - b) BPB ltac:(done) ltac:(done)). lia. }
    cbn [balloc_loop]. rewrite (proj2 (Z.ltb_ge b sb.(sb_size))) by lia. done. }
  cbn [balloc_loop]. destruct (b <? sb.(sb_size)) eqn:Hbs; [|done]. apply Z.ltb_lt in Hbs.
  set (bb := BBLOCK b sb.(sb_ninodes)).
  assert (can_read B s dev bb) as Hc by (eapply can_read_kept; [exact Ha|exact (Hrb b (conj Hb0 Hbs))]).
  pose proof (after_io_free _ _ _ _ Ha Hf) as Hfs. pose proof Ha as (Hi & Hd & _).
  destruct (bread_run B s dev bb Hi Hfs Hc) as (bp & s1 & E & Hbp & Hu & Hi1 & Hd1 & Hfr & Ho).
  kexec by (exact E). kexec by (exact (buf_data_run _ _ _ _ _ Hu)).
  destruct (balloc_scan (Z.to_nat BPB) (block s dev bb) 0) as [bi|] eqn:Escan.
  - exfalso. apply balloc_scan_Some in Escan as (Hbi & Hclear & _).
    assert ((b + bi) / BPB = b / BPB /\ (b + bi) mod BPB = bi /\ b / BPB * BPB = b) as (Ec & Em & Eb).
    { pose proof (Z.div_mod b BPB ltac:(done)). pose proof (Z.div_mod (b + bi) BPB ltac:(done)).
      pose proof (Z.mod_pos_bound (b + bi) BPB ltac:(done)). change BPB with 4096 in *. lia. }
    specialize (Hused (b + bi) ltac:(lia)). rewrite Ec, Eb in Hused. specialize (Hused Hbs).
    unfold in_bitmap in Hused. fold sb in Hused. rewrite Em in Hused. unfold BBLOCK in Hused.
    rewrite Ec in Hused. unfold block in Hclear, Hused. rewrite Hd in Hclear. unfold bb, BBLOCK in Hclear. congruence.
  - destruct (brelse_quiet B s1 bp dev bb Hi1) as (s2 & E2 & H2);
      [eauto using io_frame_free|done|unfold block in *; by rewrite Hd1|].
    kexec by (exact E2). apply IH.
    + eapply after_io_trans; [exact Ha|]. rewrite Hd1, Hd in H2. by eapply after_bread.
    + change BPB with 4096 in *. lia.
    + rewrite Z.add_mod, Z.mod_same, Hbm by done. done.
    + replace (sb.(sb_size) - b) with (sb.(sb_size) - (b + BPB) + 1 * BPB) in Hfuel by lia.
      rewrite Z.div_add in Hfuel by done. lia.
    + intros c Hcb. apply Hused. change BPB with 4096 in *. lia.
Qed.

Lemma bfree_run B s dev b :
  inv B s -> free_locks s -> bitmap_ready B s dev -> can_read B s dev b ->
  0 <= b < (sb_of s dev).(sb_size) -> b <> 1 -> b <> BBLOCK b (sb_of s dev).(sb_ninodes) ->
  let bb := BBLOCK b (sb_of s dev).(sb_ninodes) in
  let d0 := <[(dev, b) := replicate (Z.to_nat BSIZE) 0]> s.(disk) in
  if in_bitmap s dev b then
    exists s', bfree dev b s = Ok tt s' /\
      after_io inv B (<[(dev, bb) := bit_clear (b mod BPB) (block s dev bb)]> d0) s s'
  else bfree dev b s = Panic "freeing free block".
Proof.
  intros Hi Hf (Hr1 & Hw & Hni & Hrb) Hcb Hb Hb1 Hbb bb d0.
  destruct (bzero_run B s dev b Hi Hf Hcb) as (s1 & E1 & H1). fold d0 in H1.
  pose proof (after_io_free _ _ _ _ H1 Hf) as Hf1. pose proof H1 as (Hi1 & Hd1 & _).
  destruct (readsb_run B s1 dev Hi1 Hf1) as (s2 & E2 & H2); [by eapply can_read_kept|].
  assert (sb_of s1 dev = sb_of s dev) as Esb by (eapply sb_of_update; [|exact Hd1]; done).
  rewrite Esb in E2. pose proof (after_io_trans _ _ _ _ _ _ H1 H2) as H12.
  pose proof (after_io_free _ _ _ _ H12 Hf) as Hf2. pose proof H2 as (Hi2 & Hd2 & _).
  destruct (bread_run B s2 dev bb Hi2 Hf2) as (bp & s3 & E3 & Hbp & Hu & Hi3 & Hd3 & Hfr & Ho).
  { eapply can_read_kept; [exact H12|]. by apply Hrb. }
  assert (block s2 dev bb = block s dev bb) as Hblk.
  { rewrite (block_update s s2 dev b (replicate (Z.to_nat BSIZE) 0)) by (rewrite Hd2; exact Hd1).
    by rewrite decide_False by (intros E; apply Hbb; symmetry; exact E). }
  rewrite Hblk in Hu. unfold bfree. unfold in_bitmap. fold bb.
  destruct (bit_used (block s dev bb) (b mod BPB)) eqn:Eused.
  - destruct (put_back B s3 bp dev bb (block s dev bb) (bit_clear (b mod BPB) (block s dev bb)) Hi3) as (s4 & E4 & H4);
      [eauto using io_frame_free|done|exact Hu|rewrite bit_clear_length; by apply block_length|].
    exists s4. split.
    + kexec by (exact E1). kexec by (exact E2). fold bb. kexec by (exact E3).
      kexec by (exact (buf_data_run _ _ _ _ _ Hu)). rewrite Eused. exact E4.
    + eapply after_io_trans; [exact H12|]. rewrite Hd3, Hd2, Hd1 in H4. by eapply after_bread.
  - kexec by (exact E1). kexec by (exact E2). fold bb. kexec by (exact E3).
    kexec by (exact (buf_data_run _ _ _ _ _ Hu)). by rewrite Eused.
Qed.
End block_alloc.

(** ** Properties *)

(** [balloc] returns the lowest-numbered free block when the file system has
    one: the block was free, is now marked, no other block changes its mark and
    no other disk block is written. *)
Theorem balloc_correct (B : list nat) (s : kstate) (dev : Z) :
  bcache_inv B s -> free_locks s -> bitmap_ready B s dev ->
  (exists c, 0 <= c < (sb_of s dev).(sb_size) /\ in_bitmap s dev c = false) ->
  exists r s', balloc dev s = Ok r s' /\ bcache_inv B s' /\
    0 <= r < (sb_of s dev).(sb_size) /\
    in_bitmap s dev r = false /\ (forall c, 0 <= c < r -> in_bitmap s dev c = true) /\
    (forall c, 0 <= c -> in_bitmap s' dev c = in_bitmap s dev c || bool_decide (c = r)) /\
    (forall n, n <> BBLOCK r (sb_of s dev).(sb_ninodes) -> block s' dev n = block s dev n).
Proof.
  intros Hi Hf Hr (c & Hc & Hfree). pose proof Hr as (_ & Hw & Hni & _).
  destruct (least_free (in_bitmap s dev) (Z.to_nat c)) as (r & Hr0 & Hrf & Hmin); [by rewrite Z2Nat.id by lia|].
  assert (r / BPB * BPB < (sb_of s dev).(sb_size)) as Hlt.
  { pose proof (Z.mul_div_le r BPB ltac:(done)). lia. }
  destruct (balloc_run B s dev r Hi Hf Hr ltac:(lia) Hlt Hrf Hmin) as (s' & E & Hi' & Hd & _).
  exists r, s'. split_and!; [done|done|lia|lia|done|done| |].
  - intros b Hb. apply in_bitmap_set; [lia|done|done|done|done].
  - intros n Hn. rewrite (block_update _ _ _ _ _ _ Hd). by rewrite decide_False.
Qed.

(** On a full disk [balloc] does not always report the error: when every
    block of the file system is in use but the last bitmap block has a spare
    clear bit, the loop, which tests every bit of a bitmap block, returns a
    block beyond the end of the file system; it panics only when all the spare
    bits are set too. *)
Theorem balloc_full_disk (B : list nat) (s : kstate) (dev : Z) :
  bcache_inv B s -> free_locks s -> bitmap_ready B s dev -> 0 < (sb_of s dev).(sb_size) ->
  (forall c, 0 <= c < (sb_of s dev).(sb_size) -> in_bitmap s dev c = true) ->
  ((sb_of s dev).(sb_size) mod BPB <> 0 -> in_bitmap s dev (sb_of s dev).(sb_size) = false ->
   exists s', balloc dev s = Ok (sb_of s dev).(sb_size) s') /\
  ((forall c, 0 <= c -> in_bitmap s dev c = true) -> balloc dev s = Panic "balloc: out of blocks").
Proof.
  intros Hi Hf Hr Hsz Hused. set (sz := (sb_of s dev).(sb_size)) in *. split.
  - intros Hm Hfree. destruct (balloc_run B s dev sz Hi Hf Hr) as (s' & E & _); [lia| |done|done|by exists s'].
    fold sz. pose proof (Z.div_mod sz BPB ltac:(done)). pose proof (Z.mod_pos_bound sz BPB ltac:(done)). lia.
  - intros Hall. pose proof Hr as (Hc1 & _).
    destruct (readsb_run B s dev Hi Hf Hc1) as (s1 & E1 & H1). unfold balloc. kexec by (exact E1).
    apply (balloc_loop_full _ B s1 s dev); [done|done|done|lia|done| |intros; apply Hall; done].
    rewrite Z.sub_0_r, Nat2Z.inj_succ, Z2Nat.id; [lia|]. apply Z.div_pos; [fold sz; lia|done].
Qed.

(** [bfree] of a block in use zeroes it and clears its mark and no other;
    of a block not in use it panics. *)
Theorem bfree_correct (B : list nat) (s : kstate) (dev b : Z) :
  bcache_inv B s -> free_locks s -> bitmap_ready B s dev -> can_read B s dev b ->
  0 <= b < (sb_of s dev).(sb_size) -> b <> 1 ->
  (forall c, 0 <= c < (sb_of s dev).(sb_size) -> b <> BBLOCK c (sb_of s dev).(sb_ninodes)) ->
  (in_bitmap s dev b = false -> bfree dev b s = Panic "freeing free block") /\
  (in_bitmap s dev b = true -> exists s', bfree dev b s = Ok tt s' /\ bcache_inv B s' /\
     block s' dev b = replicate (Z.to_nat BSIZE) 0 /\
     (forall c, 0 <= c < (sb_of s dev).(sb_size) ->
        in_bitmap s' dev c = in_bitmap s dev c && negb (bool_decide (c = b))) /\
     (forall n, n <> b -> n <> BBLOCK b (sb_of s dev).(sb_ninodes) -> block s' dev n = block s dev n)).
Proof.
  intros Hi Hf Hr Hc Hb Hb1 Hbb. pose proof (bfree_run B s dev b Hi Hf Hr Hc Hb Hb1 (Hbb b Hb)) as H.
  pose proof Hr as (_ & Hw & Hni & _). split; intros Hin; rewrite Hin in H; [done|].
  destruct H as (s' & E & Hi' & Hd & _). exists s'. set (bb := BBLOCK b (sb_of s dev).(sb_ninodes)) in *.
  set (z := replicate (Z.to_nat BSIZE) 0) in *.
  set (s0 := set_disk (<[(dev, b) := z]> s.(disk)) s).
  assert (sb_of s0 dev = sb_of s dev) as Esb by (by eapply sb_of_update).
  assert (forall n, block s0 dev n = if decide (n = b) then z else block s dev n) as Hb0
    by (intros n; by apply block_update).
  assert (forall c, 0 <= c < (sb_of s dev).(sb_size) -> in_bitmap s0 dev c = in_bitmap s dev c) as Hib.
  { intros c Hc0. unfold in_bitmap. rewrite Esb, Hb0, decide_False; [done|]. intros E0. by apply (Hbb c). }
  assert (block s0 dev bb = block s dev bb) as Hbb0.
  { rewrite Hb0, decide_False; [done|]. intros E0. by apply (Hbb b Hb). }
  split_and!; [done|done| | |].
  - rewrite (block_update s0 s' dev bb _ b Hd), decide_False by (intros E0; exact (Hbb b Hb E0)).
    rewrite Hb0. by rewrite decide_True.
  - intros c Hc0. rewrite <- Hib by done. apply in_bitmap_clear; [lia|by rewrite Esb| | |lia].
    + intros k x. cbn. rewrite lookup_insert_Some. intros [[_ <-]|[_ Hx]]; [apply length_replicate|by eapply Hw].
    + rewrite Esb. fold bb. rewrite Hbb0. exact Hd.
  - intros n Hnb Hnbb. rewrite (block_update s0 s' dev bb _ n Hd), decide_False by done.
    rewrite Hb0. by rewrite decide_False.
Qed.

(** A file system of 100 blocks and 8 inodes on drive 1, all blocks free; with
    [used] a bitmap block. *)
Definition sb_block : list Z := le_bytes 4 100 ++ le_bytes 4 90 ++ le_bytes 4 8 ++ replicate 500 0.
Definition small_disk (used : list Z) : gmap (Z * Z) (list Z) := {[ (1, 1) := sb_block; (1, 4) := used ]}.
Definition zeros : list Z := replicate 512 0.
Definition full : list Z := replicate 12 255 ++ [15] ++ replicate 499 0.

Lemma small_disk_wf used : length used = 512%nat -> disk_wf (small_disk used).
Proof.
  intros Hl k x. unfold small_disk. rewrite lookup_insert_Some, lookup_singleton_Some.
  intros [[_ <-]|[_ [_ <-]]]; [reflexivity|exact Hl].
Qed.

Lemma drive1_can_read s n :
  0 <= n < 2 ^ 28 -> can_read [] s 1 n.
Proof.
  intros Hn. split_and!; [split; [by right|lia]|by intros b ?%elem_of_nil|unfold NBUF; simpl; lia].
Qed.

Lemma small_disk_ready used :
  length used = 512%nat ->
  let s := boot_cache (small_disk used) in
  bcache_inv [] s /\ free_locks s /\ bitmap_ready [] s 1 /\ sb_of s 1 = mk_superblock 100 90 8 /\
  block s 1 4 = used.
Proof.
  intros Hl s. pose proof (small_disk_wf used Hl) as Hw.
  destruct (boot_cache_ok (small_disk used) Hw) as (Hi & _ & _ & Hd). fold s in Hi, Hd.
  assert (forall n, 0 <= n < 2 ^ 28 -> can_read [] s 1 n) as Hc.
  { intros n Hn. by apply drive1_can_read. }
  assert (sb_of s 1 = mk_superblock 100 90 8) as Esb.
  { unfold sb_of, block, sector_at. rewrite Hd. reflexivity. }
  split_and!; [exact Hi|exact (boot_cache_free _ Hw)| |exact Esb|].
  - split_and!; [apply Hc; lia|rewrite Hd; exact Hw|rewrite Esb; simpl; lia|]. rewrite Esb. simpl. intros b Hb. apply Hc.
    unfold BBLOCK. change BPB with 4096. change (8 / IPB) with 1. rewrite Z.div_small by lia. lia.
  - unfold block, sector_at. rewrite Hd. reflexivity.
Qed.

Lemma balloc_correct_witness :
  exists r s', balloc 1 (boot_cache (small_disk zeros)) = Ok r s' /\ 0 <= r < 100.
Proof.
  destruct (small_disk_ready zeros eq_refl) as (Hi & Hf & Hr & Esb & Hb).
  destruct (balloc_correct [] _ 1 Hi Hf Hr) as (r & s' & E & _ & Hlt & _).
  - exists 0. unfold in_bitmap. rewrite Esb. split; [simpl; lia|].
    change (BBLOCK 0 _) with 4. rewrite Hb. reflexivity.
  - exists r, s'. split; [exact E|]. rewrite Esb in Hlt. exact Hlt.
Defined.

Lemma full_bits : forallb (fun n => bit_used full (Z.of_nat n)) (seq 0 100) = true.
Proof. vm_compute. reflexivity. Qed.

Lemma balloc_full_disk_witness :
  exists s', balloc 1 (boot_cache (small_disk full)) = Ok 100 s'.
Proof.
  destruct (small_disk_ready full eq_refl) as (Hi & Hf & Hr & Esb & Hb).
  destruct (balloc_full_disk [] _ 1 Hi Hf Hr) as [H _].
  - rewrite Esb. simpl. lia.
  - rewrite Esb. simpl. intros c Hc. unfold in_bitmap. rewrite Esb. unfold BBLOCK. cbn [sb_ninodes].
    change BPB with 4096. rewrite Z.div_small, Z.mod_small by lia. change (0 + 8 / IPB + 3) with 4. rewrite Hb.
    pose proof full_bits as Hfb. rewrite forallb_forall in Hfb.
    specialize (Hfb (Z.to_nat c) (proj2 (in_seq 100 0 (Z.to_nat c)) ltac:(lia))).
    rewrite Z2Nat.id in Hfb by lia. exact Hfb.
  - rewrite Esb in H. apply H; [done|]. unfold in_bitmap. rewrite Esb.
    change (BBLOCK _ _) with 4. rewrite Hb. reflexivity.
Defined.

Lemma small_BBLOCK c : 0 <= c < 100 -> BBLOCK c 8 = 4.
Proof. intros Hc. unfold BBLOCK. change BPB with 4096. by rewrite Z.div_small by lia. Qed.

Lemma bfree_correct_witness :
  bfree 1 50 (boot_cache (small_disk zeros)) = Panic "freeing free block" /\
  exists s', bfree 1 50 (boot_cache (small_disk full)) = Ok tt s' /\ in_bitmap s' 1 50 = false.
Proof.
  split.
  - destruct (small_disk_ready zeros eq_refl) as (Hi & Hf & Hr & Esb & Hb).
    destruct (bfree_correct [] _ 1 50 Hi Hf Hr) as [H _];
      [apply drive1_can_read; lia|rewrite Esb; simpl; lia|lia| |].
    + rewrite Esb. simpl. intros c Hc. rewrite small_BBLOCK by lia. lia.
    + apply H. unfold in_bitmap. rewrite Esb. change (BBLOCK _ _) with 4. rewrite Hb. reflexivity.
  - destruct (small_disk_ready full eq_refl) as (Hi & Hf & Hr & Esb & Hb).
    destruct (bfree_correct [] _ 1 50 Hi Hf Hr) as [_ H];
      [apply drive1_can_read; lia|rewrite Esb; simpl; lia|lia| |].
    + rewrite Esb. simpl. intros c Hc. rewrite small_BBLOCK by lia. lia.
    + destruct H as (s' & E & _ & _ & Hbits & _).
      * unfold in_bitmap. rewrite Esb. change (BBLOCK _ _) with 4. rewrite Hb. reflexivity.
      * exists s'. split; [exact E|]. rewrite Hbits by (rewrite Esb; simpl; lia). apply andb_false_r.
Defined.
