(* ===== verification/Inode.v ===== *)
(** Inodes and their contents: the middle part of fs.c.

    The in-memory inodes form the table [icache]; a pointer to an inode is its
    place in the table.  [devsw], the table of device drivers the kernel calls
    for device files, is the interface [Devsw].  Where C copies file bytes to
    or from an address the caller passes, the operation returns or takes the
    bytes. *)

From S2P Require Import Prelude State ProcSync Ide Bio Bytes FsBlock.

(** [devsw]: the read and write routines of a device, by major number. *)
Class Devsw := {
  dev_read : Z -> option (nat -> Z -> K (Z * list Z));
  dev_write : Z -> option (nat -> list Z -> Z -> K Z)
}.

(** ** The inode table *)

Definition hit (dev inum : Z) (i : inode) : Prop := 0 < i.(i_ref) /\ i.(i_dev) = dev /\ i.(i_inum) = inum.

Definition iget (dev inum : Z) : K nat :=
  acquire LkIcache ;;;
  let* t := kget (fun s => s.(icache)) in
  match list_find (hit dev inum) t with
  | Some (ip, _) =>
      mod_inode ip (fun i => set_i_ref (i.(i_ref) + 1) i) ;;;
      release LkIcache ;;;
      kret ip
  | None =>
      match list_find (fun i => i.(i_ref) = 0) t with
      | Some (ip, _) =>
          mod_inode ip (set_i_dev dev) ;;;
          mod_inode ip (set_i_inum inum) ;;;
          mod_inode ip (set_i_ref 1) ;;;
          mod_inode ip (set_i_flags 0) ;;;
          release LkIcache ;;;
          kret ip
      | None => panic "iget: no inodes"
      end
  end.

Definition idup (ip : nat) : K nat :=
  acquire LkIcache ;;;
  mod_inode ip (fun i => set_i_ref (i.(i_ref) + 1) i) ;;;
  release LkIcache ;;;
  kret ip.

(** The place of an inode in its block. *)
Definition dinode_off (inum : Z) : Z := inum mod IPB * DINODESZ.

Definition to_dinode (i : inode) : dinode :=
  mk_dinode i.(i_type) i.(i_major) i.(i_minor) i.(i_nlink) i.(i_size) i.(i_addrs).

Definition from_dinode (d : dinode) (i : inode) : inode :=
  mk_inode i.(i_dev) i.(i_inum) i.(i_ref) i.(i_flags)
    d.(d_type) d.(d_major) d.(d_minor) d.(d_nlink) d.(d_size) d.(d_addrs).

(** The search of [ialloc] from inode [inum] on. *)
Fixpoint ialloc_loop (fuel : nat) (dev type ninodes inum : Z) : K nat :=
  if inum <? ninodes then
    match fuel with
    | O => kfault "fuel"
    | S f =>
        let* bp := bread dev (IBLOCK inum) in
        let* d := buf_data bp in
        if gets16 (dinode_off inum) d =? 0 then
          mod_buf bp (set_b_data
            (splice (dinode_off inum) (dinode_bytes (mk_dinode type 0 0 0 0 (replicate 13 0))) d)) ;;;
          bwrite bp ;;;
          brelse bp ;;;
          iget dev inum
        else
          brelse bp ;;;
          ialloc_loop f dev type ninodes (inum + 1)
    end
  else panic "ialloc: no inodes".

Definition ialloc (dev type : Z) : K nat :=
  let* sb := readsb dev in
  ialloc_loop (Z.to_nat sb.(sb_ninodes)) dev type sb.(sb_ninodes) 1.

Definition iupdate (ip : nat) : K unit :=
  let* i := get_inode ip in
  let* bp := bread i.(i_dev) (IBLOCK i.(i_inum)) in
  let* d := buf_data bp in
  mod_buf bp (set_b_data (splice (dinode_off i.(i_inum)) (dinode_bytes (to_dinode i)) d)) ;;;
  bwrite bp ;;;
  brelse bp.

Definition ilock (o : option nat) : K unit :=
  match o with
  | None => panic "ilock"
  | Some ip =>
      let* i := get_inode ip in
      if i.(i_ref) <? 1 then panic "ilock" else
      acquire LkIcache ;;;
      let* i := get_inode ip in
      if negb (Z.land i.(i_flags) I_BUSY =? 0)
      then sleep (ChInode ip) LkIcache ;;; kfault "sleep does not return here" else
      mod_inode ip (fun i => set_i_flags (Z.lor i.(i_flags) I_BUSY) i) ;;;
      release LkIcache ;;;
      let* i := get_inode ip in
      if Z.land i.(i_flags) I_VALID =? 0 then
        let* bp := bread i.(i_dev) (IBLOCK i.(i_inum)) in
        let* d := buf_data bp in
        mod_inode ip (from_dinode (get_dinode (slice (dinode_off i.(i_inum)) DINODESZ d))) ;;;
        brelse bp ;;;
        mod_inode ip (fun i => set_i_flags (Z.lor i.(i_flags) I_VALID) i) ;;;
        let* i := get_inode ip in
        if i.(i_type) =? 0 then panic "ilock: no type" else kret tt
      else kret tt
  end.

Definition iunlock (o : option nat) : K unit :=
  match o with
  | None => panic "iunlock"
  | Some ip =>
      let* i := get_inode ip in
      if (Z.land i.(i_flags) I_BUSY =? 0) || (i.(i_ref) <? 1) then panic "iunlock" else
      acquire LkIcache ;;;
      mod_inode ip (fun i => set_i_flags (Z.land i.(i_flags) (Z.lnot I_BUSY)) i) ;;;
      wakeup (ChInode ip) ;;;
      release LkIcache
  end.

(** ** File contents: block addresses *)

Definition nth_addr (i : inode) (n : Z) : Z := default 0 (i.(i_addrs) !! Z.to_nat n).
Definition set_addr (n v : Z) (i : inode) : inode := set_i_addrs (<[Z.to_nat n := v]> i.(i_addrs)) i.

(** [if((addr = ip->addrs[n]) == 0) ip->addrs[n] = addr = balloc(ip->dev);] *)
Definition addr_or_alloc (ip : nat) (n : Z) : K Z :=
  let* i := get_inode ip in
  if nth_addr i n =? 0 then
    let* a := balloc i.(i_dev) in
    mod_inode ip (set_addr n a) ;;;
    kret a
  else kret (nth_addr i n).

Definition bmap (ip : nat) (bn : Z) : K Z :=
  if bn <? NDIRECT then addr_or_alloc ip bn else
  let bn := bn - NDIRECT in
  if bn <? NINDIRECT then
    let* addr := addr_or_alloc ip NDIRECT in
    let* i := get_inode ip in
    let* bp := bread i.(i_dev) addr in
    let* a := buf_data bp in
    let* addr' :=
      (if get32 (4 * bn) a =? 0 then
         let* x := balloc i.(i_dev) in
         mod_buf bp (set_b_data (put32 (4 * bn) x a)) ;;;
         bwrite bp ;;;
         kret x
       else kret (get32 (4 * bn) a)) in
    brelse bp ;;;
    kret addr'
  else panic "bmap: out of range".

Definition itrunc (ip : nat) : K unit :=
  kfor (seq 0 (Z.to_nat NDIRECT)) (fun k =>
    let* i := get_inode ip in
    if nth_addr i (Z.of_nat k) =? 0 then kret tt else
    bfree i.(i_dev) (nth_addr i (Z.of_nat k)) ;;;
    mod_inode ip (set_addr (Z.of_nat k) 0)) ;;;
  let* i := get_inode ip in
  (if nth_addr i NDIRECT =? 0 then kret tt else
   let* bp := bread i.(i_dev) (nth_addr i NDIRECT) in
   kfor (seq 0 (Z.to_nat NINDIRECT)) (fun j =>
     let* a := buf_data bp in
     if get32 (4 * Z.of_nat j) a =? 0 then kret tt
     else bfree i.(i_dev) (get32 (4 * Z.of_nat j) a)) ;;;
   brelse bp ;;;
   bfree i.(i_dev) (nth_addr i NDIRECT) ;;;
   mod_inode ip (set_addr NDIRECT 0)) ;;;
  mod_inode ip (set_i_size 0) ;;;
  iupdate ip.

Definition iput (ip : nat) : K unit :=
  acquire LkIcache ;;;
  let* i := get_inode ip in
  (if (i.(i_ref) =? 1) && negb (Z.land i.(i_flags) I_VALID =? 0) && (i.(i_nlink) =? 0) then
     if negb (Z.land i.(i_flags) I_BUSY =? 0) then panic "iput busy" else
     mod_inode ip (fun i => set_i_flags (Z.lor i.(i_flags) I_BUSY) i) ;;;
     release LkIcache ;;;
     itrunc ip ;;;
     mod_inode ip (set_i_type 0) ;;;
     iupdate ip ;;;
     acquire LkIcache ;;;
     mod_inode ip (set_i_flags 0) ;;;
     wakeup (ChInode ip)
   else kret tt) ;;;
  mod_inode ip (fun i => set_i_ref (i.(i_ref) - 1) i) ;;;
  release LkIcache.

Definition iunlockput (ip : nat) : K unit := iunlock (Some ip) ;;; iput ip.

(** [struct stat] of stat.h. *)
Record stat := mk_stat { st_type : Z; st_dev : Z; st_ino : Z; st_nlink : Z; st_size : Z }.

Definition stati (ip : nat) : K stat :=
  let* i := get_inode ip in
  kret (mk_stat i.(i_type) (s32 i.(i_dev)) i.(i_inum) i.(i_nlink) i.(i_size)).

(** ** Reading and writing *)

(** Bytes of one round: [min(n - tot, BSIZE - off%BSIZE)]. *)
Definition chunk (n tot off : Z) : Z := Z.min (n - tot) (BSIZE - off mod BSIZE).

(** The copying loop of [readi], with the bytes copied so far. *)
Fixpoint readi_loop (fuel : nat) (ip : nat) (off n tot : Z) (dst : list Z) : K (list Z) :=
  if tot <? n then
    match fuel with
    | O => kfault "fuel"
    | S f =>
        let* i := get_inode ip in
        let* a := bmap ip (off / BSIZE) in
        let* bp := bread i.(i_dev) a in
        let* d := buf_data bp in
        let m := chunk n tot off in
        brelse bp ;;;
        readi_loop f ip (off + m) n (tot + m) (dst ++ slice (off mod BSIZE) m d)
    end
  else kret dst.

(** One round for each block the range touches. *)
Definition rounds (n : Z) : nat := Z.to_nat (n / BSIZE + 2).

Definition readi `{Devsw} (ip : nat) (off n : Z) : K (Z * list Z) :=
  let* i := get_inode ip in
  if i.(i_type) =? T_DEV then
    if (i.(i_major) <? 0) || (i.(i_major) >=? NDEV) then kret (-1, []) else
    match dev_read i.(i_major) with
    | None => kret (-1, [])
    | Some rd => rd ip n
    end
  else
  if (off >? i.(i_size)) || (u32 (off + n) <? off) then kret (-1, []) else
  let n := if off + n >? i.(i_size) then i.(i_size) - off else n in
  let* dst := readi_loop (rounds n) ip off n 0 [] in
  kret (s32 n, dst).

Fixpoint writei_loop (fuel : nat) (ip : nat) (src : list Z) (off n tot : Z) : K Z :=
  if tot <? n then
    match fuel with
    | O => kfault "fuel"
    | S f =>
        let* i := get_inode ip in
        let* a := bmap ip (off / BSIZE) in
        let* bp := bread i.(i_dev) a in
        let* d := buf_data bp in
        let m := chunk n tot off in
        if Z.of_nat (length src) <? tot + m then kfault "source too short" else
        mod_buf bp (set_b_data (splice (off mod BSIZE) (slice tot m src) d)) ;;;
        bwrite bp ;;;
        brelse bp ;;;
        writei_loop f ip src (off + m) n (tot + m)
    end
  else kret off.

Definition writei `{Devsw} (ip : nat) (src : list Z) (off n : Z) : K Z :=
  let* i := get_inode ip in
  if i.(i_type) =? T_DEV then
    if (i.(i_major) <? 0) || (i.(i_major) >=? NDEV) then kret (-1) else
    match dev_write i.(i_major) with
    | None => kret (-1)
    | Some wr => wr ip src n
    end
  else
  if (off >? i.(i_size)) || (u32 (off + n) <? off) then kret (-1) else
  let n := if off + n >? MAXFILE * BSIZE then u32 (MAXFILE * BSIZE - off) else n in
  let* off' := writei_loop (rounds n) ip src off n 0 in
  let* i := get_inode ip in
  (if (0 <? n) && (off' >? i.(i_size)) then
     mod_inode ip (set_i_size off') ;;; iupdate ip
   else kret tt) ;;;
  kret (s32 n).

(** ** Reference counts *)

(** No inode has two slots, and counts are not negative. *)
Definition icache_inv (t : list inode) : Prop :=
  (forall a i, t !! a = Some i -> 0 <= i.(i_ref)) /\
  (forall a b i j, t !! a = Some i -> t !! b = Some j -> 0 < i.(i_ref) -> 0 < j.(i_ref) ->
     i.(i_dev) = j.(i_dev) -> i.(i_inum) = j.(i_inum) -> a = b).

(** References to an inode, as the table counts them. *)
Definition ref_for (dev inum : Z) (i : inode) : Z :=
  if (i.(i_dev) =? dev) && (i.(i_inum) =? inum) then i.(i_ref) else 0.
Definition refs (t : list inode) (dev inum : Z) : Z := foldr Z.add 0 (ref_for dev inum <$> t).

Lemma refs_insert t a i j dev inum :
  t !! a = Some i -> refs (<[a := j]> t) dev inum = refs t dev inum - ref_for dev inum i + ref_for dev inum j.
Proof.
  unfold refs. revert a. induction t as [|k t IH]; intros [|a] H; simplify_eq/=; [lia|]. rewrite IH by done. lia.
Qed.

Lemma ref_for_same dev inum i : i.(i_dev) = dev -> i.(i_inum) = inum -> ref_for dev inum i = i.(i_ref).
Proof. intros <- <-. unfold ref_for. by rewrite !Z.eqb_refl. Qed.

(** Only a change of the count of a slot, or giving an unused slot to an inode
    that has none, keeps the table consistent. *)
Lemma icache_inv_count t a i r :
  icache_inv t -> t !! a = Some i -> 0 < i.(i_ref) -> 0 <= r -> icache_inv (<[a := set_i_ref r i]> t).
Proof.
  intros [Hn Hu] Ha Hi Hr. split.
  - intros b k. rewrite list_lookup_insert_Some. intros [(-> & <- & _)|[_ Hk]]; [done|by eapply Hn].
  - intros b c k l. rewrite !list_lookup_insert_Some.
    intros [(-> & <- & _)|[Hb Hk]] [(-> & <- & _)|[Hc Hl]] Hkr Hlr Ed Ei; [done| | |by eapply Hu].
    + by apply (Hu b c i l).
    + by apply (Hu b c k i).
Qed.

Lemma icache_inv_fresh t a i j :
  icache_inv t -> t !! a = Some i -> 0 <= j.(i_ref) ->
  (forall b k, t !! b = Some k -> ~ hit j.(i_dev) j.(i_inum) k) -> icache_inv (<[a := j]> t).
Proof.
  intros [Hn Hu] Ha Hr Hf. split.
  - intros b k. rewrite list_lookup_insert_Some. intros [(-> & <- & _)|[_ Hk]]; [done|by eapply Hn].
  - intros b c k l. rewrite !list_lookup_insert_Some.
    intros [(-> & <- & _)|[Hb Hk]] [(-> & <- & _)|[Hc Hl]] Hkr Hlr Ed Ei; [done| | |by eapply Hu].
    + destruct (Hf c l Hl). by split_and!.
    + destruct (Hf b k Hk). by split_and!.
Qed.

Lemma mod_inode_run ip f s i :
  s.(icache) !! ip = Some i -> mod_inode ip f s = Ok tt (set_icache (<[ip := f i]> s.(icache)) s).
Proof. intros Hp. apply mod_inode_Ok. eauto. Qed.

Lemma iget_hit dev inum s a i :
  LkIcache ∉ s.(held) -> list_find (hit dev inum) s.(icache) = Some (a, i) ->
  iget dev inum s = Ok a (set_icache (<[a := set_i_ref (i.(i_ref) + 1) i]> s.(icache)) s).
Proof.
  intros Hk Hf. pose proof Hf as (Ha & _)%list_find_Some. unfold iget. kexec acquire_free.
  unfold kget at 1, kbind at 1. cbn [icache set_held]. rewrite Hf.
  kexec (mod_inode_run a _ _ i). by kexec (release_top LkIcache s.(held)).
Qed.

Lemma iget_miss dev inum s a i :
  LkIcache ∉ s.(held) -> list_find (hit dev inum) s.(icache) = None ->
  list_find (fun i => i.(i_ref) = 0) s.(icache) = Some (a, i) ->
  iget dev inum s =
    Ok a (set_icache (<[a := set_i_flags 0 (set_i_ref 1 (set_i_inum inum (set_i_dev dev i)))]> s.(icache)) s).
Proof.
  intros Hk Hf He. pose proof He as (Ha & _)%list_find_Some. unfold iget. kexec acquire_free.
  assert (a < length s.(icache))%nat by (by eapply lookup_lt_Some).
  unfold kget at 1, kbind at 1. cbn [icache set_held]. rewrite Hf, He.
  kexec (mod_inode_run a _ _ i).
  do 3 (kexec by (apply mod_inode_run; by apply list_lookup_insert_eq); cbn [icache set_icache];
        rewrite list_insert_insert_eq).
  by kexec (release_top LkIcache s.(held)).
Qed.

Lemma iget_full dev inum s :
  LkIcache ∉ s.(held) -> list_find (hit dev inum) s.(icache) = None ->
  list_find (fun i => i.(i_ref) = 0) s.(icache) = None -> iget dev inum s = Panic "iget: no inodes".
Proof.
  intros Hk Hf He. unfold iget. kexec acquire_free.
  unfold kget at 1, kbind at 1. cbn [icache set_held]. by rewrite Hf, He.
Qed.

(** ** The on-disk inode *)

Definition dinode_ok (d : dinode) : Prop :=
  - 2 ^ 15 <= d.(d_type) < 2 ^ 15 /\ - 2 ^ 15 <= d.(d_major) < 2 ^ 15 /\
  - 2 ^ 15 <= d.(d_minor) < 2 ^ 15 /\ - 2 ^ 15 <= d.(d_nlink) < 2 ^ 15 /\
  0 <= d.(d_size) < 2 ^ 32 /\ length d.(d_addrs) = 13%nat /\
  Forall (fun a => 0 <= a < 2 ^ 32) d.(d_addrs).

Lemma slice_app_l off n (l k : list Z) :
  0 <= off -> 0 <= n -> off + n <= Z.of_nat (length l) -> slice off n (l ++ k) = slice off n l.
Proof.
  intros. unfold slice. rewrite drop_app_le by lia. rewrite take_app_le; [done|]. rewrite length_drop. lia.
Qed.

Lemma slice_app_r off n (l k : list Z) :
  Z.of_nat (length l) <= off -> slice off n (l ++ k) = slice (off - Z.of_nat (length l)) n k.
Proof. intros. unfold slice. rewrite drop_app_ge by lia. do 2 f_equal. lia. Qed.

Lemma le16_roundtrip v : - 2 ^ 15 <= v < 2 ^ 15 -> s16 (le_val (le_bytes 2 v)) = v.
Proof.
  intros Hv. rewrite le_val_bytes. change (2 ^ (8 * Z.of_nat 2)) with (2 ^ 16). unfold s16.
  rewrite Zplus_mod_idemp_l, Z.mod_small; lia.
Qed.

Lemma le_addrs_slice l k :
  (k < length l)%nat -> Forall (fun a => 0 <= a < 2 ^ 32) l ->
  get32 (4 * Z.of_nat k) (l ≫= le_bytes 4) = default 0 (l !! k).
Proof.
  revert k. induction l as [|a l IH]; intros k Hk Ha; [simpl in Hk; lia|].
  apply Forall_cons in Ha as [Ha Hl]. change ((a :: l) ≫= le_bytes 4) with (le_bytes 4 a ++ (l ≫= le_bytes 4)).
  unfold get32. destruct k as [|k].
  - rewrite slice_app_l by (rewrite ?le_bytes_length; lia).
    change (slice (4 * Z.of_nat 0) 4 (le_bytes 4 a)) with (slice 0 (Z.of_nat (length (le_bytes 4 a))) (le_bytes 4 a)).
    rewrite slice_all, le_val_bytes. simpl. apply Z.mod_small. done.
  - rewrite slice_app_r by (rewrite le_bytes_length; lia). rewrite le_bytes_length.
    replace (4 * Z.of_nat (S k) - Z.of_nat 4) with (4 * Z.of_nat k) by lia. apply IH; [simpl in Hk; lia|done].
Qed.

Lemma dinode_bytes_length d : length d.(d_addrs) = 13%nat -> length (dinode_bytes d) = 64%nat.
Proof.
  intros Hl. unfold dinode_bytes. rewrite !length_app, !le_bytes_length.
  assert (length (d.(d_addrs) ≫= le_bytes 4) = (4 * length d.(d_addrs))%nat) as ->; [|lia].
  clear. induction (d_addrs d) as [|a l IH]; [done|].
  change ((a :: l) ≫= le_bytes 4) with (le_bytes 4 a ++ (l ≫= le_bytes 4)).
  rewrite length_app, le_bytes_length, IH. simpl. lia.
Qed.

Lemma dinode_roundtrip d : dinode_ok d -> get_dinode (dinode_bytes d) = d.
Proof.
  destruct d as [ty ma mi nl sz ad]. unfold dinode_ok. simpl. intros (H1 & H2 & H3 & H4 & H5 & H6 & H7).
  unfold get_dinode, dinode_bytes. simpl d_type. simpl d_major. simpl d_minor. simpl d_nlink. simpl d_size. simpl d_addrs.
  f_equal.
  - unfold gets16, get16. rewrite slice_app_l by (rewrite ?le_bytes_length; lia). by apply le16_roundtrip.
  - unfold gets16, get16. rewrite slice_app_r, slice_app_l by (rewrite ?le_bytes_length; lia). by apply le16_roundtrip.
  - unfold gets16, get16. do 2 rewrite slice_app_r by (rewrite ?le_bytes_length; lia).
    rewrite slice_app_l by (rewrite ?le_bytes_length; lia). by apply le16_roundtrip.
  - unfold gets16, get16. do 3 rewrite slice_app_r by (rewrite ?le_bytes_length; lia).
    rewrite slice_app_l by (rewrite ?le_bytes_length; lia). by apply le16_roundtrip.
  - unfold get32. do 4 rewrite slice_app_r by (rewrite ?le_bytes_length; lia).
    rewrite slice_app_l by (rewrite ?le_bytes_length; lia).
    change (slice _ 4 (le_bytes 4 sz)) with (slice 0 (Z.of_nat (length (le_bytes 4 sz))) (le_bytes 4 sz)).
    rewrite slice_all, le_val_bytes. by apply Z.mod_small.
  - unfold get_addrs. apply list_eq. intros k. rewrite list_lookup_fmap.
    destruct (decide (k < 13)%nat) as [Hk|Hk].
    + rewrite lookup_seq_lt by lia. destruct (lookup_lt_is_Some_2 ad k) as [a Ha]; [lia|].
      match goal with |- (?f <$> Some ?x) = _ => change (Some (f x) = ad !! k) end. rewrite Ha. f_equal. unfold get32. do 5 rewrite slice_app_r by (rewrite ?le_bytes_length; lia). rewrite !le_bytes_length.
      replace (12 + 4 * Z.of_nat (0 + k) - Z.of_nat 2 - Z.of_nat 2 - Z.of_nat 2 - Z.of_nat 2 - Z.of_nat 4)
        with (4 * Z.of_nat k) by lia.
      pose proof (le_addrs_slice ad k ltac:(lia) H7) as E. unfold get32 in E. rewrite E, Ha. done.
    + rewrite lookup_seq_ge by lia. symmetry. apply lookup_ge_None_2. lia.
Qed.

(** ** Inodes on disk and in memory *)

Definition disk_inode (s : kstate) (dev inum : Z) : dinode :=
  get_dinode (slice (dinode_off inum) DINODESZ (block s dev (IBLOCK inum))).

Lemma dinode_off_bounds inum : 0 <= dinode_off inum /\ dinode_off inum + 64 <= 512.
Proof.
  unfold dinode_off, DINODESZ. pose proof (Z.mod_pos_bound inum IPB ltac:(done)). change IPB with 8 in *. lia.
Qed.

Lemma dinode_off_disjoint a b :
  0 <= a -> 0 <= b -> a <> b -> IBLOCK a = IBLOCK b ->
  dinode_off a + 64 <= dinode_off b \/ dinode_off b + 64 <= dinode_off a.
Proof.
  intros Ha Hb Hne E. unfold dinode_off, DINODESZ, IBLOCK in *. change IPB with 8 in *.
  pose proof (Z.div_mod a 8 ltac:(done)). pose proof (Z.div_mod b 8 ltac:(done)). lia.
Qed.

(** Storing one inode changes it and no other. *)
Lemma disk_inode_store s s' dev inum d :
  0 <= inum -> disk_wf s.(disk) -> dinode_ok d ->
  s'.(disk) = <[(dev, IBLOCK inum) := splice (dinode_off inum) (dinode_bytes d) (block s dev (IBLOCK inum))]> s.(disk) ->
  disk_inode s' dev inum = d /\
  forall inum', 0 <= inum' -> inum' <> inum -> disk_inode s' dev inum' = disk_inode s dev inum'.
Proof.
  intros Hi Hw Hd E. pose proof (dinode_off_bounds inum) as Hb.
  assert (length (block s dev (IBLOCK inum)) = 512%nat) as Hl by (by apply block_length).
  assert (length (dinode_bytes d) = 64%nat) as Hld by (apply dinode_bytes_length, Hd).
  assert (forall n, block s' dev n = if decide (n = IBLOCK inum)
    then splice (dinode_off inum) (dinode_bytes d) (block s dev (IBLOCK inum)) else block s dev n) as Hblk.
  { intros n. by apply block_update. }
  split.
  - unfold disk_inode. rewrite Hblk, decide_True by done.
    change DINODESZ with (Z.of_nat 64). rewrite <- Hld, slice_splice by lia. by apply dinode_roundtrip.
  - intros inum' Hi' Hne. unfold disk_inode. rewrite Hblk. case_decide as Eb; [|done].
    rewrite slice_splice_ne; [by rewrite Eb|apply dinode_off_bounds|lia|lia|]. rewrite Hld. unfold DINODESZ.
    destruct (dinode_off_disjoint inum' inum); [lia|lia|done|done|lia|lia].
Qed.

Section inode_rules.
Context {inv : list nat -> kstate -> Prop} {laws : BlockLaws inv}.
Implicit Types (B : list nat) (s : kstate).

Lemma iupdate_run B s ip i :
  inv B s -> free_locks s -> s.(icache) !! ip = Some i -> can_read B s i.(i_dev) (IBLOCK i.(i_inum)) ->
  disk_wf s.(disk) -> dinode_ok (to_dinode i) ->
  exists s', iupdate ip s = Ok tt s' /\
    after_io inv B (<[(i.(i_dev), IBLOCK i.(i_inum)) := splice (dinode_off i.(i_inum))
      (dinode_bytes (to_dinode i)) (block s i.(i_dev) (IBLOCK i.(i_inum)))]> s.(disk)) s s'.
Proof.
  intros Hi Hf Hip Hc Hw Hd. set (n := IBLOCK i.(i_inum)) in *.
  destruct (bread_run B s i.(i_dev) n Hi Hf Hc) as (bp & s1 & E & Hbp & Hu & Hi1 & Hd1 & Hfr & Ho).
  unfold iupdate. kexec by (by apply get_inode_Ok). kexec by (exact E).
  kexec by (exact (buf_data_run _ _ _ _ _ Hu)).
  pose proof (dinode_off_bounds i.(i_inum)). pose proof (dinode_bytes_length (to_dinode i)) as Hl.
  edestruct (put_back B s1 bp i.(i_dev) n) as (s2 & E2 & H2);
    [exact Hi1|eauto using io_frame_free|done|exact Hu| |].
  2:{ exists s2. split; [exact E2|]. rewrite Hd1 in H2. by eapply after_bread. }
  rewrite splice_length; [by apply block_length|lia|].
  rewrite (block_length s i.(i_dev) n Hw). rewrite Hl by apply Hd. change (Z.of_nat (Z.to_nat BSIZE)) with 512. lia.
Qed.

Lemma io_frame_icache s s' : io_frame s s' -> s'.(icache) = s.(icache).
Proof. by intros [-> _]. Qed.

Lemma inv_icache B s t : inv B s -> inv B (set_icache t s).
Proof. intros Hi. by apply (frame_law B s). Qed.

(** Locking an inode that is not in memory yet loads it from disk. *)
Lemma ilock_load B s ip i :
  inv B s -> free_locks s -> LkIcache ∉ s.(held) -> s.(icache) !! ip = Some i -> 0 < i.(i_ref) ->
  i.(i_flags) = 0 -> can_read B s i.(i_dev) (IBLOCK i.(i_inum)) ->
  (disk_inode s i.(i_dev) i.(i_inum)).(d_type) <> 0 ->
  exists s', ilock (Some ip) s = Ok tt s' /\ inv B s' /\ s'.(disk) = s.(disk) /\
    s'.(icache) = <[ip := set_i_flags (Z.lor I_BUSY I_VALID) (from_dinode (disk_inode s i.(i_dev) i.(i_inum)) i)]> s.(icache) /\
    s'.(held) = s.(held).
Proof.
  intros Hi Hf Hk Hip Hr Hfl Hc Hty. assert (ip < length s.(icache))%nat as Hlt by (by eapply lookup_lt_Some).
  set (s0 := set_icache (<[ip := set_i_flags (Z.lor i.(i_flags) I_BUSY) i]> s.(icache)) s).
  assert (inv B s0) as Hi0 by (by apply inv_icache).
  destruct (bread_run B s0 i.(i_dev) (IBLOCK i.(i_inum)) Hi0 Hf Hc) as (bp & s1 & E & Hbp & Hu & Hi1 & Hd1 & Hfr & Ho).
  pose proof (io_frame_icache _ _ Hfr) as Hic. pose proof (io_frame_locks _ _ Hfr) as Hh.
  set (d := disk_inode s i.(i_dev) i.(i_inum)) in *.
  unfold ilock. kexec by (by apply get_inode_Ok). rewrite (proj2 (Z.ltb_ge _ _)) by lia.
  kexec acquire_free. kexec by (by apply get_inode_Ok). rewrite Hfl.
  change (negb (Z.land 0 I_BUSY =? 0)) with false. cbv iota.
  kexec (mod_inode_run ip _ _ i). kexec (release_top LkIcache s.(held)).
  change (set_held (held s) _) with s0.
  kexec by (apply get_inode_Ok; split; [by apply list_lookup_insert_eq|reflexivity]).
  cbn [i_flags set_i_flags]. rewrite Hfl. change (Z.land (Z.lor 0 I_BUSY) I_VALID =? 0) with true. cbv iota.
  kexec by (exact E). kexec by (exact (buf_data_run _ _ _ _ _ Hu)).
  assert (s1.(icache) !! ip = Some (set_i_flags (Z.lor i.(i_flags) I_BUSY) i)) as Hip1.
  { rewrite Hic. by apply list_lookup_insert_eq. }
  kexec (mod_inode_run ip _ _ _). set (s2 := set_icache _ s1).
  destruct (brelse_quiet B s2 bp i.(i_dev) (IBLOCK i.(i_inum))) as (s3 & E3 & Hi3 & Hd3 & Hf3 & _).
  { by apply inv_icache. } { unfold free_locks, s2. cbn. by rewrite Hh. } { done. }
  { unfold block. cbn. rewrite Hd1. exact Hu. }
  kexec by (exact E3). pose proof (io_frame_icache _ _ Hf3) as Hic3.
  assert (ip < length s3.(icache))%nat by (rewrite Hic3; unfold s2; cbn; rewrite length_insert, Hic; cbn; by rewrite length_insert).
  kexec by (apply mod_inode_run; rewrite Hic3; apply list_lookup_insert_eq; rewrite Hic; cbn; by rewrite length_insert).
  kexec by (apply get_inode_Ok; split; [by apply list_lookup_insert_eq|reflexivity]).
  match goal with |- context [if ?b then _ else _] => replace b with false by (symmetry; by apply Z.eqb_neq) end.
  eexists. split_and!; [reflexivity|by apply inv_icache|cbn; rewrite Hd3; unfold s2; cbn; by rewrite Hd1| |].
  - cbn [icache set_icache]. rewrite Hic3. unfold s2. cbn [icache set_icache]. rewrite Hic. unfold s0. cbn [icache set_icache].
    rewrite !list_insert_insert_eq. f_equal. unfold from_dinode. cbn. rewrite Hfl. reflexivity.
  - cbn. rewrite (io_frame_locks _ _ Hf3). unfold s2. cbn. by rewrite Hh.
Qed.
End inode_rules.

(** ** File contents *)

(** The disk block of file block [bn]. *)
Definition addr_of (s : kstate) (i : inode) (bn : Z) : Z :=
  if bn <? NDIRECT then nth_addr i bn
  else get32 (4 * (bn - NDIRECT)) (block s i.(i_dev) (nth_addr i NDIRECT)).

Definition file_block (s : kstate) (i : inode) (bn : Z) : list Z := block s i.(i_dev) (addr_of s i bn).

Definition file_byte (s : kstate) (i : inode) (o : Z) : Z :=
  default 0 (file_block s i (o / BSIZE) !! Z.to_nat (o mod BSIZE)).

Definition file_bytes (s : kstate) (i : inode) (off n : Z) : list Z :=
  (fun k => file_byte s i (off + Z.of_nat k)) <$> seq 0 (Z.to_nat n).

(** File block [bn] exists and can be read. *)
Definition mapped (B : list nat) (s : kstate) (i : inode) (bn : Z) : Prop :=
  0 <= bn < MAXFILE /\ addr_of s i bn <> 0 /\ can_read B s i.(i_dev) (addr_of s i bn) /\
  (NDIRECT <= bn -> nth_addr i NDIRECT <> 0 /\ can_read B s i.(i_dev) (nth_addr i NDIRECT)).

Lemma file_bytes_app s i off a b :
  0 <= a -> 0 <= b -> file_bytes s i off (a + b) = file_bytes s i off a ++ file_bytes s i (off + a) b.
Proof.
  intros. unfold file_bytes. rewrite Z2Nat.inj_add, seq_app, fmap_app by lia. f_equal.
  apply list_eq. intros k. rewrite !list_lookup_fmap.
  destruct (decide (k < Z.to_nat b)%nat).
  - rewrite !lookup_seq_lt by lia. simpl. do 2 f_equal. lia.
  - by rewrite !lookup_seq_ge by lia.
Qed.

Lemma file_bytes_length s i off n : length (file_bytes s i off n) = Z.to_nat n.
Proof. unfold file_bytes. by rewrite length_fmap, length_seq. Qed.

(** Bytes that lie in one block. *)
Lemma file_bytes_chunk s i off m :
  disk_wf s.(disk) -> 0 <= off -> 0 <= m <= BSIZE - off mod BSIZE ->
  slice (off mod BSIZE) m (file_block s i (off / BSIZE)) = file_bytes s i off m.
Proof.
  intros Hw Ho Hm. pose proof (Z.mod_pos_bound off BSIZE ltac:(done)) as Hb.
  assert (length (file_block s i (off / BSIZE)) = Z.to_nat BSIZE) as Hl by (by apply block_length).
  apply list_eq. intros k. rewrite lookup_slice by lia. unfold file_bytes. rewrite list_lookup_fmap. case_decide as Hk.
  - rewrite lookup_seq_lt by lia. simpl. unfold file_byte.
    assert ((off + Z.of_nat k) / BSIZE = off / BSIZE /\ (off + Z.of_nat k) mod BSIZE = off mod BSIZE + Z.of_nat k) as [-> ->].
    { pose proof (Z.div_mod off BSIZE ltac:(done)). pose proof (Z.div_mod (off + Z.of_nat k) BSIZE ltac:(done)).
      pose proof (Z.mod_pos_bound (off + Z.of_nat k) BSIZE ltac:(done)). change BSIZE with 512 in *. lia. }
    rewrite Z2Nat.inj_add, Nat2Z.id by lia.
    destruct (lookup_lt_is_Some_2 (file_block s i (off / BSIZE)) (Z.to_nat (off mod BSIZE) + k)%nat) as [x Hx].
    { rewrite Hl. change BSIZE with 512 in *. lia. }
    by rewrite Hx.
  - rewrite lookup_seq_ge by lia. done.
Qed.

Lemma get_inode_run ip s i : s.(icache) !! ip = Some i -> get_inode ip s = Ok i s.
Proof. intros. by apply get_inode_Ok. Qed.

Section content_rules.
Context {inv : list nat -> kstate -> Prop} {laws : BlockLaws inv}.
Implicit Types (B : list nat) (s : kstate).

Lemma after_io_icache B d s s' : after_io inv B d s s' -> s'.(icache) = s.(icache).
Proof. intros (_ & _ & Hf & _). by apply io_frame_icache. Qed.

Lemma mapped_kept B s0 s i bn : after_io inv B s0.(disk) s0 s -> mapped B s0 i bn -> mapped B s i bn.
Proof.
  intros Ha (H1 & H2 & H3 & H4). pose proof Ha as (_ & Hd & _).
  assert (addr_of s i bn = addr_of s0 i bn) as E by (unfold addr_of, block; by rewrite Hd).
  unfold mapped. rewrite E. split_and!; [lia|lia|done|by eapply can_read_kept|].
  intros Hb. destruct (H4 Hb). split; [done|by eapply can_read_kept].
Qed.

(** [bmap] of a block that exists: its address, and nothing changes. *)
Lemma bmap_mapped B s ip i bn :
  inv B s -> free_locks s -> s.(icache) !! ip = Some i -> mapped B s i bn ->
  exists s', bmap ip bn s = Ok (addr_of s i bn) s' /\ after_io inv B s.(disk) s s'.
Proof.
  intros Hi Hf Hip ((Hb0 & Hb1) & Hnz & Hc & Hind). unfold bmap, addr_of in *.
  destruct (bn <? NDIRECT) eqn:Hdir.
  - exists s. split; [|split_and!; [done|done|done|by intros c d m e]].
    unfold addr_or_alloc. kexec by (by apply get_inode_run). by rewrite (proj2 (Z.eqb_neq _ _) Hnz).
  - apply Z.ltb_ge in Hdir. destruct (Hind Hdir) as [Hnz' Hc'].
    replace (bn - NDIRECT <? NINDIRECT) with true by (symmetry; apply Z.ltb_lt; unfold MAXFILE in *; lia).
    erewrite (kbind_Ok _ _ _ (nth_addr i NDIRECT) s).
    2:{ unfold addr_or_alloc. kexec by (by apply get_inode_run). by rewrite (proj2 (Z.eqb_neq _ _) Hnz'). }
    kexec by (by apply get_inode_run).
    destruct (bread_run B s i.(i_dev) _ Hi Hf Hc') as (bp & s1 & E & Hbp & Hu & Hi1 & Hd1 & Hfr & Ho).
    kexec by (exact E). kexec by (exact (buf_data_run _ _ _ _ _ Hu)). rewrite (proj2 (Z.eqb_neq _ _) Hnz).
    unfold kbind at 1, kret at 1.
    destruct (brelse_quiet B s1 bp i.(i_dev) (nth_addr i NDIRECT) Hi1) as (s2 & E2 & H2);
      [eauto using io_frame_free|done|unfold block in *; by rewrite Hd1|].
    kexec by (exact E2). exists s2. split; [done|]. rewrite Hd1 in H2. by eapply after_bread.
Qed.

Lemma readi_loop_run fuel B s0 s ip i off n tot dst :
  after_io inv B s0.(disk) s0 s -> free_locks s0 -> disk_wf s0.(disk) -> s0.(icache) !! ip = Some i ->
  0 <= off -> 0 <= tot -> (forall o, off <= o < off + (n - tot) -> mapped B s0 i (o / BSIZE)) ->
  n <= tot \/ (off + (n - tot) - 1) / BSIZE - off / BSIZE < Z.of_nat fuel ->
  exists s', readi_loop fuel ip off n tot dst s = Ok (dst ++ file_bytes s0 i off (n - tot)) s' /\
    after_io inv B s0.(disk) s0 s'.
Proof.
  intros Ha Hf Hw Hip. revert s off tot dst Ha.
  induction fuel as [|f IH]; intros s off tot dst Ha Ho Ht Hm Hfuel; cbn [readi_loop].
  { destruct Hfuel as [Hd|Hlt].
    - rewrite (proj2 (Z.ltb_ge tot n)) by lia. exists s. split; [|done]. unfold kret. f_equal.
      unfold file_bytes. replace (Z.to_nat (n - tot)) with 0%nat by lia. by rewrite app_nil_r.
    - destruct (tot <? n) eqn:E; [|apply Z.ltb_ge in E].
      + apply Z.ltb_lt in E. assert (off / BSIZE <= (off + (n - tot) - 1) / BSIZE) by (apply Z.div_le_mono; [done|lia]). lia.
      + exists s. split; [|done]. unfold kret. f_equal.
        unfold file_bytes. replace (Z.to_nat (n - tot)) with 0%nat by lia. by rewrite app_nil_r. }
  destruct (tot <? n) eqn:E; [apply Z.ltb_lt in E|apply Z.ltb_ge in E].
  2:{ exists s. split; [|done]. unfold kret. f_equal.
      unfold file_bytes. replace (Z.to_nat (n - tot)) with 0%nat by lia. by rewrite app_nil_r. }
  set (m := chunk n tot off). pose proof (Z.mod_pos_bound off BSIZE ltac:(done)) as Hmod.
  assert (0 < m <= n - tot /\ m <= BSIZE - off mod BSIZE) as [Hm1 Hm2] by (unfold m, chunk; lia).
  pose proof Ha as (Hi & Hd & _). pose proof (after_io_free _ _ _ _ Ha Hf) as Hfs.
  pose proof (after_io_icache _ _ _ _ Ha) as Hic.
  assert (mapped B s i (off / BSIZE)) as Hms by (eapply mapped_kept; [exact Ha|apply Hm; lia]).
  kexec by (apply get_inode_run; by rewrite Hic).
  destruct (bmap_mapped B s ip i (off / BSIZE) Hi Hfs) as (s1 & E1 & H1); [by rewrite Hic|done|].
  kexec by (exact E1). pose proof H1 as (Hi1 & Hd1 & _). pose proof (after_io_free _ _ _ _ H1 Hfs) as Hf1.
  destruct (bread_run B s1 i.(i_dev) (addr_of s i (off / BSIZE)) Hi1 Hf1) as (bp & s2 & E2 & Hbp & Hu & Hi2 & Hd2 & Hfr & Hok).
  { eapply can_read_kept; [exact H1|]. apply Hms. }
  kexec by (exact E2). kexec by (exact (buf_data_run _ _ _ _ _ Hu)). fold m.
  destruct (brelse_quiet B s2 bp i.(i_dev) (addr_of s i (off / BSIZE)) Hi2) as (s3 & E3 & H3);
    [eauto using io_frame_free|done|unfold block in *; by rewrite Hd2|].
  kexec by (exact E3).
  assert (after_io inv B s0.(disk) s0 s3) as Ha3.
  { eapply after_io_trans; [exact Ha|]. eapply after_io_trans; [exact H1|].
    rewrite Hd2, Hd1, Hd in H3. by eapply after_bread. }
  replace (block s1 i.(i_dev) (addr_of s i (off / BSIZE))) with (file_block s0 i (off / BSIZE)).
  2:{ unfold file_block, addr_of, block. rewrite Hd1, Hd. done. }
  rewrite file_bytes_chunk by (done || lia).
  destruct (IH s3 (off + m) (tot + m) (dst ++ file_bytes s0 i off m) Ha3) as (s4 & E4 & H4);
    [lia|lia|intros o Hoo; apply Hm; lia| |].
  - destruct (decide (n <= tot + m)) as [|Hlt]; [by left|right].
    assert (m = BSIZE - off mod BSIZE) as Em by (unfold m, chunk in Hlt |- *; lia).
    replace (off + m + (n - (tot + m)) - 1) with (off + (n - tot) - 1) by lia.
    destruct Hfuel as [|Hfuel]; [lia|].
    assert ((off + m) / BSIZE = off / BSIZE + 1) as ->.
    { pose proof (Z.div_mod off BSIZE ltac:(done)). rewrite Em.
      replace (off + (BSIZE - off mod BSIZE)) with ((off / BSIZE + 1) * BSIZE) by (change BSIZE with 512 in *; lia).
      by rewrite Z.div_mul. }
    lia.
  - exists s4. split; [|done]. rewrite E4. f_equal. rewrite <- app_assoc. f_equal.
    rewrite <- file_bytes_app by lia. f_equal. lia.
Qed.
End content_rules.

(** ** Properties *)

Lemma readi_run `{Devsw} (B : list nat) (s : kstate) (ip : nat) (i : inode) (off n : Z) :
  bcache_inv B s -> free_locks s -> s.(icache) !! ip = Some i -> i.(i_type) <> T_DEV ->
  0 <= off < 2 ^ 32 -> 0 <= n < 2 ^ 32 -> 0 <= i.(i_size) < 2 ^ 31 ->
  (forall o, off <= o < i.(i_size) -> mapped B s i (o / BSIZE)) ->
  (off > i.(i_size) \/ off + n >= 2 ^ 32 -> readi ip off n s = Ok (-1, []) s) /\
  (off <= i.(i_size) -> off + n < 2 ^ 32 ->
   let m := Z.min n (i.(i_size) - off) in
   exists s', readi ip off n s = Ok (m, file_bytes s i off m) s' /\
     bcache_inv B s' /\ s'.(disk) = s.(disk) /\ io_frame s s').
Proof.
  intros Hi Hf Hip Hty Ho Hn Hsz Hmap. pose proof Hi as (_ & _ & _ & _ & Hw & _).
  assert (readi ip off n s =
    (if (off >? i.(i_size)) || (u32 (off + n) <? off) then kret (-1, []) else
     let n := if off + n >? i.(i_size) then i.(i_size) - off else n in
     let* dst := readi_loop (rounds n) ip off n 0 [] in kret (s32 n, dst)) s) as E.
  { unfold readi. kexec by (by apply get_inode_run). by rewrite (proj2 (Z.eqb_neq _ _) Hty). }
  rewrite E. clear E. split.
  - intros Hbad. replace ((off >? i.(i_size)) || (u32 (off + n) <? off)) with true; [done|].
    symmetry. apply orb_true_iff. destruct (decide (off > i.(i_size))) as [Hgt|Hle].
    + left. rewrite Z.gtb_ltb. apply Z.ltb_lt. lia.
    + right. apply Z.ltb_lt. unfold u32.
      replace (off + n) with ((off + n - 2 ^ 32) + 1 * 2 ^ 32) by lia. rewrite Z.mod_add, Z.mod_small; lia.
  - intros Hle Hwrap m. replace ((off >? i.(i_size)) || (u32 (off + n) <? off)) with false.
    2:{ symmetry. apply orb_false_iff. rewrite Z.gtb_ltb, !Z.ltb_ge. rewrite u32_small; lia. }
    replace (if off + n >? i.(i_size) then i.(i_size) - off else n) with m.
    2:{ unfold m. rewrite Z.gtb_ltb. destruct (Z.ltb_spec i.(i_size) (off + n)); lia. }
    destruct (readi_loop_run (inv := bcache_inv) (rounds m) B s s ip i off m 0 []) as (s' & E & Ha); try done; try lia.
    { split_and!; [done|done|done|by intros c d k e]. }
    { intros o Hoo. apply Hmap. unfold m in Hoo. lia. }
    { right. unfold rounds. pose proof (Z.div_pos m BSIZE ltac:(lia) ltac:(done)).
      rewrite Z2Nat.id by lia. rewrite Z.sub_0_r.
      pose proof (Z.div_mod off BSIZE ltac:(done)). pose proof (Z.div_mod m BSIZE ltac:(done)).
      pose proof (Z.mod_pos_bound off BSIZE ltac:(done)). pose proof (Z.mod_pos_bound m BSIZE ltac:(done)).
      assert ((off + m - 1) / BSIZE < off / BSIZE + m / BSIZE + 2); [|lia].
      apply Z.div_lt_upper_bound; [done|]. change BSIZE with 512 in *. lia. }
    cbv zeta. kexec by (exact E). rewrite Z.sub_0_r. simpl app. exists s'. split.
    + unfold kret. do 2 f_equal. apply s32_small. unfold m. lia.
    + by destruct Ha as (? & ? & ? & _).
Qed.

(** C19: [readi] on a regular file: an offset beyond the end, or a range that
    wraps around, is refused; otherwise it returns the bytes of the file from
    the offset on, as many as asked for or as there are, through direct and
    indirect blocks, and changes neither the disk nor anything but the cache. *)
Theorem readi_correct `{Devsw} (B : list nat) (s : kstate) (ip : nat) (i : inode) (off n : Z) :
  bcache_inv B s -> free_locks s -> s.(icache) !! ip = Some i -> i.(i_type) <> T_DEV ->
  0 <= off < 2 ^ 32 -> 0 <= n < 2 ^ 32 -> 0 <= i.(i_size) < 2 ^ 31 ->
  (forall o, off <= o < i.(i_size) -> mapped B s i (o / BSIZE)) ->
  (off > i.(i_size) \/ off + n >= 2 ^ 32 -> readi ip off n s = Ok (-1, []) s) /\
  (off <= i.(i_size) -> off + n < 2 ^ 32 ->
   let m := Z.min n (i.(i_size) - off) in
   exists s', readi ip off n s = Ok (m, file_bytes s i off m) s' /\
     bcache_inv B s' /\ s'.(disk) = s.(disk) /\ io_frame s s').
Proof. apply readi_run. Qed.

Definition hello_block : list Z := [104; 101; 108; 108; 111] ++ replicate 507 0.
Definition hello_inode : inode := mk_inode 1 1 1 I_VALID T_FILE 0 0 1 5 (10 :: replicate 12 0).
Definition hello_disk : gmap (Z * Z) (list Z) := <[(1, 10) := hello_block]> (small_disk zeros).
Definition hello_state : kstate := set_icache [hello_inode] (boot_cache hello_disk).

Lemma hello_disk_wf : disk_wf hello_disk.
Proof.
  intros k x. unfold hello_disk. rewrite lookup_insert_Some. intros [[_ <-]|[_ Hx]]; [reflexivity|].
  revert Hx. by apply small_disk_wf.
Qed.

Lemma hello_ok : bcache_inv [] hello_state /\ free_locks hello_state /\ hello_state.(disk) = hello_disk.
Proof.
  pose proof hello_disk_wf as Hw. destruct (boot_cache_ok hello_disk Hw) as (Hi & _ & _ & Hd). split_and!.
  - by apply (frame_law (inv := bcache_inv) [] (boot_cache hello_disk)).
  - exact (boot_cache_free hello_disk Hw).
  - exact Hd.
Qed.

(** A machine without device drivers. *)
Definition no_devices : Devsw := {| dev_read := fun _ => None; dev_write := fun _ => None |}.

(** A read of ten bytes from offset 1 of the five-byte file "hello". *)
Lemma readi_correct_witness :
  exists s', @readi no_devices 0 1 10 hello_state = Ok (4, [101; 108; 108; 111]) s'.
Proof.
  destruct hello_ok as (Hi & Hf & Hd).
  destruct (@readi_correct no_devices [] hello_state 0 hello_inode 1 10) as [_ H];
    [exact Hi|exact Hf|reflexivity|discriminate|lia|lia|simpl; lia| |].
  - intros o Ho. simpl in Ho. unfold BSIZE. rewrite Z.div_small by lia.
    assert (addr_of hello_state hello_inode 0 = 10) as Ea by reflexivity. unfold mapped. rewrite Ea.
    split; [split; [lia|reflexivity]|]. split; [lia|]. split; [apply drive1_can_read; lia|].
    unfold NDIRECT. lia.
  - destruct H as (s' & E & _); [simpl; lia|lia|]. exists s'. rewrite E. f_equal.
Defined.

(** The inode table counts references: [iget] adds one to the count of the
    inode it is asked for and to no other, returns a slot that holds it, and
    keeps one slot per inode; it panics only when the inode is not cached and
    every slot is in use.  A slot taken over starts invalid. *)
Theorem iget_counts (s : kstate) (dev inum : Z) :
  icache_inv s.(icache) -> LkIcache ∉ s.(held) ->
  (exists ip i t, iget dev inum s = Ok ip (set_icache t s) /\ icache_inv t /\
     t !! ip = Some i /\ i.(i_dev) = dev /\ i.(i_inum) = inum /\ 0 < i.(i_ref) /\
     (i.(i_ref) = 1 -> i.(i_flags) = 0 \/ s.(icache) !! ip = Some (set_i_ref 0 i)) /\
     (forall d n, refs t d n = refs s.(icache) d n + if decide (d = dev /\ n = inum) then 1 else 0)) \/
  (iget dev inum s = Panic "iget: no inodes" /\ forall ip i, s.(icache) !! ip = Some i -> 0 < i.(i_ref) /\ ~ hit dev inum i).
Proof.
  intros Hinv Hk. assert (forall d n i, i.(i_dev) = dev -> i.(i_inum) = inum -> ref_for d n i =
    if decide (d = dev /\ n = inum) then i.(i_ref) else 0) as Hrf.
  { intros d n i <- <-. unfold ref_for. case_decide as Hc; [destruct Hc as [-> ->]; by rewrite !Z.eqb_refl|].
    destruct (Z.eqb_spec i.(i_dev) d), (Z.eqb_spec i.(i_inum) n); simpl; try done. naive_solver. }
  destruct (list_find (hit dev inum) s.(icache)) as [[a i]|] eqn:Ef.
  - left. pose proof Ef as (Ha & (Hr & Hd & Hn) & _)%list_find_Some.
    exists a. eexists _, _. split_and!; [by apply iget_hit|by apply icache_inv_count; [| | |lia]
      |apply list_lookup_insert_eq; by eapply lookup_lt_Some|done|done|cbn; lia|cbn; lia|].
    intros d n. rewrite (refs_insert _ _ i) by done. rewrite !Hrf by done. case_decide; cbn; lia.
  - destruct (list_find (fun i => i.(i_ref) = 0) s.(icache)) as [[a i]|] eqn:Ee.
    + left. pose proof Ee as (Ha & Hr & _)%list_find_Some. cbv beta in Hr.
      exists a. eexists _, _. split_and!; [by eapply iget_miss|eapply icache_inv_fresh; [done|done|cbn; lia|]
        |apply list_lookup_insert_eq; by eapply lookup_lt_Some|done|done|cbn; lia|intros _; by left|].
      * cbn. intros b k Hb. eapply list_find_None_lookup; [exact Ef|exact Hb].
      * intros d n. rewrite (refs_insert _ _ i) by done. rewrite (Hrf d n (set_i_flags _ _)) by done.
        assert (ref_for d n i = 0) as -> by (unfold ref_for; rewrite Hr; by destruct (_ && _)).
        case_decide; cbn; lia.
    + right. split; [by apply iget_full|]. intros ip i Hip. split.
      * destruct Hinv as [Hn _]. specialize (Hn ip i Hip).
        pose proof (list_find_None_lookup _ _ _ _ Ee Hip) as Hz. cbv beta in Hz. lia.
      * by eapply list_find_None_lookup.
Qed.

Lemma iget_counts_witness :
  exists ip s', iget 1 1 (set_icache [hello_inode] bare_state) = Ok ip s' /\ refs s'.(icache) 1 1 = 2.
Proof.
  destruct (iget_counts (set_icache [hello_inode] bare_state) 1 1) as [(ip & i & t & E & _ & _ & _ & _ & _ & _ & Hr)|[E _]].
  - split.
    + intros [|a] i Hi; simplify_eq/=. lia.
    + intros [|a] [|b] i j Hi Hj; simplify_eq/=. done.
  - apply not_elem_of_nil.
  - exists ip. eexists. split; [exact E|]. cbn [icache set_icache]. rewrite Hr. reflexivity.
  - discriminate E.
Defined.

(** What [iupdate] saves is what [ilock] loads: after [iupdate] the on-disk
    inode is the one in memory and every other inode on disk is untouched; and
    locking an inode that is not in memory yet fills it from disk. *)
Theorem inode_save_load (B : list nat) (s : kstate) (ip : nat) (i : inode) :
  bcache_inv B s -> free_locks s -> s.(icache) !! ip = Some i -> 0 <= i.(i_inum) ->
  can_read B s i.(i_dev) (IBLOCK i.(i_inum)) -> dinode_ok (to_dinode i) ->
  exists s1, iupdate ip s = Ok tt s1 /\ bcache_inv B s1 /\ s1.(icache) = s.(icache) /\
    disk_inode s1 i.(i_dev) i.(i_inum) = to_dinode i /\
    (forall n, 0 <= n -> n <> i.(i_inum) -> disk_inode s1 i.(i_dev) n = disk_inode s i.(i_dev) n) /\
    forall s2 jp j, bcache_inv B s2 -> s2.(disk) = s1.(disk) -> s2.(bufs) = s1.(bufs) -> free_locks s2 -> LkIcache ∉ s2.(held) ->
      s2.(icache) !! jp = Some j -> j.(i_dev) = i.(i_dev) -> j.(i_inum) = i.(i_inum) ->
      0 < j.(i_ref) -> j.(i_flags) = 0 -> i.(i_type) <> 0 ->
      exists s3 k, ilock (Some jp) s2 = Ok tt s3 /\ s3.(icache) !! jp = Some k /\
        to_dinode k = to_dinode i /\ k.(i_flags) = Z.lor I_BUSY I_VALID.
Proof.
  intros Hi Hf Hip Hn Hc Hd. pose proof Hi as (_ & _ & _ & _ & Hw & _).
  destruct (iupdate_run B s ip i Hi Hf Hip Hc Hw Hd) as (s1 & E & Ha). pose proof Ha as (Hi1 & Hd1 & Hfr & Hok).
  destruct (disk_inode_store s s1 i.(i_dev) i.(i_inum) (to_dinode i) Hn Hw Hd Hd1) as [Hsame Hother].
  exists s1. split_and!; [done|done|by apply io_frame_icache|done|done|].
  intros s2 jp j Hi2 Hd2 Hb2 Hf2 Hk Hjp Ejd Eji Hjr Hjf Hty.
  assert (disk_inode s2 j.(i_dev) j.(i_inum) = to_dinode i) as Edi.
  { rewrite Ejd, Eji, <- Hsame. unfold disk_inode, block. by rewrite Hd2. }
  destruct (ilock_load B s2 jp j Hi2 Hf2 Hk Hjp Hjr Hjf) as (s3 & E3 & _ & _ & Hic & _).
  - rewrite Ejd, Eji. destruct (can_read_kept B _ s s1 _ _ Ha Hc) as (H1 & H2 & H3). split_and!; [done| |done].
    intros b Hb. destruct (H2 b Hb) as (d & m & e & (bp & Hbp & Hu) & Hne). exists d, m, e. split; [|done].
    exists bp. by rewrite Hb2.
  - by rewrite Edi.
  - rewrite Edi in Hic. exists s3, (set_i_flags (Z.lor I_BUSY I_VALID) (from_dinode (to_dinode i) j)).
    split_and!; [exact E3| |reflexivity|reflexivity].
    rewrite Hic. apply list_lookup_insert_eq. by eapply lookup_lt_Some.
Qed.

Lemma inode_save_load_witness :
  exists s1, iupdate 0 hello_state = Ok tt s1 /\ disk_inode s1 1 1 = to_dinode hello_inode.
Proof.
  destruct hello_ok as (Hi & Hf & _).
  destruct (inode_save_load [] hello_state 0 hello_inode) as (s1 & E & _ & _ & Hs & _);
    [exact Hi|exact Hf|reflexivity|simpl; lia|apply drive1_can_read; vm_compute; split; (discriminate || reflexivity)| |].
  - unfold dinode_ok. cbn. unfold T_FILE. split_and!; try lia. repeat (constructor; [lia|]). constructor.
  - exists s1. split; [exact E|exact Hs].
Defined.
