(* ===== verification/Writei.v ===== *)
(** Writing files: what writei and bmap of fs.c do to a file and to the rest of
    the file system, with the allocation of direct and indirect blocks.

    The state of the file system on one disk is described by its bitmap and its
    data blocks: [fs_ok] says that the super block, inodes and bitmap are never
    handed out and that free blocks are zero, [file_ok] that the blocks of a
    file are its own. *)

From S2P Require Import Prelude CString State Ide Bio Bytes FsBlock Inode.

Implicit Types s : kstate.

(** ** The disk *)

(** The first block behind super block, inodes and bitmap. *)
Definition data_start (s : kstate) (dev : Z) : Z :=
  BBLOCK ((sb_of s dev).(sb_size) - 1) (sb_of s dev).(sb_ninodes) + 1.
Definition data_block (s : kstate) (dev b : Z) : Prop := data_start s dev <= b < (sb_of s dev).(sb_size).
Definition zero_block : list Z := replicate (Z.to_nat BSIZE) 0.

Record fs_ok (s : kstate) (dev : Z) : Prop := {
  fs_wf : disk_wf s.(disk);
  fs_dev : dev = 0 \/ dev = 1;
  fs_ninodes : 0 <= (sb_of s dev).(sb_ninodes);
  fs_size : data_start s dev <= (sb_of s dev).(sb_size) < 2 ^ 28;
  fs_meta b : 0 <= b < data_start s dev -> in_bitmap s dev b = true;
  fs_zero b : data_block s dev b -> in_bitmap s dev b = false -> block s dev b = zero_block
}.

(** At least [k] blocks are free. *)
Definition free_blocks (s : kstate) (dev : Z) (k : nat) : Prop :=
  exists l, NoDup l /\ (k <= length l)%nat /\
    forall c, c ∈ l -> 0 <= c < (sb_of s dev).(sb_size) /\ in_bitmap s dev c = false.

Lemma data_start_ge s dev :
  fs_ok s dev -> 4 <= data_start s dev /\ 1 <= (sb_of s dev).(sb_size) /\
    forall b, 0 <= b < (sb_of s dev).(sb_size) -> 3 <= BBLOCK b (sb_of s dev).(sb_ninodes) < data_start s dev.
Proof.
  intros [_ _ Hn [Hs _] _ _]. unfold data_start in *. set (sz := (sb_of s dev).(sb_size)) in *.
  set (ni := (sb_of s dev).(sb_ninodes)) in *. unfold BBLOCK in *.
  pose proof (Z.div_pos ni IPB Hn ltac:(done)) as Hni.
  assert (1 <= sz) as H1.
  { destruct (Z.lt_ge_cases (sz - 1) 0) as [Hlt|Hge]; [|lia].
    destruct (Z.eq_dec sz 0) as [E|]; [rewrite E in Hs; change ((0 - 1) / BPB) with (-1) in Hs; lia|].
    assert (sz - 1 <= (sz - 1) / BPB) by (apply Z.div_le_lower_bound; [done|change BPB with 4096; lia]). lia. }
  pose proof (Z.div_pos (sz - 1) BPB ltac:(lia) ltac:(done)). split; [lia|]. split; [done|].
  intros b Hb. pose proof (Z.div_pos b BPB ltac:(lia) ltac:(done)).
  assert (b / BPB <= (sz - 1) / BPB) by (apply Z.div_le_mono; [done|lia]). lia.
Qed.

(** ** Allocation *)

(** [s'] is [s] with block [r] taken. *)
Record took (dev r : Z) (s s' : kstate) : Prop := {
  tk_sb : sb_of s' dev = sb_of s dev;
  tk_wf : disk_wf s'.(disk);
  tk_new : data_block s dev r;
  tk_free : in_bitmap s dev r = false;
  tk_bits c : 0 <= c -> in_bitmap s' dev c = in_bitmap s dev c || bool_decide (c = r);
  tk_blocks n : (forall b, 0 <= b < (sb_of s dev).(sb_size) -> n <> BBLOCK b (sb_of s dev).(sb_ninodes)) ->
    block s' dev n = block s dev n
}.

Lemma took_data dev r s s' n : fs_ok s dev -> took dev r s s' -> data_start s dev <= n -> block s' dev n = block s dev n.
Proof.
  intros Hf Ht Hn. apply (tk_blocks _ _ _ _ Ht). intros b Hb ->. destruct (data_start_ge s dev Hf) as (_ & _ & H).
  specialize (H b Hb). lia.
Qed.

Lemma sb_data s s' dev : sb_of s' dev = sb_of s dev -> data_start s' dev = data_start s dev.
Proof. intros E. unfold data_start. by rewrite E. Qed.

Lemma took_ok dev r s s' : fs_ok s dev -> took dev r s s' -> fs_ok s' dev.
Proof.
  intros Hf Ht. pose proof Hf as [H1 H2 H3 H4 H5 H6]. pose proof Ht as [T1 T2 T3 T4 T5 T6].
  pose proof (sb_data _ _ _ T1) as Ed.
  split; unfold data_block in *; rewrite ?Ed, ?T1; try done.
  - intros b Hb. by rewrite T5, H5 by lia.
  - intros b Hb Hfree. destruct (data_start_ge s dev Hf) as (H0 & _). rewrite T5 in Hfree by lia.
    apply orb_false_iff in Hfree as [Hb0 _]. rewrite (took_data dev r s s' b Hf Ht) by lia. by apply H6.
Qed.

Lemma took_free dev r s s' k : took dev r s s' -> free_blocks s dev (S k) -> free_blocks s' dev k.
Proof.
  intros Ht (l & Hn & Hl & Hc).
  assert (forall c, c ∈ l -> c <> r -> 0 <= c < (sb_of s' dev).(sb_size) /\ in_bitmap s' dev c = false) as Hkeep.
  { intros c Hcl Hr. destruct (Hc c Hcl) as [Hb Hf]. rewrite (tk_sb _ _ _ _ Ht). split; [done|].
    rewrite (tk_bits _ _ _ _ Ht), Hf, bool_decide_eq_false_2 by (done || lia). done. }
  destruct (decide (r ∈ l)) as [Hr|Hr].
  - apply list_elem_of_split in Hr as (l1 & l2 & ->). exists (l1 ++ l2).
    apply NoDup_app in Hn as (N1 & N2 & N3). apply NoDup_cons in N3 as [N3 N4].
    assert (forall c, c ∈ l1 ++ l2 -> c <> r) as Hne.
    { intros c [H|H]%elem_of_app ->; [apply (N2 r H); by left|done]. }
    split; [|split].
    + apply NoDup_app. split; [done|]. split; [|done]. intros x Hx Hx2. apply (N2 x Hx). by right.
    + rewrite length_app in *. cbn [length] in Hl. lia.
    + intros c Hcl. apply Hkeep; [set_solver|by apply Hne].
  - exists l. split; [done|]. split; [lia|]. intros c Hcl. apply Hkeep; [done|]. by intros ->.
Qed.

(** ** Writing a block of a file *)

(** [s'] is [s] with new contents [d] of data block [b]. *)
Record stored (dev b : Z) (d : list Z) (s s' : kstate) : Prop := {
  so_data : data_block s dev b;
  so_used : in_bitmap s dev b = true;
  so_len : length d = Z.to_nat BSIZE;
  so_disk : s'.(disk) = <[(dev, b) := d]> s.(disk)
}.

Lemma stored_block dev b d s s' n : stored dev b d s s' -> block s' dev n = if decide (n = b) then d else block s dev n.
Proof. intros Hs. by apply block_update, (so_disk _ _ _ _ _ Hs). Qed.

Lemma stored_sb dev b d s s' : fs_ok s dev -> stored dev b d s s' -> sb_of s' dev = sb_of s dev.
Proof.
  intros Hf Hs. unfold sb_of at 1. rewrite (stored_block _ _ _ _ _ 1 Hs). rewrite decide_False; [done|].
  intros E. destruct (so_data _ _ _ _ _ Hs) as [Hb _], (data_start_ge s dev Hf) as (H4 & _). rewrite <- E in Hb. lia.
Qed.

Lemma stored_bits dev b d s s' c :
  fs_ok s dev -> stored dev b d s s' -> 0 <= c < (sb_of s dev).(sb_size) -> in_bitmap s' dev c = in_bitmap s dev c.
Proof.
  intros Hf Hs Hc. unfold in_bitmap. rewrite (stored_sb _ _ _ _ _ Hf Hs), (stored_block _ _ _ _ _ _ Hs).
  rewrite decide_False; [done|]. intros E. destruct (so_data _ _ _ _ _ Hs) as [Hb _], (data_start_ge s dev Hf) as (_ & _ & H).
  specialize (H c Hc). lia.
Qed.

Lemma stored_ok dev b d s s' : fs_ok s dev -> stored dev b d s s' -> fs_ok s' dev.
Proof.
  intros Hf Hs. pose proof Hf as [H1 H2 H3 H4 H5 H6]. pose proof (stored_sb _ _ _ _ _ Hf Hs) as Esb.
  pose proof (sb_data _ _ _ Esb) as Ed. split; unfold data_block in *; rewrite ?Ed, ?Esb; try done.
  - rewrite (so_disk _ _ _ _ _ Hs). intros k x. rewrite lookup_insert_Some. intros [[_ <-]|[_ Hx]]; [apply (so_len _ _ _ _ _ Hs)|by eapply H1].
  - intros c Hc. rewrite (stored_bits _ _ _ _ _ c Hf Hs) by lia. by apply H5.
  - intros c Hc Hfr. destruct (data_start_ge s dev Hf) as (H0 & _). rewrite (stored_bits _ _ _ _ _ c Hf Hs) in Hfr by lia.
    rewrite (stored_block _ _ _ _ _ _ Hs), decide_False; [by apply H6|]. intros ->. by rewrite (so_used _ _ _ _ _ Hs) in Hfr.
Qed.

Lemma stored_free dev b d s s' k : fs_ok s dev -> stored dev b d s s' -> free_blocks s dev k -> free_blocks s' dev k.
Proof.
  intros Hf Hs (l & Hn & Hl & Hc). exists l. split; [done|]. split; [done|]. intros c Hcl. destruct (Hc c Hcl) as [Hb Hfr].
  rewrite (stored_sb _ _ _ _ _ Hf Hs), (stored_bits _ _ _ _ _ c Hf Hs) by done. done.
Qed.

(** ** balloc *)

Lemma fs_bitmap_ready B s dev :
  fs_ok s dev -> (forall n, 0 <= n < data_start s dev -> not_in_use B s dev n) -> (length B < NBUF)%nat ->
  bitmap_ready B s dev.
Proof.
  intros Hf Hnu HB. pose proof (data_start_ge s dev Hf) as (H4 & H1 & Hb). destruct Hf as [Hw Hd Hn Hs _ _].
  assert (forall n, 0 <= n < data_start s dev -> can_read B s dev n) as Hc.
  { intros n Hn0. split; [split; [done|lia]|]. split; [by apply Hnu|done]. }
  split; [apply Hc; lia|]. split; [done|]. split; [done|]. intros b Hb0. specialize (Hb b Hb0). apply Hc. lia.
Qed.

Lemma bcache_disk_wf B s : bcache_inv B s -> disk_wf s.(disk).
Proof. by intros (_ & _ & _ & _ & Hw & _). Qed.

Lemma balloc_takes B s dev :
  bcache_inv B s -> free_locks s -> fs_ok s dev -> free_blocks s dev 1 ->
  (forall n, 0 <= n < data_start s dev -> not_in_use B s dev n) -> (length B < NBUF)%nat ->
  exists r s', balloc dev s = Ok r s' /\ after_io bcache_inv B s'.(disk) s s' /\ took dev r s s'.
Proof.
  intros Hi Hl Hf (fl & _ & Hlen & Hfree) Hnu HB.
  destruct fl as [|c fl]; [cbn in Hlen; lia|]. destruct (Hfree c ltac:(left)) as [Hc Hcf].
  destruct (least_free (in_bitmap s dev) (Z.to_nat c)) as (r & Hr0 & Hrf & Hmin); [by rewrite Z2Nat.id by lia|].
  rewrite Z2Nat.id in Hr0 by lia.
  pose proof (fs_bitmap_ready B s dev Hf Hnu HB) as Hr. pose proof Hr as (_ & Hw & Hni & _).
  destruct (data_start_ge s dev Hf) as (H4 & _ & Hbb).
  assert (r / BPB * BPB < (sb_of s dev).(sb_size)) as Hlt by (pose proof (Z.mul_div_le r BPB ltac:(done)); lia).
  destruct (balloc_run B s dev r Hi Hl Hr ltac:(lia) Hlt Hrf Hmin) as (s' & E & Hi' & Hd & Hfr & Ho).
  assert (data_block s dev r) as Hdr.
  { split; [|lia]. destruct (Z.lt_ge_cases r (data_start s dev)) as [Hlo|]; [|done].
    rewrite (fs_meta s dev Hf) in Hrf by lia. done. }
  exists r, s'. split; [done|]. split; [by split_and!|]. split; try done.
  - eapply sb_of_update; [|exact Hd]. specialize (Hbb r ltac:(lia)). lia.
  - by apply (bcache_disk_wf B).
  - apply in_bitmap_set; [lia|done|done|done].
  - intros n Hn. rewrite (block_update _ _ _ _ _ _ Hd), decide_False; [done|]. apply Hn. lia.
Qed.

(** ** The blocks of a file *)

(** The disk block of file block [bn], 0 when there is none. *)
Definition iaddr (s : kstate) (i : inode) (bn : Z) : Z :=
  if bn <? NDIRECT then nth_addr i bn
  else if nth_addr i NDIRECT =? 0 then 0
  else get32 (4 * (bn - NDIRECT)) (block s i.(i_dev) (nth_addr i NDIRECT)).

(** A block that belongs to the file, as data or as its indirect block. *)
Definition owned (s : kstate) (i : inode) (b : Z) : Prop :=
  b <> 0 /\ ((exists bn, 0 <= bn < MAXFILE /\ iaddr s i bn = b) \/ nth_addr i NDIRECT = b).

Record file_ok (s : kstate) (i : inode) : Prop := {
  fi_len : length i.(i_addrs) = 13%nat;
  fi_owned b : owned s i b -> data_block s i.(i_dev) b /\ in_bitmap s i.(i_dev) b = true;
  fi_inj a b : 0 <= a < MAXFILE -> 0 <= b < MAXFILE -> iaddr s i a <> 0 -> iaddr s i a = iaddr s i b -> a = b;
  fi_ind bn : 0 <= bn < MAXFILE -> nth_addr i NDIRECT <> 0 -> iaddr s i bn <> nth_addr i NDIRECT
}.

Lemma owned_addr s i bn : 0 <= bn < MAXFILE -> iaddr s i bn <> 0 -> owned s i (iaddr s i bn).
Proof. intros Hb Hn. split; [done|]. left. by exists bn. Qed.

Lemma owned_ind s i : nth_addr i NDIRECT <> 0 -> owned s i (nth_addr i NDIRECT).
Proof. intros Hn. split; [done|]. by right. Qed.

(** Addresses depend on the inode and on the contents of its indirect block. *)
Lemma iaddr_ext s s' i bn :
  (nth_addr i NDIRECT <> 0 -> block s' i.(i_dev) (nth_addr i NDIRECT) = block s i.(i_dev) (nth_addr i NDIRECT)) ->
  iaddr s' i bn = iaddr s i bn.
Proof.
  intros Hb. unfold iaddr. destruct (_ <? _); [done|]. destruct (Z.eqb_spec (nth_addr i NDIRECT) 0); [done|].
  by rewrite Hb.
Qed.

Lemma owned_ext s s' i b : (forall bn, iaddr s' i bn = iaddr s i bn) -> owned s' i b <-> owned s i b.
Proof. intros He. unfold owned. setoid_rewrite He. done. Qed.

(** A change of the disk that keeps the indirect block and what is marked. *)
Lemma file_ok_ext s s' i :
  file_ok s i -> sb_of s' i.(i_dev) = sb_of s i.(i_dev) -> (forall bn, iaddr s' i bn = iaddr s i bn) ->
  (forall c, data_block s i.(i_dev) c -> in_bitmap s i.(i_dev) c = true -> in_bitmap s' i.(i_dev) c = true) -> file_ok s' i.
Proof.
  intros [H1 H2 H3 H4] Esb He Hbits. split; [done| | |].
  - intros b Hb. apply (owned_ext s s' i b He) in Hb. destruct (H2 b Hb) as [Hd Hm].
    split; [|by apply Hbits]. unfold data_block. by rewrite (sb_data _ _ _ Esb), Esb.
  - intros a b. rewrite !He. apply H3.
  - intros bn. rewrite He. apply H4.
Qed.

Lemma took_file dev r s s' i : fs_ok s dev -> took dev r s s' -> i.(i_dev) = dev -> file_ok s i ->
  file_ok s' i /\ (forall bn, iaddr s' i bn = iaddr s i bn) /\ ~ owned s i r.
Proof.
  intros Hf Ht <- Hi. pose proof (data_start_ge s _ Hf) as (H4 & _).
  assert (forall bn, iaddr s' i bn = iaddr s i bn) as He.
  { intros bn. apply iaddr_ext. intros Hn. apply (took_data _ r s s'); [done|done|].
    apply (fi_owned s i Hi), owned_ind. done. }
  split; [|split; [done|]].
  - apply (file_ok_ext s); [done|apply (tk_sb _ _ _ _ Ht)|done|].
    intros c [Hc _] Hm. by rewrite (tk_bits _ _ _ _ Ht), Hm by lia.
  - intros Ho. apply (fi_owned s i Hi) in Ho as [_ Ho]. rewrite (tk_free _ _ _ _ Ht) in Ho. done.
Qed.

(** ** A file that gets a new block *)

(** The block becomes file block [bn0], or the indirect block. *)
Definition placed (s : kstate) (i : inode) (s' : kstate) (i' : inode) (r : Z) : Prop :=
  (exists bn0, 0 <= bn0 < MAXFILE /\ iaddr s i bn0 = 0 /\
     (forall bn, 0 <= bn < MAXFILE -> iaddr s' i' bn = if decide (bn = bn0) then r else iaddr s i bn) /\
     nth_addr i' NDIRECT = nth_addr i NDIRECT) \/
  (nth_addr i NDIRECT = 0 /\ nth_addr i' NDIRECT = r /\
     forall bn, 0 <= bn < MAXFILE -> iaddr s' i' bn = iaddr s i bn).

Lemma placed_owned s i s' i' r b :
  r <> 0 -> placed s i s' i' r -> owned s' i' b <-> owned s i b \/ b = r.
Proof.
  intros Hr [(bn0 & Hb0 & H0 & Ha & Hind)|(H0 & Hind & Ha)]; unfold owned; split.
  - intros [Hb [(bn & Hbn & E)|E]]; [|left; rewrite Hind in E; split; [done|by right]].
    rewrite Ha in E by done. destruct (decide (bn = bn0)) as [->|Hn]; [by right|].
    left. split; [done|]. left. by exists bn.
  - intros [[Hb [(bn & Hbn & E)|E]]|E].
    + split; [done|]. left. exists bn. split; [done|]. rewrite Ha, decide_False by (done || (intros ->; congruence)). done.
    + split; [done|]. right. by rewrite Hind.
    + subst b. split; [done|]. left. exists bn0. split; [done|]. by rewrite Ha, decide_True.
  - intros [Hb [(bn & Hbn & E)|E]]; [|right; congruence]. left. split; [done|]. left. exists bn. by rewrite <- Ha.
  - intros [[Hb [(bn & Hbn & E)|E]]|E].
    + split; [done|]. left. exists bn. by rewrite Ha.
    + congruence.
    + subst b. split; [done|]. by right.
Qed.

Lemma placed_ok s i s' i' r :
  file_ok s i -> i'.(i_dev) = i.(i_dev) -> length i'.(i_addrs) = 13%nat -> sb_of s' i.(i_dev) = sb_of s i.(i_dev) ->
  (forall c, data_block s i.(i_dev) c -> in_bitmap s' i.(i_dev) c = in_bitmap s i.(i_dev) c || bool_decide (c = r)) ->
  data_block s i.(i_dev) r -> in_bitmap s i.(i_dev) r = false -> r <> 0 -> placed s i s' i' r -> file_ok s' i'.
Proof.
  intros [H1 H2 H3 H4] Ed Hlen Esb Hbits Hr Hfree Hr0 Hp.
  assert (~ owned s i r) as Hno by (intros Ho; apply H2 in Ho as [_ Ho]; congruence).
  assert (forall bn, 0 <= bn < MAXFILE -> iaddr s i bn <> r) as Hna.
  { intros bn Hbn E. apply Hno. rewrite <- E. apply owned_addr; [done|congruence]. }
  split; [done| | |].
  - intros b Hb. apply (placed_owned _ _ _ _ _ b Hr0 Hp) in Hb. rewrite Ed.
    assert (data_block s i.(i_dev) b /\ in_bitmap s' i.(i_dev) b = true) as [Hd Hm].
    { destruct Hb as [Hb| ->]; [destruct (H2 b Hb) as [Hd Hm]; by rewrite Hbits, Hm|].
      rewrite Hbits, (bool_decide_eq_true_2 (r = r)), orb_true_r by done. done. }
    split; [|done]. unfold data_block. by rewrite (sb_data _ _ _ Esb), Esb.
  - intros a b Ha Hb. destruct Hp as [(bn0 & Hb0 & H0 & Hp & _)|(_ & _ & Hp)]; rewrite !Hp by done; [|by apply H3].
    destruct (decide (a = bn0)), (decide (b = bn0)); intros Hz E; subst; try done.
    + by destruct (Hna b Hb).
    + by destruct (Hna a Ha).
    + by apply H3.
  - intros bn Hbn. destruct Hp as [(bn0 & Hb0 & H0 & Hp & Hind)|(H0 & Hind & Hp)]; rewrite Hind, Hp by done.
    + intros Hz. destruct (decide (bn = bn0)); [|by apply H4]. intros E. apply Hno. rewrite E. by apply owned_ind.
    + intros _. by apply Hna.
Qed.

Lemma nth_set_addr k v n (i : inode) :
  length i.(i_addrs) = 13%nat -> 0 <= k <= NDIRECT -> 0 <= n -> nth_addr (set_addr k v i) n = if decide (n = k) then v else nth_addr i n.
Proof.
  intros Hl Hk Hn. change NDIRECT with 12 in Hk. unfold nth_addr, set_addr. cbn [i_addrs set_i_addrs].
  destruct (decide (n = k)) as [->|Hne].
  - rewrite list_lookup_insert_eq by lia. done.
  - by rewrite list_lookup_insert_ne by lia.
Qed.

Lemma get32_zero n : 0 <= n <= 508 -> get32 n zero_block = 0.
Proof.
  intros Hn. unfold get32, slice, zero_block. rewrite drop_replicate, take_replicate.
  change (Z.to_nat BSIZE) with 512%nat. replace (Z.to_nat 4 `min` (512 - Z.to_nat n))%nat with 4%nat by lia. done.
Qed.

(** [addr_or_alloc] took [r] for entry [k] of the inode. *)
Lemma set_addr_placed dev s s' i k r :
  fs_ok s dev -> i.(i_dev) = dev -> file_ok s i -> took dev r s s' -> 0 <= k <= NDIRECT -> nth_addr i k = 0 ->
  placed s i s' (set_addr k r i) r.
Proof.
  intros Hf Ed Hi Ht Hk H0. pose proof (fi_len s i Hi) as Hl. destruct (took_file dev r s s' i Hf Ht Ed Hi) as (_ & He & _).
  assert (NDIRECT = 12) as EN by done. assert (MAXFILE = 140) as EM by done.
  destruct (decide (k = NDIRECT)) as [->|Hkn]; [right|left].
  - assert (nth_addr (set_addr NDIRECT r i) NDIRECT = r) as Er by (by rewrite nth_set_addr, decide_True by (done || lia)).
    split; [done|]. split; [done|]. intros bn Hbn. unfold iaddr. destruct (Z.ltb_spec bn NDIRECT).
    + by rewrite nth_set_addr, decide_False by (done || lia).
    + rewrite Er, H0. cbn [Z.eqb]. destruct (Z.eqb_spec r 0); [done|].
      change (i_dev (set_addr NDIRECT r i)) with i.(i_dev). rewrite Ed.
      destruct (tk_new _ _ _ _ Ht) as [Hd1 Hd2].
      rewrite (took_data dev r s s' r Hf Ht Hd1), (fs_zero s dev Hf r); [|by split|apply (tk_free _ _ _ _ Ht)].
      apply get32_zero. lia.
  - exists k. split; [lia|].
    assert (iaddr s i k = nth_addr i k) as Ek by (unfold iaddr; by rewrite (proj2 (Z.ltb_lt k NDIRECT)) by lia).
    assert (nth_addr (set_addr k r i) NDIRECT = nth_addr i NDIRECT) as En by (by rewrite nth_set_addr, decide_False by (done || lia)).
    split; [by rewrite Ek|]. split; [|done]. intros bn Hbn.
    rewrite <- He. unfold iaddr. rewrite En. change (i_dev (set_addr k r i)) with i.(i_dev).
    destruct (Z.ltb_spec bn NDIRECT); [by apply nth_set_addr; (done || lia)|]. by rewrite decide_False by lia.
Qed.

(** ** Steps of bmap *)

(** Only the disk counts. *)
Lemma fs_ok_disk s s' dev : s'.(disk) = s.(disk) -> fs_ok s dev -> fs_ok s' dev.
Proof.
  intros E [H1 H2 H3 H4 H5 H6]. split; unfold data_block, data_start, in_bitmap, sb_of, block in *; rewrite ?E; done.
Qed.

Lemma iaddr_disk s s' i bn : s'.(disk) = s.(disk) -> iaddr s' i bn = iaddr s i bn.
Proof. intros E. unfold iaddr, block. by rewrite E. Qed.

Lemma file_ok_disk s s' i : s'.(disk) = s.(disk) -> file_ok s i -> file_ok s' i.
Proof.
  intros E Hi. apply (file_ok_ext s); [done|unfold sb_of, block; by rewrite E|intros; by apply iaddr_disk|].
  intros c _. unfold in_bitmap, sb_of, block. by rewrite E.
Qed.

Lemma free_blocks_disk s s' dev k : s'.(disk) = s.(disk) -> free_blocks s dev k -> free_blocks s' dev k.
Proof. intros E. unfold free_blocks, in_bitmap, sb_of, block. by rewrite E. Qed.

Lemma took_disk s0 s s' dev r : s.(disk) = s0.(disk) -> took dev r s s' -> took dev r s0 s'.
Proof.
  intros E [H1 H2 H3 H4 H5 H6]. unfold data_block, data_start, in_bitmap, sb_of, block in *. rewrite E in *.
  split; unfold data_block, data_start, in_bitmap, sb_of, block; done.
Qed.

Section files.
Context (dev : Z) (ip : nat).

(** A file in the inode cache of a quiet file system. *)
Record ready (s : kstate) (i : inode) : Prop := {
  rd_inv : bcache_inv [] s;
  rd_locks : free_locks s;
  rd_icache : s.(icache) !! ip = Some i;
  rd_dev : i.(i_dev) = dev;
  rd_fs : fs_ok s dev;
  rd_file : file_ok s i
}.

(** The file may have got blocks; no data block has changed. *)
Record extended (s : kstate) (i : inode) (s' : kstate) (i' : inode) : Prop := {
  ex_ready : ready s' i';
  ex_icache : s'.(icache) = <[ip := i']> s.(icache);
  ex_held : s'.(held) = s.(held);
  ex_meta : i' = set_i_addrs i'.(i_addrs) i;
  ex_sb : sb_of s' dev = sb_of s dev;
  ex_addr bn : 0 <= bn < MAXFILE -> iaddr s i bn <> 0 -> iaddr s' i' bn = iaddr s i bn;
  ex_ind : nth_addr i NDIRECT <> 0 -> nth_addr i' NDIRECT = nth_addr i NDIRECT;
  ex_bits c : data_block s dev c -> in_bitmap s dev c = true -> in_bitmap s' dev c = true;
  ex_new b : owned s' i' b -> owned s i b \/ in_bitmap s dev b = false;
  ex_blocks b : data_block s dev b -> b <> nth_addr i' NDIRECT -> block s' dev b = block s dev b;
  ex_inodes b : 0 <= b < BBLOCK 0 (sb_of s dev).(sb_ninodes) -> block s' dev b = block s dev b;
  ex_zero bn : 0 <= bn < MAXFILE -> iaddr s i bn = 0 ->
    iaddr s' i' bn = 0 \/ block s' dev (iaddr s' i' bn) = zero_block;
  ex_marks c : data_block s dev c -> in_bitmap s' dev c = true -> in_bitmap s dev c = true \/ owned s' i' c
}.

Lemma extended_refl s i : ready s i -> extended s i s i.
Proof.
  intros Hr. split; try done; [symmetry; apply list_insert_id, (rd_icache _ _ Hr)| | |].
  - intros b Hb. by left.
  - intros bn _ H0. by left.
  - intros c _ Hm. by left.
Qed.

Lemma extended_owned s i s' i' b : extended s i s' i' -> owned s i b -> owned s' i' b.
Proof.
  intros Hx [Hz [(bn & Hbn & E)|E]]; subst b.
  - rewrite <- (ex_addr _ _ _ _ Hx bn Hbn Hz). apply owned_addr; [done|]. by rewrite (ex_addr _ _ _ _ Hx).
  - rewrite <- (ex_ind _ _ _ _ Hx Hz). apply owned_ind. by rewrite (ex_ind _ _ _ _ Hx).
Qed.

Lemma extended_trans s1 i1 s2 i2 s3 i3 :
  ready s1 i1 -> extended s1 i1 s2 i2 -> extended s2 i2 s3 i3 -> extended s1 i1 s3 i3.
Proof.
  intros Hr H12 H23. pose proof H12 as [A1 A2 A3 A4 A5 A6 A7 A8 A9 A10 A11 A12 A13]. pose proof H23 as [B1 B2 B3 B4 B5 B6 B7 B8 B9 B10 B11 B12 B13].
  pose proof (sb_data _ _ _ A5) as Ed. assert (forall b, data_block s2 dev b <-> data_block s1 dev b) as Hdb.
  { intros b. unfold data_block. by rewrite Ed, A5. }
  split; [done| | | | | | | | | | | |].
  - by rewrite B2, A2, list_insert_insert_eq.
  - congruence.
  - rewrite B4, A4. reflexivity.
  - congruence.
  - intros bn Hbn Hn. rewrite B6; [by apply A6|done|by rewrite A6].
  - intros Hn. rewrite B7; [by apply A7|by rewrite A7].
  - intros c Hc Hm. apply B8; [by apply Hdb|by apply A8].
  - intros b Ho. destruct (fi_owned _ _ (rd_file _ _ B1) b Ho) as [Hd _]. rewrite (rd_dev _ _ B1) in Hd.
    destruct (B9 b Ho) as [Hb|Hb]; [by apply A9|]. right. destruct (in_bitmap s1 dev b) eqn:Em; [|done].
    rewrite A8 in Hb; [done| |done]. unfold data_block in *. by rewrite (sb_data _ _ _ B5), B5, Ed, A5 in Hd.
  - intros b Hb Hne. rewrite B10 by (done || by apply Hdb). apply A10; [done|]. intros ->.
    destruct (data_start_ge s1 dev (rd_fs _ _ Hr)) as (H4 & _). apply Hne. symmetry. apply B7. destruct Hb. lia.
  - intros b Hb. rewrite B11, A11; [done|done|by rewrite A5].
  - intros bn Hbn H0. destruct (A12 bn Hbn H0) as [H2|H2]; [by apply B12|].
    destruct (Z.eq_dec (iaddr s2 i2 bn) 0) as [Hz|Hz]; [by apply B12|]. right. rewrite B6 by done.
    rewrite B10; [done| |].
    + rewrite <- (rd_dev _ _ A1). by apply (fi_owned _ _ (rd_file _ _ A1)), owned_addr.
    + rewrite <- (B6 bn) by done. pose proof (rd_file _ _ B1) as F. intros E. apply (fi_ind _ _ F bn Hbn); [|done].
      rewrite <- E. by rewrite B6.
  - intros c Hc Hm. destruct (B13 c ltac:(by apply Hdb) Hm) as [Hm2|Ho]; [|by right].
    destruct (A13 c Hc Hm2) as [|Ho]; [by left|right]. by apply (extended_owned s2 i2).
Qed.

Lemma extended_placed s i s' i' r :
  ready s i -> bcache_inv [] s' -> free_locks s' -> s'.(icache) = <[ip := i']> s.(icache) -> s'.(held) = s.(held) ->
  i' = set_i_addrs i'.(i_addrs) i -> length i'.(i_addrs) = 13%nat -> data_block s dev r -> in_bitmap s dev r = false ->
  sb_of s' dev = sb_of s dev -> fs_ok s' dev ->
  (forall c, data_block s dev c -> in_bitmap s' dev c = in_bitmap s dev c || bool_decide (c = r)) ->
  placed s i s' i' r ->
  (forall b, data_block s dev b -> b <> nth_addr i' NDIRECT -> block s' dev b = block s dev b) ->
  (forall b, 0 <= b < BBLOCK 0 (sb_of s dev).(sb_ninodes) -> block s' dev b = block s dev b) ->
  extended s i s' i'.
Proof.
  intros Hr Hi Hl Hic Hh Hm Hlen Hd Hfree Hsb Hfs Hbits Hp Hblk Hino. pose proof Hr as [R1 R2 R3 R4 R5 R6].
  assert (r <> 0) as Hr0 by (intros ->; destruct (data_start_ge s dev R5) as (H4 & _); destruct Hd; lia).
  assert (i'.(i_dev) = i.(i_dev)) as Ed by (by rewrite Hm).
  split; try done.
  - split; [done|done| |congruence|done|].
    + rewrite Hic. apply list_lookup_insert_eq. by eapply lookup_lt_Some.
    + apply (placed_ok s i s' i' r); rewrite ?R4; (done || congruence).
  - intros bn Hbn Hn. destruct Hp as [(bn0 & Hb0 & H0 & Hp & _)|(_ & _ & Hp)]; rewrite Hp by done; [|done].
    rewrite decide_False; [done|]. by intros ->.
  - intros Hn. destruct Hp as [(_ & _ & _ & _ & Hp)|(H0 & _)]; done.
  - intros c Hc Hm'. by rewrite Hbits, Hm'.
  - intros b Hb. apply (placed_owned _ _ _ _ _ b Hr0 Hp) in Hb as [Hb| ->]; [by left|by right].
  - intros bn Hbn H0. destruct Hp as [(bn0 & Hb0 & _ & Hp & Hind)|(_ & _ & Hp)]; rewrite Hp by done; [|by left].
    destruct (decide (bn = bn0)); [right|by left]. rewrite Hblk; [by apply (fs_zero s dev R5)|done|].
    rewrite Hind. intros ->. destruct (fi_owned s i R6 _ (owned_ind s i Hr0)) as [_ Hu]. rewrite R4, Hfree in Hu. done.
  - intros c Hc. rewrite Hbits, orb_true_iff, bool_decide_eq_true by done.
    intros [Hmk| ->]; [by left|right]. apply (placed_owned _ _ _ _ _ r Hr0 Hp). by right.
Qed.

Lemma inode_block_kept s s' r b :
  fs_ok s dev -> took dev r s s' -> 0 <= b < BBLOCK 0 (sb_of s dev).(sb_ninodes) -> block s' dev b = block s dev b.
Proof.
  intros Hf Ht Hb. apply (tk_blocks _ _ _ _ Ht). intros c Hc. unfold BBLOCK in *.
  pose proof (Z.div_pos c BPB ltac:(lia) ltac:(done)). change (0 / BPB) with 0 in Hb. lia.
Qed.

Lemma no_use s n : not_in_use [] s dev n.
Proof. intros b []%not_elem_of_nil. Qed.

Lemma NBUF_pos : (0 < NBUF)%nat.
Proof. unfold NBUF. lia. Qed.

(** [if((addr = ip->addrs[k]) == 0) ip->addrs[k] = addr = balloc(ip->dev);] *)
Lemma addr_or_alloc_run s i k :
  ready s i -> 0 <= k <= NDIRECT -> free_blocks s dev 1 ->
  exists s' i', addr_or_alloc ip k s = Ok (nth_addr i' k) s' /\ extended s i s' i' /\ nth_addr i' k <> 0 /\
    (forall n, free_blocks s dev (S n) -> free_blocks s' dev n) /\ (nth_addr i k <> 0 -> s' = s /\ i' = i).
Proof.
  intros Hr Hk Hfree. pose proof Hr as [R1 R2 R3 R4 R5 R6]. unfold addr_or_alloc.
  rewrite (kbind_Ok _ _ _ _ _ (get_inode_run ip s i R3)). destruct (Z.eqb_spec (nth_addr i k) 0) as [H0|Hn].
  2:{ exists s, i. split; [done|]. split; [by apply extended_refl|]. split; [done|]. split; [|done].
      intros n (l & Hnd & Hl & Hc). exists l. split; [done|]. split; [lia|done]. }
  rewrite R4. destruct (balloc_takes [] s dev R1 R2 R5 Hfree) as (r & s1 & E & Ha & Ht);
    [intros; apply no_use|exact NBUF_pos|].
  rewrite (kbind_Ok _ _ _ _ _ E). pose proof Ha as (Hi1 & _ & Hf1 & _). pose proof (io_frame_icache _ _ Hf1) as Hic.
  rewrite (kbind_Ok _ _ _ _ _ (mod_inode_run ip _ s1 i ltac:(by rewrite Hic))).
  set (i' := set_addr k r i). set (s' := set_icache _ s1). pose proof (fi_len s i R6) as Hlen.
  assert (nth_addr i' k = r) as Er by (unfold i'; rewrite nth_set_addr, decide_True by (done || lia); done).
  exists s', i'. rewrite Er. split; [done|]. split; [|split; [|split; [|done]]].
  - apply (extended_placed s i s' i' r); try done.
    + exact (after_io_free _ _ _ _ Ha R2).
    + unfold s'. cbn. by rewrite Hic.
    + exact (io_frame_locks _ _ Hf1).
    + cbn. by rewrite length_insert.
    + apply Ht.
    + apply Ht.
    + exact (tk_sb _ _ _ _ Ht).
    + apply (fs_ok_disk s1); [done|]. by apply (took_ok dev r s).
    + intros c [Hc _]. destruct (data_start_ge s dev R5) as (H4 & _). apply (tk_bits _ _ _ _ Ht). lia.
    + exact (set_addr_placed dev s s1 i k r R5 R4 R6 Ht Hk H0).
    + intros b [Hb _] _. by apply (took_data dev r s s1).
    + intros b Hb. by apply (inode_block_kept s s1 r).
  - intros ->. destruct (data_start_ge s dev R5) as (H4 & _), (tk_new _ _ _ _ Ht). lia.
  - intros n Hn. apply (free_blocks_disk s1); [done|]. by apply (took_free dev r s).
Qed.

Lemma extended_quiet s i s' : ready s i -> after_io bcache_inv [] s.(disk) s s' -> extended s i s' i.
Proof.
  intros [R1 R2 R3 R4 R5 R6] Ha. pose proof Ha as (Hi & Hd & Hf & _). pose proof (io_frame_icache _ _ Hf) as Hic.
  split; try (intros; unfold sb_of, in_bitmap, block; rewrite Hd; done); try done.
  - split; [done|exact (after_io_free _ _ _ _ Ha R2)|by rewrite Hic|done|by apply (fs_ok_disk s)|by apply (file_ok_disk s)].
  - rewrite Hic. by rewrite list_insert_id.
  - exact (io_frame_locks _ _ Hf).
  - intros bn _ _. by apply iaddr_disk.
  - intros c _. unfold in_bitmap, sb_of, block. by rewrite Hd.
  - intros b Hb. left. apply (owned_ext s s' i b); [|done]. intros bn. by apply iaddr_disk.
  - intros bn _ H0. left. by rewrite (iaddr_disk s).
  - intros c _ Hm. left. unfold in_bitmap, sb_of, block in *. by rewrite Hd in Hm.
Qed.

(** Entry [k] of the indirect block gets a new block. *)
Lemma put32_placed s1 s2 s3 i k r :
  ready s1 i -> took dev r s1 s2 -> nth_addr i NDIRECT <> 0 -> 0 <= k < NINDIRECT -> iaddr s1 i (NDIRECT + k) = 0 ->
  stored dev (nth_addr i NDIRECT) (put32 (4 * k) r (block s1 dev (nth_addr i NDIRECT))) s2 s3 ->
  placed s1 i s3 i r /\ iaddr s3 i (NDIRECT + k) = r.
Proof.
  intros [R1 R2 R3 R4 R5 R6] Ht Ha Hk H0 Hs. assert (NDIRECT = 12) as EN by done. assert (NINDIRECT = 128) as EI by done.
  assert (MAXFILE = 140) as EM by done.
  assert (forall bn, 0 <= bn < MAXFILE -> iaddr s3 i bn = if decide (bn = NDIRECT + k) then r else iaddr s1 i bn) as Hp.
  2:{ split; [|rewrite Hp, decide_True by (done || lia); done]. left. exists (NDIRECT + k). split; [lia|]. done. }
  intros bn Hbn. unfold iaddr. destruct (Z.ltb_spec bn NDIRECT); [by rewrite decide_False by lia|].
  rewrite (proj2 (Z.eqb_neq _ _) Ha), R4, (stored_block _ _ _ _ _ _ Hs), decide_True by done.
  assert (Z.of_nat (length (block s1 dev (nth_addr i NDIRECT))) = 512) as Hlen.
  { rewrite block_length; [done|by apply R5]. }
  destruct (decide (bn = NDIRECT + k)) as [->|Hne].
  - replace (NDIRECT + k - NDIRECT) with k by lia. rewrite get32_put32 by lia.
    destruct (tk_new _ _ _ _ Ht) as [Hr1 Hr2], (data_start_ge s1 dev R5) as (H4 & _), (fs_size s1 dev R5).
    apply u32_small. lia.
  - apply get32_put32_ne; lia.
Qed.

Lemma entry_extended s1 s2 s3 i k r :
  ready s1 i -> took dev r s1 s2 -> nth_addr i NDIRECT <> 0 -> 0 <= k < NINDIRECT -> iaddr s1 i (NDIRECT + k) = 0 ->
  stored dev (nth_addr i NDIRECT) (put32 (4 * k) r (block s1 dev (nth_addr i NDIRECT))) s2 s3 ->
  bcache_inv [] s3 -> io_frame s1 s3 -> extended s1 i s3 i.
Proof.
  intros Hr Ht Ha Hk H0 Hs Hi Hf. destruct (put32_placed s1 s2 s3 i k r Hr Ht Ha Hk H0 Hs) as [Hp _].
  pose proof Hr as [R1 R2 R3 R4 R5 R6]. pose proof (took_ok dev r s1 s2 R5 Ht) as Hok2.
  pose proof (io_frame_icache _ _ Hf) as Hic. pose proof (data_start_ge s1 dev R5) as (H4 & H1 & Hbb).
  apply (extended_placed s1 i s3 i r); try done.
  - eauto using io_frame_free.
  - by rewrite Hic, list_insert_id.
  - by apply io_frame_locks.
  - apply R6.
  - apply Ht.
  - apply Ht.
  - by rewrite (stored_sb _ _ _ _ _ Hok2 Hs), (tk_sb _ _ _ _ Ht).
  - by apply (stored_ok _ _ _ _ _ Hok2 Hs).
  - intros c [Hc1 Hc2]. rewrite (stored_bits _ _ _ _ _ c Hok2 Hs) by (rewrite (tk_sb _ _ _ _ Ht); lia).
    apply (tk_bits _ _ _ _ Ht). lia.
  - intros b [Hb _] Hne. rewrite (stored_block _ _ _ _ _ _ Hs), decide_False by done. by apply (took_data dev r s1).
  - intros b Hb. rewrite (stored_block _ _ _ _ _ _ Hs), decide_False; [by apply (inode_block_kept s1 s2 r)|].
    intros ->. specialize (Hbb 0 ltac:(lia)). destruct (so_data _ _ _ _ _ Hs) as [Hd _].
    rewrite (sb_data _ _ _ (tk_sb _ _ _ _ Ht)) in Hd. lia.
Qed.

(** The indirect part of [bmap], with the address of the indirect block. *)
Definition bmap_entry (addr k : Z) : K Z :=
  let* i := get_inode ip in
  let* bp := bread i.(i_dev) addr in
  let* a := buf_data bp in
  let* addr' :=
    (if get32 (4 * k) a =? 0 then
       let* x := balloc i.(i_dev) in
       mod_buf bp (set_b_data (put32 (4 * k) x a)) ;;;
       bwrite bp ;;;
       kret x
     else kret (get32 (4 * k) a)) in
  brelse bp ;;;
  kret addr'.

(** A step of [bmap] found or made file block [bn]. *)
Definition got_block (s : kstate) (i : inode) (bn a : Z) (s' : kstate) (i' : inode) : Prop :=
  extended s i s' i' /\ a = iaddr s' i' bn /\ a <> 0.

(** Blocks needed for the indirect block. *)
Definition need (i : inode) : nat := if nth_addr i NDIRECT =? 0 then 1 else 0.

Lemma owned_readable s i b : ready s i -> owned s i b -> can_read [] s dev b.
Proof.
  intros [R1 R2 R3 R4 R5 R6] Ho. destruct (fi_owned s i R6 b Ho) as [[Hb1 Hb2] _]. rewrite R4 in *.
  destruct (data_start_ge s dev R5) as (H4 & _), (fs_size s dev R5). split; [split; [apply R5|lia]|].
  split; [apply no_use|exact NBUF_pos].
Qed.

Lemma free_blocks_le s k n : (k <= n)%nat -> free_blocks s dev n -> free_blocks s dev k.
Proof. intros Hk (l & H1 & H2 & H3). exists l. split; [done|]. split; [lia|done]. Qed.

Lemma alloc_then_write bp d (f : Z -> buf -> buf) s1 s2 r s3 :
  balloc d s1 = Ok r s2 -> (mod_buf bp (f r) ;;; bwrite bp ;;; brelse bp) s2 = Ok tt s3 ->
  (let* a := (let* x := balloc d in mod_buf bp (f x) ;;; bwrite bp ;;; kret x) in brelse bp ;;; kret a) s1 = Ok r s3.
Proof.
  intros E1 E2. unfold kbind in *. rewrite E1. destruct (mod_buf bp (f r) s2) as [[] s4| | |]; try done.
  destruct (bwrite bp s4) as [[] s5| | |]; try done. cbn. by rewrite E2.
Qed.

Lemma bmap_entry_run s i k :
  ready s i -> nth_addr i NDIRECT <> 0 -> 0 <= k < NINDIRECT -> free_blocks s dev 1 ->
  exists a s', bmap_entry (nth_addr i NDIRECT) k s = Ok a s' /\ got_block s i (NDIRECT + k) a s' i /\
    forall n, free_blocks s dev (S n) -> free_blocks s' dev n.
Proof.
  intros Hr Ha Hk Hfree. pose proof Hr as [R1 R2 R3 R4 R5 R6]. set (ad := nth_addr i NDIRECT) in *.
  assert (iaddr s i (NDIRECT + k) = get32 (4 * k) (block s dev ad)) as Ei.
  { unfold iaddr. rewrite (proj2 (Z.ltb_ge _ _)) by lia. fold ad. rewrite (proj2 (Z.eqb_neq _ _) Ha), R4.
    do 3 f_equal. lia. }
  pose proof (owned_ind s i Ha) as Ho. fold ad in Ho. pose proof (fi_owned s i R6 ad Ho) as [Hdb Hm]. rewrite R4 in Hdb, Hm.
  destruct (bread_run [] s dev ad R1 R2 (owned_readable s i ad Hr Ho)) as (bp & s1 & E & Hbp & Hu & Hi1 & Hd1 & Hf1 & Ho1).
  unfold bmap_entry. kexec by (exact (get_inode_run ip s i R3)). rewrite R4. kexec by (exact E).
  kexec by (exact (buf_data_run _ _ _ _ _ Hu)). destruct (Z.eqb_spec (get32 (4 * k) (block s dev ad)) 0) as [H0|Hn].
  2:{ destruct (brelse_quiet [] s1 bp dev ad Hi1) as (s2 & E2 & H2);
        [eauto using io_frame_free|done|unfold block in *; by rewrite Hd1|].
      unfold kbind at 1, kret at 1. kexec by (exact E2). rewrite Hd1 in H2. pose proof (after_bread _ _ _ _ _ _ Hd1 Hf1 Ho1 H2 Hbp) as H3.
      eexists _, s2. split; [done|]. split; [split; [by apply extended_quiet|]|].
      - by rewrite (iaddr_disk s s2), Ei by apply H3.
      - intros n Hfn. apply (free_blocks_disk s); [apply H3|]. by apply (free_blocks_le s n (S n)); [lia|]. }
  destruct (balloc_takes [bp] s1 dev Hi1) as (r & s2 & E2 & Ha2 & Ht).
  { eauto using io_frame_free. } { by apply (fs_ok_disk s). } { by apply (free_blocks_disk s). }
  { intros n Hn b Hb%list_elem_of_singleton. subst b. eexists dev, ad, _. split; [exact Hu|].
    intros [= ->]. unfold data_start, sb_of, block in Hn, Hdb. rewrite Hd1 in Hn. unfold data_block, data_start, sb_of, block in Hdb. lia. }
  { cbn. unfold NBUF. lia. }
  apply (took_disk s) in Ht; [|done]. pose proof Ha2 as (Hi2 & _ & Hf2 & Ho2).
  assert (length (put32 (4 * k) r (block s dev ad)) = Z.to_nat BSIZE) as Hlen.
  { pose proof (block_length s dev ad (fs_wf s dev R5)) as Hl. change NINDIRECT with 128 in Hk.
    unfold put32. rewrite splice_length; [done|lia|]. rewrite Hl, le_bytes_length. change (Z.to_nat BSIZE) with 512%nat. lia. }
  assert (free_locks s1) as Hl1 by eauto using io_frame_free.
  destruct (put_back [] s2 bp dev ad (block s dev ad) (put32 (4 * k) r (block s dev ad)) Hi2) as (s3 & E3 & H3);
    [eauto using io_frame_free|done|exact (Ho2 _ _ _ _ ltac:(left) Hu)|done|].
  rewrite (alloc_then_write bp dev _ _ _ _ _ E2 E3). destruct H3 as (Hi3 & Hd3 & Hf3 & _).
  pose proof (took_ok dev r s s2 R5 Ht) as Hok2.
  assert (stored dev ad (put32 (4 * k) r (block s dev ad)) s2 s3) as Hs.
  { split; [|rewrite (tk_bits _ _ _ _ Ht), Hm by (destruct Hdb, (data_start_ge s dev R5); lia); done|done|done].
    unfold data_block. by rewrite (sb_data _ _ _ (tk_sb _ _ _ _ Ht)), (tk_sb _ _ _ _ Ht). }
  assert (extended s i s3 i) as Hx.
  { apply (entry_extended s s2 s3 i k r); try done; [by rewrite Ei|by do 2 (etrans; [eassumption|])]. }
  exists r, s3. split; [done|].
  destruct (put32_placed s s2 s3 i k r Hr Ht Ha Hk ltac:(by rewrite Ei) Hs) as [_ Hp].
  destruct (tk_new _ _ _ _ Ht) as [Hr1 Hr2], (data_start_ge s dev R5) as (H4 & _).
  split; [split; [done|]; split; [done|lia]|]. intros n Hfn. apply (stored_free _ _ _ _ _ _ Hok2 Hs). by apply (took_free dev r s).
Qed.

Lemma bmap_run s i bn :
  ready s i -> 0 <= bn < MAXFILE -> free_blocks s dev (1 + need i) ->
  exists a s' i', bmap ip bn s = Ok a s' /\ got_block s i bn a s' i' /\ (iaddr s i bn <> 0 -> i' = i) /\
    forall n, free_blocks s dev (1 + need i + n) -> free_blocks s' dev (need i' + n).
Proof.
  intros Hr Hbn Hfree. assert (NDIRECT = 12) as EN by done. assert (NINDIRECT = 128) as EI by done.
  assert (MAXFILE = 140) as EM by done. unfold bmap. destruct (Z.ltb_spec bn NDIRECT) as [Hd|Hd].
  - destruct (addr_or_alloc_run s i bn Hr) as (s' & i' & E & Hx & Hn & Hf & Hsame); [lia|by apply (free_blocks_le s 1 (1 + need i)); [lia|]|].
    exists (nth_addr i' bn), s', i'. split; [done|].
    assert (forall s i, iaddr s i bn = nth_addr i bn) as Ei by (intros; unfold iaddr; by rewrite (proj2 (Z.ltb_lt bn NDIRECT))).
    split; [split; [done|]; by rewrite Ei|]. split; [rewrite Ei; by apply Hsame|].
    intros n Hfn. apply Hf. apply (free_blocks_le s _ (1 + need i + n)); [|done]. pose proof (ex_ind _ _ _ _ Hx) as Hi.
    unfold need. destruct (Z.eqb_spec (nth_addr i NDIRECT) 0), (Z.eqb_spec (nth_addr i' NDIRECT) 0); lia.
  - rewrite (proj2 (Z.ltb_lt (bn - NDIRECT) NINDIRECT)) by lia.
    destruct (addr_or_alloc_run s i NDIRECT Hr) as (s1 & i1 & E & Hx & Hn & Hf & Hsame); [lia|by apply (free_blocks_le s 1 (1 + need i)); [lia|]|].
    kexec by (exact E). pose proof (ex_ready _ _ _ _ Hx) as Hr1.
    assert (forall n, free_blocks s dev (need i + n) -> free_blocks s1 dev n) as Hf1.
    { unfold need. destruct (Z.eqb_spec (nth_addr i NDIRECT) 0) as [|Hnz]; [done|]. by destruct (Hsame Hnz) as [-> _]. }
    destruct (bmap_entry_run s1 i1 (bn - NDIRECT) Hr1 Hn) as (a & s2 & E2 & (Hx2 & Ea & Ha0) & Hf2); [lia|apply Hf1; by rewrite Nat.add_comm|].
    replace (NDIRECT + (bn - NDIRECT)) with bn in Ea by lia. exists a, s2, i1. split; [exact E2|].
    split; [split; [by apply (extended_trans s i s1 i1)|done]|]. split.
    + intros Hi. apply Hsame. intros H0. apply Hi. unfold iaddr. rewrite (proj2 (Z.ltb_ge bn NDIRECT)) by lia. by rewrite H0.
    + intros n Hfn. apply Hf2, Hf1. unfold need at 2. rewrite (proj2 (Z.eqb_neq _ _) Hn). by replace (need i + S (0 + n))%nat with (1 + need i + n)%nat by lia.
Qed.

(** ** What a write may change *)

(** The file may have got blocks and other contents; the blocks of other files
    and all inodes on disk are as before. *)
Record grown (s : kstate) (i : inode) (s' : kstate) (i' : inode) : Prop := {
  gr_ready : ready s' i';
  gr_icache : s'.(icache) = <[ip := i']> s.(icache);
  gr_held : s'.(held) = s.(held);
  gr_meta : i' = set_i_addrs i'.(i_addrs) i;
  gr_sb : sb_of s' dev = sb_of s dev;
  gr_addr bn : 0 <= bn < MAXFILE -> iaddr s i bn <> 0 -> iaddr s' i' bn = iaddr s i bn;
  gr_bits c : data_block s dev c -> in_bitmap s dev c = true -> in_bitmap s' dev c = true;
  gr_new b : owned s' i' b -> owned s i b \/ in_bitmap s dev b = false;
  gr_others b : data_block s dev b -> in_bitmap s dev b = true -> ~ owned s i b -> block s' dev b = block s dev b;
  gr_inodes b : 0 <= b < BBLOCK 0 (sb_of s dev).(sb_ninodes) -> block s' dev b = block s dev b;
  gr_owned b : owned s i b -> owned s' i' b;
  gr_marks c : data_block s dev c -> in_bitmap s' dev c = true -> in_bitmap s dev c = true \/ owned s' i' c
}.

Lemma extended_grown s i s' i' : ready s i -> extended s i s' i' -> grown s i s' i'.
Proof.
  intros Hr Hx. pose proof Hx as [A1 A2 A3 A4 A5 A6 A7 A8 A9 A10 A11 A12 A13]. split; try done; [|intros b; by apply extended_owned].
  intros b Hb Hm Ho. apply A10; [done|]. intros ->.
  destruct (data_start_ge s dev (rd_fs _ _ Hr)) as (H4 & _), Hb.
  destruct (A9 _ (owned_ind s' i' ltac:(lia))) as [Hb|Hb]; [done|congruence].
Qed.

Lemma grown_trans s1 i1 s2 i2 s3 i3 : grown s1 i1 s2 i2 -> grown s2 i2 s3 i3 -> grown s1 i1 s3 i3.
Proof.
  intros [A1 A2 A3 A4 A5 A6 A7 A8 A9 A10 A11 A12] [B1 B2 B3 B4 B5 B6 B7 B8 B9 B10 B11 B12].
  assert (forall b, data_block s2 dev b <-> data_block s1 dev b) as Hdb.
  { intros b. unfold data_block. by rewrite (sb_data _ _ _ A5), A5. }
  assert (forall b, data_block s3 dev b <-> data_block s2 dev b) as Hdb'.
  { intros b. unfold data_block. by rewrite (sb_data _ _ _ B5), B5. }
  split; [done| | |by rewrite B4, A4|congruence| | | | | |by eauto|].
  - by rewrite B2, A2, list_insert_insert_eq.
  - congruence.
  - intros bn Hbn Hn. rewrite B6; [by apply A6|done|by rewrite A6].
  - intros c Hc Hm. apply B7; [by apply Hdb|by apply A7].
  - intros b Ho. destruct (fi_owned _ _ (rd_file _ _ B1) b Ho) as [Hd _]. rewrite (rd_dev _ _ B1) in Hd.
    destruct (B8 b Ho) as [Hb|Hb]; [by apply A8|]. right. destruct (in_bitmap s1 dev b) eqn:Em; [|done].
    rewrite A7 in Hb; [done|by apply Hdb, Hdb'|done].
  - intros b Hb Hm Ho. rewrite B9; [by apply A9|by apply Hdb|by apply A7|].
    intros Ho2. destruct (A8 b Ho2) as [|Hf]; [done|congruence].
  - intros b Hb. rewrite B10, A10; [done|done|by rewrite A5].
  - intros c Hc Hm. destruct (B12 c ltac:(by apply Hdb) Hm) as [Hm2|]; [|by right].
    destruct (A12 c Hc Hm2) as [|Ho]; [by left|right; by apply B11].
Qed.

(** New contents for a block of the file. *)
Lemma stored_grown s i bn d s' :
  ready s i -> 0 <= bn < MAXFILE -> iaddr s i bn <> 0 -> stored dev (iaddr s i bn) d s s' ->
  bcache_inv [] s' -> io_frame s s' -> grown s i s' i /\ forall k, iaddr s' i k = iaddr s i k.
Proof.
  intros Hr Hbn Hn Hs Hi Hf. pose proof Hr as [R1 R2 R3 R4 R5 R6]. pose proof (io_frame_icache _ _ Hf) as Hic.
  assert (forall k, iaddr s' i k = iaddr s i k) as Ha.
  { intros k. apply iaddr_ext. intros Hz. rewrite R4, (stored_block _ _ _ _ _ _ Hs), decide_False; [done|].
    intros E. by apply (fi_ind s i R6 bn Hbn Hz). }
  pose proof (stored_sb _ _ _ _ _ R5 Hs) as Esb.
  assert (forall c, data_block s dev c -> in_bitmap s' dev c = in_bitmap s dev c) as Hbits.
  { intros c [Hc1 Hc2]. destruct (data_start_ge s dev R5). apply (stored_bits _ _ _ _ _ c R5 Hs). lia. }
  split; [|done]. split; try done.
  - split; [done|eauto using io_frame_free|by rewrite Hic|done|by apply (stored_ok _ _ _ _ _ R5 Hs)|].
    apply (file_ok_ext s); rewrite ?R4; try done. intros c Hc. by rewrite Hbits.
  - by rewrite Hic, list_insert_id.
  - by apply io_frame_locks.
  - intros c Hc. by rewrite Hbits.
  - intros b Hb. left. by apply (owned_ext s s' i b).
  - intros b Hb _ Ho. rewrite (stored_block _ _ _ _ _ _ Hs), decide_False; [done|]. intros ->. by apply Ho, owned_addr.
  - intros b Hb. rewrite (stored_block _ _ _ _ _ _ Hs), decide_False; [done|]. intros ->.
    destruct (so_data _ _ _ _ _ Hs) as [Hd _], (data_start_ge s dev R5) as (_ & H1 & Hbb). specialize (Hbb 0 ltac:(lia)). lia.
  - intros b Hb. by apply (owned_ext s s' i b).
  - intros c Hc Hm. left. by rewrite <- Hbits.
Qed.

(** ** Contents *)

(** Byte [o] of the file; a block that is not there reads as zeros. *)
Definition content (s : kstate) (i : inode) (o : Z) : Z :=
  if iaddr s i (o / BSIZE) =? 0 then 0
  else default 0 (block s i.(i_dev) (iaddr s i (o / BSIZE)) !! Z.to_nat (o mod BSIZE)).

Definition in_file (o : Z) : Prop := 0 <= o < MAXFILE * BSIZE.

Lemma in_file_block o : in_file o -> 0 <= o / BSIZE < MAXFILE.
Proof. intros [H1 H2]. split; [by apply Z.div_pos|]. apply Z.div_lt_upper_bound; [done|lia]. Qed.

Lemma extended_content s i s' i' o : ready s i -> extended s i s' i' -> in_file o -> content s' i' o = content s i o.
Proof.
  intros Hr Hx Ho%in_file_block. pose proof (ex_ready _ _ _ _ Hx) as Hr'. unfold content.
  rewrite (rd_dev _ _ Hr), (rd_dev _ _ Hr'). set (bn := o / BSIZE) in *.
  destruct (Z.eqb_spec (iaddr s i bn) 0) as [H0|Hn].
  - destruct (Z.eqb_spec (iaddr s' i' bn) 0) as [|Hn']; [done|].
    destruct (ex_zero _ _ _ _ Hx bn Ho H0) as [|E]; [done|]. rewrite E. unfold zero_block.
    destruct (replicate _ _ !! _) eqn:El; [|done]. by apply lookup_replicate in El as [-> _].
  - pose proof (ex_addr _ _ _ _ Hx bn Ho Hn) as Ea. rewrite Ea, (proj2 (Z.eqb_neq _ _) Hn).
    rewrite (ex_blocks _ _ _ _ Hx); [done| |].
    + rewrite <- (rd_dev _ _ Hr). by apply (fi_owned _ _ (rd_file _ _ Hr)), owned_addr.
    + rewrite <- Ea. intros E. apply (fi_ind _ _ (rd_file _ _ Hr') bn Ho); [|done]. rewrite <- E. by rewrite Ea.
Qed.

Lemma stored_content s i bn d s' o :
  ready s i -> 0 <= bn < MAXFILE -> iaddr s i bn <> 0 -> stored dev (iaddr s i bn) d s s' ->
  (forall k, iaddr s' i k = iaddr s i k) -> in_file o ->
  content s' i o = if decide (o / BSIZE = bn) then default 0 (d !! Z.to_nat (o mod BSIZE)) else content s i o.
Proof.
  intros Hr Hbn Hn Hs Ha Ho%in_file_block. unfold content. rewrite Ha, (rd_dev _ _ Hr), (stored_block _ _ _ _ _ _ Hs).
  destruct (decide (o / BSIZE = bn)) as [->|Hne].
  - by rewrite (proj2 (Z.eqb_neq _ _) Hn), decide_True.
  - destruct (Z.eqb_spec (iaddr s i (o / BSIZE)) 0) as [|Hz]; [done|]. rewrite decide_False; [done|].
    intros E. apply Hne. by apply (fi_inj _ _ (rd_file _ _ Hr)).
Qed.

(** The bytes [l] are in the file at [off], everything else is as before. *)
Record wrote (s : kstate) (i : inode) (off : Z) (l : list Z) (s' : kstate) (i' : inode) : Prop := {
  wr_grown : grown s i s' i';
  wr_content o : in_file o -> content s' i' o =
    if decide (off <= o < off + Z.of_nat (length l)) then default 0 (l !! Z.to_nat (o - off)) else content s i o;
  wr_mapped o : in_file o -> off <= o < off + Z.of_nat (length l) -> iaddr s' i' (o / BSIZE) <> 0;
  wr_same : (forall o, off <= o < off + Z.of_nat (length l) -> iaddr s i (o / BSIZE) <> 0) -> i' = i
}.

Lemma wrote_nil s i off : ready s i -> wrote s i off [] s i.
Proof.
  intros Hr. split; [by apply extended_grown, extended_refl| | |done].
  - intros o _. rewrite decide_False; [done|]. cbn. lia.
  - cbn. lia.
Qed.

Lemma wrote_trans s1 i1 off l s2 i2 k s3 i3 :
  0 <= off -> off + Z.of_nat (length (l ++ k)) <= MAXFILE * BSIZE ->
  wrote s1 i1 off l s2 i2 -> wrote s2 i2 (off + Z.of_nat (length l)) k s3 i3 -> wrote s1 i1 off (l ++ k) s3 i3.
Proof.
  rewrite length_app. intros Ho Hmax [A1 A2 A3 A4] [B1 B2 B3 B4]. split; rewrite ?length_app.
  - by eapply grown_trans.
  - intros o Hf. rewrite B2, A2 by done. repeat case_decide; try lia; try done.
    + rewrite lookup_app_r by lia. do 2 f_equal. lia.
    + by rewrite lookup_app_l by lia.
  - intros o Hf Hr. destruct (decide (o < off + Z.of_nat (length l))) as [Hlt|Hge]; [|apply B3; [done|lia]].
    assert (iaddr s2 i2 (o / BSIZE) <> 0) as Hn by (apply A3; [done|lia]).
    by rewrite (gr_addr _ _ _ _ B1) by (done || by apply in_file_block).
  - intros Hall. rewrite B4; [apply A4; intros o Hr; apply Hall; lia|]. intros o Hr.
    assert (iaddr s1 i1 (o / BSIZE) <> 0) as Hn by (apply Hall; lia).
    rewrite (gr_addr _ _ _ _ A1); [done| |done]. apply in_file_block. unfold in_file. lia.
Qed.

(** ** One round *)

Lemma same_block off o m :
  0 <= off -> m <= BSIZE - off mod BSIZE -> off <= o < off + m -> o / BSIZE = off / BSIZE /\ o mod BSIZE = off mod BSIZE + (o - off).
Proof.
  intros H0 Hm Ho. pose proof (Z.mod_pos_bound off BSIZE ltac:(done)). pose proof (Z.div_mod off BSIZE ltac:(done)) as E.
  assert (o = BSIZE * (off / BSIZE) + (off mod BSIZE + (o - off))) as E2 by lia.
  split; [symmetry; apply (Z.div_unique_pos o BSIZE _ (off mod BSIZE + (o - off)))|symmetry; apply (Z.mod_unique_pos o BSIZE (off / BSIZE))]; lia.
Qed.

(** Part of a block of the file is replaced. *)
Lemma splice_wrote s i off l s' :
  ready s i -> 0 <= off -> 0 < Z.of_nat (length l) <= BSIZE - off mod BSIZE -> off / BSIZE < MAXFILE ->
  iaddr s i (off / BSIZE) <> 0 ->
  stored dev (iaddr s i (off / BSIZE)) (splice (off mod BSIZE) l (block s dev (iaddr s i (off / BSIZE)))) s s' ->
  bcache_inv [] s' -> io_frame s s' -> wrote s i off l s' i.
Proof.
  intros Hr Ho Hl Hmax Hn Hs Hi Hf. pose proof (Z.div_pos off BSIZE Ho ltac:(done)) as Hb0.
  pose proof (Z.mod_pos_bound off BSIZE ltac:(done)) as Hmod.
  destruct (stored_grown s i (off / BSIZE) _ s' Hr ltac:(lia) Hn Hs Hi Hf) as [Hg Ha]. split; [done| | |done].
  - intros o Hin. rewrite (stored_content s i (off / BSIZE) _ s' o Hr ltac:(lia) Hn Hs Ha Hin).
    pose proof (block_length s dev (iaddr s i (off / BSIZE)) (fs_wf s dev (rd_fs _ _ Hr))) as Hlen.
    pose proof (Z.mod_pos_bound o BSIZE ltac:(done)) as Hmo.
    destruct (decide (off <= o < off + Z.of_nat (length l))) as [Hr1|Hr1].
    + destruct (same_block off o _ Ho (proj2 Hl) Hr1) as [-> ->]. rewrite decide_True by done.
      rewrite lookup_splice by (rewrite ?Hlen; lia). rewrite decide_True by lia. do 2 f_equal. lia.
    + destruct (decide (o / BSIZE = off / BSIZE)) as [Eb|]; [|done].
      pose proof (Z.div_mod off BSIZE ltac:(done)). pose proof (Z.div_mod o BSIZE ltac:(done)).
      rewrite lookup_splice by (rewrite ?Hlen; lia). rewrite decide_False by lia.
      unfold content. by rewrite Eb, (proj2 (Z.eqb_neq _ _) Hn), (rd_dev _ _ Hr).
  - intros o Hin Hr1. destruct (same_block off o _ Ho (proj2 Hl) Hr1) as [-> _]. by rewrite Ha.
Qed.

Lemma extended_wrote s i s1 i1 off l s' :
  ready s i -> extended s i s1 i1 -> wrote s1 i1 off l s' i1 ->
  ((forall o, off <= o < off + Z.of_nat (length l) -> iaddr s i (o / BSIZE) <> 0) -> i1 = i) -> wrote s i off l s' i1.
Proof.
  intros Hr Hx [B1 B2 B3 B4] Hsame. split; [|intros o Hin; rewrite B2 by done|done|done].
  - eapply grown_trans; [by apply extended_grown|done].
  - by rewrite (extended_content s i s1 i1) by done.
Qed.

(** Read the block at [a], replace [l] in it, write it. *)
Lemma update_block_run s i off l :
  ready s i -> 0 <= off -> 0 < Z.of_nat (length l) <= BSIZE - off mod BSIZE -> off / BSIZE < MAXFILE ->
  iaddr s i (off / BSIZE) <> 0 ->
  exists bp s1 d s2, bread dev (iaddr s i (off / BSIZE)) s = Ok bp s1 /\ buf_data bp s1 = Ok d s1 /\
    (mod_buf bp (set_b_data (splice (off mod BSIZE) l d)) ;;; bwrite bp ;;; brelse bp) s1 = Ok tt s2 /\
    wrote s i off l s2 i /\ forall n, free_blocks s dev n -> free_blocks s2 dev n.
Proof.
  intros Hr Ho Hl Hmax Hn. pose proof Hr as [R1 R2 R3 R4 R5 R6]. pose proof (Z.div_pos off BSIZE Ho ltac:(done)) as Hb0.
  pose proof (Z.mod_pos_bound off BSIZE ltac:(done)) as Hmod. set (a := iaddr s i (off / BSIZE)) in *.
  assert (owned s i a) as Hown by (apply owned_addr; [lia|done]).
  pose proof (fi_owned s i R6 a Hown) as [Hdb Hm]. rewrite R4 in Hdb, Hm.
  destruct (bread_run [] s dev a R1 R2 (owned_readable s i a Hr Hown)) as (bp & s1 & E & Hbp & Hu & Hi1 & Hd1 & Hf1 & Ho1).
  assert (length (splice (off mod BSIZE) l (block s dev a)) = Z.to_nat BSIZE) as Hlen.
  { pose proof (block_length s dev a (fs_wf s dev R5)) as E2. rewrite splice_length; [done|lia|]. rewrite E2. lia. }
  destruct (put_back [] s1 bp dev a (block s dev a) (splice (off mod BSIZE) l (block s dev a)) Hi1) as (s2 & E2 & H2);
    [eauto using io_frame_free|done|done|done|].
  rewrite Hd1 in H2. destruct (after_bread _ _ _ _ _ _ Hd1 Hf1 Ho1 H2 Hbp) as (Hi2 & Hd2 & Hf2 & _).
  assert (stored dev a (splice (off mod BSIZE) l (block s dev a)) s s2) as Hs by done.
  exists bp, s1, (block s dev a), s2. split; [done|]. split; [exact (buf_data_run _ _ _ _ _ Hu)|]. split; [done|].
  split; [by apply splice_wrote|]. intros n Hfn. by apply (stored_free _ _ _ _ _ _ R5 Hs).
Qed.

(** ** The loop *)

Lemma chunk_next off n tot :
  0 <= off -> tot < n -> tot + chunk n tot off < n -> (off + chunk n tot off) / BSIZE = off / BSIZE + 1.
Proof.
  intros Ho Ht Hlt. pose proof (Z.mod_pos_bound off BSIZE ltac:(done)). pose proof (Z.div_mod off BSIZE ltac:(done)).
  assert (chunk n tot off = BSIZE - off mod BSIZE) as -> by (unfold chunk in *; lia).
  replace (off + (BSIZE - off mod BSIZE)) with ((off / BSIZE + 1) * BSIZE) by lia. by rewrite Z.div_mul.
Qed.

Lemma writei_loop_run fuel s i src off n tot :
  ready s i -> 0 <= off -> 0 <= tot <= n -> n <= Z.of_nat (length src) -> off + (n - tot) <= MAXFILE * BSIZE ->
  n <= tot \/ (off + (n - tot) - 1) / BSIZE - off / BSIZE < Z.of_nat fuel -> free_blocks s dev (need i + fuel) ->
  exists s' i', writei_loop fuel ip src off n tot s = Ok (off + (n - tot)) s' /\ wrote s i off (slice tot (n - tot) src) s' i'.
Proof.
  revert s i off tot. induction fuel as [|f IH]; intros s i off tot Hr Ho Ht Hsrc Hmax Hfuel Hfree; cbn [writei_loop].
  all: destruct (Z.ltb_spec tot n) as [Hlt|Hge];
    [|exists s, i; replace (n - tot) with 0 by lia; rewrite Z.add_0_r; split; [done|by apply wrote_nil]].
  { assert (off / BSIZE <= (off + (n - tot) - 1) / BSIZE) by (apply Z.div_le_mono; [done|lia]). lia. }
  set (m := chunk n tot off). pose proof (Z.mod_pos_bound off BSIZE ltac:(done)) as Hmod.
  assert (0 < m <= n - tot /\ m <= BSIZE - off mod BSIZE) as [Hm1 Hm2] by (unfold m, chunk; lia).
  assert (0 <= off / BSIZE < MAXFILE) as Hbn by (apply in_file_block; unfold in_file; lia).
  kexec by (exact (get_inode_run ip s i (rd_icache _ _ Hr))). rewrite (rd_dev _ _ Hr).
  destruct (bmap_run s i (off / BSIZE) Hr Hbn) as (a & s1 & i1 & E1 & (Hx & -> & Ha0) & Hsame & Hf1).
  { apply (free_blocks_le s _ (need i + S f)); [lia|done]. }
  kexec by (exact E1). pose proof (ex_ready _ _ _ _ Hx) as Hr1.
  assert (Z.of_nat (length (slice tot m src)) = m) as Hlen by (rewrite slice_length; lia).
  destruct (update_block_run s1 i1 off (slice tot m src) Hr1 Ho) as (bp & s2 & d & s3 & E2 & Ed & E3 & Hw & Hf3); [lia|lia|done|].
  kexec by (exact E2). kexec by (exact Ed). rewrite (proj2 (Z.ltb_ge _ _)) by lia. rewrite (seq3 _ _ _ _ _ _ _ E3).
  assert (wrote s i off (slice tot m src) s3 i1) as Hw1.
  { apply (extended_wrote s i s1); try done. intros Hall. apply Hsame. apply Hall. lia. }
  destruct (IH s3 i1 (off + m) (tot + m)) as (s4 & i4 & E4 & Hw4); try lia.
  - apply (gr_ready _ _ _ _ (wr_grown _ _ _ _ _ _ Hw)).
  - destruct (decide (n <= tot + m)) as [|Hgt]; [by left|right]. destruct Hfuel as [|Hfuel]; [lia|].
    replace (off + m + (n - (tot + m)) - 1) with (off + (n - tot) - 1) by lia.
    unfold m. rewrite chunk_next by lia. lia.
  - apply Hf3, Hf1. by replace (1 + need i + f)%nat with (need i + S f)%nat by lia.
  - exists s4, i4. split; [rewrite E4; f_equal; lia|].
    replace (n - tot) with (m + (n - (tot + m))) by lia. rewrite slice_app_split by lia.
    apply (wrote_trans s i off _ s3 i1); rewrite ?length_app, ?Nat2Z.inj_add, ?Hlen; try done.
    rewrite slice_length by lia. lia.
Qed.

(** ** Saving the inode *)

(** A new inode block leaves bitmap and data blocks alone. *)
Lemma inode_block_stored s s' b d :
  fs_ok s dev -> 2 <= b < BBLOCK 0 (sb_of s dev).(sb_ninodes) ->
  s'.(disk) = <[(dev, b) := d]> s.(disk) -> length d = Z.to_nat BSIZE ->
  fs_ok s' dev /\ sb_of s' dev = sb_of s dev /\ forall c, 0 <= c -> in_bitmap s' dev c = in_bitmap s dev c.
Proof.
  intros Hf Hb Hd Hl. pose proof Hf as [H1 H2 H3 H4 H5 H6]. pose proof (data_start_ge s dev Hf) as (Hds & Hsz & Hbb).
  pose proof (sb_of_update s s' dev b d ltac:(lia) Hd) as Esb. pose proof (sb_data _ _ _ Esb) as Ed.
  assert (forall c, 0 <= c -> in_bitmap s' dev c = in_bitmap s dev c) as Hbits.
  { intros c Hc. unfold in_bitmap. rewrite Esb, (block_update _ _ _ _ _ _ Hd), decide_False; [done|].
    unfold BBLOCK in *. pose proof (Z.div_pos c BPB Hc ltac:(done)). change (0 / BPB) with 0 in Hb. lia. }
  split; [|done]. split; unfold data_block in *; rewrite ?Ed, ?Esb; try done.
  - rewrite Hd. intros k x. rewrite lookup_insert_Some. intros [[_ <-]|[_ Hx]]; [done|by eapply H1].
  - intros c Hc. rewrite Hbits by lia. by apply H5.
  - intros c Hc Hfr. rewrite Hbits in Hfr by lia. specialize (Hbb 0 ltac:(lia)).
    rewrite (block_update _ _ _ _ _ _ Hd), decide_False by lia. by apply H6.
Qed.

Definition fields_ok (i : inode) : Prop :=
  - 2 ^ 15 <= i.(i_type) < 2 ^ 15 /\ - 2 ^ 15 <= i.(i_major) < 2 ^ 15 /\ - 2 ^ 15 <= i.(i_minor) < 2 ^ 15 /\
  - 2 ^ 15 <= i.(i_nlink) < 2 ^ 15 /\ 0 <= i.(i_size) <= MAXFILE * BSIZE.

Lemma ready_dinode s i : ready s i -> fields_ok i -> dinode_ok (to_dinode i).
Proof.
  intros [R1 R2 R3 R4 R5 R6] (F1 & F2 & F3 & F4 & F5). unfold dinode_ok. cbn [d_type d_major d_minor d_nlink d_size d_addrs to_dinode].
  change (MAXFILE * BSIZE) with 71680 in F5. split_and!; try lia; [apply R6|].
  assert (NDIRECT = 12) as EN by done. assert (MAXFILE = 140) as EM by done.
  apply Forall_lookup. intros k a Hk. pose proof (lookup_lt_Some _ _ _ Hk) as Hlt. rewrite (fi_len s i R6) in Hlt.
  assert (nth_addr i (Z.of_nat k) = a) as Ea by (unfold nth_addr; by rewrite Nat2Z.id, Hk).
  destruct (Z.eq_dec a 0) as [->|Hn]; [lia|].
  assert (owned s i a) as Ho.
  { split; [done|]. destruct (Z.eq_dec (Z.of_nat k) NDIRECT) as [E|E]; [right; by rewrite <- E|left].
    exists (Z.of_nat k). split; [lia|]. unfold iaddr. by rewrite (proj2 (Z.ltb_lt _ _)) by lia. }
  destruct (fi_owned s i R6 a Ho) as [[H1 H2] _]. rewrite R4 in *.
  destruct (data_start_ge s dev R5), (fs_size s dev R5). lia.
Qed.

Lemma iupdate_ready s i :
  ready s i -> fields_ok i -> 0 <= i.(i_inum) < (sb_of s dev).(sb_ninodes) ->
  exists s', iupdate ip s = Ok tt s' /\ ready s' i /\ s'.(icache) = s.(icache) /\ s'.(held) = s.(held) /\
    sb_of s' dev = sb_of s dev /\ (forall c, 0 <= c -> in_bitmap s' dev c = in_bitmap s dev c) /\
    (forall b, data_block s dev b -> block s' dev b = block s dev b) /\
    disk_inode s' dev i.(i_inum) = to_dinode i /\
    forall n, 0 <= n -> n <> i.(i_inum) -> disk_inode s' dev n = disk_inode s dev n.
Proof.
  intros Hr Hok Hn. pose proof (ready_dinode s i Hr Hok) as Hdi. pose proof Hr as [R1 R2 R3 R4 R5 R6].
  destruct (data_start_ge s dev R5) as (H4 & Hsz & Hbb), (fs_size s dev R5) as [_ Hmax]. specialize (Hbb 0 ltac:(lia)).
  assert (2 <= IBLOCK i.(i_inum) < BBLOCK 0 (sb_of s dev).(sb_ninodes)) as Hib.
  { unfold IBLOCK, BBLOCK. change (0 / BPB) with 0. pose proof (Z.div_pos i.(i_inum) IPB ltac:(lia) ltac:(done)).
    assert (i.(i_inum) / IPB <= (sb_of s dev).(sb_ninodes) / IPB) by (apply Z.div_le_mono; [done|lia]). lia. }
  destruct (iupdate_run [] s ip i R1 R2 R3) as (s' & E & Ha); [|apply R5|done|].
  { rewrite R4. split; [split; [apply R5|]|split; [apply no_use|exact NBUF_pos]]. destruct (fs_size s dev R5). lia. }
  rewrite R4 in Ha. pose proof Ha as (Hi' & Hd' & Hf' & _). pose proof (io_frame_icache _ _ Hf') as Hic.
  destruct (inode_block_stored s s' _ _ R5 Hib Hd') as (Hfs & Hsb & Hbits).
  { pose proof (dinode_off_bounds i.(i_inum)). pose proof (block_length s dev (IBLOCK i.(i_inum)) (fs_wf s dev R5)) as Hl.
    rewrite splice_length; [done|lia|]. rewrite Hl, dinode_bytes_length by apply Hdi. change (Z.to_nat BSIZE) with 512%nat. lia. }
  assert (forall b, data_block s dev b -> block s' dev b = block s dev b) as Hblk.
  { intros b [Hb _]. rewrite (block_update _ _ _ _ _ _ Hd'), decide_False by lia. done. }
  destruct (disk_inode_store s s' dev i.(i_inum) (to_dinode i)) as [S1 S2]; [lia|apply R5|done|done|].
  exists s'. split; [done|]. split; [|split_and!; try done; by apply io_frame_locks].
  split; [done|eauto using io_frame_free|by rewrite Hic|done|done|].
  apply (file_ok_ext s); rewrite ?R4; try done.
  - intros bn. apply iaddr_ext. intros Hz. rewrite R4. apply Hblk. rewrite <- R4. by apply (fi_owned s i R6), owned_ind.
  - intros c [Hc _] Hm. rewrite Hbits by lia. done.
Qed.

(** ** writei *)

(** A file without holes whose inode on disk is up to date. *)
Record open_file (s : kstate) (i : inode) : Prop := {
  of_ready : ready s i;
  of_type : i.(i_type) <> T_DEV;
  of_fields : fields_ok i;
  of_inum : 0 <= i.(i_inum) < (sb_of s dev).(sb_ninodes);
  of_whole o : 0 <= o < i.(i_size) -> iaddr s i (o / BSIZE) <> 0;
  of_saved : disk_inode s dev i.(i_inum) = to_dinode i
}.

(** What a write of [l] at [off] has done. *)
Record written (s : kstate) (i : inode) (off : Z) (l : list Z) (s' : kstate) (i' : inode) : Prop := {
  wn_open : open_file s' i';
  wn_meta : i' = set_i_size (Z.max i.(i_size) (off + Z.of_nat (length l))) (set_i_addrs i'.(i_addrs) i);
  wn_content o : in_file o -> content s' i' o =
    if decide (off <= o < off + Z.of_nat (length l)) then default 0 (l !! Z.to_nat (o - off)) else content s i o;
  wn_icache : s'.(icache) = <[ip := i']> s.(icache);
  wn_held : s'.(held) = s.(held);
  wn_sb : sb_of s' dev = sb_of s dev;
  wn_inodes n : 0 <= n < (sb_of s dev).(sb_ninodes) -> n <> i.(i_inum) -> disk_inode s' dev n = disk_inode s dev n;
  wn_others b : data_block s dev b -> in_bitmap s dev b = true -> ~ owned s i b ->
    block s' dev b = block s dev b /\ in_bitmap s' dev b = true /\ ~ owned s' i' b;
  wn_marks c : data_block s dev c -> in_bitmap s' dev c = true -> in_bitmap s dev c = true \/ owned s' i' c;
  wn_owned b : owned s i b -> owned s' i' b
}.

Lemma inode_kept s i s' i' n :
  grown s i s' i' -> 0 <= n < (sb_of s dev).(sb_ninodes) -> disk_inode s' dev n = disk_inode s dev n.
Proof.
  intros Hg Hn. unfold disk_inode. rewrite (gr_inodes _ _ _ _ Hg); [done|]. unfold IBLOCK, BBLOCK. change (0 / BPB) with 0.
  pose proof (Z.div_pos n IPB ltac:(lia) ltac:(done)).
  assert (n / IPB <= (sb_of s dev).(sb_ninodes) / IPB) by (apply Z.div_le_mono; [done|lia]). lia.
Qed.

Lemma wrote_whole s i off l s' i' o :
  open_file s i -> wrote s i off l s' i' -> off <= i.(i_size) -> in_file o ->
  o < Z.max i.(i_size) (off + Z.of_nat (length l)) -> iaddr s' i' (o / BSIZE) <> 0.
Proof.
  intros Ho Hw Hle Hin Hlt. destruct (decide (o < i.(i_size))) as [Hs|Hs].
  - assert (iaddr s i (o / BSIZE) <> 0) as Hn by (apply (of_whole _ _ Ho); destruct Hin; lia).
    by rewrite (gr_addr _ _ _ _ (wr_grown _ _ _ _ _ _ Hw)) by (done || by apply in_file_block).
  - apply (wr_mapped _ _ _ _ _ _ Hw); [done|lia].
Qed.

(** The file has not grown: its inode is as it was. *)
Lemma wrote_inside s i off l s' i' :
  open_file s i -> wrote s i off l s' i' -> 0 <= off -> off + Z.of_nat (length l) <= i.(i_size) \/ l = [] -> off <= i.(i_size) ->
  written s i off l s' i'.
Proof.
  intros Ho Hw H0 Hin Hle. pose proof Ho as [O1 O2 O3 O4 O5 O6]. pose proof (wr_grown _ _ _ _ _ _ Hw) as Hg.
  assert (i' = i) as ->.
  { apply (wr_same _ _ _ _ _ _ Hw). intros o Hr. apply O5. destruct Hin as [|E]; [|rewrite E in Hr; cbn in Hr]; lia. }
  assert (Z.max i.(i_size) (off + Z.of_nat (length l)) = i.(i_size)) as Emax by (destruct Hin as [| ->]; cbn; lia).
  assert (open_file s' i) as Ho'.
  { split; try done; [apply Hg|by rewrite (gr_sb _ _ _ _ Hg)| |].
    - intros o Hr. destruct O3 as (_ & _ & _ & _ & Hsz). apply (wrote_whole s i off l s' i); try done; [unfold in_file|]; lia.
    - by rewrite (inode_kept s i s' i) by done. }
  split; try done; [|apply Hw|apply Hg|apply Hg|apply Hg| | |apply Hg|apply Hg].
  - rewrite Emax. by destruct i.
  - intros n Hn _. by apply (inode_kept s i s' i).
  - intros b Hb Hm Hno. split; [by apply (gr_others _ _ _ _ Hg)|]. split; [by apply (gr_bits _ _ _ _ Hg)|].
    intros Hx. destruct (gr_new _ _ _ _ Hg b Hx) as [|Hf]; [done|congruence].
Qed.

Lemma ready_resize s i z :
  ready s i -> ready (set_icache (<[ip := set_i_size z i]> s.(icache)) s) (set_i_size z i).
Proof.
  intros [R1 R2 R3 R4 R5 [F1 F2 F3 F4]]. split; [by apply inv_icache|done| |done|by apply (fs_ok_disk s)|by apply (file_ok_disk s); [done|split]].
  cbn. apply list_lookup_insert_eq. by eapply lookup_lt_Some.
Qed.

Lemma resized_content s i s' i' o :
  ready s i -> (forall bn, iaddr s' i' bn = iaddr s i bn) -> i'.(i_dev) = dev ->
  (forall b, data_block s dev b -> block s' dev b = block s dev b) -> in_file o -> content s' i' o = content s i o.
Proof.
  intros Hr Ha Hd Hb Ho%in_file_block. unfold content. rewrite Ha, Hd, (rd_dev _ _ Hr).
  destruct (Z.eqb_spec (iaddr s i (o / BSIZE)) 0) as [|Hn]; [done|]. rewrite Hb; [done|].
  rewrite <- (rd_dev _ _ Hr). by apply (fi_owned _ _ (rd_file _ _ Hr)), owned_addr.
Qed.

(** The file has grown: its inode is saved. *)
Lemma wrote_beyond s i off l s1 i1 z :
  open_file s i -> wrote s i off l s1 i1 -> 0 <= off <= i.(i_size) -> z = off + Z.of_nat (length l) ->
  i.(i_size) < z <= MAXFILE * BSIZE ->
  exists s', (mod_inode ip (set_i_size z) ;;; iupdate ip) s1 = Ok tt s' /\ written s i off l s' (set_i_size z i1).
Proof.
  intros Ho Hw Hoff Ez Hz. pose proof Ho as [O1 O2 O3 O4 O5 O6]. pose proof (wr_grown _ _ _ _ _ _ Hw) as Hg.
  pose proof (gr_ready _ _ _ _ Hg) as Hr1. set (i2 := set_i_size z i1). set (s2 := set_icache (<[ip := i2]> s1.(icache)) s1).
  pose proof (gr_meta _ _ _ _ Hg) as Hm. assert (ready s2 i2) as Hr2 by (by apply ready_resize).
  assert (fields_ok i2) as Hf2.
  { unfold i2. rewrite Hm. destruct O3 as (F1 & F2 & F3 & F4 & _). unfold fields_ok. cbn. split_and!; lia. }
  assert (i2.(i_inum) = i.(i_inum)) as Ein by (unfold i2; by rewrite Hm).
  assert (sb_of s2 dev = sb_of s dev) as Esb by apply (gr_sb _ _ _ _ Hg).
  destruct (iupdate_ready s2 i2 Hr2 Hf2) as (s3 & E & Hr3 & Hic & Hh & Hsb & Hbits & Hblk & Hself & Hother);
    [by rewrite Ein, Esb|].
  exists s3. split; [by kexec by (exact (mod_inode_run ip _ s1 i1 (rd_icache _ _ Hr1)))|].
  assert (forall bn, iaddr s3 i2 bn = iaddr s1 i1 bn) as Ha.
  { intros bn. change (iaddr s1 i1 bn) with (iaddr s2 i2 bn). apply iaddr_ext. intros Hz0. rewrite (rd_dev _ _ Hr2).
    apply Hblk. rewrite <- (rd_dev _ _ Hr2). by apply (fi_owned _ _ (rd_file _ _ Hr2)), owned_ind. }
  assert (forall b, data_block s dev b -> block s3 dev b = block s1 dev b) as Hblk1.
  { intros b Hb. apply Hblk. unfold data_block. by rewrite (sb_data _ _ _ Esb), Esb. }
  assert (forall b, data_block s1 dev b <-> data_block s dev b) as Hdb.
  { intros b. unfold data_block. by rewrite (sb_data _ _ _ (gr_sb _ _ _ _ Hg)), (gr_sb _ _ _ _ Hg). }
  split.
  - split; [done|unfold i2; by rewrite Hm|done|by rewrite Ein, Hsb, Esb| |by rewrite Ein in *].
    intros o Hr. rewrite Ha. cbn in Hr. apply (wrote_whole s i off l s1 i1); unfold in_file; try done; lia.
  - replace (Z.max _ _) with z by lia. unfold i2. rewrite Hm. done.
  - intros o Hin. rewrite <- (wr_content _ _ _ _ _ _ Hw) by done. apply (resized_content s1 i1 s3 i2 o Hr1 Ha (rd_dev _ _ Hr3)); [|done].
    intros b Hb. by apply Hblk1, Hdb.
  - rewrite Hic. cbn. by rewrite (gr_icache _ _ _ _ Hg), list_insert_insert_eq.
  - rewrite Hh. apply (gr_held _ _ _ _ Hg).
  - by rewrite Hsb.
  - intros n Hn Hne. rewrite Hother by (rewrite ?Ein; lia). by apply (inode_kept s i s1 i1).
  - intros b Hb Hmk Hno. rewrite Hblk1 by done. split; [by apply (gr_others _ _ _ _ Hg)|].
    destruct (data_start_ge s dev (rd_fs _ _ O1)). rewrite Hbits by (destruct Hb; lia).
    split; [by apply (gr_bits _ _ _ _ Hg)|]. intros Hx. apply (owned_ext s1 s3 i2 b Ha) in Hx.
    destruct (gr_new _ _ _ _ Hg b Hx) as [|Hfr]; [done|congruence].
  - intros c Hc. destruct (data_start_ge s dev (rd_fs _ _ O1)). rewrite Hbits by (destruct Hc; lia). intros Hmk.
    destruct (gr_marks _ _ _ _ Hg c Hc Hmk) as [|Hx]; [by left|right]. by apply (owned_ext s1 s3 i2 c Ha).
  - intros b Hb. apply (owned_ext s1 s3 i2 b Ha). by apply (gr_owned _ _ _ _ Hg).
Qed.

Lemma need_le i : (need i <= 1)%nat.
Proof. unfold need. destruct (_ =? _); lia. Qed.

(** [rounds] is enough fuel. *)
Lemma rounds_enough off m : 0 <= off -> 0 <= m -> (off + m - 1) / BSIZE - off / BSIZE < Z.of_nat (rounds m).
Proof.
  intros Ho Hm. unfold rounds. pose proof (Z.div_pos m BSIZE Hm ltac:(done)). rewrite Z2Nat.id by lia.
  pose proof (Z.div_mod off BSIZE ltac:(done)). pose proof (Z.div_mod m BSIZE ltac:(done)).
  pose proof (Z.mod_pos_bound off BSIZE ltac:(done)). pose proof (Z.mod_pos_bound m BSIZE ltac:(done)).
  assert ((off + m - 1) / BSIZE < off / BSIZE + m / BSIZE + 2); [|lia].
  apply Z.div_lt_upper_bound; [done|]. lia.
Qed.

(** The test [off > ip->size || off + n < off]. *)
Lemma range_test off n size :
  0 <= off < 2 ^ 32 -> 0 <= n < 2 ^ 32 ->
  (off >? size) || (u32 (off + n) <? off) = bool_decide (off > size \/ off + n >= 2 ^ 32).
Proof.
  intros Ho Hn. apply eq_bool_prop_intro. rewrite bool_decide_spec, orb_True, Z.gtb_ltb, !Is_true_true, !Z.ltb_lt.
  unfold u32. destruct (decide (off + n < 2 ^ 32)) as [Hlt|Hge].
  - rewrite Z.mod_small by lia. lia.
  - replace (off + n) with (off + n - 2 ^ 32 + 1 * 2 ^ 32) by lia. rewrite Z.mod_add, Z.mod_small by lia. lia.
Qed.

Lemma writei_run `{Devsw} s i src off n :
  open_file s i -> 0 <= off < 2 ^ 32 -> 0 <= n < 2 ^ 32 -> n <= Z.of_nat (length src) ->
  (off > i.(i_size) \/ off + n >= 2 ^ 32 -> writei ip src off n s = Ok (-1) s) /\
  (off <= i.(i_size) -> off + n < 2 ^ 32 ->
   let m := Z.min n (MAXFILE * BSIZE - off) in
   free_blocks s dev (1 + rounds m) ->
   exists s' i', writei ip src off n s = Ok m s' /\ written s i off (slice 0 m src) s' i').
Proof.
  intros Ho Hoff Hn Hsrc. pose proof Ho as [O1 O2 O3 O4 O5 O6]. unfold writei.
  rewrite (kbind_Ok _ _ _ _ _ (get_inode_run ip s i (rd_icache _ _ O1))), (proj2 (Z.eqb_neq _ _) O2), range_test by done.
  split; [intros Hbad; by rewrite bool_decide_eq_true_2|]. intros Hle Hwrap Hfree.
  set (m := Z.min n (MAXFILE * BSIZE - off)) in *. rewrite bool_decide_eq_false_2 by lia. destruct O3 as (_ & _ & _ & _ & Hsz).
  change (MAXFILE * BSIZE) with 71680 in Hsz.
  assert ((if off + n >? MAXFILE * BSIZE then u32 (MAXFILE * BSIZE - off) else n) = m) as Em.
  { unfold m. change (MAXFILE * BSIZE) with 71680. rewrite Z.gtb_ltb.
    destruct (Z.ltb_spec 71680 (off + n)); [rewrite u32_small by lia|]; lia. }
  assert (0 <= m <= n /\ off + m <= 71680) as Hm by (unfold m; change (MAXFILE * BSIZE) with 71680; lia).
  cbv zeta. rewrite !Em. clear Em. clearbody m.
  destruct (writei_loop_run (rounds m) s i src off m 0 O1) as (s1 & i1 & E & Hw); try (change (MAXFILE * BSIZE) with 71680; lia).
  { right. rewrite Z.sub_0_r. apply rounds_enough; lia. }
  { apply (free_blocks_le s _ (1 + rounds m)); [pose proof (need_le i); lia|done]. }
  rewrite Z.sub_0_r in E, Hw. kexec by (exact E). pose proof (wr_grown _ _ _ _ _ _ Hw) as Hg.
  kexec by (exact (get_inode_run ip s1 i1 (rd_icache _ _ (gr_ready _ _ _ _ Hg)))).
  assert (i1.(i_size) = i.(i_size)) as -> by (by rewrite (gr_meta _ _ _ _ Hg)).
  assert (Z.of_nat (length (slice 0 m src)) = m) as Hlen by (rewrite slice_length; lia).
  assert (s32 m = m) as E32 by (apply s32_small; lia). rewrite Z.gtb_ltb.
  destruct (decide (0 < m /\ i.(i_size) < off + m)) as [[Hp Hgt]|Hnot].
  - rewrite (proj2 (Z.ltb_lt 0 m) Hp), (proj2 (Z.ltb_lt _ _) Hgt).
    destruct (wrote_beyond s i off _ s1 i1 (off + m) Ho Hw) as (s2 & E2 & Hwn); [lia|lia|change (MAXFILE * BSIZE) with 71680; lia|].
    exists s2, (set_i_size (off + m) i1). cbn [andb]. rewrite (kbind_Ok _ _ _ _ _ E2), E32. done.
  - exists s1, i1. assert ((0 <? m) && (i.(i_size) <? off + m) = false) as ->.
    { apply andb_false_iff. rewrite !Z.ltb_ge. lia. }
    cbn. rewrite E32. split; [done|]. apply wrote_inside; try done; [lia|].
    rewrite Hlen. destruct (decide (0 < m)) as [Hp|Hp]; [left; lia|right]. apply nil_length_inv. lia.
Qed.

(** ** Reading back *)

Lemma addr_of_iaddr s i bn :
  iaddr s i bn <> 0 -> addr_of s i bn = iaddr s i bn /\ (NDIRECT <= bn -> nth_addr i NDIRECT <> 0).
Proof.
  unfold addr_of, iaddr. destruct (Z.ltb_spec bn NDIRECT); [intros; split; [done|lia]|].
  destruct (Z.eqb_spec (nth_addr i NDIRECT) 0); [done|]. by split.
Qed.

Lemma file_byte_content s i o : iaddr s i (o / BSIZE) <> 0 -> file_byte s i o = content s i o.
Proof.
  intros Hn. unfold file_byte, file_block, content. by rewrite (proj1 (addr_of_iaddr s i _ Hn)), (proj2 (Z.eqb_neq _ _) Hn).
Qed.

Lemma open_mapped s i o : open_file s i -> 0 <= o < i.(i_size) -> mapped [] s i (o / BSIZE).
Proof.
  intros Ho Hr. pose proof Ho as [O1 O2 O3 O4 O5 O6]. pose proof (O5 o Hr) as Hn.
  destruct O3 as (_ & _ & _ & _ & Hsz). assert (0 <= o / BSIZE < MAXFILE) as Hbn by (apply in_file_block; unfold in_file; lia).
  destruct (addr_of_iaddr s i _ Hn) as [Ea Hind]. unfold mapped. rewrite Ea, (rd_dev _ _ O1). split; [done|]. split; [done|].
  split; [by apply (owned_readable s i), owned_addr|]. intros Hge. split; [by apply Hind|].
  by apply (owned_readable s i), owned_ind, Hind.
Qed.

Lemma written_bytes s i off l s' i' :
  written s i off l s' i' -> 0 <= off -> off + Z.of_nat (length l) <= i'.(i_size) ->
  file_bytes s' i' off (Z.of_nat (length l)) = l.
Proof.
  intros Hw Ho Hsz. pose proof (wn_open _ _ _ _ _ _ Hw) as Hop. apply list_eq. intros k. unfold file_bytes.
  rewrite list_lookup_fmap. destruct (decide (k < length l)%nat) as [Hk|Hk].
  - rewrite lookup_seq_lt by lia. simpl. rewrite file_byte_content by (apply (of_whole _ _ Hop); lia).
    destruct (of_fields _ _ Hop) as (_ & _ & _ & _ & Hs2).
    rewrite (wn_content _ _ _ _ _ _ Hw), decide_True by (unfold in_file; lia).
    replace (Z.to_nat (off + Z.of_nat k - off)) with k by lia. destruct (lookup_lt_is_Some_2 l k Hk) as [x ->]. done.
  - rewrite lookup_seq_ge by lia. symmetry. apply lookup_ge_None_2. lia.
Qed.

End files.

(** ** Properties *)

(** C14: [writei] on a regular file: an offset beyond the end, or a range that
    wraps around, is refused and nothing changes; otherwise the bytes of the
    source are in the file at the offset (as many as the largest file size
    allows), every other byte of the file is as before, the size is the maximum
    of the old size and the end of the write, the inode on disk agrees with the
    one in memory, and no block or inode of another file has changed, whether
    blocks existed, were allocated, or needed a new indirect block. *)
Theorem writei_correct `{Devsw} (dev : Z) (ip : nat) (s : kstate) (i : inode) (src : list Z) (off n : Z) :
  open_file dev ip s i -> 0 <= off < 2 ^ 32 -> 0 <= n < 2 ^ 32 -> n <= Z.of_nat (length src) ->
  (off > i.(i_size) \/ off + n >= 2 ^ 32 -> writei ip src off n s = Ok (-1) s) /\
  (off <= i.(i_size) -> off + n < 2 ^ 32 ->
   let m := Z.min n (MAXFILE * BSIZE - off) in
   free_blocks s dev (1 + rounds m) ->
   exists s' i', writei ip src off n s = Ok m s' /\ written dev ip s i off (slice 0 m src) s' i').
Proof. apply writei_run. Qed.

(** C17: What [writei] has written [readi] returns: after a write of [n] bytes
    that ends within the largest file, a read of [n] bytes at the same offset
    succeeds and yields the bytes written. *)
Theorem write_read_back `{Devsw} (dev : Z) (ip : nat) (s : kstate) (i : inode) (src : list Z) (off n : Z) :
  open_file dev ip s i -> 0 <= off <= i.(i_size) -> 0 <= n <= Z.of_nat (length src) -> off + n <= MAXFILE * BSIZE ->
  free_blocks s dev (1 + rounds n) ->
  exists s1 s2, writei ip src off n s = Ok n s1 /\ readi ip off n s1 = Ok (n, take (Z.to_nat n) src) s2 /\
    s2.(disk) = s1.(disk).
Proof.
  intros Ho Hoff Hn Hmax Hfree. change (MAXFILE * BSIZE) with 71680 in Hmax.
  destruct (writei_run dev ip s i src off n Ho ltac:(lia) ltac:(lia) ltac:(lia)) as [_ Hw].
  specialize (Hw ltac:(lia) ltac:(lia)). cbv zeta in Hw.
  rewrite (Z.min_l n) in Hw by (change (MAXFILE * BSIZE) with 71680; lia).
  destruct (Hw Hfree) as (s1 & i1 & E & Hwn). pose proof (wn_open _ _ _ _ _ _ _ _ Hwn) as Ho1.
  assert (length (slice 0 n src) = Z.to_nat n) as Hlen by (apply slice_length; lia).
  assert (off + n <= i1.(i_size)) as Hsz.
  { rewrite (wn_meta _ _ _ _ _ _ _ _ Hwn). cbn [i_size set_i_size]. rewrite Hlen. lia. }
  destruct (of_fields _ _ _ _ Ho1) as (_ & _ & _ & _ & Hs1). change (MAXFILE * BSIZE) with 71680 in Hs1.
  destruct (of_ready _ _ _ _ Ho1) as [R1 R2 R3 R4 R5 R6].
  destruct (readi_run [] s1 ip i1 off n R1 R2 R3 (of_type _ _ _ _ Ho1)) as [_ Hrd]; [lia|lia|lia| |].
  { intros o Hr. apply (open_mapped dev ip s1 i1 o Ho1). lia. }
  destruct Hrd as (s2 & E2 & _ & Hd & _); [lia|lia|]. rewrite Z.min_l in E2 by lia.
  exists s1, s2. split; [done|]. split; [|done]. rewrite E2. do 2 f_equal.
  pose proof (written_bytes dev ip _ _ off _ _ _ Hwn) as Hb. rewrite Hlen, Z2Nat.id in Hb by lia.
  rewrite Hb by lia. done.
Qed.

(** ** A small file system *)

(** One file in block 10, with the metadata and that block marked. *)
Section small.
Context (ty sz : Z) (data : list Z).
Hypothesis Hdata : length data = 512%nat.

Definition used_blocks : list Z := [31; 4] ++ replicate 510 0.
Definition saved_inode : inode := mk_inode 1 1 1 I_VALID ty 0 0 1 sz (10 :: replicate 12 0).
Definition inode_block : list Z := splice 64 (dinode_bytes (to_dinode saved_inode)) zeros.
Definition saved_disk : gmap (Z * Z) (list Z) :=
  <[(1, 2) := inode_block]> (<[(1, 10) := data]> (small_disk used_blocks)).
Definition saved_state : kstate := set_icache [saved_inode] (boot_cache saved_disk).

Lemma saved_disk_wf : disk_wf saved_disk.
Proof.
  intros k x. unfold saved_disk. rewrite !lookup_insert_Some.
  intros [[_ <-]|[_ [[_ <-]|[_ Hx]]]]; [reflexivity|exact Hdata|]. revert Hx. by apply small_disk_wf.
Qed.

Lemma saved_state_disk : saved_state.(disk) = saved_disk.
Proof. apply (boot_cache_ok saved_disk saved_disk_wf). Qed.

Lemma saved_block n : block saved_state 1 n = default zeros (saved_disk !! (1, n)).
Proof. unfold block, sector_at. by rewrite saved_state_disk. Qed.

Lemma saved_sb : sb_of saved_state 1 = mk_superblock 100 90 8.
Proof. unfold sb_of. rewrite saved_block. reflexivity. Qed.

Lemma saved_bits b : 0 <= b < 100 -> in_bitmap saved_state 1 b = (b <? 5) || (b =? 10).
Proof.
  intros Hb. assert (in_bitmap saved_state 1 b = bit_used used_blocks b) as ->.
  { unfold in_bitmap. rewrite saved_sb. cbn [sb_ninodes]. rewrite small_BBLOCK by done. rewrite saved_block.
    change BPB with 4096. by rewrite Z.mod_small by lia. }
  assert (forallb (fun k => eqb (bit_used used_blocks (Z.of_nat k)) ((Z.of_nat k <? 5) || (Z.of_nat k =? 10))) (seq 0 100) = true) as Hall
    by (vm_compute; reflexivity).
  rewrite forallb_forall in Hall. specialize (Hall (Z.to_nat b)). rewrite Z2Nat.id in Hall by lia.
  apply eqb_prop, Hall. apply in_seq. lia.
Qed.

Lemma saved_fs : fs_ok saved_state 1.
Proof.
  split; [rewrite saved_state_disk; exact saved_disk_wf|by right|rewrite saved_sb; simpl; lia| | |];
    unfold data_block, data_start; rewrite saved_sb; cbn [sb_size sb_ninodes];
    change (BBLOCK (100 - 1) 8 + 1) with 5; [lia| |].
  - intros b Hb. rewrite saved_bits by lia. by rewrite (proj2 (Z.ltb_lt b 5)) by lia.
  - intros b Hb. rewrite saved_bits by lia. rewrite orb_false_iff, Z.ltb_ge, Z.eqb_neq. intros [_ Hne].
    rewrite saved_block. unfold saved_disk, small_disk.
    rewrite !lookup_insert_ne, lookup_singleton_ne by (intros [= ]; lia). done.
Qed.

Lemma saved_addr bn : 0 <= bn < MAXFILE -> iaddr saved_state saved_inode bn = if decide (bn = 0) then 10 else 0.
Proof.
  intros Hb. unfold iaddr. change (nth_addr saved_inode NDIRECT) with 0. cbn [Z.eqb].
  destruct (Z.ltb_spec bn NDIRECT) as [Hlt|Hge]; [|by rewrite decide_False by (unfold NDIRECT in Hge; lia)].
  unfold nth_addr. destruct (decide (bn = 0)) as [->|Hne]; [done|]. change NDIRECT with 12 in Hlt.
  cbn [i_addrs saved_inode]. rewrite lookup_cons_ne_0 by lia.
  destruct (replicate 12 0 !! _) eqn:E; [|done]. by apply lookup_replicate in E as [-> _].
Qed.

Lemma saved_file :
  0 <= sz <= 512 -> 0 < ty < 2 ^ 15 -> ty <> T_DEV ->
  get_dinode (slice 64 64 inode_block) = to_dinode saved_inode -> open_file 1 0 saved_state saved_inode.
Proof.
  intros Hsz Hty Hdev Hself. destruct (boot_cache_ok saved_disk saved_disk_wf) as (Hi & _).
  split; [|done|unfold fields_ok; cbn; change (MAXFILE * BSIZE) with 71680; lia|rewrite saved_sb; simpl; lia| |].
  - split; [by apply (inv_icache [] (boot_cache saved_disk))|exact (boot_cache_free _ saved_disk_wf)|done|done|exact saved_fs|].
    split; [done| | |done].
    + intros b [Hb [(bn & Hbn & E)|E]]; [|by rewrite <- E in Hb]. rewrite saved_addr in E by done.
      destruct (decide (bn = 0)); [|by rewrite <- E in Hb]. subst b. change (i_dev saved_inode) with 1.
      split; [|by rewrite saved_bits by lia]. unfold data_block, data_start. rewrite saved_sb. by vm_compute.
    + intros a b Ha Hb. rewrite !saved_addr by done. repeat case_decide; congruence.
  - intros o Ho. simpl in Ho. unfold BSIZE. rewrite Z.div_small by lia. by rewrite saved_addr.
  - unfold disk_inode. rewrite saved_block. exact Hself.
Qed.

Lemma saved_free : free_blocks saved_state 1 4.
Proof.
  exists [20; 21; 22; 23]. split; [|split; [done|]].
  - repeat (constructor; [set_solver|]). constructor.
  - intros c Hc. rewrite saved_sb. cbn [sb_size].
    assert (20 <= c <= 23) as Hr by (repeat (apply elem_of_cons in Hc as [->|Hc]; [lia|]); by apply elem_of_nil in Hc).
    split; [lia|]. rewrite saved_bits by lia. apply orb_false_iff. rewrite Z.ltb_ge, Z.eqb_neq. lia.
Qed.
End small.

(** The file "hello". *)
Definition hello_saved : kstate := saved_state T_FILE 5 hello_block.

Lemma hello_open : open_file 1 0 hello_saved hello_inode.
Proof. apply saved_file; [done|lia|unfold T_FILE; lia|done|by vm_compute]. Qed.

(** 600 bytes at offset 3: the file gets a second block. *)
Lemma writei_correct_witness :
  exists s' i', @writei no_devices 0 (replicate 600 7) 3 600 hello_saved = Ok 600 s' /\ i'.(i_size) = 603 /\
    disk_inode s' 1 1 = to_dinode i'.
Proof.
  destruct (@writei_correct no_devices 1 0 hello_saved hello_inode (replicate 600 7) 3 600) as [_ H];
    [exact hello_open|lia|lia|simpl; lia|].
  destruct H as (s' & i' & E & Hw); [simpl; lia|lia|exact (saved_free _ _ hello_block eq_refl)|]. exists s', i'. split; [exact E|].
  pose proof (wn_meta _ _ _ _ _ _ _ _ Hw) as Hm. split; [rewrite Hm; reflexivity|].
  assert (i'.(i_inum) = 1) as E1 by (rewrite Hm; reflexivity).
  rewrite <- (of_saved _ _ _ _ (wn_open _ _ _ _ _ _ _ _ Hw)), E1. reflexivity.
Defined.

Lemma write_read_back_witness :
  exists s1 s2, @writei no_devices 0 (replicate 600 7) 3 600 hello_saved = Ok 600 s1 /\
    @readi no_devices 0 3 600 s1 = Ok (600, replicate 600 7) s2.
Proof.
  destruct (@write_read_back no_devices 1 0 hello_saved hello_inode (replicate 600 7) 3 600) as (s1 & s2 & E1 & E2 & _);
    [exact hello_open|simpl; lia|simpl; lia|change (MAXFILE * BSIZE) with 71680; lia|exact (saved_free _ _ hello_block eq_refl)|].
  exists s1, s2. split; [exact E1|exact E2].
Defined.
