(* ===== verification/Itrunc.v ===== *)
(** Truncating files: itrunc of fs.c gives every block of a file back to the
    bitmap, with its contents cleared, and touches no other file. *)

From S2P Require Import Prelude CString State Ide Bio Bytes FsBlock Inode Writei.

Implicit Types s : kstate.

(** ** bfree *)

(** From [s0] to [s] the data blocks in [F] have been freed. *)
Record freeing (dev : Z) (B : list nat) (F : Z -> Prop) (s0 s : kstate) : Prop := {
  fr_inv : bcache_inv B s;
  fr_locks : s.(held) = s0.(held);
  fr_fs : fs_ok s dev;
  fr_sb : sb_of s dev = sb_of s0 dev;
  fr_bits c : data_block s0 dev c -> in_bitmap s dev c = true <-> in_bitmap s0 dev c = true /\ ~ F c;
  fr_blocks c : data_block s0 dev c -> ~ F c -> block s dev c = block s0 dev c;
  fr_inodes b : 0 <= b < BBLOCK 0 (sb_of s0 dev).(sb_ninodes) -> block s dev b = block s0 dev b
}.

Lemma freeing_ext dev B F F' s0 s :
  (forall c, data_block s0 dev c -> F c <-> F' c) -> freeing dev B F s0 s -> freeing dev B F' s0 s.
Proof.
  intros He [H1 H2 H3 H4 H5 H6 H7]. split; try done.
  - intros c Hc. rewrite H5, He by done. done.
  - intros c Hc HF. apply H6; [done|]. by rewrite He.
Qed.

Lemma freeing_frame dev B B' F s0 s s' :
  bcache_inv B' s' -> s'.(disk) = s.(disk) -> s'.(held) = s.(held) -> freeing dev B F s0 s -> freeing dev B' F s0 s'.
Proof.
  intros Hi Hd Hh [H1 H2 H3 H4 H5 H6 H7]. split; [done|congruence|by apply (fs_ok_disk s)|..].
  all: unfold in_bitmap, sb_of, block in *; rewrite ?Hd; done.
Qed.

(** [bfree] of a marked data block. *)
Lemma bfree_fs B s dev b :
  bcache_inv B s -> free_locks s -> fs_ok s dev -> data_block s dev b -> in_bitmap s dev b = true ->
  (forall n, 0 <= n < data_start s dev \/ n = b -> not_in_use B s dev n) -> (length B < NBUF)%nat ->
  exists s', bfree dev b s = Ok tt s' /\ after_io bcache_inv B s'.(disk) s s' /\ block s' dev b = zero_block /\
    sb_of s' dev = sb_of s dev /\
    (forall c, 0 <= c < (sb_of s dev).(sb_size) -> in_bitmap s' dev c = in_bitmap s dev c && negb (bool_decide (c = b))) /\
    (forall n, n <> b -> n <> BBLOCK b (sb_of s dev).(sb_ninodes) -> block s' dev n = block s dev n).
Proof.
  intros Hi Hl Hf Hb Hm Hnu HB. destruct (data_start_ge s dev Hf) as (H4 & H1 & Hbb), Hb as [Hb1 Hb2].
  assert (forall c, 0 <= c < (sb_of s dev).(sb_size) -> b <> BBLOCK c (sb_of s dev).(sb_ninodes)) as Hne.
  { intros c Hc ->. specialize (Hbb c Hc). lia. }
  assert (can_read B s dev b) as Hc.
  { split; [split; [apply Hf|destruct (fs_size s dev Hf); lia]|]. split; [apply Hnu; by right|done]. }
  pose proof (fs_bitmap_ready B s dev Hf ltac:(intros; apply Hnu; by left) HB) as Hr.
  pose proof (bfree_run B s dev b Hi Hl Hr Hc ltac:(lia) ltac:(lia) (Hne b ltac:(lia))) as H. rewrite Hm in H.
  destruct H as (s' & E & Ha). destruct (bfree_correct B s dev b Hi Hl Hr Hc ltac:(lia) ltac:(lia) Hne) as [_ H].
  destruct (H Hm) as (s2 & E2 & _ & Hz & Hbits & Hblk). rewrite E in E2. injection E2 as <-.
  exists s'. split; [done|]. split; [destruct Ha as (? & _ & ? & ?); done|]. split; [done|].
  split; [|done]. unfold sb_of at 1. rewrite Hblk; [done|lia|]. specialize (Hbb b ltac:(lia)). lia.
Qed.

Lemma data_block_sb s s' dev c : sb_of s' dev = sb_of s dev -> data_block s' dev c <-> data_block s dev c.
Proof. intros E. unfold data_block. by rewrite (sb_data _ _ _ E), E. Qed.

(** One more block is freed. *)
Lemma freeing_step dev B F s0 s b :
  freeing dev B F s0 s -> free_locks s0 -> fs_ok s0 dev -> data_block s0 dev b -> in_bitmap s0 dev b = true -> ~ F b ->
  (forall n, 0 <= n < data_start s0 dev \/ n = b -> not_in_use B s dev n) -> (length B < NBUF)%nat ->
  exists s', bfree dev b s = Ok tt s' /\ io_frame s s' /\ others_kept B s s' /\ freeing dev B (fun c => F c \/ c = b) s0 s'.
Proof.
  intros [H1 H2 H3 H4 H5 H6 H7] Hl0 Hf0 Hb Hm HF Hnu HB. pose proof (sb_data _ _ _ H4) as Ed.
  assert (free_locks s) as Hl by (unfold free_locks; by rewrite H2).
  destruct (bfree_fs B s dev b) as (s' & E & (Hi & _ & Hfr & Hok) & Hz & Hsb & Hbits & Hblk); try done.
  { by apply (data_block_sb s0). } { by apply H5. } { by rewrite Ed. }
  exists s'. split; [done|]. split; [done|]. split; [done|]. rewrite H4 in *.
  destruct (data_start_ge s0 dev Hf0) as (G4 & G1 & Gb). pose proof (Gb b ltac:(destruct Hb; lia)) as Hbb.
  assert (forall c, data_start s0 dev <= c -> c <> b -> block s' dev c = block s dev c) as Hkeep by (intros c Hc Hne; apply Hblk; [done|lia]).
  split; [done|by rewrite (io_frame_locks _ _ Hfr)| |done| | |].
  - destruct H3 as [W1 W2 W3 W4 W5 W6].
    split; unfold data_block in *; rewrite ?(sb_data _ _ _ Hsb), ?Hsb, ?Ed, ?H4 in *; try done; [by apply (bcache_disk_wf B)| |].
    + intros c Hc. rewrite Hbits, W5, bool_decide_eq_false_2 by (done || lia). done.
    + intros c Hc. rewrite Hbits by lia. destruct (decide (c = b)) as [->|Hne]; [done|].
      rewrite bool_decide_eq_false_2, andb_true_r, Hkeep by (done || lia). by apply W6.
  - intros c Hc. rewrite Hbits by (destruct Hc; lia). rewrite andb_true_iff, negb_true_iff, bool_decide_eq_false, H5 by done. tauto.
  - intros c Hc Hn. rewrite Hkeep; [apply H6; tauto|destruct Hc; lia|tauto].
  - intros c Hc. rewrite Hblk; [by apply H7|destruct Hb, (Gb 0 ltac:(lia)); lia|].
    unfold BBLOCK in *. change (0 / BPB) with 0 in Hc. pose proof (Z.div_pos b BPB ltac:(destruct Hb; lia) ltac:(done)). lia.
Qed.

Section truncate.
Context (dev : Z) (ip : nat) (s0 : kstate) (i : inode).
Hypothesis Hready : ready dev ip s0 i.

(** Blocks of the file before file block [n]. *)
Definition before (n : Z) (c : Z) : Prop := exists j, 0 <= j < n /\ iaddr s0 i j = c.

Lemma before_step n c : 0 <= n -> before (n + 1) c <-> before n c \/ c = iaddr s0 i n.
Proof.
  intros Hn. unfold before. split.
  - intros (j & Hj & E). destruct (Z.eq_dec j n) as [->|]; [by right|left]. exists j. split; [lia|done].
  - intros [(j & Hj & E)| ->]; [exists j|exists n]; split; (done || lia).
Qed.

Lemma data_pos c : data_block s0 dev c -> c <> 0.
Proof. intros [Hc _]. destruct (data_start_ge s0 dev (rd_fs _ _ _ _ Hready)). lia. Qed.

(** Freeing file block [n], or there is none. *)
Lemma free_next B s n :
  freeing dev B (before n) s0 s -> 0 <= n < MAXFILE ->
  (iaddr s0 i n <> 0 -> forall m, 0 <= m < data_start s0 dev \/ m = iaddr s0 i n -> not_in_use B s dev m) -> (length B < NBUF)%nat ->
  exists s', (if iaddr s0 i n =? 0 then kret tt else bfree dev (iaddr s0 i n)) s = Ok tt s' /\ io_frame s s' /\
    others_kept B s s' /\ freeing dev B (before (n + 1)) s0 s'.
Proof.
  intros Hfr Hn Hnu HB. destruct Hready as [R1 R2 R3 R4 R5 R6].
  destruct (Z.eqb_spec (iaddr s0 i n) 0) as [H0|Hnz].
  - exists s. split; [done|]. split; [done|]. split; [by intros c dv m e|].
    apply (freeing_ext dev B (before n)); [|done]. intros c Hc. rewrite before_step by lia. rewrite H0.
    pose proof (data_pos c Hc). tauto.
  - destruct (fi_owned s0 i R6 _ (owned_addr s0 i n Hn Hnz)) as [Hd Hm]. rewrite R4 in *.
    destruct (freeing_step dev B (before n) s0 s (iaddr s0 i n)) as (s' & E & Hf & Hk & Hfr'); try done; [| by apply Hnu|].
    + intros (j & Hj & E). assert (j = n); [|lia]. apply (fi_inj s0 i R6); [lia|done|by rewrite E|done].
    + exists s'. split; [done|]. split; [done|]. split; [done|].
      apply (freeing_ext dev B (fun c => before n c \/ c = iaddr s0 i n)); [|done].
      intros c Hc. rewrite before_step by lia. done.
Qed.

(** The inode with its first [k] addresses cleared. *)
Definition cleared (k : nat) : inode := set_i_addrs (replicate k 0 ++ drop k i.(i_addrs)) i.

Lemma cleared_next k : (k < 13)%nat -> set_addr (Z.of_nat k) 0 (cleared k) = cleared (k + 1).
Proof.
  intros Hk. pose proof (fi_len s0 i (rd_file _ _ _ _ Hready)) as Hl.
  destruct (lookup_lt_is_Some_2 i.(i_addrs) k) as [x Hx]; [lia|].
  unfold set_addr, cleared. cbn [i_addrs set_i_addrs]. rewrite Nat2Z.id, (drop_S _ x k Hx).
  rewrite insert_app_r_alt by (rewrite length_replicate; lia). rewrite length_replicate, Nat.sub_diag.
  rewrite Nat.add_1_r, replicate_S_end, <- app_assoc. done.
Qed.

Lemma cleared_nth k : (k < 13)%nat -> nth_addr (cleared k) (Z.of_nat k) = nth_addr i (Z.of_nat k).
Proof.
  intros Hk. unfold nth_addr, cleared. cbn [i_addrs set_i_addrs]. rewrite Nat2Z.id.
  rewrite lookup_app_r by (rewrite length_replicate; lia). by rewrite length_replicate, Nat.sub_diag, lookup_drop, Nat.add_0_r.
Qed.

Lemma cleared_zero k : (k < 13)%nat -> nth_addr i (Z.of_nat k) = 0 -> cleared (k + 1) = cleared k.
Proof.
  intros Hk H0. rewrite <- cleared_next by done. unfold set_addr. transitivity (set_i_addrs (cleared k).(i_addrs) (cleared k)); [f_equal; apply list_insert_id|done].
  pose proof (cleared_nth k Hk) as E. rewrite H0 in E. unfold nth_addr in E. rewrite Nat2Z.id in *.
  pose proof (fi_len s0 i (rd_file _ _ _ _ Hready)) as Hl.
  destruct (lookup_lt_is_Some_2 (cleared k).(i_addrs) k) as [x Hx].
  { unfold cleared. cbn [i_addrs set_i_addrs]. rewrite length_app, length_replicate, length_drop. lia. }
  rewrite Hx in E. cbn in E. by rewrite Hx, E.
Qed.

Lemma direct_addr k : (k < 12)%nat -> iaddr s0 i (Z.of_nat k) = nth_addr i (Z.of_nat k).
Proof. intros Hk. unfold iaddr. rewrite (proj2 (Z.ltb_lt _ _)); [done|]. unfold NDIRECT. lia. Qed.

(** So far [F] is freed and the first [k] addresses are cleared. *)
Definition trunc_at (F : Z -> Prop) (k : nat) (s : kstate) : Prop :=
  freeing dev [] F s0 s /\ s.(icache) = <[ip := cleared k]> s0.(icache).

Lemma trunc_inode F k s : trunc_at F k s -> s.(icache) !! ip = Some (cleared k).
Proof.
  intros [_ Hic]. rewrite Hic. apply list_lookup_insert_eq. eapply lookup_lt_Some, (rd_icache _ _ _ _ Hready).
Qed.

(** The address is cleared after its block is freed. *)
Lemma clear_addr F F' k s s' :
  trunc_at F k s -> (k < 13)%nat -> io_frame s s' -> freeing dev [] F' s0 s' ->
  exists s2, mod_inode ip (set_addr (Z.of_nat k) 0) s' = Ok tt s2 /\ trunc_at F' (k + 1) s2.
Proof.
  intros Ht Hk Hf Hfr. pose proof (io_frame_icache _ _ Hf) as Hic. pose proof Ht as [_ Hic0]. eexists. split.
  - apply (mod_inode_run ip _ s' (cleared k)). rewrite Hic. by apply (trunc_inode F).
  - split; [|cbn; by rewrite Hic, Hic0, list_insert_insert_eq, cleared_next].
    apply (freeing_frame dev [] [] F' s0 s'); try done. by apply inv_icache, (fr_inv _ _ _ _ _ Hfr).
Qed.

Lemma direct_step k s :
  (k < 12)%nat -> trunc_at (before (Z.of_nat k)) k s ->
  exists s', (let* i := get_inode ip in
    if nth_addr i (Z.of_nat k) =? 0 then kret tt else
    bfree i.(i_dev) (nth_addr i (Z.of_nat k)) ;;;
    mod_inode ip (set_addr (Z.of_nat k) 0)) s = Ok tt s' /\ trunc_at (before (Z.of_nat (k + 1))) (k + 1) s'.
Proof.
  intros Hk Ht. pose proof Ht as [Hfr Hic]. rewrite (kbind_Ok _ _ _ _ _ (get_inode_run ip s _ (trunc_inode _ k s Ht))).
  rewrite cleared_nth by lia. change (i_dev (cleared k)) with i.(i_dev). rewrite (rd_dev _ _ _ _ Hready).
  destruct (free_next [] s (Z.of_nat k) Hfr) as (s1 & E & Hf & _ & Hfr1).
  { change MAXFILE with 140. lia. } { intros; apply no_use. } { exact NBUF_pos. }
  rewrite direct_addr in E by done. replace (Z.of_nat (k + 1)) with (Z.of_nat k + 1) by lia.
  destruct (Z.eqb_spec (nth_addr i (Z.of_nat k)) 0) as [H0|Hnz].
  - injection E as <-. exists s. split; [done|]. split; [done|]. rewrite cleared_zero by (done || lia). done.
  - kexec by (exact E). by apply (clear_addr (before (Z.of_nat k)) _ k s s1); [|lia|..].
Qed.

Lemma direct_run :
  exists s, kfor (seq 0 (Z.to_nat NDIRECT)) (fun k =>
    let* i := get_inode ip in
    if nth_addr i (Z.of_nat k) =? 0 then kret tt else
    bfree i.(i_dev) (nth_addr i (Z.of_nat k)) ;;;
    mod_inode ip (set_addr (Z.of_nat k) 0)) s0 = Ok tt s /\ trunc_at (before NDIRECT) 12 s.
Proof.
  destruct Hready as [R1 R2 R3 R4 R5 R6].
  apply (kfor_seq (fun k s => trunc_at (before (Z.of_nat k)) k s) _ 0 12).
  - intros k s Hk. apply direct_step. lia.
  - split; [|unfold cleared; cbn; rewrite list_insert_id; [done|]; by rewrite R3; destruct i].
    split; try done. intros c Hc. split; [intros Hm; split; [done|]|tauto]. intros (j & Hj & _). cbn in Hj. lia.
Qed.

(** ** The indirect block *)

Section indirect.
Context (bp : nat) (a : Z).
Hypothesis Ha : a = nth_addr i NDIRECT.
Hypothesis Hnz : a <> 0.

Lemma a_owned : owned s0 i a /\ data_block s0 dev a /\ in_bitmap s0 dev a = true.
Proof.
  assert (owned s0 i a) as Ho by (subst a; by apply owned_ind). split; [done|].
  rewrite <- (rd_dev _ _ _ _ Hready). by apply (fi_owned s0 i (rd_file _ _ _ _ Hready)).
Qed.

Lemma a_not_before n : n <= MAXFILE -> ~ before n a.
Proof.
  intros Hn (j & Hj & E). apply (fi_ind s0 i (rd_file _ _ _ _ Hready) j); [lia|by rewrite <- Ha|by rewrite <- Ha].
Qed.

Lemma iaddr_entry j : (j < 128)%nat -> iaddr s0 i (NDIRECT + Z.of_nat j) = get32 (4 * Z.of_nat j) (block s0 dev a).
Proof.
  intros Hj. unfold iaddr. rewrite (proj2 (Z.ltb_ge _ _)) by lia. rewrite <- Ha, (proj2 (Z.eqb_neq _ _) Hnz), (rd_dev _ _ _ _ Hready).
  do 3 f_equal. lia.
Qed.

(** The first [j] entries are freed, the table still being in the buffer. *)
Definition entries_at (j : nat) (s : kstate) : Prop :=
  freeing dev [bp] (before (NDIRECT + Z.of_nat j)) s0 s /\ in_use s bp dev a (block s0 dev a) /\
  s.(icache) = <[ip := cleared 12]> s0.(icache).

Lemma entry_step j s :
  (j < 128)%nat -> entries_at j s ->
  exists s', (let* t := buf_data bp in
    if get32 (4 * Z.of_nat j) t =? 0 then kret tt else bfree dev (get32 (4 * Z.of_nat j) t)) s = Ok tt s' /\
    entries_at (j + 1) s'.
Proof.
  intros Hj (Hfr & Hu & Hic). kexec by (exact (buf_data_run _ _ _ _ _ Hu)). rewrite <- iaddr_entry by done.
  destruct (free_next [bp] s (NDIRECT + Z.of_nat j) Hfr) as (s1 & E & Hf & Hk & Hfr1).
  { change MAXFILE with 140. change NDIRECT with 12. lia. }
  { intros Hz m Hm b Hb%list_elem_of_singleton. subst b. eexists dev, a, _. split; [exact Hu|]. intros [= Em].
    destruct a_owned as (_ & [Hd _] & _). destruct Hm as [Hm|Hm]; [lia|].
    apply (a_not_before MAXFILE ltac:(done)). exists (NDIRECT + Z.of_nat j).
    split; [change MAXFILE with 140; change NDIRECT with 12; lia|congruence]. }
  { cbn. unfold NBUF. lia. }
  exists s1. split; [done|]. split; [by replace (NDIRECT + Z.of_nat (j + 1)) with (NDIRECT + Z.of_nat j + 1) by lia|].
  split; [exact (Hk _ _ _ _ ltac:(left) Hu)|]. by rewrite (io_frame_icache _ _ Hf).
Qed.
End indirect.

Lemma owned_all c :
  data_block s0 dev c -> owned s0 i c <-> before MAXFILE c \/ (nth_addr i NDIRECT <> 0 /\ c = nth_addr i NDIRECT).
Proof.
  intros Hc. pose proof (data_pos c Hc) as Hz. unfold owned, before. split.
  - intros [_ [Hb|Hb]]; [by left|right]. by subst c.
  - intros [Hb|[_ Hb]]; (split; [done|]); [by left|by right].
Qed.

Lemma indirect_run s :
  trunc_at (before NDIRECT) 12 s ->
  exists s', (let* i := get_inode ip in
    if nth_addr i NDIRECT =? 0 then kret tt else
    let* bp := bread i.(i_dev) (nth_addr i NDIRECT) in
    kfor (seq 0 (Z.to_nat NINDIRECT)) (fun j =>
      let* a := buf_data bp in
      if get32 (4 * Z.of_nat j) a =? 0 then kret tt
      else bfree i.(i_dev) (get32 (4 * Z.of_nat j) a)) ;;;
    brelse bp ;;;
    bfree i.(i_dev) (nth_addr i NDIRECT) ;;;
    mod_inode ip (set_addr NDIRECT 0)) s = Ok tt s' /\ trunc_at (owned s0 i) 13 s'.
Proof.
  intros Ht. pose proof Ht as [Hfr Hic]. rewrite (kbind_Ok _ _ _ _ _ (get_inode_run ip s _ (trunc_inode _ _ s Ht))).
  change (nth_addr (cleared 12) NDIRECT) with (nth_addr (cleared 12) (Z.of_nat 12)). rewrite cleared_nth by lia.
  change (i_dev (cleared 12)) with i.(i_dev). rewrite (rd_dev _ _ _ _ Hready). change (Z.of_nat 12) with NDIRECT.
  assert (free_locks s) as Hl.
  { unfold free_locks. rewrite (fr_locks _ _ _ _ _ Hfr). apply (rd_locks _ _ _ _ Hready). }
  destruct (Z.eqb_spec (nth_addr i NDIRECT) 0) as [H0|Hnz].
  - exists s. split; [done|]. split; [|pose proof (cleared_zero 12 ltac:(lia) H0) as Ec; cbn [Nat.add] in Ec; by rewrite Ec].
    apply (freeing_ext dev [] (before NDIRECT)); [|done]. intros c Hc. rewrite owned_all by done. unfold before. split.
    + intros (j & Hj & E). left. exists j. change MAXFILE with 140. change NDIRECT with 12 in Hj. split; [lia|done].
    + intros [(j & Hj & E)|[? _]]; [|done]. exists j. split; [|done]. destruct (Z.lt_ge_cases j NDIRECT); [lia|].
      destruct (data_pos c Hc). rewrite <- E. unfold iaddr. rewrite (proj2 (Z.ltb_ge _ _)) by lia. by rewrite H0.
  - set (a := nth_addr i NDIRECT) in *. destruct (a_owned a eq_refl Hnz) as (Ho & Hd & Hm).
    assert (can_read [] s dev a) as Hc.
    { destruct (fs_size s0 dev (rd_fs _ _ _ _ Hready)), (data_start_ge s0 dev (rd_fs _ _ _ _ Hready)), Hd.
      split; [split; [apply (rd_fs _ _ _ _ Hready)|lia]|]. split; [apply no_use|exact NBUF_pos]. }
    destruct (bread_run [] s dev a (fr_inv _ _ _ _ _ Hfr) Hl Hc) as (bp & s1 & E & Hbp & Hu & Hi1 & Hd1 & Hf1 & _).
    rewrite (fr_blocks _ _ _ _ _ Hfr) in Hu by (done || by apply a_not_before). kexec by (exact E).
    destruct (kfor_seq (entries_at bp a) (fun j => let* t := buf_data bp in
      if get32 (4 * Z.of_nat j) t =? 0 then kret tt else bfree dev (get32 (4 * Z.of_nat j) t)) 0 128 s1) as (s2 & E2 & Hfr2 & Hu2 & Hic2).
    { intros j t Hj. apply (entry_step bp a eq_refl Hnz j t). lia. }
    { split; [|split; [done|by rewrite (io_frame_icache _ _ Hf1)]].
      rewrite Z.add_0_r. by apply (freeing_frame dev [] [bp] _ s0 s); [done|done|apply io_frame_locks|]. }
    change (Z.to_nat NINDIRECT) with 128%nat. kexec by (exact E2). change (NDIRECT + Z.of_nat (0 + 128)) with MAXFILE in Hfr2.
    destruct (brelse_quiet [] s2 bp dev a (fr_inv _ _ _ _ _ Hfr2)) as (s3 & E3 & Hi3 & Hd3 & Hf3 & _).
    { unfold free_locks. rewrite (fr_locks _ _ _ _ _ Hfr2). apply (rd_locks _ _ _ _ Hready). } { done. }
    { by rewrite (fr_blocks _ _ _ _ _ Hfr2) by (done || by apply a_not_before). }
    kexec by (exact E3). pose proof (freeing_frame dev [bp] [] _ s0 s2 s3 Hi3 Hd3 (io_frame_locks _ _ Hf3) Hfr2) as Hfr3.
    destruct (freeing_step dev [] (before MAXFILE) s0 s3 a Hfr3 (rd_locks _ _ _ _ Hready) (rd_fs _ _ _ _ Hready) Hd Hm) as (s4 & E4 & Hf4 & _ & Hfr4);
      [by apply a_not_before|intros; apply no_use|exact NBUF_pos|].
    kexec by (exact E4). apply (clear_addr (before MAXFILE) _ 12 s3 s4); [|lia|done|].
    + split; [done|]. by rewrite (io_frame_icache _ _ Hf3).
    + apply (freeing_ext dev [] (fun c => before MAXFILE c \/ c = a)); [|done]. intros c Hcd. rewrite owned_all by done. fold a. tauto.
Qed.
(** ** All of itrunc *)

Definition empty_inode : inode := set_i_size 0 (set_i_addrs (replicate 13 0) i).

Lemma cleared_all : cleared 13 = set_i_addrs (replicate 13 0) i.
Proof.
  unfold cleared. pose proof (fi_len s0 i (rd_file _ _ _ _ Hready)) as Hl. by rewrite drop_ge, app_nil_r by lia.
Qed.

Lemma no_addr j k : i_addrs j = replicate 13 0 -> nth_addr j k = 0.
Proof.
  intros E. unfold nth_addr. rewrite E. destruct (replicate 13 0 !! _) eqn:El; [|done]. by apply lookup_replicate in El as [-> _].
Qed.

Lemma no_blocks s j : i_addrs j = replicate 13 0 -> (forall bn, iaddr s j bn = 0) /\ forall b, ~ owned s j b.
Proof.
  intros E. assert (forall bn, iaddr s j bn = 0) as Ha by (intros bn; unfold iaddr; rewrite !(no_addr j) by done; by destruct (_ <? _)).
  split; [done|]. intros b [Hz [(bn & _ & Eb)|Eb]]; [by rewrite Ha in Eb; subst b|]. rewrite (no_addr j) in Eb by done. by subst b.
Qed.

Lemma trunc_ready s : trunc_at (owned s0 i) 13 s -> ready dev ip s (cleared 13).
Proof.
  intros Ht. pose proof Ht as [Hfr Hic].
  assert (i_addrs (cleared 13) = replicate 13 0) as Ea by (by rewrite cleared_all).
  destruct (no_blocks s (cleared 13) Ea) as [Ha Ho].
  split; [apply (fr_inv _ _ _ _ _ Hfr)| |by apply (trunc_inode (owned s0 i))|apply (rd_dev _ _ _ _ Hready)|apply (fr_fs _ _ _ _ _ Hfr)|].
  - unfold free_locks. rewrite (fr_locks _ _ _ _ _ Hfr). apply (rd_locks _ _ _ _ Hready).
  - split; [by rewrite Ea| |intros x y _ _ Hx; by rewrite Ha in Hx|intros bn _ Hn; by rewrite no_addr in Hn].
    intros b Hb. by destruct (Ho b).
Qed.

(** What [itrunc] has done. *)
Record truncated (s : kstate) : Prop := {
  tr_open : open_file dev ip s empty_inode;
  tr_free b : owned s0 i b -> in_bitmap s dev b = false /\ block s dev b = zero_block;
  tr_others b : data_block s0 dev b -> ~ owned s0 i b ->
    in_bitmap s dev b = in_bitmap s0 dev b /\ block s dev b = block s0 dev b;
  tr_inodes n : 0 <= n < (sb_of s0 dev).(sb_ninodes) -> n <> i.(i_inum) -> disk_inode s dev n = disk_inode s0 dev n;
  tr_icache : s.(icache) = <[ip := empty_inode]> s0.(icache);
  tr_held : s.(held) = s0.(held)
}.

Lemma trunc_bits s b :
  freeing dev [] (owned s0 i) s0 s -> data_block s0 dev b ->
  (owned s0 i b -> in_bitmap s dev b = false) /\ (~ owned s0 i b -> in_bitmap s dev b = in_bitmap s0 dev b).
Proof.
  intros Hfr Hb. pose proof (fr_bits _ _ _ _ _ Hfr b Hb) as H.
  destruct (in_bitmap s dev b), (in_bitmap s0 dev b); naive_solver.
Qed.

Lemma freed_inode s n :
  freeing dev [] (owned s0 i) s0 s -> 0 <= n < (sb_of s0 dev).(sb_ninodes) -> disk_inode s dev n = disk_inode s0 dev n.
Proof.
  intros Hfr Hn. unfold disk_inode. rewrite (fr_inodes _ _ _ _ _ Hfr); [done|]. unfold IBLOCK, BBLOCK. change (0 / BPB) with 0.
  pose proof (Z.div_pos n IPB ltac:(lia) ltac:(done)).
  assert (n / IPB <= (sb_of s0 dev).(sb_ninodes) / IPB) by (apply Z.div_le_mono; [done|lia]). lia.
Qed.

(** The inode is saved after its blocks are freed. *)
Lemma truncated_from s2 s4 :
  open_file dev ip s0 i -> freeing dev [] (owned s0 i) s0 s2 -> fields_ok empty_inode -> ready dev ip s4 empty_inode ->
  s4.(icache) = <[ip := empty_inode]> s0.(icache) -> s4.(held) = s2.(held) -> sb_of s4 dev = sb_of s2 dev ->
  (forall c, 0 <= c -> in_bitmap s4 dev c = in_bitmap s2 dev c) ->
  (forall b, data_block s2 dev b -> block s4 dev b = block s2 dev b) ->
  disk_inode s4 dev i.(i_inum) = to_dinode empty_inode ->
  (forall n, 0 <= n -> n <> i.(i_inum) -> disk_inode s4 dev n = disk_inode s2 dev n) -> truncated s4.
Proof.
  intros Ho Hfr Hf Hr Hic Hh Hsb Hbits Hblk Hself Hother. pose proof Ho as [O1 O2 O3 O4 O5 O6].
  pose proof (fr_sb _ _ _ _ _ Hfr) as Esb. pose proof (fr_fs _ _ _ _ _ Hfr) as Hfs.
  assert (forall b, data_block s0 dev b -> data_block s2 dev b /\ 0 <= b) as Hdb.
  { intros b Hb. split; [by apply (data_block_sb s0)|]. destruct Hb, (data_start_ge s0 dev (rd_fs _ _ _ _ O1)). lia. }
  split; [split| | | |done|]; try done.
  - by rewrite Hsb, Esb.
  - intros o Hr0. cbn in Hr0. lia.
  - intros b Hb. destruct (fi_owned s0 i (rd_file _ _ _ _ O1) b Hb) as [Hd _]. rewrite (rd_dev _ _ _ _ O1) in Hd.
    destruct (Hdb b Hd) as [Hd2 Hp]. rewrite Hbits, Hblk by done. destruct (trunc_bits s2 b Hfr Hd) as [Hfree _].
    split; [by apply Hfree|]. apply (fs_zero s2 dev Hfs); [done|by apply Hfree].
  - intros b Hd Hn. destruct (Hdb b Hd) as [Hd2 Hp]. rewrite Hbits, Hblk by done.
    split; [by apply (trunc_bits s2 b Hfr Hd)|by apply (fr_blocks _ _ _ _ _ Hfr)].
  - intros n Hn Hne. rewrite Hother by (done || lia). by apply freed_inode.
  - by rewrite Hh, (fr_locks _ _ _ _ _ Hfr).
Qed.

Lemma itrunc_run : open_file dev ip s0 i -> exists s', itrunc ip s0 = Ok tt s' /\ truncated s'.
Proof.
  intros Ho. destruct direct_run as (s1 & E1 & H1). destruct (indirect_run s1 H1) as (s2 & E2 & H2).
  pose proof (ready_resize dev ip s2 (cleared 13) 0 (trunc_ready s2 H2)) as Hr3. pose proof H2 as [Hfr Hic].
  rewrite cleared_all in Hr3. fold empty_inode in Hr3. set (s3 := set_icache (<[ip := empty_inode]> s2.(icache)) s2) in Hr3.
  assert (fields_ok empty_inode) as Hf.
  { destruct (of_fields _ _ _ _ Ho) as (F1 & F2 & F3 & F4 & _). unfold fields_ok. cbn.
    change (MAXFILE * BSIZE) with 71680. split_and!; lia. }
  assert (sb_of s3 dev = sb_of s0 dev) as Esb by apply (fr_sb _ _ _ _ _ Hfr).
  destruct (iupdate_ready dev ip s3 empty_inode Hr3 Hf) as (s4 & E4 & Hr4 & Hic4 & Hh4 & Hsb4 & Hbits & Hblk & Hself & Hother).
  { rewrite Esb. exact (of_inum _ _ _ _ Ho). }
  exists s4. split.
  - unfold itrunc. kexec by (exact E1).
    rewrite <- (kbind_assoc (get_inode ip)), (kbind_Ok _ _ _ _ _ E2).
    kexec by (exact (mod_inode_run ip _ s2 (cleared 13) (trunc_inode _ _ s2 H2))). rewrite cleared_all. exact E4.
  - apply (truncated_from s2 s4); try done. by rewrite Hic4; cbn; rewrite Hic, list_insert_insert_eq.
Qed.

End truncate.

(** ** Properties *)

(** C15: [itrunc] empties a file: every block it owned, direct, indirect and the
    table of indirect blocks, is free and cleared, its size is 0 and its inode
    on disk says so, while marks and contents of all other blocks and all
    other inodes are as before. *)
Theorem itrunc_correct (dev : Z) (ip : nat) (s : kstate) (i : inode) :
  open_file dev ip s i -> exists s', itrunc ip s = Ok tt s' /\ truncated dev ip s i s'.
Proof. intros Ho. apply itrunc_run; [apply Ho|done]. Qed.

(** C16: No block is lost: writing to a file and truncating it leaves marked
    exactly the blocks that were marked before and did not belong to the file,
    with their contents. *)
Theorem write_truncate_conserves `{Devsw} (dev : Z) (ip : nat) (s : kstate) (i : inode) (src : list Z) (off n : Z) :
  open_file dev ip s i -> 0 <= off <= i.(i_size) -> 0 <= n <= Z.of_nat (length src) -> off + n < 2 ^ 32 ->
  free_blocks s dev (1 + rounds (Z.min n (MAXFILE * BSIZE - off))) ->
  exists m s1 s2, writei ip src off n s = Ok m s1 /\ itrunc ip s1 = Ok tt s2 /\
    forall b, data_block s dev b ->
      (in_bitmap s2 dev b = true <-> in_bitmap s dev b = true /\ ~ owned s i b) /\
      (in_bitmap s2 dev b = true -> block s2 dev b = block s dev b).
Proof.
  intros Ho Hoff Hn Hwrap Hfree. destruct (of_fields _ _ _ _ Ho) as (_ & _ & _ & _ & Hsz).
  change (MAXFILE * BSIZE) with 71680 in Hsz.
  destruct (writei_run dev ip s i src off n Ho ltac:(lia) ltac:(lia) ltac:(lia)) as [_ Hw].
  destruct (Hw ltac:(lia) ltac:(lia) Hfree) as (s1 & i1 & E & Hwn). pose proof (wn_open _ _ _ _ _ _ _ _ Hwn) as Ho1.
  destruct (itrunc_run dev ip s1 i1 (of_ready _ _ _ _ Ho1) Ho1) as (s2 & E2 & Ht).
  exists (Z.min n (MAXFILE * BSIZE - off)), s1, s2. split; [done|]. split; [done|]. intros b Hb.
  assert (data_block s1 dev b) as Hb1 by (by apply (data_block_sb s), Hb; apply (wn_sb _ _ _ _ _ _ _ _ Hwn)).
  assert (in_bitmap s2 dev b = true -> ~ owned s1 i1 b) as Hno.
  { intros Hm Hb2. destruct (tr_free _ _ _ _ _ Ht b Hb2) as [Hf _]. congruence. }
  assert (in_bitmap s2 dev b = true -> in_bitmap s dev b = true /\ ~ owned s i b) as Hl.
  { intros Hm. pose proof (Hno Hm) as Hn1. destruct (tr_others _ _ _ _ _ Ht b Hb1 Hn1) as [Em _]. rewrite Em in Hm.
    destruct (wn_marks _ _ _ _ _ _ _ _ Hwn b Hb Hm) as [Hm0|]; [|done]. split; [done|].
    intros Hx. by apply Hn1, (wn_owned _ _ _ _ _ _ _ _ Hwn). }
  assert (in_bitmap s dev b = true /\ ~ owned s i b -> in_bitmap s2 dev b = true /\ block s2 dev b = block s dev b) as Hr.
  { intros [Hm Hx]. destruct (wn_others _ _ _ _ _ _ _ _ Hwn b Hb Hm Hx) as (W1 & W2 & W3).
    destruct (tr_others _ _ _ _ _ Ht b Hb1 W3) as [T1 T2]. by rewrite T1, T2. }
  split; [split; [done|by apply Hr]|]. intros Hm. by apply Hr, Hl.
Qed.

(** The file "hello" of the small file system is truncated. *)
Lemma itrunc_correct_witness :
  exists s', itrunc 0 hello_saved = Ok tt s' /\ in_bitmap s' 1 10 = false.
Proof.
  destruct (itrunc_correct 1 0 hello_saved hello_inode hello_open) as (s' & E & Ht). exists s'. split; [exact E|].
  apply (tr_free _ _ _ _ _ Ht 10). split; [lia|]. left. exists 0. split; [split; [lia|reflexivity]|reflexivity].
Defined.

Lemma write_truncate_conserves_witness :
  exists m s1 s2, @writei no_devices 0 (replicate 600 7) 3 600 hello_saved = Ok m s1 /\ itrunc 0 s1 = Ok tt s2.
Proof.
  destruct (@write_truncate_conserves no_devices 1 0 hello_saved hello_inode (replicate 600 7) 3 600)
    as (m & s1 & s2 & E1 & E2 & _); [exact hello_open|simpl; lia|simpl; lia|lia|exact (saved_free _ _ hello_block eq_refl)|].
  exists m, s1, s2. split; [exact E1|exact E2].
Defined.
