(* ===== verification/Mkfs.v ===== *)
(** Building the file system image: mkfs.c.

    mkfs runs on the host: the image is a file of 512-byte sectors, here a map
    from sector numbers to sectors, which grows when a sector behind its end is
    written and cannot be read there.  The byte order conversions [xint] and
    [xshort] are the little-endian encoding of Bytes.v.  A failed assertion or
    a failed read of the image ends the program: [Panic].  A host file is the
    list of the pieces in which read delivers it.

    Here are the program and what its parts do to an image; the file MkfsImage
    has the theorems about the whole. *)

From S2P Require Import Prelude CString State ProcSync Ide Bio Bytes FsBlock Inode.

Module Mkfs.

(** ** State *)

Definition nblocks : Z := 995.
Definition ninodes : Z := 200.
Definition size : Z := 1024.

(** The image and the global variables of the program. *)
Record mkst := mk_mkst { img : gmap Z (list Z); freeblock : Z; usedblocks : Z; freeinode : Z }.

Definition set_img (v : gmap Z (list Z)) (s : mkst) : mkst := mk_mkst v s.(freeblock) s.(usedblocks) s.(freeinode).

Notation H A := (M mkst A) (only parsing).

Definition sect_zeros : list Z := replicate 512 0.

(** ** Sectors and inodes *)

Definition wsect (sec : Z) (buf : list Z) : H unit := kmod (fun s => set_img (<[sec := buf]> s.(img)) s).

Definition rsect (sec : Z) : H (list Z) :=
  let* m := kget img in
  match m !! sec with Some buf => kret buf | None => panic "read" end.

Definition i2b (inum : Z) : Z := inum / IPB + 2.

Definition winode (inum : Z) (ip : dinode) : H unit :=
  let bn := i2b inum in
  let* buf := rsect bn in
  wsect bn (splice (inum mod IPB * DINODESZ) (dinode_bytes ip) buf).

Definition rinode (inum : Z) : H dinode :=
  let bn := i2b inum in
  let* buf := rsect bn in
  kret (get_dinode (slice (inum mod IPB * DINODESZ) DINODESZ buf)).

Definition ialloc (type : Z) : H Z :=
  let* inum := kget freeinode in
  kmod (fun s => mk_mkst s.(img) s.(freeblock) s.(usedblocks) (u32 (inum + 1))) ;;;
  winode inum (mk_dinode type 0 0 1 0 (replicate 13 0)) ;;;
  kret inum.

(** [buf[i/8] = buf[i/8] | (0x1 << (i%8))], for the first [used] bits. *)
Fixpoint set_bits (used : nat) (buf : list Z) : list Z :=
  match used with
  | O => buf
  | S i => bit_set (Z.of_nat i) (set_bits i buf)
  end.

Definition balloc (used : Z) : H unit :=
  if negb (used <? 512) then panic "assert"
  else wsect (ninodes / IPB + 3) (set_bits (Z.to_nat used) sect_zeros).

(** ** Appending to a file *)

(** [freeblock++] and [usedblocks++]. *)
Definition take_block : H Z :=
  let* b := kget freeblock in
  kmod (fun s => mk_mkst s.(img) (u32 (s.(freeblock) + 1)) (u32 (s.(usedblocks) + 1)) s.(freeinode)) ;;;
  kret b.

Definition addr (d : dinode) (n : Z) : Z := default 0 (d.(d_addrs) !! Z.to_nat n).
Definition with_addr (n v : Z) (d : dinode) : dinode :=
  mk_dinode d.(d_type) d.(d_major) d.(d_minor) d.(d_nlink) d.(d_size) (<[Z.to_nat n := v]> d.(d_addrs)).
Definition with_size (v : Z) (d : dinode) : dinode :=
  mk_dinode d.(d_type) d.(d_major) d.(d_minor) d.(d_nlink) v d.(d_addrs).

(** The sector [x] of block [fbn], allocated if need be. *)
Definition block_for (din : dinode) (fbn : Z) : H (dinode * Z) :=
  if fbn <? NDIRECT then
    if addr din fbn =? 0 then
      let* b := take_block in
      kret (with_addr fbn b din, b)
    else kret (din, addr din fbn)
  else
    let* din :=
      (if addr din NDIRECT =? 0 then
         let* b := take_block in
         kret (with_addr NDIRECT b din)
       else kret din) in
    let* indirect := rsect (addr din NDIRECT) in
    let e := get32 (4 * (fbn - NDIRECT)) indirect in
    if e =? 0 then
      let* b := take_block in
      wsect (addr din NDIRECT) (put32 (4 * (fbn - NDIRECT)) b indirect) ;;;
      kret (din, b)
    else kret (din, e).

(** [while(n > 0)]; every round copies at least one byte. *)
Fixpoint iappend_loop (fuel : nat) (din : dinode) (off : Z) (p : list Z) : H (dinode * Z) :=
  match p with
  | [] => kret (din, off)
  | _ =>
      match fuel with
      | O => kfault "fuel"
      | S f =>
          let fbn := off / 512 in
          if negb (fbn <? MAXFILE) then panic "assert"
          else
            let* dx := block_for din fbn in
            let '(din, x) := dx in
            let n1 := Z.min (Z.of_nat (length p)) ((fbn + 1) * 512 - off) in
            let* buf := rsect x in
            wsect x (splice (off - fbn * 512) (take (Z.to_nat n1) p) buf) ;;;
            iappend_loop f din (off + n1) (drop (Z.to_nat n1) p)
      end
  end.

Definition iappend (inum : Z) (p : list Z) : H unit :=
  let* din := rinode inum in
  let* r := iappend_loop (length p) din din.(d_size) p in
  let '(din, off) := r in
  winode inum (with_size (u32 off) din).

(** ** main *)

(** Zeroing the image: sectors [i] and up. *)
Fixpoint zero_loop (n : nat) (i : Z) : H unit :=
  match n with
  | O => kret tt
  | S n => wsect i sect_zeros ;;; zero_loop n (i + 1)
  end.

(** A sector that starts with the superblock: [wsect] also writes the 500 bytes
    that follow it in memory. *)
Definition sb_bytes (behind : list Z) : list Z := le_bytes 4 size ++ le_bytes 4 nblocks ++ le_bytes 4 ninodes ++ behind.

Definition dirent_for (inum : Z) (name : list Z) : list Z := dirent_bytes inum (strncpy_list name (Z.to_nat DIRSIZ)).

(** The loop over the pieces of a host file. *)
Fixpoint copy_file (inum : Z) (pieces : list (list Z)) : H unit :=
  match pieces with
  | [] => kret tt
  | cc :: pieces => iappend inum cc ;;; copy_file inum pieces
  end.

(** One argument: its name, and its pieces if it can be opened. *)
Definition add_file (rootino : Z) (arg : list Z * option (list (list Z))) : H unit :=
  let '(name, host) := arg in
  if bool_decide (47 ∈ name) then panic "assert"
  else
    match host with
    | None => panic "open"
    | Some pieces =>
        let name := match name with c :: rest => if c =? 95 then rest else name | [] => name end in
        let* inum := ialloc T_FILE in
        iappend rootino (dirent_for (u16 inum) name) ;;;
        copy_file inum pieces
    end.

(** [main], once the image has been opened and truncated; [args] are the
    arguments after its name. *)
Definition main (behind : list Z) (args : list (list Z * option (list (list Z)))) : H unit :=
  let bitblocks := size / (512 * 8) + 1 in
  let used := ninodes / IPB + 3 + bitblocks in
  kmod (fun s => mk_mkst s.(img) used used s.(freeinode)) ;;;
  if negb (nblocks + used =? size) then panic "assert"
  else
    zero_loop (Z.to_nat (nblocks + used)) 0 ;;;
    wsect 1 (sb_bytes behind) ;;;
    let* rootino := ialloc T_DIR in
    if negb (rootino =? ROOTINO) then panic "assert"
    else
      iappend rootino (dirent_for (u16 rootino) [46]) ;;;
      iappend rootino (dirent_for (u16 rootino) [46; 46]) ;;;
      kfor args (add_file rootino) ;;;
      let* din := rinode rootino in
      winode rootino (with_size (u32 ((din.(d_size) / BSIZE + 1) * BSIZE)) din) ;;;
      let* used := kget usedblocks in
      balloc used.

Definition start : mkst := mk_mkst ∅ 0 0 1.
(** ** Invariants *)

Definition sector (m : gmap Z (list Z)) (x : Z) : list Z := default sect_zeros (m !! x).

(** The sector of block [bn] of a file. *)
Definition iaddr (m : gmap Z (list Z)) (d : dinode) (bn : Z) : Z :=
  if bn <? NDIRECT then addr d bn else get32 (4 * (bn - NDIRECT)) (sector m (addr d NDIRECT)).

(** The first sector behind the bitmap. *)
Definition DATA : Z := 29.

Record wf (s : mkst) : Prop := {
  wf_img x : 0 <= x < size -> is_Some (s.(img) !! x);
  wf_len x b : s.(img) !! x = Some b -> length b = 512%nat;
  wf_free : DATA <= s.(freeblock) <= size;
  wf_used : s.(usedblocks) = s.(freeblock);
  wf_zero x : s.(freeblock) <= x < size -> s.(img) !! x = Some sect_zeros
}.

(** A file of [nb] blocks: all of them, and the indirect block if there is one,
    are different sectors between the bitmap and the first free one. *)
Record layout (m : gmap Z (list Z)) (free : Z) (d : dinode) (nb : Z) : Prop := {
  lay_nb : 0 <= nb <= MAXFILE;
  lay_len : length d.(d_addrs) = 13%nat;
  lay_ind : if decide (NDIRECT < nb) then DATA <= addr d NDIRECT < free else addr d NDIRECT = 0;
  lay_addr bn : 0 <= bn < nb -> DATA <= iaddr m d bn < free;
  lay_none bn : nb <= bn < MAXFILE -> bn < NDIRECT \/ NDIRECT < nb -> iaddr m d bn = 0;
  lay_inj a b : 0 <= a < nb -> 0 <= b < nb -> iaddr m d a = iaddr m d b -> a = b;
  lay_sep bn : NDIRECT < nb -> 0 <= bn < nb -> iaddr m d bn <> addr d NDIRECT
}.

Lemma wf_read s x : wf s -> 0 <= x < size -> rsect x s = Ok (sector s.(img) x) s.
Proof.
  intros Hw Hx. destruct (wf_img s Hw x Hx) as [b Hb]. unfold rsect. erewrite kbind_Ok by reflexivity. unfold sector. by rewrite Hb.
Qed.

Lemma wf_sector_len s x : wf s -> length (sector s.(img) x) = 512%nat.
Proof. intros Hw. unfold sector. destruct (s.(img) !! x) eqn:E; [by eapply wf_len|done]. Qed.

Lemma wf_write s x b : wf s -> 0 <= x < s.(freeblock) -> length b = 512%nat -> wf (set_img (<[x := b]> s.(img)) s).
Proof.
  intros [H1 H2 H3 H4 H5] Hx Hb. split; cbn; [|intros y c|done|done|].
  - intros y Hy. destruct (decide (x = y)) as [<-|]; [rewrite lookup_insert_eq; eauto|rewrite lookup_insert_ne by done; auto].
  - destruct (decide (x = y)) as [<-|]; [rewrite lookup_insert_eq; congruence|rewrite lookup_insert_ne by done; apply H2].
  - intros y Hy. rewrite lookup_insert_ne by lia. auto.
Qed.

Definition taken (s : mkst) : mkst := mk_mkst s.(img) (s.(freeblock) + 1) (s.(usedblocks) + 1) s.(freeinode).

Lemma take_block_run s : wf s -> s.(freeblock) < size -> take_block s = Ok s.(freeblock) (taken s) /\ wf (taken s).
Proof.
  intros Hw Hf. destruct Hw as [H1 H2 H3 H4 H5]. assert (s.(freeblock) < 1024) by (unfold size in *; lia). split.
  - unfold take_block, taken. erewrite kbind_Ok by reflexivity. erewrite kbind_Ok by reflexivity. unfold kret, u32. unfold DATA in *.
    rewrite H4, !Z.mod_small by lia. done.
  - unfold taken. split; cbn; [done|done|lia|lia|]. intros x Hx. apply H5. lia.
Qed.

Lemma with_addr_same n v d : 0 <= n < 13 -> length d.(d_addrs) = 13%nat -> addr (with_addr n v d) n = v.
Proof. intros. unfold addr, with_addr. cbn. by rewrite list_lookup_insert_eq by lia. Qed.

Lemma with_addr_other n v d k : 0 <= n -> 0 <= k -> k <> n -> addr (with_addr n v d) k = addr d k.
Proof. intros. unfold addr, with_addr. cbn. by rewrite list_lookup_insert_ne by lia. Qed.

Lemma get32_zeros off : 0 <= off <= 508 -> get32 off sect_zeros = 0.
Proof.
  intros Ho. unfold get32, slice, sect_zeros. rewrite drop_replicate, take_replicate. generalize (Z.to_nat 4 `min` (512 - Z.to_nat off))%nat.
  induction n as [|n IH]; [done|]. cbn [replicate le_val]. by rewrite IH.
Qed.

(** What [block_for] does, seen from the file [d] of [nb] blocks: it returns the
    sector of block [bn], the next one if it has to be added, and otherwise
    writes only to the indirect block. *)
Record provides (s s' : mkst) (d d' : dinode) (nb bn x : Z) : Prop := {
  pv_wf : wf s';
  pv_layout : layout s'.(img) s'.(freeblock) d' (Z.max nb (bn + 1));
  pv_x : iaddr s'.(img) d' bn = x;
  pv_same k : 0 <= k < nb -> iaddr s'.(img) d' k = iaddr s.(img) d k;
  pv_new : nb <= bn -> s'.(img) !! x = Some sect_zeros /\ s.(freeblock) <= x;
  pv_ind : addr d' NDIRECT = addr d NDIRECT \/ s.(freeblock) <= addr d' NDIRECT;
  pv_frame y : y < s.(freeblock) -> (NDIRECT < nb -> y <> addr d NDIRECT) -> s'.(img) !! y = s.(img) !! y;
  pv_free : s'.(freeblock) = s.(freeblock) + (if decide (bn < nb) then 0 else if decide (bn = NDIRECT) then 2 else 1);
  pv_inode : s'.(freeinode) = s.(freeinode);
  pv_meta : (d'.(d_type), d'.(d_major), d'.(d_minor), d'.(d_nlink), d'.(d_size)) = (d.(d_type), d.(d_major), d.(d_minor), d.(d_nlink), d.(d_size))
}.

Lemma iaddr_direct m d bn : bn < NDIRECT -> iaddr m d bn = addr d bn.
Proof. intros. unfold iaddr. by rewrite (proj2 (Z.ltb_lt _ _)) by lia. Qed.

Lemma iaddr_indirect m d bn : NDIRECT <= bn -> iaddr m d bn = get32 (4 * (bn - NDIRECT)) (sector m (addr d NDIRECT)).
Proof. intros. unfold iaddr. by rewrite (proj2 (Z.ltb_ge _ _)) by lia. Qed.

Ltac mkconst := unfold MAXFILE, NINDIRECT, NDIRECT, DATA, size in *; change (BSIZE / 4) with 128 in *.

(** The block exists. *)
Lemma block_for_old s d nb bn :
  wf s -> layout s.(img) s.(freeblock) d nb -> 0 <= bn < nb ->
  block_for d bn s = Ok (d, iaddr s.(img) d bn) s /\ provides s s d d nb bn (iaddr s.(img) d bn).
Proof.
  intros Hw Hl Hb. pose proof (lay_addr _ _ _ _ Hl bn Hb) as Ha. pose proof (lay_nb _ _ _ _ Hl) as Hn. pose proof (wf_free _ Hw) as Hf. split.
  - unfold block_for. destruct (Z.ltb_spec bn NDIRECT) as [Hd|Hd].
    + rewrite iaddr_direct in * by done. rewrite (proj2 (Z.eqb_neq _ _)); [done|]. mkconst. lia.
    + pose proof (lay_ind _ _ _ _ Hl) as Hi. rewrite decide_True in Hi by lia.
      rewrite (proj2 (Z.eqb_neq (addr d NDIRECT) 0)) by (mkconst; lia). erewrite kbind_Ok by reflexivity.
      assert (0 <= addr d NDIRECT < size) as Hx by (unfold DATA in *; lia).
      rewrite (kbind_Ok _ _ _ _ _ (wf_read s _ Hw Hx)). rewrite <- iaddr_indirect by done. cbv zeta.
      assert (iaddr s.(img) d bn <> 0) as H0 by (unfold DATA in Ha; lia). by rewrite (proj2 (Z.eqb_neq _ _) H0).
  - split; try done; [|lia|by left|].
    + by rewrite Z.max_l by lia.
    + rewrite decide_True by lia. lia.
Qed.

(** A direct block is added. *)
Lemma block_for_direct s d nb :
  wf s -> layout s.(img) s.(freeblock) d nb -> nb < NDIRECT -> s.(freeblock) < size ->
  exists s' d', block_for d nb s = Ok (d', s.(freeblock)) s' /\ provides s s' d d' nb nb s.(freeblock).
Proof.
  intros Hw Hl Hb Hf. pose proof (lay_nb _ _ _ _ Hl) as Hn. pose proof (lay_len _ _ _ _ Hl) as Hlen. pose proof (wf_free _ Hw) as Hfr.
  destruct (take_block_run s Hw Hf) as [Et Hwt]. set (b := s.(freeblock)) in *. set (d' := with_addr nb b d).
  assert (addr d nb = 0) as H0.
  { rewrite <- (iaddr_direct s.(img)) by done. apply (lay_none _ _ _ _ Hl); [mkconst; lia|by left]. }
  assert (forall k, 0 <= k < NDIRECT -> k <> nb -> iaddr s.(img) d' k = iaddr s.(img) d k) as Hk.
  { intros k Hk Hne. rewrite !iaddr_direct by lia. apply with_addr_other; lia. }
  assert (iaddr s.(img) d' nb = b) as Hx.
  { rewrite iaddr_direct by done. apply with_addr_same; [mkconst; lia|done]. }
  assert (addr d' NDIRECT = addr d NDIRECT) as Hi by (apply with_addr_other; mkconst; lia).
  exists (taken s), d'. split.
  - unfold block_for. rewrite (proj2 (Z.ltb_lt _ _)) by done. rewrite H0. cbn [Z.eqb]. by rewrite (kbind_Ok _ _ _ _ _ Et).
  - split; try done; cbn [img freeblock taken]; fold b.
    + rewrite Z.max_r by lia. split; try done.
      * mkconst; lia.
      * unfold d', with_addr. cbn. by rewrite length_insert.
      * rewrite decide_False by lia. rewrite Hi. pose proof (lay_ind _ _ _ _ Hl) as Hd. by rewrite decide_False in Hd by lia.
      * intros k Hkk. destruct (decide (k = nb)) as [->|Hne]; [rewrite Hx; lia|].
        rewrite Hk by lia. pose proof (lay_addr _ _ _ _ Hl k ltac:(lia)). fold b in H. lia.
      * intros k Hkk [Hd|Hd]; [|lia]. rewrite Hk by lia. apply (lay_none _ _ _ _ Hl); [lia|by left].
      * intros a c Ha Hc E. destruct (decide (a = nb)) as [->|Hna], (decide (c = nb)) as [->|Hnc]; [done|..].
        -- rewrite Hx, Hk in E by lia. pose proof (lay_addr _ _ _ _ Hl c ltac:(lia)). fold b in H. lia.
        -- rewrite Hx, Hk in E by lia. pose proof (lay_addr _ _ _ _ Hl a ltac:(lia)). fold b in H. lia.
        -- rewrite !Hk in E by lia. apply (lay_inj _ _ _ _ Hl); [lia|lia|done].
      * intros k Hd. lia.
    + intros k Hkk. apply Hk; lia.
    + intros _. split; [|lia]. apply (wf_zero _ Hw). lia.
    + by left.
    + rewrite decide_False by lia. rewrite decide_False by lia. lia.
Qed.

(** An indirect block is added to the table in sector [ib]. *)
Lemma block_for_indirect s d nb :
  wf s -> layout s.(img) s.(freeblock) d nb -> NDIRECT < nb < MAXFILE -> s.(freeblock) < size ->
  exists s', block_for d nb s = Ok (d, s.(freeblock)) s' /\ provides s s' d d nb nb s.(freeblock).
Proof.
  intros Hw Hl Hb Hf. pose proof (lay_ind _ _ _ _ Hl) as Hi. rewrite decide_True in Hi by lia. pose proof (wf_free _ Hw) as Hfr.
  assert (0 < NDIRECT) as Hnd by done.
  destruct (take_block_run s Hw Hf) as [Et Hwt]. set (b := s.(freeblock)) in *. set (ib := addr d NDIRECT) in *.
  set (off := 4 * (nb - NDIRECT)). set (tab := sector s.(img) ib). pose proof (wf_sector_len s ib Hw) as Hlen. fold tab in Hlen.
  assert (0 <= off /\ off + 4 <= 512) as Hoff by (unfold off; mkconst; lia).
  set (s' := set_img (<[ib := put32 off b tab]> s.(img)) (taken s)).
  assert (length (put32 off b tab) = 512%nat) as Hlp.
  { unfold put32. rewrite splice_length; rewrite ?le_bytes_length; lia. }
  assert (wf s') as Hw'.
  { apply (wf_write (taken s)); [done| |done]. cbn. fold b. unfold DATA in *. lia. }
  assert (sector s'.(img) ib = put32 off b tab) as Hsec by (unfold sector, s'; cbn; by rewrite lookup_insert_eq).
  assert (forall k, 0 <= k < MAXFILE -> k <> nb -> iaddr s'.(img) d k = iaddr s.(img) d k) as Hk.
  { intros k Hk Hne. destruct (decide (k < NDIRECT)); [by rewrite !iaddr_direct by done|]. rewrite !iaddr_indirect by lia. fold ib. rewrite Hsec. fold tab.
    apply get32_put32_ne; unfold off; mkconst; lia. }
  assert (iaddr s'.(img) d nb = b) as Hx.
  { rewrite iaddr_indirect by lia. fold ib. rewrite Hsec. fold off. rewrite get32_put32, u32_small by (unfold DATA, size in *; lia). done. }
  exists s'. split.
  - unfold block_for. rewrite (proj2 (Z.ltb_ge _ _)) by lia. fold ib. rewrite (proj2 (Z.eqb_neq ib 0)) by (unfold DATA in *; lia).
    erewrite kbind_Ok by reflexivity. assert (0 <= ib < size) as Hxx by (unfold DATA in *; lia).
    rewrite (kbind_Ok _ _ _ _ _ (wf_read s _ Hw Hxx)). fold tab off. cbv zeta.
    assert (get32 off tab = 0) as -> by (unfold off, tab, ib; rewrite <- iaddr_indirect by lia; apply (lay_none _ _ _ _ Hl); [lia|right; lia]).
    cbn [Z.eqb]. rewrite (kbind_Ok _ _ _ _ _ Et). fold b. erewrite kbind_Ok by reflexivity. done.
  - assert (s'.(freeblock) = b + 1) as Eb by done. split; try done; rewrite ?Eb.
    + rewrite Z.max_r by lia. split; try done.
      * lia.
      * apply (lay_len _ _ _ _ Hl).
      * rewrite decide_True by lia. fold ib. lia.
      * intros k Hkk. destruct (decide (k = nb)) as [->|Hne]; [rewrite Hx; lia|].
        rewrite Hk by lia. pose proof (lay_addr _ _ _ _ Hl k ltac:(lia)) as Hka. fold b in Hka. lia.
      * intros k Hkk _. rewrite Hk by lia. apply (lay_none _ _ _ _ Hl); [lia|right; lia].
      * intros a c Ha Hc E. destruct (decide (a = nb)) as [->|Hna], (decide (c = nb)) as [->|Hnc]; [done|..].
        -- rewrite Hx, Hk in E by lia. pose proof (lay_addr _ _ _ _ Hl c ltac:(lia)) as Hka. fold b in Hka. lia.
        -- rewrite Hx, Hk in E by lia. pose proof (lay_addr _ _ _ _ Hl a ltac:(lia)) as Hka. fold b in Hka. lia.
        -- rewrite !Hk in E by lia. apply (lay_inj _ _ _ _ Hl); [lia|lia|done].
      * intros k _ Hkk. fold ib. destruct (decide (k = nb)) as [->|Hne]; [rewrite Hx; lia|].
        rewrite Hk by lia. apply (lay_sep _ _ _ _ Hl); lia.
    + intros k Hkk. apply Hk; lia.
    + intros _. split; [|lia]. unfold s'. cbn. rewrite lookup_insert_ne by lia. apply (wf_zero _ Hw). lia.
    + by left.
    + intros y Hy Hne. unfold s'. cbn. rewrite lookup_insert_ne; [done|]. specialize (Hne ltac:(lia)). fold ib in Hne. congruence.
    + rewrite decide_False by lia. rewrite decide_False by lia. lia.
Qed.

(** The first indirect block is added, with its table. *)
Lemma block_for_table s d :
  wf s -> layout s.(img) s.(freeblock) d NDIRECT -> s.(freeblock) + 1 < size ->
  exists s' d', block_for d NDIRECT s = Ok (d', s.(freeblock) + 1) s' /\ provides s s' d d' NDIRECT NDIRECT (s.(freeblock) + 1).
Proof.
  intros Hw Hl Hf. pose proof (lay_ind _ _ _ _ Hl) as Hi. rewrite decide_False in Hi by lia. pose proof (wf_free _ Hw) as Hfr.
  pose proof (lay_len _ _ _ _ Hl) as Hlen. assert (0 < NDIRECT < MAXFILE) as Hnd by done.
  destruct (take_block_run s Hw ltac:(lia)) as [Et1 Hwt1]. destruct (take_block_run (taken s) Hwt1 ltac:(cbn; lia)) as [Et2 Hwt2].
  cbn [freeblock taken] in Et2. set (ib := s.(freeblock)) in *. set (d' := with_addr NDIRECT ib d).
  assert (addr d' NDIRECT = ib) as Hib by (apply with_addr_same; [done|done]).
  assert (s.(img) !! ib = Some sect_zeros) as Hz by (apply (wf_zero _ Hw); lia).
  set (s' := set_img (<[ib := put32 0 (ib + 1) sect_zeros]> s.(img)) (taken (taken s))).
  assert (length (put32 0 (ib + 1) sect_zeros) = 512%nat) as Hlp by reflexivity.
  assert (wf s') as Hw'.
  { apply (wf_write (taken (taken s))); [done| |done]. cbn. fold ib. unfold DATA in *. lia. }
  assert (sector s'.(img) ib = put32 0 (ib + 1) sect_zeros) as Hsec by (unfold sector, s'; cbn; by rewrite lookup_insert_eq).
  assert (forall k, 0 <= k < NDIRECT -> iaddr s'.(img) d' k = iaddr s.(img) d k) as Hk.
  { intros k Hk. rewrite !iaddr_direct by lia. apply with_addr_other; lia. }
  assert (iaddr s'.(img) d' NDIRECT = ib + 1) as Hx.
  { rewrite iaddr_indirect, Hib, Hsec by lia. change (4 * (NDIRECT - NDIRECT)) with 0.
    rewrite get32_put32, u32_small; [done|unfold DATA, size in *; lia|done|done]. }
  assert (forall k, NDIRECT < k < MAXFILE -> iaddr s'.(img) d' k = 0) as Hnone.
  { intros k Hk'. rewrite iaddr_indirect, Hib, Hsec by lia. rewrite get32_put32_ne; [apply get32_zeros|..]; mkconst; cbn; lia. }
  exists s', d'. split.
  - unfold block_for. rewrite Z.ltb_irrefl, Hi. cbn [Z.eqb]. erewrite kbind_Ok by (rewrite (kbind_Ok _ _ _ _ _ Et1); reflexivity).
    fold d'. rewrite Hib. assert (0 <= ib < size) as Hxx by (unfold DATA in *; lia).
    rewrite (kbind_Ok _ _ _ _ _ (wf_read (taken s) _ Hwt1 Hxx)). cbn [img taken].
    assert (sector s.(img) ib = sect_zeros) as -> by (unfold sector; by rewrite Hz). cbv zeta.
    change (4 * (NDIRECT - NDIRECT)) with 0. change (get32 0 sect_zeros =? 0) with true. cbv iota.
    rewrite (kbind_Ok _ _ _ _ _ Et2). erewrite kbind_Ok by reflexivity. done.
  - assert (s'.(freeblock) = ib + 2) as Eb by (unfold s'; cbn; fold ib; lia). split; try done; rewrite ?Eb.
    + rewrite Z.max_r by lia. split; try done.
      * unfold d', with_addr. cbn. by rewrite length_insert.
      * rewrite decide_True by lia. rewrite Hib. lia.
      * intros k Hkk. destruct (decide (k = NDIRECT)) as [->|Hne]; [rewrite Hx; lia|].
        rewrite Hk by lia. pose proof (lay_addr _ _ _ _ Hl k ltac:(lia)) as Hka. fold ib in Hka. lia.
      * intros k Hkk _. apply Hnone. lia.
      * intros a c Ha Hc E. destruct (decide (a = NDIRECT)) as [->|Hna], (decide (c = NDIRECT)) as [->|Hnc]; [done|..].
        -- rewrite Hx, Hk in E by lia. pose proof (lay_addr _ _ _ _ Hl c ltac:(lia)) as Hka. fold ib in Hka. lia.
        -- rewrite Hx, Hk in E by lia. pose proof (lay_addr _ _ _ _ Hl a ltac:(lia)) as Hka. fold ib in Hka. lia.
        -- rewrite !Hk in E by lia. apply (lay_inj _ _ _ _ Hl); [lia|lia|done].
      * intros k _ Hkk. rewrite Hib. destruct (decide (k = NDIRECT)) as [->|Hne]; [rewrite Hx; lia|].
        rewrite Hk by lia. pose proof (lay_addr _ _ _ _ Hl k ltac:(lia)) as Hka. fold ib in Hka. lia.
    + intros _. split; [|lia]. unfold s'. cbn. rewrite lookup_insert_ne by lia. apply (wf_zero _ Hw). fold ib. lia.
    + right. rewrite Hib. lia.
    + intros y Hy _. unfold s'. cbn. rewrite lookup_insert_ne; [done|]. lia.
Qed.

Lemma block_for_run s d nb bn :
  wf s -> layout s.(img) s.(freeblock) d nb -> 0 <= bn <= nb -> bn < MAXFILE -> s.(freeblock) + 1 < size ->
  exists s' d' x, block_for d bn s = Ok (d', x) s' /\ provides s s' d d' nb bn x.
Proof.
  intros Hw Hl Hb Hm Hf. destruct (decide (bn < nb)).
  - destruct (block_for_old s d nb bn Hw Hl ltac:(lia)). eauto.
  - replace bn with nb by lia. destruct (Z.lt_trichotomy nb NDIRECT) as [Hd|[->|Hd]].
    + destruct (block_for_direct s d nb Hw Hl Hd ltac:(lia)) as (s' & d' & ?). eauto.
    + destruct (block_for_table s d Hw Hl Hf) as (s' & d' & ?). eauto.
    + destruct (block_for_indirect s d nb Hw Hl ltac:(lia) ltac:(lia)) as (s' & ?). eauto.
Qed.

(** ** Contents *)

Definition blocks_of (n : Z) : Z := (n + 511) / 512.

(** Sectors that a file of [n] bytes takes, its table included. *)
Definition cost (n : Z) : Z := blocks_of n + (if decide (NDIRECT < blocks_of n) then 1 else 0).

(** The blocks of [d] hold the bytes [c], and zeros behind them. *)
Definition contains (m : gmap Z (list Z)) (d : dinode) (c : list Z) : Prop :=
  forall o, Z.of_nat o < 512 * blocks_of (Z.of_nat (length c)) ->
    sector m (iaddr m d (Z.of_nat o / 512)) !! Z.to_nat (Z.of_nat o mod 512) = Some (default 0 (c !! o)).

Definition owns (m : gmap Z (list Z)) (d : dinode) (nb y : Z) : Prop :=
  (exists bn, 0 <= bn < nb /\ iaddr m d bn = y) \/ (NDIRECT < nb /\ y = addr d NDIRECT).

Definition meta (d : dinode) := (d.(d_type), d.(d_major), d.(d_minor), d.(d_nlink), d.(d_size)).

Lemma layout_ext m m' free d nb : (forall bn, 0 <= bn < MAXFILE -> iaddr m' d bn = iaddr m d bn) -> layout m free d nb -> layout m' free d nb.
Proof.
  intros He [H1 H2 H3 H4 H5 H6 H7]. split; try done.
  - intros bn Hb. rewrite He by lia. auto.
  - intros bn Hb Hc. rewrite He by lia. auto.
  - intros a b Ha Hb. rewrite !He by lia. auto.
  - intros bn Hn Hb. rewrite He by lia. auto.
Qed.

Lemma sector_insert m x b y : sector (<[x := b]> m) y = if decide (x = y) then b else sector m y.
Proof.
  unfold sector. case_decide as E; [subst; by rewrite lookup_insert_eq|by rewrite lookup_insert_ne].
Qed.

(** Writing a data sector moves no block. *)
Lemma iaddr_write m d x b bn : x <> addr d NDIRECT -> iaddr (<[x := b]> m) d bn = iaddr m d bn.
Proof.
  intros Hx. destruct (decide (bn < NDIRECT)); [by rewrite !iaddr_direct by done|]. rewrite !iaddr_indirect by lia.
  by rewrite sector_insert, decide_False.
Qed.

Lemma blocks_of_cases n :
  0 <= n -> (n mod 512 = 0 /\ blocks_of n = n / 512) \/ (n mod 512 <> 0 /\ blocks_of n = n / 512 + 1).
Proof.
  intros Hn. pose proof (Z.div_mod n 512 ltac:(lia)). pose proof (Z.mod_pos_bound n 512 ltac:(lia)).
  unfold blocks_of. destruct (decide (n mod 512 = 0)); [left|right]; (split; [done|]); symmetry;
    [apply (Z.div_unique _ _ _ 511)|apply (Z.div_unique _ _ _ (n mod 512 - 1))]; lia.
Qed.

(** The file with the chunk, when the old blocks are where they were. *)
Lemma contains_byte m d c o b :
  contains m d c -> c !! o = Some b -> sector m (iaddr m d (Z.of_nat o / 512)) !! Z.to_nat (Z.of_nat o mod 512) = Some b.
Proof.
  intros Hc Ho. rewrite Hc; [by rewrite Ho|]. apply lookup_lt_Some in Ho.
  pose proof (Z.div_mod (Z.of_nat (length c)) 512 ltac:(lia)). pose proof (Z.mod_pos_bound (Z.of_nat (length c)) 512 ltac:(lia)).
  destruct (blocks_of_cases (Z.of_nat (length c)) ltac:(lia)) as [[? ->]|[? ->]]; lia.
Qed.

Lemma chunk_contains m m1 d d1 c q x (bn := Z.of_nat (length c) / 512) (st := Z.of_nat (length c) - bn * 512) :
  contains m d c -> (0 < length q)%nat -> st + Z.of_nat (length q) <= 512 -> length (sector m1 x) = 512%nat -> x <> addr d1 NDIRECT ->
  iaddr m1 d1 bn = x ->
  (forall k, 0 <= k < blocks_of (Z.of_nat (length c)) -> sector m1 (iaddr m1 d1 k) = sector m (iaddr m d k)) ->
  (forall k, 0 <= k < bn + 1 -> iaddr m1 d1 k = x -> k = bn) ->
  (blocks_of (Z.of_nat (length c)) <= bn -> sector m1 x = sect_zeros) ->
  contains (<[x := splice st q (sector m1 x)]> m1) d1 (c ++ q).
Proof.
  intros Hc Hq Hst Hlen Hxi Hx Hold Hinj Hnew o Ho. rewrite iaddr_write, sector_insert by done.
  set (n := Z.of_nat (length c)) in *. pose proof (blocks_of_cases n ltac:(lia)) as Enb.
  pose proof (Z.div_mod n 512 ltac:(lia)) as Hdm. pose proof (Z.mod_pos_bound n 512 ltac:(lia)) as Hmb.
  assert (blocks_of (Z.of_nat (length (c ++ q))) = bn + 1) as Enb'.
  { rewrite length_app, Nat2Z.inj_add. fold n. unfold blocks_of. symmetry.
    apply (Z.div_unique _ _ _ (n + Z.of_nat (length q) + 511 - (bn + 1) * 512)); unfold bn, st in *; lia. }
  rewrite Enb' in Ho.
  pose proof (Z.div_mod (Z.of_nat o) 512 ltac:(lia)) as Hod. pose proof (Z.mod_pos_bound (Z.of_nat o) 512 ltac:(lia)) as Hom.
  assert (0 <= Z.of_nat o / 512 < bn + 1) as Hob.
  { split; [apply Z.div_pos; lia|]. apply Z.div_lt_upper_bound; lia. }
  destruct (decide (x = iaddr m1 d1 (Z.of_nat o / 512))) as [Ex|Ex].
  - pose proof (Hinj _ Hob (eq_sym Ex)) as Eb.
    rewrite lookup_splice; [|unfold st, bn; lia|lia]. case_decide as Hin.
    + rewrite lookup_app_r by (unfold st in Hin; lia). destruct (lookup_lt_is_Some_2 q (o - length c)) as [b Hb]; [unfold st in *; lia|].
      rewrite Hb. change (default 0 (Some b)) with b. rewrite <- Hb. f_equal. unfold st. lia.
    + destruct (decide (Z.of_nat o < 512 * blocks_of n)) as [Hlt|Hge].
      * rewrite Ex, Hold by lia. rewrite Hc by exact Hlt. f_equal. f_equal.
        destruct (decide (o < length c)%nat); [by rewrite lookup_app_l by done|].
        rewrite (lookup_ge_None_2 c) by lia. rewrite (lookup_ge_None_2 (c ++ q)); [done|]. rewrite length_app. unfold st in Hin. lia.
      * rewrite Hnew by lia. unfold sect_zeros. rewrite lookup_replicate_2 by lia. f_equal. symmetry.
        assert (length c <= o)%nat by lia. rewrite (lookup_ge_None_2 (c ++ q)); [done|]. rewrite length_app. unfold st in Hin. lia.
  - assert (Z.of_nat o / 512 <> bn) as Hne by (intros E; apply Ex; by rewrite E).
    assert (Z.of_nat o < n) as Hlt by (unfold bn in *; lia).
    assert (Z.of_nat o < 512 * blocks_of n) by (destruct Enb as [[? ->]|[? ->]]; lia).
    rewrite Hold by lia. rewrite Hc by done. by rewrite lookup_app_l by lia.
Qed.

(** One round of the loop, after the block has been provided. *)
Lemma chunk_written s s1 d d1 c q x (bn := Z.of_nat (length c) / 512) (st := Z.of_nat (length c) - bn * 512) :
  wf s -> layout s.(img) s.(freeblock) d (blocks_of (Z.of_nat (length c))) -> contains s.(img) d c -> (0 < length q)%nat ->
  st + Z.of_nat (length q) <= 512 -> Z.of_nat (length c) + Z.of_nat (length q) <= MAXFILE * 512 ->
  provides s s1 d d1 (blocks_of (Z.of_nat (length c))) bn x ->
  let s2 := set_img (<[x := splice st q (sector s1.(img) x)]> s1.(img)) s1 in
  wf s2 /\ layout s2.(img) s2.(freeblock) d1 (blocks_of (Z.of_nat (length (c ++ q)))) /\ contains s2.(img) d1 (c ++ q) /\
  rsect x s1 = Ok (sector s1.(img) x) s1 /\
  (forall y, y < s.(freeblock) -> ~ owns s.(img) d (blocks_of (Z.of_nat (length c))) y -> s2.(img) !! y = s.(img) !! y) /\
  (forall y, owns s2.(img) d1 (blocks_of (Z.of_nat (length (c ++ q)))) y -> owns s.(img) d (blocks_of (Z.of_nat (length c))) y \/ s.(freeblock) <= y) /\
  s2.(freeblock) = s.(freeblock) + cost (Z.of_nat (length (c ++ q))) - cost (Z.of_nat (length c)).
Proof.
  intros Hw Hl Hc Hq Hst Hmax Hp s2. set (n := Z.of_nat (length c)) in *. set (nb := blocks_of n) in *.
  assert (0 <= n) as Hn0 by lia. pose proof (Z.div_mod n 512 ltac:(lia)) as Hdm. pose proof (Z.mod_pos_bound n 512 ltac:(lia)) as Hmb.
  assert (0 <= bn) as Hbn0 by (apply Z.div_pos; lia). assert (bn < MAXFILE) as Hbm by (apply Z.div_lt_upper_bound; lia).
  assert (Z.of_nat (length (c ++ q)) = n + Z.of_nat (length q)) as En by (rewrite length_app; lia).
  assert (blocks_of (n + Z.of_nat (length q)) = bn + 1) as Enb'.
  { unfold blocks_of. symmetry. apply (Z.div_unique _ _ _ (n + Z.of_nat (length q) + 511 - (bn + 1) * 512)); unfold bn, st in *; lia. }
  pose proof (blocks_of_cases n Hn0) as Enb. fold bn nb in Enb.
  assert (Z.max nb (bn + 1) = bn + 1) as Emax by lia.
  destruct Hp as [P1 P2 P3 P4 P5 P6 P7 P8 P9 P10]. rewrite Emax in P2.
  assert (DATA <= x < s1.(freeblock)) as Hx by (rewrite <- P3; apply (lay_addr _ _ _ _ P2); lia).
  assert (x <> addr d1 NDIRECT) as Hxi.
  { destruct (decide (NDIRECT < bn + 1)).
    - rewrite <- P3. apply (lay_sep _ _ _ _ P2); lia.
    - pose proof (lay_ind _ _ _ _ P2) as Hi. rewrite decide_False in Hi by lia. rewrite Hi. unfold DATA in Hx. lia. }
  pose proof (wf_free _ P1) as Hf1. pose proof (wf_sector_len s1 x P1) as Hlen.
  assert (wf s2) as Hw2 by (apply wf_write; [done|unfold DATA in *; lia|rewrite splice_length; [done|unfold st, bn; lia|lia]]).
  assert (forall k, iaddr s2.(img) d1 k = iaddr s1.(img) d1 k) as Hia by (intros k; by apply iaddr_write).
  assert (layout s2.(img) s2.(freeblock) d1 (bn + 1)) as Hl2 by (by apply (layout_ext s1.(img))).
  (* the old blocks *)
  assert (forall k, 0 <= k < nb -> sector s1.(img) (iaddr s1.(img) d1 k) = sector s.(img) (iaddr s.(img) d k)) as Hold.
  { intros k Hk. rewrite P4 by done. unfold sector. rewrite P7; [done| |].
    - apply (lay_addr _ _ _ _ Hl). done.
    - intros Hd. apply (lay_sep _ _ _ _ Hl); done. }
  rewrite En, Enb'. split_and!; [done|done| |apply wf_read; [done|unfold DATA in *; lia]| | |].
  - apply (chunk_contains s.(img) s1.(img) d d1 c q x); [done|done|done|rewrite Hlen; done|done|exact P3|exact Hold| |].
    2:{ intros Hnew. unfold sector. by rewrite (proj1 (P5 Hnew)). }
    intros k Hk Ek. apply (lay_inj _ _ _ _ P2); [fold n bn in Hk; lia|fold n bn; lia|]. fold n bn. by rewrite P3.
  - intros y Hy Hno. unfold s2. cbn [img set_img]. rewrite lookup_insert_ne.
    + apply P7; [done|]. intros Hd ->. apply Hno. by right.
    + intros <-. destruct (decide (nb <= bn)) as [Hnew|Hnew]; [destruct (P5 Hnew); lia|].
      apply Hno. left. exists bn. split; [lia|]. rewrite <- P4 by lia. done.
  - intros y [(k & Hk & Ey)|[Hd ->]].
    + rewrite Hia in Ey. destruct (decide (k < nb)) as [Hkn|Hkn].
      * left. left. exists k. split; [lia|]. by rewrite <- P4 by lia.
      * right. assert (k = bn) as -> by lia. rewrite P3 in Ey. subst y. apply P5. lia.
    + destruct P6 as [E6|Hn]; [|by right]. left. right. rewrite E6. split; [|done].
      pose proof (lay_ind _ _ _ _ Hl) as Hi. pose proof (lay_ind _ _ _ _ P2) as Hi2. rewrite decide_True in Hi2 by done.
      destruct (decide (NDIRECT < nb)) as [|Hdn]; [done|]. unfold DATA in Hi2. lia.
  - change s2.(freeblock) with s1.(freeblock). rewrite P8. unfold cost. rewrite Enb'. fold nb.
    destruct Enb as [[_ ->]|[_ ->]].
    + rewrite (decide_False (P := bn < bn)) by lia. repeat case_decide; lia.
    + rewrite (decide_True (P := bn < bn + 1)) by lia. lia.
Qed.

Notation len c := (Z.of_nat (length c)).

Definition file_in (m : gmap Z (list Z)) (free : Z) (d : dinode) (c : list Z) : Prop :=
  layout m free d (blocks_of (len c)) /\ contains m d c.

(** The bytes [p] have been appended to the file [d], and nothing else has
    happened below the first free sector. *)
Record appended (s s' : mkst) (d d' : dinode) (c p : list Z) : Prop := {
  ap_wf : wf s';
  ap_file : file_in s'.(img) s'.(freeblock) d' (c ++ p);
  ap_frame y : y < s.(freeblock) -> ~ owns s.(img) d (blocks_of (len c)) y -> s'.(img) !! y = s.(img) !! y;
  ap_owns y : owns s'.(img) d' (blocks_of (len (c ++ p))) y -> owns s.(img) d (blocks_of (len c)) y \/ s.(freeblock) <= y;
  ap_free : s'.(freeblock) = s.(freeblock) + cost (len (c ++ p)) - cost (len c);
  ap_inode : s'.(freeinode) = s.(freeinode);
  ap_meta : meta d' = meta d
}.

Lemma appended_refl s d c : wf s -> file_in s.(img) s.(freeblock) d c -> appended s s d d c [].
Proof. intros Hw Hf. split; rewrite ?app_nil_r; try done; [by left|lia]. Qed.

Lemma blocks_of_mono a b : a <= b -> blocks_of a <= blocks_of b.
Proof. intros. apply Z.div_le_mono; lia. Qed.

Lemma cost_mono a b : a <= b -> cost a <= cost b.
Proof. intros H. pose proof (blocks_of_mono a b H). unfold cost. repeat case_decide; lia. Qed.

Lemma appended_trans s1 s2 s3 d1 d2 d3 c p q :
  appended s1 s2 d1 d2 c p -> appended s2 s3 d2 d3 (c ++ p) q -> appended s1 s3 d1 d3 c (p ++ q).
Proof.
  intros [A1 A2 A3 A4 A5 A6 A7] [B1 B2 B3 B4 B5 B6 B7].
  assert (s1.(freeblock) <= s2.(freeblock)) as Hle by (rewrite A5; pose proof (cost_mono (len c) (len (c ++ p))); rewrite length_app in *; lia).
  split; rewrite ?app_assoc; try done.
  - intros y Hy Hn. rewrite B3; [by apply A3|lia|]. intros Ho. destruct (A4 y Ho); [done|lia].
  - intros y Ho. destruct (B4 y Ho) as [Ho'|]; [|right; lia]. apply A4 in Ho' as [|]; [by left|by right].
  - lia.
  - congruence.
  - congruence.
Qed.

Lemma iappend_loop_run p : forall fuel s d c,
  wf s -> file_in s.(img) s.(freeblock) d c -> (length p <= fuel)%nat -> len c + len p <= MAXFILE * 512 ->
  s.(freeblock) + cost (len c + len p) - cost (len c) + 1 < size ->
  exists s' d', iappend_loop fuel d (len c) p s = Ok (d', len c + len p) s' /\ appended s s' d d' c p.
Proof.
  induction p as [p IH] using (induction_ltof1 _ length). unfold ltof in IH. intros fuel s d c Hw [Hl Hc] Hfu Hmax Hroom.
  destruct p as [|b0 p0] eqn:Ep.
  { exists s, d. destruct fuel; (split; [cbn; by rewrite Z.add_0_r|by apply appended_refl]). }
  rewrite <- Ep in *. assert (0 < length p)%nat as Hp by (rewrite Ep; cbn; lia). destruct fuel as [|fuel]; [lia|].
  set (bn := len c / 512). set (n1 := Z.min (len p) ((bn + 1) * 512 - len c)).
  pose proof (Z.div_mod (len c) 512 ltac:(lia)) as Hdm. pose proof (Z.mod_pos_bound (len c) 512 ltac:(lia)) as Hmb. fold bn in Hdm.
  assert (0 < n1 <= len p /\ len c - bn * 512 + n1 <= 512) as Hn1 by (unfold n1; lia).
  set (q := take (Z.to_nat n1) p). assert (len q = n1) as Hq by (unfold q; rewrite length_take; lia).
  pose proof (cost_mono (len c) (len c + len p) ltac:(lia)) as Hcm.
  destruct (block_for_run s d (blocks_of (len c)) bn Hw Hl) as (s1 & d1 & x & E1 & Hpv).
  { split; [apply Z.div_pos; lia|]. apply Z.div_le_mono; lia. }
  { apply Z.div_lt_upper_bound; lia. }
  { lia. }
  destruct (chunk_written s s1 d d1 c q x Hw Hl Hc) as (Hw2 & Hl2 & Hc2 & Er & Hfr & Hown & Hfree); [lia|fold bn; lia|lia|exact Hpv|].
  set (s2 := set_img _ s1) in *.
  assert (appended s s2 d d1 c q) as Ha by (split; try done; [apply (pv_inode _ _ _ _ _ _ _ Hpv)|apply (pv_meta _ _ _ _ _ _ _ Hpv)]).
  assert (len (c ++ q) = len c + n1) as Ecq by (rewrite length_app; lia).
  assert (len (drop (Z.to_nat n1) p) = len p - n1) as Ed by (rewrite length_drop; lia).
  destruct (IH (drop (Z.to_nat n1) p) ltac:(lia) fuel s2 d1 (c ++ q)) as (s' & d' & E & Ha').
  { exact Hw2. } { by split. } { lia. } { lia. }
  { rewrite Ecq, Ed. rewrite Hfree, Ecq. replace (len c + n1 + (len p - n1)) with (len c + len p) by lia. lia. }
  exists s', d'. split.
  - rewrite Ep. cbn [iappend_loop]. rewrite <- Ep. fold bn.
    rewrite (proj2 (Z.ltb_lt bn MAXFILE)) by (apply Z.div_lt_upper_bound; lia). cbn [negb].
    rewrite (kbind_Ok _ _ _ _ _ E1). cbv iota. fold n1. rewrite (kbind_Ok _ _ _ _ _ Er). erewrite kbind_Ok by reflexivity. fold q.
    change (set_img _ s1) with s2. rewrite Ecq in E. rewrite E. f_equal. f_equal. lia.
  - replace p with (q ++ drop (Z.to_nat n1) p) by (apply take_drop). by apply (appended_trans s s2 s' d d1 d').
Qed.

(** ** The inode table *)

Definition dinode_at (m : gmap Z (list Z)) (inum : Z) : dinode :=
  get_dinode (slice (inum mod IPB * DINODESZ) DINODESZ (sector m (i2b inum))).

Lemma i2b_bound inum : 0 <= inum < ninodes -> 2 <= i2b inum < 27.
Proof. intros H. unfold i2b, ninodes in *. change IPB with 8. pose proof (Z.div_pos inum 8). assert (inum / 8 < 25) by (apply Z.div_lt_upper_bound; lia). lia. Qed.

Lemma i2b_range inum : 0 <= inum < ninodes -> 2 <= i2b inum < DATA.
Proof. intros H. pose proof (i2b_bound inum H). unfold DATA. lia. Qed.

Lemma rinode_run s inum : wf s -> 0 <= inum < ninodes -> rinode inum s = Ok (dinode_at s.(img) inum) s.
Proof.
  intros Hw Hi. pose proof (i2b_range inum Hi) as Hr. unfold rinode.
  rewrite (kbind_Ok _ _ _ _ _ (wf_read s (i2b inum) Hw ltac:(unfold DATA, size in *; lia))). done.
Qed.

Lemma winode_run s inum d :
  wf s -> 0 <= inum < ninodes -> dinode_ok d ->
  exists m', winode inum d s = Ok tt (set_img m' s) /\ wf (set_img m' s) /\ (forall y, DATA <= y -> m' !! y = s.(img) !! y) /\ m' !! 1 = s.(img) !! 1 /\
    dinode_at m' inum = d /\ forall j, 0 <= j < ninodes -> j <> inum -> dinode_at m' j = dinode_at s.(img) j.
Proof.
  intros Hw Hi Hd. pose proof (i2b_range inum Hi) as Hr. pose proof (wf_free _ Hw) as Hf. unfold DATA, size in *.
  set (new := splice (inum mod IPB * DINODESZ) (dinode_bytes d) (sector s.(img) (i2b inum))).
  pose proof (dinode_off_bounds inum) as Ho. unfold dinode_off in Ho. pose proof (wf_sector_len s (i2b inum) Hw) as Hl.
  assert (length (dinode_bytes d) = 64%nat) as Hld by (apply dinode_bytes_length, Hd).
  exists (<[i2b inum := new]> s.(img)). split_and!.
  - unfold winode. rewrite (kbind_Ok _ _ _ _ _ (wf_read s (i2b inum) Hw ltac:(unfold size; lia))). done.
  - apply wf_write; [done|lia|]. unfold new. rewrite splice_length; lia.
  - intros y Hy. rewrite lookup_insert_ne by lia. done.
  - rewrite lookup_insert_ne by lia. done.
  - unfold dinode_at. rewrite sector_insert, decide_True by done. unfold new.
    set (o := inum mod IPB * DINODESZ) in *. change DINODESZ with (Z.of_nat 64). rewrite <- Hld. rewrite slice_splice by lia. by apply dinode_roundtrip.
  - intros j Hj Hne. unfold dinode_at. rewrite sector_insert. case_decide as E; [|done]. unfold new. rewrite E.
    pose proof (dinode_off_bounds j) as Hoj. unfold dinode_off in Hoj.
    pose proof (wf_sector_len s (i2b j) Hw) as Hlj. rewrite slice_splice_ne; [done|lia|lia|lia|]. rewrite Hld. unfold DINODESZ.
    destruct (dinode_off_disjoint j inum) as [?|?]; [lia|lia|done| | |]; unfold dinode_off, DINODESZ, IBLOCK, i2b in *; lia.
Qed.

(** A file survives what happens to other sectors. *)
Lemma file_in_frame m m' free free' d c :
  free <= free' -> (forall y, owns m d (blocks_of (len c)) y -> m' !! y = m !! y) -> file_in m free d c ->
  file_in m' free' d c /\ forall y, owns m' d (blocks_of (len c)) y <-> owns m d (blocks_of (len c)) y.
Proof.
  intros Hfr Hy [Hl Hc]. set (nb := blocks_of (len c)) in *.
  assert (forall bn, bn < NDIRECT \/ NDIRECT < nb -> iaddr m' d bn = iaddr m d bn) as He.
  { intros bn Hb. destruct (decide (bn < NDIRECT)); [by rewrite !iaddr_direct by done|]. rewrite !iaddr_indirect by lia.
    unfold sector. rewrite Hy; [done|]. right. split; [lia|done]. }
  assert (forall bn, 0 <= bn < nb -> iaddr m' d bn = iaddr m d bn) as He'.
  { intros bn Hb. apply He. destruct (decide (bn < NDIRECT)); [by left|right; lia]. }
  split; [split|].
  - destruct Hl as [H1 H2 H3 H4 H5 H6 H7]. split; try done.
    + fold nb. destruct (decide (NDIRECT < nb)); [|done]. split; [apply H3|]. apply (Z.lt_le_trans _ free); [apply H3|done].
    + intros bn Hb. rewrite He' by done. specialize (H4 bn Hb). lia.
    + intros bn Hb Hd. rewrite He by done. auto.
    + intros a b Ha Hb. rewrite !He' by done. auto.
    + intros bn Hd Hb. rewrite He' by done. auto.
  - intros o Ho. specialize (Hc o Ho). fold nb in Ho.
    assert (0 <= Z.of_nat o / 512 < nb) as Hob.
    { split; [apply Z.div_pos; lia|]. apply Z.div_lt_upper_bound; lia. }
    rewrite He' by done. unfold sector in *. rewrite Hy; [done|]. left. by exists (Z.of_nat o / 512).
  - intros y. unfold owns. split; intros [(bn & Hb & E)|?]; [left|by right|left|by right]; exists bn; (split; [done|]);
      [rewrite <- He'|rewrite He']; done.
Qed.

Lemma owns_range m free d c y : file_in m free d c -> owns m d (blocks_of (len c)) y -> DATA <= y < free.
Proof.
  intros [Hl _] [(bn & Hb & <-)|[Hd ->]]; [by apply (lay_addr _ _ _ _ Hl)|].
  pose proof (lay_ind _ _ _ _ Hl) as Hi. by rewrite decide_True in Hi.
Qed.

(** ** The image *)

(** Sectors taken by files. *)
Definition total (fs : list (dinode * list Z)) : Z := foldr (fun x n => cost (len x.2) + n) 0 fs.

(** The files made so far, inode 1 first, with their contents. *)
Record fs_inv (s : mkst) (fs : list (dinode * list Z)) : Prop := {
  fi_wf : wf s;
  fi_next : s.(freeinode) = len fs + 1;
  fi_file k d c : fs !! k = Some (d, c) ->
    dinode_at s.(img) (Z.of_nat k + 1) = d /\ dinode_ok d /\ d.(d_size) = len c /\ file_in s.(img) s.(freeblock) d c;
  fi_apart j k d1 c1 d2 c2 y : fs !! j = Some (d1, c1) -> fs !! k = Some (d2, c2) -> j <> k ->
    owns s.(img) d1 (blocks_of (len c1)) y -> ~ owns s.(img) d2 (blocks_of (len c2)) y;
  fi_free : s.(freeblock) = DATA + total fs
}.

Lemma total_cons x fs : total (x :: fs) = cost (len x.2) + total fs.
Proof. reflexivity. Qed.

Lemma total_snoc fs x : total (fs ++ [x]) = total fs + cost (len x.2).
Proof. induction fs as [|y fs IH]; [cbn [app]; rewrite total_cons; change (total []) with 0; lia|]. cbn [app]. rewrite !total_cons, IH. lia. Qed.

Lemma total_insert fs k x y : fs !! k = Some x -> total (<[k := y]> fs) = total fs + cost (len y.2) - cost (len x.2).
Proof.
  revert k. induction fs as [|z fs IH]; intros [|k] Hk; [done|done|..].
  - injection Hk as ->. change (<[0%nat := y]> (x :: fs)) with (y :: fs). rewrite !total_cons. lia.
  - change (<[S k := y]> (z :: fs)) with (z :: <[k := y]> fs). rewrite !total_cons, (IH k Hk). lia.
Qed.

Lemma new_file_in m free type : file_in m free (mk_dinode type 0 0 1 0 (replicate 13 0)) [].
Proof.
  assert (forall n, addr (mk_dinode type 0 0 1 0 (replicate 13 0)) n = 0) as Ha.
  { intros n. unfold addr. cbn [d_addrs]. destruct (replicate 13 0 !! Z.to_nat n) eqn:E; [|done]. by apply lookup_replicate in E as [-> _]. }
  split; [|intros o Ho; change (blocks_of _) with 0 in Ho; lia]. change (blocks_of (len [])) with 0. split; try (intros; mkconst; lia); try done.
  intros bn Hb [Hd|Hd]; [|done]. rewrite iaddr_direct by done. apply Ha.
Qed.

Lemma owns_nil m d y : ~ owns m d (blocks_of (len (@nil Z))) y.
Proof. change (blocks_of _) with 0. intros [(bn & Hb & _)|[Hb _]]; [lia|done]. Qed.

(** Making an inode. *)
Lemma ialloc_run s fs type :
  fs_inv s fs -> len fs + 1 < ninodes -> - 2 ^ 15 <= type < 2 ^ 15 ->
  exists s', ialloc type s = Ok (len fs + 1) s' /\ fs_inv s' (fs ++ [(mk_dinode type 0 0 1 0 (replicate 13 0), [])]) /\
    s'.(img) !! 1 = s.(img) !! 1.
Proof.
  intros [Hw Hn Hf Ha Hfr] Hlen Ht. set (d := mk_dinode type 0 0 1 0 (replicate 13 0)).
  assert (dinode_ok d) as Hok.
  { unfold dinode_ok, d. cbn. split_and!; try lia. repeat (constructor; [lia|]). constructor. }
  set (s0 := mk_mkst s.(img) s.(freeblock) s.(usedblocks) (len fs + 1 + 1)).
  assert (wf s0) as Hw0 by (destruct Hw; by split).
  destruct (winode_run s0 (len fs + 1) d Hw0 ltac:(lia) Hok) as (m' & E & Hw' & Hd & H1 & Hat & Hoth).
  exists (set_img m' s0). split.
  { unfold ialloc. erewrite kbind_Ok by reflexivity. rewrite Hn. erewrite kbind_Ok by reflexivity.
    replace (u32 (len fs + 1 + 1)) with (len fs + 1 + 1) by (symmetry; apply u32_small; unfold ninodes in *; lia).
    rewrite (kbind_Ok _ _ _ _ _ E). done. }
  split; [|exact H1]. clear H1.
  assert (forall k d c, fs !! k = Some (d, c) -> file_in m' s.(freeblock) d c /\ forall y, owns m' d (blocks_of (len c)) y <-> owns s.(img) d (blocks_of (len c)) y) as Hold.
  { intros k d1 c1 Hk. destruct (Hf k d1 c1 Hk) as (_ & _ & _ & Hfi). apply (file_in_frame s.(img) m' s.(freeblock)); [lia| |done].
    intros y Hy. apply Hd. by apply (owns_range _ _ _ _ _ Hfi). }
  assert (forall k x, (fs ++ [(d, [])]) !! k = Some x -> fs !! k = Some x \/ (k = length fs /\ x = (d, []))) as Hcase.
  { intros k x Hk. apply lookup_app_Some in Hk as [|[Hge Hk]]; [by left|right]. apply list_lookup_singleton_Some in Hk as [Hk <-]. split; [lia|done]. }
  split; cbn [img freeblock freeinode set_img s0].
  - done.
  - rewrite length_app. cbn. lia.
  - intros k d1 c1 [Hk|[-> [= -> ->]]]%Hcase.
    + destruct (Hf k d1 c1 Hk) as (H1 & H2 & H3 & _). pose proof (lookup_lt_Some _ _ _ Hk). split_and!; [|done|done|by apply (Hold k)].
      rewrite Hoth by lia. done.
    + split_and!; [done|done|done|apply new_file_in].
  - intros j k d1 c1 d2 c2 y [Hj|[-> [= -> ->]]]%Hcase [Hk|[-> [= -> ->]]]%Hcase Hne.
    + rewrite (proj2 (Hold j d1 c1 Hj)), (proj2 (Hold k d2 c2 Hk)). by apply (Ha j k).
    + intros _ Ho. by apply (owns_nil m' d y).
    + intros Ho. by destruct (owns_nil m' d y).
    + done.
  - rewrite total_snoc, Hfr. change (cost (len (d, []).2)) with 0. lia.
Qed.

Lemma addr_range m free d nb : layout m free d nb -> free <= size -> Forall (fun a => 0 <= a < 2 ^ 32) d.(d_addrs).
Proof.
  intros Hl Hf. pose proof (lay_nb _ _ _ _ Hl) as Hn. pose proof (lay_len _ _ _ _ Hl) as Hlen. apply Forall_lookup. intros i a Ha.
  assert (addr d (Z.of_nat i) = a) as <- by (unfold addr; by rewrite Nat2Z.id, Ha). apply lookup_lt_Some in Ha. rewrite Hlen in Ha.
  destruct (decide (Z.of_nat i < NDIRECT)) as [Hi|Hi].
  - rewrite <- (iaddr_direct m) by done. destruct (decide (Z.of_nat i < nb)).
    + pose proof (lay_addr _ _ _ _ Hl (Z.of_nat i) ltac:(lia)). mkconst. lia.
    + rewrite (lay_none _ _ _ _ Hl); [lia|mkconst; lia|by left].
  - replace (Z.of_nat i) with NDIRECT by (mkconst; lia). pose proof (lay_ind _ _ _ _ Hl) as Hd.
    destruct (decide (NDIRECT < nb)); mkconst; lia.
Qed.

(** Appending to a file of the image. *)
Lemma iappend_run s fs k d c p :
  fs_inv s fs -> fs !! k = Some (d, c) -> len fs < ninodes -> len c + len p <= MAXFILE * 512 ->
  s.(freeblock) + cost (len c + len p) - cost (len c) + 1 < size ->
  exists s' d', iappend (Z.of_nat k + 1) p s = Ok tt s' /\ fs_inv s' (<[k := (d', c ++ p)]> fs) /\ d'.(d_type) = d.(d_type) /\ d'.(d_nlink) = d.(d_nlink) /\
    s'.(img) !! 1 = s.(img) !! 1.
Proof.
  intros Hi Hk Hlen Hmax Hroom. pose proof Hi as [Hw Hn Hf Ha Hfr]. pose proof (lookup_lt_Some _ _ _ Hk) as Hlt.
  destruct (Hf k d c Hk) as (Hat & Hok & Hsz & Hfi).
  destruct (iappend_loop_run p (length p) s d c Hw Hfi ltac:(lia) Hmax Hroom) as (s1 & d1 & E1 & [A1 A2 A3 A4 A5 A6 A7]).
  set (d2 := with_size (len c + len p) d1). pose proof (wf_free _ A1) as Hf1. unfold meta in A7. injection A7 as T1 T2 T3 T4 T5.
  assert (len (c ++ p) = len c + len p) as El by (rewrite length_app; lia).
  assert (dinode_ok d2) as Hok2.
  { destruct Hok as (O1 & O2 & O3 & O4 & O5 & O6 & O7). unfold dinode_ok, d2. cbn [with_size d_type d_major d_minor d_nlink d_size d_addrs].
    rewrite T1, T2, T3, T4. split_and!; try lia; [mkconst; lia|apply (lay_len _ _ _ _ (proj1 A2))|].
    apply (addr_range s1.(img) s1.(freeblock) d1 (blocks_of (len (c ++ p)))); [apply A2|lia]. }
  destruct (winode_run s1 (Z.of_nat k + 1) d2 A1 ltac:(lia) Hok2) as (m' & E2 & Hw2 & Hdat & H1 & Hat2 & Hoth).
  exists (set_img m' s1), d2. split.
  { unfold iappend. rewrite (kbind_Ok _ _ _ _ _ (rinode_run s (Z.of_nat k + 1) Hw ltac:(lia))), Hat, Hsz. rewrite (kbind_Ok _ _ _ _ _ E1).
    rewrite u32_small by (mkconst; lia). exact E2. }
  split; [|split; [by rewrite <- T1|split; [by rewrite <- T4|]]]; [clear H1|].
  2:{ cbn [img set_img]. rewrite H1. apply A3; [pose proof (wf_free _ Hw); unfold DATA in *; lia|].
      intros Ho. pose proof (owns_range _ _ _ _ _ Hfi Ho). unfold DATA in *. lia. }
  set (fs' := <[k := (d2, c ++ p)]> fs).
  assert (file_in m' s1.(freeblock) d2 (c ++ p) /\ forall y, owns m' d2 (blocks_of (len (c ++ p))) y <-> owns s1.(img) d1 (blocks_of (len (c ++ p))) y) as [Hnew Hown].
  { apply (file_in_frame s1.(img) m' s1.(freeblock) s1.(freeblock) d2); [lia| |].
    - intros y Hy. apply Hdat. apply (owns_range s1.(img) s1.(freeblock) d1 (c ++ p)); done.
    - destruct A2 as [[B1 B2 B3 B4 B5 B6 B7] B8]. split; [by split|done]. }
  assert (forall j dj cj, fs !! j = Some (dj, cj) -> j <> k -> file_in m' s1.(freeblock) dj cj /\
    (forall y, owns m' dj (blocks_of (len cj)) y <-> owns s.(img) dj (blocks_of (len cj)) y)) as Hold.
  { intros j dj cj Hj Hne. destruct (Hf j dj cj Hj) as (_ & _ & _ & Hfj). apply (file_in_frame s.(img) m' s.(freeblock)); [|intros y Hy|done].
    - rewrite A5. pose proof (cost_mono (len c) (len (c ++ p)) ltac:(lia)). lia.
    - pose proof (owns_range _ _ _ _ _ Hfj Hy). rewrite Hdat by lia. apply A3; [lia|]. by apply (Ha j k dj cj). }
  assert (forall j x, fs' !! j = Some x -> (j = k /\ x = (d2, c ++ p)) \/ (j <> k /\ fs !! j = Some x)) as Hcase.
  { intros j x Hj. unfold fs' in Hj. destruct (decide (k = j)) as [<-|Hne].
    - left. rewrite list_lookup_insert_eq in Hj by done. by injection Hj as <-.
    - right. rewrite list_lookup_insert_ne in Hj by done. split; [congruence|done]. }
  split; cbn [img freeblock freeinode set_img].
  - done.
  - unfold fs'. rewrite length_insert. congruence.
  - intros j dj cj [[-> [= -> ->]]|[Hne Hj]]%Hcase.
    + split_and!; [done|done|cbn; lia|done].
    + destruct (Hf j dj cj Hj) as (J1 & J2 & J3 & _). pose proof (lookup_lt_Some _ _ _ Hj). split_and!; [|done|done|by apply (Hold j)].
      rewrite Hoth by lia. rewrite <- J1. unfold dinode_at, sector. rewrite A3; [done| |].
      * pose proof (i2b_range (Z.of_nat j + 1) ltac:(lia)). pose proof (wf_free _ Hw). lia.
      * intros Ho. pose proof (owns_range _ _ _ _ _ Hfi Ho). pose proof (i2b_range (Z.of_nat j + 1) ltac:(lia)). lia.
  - assert (forall j dj cj y, fs !! j = Some (dj, cj) -> j <> k -> owns s.(img) dj (blocks_of (len cj)) y -> ~ owns s1.(img) d1 (blocks_of (len (c ++ p))) y) as Hx.
    { intros j dj cj y Hj Hne Hoj Ho. destruct (Hf j dj cj Hj) as (_ & _ & _ & Hfj). pose proof (owns_range _ _ _ _ _ Hfj Hoj).
      destruct (A4 y Ho) as [Ho'|]; [|lia]. by apply (Ha j k dj cj d c y). }
    intros j1 j2 dd1 cc1 dd2 cc2 y [[-> [= -> ->]]|[Hn1 Hj1]]%Hcase [[-> [= -> ->]]|[Hn2 Hj2]]%Hcase Hne.
    + done.
    + rewrite Hown, (proj2 (Hold j2 _ _ Hj2 Hn2)). intros H1 H2. by apply (Hx j2 _ _ y Hj2 Hn2 H2).
    + rewrite Hown, (proj2 (Hold j1 _ _ Hj1 Hn1)). intros H1. by apply (Hx j1 _ _ y Hj1 Hn1).
    + rewrite (proj2 (Hold j1 _ _ Hj1 Hn1)), (proj2 (Hold j2 _ _ Hj2 Hn2)). by apply (Ha j1 j2).
  - unfold fs'. rewrite (total_insert fs k (d, c)) by done. rewrite A5, Hfr. cbn [snd]. lia.
Qed.
End Mkfs.
