(* ===== verification/MkfsImage.v ===== *)
(** The file system image as a whole: main of mkfs.c, and the kernel booted with
    the image.

    The theorems show that the image mkfs builds is consistent, and that the
    kernel reads every file from it as it was on the host: the two programs
    agree on the layout of the disk. *)

From S2P Require Import Prelude CString State ProcSync Ide Bio Bytes FsBlock Inode Mkfs.

Module MkfsImage.
Import Mkfs.

(** ** Specification *)

(** A command line argument: the name on the host, and the pieces of the file. *)
Notation arg := (list Z * option (list (list Z)))%type (only parsing).

(** The name in the file system. *)
Definition strip (name : list Z) : list Z :=
  match name with c :: rest => if c =? 95 then rest else name | [] => name end.

Definition contents (a : arg) : list Z := match a.2 with Some pieces => concat pieces | None => [] end.

Definition arg_ok (a : arg) : Prop := 47 ∉ a.1 /\ is_Some a.2 /\ len (contents a) <= MAXFILE * 512.

(** The directory entries of the arguments, the first of which gets inode [n]. *)
Fixpoint entries (n : Z) (args : list arg) : list Z :=
  match args with
  | [] => []
  | a :: args => dirent_for (u16 n) (strip a.1) ++ entries (n + 1) args
  end.

Definition root_bytes (args : list arg) : list Z :=
  dirent_for 1 [46] ++ dirent_for 1 [46; 46] ++ entries 2 args.

(** The sectors in use when the image is done. *)
Definition sectors (args : list arg) : Z :=
  DATA + cost (len (root_bytes args)) + foldr (fun a n => cost (len (contents a)) + n) 0 args.

(** ** Lemmas *)

Lemma dirent_length n name : len (dirent_for n name) = 16.
Proof.
  unfold dirent_for, dirent_bytes. rewrite length_app, le_bytes_length, strncpy_list_length. reflexivity.
Qed.

Lemma entries_length n args : len (entries n args) = 16 * len args.
Proof.
  revert n. induction args as [|a args IH]; intros n; [done|]. cbn [entries]. rewrite length_app, Nat2Z.inj_add, dirent_length, IH. cbn [length]. lia.
Qed.

Lemma total_nonneg fs : 0 <= total fs.
Proof.
  induction fs as [|x fs IH]; [done|]. rewrite total_cons. pose proof (cost_mono 0 (len x.2) ltac:(lia)) as H. change (cost 0) with 0 in H. lia.
Qed.

Lemma zero_loop_run n : forall i s,
  exists s', zero_loop n i s = Ok tt s' /\ (s'.(freeblock), s'.(usedblocks), s'.(freeinode)) = (s.(freeblock), s.(usedblocks), s.(freeinode)) /\
    forall x, s'.(img) !! x = if decide (i <= x < i + Z.of_nat n) then Some sect_zeros else s.(img) !! x.
Proof.
  induction n as [|n IH]; intros i s; cbn [zero_loop].
  - exists s. split_and!; [done|done|]. intros x. by rewrite decide_False by lia.
  - erewrite kbind_Ok by reflexivity. set (s1 := set_img _ s). destruct (IH (i + 1) s1) as (s' & E & Hf & Hx).
    exists s'. split_and!; [done|done|]. intros x. rewrite Hx. unfold s1. cbn [img set_img].
    destruct (decide (i = x)) as [<-|Hne].
    + rewrite (decide_False (P := i + 1 <= i < i + 1 + Z.of_nat n)) by lia. rewrite lookup_insert_eq, decide_True by lia. done.
    + rewrite lookup_insert_ne by done. destruct (decide (i <= x < i + Z.of_nat (S n))).
      * by rewrite decide_True by lia.
      * by rewrite decide_False by lia.
Qed.

(** A file copied piece by piece. *)
Lemma copy_file_run pieces : forall s fs k d c,
  fs_inv s fs -> fs !! k = Some (d, c) -> len fs < ninodes -> len c + len (concat pieces) <= MAXFILE * 512 ->
  s.(freeblock) + cost (len c + len (concat pieces)) - cost (len c) + 1 < size ->
  exists s' d', copy_file (Z.of_nat k + 1) pieces s = Ok tt s' /\ fs_inv s' (<[k := (d', c ++ concat pieces)]> fs) /\
    d'.(d_type) = d.(d_type) /\ d'.(d_nlink) = d.(d_nlink) /\ s'.(img) !! 1 = s.(img) !! 1.
Proof.
  induction pieces as [|p pieces IH]; intros s fs k d c Hi Hk Hn Hm Hr; cbn [copy_file concat].
  - exists s, d. rewrite app_nil_r, list_insert_id by done. done.
  - cbn [concat] in Hm, Hr. rewrite length_app, Nat2Z.inj_add in Hm, Hr.
    pose proof (cost_mono (len c) (len c + len p) ltac:(lia)) as C1.
    pose proof (cost_mono (len c + len p) (len c + (len p + len (concat pieces))) ltac:(lia)) as C2.
    destruct (iappend_run s fs k d c p Hi Hk Hn ltac:(lia) ltac:(lia)) as (s1 & d1 & E1 & Hi1 & T1 & N1 & B1).
    rewrite (kbind_Ok _ _ _ _ _ E1). pose proof (lookup_lt_Some _ _ _ Hk) as Hlt.
    assert (s1.(freeblock) = s.(freeblock) + cost (len c + len p) - cost (len c)) as Ef.
    { rewrite (fi_free _ _ Hi1), (fi_free _ _ Hi), (total_insert fs k (d, c)) by done. cbn [snd]. rewrite length_app, Nat2Z.inj_add. lia. }
    destruct (IH s1 (<[k := (d1, c ++ p)]> fs) k d1 (c ++ p)) as (s' & d' & E & Hi' & T & N & B);
      [done|by apply list_lookup_insert_eq|by rewrite length_insert|rewrite length_app; lia| |].
    { rewrite length_app, Nat2Z.inj_add, Ef. rewrite <- Z.add_assoc. lia. }
    exists s', d'. rewrite list_insert_insert_eq, <- app_assoc in Hi'. split_and!; [done|done|congruence|congruence|congruence].
Qed.

Definition plain (x : dinode * list Z) : Prop := x.1.(d_type) = T_FILE /\ x.1.(d_nlink) = 1.

Definition costs (args : list arg) : Z := foldr (fun a n => cost (len (contents a)) + n) 0 args.

Lemma costs_cons a args : costs (a :: args) = cost (len (contents a)) + costs args.
Proof. reflexivity. Qed.

Lemma costs_nonneg args : 0 <= costs args.
Proof.
  induction args as [|a args IH]; [done|]. rewrite costs_cons. pose proof (cost_mono 0 (len (contents a)) ltac:(lia)) as H. change (cost 0) with 0 in H. lia.
Qed.

(** One argument: a new inode, an entry in the root directory, the contents. *)
Lemma add_file_run s droot dir files a :
  fs_inv s ((droot, dir) :: files) -> arg_ok a -> len files + 2 < ninodes -> len dir + 16 <= MAXFILE * 512 ->
  s.(freeblock) + (cost (len dir + 16) - cost (len dir)) + cost (len (contents a)) + 1 < size ->
  exists s' droot' d, add_file 1 a s = Ok tt s' /\
    fs_inv s' ((droot', dir ++ dirent_for (u16 (len files + 2)) (strip a.1)) :: files ++ [(d, contents a)]) /\
    plain (d, contents a) /\ droot'.(d_type) = droot.(d_type) /\ droot'.(d_nlink) = droot.(d_nlink) /\ s'.(img) !! 1 = s.(img) !! 1.
Proof.
  destruct a as [name o]. intros Hi (Hsl & [pieces Ho] & Hlen) Hn Hdir Hroom. cbn [fst snd] in *. subst o. cbn [contents snd] in *.
  pose proof (cost_mono (len dir) (len dir + 16) ltac:(lia)) as C1. pose proof (cost_mono 0 (len (concat pieces)) ltac:(lia)) as C2.
  change (cost 0) with 0 in C2. set (de := dirent_for (u16 (len files + 2)) (strip name)). pose proof (dirent_length (u16 (len files + 2)) (strip name)) as Hde. fold de in Hde.
  destruct (ialloc_run s _ T_FILE Hi) as (s1 & E1 & Hi1 & B1); [cbn [length]; lia|unfold T_FILE; lia|].
  replace (len ((droot, dir) :: files) + 1) with (len files + 2) in E1 by (cbn [length]; lia). cbn [app] in Hi1.
  set (d0 := mk_dinode T_FILE 0 0 1 0 (replicate 13 0)) in *.
  assert (s1.(freeblock) = s.(freeblock)) as F1.
  { rewrite (fi_free _ _ Hi1), (fi_free _ _ Hi). rewrite !total_cons, total_snoc. change (cost (len (d0, []).2)) with 0. lia. }
  destruct (iappend_run s1 _ 0 droot dir de Hi1 eq_refl) as (s2 & d2 & E2 & Hi2 & T2 & N2 & B2);
    [cbn [length]; rewrite length_app; cbn [length]; lia|lia|rewrite Hde; lia|].
  change (<[0%nat := (d2, dir ++ de)]> ((droot, dir) :: files ++ [(d0, [])])) with ((d2, dir ++ de) :: files ++ [(d0, [])]) in Hi2.
  assert (s2.(freeblock) = s1.(freeblock) + cost (len dir + 16) - cost (len dir)) as F2.
  { rewrite (fi_free _ _ Hi2), (fi_free _ _ Hi1), !total_cons. cbn [snd]. rewrite length_app, Nat2Z.inj_add, Hde. lia. }
  destruct (copy_file_run pieces s2 _ (S (length files)) d0 [] Hi2) as (s3 & d3 & E3 & Hi3 & T3 & N3 & B3).
  { by apply (list_lookup_middle ((d2, dir ++ de) :: files) [] (d0, []) (S (length files))). }
  { cbn [length]. rewrite length_app. cbn [length]. lia. }
  { cbn [length]. lia. }
  { cbn [length]. change (cost (Z.of_nat 0)) with 0. rewrite Z.add_0_l. lia. }
  exists s3, d2, d3. split_and!.
  - unfold add_file. rewrite bool_decide_eq_false_2 by done. rewrite (kbind_Ok _ _ _ _ _ E1). fold (strip name). fold de.
    change (Z.of_nat 0 + 1) with 1 in E2. rewrite (kbind_Ok _ _ _ _ _ E2).
    replace (Z.of_nat (S (length files)) + 1) with (len files + 2) in E3 by lia. exact E3.
  - change (<[S (length files) := (d3, [] ++ concat pieces)]> ((d2, dir ++ de) :: files ++ [(d0, [])]))
      with ((d2, dir ++ de) :: <[length files := (d3, concat pieces)]> (files ++ [(d0, [])])) in Hi3.
    rewrite insert_app_r_alt, Nat.sub_diag in Hi3 by lia. exact Hi3.
  - split; [exact T3|exact N3].
  - exact T2.
  - exact N2.
  - congruence.
Qed.

Lemma add_files_run args : forall s droot dir files,
  fs_inv s ((droot, dir) :: files) -> Forall arg_ok args -> 1 + len files + len args < ninodes ->
  len dir + 16 * len args <= MAXFILE * 512 ->
  s.(freeblock) + (cost (len dir + 16 * len args) - cost (len dir)) + costs args + 1 < size ->
  exists s' droot' files', kfor args (add_file 1) s = Ok tt s' /\
    fs_inv s' ((droot', dir ++ entries (len files + 2) args) :: files ++ files') /\
    files'.*2 = contents <$> args /\ Forall plain files' /\ droot'.(d_type) = droot.(d_type) /\ droot'.(d_nlink) = droot.(d_nlink) /\
    s'.(img) !! 1 = s.(img) !! 1.
Proof.
  induction args as [|a args IH]; intros s droot dir files Hi Ha Hn Hm Hr; cbn [kfor entries].
  - exists s, droot, []. rewrite !app_nil_r. split_and!; done || constructor.
  - apply Forall_cons in Ha as [Ha Has]. rewrite costs_cons in Hr. cbn [length] in *. rewrite Nat2Z.inj_succ in *.
    pose proof (costs_nonneg args) as C0. pose proof (cost_mono (len dir + 16) (len dir + 16 * Z.succ (len args)) ltac:(lia)) as C1.
    destruct (add_file_run s droot dir files a Hi Ha ltac:(lia) ltac:(lia) ltac:(lia)) as (s1 & d1 & d & E1 & Hi1 & Hp & T1 & N1 & B1).
    rewrite (kbind_Ok _ _ _ _ _ E1). set (de := dirent_for (u16 (len files + 2)) (strip a.1)) in *.
    pose proof (dirent_length (u16 (len files + 2)) (strip a.1)) as Hde. fold de in Hde.
    assert (s1.(freeblock) = s.(freeblock) + (cost (len dir + 16) - cost (len dir)) + cost (len (contents a))) as F1.
    { rewrite (fi_free _ _ Hi1), (fi_free _ _ Hi), !total_cons, total_snoc. cbn [snd]. rewrite length_app, Nat2Z.inj_add, Hde. lia. }
    assert (len (dir ++ de) = len dir + 16) as El by (rewrite length_app; lia).
    destruct (IH s1 d1 (dir ++ de) (files ++ [(d, contents a)]) Hi1 Has) as (s' & d' & files' & E & Hi' & Hc & Hpl & T & N & B).
    { rewrite length_app. cbn [length]. lia. }
    { lia. }
    { rewrite El, F1. replace (len dir + 16 + 16 * len args) with (len dir + 16 * Z.succ (len args)) by lia. lia. }
    exists s', d', ((d, contents a) :: files'). split_and!; [done| |cbn; by f_equal|by constructor|congruence|congruence|congruence].
    replace (len (files ++ [(d, contents a)]) + 2) with (len files + 2 + 1) in Hi' by (rewrite length_app; cbn [length]; lia).
    rewrite <- !app_assoc in Hi'. exact Hi'.
Qed.

(** *** The beginning and the end of main *)

Lemma set_bits_length n buf : length (set_bits n buf) = length buf.
Proof. induction n as [|n IH]; [done|]. cbn [set_bits]. by rewrite bit_set_length. Qed.

Lemma set_bits_used n : (n <= 4096)%nat -> forall b, 0 <= b -> bit_used (set_bits n sect_zeros) b = (b <? Z.of_nat n).
Proof.
  induction n as [|n IH]; intros Hn b Hb; cbn [set_bits].
  - rewrite (proj2 (Z.ltb_ge _ _)) by lia. rewrite bit_used_testbit by lia.
    unfold bit_byte, sect_zeros. destruct (replicate 512 0 !! Z.to_nat (b / 8)) eqn:E; [apply lookup_replicate in E as [-> _]|]; apply Z.bits_0.
  - rewrite bit_used_set; [|lia|lia|].
    + rewrite IH by lia. destruct (Z.ltb_spec b (Z.of_nat n)), (Z.ltb_spec b (Z.of_nat (S n))); cbn [orb]; try (apply bool_decide_eq_true_2 || apply bool_decide_eq_false_2); lia.
    + rewrite set_bits_length. apply Z.div_lt_upper_bound; unfold sect_zeros; rewrite ?length_replicate; lia.
Qed.

(** The empty image. *)
Lemma start_run behind s :
  length behind = 500%nat -> s.(freeblock) = DATA -> s.(usedblocks) = DATA -> s.(freeinode) = 1 -> s.(img) = ∅ ->
  exists s1, zero_loop (Z.to_nat size) 0 s = Ok tt s1 /\ fs_inv (set_img (<[1 := sb_bytes behind]> s1.(img)) s1) [].
Proof.
  intros Hb G1 G2 G3 G4. destruct (zero_loop_run (Z.to_nat size) 0 s) as (s1 & E1 & Hf & Hx).
  rewrite Z2Nat.id, Z.add_0_l in Hx by done. injection Hf as F1 F2 F3. rewrite G1 in F1. rewrite G2 in F2. rewrite G3 in F3.
  assert (length (sb_bytes behind) = 512%nat) as Hsb by (unfold sb_bytes; rewrite !length_app, !le_bytes_length; lia).
  assert (wf s1) as Hw.
  { split.
    - intros x Hs. rewrite Hx, decide_True by done. by eexists.
    - intros x b Hs. rewrite Hx in Hs. case_decide; [by injection Hs as <-|]. rewrite G4, lookup_empty in Hs. discriminate Hs.
    - rewrite F1. unfold DATA, size. lia.
    - by rewrite F1, F2.
    - intros x Hs. rewrite F1 in Hs. rewrite Hx, decide_True; [done|]. unfold DATA in Hs. lia. }
  exists s1. split; [exact E1|]. split; cbn [img set_img freeinode freeblock].
  - apply wf_write; [exact Hw| |exact Hsb]. rewrite F1. unfold DATA. lia.
  - exact F3.
  - intros k d c Hk. discriminate Hk.
  - intros j k d1 c1 d2 c2 y Hj. discriminate Hj.
  - exact F1.
Qed.

Lemma sb_read behind : get_sb (sb_bytes behind) = mk_superblock size nblocks ninodes.
Proof. reflexivity. Qed.

(** ** The finished image *)

(** The superblock describes the disk; inode 1 is the root directory with the
    entries, inode [k + 2] the file of argument [k]; all blocks of all files
    are different sectors, and the bitmap marks the sectors in use. *)
Record consistent (m : gmap Z (list Z)) (used : Z) (args : list arg) : Prop := {
  im_sb : get_sb (sector m 1) = mk_superblock size nblocks ninodes;
  im_root : (dinode_at m 1).(d_type) = T_DIR /\ (dinode_at m 1).(d_nlink) = 1 /\
    (dinode_at m 1).(d_size) = (len (root_bytes args) / 512 + 1) * 512 /\ file_in m used (dinode_at m 1) (root_bytes args);
  im_file k a : args !! k = Some a ->
    (dinode_at m (Z.of_nat k + 2)).(d_type) = T_FILE /\ (dinode_at m (Z.of_nat k + 2)).(d_nlink) = 1 /\
    (dinode_at m (Z.of_nat k + 2)).(d_size) = len (contents a) /\ file_in m used (dinode_at m (Z.of_nat k + 2)) (contents a);
  im_apart j k c1 c2 y :
    (root_bytes args :: (contents <$> args)) !! j = Some c1 -> (root_bytes args :: (contents <$> args)) !! k = Some c2 -> j <> k ->
    owns m (dinode_at m (Z.of_nat j + 1)) (blocks_of (len c1)) y -> ~ owns m (dinode_at m (Z.of_nat k + 1)) (blocks_of (len c2)) y;
  im_bitmap b : 0 <= b < size -> bit_used (sector m (BBLOCK b ninodes)) b = (b <? used);
  im_lens x b : m !! x = Some b -> length b = 512%nat
}.

(** Nothing but inode 1, where only the size changes, and sectors that belong to
    no file are different. *)
Lemma finish_ok s m args droot files used :
  fs_inv s ((droot, root_bytes args) :: files) -> files.*2 = contents <$> args -> Forall plain files -> len args + 1 < ninodes ->
  droot.(d_type) = T_DIR -> droot.(d_nlink) = 1 -> used = s.(freeblock) ->
  (forall y, DATA <= y -> m !! y = s.(img) !! y) -> (forall j, 1 < j < ninodes -> dinode_at m j = dinode_at s.(img) j) ->
  dinode_at m 1 = with_size ((len (root_bytes args) / 512 + 1) * 512) droot ->
  get_sb (sector m 1) = mk_superblock size nblocks ninodes ->
  (forall b, 0 <= b < size -> bit_used (sector m (BBLOCK b ninodes)) b = (b <? used)) -> (forall x b, m !! x = Some b -> length b = 512%nat) ->
  consistent m used args.
Proof.
  intros [Hw Hn Hf Ha Hfr] Hc Hp Hlen Ht Hnl -> Hm Hd Hr Hsb Hbm Hln.
  set (fs := (droot, root_bytes args) :: files) in *.
  assert (len files = len args) as Hfl by (apply (f_equal length) in Hc; rewrite !length_fmap in Hc; lia).
  assert (forall k d c, fs !! k = Some (d, c) ->
    file_in m s.(freeblock) (dinode_at m (Z.of_nat k + 1)) c /\
    forall y, owns m (dinode_at m (Z.of_nat k + 1)) (blocks_of (len c)) y <-> owns s.(img) d (blocks_of (len c)) y) as Hfile.
  { intros k d c Hk. destruct (Hf k d c Hk) as (Hat & _ & _ & Hfi). pose proof (lookup_lt_Some _ _ _ Hk) as Hlt. cbn [length fs] in Hlt.
    destruct (file_in_frame s.(img) m s.(freeblock) s.(freeblock) d c) as [F1 F2]; [lia| |done|].
    { intros y Hy. apply Hm. by apply (owns_range _ _ _ _ _ Hfi). }
    destruct k as [|k].
    - injection Hk as <- <-. change (Z.of_nat 0 + 1) with 1. rewrite Hr. destruct F1 as [[L1 L2 L3 L4 L5 L6 L7] L8]. split; [split; [by split|done]|done].
    - rewrite Hd, Hat by lia. done. }
  assert (forall k c, (root_bytes args :: (contents <$> args)) !! k = Some c -> exists d, fs !! k = Some (d, c)) as Hlook.
  { intros [|k] c Hk; [injection Hk as <-; by eexists|]. change ((contents <$> args) !! k = Some c) in Hk. rewrite <- Hc, list_lookup_fmap in Hk.
    apply fmap_Some in Hk as ((d & c') & Hk & ->). exists d. exact Hk. }
  split; [exact Hsb| | | |exact Hbm|exact Hln].
  - destruct (Hfile 0%nat droot (root_bytes args) eq_refl) as [Hroot _]. change (Z.of_nat 0 + 1) with 1 in Hroot.
    split; [by rewrite Hr|]. split; [by rewrite Hr|]. split; [by rewrite Hr|exact Hroot].
  - intros k a Hk. destruct (Hlook (S k) (contents a)) as [d Hkd].
    { change ((contents <$> args) !! k = Some (contents a)). by rewrite list_lookup_fmap, Hk. }
    destruct (Hf (S k) d _ Hkd) as (Hat & _ & Hsz & _). pose proof (lookup_lt_Some _ _ _ Hk) as Hlt.
    replace (Z.of_nat k + 2) with (Z.of_nat (S k) + 1) by lia. split_and!; [..|by apply (Hfile (S k) d)].
    all: rewrite Hd, Hat by lia.
    + by apply (Forall_lookup_1 _ _ k (d, contents a) Hp).
    + by apply (Forall_lookup_1 _ _ k (d, contents a) Hp).
    + done.
  - intros j k c1 c2 y Hj Hk Hne. destruct (Hlook j c1 Hj) as [d1 Hj'], (Hlook k c2 Hk) as [d2 Hk'].
    rewrite (proj2 (Hfile j d1 c1 Hj')), (proj2 (Hfile k d2 c2 Hk')). by apply (Ha j k).
Qed.

Lemma root_length args : len (root_bytes args) = 32 + 16 * len args.
Proof. unfold root_bytes. rewrite !length_app, !Nat2Z.inj_add, !dirent_length, entries_length. lia. Qed.

Lemma total_contents files args : files.*2 = contents <$> args -> total files = costs args.
Proof.
  revert args. induction files as [|f files IH]; intros [|a args] Hc; [done|discriminate|discriminate|].
  rewrite total_cons, costs_cons. cbn [fmap list_fmap] in Hc. injection Hc as E Hc. by rewrite (IH args Hc), E.
Qed.

(** What main has made before it writes the sizes and the bitmap. *)
Lemma main_files behind args :
  length behind = 500%nat -> Forall arg_ok args -> len args + 1 < ninodes -> sectors args < 512 ->
  exists s droot files,
    main behind args start =
      (let* din := rinode 1 in
       winode 1 (with_size (u32 ((din.(d_size) / BSIZE + 1) * BSIZE)) din) ;;;
       let* used := kget usedblocks in
       Mkfs.balloc used) s /\
    fs_inv s ((droot, root_bytes args) :: files) /\ files.*2 = contents <$> args /\ Forall plain files /\
    droot.(d_type) = T_DIR /\ droot.(d_nlink) = 1 /\ s.(freeblock) = sectors args /\ s.(img) !! 1 = Some (sb_bytes behind).
Proof.
  intros Hb Ha Hn Hs. unfold main. change (size / (512 * 8) + 1) with 1. change (ninodes / IPB + 3 + 1) with DATA. cbv zeta.
  erewrite kbind_Ok by reflexivity. change (negb (nblocks + DATA =? size)) with false. change (nblocks + DATA) with size. cbv iota.
  destruct (start_run behind (mk_mkst start.(img) DATA DATA start.(freeinode)) Hb eq_refl eq_refl eq_refl eq_refl) as (s1 & E1 & Hi1).
  rewrite (kbind_Ok _ _ _ _ _ E1). erewrite kbind_Ok by reflexivity. set (s2 := set_img _ s1) in *.
  assert (s2.(img) !! 1 = Some (sb_bytes behind)) as B2 by (unfold s2; cbn [img set_img]; apply lookup_insert_eq). clearbody s2.
  destruct (ialloc_run s2 [] T_DIR Hi1) as (s3 & E3 & Hi3 & B3); [done|unfold T_DIR; lia|]. rewrite (kbind_Ok _ _ _ _ _ E3).
  change (Z.of_nat (length []) + 1) with 1. change (negb (1 =? ROOTINO)) with false. cbv iota. change (u16 1) with 1. cbn [app] in Hi3.
  pose proof (root_length args) as Hrl. pose proof (costs_nonneg args) as Hc0. fold (costs args) in Hs. unfold sectors in Hs. fold (costs args) in Hs.
  set (d0 := mk_dinode T_DIR 0 0 1 0 (replicate 13 0)) in *. set (e1 := dirent_for 1 [46]). set (e2 := dirent_for 1 [46; 46]).
  assert (s3.(freeblock) = DATA) as F3 by (rewrite (fi_free _ _ Hi3); reflexivity).
  assert (len e1 = 16 /\ len e2 = 16) as [L1 L2] by (split; apply dirent_length).
  pose proof (cost_mono 32 (len (root_bytes args)) ltac:(lia)) as C1. change (cost 32) with 1 in C1.
  destruct (iappend_run s3 _ 0 d0 [] e1 Hi3 eq_refl) as (s4 & d4 & E4 & Hi4 & T4 & N4 & B4);
    [done|rewrite L1; done|rewrite F3, L1; vm_compute; reflexivity|]. change (Z.of_nat 0 + 1) with 1 in E4. rewrite (kbind_Ok _ _ _ _ _ E4).
  change (<[0%nat := (d4, [] ++ e1)]> [(d0, [])]) with [(d4, e1)] in Hi4.
  assert (s4.(freeblock) = DATA + 1) as F4 by (rewrite (fi_free _ _ Hi4), total_cons; cbn [snd]; rewrite L1; reflexivity).
  destruct (iappend_run s4 _ 0 d4 e1 e2 Hi4 eq_refl) as (s5 & d5 & E5 & Hi5 & T5 & N5 & B5);
    [done|rewrite L1, L2; done|rewrite F4, L1, L2; vm_compute; reflexivity|]. change (Z.of_nat 0 + 1) with 1 in E5. rewrite (kbind_Ok _ _ _ _ _ E5).
  change (<[0%nat := (d5, e1 ++ e2)]> [(d4, e1)]) with [(d5, e1 ++ e2)] in Hi5.
  assert (len (e1 ++ e2) = 32) as L5 by (rewrite length_app; lia).
  assert (s5.(freeblock) = DATA + 1) as F5 by (rewrite (fi_free _ _ Hi5), total_cons; cbn [snd]; rewrite L5; reflexivity).
  destruct (add_files_run args s5 d5 (e1 ++ e2) [] Hi5 Ha) as (s6 & d6 & files & E6 & Hi6 & Hc & Hp & T6 & N6 & B6).
  { change (Z.of_nat (length [])) with 0. lia. }
  { rewrite L5. unfold ninodes, MAXFILE, NDIRECT, NINDIRECT in *. change (BSIZE / 4) with 128. lia. }
  { rewrite L5, F5. change (cost 32) with 1. rewrite Hrl in Hs. unfold DATA, size in *. lia. }
  rewrite (kbind_Ok _ _ _ _ _ E6). exists s6, d6, files. split; [reflexivity|]. cbn [app] in Hi6. rewrite <- app_assoc in Hi6.
  change (Z.of_nat (length []) + 2) with 2 in Hi6. split; [exact Hi6|]. split; [exact Hc|]. split; [exact Hp|].
  split; [rewrite T6, T5, T4; reflexivity|]. split; [rewrite N6, N5, N4; reflexivity|]. split; [|congruence].
  rewrite (fi_free _ _ Hi6), total_cons, (total_contents files args Hc). cbn [snd]. unfold sectors, root_bytes, e1, e2. fold (costs args). lia.
Qed.

Lemma mkfs_run (behind : list Z) (args : list arg) :
  length behind = 500%nat -> Forall arg_ok args -> len args + 1 < ninodes -> sectors args < 512 ->
  exists st, main behind args start = Ok tt st /\ consistent st.(img) (sectors args) args.
Proof.
  intros Hb Ha Hn Hs. destruct (main_files behind args Hb Ha Hn Hs) as (s & droot & files & E & Hi & Hc & Hp & Ht & Hnl & Hf & B).
  pose proof Hi as [Hw _ Hfile _ _]. destruct (Hfile 0%nat droot _ eq_refl) as (Hat & Hok & Hsz & Hfi). change (Z.of_nat 0 + 1) with 1 in Hat.
  pose proof (root_length args) as Hrl. pose proof (Z.div_pos (len (root_bytes args)) 512 ltac:(lia) ltac:(lia)) as Hd0.
  assert (len (root_bytes args) / 512 < 10) as Hd1 by (apply Z.div_lt_upper_bound; unfold ninodes in *; lia).
  set (sz := (len (root_bytes args) / 512 + 1) * 512). assert (u32 ((d_size droot / BSIZE + 1) * BSIZE) = sz) as Esz.
  { rewrite Hsz. change BSIZE with 512. apply u32_small. lia. }
  destruct (winode_run s 1 (with_size sz droot) Hw ltac:(unfold ninodes; lia)) as (m1 & E1 & Hw1 & Hdat & B1 & Hat1 & Hoth).
  { destruct Hok as (O1 & O2 & O3 & O4 & O5 & O6 & O7). unfold dinode_ok, with_size. cbn [d_type d_major d_minor d_nlink d_size d_addrs].
    do 4 (split; [assumption|]). split; [unfold sz; lia|]. split; assumption. }
  set (bits := set_bits (Z.to_nat (sectors args)) sect_zeros). set (m2 := <[28 := bits]> m1).
  assert (forall y, y <> 28 -> sector m2 y = sector m1 y) as Hsec by (intros y Hy; unfold m2; rewrite sector_insert, decide_False by done; reflexivity).
  assert (0 <= sectors args) as Hs0 by (rewrite <- Hf; pose proof (wf_free _ Hw); unfold DATA in *; lia).
  exists (set_img m2 s). split.
  - rewrite E. rewrite (kbind_Ok _ _ _ _ _ (rinode_run s 1 Hw ltac:(unfold ninodes; lia))), Hat, Esz. rewrite (kbind_Ok _ _ _ _ _ E1).
    erewrite kbind_Ok by reflexivity. cbn [usedblocks set_img]. rewrite (wf_used _ Hw), Hf. unfold Mkfs.balloc.
    rewrite (proj2 (Z.ltb_lt _ _) Hs). cbn [negb]. reflexivity.
  - cbn [img set_img]. apply (finish_ok s m2 args droot files (sectors args) Hi Hc Hp Hn Ht Hnl (eq_sym Hf)).
    + intros y Hy. unfold m2. rewrite lookup_insert_ne by (unfold DATA in *; lia). by apply Hdat.
    + intros j Hj. pose proof (i2b_bound j ltac:(lia)) as Hij. unfold dinode_at at 1. rewrite Hsec by lia. apply Hoth; lia.
    + pose proof (i2b_bound 1 ltac:(unfold ninodes; lia)) as Hij. unfold dinode_at. rewrite Hsec by lia. exact Hat1.
    + rewrite Hsec by lia. unfold sector. rewrite B1, B. apply sb_read.
    + intros b Hb'. unfold BBLOCK. change BPB with 4096. rewrite (Z.div_small b) by (unfold size in *; lia). change (0 + ninodes / IPB + 3) with 28.
      unfold m2. rewrite sector_insert, decide_True by done. unfold bits. rewrite set_bits_used by lia. rewrite Z2Nat.id by done. done.
    + intros x b Hx. unfold m2 in Hx. destruct (decide (28 = x)) as [<-|Hne].
      * rewrite lookup_insert_eq in Hx. injection Hx as <-. unfold bits. by rewrite set_bits_length.
      * rewrite lookup_insert_ne in Hx by done. by apply (wf_len _ Hw1 x).
Qed.

(** ** The kernel and the image *)

(** The image as drive 1. *)
Definition disk_of (m : gmap Z (list Z)) : gmap (Z * Z) (list Z) := kmap (fun x => (1, x)) m.

#[local] Instance drive_inj : Inj (=) (=) (fun x : Z => (1, x)).
Proof. intros x y [= ->]. done. Qed.

Definition empty_inode : inode := mk_inode 0 0 0 0 0 0 0 0 0 (replicate 13 0).

(** The kernel after [binit], with an empty inode table. *)
Definition booted (m : gmap Z (list Z)) : kstate := set_icache (replicate NINODE empty_inode) (boot_cache (disk_of m)).

Lemma disk_of_wf m : (forall x b, m !! x = Some b -> length b = 512%nat) -> disk_wf (disk_of m).
Proof. intros H k b Hk. apply lookup_kmap_Some in Hk as (x & _ & Hx); [|apply _]. by apply (H x). Qed.

Lemma block_image s m x : s.(disk) = disk_of m -> block s 1 x = sector m x.
Proof. intros Hd. unfold block, sector_at, sector. rewrite Hd. unfold disk_of. by rewrite (lookup_kmap (fun x => (1, x))). Qed.

Lemma disk_inode_image s m inum : s.(disk) = disk_of m -> disk_inode s 1 inum = dinode_at m inum.
Proof. intros Hd. unfold disk_inode, dinode_at. by rewrite (block_image s m _ Hd). Qed.

Lemma boot_run m :
  (forall x b, m !! x = Some b -> length b = 512%nat) ->
  bcache_inv [] (booted m) /\ free_locks (booted m) /\ (booted m).(held) = [] /\ (booted m).(disk) = disk_of m.
Proof.
  intros Hm. pose proof (disk_of_wf m Hm) as Hw. destruct (boot_cache_ok (disk_of m) Hw) as (Hi & _ & Hh & Hd). split; [|split; [|split]].
  - by apply (frame_law (inv := bcache_inv) [] (boot_cache (disk_of m))).
  - exact (boot_cache_free (disk_of m) Hw).
  - exact Hh.
  - exact Hd.
Qed.

Lemma iget_booted m inum :
  (booted m).(held) = [] ->
  iget 1 inum (booted m) =
  Ok 0%nat (set_icache (<[0%nat := set_i_flags 0 (set_i_ref 1 (set_i_inum inum (set_i_dev 1 empty_inode)))]> (booted m).(icache)) (booted m)).
Proof. intros Hh. apply (iget_miss 1 inum (booted m) 0 empty_inode); [rewrite Hh; apply not_elem_of_nil|reflexivity|reflexivity]. Qed.

Section kernel.
Context (s : kstate) (m : gmap Z (list Z)) (used : Z) (i : inode) (d : dinode) (c : list Z).
Context (Hd : s.(disk) = disk_of m) (Hdev : i.(i_dev) = 1) (Haddr : i.(i_addrs) = d.(d_addrs)).
Context (Hf : file_in m used d c) (Hused : used <= size).

Lemma addr_image bn : addr_of s i bn = iaddr m d bn.
Proof. unfold addr_of, iaddr, nth_addr, addr. rewrite Hdev, Haddr. by rewrite (block_image s m _ Hd). Qed.

Lemma block_index o : 0 <= o < len c -> 0 <= o / 512 < blocks_of (len c).
Proof.
  intros Ho. split; [apply Z.div_pos; lia|]. unfold blocks_of.
  pose proof (Z.div_le_mono (o + 1 * 512) (len c + 511) 512 ltac:(lia) ltac:(lia)) as Hm. rewrite Z.div_add in Hm by lia. lia.
Qed.

Lemma mapped_image o : 0 <= o < len c -> mapped [] s i (o / BSIZE).
Proof.
  intros Ho. pose proof (block_index o Ho) as Hb. change BSIZE with 512. destruct Hf as [Hl _]. pose proof (lay_nb _ _ _ _ Hl) as Hn.
  pose proof (lay_addr _ _ _ _ Hl _ Hb) as Ha. unfold mapped. rewrite addr_image, Hdev.
  unfold DATA, size in *. split; [lia|]. split; [lia|]. split; [apply drive1_can_read; lia|].
  intros Hi. pose proof (lay_ind _ _ _ _ Hl) as Hind. rewrite decide_True in Hind by lia.
  assert (nth_addr i NDIRECT = addr d NDIRECT) as -> by (unfold nth_addr, addr; by rewrite Haddr). unfold DATA in Hind.
  split; [lia|]. apply drive1_can_read. lia.
Qed.

Lemma bytes_image off n : 0 <= off -> 0 <= n -> off + n <= len c -> file_bytes s i off n = slice off n c.
Proof.
  intros Ho Hn Hl. apply list_eq. intros k. unfold file_bytes. rewrite list_lookup_fmap, lookup_slice by lia. case_decide as Hk.
  - rewrite lookup_seq_lt by lia. cbn [fmap option_fmap option_map].
    destruct (lookup_lt_is_Some_2 c (Z.to_nat off + k)) as [b Hb]; [lia|]. rewrite Hb. f_equal. unfold file_byte, file_block. change BSIZE with 512.
    rewrite addr_image, Hdev, (block_image s m _ Hd). pose proof (contains_byte _ _ _ _ _ (proj2 Hf) Hb) as Hc. replace (Z.of_nat (Z.to_nat off + k)) with (off + Z.of_nat k) in Hc by lia.
    replace (off + Z.of_nat (0 + k)) with (off + Z.of_nat k) by lia. by rewrite Hc.
  - rewrite lookup_seq_ge by lia. done.
Qed.
End kernel.

(** ** Properties *)

(** The root directory: the entries, and free ones up to the end of a block. *)
Definition root_dir (args : list arg) : list Z :=
  root_bytes args ++ replicate (Z.to_nat (- len (root_bytes args) mod 512)) 0.

(** An image with these files, type and contents, inode 1 first: every inode has
    the size of its file, every block below the size is a sector of its own
    between the bitmap and the end of the sectors used, and holds the bytes of
    the file; no two files share a sector; the bitmap marks the sectors used; the
    superblock describes the disk. *)
Record image_ok (m : gmap Z (list Z)) (used : Z) (files : list (Z * list Z)) : Prop := {
  ok_sb : get_sb (sector m 1) = mk_superblock size nblocks ninodes;
  ok_file k ty c : files !! k = Some (ty, c) ->
    let d := dinode_at m (Z.of_nat k + 1) in
    d.(d_type) = ty /\ d.(d_nlink) = 1 /\ d.(d_size) = len c /\ file_in m used d c;
  ok_apart j k t1 c1 t2 c2 y : files !! j = Some (t1, c1) -> files !! k = Some (t2, c2) -> j <> k ->
    owns m (dinode_at m (Z.of_nat j + 1)) (blocks_of (len c1)) y -> ~ owns m (dinode_at m (Z.of_nat k + 1)) (blocks_of (len c2)) y;
  ok_bitmap b : 0 <= b < size -> bit_used (sector m (BBLOCK b ninodes)) b = (b <? used)
}.

Lemma root_dir_length args :
  (len args + 2) mod 32 <> 0 ->
  len (root_dir args) = (len (root_bytes args) / 512 + 1) * 512 /\ blocks_of (len (root_dir args)) = blocks_of (len (root_bytes args)).
Proof.
  intros Hm. pose proof (root_length args) as Hr. set (n := len (root_bytes args)) in *.
  pose proof (Z.div_mod n 512 ltac:(lia)) as Hdm. pose proof (Z.mod_pos_bound n 512 ltac:(lia)) as Hb.
  assert (n mod 512 <> 0) as Hne.
  { replace n with (16 * (len args + 2)) by lia. change 512 with (16 * 32). rewrite Z.mul_mod_distr_l by lia. lia. }
  assert (- n mod 512 = 512 - n mod 512) as Ep by (rewrite Z.mod_opp_l_nz by lia; done).
  assert (len (root_dir args) = (n / 512 + 1) * 512) as El.
  { unfold root_dir. rewrite length_app, length_replicate. fold n. rewrite Ep. lia. }
  split; [done|]. rewrite El. destruct (blocks_of_cases n ltac:(lia)) as [[? _]|[_ ->]]; [done|].
  unfold blocks_of. rewrite Z.add_comm, Z.div_add by lia. done.
Qed.

(** The files of an image. *)
Definition image_files (args : list arg) : list (Z * list Z) := (T_DIR, root_dir args) :: ((fun a => (T_FILE, contents a)) <$> args).

Lemma image_files_S args k t c :
  image_files args !! S k = Some (t, c) -> exists a, args !! k = Some a /\ t = T_FILE /\ c = contents a.
Proof.
  intros Hk. change (((fun a => (T_FILE, contents a)) <$> args) !! k = Some (t, c)) in Hk. rewrite list_lookup_fmap in Hk.
  apply fmap_Some in Hk as (a & Ha & [= -> ->]). by exists a.
Qed.

Lemma consistent_image m used args :
  consistent m used args -> (len args + 2) mod 32 <> 0 ->
  image_ok m used (image_files args).
Proof.
  intros [H1 H2 H3 H4 H5 _] Hm. destruct (root_dir_length args Hm) as [El Enb].
  assert (forall k t c, image_files args !! k = Some (t, c) ->
    exists c', (root_bytes args :: (contents <$> args)) !! k = Some c' /\ blocks_of (len c) = blocks_of (len c')) as Hc.
  { intros [|k] t c Hk; [injection Hk as <- <-; by eexists|]. apply image_files_S in Hk as (a & Ha & -> & ->).
    exists (contents a). split; [|done]. change ((contents <$> args) !! k = Some (contents a)). by rewrite list_lookup_fmap, Ha. }
  split; [exact H1| | |exact H5].
  - intros [|k] t c Hk.
    + injection Hk as <- <-. change (Z.of_nat 0 + 1) with 1. destruct H2 as (R1 & R2 & R3 & [Rl Rc]). cbn zeta.
      split; [done|]. split; [done|]. split; [congruence|]. split; [by rewrite Enb|]. intros o Ho. rewrite Enb in Ho.
      rewrite (Rc o Ho). f_equal. unfold root_dir. destruct (decide (o < length (root_bytes args))%nat).
      * by rewrite lookup_app_l.
      * rewrite (lookup_ge_None_2 (root_bytes args)), lookup_app_r by lia.
        destruct (replicate _ 0 !! _) eqn:E; [by apply lookup_replicate in E as [-> _]|done].
    + apply image_files_S in Hk as (a & Ha & -> & ->). replace (Z.of_nat (S k) + 1) with (Z.of_nat k + 2) by lia. by apply H3.
  - intros j k t1 c1 t2 c2 y Hj Hk Hne. destruct (Hc j _ _ Hj) as (c1' & Hj' & ->), (Hc k _ _ Hk) as (c2' & Hk' & ->).
    by apply (H4 j k c1' c2').
Qed.

(** C8: mkfs builds a consistent image: for arguments that are files without a
    slash in their names and no longer than a file can be, fewer than 199 of
    them, that together need fewer than 512 sectors, and unless the entries of
    the root directory exactly fill their last block, the program ends with an
    image whose superblock describes the disk; inode 1 is the root directory, with
    "." and "..", an entry for every file and free entries up to the end of a
    block, inode [k + 2] the file of argument [k]; every inode's size is that of
    its contents, every block below the size is allocated and holds them, no two
    files share a sector, and the bitmap marks exactly the sectors used. *)
Theorem mkfs_consistent (behind : list Z) (args : list arg) :
  length behind = 500%nat -> Forall arg_ok args -> len args + 1 < ninodes -> sectors args < 512 -> (len args + 2) mod 32 <> 0 ->
  exists st, main behind args start = Ok tt st /\
    image_ok st.(img) (sectors args) (image_files args).
Proof.
  intros Hb Ha Hn Hs Hm. destruct (mkfs_run behind args Hb Ha Hn Hs) as (st & E & Hc). exists st. split; [exact E|].
  by apply consistent_image.
Qed.

(** When the entries do fill their last block (30 files, say), main's rounding of
    the root directory's size adds a block that was never allocated: the size is
    512 more than what is there, and the last block below it has no sector. *)
Theorem mkfs_root_too_long (behind : list Z) (args : list arg) :
  length behind = 500%nat -> Forall arg_ok args -> len args + 1 < ninodes -> sectors args < 512 -> (len args + 2) mod 32 = 0 ->
  exists st, main behind args start = Ok tt st /\
    let d := dinode_at st.(img) 1 in
    d.(d_size) = len (root_bytes args) + 512 /\ iaddr st.(img) d (len (root_bytes args) / 512) = 0.
Proof.
  intros Hb Ha Hn Hs Hm. destruct (mkfs_run behind args Hb Ha Hn Hs) as (st & E & [_ (_ & _ & R3 & [Rl _]) _ _ _ _]).
  exists st. split; [exact E|]. cbn zeta. rewrite R3. pose proof (root_length args) as Hr. set (n := len (root_bytes args)) in *.
  assert (n mod 512 = 0) as Hz.
  { replace n with (16 * (len args + 2)) by lia. change 512 with (16 * 32). rewrite Z.mul_mod_distr_l by lia. lia. }
  pose proof (Z.div_mod n 512 ltac:(lia)) as Hdm. split; [lia|].
  assert (n / 512 < 10) as Hd1 by (apply Z.div_lt_upper_bound; unfold ninodes in *; lia).
  assert (blocks_of n = n / 512) as Enb by (destruct (blocks_of_cases n ltac:(lia)) as [[_ Hx]|[Hx _]]; [exact Hx|destruct (Hx Hz)]).
  apply (lay_none _ _ _ _ Rl); [rewrite Enb|left; unfold NDIRECT; lia].
  unfold MAXFILE, NDIRECT, NINDIRECT. change (BSIZE / 4) with 128. lia.
Qed.

(** C7: The two programs agree: the kernel, booted with the image that mkfs has
    built, reads from every file, through inode table, buffer cache and disk
    driver, exactly the bytes the file had on the host, from any offset and
    clipped at the end. *)
Theorem kernel_reads_image `{Devsw} (behind : list Z) (args : list arg) (st : mkst) (k : nat) (a : arg) (off n : Z) :
  length behind = 500%nat -> Forall arg_ok args -> len args + 1 < ninodes -> sectors args < 512 ->
  main behind args start = Ok tt st -> args !! k = Some a ->
  0 <= off <= len (contents a) -> 0 <= n -> off + n < 2 ^ 32 ->
  let r := Z.min n (len (contents a) - off) in
  exists s', (let* ip := iget 1 (Z.of_nat k + 2) in ilock (Some ip) ;;; readi ip off n) (booted st.(img)) = Ok (r, slice off r (contents a)) s'.
Proof.
  intros Hb Ha Hn Hs Hm Hk Ho Hn0 Hw r. destruct (mkfs_run behind args Hb Ha Hn Hs) as (st' & E & Hc). rewrite Hm in E. injection E as <-.
  destruct (im_file _ _ _ Hc k a Hk) as (Hty & _ & Hsz & Hf). set (m := st.(img)) in *. set (d := dinode_at m (Z.of_nat k + 2)) in *.
  destruct (boot_run m (im_lens _ _ _ Hc)) as (Hi & Hfl & Hh & Hdk). pose proof (lookup_lt_Some _ _ _ Hk) as Hlt.
  assert (IBLOCK (Z.of_nat k + 2) = i2b (Z.of_nat k + 2)) as Eib by done. pose proof (i2b_bound (Z.of_nat k + 2) ltac:(lia)) as Hib.
  erewrite kbind_Ok by (exact (iget_booted m _ Hh)). set (i0 := set_i_flags _ _). set (s1 := set_icache _ _).
  destruct (ilock_load [] s1 0 i0) as (s2 & E2 & Hi2 & Hd2 & Hic2 & Hh2).
  { by apply (frame_law (inv := bcache_inv) [] (booted m)). } { exact Hfl. } { change s1.(held) with (booted m).(held). rewrite Hh. apply not_elem_of_nil. }
  { reflexivity. } { reflexivity. } { reflexivity. } { apply drive1_can_read. cbn. rewrite Eib. lia. }
  { change (disk_inode s1 (i_dev i0) (i_inum i0)) with (disk_inode s1 1 (Z.of_nat k + 2)). rewrite (disk_inode_image s1 m _ Hdk). fold d. rewrite Hty. discriminate. }
  change (disk_inode s1 (i_dev i0) (i_inum i0)) with (disk_inode s1 1 (Z.of_nat k + 2)) in Hic2. rewrite (disk_inode_image s1 m _ Hdk) in Hic2. fold d in Hic2. rewrite (kbind_Ok _ _ _ _ _ E2). set (i := set_i_flags _ _) in Hic2.
  assert (s2.(icache) !! 0%nat = Some i) as Hip by (rewrite Hic2; reflexivity).
  assert (s2.(disk) = disk_of m) as Hdk2 by (rewrite Hd2; exact Hdk).
  assert (free_locks s2) as Hfl2 by (unfold free_locks in *; rewrite Hh2; exact Hfl).
  assert (len (contents a) <= MAXFILE * 512) as Hmax by (apply (Forall_lookup_1 _ _ _ _ Ha Hk)).
  assert (MAXFILE * 512 < 2 ^ 31) as Hmc by done.
  destruct (readi_run [] s2 0 i off n Hi2 Hfl2 Hip) as [_ Hr].
  { change (i_type i) with (d_type d). rewrite Hty. discriminate. } { lia. } { lia. } { change (i_size i) with (d_size d). rewrite Hsz. lia. }
  { intros o Hoo. apply (mapped_image s2 m (sectors args) i d (contents a) Hdk2 eq_refl eq_refl Hf ltac:(unfold size; lia)).
    change (i_size i) with (d_size d) in Hoo. rewrite Hsz in Hoo. lia. }
  change (i_size i) with (d_size d) in Hr. rewrite Hsz in Hr. destruct (Hr ltac:(lia) Hw) as (s' & E3 & _). fold r in E3.
  exists s'. rewrite E3. f_equal. f_equal. apply (bytes_image s2 m (sectors args) i d (contents a) Hdk2 eq_refl eq_refl Hf); unfold r; lia.
Qed.

(** Two files, one of which has an underscore in front of its name and arrives in
    two pieces; the other needs an indirect block. *)
Definition two_files : list arg := [(str "_cat", Some [[65; 66]; [67]]); (str "README", Some (replicate 13 (replicate 512 7)))].

Lemma two_files_ok : Forall arg_ok two_files /\ len two_files + 1 < ninodes /\ sectors two_files < 512.
Proof.
  split; [|split; [reflexivity|vm_compute; reflexivity]].
  repeat (apply Forall_cons; split; [split; [by apply (bool_decide_unpack _)|split; [by eexists|vm_compute; discriminate]]|]). constructor.
Qed.

Lemma mkfs_consistent_witness :
  exists st, main (replicate 500 0) two_files start = Ok tt st /\
    (dinode_at st.(img) 2).(d_size) = 3 /\ bit_used (sector st.(img) 28) 44 = true /\ bit_used (sector st.(img) 28) 45 = false.
Proof.
  destruct two_files_ok as (Ha & Hn & Hs).
  destruct (mkfs_consistent (replicate 500 0) two_files) as (st & E & Hc); [apply length_replicate|exact Ha|exact Hn|exact Hs|discriminate|].
  exists st. split; [exact E|]. split; [|split].
  - exact (proj1 (proj2 (proj2 (ok_file _ _ _ Hc 1%nat _ _ eq_refl)))).
  - exact (ok_bitmap _ _ _ Hc 44 ltac:(unfold size; lia)).
  - exact (ok_bitmap _ _ _ Hc 45 ltac:(unfold size; lia)).
Defined.

(** Thirty empty files. *)
Definition thirty_files : list arg := replicate 30 (str "f", Some []).

Lemma mkfs_root_too_long_witness :
  exists st, main (replicate 500 0) thirty_files start = Ok tt st /\ (dinode_at st.(img) 1).(d_size) = 1024 /\
    iaddr st.(img) (dinode_at st.(img) 1) 1 = 0.
Proof.
  destruct (mkfs_root_too_long (replicate 500 0) thirty_files) as (st & E & H1 & H2).
  - apply length_replicate.
  - apply Forall_replicate. split; [by apply (bool_decide_unpack _)|split; [by eexists|vm_compute; discriminate]].
  - reflexivity.
  - vm_compute. reflexivity.
  - reflexivity.
  - exists st. split; [exact E|]. split; [exact H1|exact H2].
Defined.

Lemma kernel_reads_image_witness :
  exists st s', main (replicate 500 0) two_files start = Ok tt st /\
    (let* ip := iget 1 2 in ilock (Some ip) ;;; @readi no_devices ip 1 10) (booted st.(img)) = Ok (2, [66; 67]) s'.
Proof.
  destruct two_files_ok as (Ha & Hn & Hs).
  destruct (mkfs_run (replicate 500 0) two_files (length_replicate 500 0) Ha Hn Hs) as (st & E & _).
  destruct (@kernel_reads_image no_devices (replicate 500 0) two_files st 0 (str "_cat", Some [[65; 66]; [67]]) 1 10)
    as (s' & E'); [apply length_replicate|exact Ha|exact Hn|exact Hs|exact E|reflexivity|cbn; lia|lia|lia|].
  exists st, s'. split; [exact E|exact E'].
Defined.
End MkfsImage.
