(* ===== verification/Dir.v ===== *)
(** Directories and path names: the last part of fs.c.

    A path is the list of its bytes before the terminating NUL; a name buffer
    is its [DIRSIZ] bytes. *)

From S2P Require Import Prelude CString State ProcSync Ide Bio Bytes FsBlock Inode.

Definition SLASH : Z := 47.

(** ** Directory entries *)

Definition namecmp (s t : list Z) : Z := strncmp_list s t (Z.to_nat DIRSIZ).

(** Entry [k] of a directory block. *)
Definition dirent_at (d : list Z) (k : Z) : list Z := slice (DIRENTSZ * k) DIRENTSZ d.

(** The loop over the entries of one block, from entry [k] on: the first entry
    in use with the name. *)
Fixpoint dirent_scan (fuel : nat) (name d : list Z) (k : Z) : option Z :=
  match fuel with
  | O => None
  | S f =>
      let de := dirent_at d k in
      if de_inum de =? 0 then dirent_scan f name d (k + 1) else
      if namecmp name (de_name de) =? 0 then Some k
      else dirent_scan f name d (k + 1)
  end.

(** Entries in a block. *)
Definition DPB : nat := Z.to_nat (BSIZE / DIRENTSZ).

(** The inode found and the byte offset of its entry. *)
Fixpoint dirlookup_loop (fuel : nat) (dp : nat) (name : list Z) (off : Z) : K (option (nat * Z)) :=
  let* i := get_inode dp in
  if off <? i.(i_size) then
    match fuel with
    | O => kfault "fuel"
    | S f =>
        let* a := bmap dp (off / BSIZE) in
        let* bp := bread i.(i_dev) a in
        let* d := buf_data bp in
        match dirent_scan DPB name d 0 with
        | Some k =>
            brelse bp ;;;
            let* ip := iget i.(i_dev) (de_inum (dirent_at d k)) in
            kret (Some (ip, off + DIRENTSZ * k))
        | None =>
            brelse bp ;;;
            dirlookup_loop f dp name (off + BSIZE)
        end
    end
  else kret None.

Definition dirlookup (dp : nat) (name : list Z) : K (option (nat * Z)) :=
  let* i := get_inode dp in
  if negb (i.(i_type) =? T_DIR) then panic "dirlookup not DIR" else
  dirlookup_loop (rounds i.(i_size)) dp name 0.

(** The loop of [dirlink] that looks for a free entry: its offset and the entry
    last read. *)
Fixpoint dirlink_scan `{Devsw} (fuel : nat) (dp : nat) (off : Z) : K Z :=
  let* i := get_inode dp in
  if off <? i.(i_size) then
    match fuel with
    | O => kfault "fuel"
    | S f =>
        let* r := readi dp off DIRENTSZ in
        let '(n, de) := r in
        if negb (n =? DIRENTSZ) then panic "dirlink read" else
        if de_inum de =? 0 then kret off else dirlink_scan f dp (off + DIRENTSZ)
    end
  else kret off.

Definition dirlink `{Devsw} (dp : nat) (name : list Z) (inum : Z) : K Z :=
  let* o := dirlookup dp name in
  match o with
  | Some (ip, _) => iput ip ;;; kret (-1)
  | None =>
      let* i := get_inode dp in
      let* off := dirlink_scan (S (Z.to_nat (i.(i_size) / DIRENTSZ + 1))) dp 0 in
      let de := dirent_bytes (u16 inum) (strncpy_list name (Z.to_nat DIRSIZ)) in
      let* n := writei dp de off DIRENTSZ in
      if negb (n =? DIRENTSZ) then panic "dirlink" else kret 0
  end.

(** ** Paths *)

Fixpoint skip_slashes (path : list Z) : list Z :=
  match path with
  | c :: p => if c =? SLASH then skip_slashes p else path
  | [] => []
  end.

(** The bytes up to the next slash, and the rest. *)
Fixpoint path_elem (path : list Z) : list Z * list Z :=
  match path with
  | [] => ([], [])
  | c :: p => if c =? SLASH then ([], path)
              else let '(e, r) := path_elem p in (c :: e, r)
  end.

(** The rest of the path and the new contents of [name], or null. *)
Definition skipelem (path name : list Z) : option (list Z * list Z) :=
  match skip_slashes path with
  | [] => None
  | p =>
      let '(s, rest) := path_elem p in
      let name' :=
        if Z.of_nat (length s) >=? DIRSIZ then splice 0 (slice 0 DIRSIZ s) name
        else splice (Z.of_nat (length s)) [0] (splice 0 s name) in
      Some (skip_slashes rest, name')
  end.

(** The loop of [namex]. *)
Fixpoint namex_loop (fuel : nat) (ip : nat) (path : list Z) (nameiparent : bool) (name : list Z)
    : K (option nat * list Z) :=
  match skipelem path name with
  | None =>
      if nameiparent then iput ip ;;; kret (None, name)
      else kret (Some ip, name)
  | Some (path', name') =>
      match fuel with
      | O => kfault "fuel"
      | S f =>
          ilock (Some ip) ;;;
          let* i := get_inode ip in
          if negb (i.(i_type) =? T_DIR) then iunlockput ip ;;; kret (None, name') else
          if nameiparent && bool_decide (path' = []) then
            iunlock (Some ip) ;;; kret (Some ip, name')
          else
          let* next := dirlookup ip name' in
          match next with
          | None => iunlockput ip ;;; kret (None, name')
          | Some (ip', _) => iunlockput ip ;;; namex_loop f ip' path' nameiparent name'
          end
      end
  end.

Definition namex (path : list Z) (nameiparent : bool) (name : list Z) : K (option nat * list Z) :=
  let* ip :=
    match path with
    | c :: _ => if c =? SLASH then iget ROOTDEV ROOTINO
                else let* me := myproc in let* p := get_proc me in
                     let* cwd := klift "cwd" p.(p_cwd) in idup cwd
    | [] => let* me := myproc in let* p := get_proc me in
            let* cwd := klift "cwd" p.(p_cwd) in idup cwd
    end in
  namex_loop (S (length path)) ip path nameiparent name.

Definition namei (path : list Z) : K (option nat) :=
  let* r := namex path false (replicate (Z.to_nat DIRSIZ) 0) in
  kret r.1.

Definition nameiparent (path name : list Z) : K (option nat * list Z) := namex path true name.

(** ** The elements of a path *)

(** A name as the file system compares it: at most [DIRSIZ] bytes. *)
Definition trunc (e : list Z) : list Z := take (Z.to_nat DIRSIZ) e.

(** The path split at slashes, empty parts dropped. *)
Fixpoint split_path (cur path : list Z) : list (list Z) :=
  match path with
  | [] => match cur with [] => [] | _ => [cur] end
  | c :: p =>
      if c =? SLASH then match cur with [] => split_path [] p | _ => cur :: split_path [] p end
      else split_path (cur ++ [c]) p
  end.
Definition elements (path : list Z) : list (list Z) := split_path [] path.

(** ** Lemmas on paths *)

Lemma skip_slashes_split path : split_path [] (skip_slashes path) = split_path [] path.
Proof. induction path as [|c p IH]; [done|]. simpl. destruct (c =? SLASH) eqn:E; [done|]. simpl. by rewrite E. Qed.

Lemma skip_slashes_head path c p : skip_slashes path = c :: p -> (c =? SLASH) = false.
Proof.
  induction path as [|d q IH]; [done|]. simpl. destruct (d =? SLASH) eqn:E; [done|]. by intros [= <- _].
Qed.

Lemma skip_slashes_length path : (length (skip_slashes path) <= length path)%nat.
Proof. induction path as [|c p IH]; simpl; [lia|]. destruct (c =? SLASH); simpl; lia. Qed.

Lemma path_elem_app p : let '(e, r) := path_elem p in p = e ++ r.
Proof.
  induction p as [|c p IH]; [done|]. simpl. destruct (c =? SLASH); [done|].
  destruct (path_elem p) as [e r]. simpl. by f_equal.
Qed.

Lemma path_elem_split cur p :
  let '(e, r) := path_elem p in
  cur ++ e <> [] -> split_path cur p = (cur ++ e) :: split_path [] r.
Proof.
  revert cur. induction p as [|c p IH]; intros cur; simpl.
  - rewrite app_nil_r. by destruct cur.
  - destruct (c =? SLASH) eqn:E.
    + rewrite app_nil_r. simpl. rewrite E. by destruct cur.
    + specialize (IH (cur ++ [c])). destruct (path_elem p) as [e r].
      rewrite <- app_assoc in IH. simpl in IH. intros _. apply IH. by destruct cur.
Qed.

Lemma path_elem_cons c p : (c =? SLASH) = false -> exists e r, path_elem (c :: p) = (c :: e, r).
Proof. intros E. simpl. rewrite E. destruct (path_elem p) as [e r]. eauto. Qed.

Lemma upto_nul_exact l rest n :
  Forall (fun c => c <> 0) l -> (length l < n)%nat -> upto_nul (l ++ 0 :: rest) n = l.
Proof.
  intros Hl. revert n. induction Hl as [|c l Hc _ IH]; intros n Hn; (destruct n as [|n]; [simpl in Hn; lia|]); simpl.
  - done.
  - rewrite (proj2 (Z.eqb_neq _ _) Hc). f_equal. apply IH. simpl in Hn. lia.
Qed.

Lemma upto_nul_full l n : Forall (fun c => c <> 0) l -> length l = n -> upto_nul l n = l.
Proof.
  intros Hl <-. induction Hl as [|c l Hc _ IH]; simpl; [done|]. rewrite (proj2 (Z.eqb_neq _ _) Hc). by f_equal.
Qed.

(** The name buffer [skipelem] leaves reads as the element, cut to [DIRSIZ]. *)
Lemma skipelem_name s name :
  Forall (fun c => c <> 0) s -> length name = Z.to_nat DIRSIZ ->
  let name' := if Z.of_nat (length s) >=? DIRSIZ then splice 0 (slice 0 DIRSIZ s) name
               else splice (Z.of_nat (length s)) [0] (splice 0 s name) in
  upto_nul name' (Z.to_nat DIRSIZ) = trunc s /\ length name' = Z.to_nat DIRSIZ.
Proof.
  intros Hs Hn name'. unfold name', DIRSIZ in *. clear name'. change (Z.to_nat 14) with 14%nat in *.
  destruct (Z.of_nat (length s) >=? 14) eqn:E; unfold Z.geb in E.
  - assert (14 <= length s)%nat by (destruct (Z.compare_spec (Z.of_nat (length s)) 14); (lia || done)).
    unfold splice, slice, trunc. change (Z.to_nat 0) with 0%nat. change (Z.to_nat DIRSIZ) with 14%nat. change (Z.to_nat 14) with 14%nat.
    rewrite drop_0, take_0. simpl app. rewrite length_take_le by lia.
    rewrite drop_ge, app_nil_r by lia. split; [|apply length_take_le; lia].
    apply upto_nul_full; [by apply Forall_take|apply length_take_le; lia].
  - assert (length s < 14)%nat by (destruct (Z.compare_spec (Z.of_nat (length s)) 14); (lia || done)).
    split; [|rewrite !splice_length; [done|lia|rewrite Hn; simpl; lia|lia|]].
    + unfold splice at 1. rewrite Nat2Z.id. unfold splice. change (Z.to_nat 0) with 0%nat. rewrite take_0. simpl app at 2.
      rewrite take_app_length. unfold trunc. change (Z.to_nat DIRSIZ) with 14%nat. rewrite take_ge by lia.
      cbn [app]. by apply upto_nul_exact.
    + simpl. rewrite splice_length; lia.
Qed.

(** ** Properties *)

(** C34: [skipelem] cuts a path at its first element: it returns null exactly
    when the path has no element; otherwise the name buffer reads as the first
    element, cut to [DIRSIZ] bytes, the rest has the remaining elements and no
    leading slash, and is shorter, so the loop of [namex] ends. *)
Theorem skipelem_correct (path name : list Z) :
  Forall (fun c => c <> 0) path -> length name = Z.to_nat DIRSIZ ->
  match skipelem path name with
  | None => elements path = []
  | Some (rest, name') =>
      exists e, elements path = e :: elements rest /\ e <> [] /\
        upto_nul name' (Z.to_nat DIRSIZ) = trunc e /\ length name' = Z.to_nat DIRSIZ /\
        (forall c p, rest = c :: p -> c <> SLASH) /\ (length rest < length path)%nat
  end.
Proof.
  intros Hp Hn. unfold skipelem, elements. pose proof (skip_slashes_split path) as Hsplit.
  pose proof (skip_slashes_length path) as Hlen.
  assert (Forall (fun c => c <> 0) (skip_slashes path)) as Hp'.
  { clear -Hp. induction Hp as [|c p Hc Hp IH]; simpl; [constructor|]. destruct (c =? SLASH); [done|by constructor]. }
  destruct (skip_slashes path) as [|c p] eqn:Ep; [by rewrite <- Hsplit|].
  pose proof (skip_slashes_head _ _ _ Ep) as Hc.
  pose proof (path_elem_app (c :: p)) as Happ. pose proof (path_elem_split [] (c :: p)) as Hps.
  destruct (path_elem_cons c p Hc) as (e & r & Epe). rewrite Epe in *. simpl app in *.
  rewrite Happ in Hp'. change (c :: e ++ r) with ((c :: e) ++ r) in Hp'. apply Forall_app in Hp' as [He _].
  exists (c :: e). destruct (skipelem_name (c :: e) name He Hn) as [Hname Hlname].
  split_and!; [|done|exact Hname|exact Hlname| |].
  - rewrite <- Hsplit, Hps by done. f_equal. symmetry. apply skip_slashes_split.
  - intros d q Hr. apply skip_slashes_head in Hr. by apply Z.eqb_neq.
  - pose proof (skip_slashes_length r). apply (f_equal length) in Happ. simpl in *. rewrite length_app in Happ. lia.
Qed.

(** The example of the comment in fs.c: [skipelem("///a//bb", name)]. *)
Lemma skipelem_correct_witness :
  exists rest name', skipelem [47; 47; 47; 97; 47; 47; 98; 98] (replicate 14 7) = Some (rest, name') /\
    rest = [98; 98] /\ upto_nul name' 14 = [97].
Proof.
  pose proof (skipelem_correct [47; 47; 47; 97; 47; 47; 98; 98] (replicate 14 7)) as H.
  eexists _, _. split; [reflexivity|]. split; [reflexivity|].
  destruct H as (e & He & _ & Hn & _); [by repeat constructor|done|].
  injection He as <-. exact Hn.
Defined.
