(* ===== verification/DirMap.v ===== *)
(** Directories as finite maps from names to inode numbers: what dirlookup and
    dirlink of fs.c do to the entries of a directory.

    Names are compared up to their NUL and cut to [DIRSIZ] bytes, which is
    their [key]; a directory maps a key to the inode of the first entry in use
    with this key. *)

From S2P Require Import Prelude CString State ProcSync Ide Bio Bytes FsBlock Inode Writei Dir.

Implicit Types s : kstate.

(** Arithmetic with quotients of offsets. *)
Ltac dlia := unfold BSIZE in *; Z.to_euclidean_division_equations; lia.

Definition key (name : list Z) : list Z := upto_nul name (Z.to_nat DIRSIZ).

(** Entry [k] of the file. *)
Definition dirent (s : kstate) (i : inode) (k : Z) : list Z := file_bytes s i (DIRENTSZ * k) DIRENTSZ.

(** The entry is in use and has the name. *)
Definition names (name de : list Z) : Prop := de_inum de <> 0 /\ key name = key (de_name de).

Lemma namecmp_key name de : namecmp name (de_name de) = 0 <-> key name = key (de_name de).
Proof. apply strncmp_list_zero. Qed.

(** A regular directory: whole entries, and nothing behind its end. *)
Record directory (dev : Z) (dp : nat) (s : kstate) (i : inode) : Prop := {
  di_open : open_file dev dp s i;
  di_type : i.(i_type) = T_DIR;
  di_size : i.(i_size) mod DIRENTSZ = 0;
  di_tail o : in_file o -> i.(i_size) <= o -> content s i o = 0
}.

(** The first entry with the name, if there is one. *)
Definition found (s : kstate) (i : inode) (name : list Z) (o : option Z) : Prop :=
  match o with
  | Some k => 0 <= k /\ DIRENTSZ * k < i.(i_size) /\ names name (dirent s i k) /\
      forall j, 0 <= j < k -> ~ names name (dirent s i j)
  | None => forall k, 0 <= k -> DIRENTSZ * k < i.(i_size) -> ~ names name (dirent s i k)
  end.

(** The map that the directory is. *)
Definition binds (s : kstate) (i : inode) (name : list Z) (inum : Z) : Prop :=
  exists k, found s i name (Some k) /\ de_inum (dirent s i k) = inum.

(** ** Searching *)

Lemma dirent_scan_spec fuel name d k :
  match dirent_scan fuel name d k with
  | Some j => k <= j < k + Z.of_nat fuel /\ names name (dirent_at d j) /\ forall l, k <= l < j -> ~ names name (dirent_at d l)
  | None => forall l, k <= l < k + Z.of_nat fuel -> ~ names name (dirent_at d l)
  end.
Proof.
  revert k. induction fuel as [|f IH]; intros k; cbn [dirent_scan]; [intros l Hl; lia|].
  assert (~ names name (dirent_at d k) -> match dirent_scan f name d (k + 1) with
    | Some j => k <= j < k + Z.of_nat (S f) /\ names name (dirent_at d j) /\ forall l, k <= l < j -> ~ names name (dirent_at d l)
    | None => forall l, k <= l < k + Z.of_nat (S f) -> ~ names name (dirent_at d l)
    end) as Hskip.
  { intros Hk. specialize (IH (k + 1)). destruct (dirent_scan f name d (k + 1)) as [j|].
    - destruct IH as (H1 & H2 & H3). split; [lia|]. split; [done|]. intros l Hl.
      destruct (Z.eq_dec l k) as [->|]; [done|]. apply H3. lia.
    - intros l Hl. destruct (Z.eq_dec l k) as [->|]; [done|]. apply IH. lia. }
  destruct (Z.eqb_spec (de_inum (dirent_at d k)) 0) as [H0|Hn]; [apply Hskip; by intros [? _]|].
  destruct (Z.eqb_spec (namecmp name (de_name (dirent_at d k))) 0) as [Hc|Hc].
  - rewrite namecmp_key in Hc. split; [lia|]. split; [by split|]. intros l Hl. lia.
  - apply Hskip. intros [_ Hk]. by apply Hc, namecmp_key.
Qed.

Lemma found_unique s i name k o : found s i name (Some k) -> found s i name o -> o = Some k.
Proof.
  intros (H1 & H2 & H3 & H4). destruct o as [j|]; cbn; [|intros H; by destruct (H k H1 H2)].
  intros (J1 & J2 & J3 & J4). f_equal. destruct (Z.lt_trichotomy j k) as [Hl|[|Hl]]; [|done|].
  - by destruct (H4 j).
  - by destruct (J4 k).
Qed.

(** Entries of a block. *)
Lemma dirent_block s i b j :
  disk_wf s.(disk) -> 0 <= b -> 0 <= j < 32 -> dirent_at (file_block s i b) j = dirent s i (32 * b + j).
Proof.
  intros Hw Hb Hj. unfold dirent, dirent_at. change DIRENTSZ with 16.
  assert (16 * (32 * b + j) = b * BSIZE + 16 * j) as E by (unfold BSIZE; lia).
  pose proof (file_bytes_chunk s i (16 * (32 * b + j)) 16 Hw ltac:(lia)) as H. rewrite E in H.
  rewrite Z.add_comm, Z.div_add, Z.mod_add, Z.div_small, Z.mod_small in H by (unfold BSIZE; lia).
  rewrite Z.add_0_l in H. rewrite H by (unfold BSIZE; lia). by rewrite E, Z.add_comm.
Qed.

Section search.
Context (dev : Z) (dp : nat) (s0 : kstate) (i : inode).
Hypothesis Hdir : directory dev dp s0 i.

(** Behind the end of the directory there is no entry. *)
Lemma tail_unused k :
  0 <= k -> i.(i_size) <= DIRENTSZ * k -> DIRENTSZ * k / BSIZE < MAXFILE -> iaddr s0 i (DIRENTSZ * k / BSIZE) <> 0 ->
  de_inum (dirent s0 i k) = 0.
Proof.
  intros Hk Hs Hm Ha. change DIRENTSZ with 16 in *.
  assert (dirent s0 i k = replicate 16 0) as ->; [|done].
  apply list_eq. intros j. unfold dirent, file_bytes. change DIRENTSZ with 16. rewrite list_lookup_fmap.
  destruct (decide (j < 16)%nat) as [Hj|Hj].
  - rewrite lookup_seq_lt, lookup_replicate_2 by (change (Z.to_nat 16) with 16%nat; lia). simpl. f_equal.
    assert ((16 * k + Z.of_nat j) / BSIZE = 16 * k / BSIZE) as Eb by dlia.
    rewrite file_byte_content by (by rewrite Eb). apply (di_tail _ _ _ _ Hdir); [|lia]. unfold in_file. dlia.
  - rewrite lookup_seq_ge by (change (Z.to_nat 16) with 16%nat; lia). symmetry. apply lookup_ge_None_2. rewrite length_replicate. lia.
Qed.

(** What [dirlookup] does once the entry is known. *)
Definition answer (o : option Z) : K (option (nat * Z)) :=
  match o with
  | Some k => let* ip := iget dev (de_inum (dirent s0 i k)) in kret (Some (ip, DIRENTSZ * k))
  | None => kret None
  end.

Lemma block_read s b :
  after_io bcache_inv [] s0.(disk) s0 s -> 0 <= b -> b * BSIZE < i.(i_size) ->
  exists a bp s1 s2, bmap dp b s = Ok a s1 /\ bread dev a s1 = Ok bp s2 /\ buf_data bp s2 = Ok (file_block s0 i b) s2 /\
    exists s3, brelse bp s2 = Ok tt s3 /\ after_io bcache_inv [] s0.(disk) s0 s3.
Proof.
  intros Ha Hb Hs. pose proof (di_open _ _ _ _ Hdir) as Ho. destruct (of_ready _ _ _ _ Ho) as [R1 R2 R3 R4 R5 R6].
  pose proof Ha as (Hi & Hd & _). pose proof (after_io_free _ _ _ _ Ha R2) as Hl.
  pose proof (open_mapped dev dp s0 i (b * BSIZE) Ho ltac:(unfold BSIZE in *; lia)) as Hm. rewrite Z.div_mul in Hm by done.
  pose proof (mapped_kept _ _ _ _ _ Ha Hm) as Hms.
  destruct (bmap_mapped [] s dp i b Hi Hl) as (s1 & E1 & H1); [by rewrite (after_io_icache _ _ _ _ Ha)|done|].
  pose proof H1 as (Hi1 & Hd1 & _). pose proof (after_io_free _ _ _ _ H1 Hl) as Hl1.
  destruct (bread_run [] s1 i.(i_dev) (addr_of s i b) Hi1 Hl1) as (bp & s2 & E2 & Hbp & Hu & Hi2 & Hd2 & Hf2 & Ho2).
  { eapply can_read_kept; [exact H1|]. apply Hms. }
  exists (addr_of s i b), bp, s1, s2. rewrite <- R4. split; [done|]. split; [done|]. split.
  - rewrite (buf_data_run _ _ _ _ _ Hu). f_equal. unfold file_block, addr_of, block. by rewrite Hd1, Hd.
  - destruct (brelse_quiet [] s2 bp i.(i_dev) (addr_of s i b) Hi2) as (s3 & E3 & H3);
      [eauto using io_frame_free|done|unfold block in *; by rewrite Hd2|].
    exists s3. split; [done|]. eapply after_io_trans; [exact Ha|]. eapply after_io_trans; [exact H1|].
    rewrite Hd2, Hd1, Hd in H3. by eapply after_bread.
Qed.

(** A block whose scan hits holds the first entry with the name. *)
Lemma scan_found name b j :
  0 <= b -> b * BSIZE < i.(i_size) -> (forall k, 0 <= k < 32 * b -> ~ names name (dirent s0 i k)) ->
  dirent_scan DPB name (file_block s0 i b) 0 = Some j -> found s0 i name (Some (32 * b + j)).
Proof.
  intros Hb Hs Hbefore E. pose proof (di_open _ _ _ _ Hdir) as Ho. pose proof (of_fields _ _ _ _ Ho) as (_ & _ & _ & _ & Hsz).
  pose proof (fs_wf _ _ (rd_fs _ _ _ _ (of_ready _ _ _ _ Ho))) as Hw.
  pose proof (dirent_scan_spec DPB name (file_block s0 i b) 0) as H. rewrite E in H. change (Z.of_nat DPB) with 32 in H.
  destruct H as (Hj & Hn & Hmin). rewrite dirent_block in Hn by (done || lia). split; [lia|]. split; [|split; [done|]].
  - change DIRENTSZ with 16. destruct (Z.lt_ge_cases (16 * (32 * b + j)) i.(i_size)) as [|Hge]; [done|]. destruct Hn as [Hn _].
    assert (16 * (32 * b + j) / BSIZE = b) as Eb by dlia.
    destruct Hn. apply tail_unused; change DIRENTSZ with 16; rewrite ?Eb; [lia|done|change MAXFILE with 140 in *; dlia|].
    pose proof (of_whole _ _ _ _ Ho (b * BSIZE) ltac:(unfold BSIZE in *; lia)) as Hz.
    by rewrite Z.div_mul in Hz.
  - intros l Hl. destruct (Z.lt_ge_cases l (32 * b)); [apply Hbefore; lia|].
    replace l with (32 * b + (l - 32 * b)) by lia. rewrite <- dirent_block by (done || lia). apply Hmin. lia.
Qed.

Lemma dirlookup_loop_run fuel s b name o :
  after_io bcache_inv [] s0.(disk) s0 s -> 0 <= b -> i.(i_size) - b * BSIZE <= Z.of_nat fuel * BSIZE ->
  (forall k, 0 <= k < 32 * b -> ~ names name (dirent s0 i k)) -> found s0 i name o ->
  exists s', dirlookup_loop fuel dp name (b * BSIZE) s = answer o s' /\ after_io bcache_inv [] s0.(disk) s0 s'.
Proof.
  intros Ha Hb Hfuel Hbefore Ho. pose proof (of_ready _ _ _ _ (di_open _ _ _ _ Hdir)) as Hr.
  revert s b Ha Hb Hfuel Hbefore. induction fuel as [|f IH]; intros s b Ha Hb Hfuel Hbefore; cbn [dirlookup_loop].
  all: rewrite (kbind_Ok _ _ _ _ _ (get_inode_run dp s i ltac:(rewrite (after_io_icache _ _ _ _ Ha); apply Hr))).
  all: destruct (Z.ltb_spec (b * BSIZE) i.(i_size)) as [Hlt|Hge]; [try lia|exists s; split; [|done]].
  1,3: destruct o as [k|]; [|done]; destruct Ho as (H1 & H2 & H3 & _); destruct (Hbefore k); [|done];
    change DIRENTSZ with 16 in H2; unfold BSIZE in *; lia.
  destruct (block_read s b Ha Hb Hlt) as (a & bp & s1 & s2 & E1 & E2 & Ed & s3 & E3 & Ha3).
  rewrite Z.div_mul by done. kexec by (exact E1). rewrite (rd_dev _ _ _ _ Hr). kexec by (exact E2). kexec by (exact Ed).
  pose proof (dirent_scan_spec DPB name (file_block s0 i b) 0) as Hscan.
  destruct (dirent_scan DPB name (file_block s0 i b) 0) as [j|] eqn:Es.
  - pose proof (scan_found name b j Hb Hlt Hbefore Es) as Hf. rewrite (found_unique _ _ _ _ _ Hf Ho).
    kexec by (exact E3). exists s3. split; [|done]. unfold answer.
    destruct Hscan as [Hj _]. change (Z.of_nat DPB) with 32 in Hj.
    rewrite dirent_block by (lia || apply (rd_fs _ _ _ _ Hr)).
    by replace (b * BSIZE + DIRENTSZ * j) with (DIRENTSZ * (32 * b + j)) by (unfold BSIZE; change DIRENTSZ with 16; lia).
  - kexec by (exact E3). replace (b * BSIZE + BSIZE) with ((b + 1) * BSIZE) by lia. apply IH; [done|lia|lia|].
    intros k Hk. destruct (Z.lt_ge_cases k (32 * b)); [apply Hbefore; lia|]. change (Z.of_nat DPB) with 32 in Hscan.
    replace k with (32 * b + (k - 32 * b)) by lia. rewrite <- dirent_block by (lia || apply (rd_fs _ _ _ _ Hr)). apply Hscan. lia.
Qed.

Lemma dirlookup_run name o :
  found s0 i name o -> exists s', dirlookup dp name s0 = answer o s' /\ after_io bcache_inv [] s0.(disk) s0 s'.
Proof.
  intros Ho. pose proof (of_ready _ _ _ _ (di_open _ _ _ _ Hdir)) as [R1 R2 R3 R4 R5 R6]. unfold dirlookup.
  rewrite (kbind_Ok _ _ _ _ _ (get_inode_run dp s0 i R3)), (di_type _ _ _ _ Hdir). cbn [negb].
  destruct (of_fields _ _ _ _ (di_open _ _ _ _ Hdir)) as (_ & _ & _ & _ & Hsz).
  apply (dirlookup_loop_run (rounds i.(i_size)) s0 0 name o); [by split_and!; [| | |intros c d k e]|done| |lia|done].
  unfold rounds. rewrite Z2Nat.id by dlia. dlia.
Qed.
End search.

(** ** Reading does not change the directory *)

Section kept.
Context (dev : Z) (dp : nat) (s0 s : kstate) (i : inode).
Hypothesis Ha : after_io bcache_inv [] s0.(disk) s0 s.

Lemma same_disk : s.(disk) = s0.(disk).
Proof. apply Ha. Qed.

Lemma open_kept : open_file dev dp s0 i -> open_file dev dp s i.
Proof.
  pose proof same_disk as Hd. intros [[R1 R2 R3 R4 R5 R6] O2 O3 O4 O5 O6]. split; try done.
  - split; [apply Ha|exact (after_io_free _ _ _ _ Ha R2)|by rewrite (after_io_icache _ _ _ _ Ha)|done|
      by apply (fs_ok_disk s0)|by apply (file_ok_disk s0)].
  - unfold sb_of, block. by rewrite Hd.
  - intros o Ho. rewrite (iaddr_disk s0) by done. by apply O5.
  - unfold disk_inode, block. by rewrite Hd.
Qed.

Lemma content_disk o : content s i o = content s0 i o.
Proof. unfold content, block. by rewrite (iaddr_disk s0), same_disk by apply same_disk. Qed.

Lemma dirent_disk k : dirent s i k = dirent s0 i k.
Proof. unfold dirent, file_bytes, file_byte, file_block, addr_of, block. by rewrite same_disk. Qed.

Lemma directory_kept : directory dev dp s0 i -> directory dev dp s i.
Proof.
  intros [D1 D2 D3 D4]. split; [by apply open_kept|done|done|]. intros o. rewrite content_disk. apply D4.
Qed.

Lemma written_kept off l s' i' : written dev dp s i off l s' i' -> written dev dp s0 i off l s' i'.
Proof.
  pose proof same_disk as Hd. assert (forall b, owned s i b <-> owned s0 i b) as Ho.
  { intros b. apply owned_ext. intros bn. by apply iaddr_disk. }
  intros [W1 W2 W3 W4 W5 W6 W7 W8 W9 W10]. split; try done.
  - intros o. rewrite <- content_disk. apply W3.
  - by rewrite W4, (after_io_icache _ _ _ _ Ha).
  - rewrite W5. destruct Ha as (_ & _ & Hf & _). by apply io_frame_locks.
  - rewrite W6. unfold sb_of, block. by rewrite Hd.
  - unfold disk_inode, sb_of, block in W7 |- *. by rewrite Hd in W7.
  - intros b. rewrite <- Ho. specialize (W8 b). unfold data_block, data_start, in_bitmap, sb_of, block in W8 |- *. by rewrite Hd in W8.
  - intros b. specialize (W9 b). unfold data_block, data_start, in_bitmap, sb_of, block in W9 |- *. by rewrite Hd in W9.
  - intros b. rewrite <- Ho. apply W10.
Qed.
End kept.

(** ** A free slot *)

(** The first entry that is not in use, or the end. *)
Definition slot (s : kstate) (i : inode) (k : Z) : Prop :=
  0 <= k /\ DIRENTSZ * k <= i.(i_size) /\ (DIRENTSZ * k < i.(i_size) -> de_inum (dirent s i k) = 0).

Lemma dirlink_scan_run `{Devsw} fuel dev dp s0 s i k :
  directory dev dp s0 i -> after_io bcache_inv [] s0.(disk) s0 s -> 0 <= k -> DIRENTSZ * k <= i.(i_size) ->
  i.(i_size) - DIRENTSZ * k <= Z.of_nat fuel * DIRENTSZ ->
  exists k' s', dirlink_scan fuel dp (DIRENTSZ * k) s = Ok (DIRENTSZ * k') s' /\ slot s0 i k' /\
    after_io bcache_inv [] s0.(disk) s0 s'.
Proof.
  intros Hdir. revert s k. induction fuel as [|f IH]; intros s k Ha Hk Hle Hfuel; cbn [dirlink_scan].
  all: pose proof (open_kept dev dp s0 s i Ha (di_open _ _ _ _ Hdir)) as Ho; destruct (of_ready _ _ _ _ Ho) as [R1 R2 R3 R4 R5 R6].
  all: rewrite (kbind_Ok _ _ _ _ _ (get_inode_run dp s i R3)).
  all: destruct (Z.ltb_spec (DIRENTSZ * k) i.(i_size)) as [Hlt|Hge];
    [try lia|exists k, s; split; [done|]; split; [split; [done|]; split; [done|lia]|done]].
  destruct (of_fields _ _ _ _ Ho) as (_ & _ & _ & _ & Hsz). change (MAXFILE * BSIZE) with 71680 in Hsz.
  pose proof (di_size _ _ _ _ Hdir) as Hmod. change DIRENTSZ with 16 in *.
  assert (16 * k + 16 <= i.(i_size)) as Hroom by dlia.
  destruct (readi_run [] s dp i (16 * k) 16 R1 R2 R3 (of_type _ _ _ _ Ho)) as [_ Hrd]; [lia|lia|lia| |].
  { intros o Hr. apply (open_mapped dev dp s i o Ho). lia. }
  destruct Hrd as (s1 & E1 & Hi1 & Hd1 & Hf1); [lia|lia|]. rewrite Z.min_l in E1 by lia. kexec by (exact E1).
  change (file_bytes s i (16 * k) 16) with (dirent s i k). rewrite (dirent_disk s0 s i Ha).
  change (negb (16 =? 16)) with false. cbv iota.
  assert (after_io bcache_inv [] s0.(disk) s0 s1) as Ha1.
  { eapply after_io_trans; [exact Ha|]. split_and!; [done|by rewrite Hd1; apply Ha|done|by intros c d m e ?%elem_of_nil]. }
  destruct (Z.eqb_spec (de_inum (dirent s0 i k)) 0) as [H0|Hn].
  - exists k, s1. split; [done|]. split; [|done]. split; [done|]. split; [change DIRENTSZ with 16; lia|done].
  - replace (16 * k + 16) with (16 * (k + 1)) by lia. apply IH; [done|lia|lia|lia].
Qed.

(** ** A new entry *)

Definition new_entry (name : list Z) (inum : Z) : list Z := dirent_bytes (u16 inum) (strncpy_list name (Z.to_nat DIRSIZ)).

Lemma new_entry_length name inum : length (new_entry name inum) = 16%nat.
Proof. unfold new_entry, dirent_bytes. by rewrite length_app, le_bytes_length, strncpy_list_length. Qed.

Lemma new_entry_inum name inum : de_inum (new_entry name inum) = u16 inum.
Proof.
  unfold de_inum, get16, new_entry, dirent_bytes. rewrite slice_app_l by (rewrite ?le_bytes_length; lia).
  replace 2 with (Z.of_nat (length (le_bytes 2 (u16 inum)))) by (by rewrite le_bytes_length).
  rewrite slice_all, le_val_bytes. apply Z.mod_small. apply Z.mod_pos_bound. lia.
Qed.

Lemma new_entry_names name inum name' : u16 inum <> 0 -> names name' (new_entry name inum) <-> key name' = key name.
Proof.
  intros Hn. unfold names. rewrite new_entry_inum.
  assert (de_name (new_entry name inum) = strncpy_list name (Z.to_nat DIRSIZ)) as ->.
  { unfold de_name, new_entry, dirent_bytes. rewrite slice_app_r by (rewrite le_bytes_length; lia).
    rewrite le_bytes_length. pose proof (strncpy_list_length name (Z.to_nat DIRSIZ)) as Hl.
    change DIRSIZ with (Z.of_nat (Z.to_nat DIRSIZ)) at 1. rewrite <- Hl at 1. by rewrite Z.sub_diag, slice_all. }
  unfold key. rewrite upto_nul_strncpy_list. tauto.
Qed.

(** The entries of the directory after an entry was written at [k]. *)
Section entry.
Context (dev : Z) (dp : nat) (s : kstate) (i : inode) (k : Z) (de : list Z) (s' : kstate) (i' : inode).
Hypothesis Hdir : directory dev dp s i.
Hypothesis Hslot : slot s i k.
Hypothesis Hlen : length de = 16%nat.
Hypothesis Hw : written dev dp s i (DIRENTSZ * k) de s' i'.

Lemma entry_size : i'.(i_size) = Z.max i.(i_size) (16 * k + 16).
Proof. rewrite (wn_meta _ _ _ _ _ _ _ _ Hw). cbn [i_size set_i_size]. rewrite Hlen. done. Qed.

Lemma entry_directory : directory dev dp s' i'.
Proof.
  pose proof entry_size as Es. destruct Hslot as (Hk & Hle & _). destruct Hdir as [D1 D2 D3 D4]. change DIRENTSZ with 16 in *.
  split; [apply Hw|by rewrite (wn_meta _ _ _ _ _ _ _ _ Hw)|rewrite Es; change DIRENTSZ with 16; dlia|].
  intros o Hin Ho. rewrite Es in Ho. rewrite (wn_content _ _ _ _ _ _ _ _ Hw) by done. rewrite Hlen, decide_False by lia.
  apply D4; [done|lia].
Qed.

Lemma entry_dirent j :
  0 <= j -> DIRENTSZ * j < i'.(i_size) -> dirent s' i' j = if decide (j = k) then de else dirent s i j.
Proof.
  intros Hj Hs. pose proof entry_size as Es. pose proof (wn_open _ _ _ _ _ _ _ _ Hw) as Ho'. destruct Hslot as (Hk & Hle & _).
  destruct (of_fields _ _ _ _ Ho') as (_ & _ & _ & _ & Hmax).
  pose proof (di_size _ _ _ _ Hdir) as Hmod. change DIRENTSZ with 16 in *.
  apply list_eq. intros p. destruct (decide (p < 16)%nat) as [Hp|Hp].
  2:{ unfold dirent. rewrite lookup_ge_None_2 by (rewrite file_bytes_length; change DIRENTSZ with 16; lia).
      symmetry. apply lookup_ge_None_2. destruct (decide (j = k)); [lia|]. rewrite file_bytes_length. change DIRENTSZ with 16. lia. }
  unfold dirent at 1, file_bytes. change DIRENTSZ with 16. rewrite list_lookup_fmap, lookup_seq_lt by lia. simpl.
  assert (16 * j + Z.of_nat p < i'.(i_size)) as Hin by dlia.
  rewrite file_byte_content by (apply (of_whole _ _ _ _ Ho'); lia).
  rewrite (wn_content _ _ _ _ _ _ _ _ Hw), Hlen by (unfold in_file; lia). destruct (decide (j = k)) as [->|Hne].
  - rewrite decide_True by lia. replace (Z.to_nat (16 * k + Z.of_nat p - 16 * k)) with p by lia.
    destruct (lookup_lt_is_Some_2 de p) as [x ->]; [lia|done].
  - rewrite decide_False by lia. unfold dirent, file_bytes. change DIRENTSZ with 16.
    rewrite list_lookup_fmap, lookup_seq_lt by lia. simpl. f_equal. symmetry. apply file_byte_content.
    apply (of_whole _ _ _ _ (di_open _ _ _ _ Hdir)). dlia.
Qed.
End entry.

(** ** The map *)

Lemma found_binds s i name o : found s i name o ->
  match o with Some k => binds s i name (de_inum (dirent s i k)) | None => forall x, ~ binds s i name x end.
Proof.
  destruct o as [k|]; [intros Hf; by exists k|]. intros Hn x (k & (H1 & H2 & H3 & _) & _). by apply (Hn k).
Qed.

(** Every name is found or not. *)
Lemma found_exists s i name : exists o, found s i name o.
Proof.
  assert (forall n : nat, (exists k, found s i name (Some k)) \/
    forall k, 0 <= k < Z.of_nat n -> DIRENTSZ * k < i.(i_size) -> ~ names name (dirent s i k)) as H.
  { induction n as [|n [IH|IH]]; [right; lia|by left|].
    destruct (decide (DIRENTSZ * Z.of_nat n < i.(i_size) /\ names name (dirent s i (Z.of_nat n)))) as [[Hs Hn]|Hno].
    - left. exists (Z.of_nat n). split; [lia|]. split; [done|]. split; [done|]. intros j Hj. apply IH; [done|].
      change DIRENTSZ with 16 in *. lia.
    - right. intros k Hk Hs Hn. destruct (Z.eq_dec k (Z.of_nat n)) as [->|]; [tauto|]. apply (IH k); [lia|done|done]. }
  destruct (H (Z.to_nat i.(i_size))) as [[k Hk]|Hno]; [by exists (Some k)|]. exists None. intros k Hk Hs.
  apply Hno; [|done]. change DIRENTSZ with 16 in Hs. lia.
Qed.

Lemma found_same s i s' i' name :
  (forall j, 0 <= j -> DIRENTSZ * j < i'.(i_size) /\ names name (dirent s' i' j) <->
     DIRENTSZ * j < i.(i_size) /\ names name (dirent s i j)) ->
  forall k, found s' i' name (Some k) -> found s i name (Some k).
Proof.
  intros He k (H1 & H2 & H3 & H4). destruct (proj1 (He k H1) (conj H2 H3)) as [Hs Hn]. split; [done|]. split; [done|]. split; [done|].
  intros j Hj Hx. apply (H4 j Hj). apply (He j); [lia|]. split; [|done]. change DIRENTSZ with 16 in *. lia.
Qed.

(** The new entry is in the map, the others are unchanged. *)
Lemma entry_binds dev dp s i k name inum s' i' :
  directory dev dp s i -> slot s i k -> found s i name None -> u16 inum <> 0 ->
  written dev dp s i (DIRENTSZ * k) (new_entry name inum) s' i' ->
  forall name' x, binds s' i' name' x <->
    (key name' = key name /\ x = u16 inum) \/ (key name' <> key name /\ binds s i name' x).
Proof.
  intros Hdir Hslot Hnone Hn Hw name' x. pose proof (new_entry_length name inum) as Hlen.
  pose proof (entry_size dev dp s i k _ s' i' Hlen Hw) as Es.
  pose proof (entry_dirent dev dp s i k _ s' i' Hdir Hslot Hlen Hw) as Hde. destruct Hslot as (Hk & Hle & Hfree).
  pose proof (di_size _ _ _ _ Hdir) as Hmod. pose proof (new_entry_names name inum name' Hn) as Hnew. change DIRENTSZ with 16 in *.
  assert (forall j, 0 <= j -> 16 * j < i'.(i_size) -> j <> k -> 16 * j < i.(i_size)) as Hold by (intros; dlia).
  destruct (decide (key name' = key name)) as [Ek|Ek].
  - assert (found s' i' name' (Some k)) as Hf.
    { split; [done|]. change DIRENTSZ with 16. split; [lia|]. split; [rewrite Hde, decide_True by (done || lia); tauto|].
      intros j Hj. rewrite Hde, decide_False by lia. intros [Hx Hy]. apply (Hnone j); [lia|change DIRENTSZ with 16; lia|].
      split; [done|]. by rewrite <- Ek. }
    assert (de_inum (dirent s' i' k) = u16 inum) as Ei by (rewrite Hde, decide_True by (done || lia); apply new_entry_inum).
    split; [|intros [[_ ->]|[? _]]; [by exists k|done]]. intros (k' & Hf' & <-).
    injection (found_unique _ _ _ _ _ Hf Hf') as ->. left. by split.
  - assert (forall j, 0 <= j -> 16 * j < i'.(i_size) /\ names name' (dirent s' i' j) <->
      16 * j < i.(i_size) /\ names name' (dirent s i j)) as He.
    { intros j Hj. split.
      - intros [Hs Hx]. rewrite Hde in Hx by done. destruct (decide (j = k)) as [->|]; [tauto|]. split; [by apply Hold|done].
      - intros [Hs Hx]. split; [lia|]. rewrite Hde by lia. destruct (decide (j = k)) as [->|]; [|done].
        destruct Hx as [Hx _]. by rewrite Hfree in Hx. }
    assert (forall j, found s i name' (Some j) -> dirent s' i' j = dirent s i j) as Hsame.
    { intros j (J1 & J2 & [J3 _] & _). change DIRENTSZ with 16 in J2. rewrite Hde by lia. rewrite decide_False; [done|].
      intros ->. by rewrite Hfree in J3. }
    split.
    + intros (j & Hf & E). right. split; [done|]. apply (found_same s i) in Hf; [|done]. exists j. by rewrite <- Hsame.
    + intros [[? _]|[_ (j & Hf & E)]]; [done|]. exists j. rewrite Hsame by done. split; [|done].
      apply (found_same s' i' s i); [|done]. intros l Hl. symmetry. by apply He.
Qed.

Lemma dirlink_run `{Devsw} dev dp s i name inum :
  directory dev dp s i -> found s i name None -> u16 inum <> 0 -> i.(i_size) < MAXFILE * BSIZE -> free_blocks s dev 3 ->
  exists k s' i', dirlink dp name inum s = Ok 0 s' /\ slot s i k /\
    written dev dp s i (DIRENTSZ * k) (new_entry name inum) s' i'.
Proof.
  intros Hdir Hnone Hn Hsz Hfree. destruct (dirlookup_run dev dp s i Hdir name None Hnone) as (s1 & E1 & H1).
  pose proof (of_fields _ _ _ _ (di_open _ _ _ _ Hdir)) as (_ & _ & _ & _ & Hsz0).
  pose proof (open_kept dev dp s s1 i H1 (di_open _ _ _ _ Hdir)) as Ho1. unfold dirlink.
  rewrite (kbind_Ok _ _ _ _ _ E1), (kbind_Ok _ _ _ _ _ (get_inode_run dp s1 i (rd_icache _ _ _ _ (of_ready _ _ _ _ Ho1)))).
  destruct (dirlink_scan_run (S (Z.to_nat (i.(i_size) / DIRENTSZ + 1))) dev dp s s1 i 0 Hdir H1) as (k & s2 & E2 & Hslot & H2);
    [lia|lia|change DIRENTSZ with 16; rewrite Nat2Z.inj_succ, Z2Nat.id by dlia; dlia|].
  rewrite Z.mul_0_r in E2. rewrite (kbind_Ok _ _ _ _ _ E2). pose proof (open_kept dev dp s s2 i H2 (di_open _ _ _ _ Hdir)) as Ho2.
  pose proof Hslot as (Hk & Hle & _). pose proof (di_size _ _ _ _ Hdir) as Hmod. pose proof (new_entry_length name inum) as Hlen.
  change (MAXFILE * BSIZE) with 71680 in *. change DIRENTSZ with 16 in *.
  destruct (writei_run dev dp s2 i (new_entry name inum) (16 * k) 16 Ho2) as [_ Hwr]; [lia|lia|by rewrite Hlen|].
  specialize (Hwr Hle ltac:(lia)). cbv zeta in Hwr. change (MAXFILE * BSIZE) with 71680 in Hwr. rewrite Z.min_l in Hwr by dlia.
  destruct Hwr as (s3 & i3 & E3 & Hw); [apply (free_blocks_disk s); [apply H2|done]|].
  fold (new_entry name inum). rewrite (kbind_Ok _ _ _ _ _ E3). exists k, s3, i3. split; [done|]. split; [done|].
  apply (written_kept dev dp s s2 i H2). change 16 with (Z.of_nat 16) in Hw at 2. by rewrite <- Hlen, slice_all in Hw.
Qed.

(** ** Properties *)

(** C18: A directory is a finite map from names, cut to [DIRSIZ] bytes, to inode
    numbers, and [dirlookup] and [dirlink] are its lookup and its insertion:
    [dirlookup] goes on to [iget] with the inode number the name is bound to,
    or returns nothing when it is not bound; [dirlink] of a name that is not
    bound succeeds, binds it, and leaves every other name and every other file
    as it was; of a name that is bound it drops the reference it was given and
    fails, without writing. *)
Theorem directory_refines_map `{Devsw} (dev : Z) (dp : nat) (s : kstate) (i : inode) (name : list Z) (inum : Z) :
  directory dev dp s i -> u16 inum <> 0 -> i.(i_size) < MAXFILE * BSIZE -> free_blocks s dev 3 ->
  (forall x, binds s i name x ->
     exists off s1, after_io bcache_inv [] s.(disk) s s1 /\
       dirlookup dp name s = (let* ip := iget dev x in kret (Some (ip, off))) s1 /\
       dirlink dp name inum s = (let* ip := iget dev x in iput ip ;;; kret (-1)) s1) /\
  ((forall x, ~ binds s i name x) ->
     (exists s1, dirlookup dp name s = Ok None s1 /\ after_io bcache_inv [] s.(disk) s s1) /\
     exists off s' i', dirlink dp name inum s = Ok 0 s' /\ directory dev dp s' i' /\
       written dev dp s i off (new_entry name inum) s' i' /\
       forall name' x, binds s' i' name' x <->
         (key name' = key name /\ x = u16 inum) \/ (key name' <> key name /\ binds s i name' x)).
Proof.
  intros Hdir Hn Hsz Hfree. destruct (found_exists s i name) as [o Ho]. pose proof (found_binds s i name o Ho) as Hb.
  destruct (dirlookup_run dev dp s i Hdir name o Ho) as (s1 & E1 & H1). split.
  - intros x (k & Hf & <-). rewrite (found_unique _ _ _ _ _ Hf Ho) in E1. exists (DIRENTSZ * k), s1.
    split; [done|]. split; [exact E1|]. unfold dirlink, kbind at 1. rewrite E1. unfold answer, kbind, kret.
    by destruct (iget dev (de_inum (dirent s i k)) s1).
  - intros Hno. destruct o as [k|]; [by destruct (Hno _ Hb)|]. split; [by exists s1|].
    destruct (dirlink_run dev dp s i name inum Hdir Ho Hn Hsz Hfree) as (k & s' & i' & E & Hslot & Hw).
    exists (DIRENTSZ * k), s', i'. split; [done|].
    split; [by apply (entry_directory dev dp s i k _ s' i' Hdir Hslot (new_entry_length name inum) Hw)|]. split; [done|].
    by apply (entry_binds dev dp s i k).
Qed.

(** ** A directory with the entry "." *)

Definition dot_block : list Z := [1; 0; 46] ++ replicate 509 0.
Definition dot_state : kstate := saved_state T_DIR 16 dot_block.
Definition dot_inode : inode := saved_inode T_DIR 16.

Lemma dot_directory : directory 1 0 dot_state dot_inode.
Proof.
  assert (open_file 1 0 dot_state dot_inode) as Ho.
  { apply saved_file; [done|lia|unfold T_DIR; lia|done|by vm_compute]. }
  split; [done|done|done|]. intros o Hin Hs. unfold content, dot_state, dot_inode. rewrite saved_addr by (reflexivity || by apply in_file_block).
  destruct (decide (o / BSIZE = 0)) as [E|E]; [|done]. cbn [Z.eqb]. change (i_dev (saved_inode T_DIR 16)) with 1.
  rewrite saved_block by done.
  change (default zeros (saved_disk T_DIR 16 dot_block !! (1, 10))) with ([1; 0; 46] ++ replicate 509 0).
  assert (16 <= o < 512) as Ho' by (cbn in Hs; destruct Hin; dlia). unfold BSIZE. rewrite Z.mod_small by lia.
  rewrite lookup_app_r by (cbn; lia). destruct (replicate 509 0 !! _) eqn:El; [|done]. by apply lookup_replicate in El as [-> _].
Qed.

(** "ab" is not bound; "." is the directory. *)
Lemma dot_entry : dirent dot_state dot_inode 0 = [1; 0; 46] ++ replicate 13 0.
Proof.
  unfold dirent, dot_state, dot_inode. rewrite <- (file_bytes_chunk _ _ _ _ (fs_wf _ _ (saved_fs T_DIR 16 dot_block eq_refl))) by done.
  unfold file_block. change (addr_of _ _ (DIRENTSZ * 0 / BSIZE)) with 10. change (i_dev (saved_inode T_DIR 16)) with 1.
  rewrite saved_block by done. by vm_compute.
Qed.

Lemma directory_refines_map_witness :
  exists s' i', @dirlink no_devices 0 [97; 98] 2 dot_state = Ok 0 s' /\ directory 1 0 s' i' /\
    binds s' i' [97; 98] 2 /\ binds s' i' [46] 1.
Proof.
  destruct (@directory_refines_map no_devices 1 0 dot_state dot_inode [97; 98] 2) as [_ H];
    [exact dot_directory|discriminate|reflexivity|apply (free_blocks_le 1 dot_state 3 4); [lia|exact (saved_free T_DIR 16 dot_block eq_refl)]|].
  destruct H as [_ (off & s' & i' & E & Hd & _ & Hb)].
  - intros x (k & (H1 & H2 & H3 & _) & _). unfold DIRENTSZ in H2. cbn [i_size dot_inode saved_inode] in H2. assert (k = 0) as -> by lia.
    rewrite dot_entry in H3. destruct H3 as [_ H3]. discriminate H3.
  - exists s', i'. split; [exact E|]. split; [exact Hd|]. split; apply Hb; [left; split; reflexivity|right].
    split; [discriminate|]. exists 0. rewrite dot_entry. split; [|reflexivity]. split; [lia|]. split; [reflexivity|].
    rewrite dot_entry. split; [split; [discriminate|reflexivity]|]. intros j Hj. lia.
Defined.
