(* ===== verification/File.v ===== *)
(** Open files: file.c, and pipealloc of pipe.c.

    The file table counts, for each open file, the descriptors that refer to
    it; the last close closes the pipe end or drops the inode. *)

From S2P Require Import Prelude CString State Kalloc ProcSync Pipe Ide Bio Bytes FsBlock Inode.

Definition filealloc : K (option nat) :=
  acquire LkFtable ;;;
  let* t := kget (fun s => s.(ftable)) in
  match list_find (fun f => f.(f_ref) = 0) t with
  | Some (i, _) =>
      mod_file i (set_f_ref 1) ;;;
      release LkFtable ;;;
      kret (Some i)
  | None => release LkFtable ;;; kret None
  end.

Definition filedup (f : nat) : K nat :=
  acquire LkFtable ;;;
  let* x := get_file f in
  if x.(f_ref) <? 1 then panic "filedup" else
  mod_file f (fun x => set_f_ref (x.(f_ref) + 1) x) ;;;
  release LkFtable ;;;
  kret f.

Definition fileclose (f : nat) : K unit :=
  acquire LkFtable ;;;
  let* x := get_file f in
  if x.(f_ref) <? 1 then panic "fileclose" else
  mod_file f (fun x => set_f_ref (x.(f_ref) - 1) x) ;;;
  let* ff := get_file f in
  if ff.(f_ref) >? 0 then release LkFtable else
  mod_file f (set_f_ref 0) ;;;
  mod_file f (set_f_type FD_NONE) ;;;
  release LkFtable ;;;
  match ff.(f_type) with
  | FD_PIPE => pipeclose ff.(f_pipe) ff.(f_writable)
  | FD_INODE => let* ip := klift "ff.ip" ff.(f_ip) in iput ip
  | FD_NONE => kret tt
  end.

(** The result: 0 and the metadata, or -1. *)
Definition filestat (f : nat) : K (Z * option stat) :=
  let* x := get_file f in
  match x.(f_type) with
  | FD_INODE =>
      ilock x.(f_ip) ;;;
      let* ip := klift "f->ip" x.(f_ip) in
      let* st := stati ip in
      iunlock x.(f_ip) ;;;
      kret (0, Some st)
  | _ => kret (-1, None)
  end.

Definition fileread `{Devsw} (f : nat) (n : Z) : K (Z * list Z) :=
  let* x := get_file f in
  if negb x.(f_readable) then kret (-1, []) else
  match x.(f_type) with
  | FD_PIPE => piperead x.(f_pipe) n
  | FD_INODE =>
      ilock x.(f_ip) ;;;
      let* ip := klift "f->ip" x.(f_ip) in
      let* x1 := get_file f in
      let* r := readi ip x1.(f_off) (u32 n) in
      (if r.1 >? 0 then mod_file f (fun x => set_f_off (u32 (x.(f_off) + r.1)) x) else kret tt) ;;;
      iunlock x.(f_ip) ;;;
      kret r
  | FD_NONE => panic "fileread"
  end.

Definition filewrite `{Devsw} (f : nat) (addr : list Z) (n : Z) : K Z :=
  let* x := get_file f in
  if negb x.(f_writable) then kret (-1) else
  match x.(f_type) with
  | FD_PIPE => pipewrite x.(f_pipe) addr n
  | FD_INODE =>
      ilock x.(f_ip) ;;;
      let* ip := klift "f->ip" x.(f_ip) in
      let* x1 := get_file f in
      let* r := writei ip addr x1.(f_off) (u32 n) in
      (if r >? 0 then mod_file f (fun x => set_f_off (u32 (x.(f_off) + r)) x) else kret tt) ;;;
      iunlock x.(f_ip) ;;;
      kret r
  | FD_NONE => panic "filewrite"
  end.

(** The offset of [data] in [struct pipe], after its lock. *)
Definition PIPEDATA : Z := 52.

(** [pipealloc]: the two files, or -1.  The bytes of the ring are what the page
    held before. *)
Definition pipealloc : K (option (nat * nat)) :=
  let bad (f0 f1 : option nat) : K (option (nat * nat)) :=
    match f0 with Some i => fileclose i | None => kret tt end ;;;
    match f1 with Some i => fileclose i | None => kret tt end ;;;
    kret None in
  let* f0 := filealloc in
  match f0 with
  | None => bad None None
  | Some i =>
      let* f1 := filealloc in
      match f1 with
      | None => bad f0 None
      | Some j =>
          let* p := kalloc in
          if p =? 0 then bad f0 f1 else
          kmod (fun s => set_pipes
            (<[p := mk_pipe (bytes_at s.(pmem) (p + PIPEDATA) (Z.to_nat PIPESIZE)) 0 0 1 1]> s.(pipes)) s) ;;;
          mod_file i (fun x => set_f_pipe p (set_f_writable false (set_f_readable true (set_f_type FD_PIPE x)))) ;;;
          mod_file j (fun x => set_f_pipe p (set_f_writable true (set_f_readable false (set_f_type FD_PIPE x)))) ;;;
          kret (Some (i, j))
      end
  end.

(** ** Lemmas *)

Lemma mod_file_run f g s x :
  s.(ftable) !! f = Some x -> mod_file f g s = Ok tt (set_ftable (<[f := g x]> s.(ftable)) s).
Proof. intros. apply mod_file_Ok. eauto. Qed.

Lemma get_file_run f s x : s.(ftable) !! f = Some x -> get_file f s = Ok x s.
Proof. intros. by apply get_file_Ok. Qed.

Lemma filealloc_run s :
  LkFtable ∉ s.(held) ->
  filealloc s = match list_find (fun f => f.(f_ref) = 0) s.(ftable) with
                | Some (i, x) => Ok (Some i) (set_ftable (<[i := set_f_ref 1 x]> s.(ftable)) s)
                | None => Ok None s
                end.
Proof.
  intros Hk. unfold filealloc. kexec acquire_free. unfold kget at 1, kbind at 1. cbn [ftable set_held].
  destruct (list_find _ s.(ftable)) as [[i x]|] eqn:E.
  - pose proof E as (Hx & _)%list_find_Some. kexec (mod_file_run i _ _ x).
    by kexec (release_top LkFtable s.(held)).
  - by kexec (release_top LkFtable s.(held)).
Qed.

Lemma filedup_run s f x :
  LkFtable ∉ s.(held) -> s.(ftable) !! f = Some x -> 1 <= x.(f_ref) ->
  filedup f s = Ok f (set_ftable (<[f := set_f_ref (x.(f_ref) + 1) x]> s.(ftable)) s).
Proof.
  intros Hk Hf Hr. unfold filedup. kexec acquire_free. kexec by (by apply get_file_run).
  rewrite (proj2 (Z.ltb_ge x.(f_ref) 1)) by lia. kexec (mod_file_run f _ _ x).
  by kexec (release_top LkFtable s.(held)).
Qed.

(** A close that is not the last one. *)
Lemma fileclose_more s f x :
  LkFtable ∉ s.(held) -> s.(ftable) !! f = Some x -> 2 <= x.(f_ref) ->
  fileclose f s = Ok tt (set_ftable (<[f := set_f_ref (x.(f_ref) - 1) x]> s.(ftable)) s).
Proof.
  intros Hk Hf Hr. assert (f < length s.(ftable))%nat by (by eapply lookup_lt_Some).
  unfold fileclose. kexec acquire_free. kexec by (by apply get_file_run).
  rewrite (proj2 (Z.ltb_ge x.(f_ref) 1)) by lia. kexec (mod_file_run f _ _ x).
  kexec by (apply get_file_run; by apply list_lookup_insert_eq). cbn [f_ref set_f_ref].
  replace (x.(f_ref) - 1 >? 0) with true by (rewrite Z.gtb_ltb; symmetry; apply Z.ltb_lt; lia).
  by rewrite (release_top LkFtable s.(held)).
Qed.

(** The slot the last close leaves. *)
Definition closed_file (x : file) : file := set_f_type FD_NONE (set_f_ref 0 x).

Lemma fileclose_last s f x :
  LkFtable ∉ s.(held) -> s.(ftable) !! f = Some x -> x.(f_ref) = 1 ->
  fileclose f s =
    match x.(f_type) with
    | FD_PIPE => pipeclose x.(f_pipe) x.(f_writable)
    | FD_INODE => let* ip := klift "ff.ip" x.(f_ip) in iput ip
    | FD_NONE => kret tt
    end (set_ftable (<[f := closed_file x]> s.(ftable)) s).
Proof.
  intros Hk Hf Hr. assert (f < length s.(ftable))%nat by (by eapply lookup_lt_Some).
  unfold fileclose. kexec acquire_free. kexec by (by apply get_file_run).
  rewrite (proj2 (Z.ltb_ge x.(f_ref) 1)) by lia. kexec (mod_file_run f _ _ x).
  kexec by (apply get_file_run; by apply list_lookup_insert_eq). cbn [f_ref set_f_ref]. rewrite Hr.
  change (1 - 1 >? 0) with false. cbv iota.
  kexec by (apply mod_file_run; by apply list_lookup_insert_eq). cbn [ftable set_ftable]. rewrite list_insert_insert_eq.
  kexec by (apply mod_file_run; by apply list_lookup_insert_eq). cbn [ftable set_ftable]. rewrite list_insert_insert_eq.
  kexec (release_top LkFtable s.(held)). cbn [f_type f_pipe f_writable f_ip set_f_ref]. done.
Qed.

(** Close [n] times. *)
Definition closes (n : nat) (f : nat) : K unit := kfor (seq 0 n) (fun _ => fileclose f).

Lemma closes_more n s f x :
  LkFtable ∉ s.(held) -> s.(ftable) !! f = Some x -> x.(f_ref) = Z.of_nat (S n) ->
  closes n f s = Ok tt (set_ftable (<[f := set_f_ref 1 x]> s.(ftable)) s).
Proof.
  unfold closes. generalize 0%nat. revert s x. induction n as [|n IH]; intros s x k Hk Hf Hr; cbn [seq kfor].
  - unfold kret. rewrite list_insert_id; [done|]. rewrite Hf. f_equal. change 1 with (Z.of_nat 1). rewrite <- Hr. done.
  - kexec by (apply (fileclose_more s f x); [done|done|lia]).
    rewrite (IH _ (set_f_ref (x.(f_ref) - 1) x)); [|done|apply list_lookup_insert_eq; by eapply lookup_lt_Some|cbn; lia].
    cbn [ftable set_ftable]. by rewrite list_insert_insert_eq.
Qed.

(** Locking and unlocking an inode that is in memory. *)
Lemma ilock_valid s ip i :
  LkIcache ∉ s.(held) -> s.(icache) !! ip = Some i -> 0 < i.(i_ref) -> i.(i_flags) = I_VALID ->
  ilock (Some ip) s = Ok tt (set_icache (<[ip := set_i_flags (Z.lor I_VALID I_BUSY) i]> s.(icache)) s).
Proof.
  intros Hk Hip Hr Hf. assert (ip < length s.(icache))%nat by (by eapply lookup_lt_Some).
  unfold ilock. kexec by (by apply get_inode_run). rewrite (proj2 (Z.ltb_ge i.(i_ref) 1)) by lia.
  kexec acquire_free. kexec by (by apply get_inode_run). rewrite Hf.
  change (negb (Z.land I_VALID I_BUSY =? 0)) with false. cbv iota.
  kexec (mod_inode_run ip _ _ i). kexec (release_top LkIcache s.(held)). rewrite Hf.
  kexec by (apply get_inode_run; by apply list_lookup_insert_eq). cbn [i_flags set_i_flags].
  by change (Z.land (Z.lor I_VALID I_BUSY) I_VALID =? 0) with false.
Qed.

Lemma iunlock_run s ip i :
  LkIcache ∉ s.(held) -> LkPtable ∉ s.(held) -> s.(icache) !! ip = Some i -> 0 < i.(i_ref) ->
  Z.land i.(i_flags) I_BUSY <> 0 ->
  iunlock (Some ip) s = Ok tt (set_ptable (wake_one (ChInode ip) <$> s.(ptable))
    (set_icache (<[ip := set_i_flags (Z.land i.(i_flags) (Z.lnot I_BUSY)) i]> s.(icache)) s)).
Proof.
  intros Hk Hp Hip Hr Hf. unfold iunlock. kexec by (by apply get_inode_run).
  rewrite (proj2 (Z.eqb_neq _ _) Hf), (proj2 (Z.ltb_ge i.(i_ref) 1)) by lia. cbn [orb].
  kexec acquire_free. kexec (mod_inode_run ip _ _ i). kexec by (apply wakeup_ok; cbn; set_solver).
  by rewrite (release_top LkIcache s.(held)).
Qed.

(** A file open for reading on a regular inode nobody has locked. *)
Definition open_read (s : kstate) (f : nat) (x : file) (ip : nat) (i : inode) : Prop :=
  bcache_inv [] s /\ free_locks s /\ LkIcache ∉ s.(held) /\
  s.(ftable) !! f = Some x /\ x.(f_type) = FD_INODE /\ x.(f_readable) = true /\ x.(f_ip) = Some ip /\
  0 <= x.(f_off) <= i.(i_size) /\
  s.(icache) !! ip = Some i /\ 0 < i.(i_ref) /\ i.(i_flags) = I_VALID /\ i.(i_type) <> T_DEV /\
  0 <= i.(i_size) < 2 ^ 31 /\ forall o, 0 <= o < i.(i_size) -> mapped [] s i (o / BSIZE).

Lemma file_bytes_disk s s' i j off n :
  s'.(disk) = s.(disk) -> j.(i_dev) = i.(i_dev) -> j.(i_addrs) = i.(i_addrs) ->
  file_bytes s' j off n = file_bytes s i off n.
Proof.
  intros Hd Ed Ea. unfold file_bytes, file_byte, file_block, addr_of, nth_addr, block. by rewrite Hd, Ed, Ea.
Qed.

Lemma mapped_nil s s' i j bn :
  s'.(disk) = s.(disk) -> j.(i_dev) = i.(i_dev) -> j.(i_addrs) = i.(i_addrs) ->
  mapped [] s i bn -> mapped [] s' j bn.
Proof.
  intros Hd Ed Ea. unfold mapped, can_read, not_in_use, addr_of, nth_addr, block. rewrite Hd, Ed, Ea.
  intros (H1 & H2 & (H3 & _ & H5) & H6). split_and!; try done; try lia.
  - by intros b ?%elem_of_nil.
  - intros Hb. destruct (H6 Hb) as (? & ? & _ & ?). split_and!; try done. by intros b ?%elem_of_nil.
Qed.

Lemma fileread_run `{Devsw} s f x ip i n :
  open_read s f x ip i -> 0 <= n < 2 ^ 31 ->
  let m := Z.min n (i.(i_size) - x.(f_off)) in
  exists s', fileread f n s = Ok (m, file_bytes s i x.(f_off) m) s' /\ s'.(disk) = s.(disk) /\
    open_read s' f (set_f_off (x.(f_off) + m) x) ip i.
Proof.
  intros (Hi & Hf & Hk & Hx & Hty & Hrd & Hxi & Hoff & Hip & Hr & Hfl & Hdev & Hsz & Hmap) Hn m.
  set (i1 := set_i_flags (Z.lor I_VALID I_BUSY) i). set (s1 := set_icache (<[ip := i1]> s.(icache)) s).
  assert (ip < length s.(icache))%nat as Hlt by (by eapply lookup_lt_Some).
  assert (s1.(icache) !! ip = Some i1) as Hip1 by (by apply list_lookup_insert_eq).
  destruct (readi_run [] s1 ip i1 x.(f_off) n) as [_ Hread].
  { by apply (frame_law (inv := bcache_inv) [] s). } { done. } { done. } { done. } { cbn; lia. } { lia. } { done. }
  { intros o Ho. apply (mapped_nil s s1 i i1); [done|done|done|]. apply Hmap. cbn in Ho. lia. }
  destruct Hread as (s2 & E2 & Hi2 & Hd2 & Hfr); [cbn; lia|lia|]. change (i_size i1) with i.(i_size) in E2. fold m in E2.
  unfold fileread. kexec by (by apply get_file_run). rewrite Hrd, Hty, Hxi. cbn [negb].
  kexec by (by apply ilock_valid). fold i1 s1. unfold klift at 1, kret at 1, kbind at 1.
  kexec by (by apply (get_file_run f s1 x)). rewrite u32_small by lia. kexec by (exact E2). cbn [fst].
  assert (s2.(ftable) = s.(ftable) /\ s2.(icache) = s1.(icache) /\ s2.(held) = s.(held)) as (Hft & Hic & Hh).
  { destruct Hfr as [-> _]. done. }
  set (s3 := set_ftable (<[f := set_f_off (x.(f_off) + m) x]> s2.(ftable)) s2).
  erewrite (kbind_Ok _ _ _ tt s3).
  2:{ unfold s3. destruct (m >? 0) eqn:Em.
      - rewrite (mod_file_run f _ _ x) by (by rewrite Hft). rewrite u32_small; [done|]. unfold m. lia.
      - rewrite Z.gtb_ltb, Z.ltb_ge in Em. assert (m = 0) as -> by (unfold m in *; lia). unfold kret. rewrite Z.add_0_r.
        rewrite list_insert_id; [done|]. by rewrite Hft. }
  assert (s3.(icache) !! ip = Some i1) as Hip3 by (cbn; by rewrite Hic).
  kexec by (apply (iunlock_run s3 ip i1); [cbn; by rewrite Hh|cbn; rewrite Hh; apply Hf|exact Hip3|exact Hr|done]).
  assert (set_i_flags (Z.land i1.(i_flags) (Z.lnot I_BUSY)) i1 = i) as Ei.
  { change (set_i_flags I_VALID i = i). rewrite <- Hfl. reflexivity. }
  rewrite Ei. eexists. split_and!.
  - reflexivity.
  - exact Hd2.
  - unfold open_read. cbn [ftable icache held set_ptable set_icache set_ftable s3 bufs].
    assert (f < length s2.(ftable))%nat by (rewrite Hft; by eapply lookup_lt_Some).
    split_and!; try done; try (cbn; unfold m; lia).
    + unfold free_locks. cbn. rewrite Hh. apply Hf.
    + cbn. by rewrite Hh.
    + by apply list_lookup_insert_eq.
    + apply list_lookup_insert_eq. rewrite Hic. cbn. by rewrite length_insert.
    + intros o Ho. apply (mapped_nil s _ i i); [exact Hd2|done|done|by apply Hmap].
Qed.

(** ** Properties *)

(** Reading an open file goes through it in order: two reads return two
    consecutive pieces of the file, the same bytes as one read of both
    lengths, each cut at the end of the file; the offset moves by what was
    read and the disk is unchanged. *)
Theorem fileread_sequential `{Devsw} (s : kstate) (f : nat) (x : file) (ip : nat) (i : inode) (n1 n2 : Z) :
  open_read s f x ip i -> 0 <= n1 -> 0 <= n2 -> n1 + n2 < 2 ^ 31 ->
  exists r1 d1 s1 r2 d2 s2 s3,
    fileread f n1 s = Ok (r1, d1) s1 /\ fileread f n2 s1 = Ok (r2, d2) s2 /\
    fileread f (n1 + n2) s = Ok (r1 + r2, d1 ++ d2) s3 /\
    r1 = Z.min n1 (i.(i_size) - x.(f_off)) /\ d1 = file_bytes s i x.(f_off) r1 /\
    s2.(disk) = s.(disk) /\ open_read s2 f (set_f_off (x.(f_off) + (r1 + r2)) x) ip i.
Proof.
  intros Ho H1 H2 H12. pose proof Ho as (_ & _ & _ & _ & _ & _ & _ & Hoff & _).
  destruct (fileread_run s f x ip i n1 Ho ltac:(lia)) as (s1 & E1 & Hd1 & Ho1).
  destruct (fileread_run s1 f _ ip i n2 Ho1 ltac:(lia)) as (s2 & E2 & Hd2 & Ho2).
  destruct (fileread_run s f x ip i (n1 + n2) Ho ltac:(lia)) as (s3 & E3 & _ & _).
  set (r1 := Z.min n1 _) in *. cbn [f_off set_f_off] in *. set (r2 := Z.min n2 _) in *.
  assert (Z.min (n1 + n2) (i.(i_size) - x.(f_off)) = r1 + r2) as Er by (unfold r1, r2; lia). rewrite Er in E3.
  exists r1, (file_bytes s i x.(f_off) r1), s1, r2, (file_bytes s i (x.(f_off) + r1) r2), s2, s3.
  split_and!; [exact E1| | |done|done|congruence|].
  - rewrite E2. do 2 f_equal. by apply file_bytes_disk.
  - rewrite E3. do 2 f_equal. apply file_bytes_app; unfold r1, r2; lia.
  - rewrite Z.add_assoc. exact Ho2.
Qed.

(** The last close and no other closes the file: of a pipe end with [n + 1]
    references the first [n] closes only count down, and the last one frees
    the slot and closes the end of the pipe. *)
Theorem close_on_last_reference (s : kstate) (f n : nat) (x : file) :
  LkFtable ∉ s.(held) -> s.(ftable) !! f = Some x -> x.(f_ref) = Z.of_nat (S n) -> x.(f_type) = FD_PIPE ->
  exists s1, closes n f s = Ok tt s1 /\ s1.(pipes) = s.(pipes) /\
    fileclose f s1 = pipeclose x.(f_pipe) x.(f_writable) (set_ftable (<[f := closed_file x]> s.(ftable)) s).
Proof.
  intros Hk Hf Hr Ht. eexists. split; [by apply closes_more|]. split; [done|].
  assert (f < length s.(ftable))%nat by (by eapply lookup_lt_Some).
  rewrite (fileclose_last _ f (set_f_ref 1 x)) by (done || by apply list_lookup_insert_eq).
  cbn [f_type f_pipe f_writable set_f_ref ftable set_ftable]. rewrite Ht. by rewrite list_insert_insert_eq.
Qed.

(** A free slot taken by [filealloc] and closed again is as before. *)
Lemma reclose_free s f x :
  LkFtable ∉ s.(held) -> s.(ftable) !! f = Some (set_f_ref 1 x) -> x.(f_ref) = 0 -> x.(f_type) = FD_NONE ->
  fileclose f s = Ok tt (set_ftable (<[f := x]> s.(ftable)) s).
Proof.
  intros Hk Hf Hr Ht. rewrite (fileclose_last s f (set_f_ref 1 x)) by done. cbn [f_type set_f_ref]. rewrite Ht.
  unfold kret, closed_file. do 3 f_equal. rewrite <- Ht at 1. cbn. change (set_f_ref 0 x = x). rewrite <- Hr. reflexivity.
Qed.

(** C38: [pipealloc] always returns, and is all or nothing: on success the two
    files are the ends of one new, empty, open pipe; when the file table or
    memory is exhausted it returns -1 and the file table and the pipes are as
    before. *)
Theorem pipealloc_all_or_nothing (s : kstate) :
  LkFtable ∉ s.(held) -> LkKmem ∉ s.(held) ->
  (forall i x, s.(ftable) !! i = Some x -> x.(f_ref) = 0 -> x.(f_type) = FD_NONE) ->
  exists r s', pipealloc s = Ok r s' /\
  match r with
  | Some (i, j) =>
      exists p x y q, i <> j /\ s'.(ftable) !! i = Some x /\ s'.(ftable) !! j = Some y /\
        x.(f_type) = FD_PIPE /\ x.(f_readable) = true /\ x.(f_writable) = false /\ x.(f_pipe) = p /\ x.(f_ref) = 1 /\
        y.(f_type) = FD_PIPE /\ y.(f_readable) = false /\ y.(f_writable) = true /\ y.(f_pipe) = p /\ y.(f_ref) = 1 /\
        p <> 0 /\ s'.(pipes) !! p = Some q /\ q.(pi_nread) = 0 /\ q.(pi_nwrite) = 0 /\
        q.(pi_readopen) = 1 /\ q.(pi_writeopen) = 1
  | None => s'.(pipes) = s.(pipes) /\ s'.(ftable) = s.(ftable)
  end.
Proof.
  intros Hk Hm Hnone. unfold pipealloc, kbind at 1. rewrite filealloc_run by done.
  destruct (list_find _ s.(ftable)) as [[i x]|] eqn:E1.
  2:{ exists None, s. by split. }
  apply list_find_Some in E1 as (Hx & Hx0 & _). cbv beta in Hx0. pose proof (Hnone i x Hx Hx0) as Hxt.
  assert (i < length s.(ftable))%nat as Hi by (by eapply lookup_lt_Some).
  set (s1 := set_ftable (<[i := set_f_ref 1 x]> s.(ftable)) s). unfold kbind at 1. rewrite filealloc_run by done.
  destruct (list_find _ s1.(ftable)) as [[j y]|] eqn:E2.
  2:{ exists None, s. split; [|done].
      kexec by (apply (reclose_free s1 i x); [done|by apply list_lookup_insert_eq|done|done]).
      unfold kbind, kret, s1. cbn. by rewrite list_insert_insert_eq, list_insert_id. }
  apply list_find_Some in E2 as (Hy & Hy0 & _). cbv beta in Hy0.
  assert (i <> j) as Hij.
  { intros <-. unfold s1 in Hy. cbn in Hy. rewrite list_lookup_insert_eq in Hy by done. by simplify_eq. }
  assert (s.(ftable) !! j = Some y) as Hyj by (unfold s1 in Hy; cbn in Hy; by rewrite list_lookup_insert_ne in Hy).
  pose proof (Hnone j y Hyj Hy0) as Hyt. assert (j < length s.(ftable))%nat as Hj by (by eapply lookup_lt_Some).
  set (t2 := <[j := set_f_ref 1 y]> s1.(ftable)). set (s2 := set_ftable t2 s1).
  assert (t2 !! i = Some (set_f_ref 1 x)) as Hti.
  { unfold t2. rewrite list_lookup_insert_ne by done. by apply list_lookup_insert_eq. }
  assert (t2 !! j = Some (set_f_ref 1 y)) as Htj.
  { apply list_lookup_insert_eq. unfold s1. cbn. by rewrite length_insert. }
  kexec by (apply (kalloc_ok s2); done). change (freelist s2) with s.(freelist).
  destruct (Z.eqb_spec s.(freelist) 0) as [Ez|Ez].
  - exists None, s. split; [|done].
    kexec by (apply (reclose_free s2 i x); done).
    kexec by (apply (reclose_free _ j y); [done|cbn; rewrite list_lookup_insert_ne by done; done|done|done]).
    unfold kret, s2, t2, s1. cbn. do 2 f_equal.
    rewrite (list_insert_insert_ne _ i j), !list_insert_insert_eq by done.
    rewrite (list_insert_id _ i x) by done. by rewrite list_insert_id.
  - unfold kmod at 1, kbind at 1. cbn [ftable set_ftable pmem pipes set_freelist].
    kexec by (apply mod_file_run; exact Hti).
    kexec by (apply mod_file_run; cbn; rewrite list_lookup_insert_ne by done; exact Htj).
    eexists (Some (i, j)), _. split; [reflexivity|]. exists s.(freelist). eexists _, _, (mk_pipe _ 0 0 1 1).
    split_and!; [done|cbn; rewrite list_lookup_insert_ne by done; apply list_lookup_insert_eq; by eapply lookup_lt_Some
      |cbn; apply list_lookup_insert_eq; rewrite length_insert; by eapply lookup_lt_Some| ..]; try done.
    cbn. by rewrite lookup_insert_eq.
Qed.

(** Two slots, both free. *)
Definition free_file : file := mk_file FD_NONE 0 false false 0 None 0.

Lemma fileread_sequential_witness :
  exists s1 r2 d2 s2, @fileread no_devices 0 2 (set_ftable [mk_file FD_INODE 1 true false 0 (Some 0%nat) 0] hello_state)
      = Ok (2, [104; 101]) s1 /\ @fileread no_devices 0 9 s1 = Ok (r2, d2) s2.
Proof.
  destruct hello_ok as (Hi & Hf & Hd).
  set (x := mk_file FD_INODE 1 true false 0 (Some 0%nat) 0). set (s := set_ftable [x] hello_state).
  destruct (@fileread_sequential no_devices s 0 x 0 hello_inode 2 9) as (r1 & d1 & s1 & r2 & d2 & s2 & s3 & E1 & E2 & E3 & Er & Ed & _);
    [|lia|lia|lia|].
  - split; [exact Hi|]. split; [exact Hf|]. split.
    { change (held s) with (held (boot_cache hello_disk)). rewrite (proj1 (proj2 (proj2 (boot_cache_ok hello_disk hello_disk_wf)))). apply not_elem_of_nil. }
    split; [reflexivity|]. do 3 (split; [reflexivity|]). split; [simpl; lia|]. split; [reflexivity|].
    split; [simpl; lia|]. split; [reflexivity|]. split; [discriminate|]. split; [simpl; lia|].
    intros o Ho. simpl in Ho. unfold BSIZE. rewrite Z.div_small by lia.
    assert (addr_of s hello_inode 0 = 10) as Ea by reflexivity. unfold mapped. rewrite Ea.
    split; [split; [lia|reflexivity]|]. split; [lia|]. split; [apply drive1_can_read; lia|]. unfold NDIRECT. lia.
  - assert (r1 = 2) as Er1 by (rewrite Er; reflexivity). rewrite Er1 in *.
    assert (d1 = [104; 101]) as Ed1 by (rewrite Ed; reflexivity). rewrite Ed1 in *.
    exists s1, r2, d2, s2. split; [exact E1|exact E2].
Defined.

Lemma close_on_last_reference_witness :
  let x := mk_file FD_PIPE 3 true false 0x200000 None 0 in
  let s := set_ftable [x] bare_state in
  exists s1, closes 2 0 s = Ok tt s1 /\
    fileclose 0 s1 = pipeclose 0x200000 false (set_ftable [closed_file x] s).
Proof.
  intros x s. destruct (close_on_last_reference s 0 2 x) as (s1 & E1 & _ & E2);
    [apply not_elem_of_nil|reflexivity|reflexivity|reflexivity|].
  exists s1. split; [exact E1|exact E2].
Defined.

Lemma pipealloc_all_or_nothing_witness :
  exists r s', pipealloc (set_ftable [free_file; free_file] bare_state) = Ok r s'.
Proof.
  destruct (pipealloc_all_or_nothing (set_ftable [free_file; free_file] bare_state)) as (r & s' & E & _);
    [apply not_elem_of_nil|apply not_elem_of_nil| |by exists r, s'].
  intros [|[|i]] x Hx _; by simplify_eq/=.
Defined.
