(* ===== verification/Vm.v ===== *)
(** Virtual memory: vm.c and the page-table part of mmu.h.

    Page directories and page tables live in physical memory ([pmem]) as the
    hardware reads them: 1024 words of 32 bits each.  A null pointer result is
    [None] for [walkpgdir] and 0 elsewhere, as in C. *)

From S2P Require Import Prelude CString State Kalloc ProcSync Console Bytes Inode.

Definition USERTOP : Z := 0xA0000.
Definition NPDENTRIES : nat := 1024.

Definition PTE_P : Z := 0x001.
Definition PTE_W : Z := 0x002.
Definition PTE_U : Z := 0x004.

Definition PDX (la : Z) : Z := Z.land (Z.shiftr la 22) 0x3FF.
Definition PTX (la : Z) : Z := Z.land (Z.shiftr la 12) 0x3FF.
Definition PTE_ADDR (pte : Z) : Z := Z.land pte (lnot32 0xFFF).

(** Words of physical memory. *)
Definition peek (a : Z) : K Z := kget (fun s => load32 s.(pmem) a).
Definition poke (a v : Z) : K unit := kmod (fun s => set_pmem (store32 a v s.(pmem)) s).
Definition kmemset (a c n : Z) : K unit := kmod (fun s => set_pmem (memset a c n s.(pmem)) s).
Definition kmemmove (dst src n : Z) : K unit := kmod (fun s => set_pmem (memmove dst src n s.(pmem)) s).

(** The MMU: the physical address of linear address [va] under the page table
    in [cr3].  The kernel runs with write protection off, so only the present
    bits matter to it. *)
Definition mmu (va : Z) : K Z :=
  let* d := kget (fun s => s.(cr3)) in
  let* e := peek (d + 4 * PDX va) in
  if Z.land e PTE_P =? 0 then kfault "page fault" else
  let* p := peek (PTE_ADDR e + 4 * PTX va) in
  if Z.land p PTE_P =? 0 then kfault "page fault" else
  kret (PTE_ADDR p + va mod PGSIZE).

(** The kernel's accesses through pointers a process passed to it.  Above
    [USERTOP] lies the kernel itself, whose memory is not bytes of the model. *)
Definition ld8 (va : Z) : K Z :=
  if va >=? USERTOP then kfault "kernel address" else
  let* a := mmu va in kget (fun s => load8 s.(pmem) a).
Definition st8 (va v : Z) : K unit :=
  if va >=? USERTOP then kfault "kernel address" else
  let* a := mmu va in kmod (fun s => set_pmem (store8 a v s.(pmem)) s).

Fixpoint ld_bytes (n : nat) (va : Z) : K (list Z) :=
  match n with
  | O => kret []
  | S n' => let* b := ld8 va in let* l := ld_bytes n' (va + 1) in kret (b :: l)
  end.

Fixpoint st_bytes (va : Z) (l : list Z) : K unit :=
  match l with
  | [] => kret tt
  | b :: l' => st8 va b ;;; st_bytes (va + 1) l'
  end.

Definition ld32 (va : Z) : K Z := let* l := ld_bytes 4 va in kret (le_val l).
Definition st32 (va v : Z) : K unit := st_bytes va (le_bytes 4 (u32 v)).
Definition st16 (va v : Z) : K unit := st_bytes va (le_bytes 2 (u16 v)).

Definition walkpgdir (pgdir va : Z) (create : bool) : K (option Z) :=
  let pde := pgdir + 4 * PDX va in
  let* e := peek pde in
  if negb (Z.land e PTE_P =? 0) then kret (Some (PTE_ADDR e + 4 * PTX va))
  else if negb create then kret None
  else
    let* r := kalloc in
    if r =? 0 then kret None
    else
      kmemset r 0 PGSIZE ;;;
      poke pde (Z.lor (Z.lor (Z.lor r PTE_P) PTE_W) PTE_U) ;;;
      kret (Some (r + 4 * PTX va)).

(** The loop of [mappages]; the fuel is the number of pages left. *)
Fixpoint mappages_loop (fuel : nat) (pgdir a last pa perm : Z) : K bool :=
  match fuel with
  | O => kfault "fuel"
  | S f =>
      let* o := walkpgdir pgdir a true in
      match o with
      | None => kret false
      | Some pte =>
          let* e := peek pte in
          if negb (Z.land e PTE_P =? 0) then panic "remap" else
          poke pte (Z.lor (Z.lor pa perm) PTE_P) ;;;
          if a =? last then kret true
          else mappages_loop f pgdir (u32 (a + PGSIZE)) last (u32 (pa + PGSIZE)) perm
      end
  end.

Definition mappages (pgdir la size pa perm : Z) : K bool :=
  let a := PGROUNDDOWN la in
  let last := PGROUNDDOWN (u32 (la + size - 1)) in
  mappages_loop (S (Z.to_nat (u32 (last - a) / PGSIZE))) pgdir a last pa perm.

Definition setupkvm : K Z :=
  let* pgdir := kalloc in
  if pgdir =? 0 then kret 0 else
  kmemset pgdir 0 PGSIZE ;;;
  let* m1 := mappages pgdir USERTOP 0x60000 USERTOP PTE_W in
  if negb m1 then kret 0 else
  let* m2 := mappages pgdir 0x100000 (PHYSTOP - 0x100000) 0x100000 PTE_W in
  if negb m2 then kret 0 else
  let* m3 := mappages pgdir 0xFE000000 0x2000000 0xFE000000 PTE_W in
  if negb m3 then kret 0 else
  kret pgdir.

Definition kvmalloc : K unit :=
  let* p := setupkvm in kmod (set_kpgdir p).

Definition switchkvm : K unit := kmod (fun s => set_cr3 s.(kpgdir) s).

(** The task segment's stack pointer is a register; the rest of the hardware
    set-up is the same for every process. *)
Definition switchuvm (p : nat) : K unit :=
  let* me := myproc in
  let* _ := get_proc me in
  let* q := get_proc p in
  if q.(p_pgdir) =? 0 then panic "switchuvm: no pgdir" else
  kmod (set_cr3 q.(p_pgdir)).

Definition uva2ka (pgdir uva : Z) : K Z :=
  let* o := walkpgdir pgdir uva false in
  match o with
  | None => kret 0
  | Some pte => let* e := peek pte in kret (PTE_ADDR e)
  end.

(** [init] is the bytes of the program. *)
Definition inituvm (pgdir : Z) (init : list Z) (sz : Z) : K unit :=
  let* m := kalloc in
  if sz >=? PGSIZE then panic "inituvm: more than a page" else
  kmemset m 0 PGSIZE ;;;
  let* _ := mappages pgdir 0 PGSIZE m (Z.lor PTE_W PTE_U) in
  kmod (fun s => set_pmem (put_bytes m (take (Z.to_nat sz) init) s.(pmem)) s).

Fixpoint loaduvm_loop `{Devsw} (fuel : nat) (pgdir addr : Z) (ip : nat) (offset sz i : Z) : K bool :=
  if i <? sz then
    match fuel with
    | O => kfault "fuel"
    | S f =>
        let* o := walkpgdir pgdir (u32 (addr + i)) false in
        match o with
        | None => panic "loaduvm: address should exist"
        | Some pte =>
            let* e := peek pte in
            let n := if sz - i <? PGSIZE then sz - i else PGSIZE in
            let* r := readi ip (u32 (offset + i)) n in
            kmod (fun s => set_pmem (put_bytes (PTE_ADDR e) r.2 s.(pmem)) s) ;;;
            if negb (u32 r.1 =? n) then kret false
            else loaduvm_loop f pgdir addr ip offset sz (u32 (i + PGSIZE))
        end
    end
  else kret true.

Definition loaduvm `{Devsw} (pgdir addr : Z) (ip : nat) (offset sz : Z) : K bool :=
  if negb (addr mod PGSIZE =? 0) then panic "loaduvm: addr must be page aligned" else
  loaduvm_loop (S (Z.to_nat (sz / PGSIZE))) pgdir addr ip offset sz 0.

(** [for(; a <= last; a += PGSIZE)], with its iterations bounded by the fuel. *)
Fixpoint dealloc_loop (fuel : nat) (pgdir a last : Z) : K unit :=
  if a <=? last then
    match fuel with
    | O => kfault "fuel"
    | S f =>
        let* o := walkpgdir pgdir a false in
        match o with
        | None => kret tt
        | Some pte =>
            let* e := peek pte in
            if Z.land e PTE_P =? 0 then kret tt else
            let pa := PTE_ADDR e in
            if pa =? 0 then panic "kfree" else
            kfree pa ;;;
            poke pte 0
        end ;;;
        dealloc_loop f pgdir (u32 (a + PGSIZE)) last
    end
  else kret tt.

(** Pages from [a] to [last]. *)
Definition npages (a last : Z) : nat := Z.to_nat ((last - a) / PGSIZE + 1).

Definition deallocuvm (pgdir oldsz newsz : Z) : K Z :=
  let a := PGROUNDUP newsz in
  let last := PGROUNDDOWN (u32 (oldsz - 1)) in
  dealloc_loop (npages a last) pgdir a last ;;;
  kret (if newsz <? oldsz then newsz else oldsz).

Fixpoint alloc_loop (fuel : nat) (pgdir oldsz newsz a last : Z) : K Z :=
  if a <=? last then
    match fuel with
    | O => kfault "fuel"
    | S f =>
        let* m := kalloc in
        if m =? 0 then
          cprintf (str "allocuvm out of memory" ++ [10]) [] ;;;
          deallocuvm pgdir newsz oldsz ;;;
          kret 0
        else
        kmemset m 0 PGSIZE ;;;
        let* _ := mappages pgdir a PGSIZE m (Z.lor PTE_W PTE_U) in
        alloc_loop f pgdir oldsz newsz (u32 (a + PGSIZE)) last
    end
  else kret (if newsz >? oldsz then newsz else oldsz).

Definition allocuvm (pgdir oldsz newsz : Z) : K Z :=
  if newsz >? USERTOP then kret 0 else
  let a := PGROUNDUP oldsz in
  let last := PGROUNDDOWN (u32 (newsz - 1)) in
  alloc_loop (npages a last) pgdir oldsz newsz a last.

Definition freevm (pgdir : Z) : K unit :=
  if pgdir =? 0 then panic "freevm: no pgdir" else
  deallocuvm pgdir USERTOP 0 ;;;
  kfor (seq 0 NPDENTRIES) (fun i =>
    let* e := peek (pgdir + 4 * Z.of_nat i) in
    if Z.land e PTE_P =? 0 then kret tt else kfree (PTE_ADDR e)) ;;;
  kfree pgdir.

(** The loop of [copyuvm]; [false] stands for the jump to [bad]. *)
Fixpoint copy_loop (fuel : nat) (pgdir d sz i : Z) : K bool :=
  if i <? sz then
    match fuel with
    | O => kfault "fuel"
    | S f =>
        let* o := walkpgdir pgdir i false in
        match o with
        | None => panic "copyuvm: pte should exist"
        | Some pte =>
            let* e := peek pte in
            if Z.land e PTE_P =? 0 then panic "copyuvm: page not present" else
            let* m := kalloc in
            if m =? 0 then kret false else
            kmemmove m (PTE_ADDR e) PGSIZE ;;;
            let* ok := mappages d i PGSIZE m (Z.lor PTE_W PTE_U) in
            if negb ok then kret false else copy_loop f pgdir d sz (u32 (i + PGSIZE))
        end
    end
  else kret true.

Definition copyuvm (pgdir sz : Z) : K Z :=
  let* d := setupkvm in
  if d =? 0 then kret 0 else
  let* ok := copy_loop (S (Z.to_nat (sz / PGSIZE))) pgdir d sz 0 in
  if ok then kret d else freevm d ;;; kret 0.

(** ** Index arithmetic *)

Lemma PDX_eq va : 0 <= va < 2 ^ 32 -> PDX va = va / 2 ^ 22.
Proof.
  intros. unfold PDX. change 0x3FF with (Z.ones 10). rewrite Z.land_ones, Z.shiftr_div_pow2 by lia.
  apply Z.mod_small. split; [apply Z.div_pos; lia|]. apply Z.div_lt_upper_bound; lia.
Qed.

Lemma PTX_eq va : 0 <= va -> PTX va = (va / PGSIZE) mod 1024.
Proof.
  intros. unfold PTX. change 0x3FF with (Z.ones 10). by rewrite Z.land_ones, Z.shiftr_div_pow2 by lia.
Qed.

Lemma PDX_range va : 0 <= PDX va < 1024.
Proof.
  unfold PDX. change 0x3FF with (Z.ones 10). rewrite Z.land_ones by lia. apply Z.mod_pos_bound. lia.
Qed.

Lemma PTX_range va : 0 <= PTX va < 1024.
Proof.
  unfold PTX. change 0x3FF with (Z.ones 10). rewrite Z.land_ones by lia. apply Z.mod_pos_bound. lia.
Qed.

(** The two indices determine the page. *)
Lemma page_index va : 0 <= va < 2 ^ 32 -> va / PGSIZE = PDX va * 1024 + PTX va.
Proof.
  intros. rewrite PDX_eq, PTX_eq by lia. unfold PGSIZE.
  replace (va / 2 ^ 22) with (va / 4096 / 1024) by (rewrite Z.div_div by lia; done).
  pose proof (Z.div_mod (va / 4096) 1024 ltac:(done)). lia.
Qed.

Lemma same_page va va' :
  0 <= va < 2 ^ 32 -> 0 <= va' < 2 ^ 32 ->
  PDX va = PDX va' /\ PTX va = PTX va' <-> va / PGSIZE = va' / PGSIZE.
Proof.
  intros H1 H2. rewrite !page_index by done.
  pose proof (PTX_range va). pose proof (PTX_range va'). split; [intros [-> ->]; done|lia].
Qed.

Lemma PTE_ADDR_eq e : 0 <= e < 2 ^ 32 -> PTE_ADDR e = e / PGSIZE * PGSIZE.
Proof.
  intros. pose proof (PGROUNDDOWN_eq e) as E. rewrite u32_small in E by done. rewrite <- E.
  unfold PTE_ADDR, PGROUNDDOWN. by rewrite u32_small.
Qed.

(** A page address and flag bits do not overlap. *)
Lemma lor_low a b : a mod PGSIZE = 0 -> 0 <= b < PGSIZE -> Z.lor a b = a + b.
Proof.
  unfold PGSIZE. intros Ha Hb. symmetry. rewrite <- Z.lxor_lor, Z.add_nocarry_lxor; [done| |].
  all: apply Z.bits_inj'; intros n Hn; rewrite Z.land_spec, Z.bits_0.
  all: apply Z.mod_divide in Ha as [k ->]; [|done]; destruct (decide (n < 12)) as [Hlt|Hge].
  all: try (change 4096 with (2 ^ 12); rewrite Z.mul_pow2_bits_low by lia; done).
  all: rewrite (Z.bits_above_log2 b), andb_false_r; [done|lia|].
  all: destruct (decide (b = 0)) as [->|]; [simpl; lia|].
  all: assert (Z.log2 b < 12) by (apply Z.log2_lt_pow2; lia); lia.
Qed.

(** A page-table entry: page address, permissions, present. *)
Definition mk_pte (pa perm : Z) : Z := Z.lor (Z.lor pa perm) PTE_P.

Lemma perm_bound perm : 0 <= perm < PGSIZE -> 0 <= Z.lor perm PTE_P < PGSIZE.
Proof.
  intros. split; [apply Z.lor_nonneg; unfold PTE_P; lia|].
  unfold PGSIZE in *. destruct (decide (perm = 0)) as [->|]; [done|].
  apply Z.log2_lt_cancel. change (Z.log2 4096) with 12. rewrite Z.log2_lor by (unfold PTE_P; lia).
  change (Z.log2 PTE_P) with 0. rewrite Z.max_l by apply Z.log2_nonneg.
  apply Z.log2_lt_pow2; lia.
Qed.

Lemma mk_pte_eq pa perm :
  pa mod PGSIZE = 0 -> 0 <= perm < PGSIZE -> mk_pte pa perm = pa + Z.lor perm PTE_P.
Proof. intros. unfold mk_pte. rewrite <- Z.lor_assoc. apply lor_low; [done|]. by apply perm_bound. Qed.

Lemma mk_pte_present pa perm : Z.land (mk_pte pa perm) PTE_P <> 0.
Proof.
  unfold mk_pte. rewrite Z.land_lor_distr_l, Z.land_diag.
  intros E%Z.lor_eq_0_iff. destruct E as [_ E]. discriminate E.
Qed.

Lemma mk_pte_addr pa perm :
  0 <= pa < 2 ^ 32 -> pa mod PGSIZE = 0 -> 0 <= perm < PGSIZE ->
  u32 (mk_pte pa perm) = mk_pte pa perm /\ PTE_ADDR (mk_pte pa perm) = pa.
Proof.
  intros Hr Ha Hp. pose proof (perm_bound perm Hp) as Hb. rewrite mk_pte_eq by done.
  set (b := Z.lor perm PTE_P) in *. unfold PGSIZE in *. pose proof (Z.div_mod pa 4096 ltac:(done)).
  assert (pa + b < 2 ^ 32) by lia. split; [apply u32_small; lia|].
  rewrite PTE_ADDR_eq by lia. unfold PGSIZE.
  assert ((pa + b) / 4096 = pa / 4096) as -> by (symmetry; apply (Z.div_unique _ _ _ b); lia). lia.
Qed.

(** ** Pages by number *)

(** The pages of [U] with numbers [i], .., [i + n - 1]. *)
Definition range_pages (U : gmap Z Z) (i n : Z) : list Z := omap (fun k => U !! k) (seqZ i n).

Lemma range_pages_S U i n :
  0 < n -> range_pages U i n = (match U !! i with Some v => [v] | None => [] end) ++ range_pages U (i + 1) (n - 1).
Proof.
  intros. unfold range_pages. rewrite (seqZ_cons i n), Z.add_1_r, <- Z.sub_1_r by lia. simpl.
  by destruct (U !! i).
Qed.

Lemma elem_of_range_pages U i n v :
  v ∈ range_pages U i n <-> exists k, i <= k < i + n /\ U !! k = Some v.
Proof.
  unfold range_pages. rewrite list_elem_of_omap. by setoid_rewrite elem_of_seqZ.
Qed.

Lemma range_pages_delete U i k n : k < i -> range_pages (delete k U) i n = range_pages U i n.
Proof.
  intros H. unfold range_pages. apply list_omap_ext, Forall_Forall2_diag, Forall_forall.
  intros x [Hx _]%elem_of_seqZ. by rewrite lookup_delete_ne by lia.
Qed.

Lemma range_pages_app U i n m :
  0 <= n -> 0 <= m -> range_pages U i (n + m) = range_pages U i n ++ range_pages U (i + n) m.
Proof. intros. unfold range_pages. by rewrite seqZ_app, omap_app. Qed.

Lemma range_pages_none U i n : (forall k, i <= k < i + n -> U !! k = None) -> range_pages U i n = [].
Proof.
  intros H. unfold range_pages. assert (forall k, k ∈ seqZ i n -> U !! k = None) as H'
    by (intros k Hk%elem_of_seqZ; auto).
  induction (seqZ i n) as [|k l IH]; [done|]. simpl. rewrite H' by left. apply IH.
  intros k' Hk'. apply H'. by right.
Qed.

Lemma range_pages_insert U i k q n : i + n <= k -> range_pages (<[k := q]> U) i n = range_pages U i n.
Proof.
  intros H. unfold range_pages. apply list_omap_ext, Forall_Forall2_diag, Forall_forall.
  intros x [_ Hx]%elem_of_seqZ. by rewrite lookup_insert_ne by lia.
Qed.

(** A new page appears once. *)
Lemma range_pages_add U i n k q :
  i <= k < i + n -> U !! k = None -> range_pages (<[k := q]> U) i n ≡ₚ q :: range_pages U i n.
Proof.
  intros Hk Hn. assert (forall V, range_pages V i n = range_pages V i (k - i) ++ range_pages V k (n - (k - i))) as Hs.
  { intros V. replace n with ((k - i) + (n - (k - i))) at 1 by lia. rewrite range_pages_app by lia.
    do 2 f_equal. lia. }
  rewrite (Hs (<[k := q]> U)), (Hs U), range_pages_insert by lia.
  rewrite (range_pages_S (<[k := q]> U)), (range_pages_S U k) by lia. rewrite lookup_insert_eq, Hn.
  rewrite <- (range_pages_delete (<[k := q]> U) (k + 1) k), delete_insert_eq, range_pages_delete by lia.
  symmetry. apply Permutation_middle.
Qed.

Opaque range_pages.

(** ** Page tables as maps

    [pt_ok m pgdir T]: the page directory at [pgdir] lists exactly the page
    tables of [T] (directory index to page), each in a page of its own. *)
Definition own (pgdir : Z) (T : gmap Z Z) (v : Z) : Prop := v = pgdir \/ exists i, T !! i = Some v.

Definition pde_ok (e : Z) (o : option Z) : Prop :=
  match o with
  | Some t => PTE_ADDR e = t /\ Z.land e PTE_P <> 0
  | None => Z.land e PTE_P = 0
  end.

Record pt_ok (m : mem) (pgdir : Z) (T : gmap Z Z) : Prop := {
  pt_dir : page_ok pgdir;
  pt_entries i : 0 <= i < 1024 -> pde_ok (load32 m (pgdir + 4 * i)) (T !! i);
  pt_tables i t : T !! i = Some t -> 0 <= i < 1024 /\ page_ok t /\ t <> pgdir;
  pt_inj i j t : T !! i = Some t -> T !! j = Some t -> i = j
}.

(** The page-table entry of an address; no table, no entry. *)
Definition entry (m : mem) (T : gmap Z Z) (va : Z) : Z :=
  match T !! PDX va with
  | Some t => load32 m (t + 4 * PTX va)
  | None => 0
  end.

(** A page table, the free list beside it, and no page in both. *)
Record vm_inv (s : kstate) (pgdir : Z) (T : gmap Z Z) (l : list Z) : Prop := {
  vm_pt : pt_ok s.(pmem) pgdir T;
  vm_free : free_pages s l;
  vm_disjoint v : own pgdir T v -> v ∉ l;
  vm_lock : LkKmem ∉ s.(held)
}.

(** Pages outside [W] keep their bytes. *)
Definition untouched (W : Z -> Prop) (m m' : mem) : Prop :=
  forall v b, page_ok v -> ~ W v -> v <= b < v + PGSIZE -> load8 m' b = load8 m b.

(** Only the allocator and physical memory change. *)
Definition vm_step (s s' : kstate) : Prop := exists f m, s' = set_freelist f (set_pmem m s).

(** One operation on a page table: from [T] and the free pages [l] to [T'] and
    what is left of [l]. *)
Record grows (pgdir : Z) (s : kstate) (T : gmap Z Z) (l : list Z)
    (s' : kstate) (T' : gmap Z Z) (l' : list Z) : Prop := {
  gr_step : vm_step s s';
  gr_inv : vm_inv s' pgdir T' l';
  gr_free : exists k, l = k ++ l';
  gr_count : range_pages T' 0 1024 ++ l' ≡ₚ range_pages T 0 1024 ++ l;
  gr_mono i t : T !! i = Some t -> T' !! i = Some t;
  gr_new v : own pgdir T' v -> own pgdir T v \/ v ∈ l;
  gr_kept : untouched (fun v => own pgdir T v \/ v ∈ l) s.(pmem) s'.(pmem)
}.

Lemma vm_step_trans s1 s2 s3 : vm_step s1 s2 -> vm_step s2 s3 -> vm_step s1 s3.
Proof. intros (f & m & ->) (f' & m' & ->). by exists f', m'. Qed.

Lemma grows_refl pgdir s T l : vm_inv s pgdir T l -> grows pgdir s T l s T l.
Proof.
  intros H. split; [by exists s.(freelist), s.(pmem)|done|by exists []|done|done|by left|].
  intros v b _ _ _. done.
Qed.

Lemma grows_trans pgdir s1 T1 l1 s2 T2 l2 s3 T3 l3 :
  grows pgdir s1 T1 l1 s2 T2 l2 -> grows pgdir s2 T2 l2 s3 T3 l3 ->
  grows pgdir s1 T1 l1 s3 T3 l3.
Proof.
  intros [A1 A2 [k A3] AC A4 A5 A6] [B1 B2 [k' B3] BC B4 B5 B6].
  assert (forall v, v ∈ l2 -> v ∈ l1) as Hl by (intros; rewrite A3; set_solver).
  split; [by eapply vm_step_trans|done|exists (k ++ k'); by rewrite <- app_assoc, <- B3|by rewrite BC| | |].
  - intros. by apply B4, A4.
  - intros v [Hv|Hv]%B5; [by apply A5|]. right. auto.
  - intros v b Hp Hw Hb. rewrite (B6 v b), (A6 v b); [done..| |done].
    intros [Hv|Hv]; apply Hw; [by apply A5|]. right. auto.
Qed.

Lemma load32_untouched W m m' v a :
  untouched W m m' -> page_ok v -> ~ W v -> v <= a -> a + 4 <= v + PGSIZE ->
  load32 m' a = load32 m a.
Proof. intros H Hv Hw Ha Hb. unfold load32. rewrite !(H v) by (done || lia). done. Qed.

(** The free list survives memory writes that stay away from it. *)
Lemma free_pages_untouched W s m' l :
  free_pages s l -> untouched W s.(pmem) m' -> (forall v, v ∈ l -> ~ W v) ->
  free_pages (set_pmem m' s) l.
Proof.
  intros [Hc Hd] Hu Hw. split; [|done]. simpl. apply (chain_ext s.(pmem)); [|done].
  intros p Hp. apply (load32_untouched W _ _ p); auto; unfold PGSIZE; [|lia..].
  by eapply chain_page_ok.
Qed.

Lemma untouched_store32 p a v m :
  page_ok p -> p <= a -> a + 4 <= p + PGSIZE -> untouched (eq p) m (store32 a v m).
Proof.
  intros Hp H1 H2 q b Hq Hn Hb. apply load8_store32_ne.
  destruct (page_ok_disjoint p q Hp Hq Hn); lia.
Qed.

Lemma untouched_memset p c m : page_ok p -> untouched (eq p) m (memset p c PGSIZE m).
Proof.
  intros Hp q b Hq Hn Hb. rewrite load8_memset by done.
  destruct (page_ok_disjoint p q Hp Hq Hn); zcases; done.
Qed.

Lemma untouched_trans (W1 W2 W : Z -> Prop) m1 m2 m3 :
  untouched W1 m1 m2 -> untouched W2 m2 m3 ->
  (forall v, W1 v -> W v) -> (forall v, W2 v -> W v) -> untouched W m1 m3.
Proof. intros H1 H2 I1 I2 v b Hv Hw Hb. rewrite (H2 v b), (H1 v b); auto. Qed.

Lemma untouched_weaken (W W' : Z -> Prop) m m' :
  untouched W m m' -> (forall v, W v -> W' v) -> untouched W' m m'.
Proof. intros H I v b Hv Hw Hb. apply (H v b); auto. Qed.

Section walk.
Context (pgdir : Z).
Implicit Types (s : kstate) (T : gmap Z Z) (l : list Z).

Lemma pde_lookup s T va :
  pt_ok s.(pmem) pgdir T -> pde_ok (load32 s.(pmem) (pgdir + 4 * PDX va)) (T !! PDX va).
Proof. intros H. apply (pt_entries _ _ _ H), PDX_range. Qed.

Lemma walkpgdir_hit s T va create t :
  pt_ok s.(pmem) pgdir T -> T !! PDX va = Some t ->
  walkpgdir pgdir va create s = Ok (Some (t + 4 * PTX va)) s.
Proof.
  intros H Ht. pose proof (pde_lookup s T va H) as E. rewrite Ht in E. destruct E as [E1 E2].
  unfold walkpgdir, peek, kget, kbind. rewrite (proj2 (Z.eqb_neq _ 0) E2). simpl. by rewrite E1.
Qed.

Lemma walkpgdir_miss s T va :
  pt_ok s.(pmem) pgdir T -> T !! PDX va = None -> walkpgdir pgdir va false s = Ok None s.
Proof.
  intros H Ht. pose proof (pde_lookup s T va H) as E. rewrite Ht in E. simpl in E.
  unfold walkpgdir, peek, kget, kbind. rewrite (proj2 (Z.eqb_eq _ 0) E). done.
Qed.

Lemma walkpgdir_full s T va :
  vm_inv s pgdir T [] -> T !! PDX va = None -> walkpgdir pgdir va true s = Ok None s.
Proof.
  intros [H Hf _ Hk] Ht. pose proof (pde_lookup s T va H) as E. rewrite Ht in E. simpl in E.
  unfold walkpgdir, peek, kget, kbind. rewrite (proj2 (Z.eqb_eq _ 0) E). simpl.
  rewrite kalloc_ok by done. destruct Hf as [Hf _]. simpl in Hf. rewrite Hf. done.
Qed.

Definition new_pde (r : Z) : Z := Z.lor (Z.lor (Z.lor r PTE_P) PTE_W) PTE_U.

Lemma new_pde_ok r : page_ok r -> pde_ok (u32 (new_pde r)) (Some r).
Proof.
  intros [Ha Hr]. unfold PHYSTOP in Hr. assert (new_pde r = mk_pte r 6) as ->.
  { unfold new_pde, mk_pte. rewrite <- !Z.lor_assoc. done. }
  destruct (mk_pte_addr r 6) as [-> E]; [lia|done|unfold PGSIZE; lia|].
  split; [done|apply mk_pte_present].
Qed.

(** Adding an empty page table for a directory index that has none. *)
Lemma add_table s T r l va :
  vm_inv s pgdir T (r :: l) -> T !! PDX va = None ->
  exists f, let m := store32 (pgdir + 4 * PDX va) (new_pde r) (memset r 0 PGSIZE s.(pmem)) in
    kalloc s = Ok r (set_freelist f s) /\
    grows pgdir s T (r :: l) (set_freelist f (set_pmem m s)) (<[PDX va := r]> T) l /\
    (forall va', entry m (<[PDX va := r]> T) va' = entry s.(pmem) T va').
Proof.
  intros [H Hf Hd Hk] Ht. destruct (kalloc_free_pages s r l Hf Hk) as (f & E & Hf').
  pose proof (PDX_range va) as Hx. pose proof (pt_dir _ _ _ H) as Hpd.
  assert (page_ok r) as Hr by (destruct Hf as [(_ & ? & _) _]; done).
  assert (r <> pgdir) as Hne by (intros ->; apply (Hd pgdir); [by left|by left]).
  exists f. cbv zeta. set (m := store32 _ _ _).
  assert (untouched (fun v => r = v \/ pgdir = v) s.(pmem) m) as Hu.
  { eapply untouched_trans; [apply (untouched_memset r 0); done|
      apply (untouched_store32 pgdir); [done|lia|unfold PGSIZE; lia]|auto|auto]. }
  assert (forall i t, T !! i = Some t -> r <> t /\ pgdir <> t) as Hold.
  { intros i t Hi. destruct (pt_tables _ _ _ H i t Hi) as (_ & _ & ?). split; [|done].
    intros ->. apply (Hd t); [right; by exists i|by left]. }
  assert (forall va', entry m (<[PDX va := r]> T) va' = entry s.(pmem) T va') as Hent.
  { intros va'. unfold entry. pose proof (PTX_range va'). destruct (decide (PDX va = PDX va')) as [<-|Hn].
    - rewrite lookup_insert_eq, Ht. unfold m. pose proof (page_ok_disjoint r pgdir Hr Hpd Hne).
      rewrite load32_store32_ne by (unfold PGSIZE in *; lia).
      apply load32_memset0; unfold PGSIZE; lia.
    - rewrite lookup_insert_ne by done. destruct (T !! PDX va') as [t|] eqn:Ht'; [|done].
      destruct (pt_tables _ _ _ H _ _ Ht') as (_ & ? & _). destruct (Hold _ _ Ht').
      apply (load32_untouched _ _ _ t _ Hu); [done|tauto|lia|unfold PGSIZE; lia]. }
  split_and!; [done| |done].
  assert (forall v, own pgdir (<[PDX va := r]> T) v -> v = r \/ own pgdir T v) as Hown.
  { intros v [->|(i & Hi)]; [by right; left|]. apply lookup_insert_Some in Hi as [[_ <-]|[_ Hi]]; [by left|].
    right. right. by exists i. }
  assert (NoDup (r :: l)) as [Hrl _]%NoDup_cons by apply Hf.
  split; [by eexists f, m| |by exists [r]| | | |].
  - split; [split; [done| | |]| | |done].
    + intros i Hi. destruct (decide (i = PDX va)) as [->|Hn].
      * rewrite lookup_insert_eq. unfold m. cbn [set_freelist set_pmem pmem]. rewrite load32_store32.
        by apply new_pde_ok.
      * rewrite lookup_insert_ne by done. cbn [set_freelist set_pmem pmem]. unfold m.
        rewrite load32_store32_ne by lia.
        pose proof (page_ok_disjoint r pgdir Hr Hpd Hne).
        rewrite load32_memset_ne by (unfold PGSIZE in *; lia). by apply (pt_entries _ _ _ H).
    + intros i t [[<- <-]|[_ Hi]]%lookup_insert_Some; [done|]. by apply (pt_tables _ _ _ H).
    + intros i j t [[<- <-]|[Hi' Hi]]%lookup_insert_Some [[<- E2]|[Hj' Hj]]%lookup_insert_Some; try done.
      * by destruct (Hold _ _ Hj).
      * subst t. by destruct (Hold _ _ Hi).
      * by apply (pt_inj _ _ _ H i j t).
    + apply (free_pages_untouched (fun v => r = v \/ pgdir = v) (set_freelist f s) m l); [done|exact Hu|].
      intros v Hv [<-| <-]; [done|]. apply (Hd pgdir); [by left|by right].
    + intros v [->|Hv]%Hown; [done|]. intros Hl. apply (Hd v Hv). by right.
  - rewrite range_pages_add by (done || lia). simpl. apply Permutation_middle.
  - intros i t Hi. rewrite lookup_insert_ne; [done|]. congruence.
  - intros v [->|Hv]%Hown; [right; by left|by left].
  - apply (untouched_weaken _ _ _ _ Hu). intros v [<-| <-]; [right; by left|left; by left].
Qed.

(** Directory indices that still need a table for [n] pages from [a] on. *)
Fixpoint missing (D : gset Z) (a : Z) (n : nat) : nat :=
  match n with
  | O => O
  | S n' =>
      ((if decide (PDX a ∈ D) then 0 else 1) + missing ({[PDX a]} ∪ D) (a + PGSIZE) n')%nat
  end.

(** The directory indices of [n] pages from [a] on. *)
Fixpoint dirs (a : Z) (n : nat) : gset Z :=
  match n with
  | O => ∅
  | S n' => dirs (a + PGSIZE) n' ∪ {[PDX a]}
  end.

Lemma walkpgdir_create s T l va :
  vm_inv s pgdir T l -> (missing (dom T) va 1 <= length l)%nat ->
  exists s' T' l' t, walkpgdir pgdir va true s = Ok (Some (t + 4 * PTX va)) s' /\
    grows pgdir s T l s' T' l' /\ T' !! PDX va = Some t /\
    (forall va', entry s'.(pmem) T' va' = entry s.(pmem) T va') /\
    dom T' = {[PDX va]} ∪ dom T /\ length l = (missing (dom T) va 1 + length l')%nat.
Proof.
  intros Hi Hl. cbn [missing] in *. destruct (T !! PDX va) as [t|] eqn:Ht.
  - assert (PDX va ∈ dom T) as Hd by (by apply elem_of_dom_2 in Ht).
    exists s, T, l, t. rewrite decide_True by done.
    split; [exact (walkpgdir_hit s T va true t (vm_pt _ _ _ _ Hi) Ht)|].
    split; [by apply grows_refl|]. split; [exact Ht|]. split; [reflexivity|].
    split; [|reflexivity]. symmetry. by apply subseteq_union_1_L, singleton_subseteq_l.
  - assert (PDX va ∉ dom T) as Hd by (by apply not_elem_of_dom).
    rewrite decide_False in * by done. destruct l as [|r l]; [simpl in Hl; lia|].
    destruct (add_table s T r l va Hi Ht) as (f & E & Hg & He).
    eexists _, _, l, r. split_and!; [|exact Hg|by rewrite lookup_insert_eq|exact He|by rewrite dom_insert_L|done].
    pose proof (pde_lookup s T va (vm_pt _ _ _ _ Hi)) as Hp. rewrite Ht in Hp. simpl in Hp.
    unfold walkpgdir, peek, kmemset, poke, kget, kmod, kret, kbind. rewrite (proj2 (Z.eqb_eq _ 0) Hp). simpl.
    rewrite E. assert (r <> 0) as Hr.
    { destruct (vm_free _ _ _ _ Hi) as [(_ & Hr & _) _]. by apply page_ok_nonzero. }
    rewrite (proj2 (Z.eqb_neq r 0) Hr). reflexivity.
Qed.

(** Writing the entry of an address changes that entry and nothing else. *)
Lemma set_entry s T l va t e :
  vm_inv s pgdir T l -> T !! PDX va = Some t -> 0 <= va < 2 ^ 32 ->
  let m := store32 (t + 4 * PTX va) e s.(pmem) in
  grows pgdir s T l (set_pmem m s) T l /\
  (forall va', 0 <= va' < 2 ^ 32 ->
     entry m T va' = if decide (va' / PGSIZE = va / PGSIZE) then u32 e else entry s.(pmem) T va').
Proof.
  intros [H Hf Hd Hk] Ht Hva m. destruct (pt_tables _ _ _ H _ _ Ht) as (_ & Htp & Htn).
  pose proof (PTX_range va) as Hx.
  assert (untouched (eq t) s.(pmem) m) as Hu.
  { apply untouched_store32; [done|lia|unfold PGSIZE; lia]. }
  split.
  - split; [by exists s.(freelist), m| |by exists []|done|done|by left|].
    + split; [split| |done|done].
      * apply H.
      * intros i Hi. cbn [set_pmem pmem].
        rewrite (load32_untouched _ _ _ pgdir _ Hu); [by apply H|apply H|done|lia|unfold PGSIZE; lia].
      * apply H.
      * apply H.
      * apply (free_pages_untouched _ _ _ _ Hf Hu). intros v Hv <-. apply (Hd t); [right; by exists (PDX va)|done].
    + apply (untouched_weaken _ _ _ _ Hu). intros v <-. left. right. by exists (PDX va).
  - intros va' Hva'. unfold entry. destruct (decide _) as [Hs|Hs].
    + apply same_page in Hs as [-> ->]; [|done..]. rewrite Ht. apply load32_store32.
    + destruct (T !! PDX va') as [t'|] eqn:Ht'; [|done]. pose proof (PTX_range va').
      destruct (decide (t' = t)) as [->|Hn].
      * assert (PDX va' = PDX va) by (by eapply (pt_inj _ _ _ H)).
        assert (PTX va' <> PTX va) by (intros ?; apply Hs; by apply same_page).
        apply load32_store32_ne. lia.
      * destruct (pt_tables _ _ _ H _ _ Ht') as (_ & ? & _).
        apply (load32_untouched _ _ _ t' _ Hu); [done|done|lia|unfold PGSIZE; lia].
Qed.

Lemma land_P_dec e : {Z.land e PTE_P = 0} + {Z.land e PTE_P <> 0}.
Proof. apply Z.eq_dec. Qed.

(** The entry [mappages] writes for the page of [va] when it maps the pages
    from [a] on to those from [pa] on. *)
Definition mapped_pte (a pa perm va : Z) : Z := mk_pte (pa + (va / PGSIZE - a / PGSIZE) * PGSIZE) perm.

Lemma mappages_loop_ok n : forall s T l a pa perm,
  vm_inv s pgdir T l -> a mod PGSIZE = 0 -> 0 <= a -> a + Z.of_nat (S n) * PGSIZE <= 2 ^ 32 ->
  pa mod PGSIZE = 0 -> 0 <= pa -> pa + Z.of_nat (S n) * PGSIZE <= 2 ^ 32 -> 0 <= perm < PGSIZE ->
  (forall va, a / PGSIZE <= va / PGSIZE <= a / PGSIZE + Z.of_nat n ->
     Z.land (entry s.(pmem) T va) PTE_P = 0) ->
  (missing (dom T) a (S n) <= length l)%nat ->
  exists s' T' l',
    mappages_loop (S n) pgdir a (a + Z.of_nat n * PGSIZE) pa perm s = Ok true s' /\
    grows pgdir s T l s' T' l' /\
    (forall va, 0 <= va < 2 ^ 32 -> entry s'.(pmem) T' va =
       if decide (a / PGSIZE <= va / PGSIZE <= a / PGSIZE + Z.of_nat n)
       then mapped_pte a pa perm va else entry s.(pmem) T va) /\
    length l = (missing (dom T) a (S n) + length l')%nat /\ dom T' = dirs a (S n) ∪ dom T.
Proof.
  induction n as [|n IH]; intros s T l a pa perm Hi Ha Ha0 Ha1 Hp Hp0 Hp1 Hperm Hfree Hl.
  all: set (q := a / PGSIZE) in *.
  all: pose proof (Z.div_mod a PGSIZE ltac:(done)) as Hq; rewrite Ha, Z.add_0_r in Hq; fold q in Hq.
  all: destruct (walkpgdir_create s T l a Hi) as (s1 & T1 & l1 & t & E1 & G1 & Ht & He1 & Hd1 & Hl1);
    [cbn [missing] in *; lia|].
  all: assert (0 <= a < 2 ^ 32) as Har by (unfold PGSIZE in *; lia).
  all: destruct (set_entry s1 T1 l1 a t (mk_pte pa perm) (gr_inv _ _ _ _ _ _ _ G1) Ht Har) as (G2 & He2).
  all: assert (u32 (mk_pte pa perm) = mk_pte pa perm) as Hu
    by (apply mk_pte_addr; [unfold PGSIZE in *; lia|done|done]).
  all: set (s2 := set_pmem (store32 (t + 4 * PTX a) (mk_pte pa perm) s1.(pmem)) s1) in *.
  all: assert (Z.land (load32 s1.(pmem) (t + 4 * PTX a)) PTE_P = 0) as Hz
    by (specialize (He1 a); unfold entry at 1 in He1; rewrite Ht in He1; rewrite He1;
        apply Hfree; fold q; lia).
  all: cbn [mappages_loop]; rewrite (kbind_Ok _ _ _ _ _ E1); unfold peek at 1, kget at 1, kbind at 1;
    rewrite (proj2 (Z.eqb_eq _ 0) Hz); cbn [negb]; unfold poke at 1, kmod at 1, kbind at 1;
    fold (mk_pte pa perm); fold s2.
  - rewrite (proj2 (Z.eqb_eq a _)) by lia. exists s2, T1, l1.
    split_and!; [done|by eapply grows_trans| | |rewrite Hd1; cbn [dirs]; by rewrite (left_id_L ∅ (∪))].
    + intros va Hva. rewrite He2, He1 by done. fold q.
      destruct (decide (va / PGSIZE = q)), (decide (q <= va / PGSIZE <= q + Z.of_nat 0)); try lia.
      rewrite Hu. unfold mapped_pte. f_equal. fold q. lia.
    + cbn [missing] in *. lia.
  - rewrite (proj2 (Z.eqb_neq a _)) by (unfold PGSIZE; lia).
    assert (forall n', (missing (dom T) a (S n') = missing (dom T) a 1 + missing (dom T1) (a + PGSIZE) n')%nat) as Hm.
    { intros n'. rewrite Hd1. cbn [missing]. lia. }
    rewrite (u32_small (a + PGSIZE)) by (unfold PGSIZE in *; lia).
    rewrite (u32_small (pa + PGSIZE)) by (unfold PGSIZE in *; lia).
    assert ((a + PGSIZE) / PGSIZE = q + 1) as Hq1.
    { replace (a + PGSIZE) with (a + 1 * PGSIZE) by lia. by rewrite Z.div_add. }
    rewrite Hm in Hl.
    destruct (IH s2 T1 l1 (a + PGSIZE) (pa + PGSIZE) perm) as (s3 & T3 & l3 & E3 & G3 & He3 & Hl3 & Hd3).
    + apply G2.
    + replace (a + PGSIZE) with (a + 1 * PGSIZE) by lia. by rewrite Z.mod_add.
    + unfold PGSIZE; lia.
    + unfold PGSIZE in *; lia.
    + replace (pa + PGSIZE) with (pa + 1 * PGSIZE) by lia. by rewrite Z.mod_add.
    + unfold PGSIZE; lia.
    + unfold PGSIZE in *; lia.
    + done.
    + intros va Hva. rewrite Hq1 in Hva. cbn [s2 set_pmem pmem].
      destruct (decide (0 <= va < 2 ^ 32)) as [Hr|Hr].
      * rewrite He2, He1 by done. rewrite decide_False by (fold q; lia). apply Hfree. fold q. lia.
      * exfalso. apply Hr. pose proof (Z.div_mod va PGSIZE ltac:(done)).
        pose proof (Z.mod_pos_bound va PGSIZE ltac:(done)). unfold PGSIZE in *. lia.
    + lia.
    + exists s3, T3, l3. replace (a + Z.of_nat (S n) * PGSIZE) with (a + PGSIZE + Z.of_nat n * PGSIZE)
        by (unfold PGSIZE; lia).
      split; [exact E3|]. split; [eapply grows_trans; [exact G1|]; by eapply grows_trans|].
      split; [|split; [rewrite Hm; lia|]].
      * intros va Hva. rewrite He3 by done. rewrite Hq1. cbn [s2 set_pmem pmem]. rewrite He2, He1 by done.
        fold q. unfold mapped_pte. rewrite Hq1. fold q.
        destruct (decide (q + 1 <= va / PGSIZE <= q + 1 + Z.of_nat n)),
          (decide (q <= va / PGSIZE <= q + Z.of_nat (S n))), (decide (va / PGSIZE = q)); try lia; try done.
        -- f_equal. unfold PGSIZE. lia.
        -- rewrite Hu. f_equal. lia.
      * rewrite Hd3, Hd1. cbn [dirs]. by rewrite (assoc_L (∪)).
Qed.

(** [mappages] on whole pages. *)
Lemma mappages_run s T l a pa perm n :
  vm_inv s pgdir T l -> a mod PGSIZE = 0 -> 0 <= a -> a + Z.of_nat (S n) * PGSIZE <= 2 ^ 32 ->
  pa mod PGSIZE = 0 -> 0 <= pa -> pa + Z.of_nat (S n) * PGSIZE <= 2 ^ 32 -> 0 <= perm < PGSIZE ->
  (forall va, a / PGSIZE <= va / PGSIZE <= a / PGSIZE + Z.of_nat n ->
     Z.land (entry s.(pmem) T va) PTE_P = 0) ->
  (missing (dom T) a (S n) <= length l)%nat ->
  exists s' T' l',
    mappages pgdir a (Z.of_nat (S n) * PGSIZE) pa perm s = Ok true s' /\
    grows pgdir s T l s' T' l' /\
    (forall va, 0 <= va < 2 ^ 32 -> entry s'.(pmem) T' va =
       if decide (a / PGSIZE <= va / PGSIZE <= a / PGSIZE + Z.of_nat n)
       then mapped_pte a pa perm va else entry s.(pmem) T va) /\
    length l = (missing (dom T) a (S n) + length l')%nat /\ dom T' = dirs a (S n) ∪ dom T.
Proof.
  intros Hi Ha Ha0 Ha1 Hp Hp0 Hp1 Hperm Hfree Hl. pose proof (Z.div_mod a PGSIZE ltac:(done)) as Hq.
  unfold mappages. rewrite !PGROUNDDOWN_eq, (u32_small a) by (unfold PGSIZE in *; lia).
  rewrite (u32_small (a + _ - 1)), (u32_small (a + _ - 1)) by (unfold PGSIZE in *; lia).
  assert ((a + Z.of_nat (S n) * PGSIZE - 1) / PGSIZE = a / PGSIZE + Z.of_nat n) as ->.
  { symmetry. apply (Z.div_unique _ _ _ (PGSIZE - 1)); unfold PGSIZE in *; lia. }
  replace (a / PGSIZE * PGSIZE) with a by lia.
  replace ((a / PGSIZE + Z.of_nat n) * PGSIZE) with (a + Z.of_nat n * PGSIZE) by lia.
  rewrite (u32_small (_ - a)) by (unfold PGSIZE in *; lia).
  replace ((a + Z.of_nat n * PGSIZE - a) / PGSIZE) with (Z.of_nat n)
    by (rewrite Z.add_simpl_l; symmetry; by apply Z.div_mul).
  rewrite Nat2Z.id. by apply mappages_loop_ok.
Qed.

(** The same with the number of pages as an integer. *)
Lemma mappages_pages s T l a pa perm np :
  vm_inv s pgdir T l -> 0 < np -> a mod PGSIZE = 0 -> 0 <= a -> a + np * PGSIZE <= 2 ^ 32 ->
  pa mod PGSIZE = 0 -> 0 <= pa -> pa + np * PGSIZE <= 2 ^ 32 -> 0 <= perm < PGSIZE ->
  (forall va, a / PGSIZE <= va / PGSIZE < a / PGSIZE + np -> Z.land (entry s.(pmem) T va) PTE_P = 0) ->
  (missing (dom T) a (Z.to_nat np) <= length l)%nat ->
  exists s' T' l',
    mappages pgdir a (np * PGSIZE) pa perm s = Ok true s' /\
    grows pgdir s T l s' T' l' /\
    (forall va, 0 <= va < 2 ^ 32 -> entry s'.(pmem) T' va =
       if decide (a / PGSIZE <= va / PGSIZE < a / PGSIZE + np)
       then mapped_pte a pa perm va else entry s.(pmem) T va) /\
    length l = (missing (dom T) a (Z.to_nat np) + length l')%nat /\
    dom T' = dirs a (Z.to_nat np) ∪ dom T.
Proof.
  intros Hi Hnp Ha Ha0 Ha1 Hp Hp0 Hp1 Hperm Hfree Hl.
  assert (exists n, Z.to_nat np = S n /\ np = Z.of_nat (S n)) as (n & En & Ez)
    by (exists (Z.to_nat (np - 1)); lia).
  rewrite En in *. rewrite Ez in *.
  destruct (mappages_run s T l a pa perm n) as (s' & T' & l' & E & G & He & Hl' & Hd); try done.
  { intros va Hva. apply Hfree. lia. }
  exists s', T', l'. split_and!; try done. intros va Hva. rewrite He by done.
  destruct (decide (_ <= _ <= _)), (decide (_ <= _ < _)); lia || done.
Qed.
End walk.
