(* ===== verification/Uvm.v ===== *)
(** Address spaces: what the routines of vm.c do to the memory a process sees.

    Above the page tables of the file Vm, an address space is a list of
    physical pages, one for each page below the size of the process. *)

From S2P Require Import Prelude CString State Kalloc ProcSync Console Bytes Inode Vm.

(** Memory operations are reasoned about by lemmas, never unfolded. *)
Opaque range_pages kfree_mem memset memmove store32 missing dirs.

(** Facts between constants. *)
Ltac zconst := unfold USERTOP, PTE_W, PTE_U, PTE_P, PGSIZE, PHYSTOP; lia.

(** ** The kernel part of a page table *)

(** The entry of [va] in every page table: the kernel's identity mapping. *)
Definition kernel_pte (va : Z) : Z :=
  if decide (USERTOP / PGSIZE <= va / PGSIZE < PHYSTOP / PGSIZE \/ 0xFE000000 / PGSIZE <= va / PGSIZE)
  then mk_pte (va / PGSIZE * PGSIZE) PTE_W else 0.

Lemma empty_dir s d l :
  free_pages s (d :: l) -> LkKmem ∉ s.(held) ->
  exists f, let s' := set_freelist f (set_pmem (memset d 0 PGSIZE s.(pmem)) s) in
    kalloc s = Ok d (set_freelist f s) /\ vm_inv s' d ∅ l /\ page_ok d /\
    untouched (eq d) s.(pmem) s'.(pmem).
Proof.
  intros Hf Hk. destruct (kalloc_free_pages s d l Hf Hk) as (f & E & Hf').
  assert (page_ok d) as Hd by (destruct Hf as [(_ & ? & _) _]; done).
  assert (NoDup (d :: l)) as [Hdl _]%NoDup_cons by apply Hf.
  exists f. split_and!; [done| |done|by apply untouched_memset].
  split; [split| | |done].
  - done.
  - intros i Hi. rewrite lookup_empty. simpl. by rewrite load32_memset0 by (unfold PGSIZE; lia).
  - intros i t Hi. by rewrite lookup_empty in Hi.
  - intros i j t Hi. by rewrite lookup_empty in Hi.
  - apply (free_pages_untouched (eq d) (set_freelist f s)); [done|by apply untouched_memset|].
    by intros v Hv <-.
  - intros v [->|(i & Hi)]; [done|]. by rewrite lookup_empty in Hi.
Qed.

(** The page tables the kernel part needs. *)
Lemma kernel_tables :
  missing ∅ USERTOP (Z.to_nat 96) = 1%nat /\ dirs USERTOP (Z.to_nat 96) ∪ ∅ = {[0]} /\
  missing {[0]} 0x100000 (Z.to_nat 3840) = 3%nat /\
  dirs 0x100000 (Z.to_nat 3840) ∪ {[0]} = {[0; 1; 2; 3]} /\
  missing {[0; 1; 2; 3]} 0xFE000000 (Z.to_nat 8192) = 8%nat.
Proof. split_and!; vm_compute; reflexivity. Qed.

Lemma mapped_pte_id a perm va : a mod PGSIZE = 0 -> mapped_pte a a perm va = mk_pte (va / PGSIZE * PGSIZE) perm.
Proof.
  intros Ha. unfold mapped_pte. f_equal. pose proof (Z.div_mod a PGSIZE ltac:(done)). lia.
Qed.

(** Three mappings one after the other give the kernel part. *)
Lemma kernel_pte_eq va (e0 e1 e2 e3 : Z) :
  0 <= va < 2 ^ 32 -> e0 = 0 ->
  e1 = (if decide (USERTOP / PGSIZE <= va / PGSIZE < USERTOP / PGSIZE + 96)
        then mapped_pte USERTOP USERTOP PTE_W va else e0) ->
  e2 = (if decide (0x100000 / PGSIZE <= va / PGSIZE < 0x100000 / PGSIZE + 3840)
        then mapped_pte 0x100000 0x100000 PTE_W va else e1) ->
  e3 = (if decide (0xFE000000 / PGSIZE <= va / PGSIZE < 0xFE000000 / PGSIZE + 8192)
        then mapped_pte 0xFE000000 0xFE000000 PTE_W va else e2) ->
  e3 = kernel_pte va.
Proof.
  intros Hva -> -> -> ->. rewrite !mapped_pte_id by done. unfold kernel_pte.
  assert (va / PGSIZE < 1048576) by (apply Z.div_lt_upper_bound; unfold PGSIZE; lia).
  change (USERTOP / PGSIZE) with 160. change (0x100000 / PGSIZE) with 256.
  change (0xFE000000 / PGSIZE) with 1040384. change (PHYSTOP / PGSIZE) with 4096.
  repeat case_decide; lia || done.
Qed.

(** [setupkvm] with 13 pages to spare. *)
Lemma setupkvm_run s l :
  free_pages s l -> LkKmem ∉ s.(held) -> (13 <= length l)%nat ->
  exists d T s' l', setupkvm s = Ok d s' /\ vm_step s s' /\ vm_inv s' d T l' /\
    (exists k, l = k ++ l') /\ length l = (13 + length l')%nat /\
    d :: range_pages T 0 1024 ++ l' ≡ₚ l /\
    (forall v, own d T v -> v ∈ l) /\ untouched (fun v => v ∈ l) s.(pmem) s'.(pmem) /\
    (forall va, 0 <= va < 2 ^ 32 -> entry s'.(pmem) T va = kernel_pte va) /\
    0 ∈ dom T.
Proof.
  intros Hf Hk Hl. destruct l as [|d l0]; [simpl in Hl; lia|]. cbn [length] in Hl.
  destruct kernel_tables as (M1 & D1 & M2 & D2 & M3).
  destruct (empty_dir s d l0 Hf Hk) as (f & E & Hi0 & Hd & Hu0).
  set (s0 := set_freelist f (set_pmem (memset d 0 PGSIZE s.(pmem)) s)) in *.
  assert (forall va, entry s0.(pmem) ∅ va = 0) as He0 by (intros; unfold entry; by rewrite lookup_empty).
  destruct (mappages_pages d s0 ∅ l0 USERTOP USERTOP PTE_W 96) as (s1 & T1 & l1 & E1 & G1 & He1 & Hl1 & Hd1);
    [exact Hi0|lia|reflexivity|zconst|zconst|reflexivity|zconst|zconst|zconst|intros; by rewrite He0| |].
  { rewrite dom_empty_L, M1. lia. }
  rewrite dom_empty_L, D1 in Hd1. rewrite dom_empty_L, M1 in Hl1.
  destruct (mappages_pages d s1 T1 l1 0x100000 0x100000 PTE_W 3840) as (s2 & T2 & l2 & E2 & G2 & He2 & Hl2 & Hd2);
    [apply G1|lia|reflexivity|zconst|zconst|reflexivity|zconst|zconst|zconst| | |].
  { intros va Hva. change (0x100000 / PGSIZE) with 256 in Hva.
    pose proof (Z.div_mod va PGSIZE ltac:(done)). pose proof (Z.mod_pos_bound va PGSIZE ltac:(done)).
    rewrite He1 by (unfold PGSIZE in *; lia). change (USERTOP / PGSIZE) with 160.
    rewrite decide_False by lia. by rewrite He0. }
  { rewrite Hd1, M2. lia. }
  rewrite Hd1, D2 in Hd2. rewrite Hd1, M2 in Hl2.
  destruct (mappages_pages d s2 T2 l2 0xFE000000 0xFE000000 PTE_W 8192) as (s3 & T3 & l3 & E3 & G3 & He3 & Hl3 & Hd3);
    [apply G2|lia|reflexivity|zconst|zconst|reflexivity|zconst|zconst|zconst| | |].
  { intros va Hva. change (0xFE000000 / PGSIZE) with 1040384 in Hva.
    pose proof (Z.div_mod va PGSIZE ltac:(done)). pose proof (Z.mod_pos_bound va PGSIZE ltac:(done)).
    assert (0 <= va < 2 ^ 32) as Hr by (unfold PGSIZE in *; lia).
    rewrite He2, He1 by done. change (USERTOP / PGSIZE) with 160. change (0x100000 / PGSIZE) with 256.
    rewrite !decide_False by lia. by rewrite He0. }
  { rewrite Hd2, M3. lia. }
  rewrite Hd2, M3 in Hl3.
  assert (grows d s0 ∅ l0 s3 T3 l3) as G by (eapply grows_trans; [exact G1|]; by eapply grows_trans).
  exists d, T3, s3, l3.
  split.
  { unfold setupkvm. rewrite (kbind_Ok _ _ _ _ _ E). rewrite (proj2 (Z.eqb_neq d 0)) by (by apply page_ok_nonzero).
    unfold kmemset at 1, kmod at 1, kbind at 1.
    change (set_pmem (memset d 0 PGSIZE (set_freelist f s).(pmem)) (set_freelist f s)) with s0.
    change 0x60000 with (96 * PGSIZE). rewrite (kbind_Ok _ _ _ _ _ E1). cbn [negb].
    change (PHYSTOP - 0x100000) with (3840 * PGSIZE). rewrite (kbind_Ok _ _ _ _ _ E2). cbn [negb].
    change 0x2000000 with (8192 * PGSIZE). rewrite (kbind_Ok _ _ _ _ _ E3). reflexivity. }
  assert (forall v, own d ∅ v -> v = d) as Hown.
  { intros v [->|(i & Hi)]; [done|]. by rewrite lookup_empty in Hi. }
  split_and!.
  - eapply vm_step_trans; [|apply (gr_step _ _ _ _ _ _ _ G)]. by eexists _, _.
  - apply (gr_inv _ _ _ _ _ _ _ G).
  - destruct (gr_free _ _ _ _ _ _ _ G) as [k ->]. by exists (d :: k).
  - cbn [length]. lia.
  - rewrite (gr_count _ _ _ _ _ _ _ G). rewrite (range_pages_none ∅); [done|]. intros. apply lookup_empty.
  - intros v [Hv|Hv]%(gr_new _ _ _ _ _ _ _ G); [|by right]. apply Hown in Hv as ->. by left.
  - eapply untouched_trans; [exact Hu0|apply (gr_kept _ _ _ _ _ _ _ G)| |].
    + intros v <-. by left.
    + intros v [Hv|Hv]; [|by right]. apply Hown in Hv as ->. by left.
  - intros va Hva. eapply kernel_pte_eq; [exact Hva|apply (He0 va)|apply He1|apply He2|apply He3]; exact Hva.
  - rewrite Hd3, Hd2. generalize (dirs 0xFE000000 (Z.to_nat 8192)). clear. intros D. set_solver.
Qed.

(** ** User pages *)

(** The user part holds 160 pages. *)
Definition UPAGES : Z := USERTOP / PGSIZE.

Definition upte (v : Z) : Z := mk_pte v (Z.lor PTE_W PTE_U).

Lemma uperm_ok : 0 <= Z.lor PTE_W PTE_U < PGSIZE.
Proof. vm_compute. split; congruence. Qed.

(** The pages a size takes. *)
Definition pages_of (sz : Z) : Z := (sz + PGSIZE - 1) / PGSIZE.

(** The entry of a user page: none, or a page the user may write. *)
Definition upte_ok (e : Z) (o : option Z) : Prop :=
  match o with
  | Some v => e = upte v
  | None => Z.land e PTE_P = 0
  end.

(** [aspace s pgdir T U l]: under the page tables [T] the user pages are those of
    [U] (page number to physical page), the rest is the kernel's mapping, and
    the user's pages are distinct and neither free nor page tables. *)
Record aspace (s : kstate) (pgdir : Z) (T U : gmap Z Z) (l : list Z) : Prop := {
  as_inv : vm_inv s pgdir T l;
  as_dir : 0 ∈ dom T;
  as_map va : 0 <= va < USERTOP -> upte_ok (entry s.(pmem) T va) (U !! (va / PGSIZE));
  as_kernel va : USERTOP <= va < 2 ^ 32 -> entry s.(pmem) T va = kernel_pte va;
  as_pages i v : U !! i = Some v -> 0 <= i < UPAGES /\ page_ok v /\ v ∉ l /\ ~ own pgdir T v;
  as_inj i j v : U !! i = Some v -> U !! j = Some v -> i = j
}.

Lemma UPAGES_eq : UPAGES = 160.
Proof. reflexivity. Qed.

Lemma upage_va i : 0 <= i < UPAGES -> 0 <= i * PGSIZE < 2 ^ 32 /\ (i * PGSIZE) / PGSIZE = i.
Proof. rewrite UPAGES_eq. intros. split; [unfold PGSIZE; lia|]. by apply Z.div_mul. Qed.

Lemma va_range va : 0 <= va / PGSIZE < UPAGES -> 0 <= va < USERTOP.
Proof.
  rewrite UPAGES_eq. pose proof (Z.div_mod va PGSIZE ltac:(done)).
  pose proof (Z.mod_pos_bound va PGSIZE ltac:(done)). unfold PGSIZE, USERTOP in *. lia.
Qed.

(** Every user address has the same page table. *)
Lemma user_PDX va : 0 <= va < USERTOP -> PDX va = 0.
Proof. intros. rewrite PDX_eq by (unfold USERTOP in *; lia). apply Z.div_small. unfold USERTOP in *. lia. Qed.

(** Mapping one user page adds no page table. *)
Lemma map_user_page s pgdir T l i v perm :
  vm_inv s pgdir T l -> 0 ∈ dom T -> 0 <= i < UPAGES -> page_ok v -> 0 <= perm < PGSIZE ->
  Z.land (entry s.(pmem) T (i * PGSIZE)) PTE_P = 0 ->
  exists s', mappages pgdir (i * PGSIZE) PGSIZE v perm s = Ok true s' /\ vm_step s s' /\
    vm_inv s' pgdir T l /\ untouched (own pgdir T) s.(pmem) s'.(pmem) /\
    (forall va, 0 <= va < 2 ^ 32 -> entry s'.(pmem) T va =
       if decide (va / PGSIZE = i) then mk_pte v perm else entry s.(pmem) T va).
Proof.
  intros Hi Hd Hr [Hv1 Hv2] Hp Hz. destruct (upage_va i Hr) as [Hva Hdiv].
  assert (0 <= i * PGSIZE < USERTOP) as Hu by (apply va_range; rewrite Hdiv; done).
  assert (exists t, T !! 0 = Some t) as [t Ht] by (by apply elem_of_dom).
  assert (T !! PDX (i * PGSIZE) = Some t) as Ht' by (by rewrite user_PDX).
  assert (u32 (mk_pte v perm) = mk_pte v perm) as Hm
    by (apply mk_pte_addr; [unfold PHYSTOP in *; lia|done|done]).
  destruct (set_entry pgdir s T l (i * PGSIZE) t (mk_pte v perm) Hi Ht' Hva) as [G He].
  eexists. split.
  - unfold mappages. rewrite !PGROUNDDOWN_eq.
    replace (u32 (i * PGSIZE)) with (i * PGSIZE) by (symmetry; apply u32_small; lia).
    rewrite (u32_small (i * PGSIZE + PGSIZE - 1)), (u32_small (i * PGSIZE + PGSIZE - 1))
      by (unfold PGSIZE, USERTOP in *; lia).
    assert ((i * PGSIZE + PGSIZE - 1) / PGSIZE = i) as ->.
    { symmetry. apply (Z.div_unique _ _ _ (PGSIZE - 1)); unfold PGSIZE; lia. }
    rewrite Hdiv, Z.sub_diag. change (Z.to_nat (u32 0 / PGSIZE)) with 0%nat. cbn [mappages_loop].
    rewrite (kbind_Ok _ _ _ _ _ (walkpgdir_hit pgdir s T _ true t (vm_pt _ _ _ _ Hi) Ht')).
    unfold entry in Hz. rewrite Ht' in Hz.
    unfold peek, poke, kget, kmod, kret, kbind. rewrite (proj2 (Z.eqb_eq _ 0) Hz). cbn [negb].
    rewrite Z.eqb_refl. reflexivity.
  - fold (mk_pte v perm). split; [apply (gr_step _ _ _ _ _ _ _ G)|]. split; [apply (gr_inv _ _ _ _ _ _ _ G)|]. split.
    + destruct (pt_tables _ _ _ (vm_pt _ _ _ _ Hi) _ _ Ht) as (_ & Htp & _).
      pose proof (PTX_range (i * PGSIZE)).
      eapply untouched_weaken; [apply (untouched_store32 t); [done|lia|unfold PGSIZE in *; lia]|].
      intros w <-. right. by exists 0.
    + intros va Hv. cbn [set_pmem pmem]. rewrite He by done. by rewrite Hdiv, Hm.
Qed.

(** Writes outside the page tables keep every entry. *)
Lemma entry_untouched W m m' pgdir T va :
  pt_ok m pgdir T -> untouched W m m' -> (forall v, own pgdir T v -> ~ W v) ->
  entry m' T va = entry m T va.
Proof.
  intros H Hu Hw. unfold entry. destruct (T !! PDX va) as [t|] eqn:Ht; [|done].
  destruct (pt_tables _ _ _ H _ _ Ht) as (_ & Hp & _). pose proof (PTX_range va).
  apply (load32_untouched W _ _ t); [done|done| |lia|unfold PGSIZE; lia].
  apply Hw. right. by exists (PDX va).
Qed.

Lemma vm_inv_untouched W s pgdir T l m' :
  vm_inv s pgdir T l -> untouched W s.(pmem) m' ->
  (forall v, own pgdir T v -> ~ W v) -> (forall v, v ∈ l -> ~ W v) ->
  vm_inv (set_pmem m' s) pgdir T l.
Proof.
  intros [H Hf Hd Hk] Hu Hw Hl. split; [split| | |done].
  - apply H.
  - intros i Hi. cbn [set_pmem pmem]. rewrite (load32_untouched W s.(pmem) m' pgdir _ Hu); try lia.
    + by apply H.
    + apply H.
    + apply Hw. by left.
    + unfold PGSIZE. lia.
  - apply H.
  - apply H.
  - by apply (free_pages_untouched W).
  - done.
Qed.

(** Writes outside tables and free pages keep the address space. *)
Lemma aspace_untouched W s pgdir T U l m' :
  aspace s pgdir T U l -> untouched W s.(pmem) m' ->
  (forall v, own pgdir T v -> ~ W v) -> (forall v, v ∈ l -> ~ W v) ->
  aspace (set_pmem m' s) pgdir T U l.
Proof.
  intros [Hi H0 Hm Hk Hp Hj] Hu Hw Hl. split; [by apply (vm_inv_untouched W)|done| | |done|done].
  - intros va Hva. cbn [set_pmem pmem]. rewrite (entry_untouched W _ _ pgdir _ _ (vm_pt _ _ _ _ Hi) Hu Hw). auto.
  - intros va Hva. cbn [set_pmem pmem]. rewrite (entry_untouched W _ _ pgdir _ _ (vm_pt _ _ _ _ Hi) Hu Hw). auto.
Qed.

(** Taking a page from the free list and making it user page [i], after filling
    it by a write [m1] that stays inside it. *)
Lemma aspace_add s pgdir T U q l i :
  aspace s pgdir T U (q :: l) -> 0 <= i < UPAGES -> U !! i = None ->
  exists f, kalloc s = Ok q (set_freelist f s) /\ page_ok q /\
    forall m1, untouched (eq q) s.(pmem) m1 ->
    exists s2, mappages pgdir (i * PGSIZE) PGSIZE q (Z.lor PTE_W PTE_U)
        (set_pmem m1 (set_freelist f s)) = Ok true s2 /\
      vm_step s s2 /\ aspace s2 pgdir T (<[i := q]> U) l /\ untouched (own pgdir T) m1 s2.(pmem).
Proof.
  intros [Hi Hd Hmap Hker Hpg Hinj] Hr Hn. pose proof (vm_free _ _ _ _ Hi) as Hf.
  destruct (kalloc_free_pages s q l Hf (vm_lock _ _ _ _ Hi)) as (f & E & Hf').
  assert (page_ok q) as Hq by (destruct Hf as [(_ & ? & _) _]; done).
  assert (NoDup (q :: l)) as [Hql _]%NoDup_cons by apply Hf.
  assert (forall v, own pgdir T v -> q <> v) as Hqo
    by (intros v Hv <-; apply (vm_disjoint _ _ _ _ Hi q Hv); by left).
  exists f. split_and!; [done|done|]. intros m1 Hm1.
  assert (vm_inv (set_freelist f s) pgdir T l) as Hi1.
  { destruct Hi as [H1 _ H3 H4]. split; [done|done| |done]. intros v Hv Hl. apply (H3 v Hv). by right. }
  assert (vm_inv (set_pmem m1 (set_freelist f s)) pgdir T l) as Hi2
    by (apply (vm_inv_untouched (eq q)); [done|done|done|by intros v Hv <-]).
  assert (forall va, entry m1 T va = entry s.(pmem) T va) as He1
    by (intros; eapply (entry_untouched (eq q)); [apply (vm_pt _ _ _ _ Hi)|done|done]).
  destruct (upage_va i Hr) as [Hva Hdiv].
  destruct (map_user_page _ pgdir T l i q (Z.lor PTE_W PTE_U) Hi2 Hd)
    as (s2 & E2 & Hst & Hi3 & Hu & He); [done|done|exact uperm_ok| |].
  { cbn [set_pmem pmem]. rewrite He1. specialize (Hmap (i * PGSIZE)). rewrite Hdiv, Hn in Hmap.
    apply Hmap, va_range. by rewrite Hdiv. }
  cbn [set_pmem pmem] in He. exists s2. split_and!; [done| | |done].
  { eapply vm_step_trans; [|exact Hst]. by eexists f, m1. }
  split; [done|done| | | |].
  - intros va Hu'. rewrite He, He1 by (unfold USERTOP in *; lia). destruct (decide (va / PGSIZE = i)) as [<-|Hne].
    + by rewrite lookup_insert_eq.
    + rewrite lookup_insert_ne by done. by apply Hmap.
  - intros va Hk. rewrite He, He1 by (unfold USERTOP in *; lia). rewrite decide_False; [by apply Hker|].
    intros <-. pose proof (va_range va Hr). lia.
  - intros j v [[<- <-]|[Hj Hv]]%lookup_insert_Some.
    + split_and!; [lia|lia|done|done|]. intros Ho. by apply (Hqo q).
    + destruct (Hpg j v Hv) as (? & ? & Hnl & ?). split_and!; try done; try lia.
      intros Hl. apply Hnl. by right.
  - intros j k v [[<- <-]|[Hj Hv]]%lookup_insert_Some [[<- Ek]|[Hk Hv']]%lookup_insert_Some; try done.
    + destruct (Hpg k q Hv') as (_ & _ & Hnl & _). destruct Hnl. by left.
    + subst v. destruct (Hpg j q Hv) as (_ & _ & Hnl & _). destruct Hnl. by left.
    + by eapply Hinj.
Qed.

(** Freeing user page [i] and clearing its entry. *)
Lemma aspace_del s pgdir T U l i v :
  aspace s pgdir T U l -> U !! i = Some v ->
  exists t s2, walkpgdir pgdir (i * PGSIZE) false s = Ok (Some t) s /\ load32 s.(pmem) t = upte v /\
    PTE_ADDR (upte v) = v /\ (kfree v ;;; poke t 0) s = Ok tt s2 /\
    vm_step s s2 /\ aspace s2 pgdir T (delete i U) (v :: l) /\
    untouched (fun w => w = v \/ own pgdir T w) s.(pmem) s2.(pmem).
Proof.
  intros [Hi Hd Hmap Hker Hpg Hinj] Hv. destruct (Hpg i v Hv) as (Hr & Hvp & Hvl & Hvo).
  destruct (upage_va i Hr) as [Hva Hdiv].
  assert (0 <= i * PGSIZE < USERTOP) as Hu by (apply va_range; by rewrite Hdiv).
  assert (exists t, T !! 0 = Some t) as [t Ht] by (by apply elem_of_dom).
  assert (T !! PDX (i * PGSIZE) = Some t) as Ht' by (by rewrite user_PDX).
  pose proof (Hmap _ Hu) as He. rewrite Hdiv, Hv in He. unfold entry in He. rewrite Ht' in He.
  exists (t + 4 * PTX (i * PGSIZE)).
  set (s1 := set_freelist v (set_pmem (kfree_mem v s.(freelist) s.(pmem)) s)).
  assert (untouched (eq v) s.(pmem) s1.(pmem)) as Hu1.
  { intros p b Hp Hne Hb. apply load8_kfree_mem_frame. destruct (page_ok_disjoint v p Hvp Hp Hne); lia. }
  assert (vm_inv s1 pgdir T (v :: l)) as Hi1.
  { assert (vm_inv (set_pmem (kfree_mem v s.(freelist) s.(pmem)) s) pgdir T l) as [H1 _ H3 H4]
      by (apply (vm_inv_untouched (eq v)); [done|done|by intros w Hw <-|by intros w Hw <-]).
    split; [exact H1| | |done].
    - apply kfree_free_pages; [done|done|apply Hi].
    - intros w Hw [->|Hl]%elem_of_cons; [done|]. by apply (H3 w Hw). }
  assert (forall va, entry s1.(pmem) T va = entry s.(pmem) T va) as He1
    by (intros; eapply (entry_untouched (eq v)); [apply (vm_pt _ _ _ _ Hi)|exact Hu1|by intros w Hw <-]).
  destruct (set_entry pgdir s1 T (v :: l) (i * PGSIZE) t 0 Hi1 Ht' Hva) as [G He2].
  set (s2 := set_pmem (store32 (t + 4 * PTX (i * PGSIZE)) 0 s1.(pmem)) s1) in *.
  exists s2. split_and!.
  - exact (walkpgdir_hit pgdir s T _ false t (vm_pt _ _ _ _ Hi) Ht').
  - exact He.
  - apply mk_pte_addr; [destruct Hvp; unfold PHYSTOP in *; lia|apply Hvp|exact uperm_ok].
  - rewrite (kbind_Ok _ _ _ _ _ (kfree_ok v s Hvp (vm_lock _ _ _ _ Hi))). reflexivity.
  - eapply vm_step_trans; [|apply (gr_step _ _ _ _ _ _ _ G)]. by eexists _, _.
  - split; [apply (gr_inv _ _ _ _ _ _ _ G)|done| | | |].
    + intros va Hu'. cbn [s2 set_pmem pmem]. rewrite He2, He1, Hdiv by (unfold USERTOP in *; lia).
      destruct (decide (va / PGSIZE = i)) as [->|Hne].
      * by rewrite lookup_delete_eq.
      * rewrite lookup_delete_ne by done. by apply Hmap.
    + intros va Hk. cbn [s2 set_pmem pmem]. rewrite He2, He1, Hdiv by (unfold USERTOP in *; lia).
      rewrite decide_False; [by apply Hker|]. intros <-. pose proof (va_range va Hr). lia.
    + intros j w [Hj Hw]%lookup_delete_Some. destruct (Hpg j w Hw) as (? & ? & ? & ?).
      split_and!; try done; try lia. intros [->|Hl]%elem_of_cons; [|done]. apply Hj. by eapply Hinj.
    + intros j k w [_ Hw]%lookup_delete_Some [_ Hw']%lookup_delete_Some. by eapply Hinj.
  - assert (untouched (own pgdir T) s1.(pmem) s2.(pmem)) as Hu2.
    { destruct (pt_tables _ _ _ (vm_pt _ _ _ _ Hi) _ _ Ht) as (_ & Htp & _).
      pose proof (PTX_range (i * PGSIZE)).
      eapply untouched_weaken; [apply (untouched_store32 t); [done|lia|unfold PGSIZE in *; lia]|].
      intros w <-. right. by exists 0. }
    eapply untouched_trans; [exact Hu1|exact Hu2|intros w <-; by left|by right].
Qed.

(** [U] without the pages numbered [i] to [j]. *)
Definition cut (U : gmap Z Z) (i j : Z) : gmap Z Z := filter (fun kv => ~ (i <= kv.1 <= j)) U.

Lemma lookup_cut U i j k : cut U i j !! k = if decide (i <= k <= j) then None else U !! k.
Proof.
  unfold cut. destruct (U !! k) as [v|] eqn:E.
  - destruct (decide (i <= k <= j)).
    + apply map_lookup_filter_None. right. intros w Hw. simpl. tauto.
    + by apply map_lookup_filter_Some.
  - destruct (decide (i <= k <= j)); apply map_lookup_filter_None; by left.
Qed.

Lemma cut_none U i j : U !! i = None -> cut U (i + 1) j = cut U i j.
Proof.
  intros H. apply map_eq. intros k. rewrite !lookup_cut.
  destruct (decide (k = i)) as [->|]; repeat case_decide; try lia; congruence.
Qed.

Lemma cut_delete U i j : i <= j -> cut (delete i U) (i + 1) j = cut U i j.
Proof.
  intros H. apply map_eq. intros k. rewrite !lookup_cut.
  destruct (decide (k = i)) as [->|].
  - rewrite lookup_delete_eq. repeat case_decide; done || lia.
  - rewrite lookup_delete_ne by done. repeat case_decide; done || lia.
Qed.

(** The user part of page number [i] is walked without allocating. *)
Lemma walk_user s pgdir T U l i :
  aspace s pgdir T U l -> 0 <= i < UPAGES ->
  exists t, walkpgdir pgdir (i * PGSIZE) false s = Ok (Some t) s /\ upte_ok (load32 s.(pmem) t) (U !! i).
Proof.
  intros [Hi Hd Hmap _ _ _] Hr. destruct (upage_va i Hr) as [Hva Hdiv].
  assert (0 <= i * PGSIZE < USERTOP) as Hu by (apply va_range; by rewrite Hdiv).
  assert (exists t, T !! 0 = Some t) as [t Ht] by (by apply elem_of_dom).
  assert (T !! PDX (i * PGSIZE) = Some t) as Ht' by (by rewrite user_PDX).
  exists (t + 4 * PTX (i * PGSIZE)).
  split; [exact (walkpgdir_hit pgdir s T _ false t (vm_pt _ _ _ _ Hi) Ht')|].
  specialize (Hmap _ Hu). unfold entry in Hmap. rewrite Ht', Hdiv in Hmap. done.
Qed.

Lemma next_page i : 0 <= i < UPAGES -> u32 (i * PGSIZE + PGSIZE) = (i + 1) * PGSIZE.
Proof. rewrite UPAGES_eq. intros. rewrite u32_small; unfold PGSIZE; lia. Qed.

Lemma dealloc_loop_ok fuel : forall s pgdir T U l i j,
  aspace s pgdir T U l -> 0 <= i <= j + 1 -> j < UPAGES -> j + 1 - i <= Z.of_nat fuel ->
  exists s' l', dealloc_loop fuel pgdir (i * PGSIZE) (j * PGSIZE) s = Ok tt s' /\ vm_step s s' /\
    aspace s' pgdir T (cut U i j) l' /\ l' ≡ₚ range_pages U i (j + 1 - i) ++ l /\
    untouched (fun v => v ∈ range_pages U i (j + 1 - i) \/ own pgdir T v) s.(pmem) s'.(pmem).
Proof.
  induction fuel as [|fuel IH]; intros s pgdir T U l i j Ha Hij Hj Hf.
  all: destruct (decide (i = j + 1)) as [Heq|Hne]; [|try lia].
  1,2: exists s, l; replace (j + 1 - i) with 0 by lia; split;
    [cbn [dealloc_loop]; rewrite (proj2 (Z.leb_gt _ _)) by (unfold PGSIZE; lia); reflexivity|];
    split; [by exists s.(freelist), s.(pmem)|];
    split; [replace (cut U i j) with U; [done|]; apply map_eq; intros k; rewrite lookup_cut;
      rewrite decide_False by lia; done|split; [done|intros v b _ _ _; done]].
  assert (0 <= i < UPAGES) as Hr by lia.
  cbn [dealloc_loop]. rewrite (proj2 (Z.leb_le _ _)) by (unfold PGSIZE; lia). rewrite next_page by done.
  rewrite (range_pages_S U i (j + 1 - i)) by lia. replace (j + 1 - i - 1) with (j + 1 - (i + 1)) by lia.
  destruct (U !! i) as [v|] eqn:Hv.
  - destruct (aspace_del s pgdir T U l i v Ha Hv) as (t & s2 & Ew & El & Epa & Ek & Hst & Ha2 & Hu).
    destruct (IH s2 pgdir T (delete i U) (v :: l) (i + 1) j Ha2) as (s' & l' & E & Hst' & Ha' & Hl' & Hu');
      [lia|lia|lia|].
    rewrite cut_delete in Ha' by lia. rewrite range_pages_delete in Hl', Hu' by lia.
    exists s', l'. split_and!.
    + rewrite (kbind_Ok _ _ _ _ _ Ew). unfold peek, kget. rewrite kbind_assoc. unfold kbind at 1.
      rewrite El. unfold upte at 1. rewrite (proj2 (Z.eqb_neq _ 0) (mk_pte_present _ _)).
      rewrite Epa. destruct (as_pages _ _ _ _ _ Ha i v Hv) as (_ & Hvp & _).
      rewrite (proj2 (Z.eqb_neq v 0)) by (by apply page_ok_nonzero).
      rewrite (kbind_Ok _ _ _ _ _ Ek). exact E.
    + by eapply vm_step_trans.
    + exact Ha'.
    + rewrite Hl'. simpl. by rewrite Permutation_middle.
    + eapply untouched_trans; [exact Hu|exact Hu'| |].
      * intros w [->|Ho]; [left; by left|by right].
      * intros w [Hw|Ho]; [left; by right|by right].
  - destruct (walk_user s pgdir T U l i Ha Hr) as (t & Ew & Et). rewrite Hv in Et. simpl in Et.
    destruct (IH s pgdir T U l (i + 1) j Ha) as (s' & l' & E & Hst' & Ha' & Hl' & Hu'); [lia|lia|lia|].
    rewrite cut_none in Ha' by done.
    exists s', l'. split_and!; [|done|done|done|done].
    rewrite (kbind_Ok _ _ _ _ _ Ew). unfold peek, kget. rewrite kbind_assoc. unfold kbind at 1.
    rewrite (proj2 (Z.eqb_eq _ 0) Et). unfold kret at 1, kbind at 1. exact E.
Qed.

(** [U] with the pages [ps] at numbers [i], [i + 1], .. *)
Fixpoint add_pages (i : Z) (ps : list Z) (U : gmap Z Z) : gmap Z Z :=
  match ps with
  | [] => U
  | q :: r => add_pages (i + 1) r (<[i := q]> U)
  end.

(** The round of [allocuvm]'s loop that gets a page. *)
Lemma alloc_step s pgdir T U q l i :
  aspace s pgdir T U (q :: l) -> 0 <= i < UPAGES -> U !! i = None ->
  exists s2, (forall fuel oldsz newsz last, i * PGSIZE <= last ->
      alloc_loop (S fuel) pgdir oldsz newsz (i * PGSIZE) last s
      = alloc_loop fuel pgdir oldsz newsz ((i + 1) * PGSIZE) last s2) /\
    vm_step s s2 /\ aspace s2 pgdir T (<[i := q]> U) l /\
    untouched (fun v => v = q \/ own pgdir T v) s.(pmem) s2.(pmem) /\
    (forall b, q <= b < q + PGSIZE -> load8 s2.(pmem) b = 0).
Proof.
  intros Ha Hr Hn. destruct (aspace_add s pgdir T U q l i Ha Hr Hn) as (f & Ek & Hq & Hadd).
  destruct (Hadd (memset q 0 PGSIZE s.(pmem))) as (s2 & Em & Hst & Ha2 & Hu); [by apply untouched_memset|].
  exists s2. split_and!; [|done|done| |].
  - intros fuel oldsz newsz last Hle. cbn [alloc_loop]. rewrite (proj2 (Z.leb_le _ _) Hle).
    rewrite (kbind_Ok _ _ _ _ _ Ek). rewrite (proj2 (Z.eqb_neq q 0)) by (by apply page_ok_nonzero).
    unfold kmemset at 1, kmod at 1, kbind at 1. rewrite (kbind_Ok _ _ _ _ _ Em). by rewrite next_page.
  - eapply untouched_trans; [by apply (untouched_memset q 0)|exact Hu|intros v <-; by left|by right].
  - intros b Hb. assert (~ own pgdir T q) as Hno.
    { intros Ho. apply (vm_disjoint _ _ _ _ (as_inv _ _ _ _ _ Ha) q Ho). by left. }
    rewrite (Hu q b Hq Hno Hb), load8_memset by done. zcases; done.
Qed.

(** The whole loop with enough memory. *)
Lemma alloc_loop_ok ps : forall s pgdir T U l i oldsz newsz fuel,
  aspace s pgdir T U (ps ++ l) -> 0 <= i -> i + Z.of_nat (length ps) <= UPAGES ->
  (forall k, i <= k -> k < i + Z.of_nat (length ps) -> U !! k = None) -> (length ps <= fuel)%nat ->
  exists s', alloc_loop fuel pgdir oldsz newsz (i * PGSIZE) ((i + Z.of_nat (length ps) - 1) * PGSIZE) s
      = Ok (if newsz >? oldsz then newsz else oldsz) s' /\
    vm_step s s' /\ aspace s' pgdir T (add_pages i ps U) l /\
    untouched (fun v => v ∈ ps \/ own pgdir T v) s.(pmem) s'.(pmem) /\
    (forall q b, q ∈ ps -> q <= b < q + PGSIZE -> load8 s'.(pmem) b = 0).
Proof.
  induction ps as [|q ps IH]; intros s pgdir T U l i oldsz newsz fuel Ha Hi Hn Hnone Hf; cbn [length] in *.
  - exists s. split_and!.
    + destruct fuel; cbn [alloc_loop]; rewrite (proj2 (Z.leb_gt _ _)) by (unfold PGSIZE; lia); reflexivity.
    + by exists s.(freelist), s.(pmem).
    + done.
    + intros v b _ _ _. done.
    + intros q b Hq. by apply not_elem_of_nil in Hq.
  - destruct fuel as [|fuel]; [lia|]. change ((q :: ps) ++ l) with (q :: (ps ++ l)) in Ha.
    destruct (alloc_step s pgdir T U q (ps ++ l) i Ha) as (s2 & E & Hst & Ha2 & Hu & Hz);
      [lia|apply Hnone; lia|].
    rewrite (E fuel oldsz newsz) by (unfold PGSIZE; lia).
    destruct (IH s2 pgdir T (<[i := q]> U) l (i + 1) oldsz newsz fuel Ha2)
      as (s' & E' & Hst' & Ha' & Hu' & Hz'); [lia|lia| |lia|].
    { intros k H1 H2. rewrite lookup_insert_ne by lia. apply Hnone; lia. }
    exists s'. replace (i + Z.of_nat (S (length ps)) - 1) with (i + 1 + Z.of_nat (length ps) - 1) by lia.
    split_and!; [done|by eapply vm_step_trans|done| |].
    + eapply untouched_trans; [exact Hu|exact Hu'| |].
      * intros v [->|Ho]; [left; by left|by right].
      * intros v [Hv|Ho]; [left; by right|by right].
    + intros q' b [->|Hq']%elem_of_cons Hb; [|by apply (Hz' q')].
      destruct (decide (q ∈ ps)) as [|Hnp]; [by apply (Hz' q)|].
      destruct (as_pages _ _ _ _ _ Ha2 i q (lookup_insert_eq _ _ _)) as (_ & Hqp & _ & Hno).
      rewrite (Hu' q b Hqp); [by apply Hz|tauto|done].
Qed.

(** ** Sizes *)

Lemma pages_of_bounds sz : 0 <= sz <= USERTOP -> 0 <= pages_of sz <= UPAGES.
Proof.
  intros H. unfold pages_of. split; [apply Z.div_pos; unfold PGSIZE; lia|].
  rewrite UPAGES_eq. unfold USERTOP, PGSIZE in *. apply Z.lt_succ_r, Z.div_lt_upper_bound; lia.
Qed.

Lemma pages_of_mono a b : a <= b -> pages_of a <= pages_of b.
Proof. intros. apply Z.div_le_mono; unfold PGSIZE; lia. Qed.

Lemma below_size sz va : 0 <= va < sz -> 0 <= va / PGSIZE < pages_of sz.
Proof.
  intros. unfold pages_of, PGSIZE. split; [apply Z.div_pos; lia|].
  apply Z.lt_le_trans with (va / 4096 + 1); [lia|].
  replace (va / 4096 + 1) with ((va + 1 * 4096) / 4096) by (by rewrite Z.div_add).
  apply Z.div_le_mono; lia.
Qed.

Lemma round_up sz : 0 <= sz <= USERTOP -> PGROUNDUP sz = pages_of sz * PGSIZE.
Proof. intros. rewrite PGROUNDUP_eq; [done|lia|unfold USERTOP, PGSIZE in *; lia]. Qed.

Lemma last_page sz : 0 < sz <= USERTOP -> PGROUNDDOWN (u32 (sz - 1)) = (pages_of sz - 1) * PGSIZE.
Proof.
  intros. assert (u32 (sz - 1) = sz - 1) as E by (apply u32_small; unfold USERTOP in *; lia).
  rewrite PGROUNDDOWN_eq, E, E. f_equal. unfold pages_of.
  replace (sz + PGSIZE - 1) with ((sz - 1) + 1 * PGSIZE) by lia. rewrite Z.div_add by done. lia.
Qed.

(** The fuel of both loops is the number of pages from the first to the last. *)
Lemma npages_eq i j : npages (i * PGSIZE) (j * PGSIZE) = Z.to_nat (j - i + 1).
Proof. unfold npages. rewrite <- Z.mul_sub_distr_r, Z.div_mul by done. done. Qed.

Lemma deallocuvm_run s pgdir T U l oldsz newsz :
  aspace s pgdir T U l -> 0 <= newsz <= oldsz -> 0 < oldsz <= USERTOP ->
  exists s' l', deallocuvm pgdir oldsz newsz s = Ok newsz s' /\ vm_step s s' /\
    aspace s' pgdir T (cut U (pages_of newsz) (pages_of oldsz - 1)) l' /\
    l' ≡ₚ range_pages U (pages_of newsz) (pages_of oldsz - pages_of newsz) ++ l /\
    untouched (fun v => v ∈ range_pages U (pages_of newsz) (pages_of oldsz - pages_of newsz) \/ own pgdir T v)
      s.(pmem) s'.(pmem).
Proof.
  intros Ha Hn Ho. unfold deallocuvm. rewrite round_up, last_page, npages_eq by lia.
  pose proof (pages_of_mono newsz oldsz). pose proof (pages_of_bounds oldsz). pose proof (pages_of_bounds newsz).
  destruct (dealloc_loop_ok (Z.to_nat (pages_of oldsz - 1 - pages_of newsz + 1)) s pgdir T U l
    (pages_of newsz) (pages_of oldsz - 1) Ha) as (s' & l' & E & Hst & Ha' & Hl' & Hu); [lia|lia|lia|].
  replace (pages_of oldsz - 1 + 1 - pages_of newsz) with (pages_of oldsz - pages_of newsz) in * by lia.
  exists s', l'. rewrite (kbind_Ok _ _ _ _ _ E). split_and!; try done.
  unfold kret. do 2 f_equal. destruct (Z.ltb_spec newsz oldsz); lia.
Qed.

(** Out of memory: every page got so far is given back. *)
Lemma alloc_loop_fail ps : forall s pgdir T U i oldsz newsz fuel,
  aspace s pgdir T U ps -> 0 <= i -> i + Z.of_nat (length ps) < pages_of newsz ->
  (Z.to_nat (pages_of newsz - i) <= fuel)%nat ->
  (forall k, i <= k -> U !! k = None) -> (forall k v, U !! k = Some v -> k < i) ->
  0 <= oldsz < newsz -> newsz <= USERTOP -> pages_of oldsz <= i ->
  con_ok s.(con) -> LkCons ∉ s.(held) ->
  exists s' l' k, alloc_loop fuel pgdir oldsz newsz (i * PGSIZE) ((pages_of newsz - 1) * PGSIZE) s = Ok 0 s' /\
    vm_step (set_con k s) s' /\
    aspace s' pgdir T (cut U (pages_of oldsz) (pages_of newsz - 1)) l' /\
    l' ≡ₚ range_pages U (pages_of oldsz) (i - pages_of oldsz) ++ ps /\
    untouched (fun v => v ∈ ps \/ v ∈ range_pages U (pages_of oldsz) (i - pages_of oldsz) \/ own pgdir T v)
      s.(pmem) s'.(pmem).
Proof.
  induction ps as [|q ps IH]; intros s pgdir T U i oldsz newsz fuel Ha Hi Hn Hf Hnone Hlt Hsz Htop Hold Hc Hk;
    cbn [length] in *.
  all: pose proof (pages_of_bounds newsz).
  all: destruct fuel as [|fuel]; [lia|].
  - cbn [alloc_loop]. rewrite (proj2 (Z.leb_le _ _)) by (unfold PGSIZE; lia).
    assert (kalloc s = Ok 0 s) as Ek.
    { rewrite kalloc_ok by apply Ha. destruct (vm_free _ _ _ _ (as_inv _ _ _ _ _ Ha)) as [Hc0 _].
      simpl in Hc0. by rewrite Hc0. }
    rewrite (kbind_Ok _ _ _ _ _ Ek). cbn [Z.eqb].
    destruct (cprintf_ok (str "allocuvm out of memory" ++ [10]) [] (str "allocuvm out of memory" ++ [10]) s)
      as (k & Ec & _); [reflexivity|done|done|].
    rewrite (kbind_Ok _ _ _ _ _ Ec).
    assert (aspace (set_con k s) pgdir T U []) as Ha1.
    { destruct Ha as [[H1 H2 H3 H4] ? ? ? ? ?]. split; try done. }
    destruct (deallocuvm_run (set_con k s) pgdir T U [] newsz oldsz Ha1) as (s' & l' & E & Hst & Ha' & Hl' & Hu);
      [lia|lia|].
    rewrite (kbind_Ok _ _ _ _ _ E). exists s', l', k.
    assert (range_pages U (pages_of oldsz) (pages_of newsz - pages_of oldsz)
      = range_pages U (pages_of oldsz) (i - pages_of oldsz)) as Hrg.
    { replace (pages_of newsz - pages_of oldsz) with ((i - pages_of oldsz) + (pages_of newsz - i)) by lia.
      rewrite range_pages_app by lia. rewrite (range_pages_none U (_ + _)), app_nil_r; [done|].
      intros k' Hk'. apply Hnone. lia. }
    rewrite Hrg in *. split_and!; [done|done|done|done|].
    eapply untouched_weaken; [exact Hu|]. tauto.
  - destruct (alloc_step s pgdir T U q ps i Ha) as (s2 & E & Hst & Ha2 & Hu & _); [lia|apply Hnone; lia|].
    rewrite (E fuel oldsz newsz) by (unfold PGSIZE; lia).
    assert (s2.(con) = s.(con) /\ s2.(held) = s.(held)) as [Hc2 Hh2] by (by destruct Hst as (? & ? & ->)).
    destruct (IH s2 pgdir T (<[i := q]> U) (i + 1) oldsz newsz fuel Ha2)
      as (s' & l' & k & E' & Hst' & Ha' & Hl' & Hu'); try lia.
    { intros k Hk'. rewrite lookup_insert_ne by lia. apply Hnone. lia. }
    { intros k v [[<- _]|[_ Hv]]%lookup_insert_Some; [lia|]. apply Hlt in Hv. lia. }
    { by rewrite Hc2. }
    { by rewrite Hh2. }
    assert (range_pages (<[i:=q]> U) (pages_of oldsz) (i + 1 - pages_of oldsz)
      = range_pages U (pages_of oldsz) (i - pages_of oldsz) ++ [q]) as Hrg.
    { replace (i + 1 - pages_of oldsz) with ((i - pages_of oldsz) + 1) by lia.
      rewrite range_pages_app, range_pages_insert by lia. f_equal.
      replace (pages_of oldsz + (i - pages_of oldsz)) with i by lia. rewrite range_pages_S, lookup_insert_eq by lia.
      rewrite range_pages_none; [done|]. intros; lia. }
    rewrite Hrg in *.
    replace (cut (<[i:=q]> U) (pages_of oldsz) (pages_of newsz - 1))
      with (cut U (pages_of oldsz) (pages_of newsz - 1)) in Ha'.
    2:{ apply map_eq. intros j. rewrite !lookup_cut. case_decide; [done|]. by rewrite lookup_insert_ne by lia. }
    exists s', l', k. split_and!; [done| |done| |].
    + destruct Hst as (f & m & ->), Hst' as (f' & m' & ->). by exists f', m'.
    + rewrite Hl'. by rewrite <- app_assoc.
    + eapply untouched_trans; [exact Hu|exact Hu'| |].
      * intros v [->|Ho]; [left; by left|tauto].
      * intros v [Hv|[[Hv|Hv]%elem_of_app|Ho]]; [left; by right|tauto|left|tauto].
        apply list_elem_of_singleton in Hv as ->. by left.
Qed.

(** ** The memory a process sees *)

(** An address space of size [sz]: user pages up to the size and no others. *)
Definition uvm (s : kstate) (pgdir : Z) (T U : gmap Z Z) (l : list Z) (sz : Z) : Prop :=
  aspace s pgdir T U l /\ 0 <= sz <= USERTOP /\ (forall k, is_Some (U !! k) <-> 0 <= k < pages_of sz).

(** The byte at user address [va]. *)
Definition user_byte (m : mem) (U : gmap Z Z) (va : Z) : Z :=
  match U !! (va / PGSIZE) with
  | Some v => load8 m (v + va mod PGSIZE)
  | None => 0
  end.

Lemma user_byte_kept W m m' U U' va :
  untouched W m m' -> U' !! (va / PGSIZE) = U !! (va / PGSIZE) ->
  (forall v, U !! (va / PGSIZE) = Some v -> page_ok v /\ ~ W v) ->
  user_byte m' U' va = user_byte m U va.
Proof.
  intros Hu E Hv. unfold user_byte. rewrite E. destruct (U !! (va / PGSIZE)) as [v|]; [|done].
  destruct (Hv v eq_refl) as [Hp Hw]. pose proof (Z.mod_pos_bound va PGSIZE ltac:(done)).
  apply (Hu v); [done|done|lia].
Qed.

Lemma lookup_add_pages ps i U k :
  add_pages i ps U !! k
  = if decide (i <= k < i + Z.of_nat (length ps)) then ps !! Z.to_nat (k - i) else U !! k.
Proof.
  revert i U. induction ps as [|q ps IH]; intros i U; cbn [add_pages length].
  - by rewrite decide_False by lia.
  - rewrite IH. destruct (decide (k = i)) as [->|Hne].
    + rewrite decide_False, decide_True, lookup_insert_eq, Z.sub_diag by lia. done.
    + rewrite lookup_insert_ne by done.
      destruct (decide (i + 1 <= k < _)), (decide (i <= k < _)); try lia; [|done].
      replace (Z.to_nat (k - i)) with (S (Z.to_nat (k - (i + 1)))) by lia. done.
Qed.

Lemma is_Some_add_pages ps i U k :
  is_Some (add_pages i ps U !! k) <-> i <= k < i + Z.of_nat (length ps) \/ is_Some (U !! k) /\ ~ (i <= k < i + Z.of_nat (length ps)).
Proof.
  rewrite lookup_add_pages. destruct (decide _) as [H|H]; [|tauto].
  split; [tauto|]. intros _. apply lookup_lt_is_Some. lia.
Qed.

(** Growing with enough memory. *)
Lemma allocuvm_run s pgdir T U l oldsz newsz :
  uvm s pgdir T U l oldsz -> oldsz <= newsz <= USERTOP -> 0 < newsz ->
  let n := Z.to_nat (pages_of newsz - pages_of oldsz) in
  (n <= length l)%nat ->
  exists s', let U' := add_pages (pages_of oldsz) (take n l) U in
    allocuvm pgdir oldsz newsz s = Ok newsz s' /\ vm_step s s' /\ uvm s' pgdir T U' (drop n l) newsz /\
    untouched (fun v => v ∈ take n l \/ own pgdir T v) s.(pmem) s'.(pmem) /\
    (forall q b, q ∈ take n l -> q <= b < q + PGSIZE -> load8 s'.(pmem) b = 0).
Proof.
  intros (Ha & Hsz & Hdom) Hn H0 n Hl.
  pose proof (pages_of_mono oldsz newsz ltac:(lia)) as Hm. pose proof (pages_of_bounds oldsz Hsz).
  pose proof (pages_of_bounds newsz ltac:(lia)) as Hb.
  assert (length (take n l) = n) as Hlen by (rewrite length_take; lia).
  assert (aspace s pgdir T U (take n l ++ drop n l)) as Ha' by (by rewrite take_drop).
  destruct (alloc_loop_ok (take n l) s pgdir T U (drop n l) (pages_of oldsz) oldsz newsz n Ha')
    as (s' & E & Hst & Has & Hu & Hz); [lia|lia| |lia|].
  { intros k H1 H2. apply eq_None_not_Some. rewrite Hdom. lia. }
  exists s'. cbv zeta. split_and!; [|done| |done|done].
  - unfold allocuvm. rewrite Z.gtb_ltb, (proj2 (Z.ltb_ge _ _)) by lia.
    rewrite round_up, last_page, npages_eq by lia.
    replace (pages_of newsz - 1 - pages_of oldsz + 1) with (pages_of newsz - pages_of oldsz) by lia.
    fold n. replace (pages_of newsz - 1) with (pages_of oldsz + Z.of_nat (length (take n l)) - 1) by lia.
    rewrite E. do 2 f_equal. rewrite Z.gtb_ltb. destruct (Z.ltb_spec oldsz newsz); lia.
  - split_and!; [done|lia|lia|]. intros k. rewrite is_Some_add_pages, Hdom, Hlen. lia.
Qed.

Lemma uvm_pages s pgdir T U l sz i v :
  uvm s pgdir T U l sz -> U !! i = Some v -> page_ok v /\ v ∉ l /\ ~ own pgdir T v.
Proof. intros (Ha & _) Hv. by destruct (as_pages _ _ _ _ _ Ha i v Hv) as (_ & ? & ? & ?). Qed.

(** An address space survives operations on other pages. *)
Lemma aspace_frame W s s' pgdir T U l l' :
  aspace s pgdir T U l -> vm_step s s' -> free_pages s' l' -> (forall v, v ∈ l' -> v ∈ l) ->
  untouched W s.(pmem) s'.(pmem) -> (forall v, own pgdir T v -> ~ W v) ->
  aspace s' pgdir T U l'.
Proof.
  intros [Hi Hd Hmap Hker Hpg Hinj] (f & m & ->) Hf Hl Hu Hw. cbn [set_freelist set_pmem pmem] in *.
  assert (forall va, entry m T va = entry s.(pmem) T va) as He
    by (intros; eapply (entry_untouched W); [apply (vm_pt _ _ _ _ Hi)|done|done]).
  split; [|done| | | |done].
  - destruct Hi as [H1 H2 H3 H4]. split; [split| | |done].
    + apply H1.
    + intros i Hi. cbn [set_freelist set_pmem pmem].
      rewrite (load32_untouched W s.(pmem) m pgdir _ Hu); try lia; [by apply H1|apply H1|apply Hw; by left|].
      unfold PGSIZE. lia.
    + apply H1.
    + apply H1.
    + done.
    + intros v Hv Hl'. by apply (H3 v Hv), Hl.
  - intros va Hva. cbn [set_freelist set_pmem pmem]. rewrite He. by apply Hmap.
  - intros va Hva. cbn [set_freelist set_pmem pmem]. rewrite He. by apply Hker.
  - intros i v Hv. destruct (Hpg i v Hv) as (? & ? & Hn & ?). split_and!; try done; try lia. auto.
Qed.

Lemma untouched_memmove q p m : page_ok q -> page_ok p -> untouched (eq q) m (memmove q p PGSIZE m).
Proof.
  intros Hq Hp v b Hv Hne Hb. rewrite load8_memmove by done.
  destruct (page_ok_disjoint q v Hq Hv Hne); zcases; done.
Qed.

Lemma page_below sz i : i < pages_of sz -> i * PGSIZE < sz.
Proof.
  unfold pages_of, PGSIZE. intros. pose proof (Z.div_mod (sz + 4096 - 1) 4096 ltac:(done)).
  pose proof (Z.mod_pos_bound (sz + 4096 - 1) 4096 ltac:(done)). lia.
Qed.

Lemma page_above sz i : pages_of sz <= i -> sz <= i * PGSIZE.
Proof.
  unfold pages_of, PGSIZE. intros. pose proof (Z.div_mod (sz + 4096 - 1) 4096 ltac:(done)).
  pose proof (Z.mod_pos_bound (sz + 4096 - 1) 4096 ltac:(done)). lia.
Qed.

Lemma kalloc_none s : free_pages s [] -> LkKmem ∉ s.(held) -> kalloc s = Ok 0 s.
Proof. intros [Hc _] Hk. rewrite kalloc_ok by done. simpl in Hc. by rewrite Hc. Qed.

(** A parent and a child that share no page of their page tables. *)
Record family (s : kstate) (pgdir : Z) (T U : gmap Z Z) (d : Z) (T' U' : gmap Z Z) (l : list Z) : Prop := {
  fam_parent : aspace s pgdir T U l;
  fam_child : aspace s d T' U' l;
  fam_tables v : own pgdir T v -> ~ own d T' v;
  fam_pages k v : U !! k = Some v -> ~ own d T' v
}.

(** One round of [copyuvm]'s loop: page [i] of the child is a copy of the
    parent's. *)
Lemma copy_step s pgdir T U d T' U' q l i v :
  family s pgdir T U d T' U' (q :: l) -> 0 <= i < UPAGES -> U !! i = Some v -> U' !! i = None ->
  exists s2, (forall fuel sz, i * PGSIZE < sz ->
      copy_loop (S fuel) pgdir d sz (i * PGSIZE) s = copy_loop fuel pgdir d sz ((i + 1) * PGSIZE) s2) /\
    vm_step s s2 /\ family s2 pgdir T U d T' (<[i := q]> U') l /\
    untouched (fun w => w = q \/ own d T' w) s.(pmem) s2.(pmem) /\
    (forall o, 0 <= o < PGSIZE -> load8 s2.(pmem) (q + o) = load8 s.(pmem) (v + o)).
Proof.
  intros [Ha Hc Hoo Hpo] Hi Hv Hnone.
  destruct (walk_user s pgdir T U _ i Ha Hi) as (t & Ew & Et). rewrite Hv in Et. simpl in Et.
  destruct (as_pages _ _ _ _ _ Ha i v Hv) as (_ & Hvp & Hvl & Hvo).
  destruct (aspace_add s d T' U' q l i Hc Hi Hnone) as (f & Ek & Hq & Hadd).
  destruct (Hadd (memmove q v PGSIZE s.(pmem))) as (s2 & Em & Hst & Hc2 & Hu); [by apply untouched_memmove|].
  assert (untouched (fun w => w = q \/ own d T' w) s.(pmem) s2.(pmem)) as Hu2.
  { eapply untouched_trans; [by apply (untouched_memmove q v)|exact Hu|intros w <-; by left|by right]. }
  assert (~ own d T' q) as Hqo
    by (intros Ho; apply (vm_disjoint _ _ _ _ (as_inv _ _ _ _ _ Hc) q Ho); by left).
  exists s2. split_and!; [|done| |done|].
  - intros fuel sz Hlt. cbn [copy_loop]. rewrite (proj2 (Z.ltb_lt _ _) Hlt).
    rewrite (kbind_Ok _ _ _ _ _ Ew). unfold peek at 1, kget at 1, kbind at 1. rewrite Et.
    unfold upte at 1. rewrite (proj2 (Z.eqb_neq _ 0) (mk_pte_present _ _)).
    rewrite (kbind_Ok _ _ _ _ _ Ek). rewrite (proj2 (Z.eqb_neq q 0)) by (by apply page_ok_nonzero).
    assert (PTE_ADDR (upte v) = v) as ->.
    { apply mk_pte_addr; [destruct Hvp; unfold PHYSTOP in *; lia|apply Hvp|exact uperm_ok]. }
    unfold kmemmove at 1, kmod at 1, kbind at 1. rewrite (kbind_Ok _ _ _ _ _ Em). cbn [negb].
    by rewrite next_page.
  - split; [|done|done|done].
    eapply (aspace_frame _ s s2 _ _ _ (q :: l)); [done|done|apply Hc2|by right|exact Hu2|].
    intros w Hw [->|Ho]; [|by apply (Hoo w)].
    apply (vm_disjoint _ _ _ _ (as_inv _ _ _ _ _ Ha) q Hw). by left.
  - intros o Ho. rewrite (Hu q (q + o) Hq Hqo) by lia. rewrite load8_memmove by done.
    rewrite (proj2 (Z.leb_le _ _)), (proj2 (Z.ltb_lt _ _)) by lia. simpl. f_equal. lia.
Qed.

(** The whole loop with enough memory. *)
Lemma copy_loop_ok ps : forall s pgdir T U d T' U' l i sz fuel,
  family s pgdir T U d T' U' (ps ++ l) ->
  0 <= i -> i + Z.of_nat (length ps) = pages_of sz -> 0 <= sz <= USERTOP ->
  (forall k, i <= k < pages_of sz -> is_Some (U !! k) /\ U' !! k = None) -> (length ps <= fuel)%nat ->
  exists s', copy_loop fuel pgdir d sz (i * PGSIZE) s = Ok true s' /\ vm_step s s' /\
    family s' pgdir T U d T' (add_pages i ps U') l /\
    untouched (fun v => v ∈ ps \/ own d T' v) s.(pmem) s'.(pmem) /\
    (forall k q v o, ps !! k = Some q -> U !! (i + Z.of_nat k) = Some v -> 0 <= o < PGSIZE ->
       load8 s'.(pmem) (q + o) = load8 s.(pmem) (v + o)).
Proof.
  induction ps as [|q ps IH]; intros s pgdir T U d T' U' l i sz fuel Hfam Hi Hn Hsz Hk Hf; cbn [length] in *.
  - exists s. split_and!; [|by exists s.(freelist), s.(pmem)|done|intros v b _ _ _; done|done].
    assert (sz <= i * PGSIZE) as Hle by (apply page_above; lia).
    destruct fuel; cbn [copy_loop]; rewrite (proj2 (Z.ltb_ge _ _) Hle); reflexivity.
  - destruct fuel as [|fuel]; [lia|]. pose proof (pages_of_bounds sz Hsz).
    destruct (Hk i) as [[v Hv] Hnone]; [lia|]. change ((q :: ps) ++ l) with (q :: (ps ++ l)) in *.
    destruct (copy_step s pgdir T U d T' U' q (ps ++ l) i v Hfam) as (s2 & E & Hst & Hfam2 & Hu & Hb);
      [lia|done|done|].
    rewrite E by (apply page_below; lia).
    destruct (IH s2 pgdir T U d T' (<[i := q]> U') l (i + 1) sz fuel Hfam2)
      as (s' & E' & Hst' & Hfam' & Hu' & Hb'); [lia|lia|done| |lia|].
    { intros k Hk'. rewrite lookup_insert_ne by lia. apply Hk. lia. }
    pose proof (fam_child _ _ _ _ _ _ _ _ Hfam) as Hc.
    exists s'. split_and!; [done|by eapply vm_step_trans|done| |].
    + eapply untouched_trans; [exact Hu|exact Hu'| |].
      * intros w [->|Ho]; [left; by left|by right].
      * intros w [Hw|Ho]; [left; by right|by right].
    + intros [|k] q' v' o Hq' Hv' Ho; cbn [lookup list_lookup] in Hq'.
      * simplify_eq. rewrite Z.add_0_r in Hv'. simplify_eq. rewrite <- Hb by done.
        destruct (as_pages _ _ _ _ _ (fam_child _ _ _ _ _ _ _ _ Hfam2) i q' (lookup_insert_eq _ _ _))
          as (_ & Hq & Hql & Hqo).
        apply (Hu' q'); [done| |lia]. intros [Hin|]; [|done]. apply Hql. apply elem_of_app. by left.
      * replace (i + Z.of_nat (S k)) with (i + 1 + Z.of_nat k) in Hv' by lia.
        rewrite (Hb' k q' v' o Hq' Hv' Ho).
        destruct (as_pages _ _ _ _ _ (fam_parent _ _ _ _ _ _ _ _ Hfam) _ v' Hv') as (_ & Hvp' & Hvl' & _).
        apply (Hu v'); [done| |lia]. intros [->|Hw]; [apply Hvl'; by left|].
        by apply (fam_pages _ _ _ _ _ _ _ _ Hfam _ _ Hv').
Qed.

(** Out of memory: the loop stops with all free pages in the child. *)
Lemma copy_loop_fail ps : forall s pgdir T U d T' U' i sz fuel,
  family s pgdir T U d T' U' ps ->
  0 <= i -> i + Z.of_nat (length ps) < pages_of sz -> 0 <= sz <= USERTOP ->
  (forall k, i <= k < pages_of sz -> is_Some (U !! k) /\ U' !! k = None) -> (length ps < fuel)%nat ->
  exists s', copy_loop fuel pgdir d sz (i * PGSIZE) s = Ok false s' /\ vm_step s s' /\
    family s' pgdir T U d T' (add_pages i ps U') [] /\
    untouched (fun v => v ∈ ps \/ own d T' v) s.(pmem) s'.(pmem).
Proof.
  induction ps as [|q ps IH]; intros s pgdir T U d T' U' i sz fuel Hfam Hi Hn Hsz Hk Hf; cbn [length] in *.
  all: destruct fuel as [|fuel]; [lia|]; pose proof (pages_of_bounds sz Hsz);
    destruct (Hk i) as [[v Hv] Hnone]; [lia|].
  - pose proof (fam_parent _ _ _ _ _ _ _ _ Hfam) as Ha.
    exists s. split_and!; [|by exists s.(freelist), s.(pmem)|done|intros w b _ _ _; done].
    destruct (walk_user s pgdir T U _ i Ha) as (t & Ew & Et); [lia|]. rewrite Hv in Et. simpl in Et.
    cbn [copy_loop]. rewrite (proj2 (Z.ltb_lt _ _)) by (apply page_below; lia).
    rewrite (kbind_Ok _ _ _ _ _ Ew). unfold peek at 1, kget at 1, kbind at 1. rewrite Et.
    unfold upte at 1. rewrite (proj2 (Z.eqb_neq _ 0) (mk_pte_present _ _)).
    by rewrite (kbind_Ok _ _ _ _ _ (kalloc_none s (vm_free _ _ _ _ (as_inv _ _ _ _ _ Ha)) (vm_lock _ _ _ _ (as_inv _ _ _ _ _ Ha)))).
  - destruct (copy_step s pgdir T U d T' U' q ps i v Hfam) as (s2 & E & Hst & Hfam2 & Hu & _); [lia|done|done|].
    rewrite E by (apply page_below; lia).
    destruct (IH s2 pgdir T U d T' (<[i := q]> U') (i + 1) sz fuel Hfam2)
      as (s' & E' & Hst' & Hfam' & Hu'); [lia|lia|done| |lia|].
    { intros k Hk'. rewrite lookup_insert_ne by lia. apply Hk. lia. }
    exists s'. split_and!; [done|by eapply vm_step_trans|done|].
    eapply untouched_trans; [exact Hu|exact Hu'| |].
    + intros w [->|Ho]; [left; by left|by right].
    + intros w [Hw|Ho]; [left; by right|by right].
Qed.

(** ** Giving an address space back *)

(** The loop of [freevm] over the directory, from index [i] on. *)
Lemma free_tables_ok n : forall s pgdir T l i,
  pt_ok s.(pmem) pgdir T -> free_pages s l -> LkKmem ∉ s.(held) -> pgdir ∉ l ->
  (forall j t, i <= j -> T !! j = Some t -> t ∉ l) ->
  0 <= i -> i + Z.of_nat n <= 1024 ->
  exists s' l', kfor (seq (Z.to_nat i) n) (fun i =>
      let* e := peek (pgdir + 4 * Z.of_nat i) in
      if Z.land e PTE_P =? 0 then kret tt else kfree (PTE_ADDR e)) s = Ok tt s' /\
    vm_step s s' /\ free_pages s' l' /\ l' ≡ₚ range_pages T i (Z.of_nat n) ++ l /\
    untouched (fun v => exists j, T !! j = Some v) s.(pmem) s'.(pmem).
Proof.
  induction n as [|n IH]; intros s pgdir T l i Hpt Hf Hk Hd Hl Hi Hn.
  { exists s, l. split_and!; [done|by exists s.(freelist), s.(pmem)|done|done|intros v b _ _ _; done]. }
  cbn [seq kfor]. rewrite range_pages_S by lia.
  replace (Z.of_nat (S n) - 1) with (Z.of_nat n) by lia.
  pose proof (pt_entries _ _ _ Hpt i ltac:(lia)) as He. rewrite kbind_assoc.
  unfold peek at 1, kget at 1, kbind at 1. rewrite Z2Nat.id by done.
  replace (S (Z.to_nat i)) with (Z.to_nat (i + 1)) by lia.
  destruct (T !! i) as [t|] eqn:Ht; cbn [pde_ok] in He.
  - destruct He as [He1 He2]. rewrite (proj2 (Z.eqb_neq _ 0) He2), He1.
    destruct (pt_tables _ _ _ Hpt i t Ht) as (_ & Htp & Htd).
    rewrite (kbind_Ok _ _ _ _ _ (kfree_ok t s Htp Hk)).
    set (s1 := set_freelist t (set_pmem (kfree_mem t s.(freelist) s.(pmem)) s)).
    assert (untouched (eq t) s.(pmem) s1.(pmem)) as Hu1.
    { intros p b Hp Hne Hb. apply load8_kfree_mem_frame. destruct (page_ok_disjoint t p Htp Hp Hne); lia. }
    destruct (IH s1 pgdir T (t :: l) (i + 1)) as (s' & l' & E & Hst & Hf' & Hl' & Hu'); try done; try lia.
    + split; [apply Hpt| |apply Hpt|apply Hpt]. intros j Hj.
      rewrite (load32_untouched (eq t) s.(pmem) s1.(pmem) pgdir _ Hu1);
        [by apply Hpt|apply Hpt|done|lia|unfold PGSIZE; lia].
    + apply kfree_free_pages; [done|by apply (Hl i)|done].
    + intros [->|Hin]%elem_of_cons; done.
    + intros j t' Hj Ht' [->|Hin]%elem_of_cons; [|by apply (Hl j t'); [lia| |]].
      assert (i = j) by (by eapply (pt_inj _ _ _ Hpt)). lia.
    + exists s', l'. split_and!; [done| |done| |].
      * eapply vm_step_trans; [|exact Hst]. by eexists _, _.
      * rewrite Hl'. simpl. by rewrite Permutation_middle.
      * eapply untouched_trans; [exact Hu1|exact Hu'|intros w <-; by exists i|done].
  - rewrite (proj2 (Z.eqb_eq _ 0) He). unfold kret at 1, kbind at 1.
    apply IH; try done; try lia. intros j t' Hj. apply Hl. lia.
Qed.

Lemma NPDENTRIES_eq : Z.of_nat NPDENTRIES = 1024.
Proof. vm_compute. reflexivity. Qed.

Opaque NPDENTRIES.

Lemma freevm_eq pgdir s s1 s2 v :
  page_ok pgdir -> deallocuvm pgdir USERTOP 0 s = Ok v s1 ->
  kfor (seq 0 NPDENTRIES) (fun i =>
      let* e := peek (pgdir + 4 * Z.of_nat i) in
      if Z.land e PTE_P =? 0 then kret tt else kfree (PTE_ADDR e)) s1 = Ok tt s2 ->
  freevm pgdir s = kfree pgdir s2.
Proof.
  intros H E1 E2. unfold freevm. rewrite (proj2 (Z.eqb_neq pgdir 0)) by (by apply page_ok_nonzero).
  rewrite (kbind_Ok _ _ _ _ _ E1). rewrite (kbind_Ok _ _ _ _ _ E2). reflexivity.
Qed.

(** [freevm] returns every page of the address space to the allocator. *)
Lemma freevm_run s pgdir T U l :
  aspace s pgdir T U l ->
  exists s' l', freevm pgdir s = Ok tt s' /\ vm_step s s' /\ free_pages s' l' /\
    l' ≡ₚ pgdir :: range_pages T 0 1024 ++ range_pages U 0 UPAGES ++ l /\
    untouched (fun v => own pgdir T v \/ exists i, U !! i = Some v) s.(pmem) s'.(pmem).
Proof.
  intros Ha. pose proof (pt_dir _ _ _ (vm_pt _ _ _ _ (as_inv _ _ _ _ _ Ha))) as Hpd.
  destruct (deallocuvm_run s pgdir T U l USERTOP 0 Ha) as (s1 & l1 & E1 & Hst1 & Ha1 & Hl1 & Hu1);
    [zconst|zconst|].
  assert (pages_of USERTOP = UPAGES) as E0 by reflexivity. assert (pages_of 0 = 0) as E0' by reflexivity.
  rewrite E0, E0', Z.sub_0_r in Hl1, Hu1.
  destruct (as_inv _ _ _ _ _ Ha1) as [Hpt Hf Hdis Hk].
  destruct (free_tables_ok NPDENTRIES s1 pgdir T l1 0) as (s2 & l2 & E2 & Hst2 & Hf2 & Hl2 & Hu2);
    [exact Hpt|exact Hf|exact Hk|apply Hdis; by left| |lia|rewrite NPDENTRIES_eq; lia|].
  { intros j t _ Ht. apply Hdis. right. by exists j. }
  rewrite NPDENTRIES_eq in Hl2.
  assert (forall v, v ∈ l2 -> v <> pgdir) as Hne.
  { intros v Hv ->. rewrite Hl2 in Hv. apply elem_of_app in Hv as [Hv|Hv].
    - apply elem_of_range_pages in Hv as (j & _ & Hj).
      by destruct (pt_tables _ _ _ Hpt j pgdir Hj) as (_ & _ & ?).
    - by apply (Hdis pgdir); [left|]. }
  assert (LkKmem ∉ s2.(held)) as Hk2 by (by destruct Hst2 as (? & ? & ->)).
  exists (set_freelist pgdir (set_pmem (kfree_mem pgdir s2.(freelist) s2.(pmem)) s2)), (pgdir :: l2).
  split; [rewrite (freevm_eq pgdir s s1 s2 _ Hpd E1 E2); exact (kfree_ok pgdir s2 Hpd Hk2)|].
  split_and!.
  - eapply vm_step_trans; [exact Hst1|]. eapply vm_step_trans; [exact Hst2|]. by eexists _, _.
  - apply kfree_free_pages; [done|intros Hin; by apply (Hne pgdir)|done].
  - rewrite Hl2, Hl1. done.
  - intros v b Hv Hw Hb. cbn [set_freelist set_pmem pmem].
    rewrite load8_kfree_mem_frame.
    2:{ destruct (page_ok_disjoint pgdir v Hpd Hv) as [|]; [|lia|lia]. intros ->. apply Hw. left. by left. }
    rewrite (Hu2 v b Hv), (Hu1 v b Hv); [done| |done| |done].
    + intros [Hr|Ho]; apply Hw; [|by left]. right. apply elem_of_range_pages in Hr as (i & _ & Hi). by exists i.
    + intros Ho. apply Hw. left. by right.
Qed.

Lemma kernel_pte_user va : 0 <= va < USERTOP -> kernel_pte va = 0.
Proof.
  intros H. unfold kernel_pte. rewrite decide_False; [done|]. change (PHYSTOP / PGSIZE) with 4096.
  change (0xFE000000 / PGSIZE) with 1040384. change (USERTOP / PGSIZE) with 160.
  assert (va / PGSIZE < 160); [|lia]. apply Z.div_lt_upper_bound; unfold PGSIZE, USERTOP in *; lia.
Qed.

(** A new page table has no user page. *)
Lemma setupkvm_aspace s l :
  free_pages s l -> LkKmem ∉ s.(held) -> (13 <= length l)%nat ->
  exists d T s' l', setupkvm s = Ok d s' /\ d <> 0 /\ vm_step s s' /\ aspace s' d T ∅ l' /\
    (exists k, l = k ++ l') /\ length l = (13 + length l')%nat /\
    d :: range_pages T 0 1024 ++ l' ≡ₚ l /\
    (forall v, own d T v -> v ∈ l) /\ untouched (fun v => v ∈ l) s.(pmem) s'.(pmem).
Proof.
  intros Hf Hk Hl.
  destruct (setupkvm_run s l Hf Hk Hl) as (d & T & s' & l' & E & Hst & Hi & Hfr & Hlen & Hp & Ho & Hu & He & Hd).
  exists d, T, s', l'. split_and!; try done.
  - apply page_ok_nonzero, (pt_dir _ _ _ (vm_pt _ _ _ _ Hi)).
  - split; [done|done| | |by intros i v; rewrite lookup_empty|by intros i j v; rewrite lookup_empty].
    + intros va Hva. rewrite He, kernel_pte_user, lookup_empty by (unfold USERTOP in *; lia). done.
    + intros va Hva. apply He. unfold USERTOP in *; lia.
Qed.

(** A parent beside a new, empty child. *)
Lemma setupkvm_family s pgdir T U l :
  aspace s pgdir T U l -> (13 <= length l)%nat ->
  exists d T' s' l', setupkvm s = Ok d s' /\ d <> 0 /\ vm_step s s' /\ family s' pgdir T U d T' ∅ l' /\
    length l = (13 + length l')%nat /\ d :: range_pages T' 0 1024 ++ l' ≡ₚ l /\
    (forall v, own d T' v -> v ∈ l) /\ untouched (fun v => v ∈ l) s.(pmem) s'.(pmem).
Proof.
  intros Ha Hl. destruct (as_inv _ _ _ _ _ Ha) as [_ Hf Hdis Hk].
  destruct (setupkvm_aspace s l Hf Hk Hl) as (d & T' & s' & l' & E & H0 & Hst & Hc & [k Hfr] & Hlen & Hp & Ho & Hu).
  exists d, T', s', l'. split_and!; try done. split; [|done| |].
  - eapply (aspace_frame _ s s'); [done|done|apply Hc| |exact Hu|done]. intros v Hv. rewrite Hfr. set_solver.
  - intros v Hv Hv'. apply (Hdis v Hv). by apply Ho.
  - intros i v Hv Hv'. destruct (as_pages _ _ _ _ _ Ha i v Hv) as (_ & _ & Hn & _). by apply Hn, Ho.
Qed.

Lemma range_add_pages ps i : 0 <= i -> range_pages (add_pages i ps ∅) i (Z.of_nat (length ps)) ≡ₚ ps.
Proof.
  intros Hi. assert (forall U, (forall k, i <= k -> U !! k = None) ->
    range_pages (add_pages i ps U) i (Z.of_nat (length ps)) ≡ₚ ps) as H.
  { revert i Hi. induction ps as [|q ps IH]; intros i Hi U Hn; cbn [add_pages length].
    { by rewrite range_pages_none by lia. }
    rewrite range_pages_S, lookup_add_pages, decide_False, lookup_insert_eq by lia. simpl.
    replace (Z.of_nat (S (length ps)) - 1) with (Z.of_nat (length ps)) by lia.
    constructor. apply IH; [lia|]. intros k Hk. rewrite lookup_insert_ne by lia. apply Hn. lia. }
  apply H. intros. apply lookup_empty.
Qed.

Lemma copy_fuel sz : 0 <= sz -> (Z.to_nat (pages_of sz) <= S (Z.to_nat (sz / PGSIZE)))%nat.
Proof.
  intros. assert (pages_of sz <= sz / PGSIZE + 1); [|pose proof (Z.div_pos sz PGSIZE ltac:(done) ltac:(done)); lia].
  unfold pages_of. replace (sz / PGSIZE + 1) with ((sz + 1 * PGSIZE) / PGSIZE) by (by rewrite Z.div_add).
  apply Z.div_le_mono; unfold PGSIZE; lia.
Qed.

(** The byte a user address denotes, through the page that holds it. *)
Lemma user_byte_at m U va v : U !! (va / PGSIZE) = Some v -> user_byte m U va = load8 m (v + va mod PGSIZE).
Proof. intros E. unfold user_byte. by rewrite E. Qed.

Lemma copyuvm_enough s pgdir T U l sz :
  uvm s pgdir T U l sz -> 13 + pages_of sz <= Z.of_nat (length l) ->
  exists d T' U' s' l', copyuvm pgdir sz s = Ok d s' /\ d <> 0 /\
    uvm s' pgdir T U l' sz /\ uvm s' d T' U' l' sz /\
    (forall va, 0 <= va < sz -> user_byte s'.(pmem) U va = user_byte s.(pmem) U va /\
                                user_byte s'.(pmem) U' va = user_byte s.(pmem) U va) /\
    (forall i j v, U !! i = Some v -> U' !! j <> Some v).
Proof.
  intros (Ha & Hsz & Hdom) Hl. pose proof (pages_of_bounds sz Hsz) as Hb.
  destruct (setupkvm_family s pgdir T U l Ha) as (d & T' & s1 & l1 & E & H0 & Hst & Hfam & Hlen & Hp & Ho & Hu); [lia|].
  set (n := Z.to_nat (pages_of sz)). assert (length (take n l1) = n) as Hn by (rewrite length_take; lia).
  assert (family s1 pgdir T U d T' ∅ (take n l1 ++ drop n l1)) as Hfam1 by (by rewrite take_drop).
  destruct (copy_loop_ok (take n l1) s1 pgdir T U d T' ∅ (drop n l1) 0 sz (S (Z.to_nat (sz / PGSIZE))) Hfam1)
    as (s2 & E2 & Hst2 & Hfam2 & Hu2 & Hb2); [lia|lia|done| | |].
  { intros k Hk. split; [by apply Hdom|apply lookup_empty]. }
  { rewrite Hn. apply copy_fuel. lia. }
  set (U' := add_pages 0 (take n l1) ∅) in *.
  exists d, T', U', s2, (drop n l1). split_and!; [| |by split_and!; [apply Hfam2|lia|lia|]|split_and!; [apply Hfam2|lia|lia|]| |].
  - unfold copyuvm. rewrite (kbind_Ok _ _ _ _ _ E). rewrite (proj2 (Z.eqb_neq d 0) H0).
    change (0 * PGSIZE) with 0 in E2. by rewrite (kbind_Ok _ _ _ _ _ E2).
  - done.
  - intros k. unfold U'. rewrite is_Some_add_pages, Hn, lookup_empty. split; [|lia].
    intros [?|[[? ?] ?]]; [lia|done].
  - intros va Hva. pose proof (below_size sz va Hva) as Hpg.
    destruct (proj2 (Hdom (va / PGSIZE)) Hpg) as [v Hv].
    destruct (as_pages _ _ _ _ _ Ha _ v Hv) as (_ & Hvp & Hvl & _).
    pose proof (Z.mod_pos_bound va PGSIZE ltac:(done)) as Hm.
    assert (load8 s1.(pmem) (v + va mod PGSIZE) = load8 s.(pmem) (v + va mod PGSIZE)) as E1
      by (apply (Hu v); [done|done|lia]).
    destruct (lookup_lt_is_Some_2 (take n l1) (Z.to_nat (va / PGSIZE))) as [q Hq]; [lia|].
    rewrite (user_byte_at s.(pmem) U va v Hv). split.
    + rewrite (user_byte_at s2.(pmem) U va v Hv), <- E1. apply (Hu2 v); [done| |lia].
      destruct (as_pages _ _ _ _ _ (fam_parent _ _ _ _ _ _ _ _ Hfam1) _ v Hv) as (_ & _ & Hvl1 & _).
      intros [Hin|Hin]; [apply Hvl1, elem_of_app; by left|].
      by apply (fam_pages _ _ _ _ _ _ _ _ Hfam _ v Hv).
    + rewrite (user_byte_at _ U' va q). { rewrite <- E1. apply (Hb2 (Z.to_nat (va / PGSIZE))); [done| |done].
        rewrite Z2Nat.id by lia. done. }
      unfold U'. rewrite lookup_add_pages, Hn, Z.sub_0_r, decide_True by lia. done.
  - intros i j v Hv Hv'. unfold U' in Hv'. rewrite lookup_add_pages, lookup_empty in Hv'.
    destruct (decide _); [|done]. apply list_elem_of_lookup_2 in Hv'.
    destruct (as_pages _ _ _ _ _ (fam_parent _ _ _ _ _ _ _ _ Hfam1) i v Hv) as (_ & _ & Hvl1 & _).
    apply Hvl1, elem_of_app. by left.
Qed.

Lemma copyuvm_fails s pgdir T U l sz :
  uvm s pgdir T U l sz -> (13 <= length l)%nat -> Z.of_nat (length l) < 13 + pages_of sz ->
  exists s' l', copyuvm pgdir sz s = Ok 0 s' /\ uvm s' pgdir T U l' sz /\ l' ≡ₚ l /\
    (forall va, 0 <= va < sz -> user_byte s'.(pmem) U va = user_byte s.(pmem) U va).
Proof.
  intros (Ha & Hsz & Hdom) Hl Hlt. pose proof (pages_of_bounds sz Hsz) as Hb.
  destruct (setupkvm_family s pgdir T U l Ha Hl) as (d & T' & s1 & l1 & E & H0 & Hst & Hfam & Hlen & Hp & Ho & Hu).
  destruct (copy_loop_fail l1 s1 pgdir T U d T' ∅ 0 sz (S (Z.to_nat (sz / PGSIZE))) Hfam)
    as (s2 & E2 & Hst2 & Hfam2 & Hu2); [lia|lia|done| | |].
  { intros k Hk. split; [by apply Hdom|apply lookup_empty]. }
  { pose proof (copy_fuel sz). lia. }
  destruct (freevm_run s2 d T' (add_pages 0 l1 ∅) [] (fam_child _ _ _ _ _ _ _ _ Hfam2))
    as (s3 & l3 & E3 & Hst3 & Hf3 & Hl3 & Hu3).
  assert (l3 ≡ₚ l) as Hperm.
  { rewrite Hl3, app_nil_r, <- Hp. do 2 f_equiv.
    replace UPAGES with (Z.of_nat (length l1) + (UPAGES - Z.of_nat (length l1))) by lia.
    rewrite range_pages_app by lia. rewrite range_add_pages by lia.
    rewrite range_pages_none, app_nil_r; [done|]. intros k Hk. rewrite lookup_add_pages, decide_False by lia.
    apply lookup_empty. }
  assert (forall v, own d T' v \/ (exists i, add_pages 0 l1 ∅ !! i = Some v) -> v ∈ l) as Hin.
  { intros v [Hv|(i & Hi)]; [by apply Ho|]. rewrite lookup_add_pages, lookup_empty in Hi.
    destruct (decide _); [|done]. apply list_elem_of_lookup_2 in Hi. rewrite <- Hp. right. apply elem_of_app. by right. }
  assert (untouched (fun v => v ∈ l) s.(pmem) s3.(pmem)) as HU.
  { apply (untouched_trans (fun v => v ∈ l) (fun v => v ∈ l) _ _ s1.(pmem)); [exact Hu| |done|done].
    eapply untouched_trans; [exact Hu2|exact Hu3| |exact Hin].
    intros v [Hv|Hv]; [|by apply Ho]. rewrite <- Hp. right. apply elem_of_app. by right. }
  exists s3, l3. split_and!; [|split_and!; [|lia|lia|done]|done|].
  - unfold copyuvm. rewrite (kbind_Ok _ _ _ _ _ E). rewrite (proj2 (Z.eqb_neq d 0) H0).
    change (0 * PGSIZE) with 0 in E2. rewrite (kbind_Ok _ _ _ _ _ E2). by rewrite (kbind_Ok _ _ _ _ _ E3).
  - eapply (aspace_frame _ s s3 _ _ _ l); [done| |done| |exact HU|].
    + eapply vm_step_trans; [exact Hst|]. by eapply vm_step_trans.
    + intros v. by rewrite Hperm.
    + intros v Hv. apply (vm_disjoint _ _ _ _ (as_inv _ _ _ _ _ Ha) v Hv).
  - intros va Hva. apply (user_byte_kept _ _ _ _ _ _ HU); [done|]. intros v Hv.
    by destruct (as_pages _ _ _ _ _ Ha _ v Hv) as (_ & ? & ? & _).
Qed.

Lemma allocuvm_grows s pgdir T U l oldsz newsz :
  uvm s pgdir T U l oldsz -> oldsz <= newsz <= USERTOP -> 0 < newsz ->
  pages_of newsz - pages_of oldsz <= Z.of_nat (length l) ->
  exists s' U' l', allocuvm pgdir oldsz newsz s = Ok newsz s' /\ uvm s' pgdir T U' l' newsz /\
    (forall va, 0 <= va < oldsz -> user_byte s'.(pmem) U' va = user_byte s.(pmem) U va) /\
    (forall va, pages_of oldsz * PGSIZE <= va < newsz -> user_byte s'.(pmem) U' va = 0).
Proof.
  intros Hu Hn H0 Hl. set (n := Z.to_nat (pages_of newsz - pages_of oldsz)).
  destruct (allocuvm_run s pgdir T U l oldsz newsz Hu Hn H0) as (s' & E & Hst & Hu' & Hun & Hz); [lia|].
  fold n in Hu', Hun, Hz. set (U' := add_pages (pages_of oldsz) (take n l) U) in *.
  assert (length (take n l) = n) as Hlen by (rewrite length_take; lia).
  pose proof Hu as (_ & Hsz & _). pose proof (pages_of_bounds oldsz Hsz) as Hpo.
  exists s', U', (drop n l). split_and!; [done|done| |].
  - intros va Hva. pose proof (below_size oldsz va Hva). apply (user_byte_kept _ _ _ _ _ _ Hun).
    + unfold U'. by rewrite lookup_add_pages, decide_False by lia.
    + intros v Hv. destruct (uvm_pages _ _ _ _ _ _ _ _ Hu Hv) as (Hp & Hvl & Hvo).
      split; [done|]. intros [Hin|]; [|done]. apply Hvl. rewrite <- (take_drop n l). apply elem_of_app. by left.
  - intros va Hva. assert (0 <= va < newsz) as Hva' by (unfold PGSIZE in *; lia).
    pose proof (below_size newsz va Hva') as Hpg. pose proof (Z.mod_pos_bound va PGSIZE ltac:(done)).
    assert (pages_of oldsz <= va / PGSIZE) by (apply Z.div_le_lower_bound; unfold PGSIZE in *; lia).
    destruct (lookup_lt_is_Some_2 (take n l) (Z.to_nat (va / PGSIZE - pages_of oldsz))) as [q Hq]; [lia|].
    rewrite (user_byte_at _ U' va q).
    + apply (Hz q); [by eapply list_elem_of_lookup_2|lia].
    + unfold U'. rewrite lookup_add_pages, decide_True by lia. done.
Qed.

Lemma allocuvm_fails s pgdir T U l oldsz newsz :
  uvm s pgdir T U l oldsz -> oldsz <= newsz <= USERTOP ->
  con_ok s.(con) -> LkCons ∉ s.(held) -> Z.of_nat (length l) < pages_of newsz - pages_of oldsz ->
  exists s' l', allocuvm pgdir oldsz newsz s = Ok 0 s' /\ uvm s' pgdir T U l' oldsz /\ l' ≡ₚ l /\
    (forall va, 0 <= va < oldsz -> user_byte s'.(pmem) U va = user_byte s.(pmem) U va).
Proof.
  intros Hu Hn Hc Hk Hl. pose proof Hu as (Ha & Hsz & Hdom). pose proof (pages_of_bounds oldsz Hsz) as Hpo.
  assert (forall k, pages_of oldsz <= k -> U !! k = None) as Hnone
    by (intros k Hk'; apply eq_None_not_Some; rewrite Hdom; lia).
  assert (oldsz < newsz).
  { destruct (decide (oldsz = newsz)) as [->|]; lia. }
  destruct (alloc_loop_fail l s pgdir T U (pages_of oldsz) oldsz newsz (Z.to_nat (pages_of newsz - pages_of oldsz)) Ha)
    as (s' & l' & k & E & (f & m & Es) & Ha' & Hl' & Hun); try done; try lia.
  { intros j v Hv. assert (is_Some (U !! j)) as Hj by (by exists v). rewrite Hdom in Hj. lia. }
  rewrite Z.sub_diag, range_pages_none in Hl', Hun by lia. simpl in Hl'.
  assert (cut U (pages_of oldsz) (pages_of newsz - 1) = U) as Hcut.
  { apply map_eq. intros j. rewrite lookup_cut. case_decide; [|done]. symmetry. apply Hnone. lia. }
  rewrite Hcut in Ha'. exists s', l'. split_and!; [|split_and!; [done|lia|lia|done]|done|].
  - unfold allocuvm. rewrite Z.gtb_ltb, (proj2 (Z.ltb_ge _ _)) by lia.
    rewrite round_up, last_page, npages_eq by lia.
    replace (pages_of newsz - 1 - pages_of oldsz + 1) with (pages_of newsz - pages_of oldsz) by lia. exact E.
  - intros va Hva. apply (user_byte_kept _ _ _ _ _ _ Hun); [done|]. intros v Hv.
    destruct (uvm_pages _ _ _ _ _ _ _ _ Hu Hv) as (Hp & Hvl & Hvo). split; [done|].
    intros [?|[Hin|?]]; [done| |done]. by apply not_elem_of_nil in Hin.
Qed.

(** ** Examples *)

(** Memory from 1 MB to [PHYSTOP], all free. *)
Lemma booted_memory : exists s l, free_pages s l /\ s.(held) = [] /\ s.(con) = bare_console /\
  length l = Z.to_nat 3840.
Proof.
  destruct (kinit_loop_ok (Z.to_nat 3841) 0x100000 bare_state []) as (s' & E & Hf).
  - reflexivity.
  - zconst.
  - change ((PHYSTOP - 0x100000) / PGSIZE) with 3840. lia.
  - apply not_elem_of_nil.
  - split; [done|constructor].
  - intros v Hv. by apply not_elem_of_nil in Hv.
  - change ((PHYSTOP - 0x100000) / PGSIZE) with 3840 in Hf. eexists s', _. split; [exact Hf|].
    pose proof (kinit_loop_frame (Z.to_nat 3841) 0x100000 bare_state s' E) as (Hh & Hc).
    split_and!; [done|done|]. rewrite length_pages_from. simpl. lia.
Qed.

(** A process of one page. *)
Lemma sample_space : exists s d T U l, uvm s d T U l PGSIZE /\ s.(held) = [] /\ con_ok s.(con) /\
  length l = Z.to_nat 3826.
Proof.
  destruct booted_memory as (s & l & Hf & Hh & Hc & Hl).
  destruct (setupkvm_aspace s l Hf) as (d & T & s1 & l1 & E & _ & (f & m & Es) & Ha & _ & Hlen & _).
  { rewrite Hh. apply not_elem_of_nil. }
  { rewrite Hl. lia. }
  destruct (allocuvm_run s1 d T ∅ l1 0 PGSIZE) as (s2 & E2 & (f2 & m2 & Es2) & Hu & _).
  { split_and!; [done|lia|zconst|]. intros k. rewrite lookup_empty. change (pages_of 0) with 0.
    split; [intros [? ?]; done|lia]. }
  { zconst. }
  { zconst. }
  { change (pages_of PGSIZE - pages_of 0) with 1. lia. }
  change (pages_of PGSIZE - pages_of 0) with 1 in *.
  eexists s2, d, T, _, _. split; [exact Hu|].
  split; [by rewrite Es2, Es|]. split.
  - rewrite Es2, Es. cbn. rewrite Hc. vm_compute. done.
  - rewrite length_drop. lia.
Qed.

(** ** Properties *)

(** C27: [allocuvm] grows an address space: with enough free pages it returns the
    new size, the process sees its old bytes unchanged and zeros in the new
    pages; otherwise it returns 0, the address space is as before and every
    page is free again.  In both cases page tables, user pages and free pages
    stay disjoint. *)
Theorem allocuvm_correct (s : kstate) (pgdir : Z) (T U : gmap Z Z) (l : list Z) (oldsz newsz : Z) :
  uvm s pgdir T U l oldsz -> oldsz <= newsz <= USERTOP -> 0 < newsz ->
  con_ok s.(con) -> LkCons ∉ s.(held) ->
  if decide (pages_of newsz - pages_of oldsz <= Z.of_nat (length l)) then
    exists s' U' l', allocuvm pgdir oldsz newsz s = Ok newsz s' /\ uvm s' pgdir T U' l' newsz /\
      (forall va, 0 <= va < oldsz -> user_byte s'.(pmem) U' va = user_byte s.(pmem) U va) /\
      (forall va, pages_of oldsz * PGSIZE <= va < newsz -> user_byte s'.(pmem) U' va = 0)
  else
    exists s' l', allocuvm pgdir oldsz newsz s = Ok 0 s' /\ uvm s' pgdir T U l' oldsz /\ l' ≡ₚ l /\
      (forall va, 0 <= va < oldsz -> user_byte s'.(pmem) U va = user_byte s.(pmem) U va).
Proof.
  intros Hu Hn H0 Hc Hk. destruct (decide _) as [Hl|Hl].
  - by apply (allocuvm_grows s pgdir T U l).
  - apply (allocuvm_fails s pgdir T U l); [done|done|done|done|lia].
Qed.

Lemma allocuvm_correct_witness :
  exists s s' d U', allocuvm d PGSIZE 12288 s = Ok 12288 s' /\ user_byte s'.(pmem) U' 8191 = 0.
Proof.
  destruct sample_space as (s & d & T & U & l & Hu & Hh & Hc & Hl).
  pose proof (allocuvm_correct s d T U l PGSIZE 12288 Hu) as H.
  rewrite decide_True in H by (change (pages_of 12288 - pages_of PGSIZE) with 2; lia).
  destruct H as (s' & U' & l' & E & _ & _ & Hz); [zconst|lia|exact Hc|rewrite Hh; apply not_elem_of_nil|].
  exists s, s', d, U'. split; [exact E|]. apply Hz. change (pages_of PGSIZE) with 1. zconst.
Defined.

(** C28: [deallocuvm] shrinks an address space: it returns the new size, the
    process keeps its bytes below it, has no page above it, and the pages it
    lost are free again, each once. *)
Theorem deallocuvm_correct (s : kstate) (pgdir : Z) (T U : gmap Z Z) (l : list Z) (oldsz newsz : Z) :
  uvm s pgdir T U l oldsz -> 0 <= newsz <= oldsz -> 0 < oldsz ->
  exists s' U' l', deallocuvm pgdir oldsz newsz s = Ok newsz s' /\ uvm s' pgdir T U' l' newsz /\
    l' ≡ₚ range_pages U (pages_of newsz) (pages_of oldsz - pages_of newsz) ++ l /\
    (forall va, 0 <= va < newsz -> user_byte s'.(pmem) U' va = user_byte s.(pmem) U va).
Proof.
  intros Hu Hn H0. pose proof Hu as (Ha & Hsz & Hdom).
  pose proof (pages_of_bounds newsz ltac:(lia)). pose proof (pages_of_mono newsz oldsz ltac:(lia)).
  destruct (deallocuvm_run s pgdir T U l oldsz newsz Ha) as (s' & l' & E & Hst & Ha' & Hl & Hun); [lia|lia|].
  exists s', (cut U (pages_of newsz) (pages_of oldsz - 1)), l'. split_and!; [done| |done|].
  - split_and!; [done|lia|lia|]. intros k. rewrite lookup_cut. case_decide.
    + split; [intros [? ?]; done|lia].
    + rewrite Hdom. lia.
  - intros va Hva. pose proof (below_size newsz va Hva). apply (user_byte_kept _ _ _ _ _ _ Hun).
    + by rewrite lookup_cut, decide_False by lia.
    + intros v Hv. destruct (uvm_pages _ _ _ _ _ _ _ _ Hu Hv) as (Hp & Hvl & Hvo). split; [done|].
      intros [(k & Hk & Hv')%elem_of_range_pages|]; [|done].
      assert (k = va / PGSIZE) by (by eapply (as_inj _ _ _ _ _ Ha)). lia.
Qed.

Lemma deallocuvm_correct_witness :
  exists s s' d (l l' : list Z), deallocuvm d PGSIZE 0 s = Ok 0 s' /\ free_pages s' l' /\ length l' = S (length l).
Proof.
  destruct sample_space as (s & d & T & U & l & Hu & _).
  destruct (deallocuvm_correct s d T U l PGSIZE 0 Hu) as (s' & U' & l' & E & Hu' & Hl & _); [zconst|zconst|].
  exists s, s', d, l, l'. split; [exact E|]. split; [apply Hu'|].
  destruct (proj2 (proj2 (proj2 Hu) 0)) as [v Hv]; [change (pages_of PGSIZE) with 1; lia|].
  rewrite Hl. change (pages_of PGSIZE - pages_of 0) with 1. change (pages_of 0) with 0.
  rewrite range_pages_S, Hv, range_pages_none by lia. reflexivity.
Defined.

(** C6: [copyuvm], the copy fork makes, with the 13 pages a kernel mapping takes:
    if memory suffices, the child has an address space of its own with the
    parent's bytes, no page of it belongs to the parent, and the parent's
    bytes are unchanged; if memory runs out, the result is 0, the parent is
    unchanged and not one page is lost. *)
Theorem copyuvm_correct (s : kstate) (pgdir : Z) (T U : gmap Z Z) (l : list Z) (sz : Z) :
  uvm s pgdir T U l sz -> (13 <= length l)%nat ->
  if decide (13 + pages_of sz <= Z.of_nat (length l)) then
    exists d T' U' s' l', copyuvm pgdir sz s = Ok d s' /\ d <> 0 /\
      uvm s' pgdir T U l' sz /\ uvm s' d T' U' l' sz /\
      (forall va, 0 <= va < sz -> user_byte s'.(pmem) U va = user_byte s.(pmem) U va /\
                                  user_byte s'.(pmem) U' va = user_byte s.(pmem) U va) /\
      (forall i j v, U !! i = Some v -> U' !! j <> Some v)
  else
    exists s' l', copyuvm pgdir sz s = Ok 0 s' /\ uvm s' pgdir T U l' sz /\ l' ≡ₚ l /\
      (forall va, 0 <= va < sz -> user_byte s'.(pmem) U va = user_byte s.(pmem) U va).
Proof.
  intros Hu Hl. destruct (decide _) as [H|H].
  - exact (copyuvm_enough s pgdir T U l sz Hu H).
  - apply (copyuvm_fails s pgdir T U l sz Hu Hl). lia.
Qed.

Lemma copyuvm_correct_witness : exists s s' p d, copyuvm p PGSIZE s = Ok d s' /\ d <> 0.
Proof.
  destruct sample_space as (s & p & T & U & l & Hu & _ & _ & Hl).
  pose proof (copyuvm_correct s p T U l PGSIZE Hu) as H.
  rewrite decide_True in H by (change (pages_of PGSIZE) with 1; lia).
  destruct H as (d & T' & U' & s' & l' & E & H0 & _); [lia|]. exists s, s', p, d. split; [exact E|exact H0].
Defined.

(** [freevm] gives back all of an address space, user pages, page tables and
    page directory, each page once, and writes to no other page. *)
Theorem freevm_correct (s : kstate) (pgdir : Z) (T U : gmap Z Z) (l : list Z) (sz : Z) :
  uvm s pgdir T U l sz ->
  exists s' l', freevm pgdir s = Ok tt s' /\ free_pages s' l' /\
    l' ≡ₚ pgdir :: range_pages T 0 1024 ++ range_pages U 0 UPAGES ++ l /\
    (forall v b, page_ok v -> ~ own pgdir T v -> (forall i, U !! i <> Some v) ->
       v <= b < v + PGSIZE -> load8 s'.(pmem) b = load8 s.(pmem) b).
Proof.
  intros (Ha & _). destruct (freevm_run s pgdir T U l Ha) as (s' & l' & E & _ & Hf & Hl & Hu).
  exists s', l'. split_and!; try done. intros v b Hp Ho Hi Hb. apply (Hu v b); [done| |done].
  intros [?|(i & ?)]; [done|]. by apply (Hi i).
Qed.

Lemma freevm_correct_witness : exists s s' d l', freevm d s = Ok tt s' /\ free_pages s' l'.
Proof.
  destruct sample_space as (s & d & T & U & l & Hu & _).
  destruct (freevm_correct s d T U l PGSIZE Hu) as (s' & l' & E & Hf & _).
  exists s, s', d, l'. split; [exact E|exact Hf].
Defined.
