(* ===== verification/Proc.v ===== *)
(** Processes: allocproc, userinit, growproc, fork, exit, wait, wait2 and
    forkret of proc.c.

    [wait] and [wait2] return when a child has exited; while a child is still
    running they give up the CPU inside [sleep] and start over when woken. *)

From S2P Require Import Prelude CString State Kalloc ProcSync Pipe Ide Bio Bytes FsBlock Inode Dir File Vm.

Definition SEG_UCODE : Z := 4.
Definition SEG_UDATA : Z := 5.
Definition DPL_USER : Z := 3.
Definition FL_IF : Z := 0x200.

(** What the linker puts into the kernel image: the address of [forkret] and
    the bytes of the first user program. *)
Class Image := { forkret_addr : Z; initcode : list Z }.

(** [wakeup1] of a pointer that may be null. *)
Definition wakeup1_ptr (c : option chan) : K unit :=
  kmod (fun s => set_ptable
    ((fun p => if decide (p.(p_state) = SLEEPING /\ p.(p_chan) = c) then set_p_state RUNNABLE p else p)
       <$> s.(ptable)) s).

Section proc.
Context `{Devsw} `{Image}.

Definition allocproc : K (option nat) :=
  acquire LkPtable ;;;
  let* t := kget (fun s => s.(ptable)) in
  match list_find (fun p => p.(p_state) = UNUSED) t with
  | None => release LkPtable ;;; kret None
  | Some (i, _) =>
      mod_proc i (set_p_state EMBRYO) ;;;
      let* pid := kget (fun s => s.(nextpid)) in
      mod_proc i (set_p_pid pid) ;;;
      kmod (set_nextpid (s32 (pid + 1))) ;;;
      release LkPtable ;;;
      let* k := kalloc in
      mod_proc i (set_p_kstack k) ;;;
      if k =? 0 then mod_proc i (set_p_state UNUSED) ;;; kret None else
      mod_proc i (set_p_eip forkret_addr) ;;;
      let* now := proc_clockticks in
      mod_proc i (set_p_ctime now) ;;;
      mod_proc i (set_p_rtime 0) ;;;
      mod_proc i (set_p_priority 0) ;;;
      kret (Some i)
  end.

(** The user trap frame the first process starts with. *)
Definition init_tf : trapframe :=
  let ds := Z.lor (Z.shiftl SEG_UDATA 3) DPL_USER in
  mk_trapframe 0 0 0 0 0 0 0 0 0 0 ds ds 0 0 0 (Z.lor (Z.shiftl SEG_UCODE 3) DPL_USER) FL_IF PGSIZE ds.

(** [safestrcpy(p->name, name, sizeof(p->name))]. *)
Definition copy_name (name : list Z) (p : proc) : proc :=
  set_p_name (splice 0 (upto_nul name 15 ++ [0]) p.(p_name)) p.

Definition userinit : K unit :=
  let* o := allocproc in
  kmod (set_initproc o) ;;;
  let* p := klift "allocproc" o in
  let* d := setupkvm in
  mod_proc p (set_p_pgdir d) ;;;
  if d =? 0 then panic "userinit: out of memory?" else
  inituvm d initcode (Z.of_nat (length initcode)) ;;;
  mod_proc p (set_p_sz PGSIZE) ;;;
  mod_proc p (set_p_tf init_tf) ;;;
  mod_proc p (copy_name (str "initcode")) ;;;
  let* c := namei [SLASH] in
  mod_proc p (set_p_cwd c) ;;;
  mod_proc p (set_p_state RUNNABLE).

Definition growproc (n : Z) : K Z :=
  let* me := myproc in
  let* p := get_proc me in
  let sz := p.(p_sz) in
  let* r :=
    (if n >? 0 then let* x := allocuvm p.(p_pgdir) sz (u32 (sz + n)) in kret (x, x =? 0)
     else if n <? 0 then let* x := deallocuvm p.(p_pgdir) sz (u32 (sz + n)) in kret (x, x =? 0)
     else kret (sz, false)) in
  if r.2 then kret (-1) else
  mod_proc me (set_p_sz r.1) ;;;
  switchuvm me ;;;
  kret 0.

(** Entry [k] of the open-file table. *)
Definition ofile (p : proc) (k : nat) : option nat := default None (p.(p_ofile) !! k).
Definition set_ofile (k : nat) (f : option nat) (p : proc) : proc := set_p_ofile (<[k := f]> p.(p_ofile)) p.

Definition fork : K Z :=
  let* o := allocproc in
  match o with
  | None => kret (-1)
  | Some np =>
      let* me := myproc in
      let* p := get_proc me in
      let* d := copyuvm p.(p_pgdir) p.(p_sz) in
      mod_proc np (set_p_pgdir d) ;;;
      if d =? 0 then
        let* q := get_proc np in
        kfree q.(p_kstack) ;;;
        mod_proc np (set_p_kstack 0) ;;;
        mod_proc np (set_p_state UNUSED) ;;;
        kret (-1)
      else
      mod_proc np (set_p_sz p.(p_sz)) ;;;
      mod_proc np (set_p_parent (Some me)) ;;;
      mod_proc np (set_p_tf p.(p_tf)) ;;;
      mod_proc np (fun q => set_p_tf (set_tf_eax 0 q.(p_tf)) q) ;;;
      kfor (seq 0 NOFILE) (fun k =>
        let* p := get_proc me in
        match ofile p k with
        | Some f => let* f' := filedup f in mod_proc np (set_ofile k (Some f'))
        | None => kret tt
        end) ;;;
      let* cwd := klift "cwd" p.(p_cwd) in
      let* c := idup cwd in
      mod_proc np (set_p_cwd (Some c)) ;;;
      let* q := get_proc np in
      mod_proc np (set_p_state RUNNABLE) ;;;
      mod_proc np (copy_name p.(p_name)) ;;;
      kret q.(p_pid)
  end.

(** The loop of [exit] that hands the children to init. *)
Definition reparent (me : nat) (i : nat) : K unit :=
  let* p := get_proc i in
  if decide (p.(p_parent) = Some me) then
    let* init := kget (fun s => s.(initproc)) in
    mod_proc i (set_p_parent init) ;;;
    (if decide (p.(p_state) = ZOMBIE) then wakeup1_ptr (ChProc <$> init) else kret tt)
  else kret tt.

(** The end of [exit]: the process leaves, holding ptable.lock, and never
    returns. *)
Definition zombify (me : nat) : K unit :=
  acquire LkPtable ;;;
  let* p := get_proc me in
  wakeup1_ptr (ChProc <$> p.(p_parent)) ;;;
  let* n := kget (fun s => length s.(ptable)) in
  kfor (seq 0 n) (reparent me) ;;;
  mod_proc me (set_p_state ZOMBIE) ;;;
  let* now := proc_clockticks in
  mod_proc me (set_p_etime now) ;;;
  sched ;;;
  panic "zombie exit".

Definition exit : K unit :=
  let* me := myproc in
  let* init := kget (fun s => s.(initproc)) in
  if decide (Some me = init) then panic "init exiting" else
  kfor (seq 0 NOFILE) (fun k =>
    let* p := get_proc me in
    match ofile p k with
    | Some f => fileclose f ;;; mod_proc me (set_ofile k None)
    | None => kret tt
    end) ;;;
  let* p := get_proc me in
  let* cwd := klift "cwd" p.(p_cwd) in
  iput cwd ;;;
  mod_proc me (set_p_cwd None) ;;;
  zombify me.

(** [p->name[0] = 0]. *)
Definition clear_name (p : proc) : proc := set_p_name (<[0%nat := 0]> p.(p_name)) p.

(** The clean-up of a zombie child [i] in [wait]. *)
Definition reap (i : nat) : K Z :=
  let* p := get_proc i in
  kfree p.(p_kstack) ;;;
  mod_proc i (set_p_kstack 0) ;;;
  freevm p.(p_pgdir) ;;;
  mod_proc i (set_p_state UNUSED) ;;;
  mod_proc i (set_p_pid 0) ;;;
  mod_proc i (set_p_parent None) ;;;
  mod_proc i clear_name ;;;
  mod_proc i (set_p_killed 0) ;;;
  mod_proc i (set_p_rtime 0) ;;;
  mod_proc i (set_p_ctime 0) ;;;
  mod_proc i (set_p_etime 0) ;;;
  mod_proc i (set_p_priority 0) ;;;
  release LkPtable ;;;
  kret p.(p_pid).

(** No zombie child: give up, or sleep until a child exits. *)
Definition wait_more (me : nat) : K Z :=
  let* t := kget (fun s => s.(ptable)) in
  let* p := get_proc me in
  match list_find (fun q => q.(p_parent) = Some me) t with
  | Some _ =>
      if p.(p_killed) =? 0 then sleep (ChProc me) LkPtable ;;; kfault "sleep does not return here"
      else release LkPtable ;;; kret (-1)
  | None => release LkPtable ;;; kret (-1)
  end.

Definition zombie_of (me : nat) (q : proc) : Prop := q.(p_parent) = Some me /\ q.(p_state) = ZOMBIE.

#[global] Instance zombie_of_dec me q : Decision (zombie_of me q).
Proof. unfold zombie_of. apply _. Defined.

(** One round of the loop of [wait], with ptable.lock held; when [sleep] returns
    the next round starts. *)
Definition wait_scan (me : nat) : K Z :=
  let* t := kget (fun s => s.(ptable)) in
  match list_find (zombie_of me) t with
  | Some (i, _) => reap i
  | None => wait_more me
  end.

Definition wait : K Z :=
  acquire LkPtable ;;;
  let* me := myproc in
  wait_scan me.

(** The waiting and running times are stored through the caller's pointers. *)
Definition wait2 (wtime rtime : Z) : K Z :=
  acquire LkPtable ;;;
  let* me := myproc in
  let* t := kget (fun s => s.(ptable)) in
  match list_find (zombie_of me) t with
  | Some (i, p) =>
      st32 wtime (p.(p_etime) - p.(p_ctime) - p.(p_rtime)) ;;;
      st32 rtime p.(p_rtime) ;;;
      mod_proc i (set_p_rtime 0) ;;;
      mod_proc i (set_p_ctime 0) ;;;
      mod_proc i (set_p_etime 0) ;;;
      reap i
  | None => wait_more me
  end.

Definition forkret : K unit := release LkPtable.
End proc.
