(* ===== verification/Sched.v ===== *)
(** The scheduler of proc.c and its three policies (RR, RR2Q, FAIR2Q).

    [scheduler] walks over the process table for ever.  What it does at one
    entry depends on the policy: skip it, or switch to a process.  A policy is
    a decision function over its local variables; the walk and the switch are
    common to all.  Pointers into the table are places; a place outside the
    table is a wild access. *)

From Stdlib Require Import SpecFloat.
From S2P Require Import Prelude CString State Kalloc ProcSync Vm.
#[local] Open Scope Z_scope.

Inductive decision := Skip | Run (q : nat) | Wild.

#[export] Instance decision_eq_dec : EqDecision decision.
Proof. solve_decision. Defined.

Record policy (L : Type) := mk_policy {
  (** what to do at entry [p], given the table and the time *)
  decide_at : list proc -> Z -> nat -> L -> decision * L;
  (** where the walk goes on after [p] has run *)
  resume_at : nat -> L -> nat
}.
Arguments mk_policy {L}.
Arguments decide_at {L}.
Arguments resume_at {L}.

(** ** Round robin *)

Definition rr_decide (t : list proc) (now : Z) (p : nat) (l : unit) : decision * unit :=
  match t !! p with
  | None => (Wild, l)
  | Some q => (if decide (q.(p_state) <> RUNNABLE) then Skip else Run p, l)
  end.

Definition RR : policy unit := mk_policy rr_decide (fun p _ => S p).

(** ** Two queues, round robin in each *)

(** The local variables of [scheduler] under RR2Q. *)
Record rr2q := mk_rr2q { loop : Z; lastHighPri : nat; lastLowPri : option nat }.

(** The inner [while]: from [low] on, with the counter [n]. *)
Fixpoint rr2q_search (fuel : nat) (t : list proc) (low : nat) (n : Z) : option (nat * Z) :=
  match fuel with
  | O => None
  | S f =>
      match t !! low with
      | None => None
      | Some q =>
          if decide (q.(p_priority) <> 0 /\ q.(p_state) = RUNNABLE) then Some (low, n)
          else if n + 1 =? 128 then Some (S low, n + 1)
          else rr2q_search f t (S low) (n + 1)
      end
  end.

Definition rr2q_decide (t : list proc) (now : Z) (p : nat) (l : rr2q) : decision * rr2q :=
  match t !! p with
  | None => (Wild, l)
  | Some q =>
      let next := mk_rr2q (l.(loop) + 1) l.(lastHighPri) l.(lastLowPri) in
      if decide (q.(p_state) <> RUNNABLE /\ q.(p_priority) = 0) then (Skip, next)
      else if decide (q.(p_priority) <> 0 /\ l.(loop) < 64) then (Skip, next)
      else if l.(loop) =? 64 then
        let low := match l.(lastLowPri) with None => p | Some x => x end in
        match rr2q_search 65 t low l.(loop) with
        | None => (Wild, l)
        | Some (low', n) => (Run (if n <? 128 then low' else p), mk_rr2q 0 p (Some low'))
        end
      else (Run p, mk_rr2q 0 p l.(lastLowPri))
  end.

(** After the switch, [p = lastHighPri], and the [for] moves on. *)
Definition RR2Q : policy rr2q := mk_policy rr2q_decide (fun _ l => S l.(lastHighPri)).
Definition rr2q_start : rr2q := mk_rr2q 0 0 None.

(** ** Two queues, least ratio of running time to age first *)

(** C's [double]: IEEE binary64, rounded to nearest. *)
Notation double := spec_float.

Definition double_of_int (z : Z) : double := binary_normalize 53 1024 z 0 false.
Definition two : double := double_of_int 2.

Record fair2q := mk_fair2q {
  floop : Z; min_low_pri : option nat; min_high_pri : option nat;
  smallHighRatio : double; smallLowRatio : double
}.

Definition ratio (now : Z) (q : proc) : double :=
  let mechane := double_of_int (s32 (now - q.(p_ctime))) in
  if SFeqb mechane (double_of_int 0) then double_of_int 1
  else SFdiv 53 1024 (double_of_int q.(p_rtime)) mechane.

Definition fair2q_decide (t : list proc) (now : Z) (p : nat) (l : fair2q) : decision * fair2q :=
  match t !! p with
  | None => (Wild, l)
  | Some q =>
      let l1 := mk_fair2q (l.(floop) + 1) l.(min_low_pri) l.(min_high_pri) l.(smallHighRatio) l.(smallLowRatio) in
      if decide (q.(p_state) = RUNNABLE /\ q.(p_priority) = 0 /\ l.(floop) < 64) then
        if SFltb (ratio now q) l.(smallHighRatio)
        then (Skip, mk_fair2q (l.(floop) + 1) l.(min_low_pri) (Some p) (ratio now q) l.(smallLowRatio))
        else (Skip, l1)
      else if decide (q.(p_state) = RUNNABLE /\ q.(p_priority) <> 0 /\ l.(floop) < 64) then
        if SFltb (ratio now q) l.(smallLowRatio)
        then (Skip, mk_fair2q (l.(floop) + 1) (Some p) l.(min_high_pri) l.(smallHighRatio) (ratio now q))
        else (Skip, l1)
      else if l.(floop) =? 64 then
        if negb (SFeqb l.(smallHighRatio) two) then
          match l.(min_high_pri) with
          | Some h => (Run h, mk_fair2q 0 l.(min_low_pri) l.(min_high_pri) two two)
          | None => (Wild, l)
          end
        else if SFeqb l.(smallHighRatio) two && negb (SFeqb l.(smallLowRatio) two) then
          match l.(min_low_pri) with
          | Some h => (Run h, mk_fair2q 0 l.(min_low_pri) l.(min_high_pri) two two)
          | None => (Wild, l)
          end
        else (Skip, mk_fair2q 0 l.(min_low_pri) l.(min_high_pri) l.(smallHighRatio) l.(smallLowRatio))
      else (Skip, l1)
  end.

Definition FAIR2Q : policy fair2q := mk_policy fair2q_decide (fun p _ => S p).
Definition fair2q_start : fair2q := mk_fair2q 0 None None two two.

(** ** The walk *)

(** Switch to process [q], up to the context switch, and back from it. *)
Definition dispatch (q : nat) : K unit :=
  kmod (set_curproc (Some q)) ;;;
  switchuvm q ;;;
  mod_proc q (set_p_state RUNNING).

Definition undispatch : K unit :=
  switchkvm ;;;
  kmod (set_curproc None).

(** One entry of the [for] loop, or the end of a pass: the process switched to,
    if any, and where the walk goes on. *)
Definition sched_entry {L} (P : policy L) (p : nat) (l : L) : K (option nat * nat * L) :=
  let* t := kget (fun s => s.(ptable)) in
  let* now := kget (fun s => s.(ticks)) in
  if decide (length t <= p)%nat then
    release LkPtable ;;; acquire LkPtable ;;; kret (None, O, l)
  else
    match decide_at P t (s32 now) p l with
    | (Skip, l') => kret (None, S p, l')
    | (Run q, l') => dispatch q ;;; kret (Some q, resume_at P q l', l')
    | (Wild, _) => kfault "scheduler reads outside ptable"
    end.

(** The walk when anything may happen between two of its steps: step [k] is
    taken in the [k]-th state.  (The lock is released at the end of a pass, and
    the clock ticks on.)  The place and the locals after steps that all switch
    to no process. *)
Fixpoint sched_walk {L} (P : policy L) (ss : list kstate) (p : nat) (l : L) : option (nat * L) :=
  match ss with
  | [] => Some (p, l)
  | s :: ss' =>
      match sched_entry P p l s with
      | Ok (None, p', l') _ => sched_walk P ss' p' l'
      | _ => None
      end
  end.

(** The walk from one state to the next switch, with nothing in between. *)
Fixpoint sched_loop {L} (fuel : nat) (P : policy L) (p : nat) (l : L) : K (nat * nat * L) :=
  match fuel with
  | O => kfault "fuel"
  | S f =>
      let* r := sched_entry P p l in
      match r with
      | (Some q, p', l') => kret (q, p', l')
      | (None, p', l') => sched_loop f P p' l'
      end
  end.

(** What [sched_loop] chooses, as a function of the table and the time, which
    do not change until the choice is made: at most [fuel] entries and pass ends
    are looked at. *)
Fixpoint next_run {L} (fuel : nat) (P : policy L) (t : list proc) (now : Z) (p : nat) (l : L)
    : option (nat * L) :=
  match fuel with
  | O => None
  | S f =>
      if decide (length t <= p)%nat then next_run f P t now O l else
      match decide_at P t now p l with
      | (Skip, l') => next_run f P t now (S p) l'
      | (Run q, l') => Some (q, l')
      | (Wild, _) => None
      end
  end.

(** The processes chosen, one after another, when the table is [t] during the
    first choice, and so on. *)
Fixpoint picks {L} (P : policy L) (ts : list (list proc * Z)) (p : nat) (l : L) : list nat :=
  match ts with
  | [] => []
  | (t, now) :: ts' =>
      match next_run (2 * length t + 2) P t now p l with
      | Some (q, l') => q :: picks P ts' (resume_at P q l') l'
      | None => []
      end
  end.

Definition runnable (t : list proc) (i : nat) : Prop := exists q, t !! i = Some q /\ q.(p_state) = RUNNABLE.

(** The first number from [p] on with a decidable property. *)
Lemma first_such (R : nat -> Prop) p d :
  (forall k, Decision (R k)) ->
  (exists q, (p <= q < p + d)%nat /\ R q /\ forall k, (p <= k < q)%nat -> ~ R k) \/
  (forall k, (p <= k < p + d)%nat -> ~ R k).
Proof.
  intros Hdec. revert p. induction d as [|d IH]; intros p; [right; lia|].
  destruct (decide (R p)) as [Hp|Hp]; [left; exists p; split; [lia|]; split; [done|lia]|].
  destruct (IH (S p)) as [(q & Hq & Hrq & Hk)|Hk].
  - left. exists q. split; [lia|]. split; [done|]. intros k Hkk.
    destruct (decide (k = p)) as [->|]; [done|]. apply Hk. lia.
  - right. intros k Hkk. destruct (decide (k = p)) as [->|]; [done|]. apply Hk. lia.
Qed.

#[export] Instance runnable_dec t k : Decision (runnable t k).
Proof.
  destruct (t !! k) as [q|] eqn:E; [destruct (decide (q.(p_state) = RUNNABLE))|].
  - left. by exists q.
  - right. intros (x & Hx & ?). congruence.
  - right. intros (x & Hx & ?). congruence.
Qed.

(** ** Round robin: lemmas *)

Section rr.
Context (t : list proc) (now : Z).
Notation n := (length t).

(** From [p] to the end of the table. *)
Lemma rr_walk fuel p d :
  (p + d <= n)%nat -> (forall k, (p <= k < p + d)%nat -> ~ runnable t k) ->
  next_run (d + fuel) RR t now p tt = next_run fuel RR t now (p + d) tt.
Proof.
  revert p. induction d as [|d IH]; intros p Hp Hk; [by rewrite Nat.add_0_r|]. cbn [Nat.add next_run].
  rewrite decide_False by lia. cbn [decide_at RR]. unfold rr_decide. destruct (lookup_lt_is_Some_2 t p) as [q Hq]; [lia|]. rewrite Hq.
  rewrite decide_True.
  - rewrite IH; [f_equal; lia|lia|]. intros k Hkk. apply Hk. lia.
  - intros Hr. apply (Hk p); [lia|]. by exists q.
Qed.

Lemma rr_hit fuel p : runnable t p -> next_run (S fuel) RR t now p tt = Some (p, tt).
Proof.
  intros (q & Hq & Hr). cbn [next_run]. rewrite decide_False by (apply lookup_lt_Some in Hq; lia).
  cbn [decide_at RR]. unfold rr_decide. rewrite Hq. rewrite decide_False by (by intros Hn). done.
Qed.

(** The first runnable entry at or after [p], if there is one. *)
Lemma first_runnable p d :
  (exists q, (p <= q < p + d)%nat /\ runnable t q /\ forall k, (p <= k < q)%nat -> ~ runnable t k) \/
  (forall k, (p <= k < p + d)%nat -> ~ runnable t k).
Proof. apply first_such. intros k. apply runnable_dec. Qed.

(** Entries passed on the way from [p] to [q], around the end of the table. *)
Definition passed (p q k : nat) : Prop :=
  if decide (p <= q)%nat then (p <= k < q)%nat else (p <= k < n \/ k < q)%nat.

Lemma rr_next p :
  (p <= n)%nat -> (exists i, runnable t i) ->
  exists q, next_run (2 * n + 2) RR t now p tt = Some (q, tt) /\ runnable t q /\
    forall k, passed p q k -> ~ runnable t k.
Proof.
  intros Hp (i & Hi). assert (i < n)%nat as Hin by (destruct Hi as (x & Hx & _); by eapply lookup_lt_Some).
  destruct (first_runnable p (n - p)) as [(q & Hq & Hrq & Hk)|Hnone].
  - exists q. split_and!; [|done|].
    + replace (2 * n + 2)%nat with ((q - p) + S (2 * n + 1 - (q - p)))%nat by lia.
      rewrite rr_walk; [|lia|intros k Hkk; apply Hk; lia]. replace (p + (q - p))%nat with q by lia. by apply rr_hit.
    + intros k. unfold passed. rewrite decide_True by lia. apply Hk.
  - destruct (first_runnable 0 n) as [(q & Hq & Hrq & Hk)|Hnone'].
    + assert (q < p)%nat as Hqp.
      { destruct (decide (q < p)%nat); [done|]. exfalso. apply (Hnone q); [lia|done]. }
      exists q. split_and!; [|done|].
      * replace (2 * n + 2)%nat with ((n - p) + S (n + p + 1))%nat by lia.
        rewrite rr_walk; [|lia|intros k Hkk; apply Hnone; lia]. replace (p + (n - p))%nat with n by lia.
        cbn [next_run]. rewrite decide_True by lia.
        replace (n + p + 1)%nat with (q + S (n + p - q))%nat by lia.
        rewrite rr_walk; [|lia|intros k Hkk; apply Hk; lia]. by apply rr_hit.
      * intros k. unfold passed. rewrite decide_False by lia. intros [Hkk|Hkk]; [apply Hnone; lia|apply Hk; lia].
    + exfalso. apply (Hnone' i); [lia|done].
Qed.
End rr.

(** Entries the walk meets from [p] before it comes to [i]. *)
Definition dist (n p i : nat) : nat := if decide (p <= i)%nat then (i - p)%nat else (n - p + i)%nat.

Lemma dist_decreases n p q i :
  (p <= n)%nat -> (q < n)%nat -> (i < n)%nat -> q <> i ->
  (if decide (p <= q)%nat then ~ (p <= i < q)%nat else ~ (p <= i < n)%nat /\ ~ (i < q)%nat) ->
  (dist n (S q) i < dist n p i)%nat.
Proof.
  intros. unfold dist. repeat case_decide; lia.
Qed.

(** ** RR2Q: lemmas *)

Definition high_runnable (t : list proc) (i : nat) : Prop :=
  exists q, t !! i = Some q /\ q.(p_state) = RUNNABLE /\ q.(p_priority) = 0.

#[export] Instance high_runnable_dec t k : Decision (high_runnable t k).
Proof.
  destruct (t !! k) as [q|] eqn:E; [destruct (decide (q.(p_state) = RUNNABLE /\ q.(p_priority) = 0))|].
  - left. by exists q.
  - right. intros (x & Hx & ?). simplify_eq. done.
  - right. intros (x & Hx & ?). congruence.
Qed.

Section rr2q.
Context (t : list proc) (now : Z) (lh : nat) (ll : option nat).

(** While the counter is below 64, only a runnable process of high priority
    stops the walk. *)
Lemma rr2q_walk fuel p d c :
  (p + d <= length t)%nat -> (forall k, (p <= k < p + d)%nat -> ~ high_runnable t k) -> c + Z.of_nat d <= 64 ->
  next_run (d + fuel) RR2Q t now p (mk_rr2q c lh ll) =
  next_run fuel RR2Q t now (p + d) (mk_rr2q (c + Z.of_nat d) lh ll).
Proof.
  revert p c. induction d as [|d IH]; intros p c Hp Hk Hc; [by rewrite Nat.add_0_r, Z.add_0_r|].
  cbn [Nat.add next_run]. rewrite decide_False by lia. cbn [decide_at RR2Q]. unfold rr2q_decide.
  destruct (lookup_lt_is_Some_2 t p) as [q Hq]; [lia|]. rewrite Hq. cbn [loop lastHighPri lastLowPri].
  assert (forall x y, (if decide (q.(p_state) <> RUNNABLE /\ q.(p_priority) = 0) then x
    else if decide (q.(p_priority) <> 0 /\ c < 64) then x else y) = (x : decision * rr2q)) as Hskip.
  { intros x y. case_decide as H1; [done|]. case_decide as H2; [done|]. exfalso. apply (Hk p); [lia|].
    exists q. split; [done|]. destruct (decide (q.(p_priority) = 0)); [|exfalso; apply H2; split; [done|lia]].
    split; [|done]. destruct (decide (q.(p_state) = RUNNABLE)); [done|]. exfalso. by apply H1. }
  rewrite Hskip. rewrite IH; [f_equal; [lia|f_equal; lia]|lia| |lia]. intros k Hkk. apply Hk. lia.
Qed.

Lemma rr2q_hit fuel p c :
  high_runnable t p -> c < 64 ->
  next_run (S fuel) RR2Q t now p (mk_rr2q c lh ll) = Some (p, mk_rr2q 0 p ll).
Proof.
  intros (q & Hq & Hr & Hpri) Hc. cbn [next_run]. rewrite decide_False by (apply lookup_lt_Some in Hq; lia).
  cbn [decide_at RR2Q]. unfold rr2q_decide. rewrite Hq. cbn [loop lastLowPri].
  rewrite decide_False by naive_solver. rewrite decide_False by naive_solver.
  rewrite (proj2 (Z.eqb_neq c 64)) by lia. done.
Qed.

(** At the end of a pass the walk starts over. *)
Lemma next_run_wrap {L} (P : policy L) fuel (l : L) :
  next_run (S fuel) P t now (length t) l = next_run fuel P t now 0 l.
Proof. cbn [next_run]. by rewrite decide_True by lia. Qed.

(** Once the counter has passed 64, entries of high priority are skipped and
    the first entry of low priority is taken, whatever its state. *)
Lemma rr2q_overrun fuel p d c :
  (p + d < length t)%nat -> 64 < c \/ (0 < d)%nat /\ 64 <= c ->
  (forall k, (p <= k < p + d)%nat -> exists q, t !! k = Some q /\ q.(p_state) <> RUNNABLE /\ q.(p_priority) = 0) ->
  (exists q, t !! (p + d)%nat = Some q /\ q.(p_priority) <> 0) ->
  next_run (d + S fuel) RR2Q t now p (mk_rr2q c lh ll) = Some ((p + d)%nat, mk_rr2q 0 (p + d) ll).
Proof.
  revert p c. induction d as [|d IH]; intros p c Hp Hc Hk (q & Hq & Hpri).
  - rewrite Nat.add_0_r in *. cbn [Nat.add next_run]. rewrite decide_False by lia.
    cbn [decide_at RR2Q]. unfold rr2q_decide. rewrite Hq. cbn [loop lastLowPri].
    rewrite decide_False by naive_solver. rewrite decide_False by lia.
    rewrite (proj2 (Z.eqb_neq c 64)) by lia. done.
  - cbn [Nat.add next_run]. rewrite decide_False by lia.
    destruct (Hk p) as (x & Hx & Hxs & Hxp); [lia|].
    cbn [decide_at RR2Q]. unfold rr2q_decide. rewrite Hx. cbn [loop lastHighPri lastLowPri].
    rewrite decide_True by done. replace (p + S d)%nat with (S p + d)%nat in * by lia.
    apply IH; [lia|lia|intros k Hkk; apply Hk; lia|by exists q].
Qed.
End rr2q.

(** ** The walk on the state *)

(** At the end of a pass the lock is released and taken again. *)
Lemma sched_entry_end {L} (P : policy L) p l s :
  s.(held) = [LkPtable] -> (length s.(ptable) <= p)%nat -> sched_entry P p l s = Ok (None, O, l) s.
Proof.
  intros Hh Hp. unfold sched_entry, kbind, kget. rewrite decide_True by done.
  unfold release, holding. rewrite bool_decide_true by (rewrite Hh; set_solver). rewrite Hh. cbn.
  rewrite decide_True by done. destruct s; cbn in *; by subst.
Qed.

(** [next_run] is what the walk does. *)
Lemma sched_loop_next_run {L} (P : policy L) fuel p (l : L) q l' s :
  s.(held) = [LkPtable] ->
  next_run fuel P s.(ptable) (s32 s.(ticks)) p l = Some (q, l') ->
  sched_loop fuel P p l s = (dispatch q ;;; kret (q, resume_at P q l', l')) s.
Proof.
  intros Hh. revert p l. induction fuel as [|f IH]; intros p l; [done|]. cbn [next_run sched_loop].
  unfold kbind at 1. case_decide as Hp.
  - rewrite sched_entry_end by done. apply IH.
  - unfold sched_entry, kbind at 1 2, kget. rewrite decide_False by done.
    destruct (decide_at P s.(ptable) (s32 s.(ticks)) p l) as [[|q'|] l1]; [apply IH| |done].
    intros [= -> ->]. unfold kbind. by destruct (dispatch q s).
Qed.

(** ** FAIR2Q: lemmas *)

(** The order of doubles. *)
Lemma SFltb_irrefl a : SFltb a a = false.
Proof.
  destruct a as [s|s| |s m e]; try done; destruct s; try done; unfold SFltb; cbn; rewrite Z.compare_refl;
    change (Pos.compare_cont Eq m m) with (Pos.compare m m); by rewrite Pos.compare_refl.
Qed.

Lemma SFltb_trans a b c : SFltb a b = true -> SFltb b c = true -> SFltb a c = true.
Proof.
  unfold SFltb.
  destruct a as [s1|s1| |s1 m1 e1], b as [s2|s2| |s2 m2 e2], c as [s3|s3| |s3 m3 e3]; cbn; try done;
    destruct s1; try done; destruct s2; try done; destruct s3; try done; cbn;
    change (Pos.compare_cont Eq) with Pos.compare;
    destruct (Z.compare_spec e1 e2), (Z.compare_spec e2 e3), (Z.compare_spec e1 e3); try done; try lia;
    destruct (Pos.compare_spec m1 m2), (Pos.compare_spec m2 m3), (Pos.compare_spec m1 m3); try done; lia.
Qed.

Lemma SFltb_neqb a b : SFltb a b = true -> SFeqb a b = false.
Proof. unfold SFltb, SFeqb. by destruct (SFcompare a b) as [[]|]. Qed.

(** A look at a table entry in a state. *)
Definition look : Type := nat * kstate.

(** At that look the entry was a runnable process of the given queue, with this
    ratio. *)
Definition queued (high : bool) (w : look) (r : double) : Prop :=
  exists q, w.2.(ptable) !! w.1 = Some q /\ q.(p_state) = RUNNABLE /\
    (if high then q.(p_priority) = 0 else q.(p_priority) <> 0) /\ r = ratio (s32 w.2.(ticks)) q.

(** The looks at a place have a ratio below 2, the least of those in [v]. *)
Definition least_ratio (v : list look) (high : bool) (i : nat) : Prop :=
  exists w r, w ∈ v /\ w.1 = i /\ queued high w r /\ SFltb r two = true /\
    forall w' r', w' ∈ v -> queued high w' r' -> SFltb r' r = false.

(** The minimum over the looks [v] so far: [r] is its value, or 2, and [o] the
    process that has it. *)
Definition best (high : bool) (v : list look) (r : double) (o : option nat) : Prop :=
  (forall w' r', w' ∈ v -> queued high w' r' -> SFltb r' r = false) /\
  (r = two \/ exists w, o = Some w.1 /\ w ∈ v /\ queued high w r /\ SFltb r two = true).

(** One more look, which does not beat the minimum. *)
Lemma best_keep high v r o w :
  best high v r o -> (forall r', queued high w r' -> SFltb r' r = false) -> best high (v ++ [w]) r o.
Proof.
  intros [Hb Ho] Hw. split.
  - intros w' r' [Hk| ->%list_elem_of_singleton]%elem_of_app Hq; eauto.
  - destruct Ho as [|(w0 & ? & ? & ?)]; [by left|right]. exists w0. split_and!; set_solver.
Qed.

(** One more look, which beats it. *)
Lemma best_new high v r o w r1 :
  best high v r o -> queued high w r1 -> SFltb r1 r = true -> best high (v ++ [w]) r1 (Some w.1).
Proof.
  intros [Hb Ho] Hq Hlt. split.
  - intros w' r' [Hk| ->%list_elem_of_singleton]%elem_of_app Hq'.
    + apply not_true_iff_false. intros Hc. specialize (Hb w' r' Hk Hq').
      rewrite (SFltb_trans r' r1 r Hc Hlt) in Hb. done.
    + destruct Hq as (q & E & _ & _ & ->), Hq' as (q' & E' & _ & _ & ->). simplify_eq. apply SFltb_irrefl.
  - right. exists w. split_and!; [done|set_solver|done|].
    destruct Ho as [->|(w0 & _ & _ & _ & H2)]; [done|]. by eapply SFltb_trans.
Qed.

(** The locals after the looks [v], [n] of which were at entries. *)
Definition seen (v : list look) (n : Z) (l : fair2q) : Prop :=
  l.(floop) = n /\
  best true v l.(smallHighRatio) l.(min_high_pri) /\ best false v l.(smallLowRatio) l.(min_low_pri).

Definition scheduling (s : kstate) : Prop := length s.(ptable) = NPROC /\ s.(held) = [LkPtable].

Lemma fair2q_step v n l p s :
  seen v n l -> n < 64 -> (p < length s.(ptable))%nat ->
  exists l', fair2q_decide s.(ptable) (s32 s.(ticks)) p l = (Skip, l') /\ seen (v ++ [(p, s)]) (n + 1) l'.
Proof.
  intros (Hl & Hh & Hlo) Hn Hp. destruct (lookup_lt_is_Some_2 s.(ptable) p) as [q Hq]; [lia|].
  unfold fair2q_decide. rewrite Hq. set (r := ratio (s32 s.(ticks)) q) in *.
  assert (forall b r', queued b (p, s) r' -> r' = r /\ q.(p_state) = RUNNABLE /\
    (if b then q.(p_priority) = 0 else q.(p_priority) <> 0)) as Hinv.
  { intros b r' (x & Hx & ? & ? & ->). cbn in Hx. by simplify_eq. }
  destruct (decide (q.(p_state) = RUNNABLE /\ q.(p_priority) = 0 /\ l.(floop) < 64)) as [(H1 & H2 & _)|Hn1].
  - destruct (SFltb r _) eqn:E; eexists; (split; [reflexivity|]); split_and!; cbn; try lia;
      try (apply best_keep; [done|intros r' (-> & _ & Hc)%Hinv; done]).
    apply (best_new true v _ _ (p, s) r Hh); [by exists q|done].
  - destruct (decide (q.(p_state) = RUNNABLE /\ q.(p_priority) <> 0 /\ l.(floop) < 64)) as [(H1 & H2 & _)|Hn2].
    + destruct (SFltb r _) eqn:E; eexists; (split; [reflexivity|]); split_and!; cbn; try lia;
        try (apply best_keep; [done|intros r' (-> & _ & Hc)%Hinv; done]).
      apply (best_new false v _ _ (p, s) r Hlo); [by exists q|done].
    + rewrite (proj2 (Z.eqb_neq l.(floop) 64)) by lia. eexists. split; [reflexivity|]. split_and!; cbn; [lia| |];
        (apply best_keep; [done|]); intros r' (_ & Hs & Hp')%Hinv; exfalso; [apply Hn1|apply Hn2]; (split_and!; [done|done|lia]).
Qed.

(** From place [p] over entries, one in each of the states. *)
Lemma fair2q_walk ss v n l p :
  seen v n l -> Forall scheduling ss -> (p + length ss <= NPROC)%nat -> n + Z.of_nat (length ss) <= 64 ->
  exists l', sched_walk FAIR2Q ss p l = Some ((p + length ss)%nat, l') /\
    seen (v ++ zip (seq p (length ss)) ss) (n + Z.of_nat (length ss)) l'.
Proof.
  intros Hs Hf. revert v n l p Hs. induction Hf as [|s ss [Hlen Hheld] Hf IH]; intros v n l p Hs Hp Hn.
  { exists l. cbn. rewrite Nat.add_0_r, app_nil_r, Z.add_0_r. done. }
  cbn [length] in *. destruct (fair2q_step v n l p s Hs) as (l1 & E1 & Hs1); [lia|lia|].
  destruct (IH _ _ l1 (S p) Hs1) as (l2 & E2 & Hs2); [lia|lia|]. exists l2. split.
  - cbn [sched_walk]. unfold sched_entry, kbind, kget. rewrite decide_False by lia. cbn [decide_at FAIR2Q].
    rewrite E1. cbn. rewrite E2. do 2 f_equal. lia.
  - rewrite <- app_assoc in Hs2. replace (n + Z.of_nat (S (length ss))) with (n + 1 + Z.of_nat (length ss)) by lia. exact Hs2.
Qed.

Lemma sched_walk_app {L} (P : policy L) ss1 ss2 p l :
  sched_walk P (ss1 ++ ss2) p l = '(p', l') ← sched_walk P ss1 p l; sched_walk P ss2 p' l'.
Proof.
  revert p l. induction ss1 as [|s ss1 IH]; intros p l; [done|]. cbn [app sched_walk].
  destruct (sched_entry P p l s) as [[[[q|] p'] l'] s'| | |]; done.
Qed.

(** The looks of a whole pass around the table, from [p] back to [p]: the end of
    the table is one of them. *)
Definition round_from (p : nat) (ss : list kstate) : list look := zip (seq p (65 - p) ++ seq 0 p) ss.

Lemma fair2q_round ss p l :
  length ss = 65%nat -> (p < NPROC)%nat -> Forall scheduling ss -> seen [] 0 l ->
  exists l', sched_walk FAIR2Q ss p l = Some (p, l') /\ seen (round_from p ss) 64 l'.
Proof.
  unfold NPROC. intros Hn Hp Hf Hs.
  destruct (lookup_lt_is_Some_2 ss (64 - p)) as [s Hm]; [lia|].
  pose proof (take_drop_middle ss (64 - p) s Hm) as Ess. rewrite <- Ess in Hf |- *.
  apply Forall_app in Hf as [Hf1 Hf2]. apply Forall_cons in Hf2 as [[Hlen Hheld] Hf2].
  set (s1 := take (64 - p) ss) in *. set (s2 := drop (S (64 - p)) ss) in *.
  assert (length s1 = (64 - p)%nat) as H1 by (unfold s1; rewrite length_take; lia).
  assert (length s2 = p) as H2 by (unfold s2; rewrite length_drop; lia).
  destruct (fair2q_walk s1 [] 0 l p Hs Hf1) as (l1 & E1 & Hs1); [unfold NPROC; lia|lia|].
  assert (seen ((zip (seq p (length s1)) s1) ++ [(64%nat, s)]) (0 + Z.of_nat (length s1)) l1) as Hs1'.
  { destruct Hs1 as (Ha & Hb & Hc). split_and!; [done| |]; apply best_keep; try done;
      intros r' (q & Hq & _); apply lookup_lt_Some in Hq; unfold NPROC in Hlen; cbn in Hq; lia. }
  destruct (fair2q_walk s2 _ _ l1 0 Hs1' Hf2) as (l2 & E2 & Hs2); [unfold NPROC; lia|lia|].
  exists l2. split.
  - rewrite sched_walk_app, E1. cbn [mbind option_bind sched_walk]. rewrite H1. replace (p + (64 - p))%nat with 64%nat by lia.
    rewrite sched_entry_end by (unfold NPROC in *; lia || done). rewrite E2, H2. done.
  - unfold round_from. replace (65 - p)%nat with ((64 - p) + 1)%nat by lia. rewrite seq_app.
    replace (p + (64 - p))%nat with 64%nat by lia. rewrite <- app_assoc. rewrite H1 in Hs2. rewrite H2 in Hs2.
    rewrite zip_with_app by (rewrite length_seq; lia). cbn.
    rewrite <- app_assoc in Hs2. cbn in Hs2. replace (0 + _ + _) with 64 in Hs2 by lia. exact Hs2.
Qed.

(** At place [p] with the counter at 64: the choice. *)
Lemma fair2q_choose v l p s :
  seen v 64 l -> scheduling s -> (p < NPROC)%nat ->
  let fresh := mk_fair2q 0 l.(min_low_pri) l.(min_high_pri) two two in
  (exists i high, sched_entry FAIR2Q p l s = (dispatch i ;;; kret (Some i, S i, fresh)) s /\ least_ratio v high i /\
     (high = false -> forall w r, w ∈ v -> queued true w r -> SFltb r two = false)) \/
  (sched_entry FAIR2Q p l s = Ok (None, S p, fresh) s /\
     forall high w r, w ∈ v -> queued high w r -> SFltb r two = false).
Proof.
  intros (Hl & Hh & Hlo) [Hlen Hheld] Hp fresh. subst fresh.
  destruct (lookup_lt_is_Some_2 s.(ptable) p) as [x Hx]; [lia|].
  assert (sched_entry FAIR2Q p l s = match fair2q_decide s.(ptable) (s32 s.(ticks)) p l with
    | (Skip, l') => Ok (None, S p, l') s
    | (Run q, l') => (dispatch q ;;; kret (Some q, S q, l')) s
    | (Wild, _) => Fault "scheduler reads outside ptable" end) as ->.
  { unfold sched_entry, kbind, kget. rewrite decide_False by lia. cbn [decide_at FAIR2Q].
    by destruct (fair2q_decide _ _ _ _) as [[] ]. }
  unfold fair2q_decide. rewrite Hx, Hl. rewrite !decide_False by lia. change (64 =? 64) with true. cbv iota.
  destruct Hh as [Hhl [Hh2|(w & Hw & Hwv & Hq & Hlt)]].
  - rewrite Hh2. change (SFeqb two two) with true. cbn [negb andb].
    destruct Hlo as [Hll [Hl2|(w & Hw & Hwv & Hq & Hlt)]].
    + right. rewrite Hl2. change (SFeqb two two) with true. cbn [negb andb]. rewrite Hh2 in Hhl. rewrite Hl2 in Hll.
      split; [done|]. intros [] w r; [apply Hhl|apply Hll].
    + left. rewrite (SFltb_neqb _ _ Hlt), Hw. cbn [negb andb]. exists w.1, false. split; [done|]. split; [by exists w, l.(smallLowRatio)|].
      intros _. rewrite Hh2 in Hhl. exact Hhl.
  - left. rewrite (SFltb_neqb _ _ Hlt), Hw. cbn [negb andb]. exists w.1, true. split; [done|]. split; [by exists w, l.(smallHighRatio)|done].
Qed.

(** ** Properties of the policies *)

(** The default policy is round robin: the scheduler switches to the first
    runnable process at or after its place in the table, going around the end;
    it passes over no runnable process and switches to no other. *)
Theorem rr_chooses_next (t : list proc) (now : Z) (p : nat) :
  (p <= length t)%nat -> (exists i, runnable t i) ->
  exists q, next_run (2 * length t + 2) RR t now p tt = Some (q, tt) /\ runnable t q /\
    forall k, passed t p q k -> ~ runnable t k.
Proof. apply rr_next. Qed.

Definition two_procs : list proc :=
  [set_p_state SLEEPING unused_proc; set_p_state RUNNABLE unused_proc; unused_proc].

Lemma rr_chooses_next_witness :
  exists q, next_run 8 RR two_procs 0 2 tt = Some (q, tt) /\ runnable two_procs q.
Proof.
  destruct (rr_chooses_next two_procs 0 2) as (q & E & Hr & _); [simpl; lia|exists 1%nat; by eexists|].
  exists q. split; [exact E|exact Hr].
Defined.

(** C21: Nobody starves under round robin: a process that stays runnable is
    chosen within as many choices as the table has entries, whatever happens to
    the other processes in between. *)
Theorem rr_bounded_waiting (ts : list (list proc * Z)) (n i p : nat) :
  (p <= n)%nat -> (i < n)%nat -> (n <= length ts)%nat ->
  Forall (fun tn => length tn.1 = n /\ runnable tn.1 i) ts ->
  i ∈ picks RR ts p tt.
Proof.
  intros Hp Hi Hlen Hts. assert (dist n p i < length ts)%nat as Hd.
  { unfold dist. case_decide; lia. }
  clear Hlen. revert p Hp Hd. induction Hts as [|[t now] ts [Hl Hr] _ IH]; intros p Hp Hd; [simpl in Hd; lia|].
  simpl in Hl, Hr. destruct (rr_next t now p) as (q & E & Hq & Hk); [lia|by exists i|].
  cbn [picks]. rewrite E. cbn [resume_at RR].
  assert (q < n)%nat as Hqn by (destruct Hq as (x & Hx & _); apply lookup_lt_Some in Hx; lia).
  destruct (decide (q = i)) as [->|Hqi]; [left|right]. apply IH; [lia|].
  assert (dist n (S q) i < dist n p i)%nat; [|simpl in Hd; lia].
  apply dist_decreases; [done|done|done|done|]. unfold passed in Hk. rewrite Hl in Hk.
  case_decide; [intros Hpi; by apply (Hk i)|split; intros Hpi; apply (Hk i); auto].
Qed.

Lemma rr_bounded_waiting_witness :
  1%nat ∈ picks RR (replicate 3 (two_procs, 0)) 2 tt.
Proof.
  apply (rr_bounded_waiting (replicate 3 (two_procs, 0)) 3 1 2); [lia|lia|simpl; lia|].
  repeat constructor; by eexists.
Defined.

(** Under RR2Q high priority comes first: when a process of high priority
    is runnable, the scheduler, starting a round with its counter at zero,
    chooses the first such process at or after its place, going around the end
    of the table, before any process of low priority. *)
Theorem rr2q_high_priority_first (t : list proc) (now : Z) (p lh : nat) (ll : option nat) :
  length t = NPROC -> (p < NPROC)%nat -> (exists i, high_runnable t i) ->
  exists q l, next_run (2 * NPROC + 2) RR2Q t now p (mk_rr2q 0 lh ll) = Some (q, l) /\ high_runnable t q /\
    l = mk_rr2q 0 q ll /\ forall k, passed t p q k -> ~ high_runnable t k.
Proof.
  intros Hn Hp (i & Hi). change NPROC with 64%nat in *.
  assert (i < 64)%nat as Hin by (destruct Hi as (x & Hx & _); apply lookup_lt_Some in Hx; lia).
  destruct (first_such (high_runnable t) p (64 - p)) as [(q & Hq & Hrq & Hk)|Hnone].
  { apply high_runnable_dec. }
  - exists q. eexists. split_and!; [|done|reflexivity|].
    + replace (2 * 64 + 2)%nat with ((q - p) + S (129 - (q - p)))%nat by lia.
      rewrite rr2q_walk; [|lia|intros k Hkk; apply Hk; lia|lia]. replace (p + (q - p))%nat with q by lia.
      rewrite rr2q_hit by (done || lia). done.
    + intros k. unfold passed. rewrite decide_True by lia. apply Hk.
  - destruct (first_such (high_runnable t) 0 64) as [(q & Hq & Hrq & Hk)|Hnone'].
    { apply high_runnable_dec. }
    + assert (q < p)%nat as Hqp.
      { destruct (decide (q < p)%nat); [done|]. exfalso. apply (Hnone q); [lia|done]. }
      exists q. eexists. split_and!; [|done|reflexivity|].
      * replace (2 * 64 + 2)%nat with ((64 - p) + S (q + S (64 + p - q)))%nat by lia.
        rewrite rr2q_walk; [|lia|intros k Hkk; apply Hnone; lia|lia]. replace (p + (64 - p))%nat with (length t) by lia.
        rewrite next_run_wrap, rr2q_walk; [|lia|intros k Hkk; apply Hk; lia|lia].
        rewrite rr2q_hit by (done || lia). done.
      * intros k. unfold passed. rewrite decide_False by lia. rewrite Hn.
        intros [Hkk|Hkk]; [apply Hnone; lia|apply Hk; lia].
    + exfalso. apply (Hnone' i); [lia|done].
Qed.

Definition nice_procs (low : procstate) : list proc :=
  [set_p_state SLEEPING unused_proc; set_p_state SLEEPING unused_proc;
   set_p_priority 1 (set_p_state low unused_proc)] ++ replicate 61 unused_proc.

Lemma rr2q_high_priority_first_witness :
  exists q l, next_run (2 * NPROC + 2) RR2Q (<[5%nat := set_p_state RUNNABLE unused_proc]> (nice_procs RUNNABLE)) 0 3
    rr2q_start = Some (q, l) /\ q <> 2%nat.
Proof.
  destruct (rr2q_high_priority_first (<[5%nat := set_p_state RUNNABLE unused_proc]> (nice_procs RUNNABLE)) 0 3 0 None)
    as (q & l & E & Hq & _); [reflexivity|unfold NPROC; lia|exists 5%nat; by eexists|].
  exists q, l. split; [exact E|]. intros ->. destruct Hq as (x & Hx & _ & Hp). simpl in Hx. by simplify_eq.
Defined.

(** Under RR2Q the scheduler can switch to a process that is not runnable:
    when no process of high priority is runnable and the first entry is one of
    high priority, the counter of the walk steps over the value 64 the code
    tests for, and the first process of low priority is switched to whatever
    its state, be it asleep or a zombie (which then panics). *)
Theorem rr2q_ignores_state (t : list proc) (now : Z) (j : nat) (lh : nat) (ll : option nat) :
  length t = NPROC -> (0 < j)%nat ->
  (forall k, (k < j)%nat -> exists q, t !! k = Some q /\ q.(p_state) <> RUNNABLE /\ q.(p_priority) = 0) ->
  (exists q, t !! j = Some q /\ q.(p_priority) <> 0) ->
  (forall k, ~ high_runnable t k) ->
  exists l, next_run (2 * NPROC + 2) RR2Q t now 0 (mk_rr2q 0 lh ll) = Some (j, l).
Proof.
  intros Hn Hj Hk (q & Hq & Hpri) Hnone. change NPROC with 64%nat in *.
  assert (j < 64)%nat as Hjn by (apply lookup_lt_Some in Hq; lia).
  eexists. replace (2 * 64 + 2)%nat with (64 + S (j + S (64 - j)))%nat by lia.
  rewrite rr2q_walk; [|lia|intros k _; apply Hnone|lia]. replace (0 + 64)%nat with (length t) by lia.
  rewrite next_run_wrap. rewrite rr2q_overrun; [reflexivity|lia|lia|intros k Hkk; apply Hk; lia|by exists q].
Qed.

Lemma rr2q_ignores_state_witness :
  exists l, next_run (2 * NPROC + 2) RR2Q (nice_procs ZOMBIE) 0 0 rr2q_start = Some (2%nat, l).
Proof.
  apply (rr2q_ignores_state (nice_procs ZOMBIE) 0 2 0 None).
  - reflexivity.
  - lia.
  - intros [|[|k]] Hk; [by eexists|by eexists|lia].
  - by eexists.
  - intros k (q & Hq & Hr & _).
    destruct k as [|[|[|k]]]; [simpl in Hq; by simplify_eq..|].
    unfold nice_procs in Hq. simpl in Hq. apply (list_elem_of_lookup_2 (replicate 61 unused_proc)) in Hq.
    apply elem_of_replicate in Hq as [-> _]. done.
Defined.

(** C37: Under FAIR2Q, from a round with no choice made yet, the scheduler goes
    once around the table, whatever happens to the table and the clock between
    its steps, and switches to nobody on the way.  Back at its place, it
    switches to the process whose ratio of running time to age, computed in
    double when the walk looked at it, was the least of the runnable processes
    of high priority it saw; if it saw none of high priority with a ratio below
    2, to the one with the least ratio of low priority; and if it saw none below
    2 at all, to nobody.  The locals are then those of a new round. *)
Theorem fair2q_least_ratio (ss : list kstate) (s : kstate) (p : nat) (ml mh : option nat) :
  length ss = 65%nat -> (p < NPROC)%nat -> Forall scheduling ss -> scheduling s ->
  let v := round_from p ss in
  exists l fresh, sched_walk FAIR2Q ss p (mk_fair2q 0 ml mh two two) = Some (p, l) /\
    fresh = mk_fair2q 0 fresh.(min_low_pri) fresh.(min_high_pri) two two /\
    (forall w r, w ∈ v -> queued true w r -> SFltb r two = true ->
       exists i, sched_entry FAIR2Q p l s = (dispatch i ;;; kret (Some i, S i, fresh)) s /\ least_ratio v true i) /\
    ((forall w r, w ∈ v -> queued true w r -> SFltb r two = false) ->
     forall w r, w ∈ v -> queued false w r -> SFltb r two = true ->
       exists i, sched_entry FAIR2Q p l s = (dispatch i ;;; kret (Some i, S i, fresh)) s /\ least_ratio v false i) /\
    ((forall high w r, w ∈ v -> queued high w r -> SFltb r two = false) ->
       sched_entry FAIR2Q p l s = Ok (None, S p, fresh) s).
Proof.
  intros Hn Hp Hf Hs v.
  destruct (fair2q_round ss p (mk_fair2q 0 ml mh two two) Hn Hp Hf) as (l & E & Hseen).
  { split_and!; [done|split; [by intros w r ?%elem_of_nil|by left]..]. }
  exists l, (mk_fair2q 0 l.(min_low_pri) l.(min_high_pri) two two). split; [done|]. split; [done|].
  destruct (fair2q_choose v l p s Hseen Hs Hp) as [(i & high & Ei & Hi & Hhigh)|[Ei Hnone]].
  - split_and!.
    + intros w r Hw Hq Hlt. exists i. split; [done|]. destruct high; [done|]. exfalso.
      rewrite (Hhigh eq_refl w r Hw Hq) in Hlt. done.
    + intros Hno w r _ _ _. exists i. split; [done|]. destruct high; [|done]. exfalso.
      destruct Hi as (w' & r' & Hw' & _ & Hq' & Hlt' & _). rewrite (Hno w' r' Hw' Hq') in Hlt'. done.
    + intros Hno. exfalso. destruct Hi as (w' & r' & Hw' & _ & Hq' & Hlt' & _). by rewrite (Hno high w' r' Hw' Hq') in Hlt'.
  - split_and!; [|intros _|done]; intros w r Hw Hq Hlt; by rewrite (Hnone _ w r Hw Hq) in Hlt.
Qed.

(** Two runnable processes created at tick 0; at tick 10 one has run 5 ticks,
    the other 3. *)
Definition fair_procs : list proc :=
  [set_p_rtime 5 (set_p_state RUNNABLE unused_proc); set_p_rtime 3 (set_p_state RUNNABLE unused_proc)]
  ++ replicate 62 unused_proc.

Definition fair_state : kstate :=
  set_held [LkPtable] (set_ticks 10 (set_ptable fair_procs bare_state)).

Lemma fair2q_least_ratio_witness :
  exists l i, sched_walk FAIR2Q (replicate 65 fair_state) 0 fair2q_start = Some (0%nat, l) /\
    least_ratio (round_from 0 (replicate 65 fair_state)) true i.
Proof.
  assert (scheduling fair_state) as Hs by done.
  destruct (fair2q_least_ratio (replicate 65 fair_state) fair_state 0 None None) as (l & fr & E & _ & H & _);
    [reflexivity|unfold NPROC; lia|by apply Forall_replicate|done|].
  destruct (H (1%nat, fair_state) (ratio 10 (set_p_rtime 3 (set_p_state RUNNABLE unused_proc)))) as (i & _ & Hi).
  - apply (list_elem_of_lookup_2 _ 1). reflexivity.
  - eexists. split_and!; reflexivity.
  - vm_compute. reflexivity.
  - exists l, i. split; [exact E|exact Hi].
Defined.

(** Doubles are not rationals: two processes whose ratios differ by less than a
    rounding step compare equal, and the first one the walk meets is chosen. *)
Example ratio_rounds :
  let young := set_p_rtime (2 ^ 27) unused_proc in
  let old := set_p_rtime (2 ^ 27 - 1) (set_p_ctime 1 unused_proc) in
  SFeqb (ratio (2 ^ 27 + 1) young) (ratio (2 ^ 27 + 1) old) = true.
Proof. vm_compute. reflexivity. Qed.
