(* ===== verification/ConsoleDev.v ===== *)
(** The console as a device file: consoleread, consolewrite and consoleinit of
    console.c.

    They are the entries of [devsw] for the major number [CONSOLE], so the file
    system reads and writes the console through the [Devsw] instance below. *)

From S2P Require Import Prelude CString State ProcSync Console Inode.

Definition CONSOLE : Z := 1.

(** [prevCmds[i][j] = c], inside the array. *)
Definition prev_put (i j c : Z) (k : console) : option console :=
  match prev_at k i j, k.(c_prev) !! Z.to_nat i with
  | Some _, Some row =>
      Some (set_c_prev (<[Z.to_nat i := <[Z.to_nat j := u8 c]> row]> k.(c_prev)) k)
  | _, _ => None
  end.

(** Record a character the reader took from the input in the history. *)
Definition history_put (c : Z) (k : console) : option console :=
  if negb (c =? C 68) && negb (c =? 10) then
    let k := if k.(c_dim1) >=? HISTORY_SIZE then set_c_dim1 0 k else k in
    match prev_put k.(c_dim1) k.(c_dim2) c k with
    | Some k => Some (set_c_dim2 (k.(c_dim2) + 1) k)
    | None => None
    end
  else
    match prev_put k.(c_dim1) k.(c_dim2) 0 k with
    | Some k =>
        Some (set_c_inserted (k.(c_inserted) + 1)
               (set_c_dim1 (k.(c_dim1) + 1) (set_c_curr k.(c_dim1) (set_c_dim2 0 k))))
    | None => None
    end.

(** [consoleread] from the top of its loop, holding [input.lock]: [n] bytes are
    still wanted, [dst] holds the bytes stored so far. *)
Fixpoint consoleread_from (fuel : nat) (ip : nat) (target n : Z) (dst : list Z) : K (Z * list Z) :=
  let finish (n : Z) (dst : list Z) : K (Z * list Z) :=
    release LkInput ;;; ilock (Some ip) ;;; kret (s32 (target - n), dst) in
  if n >? 0 then
    match fuel with
    | O => kfault "fuel"
    | S f =>
        let* k := kget (fun s => s.(con)) in
        if k.(c_r) =? k.(c_w) then
          let* me := myproc in
          let* p := get_proc me in
          if negb (p.(p_killed) =? 0) then
            release LkInput ;;; ilock (Some ip) ;;; kret (-1, dst)
          else sleep ChInput LkInput ;;; kfault "sleep returned"
        else
        let c := input_at k k.(c_r) in
        mod_con (set_c_r (u32 (k.(c_r) + 1))) ;;;
        let* k := kget (fun s => s.(con)) in
        let* k := klift "prevCmds" (history_put c k) in
        kmod (set_con k) ;;;
        if c =? C 68 then
          (if n <? target then mod_con (fun k => set_c_r (u32 (k.(c_r) - 1)) k) else kret tt) ;;;
          finish n dst
        else if c =? 10 then finish (n - 1) (dst ++ [c])
        else consoleread_from f ip target (n - 1) (dst ++ [c])
    end
  else finish n dst.

(** [target] is unsigned: the test [n < target] compares as [uint]. *)
Definition consoleread (ip : nat) (n : Z) : K (Z * list Z) :=
  iunlock (Some ip) ;;;
  acquire LkInput ;;;
  consoleread_from (Z.to_nat (s32 n)) ip (u32 n) (s32 n) [].

Definition consolewrite (ip : nat) (buf : list Z) (n : Z) : K Z :=
  iunlock (Some ip) ;;;
  acquire LkCons ;;;
  kfor (take (Z.to_nat (s32 n)) buf) (fun c => consputc (Z.land c 0xff)) ;;;
  release LkCons ;;;
  ilock (Some ip) ;;;
  kret (s32 n).

(** What [consoleinit] enters into [devsw]. *)
#[export] Instance console_devsw : Devsw := {|
  dev_read := fun major => if major =? CONSOLE then Some consoleread else None;
  dev_write := fun major => if major =? CONSOLE then Some consolewrite else None
|}.
