(* ===== verification/ConsLine.v ===== *)
(** The console's line discipline: what typing and reading do to the input
    buffer of console.c.

    The ring of 128 bytes with its indices [r], [w] and [e] implements two
    sequences: the bytes that are ready to be read and the line that is still
    being edited.  The theorems show that [consoleintr] edits these sequences
    as a terminal should, that [consoleread] takes bytes from the first, and
    what the command history does, up to where it leaves its array. *)

From S2P Require Import Prelude CString State Kalloc ProcSync Console Inode ConsoleDev.

(** ** The two sequences *)

Record inp (k : console) (p l : list Z) : Prop := {
  inp_len : length k.(c_buf) = 128%nat;
  inp_r : 0 <= k.(c_r) < 2 ^ 32;
  inp_w : k.(c_w) = u32 (k.(c_r) + Z.of_nat (length p));
  inp_e : k.(c_e) = u32 (k.(c_r) + Z.of_nat (length (p ++ l)));
  inp_room : (length (p ++ l) <= 128)%nat;
  inp_bytes i c : (p ++ l) !! i = Some c -> k.(c_buf) !! Z.to_nat ((k.(c_r) + Z.of_nat i) mod 128) = Some c
}.

(** Editing: the abstract console.  A completed line, an end-of-file mark or a
    full buffer makes everything typed ready. *)
Definition edit (st : list Z * list Z) (c : Z) : list Z * list Z :=
  let '(p, l) := st in
  if c =? C 85 then (p, [])
  else if (c =? C 72) || (c =? 127) then (p, removelast l)
  else if negb (c =? 0) && (length (p ++ l) <? 128)%nat then
    let c' := if c =? 13 then 10 else c in
    let l' := l ++ [c'] in
    if (c' =? 10) || (c' =? C 68) || (length (p ++ l') =? 128)%nat then (p ++ l', []) else (p, l')
  else (p, l).

(** Keys the line editor handles itself: not the process listing and not the
    history. *)
Definition edit_key (c : Z) : Prop := 0 <= c < 256 /\ c <> C 80 /\ c <> C 73 /\ c <> 226.

(** ** The ring *)

Lemma mod_u32 x : u32 x mod 128 = x mod 128.
Proof. apply (u32_mod_pow2 x 7). lia. Qed.

Lemma ring_ne r i j : 0 <= i < 128 -> 0 <= j < 128 -> i <> j -> (r + i) mod 128 <> (r + j) mod 128.
Proof.
  intros Hi Hj Hne E. apply Hne. pose proof (Z.div_mod (r + i) 128 ltac:(lia)). pose proof (Z.div_mod (r + j) 128 ltac:(lia)).
  assert (((r + i) - (r + j)) mod 128 = 0) as Hm by (rewrite Zminus_mod, E, Z.sub_diag; done).
  replace (r + i - (r + j)) with (i - j) in Hm by lia. apply Z.mod_divide in Hm as [q Hq]; [|lia]. lia.
Qed.

Lemma u32_minus_add r n : 0 <= n < 2 ^ 32 -> u32 (u32 (r + n) - r) = n.
Proof. intros Hn. rewrite u32_sub_l. replace (r + n - r) with n by lia. by apply u32_small. Qed.

(** Distinct places have distinct indices. *)
Lemma place_inj r i j : 0 <= i < 2 ^ 31 -> 0 <= j < 2 ^ 31 -> u32 (r + i) = u32 (r + j) -> i = j.
Proof.
  intros Hi Hj E. pose proof (u32_minus_add r i ltac:(lia)) as H1. pose proof (u32_minus_add r j ltac:(lia)) as H2.
  rewrite E in H1. lia.
Qed.

Lemma inp_app_length p (l : list Z) : length (p ++ l) = (length p + length l)%nat.
Proof. apply length_app. Qed.

(** Output leaves the input alone. *)
Lemma inp_shown out k k' p l : shown out k k' -> inp k p l -> inp k' p l.
Proof. intros (crt & pos & -> & _) [H1 H2 H3 H4 H5 H6]. by split. Qed.

Lemma shown_ok out k k' : shown out k k' -> con_ok k -> con_ok k'.
Proof. intros (crt & pos & -> & H). apply H. Qed.

(** A character goes to the end of the line. *)
Lemma inp_put k p l c :
  inp k p l -> (length (p ++ l) < 128)%nat -> 0 <= c < 256 -> inp (input_put c k) p (l ++ [c]).
Proof.
  intros [H1 H2 H3 H4 H5 H6] Hlt Hc. unfold input_put. split; cbn.
  - by rewrite length_insert.
  - done.
  - done.
  - rewrite H4, u32_add_l. f_equal. rewrite !length_app. cbn. lia.
  - rewrite app_assoc, length_app. cbn. lia.
  - intros i b Hi. rewrite app_assoc in Hi. rewrite H4, mod_u32.
    assert (i <= length (p ++ l))%nat as Hle by (apply lookup_lt_Some in Hi; rewrite length_app in Hi; cbn in Hi; lia).
    rewrite u8_small by lia. destruct (decide (i = length (p ++ l))) as [->|Hne].
    + rewrite list_lookup_middle in Hi by done. injection Hi as [= <-]. apply list_lookup_insert_eq.
      rewrite H1. pose proof (Z.mod_pos_bound (k.(c_r) + Z.of_nat (length (p ++ l))) 128 ltac:(lia)). lia.
    + rewrite lookup_app_l in Hi by lia. rewrite list_lookup_insert_ne; [by apply H6|].
      pose proof (ring_ne k.(c_r) (Z.of_nat i) (Z.of_nat (length (p ++ l))) ltac:(lia) ltac:(lia) ltac:(lia)).
      pose proof (Z.mod_pos_bound (k.(c_r) + Z.of_nat i) 128 ltac:(lia)).
      pose proof (Z.mod_pos_bound (k.(c_r) + Z.of_nat (length (p ++ l))) 128 ltac:(lia)). lia.
Qed.

(** The last character of the line goes. *)
Lemma inp_back k p l c : inp k p (l ++ [c]) -> inp (set_c_e (u32 (k.(c_e) - 1)) k) p l.
Proof.
  intros [H1 H2 H3 H4 H5 H6]. rewrite app_assoc, length_app in H4, H5. cbn in H4, H5. split; cbn; try done.
  - rewrite H4, u32_sub_l. f_equal. lia.
  - lia.
  - intros i b Hi. apply H6. rewrite app_assoc. by apply lookup_app_l_Some.
Qed.

(** The last character of the line, in the buffer. *)
Lemma inp_last k p l c : inp k p (l ++ [c]) -> input_at k (u32 (k.(c_e) - 1)) = c.
Proof.
  intros [H1 H2 H3 H4 H5 H6]. unfold input_at, INPUT_BUF. rewrite mod_u32, H4.
  rewrite <- (mod_u32 (u32 _ - 1)), u32_sub_l, mod_u32.
  replace (k.(c_r) + Z.of_nat (length (p ++ l ++ [c])) - 1) with (k.(c_r) + Z.of_nat (length (p ++ l)))
    by (rewrite app_assoc, (length_app (p ++ l)); cbn; lia).
  rewrite (H6 (length (p ++ l)) c); [done|]. rewrite app_assoc. by apply list_lookup_middle.
Qed.

(** The line is empty when the indices meet. *)
Lemma inp_empty k p l : inp k p l -> (k.(c_e) =? k.(c_w)) = bool_decide (l = []).
Proof.
  intros [H1 H2 H3 H4 H5 H6]. rewrite H3, H4. rewrite inp_app_length in *. destruct l as [|c l].
  - cbn [length]. rewrite Nat.add_0_r, Z.eqb_refl. done.
  - rewrite bool_decide_eq_false_2 by done. apply Z.eqb_neq. intros E. cbn [length] in *.
    apply place_inj in E; lia.
Qed.

(** Everything typed becomes ready. *)
Lemma inp_commit k p l : inp k p l -> inp (set_c_w k.(c_e) k) (p ++ l) [].
Proof. intros [H1 H2 H3 H4 H5 H6]. split; cbn; rewrite ?app_nil_r; done. Qed.

(** ** Keys *)

(** A console command that only changes the console. *)
Lemma con_id s : set_con s.(con) s = s.
Proof. by destruct s. Qed.

(** The command history is not touched. *)
Definition same_hist (k k' : console) : Prop :=
  k'.(c_prev) = k.(c_prev) /\ k'.(c_dim1) = k.(c_dim1) /\ k'.(c_dim2) = k.(c_dim2) /\
  k'.(c_curr) = k.(c_curr) /\ k'.(c_inserted) = k.(c_inserted).

Lemma same_hist_trans k1 k2 k3 : same_hist k1 k2 -> same_hist k2 k3 -> same_hist k1 k3.
Proof. unfold same_hist. intuition congruence. Qed.

Lemma shown_hist o k k' : shown o k k' -> same_hist k k'.
Proof. by intros (crt & pos & -> & _). Qed.

Lemma kill_line_run fuel s p l :
  con_ok s.(con) -> inp s.(con) p l -> 10 ∉ l -> (length l <= fuel)%nat ->
  exists k, kill_line fuel s = Ok tt (set_con k s) /\ con_ok k /\ inp k p [] /\ same_hist s.(con) k.
Proof.
  revert s l. induction fuel as [|f IH]; intros s l Hk Hi Hn Hf; cbn [kill_line]; unfold kget, kbind at 1;
    rewrite (inp_empty _ _ _ Hi).
  - destruct l; [|cbn in Hf; lia]. cbn. exists s.(con). by rewrite con_id.
  - destruct l as [|c l _] using rev_ind; [cbn; exists s.(con); by rewrite con_id|].
    rewrite bool_decide_eq_false_2 by (by destruct l). rewrite (inp_last _ _ _ _ Hi).
    rewrite (proj2 (Z.eqb_neq c 10)) by (intros ->; apply Hn; rewrite elem_of_app; right; by left). cbn [negb andb].
    unfold mod_con. unfold kmod at 1, kbind at 1. set (k1 := set_c_e (u32 (s.(con).(c_e) - 1)) s.(con)).
    destruct (consputc_prints BACKSPACE (set_con k1 s)) as (k2 & E2 & Hs2); [exact Hk|]. rewrite (kbind_Ok _ _ _ _ _ E2).
    destruct (IH (set_con k2 (set_con k1 s)) l) as (k3 & E3 & Hk3 & Hi3 & Hh3).
    + by apply (shown_ok _ _ _ Hs2).
    + apply (inp_shown _ _ _ _ _ Hs2). by apply (inp_back s.(con) p l c).
    + intros Hin. apply Hn. rewrite elem_of_app. by left.
    + rewrite length_app in Hf. cbn in Hf. lia.
    + exists k3. split_and!; [exact E3|done|done|]. eapply same_hist_trans, Hh3. apply (shown_hist _ _ _ Hs2).
Qed.

Lemma kill_whole_run s p l :
  con_ok s.(con) -> inp s.(con) p l -> 10 ∉ l ->
  exists k, kill_whole_line s = Ok tt (set_con k s) /\ con_ok k /\ inp k p [] /\ same_hist s.(con) k.
Proof.
  intros Hk Hi Hn. unfold kill_whole_line, kget, kbind. apply (kill_line_run _ s p l); auto.
  destruct Hi as [H1 H2 H3 H4 H5 H6]. rewrite H3, H4, u32_sub_l, u32_sub_r, inp_app_length in *.
  rewrite u32_small; lia.
Qed.

(** The backspace key. *)
Lemma backspace_run s p l :
  con_ok s.(con) -> inp s.(con) p l ->
  exists k, (let* k := kget (fun s => s.(con)) in
     if negb (k.(c_e) =? k.(c_w)) then mod_con (set_c_e (u32 (k.(c_e) - 1))) ;;; consputc BACKSPACE else kret tt) s
    = Ok tt (set_con k s) /\ con_ok k /\ inp k p (removelast l).
Proof.
  intros Hk Hi. unfold kget, kbind at 1. rewrite (inp_empty _ _ _ Hi). destruct l as [|c l _] using rev_ind.
  - cbn. exists s.(con). by rewrite con_id.
  - rewrite bool_decide_eq_false_2 by (by destruct l). cbn [negb]. unfold mod_con. unfold kmod at 1, kbind at 1.
    set (k1 := set_c_e (u32 (s.(con).(c_e) - 1)) s.(con)).
    destruct (consputc_prints BACKSPACE (set_con k1 s)) as (k2 & E2 & Hs2); [exact Hk|]. rewrite E2.
    exists k2. split; [done|]. split; [by apply (shown_ok _ _ _ Hs2)|]. rewrite removelast_last.
    apply (inp_shown _ _ _ _ _ Hs2). by apply (inp_back s.(con) p l c).
Qed.

Lemma input_char_run s p l c :
  con_ok s.(con) -> inp s.(con) p l -> 0 <= c < 256 -> LkPtable ∉ s.(held) ->
  c <> C 85 -> c <> C 72 -> c <> 127 ->
  exists k t, input_char c s = Ok tt (set_ptable t (set_con k s)) /\ con_ok k /\
    inp k (edit (p, l) c).1 (edit (p, l) c).2 /\
    t = if decide ((edit (p, l) c).1 = p) then s.(ptable) else wake_one ChInput <$> s.(ptable).
Proof.
  intros Hk Hi Hc Hlk H1 H2 H3. unfold edit. rewrite (proj2 (Z.eqb_neq c (C 85))), (proj2 (Z.eqb_neq c (C 72))), (proj2 (Z.eqb_neq c 127)) by done.
  cbn [orb]. unfold input_char, kget, kbind at 1.
  assert (u32 (s.(con).(c_e) - s.(con).(c_r)) = Z.of_nat (length (p ++ l))) as El.
  { rewrite (inp_e _ _ _ Hi). apply u32_minus_add. pose proof (inp_room _ _ _ Hi). lia. }
  rewrite El. unfold INPUT_BUF. replace (Z.of_nat (length (p ++ l)) <? 128) with (length (p ++ l) <? 128)%nat
    by (destruct (Nat.ltb_spec (length (p ++ l)) 128), (Z.ltb_spec (Z.of_nat (length (p ++ l))) 128); lia || done).
  destruct (negb (c =? 0) && (length (p ++ l) <? 128)%nat) eqn:Ecase.
  2:{ exists s.(con), s.(ptable). cbn. split; [by destruct s|]. split; [done|]. split; [done|]. by rewrite decide_True. }
  apply andb_prop in Ecase as [_ Hlt%Nat.ltb_lt]. set (c' := if c =? 13 then 10 else c).
  assert (0 <= c' < 256) as Hc' by (unfold c'; destruct (c =? 13); lia).
  unfold mod_con. unfold kmod at 1, kbind at 1. set (k1 := input_put c' s.(con)).
  pose proof (inp_put s.(con) p l c' Hi Hlt Hc') as Hi1. fold k1 in Hi1.
  destruct (consputc_prints c' (set_con k1 s)) as (k2 & E2 & Hs2); [exact Hk|]. rewrite (kbind_Ok _ _ _ _ _ E2).
  pose proof (inp_shown _ _ _ _ _ Hs2 Hi1) as Hi2. pose proof (shown_ok _ _ _ Hs2 Hk) as Hk2.
  unfold kbind at 1. cbn [con set_con].
  assert ((k2.(c_e) =? u32 (k2.(c_r) + 128)) = (length (p ++ l ++ [c']) =? 128)%nat) as Efull.
  { rewrite (inp_e _ _ _ Hi2). pose proof (inp_room _ _ _ Hi2) as Hr. destruct (Nat.eqb_spec (length (p ++ l ++ [c'])) 128) as [->|Hne].
    - apply Z.eqb_refl.
    - apply Z.eqb_neq. intros E. apply place_inj in E; lia. }
  rewrite Efull. destruct ((c' =? 10) || (c' =? C 68) || (length (p ++ l ++ [c']) =? 128)%nat).
  - unfold kmod at 1, kbind at 1. cbn [con set_con]. rewrite wakeup_ok by exact Hlk.
    exists (set_c_w k2.(c_e) k2), (wake_one ChInput <$> s.(ptable)). split; [by destruct s|]. split; [exact Hk2|].
    cbn [fst snd]. split; [by apply inp_commit|]. rewrite decide_False; [done|].
    intros E. apply (f_equal length) in E. rewrite !length_app in E. cbn in E. lia.
  - exists k2, s.(ptable). split; [by destruct s|]. split; [exact Hk2|]. cbn [fst snd]. split; [done|]. by rewrite decide_True.
Qed.

Lemma edit_no_newline p l c : 10 ∉ l -> 10 ∉ (edit (p, l) c).2.
Proof.
  intros Hn. unfold edit. destruct (c =? C 85); [apply not_elem_of_nil|]. destruct ((c =? C 72) || (c =? 127)).
  - cbn [snd]. destruct l as [|x l _] using rev_ind; [done|]. rewrite removelast_last. set_solver.
  - destruct (_ && _); [|done]. set (c' := if c =? 13 then 10 else c). destruct (Z.eqb_spec c' 10); [apply not_elem_of_nil|].
    cbn [orb]. destruct (_ || _); [apply not_elem_of_nil|]. cbn [snd]. rewrite elem_of_app, list_elem_of_singleton. naive_solver.
Qed.

Lemma input_key_run `{KStack} s p l c ind :
  con_ok s.(con) -> inp s.(con) p l -> 10 ∉ l -> edit_key c -> LkPtable ∉ s.(held) ->
  exists k t, input_key c ind s = Ok ind (set_ptable t (set_con k s)) /\ con_ok k /\
    inp k (edit (p, l) c).1 (edit (p, l) c).2 /\
    t = if decide ((edit (p, l) c).1 = p) then s.(ptable) else wake_one ChInput <$> s.(ptable).
Proof.
  intros Hk Hi Hn (Hc & H1 & H2 & H3) Hlk. unfold input_key. rewrite (proj2 (Z.eqb_neq c (C 80))) by done.
  destruct (Z.eqb_spec c (C 85)) as [->|Hu].
  - destruct (kill_whole_run s p l Hk Hi Hn) as (k & E & Hk' & Hi' & _). rewrite (kbind_Ok _ _ _ _ _ E).
    exists k, s.(ptable). split; [by destruct s|]. split; [done|]. split; [done|]. by rewrite decide_True.
  - destruct ((c =? C 72) || (c =? 127)) eqn:Eb.
    + destruct (backspace_run s p l Hk Hi) as (k & E & Hk' & Hi'). rewrite <- kbind_assoc, (kbind_Ok _ _ _ _ _ E).
      exists k, s.(ptable). unfold edit. rewrite (proj2 (Z.eqb_neq c (C 85))), Eb by done.
      split; [by destruct s|]. split; [done|]. split; [done|]. by rewrite decide_True.
    + rewrite (proj2 (Z.eqb_neq c (C 73))), (proj2 (Z.eqb_neq c 226)) by done. cbn [orb].
      apply orb_false_iff in Eb as [Eb1%Z.eqb_neq Eb2%Z.eqb_neq].
      destruct (input_char_run s p l c Hk Hi Hc Hlk Hu Eb1 Eb2) as (k & t & E & Hk' & Hi' & Ht).
      rewrite (kbind_Ok _ _ _ _ _ E). exists k, t. done.
Qed.

(** ** A burst of keys *)

Lemma wake_idem c (t : list proc) : wake_one c <$> (wake_one c <$> t) = wake_one c <$> t.
Proof.
  rewrite <- list_fmap_compose. apply list_fmap_ext. intros i p _. unfold compose, wake_one.
  destruct (decide (p.(p_state) = SLEEPING /\ p.(p_chan) = Some c)) as [H|H]; [|by rewrite decide_False].
  rewrite decide_False; [done|]. cbn. naive_solver.
Qed.

(** What is ready only grows while keys come in. *)
Lemma edit_grows p l c : (edit (p, l) c).1 = p \/ (length p < length (edit (p, l) c).1)%nat.
Proof.
  unfold edit. destruct (c =? C 85); [by left|]. destruct ((c =? C 72) || (c =? 127)); [by left|]. destruct (_ && _); [|by left].
  destruct (_ || _); [right|by left]. cbn [fst]. rewrite !length_app. cbn. lia.
Qed.

Lemma edits_grow st cs : (foldl edit st cs).1 = st.1 \/ (length st.1 < length (foldl edit st cs).1)%nat.
Proof.
  revert st. induction cs as [|c cs IH]; intros [p l]; cbn [foldl]; [by left|].
  destruct (IH (edit (p, l) c)) as [E'|E'], (edit_grows p l c) as [E|E]; cbn [fst].
  - left. by rewrite E', E.
  - right. by rewrite E'.
  - right. by rewrite <- E at 1.
  - right. lia.
Qed.

Lemma intr_loop_run `{KStack} s p l cs ind :
  con_ok s.(con) -> inp s.(con) p l -> 10 ∉ l -> Forall edit_key cs -> LkPtable ∉ s.(held) ->
  exists k t, consoleintr_loop cs ind s = Ok tt (set_ptable t (set_con k s)) /\ con_ok k /\
    inp k (foldl edit (p, l) cs).1 (foldl edit (p, l) cs).2 /\ 10 ∉ (foldl edit (p, l) cs).2 /\
    t = if decide ((foldl edit (p, l) cs).1 = p) then s.(ptable) else wake_one ChInput <$> s.(ptable).
Proof.
  intros Hk Hi Hn Hcs Hlk. revert s p l Hk Hi Hn Hlk. induction Hcs as [|c cs Hc _ IH]; intros s p l Hk Hi Hn Hlk.
  - exists s.(con), s.(ptable). cbn. rewrite decide_True by done. split; [by destruct s|]. done.
  - cbn [consoleintr_loop foldl]. destruct (input_key_run s p l c ind Hk Hi Hn Hc Hlk) as (k & t & E & Hk1 & Hi1 & Ht).
    rewrite (kbind_Ok _ _ _ _ _ E). pose proof (edit_no_newline p l c Hn) as Hn1. pose proof (edit_grows p l c) as Hg.
    destruct (edit (p, l) c) as [p1 l1] eqn:Ee. cbn [fst snd] in *.
    destruct (IH (set_ptable t (set_con k s)) p1 l1) as (k2 & t2 & E2 & Hk2 & Hi2 & Hn2 & Ht2); [done|done|done|done|].
    exists k2, t2. split; [rewrite E2; by destruct s|]. split; [done|]. split; [done|]. split; [done|].
    rewrite Ht2. cbn [ptable set_ptable set_con]. rewrite Ht. pose proof (edits_grow (p1, l1) cs) as Hg2. cbn [fst] in Hg2.
    set (p2 := (foldl edit (p1, l1) cs).1) in *.
    destruct (decide (p1 = p)) as [->|Hne1].
    + done.
    + destruct Hg as [?|Hg]; [done|]. destruct (decide (p2 = p)) as [->|_]; [destruct Hg2 as [?|?]; [congruence|lia]|].
      destruct (decide (p2 = p1)); [done|]. apply wake_idem.
Qed.

(** ** Properties *)

(** C25: The console implements a line editor: for every sequence of ordinary,
    backspace, kill-line and line-ending keys, [consoleintr] turns the bytes
    ready for reading and the line being edited into those of the abstract
    editor, never holding more than 128 bytes and never overwriting a byte not
    read yet; a finished line wakes every reader, and the screen stays in
    bounds. *)
Theorem console_edits `{KStack} (s : kstate) (p l cs : list Z) :
  con_ok s.(con) -> inp s.(con) p l -> 10 ∉ l -> Forall edit_key cs -> LkPtable ∉ s.(held) -> LkInput ∉ s.(held) ->
  let '(p', l') := foldl edit (p, l) cs in
  exists s', consoleintr cs s = Ok tt s' /\ con_ok s'.(con) /\ inp s'.(con) p' l' /\ s'.(held) = s.(held) /\
    s'.(ptable) = if decide (p' = p) then s.(ptable) else wake_one ChInput <$> s.(ptable).
Proof.
  intros Hk Hi Hn Hcs Hlp Hli. destruct (foldl edit (p, l) cs) as [p' l'] eqn:Ee. unfold consoleintr.
  rewrite (kbind_Ok _ _ _ _ _ (acquire_free LkInput s Hli)).
  destruct (intr_loop_run (set_held (LkInput :: s.(held)) s) p l cs 0) as (k & t & E & Hk' & Hi' & _ & Ht); auto.
  { cbn. rewrite elem_of_cons. naive_solver. }
  rewrite (kbind_Ok _ _ _ _ _ E), Ee in *. cbn [fst snd] in *.
  rewrite (release_top LkInput s.(held)) by reflexivity. eexists. split; [reflexivity|].
  split; [exact Hk'|]. split; [exact Hi'|]. split; [done|]. exact Ht.
Qed.

Lemma idle_inp : inp bare_console [] [].
Proof. split; try done. cbn. lia. Qed.

Lemma console_edits_witness :
  let '(p', l') := foldl edit ([], []) (str "lx" ++ [C 72; 115; 13] ++ str "c") in
  p' = str "ls" ++ [10] /\ l' = str "c" /\
  exists s', @consoleintr (Build_KStack (fun _ => [])) (str "lx" ++ [C 72; 115; 13] ++ str "c") bare_state = Ok tt s'
    /\ inp s'.(con) p' l'.
Proof.
  pose proof (@console_edits (Build_KStack (fun _ => [])) bare_state [] [] (str "lx" ++ [C 72; 115; 13] ++ str "c")) as H.
  destruct (foldl edit _ _) as [p' l'] eqn:Ee. vm_compute in Ee. simplify_eq.
  destruct H as (s' & E & _ & Hi & _).
  - split_and!; cbn; [done|done|lia|lia].
  - exact idle_inp.
  - apply not_elem_of_nil.
  - repeat (apply Forall_cons; split; [vm_compute; intuition congruence|]). apply Forall_nil. exact I.
  - apply not_elem_of_nil.
  - apply not_elem_of_nil.
  - split; [reflexivity|]. split; [reflexivity|]. exists s'. split; [exact E|exact Hi].
Defined.
