(* ===== verification/ConsHist.v ===== *)
(** Reading lines from the console and the command history: consoleread and
    the history key of consoleintr (console.c).

    [consoleread] copies every line it delivers into the array [prevCmds]; the
    tab and up-arrow keys bring recorded lines back into the line being edited.
    The theorems show both directions, and where the array is left. *)

From S2P Require Import Prelude CString State Kalloc ProcSync Console Inode ConsoleDev ConsLine.

(** ** Recording *)

(** The array is 16 rows of 100. *)
Definition hist_ok (k : console) : Prop :=
  length k.(c_prev) = 16%nat /\ Forall (fun row => length row = 100%nat) k.(c_prev).

Lemma prev_at_Some k d j row :
  k.(c_prev) !! d = Some row -> prev_at k (Z.of_nat d) (Z.of_nat j) = row !! j.
Proof.
  intros H. unfold prev_at. rewrite !(proj2 (Z.leb_le 0 _)) by lia. cbn [andb]. by rewrite !Nat2Z.id, H.
Qed.

Lemma prev_put_run k d j row c :
  k.(c_prev) !! d = Some row -> (j < length row)%nat ->
  prev_put (Z.of_nat d) (Z.of_nat j) c k = Some (set_c_prev (<[d := <[j := u8 c]> row]> k.(c_prev)) k).
Proof.
  intros H Hj. unfold prev_put. rewrite (prev_at_Some k d j row H), !Nat2Z.id, H.
  apply lookup_lt_is_Some in Hj as [x ->]. done.
Qed.

(** One character of a command: the row holds [pre] so far. *)
Lemma history_put_char k d pre tl c :
  k.(c_dim1) = Z.of_nat d -> (d < 16)%nat -> k.(c_dim2) = Z.of_nat (length pre) ->
  k.(c_prev) !! d = Some (pre ++ tl) -> tl <> [] -> 0 <= c < 256 -> c <> 10 -> c <> C 68 ->
  history_put c k =
  Some (set_c_dim2 (Z.of_nat (length (pre ++ [c]))) (set_c_prev (<[d := (pre ++ [c]) ++ drop 1 tl]> k.(c_prev)) k)).
Proof.
  intros H1 Hd H2 Hrow Htl Hc Hn1 Hn2. unfold history_put. rewrite (proj2 (Z.eqb_neq c (C 68))), (proj2 (Z.eqb_neq c 10)) by done.
  cbn [negb andb]. unfold HISTORY_SIZE. rewrite Z.geb_leb, (proj2 (Z.leb_gt _ _)) by lia. rewrite H1, H2.
  destruct tl as [|x tl]; [done|]. rewrite (prev_put_run k d (length pre) _ c Hrow) by (rewrite length_app; cbn; lia).
  rewrite u8_small by lia. rewrite insert_app_r_alt, Nat.sub_diag by lia. cbn [insert list_insert drop].
  rewrite <- app_assoc. cbn [app]. f_equal. cbn. rewrite H2, length_app. cbn. f_equal. lia.
Qed.

(** The end of a command. *)
Lemma history_put_end k d pre tl :
  k.(c_dim1) = Z.of_nat d -> k.(c_dim2) = Z.of_nat (length pre) -> k.(c_prev) !! d = Some (pre ++ tl) -> tl <> [] ->
  history_put 10 k =
  Some (set_c_inserted (k.(c_inserted) + 1) (set_c_dim1 (Z.of_nat d + 1) (set_c_curr (Z.of_nat d) (set_c_dim2 0
    (set_c_prev (<[d := pre ++ 0 :: drop 1 tl]> k.(c_prev)) k))))).
Proof.
  intros H1 H2 Hrow Htl. unfold history_put. rewrite Z.eqb_refl, andb_false_r, H1, H2.
  destruct tl as [|x tl]; [done|]. rewrite (prev_put_run k d (length pre) _ 0 Hrow) by (rewrite length_app; cbn; lia).
  rewrite insert_app_r_alt, Nat.sub_diag by lia. cbn [insert list_insert drop]. change (u8 0) with 0. f_equal. cbn. by rewrite H1.
Qed.

Lemma history_put_reset c k :
  c <> 10 -> c <> C 68 -> HISTORY_SIZE <= k.(c_dim1) -> history_put c k = history_put c (set_c_dim1 0 k).
Proof.
  intros H1 H2 H. unfold history_put. rewrite (proj2 (Z.eqb_neq c (C 68))), (proj2 (Z.eqb_neq c 10)) by done. cbn [negb andb].
  rewrite Z.geb_leb, (proj2 (Z.leb_le _ _)) by done. done.
Qed.

(** Only history fields change. *)
Definition hist_only (k k' : console) : Prop :=
  exists a b c d e, k' = set_c_prev a (set_c_dim1 b (set_c_dim2 c (set_c_curr d (set_c_inserted e k)))).

Lemma hist_only_intro k k' :
  k' = set_c_prev k'.(c_prev) (set_c_dim1 k'.(c_dim1) (set_c_dim2 k'.(c_dim2) (set_c_curr k'.(c_curr) (set_c_inserted k'.(c_inserted) k)))) ->
  hist_only k k'.
Proof. intros ->. by eexists _, _, _, _, _. Qed.

Lemma hist_only_inp k k' p l : hist_only k k' -> inp k p l -> inp k' p l.
Proof. intros (a & b & c & d & e & ->) [H1 H2 H3 H4 H5 H6]. by split. Qed.

Lemma hist_only_ok k k' : hist_only k k' -> con_ok k -> con_ok k'.
Proof. intros (a & b & c & d & e & ->). done. Qed.

(** ** Reading *)

(** The reader takes the first byte. *)
Lemma inp_take k c p l :
  inp k (c :: p) l -> input_at k k.(c_r) = c /\ k.(c_r) <> k.(c_w) /\ inp (set_c_r (u32 (k.(c_r) + 1)) k) p l.
Proof.
  intros [H1 H2 H3 H4 H5 H6]. cbn [app length] in *. rewrite inp_app_length in *. split_and!.
  - unfold input_at, INPUT_BUF. pose proof (H6 0%nat c eq_refl) as E. cbn in E. rewrite Z.add_0_r in E. by rewrite E.
  - rewrite H3. intros E. rewrite <- (u32_small k.(c_r)) in E at 1 by done.
    replace k.(c_r) with (k.(c_r) + 0) in E at 1 by lia. apply place_inj in E; lia.
  - split; cbn; try done.
    + apply u32_range.
    + rewrite u32_add_l, H3. f_equal. lia.
    + rewrite u32_add_l, H4, inp_app_length. f_equal. lia.
    + rewrite inp_app_length. lia.
    + intros i b Hi. rewrite <- (H6 (S i) b Hi). do 2 f_equal. rewrite <- (mod_u32 (k.(c_r) + Z.of_nat (S i))).
      rewrite <- (mod_u32 (u32 _ + _)), u32_add_l. do 2 f_equal. lia.
Qed.

(** [finish] of the model: what follows the loop. *)
Definition read_end (ip : nat) (target n : Z) (dst : list Z) : K (Z * list Z) :=
  release LkInput ;;; ilock (Some ip) ;;; kret (s32 (target - n), dst).

(** A command recorded in row [d]. *)
Definition recorded (k k' : console) (d : nat) (cmd : list Z) : Prop :=
  (exists tl, k'.(c_prev) !! d = Some (cmd ++ 0 :: tl)) /\
  (forall j, j <> d -> k'.(c_prev) !! j = k.(c_prev) !! j) /\ hist_ok k' /\
  k'.(c_curr) = Z.of_nat d /\ k'.(c_dim1) = Z.of_nat d + 1 /\ k'.(c_dim2) = 0 /\ k'.(c_inserted) = k.(c_inserted) + 1.

Lemma hist_ok_insert k k' d row :
  hist_ok k -> length row = 100%nat -> k'.(c_prev) = <[d := row]> k.(c_prev) -> hist_ok k'.
Proof. intros [H1 H2] Hr E. unfold hist_ok. rewrite E. split; [by rewrite length_insert|]. by apply Forall_insert. Qed.

(** The row keeps its length. *)
Lemma hist_row k d pre tl new :
  hist_ok k -> k.(c_prev) !! d = Some (pre ++ tl) -> tl <> [] -> (length new = S (length pre))%nat -> length (new ++ drop 1 tl) = 100%nat.
Proof.
  intros [_ Hrows] Hrow Htl Hn. rewrite Forall_lookup in Hrows. specialize (Hrows _ _ Hrow). cbn in Hrows.
  destruct tl as [|x tl]; [done|]. rewrite length_app in *. rewrite length_drop. cbn [length] in *. lia.
Qed.

(** One round of the loop, for a byte that is not an end-of-file mark. *)
Lemma read_round f ip target n dst s c p l k1 :
  inp s.(con) (c :: p) l -> 0 < n -> c <> C 68 ->
  history_put c (set_c_r (u32 (s.(con).(c_r) + 1)) s.(con)) = Some k1 ->
  consoleread_from (S f) ip target n dst s =
  (if c =? 10 then read_end ip target (n - 1) (dst ++ [c]) else consoleread_from f ip target (n - 1) (dst ++ [c])) (set_con k1 s).
Proof.
  intros Hi Hn Hc Hh. destruct (inp_take _ _ _ _ Hi) as (E1 & E2 & _). cbn [consoleread_from].
  rewrite Z.gtb_ltb, (proj2 (Z.ltb_lt _ _)) by lia. unfold kget at 1, kbind at 1. rewrite (proj2 (Z.eqb_neq _ _) E2), E1.
  unfold mod_con. unfold kmod at 1, kbind at 1. unfold kget at 1, kbind at 1. cbn [con set_con].
  rewrite Hh. unfold klift, kret at 1, kbind at 1. unfold kmod at 1, kbind at 1. rewrite (proj2 (Z.eqb_neq c (C 68))) by done.
  replace (set_con k1 (set_con (set_c_r (u32 (c_r (con s) + 1)) (con s)) s)) with (set_con k1 s) by by destruct s.
  by destruct (c =? 10).
Qed.

Lemma read_line cmd : forall fuel ip target n dst s pre tl d p l,
  inp s.(con) (cmd ++ 10 :: p) l -> Forall (fun c => 0 < c < 256 /\ c <> 10 /\ c <> C 68) cmd ->
  Z.of_nat (length cmd) < n -> (length cmd < fuel)%nat ->
  s.(con).(c_dim1) = Z.of_nat d -> (d < 16)%nat -> s.(con).(c_dim2) = Z.of_nat (length pre) ->
  s.(con).(c_prev) !! d = Some (pre ++ tl) -> (length cmd < length tl)%nat -> hist_ok s.(con) ->
  exists k, consoleread_from fuel ip target n dst s
      = read_end ip target (n - Z.of_nat (length cmd) - 1) (dst ++ cmd ++ [10]) (set_con k s) /\
    inp k p l /\ hist_only (set_c_r k.(c_r) s.(con)) k /\ recorded s.(con) k d (pre ++ cmd).
Proof.
  induction cmd as [|c cmd IH]; intros fuel ip target n dst s pre tl d p l Hi Hcs Hn Hf H1 Hd H2 Hrow Hlen Hh;
    (destruct fuel as [|f]; [cbn in Hf; lia|]); cbn [app length] in *.
  - destruct (inp_take _ _ _ _ Hi) as (_ & _ & Hi'). set (k0 := set_c_r (u32 (s.(con).(c_r) + 1)) s.(con)) in *.
    assert (tl <> []) as Htl by (intros ->; cbn in Hlen; lia).
    pose proof (history_put_end k0 d pre tl H1 H2 Hrow Htl) as Eh.
    rewrite (read_round f ip target n dst s 10 p l _ Hi ltac:(lia) ltac:(done) Eh).
    eexists. split; [cbn [Z.eqb Pos.eqb]; by replace (n - Z.of_nat 0 - 1) with (n - 1) by lia|].
    assert (hist_only k0 (set_c_inserted (k0.(c_inserted) + 1) (set_c_dim1 (Z.of_nat d + 1) (set_c_curr (Z.of_nat d) (set_c_dim2 0
      (set_c_prev (<[d := pre ++ 0 :: drop 1 tl]> k0.(c_prev)) k0)))))) as Ho.
    { by apply hist_only_intro. }
    split; [by apply (hist_only_inp _ _ _ _ Ho)|]. split; [exact Ho|]. unfold recorded. cbn. rewrite app_nil_r.
    assert (d < length s.(con).(c_prev))%nat as Hdl by (by eapply lookup_lt_Some).
    split_and!; try done.
    + exists (drop 1 tl). by apply list_lookup_insert_eq.
    + intros j Hj. by apply list_lookup_insert_ne.
    + eapply (hist_ok_insert s.(con)); [exact Hh| |reflexivity]. change (pre ++ 0 :: drop 1 tl) with (pre ++ [0] ++ drop 1 tl).
      rewrite app_assoc. apply (hist_row s.(con) d pre); auto. rewrite length_app. cbn. lia.
  - apply Forall_cons in Hcs as [(Hc & Hc1 & Hc2) Hcs]. destruct (inp_take _ _ _ _ Hi) as (_ & _ & Hi').
    set (k0 := set_c_r (u32 (s.(con).(c_r) + 1)) s.(con)) in *.
    assert (tl <> []) as Htl by (intros ->; cbn in Hlen; lia).
    pose proof (history_put_char k0 d pre tl c H1 Hd H2 Hrow Htl ltac:(lia) Hc1 Hc2) as Eh.
    rewrite (read_round f ip target n dst s c (cmd ++ 10 :: p) l _ Hi ltac:(lia) Hc2 Eh). rewrite (proj2 (Z.eqb_neq c 10)) by done.
    set (k1 := set_c_dim2 _ _) in *.
    assert (hist_only k0 k1) as Ho by (by apply hist_only_intro).
    assert (d < length s.(con).(c_prev))%nat as Hdl by (by eapply lookup_lt_Some).
    destruct (IH f ip target (n - 1) (dst ++ [c]) (set_con k1 s) (pre ++ [c]) (drop 1 tl) d p l) as (k2 & E2 & Hi2 & Ho2 & Hr2);
      [by apply (hist_only_inp _ _ _ _ Ho)|done|lia|lia|done|done|done|cbn; by apply list_lookup_insert_eq|rewrite length_drop; lia| |].
    { eapply (hist_ok_insert s.(con)); [exact Hh| |reflexivity]. apply (hist_row s.(con) d pre); auto. rewrite length_app. cbn. lia. }
    exists k2. split; [rewrite E2; cbn [con set_con]|].
    { replace (n - 1 - Z.of_nat (length cmd) - 1) with (n - Z.of_nat (S (length cmd)) - 1) by lia. rewrite <- app_assoc. by destruct s. }
    split; [done|]. split.
    + destruct Ho2 as (a & b & x & y & z & ->). by apply hist_only_intro.
    + destruct Hr2 as (Hr & Hoth & Hok & R1 & R2 & R3 & R4). cbn in Hoth, R4. split_and!; try done.
      * by rewrite <- app_assoc in Hr.
      * intros j Hj. rewrite Hoth by done. by apply list_lookup_insert_ne.
Qed.

(** ** The inode around a read *)

Definition LOCKED : Z := Z.lor I_BUSY I_VALID.

Lemma iunlock_locked s ip i :
  s.(icache) !! ip = Some i -> i.(i_flags) = LOCKED -> 0 < i.(i_ref) -> LkIcache ∉ s.(held) -> LkPtable ∉ s.(held) ->
  iunlock (Some ip) s = Ok tt (set_ptable (wake_one (ChInode ip) <$> s.(ptable)) (set_icache (<[ip := set_i_flags I_VALID i]> s.(icache)) s)).
Proof.
  intros Hi Hf Hr Hk Hp. unfold iunlock. rewrite (kbind_Ok _ _ _ _ _ (get_inode_run ip s i Hi)). rewrite Hf.
  rewrite (proj2 (Z.ltb_ge i.(i_ref) 1)) by lia. change (Z.land LOCKED I_BUSY =? 0) with false. cbn [orb].
  rewrite (kbind_Ok _ _ _ _ _ (acquire_free LkIcache s Hk)).
  erewrite kbind_Ok by (apply (mod_inode_run ip _ (set_held (LkIcache :: s.(held)) s) i); exact Hi).
  erewrite kbind_Ok by (apply wakeup_ok; cbn; rewrite not_elem_of_cons; auto).
  rewrite (release_top LkIcache s.(held)) by reflexivity. rewrite Hf. cbn. by destruct s.
Qed.

Lemma ilock_unlocked s ip i :
  s.(icache) !! ip = Some i -> i.(i_flags) = I_VALID -> 0 < i.(i_ref) -> LkIcache ∉ s.(held) ->
  ilock (Some ip) s = Ok tt (set_icache (<[ip := set_i_flags LOCKED i]> s.(icache)) s).
Proof.
  intros Hi Hf Hr Hk. unfold ilock. rewrite (kbind_Ok _ _ _ _ _ (get_inode_run ip s i Hi)).
  rewrite (proj2 (Z.ltb_ge i.(i_ref) 1)) by lia. rewrite (kbind_Ok _ _ _ _ _ (acquire_free LkIcache s Hk)).
  set (s1 := set_held (LkIcache :: s.(held)) s).
  rewrite (kbind_Ok _ _ _ _ _ (get_inode_run ip s1 i Hi)). rewrite Hf. change (Z.land I_VALID I_BUSY =? 0) with true. cbn [negb].
  erewrite kbind_Ok by (apply (mod_inode_run ip _ s1 i); exact Hi).
  erewrite kbind_Ok by (apply (release_top LkIcache s.(held)); reflexivity). rewrite Hf.
  erewrite kbind_Ok by (apply get_inode_run; cbn; apply list_lookup_insert_eq; by eapply lookup_lt_Some).
  cbn. by destruct s.
Qed.

(** The row a command goes to: the next one, or the first again. *)
Definition next_row (k : console) : nat := if HISTORY_SIZE <=? k.(c_dim1) then 0%nat else Z.to_nat k.(c_dim1).

(** Going back to the first row can as well be done before the first character
    of a command. *)
Lemma read_wrapped c f ip target n dst s p l k1 :
  inp s.(con) (c :: p) l -> 0 < n -> c <> 10 -> c <> C 68 -> HISTORY_SIZE <= s.(con).(c_dim1) ->
  history_put c (set_c_dim1 0 (set_c_r (u32 (s.(con).(c_r) + 1)) s.(con))) = Some k1 ->
  consoleread_from (S f) ip target n dst s = consoleread_from (S f) ip target n dst (set_con (set_c_dim1 0 s.(con)) s).
Proof.
  intros Hi Hn H1 H2 Hd Hh. set (s2 := set_con (set_c_dim1 0 s.(con)) s).
  assert (inp s2.(con) (c :: p) l) as Hi2 by (destruct Hi as [A1 A2 A3 A4 A5 A6]; by split).
  rewrite (read_round f ip target n dst s c p l k1 Hi Hn H2) by (by rewrite history_put_reset).
  rewrite (read_round f ip target n dst s2 c p l k1 Hi2 Hn H2) by exact Hh. by destruct s.
Qed.

Lemma read_any cmd fuel ip target n s p l :
  inp s.(con) (cmd ++ 10 :: p) l -> Forall (fun c => 0 < c < 256 /\ c <> 10 /\ c <> C 68) cmd ->
  (length cmd < 100)%nat -> Z.of_nat (length cmd) < n -> (length cmd < fuel)%nat ->
  hist_ok s.(con) -> s.(con).(c_dim2) = 0 -> 0 <= s.(con).(c_dim1) <= 16 -> cmd <> [] \/ s.(con).(c_dim1) < 16 ->
  exists k, consoleread_from fuel ip target n [] s
      = read_end ip target (n - Z.of_nat (length cmd) - 1) (cmd ++ [10]) (set_con k s) /\
    inp k p l /\ (con_ok s.(con) -> con_ok k) /\ recorded s.(con) k (next_row s.(con)) cmd.
Proof.
  intros Hi Hcs Hlen Hn Hf Hh H2 H1 Hne. unfold next_row, HISTORY_SIZE.
  assert (forall d, (d < 16)%nat -> exists row, s.(con).(c_prev) !! d = Some ([] ++ row) /\ length row = 100%nat) as Hrow.
  { intros d Hd. destruct Hh as [Hl Hr]. destruct (lookup_lt_is_Some_2 s.(con).(c_prev) d) as [row E]; [by rewrite Hl|].
    exists row. split; [done|]. rewrite Forall_lookup in Hr. by apply (Hr d). }
  destruct (Z.leb_spec 16 s.(con).(c_dim1)) as [Hw|Hw].
  - destruct cmd as [|c cmd]; [destruct Hne; [done|lia]|]. destruct fuel as [|f]; [lia|]. cbn [app] in Hi.
    apply Forall_cons in Hcs as Hcs'. destruct Hcs' as [(Hc & Hc1 & Hc2) _]. destruct (Hrow 0%nat ltac:(lia)) as (row & Er & Hrl).
    set (s2 := set_con (set_c_dim1 0 s.(con)) s).
    assert (inp s2.(con) ((c :: cmd) ++ 10 :: p) l) as Hi2 by (destruct Hi as [A1 A2 A3 A4 A5 A6]; by split).
    rewrite (read_wrapped c f ip target n [] s (cmd ++ 10 :: p) l _ Hi ltac:(cbn in Hn; lia) Hc1 Hc2 Hw
      (history_put_char (set_c_dim1 0 (set_c_r (u32 (s.(con).(c_r) + 1)) s.(con))) 0 [] row c eq_refl ltac:(lia) H2 Er ltac:(by intros ->) ltac:(lia) Hc1 Hc2)).
    destruct (read_line (c :: cmd) (S f) ip target n [] s2 [] row 0 p l Hi2 Hcs Hn Hf) as (k & E & Hik & Ho & Hr); auto; [lia|lia|].
    exists k. split; [etransitivity; [exact E|]; by destruct s|]. split; [done|]. split; [|done].
    intros Hk. by apply (hist_only_ok _ _ Ho).
  - set (d := Z.to_nat s.(con).(c_dim1)). destruct (Hrow d ltac:(lia)) as (row & Er & Hrl).
    destruct (read_line cmd fuel ip target n [] s [] row d p l Hi Hcs Hn Hf) as (k & E & Hik & Ho & Hr); auto; [lia|lia|lia|].
    exists k. split; [exact E|]. split; [done|]. split; [|done]. intros Hk. by apply (hist_only_ok _ _ Ho).
Qed.

(** ** Recalling *)

Lemma recall_run cmd : forall fuel s d pre tl p l,
  inp s.(con) p l -> (length (p ++ l ++ cmd) <= 128)%nat -> s.(con).(c_curr) = Z.of_nat d ->
  s.(con).(c_prev) !! d = Some (pre ++ cmd ++ 0 :: tl) -> Forall (fun c => 0 < c < 256) cmd -> (length cmd < fuel)%nat ->
  exists k, recall fuel (Z.of_nat (length pre)) s = Ok (Z.of_nat (length (pre ++ cmd))) (set_con k s) /\
    inp k p (l ++ cmd) /\ (con_ok s.(con) -> con_ok k) /\ same_hist s.(con) k.
Proof.
  induction cmd as [|c cmd IH]; intros fuel s d pre tl p l Hi Hroom Hc Hrow Hcs Hf; (destruct fuel as [|f]; [cbn in Hf; lia|]);
    cbn [recall]; unfold kget at 1, kbind at 1; rewrite Hc, (prev_at_Some _ d (length pre) _ Hrow).
  - cbn [app]. rewrite list_lookup_middle by done. cbn. exists s.(con). rewrite !app_nil_r. split; [by rewrite con_id|]. done.
  - cbn [app] in *. rewrite list_lookup_middle by done. unfold klift, kret at 1, kbind at 1.
    apply Forall_cons in Hcs as [Hcc Hcs]. rewrite (proj2 (Z.eqb_neq c 0)) by lia. unfold mod_con. unfold kmod at 1, kbind at 1.
    assert (length (p ++ l) < 128)%nat as Hlt by (rewrite !length_app in *; cbn in Hroom; lia).
    pose proof (inp_put s.(con) p l c Hi Hlt ltac:(lia)) as Hi1. cbn [length] in Hf.
    destruct (IH f (set_con (input_put c s.(con)) s) d (pre ++ [c]) tl p (l ++ [c])) as (k & E & Hik & Hok & Hsh);
      [exact Hi1|rewrite <- app_assoc; exact Hroom|exact Hc|rewrite <- app_assoc; exact Hrow|exact Hcs|lia|].
    replace (Z.of_nat (length pre) + 1) with (Z.of_nat (length (pre ++ [c]))) by (rewrite length_app; cbn; lia).
    exists k. rewrite E. rewrite <- !app_assoc in *. cbn [app] in *. split; [by destruct s|]. done.
Qed.

Lemma upto_nul_at cmd tl n : (length cmd < n)%nat -> 0 ∉ cmd -> upto_nul (cmd ++ 0 :: tl) n = cmd.
Proof.
  revert n. induction cmd as [|c cmd IH]; intros [|n] Hn H0; cbn in *; try lia; [done|].
  apply not_elem_of_cons in H0 as [H0 H1]. rewrite (proj2 (Z.eqb_neq c 0)) by done. by rewrite IH by (done || lia).
Qed.

Lemma prev_string_run s d cmd tl :
  s.(con).(c_prev) !! d = Some (cmd ++ 0 :: tl) -> 0 ∉ cmd -> prev_string (Z.of_nat d) s = Ok cmd s.
Proof.
  intros Hrow H0. unfold prev_string, kget, kbind. rewrite (proj2 (Z.leb_le 0 _)) by lia. rewrite Nat2Z.id, Hrow. cbn [klift kret].
  unfold kret. rewrite decide_True by (rewrite elem_of_app, elem_of_cons; auto). rewrite upto_nul_at; [done| |done].
  rewrite length_app. cbn. lia.
Qed.

(** Where the history key goes next: one command back, from the first row to
    the last one that was filled. *)
Definition before (k : console) : Z :=
  if negb (k.(c_curr) =? 0) then k.(c_curr) - 1 else if k.(c_inserted) <? 16 then k.(c_dim1) - 1 else 15.

(** Showing the recalled command and moving on. *)
Lemma show_recalled s d cmd tl :
  con_ok s.(con) -> LkCons ∉ s.(held) -> s.(con).(c_curr) = Z.of_nat d ->
  s.(con).(c_prev) !! d = Some (cmd ++ 0 :: tl) -> 0 ∉ cmd ->
  exists k, (if negb (s.(con).(c_curr) =? 0) then
      let* cmd := prev_string s.(con).(c_curr) in
      cprintf (str "%s") [AStr (Some cmd)] ;;; mod_con (set_c_curr (s.(con).(c_curr) - 1))
    else
      let* cmd := prev_string 0 in
      cprintf (str "%s") [AStr (Some cmd)] ;;;
      mod_con (set_c_curr (if s.(con).(c_inserted) <? 16 then s.(con).(c_dim1) - 1 else 15))) s
    = Ok tt (set_con (set_c_curr (before s.(con)) k) s) /\ shown (serial cmd) s.(con) k.
Proof.
  intros Hk Hl Hc Hrow H0. pose proof (prev_string_run s d cmd tl Hrow H0) as Ep.
  destruct (cprintf_ok (str "%s") [AStr (Some cmd)] cmd s) as (k & E & Hs); [cbn; by rewrite app_nil_r|done|done|].
  exists k. split; [|done]. unfold before. rewrite Hc. destruct (Z.eqb_spec (Z.of_nat d) 0) as [E0|E0]; cbn [negb].
  - rewrite E0 in Ep. rewrite (kbind_Ok _ _ _ _ _ Ep), (kbind_Ok _ _ _ _ _ E). unfold mod_con, kmod. by destruct s.
  - rewrite (kbind_Ok _ _ _ _ _ Ep), (kbind_Ok _ _ _ _ _ E). unfold mod_con, kmod. by destruct s.
Qed.

(** Up to the first NUL. *)
Lemma first_nul row : 0 ∈ row -> exists a b, row = a ++ 0 :: b /\ 0 ∉ a.
Proof.
  induction row as [|c row IH]; [by intros ?%elem_of_nil|]. destruct (decide (c = 0)) as [->|Hc].
  - intros _. exists [], row. split; [done|apply not_elem_of_nil].
  - intros [?|H]%elem_of_cons; [congruence|]. destruct (IH H) as (a & b & -> & Ha). exists (c :: a), b. split; [done|].
    rewrite not_elem_of_cons. by split.
Qed.

(** The key when [ind] characters of earlier rows have been recalled already. *)
Lemma history_key_run s p l pre cmd tl d :
  con_ok s.(con) -> inp s.(con) p l -> 10 ∉ l -> LkCons ∉ s.(held) ->
  s.(con).(c_inserted) <> 0 -> s.(con).(c_curr) = Z.of_nat d ->
  s.(con).(c_prev) !! d = Some (pre ++ cmd ++ 0 :: tl) -> Forall (fun c => 0 < c < 256) cmd ->
  (length cmd <= 100)%nat -> (length (p ++ cmd) <= 128)%nat ->
  exists k, history_key (Z.of_nat (length pre)) s = Ok (Z.of_nat (length (pre ++ cmd))) (set_con k s) /\ inp k p cmd /\ con_ok k /\
    k.(c_curr) = before s.(con) /\ k.(c_prev) = s.(con).(c_prev) /\
    k.(c_inserted) = s.(con).(c_inserted) /\ k.(c_dim1) = s.(con).(c_dim1).
Proof.
  intros Hk Hi Hn Hl Hins Hc Hrow Hcs Hlen Hroom. unfold history_key. unfold kget at 1, kbind at 1.
  rewrite (proj2 (Z.eqb_neq _ 0)) by exact Hins.
  destruct (kill_whole_run s p l Hk Hi Hn) as (k1 & E1 & Hk1 & Hi1 & Hs1). rewrite (kbind_Ok _ _ _ _ _ E1).
  destruct (recall_run cmd 101 (set_con k1 s) d pre tl p [] Hi1) as (k2 & E2 & Hi2 & Hk2 & Hs2);
    [exact Hroom|destruct Hs1 as (?&?&?&?&?); cbn; congruence|destruct Hs1 as (?&?&?&?&?); cbn; congruence|exact Hcs|lia|].
  rewrite (kbind_Ok _ _ _ _ _ E2). cbn [app length] in *.
  pose proof (same_hist_trans _ _ _ Hs1 Hs2) as (P & D & _ & Cu & I). cbn [con set_con] in *.
  unfold kget at 1, kbind at 1. cbn [con set_con]. replace (set_con k2 (set_con k1 s)) with (set_con k2 s) by by destruct s.
  destruct (first_nul (pre ++ cmd ++ 0 :: tl)) as (text & rest & Etext & H0); [rewrite !elem_of_app, elem_of_cons; auto|].
  destruct (show_recalled (set_con k2 s) d text rest) as (k3 & E3 & Hs3);
    [by apply Hk2|done|cbn; congruence|cbn; congruence|done|]. cbn [con set_con] in *.
  rewrite (kbind_Ok _ _ _ _ _ E3). exists (set_c_curr (before k2) k3). split; [by destruct s|].
  pose proof (shown_hist _ _ _ Hs3) as (P3 & D3 & _ & _ & I3). split_and!.
  - pose proof (inp_shown _ _ _ _ _ Hs3 Hi2) as [A1 A2 A3 A4 A5 A6]. by split.
  - exact (shown_ok _ _ _ Hs3 (Hk2 Hk1)).
  - cbn. unfold before. by rewrite Cu, I, D.
  - cbn in *. congruence.
  - cbn in *. congruence.
  - cbn in *. congruence.
Qed.

(** Tab and the up arrow. *)
Definition history_keys : list Z := [C 73; 226].

Lemma input_history_key `{KStack} key ind : key ∈ history_keys -> input_key key ind = history_key ind.
Proof. unfold history_keys. intros [->|[->|?%elem_of_nil]%elem_of_cons]%elem_of_cons; done. Qed.

(** ** Properties *)

(** The shell's side of a line: no end-of-file mark inside. *)
Definition plain_line (cmd : list Z) : Prop := Forall (fun c => 0 < c < 256 /\ c <> 10 /\ c <> C 68) cmd.

(** C31: A line that has been completed is read back whole: [consoleread] with
    room for it returns its length and its bytes, newline included, takes
    exactly them out of the buffer, leaves the console's inode locked as it was
    and records the command in the next row of the history, where it replaces
    what that row held and nothing else; after sixteen commands the first row
    is used again. *)
Theorem consoleread_line (s : kstate) (ip : nat) (i : inode) (n : Z) (cmd p l : list Z) :
  s.(icache) !! ip = Some i -> i.(i_flags) = LOCKED -> 0 < i.(i_ref) ->
  LkInput ∉ s.(held) -> LkIcache ∉ s.(held) -> LkPtable ∉ s.(held) ->
  inp s.(con) (cmd ++ 10 :: p) l -> plain_line cmd -> (length cmd < 100)%nat -> Z.of_nat (length cmd) < n < 2 ^ 31 ->
  hist_ok s.(con) -> s.(con).(c_dim2) = 0 -> 0 <= s.(con).(c_dim1) <= 16 -> cmd <> [] \/ s.(con).(c_dim1) < 16 ->
  exists s', consoleread ip n s = Ok (Z.of_nat (length cmd) + 1, cmd ++ [10]) s' /\
    inp s'.(con) p l /\ (con_ok s.(con) -> con_ok s'.(con)) /\ recorded s.(con) s'.(con) (next_row s.(con)) cmd /\
    s'.(icache) = s.(icache) /\ s'.(held) = s.(held).
Proof.
  intros Hi Hf Hr Hk1 Hk2 Hk3 Hin Hcs Hlen Hn Hh H2 H1 Hne. unfold consoleread.
  rewrite (kbind_Ok _ _ _ _ _ (iunlock_locked s ip i Hi Hf Hr Hk2 Hk3)).
  set (s1 := set_ptable _ _). rewrite (kbind_Ok _ _ _ _ _ (acquire_free LkInput s1 Hk1)).
  set (s2 := set_held (LkInput :: s1.(held)) s1). rewrite s32_small, u32_small by lia.
  destruct (read_any cmd (Z.to_nat n) ip n n s2 p l Hin Hcs Hlen ltac:(lia) ltac:(lia) Hh H2 H1 Hne) as (k & E & Hik & Hok & Hrec).
  rewrite E. unfold read_end. erewrite kbind_Ok by (apply (release_top LkInput s1.(held)); reflexivity).
  erewrite kbind_Ok.
  2:{ apply (ilock_unlocked _ ip (set_i_flags I_VALID i)); [|done|done|done].
      cbn. apply list_lookup_insert_eq. by eapply lookup_lt_Some. }
  eexists. split.
  { unfold kret. f_equal. rewrite s32_small by lia. f_equal. lia. }
  split; [exact Hik|]. split; [exact Hok|]. split; [exact Hrec|]. split; [|done].
  cbn. rewrite list_insert_insert_eq. apply list_insert_id. rewrite Hi. f_equal. destruct i; cbn in *. by subst.
Qed.


(** C40: A history key, tab or up arrow, recalls.  At any point of a burst of
    keys, with [pre ++ cmd] up to a NUL in the row [currCmd] points to, where
    [pre] is as long as what earlier history keys of the same burst have
    recalled: the line being edited is replaced by [cmd], what was ready to be
    read stays as it is, the next key goes one command further back, and the
    column stays behind [cmd].  So the first history key of an interrupt recalls
    the whole command. *)
Theorem history_recall `{KStack} (key : Z) (s : kstate) (p l pre cmd tl cs : list Z) (d : nat) :
  key ∈ history_keys ->
  con_ok s.(con) -> inp s.(con) p l -> 10 ∉ l -> LkInput ∉ s.(held) -> LkCons ∉ s.(held) ->
  s.(con).(c_inserted) <> 0 -> s.(con).(c_curr) = Z.of_nat d ->
  s.(con).(c_prev) !! d = Some (pre ++ cmd ++ 0 :: tl) -> Forall (fun c => 0 < c < 256) cmd ->
  (length cmd <= 100)%nat -> (length (p ++ cmd) <= 128)%nat ->
  let s1 := set_held (LkInput :: s.(held)) s in
  exists k, consoleintr_loop (key :: cs) (Z.of_nat (length pre)) s1
            = consoleintr_loop cs (Z.of_nat (length (pre ++ cmd))) (set_con k s1) /\
    (pre = [] -> consoleintr [key] s = Ok tt (set_con k s)) /\
    inp k p cmd /\ con_ok k /\ k.(c_curr) = before s.(con) /\ k.(c_prev) = s.(con).(c_prev) /\
    k.(c_inserted) = s.(con).(c_inserted) /\ k.(c_dim1) = s.(con).(c_dim1).
Proof.
  intros Hkey Hk Hi Hn Hl1 Hl2 Hins Hc Hrow Hcs Hlen Hroom s1.
  destruct (history_key_run s1 p l pre cmd tl d) as (k & E & Hrest); try done.
  { cbn. rewrite not_elem_of_cons. by split. }
  exists k. split; [cbn [consoleintr_loop]; by rewrite input_history_key, (kbind_Ok _ _ _ _ _ E)|]. split; [|exact Hrest].
  intros ->. unfold consoleintr. rewrite (kbind_Ok _ _ _ _ _ (acquire_free LkInput s Hl1)). cbn [consoleintr_loop].
  rewrite input_history_key by done. rewrite kbind_assoc. erewrite kbind_Ok by exact E. unfold kret at 1, kbind at 1.
  rewrite (release_top LkInput s.(held)) by reflexivity. by destruct s.
Qed.

(** A console whose user has typed [line] and return. *)
Definition typed_state (rows : Z) (line : list Z) : kstate :=
  set_icache [mk_inode 1 3 1 LOCKED 3 1 1 1 0 (replicate 13 0)]
    (set_con (set_c_dim1 rows (foldl (fun k c => set_c_w (u32 (k.(c_e) + 1)) (input_put c k)) bare_console (line ++ [10]))) bare_state).

Lemma typed_inp rows : inp (typed_state rows (str "ls")).(con) (str "ls" ++ [10]) [].
Proof.
  split; [reflexivity|split; [discriminate|reflexivity]|reflexivity|reflexivity|vm_compute; lia|].
  intros i c H. do 3 (destruct i as [|i]; [vm_compute in H; simplify_eq; reflexivity|]). done.
Qed.

Lemma consoleread_line_witness :
  exists s', consoleread 0 100 (typed_state 16 (str "ls")) = Ok (3, str "ls" ++ [10]) s' /\
    recorded (typed_state 16 (str "ls")).(con) s'.(con) 0 (str "ls").
Proof.
  destruct (consoleread_line (typed_state 16 (str "ls")) 0 (mk_inode 1 3 1 LOCKED 3 1 1 1 0 (replicate 13 0)) 100 (str "ls") [] [])
    as (s' & E & _ & _ & Hr & _).
  - reflexivity.
  - reflexivity.
  - reflexivity.
  - apply not_elem_of_nil.
  - apply not_elem_of_nil.
  - apply not_elem_of_nil.
  - apply typed_inp.
  - repeat (apply Forall_cons; split; [vm_compute; intuition congruence|]). apply Forall_nil. exact I.
  - vm_compute. lia.
  - cbn. lia.
  - split; [reflexivity|]. cbn [typed_state con set_icache set_con c_prev set_c_dim1]. vm_compute. repeat constructor.
  - reflexivity.
  - cbn. lia.
  - left. discriminate.
  - exists s'. split; [exact E|exact Hr].
Defined.

(** A state in which "ls" has been read, with "c" on the line now. *)
Definition recall_state : kstate :=
  let k := set_c_inserted 1 (set_c_dim1 1 (set_c_prev (<[0%nat := str "ls" ++ replicate 98 0]> bare_console.(c_prev)) bare_console)) in
  set_con (input_put 99 k) bare_state.

Lemma recall_state_inp : con_ok recall_state.(con) /\ inp recall_state.(con) [] [99].
Proof.
  split; [vm_compute; intuition congruence|].
  split; [reflexivity|split; [discriminate|reflexivity]|reflexivity|reflexivity|vm_compute; lia|].
  intros i c H. destruct i as [|i]; [vm_compute in H; simplify_eq; reflexivity|done].
Qed.

Lemma history_recall_witness :
  exists s', @consoleintr (Build_KStack (fun _ => [])) [226] recall_state = Ok tt s' /\ inp s'.(con) [] (str "ls").
Proof.
  destruct (@history_recall (Build_KStack (fun _ => [])) 226 recall_state [] [99] [] (str "ls") (replicate 97 0) [] 0) as (k & _ & E & Hi & _).
  - right. left.
  - apply recall_state_inp.
  - apply recall_state_inp.
  - rewrite list_elem_of_singleton. discriminate.
  - apply not_elem_of_nil.
  - apply not_elem_of_nil.
  - discriminate.
  - reflexivity.
  - reflexivity.
  - repeat (apply Forall_cons; split; [vm_compute; intuition congruence|]). apply Forall_nil. exact I.
  - vm_compute. lia.
  - vm_compute. lia.
  - exists (set_con k recall_state). split; [exact (E eq_refl)|exact Hi].
Defined.

(** The column is not put back to the start of the row between the keys of one
    interrupt: when "ls" is the only command recorded, two history keys that
    come together leave an empty line. *)
Theorem second_key_loses_line :
  exists k, @consoleintr (Build_KStack (fun _ => [])) [C 73; C 73] recall_state = Ok tt (set_con k recall_state) /\ inp k [] [].
Proof.
  destruct recall_state_inp as [Hk Hi]. set (s1 := set_held [LkInput] recall_state).
  destruct (history_key_run s1 [] [99] [] (str "ls") (replicate 97 0) 0) as (k1 & E1 & Hi1 & Hk1 & C1 & P1 & I1 & D1);
    [exact Hk|exact Hi|rewrite list_elem_of_singleton; discriminate|cbn; set_solver|done|reflexivity|reflexivity| |vm_compute; lia..|].
  { repeat (apply Forall_cons; split; [vm_compute; intuition congruence|]). by apply Forall_nil. }
  destruct (history_key_run (set_con k1 s1) [] (str "ls") (str "ls") [] (replicate 97 0) 0) as (k2 & E2 & Hi2 & _);
    [exact Hk1|exact Hi1| |cbn; set_solver|cbn; rewrite I1; done|cbn; rewrite C1; reflexivity|cbn; rewrite P1; reflexivity|by apply Forall_nil|vm_compute; lia..|].
  { rewrite list_elem_of_In. vm_compute. intuition congruence. }
  exists k2. split; [|exact Hi2]. unfold consoleintr.
  rewrite (kbind_Ok _ _ _ _ _ (acquire_free LkInput recall_state (not_elem_of_nil _))). cbn [consoleintr_loop].
  rewrite !input_history_key by left. rewrite !kbind_assoc. erewrite kbind_Ok by exact E1.
  rewrite input_history_key by left. rewrite !kbind_assoc. erewrite kbind_Ok by exact E2. reflexivity.
Qed.

Lemma prev_at_outside k i j : hist_ok k -> 16 <= i \/ 100 <= j -> prev_at k i j = None.
Proof.
  intros [Hl Hr] Ho. unfold prev_at. destruct (_ && _) eqn:Eb; [|done]. apply andb_prop in Eb as [Ei Ej].
  apply Z.leb_le in Ei, Ej. destruct (k.(c_prev) !! Z.to_nat i) as [row|] eqn:E; [|done].
  pose proof (lookup_lt_Some _ _ _ E). rewrite Forall_lookup in Hr. specialize (Hr _ _ E). cbn in Hr.
  apply lookup_ge_None. lia.
Qed.

(** The history's array is left in two ways.  Its row index is put back to
    the first row only when an ordinary character comes, so an empty line after
    sixteen commands is recorded in a seventeenth row, and a character is
    stored at the column reached so far, however long the line.  The store is
    the fault. *)
Theorem history_overflow (s : kstate) (ip : nat) (f : nat) (c target n : Z) (dst p l : list Z) :
  inp s.(con) (c :: p) l -> 0 < n -> hist_ok s.(con) ->
  (c = 10 /\ s.(con).(c_dim1) = 16) \/ (c <> 10 /\ c <> C 68 /\ s.(con).(c_dim2) = 100) ->
  consoleread_from (S f) ip target n dst s = Fault "prevCmds".
Proof.
  intros Hi Hn Hh Hcase. destruct (inp_take _ _ _ _ Hi) as (E1 & E2 & _). cbn [consoleread_from].
  rewrite Z.gtb_ltb, (proj2 (Z.ltb_lt _ _)) by lia. unfold kget at 1, kbind at 1. rewrite (proj2 (Z.eqb_neq _ _) E2), E1.
  unfold mod_con. unfold kmod at 1, kbind at 1. unfold kget at 1, kbind at 1. cbn [con set_con].
  set (k := set_c_r _ _). assert (history_put c k = None) as ->; [|done]. unfold history_put.
  destruct Hcase as [[-> H16]|(H1 & H2 & H100)].
  - rewrite Z.eqb_refl, andb_false_r. unfold prev_put. by rewrite (prev_at_outside k _ _ Hh) by (cbn; lia).
  - rewrite (proj2 (Z.eqb_neq c (C 68))), (proj2 (Z.eqb_neq c 10)) by done. cbn [negb andb].
    unfold prev_put. destruct (_ >=? _).
    + by rewrite (prev_at_outside (set_c_dim1 0 k) _ _ Hh) by (cbn; lia).
    + by rewrite (prev_at_outside k _ _ Hh) by (cbn; lia).
Qed.

Lemma history_overflow_witness :
  consoleread_from 1 0 100 100 [] (set_con (set_c_dim1 16 (set_c_w 1 (input_put 10 bare_console))) bare_state) = Fault "prevCmds".
Proof.
  apply (history_overflow (set_con (set_c_dim1 16 (set_c_w 1 (input_put 10 bare_console))) bare_state) 0 0 10 100 100 [] [] []).
  - split; [reflexivity|split; [discriminate|reflexivity]|reflexivity|reflexivity|vm_compute; lia|].
    intros i c H. destruct i as [|i]; [vm_compute in H; simplify_eq; reflexivity|done].
  - lia.
  - split; [reflexivity|]. vm_compute. repeat constructor.
  - left. split; reflexivity.
Defined.
