(* ===== verification/Syscall.v ===== *)
(** System call arguments: fetchint, fetchstr, argint, argptr and argstr of
    syscall.c.

    A process passes arguments on its stack; the kernel checks every address
    against the size of the process before it dereferences it.  [None] is the
    return value -1.  A string argument is returned with its address: it
    cannot change while the kernel uses it. *)

From S2P Require Import Prelude CString State Kalloc ProcSync Console Bytes Vm Uvm.

Definition fetchint (p : proc) (addr : Z) : K (option Z) :=
  if (addr >=? p.(p_sz)) || (u32 (addr + 4) >? p.(p_sz)) then kret None
  else let* v := ld32 addr in kret (Some (s32 v)).

(** The scan for the terminating NUL, from [s] up to [ep]. *)
Fixpoint fetchstr_loop (fuel : nat) (s : Z) (acc : list Z) : K (option (list Z)) :=
  match fuel with
  | O => kret None
  | S f =>
      let* b := ld8 s in
      if b =? 0 then kret (Some acc) else fetchstr_loop f (s + 1) (acc ++ [b])
  end.

(** The string's address and bytes; the C function returns their number. *)
Definition fetchstr (p : proc) (addr : Z) : K (option (Z * list Z)) :=
  if addr >=? p.(p_sz) then kret None
  else
    let* o := fetchstr_loop (Z.to_nat (p.(p_sz) - addr)) addr [] in
    kret (match o with Some l => Some (addr, l) | None => None end).

(** The calling process. *)
Definition cur : K proc := let* me := myproc in get_proc me.

Definition argint (n : Z) : K (option Z) :=
  let* p := cur in
  fetchint p (u32 (p.(p_tf).(tf_esp) + 4 + 4 * n)).

Definition argptr (n size : Z) : K (option Z) :=
  let* o := argint n in
  match o with
  | None => kret None
  | Some i =>
      let* p := cur in
      if (u32 i >=? p.(p_sz)) || (u32 (u32 i + size) >=? p.(p_sz)) then kret None
      else kret (Some (u32 i))
  end.

Definition argstr (n : Z) : K (option (Z * list Z)) :=
  let* o := argint n in
  match o with
  | None => kret None
  | Some addr => let* p := cur in fetchstr p (u32 addr)
  end.

(** ** The process's memory as the kernel reads it *)

(** The current process runs on its own page table: its address space is [U],
    its size [sz]. *)
Definition user_mode (s : kstate) (p : proc) (T U : gmap Z Z) (l : list Z) : Prop :=
  (exists me, s.(curproc) = Some me /\ s.(ptable) !! me = Some p) /\
  s.(cr3) = p.(p_pgdir) /\ uvm s p.(p_pgdir) T U l p.(p_sz).

Section access.
Context (s : kstate) (p : proc) (T U : gmap Z Z) (l : list Z).
Context (Hum : user_mode s p T U l).

Lemma user_size : 0 <= p.(p_sz) <= USERTOP.
Proof. apply Hum. Qed.

(** Below the size every access is mapped. *)
Lemma mmu_user va :
  0 <= va < p.(p_sz) ->
  exists v, U !! (va / PGSIZE) = Some v /\ mmu va s = Ok (v + va mod PGSIZE) s.
Proof.
  intros Hva. destruct Hum as (_ & Hcr & (Ha & Hsz & Hdom)).
  pose proof (below_size _ _ Hva) as Hpg. destruct (proj2 (Hdom _) Hpg) as [v Hv].
  exists v. split; [done|]. pose proof (as_map _ _ _ _ _ Ha va ltac:(lia)) as He. rewrite Hv in He. simpl in He.
  assert (exists t, T !! 0 = Some t) as [t Ht] by (by apply elem_of_dom; apply Ha).
  assert (PDX va = 0) as HP by (apply user_PDX; lia).
  pose proof (pde_lookup p.(p_pgdir) s T va (vm_pt _ _ _ _ (as_inv _ _ _ _ _ Ha))) as Hd.
  rewrite HP, Ht in Hd. destruct Hd as [Hd1 Hd2].
  unfold entry in He. rewrite HP, Ht in He.
  unfold mmu, peek, kget, kbind. rewrite Hcr, HP, (proj2 (Z.eqb_neq _ 0) Hd2), Hd1, He.
  unfold upte at 1. rewrite (proj2 (Z.eqb_neq _ 0) (mk_pte_present _ _)). unfold kret. do 2 f_equal.
  destruct (as_pages _ _ _ _ _ Ha _ v Hv) as (_ & [Hv1 Hv2] & _).
  apply mk_pte_addr; [unfold PHYSTOP in *; lia|done|exact uperm_ok].
Qed.

Lemma ld8_user va : 0 <= va < p.(p_sz) -> ld8 va s = Ok (user_byte s.(pmem) U va) s.
Proof.
  intros Hva. pose proof user_size as Hsz. unfold ld8. rewrite Z.geb_leb, (proj2 (Z.leb_gt _ _)) by lia.
  destruct (mmu_user va Hva) as (v & Hv & E). rewrite (kbind_Ok _ _ _ _ _ E).
  unfold kget. by rewrite (user_byte_at _ U va v Hv).
Qed.

(** The [n] bytes at [va]. *)
Definition user_bytes (va : Z) (n : nat) : list Z := (fun i => user_byte s.(pmem) U (va + Z.of_nat i)) <$> seq 0 n.

Lemma user_bytes_S va n : user_bytes va (S n) = user_byte s.(pmem) U va :: user_bytes (va + 1) n.
Proof.
  unfold user_bytes. cbn [seq]. rewrite fmap_cons, Z.add_0_r. f_equal.
  rewrite <- fmap_S_seq, <- list_fmap_compose. apply list_fmap_ext. intros i x _. simpl. f_equal. lia.
Qed.

Lemma ld_bytes_user n va :
  0 <= va -> va + Z.of_nat n <= p.(p_sz) -> ld_bytes n va s = Ok (user_bytes va n) s.
Proof.
  revert va. induction n as [|n IH]; intros va H0 H1; [done|].
  cbn [ld_bytes]. rewrite (kbind_Ok _ _ _ _ _ (ld8_user va ltac:(lia))).
  rewrite (kbind_Ok _ _ _ _ _ (IH (va + 1) ltac:(lia) ltac:(lia))). by rewrite user_bytes_S.
Qed.

Lemma fetchint_run addr :
  0 <= addr < 2 ^ 32 ->
  fetchint p addr s
  = Ok (if decide (addr + 4 <= p.(p_sz)) then Some (s32 (le_val (user_bytes addr 4))) else None) s.
Proof.
  intros Ha. pose proof user_size as Hsz. unfold USERTOP in Hsz. unfold fetchint. rewrite Z.geb_leb, Z.gtb_ltb.
  destruct (Z.leb_spec p.(p_sz) addr) as [H1|H1]; [by rewrite decide_False by lia|].
  rewrite u32_small by lia. destruct (Z.ltb_spec p.(p_sz) (addr + 4)); [by rewrite decide_False by lia|].
  rewrite decide_True by lia. cbn [orb]. unfold ld32. rewrite kbind_assoc.
  rewrite (kbind_Ok _ _ _ _ _ (ld_bytes_user 4 addr ltac:(lia) ltac:(lia))). done.
Qed.

Lemma cur_run : cur s = Ok p s.
Proof. destruct Hum as ((me & Hc & Hp) & _). unfold cur, myproc, kbind. rewrite Hc. by apply get_proc_Ok. Qed.

Lemma argint_run n :
  let addr := u32 (p.(p_tf).(tf_esp) + 4 + 4 * n) in
  argint n s = Ok (if decide (addr + 4 <= p.(p_sz)) then Some (s32 (le_val (user_bytes addr 4))) else None) s.
Proof.
  intros addr. unfold argint. rewrite (kbind_Ok _ _ _ _ _ cur_run). apply fetchint_run, u32_range.
Qed.
(** The string at [va] if there is a NUL among the next [n] bytes. *)
Definition string_at (va : Z) (n : nat) : option (list Z) :=
  match list_find (fun b => b = 0) (user_bytes va n) with
  | Some (k, _) => Some (take k (user_bytes va n))
  | None => None
  end.

Lemma string_at_S va n :
  string_at va (S n) = if decide (user_byte s.(pmem) U va = 0) then Some []
                       else (fun l => user_byte s.(pmem) U va :: l) <$> string_at (va + 1) n.
Proof.
  unfold string_at. rewrite user_bytes_S. simpl. destruct (decide _); [done|].
  by destruct (list_find _ _) as [[k x]|].
Qed.

Lemma fetchstr_loop_run n va acc :
  0 <= va -> va + Z.of_nat n <= p.(p_sz) ->
  fetchstr_loop n va acc s = Ok (app acc <$> string_at va n) s.
Proof.
  revert va acc. induction n as [|n IH]; intros va acc H0 H1; [done|].
  cbn [fetchstr_loop]. rewrite (kbind_Ok _ _ _ _ _ (ld8_user va ltac:(lia))). rewrite string_at_S.
  destruct (Z.eqb_spec (user_byte s.(pmem) U va) 0) as [E|E].
  - rewrite decide_True by done. unfold kret. simpl. by rewrite app_nil_r.
  - rewrite decide_False by done. rewrite IH by lia. destruct (string_at (va + 1) n) as [l'|]; [|done].
    simpl. by rewrite <- app_assoc.
Qed.

Lemma fetchstr_run addr :
  0 <= addr ->
  fetchstr p addr s
  = Ok (pair addr <$> string_at addr (Z.to_nat (p.(p_sz) - addr))) s.
Proof.
  intros Ha. unfold fetchstr. rewrite Z.geb_leb. destruct (Z.leb_spec p.(p_sz) addr).
  - by replace (Z.to_nat (p.(p_sz) - addr)) with 0%nat by lia.
  - rewrite (kbind_Ok _ _ _ _ _ (fetchstr_loop_run (Z.to_nat (p.(p_sz) - addr)) addr [] ltac:(lia) ltac:(lia))).
    by destruct (string_at _ _).
Qed.

Lemma argptr_run n size :
  argptr n size s
  = Ok (match (let addr := u32 (p.(p_tf).(tf_esp) + 4 + 4 * n) in
               if decide (addr + 4 <= p.(p_sz)) then Some (s32 (le_val (user_bytes addr 4))) else None) with
        | Some i => if (u32 i >=? p.(p_sz)) || (u32 (u32 i + size) >=? p.(p_sz)) then None else Some (u32 i)
        | None => None
        end) s.
Proof.
  unfold argptr. rewrite (kbind_Ok _ _ _ _ _ (argint_run n)). cbv zeta. destruct (decide _); [|done].
  rewrite (kbind_Ok _ _ _ _ _ cur_run). by destruct (_ || _).
Qed.

Lemma string_at_bytes va n str :
  string_at va n = Some str -> user_bytes va (S (length str)) = str ++ [0] /\ 0 ∉ str /\ (length str < n)%nat.
Proof.
  revert va str. induction n as [|n IH]; intros va str; [done|]. rewrite string_at_S.
  destruct (decide _) as [E|E].
  - intros [= <-]. rewrite user_bytes_S, E. split_and!; [done|apply not_elem_of_nil|simpl; lia].
  - intros (l' & Hl & ->)%fmap_Some. destruct (IH _ _ Hl) as (H1 & H2 & H3). cbn [length].
    rewrite user_bytes_S, H1. split_and!; [done|by rewrite not_elem_of_cons|lia].
Qed.
Lemma string_at_none va n w :
  string_at va n = None -> va <= w < va + Z.of_nat n -> user_byte s.(pmem) U w <> 0.
Proof.
  revert va. induction n as [|n IH]; intros va; [lia|]. rewrite string_at_S. destruct (decide _) as [E|E]; [done|].
  intros Hn%fmap_None Hw. destruct (decide (w = va)) as [->|]; [done|]. apply (IH (va + 1)); [done|lia].
Qed.

(** The word of argument [n]: the caller's stack holds the return address, then
    the arguments. *)
Definition arg_word (n : Z) : option Z :=
  let addr := u32 (p.(p_tf).(tf_esp) + 4 + 4 * n) in
  if decide (addr + 4 <= p.(p_sz)) then Some (u32 (le_val (user_bytes addr 4))) else None.

Lemma argint_word n : argint n s = Ok (s32 <$> arg_word n) s.
Proof.
  rewrite argint_run. cbv zeta. unfold arg_word. destruct (decide _); [|done]. cbn. by rewrite s32_u32.
Qed.

Lemma argptr_word n size :
  argptr n size s = Ok (match arg_word n with
                        | Some a => if (a >=? p.(p_sz)) || (u32 (a + size) >=? p.(p_sz)) then None else Some a
                        | None => None
                        end) s.
Proof. rewrite argptr_run. cbv zeta. unfold arg_word. destruct (decide _); [|done]. by rewrite u32_s32. Qed.

Lemma argstr_word n :
  argstr n s = Ok (match arg_word n with
                   | Some a => pair a <$> string_at a (Z.to_nat (p.(p_sz) - a))
                   | None => None
                   end) s.
Proof.
  unfold argstr. rewrite (kbind_Ok _ _ _ _ _ (argint_word n)). destruct (arg_word n) as [a|] eqn:E; [|done].
  cbn. rewrite (kbind_Ok _ _ _ _ _ cur_run), u32_s32.
  unfold arg_word in E. destruct (decide _); [|done]. injection E as <-. rewrite u32_idemp. apply fetchstr_run, u32_range.
Qed.
End access.

(** A store by the kernel at a user address below the size: the process sees
    the byte, and nothing else changes. *)
Lemma st8_user s p T U l va b :
  user_mode s p T U l -> 0 <= va < p.(p_sz) ->
  exists m, st8 va b s = Ok tt (set_pmem m s) /\ user_mode (set_pmem m s) p T U l /\
    forall w, user_byte m U w = if decide (w = va) then u8 b else user_byte s.(pmem) U w.
Proof.
  intros Hum Hva. pose proof (user_size _ _ _ _ _ Hum) as Hsz.
  destruct (mmu_user _ _ _ _ _ Hum va Hva) as (v & Hv & E). pose proof Hum as (Hme & Hcr & (Ha & Hs & Hdom)).
  destruct (as_pages _ _ _ _ _ Ha _ v Hv) as (_ & Hp & Hvl & Hvo).
  pose proof (Z.mod_pos_bound va PGSIZE ltac:(reflexivity)) as Hm.
  set (m := store8 (v + va mod PGSIZE) b s.(pmem)). exists m.
  assert (untouched (eq v) s.(pmem) m) as Hu.
  { intros w a Hw Hne Hb. unfold m. rewrite load8_store8. destruct (Z.eqb_spec (v + va mod PGSIZE) a) as [Ev|]; [|done].
    exfalso. destruct (page_ok_disjoint v w Hp Hw Hne); lia. }
  split; [|split].
  - unfold st8. rewrite Z.geb_leb, (proj2 (Z.leb_gt _ _)) by lia. by rewrite (kbind_Ok _ _ _ _ _ E).
  - split; [exact Hme|]. split; [exact Hcr|]. split; [|split; [exact Hs|exact Hdom]].
    apply (aspace_untouched (eq v)); try done; congruence.
  - intros w. unfold user_byte at 1. destruct (decide (w = va)) as [->|Hne].
    + rewrite Hv. unfold m. by rewrite load8_store8, Z.eqb_refl.
    + unfold user_byte. destruct (U !! (w / PGSIZE)) as [v'|] eqn:Hv'; [|done]. unfold m. rewrite load8_store8.
      destruct (Z.eqb_spec (v + va mod PGSIZE) (v' + w mod PGSIZE)) as [Ev|]; [|done]. exfalso. apply Hne.
      destruct (as_pages _ _ _ _ _ Ha _ v' Hv') as (_ & Hp' & _).
      pose proof (Z.mod_pos_bound w PGSIZE ltac:(reflexivity)).
      assert (v' = v) as -> by (destruct (decide (v' = v)); [done|]; destruct (page_ok_disjoint v' v); auto; lia).
      pose proof (as_inj _ _ _ _ _ Ha _ _ _ Hv Hv') as Hi.
      rewrite (Z.div_mod w PGSIZE), (Z.div_mod va PGSIZE) by done. lia.
Qed.

Lemma st_bytes_user s p T U l va bs :
  user_mode s p T U l -> 0 <= va -> va + Z.of_nat (length bs) <= p.(p_sz) ->
  exists m, st_bytes va bs s = Ok tt (set_pmem m s) /\ user_mode (set_pmem m s) p T U l /\
    forall w, user_byte m U w
      = if decide (va <= w < va + Z.of_nat (length bs)) then u8 (bs !!! Z.to_nat (w - va)) else user_byte s.(pmem) U w.
Proof.
  revert s va. induction bs as [|b bs IH]; intros s va Hum H0 H1.
  - exists s.(pmem). assert (set_pmem s.(pmem) s = s) as -> by by destruct s. split_and!; [done|done|].
    intros w. rewrite decide_False by (simpl; lia). done.
  - cbn [length] in H1. destruct (st8_user s p T U l va b Hum) as (m & E & Hum' & Hb); [lia|].
    destruct (IH _ (va + 1) Hum') as (m' & E' & Hum'' & Hb'); [lia|lia|]. exists m'.
    cbn [st_bytes]. rewrite (kbind_Ok _ _ _ _ _ E), E'. split; [done|]. split; [exact Hum''|].
    intros w. rewrite Hb'. cbn [length set_pmem pmem]. rewrite Hb.
    destruct (decide (w = va)) as [->|Hne].
    + rewrite decide_False, decide_True by lia. by replace (Z.to_nat (va - va)) with 0%nat by lia.
    + case_decide; case_decide; try lia; try done.
      replace (Z.to_nat (w - va)) with (S (Z.to_nat (w - (va + 1)))) by lia. done.
Qed.

(** ** Properties *)

(** A process of one page that runs: a concrete [user_mode]. *)
Lemma sample_user : exists s p T U l, user_mode s p T U l /\ p.(p_sz) = PGSIZE /\ p.(p_tf).(tf_esp) = 4000.
Proof.
  destruct sample_space as (s & d & T & U & l & Hu & _).
  set (p := set_p_tf (set_tf_esp 4000 zero_tf) (set_p_sz PGSIZE (set_p_pgdir d unused_proc))).
  exists (set_cr3 d (set_curproc (Some 0%nat) (set_ptable [p] s))), p, T, U, l.
  split; [|split; reflexivity]. split; [by exists 0%nat|]. split; [done|].
  destruct Hu as ([[H1 H2 H3 H4] ? ? ? ? ?] & Hs & Hd). split; [|split; [exact Hs|exact Hd]].
  split; try assumption. split; assumption.
Qed.

(** C20: Fetching system call arguments returns what the process left on its
    stack, and is safe whatever that is: the kernel reads only addresses below
    the process's size, never faults and changes nothing.  The integer argument
    is the word above the return address, refused when the word is not below the
    size.  A pointer to a block is that word, accepted exactly when the block of
    [size >= 0] bytes ends before the size (for any other [size] the pointer
    itself still lies below the size).  A string is the bytes at that word up to
    the first NUL, refused only if there is none below the size. *)
Theorem syscall_args_safe (s : kstate) (p : proc) (T U : gmap Z Z) (l : list Z) (n size : Z) :
  user_mode s p T U l ->
  argint n s = Ok (s32 <$> arg_word s p U n) s /\
  (exists o, argptr n size s = Ok o s /\
     (0 <= size < 2 ^ 31 ->
      o = match arg_word s p U n with
          | Some a => if decide (a + size < p.(p_sz)) then Some a else None
          | None => None
          end) /\
     forall a, o = Some a -> arg_word s p U n = Some a /\ 0 <= a < p.(p_sz)) /\
  match arg_word s p U n with
  | None => argstr n s = Ok None s
  | Some a =>
      (exists str, argstr n s = Ok (Some (a, str)) s /\ 0 ∉ str /\ a + Z.of_nat (length str) < p.(p_sz) /\
         user_bytes s U a (S (length str)) = str ++ [0]) \/
      (argstr n s = Ok None s /\ forall va, a <= va < p.(p_sz) -> user_byte s.(pmem) U va <> 0)
  end.
Proof.
  intros Hum. pose proof (user_size _ _ _ _ _ Hum) as Hsz. unfold USERTOP in Hsz.
  assert (forall a, arg_word s p U n = Some a -> 0 <= a < 2 ^ 32) as Hw.
  { unfold arg_word. intros a. case_decide; [|done]. intros [= <-]. apply u32_range. }
  split; [by eapply argint_word|]. split.
  - eexists. split; [by eapply argptr_word|]. destruct (arg_word s p U n) as [a|]; [|done]. specialize (Hw a eq_refl).
    rewrite !Z.geb_leb. destruct (Z.leb_spec p.(p_sz) a); cbn [orb].
    + split; [|done]. intros ?. by rewrite decide_False by lia.
    + split; [|intros a0; destruct (_ <=? _); [done|]; intros [= <-]; split; [done|lia]]. intros ?. rewrite u32_small by lia.
      destruct (Z.leb_spec p.(p_sz) (a + size)); [by rewrite decide_False by lia|by rewrite decide_True by lia].
  - pose proof (argstr_word s p T U l Hum n) as E. destruct (arg_word s p U n) as [a|]; [|done].
    specialize (Hw a eq_refl). destruct (string_at _ _ a _) as [str|] eqn:Es.
    + left. exists str. split; [done|]. destruct (string_at_bytes s U _ _ _ Es) as (H1 & H2 & H3). split_and!; [done|lia|done].
    + right. split; [done|]. intros va Hva. eapply string_at_none; [done|lia].
Qed.

(** Argument 0 is the word at esp + 4. *)
Lemma syscall_args_safe_witness : exists s p U, argint 0 s = Ok (Some (s32 (u32 (le_val (user_bytes s U 4004 4))))) s /\
  p.(p_sz) = PGSIZE.
Proof.
  destruct sample_user as (s & p & T & U & l & Hum & Hsz & Hesp). exists s, p, U. split; [|exact Hsz].
  destruct (syscall_args_safe s p T U l 0 0 Hum) as (E & _). rewrite E. unfold arg_word. rewrite Hesp, Hsz. reflexivity.
Defined.

(** The pointer check treats its bounds inconsistently: a block that ends
    exactly at the end of the process is refused although every byte of it
    belongs to the process, and a negative size is accepted for every pointer
    it does not move below zero, so that nothing is checked beyond the first
    byte. *)
Theorem argptr_bounds (s : kstate) (p : proc) (T U : gmap Z Z) (l : list Z) (n i : Z) :
  user_mode s p T U l -> argint n s = Ok (Some i) s -> 0 < u32 i < p.(p_sz) ->
  argptr n (p.(p_sz) - u32 i) s = Ok None s /\ argptr n (-1) s = Ok (Some (u32 i)) s.
Proof.
  intros Hum Ei Hi. pose proof (user_size _ _ _ _ _ Hum) as Hsz. unfold USERTOP in Hsz.
  unfold argptr. rewrite !(kbind_Ok _ _ _ _ _ Ei), !(kbind_Ok _ _ _ _ _ (cur_run s p T U l Hum)).
  rewrite !Z.geb_leb, !(proj2 (Z.leb_gt p.(p_sz) (u32 i))) by lia. cbn [orb].
  rewrite (u32_small (u32 i + _)), (u32_small (u32 i + -1)) by lia.
  rewrite (proj2 (Z.leb_le _ _)), (proj2 (Z.leb_gt _ _)) by lia. done.
Qed.

Lemma argptr_bounds_witness :
  exists s p i, 0 < u32 i < p.(p_sz) /\ argptr 0 (p.(p_sz) - u32 i) s = Ok None s /\ argptr 0 (-1) s = Ok (Some (u32 i)) s.
Proof.
  destruct sample_user as (s & p & T & U & l & Hum & Hsz & Hesp).
  destruct (st_bytes_user s p T U l 4004 [1; 0; 0; 0] Hum) as (m & _ & Hum' & Hb); [lia|rewrite Hsz; cbn [length]; unfold PGSIZE; lia|].
  exists (set_pmem m s), p, 1. change (u32 1) with 1. split; [rewrite Hsz; zconst|].
  pose proof (argint_run _ p T U l Hum' 0) as E. cbv zeta in E. rewrite Hesp, Hsz in E.
  assert (user_bytes (set_pmem m s) U (u32 (4000 + 4 + 4 * 0)) 4 = [1; 0; 0; 0]) as E1.
  { change (u32 (4000 + 4 + 4 * 0)) with 4004. rewrite !user_bytes_S. cbn [set_pmem pmem]. rewrite !Hb. reflexivity. }
  rewrite E1 in E. apply (argptr_bounds _ p T U l 0 1 Hum' E). rewrite Hsz. change (u32 1) with 1. zconst.
Defined.
