(* ===== verification/Exec.v ===== *)
(** exec (exec.c, elf.h): replace the image of the calling process by a program
    of the file system. *)

From S2P Require Import Prelude CString State Kalloc ProcSync Bytes Inode Dir Vm Proc Syscall.

Definition ELF_MAGIC : Z := 0x464C457F.
Definition ELF_PROG_LOAD : Z := 1.
Definition ELFSZ : Z := 52.
Definition PHSZ : Z := 32.

(** The fields of [struct elfhdr] and [struct proghdr] that exec uses. *)
Record elfhdr := mk_elfhdr { elf_magic : Z; elf_entry : Z; elf_phoff : Z; elf_phnum : Z }.
Record proghdr := mk_proghdr { ph_type : Z; ph_offset : Z; ph_va : Z; ph_filesz : Z; ph_memsz : Z }.

Definition get_elfhdr (l : list Z) : elfhdr :=
  mk_elfhdr (get32 0 l) (get32 24 l) (get32 28 l) (get16 44 l).
Definition get_proghdr (l : list Z) : proghdr :=
  mk_proghdr (get32 0 l) (get32 4 l) (get32 8 l) (get32 16 l) (get32 20 l).

Section exec.
Context `{Devsw}.

(** The loop that loads the segments; [None] is the jump to [bad].  The fuel is
    the number of headers left. *)
Fixpoint exec_load (fuel : nat) (ip : nat) (off : Z) (pgdir sz : Z) : K (option Z) :=
  match fuel with
  | O => kret (Some sz)
  | S f =>
      let* r := readi ip (u32 off) PHSZ in
      if negb (r.1 =? PHSZ) then kret None else
      let ph := get_proghdr r.2 in
      if negb (ph.(ph_type) =? ELF_PROG_LOAD) then exec_load f ip (s32 (off + PHSZ)) pgdir sz else
      if ph.(ph_memsz) <? ph.(ph_filesz) then kret None else
      let* sz := allocuvm pgdir sz (u32 (ph.(ph_va) + ph.(ph_memsz))) in
      if sz =? 0 then kret None else
      let* ok := loaduvm pgdir ph.(ph_va) ip ph.(ph_offset) ph.(ph_filesz) in
      if negb ok then kret None else exec_load f ip (s32 (off + PHSZ)) pgdir sz
  end.

(** Stores into the stack page at [mem]; the page is all exec may write to. *)
Definition page_put (mem off : Z) (l : list Z) : K unit :=
  if (mem =? 0) || (off <? 0) || (PGSIZE <? off + Z.of_nat (length l))
  then kfault "outside the stack page"
  else kmod (fun s => set_pmem (put_bytes (mem + off) l s.(pmem)) s).
Definition page_poke (mem off v : Z) : K unit := page_put mem off (le_bytes 4 (u32 v)).

(** [strlen(argv[i]) + 1], summed over the arguments. *)
Definition arg_bytes (argv : list (list Z)) : Z :=
  foldr (fun a n => Z.of_nat (length a) + 1 + n) 0 argv.

(** [(arglen+3) & ~3]. *)
Definition round4 (n : Z) : Z := Z.land (n + 3) (Z.lnot 3).

(** Copy the strings, last argument first, and their addresses; the arguments
    come in reverse order. *)
Fixpoint push_args (rargs : list (list Z)) (mem sp spbottom argp : Z) : K unit :=
  match rargs with
  | [] => kret tt
  | a :: r =>
      let sp := u32 (sp - (Z.of_nat (length a) + 1)) in
      page_put mem (sp - spbottom) (a ++ [0]) ;;;
      page_poke mem (argp - spbottom + 4 * Z.of_nat (length r)) sp ;;;
      push_args r mem sp spbottom argp
  end.

(** What follows the last '/' of the path. *)
Fixpoint base_name (last s : list Z) : list Z :=
  match s with
  | [] => last
  | c :: r => if c =? SLASH then base_name r r else base_name last r
  end.

(** The [bad] exit. *)
Definition exec_bad (pgdir : Z) (ip : nat) : K Z :=
  (if pgdir =? 0 then kret tt else freevm pgdir) ;;; iunlockput ip ;;; kret (-1).

(** From the point where all segments are loaded: build the stack and commit. *)
Definition exec_stack (path : list Z) (argv : list (list Z)) (ip : nat) (pgdir sz entry : Z) : K Z :=
  iunlockput ip ;;;
  let spbottom := PGROUNDUP sz in
  let* sz := allocuvm pgdir spbottom (u32 (spbottom + PGSIZE)) in
  if sz =? 0 then exec_bad pgdir ip else
  let* mem := uva2ka pgdir spbottom in
  let argc := Z.of_nat (length argv) in
  let arglen := round4 (arg_bytes argv) in
  let argp := u32 (sz - arglen - 4 * (argc + 1)) in
  page_poke mem (argp - spbottom + 4 * argc) 0 ;;;
  push_args (rev argv) mem sz spbottom argp ;;;
  let sp := argp in
  let sp := u32 (sp - 4) in
  page_poke mem (sp - spbottom) argp ;;;
  let sp := u32 (sp - 4) in
  page_poke mem (sp - spbottom) argc ;;;
  let sp := u32 (sp - 4) in
  page_poke mem (sp - spbottom) 0xffffffff ;;;
  let* me := myproc in
  mod_proc me (copy_name (base_name path path)) ;;;
  let* p := get_proc me in
  let oldpgdir := p.(p_pgdir) in
  mod_proc me (set_p_pgdir pgdir) ;;;
  mod_proc me (set_p_sz sz) ;;;
  mod_proc me (fun p => set_p_tf (set_tf_esp sp (set_tf_eip entry p.(p_tf))) p) ;;;
  switchuvm me ;;;
  freevm oldpgdir ;;;
  kret 0.

(** The header comparison is unsigned, so a failed read (-1) passes it and the
    header is whatever was on the kernel stack. *)
Definition exec (path : list Z) (argv : list (list Z)) : K Z :=
  let* o := namei path in
  match o with
  | None => kret (-1)
  | Some ip =>
      ilock (Some ip) ;;;
      let* r := readi ip 0 ELFSZ in
      if u32 r.1 <? ELFSZ then exec_bad 0 ip else
      if r.1 <? 0 then kfault "uninitialised elf header" else
      let elf := get_elfhdr r.2 in
      if negb (elf.(elf_magic) =? ELF_MAGIC) then exec_bad 0 ip else
      let* pgdir := setupkvm in
      if pgdir =? 0 then exec_bad 0 ip else
      let* o := exec_load (Z.to_nat elf.(elf_phnum)) ip (s32 elf.(elf_phoff)) pgdir 0 in
      match o with
      | None => exec_bad pgdir ip
      | Some sz => exec_stack path argv ip pgdir sz elf.(elf_entry)
      end
  end.
End exec.
