(* ===== verification/Sysproc.v ===== *)
(** The process system calls: sysproc.c. *)

From S2P Require Import Prelude CString State Kalloc ProcSync Inode Vm Proc Syscall.

Section sysproc.
Context `{Devsw} `{Image}.

Definition sys_fork : K Z := fork.

Definition sys_exit : K Z := exit ;;; kret 0.

Definition sys_wait : K Z := wait.

(** The pointers are passed on as they come. *)
Definition sys_wait2 : K Z :=
  let* wt := argint 0 in
  match wt with
  | None => kret (-1)
  | Some wt =>
      let* rt := argint 1 in
      match rt with
      | None => kret (-1)
      | Some rt => wait2 (u32 wt) (u32 rt)
      end
  end.

Definition sys_nice : K Z := nice.

Definition sys_kill : K Z :=
  let* pid := argint 0 in
  match pid with
  | None => kret (-1)
  | Some pid => kill pid
  end.

Definition sys_getpid : K Z := let* p := cur in kret p.(p_pid).

Definition sys_sbrk : K Z :=
  let* n := argint 0 in
  match n with
  | None => kret (-1)
  | Some n =>
      let* p := cur in
      let addr := s32 p.(p_sz) in
      let* r := growproc n in
      if r <? 0 then kret (-1) else kret addr
  end.

(** The loop of [sys_sleep], holding tickslock; [ticks - ticks0 < n] is an
    unsigned comparison. *)
Definition sleep_ticks (ticks0 n : Z) : K Z :=
  let* now := kget (fun s => s.(ticks)) in
  if u32 (now - ticks0) <? u32 n then
    let* p := cur in
    if negb (p.(p_killed) =? 0) then release LkTicks ;;; kret (-1)
    else sleep ChTicks LkTicks ;;; kfault "sleep returned"
  else release LkTicks ;;; kret 0.

Definition sys_sleep : K Z :=
  let* n := argint 0 in
  match n with
  | None => kret (-1)
  | Some n =>
      acquire LkTicks ;;;
      let* ticks0 := kget (fun s => s.(ticks)) in
      sleep_ticks ticks0 n
  end.

Definition sys_uptime : K Z :=
  acquire LkTicks ;;;
  let* xticks := kget (fun s => s.(ticks)) in
  release LkTicks ;;;
  kret (s32 xticks).
End sysproc.
