(* ===== verification/Sysfile.v ===== *)
(** The file system calls: sysfile.c.

    A path argument is the list of its bytes, read from the process's memory by
    [argstr].  Data moves between a file and the process as lists of bytes:
    what [fileread] delivers is stored at the process's buffer, what
    [filewrite] takes is loaded from it. *)

From S2P Require Import Prelude CString State Kalloc ProcSync Pipe Bytes Inode Dir File Vm Proc Syscall Exec.

Definition O_RDONLY : Z := 0x000.
Definition O_WRONLY : Z := 0x001.
Definition O_RDWR : Z := 0x002.
Definition O_CREATE : Z := 0x200.

(** A descriptor argument: the descriptor and its file. *)
Definition argfd (n : Z) : K (option (Z * nat)) :=
  let* o := argint n in
  match o with
  | None => kret None
  | Some fd =>
      let* p := cur in
      if (fd <? 0) || (fd >=? Z.of_nat NOFILE) then kret None else
      match ofile p (Z.to_nat fd) with
      | None => kret None
      | Some f => kret (Some (fd, f))
      end
  end.

(** The first free descriptor, or -1. *)
Definition fdalloc (f : nat) : K Z :=
  let* me := myproc in
  let* p := get_proc me in
  match list_find (fun o => o = None) (take NOFILE p.(p_ofile)) with
  | Some (fd, _) => mod_proc me (set_ofile fd (Some f)) ;;; kret (Z.of_nat fd)
  | None => kret (-1)
  end.

Definition sys_dup : K Z :=
  let* o := argfd 0 in
  match o with
  | None => kret (-1)
  | Some (_, f) =>
      let* fd := fdalloc f in
      if fd <? 0 then kret (-1) else
      let* _ := filedup f in
      kret fd
  end.

(** The arguments of read and write: the file, the count and the buffer. *)
Definition arg_rw : K (option (nat * Z * Z)) :=
  let* o := argfd 0 in
  match o with
  | None => kret None
  | Some (_, f) =>
      let* n := argint 2 in
      match n with
      | None => kret None
      | Some n =>
          let* p := argptr 1 n in
          match p with
          | None => kret None
          | Some p => kret (Some (f, n, p))
          end
      end
  end.

(** The bytes from [va] on that are mapped, [n] at most. *)
Fixpoint ld_upto (n : nat) (va : Z) : K (list Z) :=
  match n with
  | O => kret []
  | S n' => fun s =>
      match ld8 va s with
      | Ok b s' => (let* l := ld_upto n' (va + 1) in kret (b :: l)) s'
      | _ => Ok [] s
      end
  end.

Section sysfile.
Context `{Devsw}.

Definition sys_read : K Z :=
  let* a := arg_rw in
  match a with
  | None => kret (-1)
  | Some (f, n, p) =>
      let* r := fileread f n in
      st_bytes p r.2 ;;;
      kret r.1
  end.

(** A write takes [n] bytes; for a negative [n] the file layer takes what it
    makes of the count, [MAXFILE*BSIZE] bytes at most. *)
Definition sys_write : K Z :=
  let* a := arg_rw in
  match a with
  | None => kret (-1)
  | Some (f, n, p) =>
      let* src := ld_upto (Z.to_nat (if n <? 0 then MAXFILE * BSIZE else n)) p in
      filewrite f src n
  end.

Definition sys_close : K Z :=
  let* o := argfd 0 in
  match o with
  | None => kret (-1)
  | Some (fd, f) =>
      let* me := myproc in
      mod_proc me (set_ofile (Z.to_nat fd) None) ;;;
      fileclose f ;;;
      kret 0
  end.

Definition STATSZ : Z := 20.

(** Store a [struct stat]; its padding keeps its bytes. *)
Definition st_stat (va : Z) (st : stat) : K unit :=
  st32 (va + 4) st.(st_dev) ;;;
  st32 (va + 8) st.(st_ino) ;;;
  st16 va st.(st_type) ;;;
  st16 (va + 12) st.(st_nlink) ;;;
  st32 (va + 16) st.(st_size).

Definition sys_fstat : K Z :=
  let* o := argfd 0 in
  match o with
  | None => kret (-1)
  | Some (_, f) =>
      let* p := argptr 1 STATSZ in
      match p with
      | None => kret (-1)
      | Some va =>
          let* r := filestat f in
          match r.2 with
          | Some st => st_stat va st
          | None => kret tt
          end ;;;
          kret r.1
      end
  end.

(** A local [char name[DIRSIZ]]. *)
Definition name_buf : list Z := replicate (Z.to_nat DIRSIZ) 0.

Definition sys_link : K Z :=
  let* a := argstr 0 in
  match a with
  | None => kret (-1)
  | Some (_, old) =>
  let* b := argstr 1 in
  match b with
  | None => kret (-1)
  | Some (_, new) =>
  let* o := namei old in
  match o with
  | None => kret (-1)
  | Some ip =>
      ilock (Some ip) ;;;
      let* i := get_inode ip in
      if i.(i_type) =? T_DIR then iunlockput ip ;;; kret (-1) else
      mod_inode ip (fun i => set_i_nlink (s16 (i.(i_nlink) + 1)) i) ;;;
      iupdate ip ;;;
      iunlock (Some ip) ;;;
      let bad : K Z :=
        ilock (Some ip) ;;;
        mod_inode ip (fun i => set_i_nlink (s16 (i.(i_nlink) - 1)) i) ;;;
        iupdate ip ;;;
        iunlockput ip ;;;
        kret (-1) in
      let* d := nameiparent new name_buf in
      match d with
      | (None, _) => bad
      | (Some dp, name) =>
          ilock (Some dp) ;;;
          let* di := get_inode dp in
          let* i := get_inode ip in
          let* r := if negb (di.(i_dev) =? i.(i_dev)) then kret (-1) else dirlink dp name i.(i_inum) in
          if r <? 0 then iunlockput dp ;;; bad else
          iunlockput dp ;;;
          iput ip ;;;
          kret 0
      end
  end end end.

(** The loop of [isdirempty], from offset [off] on. *)
Fixpoint isdirempty_loop (fuel : nat) (dp : nat) (off : Z) : K bool :=
  let* d := get_inode dp in
  if off <? d.(i_size) then
    match fuel with
    | O => kfault "fuel"
    | S f =>
        let* r := readi dp off DIRENTSZ in
        if negb (r.1 =? DIRENTSZ) then panic "isdirempty: readi" else
        if negb (de_inum r.2 =? 0) then kret false
        else isdirempty_loop f dp (off + DIRENTSZ)
    end
  else kret true.

Definition isdirempty (dp : nat) : K bool :=
  let* d := get_inode dp in
  isdirempty_loop (S (Z.to_nat (d.(i_size) / DIRENTSZ))) dp (2 * DIRENTSZ).

Definition DOT : list Z := [46].
Definition DOTDOT : list Z := [46; 46].

Definition sys_unlink : K Z :=
  let* a := argstr 0 in
  match a with
  | None => kret (-1)
  | Some (_, path) =>
  let* d := nameiparent path name_buf in
  match d with
  | (None, _) => kret (-1)
  | (Some dp, name) =>
      ilock (Some dp) ;;;
      if (namecmp name DOT =? 0) || (namecmp name DOTDOT =? 0) then iunlockput dp ;;; kret (-1) else
      let* o := dirlookup dp name in
      match o with
      | None => iunlockput dp ;;; kret (-1)
      | Some (ip, off) =>
          ilock (Some ip) ;;;
          let* i := get_inode ip in
          if i.(i_nlink) <? 1 then panic "unlink: nlink < 1" else
          let* e := if i.(i_type) =? T_DIR then isdirempty ip else kret true in
          if negb e then iunlockput ip ;;; iunlockput dp ;;; kret (-1) else
          let* r := writei dp (replicate (Z.to_nat DIRENTSZ) 0) off DIRENTSZ in
          if negb (r =? DIRENTSZ) then panic "unlink: writei" else
          let* i := get_inode ip in
          (if i.(i_type) =? T_DIR then
             mod_inode dp (fun d => set_i_nlink (s16 (d.(i_nlink) - 1)) d) ;;; iupdate dp
           else kret tt) ;;;
          iunlockput dp ;;;
          mod_inode ip (fun i => set_i_nlink (s16 (i.(i_nlink) - 1)) i) ;;;
          iupdate ip ;;;
          iunlockput ip ;;;
          kret 0
      end
  end end.

(** The inode of a new file, locked; or of an existing plain file. *)
Definition create (path : list Z) (type major minor : Z) : K (option nat) :=
  let* d := nameiparent path name_buf in
  match d with
  | (None, _) => kret None
  | (Some dp, name) =>
      ilock (Some dp) ;;;
      let* o := dirlookup dp name in
      match o with
      | Some (ip, _) =>
          iunlockput dp ;;;
          ilock (Some ip) ;;;
          let* i := get_inode ip in
          if (type =? T_FILE) && (i.(i_type) =? T_FILE) then kret (Some ip)
          else iunlockput ip ;;; kret None
      | None =>
          let* di := get_inode dp in
          let* ip := ialloc di.(i_dev) type in
          ilock (Some ip) ;;;
          mod_inode ip (set_i_major (s16 major)) ;;;
          mod_inode ip (set_i_minor (s16 minor)) ;;;
          mod_inode ip (set_i_nlink 1) ;;;
          iupdate ip ;;;
          (if type =? T_DIR then
             mod_inode dp (fun d => set_i_nlink (s16 (d.(i_nlink) + 1)) d) ;;;
             iupdate dp ;;;
             let* i := get_inode ip in
             let* di := get_inode dp in
             let* r1 := dirlink ip DOT i.(i_inum) in
             if r1 <? 0 then panic "create dots" else
             let* r2 := dirlink ip DOTDOT di.(i_inum) in
             if r2 <? 0 then panic "create dots" else kret tt
           else kret tt) ;;;
          let* i := get_inode ip in
          let* r := dirlink dp name i.(i_inum) in
          if r <? 0 then panic "create: dirlink" else
          iunlockput dp ;;;
          kret (Some ip)
      end
  end.

(** The file to open, locked. *)
Definition open_inode (path : list Z) (omode : Z) : K (option nat) :=
  if negb (Z.land omode O_CREATE =? 0) then create path T_FILE 0 0
  else
    let* o := namei path in
    match o with
    | None => kret None
    | Some ip =>
        ilock (Some ip) ;;;
        let* i := get_inode ip in
        if (i.(i_type) =? T_DIR) && negb (omode =? O_RDONLY)
        then iunlockput ip ;;; kret None else kret (Some ip)
    end.

Definition sys_open : K Z :=
  let* a := argstr 0 in
  match a with
  | None => kret (-1)
  | Some (_, path) =>
  let* m := argint 1 in
  match m with
  | None => kret (-1)
  | Some omode =>
  let* o := open_inode path omode in
  match o with
  | None => kret (-1)
  | Some ip =>
      let* fo := filealloc in
      match fo with
      | None => iunlockput ip ;;; kret (-1)
      | Some f =>
          let* fd := fdalloc f in
          if fd <? 0 then fileclose f ;;; iunlockput ip ;;; kret (-1) else
          iunlock (Some ip) ;;;
          mod_file f (fun x =>
            set_f_writable (negb (Z.land omode O_WRONLY =? 0) || negb (Z.land omode O_RDWR =? 0))
              (set_f_readable (Z.land omode O_WRONLY =? 0)
                (set_f_off 0 (set_f_ip (Some ip) (set_f_type FD_INODE x))))) ;;;
          kret fd
      end
  end end end.

Definition sys_mkdir : K Z :=
  let* a := argstr 0 in
  match a with
  | None => kret (-1)
  | Some (_, path) =>
      let* o := create path T_DIR 0 0 in
      match o with
      | None => kret (-1)
      | Some ip => iunlockput ip ;;; kret 0
      end
  end.

Definition sys_mknod : K Z :=
  let* a := argstr 0 in
  match a with
  | None => kret (-1)
  | Some (_, path) =>
  let* ma := argint 1 in
  match ma with
  | None => kret (-1)
  | Some major =>
  let* mi := argint 2 in
  match mi with
  | None => kret (-1)
  | Some minor =>
      let* o := create path T_DEV major minor in
      match o with
      | None => kret (-1)
      | Some ip => iunlockput ip ;;; kret 0
      end
  end end end.

Definition sys_chdir : K Z :=
  let* a := argstr 0 in
  match a with
  | None => kret (-1)
  | Some (_, path) =>
      let* o := namei path in
      match o with
      | None => kret (-1)
      | Some ip =>
          ilock (Some ip) ;;;
          let* i := get_inode ip in
          if negb (i.(i_type) =? T_DIR) then iunlockput ip ;;; kret (-1) else
          iunlock (Some ip) ;;;
          let* me := myproc in
          let* p := get_proc me in
          let* cwd := klift "cwd" p.(p_cwd) in
          iput cwd ;;;
          mod_proc me (set_p_cwd (Some ip)) ;;;
          kret 0
      end
  end.

(** The loop of [sys_exec] over the argument vector; at most 20 pointers, the
    last of them null. *)
Fixpoint fetch_argv (fuel : nat) (uargv : Z) : K (option (list (list Z))) :=
  match fuel with
  | O => kret None
  | S f =>
      let* p := cur in
      let* o := fetchint p uargv in
      match o with
      | None => kret None
      | Some uarg =>
          if uarg =? 0 then kret (Some []) else
          let* so := fetchstr p (u32 uarg) in
          match so with
          | None => kret None
          | Some (_, l) =>
              let* r := fetch_argv f (u32 (uargv + 4)) in
              kret (match r with Some args => Some (l :: args) | None => None end)
          end
      end
  end.

Definition sys_exec : K Z :=
  let* a := argstr 0 in
  match a with
  | None => kret (-1)
  | Some (_, path) =>
  let* u := argint 1 in
  match u with
  | None => kret (-1)
  | Some uargv =>
      let* o := fetch_argv 20 (u32 uargv) in
      match o with
      | None => kret (-1)
      | Some argv => exec path argv
      end
  end end.

Definition sys_pipe : K Z :=
  let* a := argptr 0 8 in
  match a with
  | None => kret (-1)
  | Some fd =>
  let* o := pipealloc in
  match o with
  | None => kret (-1)
  | Some (rf, wf) =>
      let* me := myproc in
      let* fd0 := fdalloc rf in
      if fd0 <? 0 then fileclose rf ;;; fileclose wf ;;; kret (-1) else
      let* fd1 := fdalloc wf in
      if fd1 <? 0 then
        mod_proc me (set_ofile (Z.to_nat fd0) None) ;;;
        fileclose rf ;;; fileclose wf ;;; kret (-1)
      else
      st32 fd fd0 ;;;
      st32 (fd + 4) fd1 ;;;
      kret 0
  end end.
End sysfile.
