(* ===== verification/Trap.v ===== *)
(** Traps: the system call table of syscall.c and trap of trap.c.

    Every entry into the kernel is a trap: a system call, a device interrupt or
    a processor exception.  The scheduling policy the kernel was compiled for
    decides what the timer interrupt does with the running process. *)

From S2P Require Import Prelude CString State Kalloc ProcSync Console Ide Inode File Vm Proc Syscall Exec Sysproc Sysfile.

Definition T_SYSCALL : Z := 64.
Definition T_IRQ0 : Z := 32.
Definition IRQ_TIMER : Z := 0.
Definition IRQ_KBD : Z := 1.
Definition IRQ_COM1 : Z := 4.
Definition IRQ_IDE : Z := 14.
Definition IRQ_SPURIOUS : Z := 31.

(** The macro the kernel is compiled with; [NOFLAG] is the build without any of
    the three. *)
Inductive schedflag := FlagRR | FlagRR2Q | FlagFAIR2Q | NOFLAG.

Section trap.
Context `{Devsw} `{Image} `{KStack}.

(** The table [syscalls], by the numbers of syscall.h. *)
Definition syscalls (num : Z) : option (K Z) :=
  match num with
  | 1 => Some sys_fork | 2 => Some sys_exit | 3 => Some sys_wait | 4 => Some sys_pipe
  | 5 => Some sys_write | 6 => Some sys_read | 7 => Some sys_close | 8 => Some sys_kill
  | 9 => Some sys_exec | 10 => Some sys_open | 11 => Some sys_mknod | 12 => Some sys_unlink
  | 13 => Some sys_fstat | 14 => Some sys_link | 15 => Some sys_mkdir | 16 => Some sys_chdir
  | 17 => Some sys_dup | 18 => Some sys_getpid | 19 => Some sys_sbrk | 20 => Some sys_sleep
  | 21 => Some sys_uptime | 22 => Some sys_wait2 | 23 => Some sys_nice
  | _ => None
  end.

(** [proc->tf->eax = v]. *)
Definition set_eax (v : Z) : K unit :=
  let* me := myproc in
  mod_proc me (fun p => set_p_tf (set_tf_eax (u32 v) p.(p_tf)) p).

Definition syscall : K unit :=
  let* p := cur in
  let num := s32 p.(p_tf).(tf_eax) in
  match syscalls num with
  | Some f => let* r := f in set_eax r
  | None =>
      cprintf (str "%d %s: unknown sys call %d" ++ [10])
        [AInt p.(p_pid); AStr (Some (upto_nul p.(p_name) 16)); AInt num] ;;;
      set_eax (-1)
  end.

(** [if(proc->killed) exit()]. *)
Definition exit_if_killed : K unit :=
  let* p := cur in
  if negb (p.(p_killed) =? 0) then exit else kret tt.

(** [if(proc && proc->killed && (tf->cs&3) == DPL_USER) exit()]. *)
Definition exit_if_killed_user (tf : trapframe) : K unit :=
  let* c := kget (fun s => s.(curproc)) in
  match c with
  | None => kret tt
  | Some _ => if Z.land tf.(tf_cs) 3 =? DPL_USER then exit_if_killed else kret tt
  end.

(** The timer interrupt's part in CPU 0. *)
Definition clock_tick : K unit :=
  let* id := kget (fun s => s.(cpuid)) in
  if id =? 0 then
    acquire LkTicks ;;;
    kmod (fun s => set_ticks (u32 (s.(ticks) + 1)) s) ;;;
    wakeup ChTicks ;;;
    release LkTicks
  else kret tt.

(** Whether the quantum of a process of this priority ends at this count. *)
Definition quantum_over (flag : schedflag) (count priority : Z) : bool :=
  match flag with
  | FlagRR => count =? QUANTA
  | FlagRR2Q | FlagFAIR2Q =>
      (count =? QUANTA) && (priority =? 0) || (count =? 2 * QUANTA) && (priority =? 1)
  | NOFLAG => true
  end.

(** The accounting of a timer tick for the running process; [yield] gives up the
    CPU, so at most one of the two tests of the source takes effect. *)
Definition charge_tick (flag : schedflag) : K unit :=
  let* c := kget (fun s => s.(curproc)) in
  match c with
  | None => kret tt
  | Some me =>
      let* p := get_proc me in
      if decide (p.(p_state) = RUNNING) then
        let* n := kget (fun s => s.(clockticks)) in
        kmod (set_clockticks (s32 (n + 1))) ;;;
        mod_proc me (fun p => set_p_rtime (s32 (p.(p_rtime) + 1)) p) ;;;
        if quantum_over flag (s32 (n + 1)) p.(p_priority) then
          match flag with NOFLAG => kret tt | _ => kmod (set_clockticks 0) end ;;;
          yield
        else kret tt
      else kret tt
  end.

(** [dev] is what the interrupting device has to deliver; [cr2] the faulting
    address. *)
Definition trap (flag : schedflag) (tf : trapframe) (dev : list Z) (cr2 : Z) : K unit :=
  let no := tf.(tf_trapno) in
  if no =? T_SYSCALL then
    exit_if_killed ;;;
    let* me := myproc in
    mod_proc me (set_p_tf tf) ;;;
    syscall ;;;
    exit_if_killed
  else
    (if no =? T_IRQ0 + IRQ_TIMER then clock_tick
     else if no =? T_IRQ0 + IRQ_IDE then ideintr
     else if no =? T_IRQ0 + IRQ_KBD then kbdintr dev
     else if no =? T_IRQ0 + IRQ_COM1 then uartintr dev
     else if (no =? T_IRQ0 + 7) || (no =? T_IRQ0 + IRQ_SPURIOUS) then
       let* id := kget (fun s => s.(cpuid)) in
       cprintf (str "cpu%d: spurious interrupt at %x:%x" ++ [10])
         [AInt id; AInt tf.(tf_cs); AInt tf.(tf_eip)]
     else
       let* id := kget (fun s => s.(cpuid)) in
       let* c := kget (fun s => s.(curproc)) in
       match c with
       | Some me =>
           if negb (Z.land tf.(tf_cs) 3 =? 0) then
             let* p := get_proc me in
             cprintf (str "pid %d %s: trap %d err %d on cpu %d eip 0x%x addr 0x%x--kill proc" ++ [10])
               [AInt p.(p_pid); AStr (Some (upto_nul p.(p_name) 16)); AInt no; AInt tf.(tf_err);
                AInt id; AInt tf.(tf_eip); AInt cr2] ;;;
             mod_proc me (set_p_killed 1)
           else
             cprintf (str "unexpected trap %d from cpu %d eip %x (cr2=0x%x)" ++ [10])
               [AInt no; AInt id; AInt tf.(tf_eip); AInt cr2] ;;;
             panic "trap"
       | None =>
           cprintf (str "unexpected trap %d from cpu %d eip %x (cr2=0x%x)" ++ [10])
             [AInt no; AInt id; AInt tf.(tf_eip); AInt cr2] ;;;
           panic "trap"
       end) ;;;
    exit_if_killed_user tf ;;;
    (if no =? T_IRQ0 + IRQ_TIMER then charge_tick flag else kret tt) ;;;
    exit_if_killed_user tf.
End trap.
