(* ===== verification/Calm.v ===== *)
(** What the kernel's routines do to the process table.

    Most of the kernel leaves the process table alone, up to waking sleepers,
    putting the running process to sleep and fields that do not identify a
    process: it is [calm].  Calmness is proved here for every such routine,
    following the code with a tactic; device drivers promise it by the class
    [TameDevsw], which the console's driver implements. *)

From S2P Require Import Prelude CString State Kalloc ProcSync Console Pipe Ide Bio Bytes FsBlock Inode Dir File Vm Uvm Proc ConsoleDev Syscall Exec Sysproc Sysfile Trap.

(** ** Calm changes *)

(** States of a process that takes part in scheduling. *)
Definition live (st : procstate) : Prop := st = SLEEPING \/ st = RUNNABLE \/ st = RUNNING.

Definition calm_proc (p q : proc) : Prop :=
  q.(p_pid) = p.(p_pid) /\ q.(p_parent) = p.(p_parent) /\
  (q.(p_state) = p.(p_state) \/ live p.(p_state) /\ live q.(p_state)).

Definition calm (s s' : kstate) : Prop :=
  s'.(nextpid) = s.(nextpid) /\ s'.(curproc) = s.(curproc) /\ s'.(initproc) = s.(initproc) /\
  Forall2 calm_proc s.(ptable) s'.(ptable).

#[export] Instance calm_proc_preorder : PreOrder calm_proc.
Proof.
  split.
  - intros p. split_and!; auto.
  - intros p q r (H1 & H2 & H3) (H4 & H5 & H6). split_and!; [congruence|congruence|].
    destruct H3 as [H3|[? H3]], H6 as [H6|[? H6]]; rewrite ?H6, ?H3; [left; congruence| | |]; right; try (by rewrite <- ?H3, ?H6); split; congruence || done.
Qed.

#[export] Instance calm_preorder : PreOrder calm.
Proof.
  split.
  - intros s. split_and!; [done..|reflexivity].
  - intros s1 s2 s3 (H1 & H2 & H3 & H4) (H5 & H6 & H7 & H8). split_and!; [congruence..|by etrans].
Qed.

Lemma calm_trans s1 s2 s3 : calm s1 s2 -> calm s2 s3 -> calm s1 s3.
Proof. apply calm_preorder. Qed.

(** The process on the CPU takes part in scheduling. *)
Definition cur_live (s : kstate) : Prop :=
  forall me, s.(curproc) = Some me -> exists p, s.(ptable) !! me = Some p /\ live p.(p_state).

Lemma calm_lookup s s' i p :
  calm s s' -> s.(ptable) !! i = Some p -> exists q, s'.(ptable) !! i = Some q /\ calm_proc p q.
Proof. intros (_ & _ & _ & H) Hp. destruct (Forall2_lookup_l _ _ _ _ _ H Hp) as (q & ? & ?). eauto. Qed.

Lemma calm_lookup_r s s' i q :
  calm s s' -> s'.(ptable) !! i = Some q -> exists p, s.(ptable) !! i = Some p /\ calm_proc p q.
Proof. intros (_ & _ & _ & H) Hp. destruct (Forall2_lookup_r _ _ _ _ _ H Hp) as (p & ? & ?). eauto. Qed.

Lemma calm_live p q : calm_proc p q -> live p.(p_state) -> live q.(p_state).
Proof. intros (_ & _ & [->|[_ ?]]); done. Qed.

Lemma calm_cur s s' : calm s s' -> cur_live s -> cur_live s'.
Proof.
  intros Hc Hl me Hme. pose proof Hc as (_ & E & _ & _). rewrite E in Hme. destruct (Hl me Hme) as (p & Hp & Hlp).
  destruct (calm_lookup _ _ _ _ Hc Hp) as (q & Hq & Hpq). exists q. split; [done|]. by apply (calm_live _ _ Hpq).
Qed.

(** ** Routines that are calm *)

(** Whether it returns or gives up the CPU. *)
Definition calms {A} (m : K A) : Prop :=
  forall s, cur_live s -> match m s with Ok _ s' | Block s' => calm s s' | _ => True end.

Existing Class calms.

#[global] Instance calms_ret {A} (a : A) : calms (kret a).
Proof. intros s _. cbn. reflexivity. Qed.
#[global] Instance calms_panic {A} msg : calms (@panic kstate A msg).
Proof. intros s _. exact I. Qed.
#[global] Instance calms_fault {A} msg : calms (@kfault kstate A msg).
Proof. intros s _. exact I. Qed.
#[global] Instance calms_get {A} (f : kstate -> A) : calms (kget f).
Proof. intros s _. cbn. reflexivity. Qed.
#[global] Instance calms_lift {A} msg (o : option A) : calms (klift msg o).
Proof. destruct o; [apply calms_ret|apply calms_fault]. Qed.

Lemma calms_bind {A B} (m : K A) (f : A -> K B) : calms m -> (forall a, calms (f a)) -> calms (kbind m f).
Proof.
  intros Hm Hf s Hs. unfold kbind. specialize (Hm s Hs). destruct (m s) as [a s1| |s1|]; try done.
  specialize (Hf a s1 (calm_cur _ _ Hm Hs)). destruct (f a s1); try done; by etrans.
Qed.

Lemma calms_mod (f : kstate -> kstate) :
  (forall s, (f s).(nextpid) = s.(nextpid) /\ (f s).(curproc) = s.(curproc) /\ (f s).(initproc) = s.(initproc) /\ (f s).(ptable) = s.(ptable)) ->
  calms (kmod f).
Proof. intros H s _. destruct (H s) as (H1 & H2 & H3 & H4). split_and!; [done..|]. by rewrite H4. Qed.

Lemma calms_for {A} (l : list A) (body : A -> K unit) : (forall x, calms (body x)) -> calms (kfor l body).
Proof. intros H. induction l; cbn [kfor]; [apply calms_ret|by apply calms_bind]. Qed.

#[global] Instance calms_acquire lk : calms (acquire lk).
Proof. intros s _. unfold acquire. destruct (holding lk s); [done|]. by split_and!. Qed.
#[global] Instance calms_release lk : calms (release lk).
Proof. intros s _. unfold release. destruct (holding lk s); [|done]. by split_and!. Qed.
#[global] Instance calms_myproc : calms myproc.
Proof. intros s _. unfold myproc. by destruct s.(curproc). Qed.
#[global] Instance calms_get_proc i : calms (get_proc i).
Proof. intros s _. unfold get_proc. by destruct (s.(ptable) !! i). Qed.
#[global] Instance calms_get_file i : calms (get_file i).
Proof. intros s _. unfold get_file. by destruct (s.(ftable) !! i). Qed.
#[global] Instance calms_get_inode i : calms (get_inode i).
Proof. intros s _. unfold get_inode. by destruct (s.(icache) !! i). Qed.
#[global] Instance calms_get_buf i : calms (get_buf i).
Proof. intros s _. unfold get_buf. by destruct (s.(bufs) !! i). Qed.
#[global] Instance calms_get_pipe i : calms (get_pipe i).
Proof. intros s _. unfold get_pipe. by destruct (s.(pipes) !! i). Qed.

Lemma calm_insert s i p q :
  s.(ptable) !! i = Some p -> calm_proc p q -> calm s (set_ptable (<[i := q]> s.(ptable)) s).
Proof.
  intros Hp Hc. split_and!; [done..|]. cbn. apply Forall2_same_length_lookup_2; [by rewrite length_insert|].
  intros j a b Ha Hb. destruct (decide (i = j)) as [<-|Hne].
  - rewrite list_lookup_insert_eq in Hb by (by eapply lookup_lt_Some). by simplify_eq.
  - rewrite list_lookup_insert_ne in Hb by done. by simplify_eq.
Qed.

Lemma calms_mod_proc i f : (forall p, calm_proc p (f p)) -> calms (mod_proc i f).
Proof.
  intros H s _. unfold mod_proc, kbind, get_proc. destruct (s.(ptable) !! i) as [p|] eqn:E; [|done]. by apply (calm_insert s i p).
Qed.

Lemma calm_woken c p : calm_proc p (if decide (p.(p_state) = SLEEPING /\ p.(p_chan) = c) then set_p_state RUNNABLE p else p).
Proof.
  destruct (decide (p.(p_state) = SLEEPING /\ p.(p_chan) = c)) as [[E _]|_]; [|reflexivity].
  split_and!; [done..|]. right. rewrite E. unfold live. auto.
Qed.

Lemma calm_fmap s (f : proc -> proc) : (forall p, calm_proc p (f p)) -> calm s (set_ptable (f <$> s.(ptable)) s).
Proof.
  intros H. split_and!; [done..|]. cbn. apply Forall2_fmap_r, Forall2_same_length_lookup_2; [done|].
  intros i p q Hp Hq. simplify_eq. apply H.
Qed.

#[global] Instance calms_wakeup1 c : calms (wakeup1 c).
Proof. intros s _. unfold wakeup1, kmod. apply calm_fmap. intros p. apply (calm_woken (Some c)). Qed.

#[global] Instance calms_wakeup1_ptr c : calms (wakeup1_ptr c).
Proof. intros s _. unfold wakeup1_ptr, kmod. apply calm_fmap. intros p. apply calm_woken. Qed.

#[global] Instance calms_sched : calms sched.
Proof.
  unfold sched. apply calms_bind; [apply calms_get|intros []]; cbn [negb]; [|apply calms_panic].
  apply calms_bind; [apply calms_get|intros n]. destruct (negb _); [apply calms_panic|].
  apply calms_bind; [apply calms_myproc|intros i]. apply calms_bind; [apply calms_get_proc|intros p].
  destruct (decide _); [apply calms_panic|]. intros s _. cbn. reflexivity.
Qed.

(** The running process may change its own state among the live ones. *)
Lemma calms_own_state i f :
  (forall p, live p.(p_state) -> calm_proc p (f p)) ->
  forall s, cur_live s -> s.(curproc) = Some i -> match mod_proc i f s with Ok _ s' | Block s' => calm s s' | _ => True end.
Proof.
  intros H s Hs Hi. destruct (Hs i Hi) as (p & Hp & Hl). rewrite (mod_proc_run i f s p Hp). by apply (calm_insert s i p); auto.
Qed.

(** Follow the code: known routines, sequences, tests and loops. *)
Ltac calm_step :=
  match goal with
  | |- calms (kbind _ _) => apply calms_bind; [|intros ?]
  | |- calms (kfor _ _) => apply calms_for; intros ?
  | |- calms (kmod _) => apply calms_mod; intros ?; repeat split; fail
  | |- calms (mod_proc _ _) => apply calms_mod_proc; intros []; repeat split; left; reflexivity
  | |- calms _ => solve [typeclasses eauto]
  | |- calms (let _ := _ in _) => cbv zeta
  | |- calms (match ?x with _ => _ end) => destruct x
  end.
Ltac calm := repeat calm_step.

#[global] Instance calms_wakeup c : calms (wakeup c).
Proof. unfold wakeup. calm. Qed.

#[global] Instance calms_sleep c lk : calms (sleep c lk).
Proof.
  intros s Hs. unfold sleep, kget, kbind at 1. destruct s.(curproc) as [i|] eqn:Hi; [|done].
  assert (calms (if decide (lk = LkPtable) then kret tt else acquire LkPtable ;;; release lk)) as H1 by calm.
  specialize (H1 s Hs). set (m := if decide (lk = LkPtable) then _ else _) in *. unfold kbind at 1. destruct (m s) as [[] s1| |s1|]; try done.
  assert (cur_live s1) as Hs1 by (by apply (calm_cur s)). assert (s1.(curproc) = Some i) as Hi1 by (destruct H1 as (_ & -> & _); done).
  unfold kbind. pose proof (calms_own_state i (fun p => set_p_state SLEEPING (set_p_chan (Some c) p))) as H2.
  specialize (H2 ltac:(intros p Hl; split_and!; [done..|right; split; [done|by left]]) s1 Hs1 Hi1).
  destruct (mod_proc _ _ s1) as [[] s2| |s2|]; try done; [|by etrans].
  pose proof (calms_sched s2 (calm_cur _ _ H2 Hs1)) as H3. destruct (sched s2); try done; by (etrans; [exact H1|by etrans]).
Qed.

#[global] Instance calms_yield : calms yield.
Proof.
  unfold yield. apply calms_bind; [apply calms_acquire|intros _]. intros s Hs. unfold kbind at 1, myproc.
  destruct s.(curproc) as [i|] eqn:Hi; [|done]. unfold kbind at 1.
  pose proof (calms_own_state i (set_p_state RUNNABLE)) as H2.
  specialize (H2 ltac:(intros p Hl; split_and!; [done..|right; split; [done|by right; left]]) s Hs Hi).
  destruct (mod_proc _ _ s) as [[] s2| |s2|]; try done.
  assert (calms (sched ;;; release LkPtable)) as H3 by calm. specialize (H3 s2 (calm_cur _ _ H2 Hs)).
  destruct (kbind _ _ s2); try done; by etrans.
Qed.
(** From here on routines are recognised by their names only. *)
#[local] Hint Constants Opaque : typeclass_instances.

(** *** Tables *)

#[global] Instance calms_mod_file (i : nat) (f : file -> file) : calms (mod_file i f).
Proof. unfold mod_file. calm. Qed.
#[global] Instance calms_mod_inode (i : nat) (f : inode -> inode) : calms (mod_inode i f).
Proof. unfold mod_inode. calm. Qed.
#[global] Instance calms_mod_buf (i : nat) (f : buf -> buf) : calms (mod_buf i f).
Proof. unfold mod_buf. calm. Qed.
#[global] Instance calms_mod_pipe (pa : Z) (f : pipe -> pipe) : calms (mod_pipe pa f).
Proof. unfold mod_pipe. calm. Qed.
(** *** Memory *)

#[global] Instance calms_kfree (v : Z) : calms (kfree v).
Proof. unfold kfree. calm. Qed.
#[global] Instance calms_kalloc : calms (kalloc).
Proof. unfold kalloc. calm. Qed.
(** *** Clock and priorities *)

#[global] Instance calms_proc_clockticks : calms (proc_clockticks).
Proof. unfold proc_clockticks. calm. Qed.
#[global] Instance calms_nice : calms (nice).
Proof. unfold nice. calm. Qed.
(** *** Console *)

#[global] Instance calms_mod_con (f : console -> console) : calms (mod_con f).
Proof. unfold mod_con. calm. Qed.
#[global] Instance calms_uartputc (c : Z) : calms (uartputc c).
Proof. unfold uartputc. calm. Qed.
#[global] Instance calms_consputc (c : Z) : calms (consputc c).
Proof. unfold consputc. calm. Qed.
#[global] Instance calms_printint (xx base : Z) (sgn : bool) : calms (printint xx base sgn).
Proof. unfold printint. calm. Qed.
#[global] Instance calms_cprintf_loop (fmt : list Z) (args : list parg) : calms (cprintf_loop fmt args).
Proof.
  revert args. remember (length fmt) as n eqn:En. revert fmt En. induction n as [n IH] using lt_wf_ind. intros [|c fmt] -> args; cbn [cprintf_loop]; calm.
  all: eapply IH; [|reflexivity]; cbn; lia.
Qed.
#[global] Instance calms_cprintf (fmt : list Z) (args : list parg) : calms (cprintf fmt args).
Proof. unfold cprintf. calm. Qed.
#[global] Instance calms_dump_pcs (n : nat) (pcs : list Z) : calms (dump_pcs n pcs).
Proof. revert pcs. induction n; intros; cbn [dump_pcs]; calm. Qed.
#[global] Instance calms_kill_line (fuel : nat) : calms (kill_line fuel).
Proof. induction fuel; intros; cbn [kill_line]; calm. Qed.
#[global] Instance calms_kill_whole_line : calms (kill_whole_line).
Proof. unfold kill_whole_line. calm. Qed.
#[global] Instance calms_recall (fuel : nat) (ind : Z) : calms (recall fuel ind).
Proof. revert ind. induction fuel; intros; cbn [recall]; calm. Qed.
#[global] Instance calms_prev_string (i : Z) : calms (prev_string i).
Proof. unfold prev_string. calm. Qed.
#[global] Instance calms_history_key (ind : Z) : calms (history_key ind).
Proof. unfold history_key. calm. Qed.
#[global] Instance calms_input_char (c : Z) : calms (input_char c).
Proof. unfold input_char. calm. Qed.
#[global] Instance calms_procdump `{KStack} : calms procdump.
Proof. unfold procdump. calm. Qed.
#[global] Instance calms_input_key `{KStack} (c ind : Z) : calms (input_key c ind).
Proof. unfold input_key. calm. Qed.
#[global] Instance calms_consoleintr_loop `{KStack} (cs : list Z) (ind : Z) : calms (consoleintr_loop cs ind).
Proof. revert ind. induction cs; intros; cbn [consoleintr_loop]; calm. Qed.
#[global] Instance calms_consoleintr `{KStack} (cs : list Z) : calms (consoleintr cs).
Proof. unfold consoleintr. calm. Qed.
#[global] Instance calms_kbdintr `{KStack} (data : list Z) : calms (kbdintr data).
Proof. unfold kbdintr. calm. Qed.
#[global] Instance calms_uartintr `{KStack} (data : list Z) : calms (uartintr data).
Proof. unfold uartintr. calm. Qed.
(** *** Pipes *)

#[global] Instance calms_my_killed : calms (my_killed).
Proof. unfold my_killed. calm. Qed.
#[global] Instance calms_pipewrite_from (pa n : Z) (l : list Z) : calms (pipewrite_from pa n l).
Proof. unfold pipewrite_from. calm. Qed.
#[global] Instance calms_pipewrite (pa : Z) (addr : list Z) (n : Z) : calms (pipewrite pa addr n).
Proof. unfold pipewrite. calm. Qed.
#[global] Instance calms_piperead_locked (pa n : Z) : calms (piperead_locked pa n).
Proof. unfold piperead_locked. calm. Qed.
#[global] Instance calms_piperead (pa n : Z) : calms (piperead pa n).
Proof. unfold piperead. calm. Qed.
#[global] Instance calms_pipeclose (pa : Z) (writable : bool) : calms (pipeclose pa writable).
Proof. unfold pipeclose. calm. Qed.
(** *** Disk *)

#[global] Instance calms_idestart (b : option nat) : calms (idestart b).
Proof. unfold idestart. calm. Qed.
#[global] Instance calms_ide_insl : calms (ide_insl).
Proof. intros s _. unfold ide_insl. destruct s.(idecmd); [apply calm_preorder|exact Logic.I]. Qed.
#[global] Instance calms_ideintr : calms (ideintr).
Proof. unfold ideintr. calm. Qed.
#[global] Instance calms_ide_append (fuel : nat) (i b : nat) : calms (ide_append fuel i b).
Proof. revert i b. induction fuel; intros; cbn [ide_append]; calm. Qed.
#[global] Instance calms_iderw_start (b : nat) : calms (iderw_start b).
Proof. unfold iderw_start. calm. Qed.
#[global] Instance calms_iderw_wait (fuel : nat) (b : nat) : calms (iderw_wait fuel b).
Proof. revert b. induction fuel; intros; cbn [iderw_wait]; calm. Qed.
#[global] Instance calms_iderw (b : nat) : calms (iderw b).
Proof. unfold iderw. calm. Qed.
(** *** Buffers *)

#[global] Instance calms_bget_cached (fuel : nat) (dev sector : Z) (b : nat) : calms (bget_cached fuel dev sector b).
Proof. revert dev sector b. induction fuel; intros; cbn [bget_cached]; calm. Qed.
#[global] Instance calms_bget_fresh (fuel : nat) (b : nat) : calms (bget_fresh fuel b).
Proof. revert b. induction fuel; intros; cbn [bget_fresh]; calm. Qed.
#[global] Instance calms_bget (dev sector : Z) : calms (bget dev sector).
Proof. unfold bget. calm. Qed.
#[global] Instance calms_bread (dev sector : Z) : calms (bread dev sector).
Proof. unfold bread. calm. Qed.
#[global] Instance calms_bwrite (b : nat) : calms (bwrite b).
Proof. unfold bwrite. calm. Qed.
#[global] Instance calms_brelse (b : nat) : calms (brelse b).
Proof. unfold brelse. calm. Qed.
(** *** Blocks *)

#[global] Instance calms_buf_data (b : nat) : calms (buf_data b).
Proof. unfold buf_data. calm. Qed.
#[global] Instance calms_readsb (dev : Z) : calms (readsb dev).
Proof. unfold readsb. calm. Qed.
#[global] Instance calms_bzero (dev bno : Z) : calms (bzero dev bno).
Proof. unfold bzero. calm. Qed.
#[global] Instance calms_balloc_loop (fuel : nat) (dev : Z) (sb : superblock) (b : Z) : calms (balloc_loop fuel dev sb b).
Proof. revert dev sb b. induction fuel; intros; cbn [balloc_loop]; calm. Qed.
#[global] Instance calms_balloc (dev : Z) : calms (balloc dev).
Proof. unfold balloc. calm. Qed.
#[global] Instance calms_bfree (dev b : Z) : calms (bfree dev b).
Proof. unfold bfree. calm. Qed.
(** *** Inodes *)

#[global] Instance calms_iget (dev inum : Z) : calms (iget dev inum).
Proof. unfold iget. calm. Qed.
#[global] Instance calms_idup (ip : nat) : calms (idup ip).
Proof. unfold idup. calm. Qed.
#[global] Instance calms_ialloc_loop (fuel : nat) (dev type ninodes inum : Z) : calms (ialloc_loop fuel dev type ninodes inum).
Proof. revert dev type ninodes inum. induction fuel; intros; cbn [ialloc_loop]; calm. Qed.
#[global] Instance calms_ialloc (dev type : Z) : calms (ialloc dev type).
Proof. unfold ialloc. calm. Qed.
#[global] Instance calms_iupdate (ip : nat) : calms (iupdate ip).
Proof. unfold iupdate. calm. Qed.
#[global] Instance calms_ilock (o : option nat) : calms (ilock o).
Proof. unfold ilock. calm. Qed.
#[global] Instance calms_iunlock (o : option nat) : calms (iunlock o).
Proof. unfold iunlock. calm. Qed.
#[global] Instance calms_addr_or_alloc (ip : nat) (n : Z) : calms (addr_or_alloc ip n).
Proof. unfold addr_or_alloc. calm. Qed.
#[global] Instance calms_bmap (ip : nat) (bn : Z) : calms (bmap ip bn).
Proof. unfold bmap. calm. Qed.
#[global] Instance calms_itrunc (ip : nat) : calms (itrunc ip).
Proof. unfold itrunc. calm. Qed.
#[global] Instance calms_iput (ip : nat) : calms (iput ip).
Proof. unfold iput. calm. Qed.
#[global] Instance calms_iunlockput (ip : nat) : calms (iunlockput ip).
Proof. unfold iunlockput. calm. Qed.
#[global] Instance calms_stati (ip : nat) : calms (stati ip).
Proof. unfold stati. calm. Qed.
#[global] Instance calms_readi_loop (fuel : nat) (ip : nat) (off n tot : Z) (dst : list Z) : calms (readi_loop fuel ip off n tot dst).
Proof. revert ip off n tot dst. induction fuel; intros; cbn [readi_loop]; calm. Qed.
#[global] Instance calms_writei_loop (fuel : nat) (ip : nat) (src : list Z) (off n tot : Z) : calms (writei_loop fuel ip src off n tot).
Proof. revert ip src off n tot. induction fuel; intros; cbn [writei_loop]; calm. Qed.
(** *** The console as a device *)

#[global] Instance calms_consoleread_from (fuel : nat) (ip : nat) (target n : Z) (dst : list Z) : calms (consoleread_from fuel ip target n dst).
Proof. revert ip target n dst. induction fuel; intros; cbn [consoleread_from]; calm. Qed.
#[global] Instance calms_consoleread (ip : nat) (n : Z) : calms (consoleread ip n).
Proof. unfold consoleread. calm. Qed.
#[global] Instance calms_consolewrite (ip : nat) (buf : list Z) (n : Z) : calms (consolewrite ip buf n).
Proof. unfold consolewrite. calm. Qed.
#[global] Instance calms_kill (pid : Z) : calms (kill pid).
Proof.
  unfold kill. apply calms_bind; [apply _|intros _]. intros s Hs. unfold kget, kbind at 1.
  destruct (list_find _ s.(ptable)) as [[i p]|] eqn:E.
  - apply list_find_Some in E as (Hp & _ & _). rewrite (kbind_Ok _ _ _ _ _ (mod_proc_run i _ s p Hp)).
    set (p1 := set_p_killed 1 p). set (s1 := set_ptable _ s).
    assert (s1.(ptable) !! i = Some p1) as Hp1 by (cbn; apply list_lookup_insert_eq; by eapply lookup_lt_Some).
    assert (calm s s1) as Hc by (apply (calm_insert s i p); [done|]; by repeat split; left).
    assert (forall s2, calm s s2 -> match (release LkPtable ;;; kret 0) s2 with Ok _ s' | Block s' => calm s s' | _ => True end) as Hend.
    { intros s2 H2. assert (calms (release LkPtable ;;; kret 0)) as H3 by calm. specialize (H3 s2 (calm_cur _ _ H2 Hs)).
      destruct (kbind _ _ s2); try done; by apply (calm_trans _ s2). }
    destruct (decide (p.(p_state) = SLEEPING)) as [Es|_]; [|by apply Hend].
    rewrite (kbind_Ok _ _ _ _ _ (mod_proc_run i _ s1 p1 Hp1)). apply Hend. apply (calm_trans _ s1); [exact Hc|].
    apply (calm_insert s1 i p1); [done|]. split_and!; [done..|]. right. cbn. rewrite Es. unfold live. auto.
  - assert (calms (release LkPtable ;;; kret (-1))) as H3 by calm. exact (H3 s Hs).
Qed.

(** *** Devices *)

(** What the file system relies on in a device driver. *)
Class TameDevsw (d : Devsw) : Prop := {
  tame_read major f ip n : @dev_read d major = Some f -> calms (f ip n);
  tame_write major f ip l n : @dev_write d major = Some f -> calms (f ip l n)
}.

#[export] Instance console_tame : TameDevsw console_devsw.
Proof.
  split; intros major f ip; [intros n|intros l n]; cbn; (destruct (major =? CONSOLE); [|done]); intros [= <-]; apply _.
Qed.

Section devices.
Context {D : Devsw} {Htame : TameDevsw D} {I : Image} {KS : KStack}.

#[global] Instance calms_readi (ip : nat) (off n : Z) : calms (readi ip off n).
Proof.
  unfold readi. apply calms_bind; [apply _|intros i]. destruct (i.(i_type) =? T_DEV); [|calm]. destruct (_ || _); [calm|].
  destruct (dev_read i.(i_major)) eqn:E; [by eapply tame_read|calm].
Qed.
#[global] Instance calms_writei (ip : nat) (src : list Z) (off n : Z) : calms (writei ip src off n).
Proof.
  unfold writei. apply calms_bind; [apply _|intros i]. destruct (i.(i_type) =? T_DEV); [|calm]. destruct (_ || _); [calm|].
  destruct (dev_write i.(i_major)) eqn:E; [by eapply tame_write|calm].
Qed.
(** *** Directories *)

#[global] Instance calms_dirlookup_loop (fuel : nat) (dp : nat) (name : list Z) (off : Z) : calms (dirlookup_loop fuel dp name off).
Proof. revert dp name off. induction fuel; intros; cbn [dirlookup_loop]; calm. Qed.
#[global] Instance calms_dirlookup (dp : nat) (name : list Z) : calms (dirlookup dp name).
Proof. unfold dirlookup. calm. Qed.
#[global] Instance calms_dirlink_scan (fuel : nat) (dp : nat) (off : Z) : calms (dirlink_scan fuel dp off).
Proof. revert dp off. induction fuel; intros; cbn [dirlink_scan]; calm. Qed.
#[global] Instance calms_dirlink (dp : nat) (name : list Z) (inum : Z) : calms (dirlink dp name inum).
Proof. unfold dirlink. calm. Qed.
#[global] Instance calms_namex_loop (fuel : nat) (ip : nat) (path : list Z) (nameiparent : bool) (name : list Z) :
  calms (namex_loop fuel ip path nameiparent name).
Proof. revert ip path name. induction fuel; intros; cbn [namex_loop]; calm. Qed.
#[global] Instance calms_namex (path : list Z) (nameiparent : bool) (name : list Z) : calms (namex path nameiparent name).
Proof. unfold namex. calm. Qed.
#[global] Instance calms_namei (path : list Z) : calms (namei path).
Proof. unfold namei. calm. Qed.
#[global] Instance calms_nameiparent (path name : list Z) : calms (nameiparent path name).
Proof. unfold nameiparent. calm. Qed.
(** *** Files *)

#[global] Instance calms_filealloc : calms (filealloc).
Proof. unfold filealloc. calm. Qed.
#[global] Instance calms_filedup (f : nat) : calms (filedup f).
Proof. unfold filedup. calm. Qed.
#[global] Instance calms_fileclose (f : nat) : calms (fileclose f).
Proof. unfold fileclose. calm. Qed.
#[global] Instance calms_filestat (f : nat) : calms (filestat f).
Proof. unfold filestat. calm. Qed.
#[global] Instance calms_fileread (f : nat) (n : Z) : calms (fileread f n).
Proof. unfold fileread. calm. Qed.
#[global] Instance calms_filewrite (f : nat) (addr : list Z) (n : Z) : calms (filewrite f addr n).
Proof. unfold filewrite. calm. Qed.
#[global] Instance calms_pipealloc : calms (pipealloc).
Proof. unfold pipealloc. calm. Qed.
(** *** Address spaces *)

#[global] Instance calms_peek (a : Z) : calms (peek a).
Proof. unfold peek. calm. Qed.
#[global] Instance calms_poke (a v : Z) : calms (poke a v).
Proof. unfold poke. calm. Qed.
#[global] Instance calms_kmemset (a c n : Z) : calms (kmemset a c n).
Proof. unfold kmemset. calm. Qed.
#[global] Instance calms_kmemmove (dst src n : Z) : calms (kmemmove dst src n).
Proof. unfold kmemmove. calm. Qed.
#[global] Instance calms_mmu (va : Z) : calms (mmu va).
Proof. unfold mmu. calm. Qed.
#[global] Instance calms_ld8 (va : Z) : calms (ld8 va).
Proof. unfold ld8. calm. Qed.
#[global] Instance calms_st8 (va v : Z) : calms (st8 va v).
Proof. unfold st8. calm. Qed.
#[global] Instance calms_ld_bytes (n : nat) (va : Z) : calms (ld_bytes n va).
Proof. revert va. induction n; intros; cbn [ld_bytes]; calm. Qed.
#[global] Instance calms_st_bytes (va : Z) (l : list Z) : calms (st_bytes va l).
Proof. revert va. induction l; intros; cbn [st_bytes]; calm. Qed.
#[global] Instance calms_ld32 (va : Z) : calms (ld32 va).
Proof. unfold ld32. calm. Qed.
#[global] Instance calms_st32 (va v : Z) : calms (st32 va v).
Proof. unfold st32. calm. Qed.
#[global] Instance calms_st16 (va v : Z) : calms (st16 va v).
Proof. unfold st16. calm. Qed.
#[global] Instance calms_walkpgdir (pgdir va : Z) (create : bool) : calms (walkpgdir pgdir va create).
Proof. unfold walkpgdir. calm. Qed.
#[global] Instance calms_mappages_loop (fuel : nat) (pgdir a last pa perm : Z) : calms (mappages_loop fuel pgdir a last pa perm).
Proof. revert pgdir a last pa perm. induction fuel; intros; cbn [mappages_loop]; calm. Qed.
#[global] Instance calms_mappages (pgdir la size pa perm : Z) : calms (mappages pgdir la size pa perm).
Proof. unfold mappages. calm. Qed.
#[global] Instance calms_setupkvm : calms (setupkvm).
Proof. unfold setupkvm. calm. Qed.
#[global] Instance calms_switchuvm (p : nat) : calms (switchuvm p).
Proof. unfold switchuvm. calm. Qed.
#[global] Instance calms_uva2ka (pgdir uva : Z) : calms (uva2ka pgdir uva).
Proof. unfold uva2ka. calm. Qed.
#[global] Instance calms_loaduvm_loop (fuel : nat) (pgdir addr : Z) (ip : nat) (offset sz i : Z) : calms (loaduvm_loop fuel pgdir addr ip offset sz i).
Proof. revert pgdir addr ip offset sz i. induction fuel; intros; cbn [loaduvm_loop]; calm. Qed.
#[global] Instance calms_loaduvm (pgdir addr : Z) (ip : nat) (offset sz : Z) : calms (loaduvm pgdir addr ip offset sz).
Proof. unfold loaduvm. calm. Qed.
#[global] Instance calms_dealloc_loop (fuel : nat) (pgdir a last : Z) : calms (dealloc_loop fuel pgdir a last).
Proof. revert pgdir a last. induction fuel; intros; cbn [dealloc_loop]; calm. Qed.
#[global] Instance calms_deallocuvm (pgdir oldsz newsz : Z) : calms (deallocuvm pgdir oldsz newsz).
Proof. unfold deallocuvm. calm. Qed.
#[global] Instance calms_alloc_loop (fuel : nat) (pgdir oldsz newsz a last : Z) : calms (alloc_loop fuel pgdir oldsz newsz a last).
Proof. revert pgdir oldsz newsz a last. induction fuel; intros; cbn [alloc_loop]; calm. Qed.
#[global] Instance calms_allocuvm (pgdir oldsz newsz : Z) : calms (allocuvm pgdir oldsz newsz).
Proof. unfold allocuvm. calm. Qed.
#[global] Instance calms_freevm (pgdir : Z) : calms (freevm pgdir).
Proof. unfold freevm. calm. Qed.
#[global] Instance calms_copy_loop (fuel : nat) (pgdir d sz i : Z) : calms (copy_loop fuel pgdir d sz i).
Proof. revert pgdir d sz i. induction fuel; intros; cbn [copy_loop]; calm. Qed.
#[global] Instance calms_copyuvm (pgdir sz : Z) : calms (copyuvm pgdir sz).
Proof. unfold copyuvm. calm. Qed.
(** *** Growing *)

#[global] Instance calms_growproc (n : Z) : calms (growproc n).
Proof. unfold growproc. calm. Qed.
(** *** Arguments *)

#[global] Instance calms_fetchint (p : proc) (addr : Z) : calms (fetchint p addr).
Proof. unfold fetchint. calm. Qed.
#[global] Instance calms_fetchstr_loop (fuel : nat) (s : Z) (acc : list Z) : calms (fetchstr_loop fuel s acc).
Proof. revert s acc. induction fuel; intros; cbn [fetchstr_loop]; calm. Qed.
#[global] Instance calms_fetchstr (p : proc) (addr : Z) : calms (fetchstr p addr).
Proof. unfold fetchstr. calm. Qed.
#[global] Instance calms_cur : calms (cur).
Proof. unfold cur. calm. Qed.
#[global] Instance calms_argint (n : Z) : calms (argint n).
Proof. unfold argint. calm. Qed.
#[global] Instance calms_argptr (n size : Z) : calms (argptr n size).
Proof. unfold argptr. calm. Qed.
#[global] Instance calms_argstr (n : Z) : calms (argstr n).
Proof. unfold argstr. calm. Qed.
(** *** exec *)

#[global] Instance calms_exec_load (fuel : nat) (ip : nat) (off : Z) (pgdir sz : Z) : calms (exec_load fuel ip off pgdir sz).
Proof. revert ip off pgdir sz. induction fuel; intros; cbn [exec_load]; calm. Qed.
#[global] Instance calms_page_put (mem off : Z) (l : list Z) : calms (page_put mem off l).
Proof. unfold page_put. calm. Qed.
#[global] Instance calms_page_poke (mem off v : Z) : calms (page_poke mem off v).
Proof. unfold page_poke. calm. Qed.
#[global] Instance calms_push_args (rargs : list (list Z)) (mem sp spbottom argp : Z) : calms (push_args rargs mem sp spbottom argp).
Proof. revert mem sp spbottom argp. induction rargs; intros; cbn [push_args]; calm. Qed.
#[global] Instance calms_exec_bad (pgdir : Z) (ip : nat) : calms (exec_bad pgdir ip).
Proof. unfold exec_bad. calm. Qed.
#[global] Instance calms_exec_stack (path : list Z) (argv : list (list Z)) (ip : nat) (pgdir sz entry : Z) : calms (exec_stack path argv ip pgdir sz entry).
Proof. unfold exec_stack. calm. Qed.
#[global] Instance calms_exec (path : list Z) (argv : list (list Z)) : calms (exec path argv).
Proof. unfold exec. calm. Qed.
(** *** Process calls *)

#[global] Instance calms_sys_nice : calms (sys_nice).
Proof. unfold sys_nice. calm. Qed.
#[global] Instance calms_sys_kill : calms (sys_kill).
Proof. unfold sys_kill. calm. Qed.
#[global] Instance calms_sys_getpid : calms (sys_getpid).
Proof. unfold sys_getpid. calm. Qed.
#[global] Instance calms_sys_sbrk : calms (sys_sbrk).
Proof. unfold sys_sbrk. calm. Qed.
#[global] Instance calms_sleep_ticks (ticks0 n : Z) : calms (sleep_ticks ticks0 n).
Proof. unfold sleep_ticks. calm. Qed.
#[global] Instance calms_sys_sleep : calms (sys_sleep).
Proof. unfold sys_sleep. calm. Qed.
#[global] Instance calms_sys_uptime : calms (sys_uptime).
Proof. unfold sys_uptime. calm. Qed.
(** *** File calls *)

#[global] Instance calms_argfd (n : Z) : calms (argfd n).
Proof. unfold argfd. calm. Qed.
#[global] Instance calms_fdalloc (f : nat) : calms (fdalloc f).
Proof. unfold fdalloc. calm. Qed.
#[global] Instance calms_sys_dup : calms (sys_dup).
Proof. unfold sys_dup. calm. Qed.
#[global] Instance calms_arg_rw : calms (arg_rw).
Proof. unfold arg_rw. calm. Qed.
#[global] Instance calms_ld_upto (n : nat) (va : Z) : calms (ld_upto n va).
Proof.
  revert va. induction n as [|n IH]; intros va; cbn [ld_upto]; [calm|]. intros s Hs.
  pose proof (calms_ld8 va s Hs) as H1. destruct (ld8 va s) as [b s1| | |]; try apply calm_preorder.
  assert (calms (let* l := ld_upto n (va + 1) in kret (b :: l))) as H2 by calm. specialize (H2 s1 (calm_cur _ _ H1 Hs)).
  destruct (kbind _ _ s1); try done; by apply (calm_trans _ s1).
Qed.
#[global] Instance calms_sys_read : calms (sys_read).
Proof. unfold sys_read. calm. Qed.
#[global] Instance calms_sys_write : calms (sys_write).
Proof. unfold sys_write. calm. Qed.
#[global] Instance calms_sys_close : calms (sys_close).
Proof. unfold sys_close. calm. Qed.
#[global] Instance calms_st_stat (va : Z) (st : stat) : calms (st_stat va st).
Proof. unfold st_stat. calm. Qed.
#[global] Instance calms_sys_fstat : calms (sys_fstat).
Proof. unfold sys_fstat. calm. Qed.
#[global] Instance calms_sys_link : calms (sys_link).
Proof. unfold sys_link. calm. Qed.
#[global] Instance calms_isdirempty_loop (fuel : nat) (dp : nat) (off : Z) : calms (isdirempty_loop fuel dp off).
Proof. revert dp off. induction fuel; intros; cbn [isdirempty_loop]; calm. Qed.
#[global] Instance calms_isdirempty (dp : nat) : calms (isdirempty dp).
Proof. unfold isdirempty. calm. Qed.
#[global] Instance calms_sys_unlink : calms (sys_unlink).
Proof. unfold sys_unlink. calm. Qed.
#[global] Instance calms_create (path : list Z) (type major minor : Z) : calms (create path type major minor).
Proof. unfold create. calm. Qed.
#[global] Instance calms_open_inode (path : list Z) (omode : Z) : calms (open_inode path omode).
Proof. unfold open_inode. calm. Qed.
#[global] Instance calms_sys_open : calms (sys_open).
Proof. unfold sys_open. calm. Qed.
#[global] Instance calms_sys_mkdir : calms (sys_mkdir).
Proof. unfold sys_mkdir. calm. Qed.
#[global] Instance calms_sys_mknod : calms (sys_mknod).
Proof. unfold sys_mknod. calm. Qed.
#[global] Instance calms_sys_chdir : calms (sys_chdir).
Proof. unfold sys_chdir. calm. Qed.
#[global] Instance calms_fetch_argv (fuel : nat) (uargv : Z) : calms (fetch_argv fuel uargv).
Proof. revert uargv. induction fuel; intros; cbn [fetch_argv]; calm. Qed.
#[global] Instance calms_sys_exec : calms (sys_exec).
Proof. unfold sys_exec. calm. Qed.
#[global] Instance calms_sys_pipe : calms (sys_pipe).
Proof. unfold sys_pipe. calm. Qed.
(** *** Traps *)

#[global] Instance calms_set_eax (v : Z) : calms (set_eax v).
Proof. unfold set_eax. calm. Qed.
#[global] Instance calms_clock_tick : calms (clock_tick).
Proof. unfold clock_tick. calm. Qed.
#[global] Instance calms_charge_tick (flag : schedflag) : calms (charge_tick flag).
Proof. unfold charge_tick. calm. Qed.
End devices.
