(* ===== verification/ProcInv.v ===== *)
(** The process table across the whole kernel.

    Processes are identified by distinct positive pids, and the parent of a
    process takes part in scheduling, so that a process that exits is always
    waited for by a process that can run.  Most of the kernel cannot break this
    because it is calm (Calm.v); the routines that create and remove processes
    (allocproc, fork, exit, wait and wait2 of proc.c) are treated here, and the
    result is the invariant of every trap, whether it returns to the process or
    gives up the CPU. *)

From S2P Require Import Prelude CString State Kalloc ProcSync Console Ide Inode File Vm Proc ConsoleDev Syscall Exec Sysproc Sysfile Trap Calm.

(** ** The invariant *)

(** A slot whose process may have children or be waited for. *)
Definition settled (p : proc) : Prop := p.(p_state) <> UNUSED /\ p.(p_state) <> EMBRYO.

Record procs_ok (s : kstate) : Prop := {
  po_next : 0 < s.(nextpid);
  po_pid i p : s.(ptable) !! i = Some p -> p.(p_state) <> UNUSED -> 0 < p.(p_pid) < s.(nextpid);
  po_distinct i j p q : s.(ptable) !! i = Some p -> s.(ptable) !! j = Some q ->
    p.(p_state) <> UNUSED -> q.(p_state) <> UNUSED -> p.(p_pid) = q.(p_pid) -> i = j;
  po_parent i p k : s.(ptable) !! i = Some p -> settled p -> p.(p_parent) = Some k ->
    exists q, s.(ptable) !! k = Some q /\ live q.(p_state);
  po_init k : s.(initproc) = Some k -> exists q, s.(ptable) !! k = Some q /\ live q.(p_state)
}.

Definition good (s : kstate) : Prop := procs_ok s /\ cur_live s.

Lemma live_settled st : live st -> st <> UNUSED /\ st <> EMBRYO /\ st <> ZOMBIE.
Proof. unfold live. intros [E | [E | E] ]; by subst. Qed.

Lemma calm_state p q : calm_proc p q -> ~ live p.(p_state) -> q.(p_state) = p.(p_state).
Proof. intros (_ & _ & [E|[? _]]) Hn; [done|by destruct Hn]. Qed.

Lemma calm_used p q : calm_proc p q -> q.(p_state) <> UNUSED -> p.(p_state) <> UNUSED.
Proof. intros (_ & _ & [E|[H _]]) Hq; [congruence|by apply live_settled]. Qed.

Lemma calm_settled p q : calm_proc p q -> settled q -> settled p.
Proof. intros (_ & _ & [E|[H _]]) [H1 H2]; [by split; congruence|]. split; by apply live_settled. Qed.

Lemma calm_ok s s' : calm s s' -> procs_ok s -> procs_ok s'.
Proof.
  intros Hc [H1 H2 H3 H4 H5]. pose proof Hc as (En & _ & Ei & _). split.
  - by rewrite En.
  - intros i q Hq Hu. destruct (calm_lookup_r _ _ _ _ Hc Hq) as (p & Hp & Hpq). pose proof Hpq as (-> & _). rewrite En.
    apply (H2 i p Hp). by apply (calm_used _ _ Hpq).
  - intros i j q1 q2 Hq1 Hq2 Hu1 Hu2 E. destruct (calm_lookup_r _ _ _ _ Hc Hq1) as (p1 & Hp1 & C1).
    destruct (calm_lookup_r _ _ _ _ Hc Hq2) as (p2 & Hp2 & C2). pose proof C1 as (E1 & _). pose proof C2 as (E2 & _).
    apply (H3 i j p1 p2 Hp1 Hp2); [by apply (calm_used _ _ C1)|by apply (calm_used _ _ C2)|congruence].
  - intros i q k Hq Hs Hk. destruct (calm_lookup_r _ _ _ _ Hc Hq) as (p & Hp & Hpq). pose proof Hpq as (_ & Ep & _).
    destruct (H4 i p k Hp (calm_settled _ _ Hpq Hs) ltac:(congruence)) as (r & Hr & Hl).
    destruct (calm_lookup _ _ _ _ Hc Hr) as (r' & Hr' & Hrr). exists r'. split; [done|]. by apply (calm_live _ _ Hrr).
  - intros k Hk. rewrite Ei in Hk. destruct (H5 k Hk) as (r & Hr & Hl).
    destruct (calm_lookup _ _ _ _ Hc Hr) as (r' & Hr' & Hrr). exists r'. split; [done|]. by apply (calm_live _ _ Hrr).
Qed.

Lemma calm_good s s' : calm s s' -> good s -> good s'.
Proof. intros Hc [H1 H2]. split; [by apply (calm_ok s)|by apply (calm_cur s)]. Qed.

(** ** Outcomes *)

(** [m] run at [s]: [Q] when it returns, the invariant when it gives up the
    CPU. *)
Definition wp {A} (m : K A) (s : kstate) (Q : A -> kstate -> Prop) : Prop :=
  match m s with Ok a s' => Q a s' | Block s' => procs_ok s' | _ => True end.

Lemma wp_bind {A B} (m : K A) (f : A -> K B) s Q : wp m s (fun a s' => wp (f a) s' Q) -> wp (kbind m f) s Q.
Proof. unfold wp, kbind. by destruct (m s). Qed.

Lemma wp_calm {A} (m : K A) s (Q : A -> kstate -> Prop) :
  calms m -> good s -> (forall a s', calm s s' -> good s' -> Q a s') -> wp m s Q.
Proof.
  intros Hm Hs HQ. unfold wp. specialize (Hm s (proj2 Hs)). destruct (m s); try done.
  - apply HQ; [done|by apply (calm_good s)].
  - by apply (calm_ok s); [|apply Hs].
Qed.

Lemma wp_mono {A} (m : K A) s (Q R : A -> kstate -> Prop) : wp m s Q -> (forall a s', Q a s' -> R a s') -> wp m s R.
Proof. unfold wp. destruct (m s); auto. Qed.

Lemma wp_myproc s (Q : nat -> kstate -> Prop) : (forall me, s.(curproc) = Some me -> Q me s) -> wp myproc s Q.
Proof. intros H. unfold wp, myproc. destruct s.(curproc); auto. Qed.

Lemma wp_get_proc i s (Q : proc -> kstate -> Prop) : (forall p, s.(ptable) !! i = Some p -> Q p s) -> wp (get_proc i) s Q.
Proof. intros H. unfold wp, get_proc. destruct (s.(ptable) !! i); auto. Qed.

Lemma wp_mod_proc i f s (Q : unit -> kstate -> Prop) :
  (forall p, s.(ptable) !! i = Some p -> Q tt (set_ptable (<[i := f p]> s.(ptable)) s)) -> wp (mod_proc i f) s Q.
Proof.
  intros H. unfold wp, mod_proc, get_proc, kbind. destruct (s.(ptable) !! i) as [p|]; [|done]. by apply H.
Qed.

(** ** Changing one slot *)

(** A slot nobody depends on may become anything that obeys the rules. *)
Lemma good_slot s i p q :
  good s -> s.(ptable) !! i = Some p -> ~ live p.(p_state) ->
  (q.(p_state) <> UNUSED -> p.(p_state) <> UNUSED /\ q.(p_pid) = p.(p_pid)) ->
  (settled q -> forall k, q.(p_parent) = Some k -> k <> i /\ exists r, s.(ptable) !! k = Some r /\ live r.(p_state)) ->
  good (set_ptable (<[i := q]> s.(ptable)) s).
Proof.
  intros [[H1 H2 H3 H4 H5] Hcur] Hi Hn Hu Hpar. pose proof (lookup_lt_Some _ _ _ Hi) as Hlt.
  assert (forall k r, s.(ptable) !! k = Some r -> live r.(p_state) -> <[i := q]> s.(ptable) !! k = Some r) as Hkeep.
  { intros k r Hr Hl. rewrite list_lookup_insert_ne; [done|]. intros <-. congruence. }
  assert (forall j r, <[i := q]> s.(ptable) !! j = Some r -> r.(p_state) <> UNUSED ->
            exists r0, s.(ptable) !! j = Some r0 /\ r0.(p_state) <> UNUSED /\ r.(p_pid) = r0.(p_pid)) as Hback.
  { intros j r Hr Hru. destruct (decide (i = j)) as [<-|Hne].
    - rewrite list_lookup_insert_eq in Hr by done. simplify_eq. destruct (Hu Hru). eauto.
    - rewrite list_lookup_insert_ne in Hr by done. eauto. }
  split; [split; cbn|].
  - done.
  - intros j r Hr Hru. destruct (Hback j r Hr Hru) as (r0 & Hr0 & Hu0 & ->). by apply (H2 j).
  - intros j k r1 r2 Hr1 Hr2 Hu1 Hu2 E. destruct (Hback _ _ Hr1 Hu1) as (a & Ha & Hua & Ea), (Hback _ _ Hr2 Hu2) as (b & Hb & Hub & Eb).
    apply (H3 j k a b); congruence || done.
  - intros j r k Hr Hs Hk. destruct (decide (i = j)) as [<-|Hne].
    + rewrite list_lookup_insert_eq in Hr by done. simplify_eq. destruct (Hpar Hs k Hk) as (_ & x & Hx & Hl). eauto.
    + rewrite list_lookup_insert_ne in Hr by done. destruct (H4 j r k Hr Hs Hk) as (x & Hx & Hl). eauto.
  - intros k Hk. destruct (H5 k Hk) as (x & Hx & Hl). eauto.
  - intros me Hme. destruct (Hcur me Hme) as (x & Hx & Hl). cbn. eauto.
Qed.

(** What is known of a slot outside scheduling survives calm changes. *)
Definition slot (s : kstate) (i : nat) (st : procstate) (par : option nat) : Prop :=
  exists p, s.(ptable) !! i = Some p /\ p.(p_state) = st /\ p.(p_parent) = par.

Lemma calm_slot s s' i st par : calm s s' -> ~ live st -> slot s i st par -> slot s' i st par.
Proof.
  intros Hc Hn (p & Hp & <- & <-). destruct (calm_lookup _ _ _ _ Hc Hp) as (q & Hq & Hpq). exists q.
  split; [done|]. split; [by apply calm_state|by destruct Hpq as (_ & ? & _)].
Qed.

Lemma not_live st : st = UNUSED \/ st = EMBRYO \/ st = ZOMBIE -> ~ live st.
Proof. unfold live. intros [E | [E | E] ]; subst; intros [?|[?|?]]; done. Qed.

(** A slot that becomes or stays free. *)
Lemma wp_unused i f s st par (Q : unit -> kstate -> Prop) :
  good s -> slot s i st par -> ~ live st -> (forall p, p.(p_state) = st -> (f p).(p_state) = UNUSED) ->
  (forall s', good s' -> s'.(curproc) = s.(curproc) -> (exists par', slot s' i UNUSED par') -> Q tt s') -> wp (mod_proc i f) s Q.
Proof.
  intros Hg (p & Hp & <- & _) Hn Hf HQ. apply wp_mod_proc. intros p' Hp'. replace p' with p by congruence. specialize (Hf p eq_refl). apply HQ.
  - apply (good_slot s i p); [done..| |]; [intros; congruence|]. intros [? _]. congruence.
  - done.
  - exists (f p).(p_parent), (f p). cbn. rewrite list_lookup_insert_eq by (by eapply lookup_lt_Some). done.
Qed.

(** ** Creating processes *)

Lemma good_new s i p :
  good s -> s.(ptable) !! i = Some p -> p.(p_state) = UNUSED ->
  good (set_nextpid (s.(nextpid) + 1) (set_ptable (<[i := set_p_pid s.(nextpid) (set_p_state EMBRYO p)]> s.(ptable)) s)).
Proof.
  intros [[H1 H2 H3 H4 H5] Hcur] Hi Hu. set (q := set_p_pid _ _). pose proof (lookup_lt_Some _ _ _ Hi) as Hlt.
  assert (forall k r, s.(ptable) !! k = Some r -> live r.(p_state) -> <[i := q]> s.(ptable) !! k = Some r) as Hkeep.
  { intros k r Hr Hl. rewrite list_lookup_insert_ne; [done|]. intros <-. apply live_settled in Hl as [? _]. congruence. }
  assert (forall j r, <[i := q]> s.(ptable) !! j = Some r -> (j = i /\ r = q) \/ (j <> i /\ s.(ptable) !! j = Some r)) as Hcase.
  { intros j r Hr. destruct (decide (i = j)) as [<-|Hne].
    - rewrite list_lookup_insert_eq in Hr by done. simplify_eq. auto.
    - rewrite list_lookup_insert_ne in Hr by done. auto. }
  split; [split; cbn|].
  - lia.
  - intros j r Hr Hru. destruct (Hcase j r Hr) as [[-> ->]|[_ Hr0]]; [cbn; lia|]. specialize (H2 j r Hr0 Hru). lia.
  - intros j k r1 r2 Hr1 Hr2 Hu1 Hu2 E. destruct (Hcase _ _ Hr1) as [[-> ->]|[N1 R1]], (Hcase _ _ Hr2) as [[-> ->]|[N2 R2]]; [done| | |].
    + specialize (H2 k r2 R2 Hu2). cbn in E. lia.
    + specialize (H2 j r1 R1 Hu1). cbn in E. lia.
    + by apply (H3 j k r1 r2).
  - intros j r k Hr Hs Hk. destruct (Hcase _ _ Hr) as [[-> ->]|[_ Hr0]]; [by destruct Hs|].
    destruct (H4 j r k Hr0 Hs Hk) as (x & Hx & Hl). eauto.
  - intros k Hk. destruct (H5 k Hk) as (x & Hx & Hl). eauto.
  - intros me Hme. destruct (Hcur me Hme) as (x & Hx & Hl). cbn. eauto.
Qed.

(** One calm step of a sequence; [C] says that the state has changed calmly
    since some point. *)
Ltac calm_next C :=
  apply wp_bind, wp_calm; [calm|eassumption|];
  let a := fresh "a" in let s' := fresh "s" in let C' := fresh in let G' := fresh in
  intros a s' C' G'; apply (calm_trans _ _ _ C) in C'; clear C; rename C' into C.

(** Start counting. *)
Ltac calm_from s C := assert (calm s s) as C by apply calm_preorder.

Section procs.
Context {D : Devsw} {Htame : TameDevsw D} {Im : Image} {KS : KStack}.

Lemma calm_curproc s s' : calm s s' -> s'.(curproc) = s.(curproc).
Proof. by intros (_ & ? & _). Qed.

Lemma calm_nextpid s s' : calm s s' -> s'.(nextpid) = s.(nextpid).
Proof. by intros (? & _). Qed.

Lemma wp_allocproc s (Q : option nat -> kstate -> Prop) :
  good s -> s.(nextpid) < 2 ^ 31 - 1 ->
  (forall s', good s' -> s'.(curproc) = s.(curproc) -> Q None s') ->
  (forall np s' par, good s' -> s'.(curproc) = s.(curproc) -> slot s' np EMBRYO par -> Q (Some np) s') ->
  wp allocproc s Q.
Proof.
  intros Hg Hn HQ0 HQ. unfold allocproc. apply wp_bind, wp_calm; [apply _|done|]. intros _ s1 C1 G1.
  apply wp_bind. unfold wp at 1, kget. pose proof (calm_curproc _ _ C1) as Ec. pose proof (calm_nextpid _ _ C1) as En.
  destruct (list_find _ s1.(ptable)) as [[i p]|] eqn:E.
  2:{ apply wp_bind, wp_calm; [apply _|done|]. intros _ s2 C2 G2. apply HQ0; [done|]. by rewrite (calm_curproc _ _ C2). }
  apply list_find_Some in E as (Hp & Hu & _). pose proof (lookup_lt_Some _ _ _ Hp) as Hlt.
  apply wp_bind, wp_mod_proc. intros p' Hp'. replace p' with p by congruence. clear p' Hp'.
  apply wp_bind. unfold wp at 1. cbn [kget nextpid set_ptable]. apply wp_bind, wp_mod_proc. intros p' Hp'.
  cbn in Hp'. rewrite list_lookup_insert_eq in Hp' by done. injection Hp' as <-.
  apply wp_bind. unfold wp at 1, kmod. cbn [ptable set_ptable]. rewrite list_insert_insert_eq, s32_small by (destruct G1 as [[] _]; lia).
  pose proof (good_new s1 i p G1 Hp Hu) as G2. set (s2 := set_nextpid _ _) in G2.
  match goal with |- wp ?m _ Q => change (wp m s2 Q) end.
  assert (slot s2 i EMBRYO p.(p_parent)) as S2.
  { exists (set_p_pid s1.(nextpid) (set_p_state EMBRYO p)). split; [|done]. cbn. by apply list_lookup_insert_eq. }
  assert (s2.(curproc) = s.(curproc)) as Ec2 by exact Ec. clearbody s2. clear -G2 S2 Ec2 HQ0 HQ.
  apply wp_bind, wp_calm; [apply _|done|]. intros _ s3 C3 G3.
  apply wp_bind, wp_calm; [apply _|done|]. intros k s4 C4 G4.
  apply wp_bind, wp_calm; [calm|done|]. intros _ s5 C5 G5.
  pose proof (calm_trans _ _ _ (calm_trans _ _ _ C3 C4) C5) as C.
  pose proof (calm_slot _ _ _ _ _ C (not_live EMBRYO ltac:(auto)) S2) as S5. rewrite <- (calm_curproc _ _ C) in Ec2.
  destruct (k =? 0).
  - apply wp_bind. eapply (wp_unused i _ s5); [done|exact S5|by apply not_live; auto|done|]. intros s6 G6 E6 _. apply HQ0; [done|congruence].
  - calm_from s5 C0.
    do 5 calm_next C0.
    apply (HQ i _ p.(p_parent)); [done|by rewrite (calm_curproc _ _ C0)|].
    by apply (calm_slot _ _ _ _ _ C0 (not_live EMBRYO ltac:(auto))).
Qed.
(** ** fork *)

(** A new slot gets its parent, and later takes part in scheduling. *)
Lemma wp_adopt np me s par (Q : unit -> kstate -> Prop) :
  good s -> slot s np EMBRYO par ->
  (forall s', good s' -> s'.(curproc) = s.(curproc) -> slot s' np EMBRYO (Some me) -> Q tt s') ->
  wp (mod_proc np (set_p_parent (Some me))) s Q.
Proof.
  intros Hg (p & Hp & Hst & _) HQ. apply wp_mod_proc. intros p' Hp'. replace p' with p by congruence. apply HQ.
  - apply (good_slot s np p); [done|done|rewrite Hst; apply not_live; auto| |].
    + intros _. cbn. rewrite Hst. done.
    + intros [_ Hne]. cbn in Hne. congruence.
  - done.
  - exists (set_p_parent (Some me) p). cbn. rewrite list_lookup_insert_eq by (by eapply lookup_lt_Some). done.
Qed.

Lemma wp_start np me s (Q : unit -> kstate -> Prop) :
  good s -> slot s np EMBRYO (Some me) -> s.(curproc) = Some me -> (forall s', good s' -> Q tt s') ->
  wp (mod_proc np (set_p_state RUNNABLE)) s Q.
Proof.
  intros Hg (p & Hp & Hst & Hpar) Hme HQ. apply wp_mod_proc. intros p' Hp'. replace p' with p by congruence. apply HQ.
  destruct (proj2 Hg me Hme) as (q & Hq & Hl).
  apply (good_slot s np p); [done|done|rewrite Hst; apply not_live; auto| |].
  - intros _. rewrite Hst. done.
  - intros _ k Hk. cbn in Hk. rewrite Hpar in Hk. injection Hk as <-. split; [|by exists q].
    intros ->. assert (p = q) as -> by congruence. rewrite Hst in Hl. by apply live_settled in Hl as (_ & ? & _).
Qed.

Lemma wp_fork s : good s -> s.(nextpid) < 2 ^ 31 - 1 -> wp fork s (fun _ s' => good s').
Proof.
  intros Hg Hn. unfold fork. apply wp_bind, wp_allocproc; [done|done|done|].
  intros np s1 par G1 E1 S1. apply wp_bind, wp_myproc. intros me Hme. apply wp_bind, wp_get_proc. intros p Hp.
  calm_from s1 CC. calm_next CC. rename a into d. calm_next CC.
  pose proof (not_live EMBRYO ltac:(auto)) as Hne.
  destruct (d =? 0).
  - do 3 calm_next CC. apply (calm_slot _ _ _ _ _ CC Hne) in S1.
    apply wp_bind. eapply wp_unused; [eassumption|exact S1|done|done|]. intros s' G' _ _. exact G'.
  - calm_next CC. apply (calm_slot _ _ _ _ _ CC Hne) in S1. rewrite <- (calm_curproc _ _ CC) in Hme. clear CC.
    apply wp_bind. eapply wp_adopt; [eassumption|exact S1|]. intros s5 G5 E5 S5. rewrite <- E5 in Hme.
    calm_from s5 CC. do 7 calm_next CC. apply (calm_slot _ _ _ _ _ CC Hne) in S5. rewrite <- (calm_curproc _ _ CC) in Hme.
    apply wp_bind. eapply wp_start; [eassumption|exact S5|done|]. intros s' G'. calm_from s' C'. calm_next C'. assumption.
Qed.

(** ** exit *)

Lemma good_reparent s i p par :
  good s -> s.(ptable) !! i = Some p -> (forall k, par = Some k -> exists r, s.(ptable) !! k = Some r /\ live r.(p_state)) ->
  good (set_ptable (<[i := set_p_parent par p]> s.(ptable)) s).
Proof.
  intros [[H1 H2 H3 H4 H5] Hcur] Hi Hpar. pose proof (lookup_lt_Some _ _ _ Hi) as Hlt.
  assert (forall k, (exists r, s.(ptable) !! k = Some r /\ live r.(p_state)) ->
            exists r, <[i := set_p_parent par p]> s.(ptable) !! k = Some r /\ live r.(p_state)) as Hkeep.
  { intros k (r & Hr & Hl). destruct (decide (i = k)) as [<-|Hne].
    - exists (set_p_parent par p). rewrite list_lookup_insert_eq by done. by simplify_eq.
    - exists r. by rewrite list_lookup_insert_ne. }
  assert (forall j r, <[i := set_p_parent par p]> s.(ptable) !! j = Some r ->
            exists r0, s.(ptable) !! j = Some r0 /\ r.(p_state) = r0.(p_state) /\ r.(p_pid) = r0.(p_pid) /\
              (r.(p_parent) = par \/ r.(p_parent) = r0.(p_parent))) as Hback.
  { intros j r Hr. destruct (decide (i = j)) as [<-|Hne].
    - rewrite list_lookup_insert_eq in Hr by done. simplify_eq. exists p. auto.
    - rewrite list_lookup_insert_ne in Hr by done. exists r. auto. }
  split; [split; cbn|].
  - done.
  - intros j r Hr. destruct (Hback j r Hr) as (r0 & Hr0 & -> & -> & _). by apply (H2 j).
  - intros j k r1 r2 Hr1 Hr2. destruct (Hback _ _ Hr1) as (a & Ha & -> & -> & _), (Hback _ _ Hr2) as (b & Hb & -> & -> & _).
    by apply (H3 j k a b).
  - intros j r k Hr Hs Hk. destruct (Hback _ _ Hr) as (r0 & Hr0 & Est & _ & Ep). apply Hkeep.
    destruct Ep as [Ep|Ep]; [apply Hpar; congruence|]. apply (H4 j r0 k Hr0); [|congruence]. unfold settled in *. by rewrite <- Est.
  - intros k Hk. by apply Hkeep, H5.
  - intros me Hme. by apply Hkeep, Hcur.
Qed.

(** No process below [n] is a child of [me]. *)
Definition orphaned (me : nat) (n : nat) (s : kstate) : Prop :=
  forall j p, (j < n)%nat -> s.(ptable) !! j = Some p -> p.(p_parent) <> Some me.

Definition leaving (me : nat) (s : kstate) : Prop := good s /\ s.(curproc) = Some me /\ s.(initproc) <> Some me.

Lemma calm_leaving me s s' : calm s s' -> leaving me s -> leaving me s'.
Proof. intros C (G & Hc & Hi). pose proof C as (_ & Ec & Ei & _). split; [by apply (calm_good s)|]. by rewrite Ec, Ei. Qed.

Lemma calm_orphaned me n s s' : calm s s' -> orphaned me n s -> orphaned me n s'.
Proof. intros C H j q Hj Hq. destruct (calm_lookup_r _ _ _ _ C Hq) as (p & Hp & (_ & -> & _)). by apply (H j). Qed.

Lemma wp_reparent me i s (Q : unit -> kstate -> Prop) :
  leaving me s -> orphaned me i s ->
  (forall s', leaving me s' -> orphaned me (S i) s' -> length s'.(ptable) = length s.(ptable) -> Q tt s') -> wp (reparent me i) s Q.
Proof.
  intros (G & Hc & Hi) Ho HQ. unfold reparent. apply wp_bind, wp_get_proc. intros p Hp.
  destruct (decide (p.(p_parent) = Some me)) as [E|E].
  - apply wp_bind. unfold wp at 1, kget. apply wp_bind, wp_mod_proc. intros p' Hp'. replace p' with p by congruence. clear p' Hp'.
    pose proof (lookup_lt_Some _ _ _ Hp) as Hlt.
    assert (good (set_ptable (<[i := set_p_parent s.(initproc) p]> s.(ptable)) s)) as G1.
    { apply good_reparent; [done..|]. intros k Hk. by apply (po_init _ (proj1 G)). }
    set (s1 := set_ptable _ s) in *. assert (orphaned me (S i) s1) as O1.
    { intros j q Hj Hq. cbn in Hq. destruct (decide (i = j)) as [<-|Hne].
      - rewrite list_lookup_insert_eq in Hq by done. simplify_eq. exact Hi.
      - rewrite list_lookup_insert_ne in Hq by done. apply (Ho j q); [lia|done]. }
    assert (length s1.(ptable) = length s.(ptable)) as L1 by apply length_insert.
    apply wp_calm; [destruct (decide _); apply _|done|]. intros [] s2 C2 G2. apply HQ.
    + by apply (calm_leaving me s1).
    + by apply (calm_orphaned me _ s1).
    + destruct C2 as (_ & _ & _ & C2). rewrite <- L1. symmetry. by eapply Forall2_length.
  - apply HQ; [done| |done]. intros j q Hj Hq. destruct (decide (i = j)) as [<-|Hne]; [congruence|]. apply (Ho j q); [lia|done].
Qed.

Lemma wp_reparents me n : forall k s (Q : unit -> kstate -> Prop),
  leaving me s -> orphaned me k s ->
  (forall s', leaving me s' -> orphaned me (k + n) s' -> length s'.(ptable) = length s.(ptable) -> Q tt s') ->
  wp (kfor (seq k n) (reparent me)) s Q.
Proof.
  induction n as [|n IH]; intros k s Q Hl Ho HQ; cbn [seq kfor].
  - apply HQ; [done|by rewrite Nat.add_0_r|done].
  - apply wp_bind, wp_reparent; [done|done|]. intros s1 L1 O1 E1. apply IH; [done|done|]. intros s2 L2 O2 E2.
    apply HQ; [done|by rewrite Nat.add_succ_r|congruence].
Qed.

(** Without children a process may become a zombie. *)
Lemma zombie_ok me s p :
  leaving me s -> s.(ptable) !! me = Some p -> orphaned me (length s.(ptable)) s ->
  procs_ok (set_ptable (<[me := set_p_state ZOMBIE p]> s.(ptable)) s).
Proof.
  intros ([[H1 H2 H3 H4 H5] Hcur] & Hc & Hi) Hp Ho. pose proof (lookup_lt_Some _ _ _ Hp) as Hlt.
  destruct (Hcur me Hc) as (p' & Hp' & Hl). assert (p' = p) as -> by congruence.
  assert (forall k, k <> me -> (exists r, s.(ptable) !! k = Some r /\ live r.(p_state)) ->
            exists r, <[me := set_p_state ZOMBIE p]> s.(ptable) !! k = Some r /\ live r.(p_state)) as Hkeep.
  { intros k Hk (r & Hr & Hlr). exists r. by rewrite list_lookup_insert_ne. }
  assert (forall j r, <[me := set_p_state ZOMBIE p]> s.(ptable) !! j = Some r ->
            exists r0, s.(ptable) !! j = Some r0 /\ (r.(p_state) <> UNUSED -> r0.(p_state) <> UNUSED) /\ (settled r -> settled r0) /\
              r.(p_pid) = r0.(p_pid) /\ r.(p_parent) = r0.(p_parent)) as Hback.
  { intros j r Hr. destruct (decide (me = j)) as [<-|Hne].
    - rewrite list_lookup_insert_eq in Hr by done. simplify_eq. exists p. apply live_settled in Hl as (? & ? & _). done.
    - rewrite list_lookup_insert_ne in Hr by done. by exists r. }
  split; cbn.
  - done.
  - intros j r Hr Hu. destruct (Hback j r Hr) as (r0 & Hr0 & U & _ & -> & _). apply (H2 j); auto.
  - intros j k r1 r2 Hr1 Hr2 U1 U2. destruct (Hback _ _ Hr1) as (a & Ha & V1 & _ & -> & _), (Hback _ _ Hr2) as (b & Hb & V2 & _ & -> & _).
    apply (H3 j k a b); auto.
  - intros j r k Hr Hs Hk. destruct (Hback _ _ Hr) as (r0 & Hr0 & _ & V & _ & Ep). rewrite Ep in Hk.
    apply Hkeep; [|by apply (H4 j r0); auto]. intros ->. apply (Ho j r0); [by eapply lookup_lt_Some|done|done].
  - intros k Hk. apply Hkeep; [congruence|]. by apply H5.
Qed.

Lemma wp_sched s (Q : unit -> kstate -> Prop) : procs_ok s -> wp sched s Q.
Proof.
  intros Hs. unfold wp, sched, kbind, kget, get_proc, myproc. destruct (holding LkPtable s); cbn [negb]; [|done].
  destruct (length s.(held) =? 1)%nat; cbn [negb]; [|done]. destruct s.(curproc) as [i|]; [|done].
  destruct (s.(ptable) !! i) as [p|]; [|done]. by destruct (decide (p.(p_state) = RUNNING)).
Qed.

(** What [exit] does last never returns; it does not depend on the state of
    the process. *)
Lemma wp_last me s (Q : unit -> kstate -> Prop) :
  procs_ok s -> wp (let* now := proc_clockticks in mod_proc me (set_p_etime now) ;;; sched ;;; panic "zombie exit") s Q.
Proof.
  intros Hs. apply wp_bind. unfold wp at 1, proc_clockticks, kbind, acquire. destruct (holding LkTicks s); [done|].
  cbn [kget]. unfold release. destruct (holding LkTicks _); [|done]. cbn [kret].
  match goal with |- wp _ ?st _ => set (s1 := st) end. assert (procs_ok s1) as H1 by (destruct Hs; by split).
  apply wp_bind, wp_mod_proc. intros p Hp.
  match goal with |- wp _ ?st _ => assert (procs_ok st) as H2 end.
  { apply (calm_ok s1); [|done]. apply (calm_insert s1 me p); [done|]. by repeat split; left. }
  apply wp_bind, wp_sched. exact H2.
Qed.

Lemma wp_exit s : good s -> wp exit s (fun _ _ => False).
Proof.
  intros Hg. unfold exit. apply wp_bind, wp_myproc. intros me Hme. apply wp_bind. unfold wp at 1, kget.
  destruct (decide (Some me = s.(initproc))) as [|Hi]; [done|]. assert (leaving me s) as Hl by (split_and!; [done|done|congruence]).
  calm_from s CC. do 5 calm_next CC. unfold zombify. do 3 calm_next CC. apply (calm_leaving me _ _ CC) in Hl. clear CC.
  apply wp_bind. unfold wp at 1, kget. apply wp_bind, wp_reparents; [done|by intros ? ? ?%Nat.nlt_0_r|].
  intros s' L' O' E'. apply wp_bind, wp_mod_proc. intros p' Hp'. apply wp_last. apply zombie_ok; [done|done|].
  by rewrite E'.
Qed.

(** ** wait *)

(** Clearing the fields of a free slot. *)
Ltac clear_next :=
  apply wp_bind; eapply wp_unused; [eassumption|eassumption|by apply not_live; auto|done|];
  let s' := fresh "s" in let G' := fresh in let E' := fresh in let par := fresh in let S' := fresh in intros s' G' E' (par & S').

Lemma wp_reap i s par : good s -> slot s i ZOMBIE par -> wp (reap i) s (fun _ s' => good s').
Proof.
  intros Hg Hz. unfold reap. calm_from s CC. do 4 calm_next CC.
  apply (calm_slot _ _ _ _ _ CC (not_live ZOMBIE ltac:(auto))) in Hz. clear CC.
  do 9 clear_next. apply wp_bind, wp_calm; [apply _|done|]. intros _ s' _ G'. exact G'.
Qed.

#[local] Instance calms_wait_more me : calms (wait_more me).
Proof. unfold wait_more. calm. Qed.

Lemma zombie_slot me s i p : list_find (zombie_of me) s.(ptable) = Some (i, p) -> slot s i ZOMBIE (Some me).
Proof. intros (Hp & [Hpar Hst] & _)%list_find_Some. by exists p. Qed.

Lemma wp_keeps {A} (m : K A) s : calms m -> good s -> wp m s (fun _ s' => good s').
Proof. intros Hm Hs. by apply wp_calm. Qed.

Lemma wp_wait s : good s -> wp wait s (fun _ s' => good s').
Proof.
  intros Hg. unfold wait, wait_scan. apply wp_bind, wp_calm; [apply _|done|]. intros _ s1 C1 G1. apply wp_bind, wp_myproc. intros me Hme.
  apply wp_bind. unfold wp at 1, kget. destruct (list_find (zombie_of me) s1.(ptable)) as [[i p]|] eqn:E.
  - by apply (wp_reap i s1 (Some me)); [|apply (zombie_slot me s1 i p)].
  - by apply wp_keeps; [apply _|].
Qed.

Lemma wp_wait2 wtime rtime s : good s -> wp (wait2 wtime rtime) s (fun _ s' => good s').
Proof.
  intros Hg. unfold wait2. apply wp_bind, wp_calm; [apply _|done|]. intros _ s1 C1 G1. apply wp_bind, wp_myproc. intros me Hme.
  apply wp_bind. unfold wp at 1, kget. destruct (list_find (zombie_of me) s1.(ptable)) as [[i p]|] eqn:E.
  - apply zombie_slot in E. calm_from s1 CC. do 5 calm_next CC.
    apply (calm_slot _ _ _ _ _ CC (not_live ZOMBIE ltac:(auto))) in E. by apply (wp_reap i _ (Some me)).
  - by apply wp_keeps; [apply _|].
Qed.

(** ** Traps *)

Lemma wp_sys_wait2 s : good s -> wp sys_wait2 s (fun _ s' => good s').
Proof.
  intros Hg. unfold sys_wait2. apply wp_bind, wp_calm; [apply _|done|]. intros [wt|] s1 _ G1; [|done].
  apply wp_bind, wp_calm; [apply _|done|]. intros [rt|] s2 _ G2; [|done]. by apply wp_wait2.
Qed.

(** Every system call. *)
Lemma wp_syscalls num f s : syscalls num = Some f -> good s -> s.(nextpid) < 2 ^ 31 - 1 -> wp f s (fun _ s' => good s').
Proof.
  intros Hf Hg Hn. unfold syscalls in Hf.
  repeat match type of Hf with (match ?x with _ => _ end) = _ => destruct x; try discriminate Hf end; injection Hf as <-;
    first [by apply wp_keeps; [apply _|] | by apply wp_fork | by apply wp_wait | by apply wp_sys_wait2 | idtac].
  unfold sys_exit. apply wp_bind. eapply wp_mono; [by apply wp_exit|]. done.
Qed.

Lemma wp_syscall s : good s -> s.(nextpid) < 2 ^ 31 - 1 -> wp syscall s (fun _ s' => good s').
Proof.
  intros Hg Hn. unfold syscall. apply wp_bind, wp_calm; [apply _|done|]. intros p s1 C1 G1. rewrite <- (calm_nextpid _ _ C1) in Hn.
  destruct (syscalls (s32 p.(p_tf).(tf_eax))) as [f|] eqn:E.
  - apply wp_bind. eapply wp_mono; [by apply (wp_syscalls _ _ s1 E)|]. intros r s2 G2. cbn beta. by apply wp_keeps; [apply _|].
  - apply wp_keeps; [|done]. calm.
Qed.

Lemma wp_exit_if_killed s (Q : unit -> kstate -> Prop) :
  good s -> (forall s', calm s s' -> good s' -> Q tt s') -> wp exit_if_killed s Q.
Proof.
  intros Hg HQ. unfold exit_if_killed. apply wp_bind, wp_calm; [apply _|done|]. intros p s1 C1 G1.
  destruct (negb _); [|by apply HQ]. eapply wp_mono; [by apply wp_exit|]. done.
Qed.

Lemma wp_exit_if_killed_user tf s (Q : unit -> kstate -> Prop) :
  good s -> (forall s', calm s s' -> good s' -> Q tt s') -> wp (exit_if_killed_user tf) s Q.
Proof.
  intros Hg HQ. unfold exit_if_killed_user. apply wp_bind. unfold wp at 1, kget. assert (calm s s) by apply calm_preorder.
  destruct s.(curproc); [|by apply HQ]. destruct (_ =? _); [|by apply HQ]. by apply wp_exit_if_killed.
Qed.

End procs.

(** ** Properties *)

(** C3: Every entry into the kernel keeps the process table well formed: after
    any system call, device interrupt, clock tick or exception, under every
    scheduling policy, whether the trap returns or the process gives up the
    CPU in the middle of it, the pids in use are positive, below the next pid
    and pairwise distinct, the parent of every process that has started is a
    process that can run, and so is init; a trap that returns leaves the
    running process able to run. *)
Theorem trap_keeps_processes `{D : Devsw} `{!TameDevsw D} `{Image} `{KStack} (flag : schedflag) (tf : trapframe)
    (dev : list Z) (cr2 : Z) (s : kstate) :
  procs_ok s -> cur_live s -> s.(nextpid) < 2 ^ 31 - 1 ->
  match trap flag tf dev cr2 s with
  | Ok _ s' => procs_ok s' /\ cur_live s'
  | Block s' => procs_ok s'
  | _ => True
  end.
Proof.
  intros Hs Hc Hn. assert (good s) as Hg by done. change (wp (trap flag tf dev cr2) s (fun _ s' => good s')). unfold trap.
  destruct (tf.(tf_trapno) =? T_SYSCALL).
  - apply wp_bind, wp_exit_if_killed; [done|]. intros s1 C1 G1. calm_from s1 CC. do 2 calm_next CC.
    apply wp_bind. eapply wp_mono; [apply wp_syscall; [done|]|].
    { by rewrite (calm_nextpid _ _ CC), (calm_nextpid _ _ C1). }
    cbn beta. intros _ t2 G2. apply wp_exit_if_killed; [done|]. intros t3 _ G3. exact G3.
  - apply wp_bind, wp_calm; [calm|done|]. intros _ s1 _ G1. apply wp_bind, wp_exit_if_killed_user; [done|]. intros s2 _ G2.
    apply wp_bind, wp_calm; [calm|done|]. intros _ s3 _ G3. apply wp_exit_if_killed_user; [done|]. intros s4 _ G4. exact G4.
Qed.

(** A shell, started by init, that makes the system call nice. *)
Definition two_states : kstate :=
  set_initproc (Some 0%nat) (set_curproc (Some 1%nat) (set_nextpid 3 (set_ptable
    [set_p_pid 1 (set_p_state SLEEPING unused_proc);
     set_p_pid 2 (set_p_state RUNNING (set_p_parent (Some 0%nat) unused_proc)); unused_proc] bare_state))).

Lemma trap_keeps_processes_witness :
  let tf := set_tf_trapno T_SYSCALL (set_tf_eax 23 zero_tf) in
  exists s', @trap console_devsw (Build_Image 0 []) (Build_KStack (fun _ => [])) FlagRR tf [] 0 two_states = Ok tt s' /\
    procs_ok s' /\ (p_priority <$> s'.(ptable) !! 1%nat) = Some 1.
Proof.
  intros tf.
  pose proof (@trap_keeps_processes console_devsw console_tame (Build_Image 0 []) (Build_KStack (fun _ => [])) FlagRR tf [] 0 two_states) as Ht.
  destruct (trap FlagRR tf [] 0 two_states) as [[] s'| | |] eqn:E; [|vm_compute in E; discriminate E..].
  exists s'. split; [reflexivity|]. split.
  - apply Ht.
    + split; [reflexivity|..].
      * intros [|[|[|i]]] p Hp Hu; cbn in Hp; simplify_eq; cbn in *; try done; lia.
      * intros [|[|[|i]]] [|[|[|j]]] p q Hp Hq Hu1 Hu2 Epid; cbn in Hp, Hq; simplify_eq; done.
      * intros [|[|[|i]]] p k Hp Hs Hk; cbn in Hp; simplify_eq; cbn in Hk; simplify_eq.
        exists (set_p_pid 1 (set_p_state SLEEPING unused_proc)). split; [reflexivity|left; reflexivity].
      * intros k Hk. cbn in Hk. simplify_eq. exists (set_p_pid 1 (set_p_state SLEEPING unused_proc)). split; [reflexivity|left; reflexivity].
    + intros me Hme. cbn in Hme. simplify_eq. exists (set_p_pid 2 (set_p_state RUNNING (set_p_parent (Some 0%nat) unused_proc))).
      split; [reflexivity|right; right; reflexivity].
    + cbn. lia.
  - vm_compute in E. injection E as [= <-]. reflexivity.
Defined.
