(* ===== verification/ProcLife.v ===== *)
(** The end of a process: exit and wait of proc.c.

    A process that exits becomes a zombie, hands its children to init and wakes
    its parent; the parent, asleep in wait, then finds the zombie, frees its
    memory and its slot, and returns its pid. *)

From S2P Require Import Prelude CString State Kalloc ProcSync Inode Vm Uvm Proc.

(** ** Freeing a page beside an address space *)

Lemma aspace_same s s' pgdir T U l :
  aspace s pgdir T U l -> s'.(pmem) = s.(pmem) -> s'.(freelist) = s.(freelist) -> LkKmem ∉ s'.(held) -> aspace s' pgdir T U l.
Proof.
  intros [[H1 H2 H3 H4] Hd Hm Hk Hp Hj] Em Ef Hh. split; [split|..]; rewrite ?Em; try done.
  unfold free_pages in *. by rewrite Em, Ef.
Qed.

Lemma aspace_free s pgdir T U l v :
  aspace s pgdir T U l -> page_ok v -> v ∉ l -> ~ own pgdir T v -> (forall i, U !! i <> Some v) ->
  aspace (set_freelist v (set_pmem (kfree_mem v s.(freelist) s.(pmem)) s)) pgdir T U (v :: l).
Proof.
  intros Ha Hv Hl Ho Hu. pose proof (as_inv _ _ _ _ _ Ha) as [_ Hf _ _].
  assert (untouched (eq v) s.(pmem) (kfree_mem v s.(freelist) s.(pmem))) as Hun.
  { intros w b Hw Hne Hb. apply load8_kfree_mem_frame. destruct (page_ok_disjoint v w Hv Hw Hne); lia. }
  destruct (aspace_untouched (eq v) s pgdir T U l _ Ha Hun) as [[P1 _ P3 P4] A2 A3 A4 A5 A6].
  - intros w Hw <-. done.
  - intros w Hw <-. done.
  - split; [split|..]; cbn in *; try done.
    + by apply kfree_free_pages.
    + intros w Hw. rewrite not_elem_of_cons. split; [by intros ->|by apply P3].
    + intros i w Hw. destruct (A5 i w Hw) as (B1 & B2 & B3 & B4). rewrite not_elem_of_cons. split_and!; try done; try lia.
      intros ->. by apply (Hu i).
Qed.

(** ** wait *)

(** The slot of a process that has been waited for. *)
Definition reaped (q : proc) : proc :=
  set_p_priority 0 (set_p_etime 0 (set_p_ctime 0 (set_p_rtime 0 (set_p_killed 0 (clear_name
    (set_p_parent None (set_p_pid 0 (set_p_state UNUSED (set_p_kstack 0 q))))))))).

Lemma mod_proc_seq {A} i f g (k : K A) s q :
  s.(ptable) !! i = Some q ->
  (mod_proc i f ;;; mod_proc i g ;;; k) s = (mod_proc i (fun q => g (f q)) ;;; k) s.
Proof.
  intros Hq. pose proof (lookup_lt_Some _ _ _ Hq) as Hlt. rewrite (kbind_Ok _ _ _ _ _ (mod_proc_run i f s q Hq)).
  erewrite kbind_Ok by (apply mod_proc_run; cbn; by apply list_lookup_insert_eq).
  rewrite (kbind_Ok _ _ _ _ _ (mod_proc_run i _ s q Hq)). cbn. rewrite list_insert_insert_eq. by destruct s.
Qed.

Lemma reap_run s i q T U l hs :
  s.(ptable) !! i = Some q -> s.(held) = LkPtable :: hs -> LkKmem ∉ hs ->
  aspace s q.(p_pgdir) T U l -> page_ok q.(p_kstack) -> q.(p_kstack) ∉ l -> ~ own q.(p_pgdir) T q.(p_kstack) ->
  (forall j, U !! j <> Some q.(p_kstack)) ->
  exists s' l', reap i s = Ok q.(p_pid) s' /\ s'.(ptable) = <[i := reaped q]> s.(ptable) /\ s'.(held) = hs /\ free_pages s' l' /\
    l' ≡ₚ q.(p_pgdir) :: range_pages T 0 1024 ++ range_pages U 0 UPAGES ++ q.(p_kstack) :: l.
Proof.
  intros Hq Hh Hk Ha Hv Hl Ho Hu. unfold reap.
  erewrite kbind_Ok by (unfold get_proc; by rewrite Hq). pose proof (as_inv _ _ _ _ _ Ha) as [_ _ _ Hlk].
  rewrite (kbind_Ok _ _ _ _ _ (kfree_ok _ s Hv Hlk)). set (s1 := set_freelist _ _).
  assert (s1.(ptable) !! i = Some q) as Hq1 by done. rewrite (kbind_Ok _ _ _ _ _ (mod_proc_run i _ s1 q Hq1)). set (s2 := set_ptable _ s1).
  assert (aspace s2 q.(p_pgdir) T U (q.(p_kstack) :: l)) as Ha2.
  { apply (aspace_same s1); [by apply aspace_free|done|done|exact Hlk]. }
  destruct (freevm_run _ _ _ _ _ Ha2) as (s3 & l3 & E3 & (f & m & ->) & Hf3 & Hl3 & _). rewrite (kbind_Ok _ _ _ _ _ E3).
  set (s3 := set_freelist f _) in *.
  assert (s3.(ptable) !! i = Some (set_p_kstack 0 q)) as Hq3 by (cbn; apply list_lookup_insert_eq; by eapply lookup_lt_Some).
  repeat rewrite (mod_proc_seq i _ _ _ s3 _ Hq3). rewrite (kbind_Ok _ _ _ _ _ (mod_proc_run i _ s3 _ Hq3)).
  erewrite kbind_Ok by (apply (release_top LkPtable hs); exact Hh). eexists _, l3. split; [reflexivity|].
  cbn. rewrite list_insert_insert_eq. done.
Qed.

(** ** exit *)

(** What exit does to the other slots: sleepers may be woken, children of [me]
    are handed on. *)
Definition gentle (me : nat) (p q : proc) : Prop :=
  q.(p_pid) = p.(p_pid) /\ (q.(p_state) = p.(p_state) \/ p.(p_state) = SLEEPING /\ q.(p_state) = RUNNABLE) /\
  (q.(p_parent) = p.(p_parent) \/ p.(p_parent) = Some me).

#[export] Instance gentle_preorder me : PreOrder (gentle me).
Proof.
  split.
  - intros p. split_and!; auto.
  - intros p q r (A1 & A2 & A3) (B1 & B2 & B3). split_and!; [congruence| |].
    + destruct A2 as [A2|[A2 A2']], B2 as [B2|[B2 B2']]; [left; congruence|right; split; congruence|right; split; congruence|congruence].
    + destruct A3 as [A3|A3]; [|by right]. destruct B3 as [B3|B3]; [left; congruence|right; congruence].
Qed.

Lemma gentle_woken me c p : gentle me p (if decide (p.(p_state) = SLEEPING /\ p.(p_chan) = c) then set_p_state RUNNABLE p else p).
Proof.
  destruct (decide (p.(p_state) = SLEEPING /\ p.(p_chan) = c)) as [[E _]|_]; [|reflexivity]. split_and!; [done|by right|by left].
Qed.

Lemma gentle_fmap me (f : proc -> proc) t : (forall p, gentle me p (f p)) -> Forall2 (gentle me) t (f <$> t).
Proof.
  intros H. apply Forall2_fmap_r, Forall2_same_length_lookup_2; [done|]. intros i p q Hp Hq. simplify_eq. apply H.
Qed.

Lemma gentle_insert me t i p q : t !! i = Some p -> gentle me p q -> Forall2 (gentle me) t (<[i := q]> t).
Proof.
  intros Hp Hg. apply Forall2_same_length_lookup_2; [by rewrite length_insert|]. intros j a b Ha Hb.
  destruct (decide (i = j)) as [<-|Hne].
  - rewrite list_lookup_insert_eq in Hb by (by eapply lookup_lt_Some). by simplify_eq.
  - rewrite list_lookup_insert_ne in Hb by done. by simplify_eq.
Qed.

Lemma reparent_run me i s p :
  s.(ptable) !! i = Some p -> s.(initproc) <> Some me ->
  exists t, reparent me i s = Ok tt (set_ptable t s) /\ Forall2 (gentle me) s.(ptable) t /\
    forall q, t !! i = Some q -> q.(p_parent) <> Some me.
Proof.
  intros Hp Hi. pose proof (lookup_lt_Some _ _ _ Hp) as Hlt. unfold reparent.
  erewrite kbind_Ok by (unfold get_proc; by rewrite Hp).
  destruct (decide (p.(p_parent) = Some me)) as [E|E].
  - unfold kget at 1, kbind at 1. rewrite (kbind_Ok _ _ _ _ _ (mod_proc_run i _ s p Hp)).
    set (t := <[i := _]> s.(ptable)). assert (Forall2 (gentle me) s.(ptable) t) as Ht.
    { apply (gentle_insert me _ i p); [done|]. split_and!; [done|by left|by right]. }
    destruct (decide (p.(p_state) = ZOMBIE)).
    + unfold wakeup1_ptr, kmod. eexists. split; [by destruct s|]. split.
      * etrans; [exact Ht|]. apply gentle_fmap. intros q. apply gentle_woken.
      * intros q Hq. rewrite list_lookup_fmap in Hq. apply fmap_Some in Hq as (r & Hr & ->). unfold t in Hr. cbn in Hr.
        rewrite list_lookup_insert_eq in Hr by done. injection Hr as <-. by case_match.
    + exists t. split; [done|]. split; [done|]. intros q Hq. unfold t in Hq. rewrite list_lookup_insert_eq in Hq by done. by injection Hq as <-.
  - exists s.(ptable). split; [by destruct s|]. split; [reflexivity|]. intros q Hq. congruence.
Qed.

Lemma reparent_all me n : forall k s,
  (k + n = length s.(ptable))%nat -> s.(initproc) <> Some me ->
  (forall j q, (j < k)%nat -> s.(ptable) !! j = Some q -> q.(p_parent) <> Some me) ->
  exists t, kfor (seq k n) (reparent me) s = Ok tt (set_ptable t s) /\ Forall2 (gentle me) s.(ptable) t /\
    forall j q, t !! j = Some q -> q.(p_parent) <> Some me.
Proof.
  induction n as [|n IH]; intros k s Hlen Hi Hdone; cbn [seq kfor].
  - exists s.(ptable). split; [by destruct s|]. split; [reflexivity|]. intros j q Hq. apply (Hdone j q); [|done].
    pose proof (lookup_lt_Some _ _ _ Hq). lia.
  - destruct (lookup_lt_is_Some_2 s.(ptable) k) as [p Hp]; [lia|].
    destruct (reparent_run me k s p Hp Hi) as (t & E & Hg & Hk). rewrite (kbind_Ok _ _ _ _ _ E).
    destruct (IH (S k) (set_ptable t s)) as (t2 & E2 & Hg2 & Hall).
    + cbn. rewrite <- (Forall2_length _ _ _ Hg). lia.
    + done.
    + intros j q Hj Hq. cbn in Hq. destruct (decide (j = k)) as [->|Hne]; [by apply Hk|].
      destruct (Forall2_lookup_r _ _ _ _ _ Hg Hq) as (q0 & Hq0 & (_ & _ & [Ep|Ep])).
      * rewrite Ep. apply (Hdone j); [lia|done].
      * destruct (Hdone j q0); [lia|done|done].
    + exists t2. split; [rewrite E2; by destruct s|]. split; [by etrans|exact Hall].
Qed.

(** The whole of it: the table with the parent woken, the children handed on
    and the process a zombie. *)
Lemma zombify_run s me p :
  s.(held) = [] -> s.(curproc) = Some me -> s.(ptable) !! me = Some p -> p.(p_state) = RUNNING ->
  p.(p_parent) <> Some me -> s.(initproc) <> Some me ->
  exists t q, zombify me s = Block (set_held [LkPtable] (set_ptable (<[me := q]> t) s)) /\
    q.(p_state) = ZOMBIE /\ q.(p_etime) = s32 s.(ticks) /\ q.(p_pid) = p.(p_pid) /\ q.(p_parent) = p.(p_parent) /\
    (forall j r, t !! j = Some r -> r.(p_parent) <> Some me) /\
    Forall2 (gentle me) ((fun r => if decide (r.(p_state) = SLEEPING /\ r.(p_chan) = (ChProc <$> p.(p_parent))) then set_p_state RUNNABLE r else r)
      <$> s.(ptable)) t.
Proof.
  intros Hh Hc Hp Hst Hpar Hi. unfold zombify. erewrite kbind_Ok by (apply acquire_free; rewrite Hh; apply not_elem_of_nil). rewrite Hh.
  set (s1 := set_held _ s). erewrite kbind_Ok by (unfold get_proc; cbn; by rewrite Hp).
  unfold wakeup1_ptr. unfold kmod at 1, kbind at 1. set (wk := fun r : proc => if decide _ then _ else _).
  set (s2 := set_ptable _ s1). unfold kget at 1, kbind at 1.
  destruct (reparent_all me (length s2.(ptable)) 0 s2) as (t & E & Hg & Hall); [done|done|intros j q Hj; lia|].
  rewrite (kbind_Ok _ _ _ _ _ E). set (s3 := set_ptable t s2).
  assert (s2.(ptable) !! me = Some p) as Hp2.
  { cbn. rewrite list_lookup_fmap, Hp. cbn. unfold wk. rewrite decide_False; [done|]. intros [? _]. congruence. }
  destruct (Forall2_lookup_l _ _ _ _ _ Hg Hp2) as (p3 & Hp3 & (Epid & Est & Epar)).
  assert (p3.(p_parent) = p.(p_parent)) as Epar3 by (destruct Epar; done).
  assert (s3.(ptable) !! me = Some p3) as Hp3' by exact Hp3. pose proof (lookup_lt_Some _ _ _ Hp3) as Hlt.
  rewrite (kbind_Ok _ _ _ _ _ (mod_proc_run me _ s3 p3 Hp3')). set (s4 := set_ptable _ s3).
  erewrite kbind_Ok by (apply proc_clockticks_ok; cbn; rewrite list_elem_of_singleton; done).
  erewrite kbind_Ok by (apply mod_proc_run; cbn; by apply list_lookup_insert_eq). set (s5 := set_ptable _ s4).
  set (q := set_p_etime (s32 s.(ticks)) (set_p_state ZOMBIE p3)).
  assert (s5 = set_held [LkPtable] (set_ptable (<[me := q]> t) s)) as E5.
  { unfold s5, s4, s3, s2, s1, q. cbn. rewrite list_insert_insert_eq. by destruct s. }
  assert (s5.(ptable) !! me = Some q) as Hq5 by (rewrite E5; cbn; by apply list_lookup_insert_eq).
  exists t, q. split; [|by split_and!]. rewrite <- E5.
  unfold kbind. rewrite (sched_block s5 me q); [done|by rewrite E5|by rewrite E5|exact Hq5|done].
Qed.

(** ** Properties *)

(** C11: No exit is lost: when a process exits whose parent sleeps in [wait], the
    parent is made runnable and the process becomes a zombie, with the time of
    its end and no children of its own any more, under ptable.lock; as long as
    nobody else waits for the zombie, the next round of the parent's loop finds
    a zombie child and does not sleep again. *)
Theorem exit_wakes_wait (s : kstate) (me par : nat) (p pp : proc) :
  s.(held) = [] -> s.(curproc) = Some me -> s.(initproc) <> Some me -> par <> me ->
  s.(ptable) !! me = Some p -> p.(p_state) = RUNNING -> p.(p_parent) = Some par ->
  s.(ptable) !! par = Some pp -> pp.(p_state) = SLEEPING -> pp.(p_chan) = Some (ChProc par) ->
  exists s' q pp', zombify me s = Block s' /\ s'.(held) = [LkPtable] /\
    s'.(ptable) !! me = Some q /\ q.(p_state) = ZOMBIE /\ q.(p_pid) = p.(p_pid) /\ q.(p_etime) = s32 s.(ticks) /\
    s'.(ptable) !! par = Some pp' /\ pp'.(p_state) = RUNNABLE /\
    (forall j r, s'.(ptable) !! j = Some r -> r.(p_parent) <> Some me) /\
    forall s'', s''.(ptable) !! me = Some q ->
      exists i z, s''.(ptable) !! i = Some z /\ zombie_of par z /\ wait_scan par s'' = reap i s''.
Proof.
  intros Hh Hc Hi Hne Hp Hst Hpar Hpp Hps Hpc.
  destruct (zombify_run s me p Hh Hc Hp Hst) as (t & q & E & Z1 & Z2 & Z3 & Z4 & Hall & Hg); [congruence|done|].
  assert (me < length t)%nat as Hlt by (rewrite <- (Forall2_length _ _ _ Hg), length_fmap; by eapply lookup_lt_Some).
  destruct (Forall2_lookup_l _ _ _ par (set_p_state RUNNABLE pp) Hg) as (pp' & Hpp' & (_ & Est & _)).
  { rewrite list_lookup_fmap, Hpp. cbn. by rewrite decide_True by (rewrite Hpar; done). }
  eexists _, q, pp'. split; [exact E|]. cbn [held ptable set_held set_ptable]. rewrite list_lookup_insert_eq by done. rewrite list_lookup_insert_ne by done.
  split_and!; try done.
  - by destruct Est as [->|[? _]].
  - intros j r Hr. destruct (decide (me = j)) as [<-|Hj].
    + rewrite list_lookup_insert_eq in Hr by done. injection Hr as <-. congruence.
    + rewrite list_lookup_insert_ne in Hr by done. by apply (Hall j).
  - intros s'' Hq. destruct (list_find (zombie_of par) s''.(ptable)) as [[i z]|] eqn:Ef.
    + exists i, z. assert (wait_scan par s'' = reap i s'') as -> by (unfold wait_scan, kbind, kget; by rewrite Ef).
      by apply list_find_Some in Ef as (Hz & Hzz & _).
    + apply (list_find_None_lookup _ _ _ _ Ef) in Hq. destruct Hq. split; [congruence|done].
Qed.

Lemma wait_eq s me : s.(held) = [] -> s.(curproc) = Some me -> wait s = wait_scan me (set_held [LkPtable] s).
Proof.
  intros Hh Hc. unfold wait. erewrite kbind_Ok by (apply acquire_free; rewrite Hh; apply not_elem_of_nil). rewrite Hh.
  erewrite kbind_Ok by (unfold myproc; cbn; by rewrite Hc). done.
Qed.

(** Without a zombie. *)
Lemma wait_scan_none s me p hs :
  s.(held) = LkPtable :: hs -> s.(ptable) !! me = Some p -> list_find (zombie_of me) s.(ptable) = None ->
  wait_scan me s =
  match list_find (fun q => q.(p_parent) = Some me) s.(ptable) with
  | Some _ => if p.(p_killed) =? 0 then (sleep (ChProc me) LkPtable ;;; kfault "sleep does not return here") s else Ok (-1) (set_held hs s)
  | None => Ok (-1) (set_held hs s)
  end.
Proof.
  intros Hh Hp Hz. unfold wait_scan. erewrite kbind_Ok by reflexivity. cbn beta. rewrite Hz. unfold wait_more.
  erewrite kbind_Ok by reflexivity. cbn beta. erewrite kbind_Ok by (apply get_proc_Ok; eauto). cbn beta.
  assert ((release LkPtable ;;; kret (-1)) s = Ok (-1) (set_held hs s)) as Hend.
  { erewrite kbind_Ok by (apply (release_top LkPtable hs); exact Hh). done. }
  clear Hz. destruct (list_find _ s.(ptable)); [|exact Hend]. destruct (p.(p_killed) =? 0); [reflexivity|exact Hend].
Qed.

(** C10: [wait] on every branch.  The first zombie child in the table is reaped:
    its pid is returned, its slot is free again, and its kernel stack, its user
    pages, its page tables and its page directory are all on the free list,
    each once.  With children but no zombie the caller sleeps on itself, with
    the lock the scheduler needs; without children, or when the caller has been
    killed, the result is -1 and nothing changes. *)
Theorem wait_correct (s : kstate) (me : nat) (p : proc) :
  s.(held) = [] -> s.(curproc) = Some me -> s.(ptable) !! me = Some p ->
  match list_find (zombie_of me) s.(ptable) with
  | Some (i, q) =>
      forall T U l, aspace s q.(p_pgdir) T U l -> page_ok q.(p_kstack) -> q.(p_kstack) ∉ l ->
        ~ own q.(p_pgdir) T q.(p_kstack) -> (forall j, U !! j <> Some q.(p_kstack)) ->
        exists s' l', wait s = Ok q.(p_pid) s' /\ s'.(ptable) = <[i := reaped q]> s.(ptable) /\ s'.(held) = [] /\ free_pages s' l' /\
          l' ≡ₚ q.(p_pgdir) :: range_pages T 0 1024 ++ range_pages U 0 UPAGES ++ q.(p_kstack) :: l
  | None =>
      match list_find (fun q => q.(p_parent) = Some me) s.(ptable) with
      | Some _ => wait s = if p.(p_killed) =? 0 then Block (asleep me p (ChProc me) s) else Ok (-1) s
      | None => wait s = Ok (-1) s
      end
  end.
Proof.
  intros Hh Hc Hp. rewrite (wait_eq s me Hh Hc). set (s1 := set_held _ s).
  destruct (list_find (zombie_of me) s.(ptable)) as [[i q]|] eqn:Ez.
  - intros T U l Ha Hv Hl Ho Hu. assert (wait_scan me s1 = reap i s1) as -> by (unfold wait_scan, kbind, kget; cbn; by rewrite Ez).
    apply list_find_Some in Ez as (Hq & _ & _). apply (reap_run s1 i q T U l []); try done; [apply not_elem_of_nil|].
    apply (aspace_same s); [done..|]. cbn. rewrite list_elem_of_singleton. done.
  - rewrite (wait_scan_none s1 me p []) by done. replace (set_held [] s1) with s by (unfold s1; destruct s; cbn in *; by subst).
    change s1.(ptable) with s.(ptable). clear Ez. destruct (list_find _ s.(ptable)); [|reflexivity]. destruct (p.(p_killed) =? 0); [|reflexivity].
    unfold kbind. rewrite (sleep_block _ _ _ me p) by done. unfold asleep, s1. by destruct s.
Qed.

(** A process 1 that exits while its parent, process 0, waits. *)
Lemma exit_wakes_wait_witness :
  let par := set_p_pid 1 (set_p_chan (Some (ChProc 0)) (set_p_state SLEEPING unused_proc)) in
  let child := set_p_pid 2 (set_p_parent (Some 0%nat) (set_p_state RUNNING unused_proc)) in
  exists s' pp', zombify 1 (set_initproc (Some 0%nat) (set_curproc (Some 1%nat) (set_ptable [par; child] bare_state))) = Block s' /\
    s'.(ptable) !! 0%nat = Some pp' /\ pp'.(p_state) = RUNNABLE.
Proof.
  intros par child.
  destruct (exit_wakes_wait (set_initproc (Some 0%nat) (set_curproc (Some 1%nat) (set_ptable [par; child] bare_state))) 1 0 child par)
    as (s' & q & pp' & E & _ & _ & _ & _ & _ & Hpp & Hst & _); try reflexivity; try discriminate.
  exists s', pp'. split; [exact E|]. split; [exact Hpp|exact Hst].
Defined.

(** A kernel stack beside an address space. *)
Lemma sample_stack : exists s d T U v l, aspace s d T U l /\ s.(held) = [] /\
  page_ok v /\ v ∉ l /\ ~ own d T v /\ forall j, U !! j <> Some v.
Proof.
  destruct sample_space as (s & d & T & U & l & (Ha & _) & Hh & _ & Hl). destruct l as [|v l]; [cbn in Hl; lia|].
  pose proof Ha as [[_ Hf Hd Hk] _ _ _ Hp _]. destruct (kalloc_free_pages s v l Hf Hk) as (f & _ & Hf').
  exists (set_freelist f s), d, T, U, v, l. destruct Hf as [(_ & Hv & _) Hnd]. apply NoDup_cons in Hnd as [Hvl _].
  split_and!; [|exact Hh|exact Hv|exact Hvl| |].
  - apply (aspace_frame (fun _ => False) s _ d T U (v :: l)); [exact Ha|exists f, s.(pmem); by destruct s|exact Hf'| | |].
    + intros w Hw. by right.
    + intros w b _ _ _. done.
    + intros w _ [].
  - intros Ho. apply (Hd v Ho). by left.
  - intros j Hj. destruct (Hp j v Hj) as (_ & _ & Hn & _). apply Hn. by left.
Qed.

Lemma wait_correct_witness :
  exists s s' l', wait s = Ok 2 s' /\ free_pages s' l' /\ (p_state <$> s'.(ptable) !! 1%nat) = Some UNUSED.
Proof.
  destruct sample_stack as (s0 & d & T & U & v & l & Ha & Hh & Hv & Hl & Ho & Hu).
  set (z := set_p_pid 2 (set_p_pgdir d (set_p_kstack v (set_p_parent (Some 0%nat) (set_p_state ZOMBIE unused_proc))))).
  set (s := set_curproc (Some 0%nat) (set_ptable [set_p_state RUNNING unused_proc; z] s0)).
  destruct (wait_correct s 0 (set_p_state RUNNING unused_proc) Hh eq_refl eq_refl T U l) as (s' & l' & E & Et & _ & Hf & _);
    [|exact Hv|exact Hl|exact Ho|exact Hu|].
  - apply (aspace_same s0); [exact Ha|reflexivity|reflexivity|]. cbn. rewrite Hh. apply not_elem_of_nil.
  - exists s, s', l'. split; [exact E|]. split; [exact Hf|]. rewrite Et. reflexivity.
Defined.
