(* ===== verification/Quantum.v ===== *)
(** The quantum: how many timer ticks a process runs before trap makes it give
    up the CPU, under every scheduling policy (trap.c).

    The count of ticks is one variable of trap.c, shared by all processes.  It
    is set to 0 when a process is preempted, and only then: a process that is
    dispatched after another one has gone to sleep inherits its count. *)

From S2P Require Import Prelude CString State ProcSync Console Inode Proc ConsoleDev Syscall Trap.

(** ** Specification *)

(** The number of ticks in the quantum of a process of the given priority. *)
Definition quantum (flag : schedflag) (priority : Z) : Z :=
  match flag with
  | FlagRR => QUANTA
  | FlagRR2Q | FlagFAIR2Q => if priority =? 0 then QUANTA else 2 * QUANTA
  | NOFLAG => 1
  end.

(** Process [me] on the CPU: its state, its running time [r], and the count [c]. *)
Definition on_cpu (s : kstate) (me : nat) (st : procstate) (priority r c : Z) : Prop :=
  s.(curproc) = Some me /\ s.(clockticks) = c /\
  exists p, s.(ptable) !! me = Some p /\ p.(p_state) = st /\ p.(p_killed) = 0 /\ p.(p_priority) = priority /\ p.(p_rtime) = r.

Section quantum.
Context `{Devsw} `{Image} `{KStack}.

(** [n] timer interrupts, as long as the process stays on the CPU. *)
Fixpoint timer (flag : schedflag) (tf : trapframe) (n : nat) : K unit :=
  match n with
  | O => kret tt
  | S n => trap flag tf [] 0 ;;; timer flag tf n
  end.

(** ** Lemmas *)

Lemma not_killed_continues tf s me st pr r c : on_cpu s me st pr r c -> exit_if_killed_user tf s = Ok tt s.
Proof.
  intros (Hc & _ & p & Hp & _ & Hk & _). unfold exit_if_killed_user, exit_if_killed, cur, myproc, get_proc. krun. rewrite Hc.
  case_match; [|done]. krun. rewrite Hc. krun. rewrite Hp. krun. by rewrite Hk.
Qed.

Lemma clock_tick_run s me pr r c :
  s.(held) = [] -> on_cpu s me RUNNING pr r c ->
  exists s', clock_tick s = Ok tt s' /\ s'.(held) = [] /\ on_cpu s' me RUNNING pr r c.
Proof.
  intros Hh Ho. unfold clock_tick. erewrite kbind_Ok by reflexivity. destruct (_ =? 0); [|by exists s].
  erewrite kbind_Ok by (apply acquire_free; rewrite Hh; apply not_elem_of_nil). erewrite kbind_Ok by reflexivity.
  erewrite kbind_Ok by (apply wakeup_ok; cbn; rewrite Hh; by rewrite list_elem_of_singleton).
  rewrite (release_top LkTicks []) by (cbn; by rewrite Hh). eexists. split; [done|]. split; [done|].
  destruct Ho as (Hc & Hk & p & Hp & Hs & Hx). split; [done|]. split; [done|]. exists p. cbn.
  rewrite list_lookup_fmap, Hp. cbn. rewrite wake_one_other; [by split|]. intros [? _]. congruence.
Qed.

Lemma yield_run s me pr r c :
  s.(held) = [] -> on_cpu s me RUNNING pr r c ->
  exists s', yield s = Block s' /\ s'.(held) = [LkPtable] /\ on_cpu s' me RUNNABLE pr r c.
Proof.
  intros Hh (Hc & Hk & p & Hp & Hs & Hx). unfold yield, myproc.
  erewrite kbind_Ok by (apply acquire_free; rewrite Hh; apply not_elem_of_nil). rewrite Hh.
  erewrite kbind_Ok by (cbn; by rewrite Hc). erewrite kbind_Ok by (apply (mod_proc_run me _ _ p); done).
  set (s1 := set_ptable _ _). pose proof (lookup_lt_Some _ _ _ Hp) as Hlt.
  assert (s1.(ptable) !! me = Some (set_p_state RUNNABLE p)) as Hq1 by (cbn; by apply list_lookup_insert_eq).
  unfold kbind. rewrite (sched_block s1 me (set_p_state RUNNABLE p)) by done.
  exists s1. split; [done|]. split; [done|]. split; [done|]. split; [done|]. by exists (set_p_state RUNNABLE p).
Qed.

Lemma charge_tick_run flag s me pr r c :
  s.(held) = [] -> on_cpu s me RUNNING pr r c -> 0 <= c -> c + 1 < 2 ^ 31 -> 0 <= r -> r + 1 < 2 ^ 31 ->
  if quantum_over flag (c + 1) pr
  then exists s' c', charge_tick flag s = Block s' /\ s'.(held) = [LkPtable] /\ on_cpu s' me RUNNABLE pr (r + 1) c' /\ (flag <> NOFLAG -> c' = 0)
  else exists s', charge_tick flag s = Ok tt s' /\ s'.(held) = [] /\ on_cpu s' me RUNNING pr (r + 1) (c + 1).
Proof.
  intros Hh (Hc & Hk & p & Hp & Hs & Hx & Hpr & Hr) B0 B1 B2 B3. unfold charge_tick. erewrite kbind_Ok by reflexivity. rewrite Hc.
  erewrite kbind_Ok by (unfold get_proc; by rewrite Hp). rewrite decide_True by done. do 2 erewrite kbind_Ok by reflexivity. rewrite Hk, s32_small by lia. erewrite kbind_Ok by (apply (mod_proc_run me _ _ p); done).
  cbn beta. rewrite Hr, s32_small, Hpr by lia. set (s1 := set_ptable _ _).
  assert (on_cpu s1 me RUNNING pr (r + 1) (c + 1)) as Ho.
  { split; [done|]. split; [done|]. exists (set_p_rtime (r + 1) p). split; [|done]. cbn. apply list_lookup_insert_eq. by eapply lookup_lt_Some. }
  destruct (quantum_over flag (c + 1) pr); [|by exists s1].
  assert (forall s2 c', s2.(held) = [] -> on_cpu s2 me RUNNING pr (r + 1) c' -> exists s',
    yield s2 = Block s' /\ s'.(held) = [LkPtable] /\ on_cpu s' me RUNNABLE pr (r + 1) c') as Hy by (intros; by apply yield_run).
  destruct flag.
  4: { destruct (Hy s1 (c + 1)) as (s' & E & Hh' & Ho'); [done..|]. exists s', (c + 1). by erewrite kbind_Ok by reflexivity. }
  all: destruct (Hy (set_clockticks 0 s1) 0) as (s' & E & Hh' & Ho'); [done| |exists s', 0; by erewrite kbind_Ok by reflexivity].
  all: destruct Ho as (? & _ & ?); by split.
Qed.

Lemma timer_trap flag tf s me pr r c :
  tf.(tf_trapno) = T_IRQ0 + IRQ_TIMER ->
  s.(held) = [] -> on_cpu s me RUNNING pr r c -> 0 <= c -> c + 1 < 2 ^ 31 -> 0 <= r -> r + 1 < 2 ^ 31 ->
  if quantum_over flag (c + 1) pr
  then exists s' c', trap flag tf [] 0 s = Block s' /\ s'.(held) = [LkPtable] /\ on_cpu s' me RUNNABLE pr (r + 1) c' /\ (flag <> NOFLAG -> c' = 0)
  else exists s', trap flag tf [] 0 s = Ok tt s' /\ s'.(held) = [] /\ on_cpu s' me RUNNING pr (r + 1) (c + 1).
Proof.
  intros Ht Hh Ho B0 B1 B2 B3. unfold trap. rewrite Ht. change (T_IRQ0 + IRQ_TIMER =? T_SYSCALL) with false. rewrite Z.eqb_refl. cbv iota.
  destruct (clock_tick_run s me pr r c Hh Ho) as (s1 & E1 & Hh1 & Ho1). rewrite (kbind_Ok _ _ _ _ _ E1).
  rewrite (kbind_Ok _ _ _ _ _ (not_killed_continues tf _ _ _ _ _ _ Ho1)).
  pose proof (charge_tick_run flag s1 me pr r c Hh1 Ho1 B0 B1 B2 B3) as Hq. destruct (quantum_over flag (c + 1) pr).
  - destruct Hq as (s2 & c' & E2 & Hq). exists s2, c'. split; [|done]. unfold kbind. by rewrite E2.
  - destruct Hq as (s2 & E2 & Hh2 & Ho2). exists s2. split; [|done]. rewrite (kbind_Ok _ _ _ _ _ E2). by apply (not_killed_continues _ _ me RUNNING pr (r + 1) (c + 1)).
Qed.

(** With priorities 0 and 1 the test hits the quantum exactly. *)
Lemma quantum_over_spec flag count pr : flag <> NOFLAG -> pr = 0 \/ pr = 1 -> quantum_over flag count pr = (count =? quantum flag pr).
Proof.
  intros Hf Hp. unfold quantum_over, quantum. destruct flag; [done| | |done].
  all: destruct Hp as [-> | ->]; cbn; rewrite ?andb_true_r, ?andb_false_r, ?orb_false_r; reflexivity.
Qed.

(** ** Properties *)

(** C22: The length of a quantum.  A process is on the CPU when the count of ticks
    is [c], and [n] timer interrupts arrive.  If the count passes the quantum
    of the policy and of the priority of the process (QUANTA ticks under RR and
    for priority 0, twice as many for priority 1) the process is preempted
    after exactly the missing ticks: it is runnable, has been charged for these
    ticks, and the count starts again from 0.  If the count started at or above
    the quantum, as it can after a process of priority 1 went to sleep, the
    process keeps the CPU however many ticks arrive. *)
Theorem quantum_length (flag : schedflag) (tf : trapframe) (n : nat) (s : kstate) (me : nat) (pr r c : Z) :
  flag <> NOFLAG -> pr = 0 \/ pr = 1 -> tf.(tf_trapno) = T_IRQ0 + IRQ_TIMER ->
  s.(held) = [] -> on_cpu s me RUNNING pr r c -> 0 <= c -> c + Z.of_nat n < 2 ^ 31 -> 0 <= r -> r + Z.of_nat n < 2 ^ 31 ->
  let q := quantum flag pr in
  if decide (c < q <= c + Z.of_nat n)
  then exists s', timer flag tf n s = Block s' /\ s'.(held) = [LkPtable] /\ on_cpu s' me RUNNABLE pr (r + (q - c)) 0
  else exists s', timer flag tf n s = Ok tt s' /\ s'.(held) = [] /\ on_cpu s' me RUNNING pr (r + Z.of_nat n) (c + Z.of_nat n).
Proof.
  intros Hf Hpr Ht. revert s r c. induction n as [|n IH]; intros s r c Hh Ho B0 B1 B2 B3 q; cbn [timer].
  - rewrite decide_False by lia. exists s. rewrite !Z.add_0_r. by split.
  - pose proof (timer_trap flag tf s me pr r c Ht Hh Ho B0 ltac:(lia) B2 ltac:(lia)) as Hq.
    rewrite quantum_over_spec in Hq by done. fold q in Hq. destruct (Z.eqb_spec (c + 1) q) as [E|E].
    + destruct Hq as (s' & c' & Es & Hh' & Ho' & Hc). rewrite (Hc Hf) in Ho'. rewrite decide_True by lia. exists s'.
      replace (q - c) with 1 by lia. split; [|done]. unfold kbind. by rewrite Es.
    + destruct Hq as (s1 & Es & Hh1 & Ho1). rewrite (kbind_Ok _ _ _ _ _ Es).
      specialize (IH s1 (r + 1) (c + 1) Hh1 Ho1 ltac:(lia) ltac:(lia) ltac:(lia) ltac:(lia)). cbn zeta in IH. fold q in IH.
      destruct (decide (c < q <= c + Z.of_nat (S n))) as [Hd|Hd].
      * rewrite decide_True in IH by lia. by replace (r + (q - c)) with (r + 1 + (q - (c + 1))) by lia.
      * rewrite decide_False in IH by lia.
        replace (r + Z.of_nat (S n)) with (r + 1 + Z.of_nat n) by lia. by replace (c + Z.of_nat (S n)) with (c + 1 + Z.of_nat n) by lia.
Qed.
End quantum.

Lemma quantum_length_witness :
  let tf := set_tf_trapno 32 zero_tf in
  let s c := set_clockticks c (set_curproc (Some 0%nat) (set_ptable [set_p_state RUNNING unused_proc] bare_state)) in
  (exists s', @timer console_devsw (Build_Image 0 []) (Build_KStack (fun _ => [])) FlagRR tf 5 (s 0) = Block s' /\ on_cpu s' 0 RUNNABLE 0 5 0) /\
  exists s', @timer console_devsw (Build_Image 0 []) (Build_KStack (fun _ => [])) FlagRR2Q tf 1000 (s 5) = Ok tt s' /\ on_cpu s' 0 RUNNING 0 1000 1005.
Proof.
  intros tf s.
  assert (forall c, on_cpu (s c) 0 RUNNING 0 0 c) as Ho by (intros c; split; [reflexivity|split; [reflexivity|]]; by eexists).
  pose proof (@quantum_length console_devsw (Build_Image 0 []) (Build_KStack (fun _ => []))) as Hq. split.
  - specialize (Hq FlagRR tf 5%nat (s 0) 0%nat 0 0 0 ltac:(discriminate) ltac:(by left) eq_refl eq_refl (Ho 0) ltac:(lia) ltac:(lia) ltac:(lia) ltac:(lia)).
    cbv zeta in Hq. rewrite decide_True in Hq by (change (quantum FlagRR 0) with 5; lia). destruct Hq as (s' & E & _ & H'). exists s'. split; [exact E|exact H'].
  - specialize (Hq FlagRR2Q tf 1000%nat (s 5) 0%nat 0 0 5 ltac:(discriminate) ltac:(by left) eq_refl eq_refl (Ho 5) ltac:(lia) ltac:(lia) ltac:(lia) ltac:(lia)).
    cbv zeta in Hq. rewrite decide_False in Hq by (change (quantum FlagRR2Q 0) with 5; lia). destruct Hq as (s' & E & _ & H'). exists s'. split; [exact E|exact H'].
Defined.
