(* ===== verification/Boot.v ===== *)
(** The boot loader (bootmain.c): it reads the kernel, an ELF file that starts
    at sector 1 of the disk, into memory and jumps to its entry point.

    The state is the memory, the registers of the disk controller and the
    number of times its status was read.  The contents of the disk and the
    answers of the status register are parameters. *)

From S2P Require Import Prelude CString Bytes Exec.

Module Boot.

Definition SECTSIZE : Z := 512.
Definition ELFHDR : Z := 0x10000.

Record bst := mk_bst { b_mem : mem; b_ports : gmap Z Z; b_polls : nat }.
Definition set_mem (m : mem) (s : bst) : bst := mk_bst m s.(b_ports) s.(b_polls).
Abbreviation B := (M bst).

Section loader.
Context (disk : Z -> list Z) (status : nat -> Z) (patience : nat).

(** ** The disk controller *)

Definition port (p : Z) (s : bst) : Z := default 0 (s.(b_ports) !! p).
Definition outb (p v : Z) : B unit :=
  kmod (fun s => mk_bst s.(b_mem) (<[p := u8 v]> s.(b_ports)) s.(b_polls)).
Definition inb_status : B Z := fun s =>
  Ok (u8 (status s.(b_polls))) (mk_bst s.(b_mem) s.(b_ports) (S s.(b_polls))).

(** The sector that the address registers name: 28 bits. *)
Definition lba (s : bst) : Z :=
  port 0x1F3 s + Z.shiftl (port 0x1F4 s) 8 + Z.shiftl (port 0x1F5 s) 16
  + Z.shiftl (Z.land (port 0x1F6 s) 0xF) 24.

(** [insl]: [cnt] words of the sector that was asked for. *)
Definition insl (addr cnt : Z) : B unit := fun s =>
  if (port 0x1F7 s =? 0x20) && (port 0x1F2 s =? 1)
  then Ok tt (set_mem (put_bytes addr (take (Z.to_nat (4 * cnt)) (disk (lba s))) s.(b_mem)) s)
  else Fault "no data".

(** ** bootmain.c *)

(** Polling; still not ready after [fuel] reads is [Block]. *)
Fixpoint waitdisk (fuel : nat) : B unit :=
  match fuel with
  | O => fun s => Block s
  | S f =>
      let* r := inb_status in
      if negb (Z.land r 0xC0 =? 0x40) then waitdisk f else kret tt
  end.

Definition readsect (dst offset : Z) : B unit :=
  waitdisk patience ;;;
  outb 0x1F2 1 ;;;
  outb 0x1F3 offset ;;;
  outb 0x1F4 (Z.shiftr offset 8) ;;;
  outb 0x1F5 (Z.shiftr offset 16) ;;;
  outb 0x1F6 (Z.lor (Z.shiftr offset 24) 0xE0) ;;;
  outb 0x1F7 0x20 ;;;
  waitdisk patience ;;;
  insl dst (SECTSIZE / 4).

(** The loop of [readseg]; the fuel bounds the number of sectors. *)
Fixpoint readseg_loop (fuel : nat) (va eva offset : Z) : B unit :=
  if va <? eva then
    match fuel with
    | O => kfault "out of fuel"
    | S f => readsect va offset ;;; readseg_loop f (u32 (va + SECTSIZE)) eva (u32 (offset + 1))
    end
  else kret tt.

Definition readseg (va count offset : Z) : B unit :=
  let eva := u32 (va + count) in
  let va := u32 (va - offset mod SECTSIZE) in
  let offset := u32 (offset / SECTSIZE + 1) in
  readseg_loop (Z.to_nat (count / SECTSIZE + 2)) va eva offset.

(** The program header at [ph], and the load of its segment. *)
Definition load_segment (ph : proghdr) : B unit :=
  let va := Z.land ph.(ph_va) 0xFFFFFF in
  readseg va ph.(ph_filesz) ph.(ph_offset) ;;;
  if ph.(ph_filesz) <? ph.(ph_memsz)
  then kmod (fun s => set_mem (stosb (u32 (va + ph.(ph_filesz))) 0
                                 (Z.to_nat (ph.(ph_memsz) - ph.(ph_filesz))) s.(b_mem)) s)
  else kret tt.

Fixpoint load_segments (fuel : nat) (ph eph : Z) : B unit :=
  if ph <? eph then
    match fuel with
    | O => kfault "out of fuel"
    | S f =>
        let* h := kget (fun s => get_proghdr (bytes_at s.(b_mem) ph 32)) in
        load_segment h ;;;
        load_segments f (u32 (ph + PHSZ)) eph
    end
  else kret tt.

Definition get_elf : B elfhdr := kget (fun s => get_elfhdr (bytes_at s.(b_mem) ELFHDR 52)).

(** The address that is jumped to; [None] when bootmain returns to bootasm.S. *)
Definition bootmain : B (option Z) :=
  readseg ELFHDR 4096 0 ;;;
  let* elf := get_elf in
  if negb (elf.(elf_magic) =? ELF_MAGIC) then kret None else
  let ph := u32 (ELFHDR + elf.(elf_phoff)) in
  let eph := u32 (ph + PHSZ * elf.(elf_phnum)) in
  load_segments (Z.to_nat elf.(elf_phnum)) ph eph ;;;
  let* elf := get_elf in
  kret (Some (Z.land elf.(elf_entry) 0xFFFFFF)).

(** ** What a read does *)

(** Byte [o] of the kernel file, which starts at sector 1. *)
Definition kbyte (o : Z) : Z :=
  u8 (default 0 (disk (o / SECTSIZE + 1) !! Z.to_nat (o mod SECTSIZE))).
Definition image (o : Z) (n : nat) : list Z := (fun i => kbyte (o + Z.of_nat i)) <$> seq 0 n.

(** The disk becomes ready within [patience] polls, and sectors have 512 bytes. *)
Definition disk_ready : Prop :=
  forall t, exists k, (k < patience)%nat /\ Z.land (u8 (status (t + k))) 0xC0 = 0x40.
Definition disk_formatted : Prop := forall n, length (disk n) = Z.to_nat SECTSIZE.

Context (Hready : disk_ready) (Hdisk : disk_formatted).

Lemma waitdisk_ends fuel : forall s k,
  (k < fuel)%nat -> Z.land (u8 (status (s.(b_polls) + k))) 0xC0 = 0x40 ->
  exists n, waitdisk fuel s = Ok tt (mk_bst s.(b_mem) s.(b_ports) n).
Proof.
  induction fuel as [|f IH]; intros s k Hk Hs; [lia|]. cbn [waitdisk]. unfold inb_status, kbind.
  destruct (Z.eqb_spec (Z.land (u8 (status s.(b_polls))) 0xC0) 0x40) as [E|E]; cbn [negb].
  - eexists. reflexivity.
  - destruct k as [|k]; [by rewrite Nat.add_0_r in Hs|].
    apply (IH (mk_bst s.(b_mem) s.(b_ports) (S s.(b_polls))) k); [lia|].
    cbn. by rewrite <- Nat.add_succ_r.
Qed.

Lemma waitdisk_ready s : exists n, waitdisk patience s = Ok tt (mk_bst s.(b_mem) s.(b_ports) n).
Proof. destruct (Hready s.(b_polls)) as (k & Hk & E). by apply (waitdisk_ends patience s k). Qed.

Lemma drive_bits x : 0 <= x < 16 -> Z.land (u8 (Z.lor x 0xE0)) 0xF = x.
Proof.
  intros Hx. unfold u8. rewrite <- (Z.land_ones _ 8) by lia. rewrite <- Z.land_assoc.
  change (Z.land (Z.ones 8) 0xF) with (Z.ones 4).
  rewrite Z.land_lor_distr_l, Z.land_ones by lia. change (Z.land 0xE0 (Z.ones 4)) with 0.
  rewrite Z.lor_0_r. apply Z.mod_small. lia.
Qed.

Lemma lba_registers o :
  0 <= o < 2 ^ 28 ->
  u8 o + Z.shiftl (u8 (Z.shiftr o 8)) 8 + Z.shiftl (u8 (Z.shiftr o 16)) 16
  + Z.shiftl (Z.land (u8 (Z.lor (Z.shiftr o 24) 0xE0)) 0xF) 24 = o.
Proof.
  intros Ho. rewrite !Z.shiftr_div_pow2, !Z.shiftl_mul_pow2 by lia.
  rewrite drive_bits by (Z.to_euclidean_division_equations; lia).
  unfold u8. Z.to_euclidean_division_equations. lia.
Qed.

Lemma readsect_reads dst o s :
  0 <= o < 2 ^ 28 ->
  exists p n, readsect dst o s = Ok tt (mk_bst (put_bytes dst (disk o) s.(b_mem)) p n).
Proof.
  intros Ho. unfold readsect, outb, kmod, kbind.
  destruct (waitdisk_ready s) as [n ->]. cbn [b_mem b_ports b_polls].
  match goal with |- context [waitdisk patience ?s'] => destruct (waitdisk_ready s') as [n' ->] end.
  cbn [b_mem b_ports b_polls]. unfold insl, lba, port. cbn [b_mem b_ports b_polls set_mem].
  simplify_map_eq. rewrite lba_registers by done.
  change (Z.to_nat (4 * (SECTSIZE / 4))) with (Z.to_nat SECTSIZE). rewrite <- (Hdisk o), firstn_all.
  eexists _, n'. reflexivity.
Qed.

Lemma kbyte_sector o i :
  0 <= i < SECTSIZE -> 1 <= o ->
  kbyte ((o - 1) * SECTSIZE + i) = u8 (default 0 (disk o !! Z.to_nat i)).
Proof.
  unfold kbyte, SECTSIZE. intros Hi Ho.
  rewrite Z.div_add_l, Z.div_small, (Z.add_comm (_ * _)), Z.mod_add, Z.mod_small by lia.
  do 4 f_equal. lia.
Qed.

Lemma sector_in_memory dst o m i :
  1 <= o -> 0 <= i < SECTSIZE ->
  load8 (put_bytes dst (disk o) m) (dst + i) = kbyte ((o - 1) * SECTSIZE + i).
Proof.
  intros Ho Hi. rewrite kbyte_sector by done.
  destruct (lookup_lt_is_Some_2 (disk o) (Z.to_nat i)) as [c Hc]; [rewrite Hdisk; lia|].
  pose proof (load8_put_bytes dst (disk o) m _ c Hc) as E. rewrite Z2Nat.id in E by lia.
  by rewrite E, Hc.
Qed.

Lemma readseg_loop_reads fuel : forall va eva o s,
  0 <= va < 2 ^ 32 -> eva + SECTSIZE <= 2 ^ 32 -> 1 <= o -> o + Z.of_nat fuel < 2 ^ 28 ->
  eva - va <= SECTSIZE * Z.of_nat fuel ->
  exists s', readseg_loop fuel va eva o s = Ok tt s' /\
    (forall i, 0 <= i < eva - va -> load8 s'.(b_mem) (va + i) = kbyte ((o - 1) * SECTSIZE + i)) /\
    (forall a, a < va \/ va + SECTSIZE * ((eva - va + SECTSIZE - 1) / SECTSIZE) <= a -> load8 s'.(b_mem) a = load8 s.(b_mem) a).
Proof.
  change SECTSIZE with 512.
  induction fuel as [|f IH]; intros va eva o s Hva He Ho Hf Hc; cbn [readseg_loop].
  { destruct (Z.ltb_spec va eva); [lia|]. exists s. split; [done|]. split; [lia|done]. }
  destruct (Z.ltb_spec va eva) as [Hlt|Hge].
  2:{ exists s. split; [done|]. split; [lia|done]. }
  destruct (readsect_reads va o s ltac:(lia)) as (p & n & E). rewrite (kbind_Ok _ _ _ _ _ E).
  change SECTSIZE with 512. rewrite !u32_small by lia.
  set (s1 := mk_bst _ _ _).
  destruct (IH (va + 512) eva (o + 1) s1 ltac:(lia) He ltac:(lia) ltac:(lia) ltac:(lia))
    as (s' & E' & Hin & Hout).
  exists s'. split; [done|]. split.
  - intros i Hi. destruct (Z.ltb_spec i 512).
    + rewrite Hout by (left; lia). cbn. apply (sector_in_memory va o); [done|]. change SECTSIZE with 512. lia.
    + replace (va + i) with (va + 512 + (i - 512)) by lia. rewrite Hin by lia. f_equal. lia.
  - intros a Ha. assert ((eva - va + 512 - 1) / 512 = (eva - (va + 512) + 512 - 1) / 512 + 1) as Ed.
    { replace (eva - va + 512 - 1) with (eva - (va + 512) + 512 - 1 + 1 * 512) by lia. apply Z.div_add. lia. }
    assert (0 <= (eva - (va + 512) + 512 - 1) / 512) by (apply Z.div_pos; lia).
    rewrite Hout by lia. cbn. apply load8_put_bytes_frame. rewrite Hdisk. change (Z.to_nat SECTSIZE) with 512%nat. lia.
Qed.

(** Where a read of whole sectors ends. *)
Definition read_end (va count o : Z) : Z :=
  va - o mod SECTSIZE + SECTSIZE * ((count + o mod SECTSIZE + SECTSIZE - 1) / SECTSIZE).

(** Read [count] bytes at [o] of the file to [va]; nothing but whole sectors
    around them changes. *)
Lemma readseg_reads va count o s :
  0 <= o < 2 ^ 32 -> 0 <= count -> o mod SECTSIZE <= va -> va + count + SECTSIZE <= 2 ^ 32 ->
  exists s', readseg va count o s = Ok tt s' /\
    (forall i, 0 <= i < count -> load8 s'.(b_mem) (va + i) = kbyte (o + i)) /\
    (forall a, a < va - o mod SECTSIZE \/ read_end va count o <= a -> load8 s'.(b_mem) a = load8 s.(b_mem) a).
Proof.
  unfold readseg, read_end. change SECTSIZE with 512. intros Ho Hc Hva He.
  pose proof (Z.div_mod o 512 ltac:(lia)) as Hd. pose proof (Z.mod_pos_bound o 512 ltac:(lia)) as Hm.
  pose proof (Z.div_mod count 512 ltac:(lia)) as Hd'. pose proof (Z.mod_pos_bound count 512 ltac:(lia)) as Hm'.
  rewrite !u32_small by lia.
  destruct (readseg_loop_reads (Z.to_nat (count / 512 + 2)) (va - o mod 512) (va + count) (o / 512 + 1) s)
    as (s' & E & Hin & Hout); change SECTSIZE with 512 in *; try lia.
  exists s'. split; [done|]. split.
  2:{ intros a Ha. apply Hout. replace (va + count - (va - o mod 512) + 512 - 1) with (count + o mod 512 + 512 - 1) by lia. exact Ha. }
  intros i Hi. replace (va + i) with (va - o mod 512 + (o mod 512 + i)) by lia.
  rewrite Hin by lia. f_equal. lia.
Qed.

(** ** Segments *)

Definition seg_va (ph : proghdr) : Z := Z.land ph.(ph_va) 0xFFFFFF.
Definition seg_len (ph : proghdr) : Z := Z.max ph.(ph_filesz) ph.(ph_memsz).

(** What the segment must look like in memory. *)
Definition seg_loaded (m : mem) (ph : proghdr) : Prop :=
  forall i, 0 <= i < seg_len ph ->
    load8 m (seg_va ph + i) = if i <? ph.(ph_filesz) then kbyte (ph.(ph_offset) + i) else 0.

(** The memory that loading the segment writes: whole sectors of the file, and
    the zeros behind them. *)
Definition seg_lo (ph : proghdr) : Z := seg_va ph - ph.(ph_offset) mod SECTSIZE.
Definition seg_hi (ph : proghdr) : Z :=
  Z.max (read_end (seg_va ph) ph.(ph_filesz) ph.(ph_offset)) (seg_va ph + seg_len ph).
Definition written (ph : proghdr) (a : Z) : Prop := seg_lo ph <= a < seg_hi ph.

(** No header's load writes over the page of headers, over a segment that was
    loaded before it, or outside the lower half of memory. *)
Definition segs_ok (phs : list proghdr) : Prop :=
  (forall k ph, phs !! k = Some ph -> 0 <= seg_lo ph /\ seg_hi ph <= 2 ^ 31 /\
     forall a, written ph a -> ~ ELFHDR <= a < ELFHDR + 4096) /\
  (forall j k pj pk a, phs !! j = Some pj -> phs !! k = Some pk -> (j < k)%nat ->
     written pk a -> ~ seg_va pj <= a < seg_va pj + seg_len pj).

Definition u32_fields (ph : proghdr) : Prop :=
  0 <= ph.(ph_offset) < 2 ^ 32 /\ 0 <= ph.(ph_filesz) < 2 ^ 32 /\ 0 <= ph.(ph_memsz) < 2 ^ 32.

Lemma seg_loaded_frame m m' ph :
  (forall a, seg_va ph <= a < seg_va ph + seg_len ph -> load8 m' a = load8 m a) -> seg_loaded m ph -> seg_loaded m' ph.
Proof. intros Hm H i Hi. rewrite Hm by lia. by apply H. Qed.

Lemma load_segment_loads ph s :
  u32_fields ph -> 0 <= seg_lo ph -> seg_hi ph <= 2 ^ 31 ->
  exists s', load_segment ph s = Ok tt s' /\ seg_loaded s'.(b_mem) ph /\
    (forall a, ~ written ph a -> load8 s'.(b_mem) a = load8 s.(b_mem) a).
Proof.
  intros (Ho & Hf & Hm) Hs He. unfold load_segment. fold (seg_va ph). unfold written, seg_lo, seg_hi, seg_len in *.
  pose proof (Z.mod_pos_bound ph.(ph_offset) SECTSIZE ltac:(done)) as Hb.
  destruct (readseg_reads (seg_va ph) ph.(ph_filesz) ph.(ph_offset) s) as (s1 & E & Hin & Hout);
    [done|lia..|unfold SECTSIZE in *; lia|].
  rewrite (kbind_Ok _ _ _ _ _ E). destruct (Z.ltb_spec ph.(ph_filesz) ph.(ph_memsz)) as [Hlt|Hge].
  - unfold kmod. eexists. split; [reflexivity|]. cbn [b_mem set_mem].
    rewrite u32_small by (unfold SECTSIZE in *; lia). split.
    + intros i Hi. unfold seg_len in Hi. rewrite load8_stosb, Z2Nat.id by lia. zcases; [done..|].
      apply Hin. lia.
    + intros a Ha. rewrite load8_stosb, Z2Nat.id by lia. zcases; first [apply Hout; lia|exfalso; lia].
  - exists s1. split; [done|]. split; [|intros; apply Hout; lia].
    intros i Hi. unfold seg_len in Hi. rewrite (proj2 (Z.ltb_lt i _)) by lia. apply Hin. lia.
Qed.

(** ** The header page *)

(** The first 4096 bytes of the file are at [ELFHDR]. *)
Definition header_page (m : mem) : Prop := forall i, 0 <= i < 4096 -> load8 m (ELFHDR + i) = kbyte i.

(** The program headers from number [k] on. *)
Definition headers (phoff : Z) (k n : nat) : list proghdr :=
  (fun j => get_proghdr (image (phoff + PHSZ * Z.of_nat j) 32)) <$> seq k n.

Lemma image_length o n : length (image o n) = n.
Proof. unfold image. by rewrite length_fmap, length_seq. Qed.

Lemma image_bytes o n : is_bytes (image o n).
Proof. apply Forall_fmap, Forall_forall. intros i _. apply u8_range. Qed.

Lemma header_bytes m o n :
  header_page m -> 0 <= o -> o + Z.of_nat n <= 4096 -> bytes_at m (ELFHDR + o) n = image o n.
Proof.
  intros Hm Ho Hn. apply list_eq_same_length with n; [apply image_length|apply bytes_at_length|].
  intros i x y Hi Hx Hy.
  unfold image in Hy. rewrite list_lookup_fmap, lookup_seq_lt in Hy by done. simplify_eq/=.
  rewrite bytes_at_lookup in Hx by done. simplify_eq. rewrite <- Z.add_assoc. apply Hm. lia.
Qed.

Lemma header_frame m m' :
  header_page m -> (forall a, ELFHDR <= a < ELFHDR + 4096 -> load8 m' a = load8 m a) -> header_page m'.
Proof. intros H Hm i Hi. rewrite Hm by lia. by apply H. Qed.

Lemma headers_fields o : u32_fields (get_proghdr (image o 32)).
Proof. unfold get_proghdr, u32_fields. cbn. pose proof (image_bytes o 32). auto using get32_range. Qed.

Lemma segs_ok_tail ph phs : segs_ok (ph :: phs) -> segs_ok phs.
Proof.
  intros [H1 H2]. split; [intros k p Hk; by apply (H1 (S k))|].
  intros j k pj pk a Hj Hk Hlt. apply (H2 (S j) (S k)); [done|done|lia].
Qed.

Lemma load_segments_loads phoff n : forall k s,
  header_page s.(b_mem) -> 0 <= phoff -> phoff + PHSZ * Z.of_nat (k + n) <= 4096 -> segs_ok (headers phoff k n) ->
  exists s', load_segments n (ELFHDR + phoff + PHSZ * Z.of_nat k)
               (ELFHDR + phoff + PHSZ * Z.of_nat (k + n)) s = Ok tt s' /\
    Forall (seg_loaded s'.(b_mem)) (headers phoff k n) /\ header_page s'.(b_mem) /\
    (forall a, (forall ph, ph ∈ headers phoff k n -> ~ written ph a) -> load8 s'.(b_mem) a = load8 s.(b_mem) a).
Proof.
  unfold PHSZ. induction n as [|n IH]; intros k s Hh Ho Hp Hs; cbn [load_segments].
  { rewrite (proj2 (Z.ltb_ge _ _)) by lia. exists s. split; [done|]. by split; [constructor|]. }
  rewrite (proj2 (Z.ltb_lt _ _)) by lia. unfold kbind at 1, kget.
  rewrite <- Z.add_assoc, header_bytes by (done || lia).
  change (headers phoff k (S n)) with (get_proghdr (image (phoff + 32 * Z.of_nat k) 32) :: headers phoff (S k) n) in *.
  set (ph := get_proghdr (image (phoff + 32 * Z.of_nat k) 32)) in *.
  pose proof (segs_ok_tail _ _ Hs) as Htl. destruct Hs as [Hs1 Hs2]. destruct (Hs1 0%nat ph eq_refl) as (Hlo & Hhi & Hpg).
  destruct (load_segment_loads ph s (headers_fields _) Hlo Hhi) as (s1 & E & Hl & Hout).
  rewrite (kbind_Ok _ _ _ _ _ E). unfold PHSZ, ELFHDR in *. rewrite u32_small by lia.
  assert (header_page s1.(b_mem)) as Hh1.
  { eapply header_frame; [exact Hh|]. intros a Ha. apply Hout. intros Hw. by apply (Hpg a). }
  destruct (IH (S k) s1 Hh1 Ho ltac:(lia) Htl) as (s' & E' & Hall & Hh' & Hout').
  exists s'. split; [rewrite <- E'; f_equal; lia|]. split; [|split; [done|]].
  - constructor; [|done]. eapply seg_loaded_frame; [|exact Hl]. intros a Ha. apply Hout'.
    intros p [j Hj]%list_elem_of_lookup_1 Hw. apply (Hs2 0%nat (S j) ph p a); [done|done|lia|done|done].
  - intros a Ha. rewrite Hout'; [apply Hout, Ha; left|]. intros p Hpp. apply Ha. by right.
Qed.

Lemma bootmain_header s :
  exists s', readseg ELFHDR 4096 0 s = Ok tt s' /\ header_page s'.(b_mem) /\
    forall a, ~ ELFHDR <= a < ELFHDR + 4096 -> load8 s'.(b_mem) a = load8 s.(b_mem) a.
Proof.
  destruct (readseg_reads ELFHDR 4096 0 s) as (s' & E & Hin & Hout); [done..|].
  exists s'. split; [done|]. split; [intros i Hi; by rewrite Hin|]. intros a Ha. apply Hout.
  change (read_end ELFHDR 4096 0) with (ELFHDR + 4096). change (0 mod SECTSIZE) with 0. lia.
Qed.

Lemma get_elf_header s :
  header_page s.(b_mem) -> get_elf s = Ok (get_elfhdr (image 0 52)) s.
Proof. intros Hh. unfold get_elf, kget. by rewrite <- (header_bytes s.(b_mem) 0 52), Z.add_0_r. Qed.

(** ** Properties *)

(** C30: Functional correctness of the boot loader.  From any memory, on a
    disk that becomes ready and whose sectors from 1 on hold an ELF file with
    its program headers in the first page, if the load of no header, which
    writes whole sectors, writes over the page of headers, over a segment loaded
    before it or outside the lower half of memory: bootmain jumps to the entry
    point of the file (its low 24 bits), then every segment is in memory, its
    bytes of the file and zeros up to its size in memory, and memory away from
    the headers and the sectors loaded is as it was. *)
Theorem bootmain_loads (s : bst) :
  let elf := get_elfhdr (image 0 52) in
  let phs := headers elf.(elf_phoff) 0 (Z.to_nat elf.(elf_phnum)) in
  elf.(elf_magic) = ELF_MAGIC -> elf.(elf_phoff) + PHSZ * elf.(elf_phnum) <= 4096 ->
  segs_ok phs ->
  exists s', bootmain s = Ok (Some (Z.land elf.(elf_entry) 0xFFFFFF)) s' /\
    Forall (seg_loaded s'.(b_mem)) phs /\
    forall a, ~ ELFHDR <= a < ELFHDR + 4096 -> (forall ph, ph ∈ phs -> ~ written ph a) ->
      load8 s'.(b_mem) a = load8 s.(b_mem) a.
Proof.
  cbv zeta. set (elf := get_elfhdr (image 0 52)). intros Hmag Hph Hs.
  destruct (bootmain_header s) as (s1 & E1 & Hh & Hout1). unfold bootmain.
  rewrite (kbind_Ok _ _ _ _ _ E1), (kbind_Ok _ _ _ _ _ (get_elf_header s1 Hh)). fold elf.
  rewrite Hmag, Z.eqb_refl. cbn [negb].
  assert (Hoff : 0 <= elf.(elf_phoff) < 2 ^ 32) by apply get32_range, image_bytes.
  assert (Hn : 0 <= elf.(elf_phnum)) by (apply le_val_range, is_bytes_slice, image_bytes).
  destruct (load_segments_loads elf.(elf_phoff) (Z.to_nat elf.(elf_phnum)) 0 s1)
    as (s' & E & Hall & Hh' & Hout); [done|lia|unfold PHSZ in *; lia|done|].
  unfold PHSZ in *. rewrite !u32_small by (unfold ELFHDR; rewrite ?u32_small; lia).
  cbn [Nat.add] in E. rewrite Z.mul_0_r, Z.add_0_r, Z2Nat.id in E by done.
  rewrite (kbind_Ok _ _ _ _ _ E), (kbind_Ok _ _ _ _ _ (get_elf_header s' Hh')).
  exists s'. split; [done|]. split; [done|]. intros a Ha Hw. rewrite Hout by done. by apply Hout1.
Qed.

(** A disk without the ELF magic number is not jumped into. *)
Theorem bootmain_rejects (s : bst) :
  (get_elfhdr (image 0 52)).(elf_magic) <> ELF_MAGIC -> exists s', bootmain s = Ok None s'.
Proof.
  intros Hmag. destruct (bootmain_header s) as (s1 & E1 & Hh & _). unfold bootmain.
  rewrite (kbind_Ok _ _ _ _ _ E1), (kbind_Ok _ _ _ _ _ (get_elf_header s1 Hh)).
  rewrite (proj2 (Z.eqb_neq _ _) Hmag). exists s1. reflexivity.
Qed.

End loader.

(** A kernel of two segments: five bytes with three bytes of bss at 0x100080,
    and three bytes at [va2]. *)
Definition small_kernel (va2 : Z) : list Z :=
  [0x7F; 0x45; 0x4C; 0x46] ++ replicate 20 0 ++ le_bytes 4 0x100060 ++ le_bytes 4 52 ++ replicate 12 0
  ++ le_bytes 2 2 ++ replicate 6 0
  ++ le_bytes 4 1 ++ le_bytes 4 0x80 ++ le_bytes 4 0x80100080 ++ le_bytes 4 0 ++ le_bytes 4 5 ++ le_bytes 4 8
  ++ replicate 8 0
  ++ le_bytes 4 1 ++ le_bytes 4 0x85 ++ le_bytes 4 va2 ++ le_bytes 4 0 ++ le_bytes 4 3 ++ le_bytes 4 3
  ++ replicate 8 0
  ++ replicate 12 0 ++ [11; 12; 13; 14; 15; 21; 22; 23].
Definition small_disk (va2 n : Z) : list Z :=
  take 512 (drop (Z.to_nat ((n - 1) * 512)) (small_kernel va2) ++ replicate 512 0).

Lemma small_disk_formatted va2 : disk_formatted (small_disk va2).
Proof.
  intros n. unfold small_disk. rewrite length_take, length_app, length_replicate.
  change (Z.to_nat SECTSIZE) with 512%nat. lia.
Qed.

(** The headers of the kernel file that the repository holds: its code and its
    data with the bss, and a third header, for the stack, with nothing to load
    and address 0. *)
Definition kernel_headers : list Z :=
  [0x7F; 0x45; 0x4C; 0x46; 1; 1; 1] ++ replicate 9 0 ++ le_bytes 2 2 ++ le_bytes 2 3 ++ le_bytes 4 1
  ++ le_bytes 4 0x102a80 ++ le_bytes 4 52 ++ le_bytes 4 140584 ++ le_bytes 4 0
  ++ le_bytes 2 52 ++ le_bytes 2 32 ++ le_bytes 2 3 ++ le_bytes 2 40 ++ le_bytes 2 18 ++ le_bytes 2 15
  ++ concat (le_bytes 4 <$> [1; 4096; 1048576; 1048576; 29164; 29164; 5; 4096])
  ++ concat (le_bytes 4 <$> [1; 36864; 1081344; 1081344; 1950; 77572; 6; 4096])
  ++ concat (le_bytes 4 <$> [1685382481; 0; 0; 0; 0; 0; 7; 4]).
(** The other sectors do not matter here. *)
Definition kernel_disk (n : Z) : list Z := if n =? 1 then take 512 (kernel_headers ++ replicate 512 0) else replicate 512 7.

Lemma kernel_disk_formatted : disk_formatted kernel_disk.
Proof. intros n. unfold kernel_disk. destruct (n =? 1); reflexivity. Qed.

Lemma kernel_segments :
  headers kernel_disk 52 0 3 =
  [mk_proghdr 1 4096 1048576 29164 29164; mk_proghdr 1 36864 1081344 1950 77572; mk_proghdr 1685382481 0 0 0 0].
Proof. vm_compute. reflexivity. Qed.

Lemma kernel_segs_ok :
  segs_ok [mk_proghdr 1 4096 1048576 29164 29164; mk_proghdr 1 36864 1081344 1950 77572; mk_proghdr 1685382481 0 0 0 0].
Proof.
  assert (forall ph lo hi, seg_lo ph = lo -> seg_hi ph = hi -> forall a, written ph a <-> lo <= a < hi) as Hw.
  { intros ph lo hi <- <- a. done. }
  pose proof (Hw (mk_proghdr 1 4096 1048576 29164 29164) 0x100000 0x107200 eq_refl eq_refl) as H0.
  pose proof (Hw (mk_proghdr 1 36864 1081344 1950 77572) 0x108000 0x11AF04 eq_refl eq_refl) as H1.
  pose proof (Hw (mk_proghdr 1685382481 0 0 0 0) 0 0 eq_refl eq_refl) as H2.
  split.
  - intros k ph Hk. unfold ELFHDR. destruct k as [|[|[|k]]]; [..|done]; injection Hk as <-;
      (split; [discriminate|split; [discriminate|]]); intros a; [rewrite H0|rewrite H1|rewrite H2]; lia.
  - intros j k pj pk a Hj Hk Hlt. destruct k as [|[|[|k]]]; [lia| | |done]; injection Hk as <-;
      (destruct j as [|[|j]]; [..|lia]); try lia; injection Hj as <-; [rewrite H1|rewrite H2..];
      unfold seg_va, seg_len; cbn [ph_va ph_filesz ph_memsz]; [change (Z.land 1048576 0xFFFFFF) with 1048576|lia..]; lia.
Qed.

Lemma bootmain_loads_witness :
  exists s', bootmain kernel_disk (fun _ => 0x40) 1 (mk_bst ∅ ∅ 0) = Ok (Some 0x102a80) s' /\
    Forall (seg_loaded kernel_disk s'.(b_mem)) (headers kernel_disk 52 0 3).
Proof.
  destruct (bootmain_loads kernel_disk (fun _ => 0x40) 1) with (s := mk_bst ∅ ∅ 0) as (s' & E & H & _).
  - intros t. exists 0%nat. split; [lia|reflexivity].
  - exact kernel_disk_formatted.
  - vm_compute. reflexivity.
  - vm_compute. discriminate.
  - change (segs_ok (headers kernel_disk 52 0 3)). rewrite kernel_segments. exact kernel_segs_ok.
  - exists s'. split; [exact E|exact H].
Defined.

(** Increasing order alone is not enough: a read starts at a sector boundary of
    the file, so the bytes before a segment are written too, here over the
    segment that ends just below it. *)
Theorem bootmain_clobbers :
  match bootmain (small_disk 0x100088) (fun _ => 0x40) 1 (mk_bst ∅ ∅ 0) with
  | Ok _ s' => bytes_at s'.(b_mem) 0x100080 11 = [0; 0; 0; 11; 12; 13; 14; 15; 21; 22; 23]
  | _ => False
  end.
Proof. vm_compute. reflexivity. Qed.

End Boot.
