(* ===== verification/Mp.v ===== *)
(** The search for processors (mp.c, mp.h): the BIOS leaves a table in memory
    that lists the processors of the machine; mpinit finds it, checks it, and
    fills in the number of CPUs, which of them is running, and the I/O APIC.

    Memory is only read.  What cprintf prints is left out. *)

From S2P Require Import Prelude CString Bytes State.

Module Mp.

(** ** mp.h *)

(** [NCPU] of param.h. *)
Definition NCPU : Z := 8.

Definition MP_SIZE : Z := 16.
Definition MPCONF_SIZE : Z := 44.
Definition MPPROC_SIZE : Z := 20.
Definition MPIOAPIC_SIZE : Z := 8.
Definition MPBOOT : Z := 0x02.
Definition MPPROC : Z := 0x00.
Definition MPBUS : Z := 0x01.
Definition MPIOAPIC : Z := 0x02.
Definition MPIOINTR : Z := 0x03.
Definition MPLINTR : Z := 0x04.

Section fields.
Context (m : mem).
Definition load16 (a : Z) : Z := load8 m a + load8 m (a + 1) * 2 ^ 8.
Definition mp_physaddr (p : Z) : Z := load32 m (p + 4).
Definition mp_imcrp (p : Z) : Z := load8 m (p + 12).
Definition conf_length (c : Z) : Z := load16 (c + 4).
Definition conf_version (c : Z) : Z := load8 m (c + 6).
Definition conf_lapicaddr (c : Z) : Z := load32 m (c + 36).
Definition proc_apicid (p : Z) : Z := load8 m (p + 1).
Definition proc_flags (p : Z) : Z := load8 m (p + 3).
Definition ioapic_apicno (p : Z) : Z := load8 m (p + 1).
End fields.

(** ** mp.c *)

(** The global variables of mp.c and [lapic] of lapic.c; [bcpu] is a position
    in [cpus], of which the model keeps the [id] fields.  [mp_out] are the
    port writes, in order. *)
Record mpst := mk_mpst {
  cpu_ids : list Z; bcpu : nat; ismp : bool; ncpu : nat; ioapicid : Z; lapic : Z;
  mp_out : list (Z * Z) }.

Definition set_bcpu (b : nat) (s : mpst) : mpst :=
  mk_mpst s.(cpu_ids) b s.(ismp) s.(ncpu) s.(ioapicid) s.(lapic) s.(mp_out).
Definition set_found (la : Z) (s : mpst) : mpst :=
  mk_mpst s.(cpu_ids) s.(bcpu) true s.(ncpu) s.(ioapicid) la s.(mp_out).
Definition add_cpu (s : mpst) : mpst :=
  mk_mpst (<[s.(ncpu) := Z.of_nat s.(ncpu)]> s.(cpu_ids)) s.(bcpu) s.(ismp) (S s.(ncpu))
    s.(ioapicid) s.(lapic) s.(mp_out).
Definition set_ioapicid (v : Z) (s : mpst) : mpst :=
  mk_mpst s.(cpu_ids) s.(bcpu) s.(ismp) s.(ncpu) v s.(lapic) s.(mp_out).
Definition out (p v : Z) (s : mpst) : mpst :=
  mk_mpst s.(cpu_ids) s.(bcpu) s.(ismp) s.(ncpu) s.(ioapicid) s.(lapic) (s.(mp_out) ++ [(p, u8 v)]).

Definition mpbcpu (s : mpst) : Z := Z.of_nat s.(bcpu).

Section mp.
Context (m : mem) (imcr : Z).

(** [sum]: the loop, then the conversion of the sum to [uchar]. *)
Fixpoint sum_loop (addr : Z) (len : nat) (acc : Z) : Z :=
  match len with O => acc | S n => sum_loop (addr + 1) n (acc + load8 m addr) end.
Definition sum (addr len : Z) : Z := u8 (sum_loop addr (Z.to_nat len) 0).

(** [memcmp(p, lit, 4) == 0]. *)
Definition sig (p : Z) (lit : string) : bool := bool_decide (bytes_at m p 4 = str lit).

Fixpoint mpsearch1_loop (fuel : nat) (p e : Z) : Z :=
  match fuel with
  | O => 0
  | S f =>
      if p <? e then
        if sig p "_MP_" && (sum p MP_SIZE =? 0) then p else mpsearch1_loop f (u32 (p + MP_SIZE)) e
      else 0
  end.
Definition mpsearch1 (addr len : Z) : Z := mpsearch1_loop (Z.to_nat len) addr (u32 (addr + len)).

Definition mpsearch : Z :=
  let bda := 0x400 in
  let p := Z.shiftl (Z.lor (Z.shiftl (load8 m (bda + 0x0F)) 8) (load8 m (bda + 0x0E))) 4 in
  let mp :=
    if negb (p =? 0) then mpsearch1 p 1024
    else
      let p := Z.lor (Z.shiftl (load8 m (bda + 0x14)) 8) (load8 m (bda + 0x13)) * 1024 in
      mpsearch1 (u32 (p - 1024)) 1024 in
  if negb (mp =? 0) then mp else mpsearch1 0xF0000 0x10000.

(** The structure and its configuration table. *)
Definition mpconfig : option (Z * Z) :=
  let mp := mpsearch in
  if (mp =? 0) || (mp_physaddr m mp =? 0) then None else
  let conf := mp_physaddr m mp in
  if negb (sig conf "PCMP") then None else
  if negb (conf_version m conf =? 1) && negb (conf_version m conf =? 4) then None else
  if negb (sum conf (conf_length m conf) =? 0) then None else
  Some (mp, conf).

(** The loop over the table.  A CPU past the end of [cpus] is [Fault]. *)
Fixpoint mpinit_loop (fuel : nat) (p e : Z) : M mpst unit := fun s =>
  if negb (p <? e) then Ok tt s else
  match fuel with
  | O => Fault "out of fuel"
  | S f =>
      let t := load8 m p in
      if t =? MPPROC then
        if negb (Z.of_nat s.(ncpu) =? proc_apicid m p) then Panic "mpinit" else
        let s := if negb (Z.land (proc_flags m p) MPBOOT =? 0) then set_bcpu s.(ncpu) s else s in
        if negb (Z.of_nat s.(ncpu) <? NCPU) then Fault "cpus overrun" else
        mpinit_loop f (u32 (p + MPPROC_SIZE)) e (add_cpu s)
      else if t =? MPIOAPIC then
        mpinit_loop f (u32 (p + MPIOAPIC_SIZE)) e (set_ioapicid (ioapic_apicno m p) s)
      else if (t =? MPBUS) || (t =? MPIOINTR) || (t =? MPLINTR) then
        mpinit_loop f (u32 (p + 8)) e s
      else Panic "mpinit"
  end.

Definition mpinit : M mpst unit :=
  kmod (set_bcpu 0) ;;;
  match mpconfig with
  | None => kret tt
  | Some (mp, conf) =>
      kmod (set_found (conf_lapicaddr m conf)) ;;;
      let p := u32 (conf + MPCONF_SIZE) in
      let e := u32 (conf + conf_length m conf) in
      mpinit_loop (Z.to_nat (conf_length m conf)) p e ;;;
      if negb (mp_imcrp m mp =? 0)
      then kmod (out 0x22 0x70) ;;; kmod (out 0x23 (Z.lor imcr 1))
      else kret tt
  end.

(** ** The search *)

Definition mp_valid (p : Z) : bool := sig p "_MP_" && (sum p MP_SIZE =? 0).

Lemma mpsearch1_loop_first fuel : forall p e,
  0 <= p -> e + MP_SIZE < 2 ^ 32 -> e - p <= MP_SIZE * Z.of_nat fuel ->
  (mpsearch1_loop fuel p e = 0 /\
     forall k, 0 <= k -> p + MP_SIZE * k < e -> mp_valid (p + MP_SIZE * k) = false) \/
  (exists k, 0 <= k /\ p + MP_SIZE * k < e /\ mpsearch1_loop fuel p e = p + MP_SIZE * k /\
     mp_valid (p + MP_SIZE * k) = true /\
     forall j, 0 <= j < k -> mp_valid (p + MP_SIZE * j) = false).
Proof.
  unfold MP_SIZE. induction fuel as [|f IH]; intros p e Hp He Hf; cbn [mpsearch1_loop].
  { left. split; [done|]. lia. }
  destruct (Z.ltb_spec p e); [|left; split; [done|lia]].
  fold (mp_valid p). destruct (mp_valid p) eqn:Ev.
  { right. exists 0. rewrite !Z.mul_0_r, !Z.add_0_r. split; [done|]. split; [done|].
    split; [done|]. split; [done|lia]. }
  rewrite u32_small by (unfold MP_SIZE; lia). unfold MP_SIZE.
  destruct (IH (p + 16) e ltac:(lia) He ltac:(lia)) as [[-> Hn]|(k & Hk & Hlt & -> & Hv & Hn)].
  - left. split; [done|]. intros k Hk Hlt. destruct (Z.eqb_spec k 0) as [->|].
    + by rewrite Z.mul_0_r, Z.add_0_r.
    + replace (p + 16 * k) with (p + 16 + 16 * (k - 1)) by lia. apply Hn; lia.
  - right. exists (k + 1). replace (p + 16 * (k + 1)) with (p + 16 + 16 * k) by lia.
    split; [lia|]. split; [done|]. split; [done|]. split; [done|].
    intros j Hj. destruct (Z.eqb_spec j 0) as [->|].
    + by rewrite Z.mul_0_r, Z.add_0_r.
    + replace (p + 16 * j) with (p + 16 + 16 * (j - 1)) by lia. apply Hn. lia.
Qed.

(** ** The table *)

Inductive entry :=
| EProc (apicid flags : Z)
| EIoapic (apicno : Z)
| EOther (t : Z).

Definition entry_size (x : entry) : Z :=
  match x with EProc _ _ => MPPROC_SIZE | EIoapic _ => MPIOAPIC_SIZE | EOther _ => 8 end.

Definition entry_at (p : Z) (x : entry) : Prop :=
  match x with
  | EProc id fl => load8 m p = MPPROC /\ proc_apicid m p = id /\ proc_flags m p = fl
  | EIoapic no => load8 m p = MPIOAPIC /\ ioapic_apicno m p = no
  | EOther t => load8 m p = t /\ (t = MPBUS \/ t = MPIOINTR \/ t = MPLINTR)
  end.

Fixpoint table_at (p : Z) (es : list entry) (e : Z) : Prop :=
  match es with
  | [] => p = e
  | x :: r => entry_at p x /\ table_at (p + entry_size x) r e
  end.

(** The loop on the entries themselves. *)
Fixpoint scan (es : list entry) : M mpst unit := fun s =>
  match es with
  | [] => Ok tt s
  | EProc id fl :: r =>
      if negb (Z.of_nat s.(ncpu) =? id) then Panic "mpinit" else
      if negb (Z.of_nat s.(ncpu) <? NCPU) then Fault "cpus overrun" else
      scan r (add_cpu (if negb (Z.land fl MPBOOT =? 0) then set_bcpu s.(ncpu) s else s))
  | EIoapic no :: r => scan r (set_ioapicid no s)
  | EOther _ :: r => scan r s
  end.

Lemma table_at_le p es e : table_at p es e -> p + 8 * Z.of_nat (length es) <= e.
Proof.
  revert p. induction es as [|x r IH]; intros p; cbn [table_at length]; [lia|].
  intros [_ H%IH]. destruct x; unfold entry_size, MPPROC_SIZE, MPIOAPIC_SIZE in *; lia.
Qed.

Lemma mpinit_loop_scan es : forall fuel p e s,
  0 <= p -> e < 2 ^ 32 -> table_at p es e -> (length es <= fuel)%nat ->
  mpinit_loop fuel p e s = scan es s.
Proof.
  induction es as [|x r IH]; intros fuel p e s Hp He Ht Hf.
  { cbn in Ht. subst. destruct fuel; cbn [mpinit_loop]; by rewrite Z.ltb_irrefl. }
  pose proof (table_at_le _ _ _ Ht) as Hle. destruct Ht as [Hx Ht]. cbn [length] in *.
  pose proof (table_at_le _ _ _ Ht) as Hle'.
  destruct fuel as [|f]; [lia|]. cbn [mpinit_loop]. unfold MPPROC_SIZE, MPIOAPIC_SIZE.
  rewrite (proj2 (Z.ltb_lt p e)) by lia. cbn [negb].
  destruct x as [id fl|no|t]; cbn [entry_at entry_size scan] in *;
    unfold MPPROC_SIZE, MPIOAPIC_SIZE in *.
  - destruct Hx as (-> & -> & ->). cbn [Z.eqb MPPROC]. destruct (negb (_ =? id)); [done|].
    destruct (negb (Z.land fl MPBOOT =? 0)); cbn [ncpu set_bcpu];
      (destruct (negb (_ <? NCPU)); [done|]);
      (rewrite u32_small by lia; apply IH; done || lia).
  - destruct Hx as (-> & ->). change (MPIOAPIC =? MPPROC) with false. change (MPIOAPIC =? MPIOAPIC) with true.
    cbn iota. rewrite u32_small by lia.
    apply IH; done || lia.
  - destruct Hx as [Hx Hin]. rewrite Hx.
    assert ((t =? MPPROC) = false /\ (t =? MPIOAPIC) = false /\
            (t =? MPBUS) || (t =? MPIOINTR) || (t =? MPLINTR) = true) as (-> & -> & ->).
    { by destruct Hin as [->|[->| ->]]. }
    rewrite u32_small by lia. apply IH; done || lia.
Qed.

Lemma mpinit_scan es mp conf s :
  mpconfig = Some (mp, conf) -> conf + conf_length m conf < 2 ^ 32 ->
  table_at (conf + MPCONF_SIZE) es (conf + conf_length m conf) ->
  mpinit s = kbind (scan es) (fun _ => if negb (mp_imcrp m mp =? 0)
      then kmod (out 0x22 0x70) ;;; kmod (out 0x23 (Z.lor imcr 1)) else kret tt)
    (set_found (conf_lapicaddr m conf) (set_bcpu 0 s)).
Proof.
  intros Hc Hlt Ht. pose proof (table_at_le _ _ _ Ht) as Hle.
  assert (0 <= conf).
  { revert Hc. unfold mpconfig. repeat case_match; try done. intros [= <- <-]. apply load32_range. }
  unfold mpinit. unfold kbind at 1, kmod at 1. rewrite Hc. unfold kbind at 1, kmod at 1.
  unfold MPCONF_SIZE in *. rewrite !u32_small by lia. unfold kbind at 1 3.
  rewrite (mpinit_loop_scan es) by (done || lia). done.
Qed.

(** ** The processors of a table *)

Fixpoint procs (es : list entry) : list (Z * Z) :=
  match es with
  | [] => []
  | EProc id fl :: r => (id, fl) :: procs r
  | _ :: r => procs r
  end.

(** The positions of the processors with the boot flag. *)
Fixpoint boots (k : nat) (ps : list (Z * Z)) : list nat :=
  match ps with
  | [] => []
  | (_, fl) :: r => (if negb (Z.land fl MPBOOT =? 0) then [k] else []) ++ boots (S k) r
  end.

Definition ioapics (es : list entry) : list Z :=
  omap (fun x => match x with EIoapic no => Some no | _ => None end) es.

(** The processors are numbered from [k] on, in order. *)
Definition numbered (k : nat) (ps : list (Z * Z)) : Prop :=
  ps.*1 = Z.of_nat <$> seq k (length ps).

Lemma last_default {A} (d : A) x l : default d (last (x :: l)) = default x (last l).
Proof. rewrite last_cons. by destruct (last l). Qed.

Lemma scan_counts es : forall s,
  numbered s.(ncpu) (procs es) -> Z.of_nat (s.(ncpu) + length (procs es)) <= NCPU ->
  length s.(cpu_ids) = Z.to_nat NCPU ->
  exists s', scan es s = Ok tt s' /\
    s'.(ncpu) = (s.(ncpu) + length (procs es))%nat /\ s'.(ismp) = s.(ismp) /\ s'.(lapic) = s.(lapic) /\
    s'.(bcpu) = default s.(bcpu) (last (boots s.(ncpu) (procs es))) /\
    s'.(ioapicid) = default s.(ioapicid) (last (ioapics es)) /\
    take s'.(ncpu) s'.(cpu_ids) = take s.(ncpu) s.(cpu_ids) ++ (procs es).*1 /\
    s'.(mp_out) = s.(mp_out).
Proof.
  induction es as [|x r IH]; intros s Hn Hc Hl.
  { exists s. cbn. rewrite Nat.add_0_r, app_nil_r. done. }
  destruct x as [id fl|no|t]; cbn [procs scan ioapics omap list_omap length] in *.
  - unfold numbered in Hn. cbn in Hn. injection Hn as Hid Hn. subst id.
    rewrite Z.eqb_refl, (proj2 (Z.ltb_lt _ NCPU)) by lia. cbn [negb].
    set (s1 := add_cpu _).
    assert (s1.(ncpu) = S s.(ncpu)) as E1 by (unfold s1; by destruct (negb _)).
    destruct (IH s1) as (s' & E & Hnc & Hsm & Hla & Hb & Hio & Hids & Ho).
    { by rewrite E1. }
    { rewrite E1. lia. }
    { unfold s1. destruct (negb _); cbn; by rewrite length_insert. }
    exists s'. split; [done|]. rewrite E1 in *.
    split; [lia|]. split; [rewrite Hsm; unfold s1; by destruct (negb _)|].
    split; [rewrite Hla; unfold s1; by destruct (negb _)|].
    split; [rewrite Hb; unfold s1; cbn [boots]; destruct (negb _); cbn [app bcpu add_cpu set_bcpu];
      [by rewrite last_default|done]|].
    split; [rewrite Hio; unfold s1; by destruct (negb _)|].
    split; [|rewrite Ho; unfold s1; by destruct (negb _)].
    rewrite Hids. cbn [fmap list_fmap fst]. rewrite cons_middle, app_assoc. f_equal.
    assert (s1.(cpu_ids) = <[s.(ncpu) := Z.of_nat s.(ncpu)]> s.(cpu_ids)) as ->
      by (unfold s1; by destruct (negb _)).
    unfold NCPU in *. erewrite take_S_r by (apply list_lookup_insert_eq; lia).
    by rewrite take_insert_ge by lia.
  - destruct (IH (set_ioapicid no s)) as (s' & E & Hnc & Hsm & Hla & Hb & Hio & Hids & Ho); try done.
    exists s'. split; [done|]. split; [done|]. split; [done|]. split; [done|]. split; [done|].
    split; [|done]. rewrite Hio. cbn [ioapicid set_ioapicid]. symmetry. apply last_default.
  - apply (IH s); done.
Qed.

Lemma scan_panics es : forall s pre id fl post,
  procs es = pre ++ (id, fl) :: post -> numbered s.(ncpu) pre ->
  Z.of_nat (s.(ncpu) + length pre) <= NCPU -> id <> Z.of_nat (s.(ncpu) + length pre) ->
  scan es s = Panic "mpinit".
Proof.
  induction es as [|x r IH]; intros s pre id fl post Hp Hn Hc Hid; [by destruct pre|].
  destruct x as [id' fl'|no|t]; cbn [procs scan] in *; [|by eapply (IH (set_ioapicid no s))|by eapply IH].
  destruct pre as [|[id0 fl0] pre]; cbn in Hp.
  { injection Hp as -> _ _. rewrite Nat.add_0_r in Hid. by rewrite (proj2 (Z.eqb_neq _ id)). }
  injection Hp as -> -> Hp. unfold numbered in Hn. cbn in Hn, Hc, Hid. injection Hn as -> Hn.
  rewrite Z.eqb_refl, (proj2 (Z.ltb_lt _ NCPU)) by lia. cbn [negb].
  eapply IH; [done|..]; destruct (negb _); cbn; done || lia.
Qed.

Lemma scan_overruns es : forall s,
  numbered s.(ncpu) (procs es) -> Z.of_nat s.(ncpu) <= NCPU ->
  NCPU < Z.of_nat (s.(ncpu) + length (procs es)) -> scan es s = Fault "cpus overrun".
Proof.
  induction es as [|x r IH]; intros s Hn Hk Hc; [cbn in Hc; lia|].
  destruct x as [id fl|no|t]; cbn [procs scan length] in *; [|by apply (IH (set_ioapicid no s))|by apply IH].
  unfold numbered in Hn. cbn in Hn. injection Hn as -> Hn. rewrite Z.eqb_refl. cbn [negb].
  destruct (Z.ltb_spec (Z.of_nat s.(ncpu)) NCPU); [|done]. cbn [negb].
  apply IH; destruct (negb _); cbn; done || lia.
Qed.

End mp.

(** ** Properties *)

(** The search returns the first valid structure at a multiple of 16 bytes,
    and 0 when there is none. *)
Theorem mpsearch1_first (m : mem) (addr len : Z) :
  0 <= addr -> 0 <= len -> addr + len + MP_SIZE < 2 ^ 32 ->
  (mpsearch1 m addr len = 0 /\
     forall k, 0 <= k -> MP_SIZE * k < len -> mp_valid m (addr + MP_SIZE * k) = false) \/
  (exists k, 0 <= k /\ MP_SIZE * k < len /\ mpsearch1 m addr len = addr + MP_SIZE * k /\
     mp_valid m (addr + MP_SIZE * k) = true /\
     forall j, 0 <= j < k -> mp_valid m (addr + MP_SIZE * j) = false).
Proof.
  intros Ha Hl He. unfold mpsearch1, MP_SIZE in *. rewrite u32_small by lia.
  destruct (mpsearch1_loop_first m (Z.to_nat len) addr (addr + len)) as [[E Hn]|(k & Hk & Hlt & E & Hv & Hn)];
    unfold MP_SIZE in *; try lia; [left|right].
  - split; [done|]. intros k Hk Hlt. apply Hn; lia.
  - exists k. split; [done|]. split; [lia|done].
Qed.

Section table.
Context (m : mem) (imcr : Z) (mp conf : Z) (es : list entry).
Context (Hconf : mpconfig m = Some (mp, conf)) (Hend : conf + conf_length m conf < 2 ^ 32).
Context (Htable : table_at m (conf + MPCONF_SIZE) es (conf + conf_length m conf)).

(** Functional correctness of the processor search.  When the BIOS
    tables describe processors numbered 0, 1, 2, ... in this order, NCPU at
    most, among entries of other kinds, mpinit ends with that number of CPUs,
    each with its number as its id, the boot processor the last one with the
    boot flag (the first CPU when none has it), and the I/O APIC and the local
    APIC address of the table. *)
Theorem mpinit_finds (s : mpst) :
  numbered 0 (procs es) -> Z.of_nat (length (procs es)) <= NCPU ->
  s.(ncpu) = 0%nat -> length s.(cpu_ids) = Z.to_nat NCPU ->
  exists s', mpinit m imcr s = Ok tt s' /\
    s'.(ismp) = true /\ s'.(ncpu) = length (procs es) /\ s'.(lapic) = conf_lapicaddr m conf /\
    take s'.(ncpu) s'.(cpu_ids) = (procs es).*1 /\
    mpbcpu s' = Z.of_nat (default 0%nat (last (boots 0 (procs es)))) /\
    s'.(ioapicid) = default s.(ioapicid) (last (ioapics es)).
Proof.
  intros Hn Hc H0 Hl. rewrite (mpinit_scan m imcr es mp conf s Hconf Hend Htable).
  destruct (scan_counts es (set_found (conf_lapicaddr m conf) (set_bcpu 0 s)))
    as (s' & E & Hnc & Hsm & Hla & Hb & Hio & Hids & Ho); cbn in *; rewrite ?H0; try done.
  rewrite (kbind_Ok _ _ _ _ _ E). rewrite H0 in *. cbn in *.
  destruct (negb _); eexists; (split; [reflexivity|]); cbn;
    unfold mpbcpu; cbn; rewrite Hb; done.
Qed.

(** A processor out of order is a panic. *)
Theorem mpinit_out_of_order (s : mpst) pre id fl post :
  procs es = pre ++ (id, fl) :: post -> numbered 0 pre -> Z.of_nat (length pre) <= NCPU ->
  id <> Z.of_nat (length pre) -> s.(ncpu) = 0%nat -> mpinit m imcr s = Panic "mpinit".
Proof.
  intros Hp Hn Hc Hid H0. rewrite (mpinit_scan m imcr es mp conf s Hconf Hend Htable).
  unfold kbind. rewrite (scan_panics es _ pre id fl post); cbn; rewrite ?H0; done.
Qed.

(** A ninth processor is stored past the end of [cpus]: there is no check. *)
Theorem mpinit_overrun (s : mpst) :
  numbered 0 (procs es) -> NCPU < Z.of_nat (length (procs es)) -> s.(ncpu) = 0%nat ->
  mpinit m imcr s = Fault "cpus overrun".
Proof.
  intros Hn Hc H0. rewrite (mpinit_scan m imcr es mp conf s Hconf Hend Htable).
  unfold kbind. rewrite (scan_overruns es); cbn; rewrite ?H0; done.
Qed.
End table.

(** The tables of a machine with two processors, as a BIOS leaves them. *)
Definition with_sum (i : nat) (l : list Z) : list Z := <[i := u8 (- foldr Z.add 0 l)]> l.
Definition two_cpus : list entry := [EProc 0 3; EProc 1 1; EOther MPBUS; EIoapic 2].
Definition two_cpus_mem : mem :=
  put_bytes 0xF0000 (with_sum 10 (str "_MP_" ++ le_bytes 4 0xF0100 ++ [1; 4; 0; 0; 0; 0; 0; 0]))
  (put_bytes 0xF0100 (with_sum 7 (str "PCMP" ++ le_bytes 2 100 ++ [4; 0] ++ replicate 26 0 ++ [4; 0]
      ++ le_bytes 4 0xFEE00000 ++ replicate 4 0
      ++ [0; 0; 20; 3] ++ replicate 16 0 ++ [0; 1; 20; 1] ++ replicate 16 0
      ++ [1; 0; 73; 83; 65; 32; 32; 32] ++ [2; 2; 17; 1; 0; 0; 192; 254])) ∅).

Lemma mpinit_finds_witness :
  exists s', mpinit two_cpus_mem 0 (mk_mpst (replicate 8 0) 0 false 0 0 0 []) = Ok tt s' /\
    s'.(ismp) = true /\ s'.(ncpu) = 2%nat /\ s'.(lapic) = 0xFEE00000 /\
    take s'.(ncpu) s'.(cpu_ids) = [0; 1] /\ mpbcpu s' = 0 /\ s'.(ioapicid) = 2.
Proof.
  apply (mpinit_finds two_cpus_mem 0 0xF0000 0xF0100 two_cpus)
    with (s := mk_mpst (replicate 8 0) 0 false 0 0 0 []).
  - vm_compute. reflexivity.
  - vm_compute. reflexivity.
  - vm_compute. repeat split. by left.
  - reflexivity.
  - vm_compute. discriminate.
  - reflexivity.
  - reflexivity.
Defined.

End Mp.
