(* ===== verification/Intr.v ===== *)
(** Interrupt controllers and timers: picirq.c, ioapic.c, lapic.c and timer.c.

    The state is the C variable [irqmask], the writes made to I/O ports and to
    the local APIC in the order they were made, the registers of the I/O APIC,
    which the kernel reaches through a select and a data register, and memory
    for the warm reset vector.  What the local APIC answers is a parameter. *)

From S2P Require Import Prelude CString Trap.

Module Intr.

(** ** Constants *)

Definition IRQ_ERROR : Z := 19.

Definition IO_PIC1 : Z := 0x20.
Definition IO_PIC2 : Z := 0xA0.
Definition IRQ_SLAVE : Z := 2.

Definition REG_ID : Z := 0x00.
Definition REG_VER : Z := 0x01.
Definition REG_TABLE : Z := 0x10.
Definition INT_DISABLED : Z := 0x00010000.

Definition VER : Z := 0x0030 / 4.
Definition TPR : Z := 0x0080 / 4.
Definition EOI : Z := 0x00B0 / 4.
Definition SVR : Z := 0x00F0 / 4.
Definition ENABLE : Z := 0x00000100.
Definition ESR : Z := 0x0280 / 4.
Definition ICRLO : Z := 0x0300 / 4.
Definition INIT : Z := 0x00000500.
Definition STARTUP : Z := 0x00000600.
Definition ASSERT : Z := 0x00004000.
Definition LEVEL : Z := 0x00008000.
Definition BCAST : Z := 0x00080000.
Definition ICRHI : Z := 0x0310 / 4.
Definition TIMER : Z := 0x0320 / 4.
Definition X1 : Z := 0x0000000B.
Definition PERIODIC : Z := 0x00020000.
Definition PCINT : Z := 0x0340 / 4.
Definition LINT0 : Z := 0x0350 / 4.
Definition LINT1 : Z := 0x0360 / 4.
Definition ERROR : Z := 0x0370 / 4.
Definition MASKED : Z := 0x00010000.
Definition TICR : Z := 0x0380 / 4.
Definition TDCR : Z := 0x03E0 / 4.
Definition IO_RTC : Z := 0x70.

Definition IO_TIMER1 : Z := 0x040.
Definition TIMER_FREQ : Z := 1193182.
Definition TIMER_DIV (x : Z) : Z := (TIMER_FREQ + x / 2) / x.
Definition TIMER_MODE : Z := IO_TIMER1 + 3.
Definition TIMER_SEL0 : Z := 0x00.
Definition TIMER_RATEGEN : Z := 0x04.
Definition TIMER_16BIT : Z := 0x30.

Record ist := mk_ist {
  irqmask : Z; ports : list (Z * Z); io_reg : Z; io_regs : gmap Z Z;
  lapic_writes : list (Z * Z); imem : mem }.

Definition outb (p v : Z) (s : ist) : ist :=
  mk_ist s.(irqmask) (s.(ports) ++ [(p, u8 v)]) s.(io_reg) s.(io_regs) s.(lapic_writes) s.(imem).
Definition set_irqmask (v : Z) (s : ist) : ist :=
  mk_ist (u16 v) s.(ports) s.(io_reg) s.(io_regs) s.(lapic_writes) s.(imem).
Definition set_imem (m : mem) (s : ist) : ist :=
  mk_ist s.(irqmask) s.(ports) s.(io_reg) s.(io_regs) s.(lapic_writes) m.

(** ** picirq.c *)

(** The initial value of [irqmask]. *)
Definition irqmask0 : Z := Z.land 0xFFFF (Z.lnot (Z.shiftl 1 IRQ_SLAVE)).

Definition picsetmask (mask : Z) (s : ist) : ist :=
  outb (IO_PIC2 + 1) (Z.shiftr (u16 mask) 8) (outb (IO_PIC1 + 1) (u16 mask) (set_irqmask mask s)).

Definition picenable (irq : Z) (s : ist) : ist :=
  picsetmask (Z.land s.(irqmask) (Z.lnot (Z.shiftl 1 irq))) s.

Definition picinit (s : ist) : ist :=
  let s := outb (IO_PIC1 + 1) 0xFF s in
  let s := outb (IO_PIC2 + 1) 0xFF s in
  let s := outb IO_PIC1 0x11 s in
  let s := outb (IO_PIC1 + 1) T_IRQ0 s in
  let s := outb (IO_PIC1 + 1) (Z.shiftl 1 IRQ_SLAVE) s in
  let s := outb (IO_PIC1 + 1) 0x3 s in
  let s := outb IO_PIC2 0x11 s in
  let s := outb (IO_PIC2 + 1) (T_IRQ0 + 8) s in
  let s := outb (IO_PIC2 + 1) IRQ_SLAVE s in
  let s := outb (IO_PIC2 + 1) 0x3 s in
  let s := outb IO_PIC1 0x68 s in
  let s := outb IO_PIC1 0x0a s in
  let s := outb IO_PIC2 0x68 s in
  let s := outb IO_PIC2 0x0a s in
  if negb (s.(irqmask) =? 0xFFFF) then picsetmask s.(irqmask) s else s.

(** ** timer.c *)

Definition timerinit (s : ist) : ist :=
  let s := outb TIMER_MODE (Z.lor (Z.lor TIMER_SEL0 TIMER_RATEGEN) TIMER_16BIT) s in
  let s := outb IO_TIMER1 (TIMER_DIV 100 mod 256) s in
  let s := outb IO_TIMER1 (TIMER_DIV 100 / 256) s in
  picenable IRQ_TIMER s.

(** ** ioapic.c *)

Definition io_select (reg : Z) (s : ist) : ist :=
  mk_ist s.(irqmask) s.(ports) (u32 reg) s.(io_regs) s.(lapic_writes) s.(imem).
Definition io_data (s : ist) : Z := default 0 (s.(io_regs) !! s.(io_reg)).
Definition set_io_data (v : Z) (s : ist) : ist :=
  mk_ist s.(irqmask) s.(ports) s.(io_reg) (<[s.(io_reg) := u32 v]> s.(io_regs)) s.(lapic_writes) s.(imem).

Definition ioapicread (reg : Z) (s : ist) : Z * ist := let s := io_select reg s in (io_data s, s).
Definition ioapicwrite (reg data : Z) (s : ist) : ist := set_io_data data (io_select reg s).

(** The loop for [i] up to [maxintr]; the message about the id is left out. *)
Fixpoint ioapic_disable (n : nat) (i : Z) (s : ist) : ist :=
  match n with
  | O => s
  | S n' =>
      let s := ioapicwrite (REG_TABLE + 2 * i) (Z.lor INT_DISABLED (T_IRQ0 + i)) s in
      let s := ioapicwrite (REG_TABLE + 2 * i + 1) 0 s in
      ioapic_disable n' (i + 1) s
  end.

Definition ioapicinit (ismp : bool) (s : ist) : ist :=
  if negb ismp then s else
  let '(v, s) := ioapicread REG_VER s in
  let maxintr := Z.land (Z.shiftr v 16) 0xFF in
  let '(_, s) := ioapicread REG_ID s in
  ioapic_disable (Z.to_nat (maxintr + 1)) 0 s.

Definition ioapicenable (ismp : bool) (irq cpunum : Z) (s : ist) : ist :=
  if negb ismp then s else
  let s := ioapicwrite (REG_TABLE + 2 * irq) (T_IRQ0 + irq) s in
  ioapicwrite (REG_TABLE + 2 * irq + 1) (Z.shiftl cpunum 24) s.

(** ** lapic.c *)

Definition lapicw (index value : Z) (s : ist) : ist :=
  mk_ist s.(irqmask) s.(ports) s.(io_reg) s.(io_regs) (s.(lapic_writes) ++ [(index, u32 value)]) s.(imem).

Section lapic.
(** The address of the local APIC (0: there is none), and what its version and
    id registers hold. *)
Context (lapic ver id : Z).

(** [lapicinit] up to the wait for the delivery of the broadcast, and the last
    write after it. *)
Definition lapicinit (s : ist) : ist :=
  if lapic =? 0 then s else
  let s := lapicw SVR (Z.lor ENABLE (T_IRQ0 + IRQ_SPURIOUS)) s in
  let s := lapicw TDCR X1 s in
  let s := lapicw TIMER (Z.lor PERIODIC (T_IRQ0 + IRQ_TIMER)) s in
  let s := lapicw TICR 10000000 s in
  let s := lapicw LINT0 MASKED s in
  let s := lapicw LINT1 MASKED s in
  let s := if Z.land (Z.shiftr ver 16) 0xFF >=? 4 then lapicw PCINT MASKED s else s in
  let s := lapicw ERROR (T_IRQ0 + IRQ_ERROR) s in
  let s := lapicw ESR 0 s in
  let s := lapicw ESR 0 s in
  let s := lapicw EOI 0 s in
  let s := lapicw ICRHI 0 s in
  let s := lapicw ICRLO (Z.lor (Z.lor BCAST INIT) LEVEL) s in
  lapicw TPR 0 s.

Definition cpunum : Z := if lapic =? 0 then 0 else Z.shiftr id 24.

Definition lapiceoi (s : ist) : ist := if lapic =? 0 then s else lapicw EOI 0 s.
End lapic.

Definition store16 (a v : Z) (m : mem) : mem := store8 (a + 1) (v / 2 ^ 8) (store8 a v m).
Definition WRV : Z := Z.lor (Z.shiftl 0x40 4) 0x67.

(** The warm reset vector, as lapicstartap sets it. *)
Definition warm_reset (addr : Z) (m : mem) : mem :=
  store16 (WRV + 2) (u16 (Z.shiftr addr 4)) (store16 WRV 0 m).

Definition lapicstartap (apicid addr : Z) (s : ist) : ist :=
  let s := outb IO_RTC 0xF s in
  let s := outb (IO_RTC + 1) 0x0A s in
  let s := set_imem (warm_reset addr s.(imem)) s in
  let s := lapicw ICRHI (Z.shiftl apicid 24) s in
  let s := lapicw ICRLO (Z.lor (Z.lor INIT LEVEL) ASSERT) s in
  let s := lapicw ICRLO (Z.lor INIT LEVEL) s in
  let startup s :=
    lapicw ICRLO (Z.lor STARTUP (Z.shiftr addr 12)) (lapicw ICRHI (Z.shiftl apicid 24) s) in
  startup (startup s).

(** ** The interrupt mask of the two 8259A *)

(** The last value written to a port, or the last entry for a key. *)
Definition last_for (p : Z) (l : list (Z * Z)) : option Z := snd <$> last (filter (fun w => w.1 = p) l).

Lemma last_for_snoc p l q v :
  last_for p (l ++ [(q, v)]) = if decide (q = p) then Some v else last_for p l.
Proof.
  unfold last_for. rewrite filter_app, filter_cons, filter_nil. cbn [fst].
  destruct (decide (q = p)); [by rewrite last_snoc|by rewrite app_nil_r].
Qed.

(** The controllers hold the mask that the kernel remembers. *)
Definition mask_set (s : ist) : Prop :=
  0 <= s.(irqmask) < 2 ^ 16 /\ last_for (IO_PIC1 + 1) s.(ports) = Some (s.(irqmask) mod 256) /\
  last_for (IO_PIC2 + 1) s.(ports) = Some (s.(irqmask) / 256).

Lemma picsetmask_sets m s : mask_set (picsetmask m s) /\ (picsetmask m s).(irqmask) = u16 m.
Proof.
  assert (0 <= u16 m < 2 ^ 16) as Hm by (apply Z.mod_pos_bound; lia).
  unfold mask_set, picsetmask. cbn [irqmask ports outb set_irqmask]. rewrite !last_for_snoc.
  change (IO_PIC1 + 1) with 0x21. change (IO_PIC2 + 1) with 0xA1. cbn. split; [|done]. split; [done|].
  split; [done|]. rewrite Z.shiftr_div_pow2 by lia. f_equal. apply Z.mod_small.
  change (2 ^ 8) with 256. split; [apply Z.div_pos; lia|apply Z.div_lt_upper_bound; lia].
Qed.

Lemma picinit_sets s : s.(irqmask) = irqmask0 -> mask_set (picinit s) /\ (picinit s).(irqmask) = irqmask0.
Proof.
  intros Hm. unfold picinit. cbn [irqmask outb]. rewrite Hm. change (irqmask0 =? 0xFFFF) with false. cbn [negb].
  match goal with |- context [picsetmask irqmask0 ?t] => destruct (picsetmask_sets irqmask0 t) as [H1 H2] end.
  by split.
Qed.

Lemma enabled_bit m i j :
  0 <= m < 2 ^ 16 -> 0 <= i < 16 -> 0 <= j < 16 ->
  Z.testbit (u16 (Z.land m (Z.lnot (Z.shiftl 1 i)))) j = Z.testbit m j && negb (bool_decide (j = i)).
Proof.
  intros Hm Hi Hj. unfold u16. rewrite Z.mod_pow2_bits_low, Z.land_spec, Z.lnot_spec by lia. f_equal. f_equal.
  rewrite Z.shiftl_1_l, Z.pow2_bits_eqb by lia. destruct (Z.eqb_spec i j), (bool_decide_reflect (j = i)); congruence.
Qed.

Lemma enable_all irqs : forall s,
  mask_set s -> Forall (fun i => 0 <= i < 16) irqs ->
  let s' := foldl (fun s i => picenable i s) s irqs in
  mask_set s' /\ forall j, 0 <= j < 16 ->
    Z.testbit s'.(irqmask) j = Z.testbit s.(irqmask) j && negb (bool_decide (j ∈ irqs)).
Proof.
  induction irqs as [|i r IH]; intros s Hs Hi; cbv zeta; cbn [foldl].
  { split; [done|]. intros j _. rewrite bool_decide_eq_false_2 by apply not_elem_of_nil. by rewrite andb_true_r. }
  apply Forall_cons in Hi as [Hi Hr].
  destruct (picsetmask_sets (Z.land s.(irqmask) (Z.lnot (Z.shiftl 1 i))) s) as [H1 H2].
  destruct (IH (picenable i s) H1 Hr) as [H3 H4]. split; [done|]. intros j Hj. rewrite (H4 j Hj).
  unfold picenable. rewrite H2, enabled_bit by (done || apply Hs). rewrite <- andb_assoc. f_equal.
  rewrite <- negb_orb. f_equal. rewrite <- bool_decide_or. apply bool_decide_ext. by rewrite elem_of_cons.
Qed.

(** ** The redirection table of the I/O APIC *)

Lemma ioapicwrite_regs reg v s :
  0 <= reg < 2 ^ 32 -> (ioapicwrite reg v s).(io_regs) = <[reg := u32 v]> s.(io_regs).
Proof. intros H. unfold ioapicwrite, set_io_data, io_select. cbn. by rewrite u32_small. Qed.

Definition redirection (s : ist) (i : Z) : option Z * option Z :=
  (s.(io_regs) !! (REG_TABLE + 2 * i), s.(io_regs) !! (REG_TABLE + 2 * i + 1)).

Lemma redirection_write (i j a b : Z) s :
  0 <= i < 256 ->
  redirection (ioapicwrite (REG_TABLE + 2 * i + 1) b (ioapicwrite (REG_TABLE + 2 * i) a s)) j =
  if decide (i = j) then (Some (u32 a), Some (u32 b)) else redirection s j.
Proof.
  intros Hi. unfold redirection, REG_TABLE. rewrite !ioapicwrite_regs by lia.
  destruct (decide (i = j)) as [->|Hn].
  - rewrite lookup_insert_eq, lookup_insert_ne, lookup_insert_eq by lia. done.
  - by rewrite !lookup_insert_ne by lia.
Qed.

Definition disabled (i : Z) : option Z * option Z := (Some (Z.lor INT_DISABLED (T_IRQ0 + i)), Some 0).
Definition routed (i c : Z) : option Z * option Z := (Some (T_IRQ0 + i), Some (u32 (Z.shiftl c 24))).

Lemma disabled_u32 i : 0 <= i < 256 -> u32 (Z.lor INT_DISABLED (T_IRQ0 + i)) = Z.lor INT_DISABLED (T_IRQ0 + i).
Proof.
  intros Hi. apply u32_small. unfold INT_DISABLED, T_IRQ0. split; [apply Z.lor_nonneg; lia|].
  apply Z.log2_lt_cancel. rewrite Z.log2_lor by lia. change (Z.log2 (2 ^ 32)) with 32.
  apply Z.max_lub_lt; [done|]. apply Z.log2_lt_pow2; lia.
Qed.

Lemma ioapic_disable_all n : forall i j s,
  0 <= i -> i + Z.of_nat n <= 256 ->
  redirection (ioapic_disable n i s) j =
  if decide (i <= j < i + Z.of_nat n) then disabled j else redirection s j.
Proof.
  induction n as [|n IH]; intros i j s Hi Hn; cbn [ioapic_disable].
  { rewrite decide_False by lia. done. }
  rewrite IH, redirection_write by lia.
  destruct (decide (i + 1 <= j < _)); [rewrite decide_True by lia; done|].
  destruct (decide (i = j)) as [->|]; [|rewrite decide_False by lia; done].
  rewrite decide_True by lia. unfold disabled. rewrite disabled_u32 by lia. done.
Qed.

Lemma ioapic_enable_all ics : forall s j,
  Forall (fun ic => 0 <= ic.1 < 256) ics ->
  redirection (foldl (fun s ic => ioapicenable true ic.1 ic.2 s) s ics) j =
  match last_for j ics with Some c => routed j c | None => redirection s j end.
Proof.
  induction ics as [|[i c] r IH] using rev_ind; intros s j Hf; [done|].
  apply Forall_app in Hf as [Hf [Hi _]%Forall_cons]. cbn [fst] in Hi.
  rewrite foldl_app, last_for_snoc. cbn [foldl fst snd]. unfold ioapicenable. cbn [negb].
  rewrite redirection_write by lia. destruct (decide (i = j)) as [->|]; [|by apply IH].
  unfold routed. rewrite (u32_small (T_IRQ0 + j)) by (unfold T_IRQ0; lia). done.
Qed.

Lemma startup_vector q : 0 <= q < 256 -> Z.lor STARTUP q = STARTUP + q.
Proof.
  intros Hq. assert (Forall (fun q => Z.lor STARTUP q = STARTUP + q) (seqZ 0 256)) as H.
  { vm_compute. repeat constructor. }
  rewrite Forall_forall in H. apply H, elem_of_seqZ. lia.
Qed.

(** ** Properties *)

(** After picinit and any sequence of picenable, the mask registers of the two
    controllers leave on exactly the interrupts that were enabled and the one
    that joins the controllers. *)
Theorem pic_masks (s : ist) (irqs : list Z) :
  s.(irqmask) = irqmask0 -> Forall (fun i => 0 <= i < 16) irqs ->
  let s' := foldl (fun s i => picenable i s) (picinit s) irqs in
  exists lo hi, last_for (IO_PIC1 + 1) s'.(ports) = Some lo /\ last_for (IO_PIC2 + 1) s'.(ports) = Some hi /\
    forall i, 0 <= i < 16 -> Z.testbit (hi * 256 + lo) i = negb (bool_decide (i = IRQ_SLAVE \/ i ∈ irqs)).
Proof.
  intros Hm Hi. destruct (picinit_sets s Hm) as [H1 H2]. destruct (enable_all irqs _ H1 Hi) as [(_ & Hlo & Hhi) Hb].
  cbv zeta. eexists _, _. split; [exact Hlo|]. split; [exact Hhi|]. intros i Hr.
  rewrite (Z.mul_comm _ 256), <- Z.div_mod, (Hb i Hr), H2 by lia.
  rewrite bool_decide_or, negb_orb. f_equal. unfold irqmask0.
  rewrite Z.land_spec, Z.lnot_spec, Z.shiftl_1_l, Z.pow2_bits_eqb by (unfold IRQ_SLAVE; lia).
  change 0xFFFF with (Z.ones 16). rewrite Z.ones_spec_low by lia. cbn [andb]. f_equal.
  destruct (Z.eqb_spec IRQ_SLAVE i), (bool_decide_reflect (i = IRQ_SLAVE)); congruence.
Qed.

(** After ioapicinit and any sequence of ioapicenable, an interrupt is routed
    to the CPU it was last enabled for, and off when it was never enabled. *)
Theorem ioapic_routes (s : ist) (ics : list (Z * Z)) (j : Z) :
  let maxintr := Z.land (Z.shiftr (default 0 (s.(io_regs) !! REG_VER)) 16) 0xFF in
  Forall (fun ic => 0 <= ic.1 <= maxintr) ics -> 0 <= j <= maxintr ->
  redirection (foldl (fun s ic => ioapicenable true ic.1 ic.2 s) (ioapicinit true s) ics) j =
  match last_for j ics with Some c => routed j c | None => disabled j end.
Proof.
  cbv zeta. set (mx := Z.land _ 0xFF). intros Hf Hj.
  assert (0 <= mx < 256) as Hmx.
  { unfold mx. change 0xFF with (Z.ones 8). rewrite Z.land_ones by lia. apply Z.mod_pos_bound. lia. }
  rewrite ioapic_enable_all by (eapply Forall_impl; [exact Hf|cbn; lia]).
  destruct (last_for j ics); [done|]. unfold ioapicinit, ioapicread, io_data. cbn [negb io_regs io_reg io_select].
  change (u32 REG_VER) with REG_VER. fold mx. rewrite ioapic_disable_all by lia. by rewrite decide_True by lia.
Qed.

(** Starting a processor at a page below 1 MB: the warm reset vector and the
    startup message both name that page, and INIT comes before two STARTUPs. *)
Theorem lapicstartap_names_page (apicid addr : Z) (s : ist) :
  0 <= addr < 2 ^ 20 -> addr mod 4096 = 0 ->
  let s' := lapicstartap apicid addr s in
  let hi := (ICRHI, u32 (Z.shiftl apicid 24)) in
  let go := (ICRLO, STARTUP + addr / 4096) in
  s'.(lapic_writes) = s.(lapic_writes) ++ [hi; (ICRLO, 0xC500); (ICRLO, 0x8500); hi; go; hi; go] /\
  load8 s'.(imem) WRV + load8 s'.(imem) (WRV + 1) * 256
  + 16 * (load8 s'.(imem) (WRV + 2) + load8 s'.(imem) (WRV + 3) * 256) = addr.
Proof.
  intros Ha Hm. cbv zeta. unfold lapicstartap. cbn [lapic_writes lapicw set_imem outb imem]. split.
  - rewrite <- !app_assoc. cbn [app].
    assert (u32 (Z.lor STARTUP (Z.shiftr addr 12)) = STARTUP + addr / 4096) as ->; [|done].
    rewrite Z.shiftr_div_pow2 by lia. change (2 ^ 12) with 4096.
    assert (0 <= addr / 4096 < 256) as Hq by (split; [apply Z.div_pos; lia|apply Z.div_lt_upper_bound; lia]).
    rewrite startup_vector by done. apply u32_small. unfold STARTUP. lia.
  - unfold warm_reset, store16. change WRV with 0x467. autorewrite with mem. zcases.
    rewrite Z.shiftr_div_pow2 by lia. unfold u16, u8. Z.to_euclidean_division_equations. lia.
Qed.

End Intr.
