(* ===== verification/Main.v ===== *)
(** Start-up (main.c): from the state the boot loader leaves, the kernel sets up
    its memory, its tables and its devices, makes the first process and enters
    the scheduler.

    The set-up of processors and interrupt controllers, which main also calls,
    is in the files Mp and Intr; initlock of an unlocked lock changes nothing
    that is modelled. *)

From S2P Require Import Prelude CString State Kalloc ProcSync Console Bio Inode Dir Vm Uvm Proc Calm ProcInv Intr.

(** Memory operations are reasoned about by lemmas, never unfolded. *)
Opaque range_pages kfree_mem memset memmove store32 missing dirs put_bytes.

Definition BOOTCODE : Z := 0x7000.

Section main.
Context `{Image}.

(** What the linker and the hardware contribute: the end of the kernel image,
    the code that other processors start with, the address of mpmain, the
    number of processors, what probing for the second disk reads, and the line
    status of the serial port. *)
Context (kend : Z) (bootother : list Z) (mpmain_addr : Z) (ncpu : nat) (probe : nat -> Z) (lsr : Z).

(** [consoleinit] of console.c; the device table is [console_devsw]. *)
Definition consoleinit : K unit := kmod (fun s => set_con (set_c_locking true s.(con)) s).

(** [uartinit] of uart.c; the port's own registers are not kept. *)
Definition uartinit : K unit :=
  if u8 lsr =? 0xFF then kret tt else
  mod_con (set_c_uart true) ;;;
  kfor (str "xv6..." ++ [10]) uartputc.

(** [ideinit] of ide.c: is there a disk 1? *)
Definition ideinit : K unit :=
  if existsb (fun i => negb (u8 (probe i) =? 0)) (seq 0 1000) then kmod (set_havedisk1 true) else kret tt.

(** The stack that the rest of the set-up runs on. *)
Definition jkstack : K Z :=
  let* kstack := kalloc in
  if kstack =? 0 then panic "jkstack\n" else kret (kstack + PGSIZE).

(** Start the other processors; the wait until each of them runs is left out. *)
Definition bootothers : K unit :=
  kmod (fun s => set_pmem (put_bytes BOOTCODE bootother s.(pmem)) s) ;;;
  kfor (seq 0 ncpu) (fun c =>
    let* me := kget (fun s => s.(cpuid)) in
    if Z.of_nat c =? me then kret tt else
    let* stack := kalloc in
    poke (BOOTCODE - 4) (u32 (stack + KSTACKSIZE)) ;;;
    poke (BOOTCODE - 8) mpmain_addr ;;;
    kmod (fun s => set_pmem (Intr.warm_reset BOOTCODE s.(pmem)) s)).

(** Up to the call of scheduler. *)
Definition mpmain : K unit :=
  switchkvm ;;;
  let* c := kget (fun s => s.(cpuid)) in
  cprintf (str "cpu%d: starting" ++ [10]) [AInt c].

Definition mainc : K unit :=
  let* c := kget (fun s => s.(cpuid)) in
  cprintf ([10] ++ str "cpu%d: starting xv6" ++ [10; 10]) [AInt c] ;;;
  kvmalloc ;;;
  binit ;;;
  ideinit ;;;
  userinit ;;;
  bootothers ;;;
  mpmain.

Definition main : K unit :=
  consoleinit ;;;
  uartinit ;;;
  kinit kend ;;;
  let* _ := jkstack in
  mainc.

(** ** Memory *)

Lemma kinit_loop_step fuel : forall p s s', kinit_loop fuel p s = Ok tt s' -> vm_step s s'.
Proof.
  induction fuel as [|f IH]; intros p s s'; cbn [kinit_loop]; [done|].
  destruct (_ <? _); [|intros [=<-]; exists s.(freelist), s.(pmem); by destruct s].
  intros (u & s1 & E & H1)%kbind_Ok_inv. eapply vm_step_trans; [|by apply (IH _ _ _ H1)].
  unfold kfree in E. destruct (kfree_bad p); [done|]. krun.
  destruct (acquire LkKmem _) as [[] s2|?|?|?] eqn:Ea; try done.
  apply acquire_Ok in Ea as (Hk & ->). cbn in E. rewrite (release_top LkKmem s.(held)) in E by reflexivity.
  injection E as _ <-. by exists p, (store32 p s.(freelist) (memset p 1 PGSIZE s.(pmem))).
Qed.

(** Pages given to something that is no page table. *)
Lemma aspace_pop s d T U q l :
  aspace s d T U (q :: l) ->
  exists f, kalloc s = Ok q (set_freelist f s) /\ aspace (set_freelist f s) d T U l.
Proof.
  intros Ha. destruct (as_inv _ _ _ _ _ Ha) as [_ Hf _ Hk].
  destruct (kalloc_free_pages s q l Hf Hk) as (f & E & Hf'). exists f. split; [done|].
  apply (aspace_frame (fun _ => False) s _ d T U (q :: l) l); try done.
  - exists f, s.(pmem). by destruct s.
  - intros v Hv. by right.
  - by intros v Hv [].
Qed.

(** An address space is a matter of memory, free list and the lock. *)
Lemma aspace_ext s s' d T U l :
  s'.(pmem) = s.(pmem) -> s'.(freelist) = s.(freelist) -> s'.(held) = s.(held) ->
  aspace s d T U l -> aspace s' d T U l.
Proof.
  intros Em Ef Eh [[H1 H2 H3 H4] Hd Hm Hk Hp Hi].
  split; [split| | | | |]; rewrite ?Em; try done.
  - unfold free_pages. by rewrite Em, Ef.
  - by rewrite Eh.
Qed.

Lemma untouched_put_bytes q l m :
  page_ok q -> Z.of_nat (length l) <= PGSIZE -> untouched (eq q) m (put_bytes q l m).
Proof.
  intros Hq Hl v b Hv Hne Hb. apply load8_put_bytes_frame.
  destruct (page_ok_disjoint v q Hv Hq) as [?|?]; [congruence|lia|lia].
Qed.

(** The page of the first process: [init], then zeros. *)
Lemma inituvm_run s d T q l init :
  aspace s d T ∅ (q :: l) -> Z.of_nat (length init) < PGSIZE ->
  exists s', inituvm d init (Z.of_nat (length init)) s = Ok tt s' /\ vm_step s s' /\
    aspace s' d T {[0 := q]} l /\ untouched (fun v => v = q \/ own d T v) s.(pmem) s'.(pmem) /\
    (forall i, 0 <= i < PGSIZE -> load8 s'.(pmem) (q + i) = u8 (default 0 (init !! Z.to_nat i))).
Proof.
  intros Ha Hl. destruct (aspace_add s d T ∅ q l 0 Ha) as (f & Ek & Hq & Hadd);
    [rewrite UPAGES_eq; lia|done|].
  destruct (Hadd (memset q 0 PGSIZE s.(pmem))) as (s2 & Em & Hst & Ha2 & Hu); [by apply untouched_memset|].
  change (0 * PGSIZE) with 0 in Em. rewrite insert_empty in Ha2.
  assert (~ own d T q) as Hno.
  { intros Ho. apply (vm_disjoint _ _ _ _ (as_inv _ _ _ _ _ Ha) q Ho). by left. }
  pose proof (untouched_put_bytes q init s2.(pmem) Hq ltac:(lia)) as Hput.
  exists (set_pmem (put_bytes q init s2.(pmem)) s2). split; [|split; [|split; [|split]]].
  - unfold inituvm. rewrite (kbind_Ok _ _ _ _ _ Ek).
    rewrite Z.geb_leb, (proj2 (Z.leb_gt _ _) Hl).
    unfold kmemset at 1, kmod at 1, kbind at 1. rewrite (kbind_Ok _ _ _ _ _ Em).
    unfold kmod. rewrite Nat2Z.id, firstn_all. reflexivity.
  - eapply vm_step_trans; [exact Hst|]. exists s2.(freelist), (put_bytes q init s2.(pmem)). by destruct s2.
  - apply (aspace_untouched (eq q) s2 d T {[0 := q]} l (put_bytes q init s2.(pmem)) Ha2 Hput).
    { intros v Hv E. apply Hno. rewrite E. exact Hv. }
    intros v Hv E. destruct (as_pages _ _ _ _ _ Ha2 0 q (lookup_singleton_eq 0 q)) as (_ & _ & Hn & _).
    apply Hn. rewrite E. exact Hv.
  - eapply untouched_trans; [apply (untouched_memset q 0); exact Hq| |intros v Hv; left; symmetry; exact Hv|].
    + eapply (untouched_trans (own d T) (eq q) (fun v => v = q \/ own d T v)); [exact Hu|exact Hput|intros v Hv; right; exact Hv|].
      intros v Hv. left. symmetry. exact Hv.
    + intros v Hv. exact Hv.
  - intros i Hi. cbn [pmem set_pmem]. destruct (init !! Z.to_nat i) as [c|] eqn:Ec; cbn [default].
    + rewrite <- (Z2Nat.id i) at 1 by lia. by apply load8_put_bytes.
    + apply lookup_ge_None in Ec. rewrite load8_put_bytes_frame by lia.
      rewrite (Hu q (q + i) Hq Hno) by lia. rewrite load8_memset by done. zcases; done.
Qed.

(** ** The first process *)

Lemma mod_head f s p rest :
  s.(ptable) = p :: rest -> mod_proc 0 f s = Ok tt (set_ptable (f p :: rest) s).
Proof. intros E. rewrite (mod_proc_run 0 f s p); rewrite E; done. Qed.

(** Run an update of the first slot. *)
Ltac mod_first := erewrite kbind_Ok; [|eapply mod_head; reflexivity].

Lemma allocproc_first s rest q l d T U :
  s.(ptable) = unused_proc :: rest -> s.(held) = [] -> s.(nextpid) = 1 -> aspace s d T U (q :: l) ->
  exists f p, let s' := set_ptable (p :: rest) (set_nextpid 2 (set_freelist f s)) in
    allocproc s = Ok (Some 0%nat) s' /\ aspace s' d T U l /\
    p.(p_pid) = 1 /\ p.(p_parent) = None /\ p.(p_kstack) = q /\ p.(p_eip) = forkret_addr.
Proof.
  intros Ep Eh En Ha. assert (forall lk, lk ∉ s.(held)) as Hfree by (intros; rewrite Eh; apply not_elem_of_nil).
  set (p1 := set_p_pid 1 (set_p_state EMBRYO unused_proc)).
  set (s1 := set_ptable (p1 :: rest) (set_nextpid 2 s)).
  destruct (aspace_pop s1 d T U q l) as (f & Ek & Ha'); [by apply (aspace_ext s)|].
  assert (q <> 0) as Hq0 by (destruct (as_inv _ _ _ _ _ Ha) as [_ [(_ & Hq & _) _] _ _]; by apply page_ok_nonzero).
  exists f, (set_p_priority 0 (set_p_rtime 0 (set_p_ctime (s32 s.(ticks))
    (set_p_eip forkret_addr (set_p_kstack q p1))))). cbv zeta. split; [|split; [by apply (aspace_ext (set_freelist f s1))|]].
  - unfold allocproc. rewrite (kbind_Ok _ _ _ _ _ (acquire_free LkPtable s (Hfree _))).
    unfold kget at 1, kbind at 1. cbn [ptable set_held]. rewrite Ep. cbn [list_find].
    rewrite decide_True by done. cbn beta iota.
    rewrite (kbind_Ok _ _ _ _ _ (mod_head _ (set_held (LkPtable :: s.(held)) s) unused_proc rest Ep)).
    unfold kget at 1, kbind at 1. cbn [nextpid set_ptable set_held]. rewrite En.
    mod_first. unfold kmod at 1, kbind at 1. change (s32 (1 + 1)) with 2.
    erewrite kbind_Ok; [|apply (release_top LkPtable s.(held)); reflexivity].
    match goal with |- kbind kalloc _ ?t = _ => replace t with s1 by (unfold s1; by destruct s) end.
    rewrite (kbind_Ok _ _ _ _ _ Ek). mod_first. rewrite (proj2 (Z.eqb_neq q 0) Hq0). mod_first.
    unfold proc_clockticks. rewrite kbind_assoc.
    erewrite kbind_Ok; [|apply (acquire_free LkTicks), Hfree].
    rewrite kbind_assoc. unfold kget at 1, kbind at 1. rewrite kbind_assoc.
    erewrite kbind_Ok; [|apply (release_top LkTicks s.(held)); reflexivity].
    unfold kret at 1, kbind at 1. do 3 mod_first. unfold kret. by f_equal.
  - cbn. done.
Qed.

(** The inode cache before any file is used. *)
Definition free_inode : inode := mk_inode 0 0 0 0 0 0 0 0 0 (replicate 13 0).

Lemma namei_root s rest :
  s.(icache) = free_inode :: rest -> LkIcache ∉ s.(held) -> Forall (fun i => i.(i_ref) = 0) rest ->
  namei [SLASH] s = Ok (Some 0%nat) (set_icache
    (set_i_flags 0 (set_i_ref 1 (set_i_inum ROOTINO (set_i_dev ROOTDEV free_inode))) :: rest) s).
Proof.
  intros Ei Hk Hr. unfold namei, namex. rewrite Z.eqb_refl.
  assert (list_find (hit ROOTDEV ROOTINO) s.(icache) = None) as Hn.
  { apply list_find_None. rewrite Ei. constructor; [by intros [? ?]|].
    eapply Forall_impl; [exact Hr|]. cbn beta. intros i E0 [Hp _]. rewrite E0 in Hp. lia. }
  rewrite kbind_assoc, (kbind_Ok _ _ _ _ _ (iget_miss ROOTDEV ROOTINO s 0 free_inode Hk Hn ltac:(by rewrite Ei))).
  rewrite Ei. reflexivity.
Qed.

(** What userinit needs of the state it starts from. *)
Record before_init (s : kstate) (rest : list proc) (irest : list inode) : Prop := {
  bi_ptable : s.(ptable) = unused_proc :: rest;
  bi_held : s.(held) = [];
  bi_nextpid : s.(nextpid) = 1;
  bi_icache : s.(icache) = free_inode :: irest;
  bi_irest : Forall (fun i => i.(i_ref) = 0) irest
}.

(** What it makes: process 0 with the program in its only page, beside the
    kernel's own page table [kd]. *)
Record first_process (s : kstate) (p : proc) (kd : Z) (Tk T : gmap Z Z) (q : Z) (l : list Z) : Prop := {
  fp_state : p.(p_state) = RUNNABLE;
  fp_pid : p.(p_pid) = 1;
  fp_parent : p.(p_parent) = None;
  fp_cwd : p.(p_cwd) = Some 0%nat;
  fp_eip : p.(p_eip) = forkret_addr;
  fp_tf : p.(p_tf) = init_tf;
  fp_sz : p.(p_sz) = PGSIZE;
  fp_space : aspace s p.(p_pgdir) T {[0 := q]} l;
  fp_kernel : aspace s kd Tk ∅ l;
  fp_apart v : own kd Tk v -> ~ own p.(p_pgdir) T v;
  fp_program i : 0 <= i < PGSIZE -> load8 s.(pmem) (q + i) = u8 (default 0 (initcode !! Z.to_nat i))
}.

Definition root_inode : inode := set_i_flags 0 (set_i_ref 1 (set_i_inum ROOTINO (set_i_dev ROOTDEV free_inode))).

Lemma userinit_first s rest irest kd Tk l :
  before_init s rest irest -> Z.of_nat (length initcode) < PGSIZE ->
  aspace s kd Tk ∅ l -> (15 <= length l)%nat ->
  exists f m p T q l', let s' := set_icache (root_inode :: irest) (set_ptable (p :: rest)
      (set_initproc (Some 0%nat) (set_nextpid 2 (set_freelist f (set_pmem m s))))) in
    userinit s = Ok tt s' /\ first_process s' p kd Tk T q l' /\ length l = (15 + length l')%nat.
Proof.
  intros [Ep Eh En Ei Hir] Hcode Ha Hl. destruct l as [|k l]; [cbn in Hl; lia|]. cbn [length] in Hl |- *.
  destruct (allocproc_first s rest k l kd Tk ∅ Ep Eh En Ha) as (f1 & p1 & E1 & Ha1 & Hpid & Hpar & Hks & Heip).
  set (s1 := set_ptable _ _) in *. set (s2 := set_initproc (Some 0%nat) s1).
  assert (aspace s2 kd Tk ∅ l) as Ha2 by (by apply (aspace_ext s1)).
  destruct (as_inv _ _ _ _ _ Ha2) as [_ Hf2 Hd2 Hk2].
  destruct (setupkvm_aspace s2 l Hf2 Hk2 ltac:(lia))
    as (d & T & s3 & l3 & E3 & Hd0 & (f3 & m3 & Es3) & Ha3 & [kk Hll] & Hlen3 & _ & Ho3 & Hu3).
  assert (aspace s3 kd Tk ∅ l3) as Hk3.
  { apply (aspace_frame (fun v => v ∈ l) s2 s3 kd Tk ∅ l l3); [done|by exists f3, m3|apply (as_inv _ _ _ _ _ Ha3)| |done|done].
    intros v Hv. rewrite Hll. set_solver. }
  set (p4 := set_p_pgdir d p1). set (s4 := set_ptable (p4 :: rest) s3).
  assert (E4 : mod_proc 0 (set_p_pgdir d) s3 = Ok tt s4) by (apply mod_head; by rewrite Es3).
  assert (aspace s4 d T ∅ l3) as Ha4 by (by apply (aspace_ext s3)).
  assert (aspace s4 kd Tk ∅ l3) as Hk4 by (by apply (aspace_ext s3)).
  destruct l3 as [|q l']; [cbn in Hlen3; lia|]. cbn [length] in Hlen3.
  destruct (inituvm_run s4 d T q l' initcode Ha4 Hcode) as (s5 & E5 & (f5 & m5 & Es5) & Ha5 & Hu5 & Hb5).
  assert (forall v, own kd Tk v -> v <> q /\ ~ own d T v) as Hap.
  { intros v Hv. split.
    - intros ->. destruct (as_inv _ _ _ _ _ Hk4) as [_ _ Hdis _]. apply (Hdis q Hv). by left.
    - intros Hv'. apply (Hd2 v Hv). by apply Ho3. }
  assert (aspace s5 kd Tk ∅ l') as Hk5.
  { apply (aspace_frame (fun v => v = q \/ own d T v) s4 s5 kd Tk ∅ (q :: l') l'); [done|by exists f5, m5|apply (as_inv _ _ _ _ _ Ha5)| |done|].
    - intros v Hv. by right.
    - intros v Hv [E|E]; destruct (Hap v Hv) as [Hn1 Hn2]; [exact (Hn1 E)|exact (Hn2 E)]. }
  set (p5 := copy_name (str "initcode") (set_p_tf init_tf (set_p_sz PGSIZE p4))).
  exists f5, m5, (set_p_state RUNNABLE (set_p_cwd (Some 0%nat) p5)), T, q, l'. cbv zeta. subst s3 s5. split; [|split].
  - unfold userinit. rewrite (kbind_Ok _ _ _ _ _ E1). unfold kmod at 1, kbind at 1. fold s2.
    unfold klift, kret at 1. unfold kbind at 1. rewrite (kbind_Ok _ _ _ _ _ E3), (kbind_Ok _ _ _ _ _ E4).
    rewrite (proj2 (Z.eqb_neq d 0) Hd0), (kbind_Ok _ _ _ _ _ E5). do 3 mod_first. fold p5.
    erewrite kbind_Ok; [|apply (namei_root _ irest); [exact Ei| |exact Hir]].
    2:{ change (LkIcache ∉ s.(held)). rewrite Eh. apply not_elem_of_nil. }
    mod_first. erewrite mod_head by reflexivity. reflexivity.
  - split; try done.
    + by apply (aspace_ext (set_freelist f5 (set_pmem m5 s4))).
    + by apply (aspace_ext (set_freelist f5 (set_pmem m5 s4))).
    + intros v Hv. by apply (Hap v Hv).
  - lia.
Qed.

(** ** The other processors *)

Lemma low_untouched W m m' :
  (forall b, 0x100000 <= b -> load8 m' b = load8 m b) -> untouched W m m'.
Proof. intros Hm v b [_ Hv] _ Hb. apply Hm. lia. Qed.

Lemma warm_reset_low addr m b : 0x100000 <= b -> load8 (Intr.warm_reset addr m) b = load8 m b.
Proof.
  intros Hb. unfold Intr.warm_reset, Intr.store16. change Intr.WRV with 0x467. rewrite !load8_store8.
  by rewrite !(proj2 (Z.eqb_neq _ _)) by lia.
Qed.

Lemma low_free s l f m :
  free_pages (set_freelist f s) l -> (forall b, 0x100000 <= b -> load8 m b = load8 s.(pmem) b) ->
  free_pages (set_freelist f (set_pmem m s)) l.
Proof.
  intros Hf Hm. apply (free_pages_untouched (fun _ => False) (set_freelist f s) m l Hf); [|by intros v Hv []].
  by apply low_untouched.
Qed.

Lemma start_others cs : forall s l,
  free_pages s l -> LkKmem ∉ s.(held) -> (length cs <= length l)%nat ->
  exists f m l', kfor cs (fun c =>
      let* me := kget (fun s => s.(cpuid)) in
      if Z.of_nat c =? me then kret tt else
      let* stack := kalloc in
      poke (BOOTCODE - 4) (u32 (stack + KSTACKSIZE)) ;;;
      poke (BOOTCODE - 8) mpmain_addr ;;;
      kmod (fun s => set_pmem (Intr.warm_reset BOOTCODE s.(pmem)) s)) s
    = Ok tt (set_freelist f (set_pmem m s)) /\
    free_pages (set_freelist f (set_pmem m s)) l' /\ (forall v, v ∈ l' -> v ∈ l) /\
    (forall b, 0x100000 <= b -> load8 m b = load8 s.(pmem) b).
Proof.
  induction cs as [|c cs IH]; intros s l Hf Hk Hl; cbn [kfor length] in *.
  { exists s.(freelist), s.(pmem), l. split; [by destruct s|]. split; [by destruct s|done]. }
  unfold kbind at 1. unfold kbind at 1, kget at 1. destruct (Z.of_nat c =? s.(cpuid)).
  { unfold kret at 1. apply IH; [done|done|lia]. }
  destruct l as [|q l]; [cbn in Hl; lia|]. cbn [length] in Hl.
  destruct (kalloc_free_pages s q l Hf Hk) as (f & Ek & Hf'). rewrite (kbind_Ok _ _ _ _ _ Ek).
  set (m1 := Intr.warm_reset BOOTCODE (store32 (BOOTCODE - 8) mpmain_addr
    (store32 (BOOTCODE - 4) (u32 (q + KSTACKSIZE)) s.(pmem)))).
  assert (forall b, 0x100000 <= b -> load8 m1 b = load8 s.(pmem) b) as Hm1.
  { intros b Hb. unfold m1. rewrite warm_reset_low by done.
    by rewrite !load8_store32_ne by (unfold BOOTCODE; lia). }
  destruct (IH (set_freelist f (set_pmem m1 s)) l) as (f' & m' & l' & E & Hf2 & Hin & Hm');
    [by apply low_free|done|lia|].
  exists f', m', l'. split; [|split; [|split]].
  - unfold poke, kmod, kbind. exact E.
  - exact Hf2.
  - intros v Hv. right. by apply Hin.
  - intros b Hb. rewrite Hm' by done. by apply Hm1.
Qed.

Lemma bootothers_run s l :
  free_pages s l -> LkKmem ∉ s.(held) -> (ncpu <= length l)%nat -> Z.of_nat (length bootother) <= 0x8000 ->
  exists f m l', bootothers s = Ok tt (set_freelist f (set_pmem m s)) /\
    free_pages (set_freelist f (set_pmem m s)) l' /\ (forall v, v ∈ l' -> v ∈ l) /\
    (forall b, 0x100000 <= b -> load8 m b = load8 s.(pmem) b).
Proof.
  intros Hf Hk Hn Hc. unfold bootothers, kmod at 1, kbind at 1.
  assert (forall b, 0x100000 <= b -> load8 (put_bytes BOOTCODE bootother s.(pmem)) b = load8 s.(pmem) b) as Hm0.
  { intros b Hb. apply load8_put_bytes_frame. unfold BOOTCODE. lia. }
  destruct (start_others (seq 0 ncpu) (set_pmem (put_bytes BOOTCODE bootother s.(pmem)) s) l)
    as (f & m & l' & E & Hf' & Hin & Hm); [|done|by rewrite length_seq|].
  { apply (free_pages_untouched (fun _ => False) s _ l Hf); [by apply low_untouched|by intros v Hv []]. }
  exists f, m, l'. split; [exact E|]. split; [exact Hf'|]. split; [done|].
  intros b Hb. rewrite Hm by done. by apply Hm0.
Qed.

(** The first process is not touched by what happens below 1 MB. *)
Lemma first_process_later s p kd Tk T q l f m l' s' :
  first_process s p kd Tk T q l -> free_pages (set_freelist f (set_pmem m s)) l' -> (forall v, v ∈ l' -> v ∈ l) ->
  (forall b, 0x100000 <= b -> load8 m b = load8 s.(pmem) b) ->
  s'.(pmem) = m -> s'.(freelist) = f -> s'.(held) = s.(held) -> first_process s' p kd Tk T q l'.
Proof.
  intros [H1 H2 H3 H4 H5 H6 H7 Hs Hk Hap Hprog] Hf Hin Hm Em Ef Eh.
  assert (forall d T U, aspace s d T U l -> aspace s' d T U l') as Hsp.
  { intros d T0 U Ha. apply (aspace_ext (set_freelist f (set_pmem m s))); [done|done|done|].
    apply (aspace_frame (fun _ => False) s _ d T0 U l l'); [done|by exists f, m|done|done|by apply low_untouched|].
    by intros v Hv []. }
  split; try done; [by apply Hsp|by apply Hsp|].
  intros i Hi. destruct (as_pages _ _ _ _ _ Hs 0 q (lookup_singleton_eq 0 q)) as (_ & [_ Hq] & _).
  rewrite Em, Hm by lia. by apply Hprog.
Qed.

(** ** The whole start *)

Lemma kinit_pages s :
  1024 * 1024 <= kend -> kend + 64 * PGSIZE <= PHYSTOP -> s.(freelist) = 0 -> LkKmem ∉ s.(held) ->
  exists f m l, kinit kend s = Ok tt (set_freelist f (set_pmem m s)) /\
    free_pages (set_freelist f (set_pmem m s)) l /\ (63 <= length l)%nat.
Proof.
  intros Hlo Hhi H0' Hk. unfold PGSIZE, PHYSTOP in Hhi.
  destruct (PGROUNDUP_bounds kend) as [Hm Hb]; [lia|unfold PGSIZE; lia|]. unfold kinit.
  set (p := PGROUNDUP kend) in *. unfold PGSIZE in Hb.
  assert (63 <= (PHYSTOP - p) / PGSIZE <= 4096) as Hn.
  { unfold PHYSTOP, PGSIZE. split; [apply Z.div_le_lower_bound; lia|apply Z.div_le_upper_bound; lia]. }
  destruct (kinit_loop_ok (Z.to_nat (PHYSTOP / PGSIZE) + 1) p s []) as (s' & E & Hs').
  - exact Hm.
  - unfold PHYSTOP. lia.
  - change (Z.of_nat (Z.to_nat (PHYSTOP / PGSIZE) + 1)) with 4097. lia.
  - exact Hk.
  - split; [exact H0'|constructor].
  - intros v []%not_elem_of_nil.
  - destruct (kinit_loop_step _ _ _ _ E) as (f & m & ->).
    exists f, m, (pages_from (Z.to_nat ((PHYSTOP - p) / PGSIZE)) p []). split; [exact E|]. split; [exact Hs'|].
    rewrite length_pages_from. cbn [length]. lia.
Qed.

(** The kernel's variables as the loader leaves them. *)
Record boot_state (s : kstate) : Prop := {
  bs_held : s.(held) = [];
  bs_ptable : s.(ptable) = replicate NPROC unused_proc;
  bs_curproc : s.(curproc) = None;
  bs_nextpid : s.(nextpid) = 1;
  bs_freelist : s.(freelist) = 0;
  bs_icache : s.(icache) = replicate NINODE free_inode;
  bs_buffers : length s.(bufs) = S NBUF;
  bs_bufs b bp : s.(bufs) !! b = Some bp -> bp.(b_flags) = 0;
  bs_queue : s.(idequeue) = None;
  bs_disk : disk_wf s.(disk);
  bs_con : con_ok s.(con)
}.

Lemma first_procs_ok s p n :
  s.(ptable) = p :: replicate n unused_proc -> s.(nextpid) = 2 -> s.(initproc) = Some 0%nat ->
  p.(p_pid) = 1 -> p.(p_parent) = None -> p.(p_state) = RUNNABLE -> procs_ok s.
Proof.
  intros Et En Ei Hpid Hpar Hst.
  assert (forall i q, s.(ptable) !! i = Some q -> q.(p_state) <> UNUSED -> i = 0%nat /\ q = p) as Hone.
  { intros i q Hq Hu. rewrite Et in Hq. destruct i as [|i]; cbn in Hq; [by simplify_eq|].
    apply lookup_replicate in Hq as [-> _]. by destruct Hu. }
  split.
  - lia.
  - intros i q Hq Hu. destruct (Hone i q Hq Hu) as [_ ->]. lia.
  - intros i j q r Hq Hr Hu Hv _. destruct (Hone i q Hq Hu), (Hone j r Hr Hv). congruence.
  - intros i q k Hq [Hu _] Hk. destruct (Hone i q Hq Hu) as [_ ->]. congruence.
  - intros k Hk. rewrite Ei in Hk. injection Hk as <-. exists p. rewrite Et. split; [done|].
    rewrite Hst. unfold live. tauto.
Qed.

Lemma root_icache_inv n : icache_inv (root_inode :: replicate n free_inode).
Proof.
  assert (forall a i, (root_inode :: replicate n free_inode) !! a = Some i ->
    (a = 0%nat /\ i = root_inode) \/ i = free_inode) as Hc.
  { intros [|a] i Hi; cbn in Hi; [left; by simplify_eq|]. right. by apply lookup_replicate in Hi as [-> _]. }
  split.
  - intros a i [[_ ->]| ->]%Hc; cbn; lia.
  - intros a b i j [[-> ->]| ->]%Hc [[-> ->]| ->]%Hc; cbn; try done; lia.
Qed.

Context (Hlo : 1024 * 1024 <= kend) (Hhi : kend + 64 * PGSIZE <= PHYSTOP) (Hcpus : (ncpu <= 8)%nat).
Context (Hcode : Z.of_nat (length bootother) <= 0x8000) (Hinit : Z.of_nat (length initcode) < PGSIZE).
Context (Hprobe : existsb (fun i => negb (u8 (probe i) =? 0)) (seq 0 1000) = true).

Lemma uartinit_con s : con_ok s.(con) -> exists k, uartinit s = Ok tt (set_con k s) /\ con_ok k.
Proof.
  intros Hk. unfold uartinit. destruct (u8 lsr =? 0xFF).
  - exists s.(con). split; [by destruct s|done].
  - eexists. split; [reflexivity|]. exact Hk.
Qed.

(** The first half: memory, the kernel's page table, buffers and disks. *)
Lemma tables_ready s :
  boot_state s ->
  exists s1 s2 s' Tk l, (consoleinit ;;; uartinit ;;; kinit kend) s = Ok tt s1 /\ (exists k, jkstack s1 = Ok k s2) /\
    (let* c := kget (fun s => s.(cpuid)) in
     cprintf ([10] ++ str "cpu%d: starting xv6" ++ [10; 10]) [AInt c] ;;;
     kvmalloc ;;; binit ;;; ideinit) s2 = Ok tt s' /\
    before_init s' (replicate 63 unused_proc) (replicate 49 free_inode) /\
    aspace s' s'.(kpgdir) Tk ∅ l /\ (49 <= length l)%nat /\ bcache_inv [] s' /\
    s'.(curproc) = None /\ con_ok s'.(con).
Proof.
  intros [Bh Bp Bc Bn Bf Bi Bb Bb' Bq Bd Bk].
  assert (forall lk, lk ∉ s.(held)) as Hfree by (intros; rewrite Bh; apply not_elem_of_nil).
  destruct (uartinit_con (set_con (set_c_locking true s.(con)) s) Bk) as (ku & Eu & Hku).
  set (s0 := set_con ku s).
  destruct (kinit_pages s0 Hlo Hhi Bf (Hfree _)) as (f & m & l & E0 & Hf & Hl).
  destruct l as [|k l]; [cbn in Hl; lia|]. cbn [length] in Hl.
  set (s1 := set_freelist f (set_pmem m s0)) in *.
  destruct (kalloc_free_pages s1 k l Hf (Hfree _)) as (f1 & E1 & Hf1).
  assert (page_ok k) as Hk by (destruct Hf as [(_ & ? & _) _]; done).
  set (s2 := set_freelist f1 s1) in *.
  destruct (cprintf_ok ([10] ++ str "cpu%d: starting xv6" ++ [10; 10]) [AInt s2.(cpuid)] _ s2 eq_refl Hku (Hfree _))
    as (kc & E2 & crt & pos & Ekc & Hkc).
  set (s3 := set_con kc s2) in *.
  destruct (setupkvm_aspace s3 l Hf1 (Hfree _) ltac:(lia)) as (d & Tk & s4 & l4 & E4 & _ & (f4 & m4 & Es4) & Ha & _ & Hl4 & _).
  set (s5 := set_kpgdir d s4).
  destruct (binit_run s5) as (s6 & E6 & Hb6); [unfold s5; rewrite Es4; exact Bb|unfold s5; rewrite Es4; exact Bb'|].
  pose proof Hb6 as (t & _ & _ & _ & Es6 & _).
  exists s1, s2, (set_havedisk1 true s6), Tk, l4. split; [|split; [|split]].
  - unfold consoleinit, kmod at 1, kbind at 1. rewrite (kbind_Ok _ _ _ _ _ Eu). exact E0.
  - exists (k + PGSIZE). unfold jkstack. rewrite (kbind_Ok _ _ _ _ _ E1).
    by rewrite (proj2 (Z.eqb_neq k 0)) by (by apply page_ok_nonzero).
  - unfold kget at 1, kbind at 1. rewrite (kbind_Ok _ _ _ _ _ E2). unfold kvmalloc. rewrite kbind_assoc.
    rewrite (kbind_Ok _ _ _ _ _ E4). unfold kmod at 1, kbind at 1. rewrite (kbind_Ok _ _ _ _ _ E6).
    unfold ideinit. by rewrite Hprobe.
  - subst s6. split; [|split; [|split; [lia|split; [|split]]]].
    + split; cbn [ptable held nextpid icache set_havedisk1 set_bufs set_kpgdir s5]; rewrite ?Es4;
        [exact Bp|exact Bh|exact Bn|exact Bi|by apply Forall_replicate].
    + apply (aspace_ext s4); [done|done|done|exact Ha].
    + eapply binit_upto_cache; [exact Hb6|reflexivity|cbn; rewrite Es4; exact Bq|reflexivity|cbn; rewrite Es4; exact Bd].
    + cbn. rewrite Es4. exact Bc.
    + cbn. rewrite Es4. apply Hkc, Hku.
Qed.

(** ** Properties *)

(** C9: Start-up establishes the invariants of the kernel.  From the zeroed
    variables the loader leaves, main ends at the call of scheduler with no
    lock held, the kernel's page table in use, and one process: process 0 with
    pid 1, runnable, in the root directory, whose address space is one page
    that holds the program initcode, disjoint from the kernel's page table and
    from the free pages.  The invariants that the rest of the development keeps
    then hold: of the process table, the buffer cache, the inode cache, the
    address spaces and the console. *)
Theorem boot_starts_init (s : kstate) :
  boot_state s ->
  exists s' p Tk T q l, main s = Ok tt s' /\ s'.(ptable) = p :: replicate 63 unused_proc /\
    first_process s' p s'.(kpgdir) Tk T q l /\ s'.(cr3) = s'.(kpgdir) /\ s'.(held) = [] /\
    procs_ok s' /\ bcache_inv [] s' /\ icache_inv s'.(icache) /\ con_ok s'.(con).
Proof.
  intros Hs. destruct (tables_ready s Hs) as (s1 & s2 & s3 & Tk & l & E1 & (k & E2) & E3 & Hbi & Ha & Hl & Hc & Hcur & Hcon).
  destruct (userinit_first s3 _ _ _ Tk l Hbi Hinit Ha ltac:(lia)) as (f & m & p & T & q & l' & E4 & Hp & Hl').
  set (s4 := set_icache _ _) in *. destruct Hbi as [Ep Eh En Ei Hir].
  assert (forall lk, lk ∉ s4.(held)) as Hfree by (intros; change s4.(held) with s3.(held); rewrite Eh; apply not_elem_of_nil).
  destruct (bootothers_run s4 l' (vm_free _ _ _ _ (as_inv _ _ _ _ _ (fp_kernel _ _ _ _ _ _ _ Hp))) (Hfree _))
    as (f5 & m5 & l5 & E5 & Hf5 & Hin5 & Hm5); [lia|done|].
  set (s5 := set_freelist f5 (set_pmem m5 s4)) in *. set (s6 := set_cr3 s5.(kpgdir) s5).
  destruct (cprintf_ok (str "cpu%d: starting" ++ [10]) [AInt s6.(cpuid)] _ s6 eq_refl Hcon (Hfree _))
    as (kc & E6 & crt & pos & Ekc & Hkc).
  exists (set_con kc s6), p, Tk, T, q, l5. split; [|split; [reflexivity|split; [|split; [reflexivity|split; [exact Eh|]]]]].
  - apply kbind_Ok_inv in E1 as (u1 & t1 & E1a & E1b). apply kbind_Ok_inv in E1b as (u0 & t0 & E1b & E1c).
    unfold main. rewrite (kbind_Ok _ _ _ _ _ E1a), (kbind_Ok _ _ _ _ _ E1b), (kbind_Ok _ _ _ _ _ E1c), (kbind_Ok _ _ _ _ _ E2).
    apply kbind_Ok_inv in E3 as (c & t2 & E3a & E3). apply kbind_Ok_inv in E3 as (u2 & t3 & E3b & E3).
    apply kbind_Ok_inv in E3 as (u3 & t4 & E3c & E3). apply kbind_Ok_inv in E3 as (u4 & t5 & E3d & E3).
    unfold mainc. rewrite (kbind_Ok _ _ _ _ _ E3a), (kbind_Ok _ _ _ _ _ E3b), (kbind_Ok _ _ _ _ _ E3c), (kbind_Ok _ _ _ _ _ E3d),
      (kbind_Ok _ _ _ _ _ E3), (kbind_Ok _ _ _ _ _ E4), (kbind_Ok _ _ _ _ _ E5).
    unfold mpmain, switchkvm, kmod at 1, kbind at 1. fold s6. unfold kget, kbind. exact E6.
  - by apply (first_process_later s4 _ _ _ _ _ l' f5 m5 l5 _ Hp Hf5 Hin5 Hm5).
  - split; [|split; [|split]].
    + apply (first_procs_ok _ p 63); try done; apply Hp.
    + by apply (bcache_frame [] s3).
    + apply (root_icache_inv 49).
    + by apply Hkc.
Qed.

End main.

Definition zeroed : kstate :=
  set_ptable (replicate NPROC unused_proc) (set_icache (replicate NINODE free_inode)
    (set_havedisk1 false (boot_bufs ∅))).

Lemma boot_starts_init_witness :
  exists s' p, @main (Build_Image 0 [0x90; 0x90]) 0x180000 [0xFA] 0x100020 2 (fun _ => 0x50) 0x60 zeroed = Ok tt s' /\
    s'.(ptable) = p :: replicate 63 unused_proc /\ p.(p_state) = RUNNABLE.
Proof.
  destruct (@boot_starts_init (Build_Image 0 [0x90; 0x90]) 0x180000 [0xFA] 0x100020 2 (fun _ => 0x50) 0x60)
    with (s := zeroed) as (s' & p & Tk & T & q & l & E & Et & Hp & _).
  - vm_compute. discriminate.
  - vm_compute. discriminate.
  - lia.
  - vm_compute. discriminate.
  - vm_compute. reflexivity.
  - reflexivity.
  - split; try reflexivity.
    + intros b bp Hb. apply lookup_replicate in Hb as [-> _]. reflexivity.
    + exact disk_wf_empty.
    + vm_compute. split; [reflexivity|]. split; [reflexivity|]. split; [discriminate|reflexivity].
  - exists s', p. split; [exact E|]. split; [exact Et|]. apply Hp.
Defined.
