(* ===== verification/Seg.v ===== *)
(** Segment and interrupt descriptors: the descriptor formats of mmu.h, ksegment
    and the task-state part of switchuvm (vm.c), tvinit (trap.c).

    A descriptor is a record of the bit fields of the C struct; the addresses
    of per-CPU data and of the entry points in vectors.S are parameters.  The
    functions at the end of the first section are how the processor reads a
    descriptor. *)

From S2P Require Import Prelude CString State Proc Syscall Trap.

Module Seg.

(** ** mmu.h *)

Definition STA_X : Z := 0x8.
Definition STA_W : Z := 0x2.
Definition STA_R : Z := 0x2.
Definition STS_T32A : Z := 0x9.
Definition STS_IG32 : Z := 0xE.
Definition STS_TG32 : Z := 0xF.

Record segdesc := mk_segdesc {
  lim_15_0 : Z; base_15_0 : Z; base_23_16 : Z; sd_type : Z; sd_s : Z; sd_dpl : Z; sd_p : Z;
  lim_19_16 : Z; sd_avl : Z; sd_rsv1 : Z; sd_db : Z; sd_g : Z; base_31_24 : Z }.

Definition SEG (type base lim dpl : Z) : segdesc :=
  mk_segdesc (Z.land (Z.shiftr lim 12) 0xffff) (Z.land (u32 base) 0xffff)
    (Z.land (Z.shiftr (u32 base) 16) 0xff) type 1 dpl 1
    (Z.shiftr (u32 lim) 28) 0 0 1 1 (Z.shiftr (u32 base) 24).

(** The fields of width 4 and 8 cut what does not fit. *)
Definition SEG16 (type base lim dpl : Z) : segdesc :=
  mk_segdesc (Z.land lim 0xffff) (Z.land (u32 base) 0xffff)
    (Z.land (Z.shiftr (u32 base) 16) 0xff) type 1 dpl 1
    (Z.land (Z.shiftr (u32 lim) 16) 0xf) 0 0 1 0 (Z.shiftr (u32 base) 24).

Record gatedesc := mk_gatedesc {
  off_15_0 : Z; gd_cs : Z; gd_args : Z; gd_rsv1 : Z; gd_type : Z; gd_s : Z; gd_dpl : Z; gd_p : Z;
  off_31_16 : Z }.

Definition SETGATE (istrap : bool) (sel off d : Z) : gatedesc :=
  mk_gatedesc (Z.land (u32 off) 0xffff) sel 0 0 (if istrap then STS_TG32 else STS_IG32) 0 d 1
    (Z.shiftr (u32 off) 16).

(** What the processor makes of a descriptor. *)
Definition seg_base (d : segdesc) : Z :=
  d.(base_15_0) + Z.shiftl d.(base_23_16) 16 + Z.shiftl d.(base_31_24) 24.
Definition seg_limit (d : segdesc) : Z :=
  let l := d.(lim_15_0) + Z.shiftl d.(lim_19_16) 16 in
  if d.(sd_g) =? 1 then Z.shiftl l 12 + 0xfff else l.
Definition gate_target (g : gatedesc) : Z := g.(off_15_0) + Z.shiftl g.(off_31_16) 16.
(** May code of privilege [cpl] use the gate in an int instruction? *)
Definition gate_callable (cpl : Z) (g : gatedesc) : bool := (g.(gd_p) =? 1) && (cpl <=? g.(gd_dpl)).
(** Does the gate turn interrupts off? *)
Definition gate_masks (g : gatedesc) : bool := g.(gd_type) =? STS_IG32.

(** ** vm.c *)

Definition SEG_KCODE : Z := 1.
Definition SEG_KDATA : Z := 2.
Definition SEG_KCPU : Z := 3.
Definition SEG_TSS : Z := 6.
Definition NSEGS : nat := 7.
(** [sizeof(struct taskstate)]. *)
Definition TS_SIZE : Z := 104.

(** The descriptor table and the fields of the task state that are used. *)
Record segs := mk_segs { gdt : list segdesc; ts_ss0 : Z; ts_esp0 : Z }.
Definition set_gdt (i : Z) (d : segdesc) (c : segs) : segs :=
  mk_segs (<[Z.to_nat i := d]> c.(gdt)) c.(ts_ss0) c.(ts_esp0).

(** [cpu_addr] is [&c->cpu]; the loads of GDTR and %gs are left out. *)
Definition ksegment (cpu_addr : Z) (c : segs) : segs :=
  let c := set_gdt SEG_KCODE (SEG (Z.lor STA_X STA_R) 0 0xffffffff 0) c in
  let c := set_gdt SEG_KDATA (SEG STA_W 0 0xffffffff 0) c in
  let c := set_gdt SEG_UCODE (SEG (Z.lor STA_X STA_R) 0 0xffffffff DPL_USER) c in
  let c := set_gdt SEG_UDATA (SEG STA_W 0 0xffffffff DPL_USER) c in
  set_gdt SEG_KCPU (SEG STA_W cpu_addr 8 0) c.

Definition set_sd_s (v : Z) (d : segdesc) : segdesc :=
  mk_segdesc d.(lim_15_0) d.(base_15_0) d.(base_23_16) d.(sd_type) v d.(sd_dpl) d.(sd_p)
    d.(lim_19_16) d.(sd_avl) d.(sd_rsv1) d.(sd_db) d.(sd_g) d.(base_31_24).

(** The task state of switchuvm, for the running process' kernel stack. *)
Definition switch_tss (ts_addr kstack : Z) (c : segs) : segs :=
  let c := set_gdt SEG_TSS (set_sd_s 0 (SEG16 STS_T32A ts_addr (TS_SIZE - 1) 0)) c in
  mk_segs c.(gdt) (Z.shiftl SEG_KDATA 3) (u32 (kstack + KSTACKSIZE)).

(** ** trap.c *)

Definition tvinit (vectors : nat -> Z) : list gatedesc :=
  let idt := (fun i => SETGATE false (Z.shiftl SEG_KCODE 3) (vectors i) 0) <$> seq 0 256 in
  <[Z.to_nat T_SYSCALL := SETGATE true (Z.shiftl SEG_KCODE 3) (vectors (Z.to_nat T_SYSCALL)) DPL_USER]> idt.

(** ** Lemmas *)

Lemma low16 x : Z.land x 0xffff = x mod 2 ^ 16.
Proof. change 0xffff with (Z.ones 16). by rewrite Z.land_ones. Qed.
Lemma low8 x : Z.land x 0xff = x mod 2 ^ 8.
Proof. change 0xff with (Z.ones 8). by rewrite Z.land_ones. Qed.
Lemma low4 x : Z.land x 0xf = x mod 2 ^ 4.
Proof. change 0xf with (Z.ones 4). by rewrite Z.land_ones. Qed.

Ltac bitfields :=
  rewrite ?low16, ?low8, ?low4, ?Z.shiftr_div_pow2, ?Z.shiftl_mul_pow2 by lia;
  Z.to_euclidean_division_equations; lia.

Lemma SEG_base t base lim dpl : 0 <= base < 2 ^ 32 -> seg_base (SEG t base lim dpl) = base.
Proof. intros H. unfold seg_base, SEG. cbn. rewrite (u32_small base) by done. bitfields. Qed.

(** A limit is rounded up to the end of its 4 KB unit. *)
Lemma SEG_limit t base lim dpl :
  0 <= lim < 2 ^ 32 -> seg_limit (SEG t base lim dpl) = lim / 4096 * 4096 + 4095.
Proof. intros H. unfold seg_limit, SEG. cbn. rewrite (u32_small lim) by done. bitfields. Qed.

Lemma SEG16_base t base lim dpl : 0 <= base < 2 ^ 32 -> seg_base (SEG16 t base lim dpl) = base.
Proof. intros H. unfold seg_base, SEG16. cbn. rewrite (u32_small base) by done. bitfields. Qed.

Lemma SEG16_limit t base lim dpl : 0 <= lim < 2 ^ 20 -> seg_limit (SEG16 t base lim dpl) = lim.
Proof. intros H. unfold seg_limit, SEG16. cbn. rewrite (u32_small lim) by lia. bitfields. Qed.

Lemma SETGATE_target b sel off d : 0 <= off < 2 ^ 32 -> gate_target (SETGATE b sel off d) = off.
Proof. intros H. unfold gate_target, SETGATE. cbn. rewrite (u32_small off) by done. bitfields. Qed.

(** ** Properties *)

(** The table of interrupt gates: entry [i] leads to vector [i] in the kernel's
    code segment; user code can call only the gate for system calls, which is
    also the only one that leaves interrupts on. *)
Theorem tvinit_gates (vectors : nat -> Z) (i : nat) :
  (forall k, 0 <= vectors k < 2 ^ 32) -> (i < 256)%nat ->
  exists g, tvinit vectors !! i = Some g /\ gate_target g = vectors i /\
    g.(gd_cs) = Z.shiftl SEG_KCODE 3 /\ gate_callable 0 g = true /\
    gate_callable DPL_USER g = (Z.of_nat i =? T_SYSCALL) /\ gate_masks g = negb (Z.of_nat i =? T_SYSCALL).
Proof.
  intros Hv Hi. unfold tvinit.
  destruct (decide (i = Z.to_nat T_SYSCALL)) as [->|Hn].
  - eexists. split; [apply list_lookup_insert_eq; rewrite length_fmap, length_seq; vm_compute; lia|].
    split; [by apply SETGATE_target|]. by vm_compute.
  - rewrite list_lookup_insert_ne by done. rewrite list_lookup_fmap, lookup_seq_lt by done. cbn [fmap option_fmap option_map].
    eexists. split; [reflexivity|]. split; [by apply SETGATE_target|].
    rewrite (proj2 (Z.eqb_neq (Z.of_nat i) T_SYSCALL)) by (unfold T_SYSCALL in *; lia). done.
Qed.

(** ksegment gives the kernel and user programs flat segments over the whole
    address space, with the privilege of each, and a segment at the CPU's own
    variables that is 4 KB long. *)
Theorem ksegment_flat (cpu_addr : Z) (c : segs) :
  0 <= cpu_addr < 2 ^ 32 -> length c.(gdt) = NSEGS ->
  forall i, i ∈ [SEG_KCODE; SEG_KDATA; SEG_UCODE; SEG_UDATA] ->
  exists d, (ksegment cpu_addr c).(gdt) !! Z.to_nat i = Some d /\ seg_base d = 0 /\ seg_limit d = 2 ^ 32 - 1 /\
    d.(sd_dpl) = (if bool_decide (i = SEG_UCODE \/ i = SEG_UDATA) then DPL_USER else 0).
Proof.
  intros Hc Hl i Hi. destruct c as [g ss esp]. cbn in Hl. unfold NSEGS in Hl.
  destruct g as [|g0 [|g1 [|g2 [|g3 [|g4 [|g5 [|g6 [|]]]]]]]]; try discriminate Hl.
  rewrite !elem_of_cons in Hi. destruct Hi as [->|[->|[->|[->|[]%not_elem_of_nil]]]]; eexists; (split; [reflexivity|]); by vm_compute.
Qed.

Theorem ksegment_cpu (cpu_addr : Z) (c : segs) :
  0 <= cpu_addr < 2 ^ 32 -> length c.(gdt) = NSEGS ->
  exists d, (ksegment cpu_addr c).(gdt) !! Z.to_nat SEG_KCPU = Some d /\
    seg_base d = cpu_addr /\ seg_limit d = 4095 /\ d.(sd_dpl) = 0.
Proof.
  intros Hc Hl. eexists. split.
  - apply list_lookup_insert_eq. cbn. rewrite !length_insert, Hl. vm_compute. lia.
  - split; [by apply SEG_base|]. by split; [apply SEG_limit|].
Qed.

(** While a process runs, a trap from user mode enters the kernel on the top of
    the process' kernel stack, with the kernel's data segment. *)
Theorem switch_tss_stack (ts_addr kstack : Z) (c : segs) :
  0 <= ts_addr < 2 ^ 32 -> 0 <= kstack < PHYSTOP -> length c.(gdt) = NSEGS ->
  let c' := switch_tss ts_addr kstack c in
  c'.(ts_esp0) = kstack + KSTACKSIZE /\ c'.(ts_ss0) = Z.shiftl SEG_KDATA 3 /\
  exists d, c'.(gdt) !! Z.to_nat SEG_TSS = Some d /\ seg_base d = ts_addr /\ seg_limit d = TS_SIZE - 1 /\ d.(sd_s) = 0.
Proof.
  intros Ht Hk Hl. cbv zeta. split; [|split; [reflexivity|]].
  - cbn. apply u32_small. unfold KSTACKSIZE, PHYSTOP in *. lia.
  - eexists. split; [apply list_lookup_insert_eq; rewrite Hl; vm_compute; lia|].
    split; [by apply (SEG16_base STS_T32A)|]. by split; [apply (SEG16_limit STS_T32A)|].
Qed.

End Seg.
